(* ===== verification/_CoqProject ===== *)
-Q . S2P
Prelude.v
Sha256.v
PyStr.v
Json.v
JsonCodec.v
Dicts.v
Base64.v
Clock.v
Ordering.v
Semver.v
Regex.v
Db.v
Dependencies.v
DependencyProps.v
Models.v
AccessControl.v
AccessSpec.v
AccessProps.v
NamespaceOwners.v
RegistryLog.v
RegistryProps.v
Superadmin.v
Identity.v
Stores.v
RolesOrgs.v
Gates.v
Signing.v
SourceGates.v
InstallGuards.v
ReportReceipts.v
TokenClaims.v
ModelRouter.v
Tasks.v
BindingAllowlist.v
MalwareScan.v
Catalog.v
CapGuardPolicy.v
Quarantine.v
Promotions.v
Reviews.v
ReviewProps.v
SigningProps.v
PromotionProps.v
Lifecycle.v
BreakGlass.v
IdentityProps.v
StoreProps.v
QuarantineProps.v
TaskProps.v
Sessions.v
OAuthFlow.v
SessionProps.v
LoginProps.v
Scim.v
ScimProps.v
Manifest.v
VaultPlacement.v
InstallPolicy.v
CatalogWrites.v
Ingest.v
ManifestProps.v
CatalogProps.v
IngestProps.v
Approvals.v
ApprovalProps.v
CapguardApi.v
Drafts.v
DraftProps.v
AuthorityKeys.v
AuthorityProps.v
IsoDates.v
Serving.v
ServingProps.v
Bundles.v
Delegations.v
BundleProps.v
Router.v
RouterProps.v
