(* ===== verification/Prelude.v ===== *)
(** * Verification of the ASG Capability Mesh (capmesh)

    capmesh is a registry of agent capabilities: a SQLite database, a catalog
    of capability rows, identities with roles, and handlers that decide access,
    share, review, promote and retire capabilities.  This library models the
    handlers that carry those decisions, over an explicit database, and proves
    what they guarantee.

    ** How the program is modelled

    - Effects.  A handler is an [Op A] (Db.v): a function from a [World] to an
      outcome (a value or one of the Python exceptions the code raises) and the
      world it leaves.  The world holds the tables as the connection sees them
      ([w_db]), the tables as last committed ([w_disk]), the clock, a supply of
      fresh identifiers, the per-process organization cache and the files that
      the signing and review code reads and writes.  An exception keeps the
      world, as Python does: an uncommitted statement stays on the connection.
    - Tables.  One Record per table the handlers use, with the columns of its
      CREATE TABLE statement; a table is the list of its rows in rowid order.
      SELECT, INSERT, INSERT OR IGNORE, upsert, UPDATE and DELETE are the
      combinators of Db.v, with the UNIQUE constraints written as clash
      predicates per table.  Equal sort keys keep rowid order.
    - The environment.  [Runtime] supplies the environment variables and the
      random identifiers, [Machine] the operating system's paths and errors and
      the Ed25519 and PEM functions of the cryptography package, [UnicodeData]
      the tables of unicodedata, [GateRunner] the optional gate runner, whose
      instance in the program is the review of Reviews.v, [Gateway] what the
      model gateway answers, [Jwks] the key server and the JWT library,
      [Secrets] the random texts of the secrets module, [Provider] what the
      login provider answers, [VectorStore] whether a vector is written, [Host]
      the umask and the lines of difflib's differences, [AuthorityHost] the
      host name, the owner of a file and the PEM of public keys.  The handler
      of a task, the hook after an ingest, and the search, the coverage report
      and the system capabilities behind the router ([Outside]) are any code.
    - Values.  Strings are UTF-8 byte strings; JSON values are [json] (Json.v),
      printed and parsed as the json module does, floats as their lexemes;
      instants are microseconds since the epoch, printed by [utc_text].
      SHA-256 is computed (Sha256.v).

    ** Files and the code they model

    - Prelude, PyStr, Json, JsonCodec, Sha256, Clock: the monad, the proof
      tools, and what the code uses of Python's str, json, hashlib, datetime.
    - Db: the tables (governance.py, index.py, capguard.py schemas) and the
      statements.  Models: models.py.
    - AccessControl, AccessSpec, AccessProps: access_control.py; the
      specification of a decision; the theorems.
    - RegistryLog, RegistryProps: registry_log.py and governance.audit_event.
    - Superadmin, Identity, IdentityProps: the superadmin part of
      install_policy.py, node_role.py, and the tenant and identity provisioning
      of governance.py.
    - Stores, RolesOrgs, StoreProps: stores.py, roles_orgs.py.
    - Gates: risk_policy.py, injection_allowlist.py, prompt_injection.py.
    - Signing, SigningProps: signing.py, provenance.py, audit.state_dir.
    - SourceGates, Reviews, ReviewProps: review_capability of lifecycle.py and
      the gates it runs.
    - Catalog: get_capability and the catalog generation of index.py, slugs of
      manifest.py.  Promotions, PromotionProps: promotions.py.
    - Lifecycle: lifecycle_transitions.py.  BreakGlass: break_glass.py.
    - Ordering, Semver: comparison combinators; semver_policy.py.
    - Dependencies, DependencyProps: dependency_graph.py.
    - Regex, MalwareScan: the fragment of the re module that is used, with a
      backtracking matcher; malware_scan.py.
    - CapGuardPolicy: cap_guard.py.  Quarantine, QuarantineProps: capguard.py.
    - ModelRouter: model_router.py.  Tasks, TaskProps: task_runner.py and
      task_dispatcher.py.  BindingAllowlist: signed_allowlist.py.
    - NamespaceOwners: namespace_owners.py.  InstallGuards: install_guards.py,
      with the path resolution of pathlib.  ReportReceipts: report_receipts.py.
    - Dicts, Base64: laws of Python dictionaries and of base64.  TokenClaims:
      token_validation.py, oauth_pkce.py and the identity tokens of tokens.py.
    - Sessions, OAuthFlow, SessionProps, LoginProps: the bearer sessions and the
      OAuth logins of tokens.py, entra_groups.py, and their server handlers.
    - Scim, ScimProps: scim.py and its server handlers.
    - Manifest, ManifestProps: manifest.py.  VaultPlacement: vault_placement.py.
      InstallPolicy: the admission guards of install_policy.py.
    - CatalogWrites, CatalogProps: upsert_capability and the moves of index.py.
      Ingest, IngestProps: ingest_index of index.py, from the roots to the
      scans after the commit.
    - Approvals, ApprovalProps: the batches, the approval of a whole catalog,
      the promotion gates, the status and the verification of lifecycle.py.
    - CapguardApi: capguard_api.py.  Drafts, DraftProps: the drafts and
      current_user of governance.py.
    - AuthorityKeys, AuthorityProps: authority_keys.py.
    - IsoDates: datetime.fromisoformat.  Serving, ServingProps: auth.py,
      audit.py, list_capabilities of index.py, and cap.load, cap.list and
      cap.describe of router.py.
    - Bundles, Delegations, BundleProps: the capability bundles of router.py
      with their receipts; cap.delegate, cap.process and cap.report.
    - Router, RouterProps: cap.call and the dispatch of router.py; the JSON-RPC
      and REST requests of server.py around it.

    ** What the theorems show

    - Access: [evaluate_access] decides exactly its specification, refusals
      come before every grant, what an audited decision writes, and where
      visibility, expiry and the organization cache matter.
    - Log: every append and every audit event keeps the chain intact; two
      chains that verify with the same head and length have the same entries,
      or two entries of theirs that differ have the same hash; what the chain
      does not detect.
    - Reviews and promotions: an approval implies its gates passed on the
      evidence read, a refusal changes nothing but evidence, an approved
      capability moves with its shares, sources and tuples, negative decisions
      block every right.
    - Identities, stores, roles: the operator's superadmins are enforced and
      the enforcement settles, shares are bounded by their author's rights.
    - Lifecycle and break-glass: the transition table as a state machine with
      its histories; a session is active exactly while it should be.
    - Signing: base64 round trip, what a verified attestation binds, key reuse.
    - Quarantine: a release needs the latest signed scan to be clean and the
      policy to allow it; refusals change nothing; the states an item can go
      through over any history; held content is hidden; two gaps.
    - CapGuard policy: the verdict is exactly the worst of the controls.
    - Versions and dependencies: precedence is a total preorder; a deployment
      order is complete exactly when there is no cycle; cycle detection reports
      closed walks and finds one when there is one; both end.
    - Tasks: the outcome of processing and the state machine of a task;
      envelopes round-trip.  Routing picks the cheapest sufficient tier.
    - Admission: exact, all or nothing, and contained where no link loops; path
      resolution always ends.  The binding allowlist refines a set.
    - Receipts: exactly which requests are issued one, exactly when one is
      accepted, and what an accepted one proves.
    - Sessions and logins: a minted token opens its session until it expires or
      is revoked, and never again; tokens are delivered once; a login leads to
      a session of the claimed identity only; where PKCE and expiry do not bite.
    - SCIM: a client stays in its tenant, a user reads back as written, a
      deactivated user is refused everywhere.
    - Discovery: whatever a file says, what is discovered is unvetted; the merge
      of mirrors keeps every source, prefers authority and does not depend on
      the order of the files.
    - Ingestion: rewrites are suppressed exactly when they change nothing; new
      content is under quarantine before it can be served, promotions apart,
      and what goes wrong there.
    - Batches: the approval of a catalog ends, is all or nothing, and changes a
      row only on the evidence of its review; the gates of a request verify the
      reviewed content and nothing else; readings change nothing.
    - Operators and drafts: an operator stays in the tenant; an edit needs its
      right; edited content loses every verdict; a draft writes below its own
      directory; what a draft records, and whose address it may take.
    - Authority keys: a key is never replaced by the bootstrap; a pin changes
      only on a ceremony the operator signed; a refused installation writes no
      file; the bundle holds nothing else.
    - Router: what cap.load serves has the recorded digest, and a refusal names
      the address only; the pages of a listing make up the whole; a delegation
      and a report are backed by the catalog, the files and the signed receipt,
      a report once; a system capability runs only for who may call it; a
      request runs for the principal of its connection.

    ** Bounds and fuel

    Parsers and string searches recurse on the input's length as fuel
    ([json_parse], [replace_all]): the fuel is computed from the input by the
    definition, and the round-trip theorem shows that it suffices for printed
    values.  The topological sort runs for as many rounds as there
    are nodes, cycle detection to the interpreter's recursion limit, a regular
    expression's repetition for the length of the text; path resolution follows
    as many links as the file system has, none inside itself, and the kernel's
    [stat] at most 40.  Each bound is proved to suffice, or is the program's own.

    ** Limits of the model

    - [str.lower], [strip], [isdigit], IGNORECASE and the classes \d, \s, \w and
      \b act on ASCII; other code points are left alone (letters, for \w).
      Decimal texts are shorter than the 4300 digits int() accepts.  JSON numbers that are not integers are kept as text.
    - Foreign keys are not modelled: the program's inserts name rows it has
      just read or written.  The clock does not advance inside a handler.
    - A fresh identifier may clash with a stored one only where a theorem says
      so by a hypothesis; INSERT OR IGNORE and UNIQUE failures are modelled.
    - Floating point numbers of token claims are exact; instants are after 1970.
      A set is the list of its first occurrences where its order is visible.
    - A walk of the roots lists a directory in the order of names and does not
      enter linked directories; slices count the characters of UTF-8 texts.
    - Concurrency between connections is not modelled: a handler runs alone.
    - Schema creation inside handlers (CREATE TABLE IF NOT EXISTS) is modelled
      by the commit of the pending transaction that [executescript] makes.

    ** Not modelled

    Transport (the request loop of server.py, streamable_http.py), the command
    line, search and ranking (the query side of index.py), shadow
    rebuilds, coverage reports and the vector table of index.py, directory
    synchronisation, telemetry, schema migrations, the scan of package
    dependencies and the SLSA statement: they are input and output, third-party
    protocols or floating point ranking around the modelled handlers. *)

From stdpp Require Import base option list strings gmap sorting.

#[export] Set Warnings "-clear-no-such-hyp".

Declare Scope capmesh_scope.
Delimit Scope capmesh_scope with cm.
Open Scope capmesh_scope.

(** ** Exceptions and outcomes

    The Python exceptions that the modelled code raises on purpose.  The
    carried string is the message of the exception. *)
Inductive exn : Type :=
  | ValueError (msg : string)
  | PermissionError (msg : string)
  | IntegrityError (msg : string)
  | KeyError (msg : string)
  | QuarantineError (msg : string)
  | QuarantineReleaseBlocked (msg : string)
  | InstallPolicyError (msg : string)
  | SupersededCapability (msg : string)
  | InstallGuardError (code msg : string)
  | OtherError (msg : string).

(** The result of running a Python function: a value or an exception. *)
Inductive outcome (A : Type) : Type :=
  | Ok (a : A)
  | Raise (e : exn).
Arguments Ok {A} a.
Arguments Raise {A} e.

#[export] Instance exn_eq_dec : EqDecision exn.
Proof. solve_decision. Defined.

Definition is_ok {A} (o : outcome A) : bool :=
  match o with Ok _ => true | Raise _ => false end.

Definition is_value_error {A} (o : outcome A) : bool :=
  match o with Raise (ValueError _) => true | _ => false end.

Definition is_permission_error {A} (o : outcome A) : bool :=
  match o with Raise (PermissionError _) => true | _ => false end.

(** ** The state and exception monad

    [M W A] is a computation over a world [W].  The world survives an
    exception: sqlite3 does not undo the statements of a transaction when the
    Python code between them raises. *)
Definition M (W A : Type) : Type := W -> outcome A * W.

Section Monad.
Context {W : Type}.

Definition ret {A} (a : A) : M W A := fun w => (Ok a, w).

Definition raise {A} (e : exn) : M W A := fun w => (Raise e, w).

Definition bind {A B} (m : M W A) (k : A -> M W B) : M W B :=
  fun w => match m w with
           | (Ok a, w') => k a w'
           | (Raise e, w') => (Raise e, w')
           end.

(** [try ... except E: handler] for the exceptions selected by [catch]. *)
Definition try_except {A} (m : M W A) (catch : exn -> bool) (h : exn -> M W A) : M W A :=
  fun w => match m w with
           | (Ok a, w') => (Ok a, w')
           | (Raise e, w') => if catch e then h e w' else (Raise e, w')
           end.

Definition gets {A} (f : W -> A) : M W A := fun w => (Ok (f w), w).

Definition modify (f : W -> W) : M W unit := fun w => (Ok tt, f w).

Definition lift {A} (o : outcome A) : M W A := fun w => (o, w).

Definition when (b : bool) (m : M W unit) : M W unit := if b then m else ret tt.

Fixpoint mapM {A B} (f : A -> M W B) (l : list A) : M W (list B) :=
  match l with
  | [] => ret []
  | x :: l' => bind (f x) (fun y => bind (mapM f l') (fun ys => ret (y :: ys)))
  end.

Fixpoint forM {A} (l : list A) (f : A -> M W unit) : M W unit :=
  match l with
  | [] => ret tt
  | x :: l' => bind (f x) (fun _ => forM l' f)
  end.
End Monad.

Notation "'let!' x := m 'in' k" := (bind m (fun x => k))
  (at level 10, x pattern, m at level 100, k at level 200,
   format "'[v' 'let!'  x  :=  m  'in' '/' k ']'") : capmesh_scope.
Notation "m ;;; k" := (bind m (fun _ => k))
  (at level 100, k at level 200, right associativity) : capmesh_scope.

(** Pure code that may raise. *)
Definition obind {A B} (m : outcome A) (k : A -> outcome B) : outcome B :=
  match m with Ok a => k a | Raise e => Raise e end.

Notation "'let?' x := m 'in' k" := (obind m (fun x => k))
  (at level 10, x pattern, m at level 100, k at level 200)
  : capmesh_scope.

(** ** Reasoning about monadic code *)
Section Reasoning.
Context {W : Type}.

Lemma bind_ok_inv {A B} (m : M W A) (k : A -> M W B) w b w' :
  bind m k w = (Ok b, w') ->
  exists a w1, m w = (Ok a, w1) /\ k a w1 = (Ok b, w').
Proof. unfold bind. destruct (m w) as [[a|e] w1]; [eauto | done]. Qed.

Lemma bind_raise_inv {A B} (m : M W A) (k : A -> M W B) w e w' :
  bind m k w = (Raise e, w') ->
  m w = (Raise e, w') \/ exists a w1, m w = (Ok a, w1) /\ k a w1 = (Raise e, w').
Proof.
  unfold bind. destruct (m w) as [[a|e'] w1]; [eauto|].
  intros [= -> ->]. by left.
Qed.

Lemma bind_assoc {A B C} (m : M W A) (k : A -> M W B) (h : B -> M W C) w :
  bind (bind m k) h w = bind m (fun a => bind (k a) h) w.
Proof. unfold bind. by destruct (m w) as [[a|e] w1]. Qed.

Lemma bind_ret {A B} (a : A) (k : A -> M W B) w : bind (ret a) k w = k a w.
Proof. done. Qed.

(** [preserves R m]: whatever the outcome of [m], the world it leaves is
    [R]-related to the world it started from. *)
Definition preserves (R : relation W) {A} (m : M W A) : Prop :=
  forall w, R w (m w).2.

Context (R : relation W) `{!PreOrder R}.

Lemma preserves_ret {A} (a : A) : preserves R (ret a).
Proof. intros w. by cbn. Qed.

Lemma preserves_raise {A} e : preserves R (@raise W A e).
Proof. intros w. by cbn. Qed.

Lemma preserves_gets {A} (f : W -> A) : preserves R (gets f).
Proof. intros w. by cbn. Qed.

Lemma preserves_lift {A} (o : outcome A) : preserves R (lift o).
Proof. intros w. by cbn. Qed.

Lemma preserves_bind {A B} (m : M W A) (k : A -> M W B) :
  preserves R m -> (forall a, preserves R (k a)) -> preserves R (bind m k).
Proof.
  intros Hm Hk w. unfold bind. specialize (Hm w).
  destruct (m w) as [[a|e] w1]; cbn in *; [|done].
  etrans; [exact Hm | apply Hk].
Qed.

Lemma preserves_try {A} (m : M W A) c h :
  preserves R m -> (forall e, preserves R (h e)) -> preserves R (try_except m c h).
Proof.
  intros Hm Hh w. unfold try_except. specialize (Hm w).
  destruct (m w) as [[a|e] w1]; cbn in *; [done|].
  destruct (c e); cbn; [etrans; [exact Hm | apply Hh] | done].
Qed.

Lemma preserves_modify (f : W -> W) : (forall w, R w (f w)) -> preserves R (modify f).
Proof. intros Hf w. apply Hf. Qed.

Lemma preserves_when b (m : M W unit) : preserves R m -> preserves R (when b m).
Proof. intros Hm. destruct b; [done | apply preserves_ret]. Qed.

Lemma preserves_forM {A} (l : list A) (f : A -> M W unit) :
  (forall x, preserves R (f x)) -> preserves R (forM l f).
Proof.
  intros Hf. induction l as [|x l IH]; cbn; [apply preserves_ret|].
  apply preserves_bind; [apply Hf | done].
Qed.

Lemma preserves_mapM {A B} (l : list A) (f : A -> M W B) :
  (forall x, preserves R (f x)) -> preserves R (mapM f l).
Proof.
  intros Hf. induction l as [|x l IH]; cbn; [apply preserves_ret|].
  apply preserves_bind; [apply Hf|]. intros y.
  apply preserves_bind; [done|]. intros ys. apply preserves_ret.
Qed.
End Reasoning.

(** The hint database of frame facts: [preserves R op] for the primitive
    operations of each component. *)
Create HintDb frame.
#[export] Hint Resolve preserves_ret preserves_raise preserves_gets preserves_lift : frame.

(** [solve_frame] walks the syntax of a monadic program. *)
Ltac solve_frame_step :=
  match goal with
  | |- forall _, _ => intros ?
  | |- preserves _ (bind _ _) => apply preserves_bind; [exact _ | |]
  | |- preserves _ (try_except _ _ _) => apply preserves_try; [exact _ | |]
  | |- preserves _ (when _ _) => apply preserves_when; [exact _ |]
  | |- preserves _ (forM _ _) => apply preserves_forM; [exact _ |]
  | |- preserves _ (mapM _ _) => apply preserves_mapM; [exact _ |]
  | |- preserves _ (if ?b then _ else _) => destruct b
  | |- preserves _ (match ?x with _ => _ end) => destruct x
  | |- preserves _ _ => solve [eauto 3 with frame typeclass_instances]
  end.
Ltac solve_frame := repeat solve_frame_step.

(** [step_ok H] peels one [bind] of a successful run recorded in [H]. *)
Tactic Notation "step_ok" hyp(H) "as" simple_intropattern(a) simple_intropattern(w)
    simple_intropattern(Hm) :=
  apply bind_ok_inv in H as (a & w & Hm & H).

(** Case analysis on the [if]s and [match]es that guard a run, discarding
    the branches that raise. *)
Ltac ok_cases H :=
  repeat match type of H with
  | (if ?b then _ else _) _ = (Ok _, _) => let E := fresh "E" in destruct b eqn:E; try discriminate H
  | (match ?x with _ => _ end) _ = (Ok _, _) => let E := fresh "E" in destruct x eqn:E; try discriminate H
  end.

(** ** Lists used as SQL tables *)

(** [SELECT ... WHERE p LIMIT 1] / [fetchone()]: the first row in rowid
    order. *)
Definition fetchone {A} (p : A -> bool) (t : list A) : option A := List.find p t.

(** [SELECT ... WHERE p] / [fetchall()]. *)
Definition fetchall {A} (p : A -> bool) (t : list A) : list A := List.filter p t.

(** [UPDATE ... SET f WHERE p]. *)
Definition update_where {A} (p : A -> bool) (f : A -> A) (t : list A) : list A :=
  List.map (fun r => if p r then f r else r) t.

(** [DELETE ... WHERE p]. *)
Definition delete_where {A} (p : A -> bool) (t : list A) : list A :=
  List.filter (fun r => negb (p r)) t.

(** [SELECT 1 ... WHERE p] as a truth value. *)
Definition exists_where {A} (p : A -> bool) (t : list A) : bool := List.existsb p t.

Section Tables.
Context {A : Type}.
Implicit Types (p : A -> bool) (t : list A).

Lemma elem_of_fetchall p t r : r ∈ fetchall p t <-> p r = true /\ r ∈ t.
Proof.
  unfold fetchall. rewrite !list_elem_of_In, List.filter_In. tauto.
Qed.

Lemma fetchone_some p t r : fetchone p t = Some r -> r ∈ t /\ p r = true.
Proof. intros H%List.find_some. by rewrite list_elem_of_In. Qed.

Lemma fetchone_none p t : fetchone p t = None <-> forall r, r ∈ t -> p r = false.
Proof.
  split.
  - intros H r Hr. apply (List.find_none _ _ H). by apply list_elem_of_In.
  - intros H. destruct (fetchone p t) eqn:E; [|done].
    apply fetchone_some in E as [Hin Hp]. by rewrite (H _ Hin) in Hp.
Qed.

Lemma fetchone_is_some p t r : r ∈ t -> p r = true -> is_Some (fetchone p t).
Proof.
  intros Hin Hp. destruct (fetchone p t) eqn:E; [by eexists|].
  rewrite fetchone_none in E. by rewrite (E r Hin) in Hp.
Qed.

Lemma exists_where_true p t : exists_where p t = true <-> exists r, r ∈ t /\ p r = true.
Proof.
  unfold exists_where. rewrite List.existsb_exists. by setoid_rewrite list_elem_of_In.
Qed.

Lemma exists_where_false p t : exists_where p t = false <-> forall r, r ∈ t -> p r = false.
Proof.
  rewrite <-not_true_iff_false, exists_where_true. split.
  - intros H r Hr. destruct (p r) eqn:E; [|done]. exfalso; eauto.
  - intros H (r & Hr & Hp). by rewrite (H r Hr) in Hp.
Qed.

Lemma elem_of_update_where p f t r :
  r ∈ update_where p f t <-> exists r0, r0 ∈ t /\ r = (if p r0 then f r0 else r0).
Proof.
  unfold update_where. rewrite list_elem_of_In, List.in_map_iff.
  split; intros (r0 & H1 & H2); exists r0; rewrite ?list_elem_of_In in *; auto.
Qed.

Lemma length_update_where p f t : length (update_where p f t) = length t.
Proof. apply length_map. Qed.

Lemma elem_of_delete_where p t r : r ∈ delete_where p t <-> p r = false /\ r ∈ t.
Proof.
  unfold delete_where. rewrite !list_elem_of_In, List.filter_In, negb_true_iff. tauto.
Qed.

Lemma update_where_none p f t : (forall r, r ∈ t -> p r = false) -> update_where p f t = t.
Proof.
  intros H. unfold update_where. induction t as [|r t IH]; [done|].
  cbn. rewrite (H r) by left. f_equal. apply IH. intros r' Hr'. apply H. by right.
Qed.

Lemma fetchone_app p t1 t2 :
  fetchone p (t1 ++ t2) = match fetchone p t1 with Some r => Some r | None => fetchone p t2 end.
Proof.
  unfold fetchone. induction t1 as [|r t1 IH]; [done|]. cbn. by destruct (p r).
Qed.

Lemma exists_where_app p t1 t2 :
  exists_where p (t1 ++ t2) = exists_where p t1 || exists_where p t2.
Proof. apply List.existsb_app. Qed.

Lemma fetchone_update_where p q f t :
  (forall r, q r = true -> p (f r) = p r) ->
  fetchone p (update_where q f t) = (fun r => if q r then f r else r) <$> fetchone p t.
Proof.
  intros Hpq. induction t as [|r t IH]; [done|]. cbn.
  destruct (q r) eqn:Eq; [rewrite (Hpq _ Eq)|]; destruct (p r); cbn; rewrite ?Eq; auto.
Qed.

Lemma fetchall_app p t1 t2 : fetchall p (t1 ++ t2) = fetchall p t1 ++ fetchall p t2.
Proof. apply List.filter_app. Qed.

Lemma forallb_fetchall (f : A -> bool) p t :
  List.forallb f t = true -> List.forallb f (fetchall p t) = true.
Proof. rewrite !List.forallb_forall. intros Hf x [Hx _]%List.filter_In. by apply Hf. Qed.

Lemma exists_cons_skip (P : A -> Prop) x t :
  ~ P x -> (exists r, r ∈ x :: t /\ P r) <-> (exists r, r ∈ t /\ P r).
Proof. setoid_rewrite elem_of_cons. naive_solver. Qed.

Lemma delete_where_fetchone p q t :
  (forall r, q r = true -> p r = true) -> fetchone q (delete_where p t) = None.
Proof.
  intros Hqp. apply fetchone_none. intros r [Hp _]%elem_of_delete_where.
  destruct (q r) eqn:E; [|done]. by rewrite (Hqp _ E) in Hp.
Qed.

Lemma delete_where_app p t1 t2 : delete_where p (t1 ++ t2) = delete_where p t1 ++ delete_where p t2.
Proof. apply List.filter_app. Qed.

(** An UPDATE that stays within its own WHERE clause. *)
Lemma delete_where_update_where p f t :
  (forall r, p r = true -> p (f r) = true) -> delete_where p (update_where p f t) = delete_where p t.
Proof.
  intros Hf. unfold delete_where, update_where. induction t as [|r t IH]; [done|]. cbn.
  destruct (p r) eqn:E; cbn; [by rewrite (Hf r E), IH | by rewrite E, IH].
Qed.

Lemma fetchall_update_where p f t :
  (forall r, p r = true -> p (f r) = true) -> fetchall p (update_where p f t) = f <$> fetchall p t.
Proof.
  intros Hf. unfold fetchall, update_where. induction t as [|r t IH]; [done|]. cbn.
  destruct (p r) eqn:E; cbn; [by rewrite (Hf r E), IH | by rewrite E, IH].
Qed.

Lemma fetchall_none p t : exists_where p t = false -> fetchall p t = [].
Proof.
  rewrite exists_where_false. intros Hp. induction t as [|r t IH]; [done|]. cbn.
  rewrite (Hp r) by left. apply IH. intros r' Hr'. apply Hp. by right.
Qed.

(** Selecting by a key that is unique in the table. *)
Lemma fetchall_key {K} (key : A -> K) (k : K) p t :
  (forall r, p r = true <-> key r = k) -> NoDup (key <$> t) -> exists_where p t = true ->
  exists row, fetchall p t = [row] /\ row ∈ t /\ key row = k.
Proof.
  intros Hp. induction t as [|r t IH]; [done|]. cbn. intros [Hr Hnd]%NoDup_cons.
  destruct (p r) eqn:E; cbn.
  - intros _. exists r. apply Hp in E. split; [|split; [by left|done]]. f_equal.
    apply (fetchall_none p t), exists_where_false. intros r' Hr'. destruct (p r') eqn:E'; [|done].
    apply Hp in E'. exfalso. apply Hr. rewrite E, <-E'. by apply list_elem_of_fmap_2.
  - intros Hex. destruct (IH Hnd Hex) as (row & ? & ? & ?). exists row. split_and!; [done | by right | done].
Qed.

Lemma fmap_key_update_where {K} (key : A -> K) p f t :
  (forall r, p r = true -> key (f r) = key r) -> key <$> update_where p f t = key <$> t.
Proof.
  intros Hf. unfold update_where. induction t as [|r t IH]; [done|]. cbn. rewrite IH. f_equal.
  destruct (p r) eqn:E; [by apply Hf | done].
Qed.

(** An UPDATE of the one row with a given key, related pointwise to the table
    it changes. *)
Lemma update_where_Forall2 {K} (key : A -> K) (R : relation A) p f t x :
  (forall r, R r r) -> NoDup (key <$> t) -> (forall r, p r = true <-> key r = key x) -> x ∈ t -> R x (f x) ->
  Forall2 R t (update_where p f t).
Proof.
  intros Hrefl Hnd Hp Hx Hf. induction t as [|r t IH]; [by apply elem_of_nil in Hx|].
  rewrite fmap_cons, NoDup_cons in Hnd. destruct Hnd as [Hr Hnd]. apply elem_of_cons in Hx as [->|Hx]; cbn.
  - assert (p r = true) as -> by (by apply Hp). constructor; [done|].
    change (List.map _ t) with (update_where p f t). rewrite update_where_none.
    + apply Forall_Forall2_diag, Forall_true. done.
    + intros y Hy. apply not_true_iff_false. intros Hk%Hp. apply Hr. rewrite <-Hk. by apply list_elem_of_fmap_2.
  - constructor; [|by apply IH]. destruct (p r) eqn:E; [|done].
    exfalso. apply Hr. apply Hp in E as ->. by apply list_elem_of_fmap_2.
Qed.
End Tables.

(** ** Options *)
Definition is_some {A} (o : option A) : bool := match o with Some _ => true | None => false end.
Definition is_none {A} (o : option A) : bool := match o with Some _ => false | None => true end.

Lemma is_some_Some {A} (o : option A) : is_some o = true <-> is_Some o.
Proof. destruct o as [a|]; cbn; split; intros H; try done; by destruct H. Qed.

(** Python's [a or b] on optional values whose [None] is the falsy one. *)
Definition or_else {A} (o : option A) (d : A) : A := match o with Some a => a | None => d end.

(** ** Field updates

    [upd f v r] is the record [r] with field [f] replaced by [v]: the [SET f = v]
    of an UPDATE, or [dataclasses.replace(r, f=v)].  Each record declares its
    eta-expansion once; the setter of a field is found by instance search. *)
Class EtaRecord (R : Type) : Type := eta_record : R -> R.
Class FieldUpdate {R T : Type} (f : R -> T) : Type := upd : T -> R -> R.
Arguments upd {R T} f {_} v r.

Ltac field_update R T f :=
  exact (fun (v : T) (r : R) => ltac:(
    let e := constr:(eta_record (R := R)) in
    let e := eval cbv [eta_record] in e in
    let e := eval hnf in e in
    let b := eval cbv beta in (e r) in
    match b with context C [f r] => let t := context C [v] in exact t end)).

#[export] Hint Extern 1 (@FieldUpdate ?R ?T ?f) => field_update R T f : typeclass_instances.
