(* ===== verification/Sha256.v ===== *)
(** * SHA-256 of the Python standard library

    [hashlib.sha256(s.encode("utf-8")).hexdigest()] as an executable function
    on 32-bit words kept in [Z] (FIPS 180-4).  The identifiers of
    [utils.stable_id] and the hash chain of [registry_log.py] are computed with
    it, so the theorems about them speak of collisions of this function and
    assume no injectivity. *)

From Stdlib Require Import ZArith Ascii String.
From stdpp Require Import base list strings.
From S2P Require Import Prelude.
Local Open Scope Z_scope.
Local Open Scope list_scope.

Definition w32 (x : Z) : Z := Z.land x 4294967295.
Definition rotr (n x : Z) : Z := Z.lor (Z.shiftr x n) (w32 (Z.shiftl x (32 - n))).
Definition not32 (x : Z) : Z := Z.lxor x 4294967295.

Definition ch (x y z : Z) : Z := Z.lxor (Z.land x y) (Z.land (not32 x) z).
Definition maj (x y z : Z) : Z := Z.lxor (Z.lxor (Z.land x y) (Z.land x z)) (Z.land y z).
Definition bsig0 (x : Z) : Z := Z.lxor (Z.lxor (rotr 2 x) (rotr 13 x)) (rotr 22 x).
Definition bsig1 (x : Z) : Z := Z.lxor (Z.lxor (rotr 6 x) (rotr 11 x)) (rotr 25 x).
Definition ssig0 (x : Z) : Z := Z.lxor (Z.lxor (rotr 7 x) (rotr 18 x)) (Z.shiftr x 3).
Definition ssig1 (x : Z) : Z := Z.lxor (Z.lxor (rotr 17 x) (rotr 19 x)) (Z.shiftr x 10).

Definition round_constants : list Z :=
  [1116352408; 1899447441; 3049323471; 3921009573; 961987163; 1508970993; 2453635748; 2870763221;
   3624381080; 310598401; 607225278; 1426881987; 1925078388; 2162078206; 2614888103; 3248222580;
   3835390401; 4022224774; 264347078; 604807628; 770255983; 1249150122; 1555081692; 1996064986;
   2554220882; 2821834349; 2952996808; 3210313671; 3336571891; 3584528711; 113926993; 338241895;
   666307205; 773529912; 1294757372; 1396182291; 1695183700; 1986661051; 2177026350; 2456956037;
   2730485921; 2820302411; 3259730800; 3345764771; 3516065817; 3600352804; 4094571909; 275423344;
   430227734; 506948616; 659060556; 883997877; 958139571; 1322822218; 1537002063; 1747873779;
   1955562222; 2024104815; 2227730452; 2361852424; 2428436474; 2756734187; 3204031479; 3329325298].

Definition initial_state : list Z :=
  [1779033703; 3144134277; 1013904242; 2773480762; 1359893119; 2600822924; 528734635; 1541459225].

(** The message schedule, newest word first: 48 further words. *)
Fixpoint schedule (n : nat) (rev_w : list Z) : list Z :=
  match n with
  | O => rev_w
  | S n' =>
      let w i := List.nth i rev_w 0 in
      schedule n' (w32 (ssig1 (w 1%nat) + w 6%nat + ssig0 (w 14%nat) + w 15%nat) :: rev_w)
  end.

Fixpoint rounds (ks ws : list Z) (a b c d e f g h : Z) : list Z :=
  match ks, ws with
  | k :: ks', w :: ws' =>
      let t1 := w32 (h + bsig1 e + ch e f g + k + w) in
      let t2 := w32 (bsig0 a + maj a b c) in
      rounds ks' ws' (w32 (t1 + t2)) a b c (w32 (d + t1)) e f g
  | _, _ => [a; b; c; d; e; f; g; h]
  end.

Definition compress (state block : list Z) : list Z :=
  match state with
  | [a; b; c; d; e; f; g; h] =>
      zip_with (fun x y => w32 (x + y)) state
        (rounds round_constants (rev (schedule 48 (rev block))) a b c d e f g h)
  | _ => state
  end.

Definition bytes_of_string (s : string) : list Z :=
  (fun c => Z.of_nat (nat_of_ascii c)) <$> list_ascii_of_string s.

(** Big-endian bytes of a 64-bit length. *)
Definition be64 (x : Z) : list Z :=
  (fun i => Z.land (Z.shiftr x i) 255) <$> [56; 48; 40; 32; 24; 16; 8; 0].

Definition padded (bs : list Z) : list Z :=
  let len := Z.of_nat (List.length bs) in
  bs ++ 128 :: replicate (Z.to_nat ((55 - len) mod 64)) 0 ++ be64 (8 * len).

Fixpoint words (fuel : nat) (bs : list Z) : list Z :=
  match fuel, bs with
  | S fuel', a :: b :: c :: d :: bs' =>
      (Z.lor (Z.shiftl a 24) (Z.lor (Z.shiftl b 16) (Z.lor (Z.shiftl c 8) d))) :: words fuel' bs'
  | _, _ => []
  end.

Fixpoint absorb (fuel : nat) (state ws : list Z) : list Z :=
  match fuel, ws with
  | S fuel', _ :: _ => absorb fuel' (compress state (take 16 ws)) (drop 16 ws)
  | _, _ => state
  end.

Definition hex_digit (x : Z) : ascii :=
  ascii_of_nat (Z.to_nat (if x <? 10 then 48 + x else 87 + x)).

Definition hex_word (x : Z) : list ascii :=
  (fun i => hex_digit (Z.land (Z.shiftr x i) 15)) <$> [28; 24; 20; 16; 12; 8; 4; 0].

Definition sha256_hex (s : string) : string :=
  let bs := padded (bytes_of_string s) in
  let ws := words (List.length bs) bs in
  string_of_list_ascii (flat_map hex_word (absorb (List.length ws) initial_state ws)).

(** The test vectors of FIPS 180-4 for the empty string, one block and two
    blocks. *)
Example sha256_empty :
  sha256_hex "" = "e3b0c44298fc1c149afbf4c8996fb92427ae41e4649b934ca495991b7852b855"%string.
Proof. vm_compute. reflexivity. Qed.

Example sha256_abc :
  sha256_hex "abc" = "ba7816bf8f01cfea414140de5dae2223b00361a396177a9cb410ff61f20015ad"%string.
Proof. vm_compute. reflexivity. Qed.

Example sha256_two_blocks :
  sha256_hex "abcdbcdecdefdefgefghfghighijhijkijkljklmklmnlmnomnopnopq"
  = "248d6a61d20638b8e5c026930c3e6039a33ce45964ff2167f6ecedd419db06c1"%string.
Proof. vm_compute. reflexivity. Qed.

(** ** The digest is 64 hexadecimal digits *)
Lemma length_rounds ks ws a b c d e f g h : List.length (rounds ks ws a b c d e f g h) = 8%nat.
Proof. revert ws a b c d e f g h. induction ks as [|k ks IH]; intros [|w ws] *; cbn; [done..|]. apply IH. Qed.

Lemma length_compress state block : List.length state = 8%nat -> List.length (compress state block) = 8%nat.
Proof.
  destruct state as [|a [|b [|c [|d [|e [|f [|g [|h [|]]]]]]]]]; try discriminate 1. intros _.
  unfold compress. by rewrite length_zip_with, length_rounds.
Qed.

Lemma length_absorb fuel state ws : List.length state = 8%nat -> List.length (absorb fuel state ws) = 8%nat.
Proof.
  revert state ws. induction fuel as [|fuel IH]; intros state [|w ws] Hs; cbn [absorb]; [done..|].
  by apply IH, length_compress.
Qed.

Lemma sha256_hex_digits s : exists xs, list_ascii_of_string (sha256_hex s) = hex_digit <$> xs /\
  List.length xs = 64%nat /\ Forall (fun x => 0 <= x < 16) xs.
Proof.
  unfold sha256_hex. rewrite list_ascii_of_string_of_list_ascii. set (ys := absorb _ _ _).
  assert (List.length ys = 8%nat) as Hl by (by apply length_absorb). clearbody ys. clear s.
  exists (flat_map (fun y => (fun i => Z.land (Z.shiftr y i) 15) <$> [28; 24; 20; 16; 12; 8; 4; 0]) ys). split_and!.
  - clear Hl. induction ys as [|y ys IH]; [done|]. cbn [flat_map]. by rewrite fmap_app, IH.
  - rewrite (flat_map_constant_length (c := 8%nat)); [by rewrite Hl | done].
  - clear Hl. induction ys as [|y ys IH]; [constructor|]. cbn [flat_map]. apply Forall_app. split; [|done].
    apply Forall_fmap, Forall_true. intros i. cbn. change 15 with (Z.ones 4). rewrite Z.land_ones by lia.
    apply Z.mod_pos_bound. lia.
Qed.

#[global] Arguments sha256_hex : simpl never.
