(* ===== verification/PyStr.v ===== *)
(** * Python strings

    The string operations of the source, on [string]s that hold the UTF-8
    bytes of the Python [str].  Byte order is code-point order, so comparisons
    agree; [lower], [isalnum], [isdigit] and [strip] are those of ASCII text
    (a byte above 127 is neither a letter nor a space and has no lower case). *)

From Stdlib Require Import ZArith Ascii String Lia DecimalString DecimalZ.
From stdpp Require Import base option list strings sorting.
From S2P Require Import Prelude Sha256.
Local Open Scope string_scope.
Local Open Scope nat_scope.

(** ** Equality and membership *)
Notation "a =s b" := (String.eqb a b) (at level 70) : capmesh_scope.

Definition smem (x : string) (l : list string) : bool := List.existsb (String.eqb x) l.

Lemma smem_In x l : smem x l = true <-> x ∈ l.
Proof.
  unfold smem. rewrite List.existsb_exists, list_elem_of_In. split.
  - by intros (y & Hy & ->%String.eqb_eq).
  - intros H. exists x. by rewrite String.eqb_refl.
Qed.

Lemma smem_not_In x l : smem x l = false <-> x ∉ l.
Proof. rewrite <-smem_In. by destruct (smem x l). Qed.

(** [a == b] for values that may be None. *)
Definition oeqb (a b : option string) : bool :=
  match a, b with
  | None, None => true
  | Some x, Some y => x =s y
  | _, _ => false
  end.

Lemma oeqb_eq a b : oeqb a b = true <-> a = b.
Proof.
  destruct a, b; cbn; try done. rewrite String.eqb_eq. naive_solver.
Qed.

Lemma oeqb_refl a : oeqb a a = true.
Proof. by apply oeqb_eq. Qed.

(** Equality of SQL: [x = NULL] is never true. *)
Definition sql_eq (a : option string) (b : string) : bool := oeqb a (Some b).

(** ** Truth values: [if s], [a or b] *)
Definition truthy (s : string) : bool := negb (s =s "").
Definition otruthy (s : option string) : bool := match s with Some x => truthy x | None => false end.
Definition s_or (a b : string) : string := if truthy a then a else b.
(** [a or b] for [a : str | None]. *)
Definition o_or (a : option string) (b : string) : string :=
  match a with Some x => s_or x b | None => b end.
(** [a or b] for both of type [str | None]. *)
Definition oo_or (a b : option string) : option string := if otruthy a then a else b.

Lemma truthy_true s : truthy s = true <-> s <> "".
Proof. unfold truthy. rewrite negb_true_iff, String.eqb_neq. done. Qed.
Lemma truthy_false s : truthy s = false <-> s = "".
Proof. unfold truthy. rewrite negb_false_iff, String.eqb_eq. done. Qed.
Lemma s_or_truthy a b : truthy a = true -> s_or a b = a.
Proof. unfold s_or. by intros ->. Qed.

(** ** Characters *)
Definition code (c : ascii) : nat := nat_of_ascii c.
Definition is_digit (c : ascii) : bool := (48 <=? code c) && (code c <=? 57).
Definition is_upper (c : ascii) : bool := (65 <=? code c) && (code c <=? 90).
Definition is_lower (c : ascii) : bool := (97 <=? code c) && (code c <=? 122).
Definition is_alpha (c : ascii) : bool := is_upper c || is_lower c.
Definition is_alnum (c : ascii) : bool := is_alpha c || is_digit c.
Definition is_space (c : ascii) : bool :=
  (code c =? 32) || ((9 <=? code c) && (code c <=? 13)) || ((28 <=? code c) && (code c <=? 31)).
Definition to_lower (c : ascii) : ascii :=
  if is_upper c then ascii_of_nat (code c + 32) else c.
Definition ceqb (a b : ascii) : bool := Ascii.eqb a b.
Definition one_of (cs : string) (c : ascii) : bool :=
  List.existsb (ceqb c) (list_ascii_of_string cs).

Definition smap (f : ascii -> ascii) (s : string) : string :=
  string_of_list_ascii (f <$> list_ascii_of_string s).
Definition lower (s : string) : string := smap to_lower s.
Definition sall (p : ascii -> bool) (s : string) : bool :=
  List.forallb p (list_ascii_of_string s).
(** [s.isdigit()]: nonempty and all digits. *)
Definition isdigit (s : string) : bool := truthy s && sall is_digit s.

(** ** Slicing, stripping, searching *)
Fixpoint startswith (s p : string) {struct p} : bool :=
  match p with
  | "" => true
  | String c p' => match s with "" => false | String d s' => ceqb c d && startswith s' p' end
  end.
Fixpoint srev_app (s acc : string) : string :=
  match s with "" => acc | String c s' => srev_app s' (String c acc) end.
Definition srev (s : string) : string := srev_app s "".
Definition endswith (s p : string) : bool := startswith (srev s) (srev p).

Fixpoint lstrip_by (p : ascii -> bool) (s : string) : string :=
  match s with
  | "" => ""
  | String c s' => if p c then lstrip_by p s' else s
  end.
Definition rstrip_by (p : ascii -> bool) (s : string) : string := srev (lstrip_by p (srev s)).
Definition strip_by (p : ascii -> bool) (s : string) : string := rstrip_by p (lstrip_by p s).
Definition strip (s : string) : string := strip_by is_space s.

Fixpoint sdrop (n : nat) (s : string) : string :=
  match n, s with
  | S n', String _ s' => sdrop n' s'
  | _, _ => s
  end.
Definition stake (n : nat) (s : string) : string := String.substring 0 n s.
(** [s.removeprefix(p)]. *)
Definition removeprefix (s p : string) : string :=
  if startswith s p then sdrop (String.length p) s else s.

(** [s.find(sub)], [None] for -1; [sub in s]. *)
Fixpoint find (s sub : string) : option nat :=
  if startswith s sub then Some 0
  else match s with "" => None | String _ s' => S <$> find s' sub end.
Definition contains (s sub : string) : bool := is_some (find s sub).

(** [s.split(c)] for a single character, [s.split(c, 1)], [s.partition(c)]. *)
Fixpoint split_on (c : ascii) (s : string) : list string :=
  match s with
  | "" => [""]
  | String d s' =>
      if ceqb d c then "" :: split_on c s'
      else match split_on c s' with
           | x :: xs => String d x :: xs
           | [] => [String d ""]
           end
  end.
Fixpoint partition (c : ascii) (s : string) : option (string * string) :=
  match s with
  | "" => None
  | String d s' =>
      if ceqb d c then Some ("", s')
      else match partition c s' with
           | Some (a, b) => Some (String d a, b)
           | None => None
           end
  end.

(** [s.replace(old, new)] for nonempty [old]; the fuel bounds the number of
    characters and is the length of the string. *)
Fixpoint replace_fuel (n : nat) (old new s : string) : string :=
  match n with
  | 0 => s
  | S n' =>
      match s with
      | "" => ""
      | String c s' =>
          if startswith s old then new ++ replace_fuel n' old new (sdrop (String.length old) s)
          else String c (replace_fuel n' old new s')
      end
  end.
Definition replace_all (s old new : string) : string := replace_fuel (String.length s) old new s.

Definition join (sep : string) (l : list string) : string := String.concat sep l.

(** [str(n)] of an int. *)
Definition str_of_Z (n : Z) : string := NilZero.string_of_int (Z.to_int n).

(** [int(s)] for the decimal texts the source parses: digits only. *)
Definition digit_val (c : ascii) : Z := Z.of_nat (code c - 48).
Definition int_of_digits (s : string) : Z :=
  fold_left (fun acc c => (10 * acc + digit_val c)%Z) (list_ascii_of_string s) 0%Z.

(** [int(s)] with the sign: [None] where Python raises ValueError. *)
Definition Z_of_str (s : string) : option Z := Z.of_int <$> NilZero.int_of_string s.

Lemma Z_of_str_of_Z n : Z_of_str (str_of_Z n) = Some n.
Proof.
  unfold Z_of_str, str_of_Z. rewrite NilZero.isi; [cbn; by rewrite DecimalZ.of_to|..];
    destruct n; cbn; try done; intros [=]; by eapply DecimalPos.Unsigned.to_uint_nonnil.
Qed.

(** ** Order: [a < b], [a <= b], [sorted(...)] *)
Definition slt (a b : string) : bool := String.ltb a b.
Definition sle (a b : string) : bool := String.leb a b.

(** Stable insertion sort: [sorted(l, key=...)] and [ORDER BY]. *)
Fixpoint insert_by {A} (le : A -> A -> bool) (x : A) (l : list A) : list A :=
  match l with
  | [] => [x]
  | y :: l' => if le x y then x :: l else y :: insert_by le x l'
  end.
Fixpoint sort_by {A} (le : A -> A -> bool) (l : list A) : list A :=
  match l with [] => [] | x :: l' => insert_by le x (sort_by le l') end.
Definition sorted_strings (l : list string) : list string := sort_by sle l.

Lemma insert_by_perm {A} (le : A -> A -> bool) x l : insert_by le x l ≡ₚ x :: l.
Proof.
  induction l as [|y l IH]; cbn; [done|]. destruct (le x y); [done|].
  rewrite IH. apply Permutation_swap.
Qed.

Lemma sort_by_perm {A} (le : A -> A -> bool) l : sort_by le l ≡ₚ l.
Proof. induction l as [|x l IH]; cbn; [done|]. by rewrite insert_by_perm, IH. Qed.

Lemma elem_of_sort_by {A} (le : A -> A -> bool) l x : x ∈ sort_by le l <-> x ∈ l.
Proof. by rewrite sort_by_perm. Qed.

Section SortedBy.
Context {A} (le : A -> A -> bool).
Context (le_total : forall x y, le x y = true \/ le y x = true).

Lemma insert_by_hd x y l :
  HdRel le y l -> le y x = true -> HdRel le y (insert_by le x l).
Proof.
  intros Hl Hyx. destruct l as [|z l]; cbn; [by constructor; rewrite Hyx|].
  inversion_clear Hl. destruct (le x z); constructor; by rewrite ?Hyx.
Qed.

Lemma insert_by_sorted x l : Sorted le l -> Sorted le (insert_by le x l).
Proof.
  induction 1 as [|y l Hl IH Hd]; cbn; [repeat constructor|].
  destruct (le x y) eqn:E.
  - constructor; [by constructor|]. constructor. by rewrite E.
  - constructor; [done|]. apply insert_by_hd; [done|].
    destruct (le_total x y); congruence.
Qed.

Lemma sort_by_sorted l : Sorted le (sort_by le l).
Proof. induction l; cbn; [constructor | by apply insert_by_sorted]. Qed.
End SortedBy.

(** ** Grouping: [groups.setdefault(key, []).append(v)] on a dict of lists in
    insertion order, and [groups.get(key, [])] *)
Fixpoint append_at {A} (key : string) (v : A) (groups : list (string * list A)) : list (string * list A) :=
  match groups with
  | [] => [(key, [v])]
  | (k, vs) :: groups' =>
      if k =s key then (k, vs ++ [v])%list :: groups' else (k, vs) :: append_at key v groups'
  end.
Definition group_of {A} (key : string) (groups : list (string * list A)) : list A :=
  match List.find (fun kv => fst kv =s key) groups with Some kv => snd kv | None => [] end.
Definition group_by {A B} (key : A -> string) (value : A -> B) (l : list A) : list (string * list B) :=
  fold_left (fun groups x => append_at (key x) (value x) groups) l [].

Lemma group_of_append_at {A} k key (v : A) groups :
  group_of k (append_at key v groups)
  = if k =s key then (group_of k groups ++ [v])%list else group_of k groups.
Proof.
  unfold group_of. induction groups as [|[k' vs] groups IH]; cbn.
  - rewrite (String.eqb_sym key k). by destruct (k =s key).
  - destruct (k' =s key) eqn:E; cbn; destruct (k' =s k) eqn:E'; try done.
    + apply String.eqb_eq in E as ->, E' as ->. by rewrite String.eqb_refl.
    + apply String.eqb_eq in E as ->. by rewrite String.eqb_sym, E'.
    + apply String.eqb_eq in E' as ->. by rewrite E.
Qed.

Lemma group_of_group_by {A B} (key : A -> string) (value : A -> B) l k :
  group_of k (group_by key value l) = value <$> List.filter (fun x => key x =s k) l.
Proof.
  unfold group_by.
  assert (forall groups, group_of k (fold_left (fun groups x => append_at (key x) (value x) groups) l groups)
    = (group_of k groups ++ (value <$> List.filter (fun x => key x =s k) l))%list) as H; [|apply H].
  induction l as [|x l IH]; intros groups; cbn; [by rewrite List.app_nil_r|].
  rewrite IH, group_of_append_at, String.eqb_sym. destruct (key x =s k); [|done].
  by rewrite <-List.app_assoc.
Qed.

Lemma elem_of_keys_append_at {A} k key (v : A) groups : k ∈ (append_at key v groups).*1 <-> k = key \/ k ∈ groups.*1.
Proof.
  induction groups as [|[k' vs] groups IH]; cbn; [by rewrite list_elem_of_singleton, elem_of_nil; naive_solver|].
  destruct (k' =s key) eqn:E; cbn; rewrite !elem_of_cons, ?IH; [|naive_solver].
  apply String.eqb_eq in E as ->. naive_solver.
Qed.

Lemma elem_of_keys_group_by {A B} (key : A -> string) (value : A -> B) l k :
  k ∈ (group_by key value l).*1 <-> k ∈ key <$> l.
Proof.
  unfold group_by.
  assert (forall groups, k ∈ (fold_left (fun groups x => append_at (key x) (value x) groups) l groups).*1
    <-> k ∈ groups.*1 \/ k ∈ key <$> l) as H; [|rewrite H; rewrite elem_of_nil; tauto].
  induction l as [|x l IH]; intros groups; cbn; [rewrite elem_of_nil; tauto|].
  rewrite IH, elem_of_keys_append_at, elem_of_cons. tauto.
Qed.

(** ** [str(exc)] of an exception *)
Definition exn_str (e : exn) : string :=
  match e with
  | ValueError m | PermissionError m | IntegrityError m | KeyError m | QuarantineError m
  | QuarantineReleaseBlocked m | InstallPolicyError m | SupersededCapability m | InstallGuardError _ m => m
  | OtherError m => match partition ":"%char m with
                    | Some (_, rest) => removeprefix rest " "
                    | None => m
                    end
  end.

(** ** Identifiers: [utils.stable_id] and [utils.new_id] *)
Definition unit_separator : string := String (ascii_of_nat 31) "".

Definition stable_id (prefix : string) (parts : list string) : string :=
  prefix ++ "_" ++ stake 24 (sha256_hex (join unit_separator parts)).

#[global] Arguments stable_id : simpl never.

(** ** Lemmas on concatenation *)
Lemma app_cons c a b : String c a ++ b = String c (a ++ b).
Proof. done. Qed.
Lemma app_empty a : "" ++ a = a.
Proof. done. Qed.
Lemma app_nil_r s : s ++ "" = s.
Proof. induction s as [|x s IH]; [done|]. by rewrite app_cons, IH. Qed.
Lemma app_assoc a b c : (a ++ b) ++ c = a ++ (b ++ c).
Proof. induction a as [|x a IH]; [done|]. by rewrite !app_cons, IH. Qed.
Lemma app_inv_head a b c : a ++ b = a ++ c -> b = c.
Proof. induction a as [|x a IH]; [done|]. rewrite !app_cons. intros [=]. auto. Qed.
Lemma length_sapp a b : String.length (a ++ b) = String.length a + String.length b.
Proof. induction a as [|x a IH]; [done|]. rewrite app_cons. cbn. by rewrite IH. Qed.

Lemma startswith_app p s : startswith (p ++ s) p = true.
Proof.
  induction p as [|c p IH]; [done|]. rewrite app_cons. cbn. unfold ceqb.
  by rewrite Ascii.eqb_refl.
Qed.

Lemma sdrop_app p s : sdrop (String.length p) (p ++ s) = s.
Proof. induction p; rewrite ?app_cons; cbn; [by destruct s|done]. Qed.

Lemma removeprefix_app p s : removeprefix (p ++ s) p = s.
Proof. unfold removeprefix. by rewrite startswith_app, sdrop_app. Qed.

Lemma startswith_spec s p : startswith s p = true -> exists t, s = p ++ t.
Proof.
  revert s. induction p as [|c p IH]; intros s H; [by exists s|].
  destruct s as [|d s]; [done|]. cbn in H. apply andb_true_iff in H as [Hc H].
  apply Ascii.eqb_eq in Hc as ->. destruct (IH _ H) as [t ->]. by exists t.
Qed.

Lemma partition_app_colon a b :
  sall (fun c => negb (ceqb c ":")) a = true -> partition ":" (a ++ ":" ++ b) = Some (a, b).
Proof.
  unfold sall. induction a as [|c a IH]; [done|]. rewrite app_cons. cbn.
  rewrite andb_true_iff, negb_true_iff. intros [-> H]. cbn in IH. by rewrite (IH H).
Qed.

(** ** Sorting a sorted list *)
Lemma sort_by_sorted_id {A} (le : A -> A -> bool) l : Sorted le l -> sort_by le l = l.
Proof.
  induction 1 as [|x l Hl IH Hd]; [done|]. cbn. rewrite IH. destruct Hd as [|y l Hxy]; [done|].
  cbn. by destruct (le x y).
Qed.

Lemma insert_by_last {A} (le : A -> A -> bool) x l :
  Forall (fun y => le x y = false) l -> insert_by le x l = (l ++ [x])%list.
Proof. induction 1 as [|y l Hy _ IH]; [done|]. cbn. by rewrite Hy, IH. Qed.

(** ** Boolean order and comparison *)
Lemma slt_compare a b : slt a b = true <-> String.compare a b = Lt.
Proof. unfold slt, String.ltb. by destruct (String.compare a b). Qed.
Lemma sle_compare a b : sle a b = true <-> String.compare a b <> Gt.
Proof. unfold sle, String.leb. by destruct (String.compare a b). Qed.

(** ** Texts as lists of characters *)
Lemma sall_app p a b : sall p (a ++ b) = sall p a && sall p b.
Proof. unfold sall. induction a as [|c a IH]; [done|]. rewrite app_cons. cbn. rewrite IH. by rewrite andb_assoc. Qed.

Lemma sall_impl (p q : ascii -> bool) s : (forall c, p c = true -> q c = true) -> sall p s = true -> sall q s = true.
Proof.
  intros Hpq. unfold sall. rewrite !List.forallb_forall. intros H c Hc. by apply Hpq, H.
Qed.

Lemma smap_app f a b : smap f (a ++ b) = smap f a ++ smap f b.
Proof. unfold smap. induction a as [|c a IH]; [done|]. rewrite !app_cons. cbn. by rewrite IH. Qed.

Lemma length_smap f s : String.length (smap f s) = String.length s.
Proof. unfold smap. induction s as [|c s IH]; [done|]. cbn. by rewrite IH. Qed.

Lemma sall_smap p f s : sall p (smap f s) = sall (fun c => p (f c)) s.
Proof. unfold sall, smap. induction s as [|c s IH]; [done|]. cbn. by rewrite IH. Qed.

Lemma smap_id (p : ascii -> bool) f s : (forall c, p c = true -> f c = c) -> sall p s = true -> smap f s = s.
Proof.
  intros Hf. unfold sall, smap. induction s as [|c s IH]; [done|]. cbn. intros [Hc Hs]%andb_true_iff.
  by rewrite IH, Hf.
Qed.

Lemma smap_smap f g s : smap f (smap g s) = smap (fun c => f (g c)) s.
Proof. unfold smap. induction s as [|c s IH]; [done|]. cbn. by rewrite IH. Qed.

Lemma srev_app_acc s acc : srev_app s acc = srev s ++ acc.
Proof.
  unfold srev. revert acc. induction s as [|c s IH]; intros acc; [done|]. cbn.
  rewrite IH, (IH (String c "")). by rewrite app_assoc.
Qed.

Lemma srev_app_split a b : srev (a ++ b) = srev b ++ srev a.
Proof.
  induction a as [|c a IH]; [by rewrite app_empty, app_nil_r|].
  rewrite app_cons. change (srev_app (a ++ b) (String c "") = srev b ++ srev_app a (String c "")).
  by rewrite !srev_app_acc, IH, app_assoc.
Qed.

Lemma srev_srev s : srev (srev s) = s.
Proof.
  induction s as [|c s IH]; [done|]. change (srev (String c s)) with (srev_app s (String c "")).
  rewrite srev_app_acc, srev_app_split, IH. done.
Qed.

Lemma sall_srev p s : sall p (srev s) = sall p s.
Proof.
  induction s as [|c s IH]; [done|]. change (srev (String c s)) with (srev_app s (String c "")).
  rewrite srev_app_acc, sall_app, IH. unfold sall. cbn. by rewrite andb_true_r, andb_comm.
Qed.

Lemma lstrip_by_app p a b : sall p a = true -> sall (fun c => negb (p c)) b = true -> lstrip_by p (a ++ b) = b.
Proof.
  unfold sall. intros Ha Hb. induction a as [|c a IH].
  - rewrite app_empty. destruct b as [|d b]; [done|]. cbn in *. apply andb_true_iff in Hb as [Hd _].
    apply negb_true_iff in Hd. by rewrite Hd.
  - rewrite app_cons. cbn in *. apply andb_true_iff in Ha as [-> Ha]. by apply IH.
Qed.

(** Stripping on the right removes exactly the padding. *)
Lemma rstrip_by_app p a b : sall (fun c => negb (p c)) a = true -> sall p b = true -> rstrip_by p (a ++ b) = a.
Proof.
  intros Ha Hb. unfold rstrip_by. rewrite srev_app_split, lstrip_by_app; [by rewrite srev_srev | by rewrite sall_srev..].
Qed.
