(* ===== verification/Json.v ===== *)
(** * JSON values, [json.dumps] and [json.loads]

    The dynamic values ([Any]) of payloads, metadata and JSON columns, the
    Python conversions the source applies to them ([str], [bool], [or], [in],
    [dict.get], iteration), and the text codec of [utils.json_dumps] and
    [utils.json_loads].  Integers are exact; a number with a fraction or an
    exponent is kept as its lexeme. *)

From Stdlib Require Import ZArith Ascii String Lia.
From stdpp Require Import base option list strings sorting.
From S2P Require Import Prelude Sha256 PyStr.
Local Open Scope string_scope.
Local Open Scope N_scope.
Local Set Warnings "-register-all,-notation-for-abbreviation".

Inductive json : Type :=
  | JNull
  | JBool (b : bool)
  | JNum (n : Z)
  | JFloat (lexeme : string)
  | JStr (s : string)
  | JArr (l : list json)
  | JObj (d : list (string * json)).

Notation dict := (list (string * json)).

(** ** Dictionaries in insertion order *)
Definition dget (k : string) (d : dict) : option json :=
  snd <$> List.find (fun kv => fst kv =s k) d.
Definition dmem (k : string) (d : dict) : bool := is_some (dget k d).
Fixpoint dset (k : string) (v : json) (d : dict) : dict :=
  match d with
  | [] => [(k, v)]
  | (k', v') :: d' => if k' =s k then (k, v) :: d' else (k', v') :: dset k v d'
  end.
(** [d.setdefault(k, v)]. *)
Definition dsetdefault (k : string) (v : json) (d : dict) : dict :=
  if dmem k d then d else dset k v d.
(** [{**a, **b}] *)
Definition dmerge (a b : dict) : dict := fold_left (fun d kv => dset kv.1 kv.2 d) b a.
(** [d.get(k)]: None when absent. *)
Definition jget (k : string) (d : dict) : json := match dget k d with Some v => v | None => JNull end.

(** ** Truth value, [or], [str], [bool] *)
Definition py_truthy (v : json) : bool :=
  match v with
  | JNull => false
  | JBool b => b
  | JNum n => negb (Z.eqb n 0)
  | JFloat x => negb (sall (fun c => ceqb c "0" || ceqb c "." || ceqb c "-") x)
  | JStr s => truthy s
  | JArr l => match l with [] => false | _ => true end
  | JObj d => match d with [] => false | _ => true end
  end.
Definition py_or (a b : json) : json := if py_truthy a then a else b.

(** The type a Python message names. *)
Definition type_name (v : json) : string :=
  match v with
  | JNull => "NoneType" | JBool _ => "bool" | JNum _ => "int" | JFloat _ => "float"
  | JStr _ => "str" | JArr _ => "list" | JObj _ => "dict"
  end.

(** [repr(s)] of a str of printable ASCII, tabs and line ends. *)
Definition backslash : ascii := ascii_of_nat 92.
Definition repr_char (quote : ascii) (c : ascii) : string :=
  if ceqb c quote || ceqb c backslash then String backslash (String c "")
  else if Nat.eqb (code c) 10%nat then String backslash "n"
  else if Nat.eqb (code c) 13%nat then String backslash "r"
  else if Nat.eqb (code c) 9%nat then String backslash "t"
  else String c "".
Definition quote_char : ascii := ascii_of_nat 34.
Definition apostrophe : ascii := ascii_of_nat 39.
Definition repr_str (s : string) : string :=
  let chars := list_ascii_of_string s in
  let q := if List.existsb (ceqb apostrophe) chars && negb (List.existsb (ceqb quote_char) chars)
           then quote_char else apostrophe in
  String q (String.concat "" (repr_char q <$> chars) ++ String q "").

Fixpoint py_repr (v : json) : string :=
  match v with
  | JNull => "None"
  | JBool b => if b then "True" else "False"
  | JNum n => str_of_Z n
  | JFloat x => x
  | JStr s => repr_str s
  | JArr l => "[" ++ join ", " (List.map py_repr l) ++ "]"
  | JObj d => "{" ++ join ", " (List.map (fun kv => repr_str (fst kv) ++ ": " ++ py_repr (snd kv)) d) ++ "}"
  end.
(** [str(v)]. *)
Definition py_str (v : json) : string := match v with JStr s => s | _ => py_repr v end.

(** [str(d.get(k) or default)], [str(d.get(k1) or d.get(k2) or default)]. *)
Definition str_get (d : dict) (k default : string) : string :=
  py_str (py_or (jget k d) (JStr default)).
Definition str_get2 (d : dict) (k1 k2 default : string) : string :=
  py_str (py_or (jget k1 d) (py_or (jget k2 d) (JStr default))).

(** Iterating over a JSON value: a list, the keys of a dict, the characters of
    a str; anything else is a TypeError. *)
Definition py_iter (v : json) : outcome (list json) :=
  match v with
  | JArr l => Ok l
  | JObj d => Ok (JStr <$> d.*1)
  | JStr s => Ok ((fun c => JStr (String c "")) <$> list_ascii_of_string s)
  | _ => Raise (OtherError "TypeError: object is not iterable")
  end.

(** A value bound to a TEXT column: sqlite3 stores None as NULL and numbers by
    their text, and refuses lists and dicts. *)
Definition sql_text (v : json) : outcome (option string) :=
  match v with
  | JNull => Ok None
  | JStr s => Ok (Some s)
  | JNum n => Ok (Some (str_of_Z n))
  | JFloat x => Ok (Some x)
  | JBool b => Ok (Some (if b then "1" else "0"))
  | JArr _ => Raise (OtherError "ProgrammingError: type 'list' is not supported")
  | JObj _ => Raise (OtherError "ProgrammingError: type 'dict' is not supported")
  end.

(** ** Writing *)

Definition ncode (c : ascii) : N := N_of_ascii c.
Definition hex_of_N (n : N) : ascii := hex_digit (Z.of_N n).
Definition u_escape (n : N) : string :=
  String backslash (String "u"
    (String (hex_of_N (n / 4096)) (String (hex_of_N (n / 256 mod 16))
      (String (hex_of_N (n / 16 mod 16)) (String (hex_of_N (n mod 16)) ""))))).
(** A code point above the basic plane is written as a surrogate pair. *)
Definition cp_escape (n : N) : string :=
  if N.ltb n 65536 then u_escape n
  else let m := n - 65536 in u_escape (55296 + m / 1024) ++ u_escape (56320 + m mod 1024).

Definition ascii_escape (c : ascii) : string :=
  if ceqb c quote_char || ceqb c backslash then String backslash (String c "")
  else if Nat.eqb (code c) 10%nat then String backslash "n"
  else if Nat.eqb (code c) 13%nat then String backslash "r"
  else if Nat.eqb (code c) 9%nat then String backslash "t"
  else if Nat.eqb (code c) 12%nat then String backslash "f"
  else if Nat.eqb (code c) 8%nat then String backslash "b"
  else if Nat.ltb (code c) 32%nat || Nat.leb 127%nat (code c) then u_escape (ncode c)
  else String c "".

Definition cont (c : ascii) : N := ncode c mod 64.

(** The escaped characters of a UTF-8 text ([ensure_ascii=True]). *)
Fixpoint json_escape (s : string) : string :=
  match s with
  | "" => ""
  | String a s1 =>
      if Nat.ltb (code a) 128%nat then ascii_escape a ++ json_escape s1
      else match s1 with
      | "" => u_escape (ncode a)
      | String b s2 =>
          if Nat.ltb (code a) 224%nat then cp_escape (ncode a mod 32 * 64 + cont b) ++ json_escape s2
          else match s2 with
          | "" => u_escape (ncode a)
          | String c s3 =>
              if Nat.ltb (code a) 240%nat
              then cp_escape ((ncode a mod 16 * 64 + cont b) * 64 + cont c) ++ json_escape s3
              else match s3 with
              | "" => u_escape (ncode a)
              | String d s4 =>
                  cp_escape (((ncode a mod 8 * 64 + cont b) * 64 + cont c) * 64 + cont d)
                  ++ json_escape s4
              end
          end
      end
  end.
Definition print_str (s : string) : string := String quote_char (json_escape s ++ String quote_char "").

(** [json.dumps] with the separators [","] and [":"], each followed by [sp]. *)
Fixpoint print_with (sp : string) (v : json) : string :=
  match v with
  | JNull => "null"
  | JBool b => if b then "true" else "false"
  | JNum n => str_of_Z n
  | JFloat x => x
  | JStr s => print_str s
  | JArr l => "[" ++ join ("," ++ sp) (List.map (print_with sp) l) ++ "]"
  | JObj d => "{" ++ join ("," ++ sp) (List.map (fun kv => print_str (fst kv) ++ ":" ++ sp ++ print_with sp (snd kv)) d) ++ "}"
  end.
Definition print_json (v : json) : string := print_with "" v.
(** [json.dumps(v)] with its default separators and key order. *)
Definition dumps (v : json) : string := print_with " " v.

Definition key_le (a b : string * json) : bool := sle a.1 b.1.
(** [sort_keys=True], at every level. *)
Fixpoint sort_keys (v : json) : json :=
  match v with
  | JArr l => JArr (List.map sort_keys l)
  | JObj d => JObj (sort_by key_le (List.map (fun kv => (fst kv, sort_keys (snd kv))) d))
  | _ => v
  end.

(** [utils.json_dumps]. *)
Definition json_dumps (v : json) : string := print_json (sort_keys v).

(** [ensure_ascii=False]: text above ASCII is written as it is. *)
Definition raw_escape (s : string) : string :=
  String.concat "" ((fun c => if Nat.leb 127%nat (code c) then String c "" else ascii_escape c)
                      <$> list_ascii_of_string s).
Definition raw_str (s : string) : string := String quote_char (raw_escape s ++ String quote_char "").
Fixpoint raw_json (v : json) : string :=
  match v with
  | JStr s => raw_str s
  | JArr l => "[" ++ join "," (List.map raw_json l) ++ "]"
  | JObj d => "{" ++ join "," (List.map (fun kv => raw_str (fst kv) ++ ":" ++ raw_json (snd kv)) d) ++ "}"
  | _ => print_json v
  end.

(** ** Reading *)

Fixpoint skip_ws (s : string) : string :=
  match s with
  | String c s' =>
      if Nat.eqb (code c) 32%nat || Nat.eqb (code c) 9%nat || Nat.eqb (code c) 10%nat || Nat.eqb (code c) 13%nat
      then skip_ws s' else s
  | "" => ""
  end.

Definition hex_val (c : ascii) : option N :=
  if is_digit c then Some (ncode c - 48)
  else if Nat.leb 97%nat (code c) && Nat.leb (code c) 102%nat then Some (ncode c - 87)
  else if Nat.leb 65%nat (code c) && Nat.leb (code c) 70%nat then Some (ncode c - 55)
  else None.
Definition hex4 (a b c d : ascii) : option N :=
  match hex_val a, hex_val b, hex_val c, hex_val d with
  | Some x, Some y, Some z, Some w => Some (x * 4096 + y * 256 + z * 16 + w)
  | _, _, _, _ => None
  end.
Definition chr (n : N) : ascii := ascii_of_N n.
(** UTF-8 of one code point. *)
Definition utf8 (n : N) : string :=
  if N.ltb n 128 then String (chr n) ""
  else if N.ltb n 2048 then String (chr (192 + n / 64)) (String (chr (128 + n mod 64)) "")
  else if N.ltb n 65536 then
    String (chr (224 + n / 4096)) (String (chr (128 + n / 64 mod 64)) (String (chr (128 + n mod 64)) ""))
  else String (chr (240 + n / 262144)) (String (chr (128 + n / 4096 mod 64))
         (String (chr (128 + n / 64 mod 64)) (String (chr (128 + n mod 64)) ""))).

Definition is_high (n : N) : bool := N.leb 55296 n && N.ltb n 56320.
Definition is_low (n : N) : bool := N.leb 56320 n && N.ltb n 57344.

(** The body of a string literal after its opening quote, with what follows
    the closing quote. *)
Fixpoint parse_str (s : string) : option (string * string) :=
  match s with
  | "" => None
  | String c s1 =>
      if ceqb c quote_char then Some ("", s1)
      else if Nat.ltb (code c) 32%nat then None
      else if negb (ceqb c backslash) then
        match parse_str s1 with Some (x, r) => Some (String c x, r) | None => None end
      else match s1 with
      | "" => None
      | String e s2 =>
          let plain n := match parse_str s2 with Some (x, r) => Some (String (chr n) x, r) | None => None end in
          if ceqb e quote_char then plain 34%N
          else if ceqb e backslash then plain 92%N
          else if ceqb e "/" then plain 47%N
          else if ceqb e "b" then plain 8%N
          else if ceqb e "f" then plain 12%N
          else if ceqb e "n" then plain 10%N
          else if ceqb e "r" then plain 13%N
          else if ceqb e "t" then plain 9%N
          else if negb (ceqb e "u") then None
          else match s2 with
          | String h1 (String h2 (String h3 (String h4 s3))) =>
              match hex4 h1 h2 h3 h4 with
              | None => None
              | Some n =>
                  let single := match parse_str s3 with Some (x, r) => Some (utf8 n ++ x, r) | None => None end in
                  if negb (is_high n) then single
                  else match s3 with
                  | String b1 (String u1 (String g1 (String g2 (String g3 (String g4 s4))))) =>
                      if ceqb b1 backslash && ceqb u1 "u" then
                        match hex4 g1 g2 g3 g4 with
                        | Some m =>
                            if is_low m then
                              match parse_str s4 with
                              | Some (x, r) => Some (utf8 (65536 + (n - 55296) * 1024 + (m - 56320)) ++ x, r)
                              | None => None
                              end
                            else single
                        | None => None
                        end
                      else single
                  | _ => single
                  end
              end
          | _ => None
          end
      end
  end.

Fixpoint span (p : ascii -> bool) (s : string) : string * string :=
  match s with
  | String c s' => if p c then let '(a, b) := span p s' in (String c a, b) else ("", s)
  | "" => ("", "")
  end.

Definition number_char (c : ascii) : bool :=
  is_digit c || ceqb c "-" || ceqb c "+" || ceqb c "." || ceqb c "e" || ceqb c "E".

(** The grammar of a JSON number: integer part without leading zeros, optional
    fraction, optional exponent. *)
Definition int_part_ok (s : string) : bool :=
  isdigit s && (negb (startswith s "0") || (s =s "0")).
Definition strip_sign (signs s : string) : string :=
  match s with String c s' => if one_of signs c then s' else s | "" => "" end.
Definition exponent_ok (s : string) : bool := isdigit (strip_sign "+-" s).
Definition mantissa_ok (s : string) : bool :=
  match partition "." s with
  | None => int_part_ok s
  | Some (i, f) => int_part_ok i && isdigit f
  end.
Definition float_ok (s : string) : bool :=
  let u := strip_sign "-" s in
  let '(m, r) := span (fun c => is_digit c || ceqb c ".") u in
  mantissa_ok m &&
  match r with
  | "" => true
  | String c e => (ceqb c "e" || ceqb c "E") && exponent_ok e
  end.

Definition parse_number (s : string) : option (json * string) :=
  let '(lexeme, r) := span number_char s in
  match Z_of_str lexeme with
  | Some n =>
      if (str_of_Z n =s lexeme) || (lexeme =s "-0") then Some (JNum n, r) else None
  | None => if float_ok lexeme then Some (JFloat lexeme, r) else None
  end.

Fixpoint parse_value (fuel : nat) (s : string) : option (json * string) :=
  match fuel with
  | O => None
  | S n =>
      match s with
      | "" => None
      | String c s1 =>
          if startswith s "null" then Some (JNull, sdrop 4 s)
          else if startswith s "true" then Some (JBool true, sdrop 4 s)
          else if startswith s "false" then Some (JBool false, sdrop 5 s)
          else if startswith s "NaN" then Some (JFloat "nan", sdrop 3 s)
          else if startswith s "Infinity" then Some (JFloat "inf", sdrop 8 s)
          else if startswith s "-Infinity" then Some (JFloat "-inf", sdrop 9 s)
          else if ceqb c quote_char then
            match parse_str s1 with Some (x, r) => Some (JStr x, r) | None => None end
          else if ceqb c "[" then
            if startswith (skip_ws s1) "]" then Some (JArr [], sdrop 1 (skip_ws s1))
            else match parse_elems n (skip_ws s1) with
                 | Some (l, r) => Some (JArr l, r)
                 | None => None
                 end
          else if ceqb c "{" then
            if startswith (skip_ws s1) "}" then Some (JObj [], sdrop 1 (skip_ws s1))
            else match parse_members n (skip_ws s1) with
                 | Some (l, r) => Some (JObj (dmerge [] l), r)
                 | None => None
                 end
          else parse_number s
      end
  end
with parse_elems (fuel : nat) (s : string) : option (list json * string) :=
  match fuel with
  | O => None
  | S n =>
      match parse_value n s with
      | None => None
      | Some (v, r) =>
          match skip_ws r with
          | String c r1 =>
              if ceqb c "]" then Some ([v], r1)
              else if ceqb c "," then
                match parse_elems n (skip_ws r1) with
                | Some (l, r2) => Some (v :: l, r2)
                | None => None
                end
              else None
          | "" => None
          end
      end
  end
with parse_members (fuel : nat) (s : string) : option (dict * string) :=
  match fuel with
  | O => None
  | S n =>
      match s with
      | String q s1 =>
          if negb (ceqb q quote_char) then None
          else match parse_str s1 with
          | None => None
          | Some (k, r) =>
              match skip_ws r with
              | String colon r1 =>
                  if negb (ceqb colon ":") then None
                  else match parse_value n (skip_ws r1) with
                  | None => None
                  | Some (v, r2) =>
                      match skip_ws r2 with
                      | String c r3 =>
                          if ceqb c "}" then Some ([(k, v)], r3)
                          else if ceqb c "," then
                            match parse_members n (skip_ws r3) with
                            | Some (l, r4) => Some ((k, v) :: l, r4)
                            | None => None
                            end
                          else None
                      | "" => None
                      end
                  end
              | "" => None
              end
          end
      | "" => None
      end
  end.

(** [json.loads]; the length of the text bounds the nesting and the number of
    elements. *)
Definition json_parse (s : string) : option json :=
  match parse_value (S (String.length s)) (skip_ws s) with
  | Some (v, r) => if skip_ws r =s "" then Some v else None
  | None => None
  end.

(** [utils.json_loads(value, default)]. *)
Definition json_loads (value : option string) (default : json) : json :=
  match value with
  | None => default
  | Some s => if truthy s then or_else (json_parse s) default else default
  end.

Example json_example :
  let q := String quote_char "" in
  json_parse (" {" ++ q ++ "a" ++ q ++ ": [1, -20, " ++ print_str "x~\y" ++ "], "
              ++ q ++ "b" ++ q ++ " : null, " ++ q ++ "a" ++ q ++ ": 1.5e3} ")
  = Some (JObj [("a", JFloat "1.5e3"); ("b", JNull)]).
Proof. vm_compute. reflexivity. Qed.
