(* ===== verification/JsonCodec.v ===== *)
(** * Round trip of the JSON codec

    [utils.json_loads] reads back what [utils.json_dumps] wrote, with the keys
    of every object sorted, for values without fractional numbers whose texts
    are ASCII.  The tables keep rights, gates and payloads in that form. *)

From Stdlib Require Import ZArith Ascii String Lia DecimalString.
From stdpp Require Import base option list strings sorting.
From S2P Require Import Prelude Sha256 PyStr Json.
Local Open Scope string_scope.

Section JsonInd.
Context (P : json -> Prop).
Context (Hnull : P JNull) (Hbool : forall b, P (JBool b)) (Hnum : forall n, P (JNum n))
  (Hfloat : forall x, P (JFloat x)) (Hstr : forall s, P (JStr s))
  (Harr : forall l, Forall P l -> P (JArr l))
  (Hobj : forall d, Forall (fun kv : string * json => P kv.2) d -> P (JObj d)).

Fixpoint json_nested_ind (v : json) : P v :=
  match v with
  | JNull => Hnull
  | JBool b => Hbool b
  | JNum n => Hnum n
  | JFloat x => Hfloat x
  | JStr s => Hstr s
  | JArr l =>
      Harr l ((fix go l : Forall P l :=
        match l with
        | [] => List.Forall_nil _
        | x :: l' => List.Forall_cons _ _ _ (json_nested_ind x) (go l')
        end) l)
  | JObj d =>
      Hobj d ((fix go d : Forall (fun kv : string * json => P kv.2) d :=
        match d with
        | [] => List.Forall_nil _
        | (k, x) :: d' => List.Forall_cons _ (k, x) _ (json_nested_ind x) (go d')
        end) d)
  end.
End JsonInd.

Definition ascii_str (s : string) : bool := sall (fun c => Nat.ltb (code c) 128) s.

(** The values the codec is exact on. *)
Fixpoint wf_json (v : json) : Prop :=
  match v with
  | JFloat _ => False
  | JStr s => ascii_str s = true
  | JArr l => (fix go l := match l with [] => True | x :: l' => wf_json x /\ go l' end) l
  | JObj d =>
      NoDup d.*1 /\
      (fix go d := match d with
                   | [] => True
                   | (k, x) :: d' => ascii_str k = true /\ wf_json x /\ go d'
                   end) d
  | _ => True
  end.

Lemma wf_json_arr l : wf_json (JArr l) <-> Forall wf_json l.
Proof.
  induction l as [|x l IH]; [by rewrite Forall_nil|]. rewrite Forall_cons, <-IH. done.
Qed.

Lemma wf_json_obj d :
  wf_json (JObj d) <->
  NoDup d.*1 /\ Forall (fun kv : string * json => ascii_str kv.1 = true /\ wf_json kv.2) d.
Proof.
  cbn. apply and_iff_compat_l.
  induction d as [|[k v] d IH]; [by rewrite Forall_nil|]. rewrite Forall_cons, <-IH. cbn. tauto.
Qed.

(** ** Strings *)
Lemma parse_escaped_char c t :
  Nat.ltb (code c) 128 = true ->
  parse_str (ascii_escape c ++ t)
  = match parse_str t with Some (x, r) => Some (String c x, r) | None => None end.
Proof.
  destruct c as [[] [] [] [] [] [] [] []]; intros H;
    first [discriminate H | vm_compute in H; discriminate H | reflexivity].
Qed.

Lemma parse_print_str s r :
  ascii_str s = true -> parse_str (json_escape s ++ String quote_char r) = Some (s, r).
Proof.
  unfold ascii_str, sall. induction s as [|c s IH]; [done|]. cbn [list_ascii_of_string List.forallb].
  rewrite andb_true_iff. intros [Hc Hs]. cbn [json_escape]. rewrite Hc.
  rewrite app_assoc, (parse_escaped_char _ _ Hc). by rewrite (IH Hs).
Qed.

(** ** Numbers *)
Definition stops (r : string) : Prop :=
  match r with "" => True | String c _ => number_char c = false end.

Lemma span_app p a r :
  sall p a = true -> match r with "" => True | String c _ => p c = false end ->
  span p (a ++ r) = (a, r).
Proof.
  unfold sall. intros Ha Hr. induction a as [|c a IH].
  - rewrite app_empty. destruct r as [|c r]; [done|]. cbn. by rewrite Hr.
  - rewrite app_cons. cbn in *. apply andb_true_iff in Ha as [-> Ha]. by rewrite (IH Ha).
Qed.

Lemma digits_of_uint d : sall is_digit (NilEmpty.string_of_uint d) = true.
Proof. unfold sall. induction d; cbn; auto. Qed.

(** The text of an integer: digits, with a minus sign for the negative ones. *)
Lemma str_of_Z_shape n :
  exists c s, (str_of_Z n = String c s \/ str_of_Z n = String "-" (String c s)) /\
    is_digit c = true /\ sall is_digit s = true.
Proof.
  assert (forall d, exists c s, NilZero.string_of_uint d = String c s /\
            is_digit c = true /\ sall is_digit s = true) as Hd.
  { intros d. pose proof (digits_of_uint d) as H. unfold sall in *.
    destruct d; cbn in *; try (eexists _, _; split; [reflexivity|]; split; [reflexivity|exact H]).
  }
  unfold str_of_Z. destruct (Z.to_int n) as [d|d]; cbn;
    destruct (Hd d) as (c & s & Hs & ? & ?); exists c, s; rewrite Hs; auto.
Qed.

Lemma number_chars n : sall number_char (str_of_Z n) = true.
Proof.
  destruct (str_of_Z_shape n) as (c & s & Hs & Hc & Hd).
  assert (forall c, is_digit c = true -> number_char c = true) as Hdn.
  { unfold number_char. by intros ? ->. }
  pose proof (sall_impl _ _ _ Hdn Hd) as Hn. unfold sall in *.
  destruct Hs as [-> | ->]; cbn; by rewrite (Hdn _ Hc).
Qed.

Lemma parse_print_number n r : stops r -> parse_number (str_of_Z n ++ r) = Some (JNum n, r).
Proof.
  intros Hr. unfold parse_number. rewrite (span_app _ _ _ (number_chars n) Hr).
  by rewrite Z_of_str_of_Z, String.eqb_refl.
Qed.

Lemma parse_value_number fuel n r :
  parse_value (S fuel) (str_of_Z n ++ r) = parse_number (str_of_Z n ++ r).
Proof.
  destruct (str_of_Z_shape n) as (c & s & Hs & Hc & _).
  destruct Hs as [-> | ->]; rewrite !app_cons; cbn [parse_value];
    destruct c as [[] [] [] [] [] [] [] []]; try discriminate Hc; reflexivity.
Qed.

(** ** Values *)
Fixpoint jsize (v : json) : nat :=
  match v with
  | JArr l => S ((fix go l := match l with [] => O | x :: l' => S (jsize x + go l') end) l)
  | JObj d => S ((fix go d := match d with [] => O | (_, x) :: d' => S (jsize x + go d') end) d)
  | _ => 1
  end%nat.

Definition lsize (l : list json) : nat := foldr (fun x n => S (jsize x + n)) O l.
Definition dsize (d : dict) : nat := foldr (fun kv n => S (jsize kv.2 + n)) O d.

Lemma jsize_arr l : jsize (JArr l) = S (lsize l).
Proof. done. Qed.
Lemma jsize_obj d : jsize (JObj d) = S (dsize d).
Proof. cbn. f_equal. induction d as [|[k v] d IH]; cbn; [done|]. by rewrite IH. Qed.

(** The two printers: [sp] is empty or one blank. *)
Section Printed.
Context (sp : string) (sp_blank : sp = "" \/ sp = " ").

Lemma skip_ws_sp r : skip_ws (sp ++ r) = skip_ws r.
Proof. by destruct sp_blank as [-> | ->]. Qed.

Definition parses (v : json) : Prop :=
  forall fuel r, (jsize v <= fuel)%nat -> stops r ->
    parse_value fuel (print_with sp v ++ r) = Some (v, r).

Lemma print_starts v :
  wf_json v -> exists c s, print_with sp v = String c s /\
    Nat.eqb (code c) 32 || Nat.eqb (code c) 9 || Nat.eqb (code c) 10 || Nat.eqb (code c) 13 = false /\
    ceqb c "]" = false /\ ceqb c "}" = false.
Proof.
  destruct v as [|[]|n|x|s|l|d]; intros Hwf; try (exfalso; exact Hwf);
    try (by eexists _, _).
  cbn. destruct (str_of_Z_shape n) as (c & s & [-> | ->] & Hc & _); [|by eexists _, _].
  exists c, s. split; [done|].
  destruct c as [[] [] [] [] [] [] [] []]; try discriminate Hc; done.
Qed.

Lemma skip_ws_print v r : wf_json v -> skip_ws (print_with sp v ++ r) = print_with sp v ++ r.
Proof.
  intros (c & s & -> & Hc & _)%print_starts. rewrite app_cons. cbn. by rewrite Hc.
Qed.

Lemma join_cons2 sep x y l : join sep (x :: y :: l) = x ++ sep ++ join sep (y :: l).
Proof. done. Qed.

Lemma skip_ws_elems v l r :
  wf_json v ->
  skip_ws (join ("," ++ sp) (List.map (print_with sp) (v :: l)) ++ r)
  = join ("," ++ sp) (List.map (print_with sp) (v :: l)) ++ r.
Proof.
  intros Hv. destruct l as [|v' l]; cbn [List.map]; [by apply skip_ws_print|].
  by rewrite join_cons2, app_assoc, skip_ws_print.
Qed.

(** Evaluates the tests on concrete characters left by one parsing step. *)
Ltac eval_chars :=
  repeat match goal with
  | |- context [skip_ws (String ?c ?X)] => change (skip_ws (String c X)) with (String c X)
  | |- context [ceqb ?a ?b] =>
      let v := eval vm_compute in (ceqb a b) in change (ceqb a b) with v
  end; cbn iota; cbn [negb].

(** Right-nested concatenations headed by their first character. *)
Ltac norm_app := repeat first [rewrite app_assoc | rewrite app_cons | rewrite app_empty].

Lemma parse_print_elems v l fuel r :
  Forall wf_json (v :: l) -> Forall parses (v :: l) ->
  (lsize (v :: l) <= fuel)%nat ->
  parse_elems fuel (join ("," ++ sp) (List.map (print_with sp) (v :: l)) ++ String "]" r) = Some (v :: l, r).
Proof.
  revert v fuel. induction l as [|v' l IH]; intros v fuel Hwf Hp Hf;
    rewrite Forall_cons in Hp; destruct Hp as [Hv Hl];
    (destruct fuel as [|fuel]; [cbn in Hf; lia|]); cbn [lsize foldr] in Hf.
  - cbn [parse_elems join String.concat List.map]. rewrite Hv; [done|lia|done].
  - cbn [List.map]. rewrite join_cons2. cbn [parse_elems].
    rewrite app_assoc, Hv; [|lia|done]. norm_app. eval_chars. rewrite ?skip_ws_sp.
    rewrite !Forall_cons in Hwf. destruct Hwf as (_ & Hwf & Hwf').
    change (print_with sp v' :: _) with (List.map (print_with sp) (v' :: l)).
    rewrite (skip_ws_elems _ _ _ Hwf), IH; [done | by apply Forall_cons | done |].
    cbn [lsize foldr] in *. lia.
Qed.

Lemma parse_print_members k v d fuel r :
  Forall (fun kv : string * json => ascii_str kv.1 = true /\ wf_json kv.2) ((k, v) :: d) ->
  Forall (fun kv : string * json => parses kv.2) ((k, v) :: d) ->
  (dsize ((k, v) :: d) <= fuel)%nat ->
  parse_members fuel
    (join ("," ++ sp) (List.map (fun kv => print_str (fst kv) ++ ":" ++ sp ++ print_with sp (snd kv)) ((k, v) :: d))
     ++ String "}" r) = Some ((k, v) :: d, r).
Proof.
  revert k v fuel. induction d as [|[k' v'] d IH]; intros k v fuel Hwf Hp Hf;
    rewrite Forall_cons in Hp, Hwf; destruct Hp as [Hv Hl], Hwf as [[Hk Hwv] Hwf]; cbn in Hk, Hwv;
    (destruct fuel as [|fuel]; [cbn in Hf; lia|]); cbn [dsize foldr snd] in Hf.
  - cbn [List.map join String.concat fst snd]. unfold print_str. norm_app.
    cbn [parse_members]. eval_chars. rewrite (parse_print_str _ _ Hk). eval_chars. rewrite ?skip_ws_sp.
    rewrite (skip_ws_print _ _ Hwv), Hv; [done|cbn in *; lia|done].
  - cbn [List.map]. rewrite join_cons2. cbn [fst snd]. unfold print_str at 1. norm_app.
    cbn [parse_members]. eval_chars. rewrite (parse_print_str _ _ Hk). eval_chars. rewrite ?skip_ws_sp.
    rewrite (skip_ws_print _ _ Hwv), Hv; [|cbn in *; lia|done]. norm_app. eval_chars. rewrite ?skip_ws_sp.
    change ((print_str k' ++ _) :: _)
      with (List.map (fun kv => print_str (fst kv) ++ ":" ++ sp ++ print_with sp (snd kv)) ((k', v') :: d)).
    replace (skip_ws _) with
      (join ("," ++ sp) (List.map (fun kv => print_str (fst kv) ++ ":" ++ sp ++ print_with sp (snd kv)) ((k', v') :: d))
       ++ String "}" r).
    + rewrite IH; [done|done|done|cbn [dsize foldr snd] in *; lia].
    + destruct d; cbn [List.map join String.concat]; unfold print_str; cbn [fst];
        rewrite !app_assoc, !app_cons; done.
Qed.

Lemma dset_fresh k v d : k ∉ d.*1 -> dset k v d = (d ++ [(k, v)])%list.
Proof.
  induction d as [|[k' v'] d IH]; [done|]. cbn. rewrite not_elem_of_cons.
  intros [Hne Hin]. destruct (String.eqb_spec k' k); [congruence|]. by rewrite IH.
Qed.

Lemma dmerge_fresh (a b : dict) : NoDup (a ++ b)%list.*1 -> dmerge a b = (a ++ b)%list.
Proof.
  unfold dmerge. revert a. induction b as [|[k v] b IH]; intros a Hnd; cbn [fold_left].
  - by rewrite List.app_nil_r.
  - cbn [fst snd]. rewrite dset_fresh.
    + rewrite IH; by rewrite <-List.app_assoc.
    + rewrite fmap_app, NoDup_app in Hnd. destruct Hnd as (_ & Hd & _).
      intros Hin. apply (Hd _ Hin). cbn. left.
Qed.

Lemma parse_print_value v : wf_json v -> parses v.
Proof.
  induction v as [|[]|n|x|s|l IH|d IH] using json_nested_ind; intros Hwf fuel r Hf Hr;
    (destruct fuel as [|fuel]; [cbn in Hf; lia|]); try done.
  - cbn [print_with]. by rewrite parse_value_number, parse_print_number.
  - cbn in Hwf. cbn [print_with]. unfold print_str. norm_app.
    transitivity (match parse_str (json_escape s ++ String quote_char r) with
                  | Some (x, r) => Some (JStr x, r) | None => None end); [done|].
    by rewrite (parse_print_str _ _ Hwf).
  - rewrite jsize_arr in Hf. apply wf_json_arr in Hwf. destruct l as [|v l]; [done|].
    assert (Forall parses (v :: l)) as Hp.
    { rewrite !Forall_forall in *. intros x Hx. by apply IH, Hwf. }
    pose proof Hwf as Hwf'. rewrite Forall_cons in Hwf'. destruct Hwf' as [Hv _].
    destruct (print_starts v Hv) as (c & s & Hs & _ & Hc & _).
    assert (exists s', join ("," ++ sp) (List.map (print_with sp) (v :: l)) = String c s') as [s' Hb].
    { destruct l as [|v' l]; cbn [List.map]; [by exists s|]. rewrite join_cons2, Hs, app_cons. eauto. }
    pose proof (skip_ws_elems v l (String "]" r) Hv) as Hws.
    pose proof (parse_print_elems v l fuel r Hwf Hp ltac:(lia)) as Hpe.
    cbn [print_with]. norm_app. set (body := join ("," ++ sp) _ ++ _) in *.
    transitivity (if startswith (skip_ws body) "]" then Some (JArr [], sdrop 1 (skip_ws body))
                  else match parse_elems fuel (skip_ws body) with
                       | Some (l, r) => Some (JArr l, r) | None => None end); [done|].
    rewrite Hws, Hpe. unfold body. rewrite Hb, app_cons. cbn [startswith].
    unfold ceqb in *. rewrite Ascii.eqb_sym in Hc. by rewrite Hc.
  - rewrite jsize_obj in Hf. apply wf_json_obj in Hwf as [Hnd Hwf]. destruct d as [|[k v] d]; [done|].
    assert (Forall (fun kv : string * json => parses kv.2) ((k, v) :: d)) as Hp.
    { rewrite !Forall_forall in *. intros x Hx. by apply IH, Hwf. }
    pose proof (parse_print_members k v d fuel r Hwf Hp ltac:(lia)) as Hpe.
    cbn [print_with]. norm_app. set (body := join ("," ++ sp) _ ++ _) in *.
    assert (exists s', body = String quote_char s') as [s' Hb].
    { unfold body. destruct d; cbn [List.map join String.concat fst snd]; unfold print_str at 1;
        norm_app; eauto. }
    transitivity (if startswith (skip_ws body) "}" then Some (JObj [], sdrop 1 (skip_ws body))
                  else match parse_members fuel (skip_ws body) with
                       | Some (l, r) => Some (JObj (dmerge [] l), r) | None => None end); [done|].
    assert (skip_ws body = body) as -> by (by rewrite Hb).
    rewrite Hpe, Hb. cbn [startswith]. eval_chars. cbn [andb].
    by rewrite (dmerge_fresh [] ((k, v) :: d)).
Qed.

(** ** Enough fuel *)
Lemma lsize_join l :
  Forall (fun v => (jsize v <= String.length (print_with sp v))%nat) l ->
  (lsize l <= S (String.length (join ("," ++ sp) (List.map (print_with sp) l))))%nat.
Proof.
  induction 1 as [|v l Hv Hl IH]; cbn [lsize foldr]; [lia|].
  destruct l as [|v' l]; [cbn in *; lia|].
  cbn [List.map] in *. rewrite join_cons2, !length_sapp. cbn [lsize foldr String.length] in *. lia.
Qed.

Lemma dsize_join d :
  Forall (fun kv : string * json => (jsize kv.2 <= String.length (print_with sp kv.2))%nat) d ->
  (dsize d <= S (String.length
    (join ("," ++ sp) (List.map (fun kv => print_str (fst kv) ++ ":" ++ sp ++ print_with sp (snd kv)) d))))%nat.
Proof.
  induction 1 as [|v d Hv Hl IH]; cbn [dsize foldr]; [lia|].
  destruct d as [|v' d]; [cbn in *; rewrite !length_sapp; lia|].
  cbn [List.map] in *. rewrite join_cons2, !length_sapp. cbn [dsize foldr String.length] in *. lia.
Qed.

Lemma jsize_print v : wf_json v -> (jsize v <= String.length (print_with sp v))%nat.
Proof.
  induction v as [|[]|n|x|s|l IH|d IH] using json_nested_ind; intros Hwf;
    try (exfalso; exact Hwf); try (cbn; lia).
  - cbn. destruct (str_of_Z_shape n) as (c & s & [-> | ->] & _); cbn; lia.
  - apply wf_json_arr in Hwf. rewrite jsize_arr. cbn [print_with]. rewrite !length_sapp. cbn.
    assert (lsize l <= S (String.length (join ("," ++ sp) (List.map (print_with sp) l))))%nat; [|lia].
    apply lsize_join. rewrite Forall_forall in *. auto.
  - apply wf_json_obj in Hwf as [_ Hwf]. rewrite jsize_obj. cbn [print_with]. rewrite !length_sapp.
    cbn [String.length]. assert (Forall (fun kv : string * json =>
      (jsize kv.2 <= String.length (print_with sp kv.2))%nat) d) as H; [|apply dsize_join in H; lia].
    rewrite !Forall_forall in *. intros x Hx. apply IH; [done|]. by apply Hwf.
Qed.

Lemma wf_sort_keys v : wf_json v -> wf_json (sort_keys v).
Proof.
  induction v as [|[]|n|x|s|l IH|d IH] using json_nested_ind; intros Hwf; try done.
  - cbn [sort_keys]. apply wf_json_arr. apply wf_json_arr in Hwf. rewrite Forall_forall in *.
    intros x (y & <- & Hy%list_elem_of_In)%list_elem_of_In%List.in_map_iff. auto.
  - apply wf_json_obj in Hwf as [Hnd Hwf]. cbn [sort_keys]. apply wf_json_obj.
    rewrite !sort_by_perm. split.
    + change (List.map (fun kv : string * json => (kv.1, sort_keys kv.2)) d)
        with ((fun kv : string * json => (kv.1, sort_keys kv.2)) <$> d).
      by rewrite <-list_fmap_compose.
    + rewrite !Forall_forall in *.
      intros x (y & <- & Hy%list_elem_of_In)%list_elem_of_In%List.in_map_iff.
      cbn. destruct (Hwf _ Hy). auto.
Qed.

Lemma json_parse_print_with v : wf_json v -> json_parse (print_with sp v) = Some v.
Proof.
  intros Hwf. unfold json_parse. pose proof (skip_ws_print v "" Hwf) as Hws.
  rewrite app_nil_r in Hws. rewrite Hws.
  pose proof (parse_print_value v Hwf (S (String.length (print_with sp v))) "") as Hp.
  rewrite app_nil_r in Hp. rewrite Hp; [done| |done]. pose proof (jsize_print v Hwf). lia.
Qed.

Lemma print_with_nonempty v : wf_json v -> truthy (print_with sp v) = true.
Proof. by intros (c & s & -> & _)%print_starts. Qed.
End Printed.

Lemma json_parse_print v : wf_json v -> json_parse (print_json v) = Some v.
Proof. apply json_parse_print_with. by left. Qed.
Lemma json_parse_spaced v : wf_json v -> json_parse (dumps v) = Some v.
Proof. apply json_parse_print_with. by right. Qed.

Lemma json_parse_dumps v : wf_json v -> json_parse (json_dumps v) = Some (sort_keys v).
Proof. intros Hwf. by apply json_parse_print, wf_sort_keys. Qed.

Lemma print_nonempty v : wf_json v -> truthy (print_json v) = true.
Proof. apply print_with_nonempty. Qed.

Lemma json_loads_dumps v d : wf_json v -> json_loads (Some (json_dumps v)) d = sort_keys v.
Proof.
  intros Hwf%wf_sort_keys. unfold json_loads, json_dumps.
  by rewrite (print_nonempty _ Hwf), (json_parse_print _ Hwf).
Qed.

Lemma str_of_Z_inj n m : str_of_Z n = str_of_Z m -> n = m.
Proof.
  intros He. assert (json_parse (print_json (JNum n)) = json_parse (print_json (JNum m))) as Hp
    by (cbn; by rewrite He).
  rewrite !json_parse_print in Hp by done. by injection Hp.
Qed.
