(* ===== verification/Dicts.v ===== *)
(** * Laws of dictionaries

    Reading what [dict[k] = v] and [{**a, **b}] wrote, also after a round trip
    through [utils.json_dumps] and [utils.json_loads]; and that these keep a
    dictionary within the values the codec is exact on. *)

From Stdlib Require Import ZArith Ascii String Lia.
From stdpp Require Import base option list strings.
From S2P Require Import Prelude Sha256 PyStr Json JsonCodec.
Local Open Scope string_scope.
Local Open Scope list_scope.

Create HintDb dicts.

(** A dictionary the codec is exact on. *)
#[warnings="-notation-for-abbreviation"] Notation wf_dict d := (wf_json (JObj d)).

Lemma dget_set k v d : dget k (dset k v d) = Some v.
Proof.
  unfold dget. induction d as [|[k' v'] d IH]; cbn; [by rewrite String.eqb_refl|].
  destruct (k' =s k) eqn:E; cbn; [by rewrite String.eqb_refl|]. by rewrite E.
Qed.

Lemma dget_set_ne k k' v d : (k' =s k) = false -> dget k (dset k' v d) = dget k d.
Proof.
  intros Hne. unfold dget. induction d as [|[k1 v1] d IH]; cbn; [by rewrite Hne|].
  destruct (k1 =s k') eqn:E; cbn; [|by destruct (k1 =s k)].
  apply String.eqb_eq in E as ->. by rewrite Hne.
Qed.

Lemma jget_set k v d : jget k (dset k v d) = v.
Proof. unfold jget. by rewrite dget_set. Qed.
Lemma jget_set_ne k k' v d : (k' =s k) = false -> jget k (dset k' v d) = jget k d.
Proof. intros Hne. unfold jget. by rewrite dget_set_ne. Qed.

Lemma dget_some k v d : dget k d = Some v -> (k, v) ∈ d.
Proof.
  unfold dget. destruct (List.find _ d) as [[k' v']|] eqn:E; [|done]. cbn. intros [= <-].
  apply List.find_some in E as [Hin He]. cbn in He. apply String.eqb_eq in He as <-. by apply list_elem_of_In.
Qed.

Lemma dget_none k d : dget k d = None <-> k ∉ d.*1.
Proof.
  unfold dget. induction d as [|[k' v'] d IH]; cbn; [split; [intros _ Hin; by apply elem_of_nil in Hin | done]|].
  rewrite not_elem_of_cons. destruct (String.eqb_spec k' k) as [->|Hne]; cbn; [split; [done | by intros [? _]]|].
  rewrite IH. split; [intros ?; split; [congruence | done] | by intros [_ ?]].
Qed.

Lemma dget_elem k v d : NoDup d.*1 -> (k, v) ∈ d -> dget k d = Some v.
Proof.
  induction d as [|[k' v'] d IH]; [by intros _ Hin%elem_of_nil|]. rewrite fmap_cons. intros [Hk Hnd]%NoDup_cons.
  unfold dget. cbn. intros [[= <- <-]|Hin]%elem_of_cons; [by rewrite String.eqb_refl|].
  destruct (String.eqb_spec k' k) as [->|Hne]; [|by apply IH]. exfalso. apply Hk. cbn.
  by apply (list_elem_of_fmap_2 fst) in Hin.
Qed.

(** A later dictionary wins. *)
Lemma dget_merge k a b : NoDup b.*1 -> dget k (dmerge a b) = match dget k b with Some v => Some v | None => dget k a end.
Proof.
  unfold dmerge. revert a. induction b as [|[k' v'] b IH]; intros a Hnd; [done|].
  rewrite fmap_cons in Hnd. apply NoDup_cons in Hnd as [Hk Hnd]. cbn [fold_left fst snd]. rewrite IH by done.
  destruct (String.eqb_spec k' k) as [->|Hne].
  - apply dget_none in Hk. cbn in Hk. rewrite Hk, dget_set. unfold dget. cbn. by rewrite String.eqb_refl.
  - apply String.eqb_neq in Hne. rewrite dget_set_ne by done. unfold dget at 2. cbn. by rewrite Hne.
Qed.

(** The dictionary [json_loads] gives back for one that [json_dumps] wrote. *)
Definition sorted_dict (d : dict) : dict := sort_by key_le (List.map (fun kv => (fst kv, sort_keys (snd kv))) d).

Lemma sort_keys_obj d : sort_keys (JObj d) = JObj (sorted_dict d).
Proof. reflexivity. Qed.

Lemma dget_sorted k d : NoDup d.*1 -> dget k (sorted_dict d) = sort_keys <$> dget k d.
Proof.
  intros Hnd. assert ((sorted_dict d).*1 ≡ₚ d.*1) as Hkeys.
  { unfold sorted_dict. rewrite sort_by_perm. change (List.map ?f d) with (f <$> d). by rewrite <-list_fmap_compose. }
  destruct (dget k d) as [v|] eqn:E; cbn.
  - apply dget_elem; [by rewrite Hkeys|]. apply elem_of_sort_by. apply dget_some in E.
    by apply (list_elem_of_fmap_2 (fun kv => (fst kv, sort_keys (snd kv)))) in E.
  - apply dget_none in E. apply dget_none. by rewrite Hkeys.
Qed.

Lemma jget_sorted k d : NoDup d.*1 -> jget k (sorted_dict d) = sort_keys (jget k d).
Proof. intros Hnd. unfold jget. rewrite dget_sorted by done. by destruct (dget k d). Qed.

Lemma wf_sorted d : wf_dict d -> wf_dict (sorted_dict d).
Proof. intros Hwf%wf_sort_keys. done. Qed.

Lemma wf_nodup d : wf_dict d -> NoDup d.*1.
Proof. by intros [? _]%wf_json_obj. Qed.

Lemma loads_dumps_dict d : wf_dict d -> json_loads (Some (json_dumps (JObj d))) (JObj []) = JObj (sorted_dict d).
Proof. intros Hwf. by rewrite json_loads_dumps. Qed.

Lemma wf_jget k d : wf_dict d -> wf_json (jget k d).
Proof.
  intros [_ Hd]%wf_json_obj. unfold jget. destruct (dget k d) as [v|] eqn:E; [|done].
  apply dget_some in E. rewrite Forall_forall in Hd. by destruct (Hd _ E).
Qed.

(** ** What stays within the codec *)
Lemma wf_set k v d : ascii_str k = true -> wf_json v -> wf_dict d -> wf_dict (dset k v d).
Proof.
  intros Hk Hv. rewrite !wf_json_obj. intros [Hnd Hd]. split.
  - destruct (decide (k ∈ d.*1)) as [Hin|Hni].
    + assert ((dset k v d).*1 = d.*1) as ->; [|done]. clear Hnd Hd Hv. induction d as [|[k' v'] d IH]; [by apply elem_of_nil in Hin|].
      cbn in *. destruct (String.eqb_spec k' k) as [->|Hne]; [done|]. cbn. f_equal. apply IH.
      apply elem_of_cons in Hin as [->|]; done.
    + rewrite dset_fresh by done. rewrite fmap_app. apply NoDup_app. split_and!; [done | | apply NoDup_singleton].
      intros x Hx ->%list_elem_of_singleton. done.
  - clear Hnd. induction Hd as [|[k' v'] d Hx Hd IH]; [by repeat constructor|]. cbn. destruct (k' =s k); constructor; done.
Qed.

Lemma wf_merge a b : wf_dict a -> wf_dict b -> wf_dict (dmerge a b).
Proof.
  intros Ha [_ Hb]%wf_json_obj. unfold dmerge. revert a Ha. induction Hb as [|[k v] b [Hk Hv] _ IH]; intros a Ha; [done|].
  cbn [fold_left]. apply IH. by apply wf_set.
Qed.

Lemma wf_filter p d : wf_dict d -> wf_dict (List.filter p d).
Proof.
  rewrite !wf_json_obj. intros [Hnd Hd]. split.
  - clear Hd. induction d as [|x d IH]; [done|]. rewrite fmap_cons in Hnd. apply NoDup_cons in Hnd as [Hx Hnd]. cbn.
    destruct (p x); [|by apply IH]. rewrite fmap_cons. constructor; [|by apply IH].
    intros (y & He & Hy)%list_elem_of_fmap. apply Hx. rewrite He. apply list_elem_of_fmap_2.
    apply list_elem_of_In, List.filter_In in Hy as [Hy _]. by apply list_elem_of_In.
  - rewrite Forall_forall in *. intros x [Hx _]%list_elem_of_In%List.filter_In. apply Hd. by apply list_elem_of_In.
Qed.

Lemma wf_empty : wf_dict [].
Proof. by repeat constructor. Qed.

#[export] Hint Resolve wf_set wf_merge wf_filter wf_empty wf_sorted wf_jget : dicts.
#[export] Hint Extern 1 (ascii_str _ = true) => reflexivity : dicts.
#[export] Hint Extern 1 (wf_json JNull) => exact I : dicts.
#[export] Hint Extern 1 (wf_json (JBool _)) => exact I : dicts.
#[export] Hint Extern 1 (wf_json (JNum _)) => exact I : dicts.
