(* ===== verification/Base64.v ===== *)
(** * Base64 ([base64] of the Python standard library)

    The standard and URL-safe alphabets, encoding, strict decoding and the
    decoding without validation, with their round trips and the form of an
    encoded text. *)

From Stdlib Require Import ZArith Ascii String Lia.
From stdpp Require Import base option list strings.
From S2P Require Import Prelude Sha256 PyStr Json.
Local Open Scope string_scope.
Local Open Scope list_scope.

(** ** Base64 ([base64.b64encode], [b64decode(..., validate=True)]) *)
Definition b64_alphabet : list ascii :=
  list_ascii_of_string "ABCDEFGHIJKLMNOPQRSTUVWXYZabcdefghijklmnopqrstuvwxyz0123456789+/".
Definition b64_char (n : N) : ascii := List.nth (N.to_nat n) b64_alphabet "="%char.
Fixpoint index_of (c : ascii) (l : list ascii) : option N :=
  match l with
  | [] => None
  | x :: l' => if ceqb x c then Some 0%N else N.succ <$> index_of c l'
  end.
Definition b64_index (c : ascii) : option N := index_of c b64_alphabet.
Definition pad_char : ascii := "="%char.

Fixpoint b64encode (s : string) : string :=
  match s with
  | EmptyString => ""
  | String a EmptyString =>
      String (b64_char (ncode a / 4)) (String (b64_char (ncode a mod 4 * 16)) "==")
  | String a (String b EmptyString) =>
      String (b64_char (ncode a / 4)) (String (b64_char (ncode a mod 4 * 16 + ncode b / 16))
        (String (b64_char (ncode b mod 16 * 4)) "="))
  | String a (String b (String c s')) =>
      String (b64_char (ncode a / 4)) (String (b64_char (ncode a mod 4 * 16 + ncode b / 16))
        (String (b64_char (ncode b mod 16 * 4 + ncode c / 64)) (String (b64_char (ncode c mod 64))
          (b64encode s'))))
  end.

(** [None] is the binascii.Error of the strict mode. *)
Fixpoint b64decode (s : string) : option string :=
  match s with
  | EmptyString => Some ""
  | String p (String q (String r (String t s'))) =>
      match b64_index p, b64_index q with
      | Some i, Some j =>
          if ceqb r pad_char then
            if ceqb t pad_char && (s' =s "") then Some (String (chr (i * 4 + j / 16)) "") else None
          else match b64_index r with
          | None => None
          | Some k =>
              if ceqb t pad_char then
                if s' =s "" then Some (String (chr (i * 4 + j / 16)) (String (chr (j mod 16 * 16 + k / 4)) ""))
                else None
              else match b64_index t, b64decode s' with
              | Some l, Some rest =>
                  Some (String (chr (i * 4 + j / 16)) (String (chr (j mod 16 * 16 + k / 4))
                    (String (chr (k mod 4 * 64 + l)) rest)))
              | _, _ => None
              end
          end
      | _, _ => None
      end
  | _ => None
  end.

Example b64_example : b64encode "capmesh!" = "Y2FwbWVzaCE=" /\ b64decode "Y2FwbWVzaCE=" = Some "capmesh!".
Proof. split; reflexivity. Qed.

Lemma b64_index_char n : (n < 64)%N -> b64_index (b64_char n) = Some n.
Proof.
  intros Hn. assert (List.forallb (fun n => bool_decide (b64_index (b64_char n) = Some n))
                       (N.of_nat <$> List.seq 0 64) = true) as Hall by (vm_compute; reflexivity).
  rewrite List.forallb_forall in Hall. apply (bool_decide_eq_true _). apply Hall.
  apply list_elem_of_In, list_elem_of_fmap. exists (N.to_nat n). split; [lia|].
  apply list_elem_of_In, List.in_seq. lia.
Qed.

Lemma b64_char_not_pad n : (n < 64)%N -> ceqb (b64_char n) pad_char = false.
Proof.
  intros Hn. unfold ceqb. apply Ascii.eqb_neq. intros E. pose proof (b64_index_char n Hn) as Hi.
  rewrite E in Hi. discriminate Hi.
Qed.

Lemma ncode_bound a : (ncode a < 256)%N.
Proof. apply N_ascii_bounded. Qed.

Lemma chr_of n a : n = ncode a -> chr n = a.
Proof. intros ->. apply ascii_N_embedding. Qed.

Lemma b64_roundtrip s : b64decode (b64encode s) = Some s.
Proof.
  revert s. fix IH 1. intros [|a [|b [|c s]]]; [reflexivity| | |]; cbn [b64encode b64decode];
    pose proof (ncode_bound a); try pose proof (ncode_bound b); try pose proof (ncode_bound c);
    rewrite !b64_index_char by (zify; Z.to_euclidean_division_equations; lia).
  - change (ceqb "=" pad_char) with true. cbn [andb]. cbn.
    do 2 f_equal. apply chr_of. zify; Z.to_euclidean_division_equations; lia.
  - rewrite b64_char_not_pad by (zify; Z.to_euclidean_division_equations; lia).
    change (ceqb "=" pad_char) with true. cbn [andb].
    repeat f_equal; apply chr_of; zify; Z.to_euclidean_division_equations; lia.
  - rewrite !b64_char_not_pad by (zify; Z.to_euclidean_division_equations; lia).
    rewrite (IH s). repeat f_equal; apply chr_of; zify; Z.to_euclidean_division_equations; lia.
Qed.

Definition url_char (c : ascii) : bool := is_alnum c || one_of "_-" c.

(** ** URL-safe base64 *)
Definition std_to_url (c : ascii) : ascii := if ceqb c "+" then "-"%char else if ceqb c "/" then "_"%char else c.
Definition url_to_std (c : ascii) : ascii := if ceqb c "-" then "+"%char else if ceqb c "_" then "/"%char else c.
Definition urlsafe_b64encode (s : string) : string := smap std_to_url (b64encode s).
Definition urlsafe_b64decode (s : string) : option string := b64decode (smap url_to_std s).

(** ["=" * (-len(text) % 4)] *)
Definition padding (text : string) : string :=
  match Z.to_nat ((- Z.of_nat (String.length text)) mod 4) with
  | 0 => "" | 1 => "=" | 2 => "==" | _ => "==="
  end%nat.

(** ** [base64.urlsafe_b64decode] of any text

    Without validation binascii skips every character outside the alphabet; a
    padding that completes a group ends the text.  [None] is a binascii.Error:
    a group left incomplete. *)
Fixpoint loose_decode (quad pads : nat) (left : N) (s : string) : option string :=
  match s with
  | "" => if Nat.eqb quad 0 then Some "" else None
  | String c s' =>
      if ceqb c pad_char then
        if Nat.leb 2 quad && Nat.leb 4 (quad + S pads) then Some ""
        else loose_decode quad (if Nat.leb 2 quad then S pads else pads) left s'
      else match b64_index c with
      | None => loose_decode quad pads left s'
      | Some v =>
          match quad with
          | 0 => loose_decode 1 0 v s'
          | 1 => String (chr (left * 4 + v / 16)) <$> loose_decode 2 0 (v mod 16) s'
          | 2 => String (chr (left * 16 + v / 4)) <$> loose_decode 3 0 (v mod 4) s'
          | _ => String (chr (left * 64 + v)) <$> loose_decode 0 0 0 s'
          end%nat
      end
  end.
Definition urlsafe_b64decode_loose (s : string) : option string := loose_decode 0 0 0 (smap url_to_std s).

(** ** The form of an encoded text *)
Definition std_char (c : ascii) : bool := is_alnum c || one_of "+/" c.

Lemma b64_char_std n : (n < 64)%N -> std_char (b64_char n) = true.
Proof.
  intros Hn. assert (List.forallb (fun n => std_char (b64_char n)) (N.of_nat <$> List.seq 0 64) = true) as Hall
    by (vm_compute; reflexivity).
  rewrite List.forallb_forall in Hall. apply Hall, list_elem_of_In, list_elem_of_fmap. exists (N.to_nat n).
  split; [lia|]. apply list_elem_of_In, List.in_seq. lia.
Qed.

Lemma b64_shape k s : String.length s = (3 * k + 1)%nat ->
  exists body, b64encode s = body +:+ "==" /\ String.length body = (4 * k + 2)%nat /\ sall std_char body = true.
Proof.
  revert s. induction k as [|k IH]; intros s Hs.
  - destruct s as [|a [|]]; try discriminate Hs. cbn [b64encode]. eexists (String _ (String _ "")).
    split; [reflexivity|]. split; [done|]. pose proof (ncode_bound a). unfold sall. cbn -[b64_char].
    rewrite !b64_char_std by (zify; Z.to_euclidean_division_equations; lia). done.
  - destruct s as [|a [|b [|c s]]]; cbn [String.length] in Hs; try lia.
    destruct (IH s) as (body & He & Hl & Hall); [lia|]. cbn [b64encode]. rewrite He.
    eexists (String _ (String _ (String _ (String _ body)))). split; [reflexivity|].
    split; [cbn [String.length]; lia|]. unfold sall in *. cbn -[b64_char]. rewrite Hall.
    pose proof (ncode_bound a); pose proof (ncode_bound b); pose proof (ncode_bound c).
    rewrite !b64_char_std by (zify; Z.to_euclidean_division_equations; lia). done.
Qed.

Lemma std_char_url c : std_char c = true ->
  url_char (std_to_url c) = true /\ url_to_std (std_to_url c) = c /\ ceqb pad_char (std_to_url c) = false.
Proof. destruct c as [[] [] [] [] [] [] [] []]; vm_compute; done. Qed.

(** ** The unpadded URL-safe text of any bytes *)
Lemma padding_step a b c d s : padding (String a (String b (String c (String d s)))) = padding s.
Proof.
  unfold padding. do 2 f_equal. cbn [String.length].
  replace (- Z.of_nat (S (S (S (S (String.length s))))))%Z with (- Z.of_nat (String.length s) + (-1) * 4)%Z by lia.
  by rewrite Z.mod_add by lia.
Qed.

Lemma b64_body s : exists body, b64encode s = body +:+ padding body /\ sall std_char body = true.
Proof.
  revert s. fix IH 1. intros [|a [|b [|c s]]].
  - by exists "".
  - pose proof (ncode_bound a). cbn [b64encode]. eexists (String _ (String _ "")). split; [reflexivity|].
    unfold sall. cbn -[b64_char]. by rewrite !b64_char_std by (zify; Z.to_euclidean_division_equations; lia).
  - pose proof (ncode_bound a); pose proof (ncode_bound b). cbn [b64encode]. eexists (String _ (String _ (String _ ""))). split; [reflexivity|].
    unfold sall. cbn -[b64_char]. by rewrite !b64_char_std by (zify; Z.to_euclidean_division_equations; lia).
  - destruct (IH s) as (body & He & Hall). pose proof (ncode_bound a); pose proof (ncode_bound b); pose proof (ncode_bound c).
    cbn [b64encode]. rewrite He. eexists (String _ (String _ (String _ (String _ body)))). rewrite padding_step.
    split; [reflexivity|]. unfold sall in *. cbn -[b64_char]. rewrite Hall.
    by rewrite !b64_char_std by (zify; Z.to_euclidean_division_equations; lia).
Qed.

Definition unpadded (s : string) : string := rstrip_by (ceqb pad_char) (urlsafe_b64encode s).

Lemma padding_is_pad s : sall (ceqb pad_char) (padding s) = true.
Proof. unfold padding. by repeat case_match. Qed.

(** The unpadded text is of the URL alphabet, and padded again and translated
    back it is the standard encoding. *)
Lemma unpadded_form s :
  sall url_char (unpadded s) = true /\ smap url_to_std (unpadded s +:+ padding (unpadded s)) = b64encode s.
Proof.
  destruct (b64_body s) as (body & He & Hstd).
  assert (unpadded s = smap std_to_url body) as ->.
  { unfold unpadded, urlsafe_b64encode. rewrite He, smap_app. apply rstrip_by_app.
    - rewrite sall_smap. eapply sall_impl, Hstd. intros c Hc. by apply negb_true_iff, std_char_url.
    - rewrite sall_smap. eapply sall_impl, padding_is_pad. intros c Hc. unfold ceqb in Hc. apply Ascii.eqb_eq in Hc as <-. done. }
  split.
  - rewrite sall_smap. eapply sall_impl, Hstd. intros c Hc. by apply std_char_url.
  - rewrite smap_app, smap_smap, (smap_id std_char); [|by intros c Hc; apply std_char_url | done].
    assert (padding (smap std_to_url body) = padding body) as -> by (unfold padding; by rewrite length_smap).
    rewrite He. f_equal. unfold padding. by repeat case_match.
Qed.

Lemma loose_decode_b64 s : loose_decode 0 0 0 (b64encode s) = Some s.
Proof.
  revert s. fix IH 1. intros [|a [|b [|c s]]]; [reflexivity| | |]; cbn [b64encode loose_decode];
    pose proof (ncode_bound a); try pose proof (ncode_bound b); try pose proof (ncode_bound c);
    repeat (rewrite b64_char_not_pad by (zify; Z.to_euclidean_division_equations; lia);
            rewrite b64_index_char by (zify; Z.to_euclidean_division_equations; lia); cbn [loose_decode]).
  - change (ceqb "=" pad_char) with true. cbn. do 2 f_equal. apply chr_of. zify; Z.to_euclidean_division_equations; lia.
  - change (ceqb "=" pad_char) with true. cbn.
    repeat f_equal; apply chr_of; zify; Z.to_euclidean_division_equations; lia.
  - rewrite (IH s). cbn. repeat f_equal; apply chr_of; zify; Z.to_euclidean_division_equations; lia.
Qed.

Lemma unpadded_roundtrip s : urlsafe_b64decode_loose (unpadded s +:+ padding (unpadded s)) = Some s.
Proof. unfold urlsafe_b64decode_loose. rewrite (proj2 (unpadded_form s)). apply loose_decode_b64. Qed.
