(* ===== verification/Clock.v ===== *)
(** * Time stamps

    Instants are microseconds since the epoch; the three text forms the source
    writes and compares as strings are [utils.utc_now] (seconds, suffix Z),
    SQLite's CURRENT_TIMESTAMP, and [datetime.isoformat()] of an aware UTC
    datetime (the fraction is left out when it is zero).  The texts order as
    the instants do, which the expiry tests of the source rely on. *)

From Stdlib Require Import ZArith Ascii String Lia.
From stdpp Require Import base option list strings.
From S2P Require Import Prelude Sha256 PyStr.
Local Open Scope string_scope.
Local Open Scope Z_scope.

(** ** The civil calendar *)
Definition is_leap (y : Z) : bool :=
  (Z.eqb (y mod 4) 0) && (negb (Z.eqb (y mod 100) 0) || Z.eqb (y mod 400) 0).
Definition ylen (y : Z) : Z := if is_leap y then 366 else 365.
Definition mlen (y m : Z) : Z :=
  if Z.eqb m 2 then (if is_leap y then 29 else 28)
  else if Z.eqb m 4 || Z.eqb m 6 || Z.eqb m 9 || Z.eqb m 11 then 30 else 31.

Fixpoint split_years (fuel : nat) (y n : Z) : Z * Z :=
  match fuel with
  | O => (y, n)
  | S f => if n <? ylen y then (y, n) else split_years f (y + 1) (n - ylen y)
  end.
Fixpoint split_months (fuel : nat) (y m n : Z) : Z * Z :=
  match fuel with
  | O => (m, n)
  | S f => if n <? mlen y m then (m, n) else split_months f y (m + 1) (n - mlen y m)
  end.

(** [k] decimal digits of [n]. *)
Definition digit (n : Z) : ascii := ascii_of_nat (48 + Z.to_nat n).
Fixpoint pad (k : nat) (n : Z) : string :=
  match k with
  | O => ""
  | S k' => pad k' (n / 10) ++ String (digit (n mod 10)) ""
  end.

Definition date_text (days : Z) : string :=
  let '(y, r) := split_years (S (Z.to_nat (days / 365))) 1970 days in
  let '(m, d) := split_months 11 y 1 r in
  pad 4 y ++ "-" ++ pad 2 m ++ "-" ++ pad 2 (d + 1).

Definition time_text (secs : Z) : string :=
  pad 2 (secs / 3600) ++ ":" ++ pad 2 (secs / 60 mod 60) ++ ":" ++ pad 2 (secs mod 60).

Definition stamp (sep : string) (secs : Z) : string :=
  date_text (secs / 86400) ++ sep ++ time_text (secs mod 86400).

(** [utils.utc_now()], CURRENT_TIMESTAMP and [datetime.now(UTC).isoformat()]
    at the instant [t]. *)
Definition utc_text (t : Z) : string := stamp "T" (t / 1000000) ++ "Z".
Definition sql_text_now (t : Z) : string := stamp " " (t / 1000000).
Definition iso_text (t : Z) : string :=
  stamp "T" (t / 1000000)
  ++ (if Z.eqb (t mod 1000000) 0 then "" else "." ++ pad 6 (t mod 1000000)) ++ "+00:00".

Example utc_text_example : utc_text 1784505600123456 = "2026-07-20T00:00:00Z".
Proof. vm_compute. reflexivity. Qed.
Example iso_text_example : iso_text 951782399500000 = "2000-02-28T23:59:59.500000+00:00".
Proof. vm_compute. reflexivity. Qed.

(** The instants whose dates have four-digit years. *)
Definition instant_ok (t : Z) : Prop := 0 <= t < 86400000000 * 2930000.

(** ** Comparison of fixed-width texts *)
Definition lex (c d : comparison) : comparison := match c with Eq => d | _ => c end.

Lemma compare_app a b x y :
  String.length a = String.length b ->
  String.compare (a ++ x) (b ++ y) = lex (String.compare a b) (String.compare x y).
Proof.
  revert b. induction a as [|c a IH]; intros [|d b]; try done.
  intros [= Hl]. rewrite !app_cons. cbn. destruct (Ascii.compare c d); [|done..]. by apply IH.
Qed.

Lemma compare_same a x y : String.compare (a ++ x) (a ++ y) = String.compare x y.
Proof.
  rewrite compare_app by done.
  assert (String.compare a a = Eq) as ->; [|done].
  induction a as [|c a IH]; [done|]. cbn. unfold Ascii.compare.
  by rewrite N.compare_refl.
Qed.

Lemma length_pad k n : String.length (pad k n) = k.
Proof. revert n. induction k; intros n; cbn; [done|]. rewrite length_sapp, IHk. cbn. lia. Qed.

Lemma compare_digit a b :
  0 <= a < 10 -> 0 <= b < 10 ->
  String.compare (String (digit a) "") (String (digit b) "") = (a ?= b).
Proof.
  intros Ha Hb.
  assert (a = 0 \/ a = 1 \/ a = 2 \/ a = 3 \/ a = 4 \/ a = 5 \/ a = 6 \/ a = 7 \/ a = 8 \/ a = 9) as Ha' by lia.
  assert (b = 0 \/ b = 1 \/ b = 2 \/ b = 3 \/ b = 4 \/ b = 5 \/ b = 6 \/ b = 7 \/ b = 8 \/ b = 9) as Hb' by lia.
  clear Ha Hb. repeat destruct Ha' as [->|Ha']; try subst a;
    repeat destruct Hb' as [->|Hb']; try subst b; reflexivity.
Qed.

Lemma compare_split (q a b : Z) :
  0 < q -> lex (a / q ?= b / q) (a mod q ?= b mod q) = (a ?= b).
Proof.
  intros Hq. pose proof (Z.div_mod a q ltac:(lia)). pose proof (Z.div_mod b q ltac:(lia)).
  pose proof (Z.mod_pos_bound a q Hq). pose proof (Z.mod_pos_bound b q Hq).
  destruct (Z.compare_spec (a / q) (b / q)); cbn;
    [destruct (Z.compare_spec (a mod q) (b mod q)) | |];
    symmetry; first [apply Z.compare_eq_iff | apply Z.compare_lt_iff | apply Z.compare_gt_iff]; nia.
Qed.

Lemma compare_pad k a b :
  0 <= a < 10 ^ Z.of_nat k -> 0 <= b < 10 ^ Z.of_nat k ->
  String.compare (pad k a) (pad k b) = (a ?= b).
Proof.
  revert a b. induction k as [|k IH]; intros a b Ha Hb.
  - cbn in *. by replace b with a by lia; rewrite Z.compare_refl.
  - rewrite Nat2Z.inj_succ, Z.pow_succ_r in Ha, Hb by lia. cbn [pad].
    rewrite compare_app by by rewrite !length_pad.
    rewrite IH, compare_digit, compare_split; [done|lia|..].
    1,2: apply Z.mod_pos_bound; lia.
    all: split; [apply Z.div_pos; lia | apply Z.div_lt_upper_bound; lia].
Qed.

(** ** The calendar is monotone *)
Lemma ylen_bounds y : 365 <= ylen y <= 366.
Proof. unfold ylen. destruct (is_leap y); lia. Qed.
Lemma mlen_bounds y m : 28 <= mlen y m <= 31.
Proof. unfold mlen. repeat case_match; lia. Qed.

Lemma split_years_ge f y n : y <= (split_years f y n).1.
Proof.
  revert y n. induction f as [|f IH]; intros y n; cbn; [lia|].
  destruct (n <? ylen y); cbn; [lia|]. specialize (IH (y + 1) (n - ylen y)). lia.
Qed.

Lemma split_years_range f y n :
  0 <= n < 365 * Z.of_nat f ->
  let p := split_years f y n in 0 <= p.2 < ylen p.1 /\ y <= p.1 <= y + n / 365.
Proof.
  revert y n. induction f as [|f IH]; intros y n Hn; cbn; [lia|].
  pose proof (ylen_bounds y). destruct (Z.ltb_spec n (ylen y)); cbn.
  - pose proof (Z.div_pos n 365). lia.
  - specialize (IH (y + 1) (n - ylen y) ltac:(lia)). cbn in IH. destruct IH as [IH1 IH2].
    split; [done|]. split; [lia|].
    assert ((n - ylen y) / 365 <= n / 365 - 1); [|lia].
    replace (n / 365 - 1) with ((n + -1 * 365) / 365) by (rewrite Z.div_add by lia; lia).
    apply Z.div_le_mono; lia.
Qed.

Lemma split_years_compare f g y a b :
  0 <= a < 365 * Z.of_nat f -> 0 <= b < 365 * Z.of_nat g ->
  let p := split_years f y a in let q := split_years g y b in
  (a ?= b) = lex (p.1 ?= q.1) (p.2 ?= q.2).
Proof.
  revert g y a b. induction f as [|f IH]; intros g y a b Ha Hb; cbn; [lia|].
  destruct g as [|g]; cbn; [lia|]. pose proof (ylen_bounds y).
  destruct (Z.ltb_spec a (ylen y)), (Z.ltb_spec b (ylen y)); cbn.
  - by rewrite Z.compare_refl.
  - pose proof (split_years_ge g (y + 1) (b - ylen y)).
    assert ((y ?= (split_years g (y + 1) (b - ylen y)).1) = Lt) as -> by (apply Z.compare_lt_iff; lia).
    cbn. apply Z.compare_lt_iff. lia.
  - pose proof (split_years_ge f (y + 1) (a - ylen y)).
    assert (((split_years f (y + 1) (a - ylen y)).1 ?= y) = Gt) as -> by (apply Z.compare_gt_iff; lia).
    cbn. apply Z.compare_gt_iff. lia.
  - rewrite <-IH by lia.
    destruct (Z.compare_spec (a - ylen y) (b - ylen y)); destruct (Z.compare_spec a b);
      first [done | exfalso; lia].
Qed.

Lemma split_months_ge f y m n : m <= (split_months f y m n).1 <= m + Z.of_nat f.
Proof.
  revert m n. induction f as [|f IH]; intros m n; cbn; [lia|].
  destruct (n <? mlen y m); cbn; [lia|]. specialize (IH (m + 1) (n - mlen y m)). lia.
Qed.

Lemma split_months_nonneg f y m n : 0 <= n -> 0 <= (split_months f y m n).2 <= n.
Proof.
  revert m n. induction f as [|f IH]; intros m n Hn; cbn; [lia|].
  pose proof (mlen_bounds y m). destruct (Z.ltb_spec n (mlen y m)); cbn; [lia|].
  specialize (IH (m + 1) (n - mlen y m)). lia.
Qed.

Lemma split_months_compare f y m a b :
  0 <= a -> 0 <= b ->
  let p := split_months f y m a in let q := split_months f y m b in
  (a ?= b) = lex (p.1 ?= q.1) (p.2 ?= q.2).
Proof.
  revert m a b. induction f as [|f IH]; intros m a b Ha Hb; cbn; [by rewrite Z.compare_refl|].
  destruct (Z.ltb_spec a (mlen y m)), (Z.ltb_spec b (mlen y m)); cbn.
  - by rewrite Z.compare_refl.
  - pose proof (split_months_ge f y (m + 1) (b - mlen y m)).
    assert ((m ?= (split_months f y (m + 1) (b - mlen y m)).1) = Lt) as -> by (apply Z.compare_lt_iff; lia).
    cbn. apply Z.compare_lt_iff. lia.
  - pose proof (split_months_ge f y (m + 1) (a - mlen y m)).
    assert (((split_months f y (m + 1) (a - mlen y m)).1 ?= m) = Gt) as -> by (apply Z.compare_gt_iff; lia).
    cbn. apply Z.compare_gt_iff. lia.
  - rewrite <-IH by lia.
    destruct (Z.compare_spec (a - mlen y m) (b - mlen y m)); destruct (Z.compare_spec a b);
      first [done | exfalso; lia].
Qed.

(** A day of year [r] leaves a two-digit day of month. *)
Lemma split_months_day y r :
  0 <= r < ylen y -> (split_months 11 y 1 r).2 < 99.
Proof.
  intros Hr.
  do 11 match goal with
  | |- context [split_months (S ?f) y ?m ?n] =>
      let m' := eval vm_compute in (m + 1) in
      change (split_months (S f) y m n)
        with (if n <? mlen y m then (m, n) else split_months f y m' (n - mlen y m));
      destruct (Z.ltb_spec n (mlen y m)); [pose proof (mlen_bounds y m); cbn [snd]; lia|]
  end.
  cbn [split_months snd]. unfold ylen in Hr.
  change (mlen y 1) with 31 in *. change (mlen y 2) with (if is_leap y then 29 else 28) in *.
  change (mlen y 3) with 31 in *. change (mlen y 4) with 30 in *. change (mlen y 5) with 31 in *.
  change (mlen y 6) with 30 in *. change (mlen y 7) with 31 in *. change (mlen y 8) with 31 in *.
  change (mlen y 9) with 30 in *. change (mlen y 10) with 31 in *. change (mlen y 11) with 30 in *.
  set (b := is_leap y) in *. clearbody b. destruct b; lia.
Qed.

Lemma date_parts days :
  0 <= days < 2930000 ->
  let '(y, r) := split_years (S (Z.to_nat (days / 365))) 1970 days in
  let '(m, d) := split_months 11 y 1 r in
  0 <= y < 10000 /\ 0 <= r < ylen y /\ 1 <= m <= 12 /\ 0 <= d < 99.
Proof.
  intros Hd.
  pose proof (Z.div_mod days 365 ltac:(lia)). pose proof (Z.mod_pos_bound days 365 ltac:(lia)).
  pose proof (Z.div_pos days 365 ltac:(lia) ltac:(lia)).
  pose proof (split_years_range (S (Z.to_nat (days / 365))) 1970 days ltac:(lia)) as Hy.
  destruct (split_years _ 1970 days) as [y r]; cbn [fst snd] in Hy.
  assert (days / 365 < 8028) by (apply Z.div_lt_upper_bound; lia).
  pose proof (split_months_ge 11 y 1 r) as Hm. pose proof (split_months_day y r ltac:(lia)) as Hd1.
  pose proof (split_months_nonneg 11 y 1 r ltac:(lia)) as Hd2.
  destruct (split_months 11 y 1 r) as [m d]; cbn [fst snd] in *. lia.
Qed.

Lemma length_date days : String.length (date_text days) = 10%nat.
Proof.
  unfold date_text. destruct (split_years _ _ _) as [y r], (split_months _ _ _ _) as [m d].
  by rewrite !length_sapp, !length_pad.
Qed.

#[local] Arguments pad : simpl never.

Lemma compare_date a b :
  0 <= a < 2930000 -> 0 <= b < 2930000 ->
  String.compare (date_text a) (date_text b) = (a ?= b).
Proof.
  intros Ha Hb. pose proof (date_parts a Ha) as Pa. pose proof (date_parts b Hb) as Pb.
  pose proof (Z.mod_pos_bound a 365 ltac:(lia)). pose proof (Z.mod_pos_bound b 365 ltac:(lia)).
  pose proof (Z.div_mod a 365 ltac:(lia)). pose proof (Z.div_mod b 365 ltac:(lia)).
  rewrite (split_years_compare (S (Z.to_nat (a / 365))) (S (Z.to_nat (b / 365))) 1970 a b) by lia.
  unfold date_text.
  destruct (split_years (S (Z.to_nat (a / 365))) 1970 a) as [y r] eqn:Ea,
    (split_years (S (Z.to_nat (b / 365))) 1970 b) as [y' r'] eqn:Eb. cbn [fst snd].
  destruct (split_months 11 y 1 r) as [m d] eqn:Ema, (split_months 11 y' 1 r') as [m' d'] eqn:Emb.
  rewrite compare_app by by rewrite !length_pad. rewrite compare_pad by (cbn; lia).
  destruct (Z.compare_spec y y') as [->| |]; [|done..]. cbn [lex].
  rewrite (split_months_compare 11 y' 1 r r') by lia. rewrite Ema, Emb. cbn [fst snd].
  rewrite compare_same, compare_app by by rewrite !length_pad. rewrite compare_pad by (cbn; lia).
  destruct (Z.compare_spec m m') as [->| |]; [|done..]. cbn [lex].
  rewrite compare_same, compare_pad by (cbn; lia).
  destruct (Z.compare_spec d d'), (Z.compare_spec (d + 1) (d' + 1));
    first [done | exfalso; lia].
Qed.

Lemma length_time s : String.length (time_text s) = 8%nat.
Proof. unfold time_text. by rewrite !length_sapp, !length_pad. Qed.

Lemma compare_time a b :
  0 <= a < 86400 -> 0 <= b < 86400 -> String.compare (time_text a) (time_text b) = (a ?= b).
Proof.
  intros Ha Hb. unfold time_text.
  assert (forall x, 0 <= x < 86400 -> 0 <= x / 3600 < 24) as H1.
  { intros x Hx. split; [apply Z.div_pos; lia | apply Z.div_lt_upper_bound; lia]. }
  assert (forall x q, 0 < q <= 60 -> 0 <= x mod q < 60) as H2.
  { intros x q Hq. pose proof (Z.mod_pos_bound x q). lia. }
  pose proof (H1 a Ha). pose proof (H1 b Hb).
  pose proof (H2 (a / 60) 60 ltac:(lia)). pose proof (H2 (b / 60) 60 ltac:(lia)).
  pose proof (H2 a 60 ltac:(lia)). pose proof (H2 b 60 ltac:(lia)).
  rewrite compare_app, compare_pad by first [by rewrite !length_pad | cbn; lia].
  rewrite compare_same, compare_app, compare_pad by first [by rewrite !length_pad | cbn; lia].
  rewrite compare_same, compare_pad by (cbn; lia).
  rewrite <-(compare_split 60 a b), <-(compare_split 60 (a / 60) (b / 60)) by lia.
  rewrite !Z.div_div by lia. change (60 * 60) with 3600.
  by destruct (a / 3600 ?= b / 3600).
Qed.

Lemma length_stamp sep s : String.length (stamp sep s) = (18 + String.length sep)%nat.
Proof. unfold stamp. rewrite !length_sapp, length_date, length_time. lia. Qed.

Lemma compare_stamp sep a b :
  0 <= a < 86400 * 2930000 -> 0 <= b < 86400 * 2930000 ->
  String.compare (stamp sep a) (stamp sep b) = (a ?= b).
Proof.
  intros Ha Hb. unfold stamp.
  pose proof (Z.mod_pos_bound a 86400 ltac:(lia)). pose proof (Z.mod_pos_bound b 86400 ltac:(lia)).
  rewrite compare_app by by rewrite !length_date.
  rewrite compare_date by (split; [apply Z.div_pos; lia | apply Z.div_lt_upper_bound; lia]).
  rewrite compare_same, compare_time by lia. by apply compare_split.
Qed.

Lemma seconds_ok t : instant_ok t -> 0 <= t / 1000000 < 86400 * 2930000.
Proof.
  unfold instant_ok. intros H. split; [apply Z.div_pos; lia | apply Z.div_lt_upper_bound; lia].
Qed.

Lemma compare_utc_text a b :
  instant_ok a -> instant_ok b ->
  String.compare (utc_text a) (utc_text b) = (a / 1000000 ?= b / 1000000).
Proof.
  intros Ha%seconds_ok Hb%seconds_ok. unfold utc_text.
  rewrite compare_app by by rewrite !length_stamp. rewrite compare_stamp by done.
  by destruct (_ ?= _).
Qed.

(** [isoformat()] compares as the instants, fraction or not. *)
Lemma compare_iso_text a b :
  instant_ok a -> instant_ok b -> String.compare (iso_text a) (iso_text b) = (a ?= b).
Proof.
  intros Ha Hb. unfold iso_text. rewrite compare_app by by rewrite !length_stamp.
  rewrite compare_stamp by by apply seconds_ok.
  pose proof (Z.mod_pos_bound a 1000000 ltac:(lia)). pose proof (Z.mod_pos_bound b 1000000 ltac:(lia)).
  rewrite <-(compare_split 1000000 a b) by lia. f_equal.
  destruct (Z.eqb_spec (a mod 1000000) 0) as [->|], (Z.eqb_spec (b mod 1000000) 0) as [->|].
  - done.
  - transitivity Lt; [done|]. symmetry. apply Z.compare_lt_iff. lia.
  - transitivity Gt; [done|]. symmetry. apply Z.compare_gt_iff. lia.
  - rewrite !app_assoc, compare_same, compare_app, compare_pad
      by first [by rewrite !length_pad | cbn; lia].
    by destruct (_ ?= _).
Qed.
