(* ===== verification/Ordering.v ===== *)
(** * Lawful comparisons

    Three-way comparisons that are total preorders, closed under the ways a
    sort key is built: products (lexicographic), sums, lists (a proper prefix
    is smaller) and preimages.  A component that compares by a key states its
    comparison as an instance and gets symmetry, transitivity and maxima. *)

From Stdlib Require Import ZArith Ascii String Lia Sorted.
From stdpp Require Import base option list strings.
From S2P Require Import Prelude PyStr Clock.
Local Open Scope Z_scope.

Class Ordering {A} (c : A -> A -> comparison) : Prop := {
  ord_opp : forall x y, c y x = CompOpp (c x y);
  ord_trans : forall x y z r, c x y = r -> c y z = r -> c x z = r
}.

Section Laws.
Context {A} (c : A -> A -> comparison) `{!Ordering c}.

Lemma ord_refl x : c x x = Eq.
Proof. pose proof (ord_opp x x) as Hx. by destruct (c x x). Qed.

(** Equivalent arguments compare alike. *)
Lemma ord_eq_l x y z : c x y = Eq -> c x z = c y z.
Proof.
  intros Hxy. pose proof (ord_opp x y) as Hyx. rewrite Hxy in Hyx. cbn in Hyx.
  destruct (c y z) eqn:Hyz; [by apply (ord_trans x y z)| |];
    destruct (c x z) eqn:Hxz; try done; exfalso.
  - pose proof (ord_trans y x z Eq Hyx Hxz). congruence.
  - pose proof (ord_opp x z) as Hzx. rewrite Hxz in Hzx. cbn in Hzx.
    pose proof (ord_trans y z x Lt Hyz Hzx). congruence.
  - pose proof (ord_trans y x z Eq Hyx Hxz). congruence.
  - pose proof (ord_opp x z) as Hzx. rewrite Hxz in Hzx. cbn in Hzx.
    pose proof (ord_trans y z x Gt Hyz Hzx). congruence.
Qed.

Lemma ord_eq_r x y z : c x y = Eq -> c z x = c z y.
Proof.
  intros Hxy. rewrite (ord_opp x z), (ord_opp y z). by rewrite (ord_eq_l x y z Hxy).
Qed.

Definition le (x y : A) : Prop := c x y <> Gt.

#[export] Instance le_preorder : PreOrder le.
Proof.
  split; unfold le; [intros x; by rewrite ord_refl|].
  intros x y z Hxy Hyz. destruct (c x y) eqn:E; [by rewrite (ord_eq_l x y z E)| |done].
  destruct (c y z) eqn:E'; [by rewrite <-(ord_eq_r y z x E'), E| |done].
  by rewrite (ord_trans x y z Lt).
Qed.

Lemma le_trans x y z : le x y -> le y z -> le x z.
Proof. apply (PreOrder_Transitive (R := le)). Qed.

Lemma le_total x y : le x y \/ le y x.
Proof. unfold le. rewrite (ord_opp (c := c) x y). destruct (c x y); cbn; auto. Qed.
End Laws.

(** ** Instances *)
#[export] Instance Z_ordering : Ordering Z.compare.
Proof.
  split; [intros x y; apply Z.compare_antisym|]. intros x y z [].
  - rewrite !Z.compare_eq_iff. congruence.
  - rewrite !Z.compare_lt_iff. lia.
  - rewrite !Z.compare_gt_iff. lia.
Qed.

Lemma N_compare_trans x y z r : N.compare x y = r -> N.compare y z = r -> N.compare x z = r.
Proof.
  destruct r; rewrite ?N.compare_eq_iff, ?N.compare_lt_iff, ?N.compare_gt_iff; [congruence|lia..].
Qed.

#[export] Instance ascii_ordering : Ordering Ascii.compare.
Proof.
  split; [intros x y; apply Ascii.compare_antisym|].
  intros x y z r. unfold Ascii.compare. apply N_compare_trans.
Qed.

(** The lexicographic step, for any comparison of the second components. *)
Lemma lex_trans {A B} (c : A -> A -> comparison) `{!Ordering c} (d : B -> B -> comparison) x y z u v t r :
  (forall r, d u v = r -> d v t = r -> d u t = r) ->
  lex (c x y) (d u v) = r -> lex (c y z) (d v t) = r -> lex (c x z) (d u t) = r.
Proof.
  intros Hd H1 H2. destruct (c x y) eqn:E.
  - rewrite (ord_eq_l c x y z E). destruct (c y z); [by apply Hd|done..].
  - cbn in H1. subst r. destruct (c y z) eqn:E'; [|by rewrite (ord_trans x y z Lt)|done].
    by rewrite <-(ord_eq_r c y z x E'), E.
  - cbn in H1. subst r. destruct (c y z) eqn:E'; [|done|by rewrite (ord_trans x y z Gt)].
    by rewrite <-(ord_eq_r c y z x E'), E.
Qed.

Lemma lex_opp a b : CompOpp (lex a b) = lex (CompOpp a) (CompOpp b).
Proof. by destruct a. Qed.

Definition prod_compare {A B} (c : A -> A -> comparison) (d : B -> B -> comparison) (x y : A * B) : comparison :=
  lex (c x.1 y.1) (d x.2 y.2).

#[export] Instance prod_ordering {A B} (c : A -> A -> comparison) (d : B -> B -> comparison) :
  Ordering c -> Ordering d -> Ordering (prod_compare c d).
Proof.
  intros Hc Hd. split; unfold prod_compare; [intros x y; by rewrite lex_opp, <-!ord_opp|].
  intros x y z r. apply (lex_trans c d). intros s. apply ord_trans.
Qed.

(** Everything on the left is below everything on the right. *)
Definition sum_compare {A B} (c : A -> A -> comparison) (d : B -> B -> comparison) (x y : A + B) : comparison :=
  match x, y with
  | inl a, inl b => c a b
  | inl _, inr _ => Lt
  | inr _, inl _ => Gt
  | inr a, inr b => d a b
  end.

#[export] Instance sum_ordering {A B} (c : A -> A -> comparison) (d : B -> B -> comparison) :
  Ordering c -> Ordering d -> Ordering (sum_compare c d).
Proof.
  intros Hc Hd. split; [by intros [a|a] [b|b]; cbn; try apply ord_opp|].
  intros [a|a] [b|b] [e|e] r; cbn; try apply ord_trans; congruence.
Qed.

Fixpoint list_compare {A} (c : A -> A -> comparison) (x y : list A) : comparison :=
  match x, y with
  | [], [] => Eq
  | [], _ :: _ => Lt
  | _ :: _, [] => Gt
  | a :: x', b :: y' => lex (c a b) (list_compare c x' y')
  end.

#[export] Instance list_ordering {A} (c : A -> A -> comparison) : Ordering c -> Ordering (list_compare c).
Proof.
  intros Hc. split.
  - intros x. induction x as [|a x IH]; intros [|b y]; try done. cbn. rewrite (ord_opp a b), IH.
    by destruct (c a b).
  - intros x. induction x as [|a x IH]; intros [|b y] [|e z] r; cbn; try congruence.
    apply (lex_trans c (list_compare c)). intros s. apply IH.
Qed.

#[export] Instance unit_ordering : Ordering (fun _ _ : unit => Eq).
Proof. by split; intros; subst. Qed.

#[export] Instance preimage_ordering {A B} (f : A -> B) (c : B -> B -> comparison) :
  Ordering c -> Ordering (fun x y => c (f x) (f y)).
Proof.
  intros Hc. split; [intros x y; exact (ord_opp (f x) (f y))|].
  intros x y z r. exact (ord_trans (f x) (f y) (f z) r).
Qed.

Lemma string_compare_list a b :
  String.compare a b = list_compare Ascii.compare (list_ascii_of_string a) (list_ascii_of_string b).
Proof. revert b. induction a as [|x a IH]; intros [|y b]; try done. cbn. rewrite <-IH. unfold lex. by destruct (Ascii.compare x y). Qed.

#[export] Instance string_ordering : Ordering String.compare.
Proof.
  split.
  - intros x y. rewrite !string_compare_list. apply ord_opp.
  - intros x y z r. rewrite !string_compare_list. apply ord_trans.
Qed.

(** ** Three-way results as Python's -1, 0 and 1 *)
Definition sign (r : comparison) : Z := match r with Lt => -1 | Eq => 0 | Gt => 1 end.

Lemma sign_opp r : sign (CompOpp r) = - sign r.
Proof. by destruct r. Qed.
Lemma sign_le r : sign r <= 0 <-> r <> Gt.
Proof. by destruct r. Qed.
Lemma sign_ge r : 0 <= sign r <-> r <> Lt.
Proof. by destruct r. Qed.

(** ** Maxima: [max(l, key=...)] is the first of the largest *)
Definition max_by {A} (c : A -> A -> comparison) (x : A) (l : list A) : A :=
  fold_left (fun best y => match c best y with Lt => y | _ => best end) l x.

Lemma max_by_elem {A} (c : A -> A -> comparison) x l : max_by c x l ∈ x :: l.
Proof.
  revert x. induction l as [|y l IH]; intros x; cbn; [by left|].
  specialize (IH (match c x y with Lt => y | _ => x end)).
  rewrite !elem_of_cons in *. destruct (c x y); naive_solver.
Qed.

Lemma max_by_ge {A} (c : A -> A -> comparison) `{!Ordering c} x l y : y ∈ x :: l -> le c y (max_by c x l).
Proof.
  revert x y. induction l as [|z l IH]; intros x y; cbn.
  - rewrite list_elem_of_singleton. by intros ->.
  - intros Hy. set (b := match c x z with Lt => z | _ => x end).
    assert (le c b (max_by c b l)) as Hb by (apply IH; by left).
    rewrite !elem_of_cons in Hy. destruct Hy as [->|[->|Hy]]; [| |apply IH; by right].
    + apply (le_trans c) with b; [|exact Hb]. subst b. unfold le. destruct (c x z) eqn:E; rewrite ?ord_refl, ?E; done.
    + apply (le_trans c) with b; [|exact Hb]. subst b. unfold le.
      destruct (c x z) eqn:E; rewrite ?ord_refl by done; try done; by rewrite (ord_opp x z), E.
Qed.

(** ** Sorting by a lawful comparison *)
Definition le_by {A} (c : A -> A -> comparison) (x y : A) : bool := match c x y with Gt => false | _ => true end.

Lemma le_by_le {A} (c : A -> A -> comparison) x y : le_by c x y = true <-> le c x y.
Proof. unfold le_by, le. by destruct (c x y). Qed.

Lemma le_by_total {A} (c : A -> A -> comparison) `{!Ordering c} x y : le_by c x y = true \/ le_by c y x = true.
Proof. rewrite !le_by_le. by apply (le_total c). Qed.

Lemma sorted_unique {A} (c : A -> A -> comparison) `{!Ordering c} l l' :
  StronglySorted (le c) l -> StronglySorted (le c) l' -> l ≡ₚ l' -> (forall x y, x ∈ l -> y ∈ l -> c x y = Eq -> x = y) ->
  l = l'.
Proof.
  intros Hl. revert l'. induction Hl as [|x l Hl IH Hx]; intros l' Hl' Hp Heq; [by apply Permutation_nil in Hp|].
  destruct Hl' as [|y l' Hl' Hy]; [symmetry in Hp; by apply Permutation_nil in Hp|].
  assert (x = y) as <-.
  { assert (x ∈ y :: l') as Hxy by (rewrite <-Hp; left). assert (y ∈ x :: l) as Hyx by (rewrite Hp; left).
    apply Heq; [left | done |]. apply elem_of_cons in Hxy as [->|Hxy]; [by apply ord_refl|].
    apply elem_of_cons in Hyx as [->|Hyx]; [by apply ord_refl|].
    rewrite Forall_forall in Hx, Hy. specialize (Hx y Hyx). specialize (Hy x Hxy). unfold le in *.
    rewrite (ord_opp (c := c) x y) in Hy. by destruct (c x y). }
  f_equal. apply IH; [done | by apply Permutation_cons_inv in Hp |]. intros a b Ha Hb. apply Heq; by right.
Qed.

Lemma sort_by_strongly {A} (c : A -> A -> comparison) `{!Ordering c} l : StronglySorted (le c) (sort_by (le_by c) l).
Proof.
  assert (StronglySorted (le_by c) (sort_by (le_by c) l)) as Hk.
  { apply Sorted_StronglySorted; [|apply sort_by_sorted, le_by_total; done].
    intros x y z Hxy Hyz. apply Is_true_true, le_by_le in Hxy, Hyz. apply Is_true_true, le_by_le. by apply (le_trans c) with y. }
  induction Hk as [|x k' _ IH Hk]; constructor; [done|]. eapply Forall_impl; [exact Hk|].
  intros y Hy. by apply le_by_le, Is_true_true.
Qed.

(** The head of a sorted list is a least element. *)
Lemma sort_by_head {A} (c : A -> A -> comparison) `{!Ordering c} l x t :
  sort_by (le_by c) l = x :: t -> x ∈ l /\ forall y, y ∈ l -> le c x y.
Proof.
  intros E. pose proof (sort_by_strongly c l) as Hs. rewrite E in Hs. inversion_clear Hs as [|?? _ Hx].
  rewrite <-(elem_of_sort_by (le_by c)), E. split; [left|]. intros y Hy%(elem_of_sort_by (le_by c)). rewrite E in Hy.
  apply elem_of_cons in Hy as [->|Hy]; [unfold le; by rewrite ord_refl|]. rewrite Forall_forall in Hx. by apply Hx.
Qed.

(** Sorting forgets the order of its input when equivalent elements are equal. *)
Lemma sort_by_unique {A} (c : A -> A -> comparison) `{!Ordering c} l l' :
  l ≡ₚ l' -> (forall x y, x ∈ l -> y ∈ l -> c x y = Eq -> x = y) -> sort_by (le_by c) l = sort_by (le_by c) l'.
Proof.
  intros Hp Heq. apply (sorted_unique c); [by apply sort_by_strongly | by apply sort_by_strongly | by rewrite !sort_by_perm |].
  intros x y Hx%elem_of_sort_by Hy%elem_of_sort_by. by apply Heq.
Qed.

(** [sorted(set(l))] *)
Fixpoint insert_set {A} (c : A -> A -> comparison) (x : A) (l : list A) : list A :=
  match l with
  | [] => [x]
  | y :: l' => match c x y with Lt => x :: l | Eq => l | Gt => y :: insert_set c x l' end
  end.
Definition sorted_set {A} (c : A -> A -> comparison) (l : list A) : list A := foldr (insert_set c) [] l.

Section SortedSet.
Context {A} (c : A -> A -> comparison) `{!Ordering c} (c_eq : forall x y, c x y = Eq -> x = y).

Lemma elem_of_insert_set x y l : x ∈ insert_set c y l <-> x = y \/ x ∈ l.
Proof.
  induction l as [|z l IH]; cbn; [by rewrite list_elem_of_singleton, elem_of_nil; naive_solver|].
  destruct (c y z) eqn:E; rewrite ?elem_of_cons, ?IH; [apply c_eq in E as ->|..]; naive_solver.
Qed.

Lemma elem_of_sorted_set x l : x ∈ sorted_set c l <-> x ∈ l.
Proof. induction l as [|y l IH]; cbn; [done|]. by rewrite elem_of_insert_set, IH, elem_of_cons. Qed.

Lemma insert_set_sorted x l : StronglySorted (fun a b => c a b = Lt) l -> StronglySorted (fun a b => c a b = Lt) (insert_set c x l).
Proof.
  induction 1 as [|y l Hl IH Hy]; cbn; [by repeat constructor|]. destruct (c x y) eqn:E; [by constructor| |].
  - constructor; [by constructor|]. constructor; [done|]. eapply Forall_impl; [exact Hy|]. intros z Hz.
    by apply (ord_trans x y z Lt).
  - constructor; [done|]. apply Forall_forall. intros z [->|Hz]%elem_of_insert_set; [by rewrite (ord_opp x y), E|].
    rewrite Forall_forall in Hy. by apply Hy.
Qed.

Lemma sorted_set_sorted l : StronglySorted (fun a b => c a b = Lt) (sorted_set c l).
Proof. induction l as [|x l IH]; cbn; [constructor | by apply insert_set_sorted]. Qed.

(** A sorted set is determined by its elements. *)
Lemma sorted_set_ext l l' : (forall x, x ∈ l <-> x ∈ l') -> sorted_set c l = sorted_set c l'.
Proof.
  intros Hx. assert (forall k, NoDup (sorted_set c k)) as Hnd.
  { intros k. pose proof (sorted_set_sorted k) as Hs. induction Hs as [|x k' _ IH Hk]; constructor; [|done].
    intros Hin. rewrite Forall_forall in Hk. specialize (Hk x Hin). by rewrite ord_refl in Hk. }
  assert (forall k, StronglySorted (le c) (sorted_set c k)) as Hle.
  { intros k. pose proof (sorted_set_sorted k) as Hs. induction Hs as [|x k' _ IH Hk]; constructor; [done|].
    eapply Forall_impl; [exact Hk|]. intros y Hy. unfold le. by rewrite Hy. }
  apply (sorted_unique c); [apply Hle | apply Hle | | intros; by apply c_eq].
  apply NoDup_Permutation; [apply Hnd | apply Hnd |]. intros x. by rewrite !elem_of_sorted_set.
Qed.
End SortedSet.
