(* ===== verification/Semver.v ===== *)
(** * Version precedence ([semver_policy.py])

    Parsing, three-way comparison and conflict resolution of capability
    versions.  The comparison is shown to be the total preorder of a sort key;
    the resolver's own key is related to it. *)

From Stdlib Require Import ZArith Ascii String Lia.
From stdpp Require Import base option list strings.
From S2P Require Import Prelude PyStr Json Clock Ordering.
Local Open Scope string_scope.
Local Open Scope list_scope.
Local Open Scope Z_scope.

(** The tuple that [parse_semver] returns. *)
Record Semver : Type := mkSemver {
  sv_major : Z; sv_minor : Z; sv_patch : Z; sv_prerelease : option string; sv_build : option string
}.

(** The pieces of [_SEMVER_RE] on ASCII text: a number ([\d+], of at most the
    4300 digits that [int] accepts), a separator, an optional tag. *)
Definition tag_char (c : ascii) : bool := is_alnum c || ceqb c "." || ceqb c "-".

Definition number (s : string) : option (Z * string) :=
  let '(d, rest) := span is_digit s in
  if truthy d then Some (int_of_digits d, rest) else None.

Definition skip (c : ascii) (s : string) : option string :=
  match s with
  | String d s' => if ceqb d c then Some s' else None
  | EmptyString => None
  end.

Definition tag (c : ascii) (s : string) : option string * string :=
  match skip c s with
  | Some s' =>
      let '(t, rest) := span tag_char s' in
      if truthy t then (Some t, rest) else (None, s)
  | None => (None, s)
  end.

Definition parse_semver (version : string) : option Semver :=
  match number (lstrip_by (ceqb "v") (strip version)) with
  | Some (major, s) =>
      match skip "." s with
      | Some s =>
          match number s with
          | Some (minor, s) =>
              match skip "." s with
              | Some s =>
                  match number s with
                  | Some (patch, s) =>
                      let '(prerelease, s) := tag "-" s in
                      let '(build, s) := tag "+" s in
                      if truthy s then None else Some (mkSemver major minor patch prerelease build)
                  | None => None
                  end
              | None => None
              end
          | None => None
          end
      | None => None
      end
  | None => None
  end.

(** ** [compare_semver] *)

(** [if lt: return -1], [if gt: return 1], and on. *)
Definition three (lt gt : bool) (rest : Z) : Z := if lt then -1 else if gt then 1 else rest.

(** The loop over the identifiers of two prereleases, then their lengths. *)
Fixpoint compare_ids (pa_ids pb_ids : list string) : Z :=
  match pa_ids, pb_ids with
  | pai :: pa_ids', pbi :: pb_ids' =>
      if isdigit pai && isdigit pbi
      then three (Z.ltb (int_of_digits pai) (int_of_digits pbi))
                 (Z.ltb (int_of_digits pbi) (int_of_digits pai)) (compare_ids pa_ids' pb_ids')
      else if isdigit pai && negb (isdigit pbi) then -1
      else if negb (isdigit pai) && isdigit pbi then 1
      else three (slt pai pbi) (slt pbi pai) (compare_ids pa_ids' pb_ids')
  | _, _ => three (Nat.ltb (length pa_ids) (length pb_ids)) (Nat.ltb (length pb_ids) (length pa_ids)) 0
  end.

Definition compare_prerelease (pa_pre pb_pre : option string) : Z :=
  match pa_pre, pb_pre with
  | None, None => 0
  | None, Some _ => 1
  | Some _, None => -1
  | Some a, Some b => compare_ids (split_on "." a) (split_on "." b)
  end.

Definition compare_semver (a b : string) : Z :=
  match parse_semver a, parse_semver b with
  | None, None => if a =s b then 0 else if slt a b then -1 else 1
  | None, Some _ => 1
  | Some _, None => -1
  | Some pa, Some pb =>
      three (Z.ltb (sv_major pa) (sv_major pb)) (Z.ltb (sv_major pb) (sv_major pa))
        (three (Z.ltb (sv_minor pa) (sv_minor pb)) (Z.ltb (sv_minor pb) (sv_minor pa))
          (three (Z.ltb (sv_patch pa) (sv_patch pb)) (Z.ltb (sv_patch pb) (sv_patch pa))
            (compare_prerelease (sv_prerelease pa) (sv_prerelease pb))))
  end.

(** ** [resolve_version_conflict] *)
Definition _semver_sort_key (version : string) : Z * (Z * (Z * (Z * string))) :=
  match parse_semver version with
  | None => (0, (0, (0, (0, ""))))
  | Some p => (sv_major p, (sv_minor p, (sv_patch p,
                match sv_prerelease p with None => (1, "") | Some pre => (0, pre) end)))
  end.

(** The key of [max]: the validity, then the sort key; tuples compare from the
    left, booleans as integers. *)
Definition winner_key (v : string) : Z * (Z * (Z * (Z * (Z * string)))) :=
  (if is_some (parse_semver v) then 1 else 0, _semver_sort_key v).

Definition key_compare : Z * (Z * (Z * (Z * string))) -> Z * (Z * (Z * (Z * string))) -> comparison :=
  prod_compare Z.compare (prod_compare Z.compare (prod_compare Z.compare
    (prod_compare Z.compare String.compare))).

Definition winner_compare (u v : string) : comparison :=
  prod_compare Z.compare key_compare (winner_key u) (winner_key v).

Definition valid_version (v : string) : bool := is_some (parse_semver v).

Definition resolve_version_conflict (versions : list string) : dict :=
  match versions with
  | [] => [("winner", JNull); ("conflict", JBool false); ("allValid", JBool true); ("versions", JArr [])]
  | _ =>
      let unique := sorted_strings (remove_dups versions) in
      match unique with
      | [] => []
      | [v] => [("winner", JStr v); ("conflict", JBool false); ("allValid", JBool (valid_version v));
                ("versions", JArr [JStr v])]
      | v :: rest =>
          let valid := List.filter valid_version unique in
          let winner := match valid with
                        | [] => max_by String.compare v rest
                        | _ => max_by winner_compare v rest
                        end in
          [("winner", JStr winner); ("conflict", JBool true);
           ("allValid", JBool (Nat.eqb (length valid) (length unique)));
           ("versions", JArr (JStr <$> unique));
           ("invalidVersions", JArr (JStr <$> List.filter (fun v => negb (valid_version v)) unique))]
      end
  end.

(** The versions of each canonical key; capabilities without either are skipped. *)
Definition group_versions (capabilities : list dict) : list (string * list string) :=
  fold_left (fun by_key cap =>
    let key := str_get2 cap "canonicalKey" "canonical_key" "" in
    let version := str_get cap "version" "" in
    if truthy key && truthy version then append_at key version by_key else by_key) capabilities [].

Definition check_version_conflicts (capabilities : list dict) : list dict :=
  mjoin ((fun kv : string * list string =>
    let result := resolve_version_conflict kv.2 in
    if py_truthy (jget "conflict" result)
    then [[("canonicalKey", JStr kv.1); ("versions", jget "versions" result); ("winner", jget "winner" result);
           ("allValid", jget "allValid" result);
           ("invalidVersions", match dget "invalidVersions" result with Some l => l | None => JArr [] end)]]
    else []) <$> group_versions capabilities).

(** ** The precedence behind the comparison *)
Definition ident_key (s : string) : Z + string := if isdigit s then inl (int_of_digits s) else inr s.
Definition prerelease_key (pre : option string) : list (Z + string) + unit :=
  match pre with Some p => inl (ident_key <$> split_on "." p) | None => inr tt end.
Definition version_key (v : string) : Z * (Z * (Z * (list (Z + string) + unit))) + string :=
  match parse_semver v with
  | Some p => inl (sv_major p, (sv_minor p, (sv_patch p, prerelease_key (sv_prerelease p))))
  | None => inr v
  end.

(** Semantic-version precedence: the core numbers, a release above its
    prereleases, prereleases by identifiers (numbers by value and below other
    identifiers, which go by their characters; a longer list above its
    prefix); texts that are not versions above all versions, by their
    characters. *)
Definition ids_compare := list_compare (sum_compare Z.compare String.compare).
Definition core_compare := prod_compare Z.compare (prod_compare Z.compare (prod_compare Z.compare
  (sum_compare ids_compare (fun _ _ : unit => Eq)))).
Definition precedence (a b : string) : comparison :=
  sum_compare core_compare String.compare (version_key a) (version_key b).

#[export] Instance ids_ordering : Ordering ids_compare.
Proof. unfold ids_compare. apply _. Qed.
#[export] Instance precedence_ordering : Ordering precedence.
Proof.
  apply (preimage_ordering version_key (sum_compare core_compare String.compare)).
  unfold core_compare. apply _.
Qed.
#[export] Instance key_ordering : Ordering key_compare.
Proof. unfold key_compare. apply _. Qed.
#[export] Instance winner_ordering : Ordering winner_compare.
Proof. apply (preimage_ordering winner_key (prod_compare Z.compare key_compare)), _. Qed.

Lemma three_Z a b rest c :
  rest = sign c -> three (Z.ltb a b) (Z.ltb b a) rest = sign (lex (a ?= b) c).
Proof.
  intros ->. unfold three. destruct (Z.compare_spec a b), (Z.ltb_spec a b), (Z.ltb_spec b a); try lia; done.
Qed.

Lemma three_string a b rest c :
  rest = sign c -> three (slt a b) (slt b a) rest = sign (lex (String.compare a b) c).
Proof.
  intros ->. unfold three, slt, String.ltb. rewrite (ord_opp (c := String.compare) a b).
  by destruct (String.compare a b).
Qed.

Lemma compare_ids_sign xs ys :
  compare_ids xs ys = sign (ids_compare (ident_key <$> xs) (ident_key <$> ys)).
Proof.
  revert ys. induction xs as [|x xs IH]; intros [|y ys]; try done. cbn [compare_ids].
  specialize (IH ys). unfold ids_compare in *. cbn [fmap list_fmap list_compare].
  assert (forall s, isdigit s = true -> ident_key s = inl (int_of_digits s)) as Hnum
    by (intros s Hs; unfold ident_key; by rewrite Hs).
  assert (forall s, isdigit s = false -> ident_key s = inr s) as Htext
    by (intros s Hs; unfold ident_key; by rewrite Hs).
  destruct (isdigit x) eqn:Ex, (isdigit y) eqn:Ey; cbn [negb andb];
    rewrite ?(Hnum x), ?(Hnum y), ?(Htext x), ?(Htext y) by done; cbn [sum_compare];
    [by apply three_Z | done | done | by apply three_string].
Qed.

Lemma compare_semver_sign a b : compare_semver a b = sign (precedence a b).
Proof.
  unfold compare_semver, precedence, version_key.
  destruct (parse_semver a) as [pa|], (parse_semver b) as [pb|]; try done; cbn [sum_compare].
  - unfold core_compare, prod_compare. cbn [fst snd]. do 3 apply three_Z.
    destruct (sv_prerelease pa), (sv_prerelease pb); try done. apply compare_ids_sign.
  - destruct (a =s b) eqn:E; [apply String.eqb_eq in E as ->; by rewrite ord_refl by apply _|].
    unfold slt, String.ltb. destruct (String.compare a b) eqn:E'; try done.
    apply String.compare_eq_iff in E' as ->. by rewrite String.eqb_refl in E.
Qed.

(** C15: version comparison is a total preorder.  On all texts, versions or not,
    [compare_semver] is the sign of the semantic-version precedence: it answers
    0 on equal texts, changes sign when its arguments are swapped, and is
    transitive, so that sorting and maxima by it are well defined; its answers
    are -1, 0 and 1. *)
Theorem compare_semver_preorder a b c :
  compare_semver a b = sign (precedence a b) /\ compare_semver a a = 0 /\
  compare_semver b a = - compare_semver a b /\
  (compare_semver a b <= 0 -> compare_semver b c <= 0 -> compare_semver a c <= 0) /\
  (compare_semver a b = -1 \/ compare_semver a b = 0 \/ compare_semver a b = 1).
Proof.
  rewrite !compare_semver_sign, !sign_le. split_and!; [done | by rewrite ord_refl by apply _ | | |].
  - by rewrite (ord_opp a b), sign_opp.
  - apply (le_trans precedence).
  - destruct (precedence a b); cbn; auto.
Qed.

(** ** The resolver *)

(** Two prereleases of the same core version, whose order the resolver takes
    from their texts. *)
Definition same_core_prereleases (u v : string) : bool :=
  match parse_semver u, parse_semver v with
  | Some p, Some q => Z.eqb (sv_major p) (sv_major q) && Z.eqb (sv_minor p) (sv_minor q)
                      && Z.eqb (sv_patch p) (sv_patch q) && is_some (sv_prerelease p) && is_some (sv_prerelease q)
  | _, _ => false
  end.

Lemma winner_key_precedence u v :
  valid_version u = true -> same_core_prereleases v u = false -> le winner_compare u v ->
  valid_version v = true /\ 0 <= compare_semver v u.
Proof.
  unfold valid_version, same_core_prereleases, le, winner_compare, winner_key, _semver_sort_key.
  rewrite compare_semver_sign, sign_ge. unfold precedence, version_key.
  destruct (parse_semver u) as [p|]; [|done]. destruct (parse_semver v) as [q|]; [|done].
  cbn [is_some sum_compare]. unfold prod_compare, key_compare, core_compare. cbn [fst snd].
  intros _ Hs H. split; [done|]. unfold prod_compare in *. cbn [fst snd] in *. rewrite Z.compare_refl in H. cbn [lex] in H.
  destruct (Z.compare_spec (sv_major p) (sv_major q)) as [E1|E1|E1]; cbn [lex] in H; [|
    by rewrite (proj2 (Z.compare_gt_iff _ _)) | done].
  rewrite (proj2 (Z.compare_eq_iff _ _)) by done. cbn [lex].
  destruct (Z.compare_spec (sv_minor p) (sv_minor q)) as [E2|E2|E2]; cbn [lex] in H; [|
    by rewrite (proj2 (Z.compare_gt_iff _ _)) | done].
  rewrite (proj2 (Z.compare_eq_iff _ _)) by done. cbn [lex].
  destruct (Z.compare_spec (sv_patch p) (sv_patch q)) as [E3|E3|E3]; cbn [lex] in H; [|
    by rewrite (proj2 (Z.compare_gt_iff _ _)) | done].
  rewrite (proj2 (Z.compare_eq_iff _ _)) by done. cbn [lex].
  rewrite E1, E2, E3, !Z.eqb_refl in Hs. by destruct (sv_prerelease p), (sv_prerelease q).
Qed.

Lemma elem_of_unique v versions : v ∈ sorted_strings (remove_dups versions) <-> v ∈ versions.
Proof. unfold sorted_strings. by rewrite elem_of_sort_by, elem_of_remove_dups. Qed.

Lemma nodup_unique versions : NoDup (sorted_strings (remove_dups versions)).
Proof. unfold sorted_strings. rewrite sort_by_perm. apply NoDup_remove_dups. Qed.

Lemma unique_conflict versions (b : bool) :
  match sorted_strings (remove_dups versions) with [] | [_] => b = false | _ => b = true end ->
  b = true <-> exists u v, u ∈ versions /\ v ∈ versions /\ u <> v.
Proof.
  setoid_rewrite <-elem_of_unique. pose proof (nodup_unique versions) as Hn.
  destruct (sorted_strings (remove_dups versions)) as [|x [|y l]].
  - intros ->. split; [done|]. by intros (u & v & []%elem_of_nil & _).
  - intros ->. split; [done|]. intros (u & v & Hu & Hv & Hne).
    rewrite list_elem_of_singleton in Hu, Hv. congruence.
  - intros ->. split; [|done]. intros _. exists x, y. rewrite !elem_of_cons. split_and!; auto.
    intros ->. apply NoDup_cons in Hn as [Hn _]. apply Hn. by left.
Qed.

(** Conflict resolution.  For a nonempty list the resolver names one of the
    given versions; a conflict is reported exactly when two of them differ; a
    version that parses wins over every text that does not, and no version
    that parses has precedence over it, except possibly a prerelease of the
    same core version as a prerelease winner (the sort key compares the texts
    of prereleases as a whole); if none parses, the winner is the last text. *)
Theorem resolve_version_conflict_spec versions :
  versions <> [] ->
  exists v b, dget "winner" (resolve_version_conflict versions) = Some (JStr v) /\ v ∈ versions /\
    dget "conflict" (resolve_version_conflict versions) = Some (JBool b) /\
    (b = true <-> exists u1 u2, u1 ∈ versions /\ u2 ∈ versions /\ u1 <> u2) /\
    (forall u, u ∈ versions -> valid_version u = true -> same_core_prereleases v u = false ->
       valid_version v = true /\ 0 <= compare_semver v u) /\
    ((forall u, u ∈ versions -> valid_version u = false) -> forall u, u ∈ versions -> sle u v = true).
Proof.
  intros Hne. pose proof (unique_conflict versions) as Hc. unfold resolve_version_conflict.
  assert (forall u, u ∈ sorted_strings (remove_dups versions) <-> u ∈ versions) as Hu by (intros u; apply elem_of_unique).
  destruct versions as [|x xs]; [done|]. revert Hc Hu. generalize (x :: xs) (list_elem_of_here x xs).
  clear Hne. intros versions Hx Hc Hu. apply Hu in Hx.
  destruct (sorted_strings (remove_dups versions)) as [|v [|v2 rest]]; [by apply not_elem_of_nil in Hx| |].
  - exists v, false. split; [done|]. split; [apply Hu; by left|]. split; [done|]. split; [by apply Hc|].
    split; [|intros _]; intros u Hin%Hu; rewrite list_elem_of_singleton in Hin; subst u.
    + intros Hv _. split; [done|]. rewrite compare_semver_sign, ord_refl by apply _. done.
    + apply sle_compare. by rewrite ord_refl by apply _.
  - eexists _, true. split; [reflexivity|]. split; [|split; [reflexivity|split; [by apply Hc|]]].
    { apply Hu. destruct (List.filter valid_version (v :: v2 :: rest)); apply max_by_elem. }
    destruct (List.filter valid_version (v :: v2 :: rest)) as [|u0 us] eqn:Ef.
    + split.
      * intros u Hin%Hu Hv. assert (u ∈ ([] : list string)) as []%elem_of_nil.
        rewrite <-Ef. by apply elem_of_fetchall.
      * intros _ u Hin%Hu. apply sle_compare. by apply (max_by_ge String.compare).
    + split.
      * intros u Hin%Hu Hv Hs. apply winner_key_precedence; [done|done|]. by apply max_by_ge; [apply _|].
      * intros Hno. exfalso. assert (u0 ∈ List.filter valid_version (v :: v2 :: rest)) as Hin by (rewrite Ef; by left).
        apply elem_of_fetchall in Hin as [Hv Hin%Hu]. rewrite (Hno _ Hin) in Hv. done.
Qed.

(** The exception is real: between the prereleases 9 and 10 of one version the
    resolver chooses 9, which has the lower precedence. *)
Example resolver_prefers_lower_prerelease :
  jget "winner" (resolve_version_conflict ["1.0.0-10"; "1.0.0-9"]) = JStr "1.0.0-9" /\
  compare_semver "1.0.0-9" "1.0.0-10" = -1.
Proof. split; vm_compute; reflexivity. Qed.

Lemma resolve_version_conflict_spec_witness :
  exists v, jget "winner" (resolve_version_conflict ["1.2.0"; "v1.10.0-rc.1"; "latest"]) = JStr v /\
    v ∈ ["1.2.0"; "v1.10.0-rc.1"; "latest"] /\ 0 <= compare_semver v "1.2.0".
Proof.
  destruct (resolve_version_conflict_spec ["1.2.0"; "v1.10.0-rc.1"; "latest"] ltac:(discriminate))
    as (v & b & Hw & Hin & _ & _ & Hmax & _).
  exists v. split; [unfold jget; by rewrite Hw|]. split; [exact Hin|].
  assert (v = "v1.10.0-rc.1") as ->.
  { assert (dget "winner" (resolve_version_conflict ["1.2.0"; "v1.10.0-rc.1"; "latest"]) = Some (JStr "v1.10.0-rc.1"))
      as Hw' by (vm_compute; reflexivity). rewrite Hw in Hw'. by injection Hw' as ->. }
  apply (Hmax "1.2.0"); [by left | reflexivity | reflexivity].
Defined.

Lemma compare_semver_preorder_witness :
  compare_semver "1.0.0-rc.2" "1.0.0-rc.10" = -1 /\ compare_semver "1.0.0-rc.2" "1.0.0" <= 0.
Proof.
  split; [vm_compute; reflexivity|].
  apply (compare_semver_preorder "1.0.0-rc.2" "1.0.0-rc.10" "1.0.0"); vm_compute; discriminate.
Defined.
