(* ===== verification/Regex.v ===== *)
(** * Regular expressions of the [re] module

    The fragment the program searches with: character classes, sequence,
    ordered alternatives, greedy repetition and word boundaries.  [matches] says
    what a pattern matches; [run] is a backtracking matcher, proved to succeed
    exactly when a match exists; [search] is [re.search]. *)

From Stdlib Require Import ZArith Ascii String Lia.
From stdpp Require Import base option list strings.
From S2P Require Import Prelude PyStr.
Local Open Scope string_scope.
Local Open Scope list_scope.
Local Open Scope nat_scope.

Inductive regex : Type :=
  | RChar (p : ascii -> bool)
  | REps
  | RCat (a b : regex)
  | RAlt (a b : regex)
  | RStar (a : regex)
  | RBoundary.

(** A position in the text: the character before it, and the text after it. *)
#[warnings="-notation-for-abbreviation"] Notation position := (option ascii * string)%type.

(** [\w]; bytes of other code points count as letters. *)
Definition word_char (c : ascii) : bool := is_alnum c || ceqb c "_" || (128 <=? code c).
Definition at_word (c : option ascii) : bool := match c with Some c => word_char c | None => false end.
Definition next_char (s : string) : option ascii := match s with String c _ => Some c | EmptyString => None end.
Definition boundary (x : position) : bool := xorb (at_word x.1) (at_word (next_char x.2)).

(** ** What a pattern matches *)
Inductive matches : regex -> position -> position -> Prop :=
  | m_char p prev c s : p c = true -> matches (RChar p) (prev, String c s) (Some c, s)
  | m_eps x : matches REps x x
  | m_cat a b x y z : matches a x y -> matches b y z -> matches (RCat a b) x z
  | m_alt_l a b x y : matches a x y -> matches (RAlt a b) x y
  | m_alt_r a b x y : matches b x y -> matches (RAlt a b) x y
  | m_star_nil a x : matches (RStar a) x x
  | m_star_step a x y z : matches a x y -> matches (RStar a) y z -> matches (RStar a) x z
  | m_boundary x : boundary x = true -> matches RBoundary x x.

(** ** The backtracking matcher

    The continuation receives the position after the match; a repetition tries
    one more round first, and every round must consume, so the length of the
    text bounds the rounds. *)
#[local] Arguments Nat.ltb : simpl never.

Section Matcher.
Context {B : Type}.
Implicit Types (k : position -> option B).

Fixpoint star_loop (one : position -> (position -> option B) -> option B) (k : position -> option B)
    (n : nat) (x : position) : option B :=
  match n with
  | O => k x
  | S n' =>
      match one x (fun y => if String.length y.2 <? String.length x.2 then star_loop one k n' y else None) with
      | Some v => Some v
      | None => k x
      end
  end.

Fixpoint run (r : regex) (x : position) (k : position -> option B) : option B :=
  match r with
  | RChar p => match x.2 with
               | String c s => if p c then k (Some c, s) else None
               | EmptyString => None
               end
  | REps => k x
  | RCat a b => run a x (fun y => run b y k)
  | RAlt a b => match run a x k with Some v => Some v | None => run b x k end
  | RStar a => star_loop (run a) k (String.length x.2) x
  | RBoundary => if boundary x then k x else None
  end.

Lemma run_sound r x k v : run r x k = Some v -> exists y, matches r x y /\ k y = Some v.
Proof.
  revert x k. induction r as [p| |a IHa b IHb|a IHa b IHb|a IHa|]; intros [prev s] k H; cbn in H.
  - destruct s as [|c s]; [done|]. destruct (p c) eqn:E; [|done]. eexists. split; [by constructor|done].
  - eexists. split; [constructor|done].
  - apply IHa in H as (y & Hy & H). apply IHb in H as (z & Hz & H). exists z. split; [by econstructor|done].
  - destruct (run a (prev, s) k) eqn:E.
    + injection H as ->. apply IHa in E as (y & Hy & E). exists y. split; [by apply m_alt_l|done].
    + apply IHb in H as (y & Hy & H). exists y. split; [by apply m_alt_r|done].
  - revert H. generalize (prev, s) (String.length s). intros x n. revert x.
    induction n as [|n IHn]; intros x H; cbn in H; [exists x; by split; [constructor|]|].
    destruct (run a x _) eqn:E; [|exists x; by split; [constructor|]]. injection H as ->.
    apply IHa in E as (y & Hy & E). cbn beta in E.
    match type of E with (if ?b then _ else _) = _ => destruct b; [|discriminate E] end. apply IHn in E as (z & Hz & E). exists z. split; [by econstructor|done].
  - destruct (boundary (prev, s)) eqn:E; [|done]. eexists. split; [by constructor|done].
Qed.

(** A match moves forward, or stays where it is. *)
Lemma matches_forward r x y : matches r x y -> y = x \/ String.length y.2 < String.length x.2.
Proof.
  induction 1 as [p prev c s Hp|x|a b x y z _ IH1 _ IH2|a b x y _ IH|a b x y _ IH|a x|a x y z _ IH1 _ IH2|x Hx]; auto.
  - destruct IH1 as [->|IH1]; [done|]. right. destruct IH2 as [->|IH2]; lia.
  - destruct IH1 as [->|IH1]; [done|]. right. destruct IH2 as [->|IH2]; lia.
Qed.

(** A repetition that moves begins with a round that moves. *)
Lemma star_progress a x y :
  matches (RStar a) x y -> y = x \/ exists z, matches a x z /\ String.length z.2 < String.length x.2 /\ matches (RStar a) z y.
Proof.
  intros H. remember (RStar a) as r eqn:Er. revert Er.
  induction H as [| | | | |a' x|a' x z y Hz _ Hy IH|]; intros [= ->]; [by left|].
  destruct (matches_forward _ _ _ Hz) as [->|Hlt]; [by apply IH|]. right. by exists z.
Qed.

Lemma run_complete r x y k : matches r x y -> is_Some (k y) -> is_Some (run r x k).
Proof.
  revert x y k. induction r as [p| |a IHa b IHb|a IHa b IHb|a IHa|]; intros x y k H Hk.
  - inversion H; subst. cbn. by match goal with Hp : p _ = true |- _ => rewrite Hp end.
  - by inversion H; subst.
  - inversion H; subst. cbn. eapply IHa; [done|]. by eapply IHb.
  - cbn. destruct (run a x k) eqn:E; [done|]. inversion H; subst; [|by eapply IHb].
    destruct (IHa x y k) as [v Hv]; [done..|]. by rewrite E in Hv.
  - cbn. assert (forall n x, String.length x.2 <= n -> matches (RStar a) x y -> is_Some (star_loop (run a) k n x)) as Hloop;
      [|by apply Hloop].
    clear x H. intros n. induction n as [|n IHn]; intros x Hn H; cbn.
    + destruct (star_progress _ _ _ H) as [->|(z & _ & Hz & _)]; [done|lia].
    + destruct (run a x _) eqn:E; [done|]. destruct (star_progress _ _ _ H) as [->|(z & Hz & Hlt & Hzy)]; [done|].
      exfalso. destruct (IHa x z (fun y => if String.length y.2 <? String.length x.2 then star_loop (run a) k n y else None) Hz)
        as [v Hv]; [|by rewrite E in Hv].
      apply Nat.ltb_lt in Hlt as Hlt'. rewrite Hlt'. apply IHn; [lia|done].
  - inversion H; subst. cbn. by match goal with Hp : boundary _ = true |- _ => rewrite Hp end.
Qed.
End Matcher.

(** ** [re.search] *)

(** The text of the leftmost match. *)
Fixpoint search_from (r : regex) (prev : option ascii) (s : string) : option string :=
  match run r (prev, s) (fun y => Some (String.length y.2)) with
  | Some rest => Some (stake (String.length s - rest) s)
  | None => match s with
            | EmptyString => None
            | String c s' => search_from r (Some c) s'
            end
  end.
Definition search (r : regex) (s : string) : option string := search_from r None s.

(** The positions of a text. *)
Inductive reaches : position -> position -> Prop :=
  | reach_here x : reaches x x
  | reach_next prev c s y : reaches (Some c, s) y -> reaches (prev, String c s) y.

(** Somewhere in the text there is a match. *)
Definition occurs (r : regex) (s : string) : Prop :=
  exists x y, reaches (None, s) x /\ matches r x y.

Lemma search_occurs r s : is_some (search r s) = true <-> occurs r s.
Proof.
  unfold search, occurs. generalize (@None ascii) as prev. induction s as [|c s IH]; intros prev; cbn [search_from].
  - destruct (run r (prev, "") _) eqn:E; cbn.
    + split; [|done]. intros _. apply run_sound in E as (y & Hy & _). exists (prev, ""), y. by split; [constructor|].
    + split; [done|]. intros (x & y & Hx & Hy). inversion Hx; subst.
      destruct (run_complete r _ _ (fun y => Some (String.length y.2)) Hy) as [v Hv]; [done|]. by rewrite E in Hv.
  - destruct (run r (prev, String c s) _) eqn:E; cbn.
    + split; [|done]. intros _. apply run_sound in E as (y & Hy & _). eexists _, y. by split; [constructor|].
    + rewrite IH. split; intros (x & y & Hx & Hy).
      * exists x, y. by split; [constructor|].
      * inversion Hx; subst; [|by exists x, y].
        destruct (run_complete r _ _ (fun y => Some (String.length y.2)) Hy) as [v Hv]; [done|]. by rewrite E in Hv.
Qed.

(** ** Derived patterns *)
Definition rseq (l : list regex) : regex := fold_right RCat REps l.
Definition ralt (l : list regex) : regex := fold_right RAlt (RChar (fun _ => false)) l.
Definition rplus (a : regex) : regex := RCat a (RStar a).
Definition ropt (a : regex) : regex := RAlt a REps.

(** A literal, ignoring the case of ASCII letters; [.]; [\s]; [\d]. *)
Definition lit_char (c : ascii) : regex := RChar (fun d => ceqb (to_lower d) (to_lower c)).
Definition lit (s : string) : regex := rseq (lit_char <$> list_ascii_of_string s).
Definition dot : regex := RChar (fun c => negb (code c =? 10)).
Definition space : regex := RChar is_space.
Definition digit_class : regex := RChar is_digit.

Example search_example :
  search (rseq [RBoundary; lit "sudo"; rplus space; ralt [lit "bash"; lit "sh"]; space]) "run: Sudo  SH -c x" = Some "Sudo  SH ".
Proof. vm_compute. reflexivity. Qed.
