(* ===== verification/Db.v ===== *)
(** * The database and the world the handlers run in

    One record per SQLite table of [governance.init_governance_schema],
    [index.init_db] and [capguard.ensure_quarantine_tables] that the modelled
    code reads or writes, a field per column it uses; the statements of the
    source as operations on rows in rowid order; and the world: the database as
    the open transaction sees it, the committed database, the process-wide
    organization cache of [access_control.py], the source of [uuid.uuid4] and
    the clock. *)

From Stdlib Require Import ZArith Ascii String Lia.
From stdpp Require Import base option list strings gmap.
From S2P Require Import Prelude Sha256 PyStr Json Clock.
Local Open Scope string_scope.
Local Open Scope list_scope.

(** ** Rows *)

(** Table [tenants]. *)
Record TenantRow : Type := mkTenantRow {
  tn_id : string; tn_slug : string; tn_display_name : string; tn_status : string;
  tn_updated_at : string
}.

#[export] Instance eta_TenantRow : EtaRecord TenantRow := fun r =>
  mkTenantRow (tn_id r) (tn_slug r) (tn_display_name r) (tn_status r) (tn_updated_at r).

(** Table [identities]. *)
Record IdentityRow : Type := mkIdentityRow {
  idn_id : string; idn_tenant_id : string; idn_external_id : option string; idn_user_name : string;
  idn_display_name : option string; idn_email : option string; idn_identity_type : string;
  idn_entra_object_id : option string; idn_active : Z; idn_raw_json : string;
  idn_created_at : string; idn_updated_at : string
}.

#[export] Instance eta_IdentityRow : EtaRecord IdentityRow := fun r =>
  mkIdentityRow (idn_id r) (idn_tenant_id r) (idn_external_id r) (idn_user_name r)
    (idn_display_name r) (idn_email r) (idn_identity_type r) (idn_entra_object_id r) (idn_active
    r) (idn_raw_json r) (idn_created_at r) (idn_updated_at r).

(** Table [apps]. *)
Record AppRow : Type := mkAppRow {
  app_id : string; app_tenant_id : string; app_app_id : string; app_display_name : string;
  app_active : Z; app_raw_json : string
}.

#[export] Instance eta_AppRow : EtaRecord AppRow := fun r =>
  mkAppRow (app_id r) (app_tenant_id r) (app_app_id r) (app_display_name r) (app_active r)
    (app_raw_json r).

(** Table [organizations]. *)
Record OrgRow : Type := mkOrgRow {
  org_id : string; org_tenant_id : string; org_slug : string; org_display_name : string;
  org_store_id : option string; org_status : string; org_metadata_json : string;
  org_created_at : string
}.

#[export] Instance eta_OrgRow : EtaRecord OrgRow := fun r =>
  mkOrgRow (org_id r) (org_tenant_id r) (org_slug r) (org_display_name r) (org_store_id r)
    (org_status r) (org_metadata_json r) (org_created_at r).

(** Table [stores]. *)
Record StoreRow : Type := mkStoreRow {
  st_id : string; st_tenant_id : string; st_kind : string; st_name : string;
  st_uri_prefix : string; st_owner_identity_id : option string; st_owner_app_id : option string;
  st_disabled_at : option string; st_metadata_json : string; st_created_at : string;
  st_updated_at : string
}.

#[export] Instance eta_StoreRow : EtaRecord StoreRow := fun r =>
  mkStoreRow (st_id r) (st_tenant_id r) (st_kind r) (st_name r) (st_uri_prefix r)
    (st_owner_identity_id r) (st_owner_app_id r) (st_disabled_at r) (st_metadata_json r)
    (st_created_at r) (st_updated_at r).

(** Table [namespaces]. *)
Record NamespaceRow : Type := mkNamespaceRow {
  ns_id : string; ns_tenant_id : string; ns_store_id : string; ns_name : string;
  ns_uri_prefix : string; ns_visibility : string; ns_owner : string; ns_description : string;
  ns_lifecycle : string; ns_metadata_json : string; ns_created_at : string; ns_updated_at : string
}.

#[export] Instance eta_NamespaceRow : EtaRecord NamespaceRow := fun r =>
  mkNamespaceRow (ns_id r) (ns_tenant_id r) (ns_store_id r) (ns_name r) (ns_uri_prefix r)
    (ns_visibility r) (ns_owner r) (ns_description r) (ns_lifecycle r) (ns_metadata_json r)
    (ns_created_at r) (ns_updated_at r).

(** Table [namespace_members]. *)
Record MemberRow : Type := mkMemberRow {
  nm_id : string; nm_namespace_id : string; nm_subject_type : string; nm_subject_id : string;
  nm_role : string; nm_rights_json : string; nm_revoked_at : option string
}.

#[export] Instance eta_MemberRow : EtaRecord MemberRow := fun r =>
  mkMemberRow (nm_id r) (nm_namespace_id r) (nm_subject_type r) (nm_subject_id r) (nm_role r)
    (nm_rights_json r) (nm_revoked_at r).

(** Table [role_assignments]. *)
Record RoleRow : Type := mkRoleRow {
  ra_id : string; ra_tenant_id : string; ra_subject_type : string; ra_subject_id : string;
  ra_role : string; ra_scope_type : string; ra_scope_id : string; ra_source : string;
  ra_created_by : option string; ra_expires_at : option string; ra_revoked_at : option string;
  ra_created_at : string; ra_updated_at : string
}.

#[export] Instance eta_RoleRow : EtaRecord RoleRow := fun r =>
  mkRoleRow (ra_id r) (ra_tenant_id r) (ra_subject_type r) (ra_subject_id r) (ra_role r)
    (ra_scope_type r) (ra_scope_id r) (ra_source r) (ra_created_by r) (ra_expires_at r)
    (ra_revoked_at r) (ra_created_at r) (ra_updated_at r).

(** Table [relationship_tuples]. *)
Record TupleRow : Type := mkTupleRow {
  rt_id : string; rt_tenant_id : string; rt_object : string; rt_relation : string;
  rt_user : string; rt_source : string
}.

#[export] Instance eta_TupleRow : EtaRecord TupleRow := fun r =>
  mkTupleRow (rt_id r) (rt_tenant_id r) (rt_object r) (rt_relation r) (rt_user r) (rt_source r).

(** Table [policy_decisions]. *)
Record DecisionRow : Type := mkDecisionRow {
  pd_id : string; pd_tenant_id : string; pd_principal : string; pd_action : string;
  pd_resource_uri : string; pd_decision : string; pd_reason : string; pd_inputs_json : string
}.

#[export] Instance eta_DecisionRow : EtaRecord DecisionRow := fun r =>
  mkDecisionRow (pd_id r) (pd_tenant_id r) (pd_principal r) (pd_action r) (pd_resource_uri r)
    (pd_decision r) (pd_reason r) (pd_inputs_json r).

(** Table [shares]. *)
Record ShareRow : Type := mkShareRow {
  sh_id : string; sh_tenant_id : string; sh_capability_uri : string;
  sh_from_identity_id : option string; sh_subject_type : string; sh_subject_id : string;
  sh_rights_json : string; sh_state : string; sh_expires_at : option string;
  sh_revoked_at : option string; sh_created_at : string; sh_updated_at : string
}.

#[export] Instance eta_ShareRow : EtaRecord ShareRow := fun r =>
  mkShareRow (sh_id r) (sh_tenant_id r) (sh_capability_uri r) (sh_from_identity_id r)
    (sh_subject_type r) (sh_subject_id r) (sh_rights_json r) (sh_state r) (sh_expires_at r)
    (sh_revoked_at r) (sh_created_at r) (sh_updated_at r).

(** Table [promotion_requests]. *)
Record PromotionRow : Type := mkPromotionRow {
  pr_id : string; pr_tenant_id : string; pr_capability_uri : string;
  pr_source_store_id : option string; pr_target_namespace_id : option string;
  pr_requested_by : option string; pr_state : string; pr_title : string; pr_rationale : string;
  pr_version : string; pr_gates_json : string; pr_created_at : string;
  pr_decided_at : option string
}.

#[export] Instance eta_PromotionRow : EtaRecord PromotionRow := fun r =>
  mkPromotionRow (pr_id r) (pr_tenant_id r) (pr_capability_uri r) (pr_source_store_id r)
    (pr_target_namespace_id r) (pr_requested_by r) (pr_state r) (pr_title r) (pr_rationale r)
    (pr_version r) (pr_gates_json r) (pr_created_at r) (pr_decided_at r).

(** Table [promotion_gate_runs]. *)
Record GateRunRow : Type := mkGateRunRow {
  pg_id : string; pg_request_id : string; pg_gate_name : string; pg_content_hash : string;
  pg_state : string; pg_evidence_json : string; pg_runner : string; pg_run_at : string;
  pg_attestation_json : string
}.

#[export] Instance eta_GateRunRow : EtaRecord GateRunRow := fun r =>
  mkGateRunRow (pg_id r) (pg_request_id r) (pg_gate_name r) (pg_content_hash r) (pg_state r)
    (pg_evidence_json r) (pg_runner r) (pg_run_at r) (pg_attestation_json r).

(** Table [approval_steps]. *)
Record ApprovalRow : Type := mkApprovalRow {
  ap_id : string; ap_request_id : string; ap_step_name : string;
  ap_assigned_to_type : option string; ap_assigned_to_id : option string; ap_state : string;
  ap_decision_by : option string; ap_decision_note : option string; ap_decided_at : option string
}.

#[export] Instance eta_ApprovalRow : EtaRecord ApprovalRow := fun r =>
  mkApprovalRow (ap_id r) (ap_request_id r) (ap_step_name r) (ap_assigned_to_type r)
    (ap_assigned_to_id r) (ap_state r) (ap_decision_by r) (ap_decision_note r) (ap_decided_at r).

(** Table [audit_events]. *)
Record AuditRow : Type := mkAuditRow {
  au_id : string; au_tenant_id : string; au_event_type : string; au_actor : string;
  au_actor_type : string; au_target : option string; au_action : option string;
  au_decision : option string; au_reason : option string; au_payload_json : string;
  au_created_at : string
}.

#[export] Instance eta_AuditRow : EtaRecord AuditRow := fun r =>
  mkAuditRow (au_id r) (au_tenant_id r) (au_event_type r) (au_actor r) (au_actor_type r)
    (au_target r) (au_action r) (au_decision r) (au_reason r) (au_payload_json r) (au_created_at
    r).

(** Table [registry_log]. *)
Record LogRow : Type := mkLogRow {
  lg_id : string; lg_sequence : Z; lg_event_type : string; lg_actor : string;
  lg_target_uri : option string; lg_action : string; lg_payload_json : string;
  lg_prev_hash : option string; lg_entry_hash : string; lg_created_at : string
}.

#[export] Instance eta_LogRow : EtaRecord LogRow := fun r =>
  mkLogRow (lg_id r) (lg_sequence r) (lg_event_type r) (lg_actor r) (lg_target_uri r) (lg_action
    r) (lg_payload_json r) (lg_prev_hash r) (lg_entry_hash r) (lg_created_at r).

(** Table [capabilities]. *)
Record CapRow : Type := mkCapRow {
  cp_rowid : Z; cp_uri : string; cp_canonical_key : string; cp_tenant_id : string;
  cp_store_id : option string; cp_namespace_id : option string; cp_type : string; cp_name : string;
  cp_version : string; cp_title : string; cp_description : string; cp_package_path : string;
  cp_entrypoint : string; cp_source_path : string; cp_source_kind : string;
  cp_source_system : string; cp_content_hash : string; cp_visibility : string;
  cp_discovery_mode : string; cp_owner : string; cp_plugin : option string;
  cp_category : option string; cp_keywords_json : string; cp_required_scopes_json : string;
  cp_allow_groups_json : string; cp_allow_users_json : string; cp_risk_tier : string;
  cp_mutating : Z; cp_lifecycle : string; cp_created_by : option string;
  cp_submitted_by : option string; cp_promoted_from_uri : option string;
  cp_approval_state : string; cp_share_state : string; cp_signature_status : string;
  cp_provenance_status : string; cp_risk_review_status : string; cp_metadata_json : string;
  cp_source_commit : option string; cp_license : option string; cp_updated_at : string
}.

#[export] Instance eta_CapRow : EtaRecord CapRow := fun r =>
  mkCapRow (cp_rowid r) (cp_uri r) (cp_canonical_key r) (cp_tenant_id r) (cp_store_id r)
    (cp_namespace_id r) (cp_type r) (cp_name r) (cp_version r) (cp_title r) (cp_description r)
    (cp_package_path r) (cp_entrypoint r) (cp_source_path r) (cp_source_kind r) (cp_source_system
    r) (cp_content_hash r) (cp_visibility r) (cp_discovery_mode r) (cp_owner r) (cp_plugin r)
    (cp_category r) (cp_keywords_json r) (cp_required_scopes_json r) (cp_allow_groups_json r)
    (cp_allow_users_json r) (cp_risk_tier r) (cp_mutating r) (cp_lifecycle r) (cp_created_by r)
    (cp_submitted_by r) (cp_promoted_from_uri r) (cp_approval_state r) (cp_share_state r)
    (cp_signature_status r) (cp_provenance_status r) (cp_risk_review_status r) (cp_metadata_json
    r) (cp_source_commit r) (cp_license r) (cp_updated_at r).

(** Table [capability_sources]. *)
Record SourceRow : Type := mkSourceRow {
  cs_source_path : string; cs_uri : string; cs_source_kind : string; cs_source_system : string;
  cs_content_hash : string
}.

#[export] Instance eta_SourceRow : EtaRecord SourceRow := fun r =>
  mkSourceRow (cs_source_path r) (cs_uri r) (cs_source_kind r) (cs_source_system r)
    (cs_content_hash r).

(** Table [capability_fts]. *)
Record FtsRow : Type := mkFtsRow {
  ft_rowid : Z; ft_uri : string; ft_name : string; ft_title : string; ft_description : string;
  ft_keywords : string; ft_plugin : string; ft_category : string; ft_content : string
}.

#[export] Instance eta_FtsRow : EtaRecord FtsRow := fun r =>
  mkFtsRow (ft_rowid r) (ft_uri r) (ft_name r) (ft_title r) (ft_description r) (ft_keywords r)
    (ft_plugin r) (ft_category r) (ft_content r).

(** Table [break_glass_sessions]. *)
Record BreakGlassRow : Type := mkBreakGlassRow {
  bg_id : string; bg_tenant_id : string; bg_principal : string; bg_reason : string;
  bg_granted_by : string; bg_ttl_minutes : Z; bg_expires_at : string;
  bg_revoked_at : option string; bg_created_at : string
}.

#[export] Instance eta_BreakGlassRow : EtaRecord BreakGlassRow := fun r =>
  mkBreakGlassRow (bg_id r) (bg_tenant_id r) (bg_principal r) (bg_reason r) (bg_granted_by r)
    (bg_ttl_minutes r) (bg_expires_at r) (bg_revoked_at r) (bg_created_at r).

(** Table [capguard_quarantine]. *)
Record QuarantineRow : Type := mkQuarantineRow {
  qr_id : string; qr_tenant_id : string; qr_capability_uri : string; qr_capability_type : string;
  qr_name : string; qr_version : string; qr_source_path : string; qr_content_hash : string;
  qr_reason : string; qr_status : string; qr_submitted_by : option string;
  qr_metadata_json : string; qr_created_at : string; qr_updated_at : string;
  qr_released_at : option string; qr_rejected_at : option string
}.

#[export] Instance eta_QuarantineRow : EtaRecord QuarantineRow := fun r =>
  mkQuarantineRow (qr_id r) (qr_tenant_id r) (qr_capability_uri r) (qr_capability_type r) (qr_name
    r) (qr_version r) (qr_source_path r) (qr_content_hash r) (qr_reason r) (qr_status r)
    (qr_submitted_by r) (qr_metadata_json r) (qr_created_at r) (qr_updated_at r) (qr_released_at
    r) (qr_rejected_at r).

(** Table [capguard_attestations]. *)
Record AttestationRow : Type := mkAttestationRow {
  at_id : string; at_tenant_id : string; at_quarantine_id : string; at_attestation_type : string;
  at_subject_uri : string; at_content_hash : string; at_verdict : option string;
  at_scanner_id : option string; at_scanner_version : option string;
  at_findings_summary_json : string; at_algorithm : string; at_key_id : string;
  at_public_key : string; at_signature : string; at_envelope_json : string; at_verifies : Z;
  at_actor : option string; at_reason : option string; at_created_at : string
}.

#[export] Instance eta_AttestationRow : EtaRecord AttestationRow := fun r =>
  mkAttestationRow (at_id r) (at_tenant_id r) (at_quarantine_id r) (at_attestation_type r)
    (at_subject_uri r) (at_content_hash r) (at_verdict r) (at_scanner_id r) (at_scanner_version r)
    (at_findings_summary_json r) (at_algorithm r) (at_key_id r) (at_public_key r) (at_signature r)
    (at_envelope_json r) (at_verifies r) (at_actor r) (at_reason r) (at_created_at r).

(** Table [meta]. *)
Record MetaRow : Type := mkMetaRow {
  mt_key : string; mt_value : string
}.

#[export] Instance eta_MetaRow : EtaRecord MetaRow := fun r =>
  mkMetaRow (mt_key r) (mt_value r).

(** Table [capability_reviews]. *)
Record ReviewRow : Type := mkReviewRow {
  cr_id : string; cr_tenant_id : string; cr_capability_uri : string; cr_content_hash : string;
  cr_review_scope : string; cr_gate_state : string; cr_evidence_json : string;
  cr_reviewer : string; cr_reviewed_at : string; cr_attestation_json : string
}.

#[export] Instance eta_ReviewRow : EtaRecord ReviewRow := fun r =>
  mkReviewRow (cr_id r) (cr_tenant_id r) (cr_capability_uri r) (cr_content_hash r)
    (cr_review_scope r) (cr_gate_state r) (cr_evidence_json r) (cr_reviewer r) (cr_reviewed_at r)
    (cr_attestation_json r).

(** Table [capability_dependencies]. *)
Record DependencyRow : Type := mkDependencyRow {
  dp_id : string; dp_tenant_id : string; dp_capability_uri : string; dp_depends_on_uri : string;
  dp_version_constraint : string; dp_required_type : option string; dp_created_at : string
}.

#[export] Instance eta_DependencyRow : EtaRecord DependencyRow := fun r =>
  mkDependencyRow (dp_id r) (dp_tenant_id r) (dp_capability_uri r) (dp_depends_on_uri r)
    (dp_version_constraint r) (dp_required_type r) (dp_created_at r).

(** Table [malware_scan_results]. *)
Record ScanRow : Type := mkScanRow {
  ms_id : string; ms_tenant_id : string; ms_capability_uri : string;
  ms_source_path : option string; ms_file_hash : string; ms_scan_passed : Z;
  ms_findings_json : string; ms_scanned_at : string
}.

#[export] Instance eta_ScanRow : EtaRecord ScanRow := fun r =>
  mkScanRow (ms_id r) (ms_tenant_id r) (ms_capability_uri r) (ms_source_path r) (ms_file_hash r)
    (ms_scan_passed r) (ms_findings_json r) (ms_scanned_at r).

(** Table [call_binding_allowlist]. *)
Record BindingRow : Type := mkBindingRow {
  cb_id : string; cb_tenant_id : string; cb_capability_uri : string; cb_binding_hash : string;
  cb_signing_key_id : string; cb_signature : string; cb_approved_by : string;
  cb_approved_at : string; cb_revoked_at : option string
}.

#[export] Instance eta_BindingRow : EtaRecord BindingRow := fun r =>
  mkBindingRow (cb_id r) (cb_tenant_id r) (cb_capability_uri r) (cb_binding_hash r)
    (cb_signing_key_id r) (cb_signature r) (cb_approved_by r) (cb_approved_at r) (cb_revoked_at r).

(** Table [oauth_sessions]. *)
Record OAuthRow : Type := mkOAuthRow {
  oa_id : string; oa_tenant_id : string; oa_flow : string; oa_state : string;
  oa_code_challenge : option string; oa_code_verifier_hash : option string;
  oa_redirect_uri : string; oa_scope : string; oa_nonce : option string; oa_status : string;
  oa_metadata_json : string; oa_created_at : string; oa_expires_at : string;
  oa_completed_at : option string
}.

#[export] Instance eta_OAuthRow : EtaRecord OAuthRow := fun r =>
  mkOAuthRow (oa_id r) (oa_tenant_id r) (oa_flow r) (oa_state r) (oa_code_challenge r)
    (oa_code_verifier_hash r) (oa_redirect_uri r) (oa_scope r) (oa_nonce r) (oa_status r)
    (oa_metadata_json r) (oa_created_at r) (oa_expires_at r) (oa_completed_at r).

(** Table [capmesh_sessions]. *)
Record SessionRow : Type := mkSessionRow {
  ss_id : string; ss_tenant_id : string; ss_token_hash : string; ss_identity_id : option string;
  ss_subject : string; ss_principal_json : string; ss_scopes_json : string; ss_issued_at : string;
  ss_expires_at : string; ss_revoked_at : option string; ss_metadata_json : string
}.

#[export] Instance eta_SessionRow : EtaRecord SessionRow := fun r =>
  mkSessionRow (ss_id r) (ss_tenant_id r) (ss_token_hash r) (ss_identity_id r) (ss_subject r)
    (ss_principal_json r) (ss_scopes_json r) (ss_issued_at r) (ss_expires_at r) (ss_revoked_at r)
    (ss_metadata_json r).

(** Table [graph_subscriptions]. *)
Record GraphRow : Type := mkGraphRow {
  gs_id : string; gs_tenant_id : string; gs_client_state_hash : string; gs_status : string
}.

#[export] Instance eta_GraphRow : EtaRecord GraphRow := fun r =>
  mkGraphRow (gs_id r) (gs_tenant_id r) (gs_client_state_hash r) (gs_status r).

(** Table [entra_group_bindings]. *)
Record EntraRow : Type := mkEntraRow {
  eg_id : string; eg_tenant_id : string; eg_entra_tenant_id : string; eg_entra_group_id : string;
  eg_entra_group_name : option string; eg_mesh_group_name : string; eg_mesh_role : string;
  eg_bound_by : string; eg_bound_at : string
}.

#[export] Instance eta_EntraRow : EtaRecord EntraRow := fun r =>
  mkEntraRow (eg_id r) (eg_tenant_id r) (eg_entra_tenant_id r) (eg_entra_group_id r)
    (eg_entra_group_name r) (eg_mesh_group_name r) (eg_mesh_role r) (eg_bound_by r) (eg_bound_at
    r).

(** Table [groups]. *)
Record GroupRow : Type := mkGroupRow {
  gr_id : string; gr_tenant_id : string; gr_external_id : option string; gr_display_name : string;
  gr_active : Z; gr_raw_json : string; gr_created_at : string; gr_updated_at : string
}.

#[export] Instance eta_GroupRow : EtaRecord GroupRow := fun r =>
  mkGroupRow (gr_id r) (gr_tenant_id r) (gr_external_id r) (gr_display_name r) (gr_active r)
    (gr_raw_json r) (gr_created_at r) (gr_updated_at r).

(** Table [group_members]. *)
Record GroupMemberRow : Type := mkGroupMemberRow {
  gm_group_id : string; gm_identity_id : string; gm_source : string
}.

#[export] Instance eta_GroupMemberRow : EtaRecord GroupMemberRow := fun r =>
  mkGroupMemberRow (gm_group_id r) (gm_identity_id r) (gm_source r).

(** Table [scim_sync_state]. *)
Record SyncRow : Type := mkSyncRow {
  sy_id : string; sy_tenant_id : string; sy_resource_type : string; sy_external_id : string;
  sy_internal_id : string; sy_version : option string; sy_raw_json : string;
  sy_last_seen_at : string
}.

#[export] Instance eta_SyncRow : EtaRecord SyncRow := fun r =>
  mkSyncRow (sy_id r) (sy_tenant_id r) (sy_resource_type r) (sy_external_id r) (sy_internal_id r)
    (sy_version r) (sy_raw_json r) (sy_last_seen_at r).

(** Table [task_envelopes]. *)
Record TaskRow : Type := mkTaskRow {
  tk_id : string; tk_tenant_id : string; tk_capability_uri : string; tk_principal : string;
  tk_status : string; tk_task_envelope_json : string; tk_result_json : option string;
  tk_error : option string; tk_created_at : string; tk_started_at : option string;
  tk_completed_at : option string; tk_updated_at : string
}.

#[export] Instance eta_TaskRow : EtaRecord TaskRow := fun r =>
  mkTaskRow (tk_id r) (tk_tenant_id r) (tk_capability_uri r) (tk_principal r) (tk_status r)
    (tk_task_envelope_json r) (tk_result_json r) (tk_error r) (tk_created_at r) (tk_started_at r)
    (tk_completed_at r) (tk_updated_at r).

(** Table [router_reports]. *)
Record RouterReportRow : Type := mkRouterReportRow {
  rr_ts : string; rr_event : string; rr_uri : option string; rr_principal : option string; rr_payload_json : string
}.

#[export] Instance eta_RouterReportRow : EtaRecord RouterReportRow := fun r =>
  mkRouterReportRow (rr_ts r) (rr_event r) (rr_uri r) (rr_principal r) (rr_payload_json r).

(** Table [authoritative_router_reports]. *)
Record AuthorityReportRow : Type := mkAuthorityReportRow {
  ar_ts : string; ar_event : string; ar_task_id : string; ar_report_id : string; ar_nonce : string;
  ar_principal : string; ar_report_digest : string; ar_receipt_json : string
}.

#[export] Instance eta_AuthorityReportRow : EtaRecord AuthorityReportRow := fun r =>
  mkAuthorityReportRow (ar_ts r) (ar_event r) (ar_task_id r) (ar_report_id r) (ar_nonce r) (ar_principal r)
    (ar_report_digest r) (ar_receipt_json r).

(** The database: every table as the list of its rows in rowid order. *)
Record DB : Type := mkDB {
  db_tenants : list TenantRow; db_identities : list IdentityRow; db_apps : list AppRow;
  db_organizations : list OrgRow; db_stores : list StoreRow; db_namespaces : list NamespaceRow;
  db_namespace_members : list MemberRow; db_role_assignments : list RoleRow;
  db_relationship_tuples : list TupleRow; db_policy_decisions : list DecisionRow;
  db_shares : list ShareRow; db_promotion_requests : list PromotionRow;
  db_promotion_gate_runs : list GateRunRow; db_approval_steps : list ApprovalRow;
  db_audit_events : list AuditRow; db_registry_log : list LogRow; db_capabilities : list CapRow;
  db_capability_sources : list SourceRow; db_capability_fts : list FtsRow;
  db_break_glass_sessions : list BreakGlassRow; db_capguard_quarantine : list QuarantineRow;
  db_capguard_attestations : list AttestationRow; db_meta : list MetaRow;
  db_capability_reviews : list ReviewRow; db_capability_dependencies : list DependencyRow;
  db_malware_scan_results : list ScanRow; db_call_binding_allowlist : list BindingRow;
  db_oauth_sessions : list OAuthRow; db_capmesh_sessions : list SessionRow;
  db_graph_subscriptions : list GraphRow; db_entra_group_bindings : list EntraRow;
  db_groups : list GroupRow; db_group_members : list GroupMemberRow;
  db_scim_sync_state : list SyncRow; db_task_envelopes : list TaskRow;
  db_router_reports : list RouterReportRow; db_authoritative_router_reports : list AuthorityReportRow
}.

#[export] Instance eta_DB : EtaRecord DB := fun r =>
  mkDB (db_tenants r) (db_identities r) (db_apps r) (db_organizations r) (db_stores r)
    (db_namespaces r) (db_namespace_members r) (db_role_assignments r) (db_relationship_tuples r)
    (db_policy_decisions r) (db_shares r) (db_promotion_requests r) (db_promotion_gate_runs r)
    (db_approval_steps r) (db_audit_events r) (db_registry_log r) (db_capabilities r)
    (db_capability_sources r) (db_capability_fts r) (db_break_glass_sessions r)
    (db_capguard_quarantine r) (db_capguard_attestations r) (db_meta r) (db_capability_reviews r)
    (db_capability_dependencies r) (db_malware_scan_results r) (db_call_binding_allowlist r)
    (db_oauth_sessions r) (db_capmesh_sessions r) (db_graph_subscriptions r)
    (db_entra_group_bindings r) (db_groups r) (db_group_members r) (db_scim_sync_state r)
    (db_task_envelopes r) (db_router_reports r) (db_authoritative_router_reports r).

Definition empty_db : DB :=
  mkDB [] [] [] [] [] [] [] [] [] [] [] [] [] [] [] [] [] [] [] [] [] [] [] [] [] [] [] [] [] [] [] [] [] [] [] [] [].

(** ** The world *)

(** What the operating system supplies: the environment variables and the
    random 32-digit texts of [uuid.uuid4().hex]. *)
Class Runtime : Type := {
  environ : string -> option string;
  uuid4_hex : nat -> string
}.

(** A file of the machine: what [os.lstat] says of it, and its bytes. *)
Inductive FileKind : Type := Regular | Directory | Symlink | Special.
Record FileNode : Type := mkFileNode {
  fn_kind : FileKind; fn_mode : Z; fn_readable : bool; fn_content : string
}.

Record World : Type := mkWorld {
  w_db : DB;          (** what the open transaction reads *)
  w_disk : DB;        (** what has been committed *)
  w_org_cache : gmap (string * string) (option string);  (** [_ORG_FOR_STORE_CACHE] *)
  w_uuid : nat;       (** how many random ids were drawn *)
  w_clock : Z;        (** microseconds since the epoch *)
  w_files : gmap string FileNode  (** the file system, by resolved path *)
}.

#[export] Instance eta_World : EtaRecord World := fun r =>
  mkWorld (w_db r) (w_disk r) (w_org_cache r) (w_uuid r) (w_clock r) (w_files r).

#[warnings="-notation-for-abbreviation"] Notation Op := (M World).

(** ** Statements *)

(** A read of the open transaction. *)
Definition query {A} (f : DB -> A) : Op A := gets (fun w => f (w_db w)).
Definition set_db (f : DB -> DB) : Op unit := modify (fun w => upd w_db (f (w_db w)) w).
(** [con.commit()] *)
Definition commit : Op unit := modify (fun w => upd w_disk (w_db w) w).
(** [utils.utc_now()] and CURRENT_TIMESTAMP. *)
Definition utc_now : Op string := gets (fun w => utc_text (w_clock w)).
Definition sql_now : Op string := gets (fun w => sql_text_now (w_clock w)).
(** [datetime.now(UTC).isoformat()], and the same [us] microseconds later. *)
Definition iso_after (us : Z) : Op string := gets (fun w => iso_text (w_clock w + us)).

Section Statements.
Context {R : Type} (tbl : DB -> list R) {F : FieldUpdate tbl}.

(** INSERT of a row whose keys are fresh random ids. *)
Definition insert_row (r : R) : Op unit := set_db (fun d => upd tbl (tbl d ++ [r]) d).

(** INSERT where [clash] selects the rows that violate a PRIMARY KEY or
    UNIQUE constraint with the new one. *)
Definition insert_unique (clash : R -> bool) (r : R) : Op unit :=
  let! t := query tbl in
  if exists_where clash t then raise (IntegrityError "UNIQUE constraint failed")
  else insert_row r.

(** INSERT OR IGNORE. *)
Definition insert_or_ignore (clash : R -> bool) (r : R) : Op unit :=
  set_db (fun d => if exists_where clash (tbl d) then d else upd tbl (tbl d ++ [r]) d).

(** UPDATE ... SET ... WHERE; DELETE ... WHERE. *)
Definition update_rows (p : R -> bool) (f : R -> R) : Op unit :=
  set_db (fun d => upd tbl (update_where p f (tbl d)) d).
Definition delete_rows (p : R -> bool) : Op unit :=
  set_db (fun d => upd tbl (delete_where p (tbl d)) d).

(** INSERT ... ON CONFLICT(id) DO UPDATE. *)
Definition upsert_row (same_id : R -> bool) (r : R) (on_conflict : R -> R) : Op unit :=
  set_db (fun d => if exists_where same_id (tbl d)
                   then upd tbl (update_where same_id on_conflict (tbl d)) d
                   else upd tbl (tbl d ++ [r]) d).
End Statements.

#[global] Arguments insert_row {R} tbl {F} r.
#[global] Arguments insert_unique {R} tbl {F} clash r.
#[global] Arguments insert_or_ignore {R} tbl {F} clash r.
#[global] Arguments update_rows {R} tbl {F} p f.
#[global] Arguments delete_rows {R} tbl {F} p.
#[global] Arguments upsert_row {R} tbl {F} same_id r on_conflict.

Section Ids.
Context `{!Runtime}.

(** [utils.new_id] *)
Definition new_id (prefix : string) : Op string :=
  fun w => (Ok (prefix +:+ "_" +:+ uuid4_hex (w_uuid w)), upd w_uuid (S (w_uuid w)) w).

(** A table whose primary keys were all drawn with [prefix] before the [n]-th
    random id. *)
Definition ids_drawn {R} (prefix : string) (key : R -> string) (t : list R) (n : nat) : Prop :=
  NoDup (key <$> t) /\ forall r m, r ∈ t -> (n <= m)%nat -> key r <> prefix +:+ "_" +:+ uuid4_hex m.

Lemma ids_drawn_later {R} prefix (key : R -> string) t t' n n' :
  ids_drawn prefix key t n -> key <$> t' = key <$> t -> (n <= n')%nat -> ids_drawn prefix key t' n'.
Proof.
  intros [Hnd Hfresh] Hkeys Hn. split; [by rewrite Hkeys|]. intros r m Hr Hm He.
  assert (key r ∈ key <$> t) as (r0 & Heq & Hr0)%list_elem_of_fmap by (rewrite <-Hkeys; by apply list_elem_of_fmap_2).
  apply (Hfresh r0 m Hr0); [lia | congruence].
Qed.

Lemma ids_drawn_snoc {R} prefix (key : R -> string) t r n n' :
  (forall a b, uuid4_hex a = uuid4_hex b -> a = b) ->
  ids_drawn prefix key t n -> key r = prefix +:+ "_" +:+ uuid4_hex n -> (n < n')%nat ->
  ids_drawn prefix key (t ++ [r]) n'.
Proof.
  intros Hinj [Hnd Hfresh] Hr Hn. split.
  - rewrite fmap_app. apply NoDup_app. split_and!; [done | | apply NoDup_singleton].
    intros x (r0 & -> & Hr0)%list_elem_of_fmap Hx%list_elem_of_singleton. apply (Hfresh r0 n Hr0); [lia | congruence].
  - intros x m [Hx|Hx%list_elem_of_singleton]%elem_of_app Hm; [apply Hfresh; [done | lia]|]. subst x. rewrite Hr.
    intros He. assert (forall p a b : string, p +:+ a = p +:+ b -> a = b) as Happ.
    { intros q a b. induction q as [|c q IH]; [done|]. cbn. intros [= Heq]. by apply IH. }
    apply Happ, Happ, Hinj in He. lia.
Qed.

(** Rows with the same unique key are the same row. *)
Lemma key_unique {R} (key : R -> string) t r r' :
  NoDup (key <$> t) -> r ∈ t -> r' ∈ t -> key r' = key r -> r' = r.
Proof.
  intros Hnd Hr Hr' He. apply list_elem_of_lookup in Hr as [i Hi]. apply list_elem_of_lookup in Hr' as [j Hj].
  assert (i = j) as ->; [|congruence].
  apply (NoDup_lookup (key <$> t) i j (key r) Hnd); rewrite list_lookup_fmap; [by rewrite Hi | by rewrite Hj; cbn; rewrite He].
Qed.

(** [os.environ.get(name, default)] *)
Definition getenv (name default : string) : string := or_else (environ name) default.

(** [utils.DEFAULT_TENANT] *)
Definition DEFAULT_TENANT : string := getenv "CAPMESH_DEFAULT_TENANT" "asg".

(** [utils._production_environment] *)
Definition production_environment : bool :=
  smem (lower (strip (getenv "CAPMESH_ENVIRONMENT" ""))) ["production"; "prod"].
End Ids.

(** ** Frames

    [keeps f m]: [m] leaves [f] of the world as it was, whatever its outcome. *)
Definition same {A} (f : World -> A) : relation World := fun w w' => f w' = f w.

#[export] Instance same_preorder {A} (f : World -> A) : PreOrder (same f).
Proof. split; [by intros w | intros x y z; unfold same; congruence]. Qed.

Definition keeps {A} (f : World -> A) {B} (m : Op B) : Prop := preserves (same f) m.

(** A table of the open transaction, as a function of the world. *)
Definition tbl {R} (t : DB -> list R) (w : World) : list R := t (w_db w).

Lemma keeps_run {A B} (f : World -> A) (m : Op B) w o w' :
  keeps f m -> m w = (o, w') -> f w' = f w.
Proof. intros H E. specialize (H w). by rewrite E in H. Qed.

Lemma keeps_query {A B} (f : World -> A) (g : DB -> B) : keeps f (query g).
Proof. by intros w. Qed.

(** A statement on one table keeps whatever does not depend on that table; the
    hypothesis is an equality of projections, closed by computation. *)
Lemma keeps_set_db {A} (f : World -> A) (g : DB -> DB) :
  (forall w, f (upd w_db (g (w_db w)) w) = f w) -> keeps f (set_db g).
Proof. intros H w. apply H. Qed.

Ltac keeps_statement :=
  intros ?w; unfold same, tbl; cbn; repeat case_match; reflexivity.

#[export] Hint Extern 2 (preserves _ (insert_row _ _)) => solve [keeps_statement] : frame.
#[export] Hint Extern 2 (preserves _ (insert_or_ignore _ _ _)) => solve [keeps_statement] : frame.
#[export] Hint Extern 2 (preserves _ (insert_unique _ _ _)) => solve [keeps_statement] : frame.
#[export] Hint Extern 2 (preserves _ (update_rows _ _ _)) => solve [keeps_statement] : frame.
#[export] Hint Extern 2 (preserves _ (delete_rows _ _)) => solve [keeps_statement] : frame.
#[export] Hint Extern 2 (preserves _ (upsert_row _ _ _ _)) => solve [keeps_statement] : frame.
#[export] Hint Extern 2 (preserves _ commit) => solve [keeps_statement] : frame.
#[export] Hint Extern 2 (preserves _ (query _)) => solve [keeps_statement] : frame.
#[export] Hint Extern 2 (preserves _ utc_now) => solve [keeps_statement] : frame.
#[export] Hint Extern 2 (preserves _ sql_now) => solve [keeps_statement] : frame.
#[export] Hint Extern 2 (preserves _ (iso_after _)) => solve [keeps_statement] : frame.
#[export] Hint Extern 2 (preserves _ (new_id _)) => solve [keeps_statement] : frame.

(** Random ids are drawn, never put back. *)
Definition later (w w' : World) : Prop := (w_uuid w <= w_uuid w')%nat.

#[export] Instance later_preorder : PreOrder later.
Proof. split; [intros w; unfold later; lia | intros x y z; unfold later; lia]. Qed.

(** Every statement and every new id. *)
#[export] Hint Extern 3 (preserves later _) =>
  solve [intros ?; unfold later; cbn; repeat case_match; cbn; lia] : frame.
