(* ===== verification/Dependencies.v ===== *)
(** * The dependency graph ([dependency_graph.py])

    Recorded dependencies between capabilities, cycle detection by depth-first
    search, deployment order, and compatibility with version constraints. *)

From Stdlib Require Import ZArith Ascii String Lia.
From stdpp Require Import base option list strings gmap.
From S2P Require Import Prelude Sha256 PyStr Json Clock Ordering Semver Db.
Local Open Scope string_scope.
Local Open Scope list_scope.

Section Operations.
Context `{!Runtime}.

(** [executescript] first commits the pending transaction. *)
Definition ensure_dependency_table : Op unit := commit.

(** The UNIQUE key of the table. *)
Definition same_dependency (tenant_id capability_uri depends_on_uri : string) (r : DependencyRow) : bool :=
  (dp_tenant_id r =s tenant_id) && (dp_capability_uri r =s capability_uri)
  && (dp_depends_on_uri r =s depends_on_uri).

Definition add_dependency (capability_uri depends_on_uri version_constraint : string)
    (required_type : option string) (tenant_id : string) (do_commit : bool) : Op dict :=
  ensure_dependency_table ;;;
  if capability_uri =s depends_on_uri then raise (ValueError "A capability cannot depend on itself")
  else
    let! dep_id := new_id "dep" in
    let! now := sql_now in
    let! _ := upsert_row db_capability_dependencies (same_dependency tenant_id capability_uri depends_on_uri)
      {| dp_id := dep_id; dp_tenant_id := tenant_id; dp_capability_uri := capability_uri;
         dp_depends_on_uri := depends_on_uri; dp_version_constraint := version_constraint;
         dp_required_type := required_type; dp_created_at := now |}
      (fun r => upd dp_version_constraint version_constraint (upd dp_required_type required_type r)) in
    let! _ := when do_commit commit in
    ret [("capabilityUri", JStr capability_uri); ("dependsOnUri", JStr depends_on_uri);
         ("versionConstraint", JStr version_constraint);
         ("requiredType", match required_type with Some t => JStr t | None => JNull end)].

Definition remove_dependency (capability_uri depends_on_uri tenant_id : string) (do_commit : bool) : Op dict :=
  ensure_dependency_table ;;;
  let! removed := query (fun d => exists_where (same_dependency tenant_id capability_uri depends_on_uri)
                                    (db_capability_dependencies d)) in
  delete_rows db_capability_dependencies (same_dependency tenant_id capability_uri depends_on_uri) ;;;
  when do_commit commit ;;;
  ret [("removed", JBool removed); ("capabilityUri", JStr capability_uri); ("dependsOnUri", JStr depends_on_uri)].

(** An entry of [list_dependencies]. *)
Record Dependency : Type := mkDependency {
  dependsOnUri : string; versionConstraint : string; requiredType : option string;
  resolvedName : option string; resolvedVersion : option string; resolvedType : option string; resolved : bool
}.

(** [str(x) if x else None] *)
Definition text_or_none (x : option string) : option string := if otruthy x then x else None.

(** The joined capability; an address is unique in its table. *)
Definition joined (d : DB) (uri tenant_id : string) : option CapRow :=
  fetchone (fun c => (cp_uri c =s uri) && (cp_tenant_id c =s tenant_id)) (db_capabilities d).

Definition dependency_of (d : DB) (r : DependencyRow) : Dependency :=
  let c := joined d (dp_depends_on_uri r) (dp_tenant_id r) in
  mkDependency (dp_depends_on_uri r) (dp_version_constraint r) (text_or_none (dp_required_type r))
    (text_or_none (cp_name <$> c)) (text_or_none (cp_version <$> c)) (text_or_none (cp_type <$> c))
    (is_some c).

Definition dependencies_in (d : DB) (capability_uri tenant_id : string) : list Dependency :=
  dependency_of d <$> sort_by (fun a b => sle (dp_depends_on_uri a) (dp_depends_on_uri b))
    (fetchall (fun r => (dp_capability_uri r =s capability_uri) && (dp_tenant_id r =s tenant_id))
       (db_capability_dependencies d)).

Definition list_dependencies (capability_uri tenant_id : string) : Op (list Dependency) :=
  ensure_dependency_table ;;; query (fun d => dependencies_in d capability_uri tenant_id).

(** An entry of [list_dependents]. *)
Record Dependent : Type := mkDependent {
  capabilityUri : string; dt_versionConstraint : string; dt_name : option string; dt_version : option string
}.

Definition list_dependents (depends_on_uri tenant_id : string) : Op (list Dependent) :=
  ensure_dependency_table ;;;
  query (fun d =>
    (fun r => let c := joined d (dp_capability_uri r) (dp_tenant_id r) in
       mkDependent (dp_capability_uri r) (dp_version_constraint r)
         (text_or_none (cp_name <$> c)) (text_or_none (cp_version <$> c)))
    <$> sort_by (fun a b => sle (dp_capability_uri a) (dp_capability_uri b))
          (fetchall (fun r => (dp_depends_on_uri r =s depends_on_uri) && (dp_tenant_id r =s tenant_id))
             (db_capability_dependencies d))).

(** The edges of a tenant, from a capability to what it depends on. *)
Definition edges (d : DB) (tenant_id : string) : list (string * string) :=
  (fun r => (dp_capability_uri r, dp_depends_on_uri r))
  <$> fetchall (fun r => dp_tenant_id r =s tenant_id) (db_capability_dependencies d).

(** ** [detect_cycles] *)
Record DfsState : Type := mkDfs {
  ds_visited : gset string; ds_rec_stack : gset string; ds_path : list string; ds_cycles : list (list string)
}.

(** [path.index(x)] *)
Fixpoint index_in (x : string) (path : list string) : option nat :=
  match path with
  | [] => None
  | y :: path' => if y =s x then Some 0 else S <$> index_in x path'
  end.

Fixpoint dfs_neighbors (dfs : string -> DfsState -> outcome DfsState) (neighbors : list string) (st : DfsState)
  : outcome DfsState :=
  match neighbors with
  | [] => Ok st
  | neighbor :: neighbors' =>
      let? st' :=
        if negb (bool_decide (neighbor ∈ ds_visited st)) then dfs neighbor st
        else if bool_decide (neighbor ∈ ds_rec_stack st) then
          match index_in neighbor (ds_path st) with
          | Some cycle_start =>
              Ok (mkDfs (ds_visited st) (ds_rec_stack st) (ds_path st)
                    (ds_cycles st ++ [drop cycle_start (ds_path st) ++ [neighbor]]))
          | None => Raise (ValueError "list.index(x): x not in list")
          end
        else Ok st in
      dfs_neighbors dfs neighbors' st'
  end.

(** The recursive function; [limit] is the room left on the interpreter's
    stack, whose end is a RecursionError. *)
Fixpoint dfs (limit : nat) (graph : list (string * list string)) (node : string) (st : DfsState)
  : outcome DfsState :=
  match limit with
  | O => Raise (OtherError "RecursionError: maximum recursion depth exceeded")
  | S limit' =>
      let? st' := dfs_neighbors (dfs limit' graph) (group_of node graph)
        (mkDfs ({[node]} ∪ ds_visited st) ({[node]} ∪ ds_rec_stack st) (ds_path st ++ [node]) (ds_cycles st)) in
      Ok (mkDfs (ds_visited st') (ds_rec_stack st' ∖ {[node]}) (removelast (ds_path st')) (ds_cycles st'))
  end.

Fixpoint dfs_roots (limit : nat) (graph : list (string * list string)) (nodes : list string) (st : DfsState)
  : outcome DfsState :=
  match nodes with
  | [] => Ok st
  | node :: nodes' =>
      let? st' := if bool_decide (node ∈ ds_visited st) then Ok st else dfs limit graph node st in
      dfs_roots limit graph nodes' st'
  end.

Definition cycles_of (limit : nat) (E : list (string * string)) : outcome (list (list string)) :=
  let graph := group_by fst snd E in
  let? st := dfs_roots limit graph graph.*1 (mkDfs ∅ ∅ [] []) in
  Ok (ds_cycles st).

Definition detect_cycles (limit : nat) (tenant_id : string) : Op (list (list string)) :=
  ensure_dependency_table ;;;
  let! E := query (fun d => edges d tenant_id) in
  lift (cycles_of limit E).

(** ** [topological_sort] *)

(** A defaultdict of counts. *)
Definition count_of (n : string) (in_degree : gmap string Z) : Z := default 0%Z (in_degree !! n).

Definition in_degrees (E : list (string * string)) : gmap string Z :=
  fold_left (fun m e => <[e.1 := (count_of e.1 m + 1)%Z]> m) E ∅.

Definition all_nodes (E : list (string * string)) : list string :=
  remove_dups (mjoin ((fun e => [e.1; e.2]) <$> E)).

(** The nodes released by the one taken from the queue. *)
Fixpoint release (neighbors : list string) (in_degree : gmap string Z) (queue : list string)
  : gmap string Z * list string :=
  match neighbors with
  | [] => (in_degree, queue)
  | neighbor :: neighbors' =>
      let in_degree := <[neighbor := (count_of neighbor in_degree - 1)%Z]> in_degree in
      release neighbors' in_degree
        (if Z.eqb (count_of neighbor in_degree) 0 then queue ++ [neighbor] else queue)
  end.

(** The loop; [None] when the fuel runs out before the queue. *)
Fixpoint topo_loop (fuel : nat) (graph : list (string * list string)) (in_degree : gmap string Z)
    (queue result : list string) : option (list string) :=
  match queue with
  | [] => Some result
  | node :: queue =>
      match fuel with
      | O => None
      | S fuel =>
          let '(in_degree, queue) := release (sorted_strings (group_of node graph)) in_degree queue in
          topo_loop fuel graph in_degree queue (result ++ [node])
      end
  end.

Definition topo_order (E : list (string * string)) : option (list string) :=
  let graph := group_by snd fst E in
  let nodes := all_nodes E in
  let in_degree := in_degrees E in
  topo_loop (length nodes) graph in_degree
    (sorted_strings (List.filter (fun n => Z.eqb (count_of n in_degree) 0) nodes)) [].

(** The fuel is the number of nodes; [topological_sort_total] shows that it is enough. *)
Definition topological_sort (tenant_id : string) : Op (list string) :=
  ensure_dependency_table ;;;
  let! E := query (fun d => edges d tenant_id) in
  match topo_order E with
  | Some result => ret result
  | None => raise (OtherError "out of fuel")
  end.

(** ** [check_compatibility] *)

(** [int(x) if x.isdigit() else 0] *)
Definition int_or_zero (x : string) : Z := if isdigit x then int_of_digits x else 0%Z.
Definition release_text (major minor : Z) : string := str_of_Z major +:+ "." +:+ str_of_Z minor +:+ ".0".

Definition compare_op (op : string) (cmp : Z) : bool :=
  if op =s ">=" then Z.leb 0 cmp
  else if op =s "<=" then Z.leb cmp 0
  else if op =s "==" then Z.eqb cmp 0
  else if op =s ">" then Z.ltb 0 cmp
  else Z.ltb cmp 0.

Definition _satisfies_constraint (version constraint : string) : bool :=
  let constraint := strip constraint in
  if constraint =s "*" then true
  else if startswith constraint "^" then
    let base := strip (sdrop 1 constraint) in
    match split_on "." base with
    | p0 :: _ :: _ =>
        let major := int_or_zero p0 in
        Z.leb 0 (compare_semver version (release_text major 0))
        && Z.ltb (compare_semver version (release_text (major + 1) 0)) 0
    | _ => Z.leb 0 (compare_semver version base)
    end
  else if startswith constraint "~" then
    let base := strip (sdrop 1 constraint) in
    match split_on "." base with
    | p0 :: p1 :: _ :: _ =>
        let major := int_or_zero p0 in
        let minor := int_or_zero p1 in
        Z.leb 0 (compare_semver version (release_text major minor))
        && Z.ltb (compare_semver version (release_text major (minor + 1))) 0
    | _ => Z.leb 0 (compare_semver version base)
    end
  else
    match List.find (startswith constraint) [">="; "<="; "=="; ">"; "<"] with
    | Some op => compare_op op (compare_semver version (strip (sdrop (String.length op) constraint)))
    | None => Z.eqb (compare_semver version constraint) 0
    end.

Definition opt_json (x : option string) : json := match x with Some s => JStr s | None => JNull end.

(** The issues of one dependency. *)
Definition dependency_issues (dep : Dependency) : list dict :=
  if negb (resolved dep)
  then [[("dependsOnUri", JStr (dependsOnUri dep)); ("issue", JStr "unresolved");
         ("detail", JStr "Dependency capability not found in registry")]]
  else
    (if otruthy (requiredType dep) && negb (oeqb (resolvedType dep) (requiredType dep))
     then [[("dependsOnUri", JStr (dependsOnUri dep)); ("issue", JStr "type_mismatch");
            ("expected", opt_json (requiredType dep)); ("actual", opt_json (resolvedType dep))]]
     else [])
    ++ (let constraint := versionConstraint dep in
        let actual := o_or (resolvedVersion dep) "0.0.0" in
        if negb (constraint =s "*") && negb (_satisfies_constraint actual constraint)
        then [[("dependsOnUri", JStr (dependsOnUri dep)); ("issue", JStr "version_mismatch");
               ("constraint", JStr constraint); ("actual", JStr actual)]]
        else []).

Definition check_compatibility (capability_uri tenant_id : string) : Op dict :=
  let! deps := list_dependencies capability_uri tenant_id in
  let issues := mjoin (dependency_issues <$> deps) in
  ret [("capabilityUri", JStr capability_uri); ("dependencies", JNum (Z.of_nat (length deps)));
       ("issues", JArr (JObj <$> issues)); ("compatible", JBool (Nat.eqb (length issues) 0))].
End Operations.
