(* ===== verification/DependencyProps.v ===== *)
(** * Theorems on the dependency graph

    Deployment order and cycle detection against the dependency relation,
    their agreement, and the compatibility verdict. *)

From Stdlib Require Import ZArith Ascii String Lia.
From stdpp Require Import base option list strings gmap relations.
From S2P Require Import Prelude PyStr Json Clock Ordering Semver Db Dependencies.
Local Open Scope string_scope.
Local Open Scope list_scope.

(** ** Cycles of a relation *)
Section Relations.
Context {A : Type} `{!EqDecision A} (R : relation A).

Definition on_cycle (x : A) : Prop := tc R x x.
Definition acyclic : Prop := forall x, ~ on_cycle x.

(** A node from which every walk ends is on no cycle. *)
Lemma acc_tc_closed x y : Acc (flip R) x -> tc R x y -> Acc (flip R) y.
Proof. intros Hx Hxy. revert Hx. induction Hxy as [x y Hxy|x y z Hxy _ IH]; intros [Hx]; [|apply IH]; by apply Hx. Qed.

Lemma tc_first x z : tc R x z -> R x z \/ exists y, R x y /\ tc R y z.
Proof. destruct 1; eauto. Qed.

Lemma acc_not_on_cycle x : Acc (flip R) x -> ~ on_cycle x.
Proof.
  induction 1 as [x _ IH]. intros Hx. destruct (tc_first _ _ Hx) as [Hy|(y & Hy & Hz)]; [by apply (IH x)|].
  apply (IH y Hy). eapply tc_r; [exact Hz | exact Hy].
Qed.

(** In a finite set every element of which has a successor in the set, a cycle
    is reachable from everywhere: the longest walk without repetition. *)
Lemma walk_reaches_cycle (X : list A) :
  (forall x, x ∈ X -> exists y, y ∈ X /\ R x y) ->
  forall x, x ∈ X -> exists c, rtc R x c /\ on_cycle c.
Proof.
  intros Hnext x Hx.
  assert (forall k p h, length X = length p + k -> NoDup (h :: p) -> h :: p ⊆ X -> rtc R x h ->
    (forall q, q ∈ p -> tc R q h) -> exists c, rtc R x c /\ on_cycle c) as Hwalk.
  { intros k. induction k as [|k IH]; intros p h Hlen Hnd Hsub Hxh Hph.
    - pose proof (submseteq_length _ _ (NoDup_submseteq _ _ Hnd Hsub)) as Hl. cbn in Hl. lia.
    - destruct (Hnext h) as (y & Hy & Hhy); [apply Hsub; by left|].
      assert (forall q, q ∈ h :: p -> tc R q y) as Hqy.
      { intros q [->|Hq]%elem_of_cons; [by apply tc_once|]. eapply tc_r; [by apply Hph | done]. }
      destruct (decide (y ∈ h :: p)) as [Hin|Hout].
      + exists y. split; [by eapply rtc_r | by apply Hqy].
      + apply (IH (h :: p) y); [cbn; lia | by constructor | | by eapply rtc_r | done].
        intros z [->|Hz]%elem_of_cons; [done | by apply Hsub]. }
  apply (Hwalk (length X) [] x); [done | apply NoDup_singleton | | apply rtc_refl |].
  - by intros y ->%list_elem_of_singleton.
  - by intros q []%elem_of_nil.
Qed.
End Relations.

(** ** The queue of [topological_sort] *)
Definition occurrences (n : string) (l : list string) : nat := length (List.filter (String.eqb n) l).

Lemma occurrences_cons n x l : occurrences n (x :: l) = (if n =s x then 1 else 0) + occurrences n l.
Proof. unfold occurrences. cbn. by destruct (n =s x). Qed.

Lemma occurrences_app n l k : occurrences n (l ++ k) = occurrences n l + occurrences n k.
Proof. unfold occurrences. by rewrite List.filter_app, length_app. Qed.

Lemma occurrences_pos n l : 0 < occurrences n l <-> n ∈ l.
Proof.
  induction l as [|x l IH]; [rewrite elem_of_nil; cbn; lia|].
  rewrite occurrences_cons, elem_of_cons. destruct (n =s x) eqn:E.
  - apply String.eqb_eq in E as ->. split; [by left | lia].
  - apply String.eqb_neq in E. rewrite <-IH. cbn. tauto.
Qed.

Lemma occurrences_perm n l k : l ≡ₚ k -> occurrences n l = occurrences n k.
Proof. induction 1; rewrite ?occurrences_cons; lia. Qed.

Lemma count_of_insert n m x v : count_of n (<[x := v]> m) = if n =s x then v else count_of n m.
Proof.
  unfold count_of. destruct (n =s x) eqn:E; [apply String.eqb_eq in E as ->; by rewrite lookup_insert_eq|].
  apply String.eqb_neq in E. by rewrite lookup_insert_ne by congruence.
Qed.

(** What [release] does to the counts and to the queue, when every count covers
    its decrements. *)
Lemma release_spec l m q :
  (forall n, n ∈ l -> Z.of_nat (occurrences n l) <= count_of n m)%Z ->
  exists new, (release l m q).2 = q ++ new /\ NoDup new /\
    (forall n, count_of n (release l m q).1 = count_of n m - Z.of_nat (occurrences n l))%Z /\
    (forall n, n ∈ new <-> n ∈ l /\ count_of n m = Z.of_nat (occurrences n l)).
Proof.
  revert m q. induction l as [|x l IH]; intros m q Hm.
  { exists []. rewrite List.app_nil_r. split_and!; [done | constructor | cbn; lia | set_solver]. }
  cbn [release]. set (m' := <[x := (count_of x m - 1)%Z]> m).
  assert (forall n, count_of n m' = count_of n m - (if n =s x then 1 else 0))%Z as Hm'.
  { intros n. unfold m'. rewrite count_of_insert. destruct (n =s x) eqn:E; [|lia].
    by apply String.eqb_eq in E as ->. }
  destruct (IH m' (if Z.eqb (count_of x m') 0 then q ++ [x] else q)) as (new & Hq & Hnd & Hc & Hnew).
  { intros n Hn. specialize (Hm n ltac:(by right)). rewrite Hm'. rewrite occurrences_cons in Hm.
    destruct (n =s x); lia. }
  assert (forall n, (count_of n (release l m' (if Z.eqb (count_of x m') 0 then q ++ [x] else q)).1
                     = count_of n m - Z.of_nat (occurrences n (x :: l)))%Z) as Hc'.
  { intros n. rewrite Hc, Hm', occurrences_cons. destruct (n =s x); lia. }
  assert (forall n, count_of n m' = Z.of_nat (occurrences n l) <-> count_of n m = Z.of_nat (occurrences n (x :: l)))
    as Heq by (intros n; rewrite Hm', occurrences_cons; destruct (n =s x); lia).
  pose proof (Hm x ltac:(by left)) as Hx. rewrite occurrences_cons, String.eqb_refl in Hx.
  pose proof (Hm' x) as Hx'. rewrite String.eqb_refl in Hx'.
  destruct (Z.eqb_spec (count_of x m') 0) as [E|E].
  - assert (x ∉ l) as Hxl by (rewrite <-occurrences_pos; lia).
    exists (x :: new). split_and!; [by rewrite Hq, <-List.app_assoc | | done |].
    + constructor; [|done]. rewrite Hnew. tauto.
    + intros n. rewrite !elem_of_cons, Hnew, Heq. split; [|tauto].
      intros [->|[]]; [|tauto]. split; [by left|]. apply Heq. rewrite E. rewrite <-occurrences_pos in Hxl. lia.
  - exists new. split_and!; [done..|]. intros n. rewrite elem_of_cons, Hnew, Heq.
    split; [tauto|]. intros [[->|] Hn]; [|done]. split; [|done]. apply occurrences_pos. apply Heq in Hn. lia.
Qed.

Section Topological.
Context (E : list (string * string)).

(** [depends a b]: capability [a] depends on [b]. *)
Definition depends (a b : string) : Prop := (a, b) ∈ E.

Lemma elem_of_all_nodes n : n ∈ all_nodes E <-> exists m, depends n m \/ depends m n.
Proof.
  unfold all_nodes, depends. rewrite elem_of_remove_dups, list_elem_of_join. split.
  - intros (l & Hl & ([a b] & -> & Hin)%list_elem_of_fmap). cbn in Hl.
    rewrite !elem_of_cons, elem_of_nil in Hl. destruct Hl as [->|[->|[]]]; eauto.
  - intros [m [H|H]]; eexists; (split; [|apply list_elem_of_fmap; eexists; by split]);
      rewrite !elem_of_cons; auto.
Qed.

(** How many recorded dependencies of [n] are not yet placed. *)
Definition unplaced (placed : list string) (n : string) : nat :=
  length (List.filter (fun e => (e.1 =s n) && negb (smem e.2 placed)) E).

Lemma unplaced_zero placed n : unplaced placed n = 0 <-> forall b, depends n b -> b ∈ placed.
Proof.
  unfold unplaced, depends. rewrite length_zero_iff_nil. split.
  - intros Hf b Hb. destruct (smem b placed) eqn:Eb; [by apply smem_In|]. exfalso.
    assert ((n, b) ∈ List.filter (fun e => (e.1 =s n) && negb (smem e.2 placed)) E) as Hin.
    { apply (elem_of_fetchall (fun e => (e.1 =s n) && negb (smem e.2 placed))). cbn.
      by rewrite String.eqb_refl, Eb. }
    rewrite Hf in Hin. by apply elem_of_nil in Hin.
  - intros Hall. destruct (List.filter _ E) as [|[a b] l] eqn:Ef; [done|]. exfalso.
    assert ((a, b) ∈ List.filter (fun e => (e.1 =s n) && negb (smem e.2 placed)) E) as Hin by (rewrite Ef; by left).
    apply (elem_of_fetchall (fun e => (e.1 =s n) && negb (smem e.2 placed))) in Hin as [Hp Hin]. cbn in Hp.
    apply andb_true_iff in Hp as [->%String.eqb_eq Hn]. apply negb_true_iff, smem_not_In in Hn. by apply Hn, Hall.
Qed.

Lemma in_degrees_count n : count_of n (in_degrees E) = Z.of_nat (unplaced [] n).
Proof.
  unfold in_degrees, unplaced.
  assert (forall m, count_of n (fold_left (fun m e => <[e.1 := (count_of e.1 m + 1)%Z]> m) E m)
    = (count_of n m + Z.of_nat (length (List.filter (fun e => (e.1 =s n) && negb (smem e.2 [])) E)))%Z) as H;
    [|by rewrite H].
  induction E as [|e E' IH]; intros m; cbn [fold_left]; [cbn; lia|].
  rewrite IH, count_of_insert, String.eqb_sym. cbn [List.filter smem List.existsb negb].
  rewrite andb_true_r. destruct (e.1 =s n) eqn:En; cbn [length]; [apply String.eqb_eq in En as <-|]; lia.
Qed.

(** The capabilities that depend on [n], as the loop reads them. *)
Definition dependents_of (n : string) : list string := sorted_strings (group_of n (group_by snd fst E)).

Lemma occurrences_dependents c n :
  occurrences c (dependents_of n) = length (List.filter (fun e => (e.1 =s c) && (e.2 =s n)) E).
Proof.
  unfold dependents_of, sorted_strings. rewrite (occurrences_perm _ _ _ (sort_by_perm sle _)), group_of_group_by.
  unfold occurrences. induction E as [|e E' IH]; [done|]. cbn. destruct (e.2 =s n); cbn;
    [|by rewrite andb_false_r]. rewrite andb_true_r, String.eqb_sym. destruct (e.1 =s c); cbn; auto.
Qed.

Lemma unplaced_snoc placed n c :
  n ∉ placed -> (unplaced placed c = unplaced (placed ++ [n]) c + occurrences c (dependents_of n))%nat.
Proof.
  intros Hn. rewrite occurrences_dependents. unfold unplaced. induction E as [|e E' IH]; [done|].
  cbn [List.filter]. assert (smem e.2 (placed ++ [n]) = smem e.2 placed || (e.2 =s n)) as ->.
  { unfold smem. rewrite List.existsb_app. cbn. by rewrite orb_false_r. }
  destruct (e.1 =s c); cbn [andb]; [|done]. destruct (e.2 =s n) eqn:E2.
  - apply String.eqb_eq in E2 as ->. apply smem_not_In in Hn as ->. cbn. lia.
  - rewrite orb_false_r. destruct (smem e.2 placed); cbn; lia.
Qed.

(** The state of the loop: what is placed or queued is what has no dependency
    left to place, each once, and the counts are those of [unplaced]. *)
Record queue_inv (m : gmap string Z) (queue result : list string) : Prop := {
  qi_nodup : NoDup (result ++ queue);
  qi_count : forall n, count_of n m = Z.of_nat (unplaced result n);
  qi_members : forall n, n ∈ result ++ queue <-> n ∈ all_nodes E /\ unplaced result n = 0;
  qi_order : forall i n b, result !! i = Some n -> depends n b -> b ∈ take i result
}.

Lemma queue_inv_start :
  queue_inv (in_degrees E)
    (sorted_strings (List.filter (fun n => Z.eqb (count_of n (in_degrees E)) 0) (all_nodes E))) [].
Proof.
  split; cbn [app].
  - unfold sorted_strings. rewrite sort_by_perm. apply NoDup_ListNoDup, List.NoDup_filter, NoDup_ListNoDup.
    apply NoDup_remove_dups.
  - apply in_degrees_count.
  - intros n. unfold sorted_strings. rewrite elem_of_sort_by.
    rewrite (elem_of_fetchall (fun n => Z.eqb (count_of n (in_degrees E)) 0)).
    rewrite in_degrees_count, Z.eqb_eq. split; intros [H1 H2]; split; try done; lia.
  - done.
Qed.

Lemma queue_inv_step m n queue result m' queue' :
  release (dependents_of n) m queue = (m', queue') ->
  queue_inv m (n :: queue) result -> queue_inv m' queue' (result ++ [n]).
Proof.
  intros Hr [Hnd Hcount Hmem Hord].
  assert (n ∉ result) as Hn by (apply NoDup_app in Hnd as (_ & Hd & _); intros Hin; apply (Hd n Hin); by left).
  pose proof (unplaced_snoc result n) as Hu. specialize (fun c => Hu c Hn).
  destruct (release_spec (dependents_of n) m queue) as (new & Hq & Hnew & Hc & Hin).
  { intros c _. rewrite Hcount, Hu. lia. }
  rewrite Hr in Hq, Hc. cbn in Hq, Hc. subst queue'.
  assert (forall c, c ∈ new <-> 0 < occurrences c (dependents_of n) /\ unplaced (result ++ [n]) c = 0) as Hnew'.
  { intros c. rewrite Hin, Hcount, Hu, occurrences_pos. split; intros [? ?]; (split; [done|lia]). }
  split.
  - rewrite <-List.app_assoc. cbn. rewrite List.app_comm_cons, List.app_assoc. apply NoDup_app. split_and!; [done| |done].
    intros c Hcold [Hpos Hz]%Hnew'. apply Hmem in Hcold as [_ Hcold]. rewrite Hu in Hcold. lia.
  - intros c. rewrite Hc, Hcount, Hu. lia.
  - intros c. rewrite <-List.app_assoc. cbn. rewrite List.app_comm_cons, List.app_assoc, elem_of_app, Hnew', Hmem, Hu.
    split.
    + intros [[Hall Hz]|[Hpos Hz]]; (split; [|lia]); [done|].
      apply occurrences_pos in Hpos. unfold dependents_of, sorted_strings in Hpos.
      rewrite elem_of_sort_by, group_of_group_by in Hpos. apply list_elem_of_fmap in Hpos as ([a b] & -> & Hab).
      apply (elem_of_fetchall (fun e => e.2 =s n)) in Hab as [_ Hab].
      apply elem_of_all_nodes. exists b. by left.
    + intros [Hall Hz]. destruct (decide (occurrences c (dependents_of n) = 0)); [left; split; [done|lia] | right; lia].
  - intros i c b Hi Hcb. apply lookup_app_Some in Hi as [Hi|[Hlen Hi]].
    + rewrite take_app_le by (apply lookup_lt_Some in Hi; lia). by eapply Hord.
    + apply list_lookup_singleton_Some in Hi as [Hi <-]. assert (i = length result) as -> by lia.
      rewrite take_app_length. assert (unplaced result n = 0) as Hz.
      { apply Hmem. apply elem_of_app. right. by left. }
      by apply (proj1 (unplaced_zero result n) Hz).
Qed.

Lemma topo_loop_spec fuel m queue result :
  queue_inv m queue result -> length (all_nodes E) <= fuel + length result ->
  exists order m', topo_loop fuel (group_by snd fst E) m queue result = Some order /\ queue_inv m' [] order.
Proof.
  revert m queue result. induction fuel as [|fuel IH]; intros m [|n queue] result Hinv Hfuel;
    [by exists result, m| |by exists result, m|].
  - exfalso. destruct Hinv as [Hnd _ Hmem _].
    assert (length (result ++ n :: queue) <= length (all_nodes E)) as Hl.
    { apply submseteq_length, NoDup_submseteq; [done|]. intros c Hc. by apply Hmem in Hc as []. }
    rewrite length_app in Hl. cbn in Hl. lia.
  - cbn [topo_loop]. fold (dependents_of n).
    destruct (release (dependents_of n) m queue) as [m1 queue1] eqn:Er.
    apply (IH m1 queue1 (result ++ [n])); [by eapply queue_inv_step|]. rewrite length_app. cbn. lia.
Qed.

Lemma placed_before order i a b :
  (forall i n b, order !! i = Some n -> depends n b -> b ∈ take i order) ->
  tc depends a b -> order !! i = Some a -> exists j, j < i /\ order !! j = Some b.
Proof.
  intros Hord Hab. revert i.
  assert (forall i x y, order !! i = Some x -> depends x y -> exists j, j < i /\ order !! j = Some y) as Hone.
  { intros i x y Hi Hxy. destruct (proj1 (list_elem_of_lookup _ _) (Hord i x y Hi Hxy)) as [j Hj].
    apply lookup_take_Some in Hj as [Hj Hlt]. by exists j. }
  induction Hab as [x y Hxy|x y z Hxy _ IH]; intros i Hi; [by eapply Hone|].
  destruct (Hone i x y Hi Hxy) as (j & Hlt & Hj). destruct (IH j Hj) as (k & Hk & Hz). exists k. split; [lia|done].
Qed.

Lemma topo_order_spec :
  exists order, topo_order E = Some order /\ NoDup order /\
    (forall i n b, order !! i = Some n -> depends n b -> b ∈ take i order) /\
    (forall n, n ∈ order <-> n ∈ all_nodes E /\ forall c, rtc depends n c -> ~ on_cycle depends c).
Proof.
  destruct (topo_loop_spec (length (all_nodes E)) (in_degrees E) _ [] queue_inv_start) as (order & m & Hrun & Hinv); [lia|].
  exists order. split; [done|]. destruct Hinv as [Hnd _ Hmem Hord]. rewrite List.app_nil_r in *.
  split; [done|]. split; [done|]. intros n. split.
  - intros Hn. split; [by apply Hmem|].
    assert (forall c, rtc depends n c -> c ∈ order) as Hclosed.
    { intros c Hc. induction Hc as [x|x y z Hxy _ IH]; [done|]. apply IH.
      apply Hmem in Hn as [_ Hz]. by apply (proj1 (unplaced_zero order x) Hz). }
    intros c Hc%Hclosed Hcyc. apply list_elem_of_lookup in Hc as [i Hi].
    induction (lt_wf i) as [i _ IH]. destruct (placed_before order i c c Hord Hcyc Hi) as (j & Hj & Hl). by apply (IH j).
  - intros [Hall Hno]. destruct (decide (n ∈ order)) as [|Hn]; [done|]. exfalso.
    destruct (walk_reaches_cycle depends (filter (.∉ order) (all_nodes E))) with n as (c & Hc & Hcyc).
    + intros x [Hx Hxall]%list_elem_of_filter.
      assert (Exists (fun e => e.1 = x /\ e.2 ∉ order) E) as Hex.
      { destruct (Exists_dec (fun e : string * string => e.1 = x /\ e.2 ∉ order) E) as [|Hne]; [done|].
        exfalso. apply Hx, Hmem. split; [done|]. apply unplaced_zero. intros b Hb.
        destruct (decide (b ∈ order)) as [|Hb']; [done|]. exfalso. apply Hne, Exists_exists. by exists (x, b). }
      apply Exists_exists in Hex as ([a b] & Hab & [Ha Hb]). cbn in Ha, Hb. subst a. exists b.
      split; [|done]. apply list_elem_of_filter. split; [done|]. apply elem_of_all_nodes. exists x. by right.
    + by apply list_elem_of_filter.
    + by apply (Hno c).
Qed.
End Topological.

(** ** The search of [detect_cycles] *)
Section Search.
Context (E : list (string * string)).
#[warnings="-notation-for-abbreviation"] Notation edge := (depends E).
#[warnings="-notation-for-abbreviation"] Notation graph := (group_by fst snd E).
Implicit Types (st : DfsState).

(** Consecutive nodes of a list are joined by dependencies. *)
Fixpoint walk (l : list string) : Prop :=
  match l with
  | a :: ((b :: _) as l') => edge a b /\ walk l'
  | _ => True
  end.

(** A closed walk, as [detect_cycles] reports it: the first node again at the end. *)
Definition closed_walk (l : list string) : Prop := exists n p, l = n :: p ++ [n] /\ walk l.

Lemma walk_snoc l a b : walk (l ++ [a]) -> edge a b -> walk (l ++ [a; b]).
Proof.
  intros Hl Hab. induction l as [|x l IH]; [done|]. destruct l as [|y l]; [by destruct Hl|].
  destruct Hl as [Hxy Hl]. split; [done|]. by apply IH.
Qed.

Lemma walk_drop i l : walk l -> walk (drop i l).
Proof.
  revert l. induction i as [|i IH]; intros [|x l] Hl; try done. cbn. apply IH.
  destruct l; [done|]. by destruct Hl.
Qed.

Lemma walk_tc a p b : walk (a :: p ++ [b]) -> tc edge a b.
Proof.
  revert a. induction p as [|x p IH]; intros a; cbn.
  - intros [Hab _]. by apply tc_once.
  - intros [Hax Hp]. eapply tc_l; [exact Hax | by apply IH].
Qed.

Lemma index_in_some x path i : index_in x path = Some i -> path !! i = Some x.
Proof.
  revert i. induction path as [|y path IH]; intros i; [done|]. cbn.
  destruct (y =s x) eqn:Ey; [apply String.eqb_eq in Ey as ->; by intros [= <-]|].
  destruct (index_in x path) as [j|]; [|done]. intros [= <-]. by apply IH.
Qed.

Lemma index_in_elem x path : x ∈ path -> is_Some (index_in x path).
Proof.
  induction path as [|y path IH]; [by intros []%elem_of_nil|]. intros Hx. cbn.
  destruct (y =s x) eqn:Ey; [by eexists|]. apply String.eqb_neq in Ey.
  apply elem_of_cons in Hx as [->|Hx]; [done|]. destruct (IH Hx) as [i ->]. by eexists.
Qed.

(** The recursion stack is the path, which is a walk through visited nodes. *)
Record dfs_inv st : Prop := {
  di_stack : forall x, x ∈ ds_rec_stack st <-> x ∈ ds_path st;
  di_visited : forall x, x ∈ ds_path st -> x ∈ ds_visited st;
  di_walk : walk (ds_path st)
}.

(** Visited nodes that are off the path begin no infinite walk. *)
Definition settled st : Prop := forall x, x ∈ ds_visited st -> x ∈ ds_path st \/ Acc (flip edge) x.

(** What a call leaves: the path as it was, more nodes visited, more closed
    walks reported, and everything settled if none is. *)
Record dfs_post st st' : Prop := {
  dp_inv : dfs_inv st';
  dp_path : ds_path st' = ds_path st;
  dp_visited : ds_visited st ⊆ ds_visited st';
  dp_cycles : exists new, ds_cycles st' = ds_cycles st ++ new /\ Forall closed_walk new;
  dp_settled : ds_cycles st' = [] -> settled st -> settled st'
}.

Lemma dfs_post_refl st : dfs_inv st -> dfs_post st st.
Proof. intros Hi. split; [done..| exists []; by rewrite List.app_nil_r | done]. Qed.

Lemma dfs_post_trans st1 st2 st3 : dfs_post st1 st2 -> dfs_post st2 st3 -> dfs_post st1 st3.
Proof.
  intros [I1 P1 V1 (n1 & C1 & F1) S1] [I2 P2 V2 (n2 & C2 & F2) S2]. split.
  - done.
  - by rewrite P2.
  - by transitivity (ds_visited st2).
  - exists (n1 ++ n2). rewrite C2, C1, List.app_assoc. split; [done|]. by apply Forall_app.
  - intros Hc Hs. apply S2; [done|]. apply S1; [|done]. rewrite C2 in Hc. by apply app_eq_nil in Hc as [].
Qed.

Lemma post_cycles_nil st st' : dfs_post st st' -> ds_cycles st' = [] -> ds_cycles st = [].
Proof. intros [_ _ _ (n & C & _) _] Hc. rewrite C in Hc. by apply app_eq_nil in Hc as []. Qed.

(** The nodes still to visit bound the depth of the recursion. *)
Definition remaining st : nat := length (filter (.∉ ds_visited st) (all_nodes E)).

Lemma remaining_mono st st' : ds_visited st ⊆ ds_visited st' -> remaining st' <= remaining st.
Proof.
  intros Hv. unfold remaining. apply submseteq_length, NoDup_submseteq.
  - apply NoDup_filter, NoDup_remove_dups.
  - intros x [Hx Hin]%list_elem_of_filter. apply list_elem_of_filter. split; [set_solver|done].
Qed.

Lemma remaining_visit st st' node :
  node ∈ all_nodes E -> node ∉ ds_visited st -> ds_visited st' = {[node]} ∪ ds_visited st ->
  S (remaining st') <= remaining st.
Proof.
  intros Hall Hnode Hv. unfold remaining.
  assert (length (node :: filter (.∉ ds_visited st') (all_nodes E))
          <= length (filter (.∉ ds_visited st) (all_nodes E))); [|done].
  apply submseteq_length, NoDup_submseteq.
  - constructor; [rewrite list_elem_of_filter; set_solver | apply NoDup_filter, NoDup_remove_dups].
  - intros x. rewrite elem_of_cons, !list_elem_of_filter. set_solver.
Qed.

Lemma group_of_edges n m : m ∈ group_of n graph <-> edge n m.
Proof.
  rewrite group_of_group_by. unfold depends. split.
  - intros ([a b] & -> & Hab)%list_elem_of_fmap. apply (elem_of_fetchall (fun e => e.1 =s n)) in Hab as [Ha Hab].
    cbn in *. by apply String.eqb_eq in Ha as ->.
  - intros Hab. apply list_elem_of_fmap. exists (n, m). split; [done|].
    apply (elem_of_fetchall (fun e => e.1 =s n)). by rewrite String.eqb_refl.
Qed.

Lemma group_of_nodes n m : edge n m -> n ∈ all_nodes E /\ m ∈ all_nodes E.
Proof. intros Hnm. split; apply elem_of_all_nodes; eauto. Qed.

(** A call on an unvisited node that may extend the path. *)
Definition dfs_good (rec : string -> DfsState -> outcome DfsState) (bound : nat) : Prop :=
  forall node st, dfs_inv st -> node ∈ all_nodes E -> node ∉ ds_visited st -> walk (ds_path st ++ [node]) ->
    remaining st <= bound ->
    exists st', rec node st = Ok st' /\ dfs_post st st' /\ node ∈ ds_visited st'.

Lemma neighbors_good rec bound p node l st :
  dfs_good rec bound -> dfs_inv st -> ds_path st = p ++ [node] -> (forall x, x ∈ l -> edge node x) ->
  remaining st <= bound ->
  exists st', dfs_neighbors rec l st = Ok st' /\ dfs_post st st' /\
    (forall x, x ∈ l -> x ∈ ds_visited st' /\ (ds_cycles st' = [] -> x ∉ ds_path st)).
Proof.
  intros Hrec. revert st. induction l as [|x l IH]; intros st Hi Hp Hl Hb.
  { exists st. split_and!; [done | by apply dfs_post_refl | by intros x []%elem_of_nil]. }
  assert (edge node x) as Hx by (apply Hl; by left).
  assert (walk (ds_path st ++ [x])) as Hwx.
  { rewrite Hp, <-List.app_assoc. cbn. apply walk_snoc; [|done]. rewrite <-Hp. apply Hi. }
  assert (exists st1, (if negb (bool_decide (x ∈ ds_visited st)) then rec x st
      else if bool_decide (x ∈ ds_rec_stack st) then
        match index_in x (ds_path st) with
        | Some i => Ok (mkDfs (ds_visited st) (ds_rec_stack st) (ds_path st)
                          (ds_cycles st ++ [drop i (ds_path st) ++ [x]]))
        | None => Raise (ValueError "list.index(x): x not in list")
        end
      else Ok st) = Ok st1 /\ dfs_post st st1 /\ x ∈ ds_visited st1 /\ (ds_cycles st1 = [] -> x ∉ ds_path st))
    as (st1 & Hst1 & Hpost & Hvis & Hnp).
  { case_bool_decide as Hv; cbn [negb].
    - case_bool_decide as Hr.
      + apply Hi in Hr. destruct (index_in_elem _ _ Hr) as [i Hidx]. rewrite Hidx. eexists. split; [reflexivity|].
        apply index_in_some in Hidx.
        split_and!; [|done|cbn; intros Hc; by apply app_eq_nil in Hc as [_ Hc]].
        split; cbn; [by destruct Hi; split | done | done | | by intros [_ ?]%app_eq_nil].
        eexists. split; [reflexivity|]. apply Forall_singleton. rewrite (drop_S _ _ _ Hidx). cbn.
        exists x, (drop (S i) (ds_path st)). split; [done|].
        replace (x :: drop (S i) (ds_path st) ++ [x]) with (drop i (ds_path st ++ [x])); [by apply walk_drop|].
        rewrite drop_app_le by (apply lookup_lt_Some in Hidx; lia). by rewrite (drop_S _ _ _ Hidx).
      + exists st. split_and!; [done | by apply dfs_post_refl | done |]. intros _ Hx'. by apply Hr, Hi.
    - destruct (Hrec x st) as (st1 & Hr & Hpost & Hvis); [done| |done..|].
      { by apply (group_of_nodes node). }
      exists st1. split_and!; [done..|]. intros _ Hx'. by apply Hv, Hi. }
  destruct (IH st1) as (st2 & Hst2 & Hpost2 & Hl2); [apply Hpost | by rewrite (dp_path _ _ Hpost) | by intros y Hy; apply Hl; right | |].
  { etrans; [|exact Hb]. apply remaining_mono, Hpost. }
  exists st2. cbn [dfs_neighbors]. rewrite Hst1. split; [exact Hst2|]. split; [by eapply dfs_post_trans|].
  rewrite (dp_path _ _ Hpost) in Hl2. intros y [->|Hy]%elem_of_cons; [|by apply Hl2].
  split; [by apply (dp_visited _ _ Hpost2)|]. intros Hc. by apply Hnp, (post_cycles_nil _ _ Hpost2).
Qed.

Lemma dfs_is_good limit : dfs_good (dfs limit graph) limit.
Proof.
  induction limit as [|limit IH]; intros node st Hi Hall Hnode Hw Hb.
  { exfalso. pose proof (remaining_visit st (mkDfs ({[node]} ∪ ds_visited st) ∅ [] []) node Hall Hnode eq_refl). lia. }
  set (st1 := mkDfs ({[node]} ∪ ds_visited st) ({[node]} ∪ ds_rec_stack st) (ds_path st ++ [node]) (ds_cycles st)).
  assert (dfs_inv st1) as Hi1.
  { destruct Hi as [Hs Hv _]. split; cbn; [| |done]; intros x;
      rewrite ?elem_of_union, elem_of_app, list_elem_of_singleton, elem_of_singleton, ?Hs; [tauto|].
    intros [Hx%Hv|Hx]; auto. }
  pose proof (remaining_visit st st1 node Hall Hnode eq_refl) as Hrem.
  destruct (neighbors_good _ limit (ds_path st) node (group_of node graph) st1 IH Hi1 eq_refl) as (st2 & Hr & Hpost & Hnb).
  { intros x. by apply group_of_edges. }
  { lia. }
  cbn [dfs]. fold st1. rewrite Hr. cbn [obind]. eexists. split; [reflexivity|].
  destruct Hpost as [[Hs2 Hv2 Hw2] Hp2 Hvis2 (new & Hc2 & Hf) Hset2]. cbn in Hp2, Hvis2, Hc2.
  assert (removelast (ds_path st2) = ds_path st) as Hlast by (rewrite Hp2; apply List.removelast_last).
  assert (node ∉ ds_path st) as Hnp by (intros Hx; by apply Hnode, Hi).
  split; [|cbn; apply Hvis2, elem_of_union; left; by apply elem_of_singleton]. split; cbn; rewrite ?Hlast.
  - split; cbn; rewrite ?Hlast; [|intros x Hx%(di_visited _ Hi); apply Hvis2, elem_of_union; by right | by destruct Hi].
    intros x. rewrite elem_of_difference, Hs2, Hp2, elem_of_app, list_elem_of_singleton, elem_of_singleton.
    split; [tauto|]. intros Hx. split; [by left|]. by intros ->.
  - done.
  - intros x Hx. apply Hvis2, elem_of_union. by right.
  - by exists new.
  - intros Hc Hset.
    assert (settled st1) as Hset1.
    { intros x. cbn. rewrite elem_of_union, elem_of_singleton, elem_of_app, list_elem_of_singleton.
      intros [->|Hx]; [left; by right|]. destruct (Hset x Hx); [left; by left | by right]. }
    specialize (Hset2 Hc Hset1). intros x Hx. cbn in Hx |- *.
    assert (Acc (flip edge) node) as Hacc.
    { constructor. intros y Hy%group_of_edges. destruct (Hnb y Hy) as [Hvy Hny].
      destruct (Hset2 y Hvy) as [Hy'|]; [|done]. rewrite Hp2 in Hy'. by apply Hny in Hy'. }
    destruct (Hset2 x Hx) as [Hx'|]; [|by right]. rewrite Hp2 in Hx'.
    apply elem_of_app in Hx' as [Hx'| ->%list_elem_of_singleton]; [by left | by right].
Qed.

Lemma roots_good limit l st :
  (forall x, x ∈ l -> x ∈ all_nodes E) -> dfs_inv st -> ds_path st = [] -> remaining st <= limit ->
  exists st', dfs_roots limit graph l st = Ok st' /\ dfs_post st st' /\ (forall x, x ∈ l -> x ∈ ds_visited st').
Proof.
  revert st. induction l as [|x l IH]; intros st Hl Hi Hp Hb.
  { exists st. split_and!; [done | by apply dfs_post_refl | by intros x []%elem_of_nil]. }
  assert (exists st1, (if bool_decide (x ∈ ds_visited st) then Ok st else dfs limit graph x st) = Ok st1
    /\ dfs_post st st1 /\ x ∈ ds_visited st1) as (st1 & Hst1 & Hpost & Hvis).
  { case_bool_decide; [exists st; split_and!; [done | by apply dfs_post_refl | done]|].
    apply dfs_is_good; [done | apply Hl; by left | done | by rewrite Hp | done]. }
  destruct (IH st1) as (st2 & Hst2 & Hpost2 & Hl2);
    [by intros y Hy; apply Hl; right | apply Hpost | by rewrite (dp_path _ _ Hpost) | |].
  { etrans; [|exact Hb]. apply remaining_mono, Hpost. }
  exists st2. cbn [dfs_roots]. rewrite Hst1. split; [exact Hst2|]. split; [by eapply dfs_post_trans|].
  intros y [->|Hy]%elem_of_cons; [by apply (dp_visited _ _ Hpost2) | by apply Hl2].
Qed.

Lemma cycles_of_spec limit :
  length (all_nodes E) <= limit ->
  exists cycles, cycles_of limit E = Ok cycles /\ Forall closed_walk cycles /\ (cycles = [] <-> acyclic edge).
Proof.
  intros Hlimit. unfold cycles_of.
  destruct (roots_good limit graph.*1 (mkDfs ∅ ∅ [] [])) as (st & Hr & [_ Hp _ (new & Hc & Hf) Hset] & Hroots).
  - intros x Hx%elem_of_keys_group_by. apply list_elem_of_fmap in Hx as ([a b] & -> & Hab).
    by apply (group_of_nodes a b).
  - by split; cbn; set_solver.
  - done.
  - etrans; [|exact Hlimit]. unfold remaining. apply length_filter.
  - rewrite Hr. cbn. exists (ds_cycles st). cbn in Hc. subst new. split; [done|]. split; [done|]. split.
    + intros Hnil x. destruct (decide (x ∈ ds_visited st)) as [Hx|Hx].
      * apply acc_not_on_cycle. destruct (Hset Hnil) with x as [Hx'|]; [by intros ?; cbn; rewrite elem_of_empty|done| |done].
        rewrite Hp in Hx'. by apply elem_of_nil in Hx'.
      * intros Hcyc. apply Hx, Hroots, elem_of_keys_group_by. 
          destruct (tc_first _ _ _ Hcyc) as [Hxy|(y & Hxy & _)]; apply list_elem_of_fmap; by eexists (x, _).
    + intros Hno. destruct (ds_cycles st) as [|c cs]; [done|]. exfalso.
      apply Forall_cons in Hf as [(n & p & -> & Hw) _]. apply (Hno n). by apply (walk_tc n p).
Qed.
End Search.

(** ** The operations *)
Section Operations.
Context `{!Runtime}.

(** Deployment order.  For every recorded graph, [topological_sort] returns
    (the number of nodes bounds its loop) a list without repetition in which
    every dependency comes before what depends on it; it lists exactly the
    recorded capabilities from which no dependency cycle is reachable, and
    leaves the open transaction committed and otherwise unchanged. *)
Theorem topological_sort_total tenant w :
  exists order, topological_sort tenant w = (Ok order, upd w_disk (w_db w) w) /\ NoDup order /\
    (forall i a b, order !! i = Some a -> depends (edges (w_db w) tenant) a b -> b ∈ take i order) /\
    (forall a, a ∈ order <-> a ∈ all_nodes (edges (w_db w) tenant) /\
       forall c, rtc (depends (edges (w_db w) tenant)) a c -> ~ on_cycle (depends (edges (w_db w) tenant)) c).
Proof.
  destruct (topo_order_spec (edges (w_db w) tenant)) as (order & Hrun & Hspec).
  exists order. split; [|exact Hspec].
  unfold topological_sort, ensure_dependency_table, commit, modify, query, gets, bind. cbn -[topo_order edges].
  by rewrite Hrun.
Qed.

(** Cycle detection is sound and complete.  When the interpreter's stack has
    room for one frame per recorded capability, [detect_cycles] returns; every
    list it reports is a closed walk of recorded dependencies, and it reports
    none exactly when no capability depends on itself through any chain. *)
Theorem detect_cycles_spec limit tenant w :
  length (all_nodes (edges (w_db w) tenant)) <= limit ->
  exists cycles, detect_cycles limit tenant w = (Ok cycles, upd w_disk (w_db w) w) /\
    (forall c, c ∈ cycles -> closed_walk (edges (w_db w) tenant) c) /\
    (cycles = [] <-> acyclic (depends (edges (w_db w) tenant))).
Proof.
  intros Hlimit. destruct (cycles_of_spec (edges (w_db w) tenant) limit Hlimit) as (cycles & Hrun & Hf & Hc).
  exists cycles. split; [|split; [|exact Hc]].
  - unfold detect_cycles, ensure_dependency_table, commit, modify, query, gets, bind, lift. cbn -[cycles_of edges].
    by rewrite Hrun.
  - by apply Forall_forall.
Qed.

(** C12: the two operations agree.  On a graph with at most as many nodes as the
    recursion has room for, the deployment order is complete exactly when cycle
    detection reports nothing. *)
Theorem order_complete_iff_no_cycle limit tenant w order cycles :
  length (all_nodes (edges (w_db w) tenant)) <= limit ->
  (topological_sort tenant w).1 = Ok order -> (detect_cycles limit tenant w).1 = Ok cycles ->
  (order ≡ₚ all_nodes (edges (w_db w) tenant) <-> cycles = []).
Proof.
  intros Hlimit Ho Hc.
  destruct (topo_order_spec (edges (w_db w) tenant)) as (order' & Hrun & Hnd & _ & Hmem).
  destruct (cycles_of_spec (edges (w_db w) tenant) limit Hlimit) as (cycles' & Hrun' & _ & Hac).
  assert (order' = order) as <-.
  { unfold topological_sort, ensure_dependency_table, commit, modify, query, gets, bind in Ho.
    cbn -[topo_order edges] in Ho. rewrite Hrun in Ho. by injection Ho. }
  assert (cycles' = cycles) as <-.
  { unfold detect_cycles, ensure_dependency_table, commit, modify, query, gets, bind, lift in Hc.
    cbn -[cycles_of edges] in Hc. rewrite Hrun' in Hc. by injection Hc. }
  rewrite Hac. split.
  - intros Hp x Hx. assert (x ∈ all_nodes (edges (w_db w) tenant)) as Hin.
    { apply elem_of_all_nodes. destruct (tc_first _ _ _ Hx) as [|(y & Hy & _)]; eauto. }
    rewrite <-Hp in Hin. apply Hmem in Hin as [_ Hno]. by apply (Hno x).
  - intros Hno. apply NoDup_Permutation; [done | apply NoDup_remove_dups|]. intros a. rewrite Hmem.
    split; [by intros []|]. intros Hin. split; [done|]. intros c _. apply Hno.
Qed.

(** A dependency is satisfied: registered, of the required type if one is
    required, in a version its constraint accepts. *)
Definition satisfied (d : DB) (tenant : string) (r : DependencyRow) : Prop :=
  exists c, joined d (dp_depends_on_uri r) tenant = Some c /\
    (otruthy (dp_required_type r) = true -> Some (cp_type c) = dp_required_type r) /\
    (dp_version_constraint r = "*" \/ _satisfies_constraint (s_or (cp_version c) "0.0.0") (dp_version_constraint r) = true).

Lemma s_or_idem (x y : string) : (if truthy (s_or x y) then s_or x y else y) = s_or x y.
Proof. unfold s_or. destruct (truthy x) eqn:E; [by rewrite E|]. by destruct (truthy y). Qed.

Lemma dependency_issues_nil d tenant r :
  dp_tenant_id r = tenant -> dependency_issues (dependency_of d r) = [] <-> satisfied d tenant r.
Proof.
  intros <-. unfold dependency_issues, dependency_of, satisfied. cbn.
  destruct (joined d (dp_depends_on_uri r) (dp_tenant_id r)) as [c|]; cbn; [|split; [done | by intros (c & [=] & _)]].
  assert (o_or (text_or_none (Some (cp_version c))) "0.0.0" = s_or (cp_version c) "0.0.0") as ->.
  { unfold text_or_none, s_or. cbn. unfold s_or. destruct (truthy (cp_version c)) eqn:E; cbn; [|done]. unfold s_or. by rewrite E. }
  set (sat := _satisfies_constraint _ _).
  assert ((otruthy (text_or_none (dp_required_type r)) && negb (oeqb (text_or_none (Some (cp_type c))) (text_or_none (dp_required_type r))))
          = false <-> (otruthy (dp_required_type r) = true -> Some (cp_type c) = dp_required_type r)) as Htype.
  { unfold text_or_none. destruct (dp_required_type r) as [t|]; cbn; [|done].
    destruct (truthy t) eqn:Et; cbn; rewrite ?Et; cbn; [|done]. rewrite negb_false_iff.
    destruct (truthy (cp_type c)) eqn:Ec; cbn; [rewrite String.eqb_eq; naive_solver|].
    split; [done|]. intros Heq. specialize (Heq eq_refl). injection Heq as Heq. congruence. }
  assert (negb (dp_version_constraint r =s "*") && negb sat = false <->
          dp_version_constraint r = "*" \/ sat = true) as Hver.
  { rewrite andb_false_iff, !negb_false_iff, String.eqb_eq. done. }
  split.
  - intros Hnil. apply app_eq_nil in Hnil as [H1 H2]. exists c. split; [done|]. split.
    + apply Htype. by destruct (otruthy _ && _).
    + apply Hver. by destruct (negb _ && negb sat).
  - intros (c' & [= <-] & H1%Htype & H2%Hver). by rewrite H1, H2.
Qed.

(** The compatibility verdict.  [check_compatibility] reports "compatible"
    exactly when every dependency recorded for the capability in the tenant is
    registered in that tenant, has the required type, and has a version that
    its constraint accepts. *)
Theorem check_compatibility_spec uri tenant w :
  exists d, check_compatibility uri tenant w = (Ok d, upd w_disk (w_db w) w) /\
    exists b, dget "compatible" d = Some (JBool b) /\
      (b = true <-> forall r, r ∈ db_capability_dependencies (w_db w) -> dp_capability_uri r = uri ->
                      dp_tenant_id r = tenant -> satisfied (w_db w) tenant r).
Proof.
  eexists. split; [reflexivity|]. cbn -[dependencies_in dependency_issues]. eexists. split; [reflexivity|].
  rewrite Nat.eqb_eq, length_zero_iff_nil.
  transitivity (forall r, (r ∈ db_capability_dependencies (w_db w) /\ dp_capability_uri r = uri /\ dp_tenant_id r = tenant) ->
    dependency_issues (dependency_of (w_db w) r) = []).
  - rewrite join_nil, Forall_fmap, Forall_forall. unfold dependencies_in. cbn.
    setoid_rewrite list_elem_of_fmap. setoid_rewrite elem_of_sort_by.
    setoid_rewrite (elem_of_fetchall (fun r => (dp_capability_uri r =s uri) && (dp_tenant_id r =s tenant))).
    setoid_rewrite andb_true_iff. setoid_rewrite String.eqb_eq. split.
    + intros Hall r (H1 & H2 & H3). apply Hall. by exists r.
    + intros Hall dep (r & -> & [H2 H3] & H1). by apply Hall.
  - split; intros Hall r; [intros H1 H2 H3 | intros (H1 & H2 & H3)];
      apply (dependency_issues_nil _ tenant); auto.
Qed.

(** ** The recorded dependencies *)

(** The table's constraints and the guard of [add_dependency]: one row per pair
    of a tenant, and no capability depends on itself. *)
Definition well_recorded (t : list DependencyRow) : Prop :=
  NoDup ((fun r => (dp_tenant_id r, dp_capability_uri r, dp_depends_on_uri r)) <$> t) /\
  forall r, r ∈ t -> dp_capability_uri r <> dp_depends_on_uri r.

Lemma same_dependency_iff tenant a b r :
  same_dependency tenant a b r = true <-> (dp_tenant_id r, dp_capability_uri r, dp_depends_on_uri r) = (tenant, a, b).
Proof. unfold same_dependency. rewrite !andb_true_iff, !String.eqb_eq. naive_solver. Qed.

(** Recording a dependency.  A capability that would depend on itself is
    refused with a ValueError and nothing recorded; otherwise the pair has one
    row, with the given constraint and type, every other row is as it was, and
    the table stays free of duplicates and of self-dependencies. *)
Theorem add_dependency_spec a b constraint ty tenant c w r w' :
  well_recorded (db_capability_dependencies (w_db w)) ->
  add_dependency a b constraint ty tenant c w = (r, w') ->
  well_recorded (db_capability_dependencies (w_db w')) /\
  (if a =s b then is_value_error r = true /\ w_db w' = w_db w
   else is_ok r = true /\
    (forall ds, upd db_capability_dependencies ds (w_db w') = upd db_capability_dependencies ds (w_db w)) /\
    (exists row, fetchall (same_dependency tenant a b) (db_capability_dependencies (w_db w')) = [row] /\
       dp_version_constraint row = constraint /\ dp_required_type row = ty) /\
    (delete_where (same_dependency tenant a b) (db_capability_dependencies (w_db w'))
     = delete_where (same_dependency tenant a b) (db_capability_dependencies (w_db w)))).
Proof.
  intros [Hnd Hself] E. unfold add_dependency in E. unfold bind at 1, ensure_dependency_table, commit, modify in E.
  destruct (a =s b) eqn:Eab; [by injection E as <- <-|]. apply String.eqb_neq in Eab.
  set (key := fun r => (dp_tenant_id r, dp_capability_uri r, dp_depends_on_uri r)) in *.
  set (f := fun r => upd dp_version_constraint constraint (upd dp_required_type ty r)).
  assert (exists id now, w_db w' = (if exists_where (same_dependency tenant a b) (db_capability_dependencies (w_db w))
    then upd db_capability_dependencies (update_where (same_dependency tenant a b) f (db_capability_dependencies (w_db w))) (w_db w)
    else upd db_capability_dependencies (db_capability_dependencies (w_db w) ++ [mkDependencyRow id tenant a b constraint ty now]) (w_db w))
    /\ is_ok r = true) as (id & now & Hdb & Hok).
  { destruct c; injection E as <- <-; by do 2 eexists. }
  rewrite Hdb. destruct (exists_where _ _) eqn:Eex.
  - destruct (fetchall_key key (tenant, a, b) _ _ (same_dependency_iff tenant a b) Hnd Eex) as (row & Hrow & _ & _).
    cbn. split; [split|].
    + by rewrite (fmap_key_update_where key).
    + intros r' (r0 & Hin & ->)%elem_of_update_where. specialize (Hself r0 Hin). by destruct (same_dependency _ _ _ r0).
    + split_and!; [done | done | | by apply delete_where_update_where].
      exists (f row). rewrite fetchall_update_where by done. by rewrite Hrow.
  - cbn. split; [split|].
    + rewrite fmap_app, NoDup_app. split_and!; [done | | apply NoDup_singleton].
      intros k (r0 & -> & Hin)%list_elem_of_fmap Hk%list_elem_of_singleton.
      apply (proj1 (exists_where_false _ _)) with (r := r0) in Eex; [|done].
      apply same_dependency_iff in Hk. cbn in Hk. congruence.
    + intros r' [Hin|Hin]%elem_of_app; [by apply Hself|]. by apply list_elem_of_singleton in Hin as ->.
    + assert (same_dependency tenant a b (mkDependencyRow id tenant a b constraint ty now) = true) as Hs
        by by apply same_dependency_iff.
      split_and!; [done | done | |].
      * eexists. rewrite fetchall_app, (fetchall_none _ _ Eex). cbn. by rewrite Hs.
      * unfold delete_where. rewrite List.filter_app. cbn. by rewrite Hs, List.app_nil_r.
Qed.
End Operations.

(** ** Concrete inputs *)
Module DependencyDemo.
#[export] Instance runtime : Runtime := {| environ := fun _ => None; uuid4_hex := fun n => "uuid" +:+ str_of_Z (Z.of_nat n) |}.
Definition row (a b : string) : DependencyRow := mkDependencyRow (a +:+ b) "asg" a b "*" None "".
Definition world (l : list (string * string)) : World :=
  let d := upd db_capability_dependencies ((fun e => row e.1 e.2) <$> l) empty_db in
  mkWorld d d ∅ 0 0 ∅.
(** app needs lib and log, lib needs log; loop and back need each other, late needs loop. *)
Definition mixed : World :=
  world [("app", "lib"); ("app", "log"); ("lib", "log"); ("loop", "back"); ("back", "loop"); ("late", "loop")].

Example order_of_mixed : (topological_sort "asg" mixed).1 = Ok ["log"; "lib"; "app"].
Proof. vm_compute. reflexivity. Qed.
Example cycles_of_mixed : (detect_cycles 1000 "asg" mixed).1 = Ok [["loop"; "back"; "loop"]].
Proof. vm_compute. reflexivity. Qed.
(** The caret ignores the minor and patch numbers of its base. *)
Example caret_accepts_older : _satisfies_constraint "1.0.0" "^1.2.3" = true.
Proof. vm_compute. reflexivity. Qed.
End DependencyDemo.

Section Witnesses.
Import DependencyDemo.

Lemma detect_cycles_spec_witness :
  exists cycles, (detect_cycles 1000 "asg" mixed).1 = Ok cycles /\ cycles <> [] /\
    (cycles = [] <-> acyclic (depends (edges (w_db mixed) "asg"))).
Proof.
  destruct (detect_cycles_spec 1000 "asg" mixed) as (cycles & Hrun & _ & Hiff); [vm_compute; lia|].
  assert ((detect_cycles 1000 "asg" mixed).1 = Ok [["loop"; "back"; "loop"]]) as Hc by (vm_compute; reflexivity).
  rewrite Hrun in Hc. cbn in Hc. exists cycles. rewrite Hrun. split; [reflexivity|]. split; [|exact Hiff].
  injection Hc as ->. discriminate.
Defined.

Lemma order_complete_iff_no_cycle_witness :
  ~ ["log"; "lib"; "app"] ≡ₚ all_nodes (edges (w_db mixed) "asg").
Proof.
  intros Hp. apply (order_complete_iff_no_cycle 1000 "asg" mixed _ [["loop"; "back"; "loop"]]) in Hp;
    [discriminate | vm_compute; lia | vm_compute; reflexivity | vm_compute; reflexivity].
Defined.

Lemma add_dependency_spec_witness :
  exists r w', add_dependency "app" "db" ">=1.0.0" None "asg" true mixed = (r, w') /\ is_ok r = true /\
    well_recorded (db_capability_dependencies (w_db w')).
Proof.
  destruct (add_dependency "app" "db" ">=1.0.0" None "asg" true mixed) as [r w'] eqn:E.
  assert (well_recorded (db_capability_dependencies (w_db mixed))) as Hw.
  { split; [apply (bool_decide_unpack _); vm_compute; exact I|].
    apply Forall_forall. cbn. repeat constructor; discriminate. }
  destruct (add_dependency_spec _ _ _ _ _ _ _ _ _ Hw E) as (Hw' & Hok & _). exists r, w'. by split_and!.
Defined.
End Witnesses.
