(* ===== verification/Models.v ===== *)
(** * Principals and capabilities ([models.py], [index.capability_from_row])

    The two value types every component exchanges: the authorization subject
    and the capability record, with their constructors' validation, the
    conversion from untrusted claims and from a table row, and their
    renderings. *)

From Stdlib Require Import ZArith Ascii String Lia.
From stdpp Require Import base option list strings.
From S2P Require Import Prelude Sha256 PyStr Json JsonCodec Clock Db.
Local Open Scope string_scope.
Local Open Scope list_scope.

Definition CAPABILITY_TYPES : list string :=
  ["skill"; "agent"; "plugin"; "command"; "mcp_server"; "workflow"; "reference"; "bundle"].
Definition VISIBILITIES : list string := ["public"; "internal"; "protected"; "secret"].
Definition DISCOVERY_MODES : list string := ["public"; "locked"; "hidden"].
Definition RISK_TIERS : list string := ["low"; "medium"; "high"; "critical"].
Definition DEFAULT_BASIC_SCOPES : list string :=
  ["cap:search"; "cap:load"; "cap:delegate"; "cap:report"; "cap:call"].

Record Principal : Type := mkPrincipal {
  p_subject : string; p_tenant_id : string; p_identity_id : option string;
  p_email : option string; p_display_name : option string; p_app_id : option string;
  p_groups : list string; p_roles : list string; p_scopes : list string;
  p_authenticated : bool; p_disabled : bool; p_step_up_authenticated : bool
}.

#[export] Instance eta_Principal : EtaRecord Principal := fun r =>
  mkPrincipal (p_subject r) (p_tenant_id r) (p_identity_id r) (p_email r) (p_display_name r)
    (p_app_id r) (p_groups r) (p_roles r) (p_scopes r) (p_authenticated r) (p_disabled r)
    (p_step_up_authenticated r).

Record Capability : Type := mkCapability {
  c_uri : string; c_type : string; c_name : string; c_version : string; c_title : string;
  c_description : string; c_package_path : string; c_entrypoint : string; c_source_path : string;
  c_source_kind : string; c_source_system : string; c_canonical_key : string;
  c_content_hash : string; c_visibility : string; c_discovery_mode : string; c_owner : string;
  c_plugin : option string; c_category : json; c_keywords : list json;
  c_required_scopes : list json; c_allow_groups : list json; c_allow_users : list json;
  c_risk_tier : string; c_mutating : bool; c_lifecycle : string; c_tenant_id : string;
  c_store_id : option string; c_namespace_id : option string; c_created_by : option string;
  c_submitted_by : option string; c_promoted_from_uri : option string; c_approval_state : string;
  c_share_state : string; c_signature_status : string; c_provenance_status : string;
  c_risk_review_status : string; c_metadata : json; c_source_commit : option string;
  c_license : option string
}.

#[export] Instance eta_Capability : EtaRecord Capability := fun r =>
  mkCapability (c_uri r) (c_type r) (c_name r) (c_version r) (c_title r) (c_description r)
    (c_package_path r) (c_entrypoint r) (c_source_path r) (c_source_kind r) (c_source_system r)
    (c_canonical_key r) (c_content_hash r) (c_visibility r) (c_discovery_mode r) (c_owner r)
    (c_plugin r) (c_category r) (c_keywords r) (c_required_scopes r) (c_allow_groups r)
    (c_allow_users r) (c_risk_tier r) (c_mutating r) (c_lifecycle r) (c_tenant_id r) (c_store_id r)
    (c_namespace_id r) (c_created_by r) (c_submitted_by r) (c_promoted_from_uri r)
    (c_approval_state r) (c_share_state r) (c_signature_status r) (c_provenance_status r)
    (c_risk_review_status r) (c_metadata r) (c_source_commit r) (c_license r).

(** [Capability.__post_init__]: the validation of every construction and of
    every [dataclasses.replace]. *)
Definition post_init (c : Capability) : outcome Capability :=
  if negb (smem (c_type c) CAPABILITY_TYPES)
  then Raise (ValueError ("Unsupported capability type: " +:+ c_type c))
  else if negb (smem (c_visibility c) VISIBILITIES)
  then Raise (ValueError ("Unsupported visibility: " +:+ c_visibility c))
  else if negb (smem (c_discovery_mode c) DISCOVERY_MODES)
  then Raise (ValueError ("Unsupported discovery mode: " +:+ c_discovery_mode c))
  else if truthy (c_risk_tier c) && negb (smem (c_risk_tier c) RISK_TIERS)
  then Raise (ValueError ("Unsupported risk tier: " +:+ c_risk_tier c))
  else Ok c.

(** The invariant the constructor establishes. *)
Definition cap_ok (c : Capability) : bool :=
  smem (c_type c) CAPABILITY_TYPES && smem (c_visibility c) VISIBILITIES
  && smem (c_discovery_mode c) DISCOVERY_MODES
  && (negb (truthy (c_risk_tier c)) || smem (c_risk_tier c) RISK_TIERS).

(** An item of a [str.join]. *)
Definition text_item (v : json) : outcome string :=
  match v with JStr s => Ok s | _ => Raise (OtherError ("TypeError: expected str instance, " +:+ type_name v +:+ " found")) end.
Fixpoint text_items (l : list json) : outcome (list string) :=
  match l with
  | [] => Ok []
  | v :: l' => let? s := text_item v in let? rest := text_items l' in Ok (s :: rest)
  end.

Definition index_text (c : Capability) : outcome string :=
  let? keywords := text_items (c_keywords c) in
  let? category := text_item (py_or (c_category c) (JStr "")) in
  let fields := [c_name c; c_title c; c_description c; c_type c; o_or (c_plugin c) ""; category; join " " keywords] in
  Ok (join (String (Ascii.ascii_of_nat 10) "") (List.filter truthy fields)).

Definition jopt (s : option string) : json := match s with Some x => JStr x | None => JNull end.
Definition jstrs (l : list string) : json := JArr (JStr <$> l).

Definition to_record (c : Capability) (stub include_paths : bool) : dict :=
  [("uri", JStr (c_uri c)); ("type", JStr (c_type c)); ("name", JStr (c_name c));
   ("version", JStr (c_version c)); ("title", JStr (c_title c));
   ("description", JStr (if stub then "Capability exists but requires authorization to load."
                         else c_description c));
   ("visibility", JStr (c_visibility c)); ("discoveryMode", JStr (c_discovery_mode c));
   ("owner", JStr (c_owner c)); ("plugin", jopt (c_plugin c)); ("category", c_category c);
   ("keywords", JArr (c_keywords c)); ("riskTier", JStr (c_risk_tier c));
   ("mutating", JBool (c_mutating c)); ("lifecycle", JStr (c_lifecycle c));
   ("tenantId", JStr (c_tenant_id c)); ("storeId", jopt (c_store_id c));
   ("namespaceId", jopt (c_namespace_id c)); ("createdBy", jopt (c_created_by c));
   ("submittedBy", jopt (c_submitted_by c)); ("promotedFromUri", jopt (c_promoted_from_uri c));
   ("approvalState", JStr (c_approval_state c)); ("shareState", JStr (c_share_state c));
   ("signatureStatus", JStr (c_signature_status c));
   ("provenanceStatus", JStr (c_provenance_status c));
   ("riskReviewStatus", JStr (c_risk_review_status c)); ("contentHash", JStr (c_content_hash c));
   ("sourceSystem", JStr (c_source_system c)); ("sourceKind", JStr (c_source_kind c));
   ("sourceCommit", jopt (c_source_commit c)); ("license", jopt (c_license c))]
  ++ (if include_paths && negb stub
      then [("packagePath", JStr (c_package_path c)); ("entrypoint", JStr (c_entrypoint c));
            ("sourcePath", JStr (c_source_path c))]
      else []).

Definition to_dict (p : Principal) : dict :=
  [("subject", JStr (p_subject p)); ("tenantId", JStr (p_tenant_id p));
   ("identityId", jopt (p_identity_id p)); ("email", jopt (p_email p));
   ("displayName", jopt (p_display_name p)); ("appId", jopt (p_app_id p));
   ("groups", jstrs (p_groups p)); ("roles", jstrs (p_roles p)); ("scopes", jstrs (p_scopes p));
   ("authenticated", JBool (p_authenticated p)); ("disabled", JBool (p_disabled p))].

Section FromDict.
Context `{!Runtime}.

Definition DEFAULT_LOCAL_SUBJECT : string :=
  getenv "CAPMESH_DEFAULT_LOCAL_SUBJECT" "admin@example.com".

(** [Principal()]: the field defaults. *)
Definition default_principal : Principal :=
  mkPrincipal DEFAULT_LOCAL_SUBJECT "asg" None None None None ["asg:local"] ["member"]
    DEFAULT_BASIC_SCOPES true false false.

(** A claim kept as it is in an optional text field. *)
Definition claim_text (v : json) : option string :=
  match v with JNull => None | _ => Some (py_str v) end.

(** [tuple(str(x) for x in raw)], or the default for an absent claim. *)
Definition claim_tuple (v : json) (default : list string) : outcome (list string) :=
  match v with
  | JNull => Ok default
  | _ => let? items := py_iter v in Ok (py_str <$> items)
  end.

Definition from_dict (raw : dict) : outcome Principal :=
  match raw with
  | [] => Ok default_principal
  | _ =>
      let subject := str_get2 raw "subject" "sub" DEFAULT_LOCAL_SUBJECT in
      let app_id := py_or (jget "app_id" raw) (py_or (jget "appId" raw) (jget "azp" raw)) in
      let is_default_local := (subject =s DEFAULT_LOCAL_SUBJECT) && negb (py_truthy app_id) in
      let? roles := claim_tuple (jget "roles" raw)
        (if is_default_local then p_roles default_principal
         else if py_truthy app_id then ["app_service"] else ["member"]) in
      let? scopes := claim_tuple (jget "scopes" raw)
        (if is_default_local then p_scopes default_principal else DEFAULT_BASIC_SCOPES) in
      let? groups := claim_tuple (jget "groups" raw)
        (if is_default_local then p_groups default_principal else []) in
      Ok {| p_subject := subject;
            p_tenant_id := py_str (py_or (jget "tenant_id" raw)
              (py_or (jget "tenantId" raw) (py_or (jget "tenant" raw) (JStr "asg"))));
            p_identity_id := claim_text (py_or (jget "identity_id" raw) (jget "identityId" raw));
            p_email := claim_text (jget "email" raw);
            p_display_name := claim_text (py_or (jget "display_name" raw)
              (py_or (jget "displayName" raw) (jget "name" raw)));
            p_app_id := claim_text app_id;
            p_groups := groups; p_roles := roles; p_scopes := scopes;
            p_authenticated := match dget "authenticated" raw with
                               | Some v => py_truthy v | None => true end;
            p_disabled := match dget "disabled" raw with
                          | Some v => py_truthy v | None => false end;
            p_step_up_authenticated := false |}
  end.
End FromDict.

(** [json.loads(text)] of a column that must parse. *)
Definition json_loads_strict (s : string) : outcome json :=
  match json_parse s with Some v => Ok v | None => Raise (ValueError "JSONDecodeError") end.

(** [tuple(json.loads(text))]. *)
Definition json_tuple (s : string) : outcome (list json) :=
  let? v := json_loads_strict s in py_iter v.

Definition coerce (s : string) (allowed : list string) (default : string) : string :=
  if smem s allowed then s else default.

(** [index.capability_from_row] *)
Definition capability_from_row (r : CapRow) : outcome Capability :=
  let? keywords := json_tuple (cp_keywords_json r) in
  let? required_scopes := json_tuple (cp_required_scopes_json r) in
  let? allow_groups := json_tuple (cp_allow_groups_json r) in
  let? allow_users := json_tuple (cp_allow_users_json r) in
  let? metadata := json_loads_strict (cp_metadata_json r) in
  post_init
    {| c_uri := cp_uri r; c_type := coerce (cp_type r) CAPABILITY_TYPES "reference";
       c_name := cp_name r; c_version := cp_version r; c_title := cp_title r;
       c_description := cp_description r; c_package_path := cp_package_path r;
       c_entrypoint := cp_entrypoint r; c_source_path := cp_source_path r;
       c_source_kind := cp_source_kind r; c_source_system := cp_source_system r;
       c_canonical_key := cp_canonical_key r; c_content_hash := cp_content_hash r;
       c_visibility := coerce (cp_visibility r) VISIBILITIES "internal";
       c_discovery_mode := coerce (cp_discovery_mode r) DISCOVERY_MODES "public";
       c_owner := cp_owner r; c_plugin := cp_plugin r; c_category := jopt (cp_category r);
       c_keywords := keywords; c_required_scopes := required_scopes;
       c_allow_groups := allow_groups; c_allow_users := allow_users;
       c_risk_tier := coerce (cp_risk_tier r) RISK_TIERS "low";
       c_mutating := negb (Z.eqb (cp_mutating r) 0); c_lifecycle := cp_lifecycle r;
       c_tenant_id := cp_tenant_id r; c_store_id := cp_store_id r;
       c_namespace_id := cp_namespace_id r; c_created_by := cp_created_by r;
       c_submitted_by := cp_submitted_by r; c_promoted_from_uri := cp_promoted_from_uri r;
       c_approval_state := cp_approval_state r; c_share_state := cp_share_state r;
       c_signature_status := cp_signature_status r;
       c_provenance_status := cp_provenance_status r;
       c_risk_review_status := cp_risk_review_status r; c_metadata := metadata;
       c_source_commit := cp_source_commit r; c_license := cp_license r |}.

(** ** Lemmas *)
Lemma post_init_ok c c' : post_init c = Ok c' -> c' = c /\ cap_ok c = true.
Proof.
  unfold post_init, cap_ok. repeat case_match; try done. intros [= <-].
  split; [done|]. rewrite !negb_false_iff in *. repeat (apply andb_true_iff; split); try done.
  apply andb_false_iff in H2. rewrite negb_false_iff in H2. apply orb_true_iff.
  rewrite negb_true_iff. tauto.
Qed.

Lemma coerce_mem s l d : smem d l = true -> smem (coerce s l d) l = true.
Proof. unfold coerce. by destruct (smem s l) eqn:E. Qed.

(** Whatever the row holds, the values the row is coerced to pass the
    validation: only malformed JSON makes [capability_from_row] fail. *)
Lemma capability_from_row_ok r c :
  capability_from_row r = Ok c ->
  cap_ok c = true /\ c_uri c = cp_uri r /\ c_tenant_id c = cp_tenant_id r
  /\ c_store_id c = cp_store_id r /\ c_namespace_id c = cp_namespace_id r
  /\ c_approval_state c = cp_approval_state r /\ c_lifecycle c = cp_lifecycle r.
Proof.
  unfold capability_from_row, obind. repeat case_match; try done.
  intros [-> Hok]%post_init_ok. by rewrite Hok.
Qed.

(** A concrete runtime and principal for the witnesses of the development. *)
Module Demo.
Definition runtime : Runtime :=
  {| environ := fun _ => None; uuid4_hex := fun n => "uuid" +:+ str_of_Z (Z.of_nat n) |}.
Definition prod_runtime : Runtime :=
  {| environ := fun k => if k =s "CAPMESH_ENVIRONMENT" then Some "Production" else None;
     uuid4_hex := fun n => "uuid" +:+ str_of_Z (Z.of_nat n) |}.
Definition world (d : DB) : World := mkWorld d d ∅ 0 1784505600000000 ∅.
Definition alice : Principal :=
  mkPrincipal "alice@example.com" "asg" None None None None [] ["member"] [] true false false.
Definition admin : Principal :=
  mkPrincipal "root@example.com" "asg" None None None None [] ["platform_admin"] [] true false true.
Definition cap_row (uri : string) : CapRow :=
  mkCapRow 1 uri ("key:" +:+ uri) "asg" (Some "store_a") (Some "ns_a") "skill" "demo" "1.0.0"
    "Demo" "A demo" "/pkg" "SKILL.md" "/src" "skill" "test" "sha256:aa" "internal" "public" "bob"
    None None "[]" "[]" "[]" "[]" "low" 0 "active" (Some "bob") None None "published"
    "not_shared" "unchecked" "unchecked" "pending" "{}" None None "2026-07-19 00:00:00".
(** The capability of a row that reads back. *)
Definition capability (r : CapRow) : Capability :=
  match capability_from_row r with
  | Ok c => c | Raise _ => mkCapability "" "" "" "" "" "" "" "" "" "" "" "" "" "" "" "" None JNull [] [] [] []
                             "" false "" "" None None None None None "" "" "" "" "" JNull None None
  end.

(** The random ids of the demonstration are all different. *)
Lemma uuid_text_inj a b : @uuid4_hex runtime a = @uuid4_hex runtime b -> a = b.
Proof. cbn. intros He. injection He as He. apply str_of_Z_inj in He. lia. Qed.
End Demo.
