(* ===== verification/AccessControl.v ===== *)
(** * The access decision ([access_control.py])

    [evaluate_access] and the grants it consults.  The reads are functions of
    the database and the current time; the organization cache, a process-wide
    dictionary, is part of the world, so the two grants that go through it are
    computations.  [AccessSpec.v] states what the decision is supposed to be
    without the cache and proves that the code computes it. *)

From Stdlib Require Import ZArith Ascii String Lia.
From stdpp Require Import base option list strings gmap.
From S2P Require Import Prelude Sha256 PyStr Json Clock Db Models.
Local Open Scope string_scope.
Local Open Scope list_scope.

Definition RIGHTS : list string :=
  ["discover"; "load"; "call"; "delegate"; "share"; "submit"; "publish"; "approve"; "manage"; "audit"].
Definition STEP_UP_RIGHTS : list string := ["manage"; "approve"; "publish"].
Definition STEP_UP_RISK_TIERS : list string := ["high"; "critical"].
Definition GLOBAL_ROLE_GRANT_ROLES : list string := ["platform_admin"; "org_admin"].
Definition READ_RIGHTS : list string := ["discover"; "load"; "call"].
Definition USE_RIGHTS : list string := ["discover"; "load"; "call"; "delegate"].
Definition OWNER_RIGHTS : list string :=
  ["discover"; "load"; "call"; "delegate"; "share"; "submit"; "manage"].

Definition requires_step_up (right : string) (capability : option Capability) : bool :=
  if negb (smem right STEP_UP_RIGHTS) then false
  else match capability with
       | None => false
       | Some c => smem (c_risk_tier c) STEP_UP_RISK_TIERS
       end.

Definition ROLE_RIGHTS : list (string * list string) :=
  [("member", ["discover"; "load"; "call"]);
   ("vibe_coder", ["discover"; "load"; "call"; "delegate"; "share"; "submit"]);
   ("publisher", ["discover"; "load"; "call"; "submit"; "publish"]);
   ("namespace_admin", ["discover"; "load"; "call"; "delegate"; "share"; "submit"; "publish";
                        "approve"; "manage"; "audit"]);
   ("org_admin", RIGHTS); ("platform_admin", RIGHTS);
   ("auditor", ["discover"; "load"; "audit"]);
   ("app_service", ["discover"; "load"; "call"; "delegate"])].

Definition role_rights (role : string) : list string :=
  match List.find (fun kv => fst kv =s role) ROLE_RIGHTS with Some (_, rs) => rs | None => [] end.

Definition role_has_right (role right : string) : bool :=
  smem right (role_rights role) || smem "manage" (role_rights role).

Definition global_role_has_right (role right : string) : bool :=
  if smem role GLOBAL_ROLE_GRANT_ROLES then role_has_right role right
  else (role =s "auditor") && smem right ["discover"; "load"; "audit"].

Section Access.
Context `{!Runtime}.

(** [principal.tenant_id or DEFAULT_TENANT] *)
Definition tenant_of (p : Principal) : string := s_or (p_tenant_id p) DEFAULT_TENANT.
Definition cap_tenant_of (c : Capability) : string := s_or (c_tenant_id c) DEFAULT_TENANT.

(** [principal.identity_id or stable_id("idn", tenant, subject)] *)
Definition identity_of (p : Principal) : string :=
  o_or (p_identity_id p) (stable_id "idn" [tenant_of p; p_subject p]).

(** The set of references, as a list in which repetition is immaterial. *)
Definition subject_refs (p : Principal) : list string :=
  ["user:" +:+ p_subject p; "identity:" +:+ identity_of p]
  ++ (match p_email p with
      | Some e => if truthy e && negb (e =s p_subject p) then ["user:" +:+ e] else []
      | None => []
      end)
  ++ (match p_app_id p with
      | Some a => if truthy a then ["app:" +:+ a] else []
      | None => []
      end)
  ++ ((fun g => "group:" +:+ g) <$> p_groups p)
  ++ ((fun r => "role:" +:+ r) <$> p_roles p).

(** The rows a disabled check looks at, and the most recently updated one. *)
Definition identity_matches (p : Principal) (r : IdentityRow) : bool :=
  (idn_tenant_id r =s tenant_of p)
  && ((idn_user_name r =s p_subject p)
      || (otruthy (p_identity_id p) && oeqb (p_identity_id p) (Some (idn_id r)))
      || (otruthy (p_email p) && sql_eq (idn_email r) (o_or (p_email p) ""))).
Definition newest_identity (p : Principal) (d : DB) : option IdentityRow :=
  List.head (sort_by (fun a b => sle (idn_updated_at b) (idn_updated_at a))
               (fetchall (identity_matches p) (db_identities d))).

Definition is_disabled (d : DB) (p : Principal) : bool :=
  if p_disabled p || negb (p_authenticated p) then true
  else match newest_identity p d with
       | Some r => Z.eqb (idn_active r) 0
       | None => false
       end.

Definition resource_refs (capability : option Capability) (resource_uri : option string)
  : list string :=
  match capability with
  | Some c =>
      [c_uri c]
      ++ (match c_namespace_id c with
          | Some n => if truthy n then ["namespace:" +:+ n] else [] | None => [] end)
      ++ (match c_store_id c with
          | Some s => if truthy s then ["store:" +:+ s] else [] | None => [] end)
      ++ ["tenant:" +:+ cap_tenant_of c]
  | None => match resource_uri with
            | Some u => if truthy u then [u] else []
            | None => []
            end
  end.

Definition has_formal_promotion_record (d : DB) (c : Capability) : bool :=
  exists_where (fun r => (pr_tenant_id r =s cap_tenant_of c) && (pr_capability_uri r =s c_uri c))
    (db_promotion_requests d).

Definition jmem (s : string) (l : list json) : bool :=
  List.existsb (fun v => match v with JStr x => x =s s | _ => false end) l.

(** [set(items)] raises on an unhashable element. *)
Definition hashable (v : json) : bool := match v with JArr _ | JObj _ => false | _ => true end.
Definition py_set (items : list json) : outcome (list json) :=
  if List.forallb hashable items then Ok items else Raise (OtherError "TypeError: unhashable type").

Definition manifest_grant (c : Capability) (p : Principal) (right : string) : outcome bool :=
  if negb (smem right USE_RIGHTS) then Ok false
  else if jmem (p_subject p) (c_allow_users c) then Ok true
  else
    let? allow_groups := py_set (c_allow_groups c) in
    if List.existsb (fun g => jmem g allow_groups) (p_groups p) then Ok true
    else
      let? required := py_set (c_required_scopes c) in
      Ok (match required with
          | [] => false
          | _ => List.forallb (fun v => match v with JStr s => smem s (p_scopes p) | _ => false end) required
          end).

Definition tuple_match (d : DB) (tenant_id : string) (objects relations users : list string)
  : bool :=
  match objects, relations, users with
  | [], _, _ | _, [], _ | _, _, [] => false
  | _, _, _ =>
      exists_where (fun r => (rt_tenant_id r =s tenant_id) && smem (rt_object r) objects
                             && smem (rt_relation r) relations && smem (rt_user r) users)
        (db_relationship_tuples d)
  end.

(** [row["expires_at"] and row["expires_at"] <= now] *)
Definition expired (expires_at : option string) (now : string) : bool :=
  match expires_at with Some e => truthy e && sle e now | None => false end.

Definition org_lookup (d : DB) (store_id tenant_id : string) : option string :=
  org_id <$> fetchone (fun r => sql_eq (org_store_id r) store_id && (org_tenant_id r =s tenant_id))
              (db_organizations d).

Definition org_id_for_store (store_id : option string) (tenant_id : string)
  : Op (option string) :=
  match store_id with
  | None => ret None
  | Some s =>
      if negb (truthy s) then ret None
      else
        let! cache := gets w_org_cache in
        match cache !! (tenant_id, s) with
        | Some v => ret v
        | None =>
            let! org_id := query (fun d => org_lookup d s tenant_id) in
            let! _ := modify (fun w => upd w_org_cache (<[(tenant_id, s) := org_id]> (w_org_cache w)) w) in
            ret org_id
        end
  end.

(** [resource_uri in {f"{kind}:{scope_id}", scope_id}] *)
Definition names_scope (kind scope_id : string) (resource_uri : option string) : bool :=
  oeqb resource_uri (Some (kind +:+ ":" +:+ scope_id)) || oeqb resource_uri (Some scope_id).

Definition _org_scope_matches (row : RoleRow) (tenant_id : string)
    (capability : option Capability) (resource_uri : option string) : Op bool :=
  match capability with
  | None => ret (names_scope "org" (ra_scope_id row) resource_uri)
  | Some c =>
      let! org := org_id_for_store (c_store_id c) (s_or (c_tenant_id c) tenant_id) in
      ret (oeqb org (Some (ra_scope_id row)))
  end.

Definition role_assignment_scope_matches (row : RoleRow) (tenant_id : string)
    (capability : option Capability) (resource_uri : option string) : bool :=
  let scope_type := ra_scope_type row in
  let scope_id := ra_scope_id row in
  if scope_type =s "tenant" then smem scope_id [tenant_id; "*"]
  else match capability with
  | None => names_scope scope_type scope_id resource_uri
  | Some c =>
      if scope_type =s "store" then oeqb (c_store_id c) (Some scope_id)
      else if scope_type =s "namespace" then oeqb (c_namespace_id c) (Some scope_id)
      else if smem scope_type ["capability"; "resource"; "object"]
      then (scope_id =s c_uri c) || oeqb resource_uri (Some scope_id)
      else false
  end.

(** [ref.partition(":")] *)
Definition partition_ref (ref : string) : string * string :=
  match partition ":" ref with Some ab => ab | None => (ref, "") end.
Definition pair_mem (a b : string) (l : list (string * string)) : bool :=
  List.existsb (fun ab => (fst ab =s a) && (snd ab =s b)) l.

(** The body of the loop over the unrevoked assignments of the tenant. *)
Fixpoint role_loop (rows : list RoleRow) (pairs : list (string * string)) (now tenant_id right : string)
    (capability : option Capability) (resource_uri : option string) : Op bool :=
  match rows with
  | [] => ret false
  | row :: rows' =>
      let continue := role_loop rows' pairs now tenant_id right capability resource_uri in
      if negb (pair_mem (ra_subject_type row) (ra_subject_id row) pairs) then continue
      else if expired (ra_expires_at row) now then continue
      else
        let! matches :=
          (if ra_scope_type row =s "org"
           then _org_scope_matches row tenant_id capability resource_uri
           else ret (role_assignment_scope_matches row tenant_id capability resource_uri)) in
        if negb matches then continue
        else if role_has_right (ra_role row) right then ret true
        else continue
  end.

Definition unrevoked_roles (d : DB) (tenant_id : string) : list RoleRow :=
  fetchall (fun r => (ra_tenant_id r =s tenant_id) && is_none (ra_revoked_at r))
    (db_role_assignments d).

Definition active_role_grant (tenant_id : string) (subjects : list string) (right : string)
    (capability : option Capability) (resource_uri : option string) : Op bool :=
  match subjects with
  | [] => ret false
  | _ =>
      let! rows := query (fun d => unrevoked_roles d tenant_id) in
      let! now := utc_now in
      role_loop rows (partition_ref <$> subjects) now tenant_id right capability resource_uri
  end.

(** [set(json_loads(text, []))] *)
Definition rights_set (text : string) : outcome (list json) :=
  let? items := py_iter (json_loads (Some text) (JArr [])) in py_set items.

Fixpoint member_loop (rows : list MemberRow) (subjects : list string) (right : string)
  : outcome bool :=
  match rows with
  | [] => Ok false
  | row :: rows' =>
      if negb (smem (nm_subject_type row +:+ ":" +:+ nm_subject_id row) subjects)
      then member_loop rows' subjects right
      else
        let? rights := rights_set (nm_rights_json row) in
        if jmem right rights || jmem "manage" rights || role_has_right (nm_role row) right
        then Ok true
        else member_loop rows' subjects right
  end.

Definition namespace_member_grant (d : DB) (namespace_id : option string)
    (subjects : list string) (right : string) : outcome bool :=
  match namespace_id, subjects with
  | Some n, _ :: _ =>
      if negb (truthy n) then Ok false
      else member_loop (fetchall (fun r => (nm_namespace_id r =s n) && is_none (nm_revoked_at r))
                          (db_namespace_members d)) subjects right
  | _, _ => Ok false
  end.

Definition store_row (d : DB) (store_id tenant_id : string) : option StoreRow :=
  fetchone (fun r => (st_id r =s store_id) && (st_tenant_id r =s tenant_id)) (db_stores d).

Definition store_owner_grant (d : DB) (c : Capability) (p : Principal) (right : string) : bool :=
  if negb (smem right OWNER_RIGHTS) then false
  else match c_store_id c with
  | None => false
  | Some s =>
      if negb (truthy s) then false
      else match store_row d s (cap_tenant_of c) with
      | None => false
      | Some row =>
          if smem (st_kind row) ["user_private"; "user_shared"]
             && sql_eq (st_owner_identity_id row) (identity_of p)
          then true
          else (st_kind row =s "app") && otruthy (p_app_id p)
               && oeqb (st_owner_app_id row) (p_app_id p)
      end
  end.

Definition all_users_store_grant (d : DB) (c : Capability) (p : Principal) (right : string) : bool :=
  if negb (smem right READ_RIGHTS) then false
  else if negb (p_authenticated p) then false
  else match c_store_id c with
  | None => false
  | Some s =>
      if negb (truthy s) then false
      else if negb (cap_tenant_of c =s tenant_of p) then false
      else match store_row d s (cap_tenant_of c) with
           | Some row => st_kind row =s "all_users"
           | None => false
           end
  end.

Fixpoint share_loop (rows : list ShareRow) (subjects : list string) (now right : string)
  : outcome bool :=
  match rows with
  | [] => Ok false
  | row :: rows' =>
      if negb (smem (sh_subject_type row +:+ ":" +:+ sh_subject_id row) subjects)
      then share_loop rows' subjects now right
      else if expired (sh_expires_at row) now then share_loop rows' subjects now right
      else
        let? rights := rights_set (sh_rights_json row) in
        if jmem right rights || jmem "manage" rights then Ok true
        else share_loop rows' subjects now right
  end.

Definition active_shares (d : DB) (tenant_id capability_uri : string) : list ShareRow :=
  fetchall (fun r => (sh_tenant_id r =s tenant_id) && (sh_capability_uri r =s capability_uri)
                     && (sh_state r =s "active") && is_none (sh_revoked_at r)) (db_shares d).

Definition share_grant (d : DB) (now tenant_id : string) (subjects : list string)
    (capability_uri right : string) : outcome bool :=
  if negb (truthy capability_uri) then Ok false
  else share_loop (active_shares d tenant_id capability_uri) subjects now right.

Definition owner_grant (c : Capability) (p : Principal) (right : string) : bool :=
  if negb (smem right OWNER_RIGHTS) then false
  else
    let owner := o_or (c_created_by c) (c_owner c) in
    (owner =s p_subject p) || oeqb (p_identity_id p) (Some owner) || smem owner (p_groups p).

Definition _store_is_org (d : DB) (store_id : option string) (tenant_id : string) : bool :=
  match store_id with
  | None => false
  | Some s =>
      truthy s && exists_where (fun r => (st_id r =s s) && (st_tenant_id r =s tenant_id)
                                         && (st_kind r =s "org")) (db_stores d)
  end.

(** [capability.tenant_id or principal.tenant_id or DEFAULT_TENANT] *)
Definition member_tenant (c : Capability) (p : Principal) : string :=
  s_or (c_tenant_id c) (tenant_of p).

Definition org_membership_grant (c : Capability) (p : Principal) (right : string) : Op bool :=
  if negb (smem right READ_RIGHTS) then ret false
  else if negb (p_authenticated p) then ret false
  else
    let! is_org := query (fun d => _store_is_org d (c_store_id c) (member_tenant c p)) in
    if negb is_org then ret false
    else active_role_grant (member_tenant c p) (subject_refs p) right (Some c) None.

Definition default_visibility_grant (d : DB) (c : Capability) (p : Principal) (right : string)
  : bool :=
  if negb (smem right READ_RIGHTS) then false
  else if c_visibility c =s "public" then true
  else if _store_is_org d (c_store_id c) (member_tenant c p) then false
  else (c_visibility c =s "internal") && p_authenticated p.

Definition record_policy_decision (tenant_id : string) (p : Principal)
    (action resource_uri decision reason : string) (inputs : dict) : Op unit :=
  let! id := new_id "pd" in
  insert_row db_policy_decisions
    {| pd_id := id; pd_tenant_id := tenant_id; pd_principal := p_subject p; pd_action := action;
       pd_resource_uri := resource_uri; pd_decision := decision; pd_reason := reason;
       pd_inputs_json := json_dumps (JObj inputs) |}.

Definition BLOCKED_STATES : list string := ["rejected"; "recalled"; "demoted"; "yanked"].
Definition BLOCKED_LIFECYCLES : list string :=
  ["disabled"; "deleted"; "retired"; "recalled"; "yanked"].

Definition blocked (c : Capability) : bool :=
  smem (c_approval_state c) BLOCKED_STATES || smem (c_lifecycle c) BLOCKED_LIFECYCLES.

Definition integrity_required (d : DB) (capability : option Capability) (right : string) : bool :=
  match capability with
  | None => false
  | Some c => production_environment && otruthy (c_promoted_from_uri c)
              && has_formal_promotion_record d c && smem right USE_RIGHTS
  end.

Definition integrity_broken (c : Capability) : bool :=
  negb (c_approval_state c =s "approved") || negb (c_signature_status c =s "verified")
  || negb (c_provenance_status c =s "verified") || negb (c_risk_review_status c =s "approved").

(** [if capability and ...] on an optional capability. *)
Definition on_cap (capability : option Capability) (f : Capability -> bool) : bool :=
  match capability with Some c => f c | None => false end.

(** [principal.tenant_id or capability.tenant_id or DEFAULT_TENANT] *)
Definition access_tenant (p : Principal) (capability : option Capability) : string :=
  s_or (p_tenant_id p)
    (match capability with Some c => cap_tenant_of c | None => DEFAULT_TENANT end).

(** [capability.uri if capability else resource_uri or ""] *)
Definition resource_name (capability : option Capability) (resource_uri : option string) : string :=
  match capability with Some c => c_uri c | None => o_or resource_uri "" end.

(** The tests that refuse, in order: the reason of the first that applies. *)
Definition refusal (d : DB) (p : Principal) (right : string) (capability : option Capability)
    (resource_uri : option string) : option string :=
  if is_disabled d p then Some "Principal is disabled or unauthenticated."
  else if on_cap capability blocked
  then Some "Capability is inactive, recalled, demoted, rejected, or yanked."
  else if requires_step_up right capability && negb (p_step_up_authenticated p)
  then Some "Step-up authentication required for high-risk or destructive operation."
  else if integrity_required d capability right && on_cap capability integrity_broken
  then Some "Promoted capability integrity or approval state is not valid for production use."
  else if tuple_match d (access_tenant p capability) (resource_refs capability resource_uri)
            ["deny_" +:+ right; "deny"] (subject_refs p)
  then Some "Explicit deny relationship matched."
  else None.

(** The grants, in order, with the reason recorded for each. *)
Definition grants (p : Principal) (right : string) (capability : option Capability)
    (resource_uri : option string) : list (Op bool * string) :=
  let tenant_id := access_tenant p capability in
  let resources := resource_refs capability resource_uri in
  let subjects := subject_refs p in
  let capq (f : DB -> Capability -> outcome bool) : Op bool :=
    match capability with
    | Some c => let! o := query (fun d => f d c) in lift o
    | None => ret false
    end in
  [(ret (List.existsb (fun role => global_role_has_right role right) (p_roles p)),
      "Principal role grants the requested right.");
   (active_role_grant tenant_id subjects right capability resource_uri,
      "Active role assignment grants the requested right.");
   ((let! now := utc_now in
     let! o := query (fun d => share_grant d now tenant_id subjects
                                 (resource_name capability resource_uri) right) in lift o),
      "Active share grants the requested right.");
   (query (fun d => tuple_match d tenant_id resources [right; "grant_" +:+ right; "owner"] subjects),
      "Relationship tuple grants the requested right.");
   (capq (fun d c => namespace_member_grant d (c_namespace_id c) subjects right),
      "Namespace membership grants the requested right.");
   (capq (fun d c => Ok (store_owner_grant d c p right)),
      "Store ownership grants the requested right.");
   (capq (fun _ c => manifest_grant c p right),
      "Capability manifest grant matches the principal.");
   (capq (fun _ c => Ok (owner_grant c p right)),
      "Owner rights grant the requested right.");
   (capq (fun d c => Ok (all_users_store_grant d c p right)),
      "All-user store grants read-only access to authenticated tenant users.");
   (match capability with Some c => org_membership_grant c p right | None => ret false end,
      "Org membership grants read access to the org store.");
   (capq (fun d c => Ok (default_visibility_grant d c p right)),
      "Default visibility grants the requested right.")].

(** [elif grant(): decision, reason = "allow", reason] *)
Fixpoint cascade (gs : list (Op bool * string)) : Op (option string) :=
  match gs with
  | [] => ret None
  | (g, why) :: gs' => let! b := g in if b then ret (Some why) else cascade gs'
  end.

Definition dedup (l : list string) : list string := remove_dups l.

(** The decision and its reason, before it is audited. *)
Definition decide (p : Principal) (right : string) (capability : option Capability)
    (resource_uri : option string) : Op (bool * string) :=
  let! refused := query (fun d => refusal d p right capability resource_uri) in
  match refused with
  | Some why => ret (false, why)
  | None =>
      let! granted := cascade (grants p right capability resource_uri) in
      match granted with
      | Some why => ret (true, why)
      | None => ret (false, "No matching grant.")
      end
  end.

Definition evaluate_access (p : Principal) (right : string) (capability : option Capability)
    (resource_uri : option string) (audit : bool) : Op (bool * option string) :=
  if negb (smem right RIGHTS) then ret (false, Some ("Unsupported right: " +:+ right))
  else
    let! (allowed, reason) := decide p right capability resource_uri in
    let! _ := when audit
      (record_policy_decision (access_tenant p capability) p right
         (resource_name capability resource_uri) (if allowed then "allow" else "deny") reason
         [("subjects", jstrs (sorted_strings (dedup (subject_refs p))));
          ("resources", jstrs (resource_refs capability resource_uri))]) in
    ret (allowed, if allowed then None else Some reason).

(** The pattern of every handler:
    [allowed, reason = evaluate_access(...); if not allowed: raise PermissionError(reason)]. *)
Definition require_access (p : Principal) (right : string) (capability : option Capability)
    (resource_uri : option string) : Op unit :=
  let! (allowed, reason) := evaluate_access p right capability resource_uri true in
  if allowed then ret tt else raise (PermissionError (o_or reason "")).
End Access.
