(* ===== verification/AccessSpec.v ===== *)
(** * What the access decision promises

    A specification of [evaluate_access] over the database alone: no cache, no
    audit record, a declarative condition for every grant.  The code refines it
    whenever the organization cache is coherent with the organizations table,
    and keeps the cache coherent. *)

From Stdlib Require Import ZArith Ascii String Lia.
From stdpp Require Import base option list strings gmap.
From S2P Require Import Prelude Sha256 PyStr Json Clock Db Models AccessControl.
Local Open Scope string_scope.
Local Open Scope list_scope.

(** ** Coherence of the organization cache *)
Section Coherence.
Context `{!Runtime}.

Definition coherent (w : World) : Prop :=
  forall t s v, w_org_cache w !! (t, s) = Some v -> v = org_lookup (w_db w) s t.

(** What the access code may do to the world: fill the cache, keeping it
    coherent. *)
Definition cache_step (w w' : World) : Prop :=
  w_db w' = w_db w /\ w_disk w' = w_disk w /\ w_clock w' = w_clock w /\ w_uuid w' = w_uuid w
  /\ (coherent w -> coherent w').

#[export] Instance cache_step_preorder : PreOrder cache_step.
Proof.
  split; [by intros w|].
  intros x y z (H1 & H2 & H3 & H4 & H5) (G1 & G2 & G3 & G4 & G5).
  repeat split; try congruence; auto.
Qed.

(** [m] returns [f] of the database and the time, and only touches the cache. *)
Definition computes {A} (m : Op A) (f : DB -> string -> outcome A) : Prop :=
  forall w, coherent w ->
    (m w).1 = f (w_db w) (utc_text (w_clock w)) /\ cache_step w (m w).2.

Lemma computes_ret {A} (a : A) : computes (ret a) (fun _ _ => Ok a).
Proof. intros w Hw. by split. Qed.
Lemma computes_query {A} (g : DB -> A) : computes (query g) (fun d _ => Ok (g d)).
Proof. intros w Hw. by split. Qed.
Lemma computes_lift {A} (o : outcome A) : computes (lift o) (fun _ _ => o).
Proof. intros w Hw. by split. Qed.
Lemma computes_now : computes utc_now (fun _ now => Ok now).
Proof. intros w Hw. by split. Qed.

Lemma computes_bind {A B} (m : Op A) (k : A -> Op B) f g :
  computes m f -> (forall a, computes (k a) (g a)) ->
  computes (bind m k) (fun d now => obind (f d now) (fun a => g a d now)).
Proof.
  intros Hm Hk w Hw. unfold bind. destruct (Hm w Hw) as [E Hs].
  destruct (m w) as [[a|e] w1]; cbn in E, Hs; rewrite <-E; [|done].
  pose proof Hs as (Hd & _ & Hc & _ & Hco). destruct (Hk a w1 (Hco Hw)) as [E' Hs'].
  cbn. rewrite E', Hd, Hc. split; [done|]. by etrans.
Qed.

Lemma computes_ext {A} (m : Op A) f g :
  computes m f -> (forall d now, f d now = g d now) -> computes m g.
Proof. intros Hm Hfg w Hw. rewrite <-Hfg. by apply Hm. Qed.

Lemma computes_if {A} (b : bool) (m n : Op A) f g :
  computes m f -> computes n g ->
  computes (if b then m else n) (fun d now => if b then f d now else g d now).
Proof. by destruct b. Qed.
End Coherence.

Create HintDb computes.
#[export] Hint Resolve computes_ret computes_query computes_lift computes_now : computes.

Section Spec.
Context `{!Runtime}.
Implicit Types (d : DB) (p : Principal) (c : Capability).

(** ** The specification *)

(** The organization a capability's store belongs to. *)
Definition org_of d (store_id : option string) (tenant_id : string) : option string :=
  match store_id with
  | Some s => if truthy s then org_lookup d s tenant_id else None
  | None => None
  end.

Definition scope_covers d (row : RoleRow) (tenant_id : string) (cap : option Capability)
    (res : option string) : bool :=
  if ra_scope_type row =s "org" then
    match cap with
    | None => names_scope "org" (ra_scope_id row) res
    | Some c => oeqb (org_of d (c_store_id c) (s_or (c_tenant_id c) tenant_id)) (Some (ra_scope_id row))
    end
  else role_assignment_scope_matches row tenant_id cap res.

(** An assignment that gives one of [subjects] the right on the resource now. *)
Definition assignment_grants d now (tenant_id : string) (subjects : list string) (right : string)
    (cap : option Capability) (res : option string) (row : RoleRow) : bool :=
  pair_mem (ra_subject_type row) (ra_subject_id row) (partition_ref <$> subjects)
  && negb (expired (ra_expires_at row) now)
  && scope_covers d row tenant_id cap res
  && role_has_right (ra_role row) right.

Definition role_granted d now tenant_id subjects right cap res : bool :=
  List.existsb (assignment_grants d now tenant_id subjects right cap res) (unrevoked_roles d tenant_id).

Definition org_member d now c p right : bool :=
  smem right READ_RIGHTS && p_authenticated p
  && _store_is_org d (c_store_id c) (member_tenant c p)
  && role_granted d now (member_tenant c p) (subject_refs p) right (Some c) None.

(** The grants as pure conditions, in the order of the code. *)
Definition pure_grants d now p right (cap : option Capability) (res : option string)
  : list (outcome bool * string) :=
  let tenant_id := access_tenant p cap in
  let subjects := subject_refs p in
  let on (f : Capability -> outcome bool) :=
    match cap with Some c => f c | None => Ok false end in
  [(Ok (List.existsb (fun role => global_role_has_right role right) (p_roles p)),
      "Principal role grants the requested right.");
   (Ok (role_granted d now tenant_id subjects right cap res),
      "Active role assignment grants the requested right.");
   (share_grant d now tenant_id subjects (resource_name cap res) right,
      "Active share grants the requested right.");
   (Ok (tuple_match d tenant_id (resource_refs cap res) [right; "grant_" +:+ right; "owner"] subjects),
      "Relationship tuple grants the requested right.");
   (on (fun c => namespace_member_grant d (c_namespace_id c) subjects right),
      "Namespace membership grants the requested right.");
   (on (fun c => Ok (store_owner_grant d c p right)),
      "Store ownership grants the requested right.");
   (on (fun c => manifest_grant c p right),
      "Capability manifest grant matches the principal.");
   (on (fun c => Ok (owner_grant c p right)),
      "Owner rights grant the requested right.");
   (on (fun c => Ok (all_users_store_grant d c p right)),
      "All-user store grants read-only access to authenticated tenant users.");
   (on (fun c => Ok (org_member d now c p right)),
      "Org membership grants read access to the org store.");
   (on (fun c => Ok (default_visibility_grant d c p right)),
      "Default visibility grants the requested right.")].

Fixpoint first_grant (gs : list (outcome bool * string)) : outcome (option string) :=
  match gs with
  | [] => Ok None
  | (g, why) :: gs' => let? b := g in if b then Ok (Some why) else first_grant gs'
  end.

(** The decision and its reason. *)
Definition decision d now p right cap res : outcome (bool * string) :=
  match refusal d p right cap res with
  | Some why => Ok (false, why)
  | None =>
      let? granted := first_grant (pure_grants d now p right cap res) in
      Ok (match granted with Some why => (true, why) | None => (false, "No matching grant.") end)
  end.

Definition access d now p right cap res : outcome (bool * option string) :=
  if negb (smem right RIGHTS) then Ok (false, Some ("Unsupported right: " +:+ right))
  else let? x := decision d now p right cap res in
       Ok (x.1, if x.1 then None else Some x.2).

(** ** The cached organization lookup *)
Lemma org_id_for_store_computes s t :
  computes (org_id_for_store s t) (fun d _ => Ok (org_of d s t)).
Proof.
  intros w Hw. unfold org_id_for_store, org_of. destruct s as [s|]; [|by split].
  destruct (truthy s) eqn:Ht; cbn; [|by split].
  unfold bind, gets, query, modify. cbn.
  destruct (w_org_cache w !! (t, s)) as [v|] eqn:E.
  - split; [|done]. cbn. f_equal. by apply Hw.
  - split; [done|]. repeat split; try done. cbn. intros _ t' s' v.
    unfold coherent in *. cbn. rewrite lookup_insert_Some. intros [[[= <- <-] <-]|[_ Hl]]; [done|].
    by apply Hw.
Qed.

Lemma org_scope_computes row t cap res :
  computes (_org_scope_matches row t cap res)
    (fun d _ => Ok (match cap with
                    | None => names_scope "org" (ra_scope_id row) res
                    | Some c => oeqb (org_of d (c_store_id c) (s_or (c_tenant_id c) t))
                                  (Some (ra_scope_id row))
                    end)).
Proof.
  unfold _org_scope_matches. destruct cap as [c|]; [|auto with computes].
  eapply computes_ext;
    [apply computes_bind; [apply org_id_for_store_computes | intros org; apply computes_ret]|].
  done.
Qed.

Lemma role_loop_computes rows subjects now t right cap res :
  computes (role_loop rows (partition_ref <$> subjects) now t right cap res)
    (fun d _ => Ok (List.existsb (assignment_grants d now t subjects right cap res) rows)).
Proof.
  induction rows as [|row rows IH]; cbn [role_loop List.existsb]; [auto with computes|].
  unfold assignment_grants at 1.
  destruct (pair_mem _ _ _); cbn [negb andb orb]; [|done].
  destruct (expired _ _); cbn [negb andb orb]; [done|].
  eapply computes_ext.
  - apply computes_bind with (f := fun d _ => Ok (scope_covers d row t cap res)).
    + unfold scope_covers. destruct (ra_scope_type row =s "org"); [|auto with computes].
      apply org_scope_computes.
    + intros b. apply computes_if; [exact IH|]. apply computes_if; [apply computes_ret | exact IH].
  - intros d now'. cbn. destruct (scope_covers _ _ _ _ _), (role_has_right _ _); done.
Qed.

Lemma active_role_grant_computes t subjects right cap res :
  computes (active_role_grant t subjects right cap res)
    (fun d now => Ok (role_granted d now t subjects right cap res)).
Proof.
  unfold active_role_grant, role_granted. destruct subjects as [|s subjects].
  - eapply computes_ext; [apply computes_ret|]. intros d now. f_equal. symmetry.
    by induction (unrevoked_roles d t).
  - eapply computes_ext.
    { apply computes_bind; [apply computes_query|]. intros rows.
      apply computes_bind; [apply computes_now|]. intros now. apply role_loop_computes. }
    done.
Qed.

Lemma org_membership_computes c p right :
  computes (org_membership_grant c p right) (fun d now => Ok (org_member d now c p right)).
Proof.
  unfold org_membership_grant, org_member.
  destruct (smem right READ_RIGHTS), (p_authenticated p); cbn [negb andb]; auto with computes.
  eapply computes_ext.
  { apply computes_bind; [apply computes_query|]. intros b.
    apply computes_if; [apply computes_ret | apply active_role_grant_computes]. }
  intros d now. cbn. by destruct (_store_is_org _ _ _).
Qed.

Lemma cascade_cons g why gs f F :
  computes g f -> computes (cascade gs) F ->
  computes (cascade ((g, why) :: gs))
    (fun d now => let? b := f d now in if b then Ok (Some why) else F d now).
Proof.
  intros Hg Hgs. cbn [cascade]. apply computes_bind; [exact Hg|]. intros b.
  apply (computes_if b _ _ (fun _ _ => Ok (Some why)) _); [apply computes_ret | exact Hgs].
Qed.

Lemma grants_computes p right cap res :
  computes (cascade (grants p right cap res))
    (fun d now => first_grant (pure_grants d now p right cap res)).
Proof.
  assert (forall f : DB -> Capability -> outcome bool,
    computes (match cap with Some c => let! o := query (fun d => f d c) in lift o | None => ret false end)
      (fun d _ => match cap with Some c => f d c | None => Ok false end)) as Hcap.
  { intros f. destruct cap as [c|]; [|auto with computes].
    eapply computes_ext; [apply computes_bind; [apply computes_query | apply computes_lift]|]. done. }
  assert (computes (match cap with Some c => org_membership_grant c p right | None => ret false end)
    (fun d now => match cap with Some c => Ok (org_member d now c p right) | None => Ok false end)) as Horg.
  { destruct cap; [apply org_membership_computes | apply computes_ret]. }
  eapply computes_ext.
  { unfold grants. apply cascade_cons; [apply computes_ret|].
    apply cascade_cons; [apply active_role_grant_computes|].
    apply cascade_cons.
    { apply computes_bind; [apply computes_now|]. intros now.
      apply computes_bind; [apply computes_query|]. intros o. exact (computes_lift o). }
    apply cascade_cons; [apply computes_query|].
    do 5 (apply cascade_cons; [apply Hcap|]).
    apply cascade_cons; [apply Horg|]. apply cascade_cons; [apply Hcap|]. apply computes_ret. }
  done.
Qed.

(** ** The decision refines the specification *)

Lemma decide_computes p right cap res :
  computes (decide p right cap res) (fun d now => decision d now p right cap res).
Proof.
  unfold decide, decision. eapply computes_ext.
  { apply computes_bind; [apply computes_query|]. intros refused.
    apply (computes_ext _ (fun d now =>
      match refused with
      | Some why => Ok (false, why)
      | None => let? granted := first_grant (pure_grants d now p right cap res) in
                Ok (match granted with Some why => (true, why) | None => (false, "No matching grant.") end)
      end)); [|reflexivity].
    destruct refused as [why|]; [apply computes_ret|].
    apply computes_bind; [apply grants_computes|]. intros [why|]; apply computes_ret. }
  done.
Qed.

(** The part of [evaluate_access] before the audit record. *)
Lemma evaluate_unaudited_computes p right cap res :
  computes (evaluate_access p right cap res false) (fun d now => access d now p right cap res).
Proof.
  unfold evaluate_access, access. apply computes_if; [apply computes_ret|].
  apply computes_bind; [apply decide_computes|]. intros [allowed reason].
  exact (computes_ret (allowed, if allowed then None else Some reason)).
Qed.

(** With the audit record: the same outcome, and a world that differs by the
    cache and at most one row of policy_decisions. *)
Definition audit_step (w w' : World) : Prop :=
  (forall ds, upd db_policy_decisions ds (w_db w') = upd db_policy_decisions ds (w_db w))
  /\ w_disk w' = w_disk w /\ w_clock w' = w_clock w /\ (coherent w -> coherent w').

#[export] Instance audit_step_preorder : PreOrder audit_step.
Proof.
  split; [by intros w|].
  intros x y z (H1 & H2 & H3 & H4) (G1 & G2 & G3 & G4).
  split_and!; [intros ds; congruence | congruence | congruence | auto].
Qed.

Lemma cache_audit_step w w' : cache_step w w' -> audit_step w w'.
Proof. intros (H1 & H2 & H3 & H4 & H5). repeat split; auto. intros ds. by rewrite H1. Qed.

Lemma record_policy_decision_ok t p a u de r i w :
  exists w', record_policy_decision t p a u de r i w = (Ok tt, w') /\ audit_step w w'.
Proof. eexists. split; [reflexivity|]. repeat split; done. Qed.

(** Auditing does not change the outcome. *)
Lemma evaluate_audited p right cap res w :
  (evaluate_access p right cap res true w).1 = (evaluate_access p right cap res false w).1 /\
  audit_step (evaluate_access p right cap res false w).2 (evaluate_access p right cap res true w).2.
Proof.
  unfold evaluate_access. destruct (smem right RIGHTS); cbn [negb]; [|done].
  unfold bind. destruct (decide p right cap res w) as [[[allowed reason]|e] w1]; [|done].
  cbn [when].
  destruct (record_policy_decision_ok (access_tenant p cap) p right (resource_name cap res)
    (if allowed then "allow" else "deny") reason
    [("subjects", jstrs (sorted_strings (dedup (subject_refs p))));
     ("resources", jstrs (resource_refs cap res))] w1) as (w2 & E & Hs).
  rewrite E. done.
Qed.

Lemma evaluate_access_spec p right cap res audit w :
  coherent w ->
  (evaluate_access p right cap res audit w).1
    = access (w_db w) (utc_text (w_clock w)) p right cap res
  /\ audit_step w (evaluate_access p right cap res audit w).2.
Proof.
  intros Hw. destruct (evaluate_unaudited_computes p right cap res w Hw) as [E Hs%cache_audit_step].
  destruct audit; [|done]. destruct (evaluate_audited p right cap res w) as [E' Hs'].
  rewrite E', E. split; [done|]. by etrans.
Qed.

(** ** Consequences for the callers *)
Lemma access_refused d now p right cap res why :
  refusal d p right cap res = Some why -> smem right RIGHTS = true ->
  access d now p right cap res = Ok (false, Some why).
Proof. unfold access, decision. by intros -> ->. Qed.

Lemma access_allowed d now p right cap res o :
  access d now p right cap res = Ok (true, o) ->
  smem right RIGHTS = true /\ refusal d p right cap res = None /\ o = None /\
  exists g why, (g, why) ∈ pure_grants d now p right cap res /\ g = Ok true.
Proof.
  unfold access, decision. destruct (smem right RIGHTS); cbn [negb]; [|done].
  destruct (refusal d p right cap res); [done|]. cbn [obind].
  destruct (first_grant (pure_grants d now p right cap res)) as [[why|]|e] eqn:E; try done.
  cbn. intros [= <-]. repeat split; try done. revert E.
  induction (pure_grants d now p right cap res) as [|[g why'] gs IH]; cbn; [done|].
  destruct g as [[]|e]; cbn; [|intros Hg; destruct (IH Hg) as (g & y & Hin & ->)|done].
  - intros [= ->]. exists (Ok true), why. split; [left|done].
  - exists (Ok true), y. split; [by right|done].
Qed.

(** No grant raises, when every stored rights text is readable. *)
Lemma first_grant_total gs :
  Forall (fun g : outcome bool * string => is_ok g.1 = true) gs ->
  exists o, first_grant gs = Ok o /\
    (is_some o = true <-> exists g, g ∈ gs /\ g.1 = Ok true).
Proof.
  induction 1 as [|[g why] gs Hg Hgs IH]; cbn in *.
  - exists None. split; [done|]. split; [done|]. by intros (g & Hg%elem_of_nil & _).
  - destruct g as [[]|e]; cbn in *; [| |done].
    + exists (Some why). split; [done|]. split; [|done]. intros _. exists (Ok true, why). by split; [left|].
    + destruct IH as (o & -> & Ho). exists o. split; [done|]. rewrite Ho. split.
      * intros (g & Hin & E). exists g. by split; [right|].
      * intros (g & [->|Hin]%elem_of_cons & E); [done|]. by exists g.
Qed.
End Spec.
