(* ===== verification/AccessProps.v ===== *)
(** * The correctness of the access decision

    A declarative reading of the eleven grants, row by row, and the theorems
    about [evaluate_access]: it allows exactly what is granted and not refused,
    the refusals come first whatever the grants, it changes nothing but the
    decision log and the cache, a stale cache is what can make it wrong. *)

From Stdlib Require Import ZArith Ascii String Lia.
From stdpp Require Import base option list strings gmap.
From S2P Require Import Prelude Sha256 PyStr Json JsonCodec Clock Db Models AccessControl AccessSpec.
Local Open Scope string_scope.
Local Open Scope list_scope.

Section Declarative.
Context `{!Runtime}.
Implicit Types (d : DB) (p : Principal) (c : Capability) (cap : option Capability).

(** One of [subjects] is written [ty:id]. *)
Definition names_subject (subjects : list string) (ty id : string) : Prop :=
  exists ref, ref ∈ subjects /\ partition_ref ref = (ty, id).

(** A stored rights text that gives [right], itself or through "manage". *)
Definition text_gives (text right : string) : Prop :=
  exists rights, rights_set text = Ok rights /\ (JStr right ∈ rights \/ JStr "manage" ∈ rights).

(** [row] is an assignment of [tenant] in force for one of [subjects]. *)
Record assigned d now (tenant : string) (subjects : list string) (right : string) cap
    (res : option string) (row : RoleRow) : Prop := {
  as_row : row ∈ db_role_assignments d;
  as_tenant : ra_tenant_id row = tenant;
  as_unrevoked : ra_revoked_at row = None;
  as_subject : names_subject subjects (ra_subject_type row) (ra_subject_id row);
  as_unexpired : expired (ra_expires_at row) now = false;
  as_scope : scope_covers d row tenant cap res = true;
  as_right : role_has_right (ra_role row) right = true
}.

(** The ways to be granted a right. *)
Inductive granted d now p (right : string) cap (res : option string) : Prop :=
  | by_role role :
      role ∈ p_roles p -> global_role_has_right role right = true ->
      granted d now p right cap res
  | by_assignment row :
      assigned d now (access_tenant p cap) (subject_refs p) right cap res row ->
      granted d now p right cap res
  | by_share row :
      row ∈ db_shares d -> sh_tenant_id row = access_tenant p cap ->
      resource_name cap res <> "" -> sh_capability_uri row = resource_name cap res ->
      sh_state row = "active" -> sh_revoked_at row = None ->
      (sh_subject_type row +:+ ":" +:+ sh_subject_id row) ∈ subject_refs p ->
      expired (sh_expires_at row) now = false -> text_gives (sh_rights_json row) right ->
      granted d now p right cap res
  | by_tuple row :
      row ∈ db_relationship_tuples d -> rt_tenant_id row = access_tenant p cap ->
      rt_object row ∈ resource_refs cap res ->
      rt_relation row ∈ [right; "grant_" +:+ right; "owner"] -> rt_user row ∈ subject_refs p ->
      granted d now p right cap res
  | by_namespace c n row :
      cap = Some c -> c_namespace_id c = Some n -> n <> "" -> row ∈ db_namespace_members d ->
      nm_namespace_id row = n -> nm_revoked_at row = None ->
      (nm_subject_type row +:+ ":" +:+ nm_subject_id row) ∈ subject_refs p ->
      text_gives (nm_rights_json row) right \/ role_has_right (nm_role row) right = true ->
      granted d now p right cap res
  | by_store_owner c :
      cap = Some c -> store_owner_grant d c p right = true -> granted d now p right cap res
  | by_manifest c :
      cap = Some c -> manifest_grant c p right = Ok true -> granted d now p right cap res
  | by_owner c :
      cap = Some c -> owner_grant c p right = true -> granted d now p right cap res
  | by_all_users c :
      cap = Some c -> all_users_store_grant d c p right = true -> granted d now p right cap res
  | by_org_member c row :
      cap = Some c -> right ∈ READ_RIGHTS -> p_authenticated p = true ->
      _store_is_org d (c_store_id c) (member_tenant c p) = true ->
      assigned d now (member_tenant c p) (subject_refs p) right (Some c) None row ->
      granted d now p right cap res
  | by_visibility c :
      cap = Some c -> default_visibility_grant d c p right = true -> granted d now p right cap res.

(** Every stored rights text, and every list of the manifest, can be made a
    Python set: nothing a grant reads makes it raise. *)
Definition rights_readable d cap : bool :=
  match cap with
  | Some c => List.forallb hashable (c_allow_groups c) && List.forallb hashable (c_required_scopes c)
  | None => true
  end &&
  List.forallb (fun r => is_ok (rights_set (sh_rights_json r))) (db_shares d)
  && List.forallb (fun r => is_ok (rights_set (nm_rights_json r))) (db_namespace_members d).

(** ** The pure grants, read declaratively *)
Lemma jmem_In s l : jmem s l = true <-> JStr s ∈ l.
Proof.
  unfold jmem. rewrite List.existsb_exists. split.
  - intros ([| | | |x| |] & Hin & E); try done. apply String.eqb_eq in E as ->. by apply list_elem_of_In.
  - intros Hin. exists (JStr s). split; [by apply list_elem_of_In | apply String.eqb_refl].
Qed.

Lemma pair_mem_names ty id subjects :
  pair_mem ty id (partition_ref <$> subjects) = true <-> names_subject subjects ty id.
Proof.
  unfold pair_mem, names_subject. rewrite List.existsb_exists. split.
  - intros ([a b] & Hin & E). cbn in E.
    apply andb_true_iff in E as [<-%String.eqb_eq <-%String.eqb_eq].
    apply list_elem_of_In, list_elem_of_fmap in Hin as (ref & E & Hin). eauto.
  - intros (ref & Hin & E). exists (ty, id). cbn. rewrite !String.eqb_refl. split; [|done].
    apply list_elem_of_In, list_elem_of_fmap. eauto.
Qed.

Lemma role_granted_iff d now t subjects right cap res :
  role_granted d now t subjects right cap res = true <->
  exists row, assigned d now t subjects right cap res row.
Proof.
  unfold role_granted, unrevoked_roles. rewrite List.existsb_exists. split.
  - intros (row & Hin & Hg). apply list_elem_of_In, elem_of_fetchall in Hin as [Hq Hin].
    unfold assignment_grants in Hg. rewrite !andb_true_iff, negb_true_iff, pair_mem_names in Hg.
    apply andb_true_iff in Hq as [<-%String.eqb_eq Hr]. destruct Hg as [[[? ?] ?] ?].
    exists row. split; try done. by destruct (ra_revoked_at row).
  - intros (row & [H1 H2 H3 H4 H5 H6 H7]). exists row. split.
    + apply list_elem_of_In, elem_of_fetchall. split; [|done]. cbn. by rewrite H2, H3, String.eqb_refl.
    + unfold assignment_grants. rewrite !andb_true_iff, negb_true_iff, pair_mem_names. done.
Qed.

Lemma text_gives_iff text right rights :
  rights_set text = Ok rights ->
  jmem right rights || jmem "manage" rights = true <-> text_gives text right.
Proof.
  intros E. rewrite orb_true_iff, !jmem_In. unfold text_gives. split; [eauto|].
  intros (rs & E2 & Hin). rewrite E in E2. by injection E2 as ->.
Qed.

Lemma share_loop_iff rows subjects now right :
  List.forallb (fun r => is_ok (rights_set (sh_rights_json r))) rows = true ->
  exists b, share_loop rows subjects now right = Ok b /\
  (b = true <-> exists row, row ∈ rows /\
     (sh_subject_type row +:+ ":" +:+ sh_subject_id row) ∈ subjects /\
     expired (sh_expires_at row) now = false /\ text_gives (sh_rights_json row) right).
Proof.
  induction rows as [|row rows IH]; cbn [List.forallb share_loop].
  - intros _. exists false. split; [done|]. split; [done|]. by intros (? & ?%elem_of_nil & _).
  - intros [Hr (b & Eb & Hb)%IH]%andb_true_iff.
    destruct (smem _ _) eqn:Es; cbn [negb].
    2: { exists b. split; [done|]. rewrite Hb, exists_cons_skip; [done|]. apply smem_not_In in Es. tauto. }
    destruct (expired _ _) eqn:Ee.
    { exists b. split; [done|]. rewrite Hb, exists_cons_skip; [done|]. rewrite Ee. intros (_ & [=] & _). }
    destruct (rights_set (sh_rights_json row)) as [rights|] eqn:Er; [cbn [obind]|done].
    pose proof (text_gives_iff _ right _ Er) as Ht. apply smem_In in Es.
    destruct (_ || _).
    + exists true. split; [done|]. split; [|done]. intros _. exists row. split_and!; auto; [left | by apply Ht].
    + exists b. split; [done|]. rewrite Hb, exists_cons_skip; [done|]. intros (_ & _ & [=]%Ht).
Qed.

Lemma member_loop_iff rows subjects right :
  List.forallb (fun r => is_ok (rights_set (nm_rights_json r))) rows = true ->
  exists b, member_loop rows subjects right = Ok b /\
  (b = true <-> exists row, row ∈ rows /\
     (nm_subject_type row +:+ ":" +:+ nm_subject_id row) ∈ subjects /\
     (text_gives (nm_rights_json row) right \/ role_has_right (nm_role row) right = true)).
Proof.
  induction rows as [|row rows IH]; cbn [List.forallb member_loop].
  - intros _. exists false. split; [done|]. split; [done|]. by intros (? & ?%elem_of_nil & _).
  - intros [Hr (b & Eb & Hb)%IH]%andb_true_iff.
    destruct (smem _ _) eqn:Es; cbn [negb].
    2: { exists b. split; [done|]. rewrite Hb, exists_cons_skip; [done|]. apply smem_not_In in Es. tauto. }
    destruct (rights_set (nm_rights_json row)) as [rights|] eqn:Er; [cbn [obind]|done].
    pose proof (text_gives_iff _ right _ Er) as Ht. apply smem_In in Es.
    destruct (_ || _ || _) eqn:Eg.
    + exists true. split; [done|]. split; [|done]. intros _. exists row. split_and!; auto; [left|].
      apply orb_true_iff in Eg as [Eg|Eg]; [left; by apply Ht | by right].
    + exists b. split; [done|]. rewrite Hb, exists_cons_skip; [done|]. apply orb_false_iff in Eg as [Eg Er'].
      rewrite Er'. intros (_ & [[=]%Ht|[=]]). congruence.
Qed.

Lemma share_grant_iff cap d now t subjects uri right :
  rights_readable d cap = true ->
  exists b, share_grant d now t subjects uri right = Ok b /\
  (b = true <-> exists row, row ∈ db_shares d /\ sh_tenant_id row = t /\ uri <> "" /\
     sh_capability_uri row = uri /\ sh_state row = "active" /\ sh_revoked_at row = None /\
     (sh_subject_type row +:+ ":" +:+ sh_subject_id row) ∈ subjects /\
     expired (sh_expires_at row) now = false /\ text_gives (sh_rights_json row) right).
Proof.
  intros [[_ Hs]%andb_true_iff _]%andb_true_iff. unfold share_grant.
  destruct (truthy uri) eqn:Eu; cbn [negb].
  2: { apply truthy_false in Eu as ->. exists false. split; [done|]. split; [done|]. naive_solver. }
  apply truthy_true in Eu.
  destruct (share_loop_iff (active_shares d t uri) subjects now right) as (b & Eb & Hb);
    [by apply forallb_fetchall|].
  exists b. split; [done|]. rewrite Hb. unfold active_shares. setoid_rewrite elem_of_fetchall.
  repeat setoid_rewrite andb_true_iff. repeat setoid_rewrite String.eqb_eq.
  split; intros (row & Hrow); exists row.
  - destruct Hrow as ([[[[? ?] ?] Hr] ?] & ? & ? & ?). destruct (sh_revoked_at row); naive_solver.
  - destruct Hrow as (? & ? & ? & ? & ? & Hr & ?). rewrite Hr. naive_solver.
Qed.

Lemma subject_refs_cons p : exists s l, subject_refs p = s :: l.
Proof. by eexists _, _. Qed.

Lemma namespace_grant_iff cap d n subjects right :
  rights_readable d cap = true -> subjects <> [] ->
  exists b, namespace_member_grant d n subjects right = Ok b /\
  (b = true <-> exists id row, n = Some id /\ id <> "" /\ row ∈ db_namespace_members d /\
     nm_namespace_id row = id /\ nm_revoked_at row = None /\
     (nm_subject_type row +:+ ":" +:+ nm_subject_id row) ∈ subjects /\
     (text_gives (nm_rights_json row) right \/ role_has_right (nm_role row) right = true)).
Proof.
  intros [_ Hm]%andb_true_iff Hne. unfold namespace_member_grant.
  destruct n as [id|]; [|exists false; split; [done|]; naive_solver].
  destruct subjects as [|s subjects]; [done|].
  destruct (truthy id) eqn:Eu; cbn [negb].
  2: { apply truthy_false in Eu as ->. exists false. split; [done|]. naive_solver. }
  apply truthy_true in Eu.
  match goal with |- context [member_loop ?rows _ _] =>
    destruct (member_loop_iff rows (s :: subjects) right) as (b & Eb & Hb) end;
    [by apply forallb_fetchall|].
  exists b. split; [done|]. rewrite Hb. setoid_rewrite elem_of_fetchall.
  repeat setoid_rewrite andb_true_iff. repeat setoid_rewrite String.eqb_eq.
  split.
  - intros (row & ([? Hr] & ?) & ? & ?). exists id, row. destruct (nm_revoked_at row); naive_solver.
  - intros (id' & row & [= <-] & ? & ? & ? & Hr & ?). exists row. rewrite Hr. naive_solver.
Qed.

Lemma tuple_match_iff d t objects relations users :
  tuple_match d t objects relations users = true <->
  exists row, row ∈ db_relationship_tuples d /\ rt_tenant_id row = t /\ rt_object row ∈ objects
    /\ rt_relation row ∈ relations /\ rt_user row ∈ users.
Proof.
  unfold tuple_match.
  destruct objects as [|o objects]; [split; [done|]; intros (r & _ & _ & []%elem_of_nil & _)|].
  destruct relations as [|rel relations]; [split; [done|]; intros (r & _ & _ & _ & []%elem_of_nil & _)|].
  destruct users as [|u users]; [split; [done|]; intros (r & _ & _ & _ & _ & []%elem_of_nil)|].
  rewrite exists_where_true. repeat setoid_rewrite andb_true_iff.
  repeat setoid_rewrite smem_In. repeat setoid_rewrite String.eqb_eq. naive_solver.
Qed.
End Declarative.

Section Theorems.
Context `{!Runtime}.
Implicit Types (d : DB) (p : Principal) (c : Capability) (cap : option Capability).

Lemma manifest_grant_total d c p right :
  rights_readable d (Some c) = true -> is_ok (manifest_grant c p right) = true.
Proof.
  intros [[[Hg Hs]%andb_true_iff _]%andb_true_iff _]%andb_true_iff. unfold manifest_grant, py_set.
  rewrite Hg, Hs. cbn [obind]. by repeat case_match.
Qed.

(** The list of pure grants of the specification, read row by row. *)
Lemma pure_grants_readable d now p right cap res :
  rights_readable d cap = true ->
  Forall (fun g : outcome bool * string => is_ok g.1 = true) (pure_grants d now p right cap res).
Proof.
  intros Hr. unfold pure_grants. repeat constructor; try (by destruct cap).
  - cbn [fst].
    destruct (share_grant_iff cap d now (access_tenant p cap) (subject_refs p) (resource_name cap res) right Hr)
      as (b & -> & _). done.
  - destruct cap as [c|]; [cbn [fst]|done].
    destruct (namespace_grant_iff (Some c) d (c_namespace_id c) (subject_refs p) right Hr) as (b & -> & _); done.
  - destruct cap as [c|]; [cbn [fst]|done]. by apply (manifest_grant_total d).
Qed.

Lemma pure_grants_sound d now p right cap res :
  rights_readable d cap = true ->
  (exists g, g ∈ pure_grants d now p right cap res /\ g.1 = Ok true) -> granted d now p right cap res.
Proof.
  intros Hr (g & Hin & E). unfold pure_grants in Hin. rewrite !elem_of_cons, elem_of_nil in Hin.
  repeat (destruct Hin as [->|Hin]; [cbn [fst] in E|]); [..|done].
  - injection E as E. apply List.existsb_exists in E as (role & Hrole%list_elem_of_In & E).
    by eapply by_role.
  - injection E as (row & Hrow)%role_granted_iff. by eapply by_assignment.
  - destruct (share_grant_iff cap d now (access_tenant p cap) (subject_refs p) (resource_name cap res) right Hr)
      as (b & Eb & Hb). rewrite Eb in E. injection E as ->.
    destruct Hb as [(row & ? & ? & ? & ? & ? & ? & ? & ? & ?) _]; [done|]. by eapply by_share.
  - injection E as (row & ? & ? & ? & ? & ?)%tuple_match_iff. by eapply by_tuple.
  - destruct cap as [c|]; [|done].
    destruct (namespace_grant_iff (Some c) d (c_namespace_id c) (subject_refs p) right Hr) as (b & Eb & Hb); [done|].
    rewrite Eb in E. injection E as ->.
    destruct Hb as [(n & row & ? & ? & ? & ? & ? & ? & ?) _]; [done|]. by eapply by_namespace.
  - destruct cap as [c|]; [|done]. injection E as E. by eapply by_store_owner.
  - destruct cap as [c|]; [|done]. by eapply by_manifest.
  - destruct cap as [c|]; [|done]. injection E as E. by eapply by_owner.
  - destruct cap as [c|]; [|done]. injection E as E. by eapply by_all_users.
  - destruct cap as [c|]; [|done]. injection E as E. unfold org_member in E.
    rewrite !andb_true_iff, smem_In in E. destruct E as [[[? ?] ?] (row & ?)%role_granted_iff].
    by eapply by_org_member.
  - destruct cap as [c|]; [|done]. injection E as E. by eapply by_visibility.
Qed.

(** Pick the [n]-th grant of the list. *)
Local Tactic Notation "grant_at" integer(n) :=
  subst; eexists; split; [do n (apply list_elem_of_further); apply list_elem_of_here|]; cbn [fst]; f_equal.

Lemma pure_grants_complete d now p right cap res :
  rights_readable d cap = true ->
  granted d now p right cap res -> exists g, g ∈ pure_grants d now p right cap res /\ g.1 = Ok true.
Proof.
  intros Hr Hg. unfold pure_grants. destruct Hg.
  - grant_at 0. apply List.existsb_exists. exists role. by rewrite <-list_elem_of_In.
  - grant_at 1. apply role_granted_iff. eauto.
  - grant_at 2.
    destruct (share_grant_iff cap d now (access_tenant p cap) (subject_refs p) (resource_name cap res) right Hr)
      as (b & -> & Hb). f_equal. apply Hb. exists row. split_and!; done.
  - grant_at 3. apply tuple_match_iff. exists row. done.
  - grant_at 4.
    destruct (namespace_grant_iff (Some c) d (c_namespace_id c) (subject_refs p) right Hr) as (b & -> & Hb); [done|].
    f_equal. apply Hb. eexists _, row. split_and!; done.
  - grant_at 5. done.
  - grant_at 6. done.
  - grant_at 7. done.
  - grant_at 8. done.
  - grant_at 9. unfold org_member. rewrite !andb_true_iff, smem_In, role_granted_iff. eauto.
  - grant_at 10. done.
Qed.

(** The specification, decided: allowed iff granted and not refused. *)
Lemma access_iff d now p right cap res :
  rights_readable d cap = true -> right ∈ RIGHTS ->
  exists b o, access d now p right cap res = Ok (b, o) /\
    (b = true <-> refusal d p right cap res = None /\ granted d now p right cap res) /\
    (b = true <-> o = None).
Proof.
  intros Hr Hright%smem_In. unfold access, decision. rewrite Hright. cbn [negb].
  destruct (refusal d p right cap res) as [why|] eqn:Ere.
  - exists false, (Some why). split_and!; [done | naive_solver | done].
  - destruct (first_grant_total _ (pure_grants_readable d now p right cap res Hr)) as (o & -> & Ho).
    assert (is_some o = true <-> granted d now p right cap res) as Hg.
    { rewrite Ho. split; [by apply pure_grants_sound | by apply pure_grants_complete]. }
    destruct o as [why|]; cbn in *; eexists _, _; (split_and!; [done|..]); naive_solver.
Qed.

(** A refusal is returned whatever the grants and the cache. *)
Lemma refused_first d p right cap res why :
  refusal d p right cap res = Some why -> forall w audit,
  w_db w = d -> right ∈ RIGHTS ->
  (evaluate_access p right cap res audit w).1 = Ok (false, Some why).
Proof.
  intros Hre w audit <- Hright%smem_In.
  assert (forall b, (evaluate_access p right cap res b w).1 = (evaluate_access p right cap res false w).1) as ->.
  { intros []; [|done]. apply evaluate_audited. }
  unfold evaluate_access, decide, bind, query, gets. rewrite Hright. cbn. by rewrite Hre.
Qed.

(** The decision reads the database: whatever the cache, it changes nothing else. *)
Definition quiet (w w' : World) : Prop :=
  w_db w' = w_db w /\ w_disk w' = w_disk w /\ w_clock w' = w_clock w /\ w_files w' = w_files w.

#[export] Instance quiet_preorder : PreOrder quiet.
Proof. split; [by intros w|]. intros x y z (?&?&?&?) (?&?&?&?). repeat split; congruence. Qed.

Lemma quiet_org_id s t : preserves quiet (org_id_for_store s t).
Proof.
  intros w. unfold org_id_for_store. destruct s as [s|]; [|done]. destruct (truthy s); [|done]. cbn.
  unfold bind, gets. by destruct (w_org_cache w !! (t, s)).
Qed.

Lemma quiet_role_loop rows pairs now t right cap res :
  preserves quiet (role_loop rows pairs now t right cap res).
Proof.
  induction rows as [|row rows IH]; cbn [role_loop]; [by intros w|]. unfold _org_scope_matches.
  solve_frame; auto using quiet_org_id.
Qed.

Lemma quiet_active_role t subjects right cap res :
  preserves quiet (active_role_grant t subjects right cap res).
Proof.
  unfold active_role_grant. destruct subjects; [by intros w|].
  apply preserves_bind; [exact _ | by intros w | intros rows].
  apply preserves_bind; [exact _ | by intros w | intros now]. apply quiet_role_loop.
Qed.

Lemma quiet_org_membership c p right : preserves quiet (org_membership_grant c p right).
Proof.
  unfold org_membership_grant. destruct (negb (smem right READ_RIGHTS)); [by intros w|].
  destruct (negb (p_authenticated p)); [by intros w|].
  apply preserves_bind; [exact _ | by intros w | intros []]; [apply quiet_active_role | by intros w].
Qed.

Lemma quiet_cascade gs :
  Forall (fun g : Op bool * string => preserves quiet g.1) gs -> preserves quiet (cascade gs).
Proof.
  induction 1 as [|[g why] gs Hg Hgs IH]; cbn [cascade]; [by intros w|].
  apply preserves_bind; [exact _ | done | intros []; [by intros w | done]].
Qed.

Lemma decide_quiet p right cap res w : quiet w (decide p right cap res w).2.
Proof.
  revert w. change (preserves quiet (decide p right cap res)). unfold decide.
  apply preserves_bind; [exact _ | by intros w | intros [why|]; [by intros w|]].
  apply preserves_bind; [exact _ | apply quiet_cascade | by intros [why|] w].
  unfold grants.
  repeat match goal with |- Forall _ (_ :: _) => apply Forall_cons_2; cbn [fst] end; try apply Forall_nil_2.
  2: apply quiet_active_role.
  all: try (destruct cap; [apply quiet_org_membership | by intros w]).
  all: try (destruct cap; [|by intros w]); intros w; repeat split.
Qed.

(** What an audited request leaves alone: everything but the decision log, the
    cache and the random ids. *)
Definition undecided (w : World) : DB * DB * Z * gmap string FileNode :=
  (upd db_policy_decisions [] (w_db w), w_disk w, w_clock w, w_files w).

Lemma quiet_undecided {A} (m : Op A) : preserves quiet m -> keeps undecided m.
Proof.
  intros Hm w. destruct (Hm w) as (Hd & Hk & Hc & Hf). unfold same, undecided. by rewrite Hd, Hk, Hc, Hf.
Qed.

Lemma evaluate_undecided p right cap res audit : keeps undecided (evaluate_access p right cap res audit).
Proof.
  unfold keeps, evaluate_access. destruct (negb _); [by intros w|].
  apply preserves_bind; [exact _ | apply quiet_undecided; intros w; apply decide_quiet | intros [allowed why]].
  apply preserves_bind; [exact _ | | by intros ? w].
  destruct audit; [by intros w | by intros w].
Qed.

Lemma require_undecided p right cap res : keeps undecided (require_access p right cap res).
Proof.
  unfold keeps, require_access. apply preserves_bind; [exact _ | apply evaluate_undecided | by intros [[] why] w].
Qed.

(** A blocked capability is refused to everyone. *)
Lemma blocked_denied w p right c res audit :
  blocked c = true -> right ∈ RIGHTS ->
  exists why, (evaluate_access p right (Some c) res audit w).1 = Ok (false, Some why).
Proof.
  intros Hb Hr. assert (exists why, refusal (w_db w) p right (Some c) res = Some why) as [why Hwhy].
  { unfold refusal. destruct (is_disabled _ _); [eauto|]. cbn [on_cap]. rewrite Hb. eauto. }
  exists why. by eapply refused_first.
Qed.

(** C1: [evaluate_access] is sound and complete.  With a coherent organization
    cache and readable rights texts, for every supported right it returns (it
    never raises), it allows exactly when no refusal applies and one of the
    declared grants does, it gives a reason exactly when it denies, and the
    cache it leaves is coherent. *)
Theorem evaluate_access_sound_complete w p right cap res audit :
  coherent w -> rights_readable (w_db w) cap = true -> right ∈ RIGHTS ->
  exists allowed reason w',
    evaluate_access p right cap res audit w = (Ok (allowed, reason), w') /\
    (allowed = true <-> refusal (w_db w) p right cap res = None /\
                        granted (w_db w) (utc_text (w_clock w)) p right cap res) /\
    (allowed = true <-> reason = None) /\ coherent w'.
Proof.
  intros Hw Hr Hright.
  destruct (evaluate_access_spec p right cap res audit w Hw) as [E (_ & _ & _ & Hw')].
  destruct (access_iff (w_db w) (utc_text (w_clock w)) p right cap res Hr Hright) as (b & o & Ea & Hb & Ho).
  rewrite Ea in E. destruct (evaluate_access p right cap res audit w) as [r w'] eqn:Er. cbn in E, Hw'.
  subst r. exists b, o, w'. split_and!; auto; apply Hb || apply Ho.
Qed.

(** C2: refusals come before every grant and need no hypothesis on the cache or
    the stored texts: a disabled or unauthenticated principal, a blocked
    capability, a missing step-up on a high-risk capability, a promoted
    capability of broken integrity in production, and an explicit deny tuple
    each deny the request, also to a platform administrator. *)
Theorem refusals_override_grants w p right cap res audit :
  right ∈ RIGHTS ->
  is_disabled (w_db w) p = true
  \/ (exists c, cap = Some c /\ blocked c = true)
  \/ (requires_step_up right cap = true /\ p_step_up_authenticated p = false)
  \/ (exists c, cap = Some c /\ integrity_required (w_db w) cap right = true /\ integrity_broken c = true)
  \/ (exists row, row ∈ db_relationship_tuples (w_db w) /\ rt_tenant_id row = access_tenant p cap /\
        rt_object row ∈ resource_refs cap res /\ rt_relation row ∈ ["deny_" +:+ right; "deny"] /\
        rt_user row ∈ subject_refs p) ->
  exists why, (evaluate_access p right cap res audit w).1 = Ok (false, Some why).
Proof.
  intros Hright Hcase.
  assert (exists why, refusal (w_db w) p right cap res = Some why) as [why Hwhy].
  { unfold refusal. rewrite <-tuple_match_iff in Hcase.
    destruct (is_disabled _ _); [eauto|]. destruct (on_cap cap blocked) eqn:Eb; [eauto|].
    destruct (requires_step_up right cap && _) eqn:Es; [eauto|].
    destruct (integrity_required _ _ _ && _) eqn:Ei; [eauto|].
    destruct (tuple_match _ _ _ _ _); [eauto|]. exfalso.
    destruct Hcase as [?|[(c & -> & Hb)|[[Hs Hp]|[(c & -> & Hi & Hbr)|?]]]]; try done.
    - cbn in Eb. congruence.
    - by rewrite Hs, Hp in Es.
    - rewrite Hi in Ei. cbn in Ei. congruence. }
  exists why. by eapply refused_first.
Qed.

(** What an audited decision writes.  Exactly one row is appended to
    policy_decisions, naming the principal, the right, the resource and the
    decision returned; no other table, no committed data and no clock changes;
    an unsupported right is answered without touching the world at all. *)
Theorem evaluate_access_effects w p right cap res allowed reason w' :
  evaluate_access p right cap res true w = (Ok (allowed, reason), w') ->
  (forall ds, upd db_policy_decisions ds (w_db w') = upd db_policy_decisions ds (w_db w)) /\
  w_disk w' = w_disk w /\ w_clock w' = w_clock w /\
  if smem right RIGHTS then
    exists row, db_policy_decisions (w_db w') = db_policy_decisions (w_db w) ++ [row] /\
      pd_principal row = p_subject p /\ pd_action row = right /\
      pd_tenant_id row = access_tenant p cap /\ pd_resource_uri row = resource_name cap res /\
      pd_decision row = (if allowed then "allow" else "deny") /\
      (allowed = false -> reason = Some (pd_reason row))
  else w' = w /\ allowed = false.
Proof.
  unfold evaluate_access. destruct (smem right RIGHTS) eqn:Eright; cbn [negb].
  2: { intros [= <- <- <-]. done. }
  unfold bind at 1. pose proof (decide_quiet p right cap res w) as (Hd & Hk & Hc & _).
  destruct (decide p right cap res w) as [[[al why]|e] w1]; [|done].
  cbn in Hd, Hk, Hc. intros E. cbn in E. injection E as <- <- <-. cbn. rewrite Hd, Hk, Hc.
  split_and!; try done. eexists. split_and!; try done. cbn. by intros ->.
Qed.

(** An organization's store does not leak through visibility.  For a
    capability in an org store that is not public, the outcome of a request is
    the same whatever its visibility says ("internal", "protected", "secret"):
    the tenant-wide default of internal capabilities does not apply there. *)
Theorem org_store_visibility_irrelevant w p right c v res audit :
  coherent w ->
  _store_is_org (w_db w) (c_store_id c) (member_tenant c p) = true ->
  c_visibility c <> "public" -> v <> "public" ->
  (evaluate_access p right (Some c) res audit w).1
  = (evaluate_access p right (Some (upd c_visibility v c)) res audit w).1.
Proof.
  intros Hw Horg Hc Hv.
  destruct (evaluate_access_spec p right (Some c) res audit w Hw) as [-> _].
  destruct (evaluate_access_spec p right (Some (upd c_visibility v c)) res audit w Hw) as [-> _].
  unfold access. destruct (negb _); [done|]. unfold decision.
  assert (default_visibility_grant (w_db w) c p right
    = default_visibility_grant (w_db w) (upd c_visibility v c) p right) as E.
  { apply String.eqb_neq in Hc, Hv. unfold default_visibility_grant.
    change (c_visibility (upd c_visibility v c)) with v. rewrite Hc, Hv.
    change (_store_is_org (w_db w) (c_store_id (upd c_visibility v c)) (member_tenant (upd c_visibility v c) p))
      with (_store_is_org (w_db w) (c_store_id c) (member_tenant c p)). by rewrite Horg. }
  unfold pure_grants. rewrite E. reflexivity.
Qed.

(** Expiry is a comparison of instants.  The code compares texts; for texts
    written by [utc_now] (or [expires_in]) the text comparison agrees with the
    order of the instants, in whole seconds, so a grant with an expiry stops
    counting exactly from that second on, and never counts again. *)
Theorem expired_iff_past e n :
  instant_ok e -> instant_ok n ->
  expired (Some (utc_text e)) (utc_text n) = Z.leb (e / 1000000) (n / 1000000).
Proof.
  intros He Hn. unfold expired. assert (truthy (utc_text e) = true) as ->.
  { unfold utc_text. apply truthy_true. intros E.
    assert (String.length (stamp "T" (e / 1000000) +:+ "Z") = 0) as El by by rewrite E.
    rewrite length_sapp in El. cbn in El. lia. }
  cbn. pose proof (compare_utc_text e n He Hn) as Hc. apply eq_bool_prop_intro.
  rewrite !Is_true_true, sle_compare, Hc, Z.leb_le. unfold Z.le. done.
Qed.
End Theorems.

(** ** Concrete inputs *)
Module AccessDemo.
#[export] Existing Instance Demo.runtime.

Definition bob : Principal := upd p_identity_id (Some "idn_bob") Demo.alice.
Definition root : Principal := upd p_identity_id (Some "idn_root") Demo.admin.
Definition cap : Capability := Demo.capability (upd cp_visibility "secret" (Demo.cap_row "cap://x")).
Definition share : ShareRow :=
  mkShareRow "shr_1" "asg" "cap://x" None "user" "alice@example.com" "[]" "active"
    (Some "2027-01-01T00:00:00Z") None "2026-07-19 00:00:00" "2026-07-19 00:00:00".
Definition share_load : ShareRow := upd sh_rights_json (json_dumps (jstrs ["load"])) share.
Definition shared : World := Demo.world (upd db_shares [share_load] empty_db).

Definition org_store : StoreRow :=
  mkStoreRow "store_a" "asg" "org" "Org" "cap://org/asg/store_a" None None None "{}" "" "".
Definition org : OrgRow :=
  mkOrgRow "org_1" "asg" "org" "Org" (Some "store_a") "active" "{}" "".
Definition member_of_org : RoleRow :=
  mkRoleRow "ra_1" "asg" "user" "alice@example.com" "member" "org" "org_1" "test" None None None "" "".

(** Before the organization row exists, and after. *)
Definition before_org : World :=
  Demo.world (upd db_role_assignments [member_of_org] (upd db_stores [org_store] empty_db)).
Definition add_org (w : World) : World :=
  upd w_db (upd db_organizations [org] (w_db w)) w.
End AccessDemo.

Section Witnesses.
Import AccessDemo.

Lemma evaluate_access_sound_complete_witness :
  exists w', evaluate_access bob "load" (Some cap) None true shared = (Ok (true, None), w').
Proof.
  destruct (evaluate_access_sound_complete shared bob "load" (Some cap) None true)
    as (b & o & w' & E & Hb & Ho & _); [by intros t s v Hl | reflexivity | by apply smem_In |].
  assert (b = true) as ->.
  { apply Hb. split; [reflexivity|]. apply (by_share _ _ _ _ _ _ share_load); try reflexivity.
    - apply list_elem_of_here.
    - done.
    - by apply smem_In.
    - exists [JStr "load"]. split; [reflexivity|]. left. by left. }
  assert (o = None) as -> by by apply Ho. by exists w'.
Defined.

Lemma refusals_override_grants_witness :
  blocked (upd c_lifecycle "yanked" cap) = true /\
  exists why, (evaluate_access root "load" (Some (upd c_lifecycle "yanked" cap)) None true shared).1
              = Ok (false, Some why).
Proof.
  split; [reflexivity|]. apply refusals_override_grants; [by apply smem_In|].
  right. left. by eexists.
Defined.

Lemma evaluate_access_effects_witness :
  exists w', evaluate_access bob "load" (Some cap) None true shared = (Ok (true, None), w') /\
    exists row, db_policy_decisions (w_db w') = [row] /\ pd_decision row = "allow".
Proof.
  destruct (evaluate_access bob "load" (Some cap) None true shared) as [r w'] eqn:E.
  assert (r = Ok (true, None)) as -> 
    by (transitivity (evaluate_access bob "load" (Some cap) None true shared).1; [by rewrite E | reflexivity]).
  exists w'. split; [done|].
  destruct (evaluate_access_effects shared bob "load" (Some cap) None true None w' E)
    as (_ & _ & _ & row & Hrow & _ & _ & _ & _ & Hd & _).
  exists row. split; [exact Hrow | exact Hd].
Defined.

Lemma org_store_visibility_irrelevant_witness :
  (evaluate_access bob "load" (Some cap) None true (add_org before_org)).1
  = (evaluate_access bob "load" (Some (upd c_visibility "internal" cap)) None true (add_org before_org)).1.
Proof.
  apply org_store_visibility_irrelevant; [by intros t s v Hl | reflexivity | done | done].
Defined.

Lemma expired_iff_past_witness :
  expired (Some (utc_text 1784505600000000)) (utc_text 1784505600999999) = true.
Proof. rewrite expired_iff_past; [reflexivity | by vm_compute | by vm_compute]. Defined.

(** A stale organization cache denies a member.  In a run that only uses
    the code's own steps (a request is decided while the store has no
    organization; then the organization row is inserted and its member
    requests the same capability), the second request is denied, although on
    the same database a process with an empty cache, and the specification,
    allow it. *)
Theorem stale_cache_denies_member :
  let w1 := (evaluate_access bob "load" (Some cap) None true before_org).2 in
  let w2 := add_org w1 in
  coherent before_org /\ coherent w1 /\ ~ coherent w2 /\
  (exists why, (evaluate_access bob "load" (Some cap) None true w2).1 = Ok (false, Some why)) /\
  (evaluate_access bob "load" (Some cap) None true (upd w_org_cache ∅ w2)).1 = Ok (true, None) /\
  access (w_db w2) (utc_text (w_clock w2)) bob "load" (Some cap) None = Ok (true, None).
Proof.
  intros w1 w2.
  assert (coherent before_org) as H0 by by intros t s v Hl.
  split; [done|]. split; [by apply evaluate_access_spec|]. split.
  { intros Hc. assert (w_org_cache w2 !! ("asg", "store_a") = Some None) as E by reflexivity.
    apply Hc in E. discriminate E. }
  split; [eexists; reflexivity|]. split; reflexivity.
Qed.
End Witnesses.
