(* ===== verification/NamespaceOwners.v ===== *)
(** * Namespace owners ([namespace_owners.py])

    The owner map, the transfer of a namespace, and what a transfer does to the
    owner rights of the access decision. *)

From Stdlib Require Import ZArith Ascii String Lia.
From stdpp Require Import base option list strings gmap.
From S2P Require Import Prelude PyStr Json Clock Db Models AccessControl.
Local Open Scope string_scope.
Local Open Scope list_scope.

(** The number of capabilities of a namespace, of one tenant or of all. *)
Definition cap_count (d : DB) (namespace_id : string) (tenant_id : option string) : Z :=
  Z.of_nat (length (fetchall (fun c => sql_eq (cp_namespace_id c) namespace_id
    && match tenant_id with Some t => cp_tenant_id c =s t | None => true end) (db_capabilities d))).

Definition text_or_null (x : option string) : json :=
  match x with Some s => if truthy s then JStr s else JNull | None => JNull end.

(** One row of the map; the store is LEFT JOINed by its id. *)
Definition owner_entry (d : DB) (n : NamespaceRow) : dict :=
  let store := fetchone (fun s => st_id s =s ns_store_id n) (db_stores d) in
  [("id", JStr (ns_id n)); ("name", JStr (ns_name n)); ("owner", JStr (ns_owner n));
   ("lifecycle", JStr (ns_lifecycle n)); ("visibility", JStr (ns_visibility n));
   ("storeName", text_or_null (st_name <$> store)); ("storeKind", text_or_null (st_kind <$> store));
   ("capabilityCount", JNum (cap_count d (ns_id n) (Some (ns_tenant_id n))))].

Definition namespace_owner_map (d : DB) (tenant_id : string) : list dict :=
  owner_entry d <$> sort_by (fun a b => sle (ns_name a) (ns_name b))
    (fetchall (fun n => ns_tenant_id n =s tenant_id) (db_namespaces d)).

(** The count of this listing is over every tenant. *)
Definition owned_entry (d : DB) (n : NamespaceRow) : dict :=
  [("id", JStr (ns_id n)); ("name", JStr (ns_name n)); ("owner", JStr (ns_owner n));
   ("lifecycle", JStr (ns_lifecycle n)); ("visibility", JStr (ns_visibility n));
   ("description", JStr (ns_description n)); ("capabilityCount", JNum (cap_count d (ns_id n) None))].

Definition namespaces_by_owner (d : DB) (owner tenant_id : string) : list dict :=
  owned_entry d <$> sort_by (fun a b => sle (ns_name a) (ns_name b))
    (fetchall (fun n => (ns_tenant_id n =s tenant_id) && (ns_owner n =s owner)) (db_namespaces d)).

Section Transfer.
Context `{!Runtime}.

Definition namespace_at (d : DB) (namespace_id tenant_id : string) : option NamespaceRow :=
  fetchone (fun n => (ns_id n =s namespace_id) && (ns_tenant_id n =s tenant_id)) (db_namespaces d).

(** UPDATE capabilities SET owner = ? WHERE namespace_id = ? AND tenant_id = ? *)
Definition in_namespace (namespace_id tenant_id : string) (c : CapRow) : bool :=
  sql_eq (cp_namespace_id c) namespace_id && (cp_tenant_id c =s tenant_id).
Definition set_owner (new_owner now : string) (c : CapRow) : CapRow :=
  upd cp_owner new_owner (upd cp_updated_at now c).

Definition transfer_namespace (namespace_id new_owner actor tenant_id reason : string) (do_commit : bool) : Op dict :=
  let! row := query (fun d => namespace_at d namespace_id tenant_id) in
  match row with
  | None => raise (ValueError ("Namespace not found: " +:+ namespace_id))
  | Some row =>
      let old_owner := ns_owner row in
      if old_owner =s new_owner then raise (ValueError "New owner is the same as current owner")
      else
        let! now := sql_now in
        let! _ := update_rows db_namespaces (fun n => ns_id n =s namespace_id)
          (fun n => upd ns_owner new_owner (upd ns_updated_at now n)) in
        let! _ := update_rows db_capabilities (in_namespace namespace_id tenant_id) (set_owner new_owner now) in
        let! event_id := new_id "ae" in
        let! created_at := utc_now in
        let! _ := insert_row db_audit_events
          {| au_id := event_id; au_tenant_id := tenant_id; au_event_type := "namespace.transfer"; au_actor := actor;
             au_actor_type := "user"; au_target := Some namespace_id; au_action := Some "transfer";
             au_decision := Some "allow"; au_reason := None;
             au_payload_json := json_dumps (JObj [("namespaceName", JStr (ns_name row)); ("fromOwner", JStr old_owner);
                                                  ("toOwner", JStr new_owner); ("reason", JStr reason)]);
             au_created_at := created_at |} in
        let! _ := when do_commit commit in
        ret [("namespaceId", JStr namespace_id); ("namespaceName", JStr (ns_name row)); ("fromOwner", JStr old_owner);
             ("toOwner", JStr new_owner); ("reason", JStr reason); ("actor", JStr actor)]
  end.

(** ** Theorems *)

(** The database without the three tables a transfer writes. *)
Definition beside (d : DB) : DB := upd db_namespaces [] (upd db_capabilities [] (upd db_audit_events [] d)).

(** A transfer of a namespace.  It is refused, with the database unchanged,
    exactly when the namespace does not exist in the tenant or already has that
    owner; otherwise the namespace and the catalog rows of that namespace and
    tenant get the new owner, one audit event records it, every other row and
    table is as it was, and it is committed when asked to. *)
Theorem transfer_namespace_spec ns new actor tenant reason cm w r w' :
  transfer_namespace ns new actor tenant reason cm w = (r, w') ->
  match namespace_at (w_db w) ns tenant with
  | Some row =>
      if ns_owner row =s new then is_ok r = false /\ w_db w' = w_db w
      else is_ok r = true /\ beside (w_db w') = beside (w_db w) /\
        (forall n, n ∈ db_namespaces (w_db w') -> if ns_id n =s ns then ns_owner n = new else n ∈ db_namespaces (w_db w)) /\
        (forall c, c ∈ db_capabilities (w_db w') ->
           if in_namespace ns tenant c then cp_owner c = new else c ∈ db_capabilities (w_db w)) /\
        (exists e, db_audit_events (w_db w') = db_audit_events (w_db w) ++ [e] /\ au_target e = Some ns /\ au_actor e = actor) /\
        (cm = true -> w_disk w' = w_db w')
  | None => is_ok r = false /\ w_db w' = w_db w
  end.
Proof.
  unfold transfer_namespace. unfold bind at 1, query, gets at 1.
  destruct (namespace_at (w_db w) ns tenant) as [row|]; [|by intros [= <- <-]].
  destruct (ns_owner row =s new); [by intros [= <- <-]|]. intros E.
  assert (is_ok r = true /\ beside (w_db w') = beside (w_db w) /\
    db_namespaces (w_db w') = update_where (fun n => ns_id n =s ns)
      (fun n => upd ns_owner new (upd ns_updated_at (sql_text_now (w_clock w)) n)) (db_namespaces (w_db w)) /\
    db_capabilities (w_db w') = update_where (in_namespace ns tenant) (set_owner new (sql_text_now (w_clock w))) (db_capabilities (w_db w)) /\
    (exists e, db_audit_events (w_db w') = db_audit_events (w_db w) ++ [e] /\ au_target e = Some ns /\ au_actor e = actor) /\
    (cm = true -> w_disk w' = w_db w')) as (Hr & Hb & Hn & Hc & He & Hd).
  { destruct cm; injection E as <- <-; split_and!; try done; by eexists. }
  split_and!; [done | done | | | done | done].
  - rewrite Hn. intros n (n0 & Hn0 & ->)%elem_of_update_where. destruct (ns_id n0 =s ns) eqn:En; cbn; by rewrite En.
  - rewrite Hc. intros c (c0 & Hc0 & ->)%elem_of_update_where.
    destruct (in_namespace ns tenant c0) eqn:Ec; [|by rewrite Ec].
    change (in_namespace ns tenant (set_owner new (sql_text_now (w_clock w)) c0)) with (in_namespace ns tenant c0). by rewrite Ec.
Qed.

(** A transfer does not move the owner rights of a capability whose creator
    is recorded.  The access decision reads [created_by] before [owner]; so for
    the capability of a transferred row every principal has the owner grant it
    had before, the previous owner included, when the row has a creator, and
    otherwise exactly the principals that match the new owner have it. *)
Theorem transfer_keeps_creator_rights new now row c p right :
  capability_from_row row = Ok c ->
  exists c', capability_from_row (set_owner new now row) = Ok c' /\
    owner_grant c' p right =
      if otruthy (cp_created_by row) then owner_grant c p right
      else smem right OWNER_RIGHTS && ((new =s p_subject p) || oeqb (p_identity_id p) (Some new) || smem new (p_groups p)).
Proof.
  unfold capability_from_row. cbn [cp_keywords_json cp_required_scopes_json cp_allow_groups_json cp_allow_users_json cp_metadata_json set_owner upd].
  intros E.
  change (cp_keywords_json (set_owner new now row)) with (cp_keywords_json row).
  change (cp_required_scopes_json (set_owner new now row)) with (cp_required_scopes_json row).
  change (cp_allow_groups_json (set_owner new now row)) with (cp_allow_groups_json row).
  change (cp_allow_users_json (set_owner new now row)) with (cp_allow_users_json row).
  change (cp_metadata_json (set_owner new now row)) with (cp_metadata_json row).
  destruct (json_tuple (cp_keywords_json row)) as [k|]; [|discriminate E].
  destruct (json_tuple (cp_required_scopes_json row)) as [s|]; [|discriminate E].
  destruct (json_tuple (cp_allow_groups_json row)) as [g|]; [|discriminate E].
  destruct (json_tuple (cp_allow_users_json row)) as [u|]; [|discriminate E].
  destruct (json_loads_strict (cp_metadata_json row)) as [m|]; [|discriminate E]. cbn [obind] in *.
  unfold post_init in *. cbn [c_type c_visibility c_discovery_mode c_risk_tier] in *.
  cbn [cp_type cp_visibility cp_discovery_mode cp_risk_tier set_owner upd].
  repeat match type of E with (if ?b then _ else _) = _ => destruct b eqn:?; [discriminate E|] end.
  injection E as <-. eexists. split.
  - repeat match goal with |- (if ?b then _ else _) = _ => change b with false; cbn iota end. reflexivity.
  - unfold owner_grant. cbn [c_created_by c_owner cp_created_by cp_owner set_owner upd].
    destruct (smem right OWNER_RIGHTS); cbn [negb andb]; [|by destruct (otruthy _)].
    unfold o_or, s_or. destruct (cp_created_by row) as [creator|]; cbn [otruthy]; [destruct (truthy creator)|]; reflexivity.
Qed.
End Transfer.

Section Witnesses.
#[local] Existing Instance Demo.runtime.
Let ns : NamespaceRow :=
  mkNamespaceRow "ns_a" "asg" "store_a" "shared" "cap://org" "internal" "bob" "" "active" "{}" "t" "t".
Let world : World := Demo.world (upd db_namespaces [ns] (upd db_capabilities [Demo.cap_row "cap://x"] empty_db)).

Lemma transfer_namespace_spec_witness :
  exists r w', transfer_namespace "ns_a" "alice@example.com" "root" "asg" "handover" true world = (r, w') /\
    forall c, c ∈ db_capabilities (w_db w') -> in_namespace "ns_a" "asg" c = true -> cp_owner c = "alice@example.com".
Proof.
  destruct (transfer_namespace "ns_a" "alice@example.com" "root" "asg" "handover" true world) as [r w'] eqn:E.
  exists r, w'. split; [reflexivity|]. intros c Hc Hin.
  destruct (transfer_namespace_spec _ _ _ _ _ _ _ _ _ E) as (_ & _ & _ & Hcap & _).
  specialize (Hcap c Hc). rewrite Hin in Hcap. exact Hcap.
Defined.

Lemma transfer_keeps_creator_rights_witness :
  exists c', capability_from_row (set_owner "alice@example.com" "now" (Demo.cap_row "cap://x")) = Ok c' /\
    owner_grant c' Demo.alice "manage" = false.
Proof.
  destruct (transfer_keeps_creator_rights "alice@example.com" "now" (Demo.cap_row "cap://x")
    (Demo.capability (Demo.cap_row "cap://x")) Demo.alice "manage") as (c' & Hc' & Ho); [vm_compute; reflexivity|].
  exists c'. split; [exact Hc'|]. rewrite Ho. vm_compute. reflexivity.
Defined.
End Witnesses.
