(* ===== verification/RegistryLog.v ===== *)
(** * Audit events and the hash-chained registry log

    [governance.audit_event] and [registry_log.py]: every governance handler
    records an audit event, capability mutations are mirrored into a log whose
    entries carry the SHA-256 of their fields and of the previous entry, and
    [verify_log_chain] recomputes the chain. *)

From Stdlib Require Import ZArith Ascii String Lia.
From stdpp Require Import base option list strings gmap.
From S2P Require Import Prelude Sha256 PyStr Json JsonCodec Clock Db.
Local Open Scope string_scope.
Local Open Scope list_scope.

Definition _compute_entry_hash (sequence : Z) (event_type actor : string)
    (target_uri : option string) (action payload_json : string) (prev_hash : option string) : string :=
  sha256_hex (join "|" [str_of_Z sequence; event_type; actor; o_or target_uri ""; action;
                        payload_json; o_or prev_hash ""]).

(** [ORDER BY sequence DESC LIMIT 1] *)
Definition log_head (log : list LogRow) : option LogRow :=
  List.head (sort_by (fun a b => Z.leb (lg_sequence b) (lg_sequence a)) log).
(** [ORDER BY sequence ASC] *)
Definition log_rows (log : list LogRow) : list LogRow :=
  sort_by (fun a b => Z.leb (lg_sequence a) (lg_sequence b)) log.

(** The sequence number and the previous hash of the next entry. *)
Definition next_link (log : list LogRow) : Z * option string :=
  match log_head log with
  | None => (1%Z, None)
  | Some last => ((lg_sequence last + 1)%Z, Some (lg_entry_hash last))
  end.

Definition make_entry (id : string) (log : list LogRow) (event_type actor : string)
    (target_uri : option string) (action payload_json now : string) : LogRow :=
  let '(sequence, prev_hash) := next_link log in
  {| lg_id := id; lg_sequence := sequence; lg_event_type := event_type; lg_actor := actor;
     lg_target_uri := target_uri; lg_action := action; lg_payload_json := payload_json;
     lg_prev_hash := prev_hash;
     lg_entry_hash := _compute_entry_hash sequence event_type actor target_uri action payload_json prev_hash;
     lg_created_at := now |}.

(** The UNIQUE constraints of the table. *)
Definition entry_clash (e : LogRow) (r : LogRow) : bool :=
  Z.eqb (lg_sequence r) (lg_sequence e) || (lg_entry_hash r =s lg_entry_hash e).

Section Audit.
Context `{!Runtime}.

Definition append_log_entry (event_type actor action : string) (target_uri : option string)
    (payload : dict) (do_commit : bool) : Op dict :=
  let! _ := commit in  (* the implicit COMMIT of executescript *)
  let! log := query db_registry_log in
  let payload_str := json_dumps (JObj payload) in
  let! id := new_id "rlog" in
  let! now := utc_now in
  let e := make_entry id log event_type actor target_uri action payload_str now in
  let! _ := insert_unique db_registry_log (entry_clash e) e in
  let! _ := when do_commit commit in
  ret [("id", JStr id); ("sequence", JNum (lg_sequence e)); ("entryHash", JStr (lg_entry_hash e));
       ("prevHash", match lg_prev_hash e with Some h => JStr h | None => JNull end);
       ("eventType", JStr event_type); ("action", JStr action)].

(** The mirror of [audit_event]: any exception is swallowed. *)
Definition mirror_event (event_type actor : string) (target : option string) (action : string)
    (decision reason : option string) (payload : dict) : Op unit :=
  try_except
    (let! log := query db_registry_log in
     let payload_str := json_dumps (JObj (dmerge
       [("decision", match decision with Some x => JStr x | None => JNull end);
        ("reason", match reason with Some x => JStr x | None => JNull end)] payload)) in
     let! id := new_id "rlog" in
     let! now := utc_now in
     let e := make_entry id log event_type actor target action payload_str now in
     insert_unique db_registry_log (entry_clash e) e)
    (fun _ => true) (fun _ => ret tt).

(** [event_type.startswith("capability.") and action and
    action not in (None, "read", "list", "status")] *)
Definition mirrored (event_type : string) (action : option string) : bool :=
  startswith event_type "capability."
  && match action with
     | Some a => truthy a && negb (smem a ["read"; "list"; "status"])
     | None => false
     end.

Definition audit_event (event_type actor : string) (target action decision reason : option string)
    (payload : dict) (tenant_id actor_type : string) : Op string :=
  let! event_id := new_id "aud" in
  let! now := sql_now in
  let! _ := insert_row db_audit_events
    {| au_id := event_id; au_tenant_id := tenant_id; au_event_type := event_type;
       au_actor := actor; au_actor_type := actor_type; au_target := target; au_action := action;
       au_decision := decision; au_reason := reason;
       au_payload_json := json_dumps (JObj payload); au_created_at := now |} in
  let! _ := when (mirrored event_type action)
    (mirror_event event_type actor target (o_or action "") decision reason payload) in
  ret event_id.
End Audit.

(** ** Verification of the chain *)
Record ChainReport : Type := mkChainReport {
  cr_valid : bool; cr_entries : nat; cr_broken_at : option Z; cr_reason : option string;
  cr_last_hash : option string
}.

(** [str(row[x]) if row[x] else None] *)
Definition falsy_none (s : option string) : option string := if otruthy s then s else None.

Definition entry_hash_of (r : LogRow) : string :=
  _compute_entry_hash (lg_sequence r) (lg_event_type r) (lg_actor r) (falsy_none (lg_target_uri r))
    (lg_action r) (lg_payload_json r) (falsy_none (lg_prev_hash r)).

Fixpoint chain_loop (n : nat) (prev_hash : option string) (rows : list LogRow) : ChainReport :=
  match rows with
  | [] => mkChainReport true n None None prev_hash
  | row :: rows' =>
      if negb (oeqb prev_hash (falsy_none (lg_prev_hash row)))
      then mkChainReport false n (Some (lg_sequence row)) (Some "prev_hash mismatch") None
      else if negb (entry_hash_of row =s lg_entry_hash row)
      then mkChainReport false n (Some (lg_sequence row)) (Some "entry_hash mismatch") None
      else chain_loop n (Some (lg_entry_hash row)) rows'
  end.

(** The check as a function of the database; the creation of the table before
    it, which commits what is pending, is left out. *)
Definition verify_log_chain (d : DB) : ChainReport :=
  let rows := log_rows (db_registry_log d) in
  match rows with
  | [] => mkChainReport true 0 None None None
  | _ => chain_loop (length rows) None rows
  end.

(** [min(max(limit, 1), 500)]; a negative offset is no offset. *)
Definition list_log_entries (d : DB) (limit offset : Z) (event_type : option string) : list LogRow :=
  let rows := match event_type with
              | Some t => if truthy t then fetchall (fun r => lg_event_type r =s t) (db_registry_log d)
                          else db_registry_log d
              | None => db_registry_log d
              end in
  take (Z.to_nat (Z.min (Z.max limit 1) 500))
    (drop (Z.to_nat offset) (sort_by (fun a b => Z.leb (lg_sequence b) (lg_sequence a)) rows)).

Definition get_log_head (d : DB) : dict :=
  match log_head (db_registry_log d) with
  | None => [("empty", JBool true); ("sequence", JNum 0); ("hash", JNull)]
  | Some r => [("empty", JBool false); ("sequence", JNum (lg_sequence r));
               ("hash", JStr (lg_entry_hash r)); ("createdAt", JStr (lg_created_at r))]
  end.

(** ** Lemmas *)
Section AuditFrames.
Context `{!Runtime}.

Lemma audit_event_ok ev a t ac de re pl tn ty w :
  exists id w', audit_event ev a t ac de re pl tn ty w = (Ok id, w').
Proof.
  unfold audit_event, bind, new_id, sql_now, gets, insert_row, set_db, modify, when.
  destruct (mirrored ev ac); [|by eexists _, _].
  unfold mirror_event, try_except, bind, query, gets, new_id, utc_now, insert_unique.
  cbn. unfold query, gets, bind. repeat case_match; simplify_eq; by eexists _, _.
Qed.
End AuditFrames.

#[export] Hint Extern 2 (preserves _ (audit_event _ _ _ _ _ _ _ _ _)) =>
  solve [unfold audit_event, mirror_event; solve_frame] : frame.

(** A log whose entries are numbered from [seq] on and linked to [prev]. *)
Fixpoint linked (seq : Z) (prev : option string) (log : list LogRow) : Prop :=
  match log with
  | [] => True
  | r :: log' =>
      lg_sequence r = seq /\ falsy_none (lg_prev_hash r) = prev /\
      lg_entry_hash r = entry_hash_of r /\ linked (seq + 1) (Some (lg_entry_hash r)) log'
  end.

Definition log_ok (log : list LogRow) : Prop := linked 1 None log.

Lemma linked_app seq prev log r :
  linked seq prev (log ++ [r]) <->
  linked seq prev log /\
  linked (seq + Z.of_nat (length log)) (match last log with Some x => Some (lg_entry_hash x) | None => prev end) [r].
Proof.
  revert seq prev. induction log as [|x log IH]; intros seq prev.
  - cbn. rewrite Z.add_0_r. tauto.
  - cbn [app linked length]. rewrite IH.
    replace (seq + 1 + Z.of_nat (length log))%Z with (seq + Z.of_nat (S (length log)))%Z by lia.
    rewrite last_cons. destruct (last log); cbn; tauto.
Qed.

Lemma linked_ge seq prev log : linked seq prev log -> Forall (fun r => seq <= lg_sequence r)%Z log.
Proof.
  revert seq prev. induction log as [|x log IH]; intros seq prev; [constructor|].
  intros (<- & _ & _ & Hl). constructor; [lia|].
  eapply Forall_impl; [apply (IH _ _ Hl)|]. cbn. intros. lia.
Qed.

Lemma linked_lt seq prev log :
  linked seq prev log -> Forall (fun r => lg_sequence r < seq + Z.of_nat (length log))%Z log.
Proof.
  revert seq prev. induction log as [|x log IH]; intros seq prev; [constructor|].
  intros (<- & _ & _ & Hl). cbn [length]. constructor; [lia|].
  eapply Forall_impl; [apply (IH _ _ Hl)|]. cbn. intros. lia.
Qed.

Lemma log_rows_linked seq prev log : linked seq prev log -> log_rows log = log.
Proof.
  intros Hl. unfold log_rows. apply sort_by_sorted_id. revert seq prev Hl.
  induction log as [|x log IH]; intros seq prev; [constructor|].
  intros (<- & _ & _ & Hl). constructor; [by eapply IH|].
  apply linked_ge in Hl. destruct Hl as [|y l Hy]; constructor. apply Is_true_true, Z.leb_le. lia.
Qed.

Lemma sort_desc_linked seq prev log :
  linked seq prev log ->
  sort_by (fun a b => Z.leb (lg_sequence b) (lg_sequence a)) log = reverse log.
Proof.
  revert seq prev. induction log as [|x log IH]; intros seq prev; [done|].
  intros (<- & _ & _ & Hl). cbn [sort_by]. rewrite (IH _ _ Hl), reverse_cons.
  apply insert_by_last. apply Forall_reverse. eapply Forall_impl; [by eapply linked_ge|].
  cbn. intros y Hy. apply Z.leb_gt. lia.
Qed.

Lemma head_reverse {A} (l : list A) : List.head (reverse l) = last l.
Proof.
  induction l as [|x l _] using rev_ind; [done|]. by rewrite reverse_app, last_snoc.
Qed.

Lemma next_link_linked log :
  log_ok log ->
  next_link log = ((1 + Z.of_nat (length log))%Z,
                   match last log with Some x => Some (lg_entry_hash x) | None => None end).
Proof.
  intros Hl. unfold next_link, log_head. rewrite (sort_desc_linked _ _ _ Hl), head_reverse.
  destruct (last log) as [x|] eqn:E.
  - apply last_Some in E as [l ->]. apply linked_app in Hl as (_ & Hseq & _).
    rewrite length_app. cbn. f_equal. lia.
  - by apply last_None in E as ->.
Qed.

Lemma length_flat_map_hex l : length (flat_map hex_word l) = (8 * length l)%nat.
Proof. induction l; cbn; [done|]. rewrite IHl. lia. Qed.

(** A digest is never the empty string, which the chain uses for "none". *)
Lemma truthy_sha256 s : truthy (sha256_hex s) = true.
Proof.
  unfold sha256_hex.
  set (bs := padded (bytes_of_string s)).
  assert (forall f st ws, length st = 8%nat -> length (absorb f st ws) = 8%nat) as Habs.
  { induction f as [|f IH]; intros st ws Hst; [done|]. destruct ws as [|x ws]; [done|].
    cbn [absorb]. apply IH. unfold compress.
    do 9 (destruct st as [|? st]; try done).
    rewrite length_zip_with. assert (forall ks ws a b c d e f g h,
      length (rounds ks ws a b c d e f g h) = 8%nat) as ->; [|done].
    induction ks as [|k ks IHk]; intros [|? ?]; try done. intros. cbn [rounds]. apply IHk. }
  set (h := absorb _ _ _). assert (length h = 8%nat) as Hh by by apply Habs.
  destruct h; [done|]. done.
Qed.

Lemma falsy_none_digest s : falsy_none (Some (sha256_hex s)) = Some (sha256_hex s).
Proof. unfold falsy_none. cbn. by rewrite truthy_sha256. Qed.

Lemma o_or_falsy_none s : o_or (falsy_none s) "" = o_or s "".
Proof.
  destruct s as [s|]; [|done]. unfold falsy_none. cbn. unfold s_or.
  destruct (truthy s) eqn:E; cbn; [unfold s_or; by rewrite E|done].
Qed.

Lemma entry_hash_digest r : exists s, entry_hash_of r = sha256_hex s.
Proof. by eexists. Qed.

Lemma make_entry_linked id log ev a t ac pl now :
  log_ok log -> log_ok (log ++ [make_entry id log ev a t ac pl now]).
Proof.
  intros Hl. unfold log_ok. apply linked_app. split; [done|].
  unfold make_entry. rewrite (next_link_linked _ Hl). cbn.
  assert (falsy_none (match last log with Some x => Some (lg_entry_hash x) | None => None end)
          = match last log with Some x => Some (lg_entry_hash x) | None => None end) as Hp.
  { destruct (last log) as [x|] eqn:E; [|done]. apply last_Some in E as [l ->].
    apply linked_app in Hl as (_ & _ & _ & -> & _). apply falsy_none_digest. }
  split_and!; try done. unfold entry_hash_of, _compute_entry_hash. cbn.
  by rewrite !o_or_falsy_none.
Qed.

Lemma chain_loop_linked n seq prev log :
  linked seq prev log ->
  chain_loop n prev log
  = mkChainReport true n None None (match last log with Some x => Some (lg_entry_hash x) | None => prev end).
Proof.
  revert seq prev. induction log as [|r log IH]; intros seq prev; [done|].
  intros (_ & <- & Hh & Hl). cbn [chain_loop]. rewrite oeqb_refl, <-Hh, String.eqb_refl. cbn [negb].
  rewrite (IH _ _ Hl), last_cons. by destruct (last log).
Qed.

(** The hashed text of an entry. *)
Definition entry_text (r : LogRow) : string :=
  join "|" [str_of_Z (lg_sequence r); lg_event_type r; lg_actor r; o_or (falsy_none (lg_target_uri r)) "";
            lg_action r; lg_payload_json r; o_or (falsy_none (lg_prev_hash r)) ""].

(** Two entries, one of each list, whose different texts have the same SHA-256. *)
Definition colliding_entries (rows rows' : list LogRow) : Prop :=
  exists r r', r ∈ rows /\ r' ∈ rows' /\ entry_text r <> entry_text r' /\ sha256_hex (entry_text r) = sha256_hex (entry_text r').

Lemma chain_loop_valid n prev rows :
  cr_valid (chain_loop n prev rows) = true ->
  match rows with
  | [] => cr_last_hash (chain_loop n prev rows) = prev
  | r :: rows' => falsy_none (lg_prev_hash r) = prev /\ lg_entry_hash r = sha256_hex (entry_text r) /\
      chain_loop n prev rows = chain_loop n (Some (lg_entry_hash r)) rows'
  end.
Proof.
  destruct rows as [|r rows]; [done|]. cbn [chain_loop].
  destruct (oeqb prev (falsy_none (lg_prev_hash r))) eqn:E1; [|done].
  destruct (entry_hash_of r =s lg_entry_hash r) eqn:E2; [|done]. cbn [negb].
  intros _. apply oeqb_eq in E1 as ->. apply String.eqb_eq in E2. by rewrite <-E2.
Qed.

Lemma chain_loop_snoc n prev rows r :
  cr_valid (chain_loop n prev (rows ++ [r])) = true ->
  cr_valid (chain_loop n prev rows) = true /\
  falsy_none (lg_prev_hash r) = cr_last_hash (chain_loop n prev rows) /\
  lg_entry_hash r = sha256_hex (entry_text r) /\
  cr_last_hash (chain_loop n prev (rows ++ [r])) = Some (lg_entry_hash r).
Proof.
  revert prev. induction rows as [|x rows IH]; intros prev H.
  - destruct (chain_loop_valid _ _ _ H) as (H1 & H2 & H3). cbn [app] in *. rewrite H3 in *. done.
  - destruct (chain_loop_valid _ _ _ H) as (H1 & H2 & H3). cbn [app] in *. rewrite H3 in *.
    destruct (IH _ H) as (G1 & G2 & G3 & G4).
    assert (chain_loop n prev (x :: rows) = chain_loop n (Some (lg_entry_hash x)) rows) as ->; [|done].
    cbn [chain_loop]. rewrite H1, oeqb_refl.
    assert (entry_hash_of x = lg_entry_hash x) as -> by (by rewrite H2).
    by rewrite String.eqb_refl.
Qed.

(** Everything but the two logs, the random ids and what is committed. *)
Definition unlogged (w : World) : DB * Z * gmap (string * string) (option string) * gmap string FileNode :=
  (upd db_audit_events [] (upd db_registry_log [] (w_db w)), w_clock w, w_org_cache w, w_files w).

Lemma audit_event_unlogged `{!Runtime} ev a t ac de re pl tn ty :
  keeps unlogged (audit_event ev a t ac de re pl tn ty).
Proof. unfold keeps. solve_frame. Qed.
