(* ===== verification/RegistryProps.v ===== *)
(** * The correctness of the audit trail

    Appending keeps the chain valid and append-only; two logs that verify and
    end in the same hash agree on every hashed text, up to a collision of
    SHA-256; and the two limits of the scheme: texts that are ambiguous between
    fields, and truncation. *)

From Stdlib Require Import ZArith Ascii String Lia.
From stdpp Require Import base option list strings gmap.
From S2P Require Import Prelude Sha256 PyStr Json JsonCodec Clock Db Models RegistryLog.
Local Open Scope string_scope.
Local Open Scope list_scope.

(** ** The last field of a joined text *)
Definition no_bar (s : string) : bool := sall (fun c => negb (ceqb c "|"%char)) s.

(** A text ends in one field after its last bar. *)
Lemma last_field_inj a b x y :
  no_bar x = true -> no_bar y = true -> a +:+ "|" +:+ x = b +:+ "|" +:+ y -> a = b /\ x = y.
Proof.
  intros Hx Hy. revert b. induction a as [|c a IH]; intros b E; destruct b as [|e b].
  - rewrite !app_empty in E. by apply app_inv_head in E.
  - exfalso. rewrite app_empty in E. change (String "|" x = String e (b +:+ "|" +:+ y)) in E. injection E as _ E.
    assert (no_bar (b +:+ "|" +:+ y) = false) as Hb.
    { unfold no_bar. rewrite sall_app, app_cons. cbn. apply andb_false_r. }
    by rewrite <-E, Hx in Hb.
  - exfalso. rewrite app_empty in E. change (String c (a +:+ "|" +:+ x) = String "|" y) in E. injection E as _ E.
    assert (no_bar (a +:+ "|" +:+ x) = false) as Hb.
    { unfold no_bar. rewrite sall_app, app_cons. cbn. apply andb_false_r. }
    by rewrite E, Hy in Hb.
  - rewrite !app_cons in E. injection E as -> E. destruct (IH b E) as [-> ->]. done.
Qed.

Lemma hex_digit_no_bar x : ceqb (hex_digit (Z.land x 15)) "|"%char = false.
Proof.
  change 15%Z with (Z.ones 4). rewrite Z.land_ones by lia.
  pose proof (Z.mod_pos_bound x (2 ^ 4) ltac:(lia)) as Hb. revert Hb.
  generalize (x mod 2 ^ 4)%Z as m. intros m Hb. change (2 ^ 4)%Z with 16%Z in Hb.
  destruct m as [|p|p]; [done| |lia].
  do 4 (destruct p as [p|p|]; try done; try lia).
Qed.

Lemma no_bar_digest s : no_bar (sha256_hex s) = true.
Proof.
  unfold no_bar, sall, sha256_hex. rewrite list_ascii_of_string_of_list_ascii.
  induction (absorb _ _ _) as [|x ws IH]; [done|].
  cbn [flat_map]. rewrite List.forallb_app, IH, andb_true_r.
  unfold hex_word. cbn [fmap list_fmap List.forallb]. by rewrite !hex_digit_no_bar.
Qed.

(** ** Verification, on chains *)
Definition last_hash (log : list LogRow) : option string :=
  match last log with Some x => Some (lg_entry_hash x) | None => None end.

Lemma verify_linked d :
  log_ok (db_registry_log d) ->
  verify_log_chain d
  = mkChainReport true (length (db_registry_log d)) None None (last_hash (db_registry_log d)).
Proof.
  intros Hl. unfold verify_log_chain. rewrite (log_rows_linked _ _ _ Hl).
  destruct (db_registry_log d) as [|r log] eqn:E; [done|]. unfold log_ok in Hl.
  by rewrite (chain_loop_linked (length (r :: log)) 1 None (r :: log) Hl).
Qed.

Lemma verify_chain d :
  cr_valid (verify_log_chain d) = cr_valid (chain_loop (length (log_rows (db_registry_log d))) None (log_rows (db_registry_log d)))
  /\ cr_last_hash (verify_log_chain d)
     = cr_last_hash (chain_loop (length (log_rows (db_registry_log d))) None (log_rows (db_registry_log d))).
Proof. unfold verify_log_chain. by destruct (log_rows (db_registry_log d)). Qed.

Lemma entry_text_last r :
  exists a, entry_text r = a +:+ "|" +:+ o_or (falsy_none (lg_prev_hash r)) "".
Proof.
  unfold entry_text, join. cbn [String.concat].
  exists (str_of_Z (lg_sequence r) +:+ "|" +:+ lg_event_type r +:+ "|" +:+ lg_actor r +:+ "|"
    +:+ o_or (falsy_none (lg_target_uri r)) "" +:+ "|" +:+ lg_action r +:+ "|" +:+ lg_payload_json r).
  by rewrite !app_assoc.
Qed.

(** The last hash of a chain that verifies is absent exactly for the empty one. *)
Lemma chain_last n rows :
  cr_valid (chain_loop n None rows) = true ->
  match cr_last_hash (chain_loop n None rows) with
  | None => rows = []
  | Some h => exists s, h = sha256_hex s
  end.
Proof.
  destruct rows as [|r rows _] using rev_ind; [done|]. intros H.
  apply chain_loop_snoc in H as (_ & _ & Hh & ->). by eexists.
Qed.

Lemma chain_head_text n rows :
  cr_valid (chain_loop n None rows) = true ->
  no_bar (o_or (cr_last_hash (chain_loop n None rows)) "") = true /\
  (o_or (cr_last_hash (chain_loop n None rows)) "" = "" <-> rows = []).
Proof.
  intros H. pose proof (chain_last _ _ H) as Hc.
  destruct (cr_last_hash _) as [h|] eqn:E; [destruct Hc as [s ->]|by subst].
  cbn. rewrite s_or_truthy by apply truthy_sha256. split; [apply no_bar_digest|].
  pose proof (truthy_sha256 s) as Ht%truthy_true. split; [done|]. intros ->. done.
Qed.

Lemma colliding_app rows rows' l l' : colliding_entries rows rows' -> colliding_entries (rows ++ l) (rows' ++ l').
Proof. intros (r & r' & Hr & Hr' & Hc). exists r, r'. rewrite !elem_of_app. tauto. Qed.

Lemma chains_agree n m rows rows' :
  cr_valid (chain_loop n None rows) = true -> cr_valid (chain_loop m None rows') = true ->
  cr_last_hash (chain_loop n None rows) = cr_last_hash (chain_loop m None rows') ->
  map entry_text rows = map entry_text rows' \/ colliding_entries rows rows'.
Proof.
  revert rows'. induction rows as [|r rows IH] using rev_ind; intros rows' H H' E.
  - pose proof (chain_last _ _ H') as Hc. rewrite <-E in Hc. cbn in Hc. subst rows'. by left.
  - destruct rows' as [|r' rows' _] using rev_ind.
    { pose proof (chain_last _ _ H) as Hc. rewrite E in Hc. cbn in Hc. by destruct rows. }
    apply chain_loop_snoc in H as (Hv & Hp & Hh & Hl), H' as (Hv' & Hp' & Hh' & Hl').
    rewrite Hl, Hl' in E. injection E as E. rewrite Hh, Hh' in E.
    destruct (decide (entry_text r = entry_text r')) as [Et|Hne]; [|right; exists r, r'; split_and!; try done; apply elem_of_app; right; apply list_elem_of_here].
    destruct (entry_text_last r) as [a Ea], (entry_text_last r') as [b Eb].
    destruct (chain_head_text _ _ Hv) as [Hb Hz], (chain_head_text _ _ Hv') as [Hb' Hz'].
    rewrite <-Hp in *. rewrite <-Hp' in *.
    pose proof Et as Et0. rewrite Ea, Eb in Et0. apply last_field_inj in Et0 as [_ Ex]; [|done..].
    destruct (IH rows' Hv Hv') as [Em|Hc]; [|left|right; by apply colliding_app].
    + pose proof (chain_last _ _ Hv) as Hc. pose proof (chain_last _ _ Hv') as Hc'.
      rewrite <-Hp in *. rewrite <-Hp' in *. clear - Ex Hz Hz' Hc Hc'.
      destruct (falsy_none (lg_prev_hash r)) as [h|], (falsy_none (lg_prev_hash r')) as [h'|]; try done.
      * destruct Hc as [s ->], Hc' as [s' ->]. cbn in Ex. rewrite !s_or_truthy in Ex by apply truthy_sha256.
        by rewrite Ex.
      * subst rows'. cbn in Ex. destruct Hz as [Hz _]. specialize (Hz Ex). subst rows.
        destruct Hc as [s ->]. cbn in Ex. rewrite s_or_truthy in Ex by apply truthy_sha256.
        by pose proof (truthy_sha256 s) as Ht%truthy_true.
      * subst rows. destruct Hz' as [Hz' _]. cbn in Ex. specialize (Hz' (eq_sym Ex)). subst rows'.
        destruct Hc' as [s ->]. cbn in Ex. rewrite s_or_truthy in Ex by apply truthy_sha256.
        by pose proof (truthy_sha256 s) as Ht%truthy_true.
    + rewrite !map_app. cbn [map]. by rewrite Em, Et.
Qed.

Section Theorems.
Context `{!Runtime}.

(** What one audited event does to the log. *)
Lemma audit_event_log ev a t ac de re pl tn ty w :
  exists id w', audit_event ev a t ac de re pl tn ty w = (Ok id, w') /\
    (exists row, db_audit_events (w_db w') = db_audit_events (w_db w) ++ [row] /\
       au_actor row = a /\ au_event_type row = ev /\ au_target row = t /\ au_decision row = de) /\
    (db_registry_log (w_db w') = db_registry_log (w_db w) \/
     mirrored ev ac = true /\ exists i payload now,
       db_registry_log (w_db w') = db_registry_log (w_db w)
         ++ [make_entry i (db_registry_log (w_db w)) ev a t (o_or ac "") payload now]).
Proof.
  unfold audit_event, bind, new_id, sql_now, gets, insert_row, set_db, modify, when.
  destruct (mirrored ev ac) eqn:Em.
  - unfold mirror_event, try_except, bind, query, gets, new_id, utc_now, insert_unique. cbn.
    unfold query, gets, bind. cbn.
    match goal with |- context [if ?b then _ else _] => destruct b end.
    + eexists _, _. split; [reflexivity|]. cbn. split; [by eexists|by left].
    + eexists _, _. split; [reflexivity|]. cbn. split; [by eexists|]. right. split; [done|]. by eexists _, _, _.
  - eexists _, _. split; [reflexivity|]. cbn. split; [by eexists|by left].
Qed.

(** Recording an audit event never fails, appends exactly one row to
    audit_events, and leaves a registry log whose chain is intact and that
    extends the previous log by at most one entry (none unless the event is a
    mutation of a capability). *)
Theorem audit_event_keeps_chain ev a t ac de re pl tn ty w :
  log_ok (db_registry_log (w_db w)) ->
  exists id w' suffix, audit_event ev a t ac de re pl tn ty w = (Ok id, w') /\
    (exists row, db_audit_events (w_db w') = db_audit_events (w_db w) ++ [row] /\ au_actor row = a) /\
    db_registry_log (w_db w') = db_registry_log (w_db w) ++ suffix /\ length suffix <= 1 /\
    (mirrored ev ac = false -> suffix = []) /\
    log_ok (db_registry_log (w_db w')) /\ cr_valid (verify_log_chain (w_db w')) = true.
Proof.
  intros Hl. destruct (audit_event_log ev a t ac de re pl tn ty w)
    as (id & w' & E & (row & Hrow & Ha & _) & Hlog).
  assert (exists suffix, db_registry_log (w_db w') = db_registry_log (w_db w) ++ suffix /\
    length suffix <= 1 /\ (mirrored ev ac = false -> suffix = []) /\ log_ok (db_registry_log (w_db w')))
    as (suffix & Hs & Hlen & Hm & Hok).
  { destruct Hlog as [Hlog|(Hm & i & pl' & now & Hlog)]; rewrite Hlog.
    - exists []. split; [by rewrite List.app_nil_r|]. cbn. split; [lia|]. done.
    - eexists. split; [done|]. cbn. split; [lia|]. split; [congruence|]. by apply make_entry_linked. }
  exists id, w', suffix. split_and!; eauto. by rewrite (verify_linked _ Hok).
Qed.

(** C16: [append_log_entry] on an intact log either raises IntegrityError and
    leaves the log as it was (only when the new hash is already present), or
    appends one entry numbered one more than the length of the log, after which
    [verify_log_chain] accepts the log with that entry's hash as the last. *)
Theorem append_log_entry_verifies ev a ac t pl c w r w' :
  log_ok (db_registry_log (w_db w)) ->
  append_log_entry ev a ac t pl c w = (r, w') ->
  match r with
  | Raise e => e = IntegrityError "UNIQUE constraint failed" /\
      db_registry_log (w_db w') = db_registry_log (w_db w) /\
      exists x i now, x ∈ db_registry_log (w_db w) /\ lg_entry_hash x = lg_entry_hash
        (make_entry i (db_registry_log (w_db w)) ev a t ac (json_dumps (JObj pl)) now)
  | Ok d => exists e, db_registry_log (w_db w') = db_registry_log (w_db w) ++ [e] /\
      lg_sequence e = (1 + Z.of_nat (length (db_registry_log (w_db w))))%Z /\
      lg_event_type e = ev /\ lg_actor e = a /\ lg_action e = ac /\
      dget "entryHash" d = Some (JStr (lg_entry_hash e)) /\
      verify_log_chain (w_db w')
      = mkChainReport true (S (length (db_registry_log (w_db w)))) None None (Some (lg_entry_hash e))
  end.
Proof.
  intros Hl. unfold append_log_entry, bind, query, gets, new_id, utc_now, insert_unique, when.
  unfold bind, query, gets. cbn.
  set (e := make_entry _ _ _ _ _ _ _ _).
  assert (lg_sequence e = (1 + Z.of_nat (length (db_registry_log (w_db w))))%Z /\
    lg_event_type e = ev /\ lg_actor e = a /\ lg_action e = ac) as (Hseq & Hev & Hac & Hact).
  { subst e. unfold make_entry. by rewrite (next_link_linked _ Hl). }
  destruct (exists_where (entry_clash e) (db_registry_log (w_db w))) eqn:Ec.
  - intros [= <- <-]. split; [done|]. split; [done|].
    apply exists_where_true in Ec as (x & Hx & Hclash). eexists x, _, _. split; [done|].
    apply orb_true_iff in Hclash as [Hs%Z.eqb_eq|Hh%String.eqb_eq]; [exfalso|exact Hh].
    pose proof (linked_lt _ _ _ Hl) as Hlt. rewrite Forall_forall in Hlt. specialize (Hlt x Hx). cbn in Hlt. lia.
  - assert (log_ok (db_registry_log (w_db w) ++ [e])) as Hok by by apply make_entry_linked.
    destruct c; cbn; intros [= <- <-]; exists e; (split; [done|]); (split_and!; try done);
      rewrite verify_linked by done; cbn; unfold last_hash; rewrite last_snoc, length_app; cbn;
      f_equal; lia.
Qed.

(** C8: tamper evidence.  If two databases' logs both verify and report the
    same last hash, then they hold the same number of entries and, entry by
    entry, the same hashed text; or else one entry of each, with different
    texts of the same SHA-256, is a collision that the two logs exhibit. *)
Theorem registry_log_tamper_evident d d' :
  cr_valid (verify_log_chain d) = true -> cr_valid (verify_log_chain d') = true ->
  cr_last_hash (verify_log_chain d) = cr_last_hash (verify_log_chain d') ->
  map entry_text (log_rows (db_registry_log d)) = map entry_text (log_rows (db_registry_log d'))
  \/ colliding_entries (log_rows (db_registry_log d)) (log_rows (db_registry_log d')).
Proof.
  destruct (verify_chain d) as [-> ->], (verify_chain d') as [-> ->]. apply chains_agree.
Qed.

(** The limit of the chain without an external anchor: every truncation of
    an intact log is again accepted. *)
Theorem truncated_log_verifies d l1 l2 :
  log_ok (db_registry_log d) -> db_registry_log d = l1 ++ l2 ->
  cr_valid (verify_log_chain (upd db_registry_log l1 d)) = true.
Proof.
  intros Hl E. rewrite E in Hl. rewrite verify_linked; [done|]. cbn. clear E. revert Hl. unfold log_ok.
  generalize 1%Z, (@None string). induction l1 as [|r l1 IH]; intros z prev; [done|].
  cbn. intros (? & ? & ? & ?). split_and!; auto.
Qed.
End Theorems.

Lemma first_log_ok id ev a t ac pl now : log_ok [make_entry id [] ev a t ac pl now].
Proof. apply (make_entry_linked id [] ev a t ac pl now). exact I. Qed.

#[local] Opaque sha256_hex.

Section Concrete.
Import Demo.
#[local] Existing Instance Demo.runtime.

(** The fields of an entry are joined with a bar that is not escaped, so
    the hash does not bind them individually: two logs that both verify, with
    the same last hash, whose entries name different actors. *)
Theorem entry_fields_ambiguous :
  exists e e' : LogRow,
    let d := upd db_registry_log [e] empty_db in
    let d' := upd db_registry_log [e'] empty_db in
    cr_valid (verify_log_chain d) = true /\ cr_valid (verify_log_chain d') = true /\
    cr_last_hash (verify_log_chain d) = cr_last_hash (verify_log_chain d') /\
    lg_actor e <> lg_actor e'.
Proof.
  exists (make_entry "rlog_1" [] "capability.promoted" "mallory" (Some "alice|cap://x") "promote" "{}" "now").
  exists (make_entry "rlog_1" [] "capability.promoted" "mallory|alice" (Some "cap://x") "promote" "{}" "now").
  cbv zeta. rewrite !verify_linked by apply first_log_ok. cbn. split_and!; done.
Qed.

Definition first_entry : LogRow :=
  make_entry "rlog_0" [] "capability.promoted" "root" (Some "cap://x") "promote" "{}" "2026-07-20T00:00:00Z".
Definition logged : World := world (upd db_registry_log [first_entry] empty_db).

Lemma audit_event_keeps_chain_witness :
  log_ok (db_registry_log (w_db logged)) /\
  exists id w' suffix,
    audit_event "capability.recalled" "root" (Some "cap://x") (Some "recall") None None [] "asg" "user" logged
      = (Ok id, w') /\
    db_registry_log (w_db w') = [first_entry] ++ suffix /\ cr_valid (verify_log_chain (w_db w')) = true.
Proof.
  assert (log_ok (db_registry_log (w_db logged))) as Hl by apply first_log_ok.
  split; [exact Hl|].
  destruct (audit_event_keeps_chain "capability.recalled" "root" (Some "cap://x") (Some "recall")
    None None [] "asg" "user" logged Hl) as (id & w' & suffix & E & _ & Hs & _ & _ & _ & Hv).
  exists id, w', suffix. split; [exact E|]. split; [exact Hs | exact Hv].
Defined.

Lemma append_log_entry_verifies_witness :
  exists d w' e, append_log_entry "capability.recalled" "root" "recall" None [] true logged = (Ok d, w') /\
    verify_log_chain (w_db w') = mkChainReport true 2 None None (Some (lg_entry_hash e)).
Proof.
  assert (log_ok (db_registry_log (w_db logged))) as Hl by apply first_log_ok.
  destruct (append_log_entry "capability.recalled" "root" "recall" None [] true logged) as [r w'] eqn:E.
  pose proof (append_log_entry_verifies _ _ _ _ _ _ _ _ _ Hl E) as H.
  destruct r as [d|e].
  - destruct H as (e & _ & _ & _ & _ & _ & _ & Hv). exists d, w', e. split; [reflexivity | exact Hv].
  - exfalso. apply (f_equal (fun x => is_ok x.1)) in E. vm_compute in E. discriminate E.
Defined.

Lemma registry_log_tamper_evident_witness :
  let d := w_db logged in
  let d' := upd db_registry_log [upd lg_created_at "2030-01-01T00:00:00Z" first_entry] empty_db in
  d <> d' /\
  (map entry_text (log_rows (db_registry_log d)) = map entry_text (log_rows (db_registry_log d')) \/ colliding_entries (log_rows (db_registry_log d)) (log_rows (db_registry_log d'))).
Proof.
  intros d d'. split; [intros E; apply (f_equal (fun x => lg_created_at <$> List.head (db_registry_log x))) in E; discriminate E|].
  apply (registry_log_tamper_evident d d');
    [rewrite verify_linked; [reflexivity | apply (first_log_ok "rlog_0")].. |].
  rewrite !verify_linked by apply (first_log_ok "rlog_0"). reflexivity.
Defined.

Lemma truncated_log_verifies_witness :
  log_ok (db_registry_log (w_db logged)) /\
  cr_valid (verify_log_chain (upd db_registry_log [] (w_db logged))) = true.
Proof.
  assert (log_ok (db_registry_log (w_db logged))) as Hl by apply first_log_ok.
  split; [exact Hl|]. by apply (truncated_log_verifies (w_db logged) [] [first_entry]).
Defined.
End Concrete.
