(* ===== verification/Superadmin.v ===== *)
(** * Operator-approved superadmins and the node role
    ([install_policy.py] 10-95, [governance.superadmin_subjects],
    [node_role.py])

    Configuration read from the environment at call time: who is a superadmin,
    whether an install may be approved on the spot, and what role the node
    plays.  Every reading fails closed. *)

From Stdlib Require Import ZArith Ascii String Lia.
From stdpp Require Import base option list strings gmap.
From S2P Require Import Prelude Sha256 PyStr Json Clock Db.
Local Open Scope string_scope.
Local Open Scope list_scope.

Section Superadmin.
Context `{!Runtime}.

Definition SUPERADMIN_AUTO_APPROVE_ENV : string := "CAPMESH_SUPERADMIN_INSTALL_AUTO_APPROVE".
Definition SUPERADMIN_ACTOR_ENV : string := "CAPMESH_SUPERADMIN_ACTOR".
Definition SUPERADMIN_ACTORS_ENV : string := "CAPMESH_SUPERADMIN_ACTORS".
Definition SUPERADMIN_ACTOR_DEFAULT : string := getenv SUPERADMIN_ACTOR_ENV "admin@example.com".

(** [tuple(a.strip().lower() for a in raw.split(",") if a.strip())] *)
Definition split_actors (raw : string) : list string :=
  (fun a => lower (strip a)) <$> List.filter (fun a => truthy (strip a)) (split_on "," raw).

Definition _parse_superadmin_actors : list string :=
  split_actors (getenv SUPERADMIN_ACTORS_ENV "").

Definition superadmin_actor : string := getenv SUPERADMIN_ACTOR_ENV SUPERADMIN_ACTOR_DEFAULT.

Definition superadmin_subjects : list string :=
  match _parse_superadmin_actors with
  | [] => let single := lower (strip superadmin_actor) in
          if truthy single then [single] else []
  | actors => actors
  end.

Definition flag_true : list string := ["1"; "true"; "yes"; "on"].
Definition flag_false : list string := [""; "0"; "false"; "no"; "off"].

Definition configured_superadmin_auto_approval (actor : option string)
  : outcome (option string) :=
  let raw := lower (strip (getenv SUPERADMIN_AUTO_APPROVE_ENV "")) in
  if smem raw flag_false then Ok None
  else if negb (smem raw flag_true)
  then Raise (ValueError (SUPERADMIN_AUTO_APPROVE_ENV +:+ " must be a boolean value."))
  else
    let configured_actor := lower (strip (getenv SUPERADMIN_ACTOR_ENV "")) in
    let allowed :=
      match _parse_superadmin_actors with
      | [] => if truthy configured_actor then [configured_actor] else []
      | l => l
      end in
    if negb (smem configured_actor allowed)
    then Raise (ValueError (SUPERADMIN_ACTOR_ENV +:+ " must be one of the configured superadmins: "
                            +:+ join ", " allowed))
    else match actor with
         | None => Ok (Some configured_actor)
         | Some a =>
             let requested_actor := lower (strip a) in
             if negb (smem requested_actor allowed) then Ok None else Ok (Some requested_actor)
         end.

(** ** Node role *)
Definition NODE_ROLE_ENV : string := "CAPMESH_NODE_ROLE".
Definition AUTHORITY_URL_ENV : string := "CAPMESH_AUTHORITY_URL".
Definition AUTHORITATIVE_ROLE : string := "authoritative".
Definition SUBORDINATE_ROLES : list string := ["read-replica"; "non-voting-raft"; "client"].
Definition VALID_NODE_ROLES : list string := AUTHORITATIVE_ROLE :: SUBORDINATE_ROLES.
Definition DEFAULT_AUTHORITY_URL : string := "http://127.0.0.1:8000".

Definition default_authority_url : string :=
  strip (getenv AUTHORITY_URL_ENV DEFAULT_AUTHORITY_URL).

Definition configured_node_role : outcome string :=
  let raw := lower (strip (getenv NODE_ROLE_ENV "")) in
  if negb (truthy raw) then
    if lower (strip (getenv "CAPMESH_ENVIRONMENT" "")) =s "production"
    then Raise (ValueError (NODE_ROLE_ENV +:+ " is required in production."))
    else Ok AUTHORITATIVE_ROLE
  else if negb (smem raw VALID_NODE_ROLES)
  then Raise (ValueError (NODE_ROLE_ENV +:+ " must be one of: "
                          +:+ join ", " (sorted_strings VALID_NODE_ROLES) +:+ "."))
  else Ok raw.

Definition configured_authority_url : outcome string :=
  let value := default_authority_url in
  if negb (truthy value)
  then Raise (ValueError (AUTHORITY_URL_ENV +:+ " must not be empty."))
  else if negb (startswith value "http://" || startswith value "https://")
  then Raise (ValueError (AUTHORITY_URL_ENV +:+ " must be an absolute http(s) URL identifying the authoritative node; got "
                          +:+ repr_str value +:+ "."))
  else Ok value.

Definition is_authoritative_node : outcome bool :=
  let? role := configured_node_role in Ok (role =s AUTHORITATIVE_ROLE).

Definition topology_payload : outcome dict :=
  let? role := configured_node_role in
  let? url := configured_authority_url in
  Ok [("nodeRole", JStr role); ("authoritative", JBool (role =s AUTHORITATIVE_ROLE));
      ("authorityUrl", JStr url); ("authorityMcpUrl", JStr (url +:+ "/mcp"));
      ("readPolicy", JStr "local-allowed");
      ("writePolicy", JStr (getenv "CAPMESH_WRITE_POLICY" "authoritative-only"))].

(** ** Lemmas *)
Lemma configured_node_role_valid role :
  configured_node_role = Ok role -> smem role VALID_NODE_ROLES = true.
Proof.
  unfold configured_node_role. repeat case_match; try done; intros [= <-]; [done|].
  by apply negb_false_iff in H1.
Qed.
End Superadmin.
