(* ===== verification/Identity.v ===== *)
(** * Tenant bootstrap and identity provisioning ([governance.py] 650-1119,
    1190-1337)

    The deterministic identifiers and URI prefixes of a tenant's stores and
    namespaces, the idempotent bootstrap of its rows, the enforced role
    assignments, and the provisioning of a principal's identity row and
    personal stores on first contact. *)

From Stdlib Require Import ZArith Ascii String Lia.
From stdpp Require Import base option list strings gmap.
From S2P Require Import Prelude Sha256 PyStr Json Clock Db Models AccessControl RegistryLog Superadmin.
Local Open Scope string_scope.
Local Open Scope list_scope.

(** ** Constraint violations of the tables: PRIMARY KEY and UNIQUE *)
Definition store_clash (id uri_prefix : string) (r : StoreRow) : bool :=
  (st_id r =s id) || (st_uri_prefix r =s uri_prefix).
Definition namespace_clash (id uri_prefix tenant_id store_id name : string) (r : NamespaceRow) : bool :=
  (ns_id r =s id) || (ns_uri_prefix r =s uri_prefix)
  || ((ns_tenant_id r =s tenant_id) && (ns_store_id r =s store_id) && (ns_name r =s name)).
(** Two identities of one tenant share neither user_name nor external_id. *)
Definition identity_unique_clash (tenant_id user_name : string) (external_id : option string)
    (r : IdentityRow) : bool :=
  (idn_tenant_id r =s tenant_id)
  && ((idn_user_name r =s user_name)
      || match external_id with Some e => sql_eq (idn_external_id r) e | None => false end).

Section Identity.
Context `{!Runtime}.

Definition DEFAULT_USER_SUBJECT : string := getenv "CAPMESH_DEFAULT_USER_SUBJECT" "admin@example.com".
Definition CORPORATE_EMAIL_DOMAIN : string := getenv "CAPMESH_CORPORATE_EMAIL_DOMAIN" "example.com".
Definition DEFAULT_ORG_SLUG : string := getenv "CAPMESH_DEFAULT_ORG_SLUG" "the-company".
Definition DEFAULT_ORG_DISPLAY_NAME : string :=
  getenv "CAPMESH_DEFAULT_ORG_DISPLAY_NAME" "the company".
Definition LOCAL_SERVICE_APP_ID : string := "capmesh-service".

(** ** Identifiers and prefixes *)
Definition corporate_identity_id (tenant_id email provider_subject : string) : string :=
  let normalized_email := lower (strip email) in
  let identity_key := if endswith normalized_email ("@" +:+ CORPORATE_EMAIL_DOMAIN)
                      then normalized_email else provider_subject in
  stable_id "idn" [tenant_id; identity_key].

Definition default_user_identity_id (tenant_id : string) : string :=
  stable_id "idn" [tenant_id; DEFAULT_USER_SUBJECT].
Definition default_user_private_store_id (tenant_id : string) : string :=
  stable_id "store" [tenant_id; "user_private"; default_user_identity_id tenant_id].
Definition default_user_private_namespace_id (tenant_id : string) : string :=
  stable_id "ns" [tenant_id; default_user_private_store_id tenant_id; "personal"].
Definition default_user_store_prefix (tenant_id : string) : string :=
  "cap://user/" +:+ tenant_id +:+ "/" +:+ default_user_identity_id tenant_id +:+ "/private".
Definition all_users_store_id (tenant_id : string) : string :=
  stable_id "store" [tenant_id; "all_users"; "all"].
Definition all_users_store_prefix (tenant_id : string) : string := "cap://all/" +:+ tenant_id.
Definition all_users_namespace_id (tenant_id : string) : string :=
  stable_id "ns" [tenant_id; all_users_store_id tenant_id; "everyone"].
Definition all_users_namespace_prefix (tenant_id : string) : string :=
  "cap://all/" +:+ tenant_id +:+ "/everyone".
Definition default_user_namespace_prefix (tenant_id : string) : string :=
  default_user_store_prefix tenant_id +:+ "/personal".
Definition org_store_id_of (tenant_id : string) : string :=
  stable_id "store" [tenant_id; "org"; DEFAULT_ORG_SLUG].
Definition org_store_prefix (tenant_id : string) : string :=
  "cap://org/" +:+ tenant_id +:+ "/" +:+ DEFAULT_ORG_SLUG.
Definition org_shared_namespace_id (tenant_id : string) : string :=
  stable_id "ns" [tenant_id; org_store_id_of tenant_id; "shared"].
Definition org_shared_namespace_prefix (tenant_id : string) : string :=
  org_store_prefix tenant_id +:+ "/shared".

(** ** Slugs and capability URIs *)

(** [while "--" in cleaned: cleaned = cleaned.replace("--", "-")]; every
    round shortens the text, so its length bounds the rounds. *)
Fixpoint collapse_dashes (fuel : nat) (s : string) : string :=
  match fuel with
  | O => s
  | S n => if contains s "--" then collapse_dashes n (replace_all s "--" "-") else s
  end.

Definition slug (value : string) : string :=
  let cleaned := strip_by (one_of "-")
    (smap (fun c => if is_alnum c then to_lower c else "-"%char) value) in
  s_or (collapse_dashes (String.length cleaned) cleaned) "unnamed".

Definition user_namespace_capability_uri (c : Capability) : string :=
  let plugin := slug (o_or (c_plugin c) "global") in
  let name := slug (c_name c) in
  let version := s_or (strip_by (one_of ".-")
    (smap (fun ch => if is_alnum ch || one_of ".-" ch then to_lower ch else "-"%char)
       (s_or (c_version c) "0.1.0"))) "0.1.0" in
  default_user_namespace_prefix (cap_tenant_of c) +:+ "/" +:+ c_type c +:+ "/"
  +:+ plugin +:+ "." +:+ name +:+ "@" +:+ version.

Definition metadata_dict (c : Capability) : dict :=
  match c_metadata c with JObj d => d | _ => [] end.

Definition apply_default_user_namespace (c : Capability) : outcome Capability :=
  if (c_source_kind c =s "system_capability") || startswith (c_uri c) "cap://system/" then Ok c
  else
    let tenant_id := cap_tenant_of c in
    if List.existsb (startswith (c_uri c)) ["cap://user/"; "cap://org/"; "cap://app/"; "cap://all/"]
    then post_init (upd c_tenant_id tenant_id c)
    else
      let target_prefix :=
        rstrip_by (one_of "/") (default_user_namespace_prefix tenant_id) +:+ "/" in
      let should_rewrite_uri := negb (startswith (c_uri c) target_prefix) in
      let metadata := dsetdefault "originalOwner" (JStr (c_owner c))
        (dsetdefault "originalUri" (JStr (c_uri c))
           (dset "defaultUserNamespace" (JBool true) (metadata_dict c))) in
      post_init
        (upd c_uri (if should_rewrite_uri then user_namespace_capability_uri c else c_uri c)
        (upd c_tenant_id tenant_id
        (upd c_store_id (Some (default_user_private_store_id tenant_id))
        (upd c_namespace_id (Some (default_user_private_namespace_id tenant_id))
        (upd c_visibility "protected"
        (upd c_discovery_mode "hidden"
        (upd c_owner DEFAULT_USER_SUBJECT
        (upd c_created_by (Some DEFAULT_USER_SUBJECT)
        (upd c_approval_state (if smem (c_approval_state c) ["published"; "approved"]
                               then "draft" else c_approval_state c)
        (upd c_lifecycle (if smem (c_lifecycle c) ["active"; "published"]
                          then "draft" else c_lifecycle c)
        (upd c_metadata (JObj metadata) c))))))))))).

Definition capability_canonical_tail (c : Capability) : string :=
  removeprefix (user_namespace_capability_uri c)
    (rstrip_by (one_of "/") (default_user_namespace_prefix (cap_tenant_of c)) +:+ "/").

(** ** Rows the bootstrap inserts *)
Definition insert_store (id tenant_id kind name uri_prefix : string) (owner : option string)
    (metadata : dict) : Op unit :=
  let! now := sql_now in
  insert_or_ignore db_stores (store_clash id uri_prefix)
    {| st_id := id; st_tenant_id := tenant_id; st_kind := kind; st_name := name;
       st_uri_prefix := uri_prefix; st_owner_identity_id := owner; st_owner_app_id := None;
       st_disabled_at := None; st_metadata_json := json_dumps (JObj metadata);
       st_created_at := now; st_updated_at := now |}.

Definition insert_namespace (id tenant_id store_id name uri_prefix visibility owner description : string)
    (metadata : dict) : Op unit :=
  let! now := sql_now in
  insert_or_ignore db_namespaces (namespace_clash id uri_prefix tenant_id store_id name)
    {| ns_id := id; ns_tenant_id := tenant_id; ns_store_id := store_id; ns_name := name;
       ns_uri_prefix := uri_prefix; ns_visibility := visibility; ns_owner := owner;
       ns_description := description; ns_lifecycle := "active";
       ns_metadata_json := json_dumps (JObj metadata); ns_created_at := now; ns_updated_at := now |}.

(** ** [ensure_default_tenant] *)

(** The read-first path: an active tenant row with the current display name. *)
Definition tenant_ready (tenant_id : string) (d : DB) : bool :=
  match fetchone (fun r => tn_id r =s tenant_id) (db_tenants d) with
  | Some r => (tn_status r =s "active") && (tn_display_name r =s DEFAULT_ORG_DISPLAY_NAME)
  | None => false
  end.

Definition bootstrap_tenant_row (tenant_id : string) : Op unit :=
  let! now := sql_now in
  let! _ := insert_or_ignore db_tenants (fun r => (tn_id r =s tenant_id) || (tn_slug r =s tenant_id))
    {| tn_id := tenant_id; tn_slug := tenant_id; tn_display_name := DEFAULT_ORG_DISPLAY_NAME;
       tn_status := "active"; tn_updated_at := now |} in
  update_rows db_tenants (fun r => tn_id r =s tenant_id)
    (fun r => upd tn_display_name DEFAULT_ORG_DISPLAY_NAME (upd tn_status "active" (upd tn_updated_at now r))).

Definition bootstrap_default_identity (tenant_id : string) : Op unit :=
  let! now := sql_now in
  let id := default_user_identity_id tenant_id in
  let s := DEFAULT_USER_SUBJECT in
  insert_or_ignore db_identities
    (fun r => (idn_id r =s id) || identity_unique_clash tenant_id s (Some s) r)
    {| idn_id := id; idn_tenant_id := tenant_id; idn_external_id := Some s; idn_user_name := s;
       idn_display_name := Some s; idn_email := Some s; idn_identity_type := "human";
       idn_entra_object_id := None; idn_active := 1;
       idn_raw_json := json_dumps (JObj [("defaultOwner", JBool true)]);
       idn_created_at := now; idn_updated_at := now |}.

Definition auto_owner : dict := [("auto", JBool true); ("defaultOwner", JBool true)].

Definition bootstrap_user_stores (tenant_id : string) : Op unit :=
  let identity := default_user_identity_id tenant_id in
  let! _ := insert_store (stable_id "store" [tenant_id; "user_private"; identity]) tenant_id
    "user_private" (DEFAULT_USER_SUBJECT +:+ " Private") (default_user_store_prefix tenant_id)
    (Some identity) auto_owner in
  let! _ := insert_store (stable_id "store" [tenant_id; "user_shared"; identity]) tenant_id
    "user_shared" (DEFAULT_USER_SUBJECT +:+ " Shared")
    ("cap://user/" +:+ tenant_id +:+ "/" +:+ identity +:+ "/shared") (Some identity) auto_owner in
  insert_namespace (default_user_private_namespace_id tenant_id) tenant_id
    (default_user_private_store_id tenant_id) "personal" (default_user_namespace_prefix tenant_id)
    "protected" DEFAULT_USER_SUBJECT "Default private namespace for current ingested capabilities."
    auto_owner.

(** The org store, also inserted for every provisioned principal. *)
Definition insert_org_store (tenant_id : string) : Op unit :=
  insert_store (stable_id "store" [tenant_id; "org"; DEFAULT_ORG_SLUG]) tenant_id "org"
    (DEFAULT_ORG_DISPLAY_NAME +:+ " Org Store")
    ("cap://org/" +:+ tenant_id +:+ "/" +:+ DEFAULT_ORG_SLUG) None
    [("auto", JBool true); ("defaultOrg", JBool true)].

Definition bootstrap_org (tenant_id : string) : Op unit :=
  let! _ := insert_org_store tenant_id in
  let! now := sql_now in
  let id := stable_id "org" [tenant_id; DEFAULT_ORG_SLUG] in
  insert_or_ignore db_organizations
    (fun r => (org_id r =s id) || ((org_tenant_id r =s tenant_id) && (org_slug r =s DEFAULT_ORG_SLUG)))
    {| org_id := id; org_tenant_id := tenant_id; org_slug := DEFAULT_ORG_SLUG;
       org_display_name := DEFAULT_ORG_DISPLAY_NAME;
       org_store_id := Some (stable_id "store" [tenant_id; "org"; DEFAULT_ORG_SLUG]);
       org_status := "active";
       org_metadata_json := json_dumps (JObj [("defaultOrg", JBool true)]); org_created_at := now |}.

Definition bootstrap_system (tenant_id : string) : Op unit :=
  let store := stable_id "store" [tenant_id; "system"; "system"] in
  let! _ := insert_store store tenant_id "system" "System Governance"
    ("cap://system/" +:+ tenant_id) None [("managed", JBool true)] in
  insert_namespace (stable_id "ns" [tenant_id; store; "system"]) tenant_id store "system"
    ("cap://system/" +:+ tenant_id) "protected" "asg-platform" "Built-in governance capabilities."
    [("managed", JBool true)].

Definition bootstrap_all_users (tenant_id : string) : Op unit :=
  let meta := [("auto", JBool true); ("allUsers", JBool true)] in
  let! _ := insert_store (all_users_store_id tenant_id) tenant_id "all_users"
    (DEFAULT_ORG_DISPLAY_NAME +:+ " All Users Store") (all_users_store_prefix tenant_id) None meta in
  insert_namespace (all_users_namespace_id tenant_id) tenant_id (all_users_store_id tenant_id)
    "everyone" (all_users_namespace_prefix tenant_id) "internal" "asg-platform"
    "Tenant-wide capabilities visible to every authenticated user." meta.

Definition ensure_default_tenant (tenant_id : string) : Op string :=
  let! ready := query (tenant_ready tenant_id) in
  if ready then ret tenant_id
  else
    let! _ := bootstrap_tenant_row tenant_id in
    let! _ := bootstrap_default_identity tenant_id in
    let! _ := bootstrap_user_stores tenant_id in
    let! _ := bootstrap_org tenant_id in
    let! _ := bootstrap_system tenant_id in
    let! _ := bootstrap_all_users tenant_id in
    ret tenant_id.

Definition ensure_org_shared_namespace (tenant_id : string) : Op string :=
  let! _ := ensure_default_tenant tenant_id in
  let ns_id := org_shared_namespace_id tenant_id in
  let! _ := insert_namespace ns_id tenant_id (org_store_id_of tenant_id) "shared"
    (org_shared_namespace_prefix tenant_id) "internal" "asg-platform"
    "Org-internal shared capabilities promoted via the vault-placement manifest."
    [("auto", JBool true); ("vaultPlacement", JBool true)] in
  ret ns_id.

Definition ensure_all_users_namespace (tenant_id : string) : Op string :=
  let! _ := ensure_default_tenant tenant_id in
  ret (all_users_namespace_id tenant_id).

(** ** Enforced role assignments *)
Definition policy_role_row (id tenant_id subject_type subject_id role scope_type scope_id source now : string)
  : RoleRow :=
  {| ra_id := id; ra_tenant_id := tenant_id; ra_subject_type := subject_type;
     ra_subject_id := subject_id; ra_role := role; ra_scope_type := scope_type;
     ra_scope_id := scope_id; ra_source := source; ra_created_by := Some "capmesh-system";
     ra_expires_at := None; ra_revoked_at := None; ra_created_at := now; ra_updated_at := now |}.

(** The stored assignment is already the enforced one. *)
Definition role_correct (want : RoleRow) (r : RoleRow) : bool :=
  (ra_subject_type r =s ra_subject_type want) && (ra_subject_id r =s ra_subject_id want)
  && (ra_role r =s ra_role want) && (ra_scope_type r =s ra_scope_type want)
  && (ra_scope_id r =s ra_scope_id want) && (ra_source r =s ra_source want)
  && is_none (ra_revoked_at r).

(** ON CONFLICT(id) DO UPDATE: every column but expires_at and created_at. *)
Definition overwrite_role (want r : RoleRow) : RoleRow :=
  upd ra_expires_at (ra_expires_at r) (upd ra_created_at (ra_created_at r) want).

Definition enforce_role (id tenant_id subject_type subject_id role scope_type scope_id source
    event_type : string) (payload : dict) : Op unit :=
  let! now := sql_now in
  let want := policy_role_row id tenant_id subject_type subject_id role scope_type scope_id source now in
  let! row := query (fun d => fetchone (fun r => ra_id r =s id) (db_role_assignments d)) in
  if match row with Some r => role_correct want r | None => false end then ret tt
  else
    let! _ := upsert_row db_role_assignments (fun r => ra_id r =s id) want (overwrite_role want) in
    let! _ := audit_event event_type "capmesh-system" (Some id) (Some "assign") (Some "allow") None
      payload tenant_id "service" in
    ret tt.

Definition ensure_platform_superadmins (tenant_id : string) : Op unit :=
  forM superadmin_subjects (fun subject =>
    enforce_role (stable_id "rol" [tenant_id; "platform-superadmin"; subject]) tenant_id
      "user" subject "platform_admin" "tenant" tenant_id "operator-policy"
      "role.operator_policy_enforced"
      [("subject", JStr subject); ("role", JStr "platform_admin");
       ("scope", JStr ("tenant:" +:+ tenant_id))]).

Definition ensure_local_service_org_access (tenant_id : string) : Op unit :=
  let org := stable_id "org" [tenant_id; DEFAULT_ORG_SLUG] in
  enforce_role (stable_id "rol" [tenant_id; "local-service-org-access"; LOCAL_SERVICE_APP_ID; org])
    tenant_id "app" LOCAL_SERVICE_APP_ID "app_service" "org" org "authority-policy"
    "role.authority_policy_enforced"
    [("subject", JStr ("app:" +:+ LOCAL_SERVICE_APP_ID)); ("role", JStr "app_service");
     ("scope", JStr ("org:" +:+ org))].

(** ** Provisioning of a principal *)
Definition ensure_personal_store (p : Principal) (tenant_id identity_id kind label suffix default_namespace : string)
  : Op unit :=
  let safe_subject := replace_all (replace_all (p_subject p) "/" "_") ":" "_" in
  let prefix := "cap://user/" +:+ tenant_id +:+ "/" +:+ identity_id +:+ "/" +:+ suffix in
  let store_id := stable_id "store" [tenant_id; kind; identity_id] in
  let! _ := insert_store store_id tenant_id kind (safe_subject +:+ " " +:+ label) prefix
    (Some identity_id) [("auto", JBool true)] in
  insert_namespace (stable_id "ns" [tenant_id; store_id; default_namespace]) tenant_id store_id
    default_namespace (prefix +:+ "/" +:+ default_namespace) "protected" (p_subject p)
    ("Default " +:+ lower label +:+ " namespace for " +:+ p_subject p +:+ ".") [("auto", JBool true)].

Definition ensure_principal_stores (p : Principal) (identity_id : string) : Op unit :=
  let tenant_id := tenant_of p in
  let! _ := ensure_personal_store p tenant_id identity_id "user_private" "Private" "private" "personal" in
  let! _ := ensure_personal_store p tenant_id identity_id "user_shared" "Shared" "shared" "shared" in
  insert_org_store tenant_id.

Definition principal_json (p : Principal) : string :=
  json_dumps (JObj [("principal", JObj (to_dict p))]).

(** [principal.identity_id or stable_id("idn", tenant_id, subject)] with the
    subject cut at 256 characters. *)
Definition provision_id (p : Principal) : string :=
  o_or (p_identity_id p) (stable_id "idn" [tenant_of p; stake 256 (p_subject p)]).
(** [principal.email or (subject if "@" in subject else None)] *)
Definition provision_email (p : Principal) : option string :=
  let subject := stake 256 (p_subject p) in
  oo_or (p_email p) (if contains subject "@" then Some subject else None).

(** The stored row already says what this principal says. *)
Definition identity_unchanged (p : Principal) (r : IdentityRow) : bool :=
  (idn_user_name r =s p_subject p)
  && sql_eq (idn_display_name r) (o_or (p_display_name p) (p_subject p))
  && match provision_email p with None => true | e => oeqb (idn_email r) e end
  && (idn_identity_type r =s "human") && Z.eqb (idn_active r) 1
  && (idn_raw_json r =s principal_json p).

(** Both personal stores exist. *)
Definition personal_store_count (tenant_id identity_id : string) (d : DB) : nat :=
  length (fetchall (fun r => (st_tenant_id r =s tenant_id)
    && sql_eq (st_owner_identity_id r) identity_id && smem (st_kind r) ["user_private"; "user_shared"])
    (db_stores d)).

(** INSERT ... ON CONFLICT(id) DO UPDATE; the other UNIQUE constraints of the
    table still fail the statement. *)
Definition upsert_identity (p : Principal) (id tenant_id : string) (email : option string) : Op unit :=
  let! now := sql_now in
  let! rows := query db_identities in
  let others := List.filter (fun r => negb (idn_id r =s id)) rows in
  let display := Some (o_or (p_display_name p) (p_subject p)) in
  match fetchone (fun r => idn_id r =s id) rows with
  | Some old =>
      if exists_where (identity_unique_clash (idn_tenant_id old) (p_subject p) None) others
      then raise (IntegrityError "UNIQUE constraint failed: identities.tenant_id, identities.user_name")
      else update_rows db_identities (fun r => idn_id r =s id)
        (fun r => upd idn_user_name (p_subject p)
                 (upd idn_display_name display
                 (upd idn_email (match email with Some e => Some e | None => idn_email r end)
                 (upd idn_active 1%Z
                 (upd idn_raw_json (principal_json p)
                 (upd idn_updated_at now r))))))
  | None =>
      insert_unique db_identities (identity_unique_clash tenant_id (p_subject p) (Some (p_subject p)))
        {| idn_id := id; idn_tenant_id := tenant_id; idn_external_id := Some (p_subject p);
           idn_user_name := p_subject p; idn_display_name := display; idn_email := email;
           idn_identity_type := "human"; idn_entra_object_id := None; idn_active := 1;
           idn_raw_json := principal_json p; idn_created_at := now; idn_updated_at := now |}
  end.

Definition ensure_identity_for_principal (p : Principal) : Op string :=
  let tenant_id := tenant_of p in
  let identity_id := provision_id p in
  let! row := query (fun d => fetchone (fun r => (idn_id r =s identity_id) && (idn_tenant_id r =s tenant_id))
                                (db_identities d)) in
  if match row with Some r => identity_unchanged p r | None => false end then
    let! n := query (personal_store_count tenant_id identity_id) in
    if Nat.leb 2 n then ret identity_id
    else let! _ := ensure_principal_stores p identity_id in ret identity_id
  else
    let! _ := ensure_default_tenant DEFAULT_TENANT in
    let! _ := upsert_identity p identity_id tenant_id (provision_email p) in
    let! _ := ensure_principal_stores p identity_id in
    ret identity_id.
End Identity.
