(* ===== verification/Stores.v ===== *)
(** * Stores, namespaces and shares ([stores.py])

    The handlers that create and list stores and namespaces, share a
    capability with another subject and revoke the share: guards in the order
    of the code, every statement, and the record each returns. *)

From Stdlib Require Import ZArith Ascii String Lia.
From stdpp Require Import base option list strings gmap.
From S2P Require Import Prelude Sha256 PyStr Json Clock Db Models AccessControl RegistryLog.
From S2P Require Import Superadmin Identity.
Local Open Scope string_scope.
Local Open Scope list_scope.

(** ** Records returned to the caller *)
Definition metadata_of (text : string) : json := json_loads (Some text) (JObj []).

Definition store_record (r : StoreRow) : dict :=
  [("id", JStr (st_id r)); ("tenantId", JStr (st_tenant_id r)); ("kind", JStr (st_kind r));
   ("name", JStr (st_name r)); ("uriPrefix", JStr (st_uri_prefix r));
   ("ownerIdentityId", jopt (st_owner_identity_id r)); ("ownerAppId", jopt (st_owner_app_id r));
   ("metadata", metadata_of (st_metadata_json r)); ("createdAt", JStr (st_created_at r));
   ("updatedAt", JStr (st_updated_at r))].

Definition namespace_record (r : NamespaceRow) : dict :=
  [("id", JStr (ns_id r)); ("tenantId", JStr (ns_tenant_id r)); ("storeId", JStr (ns_store_id r));
   ("name", JStr (ns_name r)); ("uriPrefix", JStr (ns_uri_prefix r));
   ("visibility", JStr (ns_visibility r)); ("owner", JStr (ns_owner r));
   ("description", JStr (ns_description r)); ("lifecycle", JStr (ns_lifecycle r));
   ("metadata", metadata_of (ns_metadata_json r)); ("createdAt", JStr (ns_created_at r));
   ("updatedAt", JStr (ns_updated_at r))].

Definition share_record (r : ShareRow) : dict :=
  [("id", JStr (sh_id r)); ("tenantId", JStr (sh_tenant_id r));
   ("capabilityUri", JStr (sh_capability_uri r)); ("fromIdentityId", jopt (sh_from_identity_id r));
   ("subjectType", JStr (sh_subject_type r)); ("subjectId", JStr (sh_subject_id r));
   ("rights", json_loads (Some (sh_rights_json r)) (JArr [])); ("state", JStr (sh_state r));
   ("expiresAt", jopt (sh_expires_at r)); ("revokedAt", jopt (sh_revoked_at r));
   ("createdAt", JStr (sh_created_at r))].

(** [record(con.execute(...).fetchone())] of a row that was just written. *)
Definition fetch_record {R} (record : R -> dict) (r : option R) : outcome dict :=
  match r with
  | Some x => Ok (record x)
  | None => Raise (OtherError "TypeError: 'NoneType' object is not subscriptable")
  end.

(** [ORDER BY created_at DESC], ties in rowid order. *)
Definition newest_first {R} (created_at : R -> string) (l : list R) : list R :=
  sort_by (fun a b => sle (created_at b) (created_at a)) l.
(** [ORDER BY a, b] *)
Definition by_two {R} (f g : R -> string) (l : list R) : list R :=
  sort_by (fun a b => slt (f a) (f b) || ((f a =s f b) && sle (g a) (g b))) l.

Definition STORE_KINDS : list string := ["user_private"; "user_shared"; "org"; "app"; "system"; "all_users"].

Section Stores.
Context `{!Runtime}.

(** [str(payload.get(key) or new_id(prefix))] *)
Definition id_or_new (payload : dict) (key prefix : string) : Op string :=
  if py_truthy (jget key payload) then ret (py_str (jget key payload)) else new_id prefix.

Definition list_stores (p : Principal) (kind : option string) (ensure : bool) : Op (list dict) :=
  let! _ := (if ensure then (let! _ := ensure_identity_for_principal p in ret tt) else ret tt) in
  let! rows := query (fun d =>
    fetchall (fun r => (st_tenant_id r =s p_tenant_id p) && is_none (st_disabled_at r)
      && match kind with Some k => negb (truthy k) || (st_kind r =s k) | None => true end)
      (db_stores d)) in
  ret (store_record <$> by_two st_kind st_name rows).

Definition default_store_prefix (tenant_id kind store_id identity_id : string)
    (owner_app_id : json) : string :=
  if kind =s "org" then "cap://org/" +:+ tenant_id +:+ "/" +:+ store_id
  else if kind =s "app"
  then "cap://app/" +:+ tenant_id +:+ "/" +:+ py_str (py_or owner_app_id (JStr store_id))
  else if kind =s "system" then "cap://system/" +:+ tenant_id +:+ "/" +:+ store_id
  else if kind =s "all_users" then all_users_store_prefix tenant_id
  else
    let label := if kind =s "user_shared" then "shared" else "private" in
    "cap://user/" +:+ tenant_id +:+ "/" +:+ identity_id +:+ "/" +:+ label +:+ "/" +:+ store_id.

(** The rows of [create_store], once its guards have passed. *)
Definition insert_app (tenant_id name : string) (owner_app_id : json) (payload : dict) : Op unit :=
  let! app := lift (sql_text owner_app_id) in
  let app_id := or_else app "" in
  insert_or_ignore db_apps
    (fun r => (app_id =s Db.app_id r) || ((app_tenant_id r =s tenant_id) && (app_app_id r =s app_id)))
    {| Db.app_id := app_id; app_tenant_id := tenant_id; app_app_id := app_id;
       app_display_name := str_get payload "appDisplayName" name; app_active := 1;
       app_raw_json := json_dumps (JObj [("auto", JBool true); ("source", JStr "store.create")]) |}.

Definition insert_org (tenant_id store_id name : string) (payload : dict) : Op unit :=
  let! now := sql_now in
  let slug' := str_get payload "orgSlug" (slug name) in
  let id := str_get payload "orgId" (stable_id "org" [tenant_id; slug']) in
  insert_or_ignore db_organizations
    (fun r => (org_id r =s id) || ((org_tenant_id r =s tenant_id) && (org_slug r =s slug')))
    {| org_id := id; org_tenant_id := tenant_id; org_slug := slug'; org_display_name := name;
       org_store_id := Some store_id; org_status := "active";
       org_metadata_json := json_dumps (py_or (jget "metadata" payload) (JObj []));
       org_created_at := now |}.

Definition create_store (p : Principal) (payload : dict) : Op dict :=
  let tenant_id := tenant_of p in
  let kind := str_get payload "kind" "user_private" in
  if negb (smem kind STORE_KINDS) then raise (ValueError "Unsupported store kind.")
  else
    let! _ := when (smem kind ["org"; "system"; "all_users"])
      (require_access p "manage" None (Some ("tenant:" +:+ tenant_id))) in
    let! identity_id := ensure_identity_for_principal p in
    let owner_app_id := jget "ownerAppId" payload in
    let! store_id := id_or_new payload "id" "store" in
    let name := str_get payload "name" (kind +:+ " store") in
    let prefix := str_get payload "uriPrefix"
      (default_store_prefix tenant_id kind store_id identity_id owner_app_id) in
    let! _ := when ((kind =s "app") && py_truthy owner_app_id)
      (insert_app tenant_id name owner_app_id payload) in
    let! owner_identity :=
      (if startswith kind "user_" then ret (Some identity_id)
       else lift (sql_text (jget "ownerIdentityId" payload))) in
    let! owner_app := lift (sql_text owner_app_id) in
    let! now := sql_now in
    let! _ := insert_unique db_stores (store_clash store_id prefix)
      {| st_id := store_id; st_tenant_id := tenant_id; st_kind := kind; st_name := name;
         st_uri_prefix := prefix; st_owner_identity_id := owner_identity;
         st_owner_app_id := owner_app; st_disabled_at := None;
         st_metadata_json := json_dumps (py_or (jget "metadata" payload) (JObj []));
         st_created_at := now; st_updated_at := now |} in
    let! _ := when (kind =s "org") (insert_org tenant_id store_id name payload) in
    let! _ := audit_event "store.created" (p_subject p) (Some store_id) (Some "create")
      (Some "allow") None payload tenant_id "user" in
    let! _ := commit in
    let! row := query (fun d => fetchone (fun r => st_id r =s store_id) (db_stores d)) in
    lift (fetch_record store_record row).

Definition list_namespaces (p : Principal) (store_id : option string) : Op (list dict) :=
  let! _ := ensure_identity_for_principal p in
  let! rows := query (fun d =>
    fetchall (fun r => (ns_tenant_id r =s p_tenant_id p)
      && match store_id with Some s => negb (truthy s) || (ns_store_id r =s s) | None => true end)
      (db_namespaces d)) in
  ret (namespace_record <$> by_two ns_visibility ns_name rows).

Definition create_namespace (p : Principal) (payload : dict) : Op dict :=
  let tenant_id := tenant_of p in
  let store_id := str_get payload "storeId" "" in
  if negb (truthy store_id) then raise (ValueError "storeId is required.")
  else
    let! store := query (fun d => store_row d store_id tenant_id) in
    match store with
    | None => raise (ValueError "Store not found.")
    | Some store =>
        let! _ := when (smem (st_kind store) ["org"; "system"])
          (require_access p "manage" None (Some ("store:" +:+ store_id))) in
        let name := strip (str_get payload "name" "") in
        if negb (truthy name) then raise (ValueError "name is required.")
        else
          let visibility := str_get payload "visibility" "internal" in
          if negb (smem visibility ["public"; "internal"; "protected"; "secret"])
          then raise (ValueError "Unsupported visibility.")
          else
            let! namespace_id := id_or_new payload "id" "ns" in
            let uri_prefix := str_get payload "uriPrefix"
              (rstrip_by (one_of "/") (st_uri_prefix store) +:+ "/" +:+ strip_by (one_of "/") name) in
            let! now := sql_now in
            let! _ := insert_unique db_namespaces
              (namespace_clash namespace_id uri_prefix tenant_id store_id name)
              {| ns_id := namespace_id; ns_tenant_id := tenant_id; ns_store_id := store_id;
                 ns_name := name; ns_uri_prefix := uri_prefix; ns_visibility := visibility;
                 ns_owner := str_get payload "owner" (p_subject p);
                 ns_description := str_get payload "description" ""; ns_lifecycle := "active";
                 ns_metadata_json := json_dumps (py_or (jget "metadata" payload) (JObj []));
                 ns_created_at := now; ns_updated_at := now |} in
            let! _ := audit_event "namespace.created" (p_subject p) (Some namespace_id)
              (Some "create") (Some "allow") None payload tenant_id "user" in
            let! _ := commit in
            let! row := query (fun d => fetchone (fun r => ns_id r =s namespace_id) (db_namespaces d)) in
            lift (fetch_record namespace_record row)
    end.

(** ** Shares *)

(** [SELECT * FROM capabilities WHERE uri = ? AND tenant_id = ?] *)
Definition capability_row (d : DB) (uri tenant_id : string) : option CapRow :=
  fetchone (fun r => (cp_uri r =s uri) && (cp_tenant_id r =s tenant_id)) (db_capabilities d).

(** [str(item) for item in payload.get("rights", ("discover", "load", "call"))] *)
Definition requested_rights (payload : dict) : outcome (list string) :=
  match dget "rights" payload with
  | None => Ok ["discover"; "load"; "call"]
  | Some v => let? items := py_iter v in Ok (py_str <$> items)
  end.

Definition tuple_clash (tenant_id object relation user : string) (r : TupleRow) : bool :=
  (rt_tenant_id r =s tenant_id) && (rt_object r =s object) && (rt_relation r =s relation)
  && (rt_user r =s user).

(** INSERT OR IGNORE INTO relationship_tuples *)
Definition insert_tuple (tenant_id object relation user source : string) : Op unit :=
  let! id := new_id "rel" in
  insert_or_ignore db_relationship_tuples (tuple_clash tenant_id object relation user)
    {| rt_id := id; rt_tenant_id := tenant_id; rt_object := object; rt_relation := relation;
       rt_user := user; rt_source := source |}.

(** The grantor must itself hold every right it shares. *)
Definition require_own_right (p : Principal) (c : Capability) (right : string) : Op unit :=
  let! (allowed, reason) := evaluate_access p right (Some c) None true in
  if allowed then ret tt
  else raise (PermissionError ("Cannot share " +:+ repr_str right +:+ ": " +:+ o_or reason "")).

(** The rows of [create_share], once its guards have passed. *)
Definition write_share (p : Principal) (tenant_id capability_uri subject_type subject_id : string)
    (rights : list string) (payload : dict) : Op string :=
  let! from_identity_id := ensure_identity_for_principal p in
  let! share_id := new_id "shr" in
  let! expires_at := lift (sql_text (jget "expiresAt" payload)) in
  let! now := sql_now in
  let! _ := insert_row db_shares
    {| sh_id := share_id; sh_tenant_id := tenant_id; sh_capability_uri := capability_uri;
       sh_from_identity_id := Some from_identity_id; sh_subject_type := subject_type;
       sh_subject_id := subject_id; sh_rights_json := json_dumps (jstrs rights);
       sh_state := "active"; sh_expires_at := expires_at; sh_revoked_at := None;
       sh_created_at := now; sh_updated_at := now |} in
  let! _ := forM rights (fun right =>
    insert_tuple tenant_id capability_uri right (subject_type +:+ ":" +:+ subject_id) "share") in
  let! _ := update_rows db_capabilities (fun r => cp_uri r =s capability_uri)
    (fun r => upd cp_share_state "shared" r) in
  ret share_id.

Definition create_share (p : Principal) (payload : dict) : Op dict :=
  let tenant_id := tenant_of p in
  let capability_uri := str_get2 payload "capabilityUri" "uri" "" in
  if negb (truthy capability_uri) then raise (ValueError "capabilityUri is required.")
  else
    let! row := query (fun d => capability_row d capability_uri tenant_id) in
    match row with
    | None => raise (ValueError "Capability not found.")
    | Some row =>
        let! capability := lift (capability_from_row row) in
        let! _ := require_access p "share" (Some capability) None in
        let! rights := lift (requested_rights payload) in
        if match rights with [] => true | _ => negb (List.forallb (fun r => smem r RIGHTS) rights) end
        then raise (ValueError "rights contains an unsupported right.")
        else
          let! _ := forM rights (require_own_right p capability) in
          let subject_type := str_get payload "subjectType" "user" in
          let subject_id := str_get payload "subjectId" "" in
          if negb (truthy subject_id) then raise (ValueError "subjectId is required.")
          else
            let! share_id := write_share p tenant_id capability_uri subject_type subject_id rights payload in
            let! _ := audit_event "share.created" (p_subject p) (Some capability_uri) (Some "share")
              (Some "allow") None payload tenant_id "user" in
            let! _ := commit in
            let! r := query (fun d => fetchone (fun r => sh_id r =s share_id) (db_shares d)) in
            lift (fetch_record share_record r)
    end.

(** [DELETE FROM relationship_tuples ... AND source = 'share'] for one stored
    right. *)
Definition delete_share_tuple (tenant_id object user : string) (right : json) : Op unit :=
  let! relation := lift (sql_text right) in
  match relation with
  | None => ret tt
  | Some rel => delete_rows db_relationship_tuples
      (fun r => (rt_tenant_id r =s tenant_id) && (rt_object r =s object) && (rt_relation r =s rel)
                && (rt_user r =s user) && (rt_source r =s "share"))
  end.

Definition revoke_share (p : Principal) (share_id : string) : Op dict :=
  let tenant := p_tenant_id p in
  let! row := query (fun d => fetchone (fun r => (sh_id r =s share_id) && (sh_tenant_id r =s tenant))
                                (db_shares d)) in
  match row with
  | None => raise (ValueError "Share not found.")
  | Some row =>
      let! cap := query (fun d => capability_row d (sh_capability_uri row) tenant) in
      match cap with
      | None => raise (ValueError "Capability not found.")
      | Some cap =>
          let! capability := lift (capability_from_row cap) in
          let identity_id := identity_of p in
          let! (allowed, reason) := evaluate_access p "share" (Some capability) None true in
          if negb allowed && negb (sql_eq (sh_from_identity_id row) identity_id)
          then raise (PermissionError (o_or reason ""))
          else
            let! now := sql_now in
            let! _ := update_rows db_shares (fun r => sh_id r =s share_id)
              (fun r => upd sh_state "revoked" (upd sh_revoked_at (Some now) (upd sh_updated_at now r))) in
            let! rights := lift (py_iter (json_loads (Some (sh_rights_json row)) (JArr []))) in
            let! _ := forM rights
              (delete_share_tuple tenant (sh_capability_uri row)
                 (sh_subject_type row +:+ ":" +:+ sh_subject_id row)) in
            let! _ := audit_event "share.revoked" (p_subject p) (Some (sh_capability_uri row))
              (Some "revoke") (Some "allow") None [("shareId", JStr share_id)] tenant "user" in
            let! _ := commit in
            ret [("id", JStr share_id); ("state", JStr "revoked")]
      end
  end.

Definition list_shares (p : Principal) (capability_uri : option string) : Op (list dict) :=
  let tenant := p_tenant_id p in
  let! _ :=
    (if otruthy capability_uri then
       let! row := query (fun d => capability_row d (or_else capability_uri "") tenant) in
       match row with
       | None => raise (ValueError "Capability not found.")
       | Some row =>
           let! capability := lift (capability_from_row row) in
           require_access p "share" (Some capability) None
       end
     else require_access p "audit" None (Some ("tenant:" +:+ tenant))) in
  let! rows := query (fun d =>
    fetchall (fun r => (sh_tenant_id r =s tenant)
      && (negb (otruthy capability_uri) || sql_eq capability_uri (sh_capability_uri r))) (db_shares d)) in
  ret (share_record <$> newest_first sh_created_at rows).
End Stores.
