(* ===== verification/RolesOrgs.v ===== *)
(** * Role assignments and organization membership ([roles_orgs.py]) *)

From Stdlib Require Import ZArith Ascii String Lia.
From stdpp Require Import base option list strings gmap.
From S2P Require Import Prelude Sha256 PyStr Json Clock Db Models AccessControl RegistryLog.
From S2P Require Import Superadmin Identity Stores.
Local Open Scope string_scope.
Local Open Scope list_scope.

Definition role_record (r : RoleRow) : dict :=
  [("id", JStr (ra_id r)); ("tenantId", JStr (ra_tenant_id r));
   ("subjectType", JStr (ra_subject_type r)); ("subjectId", JStr (ra_subject_id r));
   ("role", JStr (ra_role r)); ("scopeType", JStr (ra_scope_type r));
   ("scopeId", JStr (ra_scope_id r)); ("source", JStr (ra_source r));
   ("createdBy", jopt (ra_created_by r)); ("expiresAt", jopt (ra_expires_at r));
   ("revokedAt", jopt (ra_revoked_at r)); ("createdAt", JStr (ra_created_at r))].

Definition ORG_MEMBER_ROLES : list string := ["member"; "namespace_admin"; "org_admin"].

Section RolesOrgs.
Context `{!Runtime}.

(** INSERT INTO role_assignments with a fresh id. *)
Definition insert_assignment (id tenant_id subject_type subject_id role scope_type scope_id source : string)
    (created_by : string) (expires_at : json) : Op unit :=
  let! expires := lift (sql_text expires_at) in
  let! now := sql_now in
  insert_row db_role_assignments
    {| ra_id := id; ra_tenant_id := tenant_id; ra_subject_type := subject_type;
       ra_subject_id := subject_id; ra_role := role; ra_scope_type := scope_type;
       ra_scope_id := scope_id; ra_source := source; ra_created_by := Some created_by;
       ra_expires_at := expires; ra_revoked_at := None; ra_created_at := now; ra_updated_at := now |}.

Definition role_row_by_id (id : string) (d : DB) : option RoleRow :=
  fetchone (fun r => ra_id r =s id) (db_role_assignments d).

Definition assign_role (p : Principal) (payload : dict) : Op dict :=
  let tenant_id := tenant_of p in
  let! _ := require_access p "manage" None (Some ("tenant:" +:+ tenant_id)) in
  let role := str_get payload "role" "" in
  if negb (smem role (ROLE_RIGHTS.*1)) then raise (ValueError "Unsupported role.")
  else
    let! assignment_id := new_id "rol" in
    let! _ := insert_assignment assignment_id tenant_id (str_get payload "subjectType" "user")
      (str_get payload "subjectId" "") role (str_get payload "scopeType" "tenant")
      (str_get payload "scopeId" tenant_id) (str_get payload "source" "manual") (p_subject p)
      (jget "expiresAt" payload) in
    let! _ := when (py_truthy (jget "relationshipObject" payload))
      (insert_tuple tenant_id (py_str (jget "relationshipObject" payload)) role
         (str_get payload "subjectType" "user" +:+ ":" +:+ str_get payload "subjectId" "")
         (str_get payload "source" "manual")) in
    let! _ := audit_event "role.assigned" (p_subject p) (Some assignment_id) (Some "assign")
      (Some "allow") None payload tenant_id "user" in
    let! _ := commit in
    let! row := query (role_row_by_id assignment_id) in
    lift (fetch_record role_record row).

(** [SET revoked_at = CURRENT_TIMESTAMP, updated_at = CURRENT_TIMESTAMP] *)
Definition revoke_row (now : string) (r : RoleRow) : RoleRow :=
  upd ra_revoked_at (Some now) (upd ra_updated_at now r).

Definition revoke_role (p : Principal) (assignment_id : string) : Op dict :=
  let! _ := require_access p "manage" None (Some ("role:" +:+ assignment_id)) in
  let! now := sql_now in
  let! _ := update_rows db_role_assignments
    (fun r => (ra_id r =s assignment_id) && (ra_tenant_id r =s p_tenant_id p)) (revoke_row now) in
  let! _ := audit_event "role.revoked" (p_subject p) (Some assignment_id) (Some "revoke")
    (Some "allow") None [] (p_tenant_id p) "user" in
  let! _ := commit in
  ret [("id", JStr assignment_id); ("state", JStr "revoked")].

Definition require_admin_or_audit (p : Principal) (resource_uri : string) : Op unit :=
  let! (manage, _) := evaluate_access p "manage" None (Some resource_uri) true in
  if manage then ret tt
  else
    let! (audit, _) := evaluate_access p "audit" None (Some resource_uri) true in
    if audit then ret tt
    else raise (PermissionError "This listing requires the manage or audit right.").

Definition list_roles (p : Principal) : Op (list dict) :=
  let! _ := require_admin_or_audit p ("tenant:" +:+ tenant_of p) in
  let! rows := query (fun d => fetchall (fun r => ra_tenant_id r =s p_tenant_id p) (db_role_assignments d)) in
  ret (role_record <$> newest_first ra_created_at rows).

Definition _resolve_org (tenant_id ref : string) : Op OrgRow :=
  if negb (truthy ref) then raise (ValueError "An org slug, id, or store id is required.")
  else
    let! row := query (fun d =>
      fetchone (fun r => (org_tenant_id r =s tenant_id)
        && ((org_id r =s ref) || (org_slug r =s ref) || sql_eq (org_store_id r) ref))
        (db_organizations d)) in
    match row with
    | Some r => ret r
    | None => raise (ValueError ("Unknown organization: " +:+ ref))
    end.

Definition list_organizations (p : Principal) : Op (list dict) :=
  let! _ := ensure_identity_for_principal p in
  let! rows := query (fun d => fetchall (fun r => org_tenant_id r =s tenant_of p) (db_organizations d)) in
  ret ((fun r => [("id", JStr (org_id r)); ("tenantId", JStr (org_tenant_id r));
                  ("slug", JStr (org_slug r)); ("displayName", JStr (org_display_name r));
                  ("storeId", jopt (org_store_id r)); ("status", JStr (org_status r));
                  ("createdAt", JStr (org_created_at r))])
       <$> sort_by (fun a b => sle (org_slug a) (org_slug b)) rows).

(** [str(payload.get("org") or payload.get("storeId") or payload.get("orgId") or "")] *)
Definition org_ref (payload : dict) : string :=
  py_str (py_or (jget "org" payload) (py_or (jget "storeId" payload)
    (py_or (jget "orgId" payload) (JStr "")))).

(** Manage on the org's store, or else on the tenant. *)
Definition require_org_manage (p : Principal) (org : OrgRow) (message : string) : Op unit :=
  let store_ref := "store:" +:+ match org_store_id org with Some s => s | None => "None" end in
  let! (allowed, _) := evaluate_access p "manage" None (Some store_ref) true in
  if allowed then ret tt
  else
    let! (allowed', reason) := evaluate_access p "manage" None (Some ("tenant:" +:+ tenant_of p)) true in
    if allowed' then ret tt else raise (PermissionError (o_or reason message)).

Definition add_org_member (p : Principal) (payload : dict) : Op dict :=
  let tenant_id := tenant_of p in
  let! org := _resolve_org tenant_id (org_ref payload) in
  let! _ := require_org_manage p org "Adding an org member requires the manage right on the org store." in
  let role := str_get payload "role" "member" in
  if negb (smem role ORG_MEMBER_ROLES)
  then raise (ValueError ("Unsupported org membership role: " +:+ role
                          +:+ " (use member, namespace_admin, or org_admin)."))
  else
    let subject_id := str_get2 payload "subjectId" "user" "" in
    if negb (truthy subject_id) then raise (ValueError "A subjectId (user email/identity) is required.")
    else
      let! assignment_id := new_id "rol" in
      let! _ := insert_assignment assignment_id tenant_id (str_get payload "subjectType" "user")
        subject_id role "org" (org_id org) (str_get payload "source" "manual") (p_subject p)
        (jget "expiresAt" payload) in
      let! _ := audit_event "org.member_added" (p_subject p) (Some (org_id org)) (Some "add_member")
        (Some "allow") None
        [("subjectId", JStr subject_id); ("role", JStr role); ("assignmentId", JStr assignment_id);
         ("orgSlug", JStr (org_slug org))] tenant_id "user" in
      let! _ := commit in
      let! row := query (role_row_by_id assignment_id) in
      lift (fetch_record role_record row).

(** The unrevoked memberships of a subject in an organization. *)
Definition membership (tenant_id org subject_type subject_id : string) (r : RoleRow) : bool :=
  (ra_tenant_id r =s tenant_id) && (ra_scope_type r =s "org") && (ra_scope_id r =s org)
  && (ra_subject_type r =s subject_type) && (ra_subject_id r =s subject_id)
  && is_none (ra_revoked_at r).

Definition remove_org_member (p : Principal) (payload : dict) : Op dict :=
  let tenant_id := tenant_of p in
  let! org := _resolve_org tenant_id (org_ref payload) in
  let! _ := require_org_manage p org "Removing an org member requires the manage right on the org store." in
  let subject_id := str_get2 payload "subjectId" "user" "" in
  if negb (truthy subject_id) then raise (ValueError "A subjectId (user email/identity) is required.")
  else
    let subject_type := str_get payload "subjectType" "user" in
    let mine := membership tenant_id (org_id org) subject_type subject_id in
    let! rowcount := query (fun d => length (fetchall mine (db_role_assignments d))) in
    let! now := sql_now in
    let! _ := update_rows db_role_assignments mine (revoke_row now) in
    let! _ := audit_event "org.member_removed" (p_subject p) (Some (org_id org)) (Some "remove_member")
      (Some "allow") None
      [("subjectId", JStr subject_id); ("subjectType", JStr subject_type);
       ("revoked", JNum (Z.of_nat rowcount)); ("orgSlug", JStr (org_slug org))] tenant_id "user" in
    let! _ := commit in
    ret [("orgId", JStr (org_id org)); ("slug", JStr (org_slug org)); ("subjectId", JStr subject_id);
         ("revoked", JNum (Z.of_nat rowcount)); ("state", JStr "removed")].

Definition list_org_members (p : Principal) (ref : string) : Op (list dict) :=
  let tenant_id := tenant_of p in
  let! org := _resolve_org tenant_id ref in
  let! _ := require_admin_or_audit p
    ("store:" +:+ match org_store_id org with Some s => s | None => "None" end) in
  let! now := utc_now in
  let! rows := query (fun d =>
    fetchall (fun r => (ra_tenant_id r =s tenant_id) && (ra_scope_type r =s "org")
                       && (ra_scope_id r =s org_id org) && is_none (ra_revoked_at r))
      (db_role_assignments d)) in
  ret (role_record <$> List.filter (fun r => negb (expired (ra_expires_at r) now))
                         (newest_first ra_created_at rows)).

(** [limit = min(max(int(limit), 1), 200)] *)
Definition list_audit_events (p : Principal) (limit : Z) : Op (list dict) :=
  let! _ := require_access p "audit" None (Some ("tenant:" +:+ p_tenant_id p)) in
  let n := Z.to_nat (Z.min (Z.max limit 1) 200) in
  let! rows := query (fun d => fetchall (fun r => au_tenant_id r =s p_tenant_id p) (db_audit_events d)) in
  ret ((fun r => [("id", JStr (au_id r)); ("eventType", JStr (au_event_type r));
                  ("actor", JStr (au_actor r)); ("actorType", JStr (au_actor_type r));
                  ("target", jopt (au_target r)); ("action", jopt (au_action r));
                  ("decision", jopt (au_decision r)); ("reason", jopt (au_reason r));
                  ("payload", metadata_of (au_payload_json r)); ("createdAt", JStr (au_created_at r))])
       <$> take n (newest_first au_created_at rows)).
End RolesOrgs.
