(* ===== verification/Gates.v ===== *)
(** * Promotion gates: risk tier and prompt injection ([risk_policy.py],
    [injection_allowlist.py], [prompt_injection.py])

    The two gates [approve_request] evaluates itself.  The Unicode database
    (NFKC normalization and the lower case of non-ASCII letters) is a
    parameter; it is data of the Python runtime, not of this program. *)

From Stdlib Require Import ZArith Ascii String Lia.
From stdpp Require Import base option list strings gmap.
From S2P Require Import Prelude Sha256 PyStr Json Clock Db Models.
Local Open Scope string_scope.
Local Open Scope list_scope.

(** ** Risk tiers *)
Definition evaluate_risk_tier_policy (risk_tier target_vault visibility : string) : bool * string :=
  if smem target_vault ["org"; "private"]
  then (true, "org/private vaults are allowlisted for all risk tiers")
  else if smem risk_tier ["low"; "none"]
  then (true, risk_tier +:+ "-tier capability is allowlisted")
  else if risk_tier =s "medium"
  then (true, "medium-tier capability allowed with warning for all-user namespace")
  else if smem risk_tier ["high"; "critical"]
  then (false, risk_tier +:+ "-tier capability is blocked from the all-user namespace")
  else (false, "unknown risk tier is denied for all-user namespace").

Definition default_promotion_gates : list (string * string) :=
  [("sourceIntegrity", "pending"); ("tests", "pending"); ("retrievalEvals", "pending");
   ("signature", "pending"); ("provenance", "pending"); ("promptInjectionScan", "pending");
   ("riskTierPolicy", "pending")].

(** ** Severity of a scan hit *)
Inductive Severity : Type := SEVERITY_BLOCK | SEVERITY_INFO | SEVERITY_ALLOWED.
Inductive Surface : Type := SURFACE_METADATA | SURFACE_BODY.

Definition is_block (s : Severity) : bool := match s with SEVERITY_BLOCK => true | _ => false end.

Definition ALLOWED_PHRASES : list string :=
  ["act as"; "system prompt"; "you are"; "your role"; "your task"; "ignore previous";
   "disregard the above"; "pretend you are"].
Definition CAPABILITY_NAME_ALLOWLIST : list string :=
  ["-system-prompt"; "-role-definition"; "-persona"; "system-prompt-"; "role-"].
Definition SECURITY_DOMAIN_VOCABULARY : list string :=
  ["exfiltrate"; "bypass auth"; "bypass authentication"].
Definition SECURITY_DOMAIN_PLUGIN_PREFIXES : list string :=
  ["redteam-"; "re-"; "dfir-"; "codeforensics-"].

Definition is_security_domain_plugin (plugin : option string) : bool :=
  match plugin with
  | Some p => truthy p && List.existsb (startswith (lower (strip p))) SECURITY_DOMAIN_PLUGIN_PREFIXES
  | None => false
  end.

Definition name_allowlisted (capability_name : string) : bool :=
  let n := lower capability_name in
  List.existsb (endswith n) CAPABILITY_NAME_ALLOWLIST
  || List.existsb (startswith n) CAPABILITY_NAME_ALLOWLIST.

Definition repr_opt (s : option string) : string :=
  match s with Some x => repr_str x | None => "None" end.

(** The severity of one hit and its reason. *)
Definition classify_scan_result (scan_hit_phrase capability_name : string)
    (capability_kind capability_plugin : option string) (surface : Surface) : Severity * string :=
  let phrase_l := lower scan_hit_phrase in
  let security_domain := is_security_domain_plugin capability_plugin in
  let kind := o_or capability_kind "capability" in
  if smem phrase_l SECURITY_DOMAIN_VOCABULARY && security_domain
  then (SEVERITY_INFO, "security-domain vocabulary " +:+ repr_str scan_hit_phrase +:+ " expected in "
        +:+ kind +:+ " from plugin " +:+ repr_opt capability_plugin +:+ "; flagged but not blocking")
  else if security_domain && (match surface with SURFACE_BODY => true | SURFACE_METADATA => false end)
          && negb (smem phrase_l ALLOWED_PHRASES)
  then (SEVERITY_INFO, "attack payload " +:+ repr_str scan_hit_phrase +:+ " in the body of "
        +:+ repr_opt capability_plugin +:+ " (offensive-security corpus); readable only via an explicit cap.load, flagged but not blocking")
  else if smem phrase_l ALLOWED_PHRASES then
    if name_allowlisted capability_name
    then (SEVERITY_ALLOWED, "flagged phrase " +:+ repr_str scan_hit_phrase +:+ " expected in "
          +:+ kind +:+ " named " +:+ repr_str capability_name)
    else (SEVERITY_INFO, "benign authoring phrase " +:+ repr_str scan_hit_phrase +:+ "; flagged but not blocking")
  else (SEVERITY_BLOCK, "unrecognized injection indicator " +:+ repr_str scan_hit_phrase +:+ " in "
        +:+ repr_str capability_name).

(** A hit is the flagged phrase; an augmented hit carries its classification. *)
Record Hit : Type := mkHit { hit_phrase : string; hit_severity : Severity; hit_reason : string }.

Definition augment (name : string) (kind plugin : option string) (surface : Surface) (phrase : string) : Hit :=
  let '(sev, why) := classify_scan_result phrase name kind plugin surface in mkHit phrase sev why.

Fixpoint filter_scan_hits (hits : list string) (name : string) (kind plugin : option string)
    (surface : Surface) : list Hit * list Hit :=
  match hits with
  | [] => ([], [])
  | phrase :: hits' =>
      let '(blocking, non_blocking) := filter_scan_hits hits' name kind plugin surface in
      let h := augment name kind plugin surface phrase in
      if is_block (hit_severity h) then (h :: blocking, non_blocking)
      else (blocking, h :: non_blocking)
  end.

Fixpoint should_block (hits : list string) (name : string) (kind plugin : option string)
    (surface : Surface) : bool :=
  match hits with
  | [] => false
  | phrase :: hits' =>
      if is_block (fst (classify_scan_result phrase name kind plugin surface)) then true
      else should_block hits' name kind plugin surface
  end.

(** ** The scan *)
Class UnicodeData : Type := {
  nfkc : string -> string;          (** [unicodedata.normalize("NFKC", s)] *)
  unicode_lower : string -> string  (** [s.lower()] *)
}.

(** The code points deleted before matching, and the look-alikes mapped to
    Latin letters, as UTF-8 texts. *)
Definition ZERO_WIDTH : list string :=
  utf8 <$> [8203; 8204; 8205; 8288; 65279; 173; 6158]%N.
Definition HOMOGLYPHS : list (string * string) :=
  (fun kv => (utf8 (fst kv), snd kv)) <$>
  [(1072, "a"); (1077, "e"); (1086, "o"); (1088, "p"); (1089, "c"); (1093, "x"); (1091, "y");
   (1110, "i"); (1109, "s"); (1400, "n"); (1090, "t"); (1074, "b"); (1084, "m"); (1082, "k");
   (609, "g"); (8572, "l"); (957, "v"); (959, "o"); (961, "p"); (945, "a"); (949, "e");
   (953, "i"); (954, "k"); (1141, "v")]%N.

Definition INJECTION_PHRASES : list string :=
  ["ignore previous instructions"; "ignore prior instructions"; "ignore all previous";
   "disregard previous instructions"; "disregard the above"; "system prompt"; "developer message";
   "exfiltrate"; "disable safety"; "disable guardrails"; "bypass authentication"; "bypass auth";
   "reveal your instructions"; "print your system prompt"; "you are now"; "act as";
   "ignore the above"; "forget your previous"; "forget the above"; "new instructions:";
   "override your instructions"; "override the system"; "do not follow your rules";
   "reveal your system prompt"; "show your system prompt"; "jailbreak"; "developer mode";
   "ignore safety"; "bypass your safety"].

(** [re.sub(r"\s+", " ", s)] and [re.sub(r"\s+", "", s)]. *)
Fixpoint collapse_ws (in_space : bool) (s : string) : string :=
  match s with
  | "" => ""
  | String c s' =>
      if is_space c then (if in_space then collapse_ws true s' else String " " (collapse_ws true s'))
      else String c (collapse_ws false s')
  end.
Definition remove_ws (s : string) : string :=
  string_of_list_ascii (List.filter (fun c => negb (is_space c)) (list_ascii_of_string s)).

Section Scan.
Context `{!UnicodeData}.

Definition normalize (content : string) : string :=
  let deleted := fold_left (fun s z => replace_all s z "") ZERO_WIDTH (nfkc content) in
  fold_left (fun s kv => replace_all s (fst kv) (snd kv)) HOMOGLYPHS (unicode_lower deleted).

Definition scan_prompt_injection (content : string) : list string :=
  let normalized := normalize content in
  let collapsed := collapse_ws false normalized in
  let compact := remove_ws normalized in
  List.filter (fun phrase => contains collapsed phrase
                             || contains compact (replace_all phrase " " "")) INJECTION_PHRASES.

Definition newline : string := String (Ascii.ascii_of_nat 10) "".

(** The state of the promptInjectionScan gate and its reason. *)
Definition evaluate_prompt_injection_scan (d : DB) (capability_uri : string)
    (target_namespace_id : option string) : string * string :=
  match fetchone (fun r => sql_eq target_namespace_id (ns_id r)) (db_namespaces d) with
  | None => ("skipped", "target namespace not found; injection scan not enforced")
  | Some ns =>
      match fetchone (fun r => st_id r =s ns_store_id ns) (db_stores d) with
      | None => ("skipped", "target store not found; injection scan not enforced")
      | Some store =>
          let store_kind := st_kind store in
          if negb (smem store_kind ["all_users"; "org"])
          then ("skipped", "injection scan not enforced for " +:+ s_or store_kind "unknown"
                           +:+ " promotion targets")
          else match fetchone (fun r => cp_uri r =s capability_uri) (db_capabilities d) with
          | None => ("skipped", "source capability not found; injection scan not enforced")
          | Some cap =>
              let content := join newline [cp_name cap; cp_title cap; cp_description cap;
                                           cp_metadata_json cap] in
              let flagged := scan_prompt_injection content in
              let kind := Some (cp_type cap) in
              let plugin := Some (o_or (cp_plugin cap) "") in
              if should_block flagged (cp_name cap) kind plugin SURFACE_METADATA
              then
                let blocking := fst (filter_scan_hits flagged (cp_name cap) kind plugin SURFACE_METADATA) in
                ("failed", "blocking prompt-injection indicators: "
                           +:+ join ", " (sorted_strings (remove_dups (hit_phrase <$> blocking))))
              else ("passed", "no blocking prompt-injection indicators (benign hits downgraded to info/allowed)")
          end
      end
  end.
End Scan.

(** ** Lemmas *)
Lemma should_block_exists hits name kind plugin surface :
  should_block hits name kind plugin surface = true <->
  exists phrase, phrase ∈ hits /\
    fst (classify_scan_result phrase name kind plugin surface) = SEVERITY_BLOCK.
Proof.
  induction hits as [|x hits IH]; cbn.
  - split; [done|]. by intros (? & ?%elem_of_nil & _).
  - destruct (is_block _) eqn:E.
    + split; [|done]. intros _. exists x. split; [left|].
      by destruct (fst (classify_scan_result x name kind plugin surface)).
    + rewrite IH. split.
      * intros (y & Hy & Hc). exists y. by split; [right|].
      * intros (y & [->|Hy]%elem_of_cons & Hc); [by rewrite Hc in E|]. by exists y.
Qed.

(** The two functions of the gate agree: a hit blocks exactly when the filter
    puts it among the blocking ones. *)
Lemma filter_should_block hits name kind plugin surface :
  should_block hits name kind plugin surface
  = match fst (filter_scan_hits hits name kind plugin surface) with [] => false | _ => true end.
Proof.
  induction hits as [|x hits IH]; [done|]. cbn.
  destruct (filter_scan_hits hits name kind plugin surface) as [b n]. unfold augment.
  destruct (classify_scan_result x name kind plugin surface) as [sev why]. cbn.
  by destruct (is_block sev).
Qed.

(** When does one phrase block. *)
Lemma classify_block_iff phrase name kind plugin surface :
  fst (classify_scan_result phrase name kind plugin surface) = SEVERITY_BLOCK <->
  smem (lower phrase) ALLOWED_PHRASES = false /\
  (is_security_domain_plugin plugin = true ->
   surface = SURFACE_METADATA /\ smem (lower phrase) SECURITY_DOMAIN_VOCABULARY = false).
Proof.
  unfold classify_scan_result.
  destruct (is_security_domain_plugin plugin), surface, (smem (lower phrase) SECURITY_DOMAIN_VOCABULARY),
    (smem (lower phrase) ALLOWED_PHRASES), (name_allowlisted name); cbn; intuition congruence.
Qed.

Module GatesDemo.
Definition ascii_only : UnicodeData := {| nfkc := fun s => s; unicode_lower := lower |}.
End GatesDemo.

Example scan_example :
  @scan_prompt_injection GatesDemo.ascii_only ("Please act" +:+ newline +:+ " as  a SYSTEM" +:+ utf8 8203 +:+ "PROMPT")
  = ["system prompt"; "act as"].
Proof. vm_compute. reflexivity. Qed.
