(* ===== verification/Signing.v ===== *)
(** * Attestation signing ([signing.py]) and provenance records ([provenance.py])

    Base64, the key file and its guards, signing and verifying an attestation
    envelope, and the SLSA-style provenance statement.  The Ed25519 primitives
    and PEM files are those of the [cryptography] package, and path resolution
    is the machine's: both are parameters. *)

From Stdlib Require Import ZArith Ascii String Lia.
From stdpp Require Import base option list strings gmap.
From S2P Require Import Prelude Sha256 PyStr Json Base64 Clock Db Models.
Local Open Scope string_scope.
Local Open Scope list_scope.

(** ** Files and keys *)

(** What the machine and the [cryptography] package supply. *)
Class Machine : Type := {
  expand_user : string -> string;                  (** [str(Path(p).expanduser())] *)
  resolve_path : string -> string;                 (** [str(Path(p).expanduser().resolve())] *)
  os_error : string -> string;                     (** the text of an OSError on a path *)
  ed_generate : nat -> string;                     (** the n-th fresh private key *)
  ed_public : string -> string;                    (** its raw public key *)
  ed_sign : string -> string -> string;            (** private key, message *)
  ed_verify : string -> string -> string -> bool;  (** raw public key, signature, message *)
  private_pem : string -> string;                  (** PKCS8 PEM without encryption *)
  load_pem : string -> outcome (option string);    (** [None]: a key of another kind *)
  json_error_at : string -> Z * Z                  (** line and column of a JSONDecodeError *)
}.

(** [handle.read(n)] *)
Fixpoint read_upto (n : Z) (s : string) : string :=
  match s with
  | EmptyString => ""
  | String c s' => if Z.leb n 0 then "" else String c (read_upto (n - 1) s')
  end.

(** [a / b] and [path.parent] of a resolved path. *)
Definition path_join (a b : string) : string := rstrip_by (one_of "/") a +:+ "/" +:+ b.
Fixpoint drop_name (s : string) : string :=
  match s with
  | EmptyString => ""
  | String c s' => if ceqb c "/"%char then s' else drop_name s'
  end.
Definition path_parent (p : string) : string := s_or (srev (drop_name (srev p))) "/".

Definition _canonical_json (v : json) : string := raw_json (sort_keys v).
Definition key_id (public_key : string) : string := "sha256:" +:+ sha256_hex public_key.

Section Signing.
Context `{!Runtime, !Machine}.

Definition _production : bool :=
  smem (lower (strip (getenv "CAPMESH_ENVIRONMENT" ""))) ["prod"; "production"].

Definition state_dir : string := expand_user (getenv "CAPMESH_STATE_DIR" "~/.capmesh").

Definition signing_key_path : outcome string :=
  let configured := strip (getenv "CAPMESH_SIGNING_KEY_FILE" "") in
  if truthy configured then Ok (resolve_path configured)
  else if _production
  then Raise (OtherError "RuntimeError: Production requires CAPMESH_SIGNING_KEY_FILE to reference an existing 0600 key.")
  else Ok (resolve_path (path_join (path_join state_dir "signing") "capmesh-ed25519.pem")).

Definition file_at (path : string) : Op (option FileNode) := gets (fun w => w_files w !! path).
Definition set_file (path : string) (n : FileNode) : Op unit :=
  modify (fun w => upd w_files (<[path := n]> (w_files w)) w).

Definition mode_600 : Z := 384.
Definition mode_700 : Z := 448.

(** [os.open(path, O_RDONLY | O_NOFOLLOW)] *)
Definition os_open (path : string) : Op FileNode :=
  let! node := file_at path in
  match node with
  | None => raise (OtherError ("FileNotFoundError: " +:+ os_error path))
  | Some n =>
      match fn_kind n with
      | Symlink => raise (OtherError ("OSError: " +:+ os_error path))
      | _ => if fn_readable n then ret n else raise (PermissionError (os_error path))
      end
  end.

Definition is_regular (n : FileNode) : bool := match fn_kind n with Regular => true | _ => false end.

Definition _read_private_key (path : string) : Op string :=
  let! n := os_open path in
  if negb (is_regular n) || negb (Z.eqb (fn_mode n) mode_600)
  then raise (PermissionError ("Capmesh signing key must be a regular file with mode 0600: " +:+ path))
  else
    let! key := lift (load_pem (read_upto 65536 (fn_content n))) in
    match key with
    | Some k => ret k
    | None => raise (OtherError "TypeError: CAPMESH_SIGNING_KEY_FILE is not an Ed25519 private key.")
    end.

(** [mkdir(parents=True, exist_ok=True)], the check that it is a real directory
    and the restriction of its mode. *)
Definition make_key_directory (dir : string) : Op unit :=
  let! node := file_at dir in
  match node with
  | None => set_file dir (mkFileNode Directory mode_700 true "")
  | Some n =>
      match fn_kind n with
      | Directory => set_file dir (mkFileNode Directory mode_700 (fn_readable n) (fn_content n))
      | Symlink => raise (PermissionError ("Capmesh signing directory must be a real directory: " +:+ dir))
      | _ => raise (OtherError ("FileExistsError: " +:+ os_error dir))
      end
  end.

Definition generate_key : Op string :=
  fun w => (Ok (ed_generate (w_uuid w)), upd w_uuid (S (w_uuid w)) w).

Definition _write_new_key (path : string) : Op string :=
  let! key := generate_key in
  let! _ := make_key_directory (path_parent path) in
  let! node := file_at path in
  match node with
  | Some _ => _read_private_key path
  | None =>
      let! _ := set_file path (mkFileNode Regular mode_600 true (private_pem key)) in
      ret key
  end.

Definition load_or_create_signing_key (persist : bool) : Op string :=
  let! path := lift signing_key_path in
  let! node := file_at path in
  if is_some node then _read_private_key path
  else if _production
  then raise (OtherError ("FileNotFoundError: Production signing key does not exist: " +:+ path))
  else if persist then _write_new_key path
  else generate_key.

Definition trusted_signing_key_id : Op string :=
  let! path := lift signing_key_path in
  let! key := _read_private_key path in
  ret (key_id (ed_public key)).

(** [b64decode] of a value of the attestation. *)
Definition b64_value (v : option json) : option string :=
  match v with Some (JStr s) => b64decode s | _ => None end.

Definition verify_attestation (attestation : dict) (trusted_key_id : option string) : bool :=
  match dget "algorithm" attestation with
  | Some (JStr a) =>
      (a =s "Ed25519") &&
      match b64_value (dget "publicKey" attestation), dget "keyId" attestation,
            b64_value (dget "signature" attestation), dget "envelope" attestation with
      | Some public_key, Some embedded, Some signature, Some envelope =>
          (py_str embedded =s key_id public_key)
          && match trusted_key_id with Some t => py_str embedded =s t | None => true end
          && ed_verify public_key signature (_canonical_json envelope)
      | _, _, _, _ => false
      end
  | _ => false
  end.

Definition sign_with (key : string) (envelope : dict) : dict :=
  let public_key := ed_public key in
  [("algorithm", JStr "Ed25519"); ("keyId", JStr (key_id public_key)); ("envelope", JObj envelope);
   ("publicKey", JStr (b64encode public_key));
   ("signature", JStr (b64encode (ed_sign key (_canonical_json (JObj envelope)))))].

Definition sign_attestation (envelope : dict) (persist : bool) : Op dict :=
  let! key := load_or_create_signing_key persist in
  let result := sign_with key envelope in
  if verify_attestation result (Some (key_id (ed_public key))) then ret result
  else raise (OtherError "RuntimeError: Newly signed provenance attestation did not verify.").
End Signing.

(** ** Provenance records *)
Record ProvenanceRecord : Type := mkProvenanceRecord {
  pv_source_commit : string; pv_ingest_hash : string; pv_builder_identity : string;
  pv_built_at : string; pv_predicate_type : string; pv_subject_uri : string
}.

Record ProvenanceResult : Type := mkProvenanceResult {
  pvr_status : string; pvr_record : option ProvenanceRecord; pvr_reason : string
}.

Definition compute_provenance_status (content_hash canonical_uri source_commit builder_identity built_at : string)
  : ProvenanceResult :=
  if negb (truthy source_commit) || (source_commit =s "unknown")
  then mkProvenanceResult "skipped" None "source commit unknown"
  else if negb (truthy content_hash)
  then mkProvenanceResult "failed" None "capability missing content_hash"
  else mkProvenanceResult "passed"
         (Some (mkProvenanceRecord source_commit content_hash builder_identity built_at
                  "https://slsa.dev/provenance/v1" canonical_uri))
         "provenance record built".

Definition to_jsonl_attestation (r : ProvenanceRecord) : string :=
  json_dumps (JObj
    [("_type", JStr "https://in-toto.io/Statement/v1"); ("predicateType", JStr (pv_predicate_type r));
     ("subject", JArr [JObj [("uri", JStr (pv_subject_uri r));
                             ("digest", JObj [("sha256", JStr (pv_ingest_hash r))])]]);
     ("predicate", JObj
        [("builder", JObj [("id", JStr (pv_builder_identity r))]);
         ("buildType", JStr "capmesh-ingest");
         ("materials", JArr [JObj [("uri", JStr ("git+" +:+ pv_source_commit r))]]);
         ("startedAt", JStr (pv_built_at r)); ("finishedAt", JStr (pv_built_at r))])]).

Definition attestation_digest (r : ProvenanceRecord) : string := sha256_hex (to_jsonl_attestation r).
