(* ===== verification/SourceGates.v ===== *)
(** * The gates on a capability's source ([lifecycle.py])

    Reading the source file, decoding it, the checks on its hash, its metadata
    and its provenance. *)

From Stdlib Require Import ZArith Ascii String Lia.
From stdpp Require Import base option list strings gmap.
From S2P Require Import Prelude Sha256 PyStr Json Clock Db Models Gates Signing.
Local Open Scope string_scope.
Local Open Scope list_scope.

(** [_gate(state, code=..., warnings=..., **details)] *)
Definition _gate (state code : string) (warnings : list string) (details : dict) : dict :=
  [("state", JStr state);
   ("evidence", JObj (dmerge [("code", JStr code); ("warnings", jstrs warnings)] details))].

Definition MAX_SOURCE_BYTES : Z := 4194304.

(** ** [bytes.decode("utf-8", errors="replace")]: each maximal ill-formed prefix
    becomes one U+FFFD. *)
Definition fffd : string := utf8 65533.
Definition between (lo hi : nat) (c : ascii) : bool := (lo <=? code c)%nat && (code c <=? hi)%nat.
Definition is_cont (c : ascii) : bool := between 128 191 c.
(** The second bytes a lead byte allows. *)
Definition second_ok (a b : ascii) : bool :=
  if (code a =? 224)%nat then between 160 191 b
  else if (code a =? 237)%nat then between 128 159 b
  else if (code a =? 240)%nat then between 144 191 b
  else if (code a =? 244)%nat then between 128 143 b
  else is_cont b.

Fixpoint decode_replace (s : string) : string :=
  match s with
  | EmptyString => ""
  | String a s1 =>
      if (code a <? 128)%nat then String a (decode_replace s1)
      else match s1 with
      | EmptyString => fffd
      | String b s2 =>
          if between 194 223 a then
            if is_cont b then String a (String b (decode_replace s2)) else fffd +:+ decode_replace s1
          else if between 224 239 a then
            if negb (second_ok a b) then fffd +:+ decode_replace s1
            else match s2 with
            | EmptyString => fffd
            | String c s3 =>
                if is_cont c then String a (String b (String c (decode_replace s3)))
                else fffd +:+ decode_replace s2
            end
          else if between 240 244 a then
            if negb (second_ok a b) then fffd +:+ decode_replace s1
            else match s2 with
            | EmptyString => fffd
            | String c s3 =>
                if negb (is_cont c) then fffd +:+ decode_replace s2
                else match s3 with
                | EmptyString => fffd
                | String e s4 =>
                    if is_cont e then String a (String b (String c (String e (decode_replace s4))))
                    else fffd +:+ decode_replace s3
                end
            end
          else fffd +:+ decode_replace s1
      end
  end.

(** ** [str.splitlines] *)
Definition cons_first (c : ascii) (l : list string) : list string :=
  match l with [] => [String c ""] | x :: xs => String c x :: xs end.
Definition line_break (c : ascii) : bool := between 10 13 c || between 28 30 c.
Fixpoint splitlines (s : string) : list string :=
  match s with
  | EmptyString => []
  | String c s1 =>
      if line_break c then
        "" :: match s1 with
              | String d s2 => if (code c =? 13)%nat && (code d =? 10)%nat then splitlines s2 else splitlines s1
              | EmptyString => []
              end
      else match s1 with
      | String d s2 =>
          if (code c =? 194)%nat && (code d =? 133)%nat then "" :: splitlines s2
          else match s2 with
          | String e s3 =>
              if (code c =? 226)%nat && (code d =? 128)%nat && between 168 169 e
              then "" :: splitlines s3 else cons_first c (splitlines s1)
          | EmptyString => cons_first c (splitlines s1)
          end
      | EmptyString => cons_first c (splitlines s1)
      end
  end.

(** ** Front matter *)

(** [re.match(r"^([A-Za-z][A-Za-z0-9_-]*):\s*(.*)$", line)]: the key and the
    stripped value. *)
Definition key_char (c : ascii) : bool := is_alnum c || one_of "_-" c.
Definition field_of (line : string) : option (string * string) :=
  match partition ":"%char line with
  | Some (String c k, v) =>
      if is_alpha c && sall key_char k then Some (String c k, strip v) else None
  | _ => None
  end.

Definition continues (line : string) : bool :=
  startswith line " " || startswith line (String (Ascii.ascii_of_nat 9) "").
Definition folded (lines : list string) : string :=
  strip_by (ceqb apostrophe) (strip_by (ceqb quote_char) (strip (join " " lines))).

(** The loop over the lines; [pending] is the key whose continuation lines are
    being collected. *)
Fixpoint fields_loop (pending : option (string * list string)) (lines : list string) (fields : dict) : dict :=
  let close (fields : dict) := match pending with
                               | Some (k, acc) => dset (lower k) (JStr (folded acc)) fields
                               | None => fields
                               end in
  match lines with
  | [] => close fields
  | line :: lines' =>
      match pending, continues line with
      | Some (k, acc), true => fields_loop (Some (k, acc ++ [strip line])) lines' fields
      | _, _ =>
          match field_of line with
          | Some (k, v) =>
              if truthy v then fields_loop None lines' (dset (lower k) (JStr v) (close fields))
              else fields_loop (Some (k, [])) lines' (close fields)
          | None => fields_loop None lines' (close fields)
          end
      end
  end.

Definition _frontmatter_fields (text : string) : dict :=
  if negb (startswith text "---") then []
  else
    let rest := removeprefix text "---" in
    match find rest "---" with
    | None => []
    | Some i => fields_loop None (splitlines (stake i rest)) []
    end.

Example frontmatter_example :
  _frontmatter_fields ("---" +:+ newline +:+ "Name: x" +:+ newline +:+ "description:" +:+ newline
                       +:+ "  two" +:+ newline +:+ "  words" +:+ newline +:+ "---" +:+ newline +:+ "body")
  = [("name", JStr "x"); ("description", JStr "two words")].
Proof. vm_compute. reflexivity. Qed.

(** [re.search(r"(?m)^#\s+\S", text)] *)
Definition heading_body (s : string) : bool :=
  match s with
  | String c _ => is_space c && truthy (lstrip_by is_space s)
  | EmptyString => false
  end.
Fixpoint has_heading (line_start : bool) (s : string) : bool :=
  match s with
  | EmptyString => false
  | String c s' =>
      (line_start && ceqb c "#"%char && heading_body s') || has_heading (code c =? 10)%nat s'
  end.

(** [Path(path).suffix] *)
Definition path_name (p : string) : string :=
  List.last (List.filter (fun part => truthy part && negb (part =s ".")) (split_on "/"%char p)) "".
Definition path_suffix (p : string) : string :=
  match partition "."%char (srev (path_name p)) with
  | Some (after, before) => if truthy after && truthy before then "." +:+ srev after else ""
  | None => ""
  end.

Example path_suffix_examples :
  path_suffix "/a/b.c/SKILL.md" = ".md" /\ path_suffix "/a/.env" = "" /\ path_suffix "/a/x." = ""
  /\ path_suffix "/a/x.tar.gz/" = ".gz".
Proof. repeat split; reflexivity. Qed.

(** ** The gates *)
Section SourceGates.
Context `{!Runtime, !Machine}.

(** The bytes of the source and the sourceIntegrity gate. *)
Definition _source_bytes (c : Capability) : Op (option string * dict) :=
  let path := expand_user (c_source_path c) in
  let fail code details := ret (None, _gate "failed" code [] details) in
  let shown := [("path", JStr (resolve_path (c_source_path c)))] in
  let! node := file_at path in
  match node with
  | None => fail "source_missing" shown
  | Some n =>
      match fn_kind n with
      | Symlink => fail "source_missing" shown
      | _ =>
          if negb (fn_readable n) then fail "source_open_failed" shown
          else if negb (is_regular n) then fail "source_not_regular_file" shown
          else
            let size := Z.of_nat (String.length (fn_content n)) in
            let limits n := [("sizeBytes", JNum n); ("limitBytes", JNum MAX_SOURCE_BYTES)] in
            if Z.ltb MAX_SOURCE_BYTES size then fail "source_too_large" (limits size)
            else
              let content := read_upto (MAX_SOURCE_BYTES + 1) (fn_content n) in
              let read := Z.of_nat (String.length content) in
              if Z.ltb MAX_SOURCE_BYTES read then fail "source_too_large" (limits read)
              else
                let actual := "sha256:" +:+ sha256_hex content in
                if negb (actual =s c_content_hash c) then
                  fail "content_hash_mismatch"
                    [("expectedHash", JStr (c_content_hash c)); ("actualHash", JStr actual); ("sizeBytes", JNum read)]
                else ret (Some content, _gate "passed" "source_hash_verified" []
                                          [("contentHash", JStr actual); ("sizeBytes", JNum read)])
      end
  end.

Definition direct_server (v : json) : bool :=
  match v with
  | JObj d => py_truthy (py_or (jget "command" d) (py_or (jget "url" d) (jget "type" d)))
  | _ => false
  end.

(** What a JSON manifest lacks for its type. *)
Definition json_missing (c : Capability) (parsed : dict) : list string :=
  (if (c_type c =s "plugin") && negb (truthy (strip (py_str (py_or (jget "name" parsed) (JStr (c_name c))))))
   then ["plugin.name"] else [])
  ++ (if (c_type c =s "mcp_server")
         && negb (py_truthy (py_or (jget "mcpServers" parsed) (py_or (jget "command" parsed)
                    (py_or (jget "url" parsed) (jget "transport" parsed))))
                  || List.existsb (fun kv => direct_server (snd kv)) parsed)
      then ["mcp_server.connection"] else []).

(** What a Markdown definition lacks, and whether it has front matter. *)
Definition markdown_missing (c : Capability) (text : string) : list string * bool :=
  let frontmatter := _frontmatter_fields text in
  match frontmatter with
  | _ :: _ => ((if (c_type c =s "skill") && negb (py_truthy (jget "description" frontmatter))
                then ["frontmatter.description"] else []), true)
  | [] => ((if has_heading true text then [] else ["markdown.heading"]), false)
  end.

Definition finish_metadata (missing : list string) (details : dict) : dict :=
  match missing with
  | _ :: _ => _gate "failed" "metadata_invalid" []
                (("missing", jstrs (sorted_strings (remove_dups missing))) :: details)
  | [] => _gate "passed" "metadata_validated_static_only" [] details
  end.

Definition _metadata_gate (c : Capability) (content : string) : dict :=
  let text := decode_replace content in
  let missing := fst <$> List.filter (fun kv => negb (truthy (strip (snd kv))))
                   [("name", c_name c); ("title", c_title c); ("description", c_description c)] in
  let details := [("type", JStr (c_type c)); ("sourceKind", JStr (c_source_kind c))] in
  let suffix := lower (path_suffix (c_source_path c)) in
  if suffix =s ".json" then
    match json_parse text with
    | None => let '(line, column) := json_error_at text in
              _gate "failed" "invalid_json" [] [("line", JNum line); ("column", JNum column)]
    | Some (JObj parsed) =>
        finish_metadata (missing ++ json_missing c parsed) (details ++ [("jsonObject", JBool true)])
    | Some _ => _gate "failed" "json_root_not_object" [] []
    end
  else if smem suffix [".md"; ".mdx"] && smem (c_type c) ["skill"; "agent"; "command"] then
    let '(more, has_frontmatter) := markdown_missing c text in
    finish_metadata (missing ++ more)
      (details ++ if has_frontmatter then [("frontmatter", JBool true)] else [])
  else finish_metadata missing details.

Definition _provenance_gate (c : Capability) (reviewer built_at : string) : outcome dict :=
  match c_metadata c with
  | JObj metadata =>
      let explicit := jget "sourceCommit" metadata in
      let source_commit := if py_truthy explicit then py_str explicit else c_content_hash c in
      let result := compute_provenance_status (c_content_hash c) (c_uri c) source_commit reviewer built_at in
      Ok (match pvr_record result with
          | Some record =>
              _gate "passed" "provenance_record_built" []
                [("reason", JStr (pvr_reason result)); ("status", JStr (pvr_status result));
                 ("sourceCommit", JStr source_commit); ("builderIdentity", JStr (pv_builder_identity record));
                 ("builtAt", JStr (pv_built_at record)); ("predicateType", JStr (pv_predicate_type record));
                 ("attestation", JStr (to_jsonl_attestation record)); ("digest", JStr (attestation_digest record))]
          | None =>
              _gate (pvr_status result)
                (if pvr_status result =s "failed" then "provenance_unverified" else "provenance_skipped") []
                [("reason", JStr (pvr_reason result)); ("status", JStr (pvr_status result));
                 ("sourceCommit", JStr source_commit)]
          end)
  | _ => Raise (OtherError "AttributeError: get")
  end.
End SourceGates.
