(* ===== verification/InstallGuards.v ===== *)
(** * Admission guards ([install_guards.py])

    Path resolution over the files of the machine, containment of an entrypoint
    in its package and root, duplicate detection, and the atomic admission of a
    batch of candidates. *)

From Stdlib Require Import ZArith Ascii String Lia.
From stdpp Require Import base option list strings gmap.
From S2P Require Import Prelude PyStr Json Clock Db Signing.
Local Open Scope string_scope.
Local Open Scope list_scope.

Definition UNSERVABLE_ENTRYPOINT : string := "UNSERVABLE_ENTRYPOINT".
Definition DUPLICATE_CAPABILITY : string := "DUPLICATE_CAPABILITY".
Definition ENTRYPOINT_ESCAPES_ROOT : string := "ENTRYPOINT_ESCAPES_ROOT".
Definition UNKNOWN_ROOT : string := "UNKNOWN_ROOT".

Record Candidate : Type := mkCandidate {
  cd_plugin : string; cd_name : string; cd_version : string; cd_root : string; cd_package_path : string;
  cd_entrypoint : string
}.

Definition key (c : Candidate) : string * string := (cd_plugin c, cd_name c).
Definition uri (c : Candidate) : string :=
  "cap://org/asg/" +:+ cd_plugin c +:+ "/" +:+ cd_name c +:+ "@" +:+ cd_version c.

(** ** Paths

    An absolute path as its parts; [Path] drops empty parts and dots. *)
Definition parts (s : string) : list string :=
  List.filter (fun p => truthy p && negb (p =s ".")) (split_on "/" s).
Definition path_text (p : list string) : string := "/" +:+ join "/" p.
Definition absolute (s : string) : bool := startswith s "/".

Section Guards.
Context `{!Machine} (cwd : string) (fs : gmap string FileNode).

(** The target of a symbolic link at a path. *)
Definition link_at (p : list string) : option string :=
  match fs !! path_text p with
  | Some n => match fn_kind n with Symlink => Some (fn_content n) | _ => None end
  | None => None
  end.

(** What [os.path.realpath] makes of a path: the path without links, or, when a
    link leads to itself, the path up to that link with the unread rest. *)
Inductive Resolution : Type := Resolved (p : list string) | Looped (p : list string) | Unfinished.

(** [_joinrealpath]: the parts from left to right, with those already resolved
    in reverse and the links being followed in [active]; a link is replaced by
    the resolution of its target.  A link is never followed inside itself, so
    [fuel] need not exceed the number of links ([walk_total]).  The cache of the
    links already resolved is left out, as it repeats their resolution. *)
Fixpoint walk (fuel : nat) (active : list string) : list string -> list string -> Resolution :=
  fix go (acc rest : list string) : Resolution :=
    match rest with
    | [] => Resolved (reverse acc)
    | p :: rest' =>
        if p =s ".." then go (tail acc) rest'
        else
          let newpath := reverse (p :: acc) in
          match link_at newpath with
          | None => go (p :: acc) rest'
          | Some target =>
              if smem (path_text newpath) active then Looped (newpath ++ rest')
              else match fuel with
                   | O => Unfinished
                   | S fuel' =>
                       match walk fuel' (path_text newpath :: active) (if absolute target then [] else acc) (parts target) with
                       | Resolved q => go (reverse q) rest'
                       | Looped q => Looped (q ++ rest')
                       | Unfinished => Unfinished
                       end
                   end
          end
    end.

(** [os.path.normpath], which takes a step up without looking at links. *)
Definition collapse (p : list string) : list string :=
  reverse (fold_left (fun acc x => if x =s ".." then tail acc else x :: acc) p []).

(** [os.stat]: the kernel follows at most 40 links. *)
Inductive Stat : Type := Found (p : list string) | Missing | Eloop.

Definition is_dir (p : list string) : bool :=
  match p with
  | [] => true
  | _ => match fs !! path_text p with Some n => (match fn_kind n with Directory => true | _ => false end) | None => false end
         || List.existsb (fun kn => startswith (fst kn) (path_text p +:+ "/")) (map_to_list fs)
  end.

Fixpoint stat_walk (links : nat) : list string -> list string -> Stat :=
  fix go (acc rest : list string) : Stat :=
    match rest with
    | [] => Found (reverse acc)
    | p :: rest' =>
        if negb (is_dir (reverse acc)) then Missing
        else if p =s ".." then go (tail acc) rest'
        else match link_at (reverse (p :: acc)) with
             | Some target =>
                 match links with
                 | O => Eloop
                 | S links' => stat_walk links' (if absolute target then [] else acc) (parts target ++ rest')
                 end
             | None => go (p :: acc) rest'
             end
    end.

Definition MAX_LINKS : nat := 40.
Definition stat_path (p : list string) : Stat := stat_walk MAX_LINKS [] p.

(** [Path.resolve]: a path that loops is collapsed, and refused only if what
    is left still loops. *)
Definition resolve_parts (p : list string) : outcome (list string) :=
  match walk (size fs) [] [] p with
  | Resolved q => Ok q
  | Looped q => let q := collapse q in
                match stat_path q with
                | Eloop => Raise (OtherError ("RuntimeError: Symlink loop from " +:+ repr_str (path_text q)))
                | _ => Ok q
                end
  | Unfinished => Raise (OtherError "RecursionError: resolution did not end")
  end.

(** [base / s] *)
Definition joined_parts (base : list string) (s : string) : list string :=
  if absolute s then parts s else base ++ parts s.

Definition _normalized_root (root : string) : outcome (list string) :=
  resolve_parts (joined_parts (parts cwd) (expand_user root)).

Definition refused (code : string) (lines : list string) : exn :=
  InstallGuardError code (join (String (ascii_of_nat 10) "") lines).

Definition escape_error (c : Candidate) (target : list string) (label : string) (boundary : list string) : exn :=
  refused ENTRYPOINT_ESCAPES_ROOT
    ["REFUSED: " +:+ ENTRYPOINT_ESCAPES_ROOT; "";
     "  capability  " +:+ cd_plugin c +:+ " / " +:+ cd_name c;
     "  entrypoint  " +:+ cd_entrypoint c;
     "  resolved to " +:+ path_text target;
     "  escapes " +:+ label +:+ "  " +:+ path_text boundary; "";
     "  An entrypoint may only name bytes inside its own package. A path that";
     "  climbs out would register content the reviewed release never carries."; "";
     "  Remedy: reference a file committed inside the package."].

(** [boundary == target or boundary in target.parents] *)
Definition contains_path (boundary target : list string) : bool := bool_decide (boundary `prefix_of` target).

Definition resolve_entrypoint (c : Candidate) : outcome (list string) :=
  let? root := _normalized_root (cd_root c) in
  let? package := resolve_parts (joined_parts root (cd_package_path c)) in
  let? target := resolve_parts (joined_parts package (cd_entrypoint c)) in
  if negb (contains_path package target) then Raise (escape_error c target "package" package)
  else if negb (contains_path root target) then Raise (escape_error c target "root" root)
  else Ok target.

Definition is_file (p : list string) : bool :=
  match stat_path p with
  | Found q => match fs !! path_text q with Some n => is_regular n | None => false end
  | _ => false
  end.

Definition check_servable (c : Candidate) : outcome (list string) :=
  let? target := resolve_entrypoint c in
  let? root := _normalized_root (cd_root c) in
  if negb (is_file target)
  then Raise (refused UNSERVABLE_ENTRYPOINT
    ["REFUSED: " +:+ UNSERVABLE_ENTRYPOINT; "";
     "  capability  " +:+ cd_plugin c +:+ " / " +:+ cd_name c;
     "  entrypoint  " +:+ cd_entrypoint c;
     "  root        " +:+ path_text root;
     "  resolved to " +:+ path_text target;
     "  not present under that root"; "";
     "  The authority materializes only reviewed content, so registering this would";
     "  advertise a capability the authority cannot serve -- the condition that";
     "  returned HTTP 400 from cap.delegate and stalled the non-voting replica."; "";
     "  Remedy: commit " +:+ cd_entrypoint c +:+ " under " +:+ cd_package_path c +:+ ",";
     "  then republish."])
  else Ok target.

Definition Registry : Type := gmap (string * string) Candidate.

Definition check_duplicate (c : Candidate) (registry : Registry) (supersedes : list string) : outcome string :=
  match registry !! key c with
  | None => Ok "insert"
  | Some existing =>
      let? old_root := _normalized_root (cd_root existing) in
      let? new_root := _normalized_root (cd_root c) in
      if bool_decide (old_root = new_root) then Ok "revision"
      else if smem (uri existing) supersedes then Ok "supersede"
      else Raise (refused DUPLICATE_CAPABILITY
        ["REFUSED: " +:+ DUPLICATE_CAPABILITY; "";
         "  capability           " +:+ cd_plugin c +:+ " / " +:+ cd_name c;
         "  you are publishing   " +:+ uri c;
         "                       from root " +:+ path_text new_root;
         "  already registered   " +:+ uri existing;
         "                       from root " +:+ path_text old_root; "";
         "  A capability with this (plugin, name) already exists from another source.";
         "  Publishing a second row would leave ranking free to return either one -- this";
         "  is the defect that put kubernetes-audit into the catalog at both @0.1.0 and";
         "  @1.1.0."; "";
         "  Choose one:";
         "    (a) Supersede it:  supersedes: [" +:+ String quote_char (uri existing +:+ String quote_char "]");
         "    (b) Publish under a distinct name if this is genuinely different.";
         "    (c) Cancel, if the existing capability already does this."])
  end.

Definition unknown_root (c : Candidate) (root : list string) : exn :=
  refused UNKNOWN_ROOT
    ["REFUSED: " +:+ UNKNOWN_ROOT; "";
     "  capability  " +:+ cd_plugin c +:+ " / " +:+ cd_name c;
     "  root        " +:+ path_text root; "";
     "  That root is not one the authority materializes, so nothing published";
     "  from it could be served. Ambient workstation roots are the ingest";
     "  surface that produced every unservable row."].

Definition check_root (allowed : option (list (list string))) (c : Candidate) : outcome unit :=
  match allowed with
  | None => Ok tt
  | Some roots =>
      let? root := _normalized_root (cd_root c) in
      if bool_decide (root ∈ roots) then Ok tt else Raise (unknown_root c root)
  end.

Fixpoint admit_loop (allowed : option (list (list string))) (supersedes : list string) (known : Registry)
    (candidates : list Candidate) : outcome (list (Candidate * string)) :=
  match candidates with
  | [] => Ok []
  | c :: candidates' =>
      let? _ := check_root allowed c in
      let? _ := check_servable c in
      let? action := check_duplicate c known supersedes in
      let? rest := admit_loop allowed supersedes (<[key c := c]> known) candidates' in
      Ok ((c, action) :: rest)
  end.

(** [{_normalized_root(r) for r in roots}] *)
Fixpoint normalized_roots (roots : list string) : outcome (list (list string)) :=
  match roots with
  | [] => Ok []
  | r :: roots' =>
      let? p := _normalized_root r in
      let? ps := normalized_roots roots' in
      Ok (p :: ps)
  end.

Definition admit_batch (candidates : list Candidate) (registry : option Registry) (roots : option (list string))
    (supersedes : list string) : outcome (list (Candidate * string)) :=
  let? allowed := match roots with
                  | None => Ok None
                  | Some rs => let? ps := normalized_roots rs in Ok (Some ps)
                  end in
  admit_loop allowed supersedes (or_else registry ∅) candidates.

(** ** Lemmas *)

(** A path no part of which is a link or a step up. *)
Definition canonical (p : list string) : Prop :=
  forall q, q `prefix_of` p -> q <> [] -> link_at q = None /\ last q <> Some "..".

Lemma canonical_nil : canonical [].
Proof. intros q [k Hk] Hq. by destruct q. Qed.

Lemma canonical_prefix p q : canonical p -> q `prefix_of` p -> canonical q.
Proof. intros Hp Hq r Hr Hne. apply Hp; [by etrans | done]. Qed.

Lemma prefix_snoc_cases {A} (q p : list A) x : q `prefix_of` p ++ [x] -> q = p ++ [x] \/ q `prefix_of` p.
Proof.
  intros [k Hk]. destruct k as [|y k _] using rev_ind; [left; by rewrite List.app_nil_r in Hk|].
  rewrite List.app_assoc in Hk. apply List.app_inj_tail in Hk as [-> _]. right. by eexists.
Qed.

Lemma canonical_snoc p x : canonical p -> link_at (p ++ [x]) = None -> x <> ".." -> canonical (p ++ [x]).
Proof.
  intros Hp Hl Hx q Hq Hne. apply prefix_snoc_cases in Hq as [->|Hq]; [|by apply Hp].
  rewrite last_snoc. split; [done | congruence].
Qed.

Lemma walk_canonical fuel active acc rest q :
  walk fuel active acc rest = Resolved q -> canonical (reverse acc) -> canonical q.
Proof.
  revert active acc rest q. induction fuel as [|fuel IH]; intros active acc rest q; revert acc;
    (induction rest as [|p rest IHr]; intros acc; cbn [walk]; [by intros [= <-]|]); (destruct (p =s "..") eqn:Ep;
      [intros E Hc; eapply IHr; [exact E|]; destruct acc as [|a acc]; [exact Hc|]; cbn [tail];
       rewrite reverse_cons in Hc; eapply canonical_prefix; [exact Hc | by eexists] |]);
    apply String.eqb_neq in Ep; (destruct (link_at (reverse (p :: acc))) as [t|] eqn:El;
      [destruct (smem _ active); [done|] |
       intros E Hc; eapply IHr; [exact E|]; rewrite reverse_cons in *; by apply canonical_snoc]); [done|].
  destruct (walk fuel _ _ (parts t)) as [q'|q'|] eqn:Ew; [|done|done]. intros E Hc.
  eapply IHr; [exact E|]. rewrite reverse_involutive. eapply IH; [exact Ew|].
  by destruct (absolute t); [apply canonical_nil|].
Qed.

(** The links being followed are distinct, so the fuel is never used up. *)
Lemma walk_total_gen fuel active acc rest :
  NoDup active -> (forall x, x ∈ active -> is_Some (fs !! x)) -> (size fs <= fuel + length active)%nat ->
  walk fuel active acc rest <> Unfinished.
Proof.
  revert active acc rest. induction fuel as [|fuel IH]; intros active acc rest Hnd Hin Hsize; revert acc;
    (induction rest as [|p rest IHr]; intros acc; cbn [walk]; [done|]); (destruct (p =s ".."); [apply IHr|]);
    (destruct (link_at (reverse (p :: acc))) as [t|] eqn:El; [|apply IHr]);
    (destruct (smem (path_text (reverse (p :: acc))) active) eqn:Es; [done|]);
    assert (NoDup (path_text (reverse (p :: acc)) :: active)) as Hnd'
      by (constructor; [intros Hx; apply smem_In in Hx; by rewrite Hx in Es | done]);
    assert (forall x, x ∈ path_text (reverse (p :: acc)) :: active -> is_Some (fs !! x)) as Hin'
      by (intros x [-> | Hx]%elem_of_cons; [unfold link_at in El; by destruct (fs !! _) | by apply Hin]).
  - exfalso. assert (length (path_text (reverse (p :: acc)) :: active) <= size fs)%nat as Hle; [|cbn in *; lia].
    rewrite <-size_dom, <-(size_list_to_set (C := gset string) _ Hnd'). apply subseteq_size. intros x Hx.
    apply elem_of_list_to_set in Hx. by apply elem_of_dom, Hin'.
  - destruct (walk fuel _ _ (parts t)) eqn:Ew; [apply IHr | done |]. exfalso. revert Ew. apply IH; [done | done|]. cbn. lia.
Qed.

Lemma resolve_canonical p q : (forall r, walk (size fs) [] [] p <> Looped r) -> resolve_parts p = Ok q -> canonical q.
Proof.
  intros Hl. unfold resolve_parts. destruct (walk (size fs) [] [] p) as [r|r|] eqn:E; [|by destruct (Hl r)|done].
  intros [= <-]. eapply walk_canonical; [exact E | apply canonical_nil].
Qed.

(** The kernel finds a path without links where it is. *)
Lemma stat_canonical links acc rest q : canonical (reverse acc ++ rest) -> stat_walk links acc rest = Found q -> q = reverse acc ++ rest.
Proof.
  revert acc. induction rest as [|p rest IH]; intros acc Hc.
  - rewrite List.app_nil_r in *. by destruct links; intros [= <-].
  - assert (link_at (reverse (p :: acc)) = None /\ p <> "..") as [Hl Hp].
    { destruct (Hc (reverse (p :: acc))) as [Hl Hp].
      - rewrite reverse_cons. exists rest. by rewrite <-List.app_assoc.
      - rewrite reverse_cons. by destruct (reverse acc).
      - rewrite reverse_cons, last_snoc in Hp. split; [done | congruence]. }
    assert (reverse acc ++ p :: rest = reverse (p :: acc) ++ rest) as He by (by rewrite reverse_cons, <-List.app_assoc).
    apply String.eqb_neq in Hp. intros E. rewrite He in *. apply IH; [done|].
    destruct links; cbn [stat_walk] in E; (destruct (is_dir (reverse acc)); [|done]); cbn [negb] in E; by rewrite Hp, Hl in E.
Qed.

Lemma is_file_canonical p : canonical p -> is_file p = true -> exists n, fs !! path_text p = Some n /\ is_regular n = true.
Proof.
  intros Hc. unfold is_file, stat_path. destruct (stat_walk MAX_LINKS [] p) as [q| |] eqn:E; [|done|done].
  apply stat_canonical in E as ->; [|by rewrite reverse_nil]. rewrite reverse_nil, List.app_nil_l.
  destruct (fs !! path_text p) as [n|]; [|done]. intros Hr. by exists n.
Qed.

(** What it means for a candidate to be served from its own package. *)
Record served (c : Candidate) (root package target : list string) : Prop := {
  sv_root : _normalized_root (cd_root c) = Ok root;
  sv_package : resolve_parts (joined_parts root (cd_package_path c)) = Ok package;
  sv_target : resolve_parts (joined_parts package (cd_entrypoint c)) = Ok target;
  sv_in_package : package `prefix_of` target;
  sv_in_root : root `prefix_of` target;
  sv_file : is_file target = true
}.

Lemma check_servable_served c target : check_servable c = Ok target <-> exists root package, served c root package target.
Proof.
  unfold check_servable, resolve_entrypoint, contains_path. split.
  - destruct (_normalized_root (cd_root c)) as [root|] eqn:Er; [|done]. cbn [obind].
    destruct (resolve_parts (joined_parts root _)) as [package|] eqn:Ep; [|done]. cbn [obind].
    destruct (resolve_parts (joined_parts package _)) as [t|] eqn:Et; [|done]. cbn [obind].
    destruct (bool_decide_reflect (package `prefix_of` t)); [|done]. cbn [negb].
    destruct (bool_decide_reflect (root `prefix_of` t)); [|done]. cbn [negb obind].
    destruct (is_file t) eqn:Ef; [|done]. cbn [negb]. intros [= <-]. by exists root, package.
  - intros (root & package & [Er Ep Et Hp Hr Hf]). rewrite Er. cbn [obind]. rewrite Ep. cbn [obind]. rewrite Et. cbn [obind].
    rewrite !bool_decide_eq_true_2 by done. cbn [negb obind]. by rewrite Hf.
Qed.

(** The specification of a batch: every candidate passes the three guards
    against the registry as its predecessors left it. *)
Inductive admissible (allowed : option (list (list string))) (supersedes : list string) :
    Registry -> list (Candidate * string) -> Prop :=
| admissible_nil known : admissible allowed supersedes known []
| admissible_cons known c action ds :
    check_root allowed c = Ok tt -> (exists root package target, served c root package target) ->
    check_duplicate c known supersedes = Ok action ->
    admissible allowed supersedes (<[key c := c]> known) ds ->
    admissible allowed supersedes known ((c, action) :: ds).

Lemma admit_loop_spec allowed supersedes known candidates ds :
  admit_loop allowed supersedes known candidates = Ok ds <-> candidates = ds.*1 /\ admissible allowed supersedes known ds.
Proof.
  revert known ds. induction candidates as [|c candidates IH]; intros known ds; cbn.
  - split; [intros [= <-]; by split; [|constructor]|]. intros [He _]. by destruct ds.
  - split.
    + destruct (check_root allowed c) as [[]|] eqn:Er; [|done]. cbn [obind].
      destruct (check_servable c) as [t|] eqn:Es; [|done]. cbn [obind].
      destruct (check_duplicate c known supersedes) as [action|] eqn:Ed; [|done]. cbn [obind].
      destruct (admit_loop _ _ _ candidates) as [rest|] eqn:El; [|done]. cbn [obind]. intros [= <-].
      apply IH in El as [-> Hadm]. split; [done|]. constructor; [done | | done | done].
      apply check_servable_served in Es as (root & package & Hs). by exists root, package, t.
    + intros [He Hadm]. destruct Hadm as [|known c' action ds Hr (root & package & t & Hs) Hd Hadm]; [done|].
      cbn in He. injection He as -> ->. rewrite Hr. cbn [obind].
      assert (check_servable c' = Ok t) as -> by (apply check_servable_served; by exists root, package).
      cbn [obind]. rewrite Hd. cbn [obind].
      assert (admit_loop allowed supersedes (<[key c' := c']> known) ds.*1 = Ok ds) as -> by (by apply IH). done.
Qed.

Lemma admissible_each allowed supersedes known ds c action :
  admissible allowed supersedes known ds -> (c, action) ∈ ds ->
  check_root allowed c = Ok tt /\ exists root package target, served c root package target.
Proof.
  intros Hadm. induction Hadm as [|known c' action' ds Hr Hs _ _ IH]; [by intros ?%elem_of_nil|].
  intros [[= -> ->]|Hin]%elem_of_cons; [done | by apply IH].
Qed.

(** ** Theorems *)

(** Admission is all or nothing, and exact.  A batch is admitted, with one
    decision per candidate in order, exactly when every candidate comes from an
    allowed root, is served from its own package, and is no duplicate in the
    registry as its predecessors left it; any other batch raises and admits
    nothing. *)
Theorem admit_exact candidates registry roots supersedes ds :
  admit_batch candidates registry roots supersedes = Ok ds <->
  exists allowed, match roots with None => allowed = None | Some rs => exists ps, allowed = Some ps /\ normalized_roots rs = Ok ps end /\
    candidates = ds.*1 /\ admissible allowed supersedes (or_else registry ∅) ds.
Proof.
  unfold admit_batch. destruct roots as [rs|].
  - destruct (normalized_roots rs) as [ps|]; cbn [obind].
    + rewrite admit_loop_spec. split.
      * intros Hd. exists (Some ps). split; [by exists ps | done].
      * by intros (allowed & (ps' & -> & [= <-]) & Hd).
    + split; [done|]. by intros (allowed & (ps' & _ & ?) & _).
  - cbn [obind]. rewrite admit_loop_spec. split; [intros Hd; by exists None | by intros (allowed & -> & Hd)].
Qed.

(** Resolution ends: on every file system, link loops included, [Path.resolve]
    gives a path, or raises because the path loops; the recursion on links is
    never cut off. *)
Theorem resolve_total p :
  walk (size fs) [] [] p <> Unfinished /\
  match resolve_parts p with
  | Ok _ => True
  | Raise e => exists q, walk (size fs) [] [] p = Looped q /\ stat_path (collapse q) = Eloop /\
      e = OtherError ("RuntimeError: Symlink loop from " +:+ repr_str (path_text (collapse q)))
  end.
Proof.
  assert (walk (size fs) [] [] p <> Unfinished) as Ht.
  { apply walk_total_gen; [constructor | by intros x ?%elem_of_nil | cbn; lia]. }
  split; [done|]. unfold resolve_parts. destruct (walk (size fs) [] [] p) as [q|q|]; [done | | done].
  destruct (stat_path (collapse q)) eqn:E; [done | done|]. by exists q.
Qed.

(** C37: No admitted entrypoint leaves its package, when no link of the machine
    leads to itself.  Whatever links and steps up its root, package path and
    entrypoint contain, the entrypoint of every admitted candidate resolves to
    a path that extends those of its package and its root, no part of it is a
    link or a step up, and at that path lies a regular file. *)
Theorem admitted_contained candidates registry roots supersedes ds c action :
  (forall p r, walk (size fs) [] [] p <> Looped r) ->
  admit_batch candidates registry roots supersedes = Ok ds -> (c, action) ∈ ds ->
  exists root package target n, served c root package target /\ canonical target /\
    fs !! path_text target = Some n /\ is_regular n = true.
Proof.
  intros Hloop Hadm Hin. unfold admit_batch in Hadm.
  assert (exists allowed, admissible allowed supersedes (or_else registry ∅) ds) as [allowed Ha].
  { destruct roots as [rs|]; [destruct (normalized_roots rs) as [ps|]; [|done]|]; cbn [obind] in Hadm;
      apply admit_loop_spec in Hadm as [_ Hadm]; by eexists. }
  destruct (admissible_each _ _ _ _ _ _ Ha Hin) as (_ & root & package & target & Hs).
  assert (canonical target) as Hc by (eapply resolve_canonical; [apply Hloop | apply Hs]).
  destruct (is_file_canonical target Hc) as (n & Hn & Hr); [apply Hs|]. by exists root, package, target, n.
Qed.
End Guards.

(** ** A package with a link out of it *)
Module GuardDemo.
#[export] Instance machine : Machine :=
  {| expand_user := fun p => p; resolve_path := fun p => p; os_error := fun p => p; ed_generate := fun _ => "";
     ed_public := fun k => k; ed_sign := fun k m => k +:+ m; ed_verify := fun k s m => s =s (k +:+ m);
     private_pem := fun k => k; load_pem := fun t => Ok (Some t); json_error_at := fun _ => (1, 1)%Z |}.
Definition files : gmap string FileNode :=
  {[ "/caps/pkg/SKILL.md" := mkFileNode Regular 420 true "# Demo"; "/etc/passwd" := mkFileNode Regular 420 true "root";
     "/caps/pkg/link" := mkFileNode Symlink 511 true "/etc/passwd"; "/caps/latest" := mkFileNode Symlink 511 true "/caps/pkg" ]}.
Definition looping : gmap string FileNode := <["/caps/pkg/loop" := mkFileNode Symlink 511 true "loop"]> files.
Definition offer (package entrypoint : string) : Candidate := mkCandidate "plugin" "demo" "1.0.0" "/caps" package entrypoint.
Definition code {A} (o : outcome A) : string := match o with Raise (InstallGuardError c _) => c | _ => "" end.

(** A link inside the package may be followed into the package, not out of it. *)
Example link_followed : check_servable "/" files (offer "latest" "SKILL.md") = Ok ["caps"; "pkg"; "SKILL.md"].
Proof. vm_compute. reflexivity. Qed.
Example link_escapes : code (check_servable "/" files (offer "pkg" "link")) = ENTRYPOINT_ESCAPES_ROOT.
Proof. vm_compute. reflexivity. Qed.
Example step_up_escapes : code (check_servable "/" files (offer "pkg" "../../etc/passwd")) = ENTRYPOINT_ESCAPES_ROOT.
Proof. vm_compute. reflexivity. Qed.
Example absent_refused : code (check_servable "/" files (offer "pkg" "absent.md")) = UNSERVABLE_ENTRYPOINT.
Proof. vm_compute. reflexivity. Qed.
Example loop_refused : is_ok (check_servable "/" looping (offer "pkg" "loop")) = false.
Proof. vm_compute. reflexivity. Qed.

(** With a looping link in the package the guard is passed by: the step up after
    the loop is taken on the text of the path, the rest of it is not resolved,
    and the file served is outside the root. *)
Example loop_passes_guard :
  check_servable "/" looping (offer "pkg" "loop/../link") = Ok ["caps"; "pkg"; "link"] /\
  stat_path looping ["caps"; "pkg"; "link"] = Found ["etc"; "passwd"].
Proof. vm_compute. split; reflexivity. Qed.
End GuardDemo.

Section Witnesses.
Import GuardDemo.

Lemma link_at_files p t : link_at files p = Some t ->
  path_text p = "/caps/pkg/link" /\ t = "/etc/passwd" \/ path_text p = "/caps/latest" /\ t = "/caps/pkg".
Proof.
  unfold link_at, files. destruct (_ !! path_text p) as [n|] eqn:E; [|done].
  rewrite !lookup_insert_Some, lookup_singleton_Some in E.
  destruct E as [[<- <-] | [_ [[<- <-] | [_ [[<- <-] | [_ [<- <-]]]]]]]; intros [= <-]; auto.
Qed.

Lemma files_loop_free p r : walk files (size files) [] [] p <> Looped r.
Proof.
  change (size files) with 4%nat. generalize (@nil string) at 2 as acc.
  induction p as [|x p IH]; intros acc; cbn [walk]; [done|].
  destruct (x =s ".."); [apply IH|]. destruct (link_at files (reverse (x :: acc))) as [t|] eqn:El; [|apply IH].
  apply link_at_files in El as [[-> ->] | [-> ->]]; cbn [smem List.existsb].
  - change (walk files 3 ["/caps/pkg/link"] (if absolute "/etc/passwd" then [] else acc) (parts "/etc/passwd"))
      with (Resolved ["etc"; "passwd"]). apply IH.
  - change (walk files 3 ["/caps/latest"] (if absolute "/caps/pkg" then [] else acc) (parts "/caps/pkg"))
      with (Resolved ["caps"; "pkg"]). apply IH.
Qed.

Lemma admitted_contained_witness :
  exists ds, admit_batch "/" files [offer "latest" "SKILL.md"] None (Some ["/caps"]) [] = Ok ds /\
    forall c action, (c, action) ∈ ds -> exists root package target n, served "/" files c root package target /\
      canonical files target /\ files !! path_text target = Some n /\ is_regular n = true.
Proof.
  destruct (admit_batch "/" files [offer "latest" "SKILL.md"] None (Some ["/caps"]) []) as [ds|e] eqn:E;
    [|vm_compute in E; discriminate E].
  exists ds. split; [reflexivity|]. intros c action Hin.
  exact (admitted_contained _ _ _ _ _ _ _ _ _ files_loop_free E Hin).
Defined.
End Witnesses.
