(* ===== verification/ReportReceipts.v ===== *)
(** * Report receipts ([report_receipts.py])

    The signed receipts the authority gives for a reported outcome: their
    validation, verification and issue.  Every issued receipt is verified before
    it is returned; the theorems say exactly which requests are issued a receipt
    and when a receipt is accepted. *)

From Stdlib Require Import ZArith Ascii String Lia.
From stdpp Require Import base option list strings.
From S2P Require Import Prelude Sha256 PyStr Json Base64 Clock Db Signing.
Local Open Scope string_scope.
Local Open Scope list_scope.

Definition REPORT_RECEIPT_SCHEMA : string := "capmesh.report.receipt.v1".
Definition REPORT_RECEIPT_DOMAIN : string := "ASGCODE:capmesh_report_receipt.v1" +:+ String (ascii_of_nat 0) "".
Definition REPORT_PROVENANCE : string := "https://capmesh.asg.ts.net/tools/call#cap.report".
Definition REPORT_RECEIPT_TTL_SECONDS : Z := 1800.
Definition REPORT_RECEIPT_KEYS : list string :=
  ["schema"; "authoritative"; "event"; "taskId"; "agentUri";
   "bundleDigest"; "capabilityBindingDigest"; "outcomeDigest";
   "outcomeStatus"; "workflowId"; "repo"; "worktree"; "baseCommit";
   "upstreamDelegationId"; "reportId"; "acceptedAt"; "provenance";
   "issued_at"; "expires_at"; "nonce"; "key_id"; "signature"].

(** ** The patterns: a prefix, then a bounded run of one class *)
Definition lower_hex (c : ascii) : bool := is_digit c || (Nat.leb 97 (code c) && Nat.leb (code c) 102).
Definition nonce_char (c : ascii) : bool := is_alnum c || one_of "_.:-" c.

Definition run_of (p : ascii -> bool) (lo hi : nat) (s : string) : bool :=
  sall p s && Nat.leb lo (String.length s) && Nat.leb (String.length s) hi.
Definition fullmatch (prefix : string) (p : ascii -> bool) (lo hi : nat) (s : string) : bool :=
  startswith s prefix && run_of p lo hi (sdrop (String.length prefix) s).

Definition _SHA256_RE : string -> bool := fullmatch "sha256:" lower_hex 64 64.
Definition _TASK_RE : string -> bool := fullmatch "cap-task-" lower_hex 32 32.
Definition _REPORT_RE : string -> bool := fullmatch "cap-report-" lower_hex 32 32.
Definition _WORKFLOW_RE : string -> bool := fullmatch "wf_" url_char 8 120.
Definition _NONCE_RE : string -> bool := fullmatch "" nonce_char 8 160.
Definition _KEY_ID_RE : string -> bool := fullmatch "ed25519:sha256:" lower_hex 64 64.
Definition _SIGNATURE_RE : string -> bool := fullmatch "" url_char 86 86.
Definition _COMMIT_RE : string -> bool := fullmatch "" lower_hex 40 40.
Definition _OUTCOMES : list string := ["OK"; "NEED_HELP"; "BLOCKED"; "FAILED_VERIFY"; "INFRA_DOWN"; "POLICY_DENIED"].

Definition canonical_json (v : json) : string := raw_json (sort_keys v).
Definition authority_key_id (public_key : string) : string := "ed25519:sha256:" +:+ sha256_hex public_key.

(** ** Validation *)
Definition is_text (s : string) (v : json) : bool := match v with JStr x => x =s s | _ => false end.
Definition is_true (v : json) : bool := match v with JBool b => b | _ => false end.
Definition any_of (l : list bool) : bool := List.existsb (fun b => b) l.

(** [set(receipt) == REPORT_RECEIPT_KEYS] *)
Definition canonical_keys (receipt : dict) : bool :=
  List.forallb (fun kv => smem (fst kv) REPORT_RECEIPT_KEYS) receipt
  && List.forallb (fun k => dmem k receipt) REPORT_RECEIPT_KEYS.

Definition malformed (receipt : dict) : bool :=
  let text k := str_get receipt k "" in
  any_of [
    negb (is_text REPORT_RECEIPT_SCHEMA (jget "schema" receipt));
    negb (is_true (jget "authoritative" receipt));
    negb (is_text "asgcode.workflow.stage" (jget "event" receipt));
    negb (is_text REPORT_PROVENANCE (jget "provenance" receipt));
    negb (_TASK_RE (text "taskId"));
    negb (startswith (text "agentUri") "cap://");
    negb (_SHA256_RE (text "bundleDigest"));
    negb (_SHA256_RE (text "capabilityBindingDigest"));
    negb (_SHA256_RE (text "outcomeDigest"));
    negb (match jget "outcomeStatus" receipt with JStr s => smem s _OUTCOMES | _ => false end);
    negb (_WORKFLOW_RE (text "workflowId"));
    negb (match jget "repo" receipt with JStr s => truthy s | _ => false end);
    negb (match jget "worktree" receipt with JStr _ => true | _ => false end);
    negb (_COMMIT_RE (text "baseCommit"));
    negb (_TASK_RE (text "upstreamDelegationId"));
    negb (_REPORT_RE (text "reportId"));
    negb (match jget "acceptedAt" receipt with JStr s => truthy s | _ => false end);
    negb (_NONCE_RE (text "nonce"));
    negb (_KEY_ID_RE (text "key_id"));
    negb (_SIGNATURE_RE (text "signature"))].

(** ReportReceiptError is a ValueError. *)
Definition receipt_error {A} (m : string) : outcome A := Raise (ValueError m).

Definition check_interval (receipt : dict) (now : Z) (require_fresh : bool) : outcome unit :=
  match jget "issued_at" receipt, jget "expires_at" receipt with
  | JNum issued_at, JNum expires_at =>
      if Z.leb expires_at issued_at || Z.ltb 86400 (expires_at - issued_at)
      then receipt_error "report receipt validity interval is malformed"
      else if require_fresh && (Z.ltb (now + 30) issued_at || Z.leb expires_at now)
      then receipt_error "report receipt is expired or from the future"
      else Ok tt
  | _, _ => receipt_error "report receipt validity interval is malformed"
  end.

(** The membership test in a set raises for a value that has no hash. *)
Definition _validate_unsigned (receipt : dict) (now : Z) (require_fresh : bool) : outcome unit :=
  if negb (canonical_keys receipt) then receipt_error "report receipt fields are not canonical"
  else match jget "outcomeStatus" receipt with
  | JArr _ => Raise (OtherError "TypeError: unhashable type: 'list'")
  | JObj _ => Raise (OtherError "TypeError: unhashable type: 'dict'")
  | _ =>
      if malformed receipt then receipt_error "report receipt binding is malformed"
      else check_interval receipt now require_fresh
  end.

(** What is signed: every field but the signature. *)
Definition signed_text (receipt : dict) : string :=
  REPORT_RECEIPT_DOMAIN +:+ canonical_json (JObj (List.filter (fun kv => negb (fst kv =s "signature")) receipt)).

(** The bytes of the signature; a value that is no text or no base64 is an
    error the caller turns into a refusal. *)
Definition signature_bytes (receipt : dict) : option string :=
  match jget "signature" receipt with
  | JStr signature_text => urlsafe_b64decode (signature_text +:+ padding signature_text)
  | _ => None
  end.

(** [int(time.time()) if now is None else int(now)] *)
Definition seconds_now (clock : Z) (now : option Z) : Z := or_else now (clock / 1000000)%Z.

(** [datetime.fromtimestamp(s, UTC).isoformat()] with the suffix Z, from the
    year 1 to 9999 (the calendar repeats every 400 years, so a date is computed
    2000 years later); out of range it raises, with a text of its own. *)
Definition accepted_text (s : Z) : outcome string :=
  if Z.ltb s (-62135596800) || Z.leb 253402300800 s then Raise (OtherError "ValueError: year is out of range")
  else
    let days := (s / 86400 + 5 * 146097)%Z in
    let '(y, r) := split_years (S (Z.to_nat (days / 365))) 1970 days in
    let '(m, d) := split_months 11 y 1 r in
    Ok (pad 4 (y - 2000) +:+ "-" +:+ pad 2 m +:+ "-" +:+ pad 2 (d + 1) +:+ "T" +:+ time_text (s mod 86400) +:+ "Z").

Example accepted_text_example :
  accepted_text 1800000000 = Ok (utc_text 1800000000000000) /\ accepted_text (-1) = Ok "1969-12-31T23:59:59Z".
Proof. vm_compute. split; reflexivity. Qed.

(** The arguments of [issue_report_receipt] that are copied to the receipt. *)
Record Claim : Type := mkClaim {
  cl_task_id : string; cl_agent_uri : string; cl_bundle_digest : string; cl_capability_binding_digest : string;
  cl_outcome_digest : string; cl_outcome_status : string; cl_workflow_id : string; cl_repo : string;
  cl_worktree : string; cl_base_commit : string; cl_upstream_delegation_id : string
}.

Section Receipts.
Context `{!Machine}.

Definition verify_report_receipt (receipt : dict) (public_key : string) (clock : Z) (now : option Z)
    (require_fresh : bool) : outcome dict :=
  let current := seconds_now clock now in
  let? _ := _validate_unsigned receipt current require_fresh in
  if negb (is_text (authority_key_id public_key) (jget "key_id" receipt))
  then receipt_error "report receipt key_id mismatch"
  else if match signature_bytes receipt with
          | Some signature => ed_verify public_key signature (signed_text receipt)
          | None => false
          end
  then Ok receipt
  else receipt_error "report receipt signature is invalid".

(** [token] and [nonce] are what secrets.token_hex(16) and token_urlsafe(24)
    give. *)
Definition unsigned_receipt (c : Claim) (issued_at ttl : Z) (accepted_at token nonce key_id : string) : dict :=
  [("schema", JStr REPORT_RECEIPT_SCHEMA); ("authoritative", JBool true); ("event", JStr "asgcode.workflow.stage");
   ("taskId", JStr (cl_task_id c)); ("agentUri", JStr (cl_agent_uri c)); ("bundleDigest", JStr (cl_bundle_digest c));
   ("capabilityBindingDigest", JStr (cl_capability_binding_digest c)); ("outcomeDigest", JStr (cl_outcome_digest c));
   ("outcomeStatus", JStr (cl_outcome_status c)); ("workflowId", JStr (cl_workflow_id c)); ("repo", JStr (cl_repo c));
   ("worktree", JStr (cl_worktree c)); ("baseCommit", JStr (cl_base_commit c));
   ("upstreamDelegationId", JStr (cl_upstream_delegation_id c)); ("reportId", JStr ("cap-report-" +:+ token));
   ("acceptedAt", JStr accepted_at); ("provenance", JStr REPORT_PROVENANCE); ("issued_at", JNum issued_at);
   ("expires_at", JNum (issued_at + ttl)); ("nonce", JStr nonce); ("key_id", JStr key_id)].

Definition signature_text (signature : string) : string :=
  rstrip_by (ceqb pad_char) (urlsafe_b64encode signature).

Definition sign_receipt (signing_key : string) (unsigned : dict) : dict :=
  unsigned ++ [("signature", JStr (signature_text
    (ed_sign signing_key (REPORT_RECEIPT_DOMAIN +:+ canonical_json (JObj unsigned)))))].

Definition issue_report_receipt (signing_key : string) (c : Claim) (clock : Z) (now : option Z) (ttl : Z)
    (token nonce : string) : outcome dict :=
  let issued_at := seconds_now clock now in
  if negb (Z.leb 1 ttl && Z.leb ttl 86400) then receipt_error "report receipt ttl must be 1..86400 seconds"
  else
    let? accepted_at := accepted_text issued_at in
    verify_report_receipt
      (sign_receipt signing_key
        (unsigned_receipt c issued_at ttl accepted_at token nonce (authority_key_id (ed_public signing_key))))
      (ed_public signing_key) clock (Some issued_at) true.
End Receipts.

(** ** The forms of signatures and key ids *)
Lemma signature_text_form s : String.length s = 64%nat ->
  _SIGNATURE_RE (signature_text s) = true /\
  urlsafe_b64decode (signature_text s +:+ padding (signature_text s)) = Some s.
Proof.
  intros Hs. destruct (b64_shape 21 s Hs) as (body & He & Hl & Hstd). cbn in Hl.
  assert (signature_text s = smap std_to_url body) as Htext.
  { unfold signature_text, urlsafe_b64encode. rewrite He, smap_app. apply rstrip_by_app; [|done].
    rewrite sall_smap. eapply sall_impl, Hstd. intros c Hc. by apply negb_true_iff, std_char_url. }
  rewrite Htext. split.
  - unfold _SIGNATURE_RE, fullmatch, run_of. cbn [startswith String.length sdrop andb].
    rewrite length_smap, Hl, sall_smap. cbn [Nat.leb]. rewrite !andb_true_r.
    eapply sall_impl, Hstd. intros c Hc. by apply std_char_url.
  - unfold padding. rewrite length_smap, Hl. change (Z.to_nat _) with 2%nat. cbn match.
    unfold urlsafe_b64decode. rewrite smap_app, smap_smap. change (smap url_to_std "==") with "==".
    rewrite (smap_id std_char); [by rewrite <-He, b64_roundtrip | by intros c Hc; apply std_char_url | done].
Qed.

Lemma sha256_hex_form s : run_of lower_hex 64 64 (sha256_hex s) = true.
Proof.
  destruct (sha256_hex_digits s) as (xs & Hxs & Hl & Hall).
  assert (String.length (sha256_hex s) = 64%nat) as Hlen.
  { rewrite <-Hl, <-(length_fmap hex_digit xs), <-Hxs. clear. generalize (sha256_hex s). intros t.
    induction t as [|c t IH]; [done|]. cbn. by rewrite IH. }
  unfold run_of. rewrite Hlen. unfold sall. rewrite Hxs. cbn [Nat.leb]. rewrite !andb_true_r.
  apply List.forallb_forall. intros c Hc. apply list_elem_of_In, list_elem_of_fmap in Hc as (x & -> & Hx).
  rewrite Forall_forall in Hall. specialize (Hall x Hx).
  assert (List.forallb (fun n => lower_hex (hex_digit (Z.of_nat n))) (List.seq 0 16) = true) as H16 by (vm_compute; reflexivity).
  rewrite List.forallb_forall in H16. specialize (H16 (Z.to_nat x)). rewrite Z2Nat.id in H16 by lia.
  apply H16, List.in_seq. lia.
Qed.

Lemma authority_key_id_form public_key : _KEY_ID_RE (authority_key_id public_key) = true.
Proof.
  unfold _KEY_ID_RE, fullmatch, authority_key_id. by rewrite startswith_app, sdrop_app, sha256_hex_form.
Qed.

(** ** What is issued and what verifies *)

(** The fields a caller supplies, and the ones drawn at random. *)
Definition claim_ok (c : Claim) : bool :=
  _TASK_RE (cl_task_id c) && startswith (cl_agent_uri c) "cap://" && _SHA256_RE (cl_bundle_digest c)
  && _SHA256_RE (cl_capability_binding_digest c) && _SHA256_RE (cl_outcome_digest c)
  && smem (cl_outcome_status c) _OUTCOMES && _WORKFLOW_RE (cl_workflow_id c) && truthy (cl_repo c)
  && _COMMIT_RE (cl_base_commit c) && _TASK_RE (cl_upstream_delegation_id c).

Lemma str_get_text (d : dict) k s : jget k d = JStr s -> str_get d k "" = s.
Proof. intros Hd. unfold str_get. rewrite Hd. by destruct s. Qed.

Section Issue.
Context `{!Machine}.
(** What the Ed25519 primitives and the secrets module promise. *)
Hypothesis sign_verifies : forall key m, ed_verify (ed_public key) (ed_sign key m) m = true.
Hypothesis sign_length : forall key m, String.length (ed_sign key m) = 64%nat.
Variables token nonce : string.
Hypothesis token_form : run_of lower_hex 32 32 token = true.
Hypothesis nonce_form : run_of url_char 32 32 nonce = true.

Lemma nonce_ok : _NONCE_RE nonce = true.
Proof.
  revert nonce_form. unfold _NONCE_RE, fullmatch, run_of. cbn [startswith String.length sdrop andb].
  rewrite !andb_true_iff, !Nat.leb_le. intros [[Hall Hlo] Hhi]. split_and!; [|lia|lia].
  eapply sall_impl, Hall. intros c. unfold url_char, nonce_char, one_of. cbn.
  rewrite !orb_true_iff. tauto.
Qed.

Section Receipt.
Variables (key accepted_at : string) (c : Claim) (issued_at ttl : Z).
Hypothesis accepted_some : truthy accepted_at = true.
Let unsigned : dict := unsigned_receipt c issued_at ttl accepted_at token nonce (authority_key_id (ed_public key)).
Let receipt : dict := sign_receipt key unsigned.

Lemma issued_malformed : malformed receipt = negb (claim_ok c).
Proof.
  unfold malformed.
  rewrite (str_get_text receipt "taskId" (cl_task_id c) eq_refl), (str_get_text receipt "agentUri" (cl_agent_uri c) eq_refl),
    (str_get_text receipt "bundleDigest" (cl_bundle_digest c) eq_refl),
    (str_get_text receipt "capabilityBindingDigest" (cl_capability_binding_digest c) eq_refl),
    (str_get_text receipt "outcomeDigest" (cl_outcome_digest c) eq_refl),
    (str_get_text receipt "workflowId" (cl_workflow_id c) eq_refl), (str_get_text receipt "baseCommit" (cl_base_commit c) eq_refl),
    (str_get_text receipt "upstreamDelegationId" (cl_upstream_delegation_id c) eq_refl),
    (str_get_text receipt "reportId" ("cap-report-" +:+ token) eq_refl), (str_get_text receipt "nonce" nonce eq_refl),
    (str_get_text receipt "key_id" (authority_key_id (ed_public key)) eq_refl),
    (str_get_text receipt "signature" (signature_text (ed_sign key (REPORT_RECEIPT_DOMAIN +:+ canonical_json (JObj unsigned)))) eq_refl).
  change (jget "outcomeStatus" receipt) with (JStr (cl_outcome_status c)).
  change (jget "repo" receipt) with (JStr (cl_repo c)).
  change (jget "worktree" receipt) with (JStr (cl_worktree c)).
  change (jget "acceptedAt" receipt) with (JStr accepted_at).
  assert (_REPORT_RE ("cap-report-" +:+ token) = true) as ->.
  { unfold _REPORT_RE, fullmatch. by rewrite startswith_app, sdrop_app. }
  rewrite accepted_some, nonce_ok, authority_key_id_form, (proj1 (signature_text_form _ (sign_length key _))).
  unfold claim_ok. change (is_text REPORT_RECEIPT_SCHEMA (jget "schema" receipt)) with true.
  change (is_true (jget "authoritative" receipt)) with true.
  change (is_text "asgcode.workflow.stage" (jget "event" receipt)) with true.
  change (is_text REPORT_PROVENANCE (jget "provenance" receipt)) with true.
  unfold any_of. cbn [List.existsb negb orb].
  destruct (_TASK_RE (cl_task_id c)); [|reflexivity]. destruct (startswith (cl_agent_uri c) "cap://"); [|reflexivity].
  destruct (_SHA256_RE (cl_bundle_digest c)); [|reflexivity].
  destruct (_SHA256_RE (cl_capability_binding_digest c)); [|reflexivity].
  destruct (_SHA256_RE (cl_outcome_digest c)); [|reflexivity]. destruct (smem (cl_outcome_status c) _); [|reflexivity].
  destruct (_WORKFLOW_RE (cl_workflow_id c)); [|reflexivity]. destruct (truthy (cl_repo c)); [|reflexivity].
  destruct (_COMMIT_RE (cl_base_commit c)); [|reflexivity]. by destruct (_TASK_RE (cl_upstream_delegation_id c)).
Qed.

Lemma issued_signature :
  match signature_bytes receipt with
  | Some signature => ed_verify (ed_public key) signature (signed_text receipt)
  | None => false
  end = true.
Proof.
  unfold signature_bytes.
  change (jget "signature" receipt) with (JStr (signature_text (ed_sign key (REPORT_RECEIPT_DOMAIN +:+ canonical_json (JObj unsigned))))).
  cbn match. rewrite (proj2 (signature_text_form _ (sign_length key _))).
  change (signed_text receipt) with (REPORT_RECEIPT_DOMAIN +:+ canonical_json (JObj unsigned)). apply sign_verifies.
Qed.

(** An issued receipt at any instant: what is left is the claim and the time. *)
Lemma verify_issued clock now fresh : (1 <= ttl <= 86400)%Z ->
  verify_report_receipt receipt (ed_public key) clock now fresh =
  if negb (claim_ok c) then receipt_error "report receipt binding is malformed"
  else if fresh && (Z.ltb (seconds_now clock now + 30) issued_at || Z.leb (issued_at + ttl) (seconds_now clock now))
  then receipt_error "report receipt is expired or from the future"
  else Ok receipt.
Proof.
  intros Httl. unfold verify_report_receipt, _validate_unsigned. change (canonical_keys receipt) with true. cbn [negb].
  change (jget "outcomeStatus" receipt) with (JStr (cl_outcome_status c)). cbn iota. rewrite issued_malformed.
  destruct (claim_ok c); cbn [negb]; [|reflexivity]. unfold check_interval.
  change (jget "issued_at" receipt) with (JNum issued_at). change (jget "expires_at" receipt) with (JNum (issued_at + ttl)).
  cbn match. destruct (Z.leb_spec (issued_at + ttl) issued_at); [lia|]. destruct (Z.ltb_spec 86400 (issued_at + ttl - issued_at)); [lia|].
  cbn [orb]. destruct (fresh && _); [reflexivity|]. cbn [obind].
  change (is_text (authority_key_id (ed_public key)) (jget "key_id" receipt))
    with (authority_key_id (ed_public key) =s authority_key_id (ed_public key)).
  rewrite String.eqb_refl. cbn [negb]. by rewrite issued_signature.
Qed.
End Receipt.

Lemma accepted_text_some t a : accepted_text t = Ok a -> truthy a = true.
Proof.
  unfold accepted_text. destruct (_ || _); [done|]. destruct (split_years _ _ _) as [y r], (split_months _ _ _ _) as [m d].
  intros [= <-]. reflexivity.
Qed.

Lemma issue_unfold key c clock now ttl :
  issue_report_receipt key c clock now ttl token nonce =
  if negb (Z.leb 1 ttl && Z.leb ttl 86400) then receipt_error "report receipt ttl must be 1..86400 seconds"
  else let? accepted_at := accepted_text (seconds_now clock now) in
    if negb (claim_ok c) then receipt_error "report receipt binding is malformed"
    else Ok (sign_receipt key (unsigned_receipt c (seconds_now clock now) ttl accepted_at token nonce
                                 (authority_key_id (ed_public key)))).
Proof.
  unfold issue_report_receipt. destruct (Z.leb 1 ttl && Z.leb ttl 86400) eqn:Et; [|reflexivity]. cbn [negb].
  apply andb_true_iff in Et as [?%Z.leb_le ?%Z.leb_le].
  destruct (accepted_text (seconds_now clock now)) as [a|] eqn:Ea; [|reflexivity]. cbn [obind].
  rewrite verify_issued by (by eapply accepted_text_some || lia). destruct (negb (claim_ok c)); [reflexivity|].
  change (seconds_now clock (Some (seconds_now clock now))) with (seconds_now clock now).
  destruct (Z.ltb_spec (seconds_now clock now + 30) (seconds_now clock now)); [lia|].
  destruct (Z.leb_spec (seconds_now clock now + ttl) (seconds_now clock now)); [lia|]. reflexivity.
Qed.

(** Issuing is exact.  A receipt is issued exactly when the lifetime is
    between one second and one day, the instant has a date, and every field the
    caller supplies has its form; any other request raises, and the receipt
    issued is the one signed, not changed by the verification it has passed. *)
Theorem issue_exact key c clock now ttl r :
  issue_report_receipt key c clock now ttl token nonce = Ok r <->
  (1 <= ttl <= 86400)%Z /\ claim_ok c = true /\
  exists accepted_at, accepted_text (seconds_now clock now) = Ok accepted_at /\
    r = sign_receipt key (unsigned_receipt c (seconds_now clock now) ttl accepted_at token nonce
                            (authority_key_id (ed_public key))).
Proof.
  rewrite issue_unfold. split.
  - destruct (Z.leb 1 ttl && Z.leb ttl 86400) eqn:Et; [|done]. cbn [negb].
    apply andb_true_iff in Et as [?%Z.leb_le ?%Z.leb_le].
    destruct (accepted_text _) as [a|] eqn:Ea; [|done]. cbn [obind]. destruct (claim_ok c); [|done]. cbn [negb].
    intros [= <-]. split_and!; [done | done | done | by exists a].
  - intros ([?%Z.leb_le ?%Z.leb_le] & Hc & a & Ha & ->).
    assert (Z.leb 1 ttl && Z.leb ttl 86400 = true) as -> by (by apply andb_true_iff). by rewrite Ha, Hc.
Qed.

(** C39: The window of an issued receipt.  It is accepted, as it is, exactly from
    thirty seconds before its issue until its lifetime has passed; outside that
    window it is refused as stale, and with no freshness required it is always
    accepted. *)
Theorem receipt_window key c clock now ttl r t clock' :
  issue_report_receipt key c clock now ttl token nonce = Ok r ->
  verify_report_receipt r (ed_public key) clock' (Some t) true =
    (if Z.leb (seconds_now clock now - 30) t && Z.ltb t (seconds_now clock now + ttl) then Ok r
     else receipt_error "report receipt is expired or from the future") /\
  verify_report_receipt r (ed_public key) clock' (Some t) false = Ok r.
Proof.
  rewrite issue_unfold. destruct (Z.leb 1 ttl && Z.leb ttl 86400) eqn:Et; [|done]. cbn [negb].
  apply andb_true_iff in Et as [?%Z.leb_le ?%Z.leb_le].
  destruct (accepted_text _) as [a|] eqn:Ea; [|done]. cbn [obind]. destruct (claim_ok c) eqn:Ec; [|done]. cbn [negb].
  intros [= <-]. rewrite !verify_issued by (by eapply accepted_text_some || lia). rewrite Ec. cbn [negb andb]. split; [|done].
  change (seconds_now clock' (Some t)) with t.
  destruct (Z.ltb_spec (t + 30) (seconds_now clock now)), (Z.leb_spec (seconds_now clock now + ttl) t),
    (Z.leb_spec (seconds_now clock now - 30) t), (Z.ltb_spec t (seconds_now clock now + ttl)); cbn [orb andb]; done || lia.
Qed.
End Issue.

Section Soundness.
Context `{!Machine}.

(** C38: What an accepted receipt proves.  Its keys are exactly those of the
    format, its key id is the digest of the trusted key, the trusted key verifies
    its signature over every other field of it under the domain of receipts, and
    its validity is at most a day and, when freshness is asked for, covers the
    present. *)
Theorem verified_receipt r key clock now fresh v :
  verify_report_receipt r key clock now fresh = Ok v ->
  v = r /\ (forall k, k ∈ r.*1 <-> k ∈ REPORT_RECEIPT_KEYS) /\
  jget "key_id" r = JStr (authority_key_id key) /\
  (exists signature, signature_bytes r = Some signature /\ ed_verify key signature (signed_text r) = true) /\
  exists i e, jget "issued_at" r = JNum i /\ jget "expires_at" r = JNum e /\ (i < e <= i + 86400)%Z /\
    (fresh = true -> i <= seconds_now clock now + 30 /\ seconds_now clock now < e)%Z.
Proof.
  unfold verify_report_receipt, _validate_unsigned. destruct (canonical_keys r) eqn:Ek; [|done]. cbn [negb].
  assert ((if malformed r then receipt_error "report receipt binding is malformed" else check_interval r (seconds_now clock now) fresh) =
    (match jget "outcomeStatus" r with JArr _ | JObj _ =>
       if malformed r then receipt_error "report receipt binding is malformed" else check_interval r (seconds_now clock now) fresh
     | _ => if malformed r then receipt_error "report receipt binding is malformed" else check_interval r (seconds_now clock now) fresh end))
    as Hm by (by destruct (jget "outcomeStatus" r)).
  intros E. assert (malformed r = false /\ check_interval r (seconds_now clock now) fresh = Ok tt /\
    (if negb (is_text (authority_key_id key) (jget "key_id" r)) then receipt_error "report receipt key_id mismatch"
     else if match signature_bytes r with Some signature => ed_verify key signature (signed_text r) | None => false end
     then Ok r else receipt_error "report receipt signature is invalid") = Ok v) as (_ & Hi & Hv).
  { clear Hm. destruct (jget "outcomeStatus" r); try discriminate E;
      (destruct (malformed r); [discriminate E|]); (destruct (check_interval _ _ _) as [[]|]; [done | discriminate E]). }
  clear E Hm. destruct (is_text _ (jget "key_id" r)) eqn:Eid; [|done]. cbn [negb] in Hv.
  destruct (signature_bytes r) as [signature|]; [|done]. destruct (ed_verify _ _ _) eqn:Ev; [|done]. injection Hv as <-.
  split_and!; [done | | | by exists signature |].
  - apply andb_true_iff in Ek as [H1 H2]. rewrite List.forallb_forall in H1, H2. intros k. split.
    + intros (kv & -> & Hkv)%list_elem_of_fmap. apply smem_In, H1. by apply list_elem_of_In.
    + intros Hk. apply list_elem_of_In, H2 in Hk. unfold dmem, dget in Hk.
      destruct (List.find _ r) as [kv|] eqn:Ef; [|done]. apply List.find_some in Ef as [Hin Hkv%String.eqb_eq]. subst k.
      apply list_elem_of_fmap. exists kv. split; [done | by apply list_elem_of_In].
  - destruct (jget "key_id" r); try discriminate Eid. by apply String.eqb_eq in Eid as ->.
  - unfold check_interval in Hi. destruct (jget "issued_at" r) as [| |i| | | |]; try discriminate Hi.
    destruct (jget "expires_at" r) as [| |e| | | |]; try discriminate Hi. exists i, e.
    destruct (Z.leb_spec e i); [discriminate Hi|]. destruct (Z.ltb_spec 86400 (e - i)); [discriminate Hi|]. cbn [orb] in Hi.
    split_and!; [done | done | lia | lia |]. intros ->. cbn [andb] in Hi.
    destruct (Z.ltb_spec (seconds_now clock now + 30) i); [discriminate Hi|].
    destruct (Z.leb_spec e (seconds_now clock now)); [discriminate Hi|]. lia.
Qed.
End Soundness.

(** ** A machine whose signatures are digests *)
Module ReceiptDemo.
#[export] Instance machine : Machine :=
  {| expand_user := fun p => p; resolve_path := fun p => p; os_error := fun p => p; ed_generate := fun _ => "";
     ed_public := fun k => k; ed_sign := fun k m => sha256_hex (k +:+ m); ed_verify := fun k s m => s =s sha256_hex (k +:+ m);
     private_pem := fun k => k; load_pem := fun t => Ok (Some t); json_error_at := fun _ => (1, 1)%Z |}.
Definition digits (n : nat) : string := string_of_list_ascii (replicate n "1"%char).
Definition claim : Claim :=
  {| cl_task_id := "cap-task-" +:+ digits 32; cl_agent_uri := "cap://org/asg/agent/workflow-verifier@1.0.0";
     cl_bundle_digest := "sha256:" +:+ digits 64; cl_capability_binding_digest := "sha256:" +:+ digits 64;
     cl_outcome_digest := "sha256:" +:+ digits 64; cl_outcome_status := "OK"; cl_workflow_id := "wf_report_receipt_1234";
     cl_repo := "/srv/repo"; cl_worktree := ""; cl_base_commit := digits 40;
     cl_upstream_delegation_id := "cap-task-" +:+ digits 32 |}.

Lemma sign_verifies key m : ed_verify (ed_public key) (ed_sign key m) m = true.
Proof. apply String.eqb_refl. Qed.
Lemma sign_length key m : String.length (ed_sign key m) = 64%nat.
Proof.
  pose proof (sha256_hex_form (key +:+ m)) as Hf. unfold run_of in Hf.
  apply andb_true_iff in Hf as [[_ ?%Nat.leb_le]%andb_true_iff ?%Nat.leb_le].
  change (String.length (sha256_hex (key +:+ m)) = 64%nat). lia.
Qed.
End ReceiptDemo.

Section Witnesses.
Import ReceiptDemo.
#[local] Opaque sha256_hex.

Lemma issue_exact_witness :
  exists r, issue_report_receipt "key" claim 0 (Some 1800000000%Z) 900 (digits 32) (digits 32) = Ok r.
Proof.
  eexists. apply (issue_exact sign_verifies sign_length (digits 32) (digits 32) eq_refl eq_refl).
  split; [lia|]. split; [vm_compute; reflexivity|]. eexists. split; [vm_compute; reflexivity | reflexivity].
Defined.

Lemma receipt_window_witness :
  exists r, verify_report_receipt r "key" 0 (Some 1800000899%Z) true = Ok r /\
    is_ok (verify_report_receipt r "key" 0 (Some 1800000900%Z) true) = false.
Proof.
  destruct (issue_report_receipt "key" claim 0 (Some 1800000000%Z) 900 (digits 32) (digits 32)) as [r|e] eqn:E.
  - exists r. split.
    + exact (proj1 (receipt_window sign_verifies sign_length (digits 32) (digits 32) eq_refl eq_refl _ _ _ _ _ r 1800000899%Z 0%Z E)).
    + pose proof (proj1 (receipt_window sign_verifies sign_length (digits 32) (digits 32) eq_refl eq_refl _ _ _ _ _ r 1800000900%Z 0%Z E)) as Hw.
      change (ed_public "key") with "key" in Hw. rewrite Hw. reflexivity.
  - rewrite (issue_unfold sign_verifies sign_length (digits 32) (digits 32) eq_refl eq_refl) in E. vm_compute in E. discriminate E.
Defined.

Lemma verified_receipt_witness :
  exists r, jget "key_id" r = JStr (authority_key_id "key").
Proof.
  destruct (issue_report_receipt "key" claim 0 (Some 1800000000%Z) 900 (digits 32) (digits 32)) as [r|e] eqn:E.
  - exists r. unfold issue_report_receipt in E. change (negb _) with false in E. cbn iota in E.
    destruct (accepted_text (seconds_now 0 (Some 1800000000%Z))) as [a|] eqn:Ea; [|vm_compute in Ea; discriminate Ea].
    cbn [obind] in E. pose proof (verified_receipt _ _ _ _ _ _ E) as (Hr & _ & Hid & _). rewrite Hr. exact Hid.
  - rewrite (issue_unfold sign_verifies sign_length (digits 32) (digits 32) eq_refl eq_refl) in E. vm_compute in E. discriminate E.
Defined.
End Witnesses.
