(* ===== verification/TokenClaims.v ===== *)
(** * Token claims ([token_validation.py], [oauth_pkce.py], claims of [tokens.py])

    The checks on the claims of an identity token, PKCE, the decoding and the
    verification of an identity token, and the principals built from Entra and
    Google claims.  The signature check of PyJWT against the keys Microsoft
    publishes is a parameter. *)

From Stdlib Require Import ZArith QArith Ascii String Lia.
From stdpp Require Import base option list strings.
From S2P Require Import Prelude Sha256 PyStr Json Base64 JsonCodec Clock Db Models AccessControl Identity SourceGates.
Local Open Scope string_scope.
Local Open Scope list_scope.

(** ** [float(v)]

    A float is the exact number its text names: rounding to 53 bits is not
    modelled. *)
Inductive PyFloat : Type := Fin (q : Q) | Inf | NegInf | NaN.

Definition flt_lt (a b : PyFloat) : bool :=
  match a, b with
  | Fin x, Fin y => match Qcompare x y with Lt => true | _ => false end
  | Fin _, Inf | NegInf, Fin _ | NegInf, Inf => true
  | _, _ => false
  end.
Definition flt_add (a : PyFloat) (n : Z) : PyFloat := match a with Fin q => Fin (q + inject_Z n) | _ => a end.

Definition power10 (e : Z) : Q :=
  if Z.leb 0 e then inject_Z (10 ^ e) else 1 # Z.to_pos (10 ^ (- e)).

(** Digits with at most one point, then an optional exponent. *)
Definition decimal (u : string) : option Q :=
  let '(m, r) := span (fun c => is_digit c || ceqb c ".") u in
  let '(i, f) := match partition "." m with Some (i, f) => (i, f) | None => (m, "") end in
  if negb (sall is_digit f) || ((i +:+ f) =s "") then None
  else
    let scaled e := (inject_Z (int_of_digits (i +:+ f)) * power10 (e - Z.of_nat (String.length f)))%Q in
    match r with
    | "" => Some (scaled 0%Z)
    | String c e =>
        if (ceqb c "e" || ceqb c "E") && exponent_ok e
        then Some (scaled (if startswith e "-" then (- int_of_digits (strip_sign "+-" e))%Z
                           else int_of_digits (strip_sign "+-" e)))
        else None
    end.

(** Python allows single underscores between digits. *)
Fixpoint drop_underscores (before : bool) (s : string) : option string :=
  match s with
  | "" => Some ""
  | String c s' =>
      if ceqb c "_" then
        match s' with
        | String d _ => if before && is_digit d then drop_underscores false s' else None
        | "" => None
        end
      else String c <$> drop_underscores (is_digit c) s'
  end.

Definition float_text (s : string) : option PyFloat :=
  let u := strip_sign "+-" s in
  let negative := startswith s "-" in
  if smem (lower u) ["inf"; "infinity"] then Some (if negative then NegInf else Inf)
  else if lower u =s "nan" then Some NaN
  else match drop_underscores false u with
       | Some d => (fun q => Fin (if negative then - q else q)) <$> decimal d
       | None => None
       end.

(** The largest integers no float holds raise an OverflowError; [None] is a
    ValueError or a TypeError. *)
Definition py_float (v : json) : outcome (option PyFloat) :=
  match v with
  | JNum n => if Z.leb (2 ^ 1024 - 2 ^ 970) (Z.abs n)
              then Raise (OtherError "OverflowError: int too large to convert to float")
              else Ok (Some (Fin (inject_Z n)))
  | JBool b => Ok (Some (Fin (if b then 1 else 0)))
  | JFloat x => Ok (float_text x)
  | JStr s => Ok (float_text (strip s))
  | _ => Ok None
  end.

(** The float in a message, in the text the claim has. *)
Definition float_repr (v : json) : string :=
  match v with
  | JNum n => str_of_Z n +:+ ".0"
  | JBool b => if b then "1.0" else "0.0"
  | JStr s => strip s
  | _ => py_str v
  end.

Example float_examples :
  float_text "-12.50e1" = Some (Fin (- (inject_Z 1250 * power10 (-1)))) /\ float_text "1_0." = Some (Fin (inject_Z 10 * power10 0)) /\
  float_text "_1" = None /\ float_text "." = None /\ float_text "-Infinity" = Some NegInf.
Proof. vm_compute. repeat split; reflexivity. Qed.

(** ** [token_validation.py] *)
Definition DEFAULT_CLOCK_SKEW_SECONDS : Z := 30.

(** A verdict, with the error message. *)
Definition Verdict : Type := bool * string.
Definition invalid (m : string) : Verdict := (false, m).

(** [aud] as a list: a str stands for itself; iterating over a number is a
    TypeError. *)
Definition audiences_of (aud : json) : outcome (list json) :=
  match aud with JStr s => Ok [JStr s] | _ => py_iter aud end.

Definition overlaps (aud : list json) (expected : list string) : bool :=
  List.existsb (fun a => match a with JStr s => smem s expected | _ => false end) aud.

Definition check_time (claims : dict) (key : string) (late : PyFloat -> bool) (message wrong : string)
    (rest : outcome Verdict) : outcome Verdict :=
  match jget key claims with
  | JNull => rest
  | v => let? t := py_float v in
         match t with
         | None => Ok (invalid wrong)
         | Some t => if late t then Ok (invalid (message +:+ float_repr v +:+ (if key =s "nbf" then ")" else ""))) else rest
         end
  end.

Definition check_issuer (claims : dict) (expected_issuer : option string) (rest : outcome Verdict) : outcome Verdict :=
  match expected_issuer with
  | None => rest
  | Some expected =>
      let iss := match dget "iss" claims with Some v => py_str v | None => "" end in
      if iss =s expected then rest
      else Ok (invalid ("Token issuer mismatch: expected " +:+ expected +:+ ", got " +:+ iss))
  end.

Definition check_audience (claims : dict) (expected_audience : option (list string)) : outcome Verdict :=
  match expected_audience with
  | None => Ok (true, "")
  | Some expected =>
      match jget "aud" claims with
      | JNull => Ok (invalid "Token missing aud claim")
      | aud =>
          let? aud := audiences_of aud in
          if overlaps aud expected then Ok (true, "")
          else Ok (invalid ("Token audience mismatch: expected " +:+ py_repr (jstrs expected) +:+ ", got " +:+ py_repr (JArr aud)))
      end
  end.

(** [expected_audience] as the list a single str stands for. *)
Definition validate_token_claims (claims : json) (expected_audience : option (list string)) (expected_issuer : option string)
    (clock_skew_seconds : Z) (current_time : PyFloat) : outcome Verdict :=
  match claims with
  | JObj claims =>
      check_time claims "exp" (fun t => flt_lt (flt_add t clock_skew_seconds) current_time) "Token expired at " "Invalid exp claim"
        (check_time claims "nbf" (fun t => flt_lt current_time (flt_add t (- clock_skew_seconds)))
           "Token not yet valid (nbf=" "Invalid nbf claim"
           (check_issuer claims expected_issuer (check_audience claims expected_audience)))
  | _ => Ok (invalid "Claims must be a dict")
  end.

Definition validate_resource_indicator (token_claims : dict) (resource_url : string) (allowed_resources : list string) :
    outcome Verdict :=
  match jget "aud" token_claims with
  | JNull => Ok (invalid "Token missing aud (resource indicator)")
  | aud =>
      let? aud := audiences_of aud in
      let resources := resource_url :: allowed_resources in
      if overlaps aud resources then Ok (true, "")
      else Ok (invalid ("Resource indicator does not match: expected one of " +:+ py_repr (jstrs resources) +:+ ", got "
                        +:+ py_repr (JArr aud)))
  end.

Record TokenValidator : Type := mkTokenValidator {
  tv_issuer : option string; tv_audiences : list string; tv_clock_skew : Z
}.

Definition validate (self : TokenValidator) (claims : dict) (resource_url : option string) (now : PyFloat) : outcome Verdict :=
  let expected := match tv_audiences self with [] => None | l => Some l end in
  let? v := validate_token_claims (JObj claims) expected (tv_issuer self) (tv_clock_skew self) now in
  if negb (fst v) then Ok (invalid (snd v))
  else match resource_url with
       | Some url => if truthy url then
                       let? r := validate_resource_indicator claims url [] in
                       if negb (fst r) then Ok (invalid (snd r)) else Ok (true, "")
                     else Ok (true, "")
       | None => Ok (true, "")
       end.

(** ** PKCE ([oauth_pkce.py]) *)
Definition CODE_CHALLENGE_METHOD : string := "S256".

(** [s.encode("ascii")]; a UnicodeEncodeError is a ValueError. *)
Definition encode_ascii (s : string) : outcome string :=
  if ascii_str s then Ok s else Raise (ValueError "'ascii' codec can't encode character").

(** The bytes a hexadecimal text stands for: [digest()] beside [hexdigest()]. *)
Fixpoint unhex (s : string) : string :=
  match s with
  | String a (String b s') => String (chr (or_else (hex_val a) 0 * 16 + or_else (hex_val b) 0)%N) (unhex s')
  | _ => ""
  end.

Definition compute_code_challenge (verifier : string) : outcome string :=
  let? v := encode_ascii verifier in Ok (unpadded (unhex (sha256_hex v))).

(** The example of RFC 7636. *)
Example challenge_rfc7636 :
  compute_code_challenge "dBjftJeZ4CVP-mB92K27uhbUJU1p1r_wW1gFWFOEjXk" = Ok "E9Melhoa2OwvFrEMTJguCHaoeK1t8URWbuGJSstw-cM".
Proof. vm_compute. reflexivity. Qed.

(** [secrets.compare_digest] of two str. *)
Definition compare_digest (a b : string) : outcome bool :=
  if ascii_str a && ascii_str b then Ok (a =s b)
  else Raise (OtherError "TypeError: comparing strings with non-ASCII characters is not supported").

Definition validate_pkce (verifier challenge method : string) : outcome bool :=
  if negb (method =s "S256") then Ok (verifier =s challenge)
  else let? computed := compute_code_challenge verifier in compare_digest computed challenge.

(** [urllib.parse.urlencode] *)
Definition hex_upper (n : N) : ascii := if N.ltb n 10 then chr (48 + n) else chr (55 + n).
Definition quote_plus (s : string) : string :=
  String.concat "" ((fun c =>
    if is_alnum c || one_of "_.-~" c then String c ""
    else if ceqb c " " then "+"
    else String "%" (String (hex_upper (ncode c / 16)) (String (hex_upper (ncode c mod 16)) "")))
    <$> list_ascii_of_string s).
Definition urlencode (params : list (string * string)) : string :=
  join "&" ((fun kv => quote_plus (fst kv) +:+ "=" +:+ quote_plus (snd kv)) <$> params).

(** [params.update(extra)] *)
Fixpoint set_param (k v : string) (params : list (string * string)) : list (string * string) :=
  match params with
  | [] => [(k, v)]
  | (k', v') :: params' => if k' =s k then (k, v) :: params' else (k', v') :: set_param k v params'
  end.

Definition build_authorization_url (authorization_endpoint client_id redirect_uri code_verifier : string)
    (scopes : list string) (state : option string) (extra_params : list (string * string)) : outcome string :=
  let? challenge := compute_code_challenge code_verifier in
  let params := [("response_type", "code"); ("client_id", client_id); ("redirect_uri", redirect_uri);
                 ("code_challenge", challenge); ("code_challenge_method", CODE_CHALLENGE_METHOD)] in
  let params := match scopes with [] => params | _ => set_param "scope" (join " " scopes) params end in
  let params := match state with Some s => if truthy s then set_param "state" s params else params | None => params end in
  let params := fold_left (fun ps kv => set_param (fst kv) (snd kv) ps) extra_params params in
  Ok (authorization_endpoint +:+ "?" +:+ urlencode params).

Definition build_token_request (token_endpoint client_id redirect_uri code code_verifier : string)
    (client_secret : option string) : dict :=
  [("url", JStr token_endpoint); ("method", JStr "POST");
   ("headers", JObj [("Content-Type", JStr "application/x-www-form-urlencoded")]);
   ("body", JObj ([("grant_type", JStr "authorization_code"); ("code", JStr code); ("redirect_uri", JStr redirect_uri);
                   ("client_id", JStr client_id); ("code_verifier", JStr code_verifier)]
                  ++ match client_secret with
                     | Some s => if truthy s then [("client_secret", JStr s)] else []
                     | None => []
                     end))].

(** [PKCESession]; the verifier and the state are random texts. *)
Record PKCESession : Type := mkPKCESession {
  pk_client_id : string; pk_redirect_uri : string; pk_scopes : list string; pk_code_verifier : string;
  pk_code_challenge : string; pk_state : string; pk_created_at : string
}.
Definition new_pkce_session (client_id redirect_uri : string) (scopes : list string) (verifier state now : string) :
    outcome PKCESession :=
  let? challenge := compute_code_challenge verifier in
  Ok (mkPKCESession client_id redirect_uri (match scopes with [] => ["capmesh:read"] | _ => scopes end) verifier challenge state now).
Definition authorization_url (self : PKCESession) (authorization_endpoint : string) : outcome string :=
  build_authorization_url authorization_endpoint (pk_client_id self) (pk_redirect_uri self) (pk_code_verifier self)
    (pk_scopes self) (Some (pk_state self)) [].
Definition token_request (self : PKCESession) (token_endpoint code : string) (client_secret : option string) : dict :=
  build_token_request token_endpoint (pk_client_id self) (pk_redirect_uri self) code (pk_code_verifier self) client_secret.

(** ** Identity tokens *)
Definition hash_secret (value : string) : string := sha256_hex value.

Definition sanitize_claims (claims : dict) : dict :=
  List.filter (fun kv => smem (fst kv) ["aud"; "iss"; "tid"; "oid"; "name"; "preferred_username"; "upn"; "email"; "roles"; "groups"]) claims.
Definition sanitize_auth_metadata (metadata : dict) : dict :=
  List.filter (fun kv => negb (contains (lower (fst kv)) "token") && negb (contains (lower (fst kv)) "secret")) metadata.

(** The claims of a JWT, without a look at its signature. *)
Definition decode_unverified_jwt (token : string) : outcome dict :=
  match split_on "." token with
  | _ :: payload :: _ =>
      let bad := Raise (ValueError "Could not decode id_token claims.") in
      let padded := payload +:+ padding payload in
      if negb (ascii_str padded) then bad
      else match urlsafe_b64decode_loose padded with
      | None => bad
      | Some decoded =>
          if negb (decode_replace decoded =s decoded) then bad
          else match json_parse decoded with
          | None => bad
          | Some (JObj claims) => Ok claims
          | Some _ => Raise (OtherError "TypeError: id_token payload must decode to an object.")
          end
      end
  | _ => Raise (ValueError "Expected a JWT id_token in the token response.")
  end.

Definition _trusted_ms_issuers (tid : string) : list string :=
  ["https://login.microsoftonline.com/" +:+ tid +:+ "/v2.0"; "https://sts.windows.net/" +:+ tid +:+ "/"].

Definition is_hex (c : ascii) : bool := match hex_val c with Some _ => true | None => false end.
Definition is_guid (tid : string) : bool :=
  match split_on "-" tid with
  | [a; b; c; d; e] =>
      List.forallb (sall is_hex) [a; b; c; d; e]
      && bool_decide (String.length <$> [a; b; c; d; e] = [8; 4; 4; 4; 12]%nat)
  | _ => false
  end.

(** PyJWT with the keys published for a tenant: token, tenant, issuer, client
    id when the audience is checked.  A failed check is a ValueError. *)
Class Jwks : Type := { jwt_decode : string -> string -> string -> option string -> outcome json }.

Section Verification.
Context `{!Runtime, !Jwks}.

Definition _oauth_verify_signature_enabled : bool :=
  negb (smem (getenv "CAPMESH_OAUTH_VERIFY_SIGNATURE" "1") ["0"; "false"; "False"; ""]).

Definition expected_tid : option string :=
  match environ "CAPMESH_ENTRA_TENANT_ID" with Some t => if truthy t then Some t else None | None => None end.

Definition verify_id_token (token : string) (client_id : option string) : outcome dict :=
  if negb _oauth_verify_signature_enabled then
    if production_environment
    then Raise (OtherError "RuntimeError: CAPMESH_OAUTH_VERIFY_SIGNATURE cannot be disabled in production.")
    else decode_unverified_jwt token
  else
    let? unverified := decode_unverified_jwt token in
    let tid := str_get unverified "tid" "" in
    if negb (truthy tid) || negb (is_guid tid) then Raise (ValueError "id_token tenant id is missing or malformed.")
    else if production_environment && is_none expected_tid
    then Raise (OtherError "RuntimeError: CAPMESH_ENTRA_TENANT_ID is required in production.")
    else if match expected_tid with Some t => negb (lower tid =s lower t) | None => false end
    then Raise (ValueError "id_token tenant does not match the configured Entra tenant.")
    else
      let issuer := str_get unverified "iss" "" in
      if negb (smem issuer (_trusted_ms_issuers tid))
      then Raise (ValueError ("id_token issuer '" +:+ issuer +:+ "' is not a trusted Microsoft issuer."))
      else
        let? claims := jwt_decode token tid issuer (match client_id with Some c => if truthy c then Some c else None | None => None end) in
        match claims with
        | JObj d => Ok d
        | _ => Raise (OtherError "TypeError: id_token payload must decode to an object.")
        end.
End Verification.

(** ** Principals of claims *)
Section Claims.
Context `{!Runtime}.

(** [raw or []], an empty list when it is no list. *)
Definition claim_list (v : json) : list json := match v with JArr l => l | _ => [] end.

Definition mapped_entra_roles (claims : dict) : list string :=
  match List.filter (fun role => smem role (fst <$> ROLE_RIGHTS)) (py_str <$> claim_list (jget "roles" claims)) with
  | [] => ["member"]
  | l => l
  end.

Definition SESSION_SCOPES : list string := ["cap:search"; "cap:load"; "cap:call"; "cap:delegate"; "cap:report"].

Definition contains_at (s : string) : bool := contains s "@".

Definition principal_from_entra_claims (claims : dict) (tenant_id : string) : outcome Principal :=
  let email := strip (py_str (py_or (jget "preferred_username" claims) (py_or (jget "upn" claims)
    (py_or (jget "email" claims) (py_or (jget "unique_name" claims) (py_or (jget "oid" claims) (JStr ""))))))) in
  if negb (truthy email) then Raise (ValueError "Token claims did not contain a usable subject.")
  else
    let roles := mapped_entra_roles claims in
    Ok {| p_subject := lower email; p_tenant_id := tenant_id;
          p_identity_id := Some (corporate_identity_id tenant_id email (str_get claims "oid" (lower email)));
          p_email := if contains_at email then Some (lower email) else None;
          p_display_name := claim_text (jget "name" claims); p_app_id := None;
          p_groups := py_str <$> claim_list (jget "groups" claims); p_roles := roles;
          p_scopes := if List.existsb (fun role => smem role ["platform_admin"; "org_admin"]) roles
                      then ["cap:*"] else SESSION_SCOPES;
          p_authenticated := true; p_disabled := false; p_step_up_authenticated := false |}.

Definition google_allowed_emails : list string :=
  "michel.d.paradis@gmail.com" ::
  List.filter truthy ((fun item => lower (strip item)) <$> split_on "," (getenv "CAPMESH_GOOGLE_ALLOWED_EMAILS" "")).

Definition email_is_allowed (email : string) (hosted_domain : option string) : bool :=
  let normalized := lower (strip email) in
  if negb (truthy normalized) then false
  else if smem normalized google_allowed_emails then true
  else endswith normalized ("@" +:+ CORPORATE_EMAIL_DOMAIN)
       && (lower (strip (o_or hosted_domain "")) =s CORPORATE_EMAIL_DOMAIN).

Definition principal_from_google_claims (claims : dict) (tenant_id : string) : outcome Principal :=
  let email := lower (strip (str_get claims "email" "")) in
  if negb (truthy email) || negb (contains_at email)
  then Raise (ValueError "Google claims did not contain a usable verified email.")
  else
    Ok {| p_subject := email; p_tenant_id := tenant_id;
          p_identity_id := Some (corporate_identity_id tenant_id email (str_get claims "sub" email));
          p_email := Some email; p_display_name := claim_text (jget "name" claims); p_app_id := None;
          p_groups := []; p_roles := ["member"]; p_scopes := SESSION_SCOPES;
          p_authenticated := true; p_disabled := false; p_step_up_authenticated := false |}.
End Claims.

(** ** Theorems *)

Lemma split_on_app c a b : sall (fun d => negb (ceqb d c)) a = true -> split_on c (a +:+ String c b) = a :: split_on c b.
Proof.
  unfold sall. induction a as [|d a IH].
  - intros _. rewrite app_empty. cbn. unfold ceqb. by rewrite Ascii.eqb_refl.
  - rewrite app_cons. cbn. intros [Hd Ha]%andb_true_iff. apply negb_true_iff in Hd. rewrite Hd, (IH Ha). done.
Qed.

Lemma url_char_ascii c : url_char c = true -> Nat.ltb (code c) 128 = true /\ ceqb c "." = false.
Proof. destruct c as [[] [] [] [] [] [] [] []]; vm_compute; done. Qed.

Lemma padding_ascii s : ascii_str (padding s) = true.
Proof. unfold padding. by repeat case_match. Qed.

(** C40: The claims of a token are those its payload holds.  For a payload of any
    UTF-8 JSON object, a token built of a header, the unpadded URL-safe base64
    of the payload and anything after a second dot decodes to that object,
    whatever the length of the payload. *)
Theorem jwt_roundtrip header payload rest claims :
  sall (fun c => negb (ceqb c ".")) header = true -> decode_replace payload = payload ->
  json_parse payload = Some (JObj claims) ->
  decode_unverified_jwt (header +:+ "." +:+ unpadded payload +:+ "." +:+ rest) = Ok claims.
Proof.
  intros Hh Hu Hj. unfold decode_unverified_jwt.
  change (header +:+ "." +:+ unpadded payload +:+ "." +:+ rest) with (header +:+ String "." (unpadded payload +:+ String "." rest)).
  pose proof (proj1 (unpadded_form payload)) as Hform.
  rewrite split_on_app by done. rewrite split_on_app.
  2: { eapply sall_impl, Hform. intros c Hc. apply negb_true_iff. by apply url_char_ascii. }
  destruct (split_on "." rest) as [|x l] eqn:Es; [exfalso; clear -Es; destruct rest as [|c r]; cbn in Es; [done|];
    destruct (ceqb c "."), (split_on "." r); done|].
  assert (ascii_str (unpadded payload +:+ padding (unpadded payload)) = true) as ->.
  { unfold ascii_str. rewrite sall_app. apply andb_true_iff. split; [|apply padding_ascii].
    eapply sall_impl, Hform. intros c Hc. by apply url_char_ascii. }
  cbn [negb]. rewrite unpadded_roundtrip, Hu, String.eqb_refl. cbn [negb]. by rewrite Hj.
Qed.

(** Production accepts no unverified identity token.  Claims returned in
    production are those PyJWT returned for the token, with the keys of the
    configured Entra tenant and an issuer of that tenant: an unset tenant and a
    disabled signature check are refused before. *)
Theorem production_claims_verified `{!Runtime, !Jwks} token client_id claims :
  production_environment = true -> verify_id_token token client_id = Ok claims ->
  exists tid issuer expected, expected_tid = Some expected /\ lower tid = lower expected /\ is_guid tid = true /\
    issuer ∈ _trusted_ms_issuers tid /\
    jwt_decode token tid issuer (match client_id with Some c => if truthy c then Some c else None | None => None end)
      = Ok (JObj claims).
Proof.
  intros Hp. unfold verify_id_token. rewrite Hp. destruct _oauth_verify_signature_enabled; [|done]. cbn [negb andb].
  destruct (decode_unverified_jwt token) as [unverified|]; [|done]. cbn [obind].
  destruct (truthy _); [|done]. destruct (is_guid _) eqn:Eg; [|done]. cbn [negb orb].
  destruct expected_tid as [expected|]; [|done]. cbn [is_none].
  destruct (lower _ =s lower expected) eqn:Et; [|done]. apply String.eqb_eq in Et. cbn [negb].
  destruct (smem _ (_trusted_ms_issuers _)) eqn:Ei; [|done]. apply smem_In in Ei. cbn [negb].
  destruct (jwt_decode _ _ _ _) as [[| | | | | |d]|] eqn:Ed; try done. cbn [obind]. intros [= <-].
  by exists (str_get unverified "tid" ""), (str_get unverified "iss" ""), expected.
Qed.

(** When the checks of the claims pass: the expiry, if claimed, is at most the
    skew in the past, the start, if claimed, at most the skew in the future,
    the issuer is the expected one and the audience, a text or a list, holds an
    expected one; a check without an expectation is skipped. *)
Definition time_ok (v : json) (late : PyFloat -> bool) : Prop :=
  v = JNull \/ exists t, py_float v = Ok (Some t) /\ late t = false.

Lemma check_time_true claims key late message wrong rest :
  check_time claims key late message wrong rest = Ok (true, "") <->
  time_ok (jget key claims) late /\ rest = Ok (true, "").
Proof.
  unfold check_time, time_ok. destruct (jget key claims) as [|b|n|x|s|l|d] eqn:Ej.
  1: by split; [intros E; split; [by left|] | intros [_ E]].
  all: split;
    [ (destruct (py_float _) as [[t|]|] eqn:Ef; cbn [obind]; [|done|done]);
      (destruct (late t) eqn:El; [done|]); intros E; split; [right; by exists t | done]
    | intros [[?|(t & -> & Hl)] E]; [done | cbn [obind]; by rewrite Hl] ].
Qed.

Theorem validate_token_claims_spec claims audience issuer skew now :
  validate_token_claims (JObj claims) audience issuer skew now = Ok (true, "") <->
  time_ok (jget "exp" claims) (fun t => flt_lt (flt_add t skew) now) /\
  time_ok (jget "nbf" claims) (fun t => flt_lt now (flt_add t (- skew))) /\
  (forall i, issuer = Some i -> match dget "iss" claims with Some v => py_str v | None => "" end = i) /\
  (forall expected, audience = Some expected ->
     exists aud, jget "aud" claims <> JNull /\ audiences_of (jget "aud" claims) = Ok aud /\ overlaps aud expected = true).
Proof.
  unfold validate_token_claims. rewrite !check_time_true. do 2 apply and_iff_compat_l.
  assert (check_audience claims audience = Ok (true, "") <-> (forall expected, audience = Some expected ->
     exists aud, jget "aud" claims <> JNull /\ audiences_of (jget "aud" claims) = Ok aud /\ overlaps aud expected = true)) as Haud.
  { unfold check_audience. destruct audience as [expected|]; [|done]. destruct (jget "aud" claims) eqn:Ea.
    1: split; [done | by intros H; destruct (H expected eq_refl) as (? & ? & _)].
    all: split;
      [ (destruct (audiences_of _) as [aud|] eqn:Eo; [|done]); cbn [obind]; (destruct (overlaps aud expected) eqn:Ev; [|done]);
        intros _ ? [= <-]; by exists aud
      | intros H; destruct (H expected eq_refl) as (aud & _ & -> & Ho); cbn [obind]; by rewrite Ho ]. }
  rewrite <-Haud. unfold check_issuer. destruct issuer as [i|].
  - destruct (_ =s i) eqn:Ei.
    + apply String.eqb_eq in Ei. split; [intros E; split; [by intros ? [= <-] | done] | by intros [_ E]].
    + apply String.eqb_neq in Ei. split; [done|]. intros [H _]. by destruct Ei, (H i).
  - split; [by intros E | by intros [_ E]].
Qed.

Section Privileges.
Context `{!Runtime}.

(** An Entra token grants no more than its roles.  The principal it gives is
    authenticated for the tenant of the login, its roles are known roles that
    the token claims, or the plain member, and it holds every scope only if the
    token claims an administrator's role; otherwise its scopes are those of a
    session. *)
Theorem entra_principal_bounded claims tenant p :
  principal_from_entra_claims claims tenant = Ok p ->
  p_tenant_id p = tenant /\ p_authenticated p = true /\ p_step_up_authenticated p = false /\
  (forall role, role ∈ p_roles p -> role = "member" \/
     role ∈ fst <$> ROLE_RIGHTS /\ exists l v, jget "roles" claims = JArr l /\ v ∈ l /\ role = py_str v) /\
  (forall group, group ∈ p_groups p -> exists l v, jget "groups" claims = JArr l /\ v ∈ l /\ group = py_str v) /\
  (p_scopes p = ["cap:*"] /\ ("platform_admin" ∈ p_roles p \/ "org_admin" ∈ p_roles p) \/ p_scopes p = SESSION_SCOPES).
Proof.
  unfold principal_from_entra_claims. destruct (truthy _); [|done]. cbn [negb]. intros [= <-]. cbn.
  split_and!; [done..| | |].
  - intros role. unfold mapped_entra_roles. destruct (List.filter _ _) as [|r l] eqn:Ef.
    + intros ->%list_elem_of_singleton. by left.
    + intros Hr. right. rewrite <-Ef in Hr. apply list_elem_of_In, List.filter_In in Hr as [Hr Hk].
      apply smem_In in Hk. split; [done|]. apply list_elem_of_In, list_elem_of_fmap in Hr as (v & -> & Hv).
      unfold claim_list in Hv. destruct (jget "roles" claims) as [| | | | |js|]; try by apply elem_of_nil in Hv. by exists js, v.
  - intros group (v & -> & Hv)%list_elem_of_fmap. unfold claim_list in Hv.
    destruct (jget "groups" claims) as [| | | | |js|]; try by apply elem_of_nil in Hv. by exists js, v.
  - destruct (List.existsb _ _) eqn:Ex; [left; split; [done|] | by right].
    apply List.existsb_exists in Ex as (role & Hr & Hs). apply list_elem_of_In in Hr.
    rewrite orb_false_r in Hs. apply orb_true_iff in Hs as [->%String.eqb_eq | ->%String.eqb_eq]; auto.
Qed.
End Privileges.

(** A challenge binds its verifier.  For ASCII texts the S256 check accepts
    exactly the challenge computed from the verifier, so a second verifier
    accepted for it has the same digest text. *)
Theorem pkce_binds verifier challenge :
  ascii_str verifier = true -> ascii_str challenge = true ->
  (validate_pkce verifier challenge CODE_CHALLENGE_METHOD = Ok true <-> compute_code_challenge verifier = Ok challenge).
Proof.
  intros Hv Hc. unfold validate_pkce, compute_code_challenge, encode_ascii. rewrite Hv. cbn [obind]. cbn [String.eqb negb CODE_CHALLENGE_METHOD Ascii.eqb Bool.eqb].
  unfold compare_digest. rewrite Hc.
  assert (ascii_str (unpadded (unhex (sha256_hex verifier))) = true) as ->.
  { eapply sall_impl, (proj1 (unpadded_form _)). intros c Hu. by apply url_char_ascii. }
  cbn [andb]. split; [by intros [= ->%String.eqb_eq] | intros [= ->]; by rewrite String.eqb_refl].
Qed.

(** ** A production host and a token *)
Module ClaimsDemo.
Definition guid : string := "01234567-89ab-cdef-0123-456789abcdef".
#[export] Instance runtime : Runtime := {|
  environ := fun k => if k =s "CAPMESH_ENVIRONMENT" then Some "production"
                      else if k =s "CAPMESH_ENTRA_TENANT_ID" then Some guid else None;
  uuid4_hex := fun _ => "id" |}.
#[export] Instance jwks : Jwks :=
  {| jwt_decode := fun token _ _ _ => let? claims := decode_unverified_jwt token in Ok (JObj claims) |}.
Definition claims : dict :=
  [("iss", JStr ("https://sts.windows.net/" +:+ guid +:+ "/")); ("preferred_username", JStr "Alice@Example.com");
   ("roles", JArr [JStr "org_admin"; JStr "unknown"]); ("tid", JStr guid)].
Definition token : string := "e30" +:+ "." +:+ unpadded (json_dumps (JObj claims)) +:+ "." +:+ "signature".
End ClaimsDemo.

Section Witnesses.
Import ClaimsDemo.

Lemma jwt_roundtrip_witness : decode_unverified_jwt token = Ok claims.
Proof. apply jwt_roundtrip; vm_compute; reflexivity. Defined.

Lemma production_claims_verified_witness :
  exists tid, is_guid tid = true /\ lower tid = guid.
Proof.
  destruct (verify_id_token token (Some "client")) as [cs|e] eqn:E; [|vm_compute in E; discriminate E].
  destruct (production_claims_verified token (Some "client") cs) as (tid & issuer & expected & He & Hl & Hg & _);
    [vm_compute; reflexivity | exact E|].
  exists tid. split; [exact Hg|]. injection He as <-. exact Hl.
Defined.

Lemma entra_principal_bounded_witness :
  exists p, principal_from_entra_claims claims "asg" = Ok p /\ p_scopes p = ["cap:*"] /\ "org_admin" ∈ p_roles p.
Proof.
  destruct (principal_from_entra_claims claims "asg") as [p|e] eqn:E; [|discriminate E].
  exists p. split; [reflexivity|].
  destruct (entra_principal_bounded claims "asg" p E) as (_ & _ & _ & _ & _ & Hs).
  injection E as <-. destruct Hs as [[Hs [Hr|Hr]]|Hs]; [split; [exact Hs|] | split; [exact Hs | exact Hr] | discriminate Hs].
  apply list_elem_of_singleton in Hr. discriminate Hr.
Defined.

Lemma pkce_binds_witness :
  validate_pkce "dBjftJeZ4CVP-mB92K27uhbUJU1p1r_wW1gFWFOEjXk" "E9Melhoa2OwvFrEMTJguCHaoeK1t8URWbuGJSstw-cM" CODE_CHALLENGE_METHOD = Ok true.
Proof. apply pkce_binds; vm_compute; reflexivity. Defined.
End Witnesses.
