(* ===== verification/ModelRouter.v ===== *)
(** * Model routing ([model_router.py])

    The tier of the model a delegated task is routed to, and the theorem that
    it is the cheapest tier that meets every requirement of the task. *)

From Stdlib Require Import ZArith Ascii String Lia.
From stdpp Require Import base option list strings.
From S2P Require Import Prelude PyStr Json.
Local Open Scope string_scope.
Local Open Scope list_scope.

Definition MODEL_TIERS : list string := ["qwen-worker"; "qwen-director"; "glm"; "opus"].

Definition RISK_TIER_TO_MODEL : list (string * string) :=
  [("low", "qwen-worker"); ("medium", "qwen-director"); ("high", "glm"); ("critical", "opus")].

Definition COMPLEXITY_KEYWORDS : list (string * list string) := [
  ("qwen-director", ["synthesize"; "review"; "verify"; "validate"; "audit"; "analyze"; "summarize"]);
  ("glm", ["refactor"; "architecture"; "design"; "security"; "adversarial"; "migrate"; "optimize"]);
  ("opus", ["legal"; "financial"; "irreversible"; "compliance"; "board"; "investor"])].

(** [MODEL_TIERS.index(tier)], for the tiers of the list. *)
Fixpoint position (x : string) (l : list string) : nat :=
  match l with [] => O | y :: l' => if x =s y then O else S (position x l') end.
Definition tier_index (tier : string) : nat := position tier MODEL_TIERS.

Definition _backend_for (tier : string) : string :=
  if tier =s "glm" then "bolde-exec" else if tier =s "opus" then "codex-exec" else "asgcode-build".

(** [RISK_TIER_TO_MODEL.get(risk_tier, "qwen-worker")] *)
Definition risk_model (risk_tier : string) : string :=
  match List.find (fun kv => fst kv =s risk_tier) RISK_TIER_TO_MODEL with
  | Some kv => snd kv | None => "qwen-worker"
  end.

(** One entry of COMPLEXITY_KEYWORDS: the tier and the rationale so far. *)
Definition has_keyword (task_lower : string) (keywords : list string) : bool :=
  List.existsb (fun kw => contains task_lower kw) keywords.
Definition bump (task_lower : string) (acc : string * string) (entry : string * list string) : string * string :=
  let '(tier, rationale) := acc in
  if has_keyword task_lower (snd entry) && Nat.ltb (tier_index tier) (tier_index (fst entry))
  then (fst entry, rationale +:+ "; keyword bump -> " +:+ fst entry)
  else (tier, rationale).

(** The hints of the metadata: at least [floor], noted even without a change. *)
Definition hint (present : bool) (floor note : string) (acc : string * string) : string * string :=
  let '(tier, rationale) := acc in
  if present
  then (if Nat.ltb (tier_index tier) (tier_index floor) then floor else tier, rationale +:+ note)
  else acc.

Definition route_tier (risk_tier : string) (mutating : bool) (task : string) (metadata : dict) : string * string :=
  let tier := risk_model risk_tier in
  let acc := (tier, "risk_tier=" +:+ risk_tier +:+ " -> " +:+ tier) in
  let acc := fold_left (bump (lower task)) COMPLEXITY_KEYWORDS acc in
  let acc := let '(tier, rationale) := acc in
             if mutating && Nat.ltb (tier_index tier) (tier_index "qwen-director")
             then ("qwen-director", rationale +:+ "; mutating -> qwen-director") else acc in
  let acc := hint (py_truthy (jget "requiresFrontier" metadata)) "glm" "; requiresFrontier -> glm" acc in
  hint (py_truthy (jget "requiresCloud" metadata)) "opus" "; requiresCloud -> opus" acc.

Definition routing_record (tier rationale : string) : dict :=
  [("modelTier", JStr tier); ("rationale", JStr rationale); ("backend", JStr (_backend_for tier))].

Definition route_model (risk_tier : string) (mutating : bool) (task : string) (metadata : option dict)
    (override : option string) : dict :=
  match override with
  | Some o => if truthy o && smem o MODEL_TIERS then routing_record o ("explicit override: " +:+ o)
              else let '(tier, rationale) := route_tier risk_tier mutating task (or_else metadata []) in
                   routing_record tier rationale
  | None => let '(tier, rationale) := route_tier risk_tier mutating task (or_else metadata []) in
            routing_record tier rationale
  end.

Example route_example :
  route_model "low" false "Audit the board minutes" None None =
  [("modelTier", JStr "opus");
   ("rationale", JStr "risk_tier=low -> qwen-worker; keyword bump -> qwen-director; keyword bump -> opus");
   ("backend", JStr "codex-exec")].
Proof. vm_compute. reflexivity. Qed.

(** ** The requirements of a task *)

(** Whether the task calls for at least the tier [t]. *)
Definition requires (risk_tier : string) (mutating : bool) (task : string) (metadata : dict) (t : string) : bool :=
  (risk_model risk_tier =s t)
  || List.existsb (fun e => (fst e =s t) && has_keyword (lower task) (snd e)) COMPLEXITY_KEYWORDS
  || (mutating && (t =s "qwen-director"))
  || (py_truthy (jget "requiresFrontier" metadata) && (t =s "glm"))
  || (py_truthy (jget "requiresCloud" metadata) && (t =s "opus")).

(** The dearest of the tiers a task requires. *)
Definition dearest (p : string -> bool) : nat :=
  fold_left (fun n t => if p t then Nat.max n (tier_index t) else n) MODEL_TIERS O.

Definition known (tier : string) : Prop := tier ∈ MODEL_TIERS.

Lemma known_cases tier : known tier <->
  tier = "qwen-worker" \/ tier = "qwen-director" \/ tier = "glm" \/ tier = "opus".
Proof. unfold known, MODEL_TIERS. rewrite !elem_of_cons, elem_of_nil. tauto. Qed.

Lemma tier_index_inj a b : known a -> known b -> tier_index a = tier_index b -> a = b.
Proof. rewrite !known_cases. by intros [-> | [-> | [-> | ->]]] [-> | [-> | [-> | ->]]]. Qed.

Lemma risk_model_known risk_tier : known (risk_model risk_tier).
Proof.
  unfold risk_model, RISK_TIER_TO_MODEL. apply known_cases. cbn [List.find fst].
  repeat (destruct (_ =s risk_tier); [cbn; tauto|]). tauto.
Qed.

(** Every stage raises the tier to the maximum of itself and its floor. *)
Lemma bump_index task acc t kws : known acc.1 -> known t ->
  known (bump task acc (t, kws)).1 /\
  tier_index (bump task acc (t, kws)).1 =
    if has_keyword task kws then Nat.max (tier_index acc.1) (tier_index t) else tier_index acc.1.
Proof.
  destruct acc as [tier r]. cbn [bump fst snd]. intros Ha Ht. destruct (has_keyword task kws); cbn [andb]; [|done].
  destruct (Nat.ltb_spec (tier_index tier) (tier_index t)); cbn [fst]; split; try done; lia.
Qed.

Lemma hint_index present floor note acc : known acc.1 -> known floor ->
  known (hint present floor note acc).1 /\
  tier_index (hint present floor note acc).1 =
    if present then Nat.max (tier_index acc.1) (tier_index floor) else tier_index acc.1.
Proof.
  destruct acc as [tier r]. cbn [hint fst]. intros Ha Hf. destruct present; [|done]. cbn [fst].
  destruct (Nat.ltb_spec (tier_index tier) (tier_index floor)); split; try done; lia.
Qed.

Lemma mutating_index (mutating : bool) acc : known acc.1 ->
  let r := (let '(tier, rationale) := acc in
            if mutating && Nat.ltb (tier_index tier) (tier_index "qwen-director")
            then ("qwen-director", rationale +:+ "; mutating -> qwen-director") else acc) in
  known r.1 /\ tier_index r.1 = if mutating then Nat.max (tier_index acc.1) 1 else tier_index acc.1.
Proof.
  destruct acc as [tier r]. cbn [fst]. intros Ha. destruct mutating; cbn [andb]; [|done].
  change (tier_index "qwen-director") with 1%nat.
  destruct (Nat.ltb_spec (tier_index tier) 1); cbn [fst]; (split; [by try (apply known_cases; tauto)|]);
    [change (tier_index "qwen-director") with 1%nat|]; lia.
Qed.

Lemma route_tier_dearest risk_tier mutating task metadata :
  known (route_tier risk_tier mutating task metadata).1 /\
  tier_index (route_tier risk_tier mutating task metadata).1 = dearest (requires risk_tier mutating task metadata).
Proof.
  unfold route_tier, COMPLEXITY_KEYWORDS. cbn [fold_left].
  pose proof (risk_model_known risk_tier) as K0. set (acc0 := (risk_model risk_tier, _)). change (known acc0.1) in K0.
  destruct (bump_index (lower task) acc0 "qwen-director" ["synthesize"; "review"; "verify"; "validate"; "audit"; "analyze"; "summarize"])
    as [K1 I1]; [done | apply known_cases; tauto|]. set (acc1 := bump _ acc0 _) in *.
  destruct (bump_index (lower task) acc1 "glm" ["refactor"; "architecture"; "design"; "security"; "adversarial"; "migrate"; "optimize"])
    as [K2 I2]; [done | apply known_cases; tauto|]. set (acc2 := bump _ acc1 _) in *.
  destruct (bump_index (lower task) acc2 "opus" ["legal"; "financial"; "irreversible"; "compliance"; "board"; "investor"])
    as [K3 I3]; [done | apply known_cases; tauto|]. set (acc3 := bump _ acc2 _) in *.
  destruct (mutating_index mutating acc3 K3) as [K4 I4]. set (acc4 := let '(_, _) := acc3 in _) in *.
  destruct (hint_index (py_truthy (jget "requiresFrontier" metadata)) "glm" "; requiresFrontier -> glm" acc4) as [K5 I5];
    [done | apply known_cases; tauto|]. set (acc5 := hint _ _ _ acc4) in *.
  destruct (hint_index (py_truthy (jget "requiresCloud" metadata)) "opus" "; requiresCloud -> opus" acc5) as [K6 I6];
    [done | apply known_cases; tauto|]. split; [done|]. rewrite I6, I5, I4, I3, I2, I1.
  unfold dearest, requires, MODEL_TIERS, COMPLEXITY_KEYWORDS. cbn [fold_left List.existsb fst snd].
  change (acc0.1) with (risk_model risk_tier). pose proof (risk_model_known risk_tier) as K. apply known_cases in K.
  repeat match goal with |- context [has_keyword ?a ?b] => destruct (has_keyword a b) end;
    destruct mutating, (py_truthy (jget "requiresFrontier" metadata)), (py_truthy (jget "requiresCloud" metadata));
    destruct K as [-> | [-> | [-> | ->]]]; reflexivity.
Qed.

(** Routing is exact.  Without a usable override the routed tier is one of
    the four, and its index is the largest among the tiers the risk, the
    keywords of the task, the mutating flag and the metadata call for: no
    requirement is missed and no dearer tier than required is chosen.  An
    override that names a tier is taken as it is, and the backend is always
    that of the tier. *)
Theorem route_model_cheapest risk_tier mutating task metadata override :
  exists tier rationale,
    route_model risk_tier mutating task metadata override = routing_record tier rationale /\
    known tier /\
    match override with
    | Some o => if smem o MODEL_TIERS then tier = o
                else tier_index tier = dearest (requires risk_tier mutating task (or_else metadata []))
    | None => tier_index tier = dearest (requires risk_tier mutating task (or_else metadata []))
    end.
Proof.
  pose proof (route_tier_dearest risk_tier mutating task (or_else metadata [])) as [Hk Hi]. unfold route_model.
  destruct (route_tier _ _ _ _) as [tier rationale]. cbn [fst] in *.
  destruct override as [o|]; [|by exists tier, rationale].
  destruct (smem o MODEL_TIERS) eqn:Eo; [|rewrite andb_false_r; by exists tier, rationale].
  assert (truthy o = true) as ->. { apply smem_In, known_cases in Eo. by destruct Eo as [-> | [-> | [-> | ->]]]. }
  exists o, ("explicit override: " +:+ o). cbn [andb]. split_and!; [done | by apply smem_In | done].
Qed.
