(* ===== verification/Tasks.v ===== *)
(** * Delegated tasks ([task_runner.py], [task_dispatcher.py])

    The queue of task envelopes, their processing by a handler, and the
    dispatcher that sends a queued task to the gateway. *)

From Stdlib Require Import ZArith Ascii String Lia.
From stdpp Require Import base option list strings gmap.
From S2P Require Import Prelude PyStr Json Clock Db Models ModelRouter.
Local Open Scope string_scope.
Local Open Scope list_scope.

Definition TASK_STATUSES : list string := ["queued"; "running"; "completed"; "failed"; "cancelled"].

(** ** The queue *)
Section Queue.
Context `{!Runtime}.

(** [executescript] commits the pending transaction. *)
Definition ensure_task_table : Op unit := commit.

Definition task_at (d : DB) (task_id tenant_id : string) : option TaskRow :=
  fetchone (fun r => (tk_id r =s task_id) && (tk_tenant_id r =s tenant_id)) (db_task_envelopes d).

Definition _row_to_dict (r : TaskRow) : dict :=
  let text x := match x with Some s => if truthy s then JStr s else JNull | None => JNull end in
  [("taskId", JStr (tk_id r)); ("tenantId", JStr (tk_tenant_id r)); ("capabilityUri", JStr (tk_capability_uri r));
   ("principal", JStr (tk_principal r)); ("status", JStr (tk_status r));
   ("taskEnvelope", if truthy (tk_task_envelope_json r) then json_loads (Some (tk_task_envelope_json r)) (JObj [])
                    else JObj []);
   ("result", if otruthy (tk_result_json r) then json_loads (tk_result_json r) (JObj []) else JNull);
   ("error", text (tk_error r)); ("createdAt", JStr (tk_created_at r)); ("startedAt", text (tk_started_at r));
   ("completedAt", text (tk_completed_at r))].

Definition create_task_envelope (capability_uri principal : string) (task_envelope : dict) (tenant_id : string)
    (do_commit : bool) : Op dict :=
  let! _ := ensure_task_table in
  let! task_id := new_id "task" in
  let! now := utc_now in
  let! _ := insert_row db_task_envelopes
    {| tk_id := task_id; tk_tenant_id := tenant_id; tk_capability_uri := capability_uri; tk_principal := principal;
       tk_status := "queued"; tk_task_envelope_json := json_dumps (JObj task_envelope); tk_result_json := None;
       tk_error := None; tk_created_at := now; tk_started_at := None; tk_completed_at := None; tk_updated_at := now |} in
  let! _ := when do_commit commit in
  ret [("taskId", JStr task_id); ("capabilityUri", JStr capability_uri); ("principal", JStr principal);
       ("status", JStr "queued")].

Definition list_queued_tasks (tenant_id : string) (limit : Z) : Op (list dict) :=
  let! _ := ensure_task_table in
  query (fun d => _row_to_dict <$> take (Z.to_nat (Z.min (Z.max limit 1) 200))
    (sort_by (fun a b => sle (tk_created_at a) (tk_created_at b))
      (fetchall (fun r => (tk_status r =s "queued") && (tk_tenant_id r =s tenant_id)) (db_task_envelopes d)))).

(** UPDATE task_envelopes SET ... WHERE id = ? *)
Definition update_task (task_id : string) (f : TaskRow -> TaskRow) : Op unit :=
  update_rows db_task_envelopes (fun r => tk_id r =s task_id) f.
Definition mark_running (now : string) (r : TaskRow) : TaskRow :=
  upd tk_status "running" (upd tk_started_at (Some now) (upd tk_updated_at now r)).
Definition mark_completed (result : json) (now : string) (r : TaskRow) : TaskRow :=
  upd tk_status "completed" (upd tk_result_json (Some (json_dumps result))
    (upd tk_completed_at (Some now) (upd tk_updated_at now r))).
Definition mark_failed (error now : string) (r : TaskRow) : TaskRow :=
  upd tk_status "failed" (upd tk_error (Some error) (upd tk_updated_at now r)).
Definition mark_cancelled (now : string) (r : TaskRow) : TaskRow :=
  upd tk_status "cancelled" (upd tk_updated_at now r).

(** [handler] is any code: it may raise, and it may change the world.  The two
    readings of the clock for the columns of one statement are one. *)
Definition process_task (task_id : string) (handler : json -> Op json) (tenant_id : string) (do_commit : bool) : Op dict :=
  let! _ := ensure_task_table in
  let! row := query (fun d => task_at d task_id tenant_id) in
  match row with
  | None => raise (ValueError ("Task not found: " +:+ task_id))
  | Some row =>
      if negb (smem (tk_status row) ["queued"; "failed"])
      then raise (ValueError ("Task is not in a processable state: " +:+ tk_status row))
      else
        let! now := utc_now in
        let! _ := update_task task_id (mark_running now) in
        let! _ := when do_commit commit in
        try_except
          (let! result := handler (json_loads (Some (tk_task_envelope_json row)) (JObj [])) in
           let! now := utc_now in
           let! _ := update_task task_id (mark_completed result now) in
           let! _ := when do_commit commit in
           ret [("taskId", JStr task_id); ("status", JStr "completed"); ("result", result)])
          (fun _ => true)
          (fun exc =>
             let! now := utc_now in
             let! _ := update_task task_id (mark_failed (exn_str exc) now) in
             let! _ := when do_commit commit in
             ret [("taskId", JStr task_id); ("status", JStr "failed"); ("error", JStr (exn_str exc))])
  end.

Definition cancel_task (task_id tenant_id : string) (do_commit : bool) : Op dict :=
  let! row := query (fun d => task_at d task_id tenant_id) in
  match row with
  | None => raise (ValueError ("Task not found: " +:+ task_id))
  | Some row =>
      if negb (smem (tk_status row) ["queued"; "running"])
      then raise (ValueError ("Cannot cancel task in state: " +:+ tk_status row))
      else
        let! now := utc_now in
        let! _ := update_task task_id (mark_cancelled now) in
        let! _ := when do_commit commit in
        ret [("taskId", JStr task_id); ("status", JStr "cancelled")]
  end.

Definition task_status (task_id tenant_id : string) : Op dict :=
  let! _ := ensure_task_table in
  let! row := query (fun d => task_at d task_id tenant_id) in
  match row with
  | None => raise (ValueError ("Task not found: " +:+ task_id))
  | Some row => ret (_row_to_dict row)
  end.
End Queue.

(** ** The dispatcher *)

(** What an HTTP POST to the gateway gives: the text of the reply, an URLError
    or another exception, by their texts.  While the request is under way other
    connections may change the world. *)
Inductive Reply : Type :=
  | Body (text : string)
  | Unreachable (reason : string)
  | Broken (message : string).

Class Gateway : Type := {
  post : string -> string -> Op Reply;          (** url, request body *)
  decode_error : string -> string               (** the text of the JSONDecodeError of a reply *)
}.

Definition BACKEND_TOOLS : list (string * string) :=
  [("asgcode-build", "asgcode_workflow_go"); ("bolde-exec", "codex_exec"); ("codex-exec", "codex_exec")].

(** [v.get] of a value that should be a dict. *)
Definition as_dict (v : json) : outcome dict :=
  match v with
  | JObj d => Ok d
  | _ => Raise (OtherError ("AttributeError: '" +:+ type_name v +:+ "' object has no attribute 'get'"))
  end.

(** ["error" in response_data], then [response_data["error"]] or
    [response_data.get("result", {})]. *)
Definition read_reply (v : json) : outcome (json + json) :=
  match v with
  | JObj d => Ok (match dget "error" d with
                  | Some e => inl e
                  | None => inr (match dget "result" d with Some r => r | None => JObj [] end)
                  end)
  | JArr l => if List.existsb (fun x => match x with JStr s => s =s "error" | _ => false end) l
              then Raise (OtherError "TypeError: list indices must be integers or slices, not str")
              else Raise (OtherError "AttributeError: 'list' object has no attribute 'get'")
  | JStr s => if contains s "error"
              then Raise (OtherError "TypeError: string indices must be integers, not 'str'")
              else Raise (OtherError "AttributeError: 'str' object has no attribute 'get'")
  | _ => Raise (OtherError ("TypeError: argument of type '" +:+ type_name v +:+ "' is not iterable"))
  end.

Definition line_feed : string := String (ascii_of_nat 10) "".

Definition gateway_params (backend task agent_uri task_id : string) : dict :=
  if backend =s "asgcode-build"
  then [("objective", JStr task); ("evidence", JBool true); ("synthesize", JBool true)]
  else if backend =s "bolde-exec"
  then [("prompt", JStr ("Task: " +:+ task +:+ line_feed +:+ "Agent: " +:+ agent_uri +:+ line_feed
                         +:+ "Task ID: " +:+ task_id))]
  else [("prompt", JStr task)].

Definition request_body (tool task_id : string) (params : dict) : dict :=
  [("jsonrpc", JStr "2.0"); ("id", JStr ("dispatch-" +:+ task_id)); ("method", JStr "tools/call");
   ("params", JObj [("name", JStr tool); ("arguments", JObj params)])].

Definition dispatch_failed (backend model_tier error task_id : string) : dict :=
  [("status", JStr "failed"); ("backend", JStr backend); ("modelTier", JStr model_tier); ("error", JStr error);
   ("taskId", JStr task_id)].

Section Dispatcher.
Context `{!Runtime, !Gateway}.

Definition GATEWAY_URL : string := getenv "CAPMESH_GATEWAY_URL" "http://127.0.0.1:17777/mcp".

(** The routing given, else the envelope's, else computed; then its fields. *)
Definition routing_of (envelope : dict) (routing : option dict) (task : string) : outcome dict :=
  match routing with
  | Some r => Ok r
  | None => match jget "modelRouting" envelope with
            | JNull => Ok (route_model "medium" false task None None)
            | r => as_dict r
            end
  end.

Definition dispatch_task (envelope : json) (routing : option dict) (gateway_url : option string) : Op dict :=
  let! envelope := lift (as_dict envelope) in
  let task := str_get envelope "task" "" in
  let agent_uri := str_get envelope "agentUri" "" in
  let task_id := str_get envelope "taskId" "" in
  let! routing := lift (routing_of envelope routing task) in
  let backend := str_get routing "backend" "asgcode-build" in
  let model_tier := str_get routing "modelTier" "qwen-worker" in
  let gateway_tool := match List.find (fun kv => fst kv =s backend) BACKEND_TOOLS with
                      | Some kv => snd kv | None => "asgcode_workflow_go" end in
  let failed error := dispatch_failed backend model_tier error task_id in
  let! reply := post (o_or gateway_url GATEWAY_URL)
    (dumps (JObj (request_body gateway_tool task_id (gateway_params backend task agent_uri task_id)))) in
  match reply with
  | Unreachable reason => ret (failed ("Gateway unreachable: " +:+ reason))
  | Broken message => ret (failed message)
  | Body text =>
      match json_parse text with
      | None => ret (failed (decode_error text))
      | Some response_data =>
          match read_reply response_data with
          | Raise exc => ret (failed (exn_str exc))
          | Ok (inl error) => ret (failed (py_str error))
          | Ok (inr result) =>
              let! now := utc_now in
              ret [("status", JStr "completed"); ("backend", JStr backend); ("modelTier", JStr model_tier);
                   ("result", result); ("taskId", JStr task_id); ("dispatchedAt", JStr now)]
          end
      end
  end.

Definition dispatch_queued_task (task_id tenant_id : string) (gateway_url : option string) : Op dict :=
  let! status_info := task_status task_id tenant_id in
  let status := jget "status" status_info in
  if negb (smem (py_str status) ["queued"; "failed"])
  then ret [("status", JStr "error"); ("error", JStr ("Task is not in a processable state: " +:+ py_str status));
            ("taskId", JStr task_id)]
  else
    let! result := dispatch_task (jget "taskEnvelope" status_info) None gateway_url in
    let! _ := process_task task_id (fun _ => ret (JObj result)) tenant_id true in
    ret result.
End Dispatcher.

Definition list_dispatch_backends : list dict :=
  let entry name backend tool description cost :=
    [("name", JStr name); ("backend", JStr backend); ("tool", JStr tool); ("description", JStr description); ("cost", JStr cost)] in
  [entry "qwen-worker" "asgcode-build" "asgcode_workflow_go" "Free local Qwen 3.6 9B Worker (mechanical/atomic/parallel)" "free";
   entry "qwen-director" "asgcode-build" "asgcode_workflow_go" "Free local Qwen 3.6 35B Director (reasoning/synthesis/verify)" "free";
   entry "glm" "bolde-exec" "codex_exec" "Free local GLM-5.2 on B200 (frontier reasoning, 300K context)" "free";
   entry "opus" "codex-exec" "codex_exec" "Cloud GPT-5.6 (critical/irreversible/security artifacts)" "paid"].
