(* ===== verification/BindingAllowlist.v ===== *)
(** * The allowlist of call bindings ([signed_allowlist.py])

    Approval and revocation of capability bindings, and the refinement of the
    table by the set of the bindings whose last call was an approval. *)

From Stdlib Require Import ZArith Ascii String Lia.
From stdpp Require Import base option list strings gmap.
From S2P Require Import Prelude Sha256 PyStr Json Clock Db.
Local Open Scope string_scope.
Local Open Scope list_scope.

Definition compute_binding_hash (capability_uri entrypoint content_hash : string) : string :=
  sha256_hex (capability_uri +:+ "|" +:+ entrypoint +:+ "|" +:+ content_hash).

Section Allowlist.
Context `{!Runtime}.

(** [executescript] commits the pending transaction. *)
Definition ensure_allowlist_table : Op unit := commit.

(** The columns of UNIQUE(tenant_id, capability_uri, binding_hash). *)
Definition same_binding (tenant_id capability_uri binding_hash : string) (r : BindingRow) : bool :=
  (cb_capability_uri r =s capability_uri) && (cb_binding_hash r =s binding_hash) && (cb_tenant_id r =s tenant_id).

Definition approve_binding (capability_uri binding_hash signing_key_id signature approved_by tenant_id : string)
    (do_commit : bool) : Op dict :=
  let! _ := ensure_allowlist_table in
  let! entry_id := new_id "alw" in
  let! now := utc_now in
  let! _ := upsert_row db_call_binding_allowlist (same_binding tenant_id capability_uri binding_hash)
    {| cb_id := entry_id; cb_tenant_id := tenant_id; cb_capability_uri := capability_uri;
       cb_binding_hash := binding_hash; cb_signing_key_id := signing_key_id; cb_signature := signature;
       cb_approved_by := approved_by; cb_approved_at := now; cb_revoked_at := None |}
    (fun r => upd cb_signing_key_id signing_key_id (upd cb_signature signature (upd cb_approved_by approved_by
                (upd cb_approved_at now (upd cb_revoked_at None r))))) in
  let! _ := when do_commit commit in
  ret [("capabilityUri", JStr capability_uri); ("bindingHash", JStr binding_hash);
       ("signingKeyId", JStr signing_key_id); ("approvedBy", JStr approved_by); ("status", JStr "approved")].

Definition revoke_binding (capability_uri binding_hash tenant_id : string) (do_commit : bool) : Op dict :=
  let! _ := ensure_allowlist_table in
  let! now := utc_now in
  let! _ := update_rows db_call_binding_allowlist (same_binding tenant_id capability_uri binding_hash)
    (fun r => upd cb_revoked_at (Some now) r) in
  let! _ := when do_commit commit in
  ret [("capabilityUri", JStr capability_uri); ("bindingHash", JStr binding_hash); ("status", JStr "revoked")].

Definition approved_in (d : DB) (tenant_id capability_uri binding_hash : string) : bool :=
  match fetchone (same_binding tenant_id capability_uri binding_hash) (db_call_binding_allowlist d) with
  | Some row => is_none (cb_revoked_at row)
  | None => false
  end.

Definition is_binding_approved (capability_uri binding_hash tenant_id : string) : Op bool :=
  let! _ := ensure_allowlist_table in
  query (fun d => approved_in d tenant_id capability_uri binding_hash).

Definition binding_record (r : BindingRow) : dict :=
  [("capabilityUri", JStr (cb_capability_uri r)); ("bindingHash", JStr (cb_binding_hash r));
   ("signingKeyId", JStr (cb_signing_key_id r)); ("approvedBy", JStr (cb_approved_by r));
   ("approvedAt", JStr (cb_approved_at r));
   ("revokedAt", match cb_revoked_at r with Some s => if truthy s then JStr s else JNull | None => JNull end);
   ("active", JBool (is_none (cb_revoked_at r)))].

Definition list_approved_bindings (tenant_id : string) (active_only : bool) : Op (list dict) :=
  let! _ := ensure_allowlist_table in
  query (fun d => binding_record <$>
    sort_by (fun a b => sle (cb_approved_at b) (cb_approved_at a))
      (fetchall (fun r => (cb_tenant_id r =s tenant_id) && (negb active_only || is_none (cb_revoked_at r)))
        (db_call_binding_allowlist d))).

(** ** Histories *)
Record Binding : Type := mkBinding { bd_tenant : string; bd_uri : string; bd_hash : string }.
#[export] Instance binding_eq_dec : EqDecision Binding.
Proof. solve_decision. Defined.

Inductive AllowCall : Type :=
| Approve (b : Binding) (signing_key_id signature approved_by : string) (do_commit : bool)
| Revoke (b : Binding) (do_commit : bool).

Definition run_allow (c : AllowCall) : Op dict :=
  match c with
  | Approve b key signature by_ cm => approve_binding (bd_uri b) (bd_hash b) key signature by_ (bd_tenant b) cm
  | Revoke b cm => revoke_binding (bd_uri b) (bd_hash b) (bd_tenant b) cm
  end.

Fixpoint run_allows (cs : list AllowCall) : Op unit :=
  match cs with [] => ret tt | c :: cs' => let! _ := run_allow c in run_allows cs' end.

(** The specification: a set of bindings, to which an approval adds and from
    which a revocation removes. *)
Definition spec_call (s : Binding -> bool) (c : AllowCall) : Binding -> bool := fun b =>
  match c with
  | Approve b' _ _ _ _ => if decide (b' = b) then true else s b
  | Revoke b' _ => if decide (b' = b) then false else s b
  end.

(** The set a database stands for. *)
Definition approved_set (w : World) (b : Binding) : bool := approved_in (w_db w) (bd_tenant b) (bd_uri b) (bd_hash b).

Definition binding_of (r : BindingRow) : Binding := mkBinding (cb_tenant_id r) (cb_capability_uri r) (cb_binding_hash r).
Definition allowlist_unique (w : World) : Prop := NoDup (binding_of <$> db_call_binding_allowlist (w_db w)).

Lemma same_binding_iff b r : same_binding (bd_tenant b) (bd_uri b) (bd_hash b) r = true <-> binding_of r = b.
Proof.
  unfold same_binding, binding_of. rewrite !andb_true_iff, !String.eqb_eq. destruct b; cbn. split.
  - by intros [[-> ->] ->].
  - by intros [= -> -> ->].
Qed.

Lemma same_binding_other b b' r : b' <> b -> same_binding (bd_tenant b') (bd_uri b') (bd_hash b') r = true ->
  same_binding (bd_tenant b) (bd_uri b) (bd_hash b) r = false.
Proof. intros Hne <-%same_binding_iff. apply not_true_iff_false. by intros <-%same_binding_iff. Qed.

(** What an UPDATE of the rows of [b'] does to the answer about [b]. *)
Lemma approved_update b b' f (t : list BindingRow) : (forall r, binding_of (f r) = binding_of r) ->
  fetchone (same_binding (bd_tenant b) (bd_uri b) (bd_hash b))
    (update_where (same_binding (bd_tenant b') (bd_uri b') (bd_hash b')) f t) =
  (fun r => if decide (b' = b) then f r else r) <$> fetchone (same_binding (bd_tenant b) (bd_uri b) (bd_hash b)) t.
Proof.
  intros Hf. rewrite fetchone_update_where.
  2: { intros r _. apply eq_true_iff_eq. by rewrite !same_binding_iff, Hf. }
  destruct (fetchone _ t) as [r|] eqn:E; [|done]. cbn. f_equal. apply fetchone_some in E as [_ E].
  destruct (decide (b' = b)) as [->|Hne]; [by rewrite E|].
  apply same_binding_iff in E as Hb. destruct (same_binding (bd_tenant b') (bd_uri b') (bd_hash b') r) eqn:E'; [|done].
  apply same_binding_iff in E'. congruence.
Qed.

Lemma run_allow_spec c w :
  exists d w', run_allow c w = (Ok d, w') /\ (forall b, approved_set w' b = spec_call (approved_set w) c b) /\
    (allowlist_unique w -> allowlist_unique w').
Proof.
  destruct c as [b' key signature by_ cm | b' cm]; cbn [run_allow].
  - set (f := fun r => upd cb_signing_key_id key (upd cb_signature signature (upd cb_approved_by by_
                (upd cb_approved_at (utc_text (w_clock w)) (upd cb_revoked_at None r))))).
    set (row := mkBindingRow ("alw_" +:+ uuid4_hex (w_uuid w)) (bd_tenant b') (bd_uri b') (bd_hash b') key signature by_
                  (utc_text (w_clock w)) None).
    set (p := same_binding (bd_tenant b') (bd_uri b') (bd_hash b')).
    set (t := db_call_binding_allowlist (w_db w)).
    set (t' := if exists_where p t then update_where p f t else t ++ [row]).
    assert (binding_of row = b') as Hrow by (by destruct b').
    assert (exists d w', approve_binding (bd_uri b') (bd_hash b') key signature by_ (bd_tenant b') cm w = (Ok d, w') /\
              db_call_binding_allowlist (w_db w') = t') as (d & w' & E & Ht).
    { unfold approve_binding, bind, ensure_allowlist_table, commit, new_id, utc_now, upsert_row, set_db, modify, gets, t', t. cbn.
      destruct (exists_where _ _), cm; by eexists _, _. }
    exists d, w'. split; [done|]. unfold approved_set, approved_in, allowlist_unique. rewrite Ht. fold t. unfold t'. split.
    + intros b. cbn [spec_call]. destruct (exists_where p t) eqn:Ex.
      * unfold p. rewrite approved_update by done. destruct (decide (b' = b)) as [<-|Hne]; [|by destruct (fetchone _ t)].
        apply exists_where_true in Ex as (r & Hr & Hp). destruct (fetchone_is_some p t r Hr Hp) as [x Hx].
        unfold p in Hx. by rewrite Hx.
      * rewrite fetchone_app. destruct (decide (b' = b)) as [<-|Hne].
        { destruct (fetchone _ t) as [r|] eqn:Er.
          - apply fetchone_some in Er as [Hin Hp]. rewrite exists_where_false in Ex. fold p in Hp. by rewrite (Ex r Hin) in Hp.
          - assert (same_binding (bd_tenant b') (bd_uri b') (bd_hash b') row = true) as Hself by (by apply same_binding_iff).
            unfold fetchone. cbn [List.find]. by rewrite Hself. }
        destruct (fetchone _ t) as [r|]; [done|]. unfold fetchone. cbn [List.find].
        destruct (same_binding (bd_tenant b) (bd_uri b) (bd_hash b) row) eqn:Es; [|done].
        apply same_binding_iff in Es. congruence.
    + intros Hnd. destruct (exists_where p t) eqn:Ex; [unfold p; by rewrite fmap_key_update_where|].
      rewrite fmap_app. apply NoDup_app. split_and!; [done | | apply NoDup_singleton].
      intros x (r & -> & Hr)%list_elem_of_fmap Hx%list_elem_of_singleton. rewrite exists_where_false in Ex.
      specialize (Ex r Hr). apply not_true_iff_false in Ex. apply Ex, same_binding_iff. by rewrite Hx.
  - set (f := fun r => upd cb_revoked_at (Some (utc_text (w_clock w))) r).
    assert (exists d w', revoke_binding (bd_uri b') (bd_hash b') (bd_tenant b') cm w = (Ok d, w') /\
              db_call_binding_allowlist (w_db w') =
              update_where (same_binding (bd_tenant b') (bd_uri b') (bd_hash b')) f (db_call_binding_allowlist (w_db w)))
      as (d & w' & E & Ht) by (destruct cm; by eexists _, _).
    exists d, w'. split; [done|]. unfold approved_set, approved_in, allowlist_unique. rewrite Ht. split.
    + intros b. cbn [spec_call]. rewrite approved_update by done.
      destruct (decide (b' = b)); by destruct (fetchone _ _).
    + intros Hnd. by rewrite fmap_key_update_where.
Qed.

(** The allowlist refines a set of bindings.  Over any sequence of
    approvals and revocations, which never fail, [is_binding_approved] answers
    true exactly for the bindings in the set that the approvals added to and
    the revocations removed from: the last call about a binding decides,
    whatever signature or key the approval carried, calls about other tenants,
    addresses or hashes do not matter, and the table keeps one row per
    binding. *)
Theorem allowlist_refines_set cs w r w' b :
  run_allows cs w = (r, w') ->
  r = Ok tt /\ (allowlist_unique w -> allowlist_unique w') /\
  fst (is_binding_approved (bd_uri b) (bd_hash b) (bd_tenant b) w') = Ok (fold_left spec_call cs (approved_set w) b).
Proof.
  assert (forall w s, run_allows cs w = (r, w') -> (forall b, approved_set w b = s b) ->
    r = Ok tt /\ (allowlist_unique w -> allowlist_unique w') /\ approved_set w' b = fold_left spec_call cs s b) as Hgen.
  { clear w. induction cs as [|c cs IH]; cbn [run_allows fold_left]; intros w s E Hs.
    - injection E as <- <-. split_and!; [done | done | by rewrite Hs].
    - destruct (run_allow_spec c w) as (d & w1 & E1 & Happ & Hun). unfold bind in E. rewrite E1 in E.
      destruct (IH w1 (spec_call s c) E) as (Hr & Hun' & Hspec).
      + intros b'. rewrite Happ. unfold spec_call. destruct c; by rewrite Hs.
      + split_and!; [done | auto | done]. }
  intros E. destruct (Hgen w _ E (fun _ => eq_refl)) as (Hr & Hun & Hspec). split_and!; [done | done |].
  unfold is_binding_approved, ensure_allowlist_table. cbn. by rewrite <-Hspec.
Qed.
End Allowlist.

Section Witness.
Let b : Binding := mkBinding "asg" "cap://x" "hash".
Lemma allowlist_refines_set_witness :
  exists w', @run_allows (Build_Runtime (fun _ => None) (fun _ => "id"))
      [Approve b "key" "signature" "alice" true; Revoke b true; Approve b "key" "" "bob" false]
      (mkWorld empty_db empty_db ∅ 0 0 ∅) = (Ok tt, w') /\
    fst (is_binding_approved "cap://x" "hash" "asg" w') = Ok true.
Proof.
  destruct (@run_allows (Build_Runtime (fun _ => None) (fun _ => "id"))
      [Approve b "key" "signature" "alice" true; Revoke b true; Approve b "key" "" "bob" false]
      (mkWorld empty_db empty_db ∅ 0 0 ∅)) as [r w'] eqn:E.
  destruct (allowlist_refines_set _ _ _ _ b E) as (-> & _ & Ha). exists w'. split; [reflexivity|].
  transitivity (Ok (fold_left spec_call [Approve b "key" "signature" "alice" true; Revoke b true; Approve b "key" "" "bob" false]
    (approved_set (mkWorld empty_db empty_db ∅ 0 0 ∅)) b)); [exact Ha | vm_compute; reflexivity].
Defined.
End Witness.
