(* ===== verification/MalwareScan.v ===== *)
(** * The malware scan ([malware_scan.py])

    The five signatures, the scan of one file, and the recorded scans of
    capabilities. *)

From Stdlib Require Import ZArith Ascii String Lia.
From stdpp Require Import base option list strings gmap.
From S2P Require Import Prelude Sha256 PyStr Regex Json Clock Db Models Signing SourceGates.
Local Open Scope string_scope.
Local Open Scope list_scope.

Definition MAX_SCAN_SIZE_BYTES : Z := 4 * 1024 * 1024.

Record Signature : Type := mkSignature {
  sig_pattern : regex; sig_severity : string; sig_name : string; sig_description : string
}.

(** [\d{1,3}], and four of them with dots between. *)
Definition octet : regex := rseq [digit_class; ropt (RCat digit_class (ropt digit_class))].
Definition address : regex := rseq [octet; lit "."; octet; lit "."; octet; lit "."; octet].
Definition any_text : regex := RStar dot.
Definition spaces : regex := RStar space.

(** All searched ignoring case; no pattern has an anchor that MULTILINE changes. *)
Definition MALWARE_SIGNATURES : list Signature := [
  mkSignature (rseq [RBoundary; ralt [lit "eval"; lit "exec"]; spaces; lit "("; spaces;
                     ralt [lit "base64"; lit "codecs"; lit "marshal"; lit "pickle"]; lit "."])
    "critical" "obfuscated_execution" "Obfuscated code execution";
  mkSignature (RAlt (rseq [lit "os.system"; spaces; lit "("; any_text; lit "${"])
                    (rseq [lit "subprocess."; ralt [lit "call"; lit "Popen"]; any_text; lit "shell"; spaces;
                           lit "="; spaces; lit "True"]))
    "high" "shell_injection" "Potential shell injection";
  mkSignature (rseq [RBoundary; lit "socket."; ralt [lit "connect"; lit "send"; lit "recv"]; RBoundary; any_text;
                     RBoundary; address; RBoundary])
    "high" "hardcoded_network_endpoint" "Hardcoded IP in network call";
  mkSignature (RAlt (rseq [RBoundary; lit "chmod"; rplus space; lit "777"; RBoundary])
                    (rseq [RBoundary; lit "os.chmod"; any_text; RBoundary; lit "0o777"; RBoundary]))
    "high" "world_writable_permission" "Setting world-writable permissions";
  mkSignature (rseq [RBoundary; lit "sudo"; rplus space;
                     ralt [lit "bash"; lit "sh"; lit "zsh"; lit "python"; lit "perl"]; space])
    "high" "sudo_shell_escalation" "Sudo shell escalation"
].

(** [s[:n]]: code points are counted at their first byte. *)
Fixpoint take_chars (n : nat) (s : string) : string :=
  match s with
  | EmptyString => ""
  | String c s' =>
      if is_cont c then String c (take_chars n s')
      else match n with
           | O => ""
           | S n' => String c (take_chars n' s')
           end
  end.

Definition finding_of (text : string) (sig : Signature) : list dict :=
  match search (sig_pattern sig) text with
  | Some matched =>
      [[("name", JStr (sig_name sig)); ("severity", JStr (sig_severity sig));
        ("description", JStr (sig_description sig)); ("matchedText", JStr (take_chars 200 matched))]]
  | None => []
  end.

Definition scan_findings (text : string) : list dict := mjoin (finding_of text <$> MALWARE_SIGNATURES).

(** [f["severity"] == s] *)
Definition severity_is (s : string) (f : dict) : bool :=
  match dget "severity" f with Some (JStr x) => x =s s | _ => false end.
Definition count_severity (s : string) (findings : list dict) : Z :=
  Z.of_nat (length (List.filter (severity_is s) findings)).

(** The scan of a file's bytes. *)
Definition scan_content (content : string) : dict :=
  let findings := scan_findings (decode_replace content) in
  let critical := count_severity "critical" findings in
  let high := count_severity "high" findings in
  [("passed", JBool (Z.eqb critical 0 && Z.eqb high 0));
   ("fileHash", JStr ("sha256:" +:+ sha256_hex content));
   ("fileSize", JNum (Z.of_nat (String.length content)));
   ("findings", JArr (JObj <$> findings));
   ("criticalCount", JNum critical); ("highCount", JNum high)].

Definition scan_error (message : string) : dict :=
  [("passed", JBool false); ("error", JStr message); ("findings", JArr [])].

Section Scan.
Context `{!Runtime, !Machine}.

(** What [os.stat] finds: links are followed (their content is their target),
    at most forty of them. *)
Fixpoint stat_file (links : nat) (path : string) : Op (option FileNode) :=
  let! node := file_at path in
  match node with
  | Some n =>
      match fn_kind n, links with
      | Symlink, O => ret None
      | Symlink, S links' => stat_file links' (fn_content n)
      | _, _ => ret (Some n)
      end
  | None => ret None
  end.

Definition scan_file (file_path : string) : Op dict :=
  let! node := stat_file 40 file_path in
  match node with
  | None => ret (scan_error "File not found")
  | Some n =>
      if negb (is_regular n) then ret (scan_error "File not found")
      else if Z.ltb MAX_SCAN_SIZE_BYTES (Z.of_nat (String.length (fn_content n)))
      then ret (scan_error "File too large")
      else if negb (fn_readable n) then raise (PermissionError (os_error file_path))
      else ret (scan_content (fn_content n))
  end.

(** [executescript] commits the pending transaction. *)
Definition ensure_scan_table : Op unit := commit.

Definition scan_capability (capability_uri tenant_id : string) (do_commit : bool) : Op dict :=
  ensure_scan_table ;;;
  let! row := query (fun d => fetchone (fun r => (cp_uri r =s capability_uri) && (cp_tenant_id r =s tenant_id))
                                (db_capabilities d)) in
  match row with
  | None => ret [("passed", JBool false); ("error", JStr "Capability not found")]
  | Some row =>
      let! result := scan_file (cp_source_path row) in
      let! scan_id := new_id "scn" in
      let! now := utc_now in
      let! _ := insert_row db_malware_scan_results
        {| ms_id := scan_id; ms_tenant_id := tenant_id; ms_capability_uri := capability_uri;
           ms_source_path := Some (cp_source_path row);
           ms_file_hash := match dget "fileHash" result with Some h => py_str h | None => "sha256:unknown" end;
           ms_scan_passed := if py_truthy (jget "passed" result) then 1 else 0;
           ms_findings_json := json_dumps (match dget "findings" result with Some f => f | None => JArr [] end);
           ms_scanned_at := now |} in
      let! _ := when do_commit commit in
      ret (dset "scanId" (JStr scan_id) (dset "capabilityUri" (JStr capability_uri) result))
  end.

Definition scan_record (r : ScanRow) : outcome dict :=
  let? findings := if truthy (ms_findings_json r) then json_loads_strict (ms_findings_json r) else Ok (JArr []) in
  Ok [("scanId", JStr (ms_id r)); ("capabilityUri", JStr (ms_capability_uri r));
      ("sourcePath", match ms_source_path r with Some p => if truthy p then JStr p else JNull | None => JNull end);
      ("fileHash", JStr (ms_file_hash r)); ("passed", JBool (negb (Z.eqb (ms_scan_passed r) 0)));
      ("findings", findings); ("scannedAt", JStr (ms_scanned_at r))].

Fixpoint omap_outcome {A B} (f : A -> outcome B) (l : list A) : outcome (list B) :=
  match l with
  | [] => Ok []
  | x :: l' => let? y := f x in let? ys := omap_outcome f l' in Ok (y :: ys)
  end.

Definition get_scan_results (capability_uri : option string) (tenant_id : string) (limit : Z) : Op (list dict) :=
  ensure_scan_table ;;;
  let! rows := query (fun d => fetchall (fun r => (ms_tenant_id r =s tenant_id)
      && match capability_uri with Some u => negb (truthy u) || (ms_capability_uri r =s u) | None => true end)
    (db_malware_scan_results d)) in
  lift (omap_outcome scan_record
    (take (Z.to_nat (Z.min (Z.max limit 1) 200)) (sort_by (fun a b => sle (ms_scanned_at b) (ms_scanned_at a)) rows))).
End Scan.

(** ** What a scan means *)

(** The severities of the signatures are the two that fail a scan. *)
Lemma signature_severities sig : sig ∈ MALWARE_SIGNATURES -> sig_severity sig = "critical" \/ sig_severity sig = "high".
Proof.
  unfold MALWARE_SIGNATURES. rewrite !elem_of_cons, elem_of_nil. cbn.
  intros H; repeat destruct H as [->|H]; cbn; try tauto; done.
Qed.

Lemma severity_is_name s (d : dict) x : dget "severity" d = Some (JStr x) -> severity_is s d = (x =s s).
Proof. unfold severity_is. by intros ->. Qed.

Lemma count_severity_zero s findings : count_severity s findings = 0%Z <-> forall f, f ∈ findings -> severity_is s f = false.
Proof.
  unfold count_severity. induction findings as [|f l IH]; cbn.
  - split; [|done]. by intros _ f []%elem_of_nil.
  - setoid_rewrite elem_of_cons. destruct (severity_is s f) eqn:E; cbn.
    + split; [lia|]. intros H. specialize (H f (or_introl eq_refl)). congruence.
    + rewrite IH. split; [intros H x [->|Hx]; auto | intros H x Hx; auto].
Qed.

(** A scan passes exactly when no signature occurs in the text. *)
Lemma scan_content_passed content :
  dget "passed" (scan_content content) = Some (JBool true) <->
  forall sig, sig ∈ MALWARE_SIGNATURES -> ~ occurs (sig_pattern sig) (decode_replace content).
Proof.
  unfold scan_content. cbn [dget List.find fst snd String.eqb Ascii.eqb Bool.eqb fmap option_fmap option_map].
  set (text := decode_replace content). set (findings := scan_findings text).
  assert (forall f, f ∈ findings <-> exists sig, sig ∈ MALWARE_SIGNATURES /\ f ∈ finding_of text sig) as Hf.
  { intros f. unfold findings, scan_findings. rewrite list_elem_of_join. split.
    - intros (l & Hl & (sig & -> & Hs)%list_elem_of_fmap). by exists sig.
    - intros (sig & Hs & Hin). exists (finding_of text sig). split; [done|]. by apply list_elem_of_fmap_2. }
  transitivity (count_severity "critical" findings = 0%Z /\ count_severity "high" findings = 0%Z).
  { rewrite <-!Z.eqb_eq. split; [intros [= H]; by apply andb_true_iff | intros [-> ->]; done]. }
  rewrite !count_severity_zero. split.
  - intros [Hc Hh] sig Hsig Hocc%search_occurs. destruct (search (sig_pattern sig) text) as [m|] eqn:E; [|done].
    assert (exists f, f ∈ finding_of text sig /\ dget "severity" f = Some (JStr (sig_severity sig))) as (f & Hin & Hsev).
    { unfold finding_of. rewrite E. eexists. split; [by left|done]. }
    assert (f ∈ findings) as Hff by (apply Hf; by exists sig).
    specialize (Hc f Hff). specialize (Hh f Hff). rewrite (severity_is_name _ _ _ Hsev) in Hc. rewrite (severity_is_name _ _ _ Hsev) in Hh.
    destruct (signature_severities sig Hsig) as [Hs|Hs]; rewrite Hs in *; done.
  - intros Hno. assert (forall f, f ∉ findings) as Hnone.
    { intros f (sig & Hsig & Hin)%Hf. apply (Hno sig Hsig). apply search_occurs. unfold finding_of in Hin.
      destruct (search (sig_pattern sig) text); [done|]. by apply elem_of_nil in Hin. }
    by split; intros f Hff; destruct (Hnone f).
Qed.

Section ScanTheorems.
Context `{!Runtime, !Machine}.

(** The file a path names, once links are followed. *)
Definition named_file (path : string) (w : World) : option FileNode :=
  match (stat_file 40 path w).1 with Ok n => n | Raise _ => None end.

Lemma stat_file_pure links path w : exists n, stat_file links path w = (Ok n, w).
Proof.
  revert path. induction links as [|links IH]; intros path; cbn; unfold bind, file_at, gets;
    (destruct (w_files w !! path) as [n|]; [|by eexists]); destruct (fn_kind n); try by eexists. apply IH.
Qed.

Lemma stat_file_files links path w v : w_files v = w_files w -> (stat_file links path v).1 = (stat_file links path w).1.
Proof.
  intros Hf. revert path. induction links as [|links IH]; intros path; cbn; unfold bind, file_at, gets; rewrite Hf;
    (destruct (w_files w !! path) as [n|]; [|done]); destruct (fn_kind n); try done.
Qed.

Lemma named_file_files path w v : w_files v = w_files w -> named_file path v = named_file path w.
Proof. intros Hf. unfold named_file. by rewrite (stat_file_files 40 path w v Hf). Qed.

Lemma named_file_stat path w : stat_file 40 path w = (Ok (named_file path w), w).
Proof. unfold named_file. by destruct (stat_file_pure 40 path w) as [n ->]. Qed.

(** The scan is fail closed and exact.  Scanning changes nothing.  A file
    that is missing, not regular or too large is reported as not passed, with
    an error; an unreadable one raises a PermissionError; any other file passes
    exactly when none of the signatures, as regular expressions, matches
    anywhere in its decoded text, and the report carries the digest of the
    bytes that were scanned. *)
Theorem scan_file_spec path w r w' :
  scan_file path w = (r, w') ->
  w' = w /\
  match named_file path w with
  | Some n =>
      if is_regular n && Z.leb (Z.of_nat (String.length (fn_content n))) MAX_SCAN_SIZE_BYTES then
        if fn_readable n then
          exists d b, r = Ok d /\ dget "fileHash" d = Some (JStr ("sha256:" +:+ sha256_hex (fn_content n))) /\
            dget "passed" d = Some (JBool b) /\
            (b = true <->
             forall sig, sig ∈ MALWARE_SIGNATURES -> ~ occurs (sig_pattern sig) (decode_replace (fn_content n)))
        else is_permission_error r = true
      else exists why, r = Ok (scan_error why)
  | None => exists why, r = Ok (scan_error why)
  end.
Proof.
  unfold scan_file, bind. rewrite named_file_stat. destruct (named_file path w) as [n|];
    [|by intros [= <- <-]; split; [|eexists]].
  destruct (is_regular n); cbn [negb andb]; [|by intros [= <- <-]; split; [|eexists]].
  destruct (Z.leb_spec (Z.of_nat (String.length (fn_content n))) MAX_SCAN_SIZE_BYTES) as [Hl|Hl].
  - assert (Z.ltb MAX_SCAN_SIZE_BYTES (Z.of_nat (String.length (fn_content n))) = false) as -> by (apply Z.ltb_ge; lia).
    destruct (fn_readable n); cbn [negb]; intros [= <- <-]; (split; [done|]); [|done].
    eexists _, _. split_and!; [reflexivity..|]. rewrite <-scan_content_passed. cbn. by split; [intros ->|intros [= ->]].
  - assert (Z.ltb MAX_SCAN_SIZE_BYTES (Z.of_nat (String.length (fn_content n))) = true) as -> by (apply Z.ltb_lt; lia).
    intros [= <- <-]. split; [done | by eexists].
Qed.
End ScanTheorems.
