(* ===== verification/Catalog.v ===== *)
(** * Lookups in the catalog ([index.py])

    Finding a capability by address or name, the quarantine hold that hides it,
    and the generation digest that governance mutations refresh. *)

From Stdlib Require Import ZArith Ascii String Lia.
From stdpp Require Import base option list strings gmap.
From S2P Require Import Prelude Sha256 PyStr Json Clock Db Models.
Local Open Scope string_scope.
Local Open Scope list_scope.

(** [_capguard_is_held] *)
Definition _capguard_is_held (d : DB) (c : Capability) : bool :=
  exists_where (fun r => (qr_tenant_id r =s s_or (c_tenant_id c) "asg")
                         && (qr_capability_uri r =s c_uri c)
                         && (qr_content_hash r =s c_content_hash c)
                         && (qr_status r =s "quarantined")) (db_capguard_quarantine d).

(** The row [get_capability] selects: by address, else by name or title with
    the plugin source first. *)
Definition capability_row_for (d : DB) (uri_or_name : string) : option CapRow :=
  match fetchone (fun r => cp_uri r =s uri_or_name) (db_capabilities d) with
  | Some r => Some r
  | None =>
      let plugins r := cp_source_system r =s "asg-os.plugins" in
      List.head (sort_by (fun a b => negb (plugins b) || plugins a)
        (fetchall (fun r => (cp_name r =s uri_or_name) || (cp_title r =s uri_or_name))
           (db_capabilities d)))
  end.

Definition get_capability (d : DB) (uri_or_name : string) : outcome (option Capability) :=
  match capability_row_for d uri_or_name with
  | None => Ok None
  | Some row =>
      let? cap := capability_from_row row in
      Ok (if _capguard_is_held d cap then None else Some cap)
  end.

(** [_catalog_generation]: one tab-separated line per capability, by address. *)
Definition tab : string := String (Ascii.ascii_of_nat 9) "".
Definition line_end : string := String (Ascii.ascii_of_nat 10) "".

Definition _catalog_generation (d : DB) : string :=
  let rows := sort_by (fun a b => sle (cp_uri a) (cp_uri b)) (db_capabilities d) in
  "sha256:" +:+ sha256_hex (join "" ((fun r =>
    join tab [cp_uri r; cp_content_hash r; cp_approval_state r; cp_share_state r] +:+ line_end) <$> rows)).

(** INSERT OR REPLACE INTO meta *)
Definition set_meta (key value : string) : Op unit :=
  delete_rows db_meta (fun r => mt_key r =s key) ;;;
  insert_row db_meta {| mt_key := key; mt_value := value |}.

Definition refresh_catalog_generation : Op string :=
  let! generation := query _catalog_generation in
  set_meta "last_successful_ingest_generation" generation ;;;
  ret generation.

(** [manifest.slugify], on texts whose non-ASCII bytes belong to letters. *)
Definition is_word (c : ascii) : bool :=
  is_alnum c || ceqb c "_"%char || (128 <=? code c)%nat.

(** Runs of bytes outside [keep] become one dash. *)
Fixpoint dash_runs (keep : ascii -> bool) (in_run : bool) (s : string) : string :=
  match s with
  | EmptyString => ""
  | String c s' =>
      if keep c then String c (dash_runs keep false s')
      else if in_run then dash_runs keep true s'
      else String "-" (dash_runs keep true s')
  end.

Fixpoint single_dashes (after_dash : bool) (s : string) : string :=
  match s with
  | EmptyString => ""
  | String c s' =>
      if ceqb c "-"%char
      then if after_dash then single_dashes true s' else String c (single_dashes true s')
      else String c (single_dashes false s')
  end.

Definition slugify (value : string) : string :=
  let value := lower (strip value) in
  let value := dash_runs (fun c => is_word c || one_of ".-" c) false value in
  s_or (strip_by (one_of "-._") (single_dashes false value)) "unnamed".

Example slugify_example : slugify "  My Tool: v2 (beta) -- " = "my-tool-v2-beta".
Proof. reflexivity. Qed.

(** ** Lemmas *)
Lemma held_hidden d uri_or_name c :
  get_capability d uri_or_name = Ok (Some c) -> _capguard_is_held d c = false.
Proof.
  unfold get_capability. destruct (capability_row_for d uri_or_name) as [row|]; [|done].
  destruct (capability_from_row row) as [cap|]; [|done]. cbn [obind].
  destruct (_capguard_is_held d cap) eqn:E; [done|]. by intros [= <-].
Qed.

#[export] Hint Extern 2 (preserves _ refresh_catalog_generation) =>
  solve [unfold refresh_catalog_generation, set_meta; solve_frame] : frame.
