(* ===== verification/CapGuardPolicy.v ===== *)
(** * The CapGuard policy ([cap_guard.py])

    The controls evaluated before a capability may be indexed as callable, the
    policy that configures them, and the verdict. *)

From Stdlib Require Import ZArith Ascii String Lia.
From stdpp Require Import base option list strings sets.
From S2P Require Import Prelude Sha256 PyStr Json Clock Ordering Db Models.
Local Open Scope string_scope.
Local Open Scope list_scope.

Definition ISOLATION_MODES : list string := ["none"; "cire"; "camber"].
Definition SCAN_OUTCOMES : list string := ["passed"; "failed"; "inconclusive"].
Definition CHECK_STATES : list string := ["pending"; "passed"; "failed"].
Definition GUARD_ACTIONS : list string := ["allow"; "deny"; "quarantine"].
Definition RISK_TIERS : list string := ["low"; "medium"; "high"; "critical"].
Definition SEVERITIES : list string := ["low"; "medium"; "high"; "critical"].
Definition DEFAULT_CHECKS : list string :=
  ["malwareScan"; "signature"; "provenance"; "promptInjectionScan"; "riskTierPolicy"].
Definition QUARANTINE_RECORD_STATUSES : list string := ["held"; "released"; "rejected"].

(** [repr] of a list of texts. *)
Definition repr_list (l : list string) : string := py_repr (jstrs l).

(** ** The result of one control *)
Record CapGuardCheckResult : Type := mkCheck {
  ck_name : string; ck_state : string; ck_severity : string; ck_message : string;
  ck_fail_closed : bool; ck_evidence : dict
}.

(** The constructor with its [__post_init__]. *)
Definition new_check (name state severity message : string) (fail_closed : bool) (evidence : dict)
  : outcome CapGuardCheckResult :=
  if negb (smem state CHECK_STATES) then Raise (ValueError ("Unsupported CapGuard check state: " +:+ repr_str state))
  else if negb (smem severity SEVERITIES) then Raise (ValueError ("Unsupported CapGuard severity: " +:+ repr_str severity))
  else if negb (smem name DEFAULT_CHECKS) then Raise (ValueError ("Unknown CapGuard check: " +:+ repr_str name))
  else if fail_closed && negb (state =s "failed")
  then Raise (ValueError ("CapGuard check " +:+ repr_str name +:+ " marked fail_closed but state is " +:+ repr_str state))
  else Ok (mkCheck name state severity message fail_closed evidence).

Definition check_to_dict (c : CapGuardCheckResult) : dict :=
  [("name", JStr (ck_name c)); ("state", JStr (ck_state c)); ("severity", JStr (ck_severity c));
   ("message", JStr (ck_message c)); ("failClosed", JBool (ck_fail_closed c)); ("evidence", JObj (ck_evidence c))].

(** ** The verdict *)
Record CapGuardVerdict : Type := mkVerdict {
  vd_action : string; vd_isolation_mode : string; vd_capability_uri : string; vd_risk_tier : string;
  vd_reason : string; vd_checks : list CapGuardCheckResult; vd_fail_closed : bool
}.

Definition new_verdict (action isolation_mode capability_uri risk_tier reason : string)
    (checks : list CapGuardCheckResult) (fail_closed : bool) : outcome CapGuardVerdict :=
  if negb (smem action GUARD_ACTIONS) then Raise (ValueError ("Unsupported CapGuard action: " +:+ repr_str action))
  else if negb (smem isolation_mode ISOLATION_MODES)
  then Raise (ValueError ("Unsupported isolation mode: " +:+ repr_str isolation_mode))
  else if (action =s "allow") && smem risk_tier ["high"; "critical"] && (isolation_mode =s "none")
  then Raise (ValueError ("CapGuard invariant violated: " +:+ risk_tier +:+ "-tier capability "
                          +:+ repr_str capability_uri +:+ " allowed with no isolation"))
  else Ok (mkVerdict action isolation_mode capability_uri risk_tier reason checks fail_closed).

Definition allowed (v : CapGuardVerdict) : bool := vd_action v =s "allow".
Definition denied (v : CapGuardVerdict) : bool := vd_action v =s "deny".
Definition quarantined (v : CapGuardVerdict) : bool := vd_action v =s "quarantine".
Definition check (v : CapGuardVerdict) (name : string) : option CapGuardCheckResult :=
  List.find (fun c => ck_name c =s name) (vd_checks v).
Definition verdict_to_dict (v : CapGuardVerdict) : dict :=
  [("action", JStr (vd_action v)); ("isolationMode", JStr (vd_isolation_mode v));
   ("capabilityUri", JStr (vd_capability_uri v)); ("riskTier", JStr (vd_risk_tier v));
   ("reason", JStr (vd_reason v)); ("failClosed", JBool (vd_fail_closed v));
   ("checks", JArr ((fun c => JObj (check_to_dict c)) <$> vd_checks v))].

(** ** The configuration *)
Record CapGuardPolicy : Type := mkPolicy {
  pol_enabled_checks : list string; pol_blocking_checks : list string; pol_fail_closed : bool;
  pol_camber_tiers : list string; pol_cire_tiers : list string; pol_allow_cire_downgrade : bool;
  pol_deny_on_high_findings : bool; pol_quarantine_on_medium_findings : bool;
  pol_max_scan_age_seconds : option Z
}.

#[export] Instance eta_CapGuardPolicy : EtaRecord CapGuardPolicy := fun r =>
  mkPolicy (pol_enabled_checks r) (pol_blocking_checks r) (pol_fail_closed r) (pol_camber_tiers r)
    (pol_cire_tiers r) (pol_allow_cire_downgrade r) (pol_deny_on_high_findings r)
    (pol_quarantine_on_medium_findings r) (pol_max_scan_age_seconds r).

Definition default_policy : CapGuardPolicy :=
  mkPolicy DEFAULT_CHECKS DEFAULT_CHECKS true ["high"; "critical"] ["medium"] false true true None.

(** The members of [l] that are not in [allowed], sorted, once each. *)
Definition set_minus (l allowed : list string) : list string :=
  sorted_strings (List.filter (fun x => negb (smem x allowed)) (remove_dups l)).

Definition policy_post_init (p : CapGuardPolicy) : outcome CapGuardPolicy :=
  let unknown (allowed l : list string) := List.find (fun x => negb (smem x allowed)) l in
  match unknown DEFAULT_CHECKS (pol_enabled_checks p) with
  | Some c => Raise (ValueError ("Unknown CapGuard check: " +:+ repr_str c))
  | None =>
      match set_minus (pol_blocking_checks p) (pol_enabled_checks p) with
      | (_ :: _) as l => Raise (ValueError ("Blocking checks not enabled: " +:+ repr_list l))
      | [] =>
          match unknown RISK_TIERS (pol_camber_tiers p), unknown RISK_TIERS (pol_cire_tiers p) with
          | Some t, _ => Raise (ValueError ("Unknown risk tier in camber_tiers: " +:+ repr_str t))
          | None, Some t => Raise (ValueError ("Unknown risk tier in cire_tiers: " +:+ repr_str t))
          | None, None =>
              match sorted_strings (List.filter (fun x => smem x (pol_cire_tiers p)) (remove_dups (pol_camber_tiers p))) with
              | (_ :: _) as l => Raise (ValueError ("Risk tiers cannot require both Camber and CIRE: " +:+ repr_list l))
              | [] =>
                  match pol_max_scan_age_seconds p with
                  | Some n => if Z.leb n 0 then Raise (ValueError "max_scan_age_seconds must be positive or None") else Ok p
                  | None => Ok p
                  end
              end
          end
      end
  end.

(** [int(v)]; a float lexeme with an exponent is outside the model. *)
Definition py_int (v : json) : outcome Z :=
  match v with
  | JNum n => Ok n
  | JBool b => Ok (if b then 1 else 0)%Z
  | JStr s => match Z_of_str (strip s) with
              | Some n => Ok n
              | None => Raise (ValueError ("invalid literal for int() with base 10: " +:+ repr_str s))
              end
  | JFloat x => match Z_of_str (match partition "." x with Some (a, _) => a | None => x end) with
                | Some n => Ok n
                | None => Raise (ValueError "float outside the model")
                end
  | _ => Raise (OtherError "TypeError: int() argument must be a string, a bytes-like object or a real number")
  end.

Definition POLICY_KEYS : list string :=
  ["enabled_checks"; "blocking_checks"; "fail_closed"; "camber_tiers"; "cire_tiers"; "allow_cire_downgrade";
   "deny_on_high_findings"; "quarantine_on_medium_findings"; "max_scan_age_seconds"].

(** [_tuple(key) or default] *)
Definition policy_tuple (raw : dict) (key : string) (default : list string) : outcome (list string) :=
  match jget key raw with
  | JNull => Ok default
  | v => let? items := py_iter v in
         Ok (match items with [] => default | _ => py_str <$> items end)
  end.
Definition policy_bool (raw : dict) (key : string) (default : bool) : bool :=
  match dget key raw with Some v => py_truthy v | None => default end.

Definition from_dict (raw : option dict) : outcome CapGuardPolicy :=
  match raw with
  | None | Some [] => Ok default_policy
  | Some raw =>
      match set_minus raw.*1 POLICY_KEYS with
      | (_ :: _) as unknown => Raise (ValueError ("Unknown CapGuard policy keys: " +:+ repr_list unknown))
      | [] =>
          let? enabled := policy_tuple raw "enabled_checks" DEFAULT_CHECKS in
          let? blocking := policy_tuple raw "blocking_checks" DEFAULT_CHECKS in
          let? camber := policy_tuple raw "camber_tiers" ["high"; "critical"] in
          let? cire := policy_tuple raw "cire_tiers" ["medium"] in
          let? age := match jget "max_scan_age_seconds" raw with
                      | JNull => Ok None
                      | v => let? n := py_int v in Ok (Some n)
                      end in
          policy_post_init
            (mkPolicy enabled blocking (policy_bool raw "fail_closed" true) camber cire
               (policy_bool raw "allow_cire_downgrade" false) (policy_bool raw "deny_on_high_findings" true)
               (policy_bool raw "quarantine_on_medium_findings" true) age)
      end
  end.

Definition policy_to_dict (p : CapGuardPolicy) : dict :=
  [("enabledChecks", jstrs (pol_enabled_checks p)); ("blockingChecks", jstrs (pol_blocking_checks p));
   ("failClosed", JBool (pol_fail_closed p)); ("camberTiers", jstrs (pol_camber_tiers p));
   ("cireTiers", jstrs (pol_cire_tiers p)); ("allowCireDowngrade", JBool (pol_allow_cire_downgrade p));
   ("denyOnHighFindings", JBool (pol_deny_on_high_findings p));
   ("quarantineOnMediumFindings", JBool (pol_quarantine_on_medium_findings p));
   ("maxScanAgeSeconds", match pol_max_scan_age_seconds p with Some n => JNum n | None => JNull end)].

(** ** A held capability *)
Record QuarantineRecord : Type := mkQuarantineRecord {
  qc_id : string; qc_capability_uri : string; qc_tenant_id : string; qc_quarantined_at : string;
  qc_reason : string; qc_isolation_mode : string; qc_status : string;
  qc_checks : list CapGuardCheckResult; qc_released_at : option string
}.

Definition quarantine_post_init (q : QuarantineRecord) : outcome QuarantineRecord :=
  if negb (truthy (qc_id q)) then Raise (ValueError "QuarantineRecord requires a non-empty id")
  else if negb (truthy (qc_capability_uri q)) then Raise (ValueError "QuarantineRecord requires a capability_uri")
  else if negb (smem (qc_status q) QUARANTINE_RECORD_STATUSES)
  then Raise (ValueError ("Unsupported quarantine status: " +:+ repr_str (qc_status q)))
  else if negb (smem (qc_isolation_mode q) ISOLATION_MODES)
  then Raise (ValueError ("Unsupported isolation mode: " +:+ repr_str (qc_isolation_mode q)))
  else if smem (qc_status q) ["released"; "rejected"] && negb (otruthy (qc_released_at q))
  then Raise (ValueError ("QuarantineRecord status " +:+ repr_str (qc_status q) +:+ " requires released_at"))
  else if (qc_status q =s "held") && is_some (qc_released_at q)
  then Raise (ValueError "Held QuarantineRecord must not set released_at")
  else Ok q.

Definition held (q : QuarantineRecord) : bool := qc_status q =s "held".
Definition quarantine_to_dict (q : QuarantineRecord) : dict :=
  [("id", JStr (qc_id q)); ("capabilityUri", JStr (qc_capability_uri q)); ("tenantId", JStr (qc_tenant_id q));
   ("quarantinedAt", JStr (qc_quarantined_at q)); ("reason", JStr (qc_reason q));
   ("isolationMode", JStr (qc_isolation_mode q)); ("status", JStr (qc_status q));
   ("checks", JArr ((fun c => JObj (check_to_dict c)) <$> qc_checks q));
   ("releasedAt", match qc_released_at q with Some t => JStr t | None => JNull end)].

(** ** The controls *)
Definition decide_isolation_mode (risk_tier : string) (pol : CapGuardPolicy) : string :=
  if smem risk_tier (pol_camber_tiers pol) then "camber"
  else if smem risk_tier (pol_cire_tiers pol) then "cire"
  else if negb (smem risk_tier RISK_TIERS) then "camber"
  else "none".

(** [f.get("severity") == s]; a finding that is not a dict raises. *)
Fixpoint count_findings (s : string) (findings : list json) : outcome Z :=
  match findings with
  | [] => Ok 0%Z
  | JObj f :: findings' =>
      let? n := count_findings s findings' in
      Ok (match dget "severity" f with Some (JStr x) => if x =s s then n + 1 else n | _ => n end)%Z
  | _ :: _ => Raise (OtherError "AttributeError: object has no attribute 'get'")
  end.

(** A recorded count, or the count of the findings when it is None. *)
Definition count_or (recorded : json) (s : string) (findings : list json) : outcome Z :=
  match recorded with JNull => count_findings s findings | v => py_int v end.

Definition _scan_check (scan_result : option dict) (pol : CapGuardPolicy) : outcome CapGuardCheckResult :=
  match scan_result with
  | None => new_check "malwareScan" "pending" "low" "malware scan has not been run" false [("ran", JBool false)]
  | Some scan_result =>
      let error := jget "error" scan_result in
      if py_truthy error
      then new_check "malwareScan" "failed" "critical" ("scan inconclusive: " +:+ py_str error) true
             [("ran", JBool true); ("error", JStr (py_str error))]
      else
        let? findings := py_iter (py_or (jget "findings" scan_result) (JArr [])) in
        let? crit := count_or (jget "criticalCount" scan_result) "critical" findings in
        let? high := count_or (jget "highCount" scan_result) "high" findings in
        let? medium := count_findings "medium" findings in
        let passed := py_truthy (jget "passed" scan_result) in
        let evidence := [("ran", JBool true); ("passed", JBool passed); ("criticalCount", JNum crit);
                         ("highCount", JNum high); ("mediumCount", JNum medium)] in
        let nonzero n := negb (Z.eqb n 0) in
        if negb passed && (nonzero crit || nonzero high)
        then new_check "malwareScan" "failed" (if nonzero crit then "critical" else "high")
               ("scan blocked: " +:+ str_of_Z crit +:+ " critical, " +:+ str_of_Z high +:+ " high findings") false evidence
        else if negb passed
        then new_check "malwareScan" "failed" "critical" "scan failed without enumerated findings" true evidence
        else if nonzero medium && pol_quarantine_on_medium_findings pol
        then new_check "malwareScan" "failed" "medium"
               ("scan passed but " +:+ str_of_Z medium +:+ " medium findings require review") false evidence
        else new_check "malwareScan" "passed" "low" "scan passed" false evidence
  end.

Definition _status_check (name : string) (status : option string) : outcome CapGuardCheckResult :=
  let status := or_else status "" in
  let norm := lower (strip status) in
  if norm =s "verified" then new_check name "passed" "low" (name +:+ " verified") false []
  else if List.existsb (contains norm) ["fail"; "invalid"; "reject"]
  then new_check name "failed" "high" (name +:+ " failed: " +:+ repr_str status) false [("status", JStr status)]
  else new_check name "pending" "low" (name +:+ " not verified (status=" +:+ repr_str status +:+ ")") false
         [("status", JStr status)].

Definition _injection_check (injection_result : option bool) : outcome CapGuardCheckResult :=
  match injection_result with
  | None => new_check "promptInjectionScan" "pending" "low" "prompt-injection scan has not been run" false []
  | Some true => new_check "promptInjectionScan" "passed" "low" "prompt-injection scan passed" false []
  | Some false => new_check "promptInjectionScan" "failed" "critical"
                    "prompt-injection scan blocked the capability" false [("blocked", JBool true)]
  end.

Definition _risk_tier_check (risk_tier : string) : outcome CapGuardCheckResult :=
  if smem risk_tier RISK_TIERS
  then new_check "riskTierPolicy" "passed" "low"
         ("risk tier " +:+ repr_str risk_tier +:+ " recognized; isolation enforced separately") false
         [("riskTier", JStr risk_tier)]
  else new_check "riskTierPolicy" "failed" "high"
         ("unknown risk tier " +:+ repr_str risk_tier +:+ "; cannot index unclassified capability") false
         [("riskTier", JStr risk_tier)].

(** ** The evaluation *)
Definition control (name : string) (c : Capability) (scan_result : option dict) (pol : CapGuardPolicy)
    (injection_result : option bool) : outcome CapGuardCheckResult :=
  if name =s "malwareScan" then _scan_check scan_result pol
  else if name =s "signature" then _status_check "signature" (Some (c_signature_status c))
  else if name =s "provenance" then _status_check "provenance" (Some (c_provenance_status c))
  else if name =s "promptInjectionScan" then _injection_check injection_result
  else _risk_tier_check (c_risk_tier c).

Fixpoint controls (names : list string) (c : Capability) (scan_result : option dict) (pol : CapGuardPolicy)
    (injection_result : option bool) : outcome (list CapGuardCheckResult) :=
  match names with
  | [] => Ok []
  | name :: names' =>
      let? r := control name c scan_result pol injection_result in
      let? rs := controls names' c scan_result pol injection_result in
      Ok (r :: rs)
  end.

(** [SEVERITIES.index(severity)] *)
Definition severity_index (c : CapGuardCheckResult) : Z :=
  match SEVERITIES with
  | [low; medium; high; _] =>
      if ck_severity c =s low then 0 else if ck_severity c =s medium then 1
      else if ck_severity c =s high then 2 else 3
  | _ => 0
  end.
Definition worst_of (c : CapGuardCheckResult) (l : list CapGuardCheckResult) : CapGuardCheckResult :=
  max_by (fun a b => Z.compare (severity_index a) (severity_index b)) c l.

Definition is_failed (c : CapGuardCheckResult) : bool := ck_state c =s "failed".
Definition is_pending (c : CapGuardCheckResult) : bool := ck_state c =s "pending".
Definition is_hard (c : CapGuardCheckResult) : bool := smem (ck_severity c) ["high"; "critical"] || ck_fail_closed c.
Definition control_names (l : list CapGuardCheckResult) : string :=
  join ", " (sorted_strings (remove_dups (ck_name <$> l))).

Definition verdict_of (uri risk_tier isolation : string) (pol : CapGuardPolicy) (results : list CapGuardCheckResult)
  : outcome CapGuardVerdict :=
  let blocking := List.filter (fun c => smem (ck_name c) (pol_blocking_checks pol)) results in
  let failed := List.filter is_failed blocking in
  let pending := List.filter is_pending blocking in
  let fail_closed_triggered := List.existsb ck_fail_closed failed in
  let denial c l := let worst := worst_of c l in
    new_verdict "deny" isolation uri risk_tier
      ("CapGuard denied " +:+ uri +:+ ": control " +:+ repr_str (ck_name worst) +:+ " failed (" +:+ ck_severity worst +:+ ")")
      results fail_closed_triggered in
  match List.filter is_hard failed, failed, pending with
  | c :: l, _, _ => denial c l
  | [], c :: l, _ =>
      if pol_deny_on_high_findings pol && List.existsb (fun c => ck_severity c =s "high") failed then denial c l
      else new_verdict "quarantine" isolation uri risk_tier
             ("CapGuard quarantined " +:+ uri +:+ ": failed controls [" +:+ control_names failed +:+ "]")
             results fail_closed_triggered
  | [], [], _ :: _ =>
      new_verdict "quarantine" isolation uri risk_tier
        ("CapGuard quarantined " +:+ uri +:+ ": pending controls [" +:+ control_names pending +:+ "]") results false
  | [], [], [] =>
      new_verdict "allow" isolation uri risk_tier
        ("CapGuard allowed " +:+ uri +:+ (if isolation =s "none" then " (no isolation)" else " under " +:+ isolation +:+ " isolation"))
        results false
  end.

Definition evaluate_cap_guard_policy (c : Capability) (scan_result : option dict) (policy : option CapGuardPolicy)
    (injection_result : option bool) : outcome CapGuardVerdict :=
  let pol := or_else policy default_policy in
  let isolation := decide_isolation_mode (c_risk_tier c) pol in
  let enabled := List.filter (fun name => smem name (pol_enabled_checks pol)) DEFAULT_CHECKS in
  let? results := controls enabled c scan_result pol injection_result in
  verdict_of (c_uri c) (c_risk_tier c) isolation pol results.

Definition quarantine_required (v : CapGuardVerdict) : bool := vd_action v =s "quarantine".
Definition fail_closed_scan (v : CapGuardVerdict) : bool := vd_fail_closed v.

(** ** Lemmas *)
Lemma new_check_inv name state severity message fc ev r :
  new_check name state severity message fc ev = Ok r ->
  r = mkCheck name state severity message fc ev /\ state ∈ CHECK_STATES.
Proof. unfold new_check. repeat case_match; intros [= <-]. split; [done|]. apply smem_In. by apply negb_false_iff. Qed.

Lemma new_verdict_inv action iso uri tier reason checks fc v :
  new_verdict action iso uri tier reason checks fc = Ok v ->
  v = mkVerdict action iso uri tier reason checks fc /\
  (action = "allow" -> tier ∈ ["high"; "critical"] -> iso <> "none").
Proof.
  unfold new_verdict. destruct (negb _); [done|]. destruct (negb _); [done|].
  destruct ((action =s "allow") && smem tier ["high"; "critical"] && (iso =s "none")) eqn:E; [done|].
  intros [= <-]. split; [done|]. intros -> Ht%smem_In ->. by rewrite Ht in E.
Qed.

Lemma control_inv name c scan pol inj r :
  name ∈ DEFAULT_CHECKS -> control name c scan pol inj = Ok r -> ck_name r = name /\ ck_state r ∈ CHECK_STATES.
Proof.
  unfold DEFAULT_CHECKS. rewrite !elem_of_cons, elem_of_nil. intros Hn H.
  assert (exists state severity message fc ev, new_check name state severity message fc ev = Ok r) as Hex.
  { destruct Hn as [->|[->|[->|[->|[->|[]]]]]]; cbn in H.
    - unfold _scan_check in H. destruct scan as [d|]; [|by do 5 eexists].
      destruct (py_truthy (jget "error" d)); [by do 5 eexists|].
      destruct (py_iter _) as [fs|]; [|done]. cbn [obind] in H. destruct (count_or _ "critical" fs); [|done].
      cbn [obind] in H. destruct (count_or _ "high" fs); [|done]. cbn [obind] in H.
      destruct (count_findings "medium" fs); [|done]. cbn [obind] in H. repeat case_match; by do 5 eexists.
    - unfold _status_check in H. repeat case_match; by do 5 eexists.
    - unfold _status_check in H. repeat case_match; by do 5 eexists.
    - unfold _injection_check in H. repeat case_match; by do 5 eexists.
    - unfold _risk_tier_check in H. repeat case_match; by do 5 eexists. }
  destruct Hex as (st & se & m & fc & ev & Hc). apply new_check_inv in Hc as [-> Hs]. done.
Qed.

Lemma controls_inv names c scan pol inj rs :
  (forall n, n ∈ names -> n ∈ DEFAULT_CHECKS) -> controls names c scan pol inj = Ok rs ->
  ck_name <$> rs = names /\ Forall (fun r => ck_state r ∈ CHECK_STATES /\ control (ck_name r) c scan pol inj = Ok r) rs.
Proof.
  revert rs. induction names as [|n names IH]; intros rs Hn H; cbn in H; [by injection H as <-|].
  destruct (control n c scan pol inj) as [r|] eqn:Er; [|done]. cbn in H.
  destruct (controls names c scan pol inj) as [rs'|]; [|done]. injection H as <-.
  destruct (control_inv _ _ _ _ _ _ (Hn n ltac:(by left)) Er) as [<- Hs].
  destruct (IH rs') as [<- Hf]; [intros m Hm; apply Hn; by right|done|]. split; [done|]. by constructor.
Qed.

(** The blocking controls of a result list. *)
Definition blocks (pol : CapGuardPolicy) (r : CapGuardCheckResult) : bool := smem (ck_name r) (pol_blocking_checks pol).

Lemma verdict_of_inv uri tier iso pol rs v :
  verdict_of uri tier iso pol rs = Ok v -> Forall (fun r => ck_state r ∈ CHECK_STATES) rs ->
  vd_checks v = rs /\ vd_isolation_mode v = iso /\ vd_risk_tier v = tier /\
  (vd_action v = "allow" -> tier ∈ ["high"; "critical"] -> iso <> "none") /\
  ((vd_action v = "deny" /\ exists r, r ∈ rs /\ blocks pol r = true /\ is_failed r = true /\ is_hard r = true) \/
   ((forall r, r ∈ rs -> blocks pol r = true -> is_failed r = true -> is_hard r = false) /\
    ((vd_action v = "quarantine" /\ exists r, r ∈ rs /\ blocks pol r = true /\ ck_state r <> "passed") \/
     (vd_action v = "allow" /\ forall r, r ∈ rs -> blocks pol r = true -> ck_state r = "passed")))).
Proof.
  unfold verdict_of. set (blocking := List.filter (fun c => smem (ck_name c) (pol_blocking_checks pol)) rs). intros H Hs.
  assert (forall r, r ∈ blocking <-> blocks pol r = true /\ r ∈ rs) as Hb
    by (intros r; apply (elem_of_fetchall (blocks pol))).
  assert (forall p r, r ∈ List.filter p blocking <-> p r = true /\ r ∈ blocking) as Hf
    by (intros p r; apply (elem_of_fetchall p)).
  destruct (List.filter is_hard (List.filter is_failed blocking)) as [|h hs] eqn:Eh.
  - assert (forall r, r ∈ rs -> blocks pol r = true -> is_failed r = true -> is_hard r = false) as Hsoft.
    { intros r Hr Hbl Hfa. destruct (is_hard r) eqn:E; [|done]. exfalso. apply (not_elem_of_nil r). rewrite <-Eh.
      apply (elem_of_fetchall is_hard). split; [done|]. apply Hf. split; [done|]. by apply Hb. }
    destruct (List.filter is_failed blocking) as [|f fs] eqn:Ef.
    + destruct (List.filter is_pending blocking) as [|p ps] eqn:Ep; apply new_verdict_inv in H as [-> Hiso]; cbn;
        (split_and!; [done..|]); right; (split; [done|]).
      * right. split; [done|]. intros r Hr Hbl.
        rewrite Forall_forall in Hs. specialize (Hs r Hr). unfold CHECK_STATES in Hs.
        rewrite !elem_of_cons, elem_of_nil in Hs. assert (r ∈ blocking) as Hin by by apply Hb.
        destruct Hs as [E|[E|[E|[]]]]; [exfalso|done|exfalso]; apply (not_elem_of_nil r).
        -- rewrite <-Ep. apply Hf. unfold is_pending. by rewrite E.
        -- rewrite <-Ef. apply Hf. unfold is_failed. by rewrite E.
      * left. split; [done|]. exists p. assert (p ∈ List.filter is_pending blocking) as [Hp [? ?]%Hb]%Hf by (rewrite Ep; by left).
        split_and!; [done..|]. intros E. unfold is_pending in Hp. by rewrite E in Hp.
    + assert (f ∈ List.filter is_failed blocking) as [Hfa [Hbl Hin]%Hb]%Hf by (rewrite Ef; by left).
      assert (List.existsb (fun c => ck_severity c =s "high") (f :: fs) = false) as Hnh.
      { apply not_true_iff_false. rewrite List.existsb_exists. intros (r & Hr & Hhigh).
        apply list_elem_of_In in Hr. rewrite <-Ef in Hr. apply Hf in Hr as [Hr1 [Hr2 Hr3]%Hb].
        specialize (Hsoft r Hr3 Hr2 Hr1). apply String.eqb_eq in Hhigh. unfold is_hard in Hsoft. by rewrite Hhigh in Hsoft. }
      rewrite Hnh, andb_false_r in H. apply new_verdict_inv in H as [-> Hiso]. cbn. split_and!; [done..|].
      right. split; [done|]. left. split; [done|]. exists f. split_and!; [done..|].
      intros E. unfold is_failed in Hfa. by rewrite E in Hfa.
  - apply new_verdict_inv in H as [-> Hiso]. cbn. split_and!; [done..|]. left. split; [done|].
    assert (h ∈ List.filter is_hard (List.filter is_failed blocking)) as Hh by (rewrite Eh; by left).
    apply (elem_of_fetchall is_hard) in Hh as [? [? [? ?]%Hb]%Hf]. by exists h.
Qed.

Lemma verdict_denied uri tier iso pol rs v :
  verdict_of uri tier iso pol rs = Ok v -> Forall (fun r => ck_state r ∈ CHECK_STATES) rs ->
  (denied v = true <-> exists r, r ∈ rs /\ blocks pol r = true /\ is_failed r = true /\ is_hard r = true).
Proof.
  intros H Hs. destruct (verdict_of_inv _ _ _ _ _ _ H Hs) as (_ & _ & _ & _ & [[Ha Hx]|[Hsoft Hact]]); unfold denied.
  - by rewrite Ha.
  - assert (vd_action v =s "deny" = false) as -> by (destruct Hact as [[-> _]|[-> _]]; done).
    split; [done|]. intros (r & Hr & Hb & Hf & Hh). by rewrite (Hsoft r Hr Hb Hf) in Hh.
Qed.

Lemma verdict_allowed uri tier iso pol rs v :
  verdict_of uri tier iso pol rs = Ok v -> Forall (fun r => ck_state r ∈ CHECK_STATES) rs ->
  (allowed v = true <-> forall r, r ∈ rs -> blocks pol r = true -> ck_state r = "passed").
Proof.
  intros H Hs. destruct (verdict_of_inv _ _ _ _ _ _ H Hs)
    as (_ & _ & _ & _ & [[Ha (r & Hr & Hb & Hf & _)]|[_ [[Ha (r & Hr & Hb & Hp)]|[Ha Hall]]]]); unfold allowed; rewrite Ha; cbn.
  - split; [done|]. intros Hall. unfold is_failed in Hf. by rewrite (Hall r Hr Hb) in Hf.
  - split; [done|]. intros Hall. by destruct Hp; apply Hall.
  - done.
Qed.

Lemma evaluate_results c scan policy inj v :
  evaluate_cap_guard_policy c scan policy inj = Ok v ->
  let pol := or_else policy default_policy in
  verdict_of (c_uri c) (c_risk_tier c) (decide_isolation_mode (c_risk_tier c) pol) pol (vd_checks v) = Ok v /\
  ck_name <$> vd_checks v = List.filter (fun name => smem name (pol_enabled_checks pol)) DEFAULT_CHECKS /\
  Forall (fun r => ck_state r ∈ CHECK_STATES) (vd_checks v) /\
  (forall r, r ∈ vd_checks v -> control (ck_name r) c scan pol inj = Ok r).
Proof.
  intros H. cbv zeta. set (pol := or_else policy default_policy). unfold evaluate_cap_guard_policy in H. fold pol in H.
  destruct (controls _ c scan pol inj) as [rs|] eqn:Ec; [|done]. cbn [obind] in H.
  apply controls_inv in Ec as [Hn Hf];
    [|intros n Hin; by apply (elem_of_fetchall (fun name => smem name (pol_enabled_checks pol))) in Hin as [_ ?]].
  apply Forall_and in Hf as [Hs Hf]. destruct (verdict_of_inv _ _ _ _ _ _ H Hs) as (-> & _).
  split_and!; [done..|]. by apply Forall_forall.
Qed.

(** ** Theorems *)

(** The verdict of CapGuard.  Whenever the evaluation returns, its results
    are those of the enabled controls in canonical order, each as the control
    computes it; it denies exactly when a blocking control failed hard (a high
    or critical severity, or a fail-closed failure), allows exactly when every
    blocking control passed, and quarantines otherwise; the isolation is the
    one the tier requires, and a high or critical tier is never allowed to run
    without isolation. *)
Theorem capguard_verdict_spec c scan policy inj v :
  evaluate_cap_guard_policy c scan policy inj = Ok v ->
  let pol := or_else policy default_policy in
  ck_name <$> vd_checks v = List.filter (fun name => smem name (pol_enabled_checks pol)) DEFAULT_CHECKS /\
  (forall r, r ∈ vd_checks v -> control (ck_name r) c scan pol inj = Ok r) /\
  (denied v = true <->
     exists r, r ∈ vd_checks v /\ blocks pol r = true /\ is_failed r = true /\ is_hard r = true) /\
  (allowed v = true <-> forall r, r ∈ vd_checks v -> blocks pol r = true -> ck_state r = "passed") /\
  (denied v = true \/ allowed v = true \/ quarantined v = true) /\
  vd_isolation_mode v = decide_isolation_mode (c_risk_tier c) pol /\
  (allowed v = true -> c_risk_tier c ∈ ["high"; "critical"] -> vd_isolation_mode v <> "none").
Proof.
  intros H. destruct (evaluate_results _ _ _ _ _ H) as (Hv & Hn & Hs & Hf). cbv zeta.
  destruct (verdict_of_inv _ _ _ _ _ _ Hv Hs) as (_ & Hi & _ & Hiso & Hact). split_and!.
  - exact Hn.
  - exact Hf.
  - by eapply verdict_denied.
  - by eapply verdict_allowed.
  - unfold denied, allowed, quarantined. destruct Hact as [[-> _]|[_ [[-> _]|[-> _]]]]; cbn; auto.
  - exact Hi.
  - rewrite Hi. intros Ha%String.eqb_eq. by apply Hiso.
Qed.

(** A scan that ran without error, passed, and reported nothing of medium severity. *)
Definition clean_scan (scan : option dict) : Prop :=
  exists d findings, scan = Some d /\ py_truthy (jget "error" d) = false /\ py_truthy (jget "passed" d) = true /\
    py_iter (py_or (jget "findings" d) (JArr [])) = Ok findings /\ count_findings "medium" findings = Ok 0%Z.

Lemma new_check_state name state severity message fc ev r :
  new_check name state severity message fc ev = Ok r -> ck_state r = state.
Proof. by intros [-> _]%new_check_inv. Qed.

Lemma scan_check_passed scan pol r :
  pol_quarantine_on_medium_findings pol = true ->
  _scan_check scan pol = Ok r -> ck_state r = "passed" <-> clean_scan scan.
Proof.
  intros Hpol. unfold _scan_check, clean_scan. destruct scan as [d|].
  2: { intros ->%new_check_state. split; [done|]. by intros (? & ? & [=] & _). }
  destruct (py_truthy (jget "error" d)) eqn:Ee.
  { intros ->%new_check_state. split; [done|]. intros (? & ? & [= <-] & ? & _). congruence. }
  destruct (py_iter _) as [fs|] eqn:Ef; [|done]. cbn [obind]. destruct (count_or _ "critical" fs) as [crit|]; [|done].
  cbn [obind]. destruct (count_or _ "high" fs) as [high|]; [|done]. cbn [obind].
  destruct (count_findings "medium" fs) as [medium|] eqn:Em; [|done]. cbn [obind].
  destruct (py_truthy (jget "passed" d)) eqn:Ep; cbn [negb andb].
  2: { intros H. assert (ck_state r = "failed") as -> by (repeat case_match; by apply new_check_state in H).
       split; [done|]. intros (? & ? & [= <-] & _ & ? & _). congruence. }
  rewrite Hpol, andb_true_r. destruct (Z.eqb_spec medium 0) as [->|Hm]; cbn [negb];
    intros ->%new_check_state; (split; [|]); try done.
  - intros _. by exists d, fs.
  - intros (? & ? & [= <-] & _ & _ & E1 & E2). rewrite Ef in E1. injection E1 as <-. congruence.
Qed.

Lemma status_check_passed name status r :
  _status_check name status = Ok r -> ck_state r = "passed" <-> lower (strip (or_else status "")) = "verified".
Proof.
  unfold _status_check. destruct (lower _ =s "verified") eqn:E.
  - intros ->%new_check_state. apply String.eqb_eq in E. done.
  - apply String.eqb_neq in E. destruct (List.existsb _ _); intros ->%new_check_state; done.
Qed.

(** The default policy, in terms of its inputs.  Under it a capability is
    allowed exactly when its scan ran clean, its signature and its provenance
    are recorded as verified, the injection scan was run and passed, and its
    risk tier is a known one; and then a high or critical tier runs under
    Camber isolation. *)
Theorem default_policy_allows_iff c scan inj v :
  evaluate_cap_guard_policy c scan None inj = Ok v ->
  (allowed v = true <->
     clean_scan scan /\ lower (strip (c_signature_status c)) = "verified" /\
     lower (strip (c_provenance_status c)) = "verified" /\ inj = Some true /\ c_risk_tier c ∈ RISK_TIERS) /\
  (c_risk_tier c ∈ ["high"; "critical"] -> vd_isolation_mode v = "camber").
Proof.
  intros H. destruct (evaluate_results _ _ _ _ _ H) as (Hv & Hn & Hs & Hf). cbn [or_else] in *. split.
  2: { intros Ht%smem_In. destruct (verdict_of_inv _ _ _ _ _ _ Hv Hs) as (_ & -> & _). unfold decide_isolation_mode.
       cbn [pol_camber_tiers default_policy]. by rewrite Ht. }
  rewrite (verdict_allowed _ _ _ _ _ _ Hv Hs).
  destruct (vd_checks v) as [|r1 [|r2 [|r3 [|r4 [|r5 [|]]]]]]; try discriminate Hn. injection Hn as N1 N2 N3 N4 N5.
  assert (forall r, r ∈ [r1; r2; r3; r4; r5] -> blocks default_policy r = true) as Hb.
  { intros r. unfold blocks. rewrite !elem_of_cons, elem_of_nil.
    intros [->|[->|[->|[->|[->|[]]]]]]; by rewrite ?N1, ?N2, ?N3, ?N4, ?N5. }
  pose proof (Hf r1 ltac:(set_solver)) as C1. rewrite N1 in C1. apply scan_check_passed in C1; [|done].
  pose proof (Hf r2 ltac:(set_solver)) as C2. rewrite N2 in C2. apply status_check_passed in C2.
  pose proof (Hf r3 ltac:(set_solver)) as C3. rewrite N3 in C3. apply status_check_passed in C3.
  pose proof (Hf r4 ltac:(set_solver)) as C4. rewrite N4 in C4.
  pose proof (Hf r5 ltac:(set_solver)) as C5. rewrite N5 in C5.
  assert (ck_state r4 = "passed" <-> inj = Some true) as C4'.
  { change (_injection_check inj = Ok r4) in C4. unfold _injection_check in C4.
    destruct inj as [[]|]; apply new_check_state in C4 as ->; done. }
  assert (ck_state r5 = "passed" <-> c_risk_tier c ∈ RISK_TIERS) as C5'.
  { change (_risk_tier_check (c_risk_tier c) = Ok r5) in C5. unfold _risk_tier_check in C5. rewrite <-smem_In.
    destruct (smem _ _); apply new_check_state in C5 as ->; done. }
  rewrite <-C1, <-C2, <-C3, <-C4', <-C5'. split.
  - intros Hall. split_and!; apply Hall; try apply Hb; set_solver.
  - intros (P1 & P2 & P3 & P4 & P5) r Hr _. rewrite !elem_of_cons, elem_of_nil in Hr.
    by destruct Hr as [->|[->|[->|[->|[->|[]]]]]].
Qed.

(** The switches without effect.  The verdict is the same whatever the
    policy says about fail_closed, allow_cire_downgrade, deny_on_high_findings
    and max_scan_age_seconds: scans that err are denied even when fail_closed is
    off, a Camber requirement is never downgraded, high findings are denied
    either way, and no scan is ever stale. *)
Theorem policy_switches_without_effect c scan pol inj fc down deny age :
  evaluate_cap_guard_policy c scan
    (Some (upd pol_fail_closed fc (upd pol_allow_cire_downgrade down
      (upd pol_deny_on_high_findings deny (upd pol_max_scan_age_seconds age pol))))) inj
  = evaluate_cap_guard_policy c scan (Some pol) inj.
Proof.
  unfold evaluate_cap_guard_policy. cbn [or_else]. set (pol' := upd pol_fail_closed _ _).
  assert (forall names, controls names c scan pol' inj = controls names c scan pol inj) as Hc.
  { intros names. induction names as [|n names IH]; [done|]. cbn [controls]. by rewrite IH. }
  change (pol_enabled_checks pol') with (pol_enabled_checks pol). rewrite Hc.
  change (decide_isolation_mode (c_risk_tier c) pol') with (decide_isolation_mode (c_risk_tier c) pol).
  destruct (controls _ c scan pol inj) as [rs|]; [|done]. cbn [obind].
  unfold verdict_of. change (pol_blocking_checks pol') with (pol_blocking_checks pol).
  change (pol_deny_on_high_findings pol') with deny.
  set (failed := List.filter is_failed _). destruct (List.filter is_hard failed) eqn:Eh; [|done].
  destruct failed as [|f fs] eqn:Ef; [done|].
  assert (List.existsb (fun c => ck_severity c =s "high") (f :: fs) = false) as ->; [|by rewrite !andb_false_r].
  apply not_true_iff_false. rewrite List.existsb_exists. intros (r & Hr & Hhigh).
  assert (In r (List.filter is_hard (f :: fs))) as Hin; [|by rewrite Eh in Hin].
  apply List.filter_In. split; [done|]. unfold is_hard. apply String.eqb_eq in Hhigh. by rewrite Hhigh.
Qed.

(** ** Concrete inputs *)
Module GuardDemo.
Definition capability : Capability :=
  Demo.capability (upd cp_risk_tier "high" (upd cp_signature_status "verified"
    (upd cp_provenance_status " Verified " (Demo.cap_row "cap://x")))).
Definition clean : dict :=
  [("passed", JBool true); ("findings", JArr []); ("criticalCount", JNum 0); ("highCount", JNum 0)].
Definition dirty : dict :=
  [("passed", JBool false); ("findings", JArr [JObj [("severity", JStr "high")]]); ("criticalCount", JNum 0);
   ("highCount", JNum 1)].
Definition verdict (scan : dict) : outcome CapGuardVerdict :=
  evaluate_cap_guard_policy capability (Some scan) None (Some true).
(** A policy that isolates no tier: a high tier that passes every control is refused by the constructor. *)
Definition no_isolation : CapGuardPolicy := upd pol_camber_tiers ["low"] default_policy.
Example unisolated_high_tier_raises :
  is_value_error (evaluate_cap_guard_policy capability (Some clean) (Some no_isolation) (Some true)) = true.
Proof. vm_compute. reflexivity. Qed.
End GuardDemo.

Section Witnesses.
Import GuardDemo.

Lemma capguard_verdict_spec_witness :
  exists v, verdict dirty = Ok v /\ denied v = true /\
    exists r, r ∈ vd_checks v /\ blocks default_policy r = true /\ is_failed r = true /\ is_hard r = true.
Proof.
  destruct (verdict dirty) as [v|] eqn:E; [|vm_compute in E; discriminate E].
  assert (denied v = true) as Hd by (vm_compute in E; injection E as <-; reflexivity).
  exists v. split; [reflexivity|]. split; [exact Hd|].
  destruct (capguard_verdict_spec _ _ _ _ _ E) as (_ & _ & Hiff & _). by apply Hiff.
Defined.

Lemma default_policy_allows_iff_witness :
  exists v, verdict clean = Ok v /\ allowed v = true /\ vd_isolation_mode v = "camber".
Proof.
  destruct (verdict clean) as [v|] eqn:E; [|vm_compute in E; discriminate E].
  exists v. split; [reflexivity|]. destruct (default_policy_allows_iff _ _ _ _ E) as [Hiff Hiso]. split.
  - apply Hiff. split; [exists clean, []; split_and!; reflexivity|].
    split_and!; [vm_compute; reflexivity..|]. apply smem_In. vm_compute. reflexivity.
  - apply Hiso, smem_In. vm_compute. reflexivity.
Defined.
End Witnesses.
