(* ===== verification/Quarantine.v ===== *)
(** * The quarantine store and its attestations ([capguard.py])

    Capabilities held before they are indexed, the signed scan, release and
    reject attestations, and the two release paths. *)

From Stdlib Require Import ZArith Ascii String Lia.
From stdpp Require Import base option list strings gmap.
From S2P Require Import Prelude Sha256 PyStr Regex Json Clock Db Models RegistryLog Gates Signing SourceGates MalwareScan.
From S2P Require Import Ordering Catalog CapGuardPolicy.
Local Open Scope string_scope.
Local Open Scope list_scope.

Definition QUARANTINE_STATUSES : list string := ["quarantined"; "released"; "rejected"; "superseded"].
Definition QUARANTINE_REASONS : list string := ["pending_scan"; "scan_failed"; "manual_hold"; "resubmitted"].
Definition ATTESTATION_TYPES : list string := ["scan"; "release"; "reject"].
Definition SCAN_VERDICTS : list string := ["clean"; "blocked"; "error"].
Definition BLOCKING_SEVERITIES : list string := ["critical"; "high"].

(** ** Records *)
Definition jtext (x : option string) : json := match x with Some s => JStr s | None => JNull end.

Definition quarantine_record (r : QuarantineRow) : dict :=
  [("id", JStr (qr_id r)); ("tenantId", JStr (qr_tenant_id r)); ("capabilityUri", JStr (qr_capability_uri r));
   ("capabilityType", JStr (qr_capability_type r)); ("name", JStr (qr_name r)); ("version", JStr (qr_version r));
   ("sourcePath", JStr (qr_source_path r)); ("contentHash", JStr (qr_content_hash r));
   ("reason", JStr (qr_reason r)); ("status", JStr (qr_status r)); ("submittedBy", jtext (qr_submitted_by r));
   ("metadata", json_loads (Some (qr_metadata_json r)) (JObj [])); ("createdAt", JStr (qr_created_at r));
   ("updatedAt", JStr (qr_updated_at r)); ("releasedAt", jtext (qr_released_at r));
   ("rejectedAt", jtext (qr_rejected_at r))].

Definition attestation_record (r : AttestationRow) : dict :=
  [("id", JStr (at_id r)); ("tenantId", JStr (at_tenant_id r)); ("quarantineId", JStr (at_quarantine_id r));
   ("attestationType", JStr (at_attestation_type r)); ("subjectUri", JStr (at_subject_uri r));
   ("contentHash", JStr (at_content_hash r)); ("verdict", jtext (at_verdict r));
   ("scannerId", jtext (at_scanner_id r)); ("scannerVersion", jtext (at_scanner_version r));
   ("findingsSummary", json_loads (Some (at_findings_summary_json r)) (JObj []));
   ("algorithm", JStr (at_algorithm r)); ("keyId", JStr (at_key_id r)); ("publicKey", JStr (at_public_key r));
   ("signature", JStr (at_signature r)); ("envelope", json_loads (Some (at_envelope_json r)) (JObj []));
   ("verifies", JBool (negb (Z.eqb (at_verifies r) 0))); ("actor", jtext (at_actor r));
   ("reason", jtext (at_reason r)); ("createdAt", JStr (at_created_at r))].

(** ** Scan results *)

(** [str(f.get("severity", "")).lower() in BLOCKING_SEVERITIES] for the dicts. *)
Definition blocking_finding (f : json) : bool :=
  match f with
  | JObj d => smem (lower (py_str (match dget "severity" d with Some s => s | None => JStr "" end))) BLOCKING_SEVERITIES
  | _ => false
  end.

Definition _verdict_for_scan (scan_result : dict) : outcome string :=
  if py_truthy (jget "error" scan_result) then Ok "error"
  else
    let? findings := py_iter (py_or (jget "findings" scan_result) (JArr [])) in
    if List.existsb blocking_finding findings then Ok "blocked"
    else if py_truthy (py_or (jget "criticalCount" scan_result) (jget "highCount" scan_result)) then Ok "blocked"
    else match dget "passed" scan_result with
         | Some (JBool false) => Ok "blocked"
         | _ => Ok "clean"
         end.

(** [int(d.get(k, 0))] *)
Definition int_get (d : dict) (k : string) : outcome Z :=
  match dget k d with Some v => py_int v | None => Ok 0%Z end.

Definition _findings_summary (scan_result : dict) : outcome dict :=
  let? critical := int_get scan_result "criticalCount" in
  let? high := int_get scan_result "highCount" in
  Ok [("passed", JBool (match dget "passed" scan_result with Some v => py_truthy v | None => false end));
      ("criticalCount", JNum critical); ("highCount", JNum high);
      ("findingCount", JNum (match py_or (jget "findings" scan_result) (JArr []) with
                             | JArr l => Z.of_nat (length l) | _ => 0 end));
      ("error", jget "error" scan_result)].

Section Quarantine.
Context `{!Runtime, !Machine, !UnicodeData}.

Definition tenant_or_default (tenant_id : string) : string := s_or tenant_id DEFAULT_TENANT.

(** [executescript] commits the pending transaction. *)
Definition ensure_quarantine_tables : Op unit := commit.

(** The audit log is best effort. *)
Definition _audit (event_type actor target action : string) (payload : dict) (tenant_id : string) : Op unit :=
  try_except
    (let! _ := audit_event event_type actor (Some target) (Some action) (Some "allow") None payload tenant_id "user" in
     ret tt)
    (fun _ => true) (fun _ => ret tt).

(** ** The store *)
Definition item_at (d : DB) (quarantine_id tenant_id : string) : option QuarantineRow :=
  fetchone (fun r => (qr_id r =s quarantine_id) && (qr_tenant_id r =s tenant_or_default tenant_id))
    (db_capguard_quarantine d).
Definition item_by_id (d : DB) (quarantine_id : string) : option QuarantineRow :=
  fetchone (fun r => qr_id r =s quarantine_id) (db_capguard_quarantine d).

(** [con.execute("SELECT * ... WHERE id = ?").fetchone()] into a record. *)
Definition fetch_item (quarantine_id : string) : Op dict :=
  let! row := query (fun d => item_by_id d quarantine_id) in
  match row with
  | Some r => ret (quarantine_record r)
  | None => raise (OtherError "TypeError: 'NoneType' object is not subscriptable")
  end.

Definition quarantine_capability (tenant_id capability_uri capability_type name version source_path content_hash
    reason : string) (submitted_by : option string) (metadata : dict) (do_commit : bool) : Op dict :=
  let! _ := ensure_quarantine_tables in
  let tenant := tenant_or_default tenant_id in
  if negb (truthy capability_uri) || negb (truthy content_hash)
  then raise (QuarantineError "capabilityUri and contentHash are required.")
  else if negb (smem reason QUARANTINE_REASONS)
  then raise (QuarantineError ("Unsupported quarantine reason: " +:+ repr_str reason))
  else
    let! existing := query (fun d => fetchone (fun r => (qr_tenant_id r =s tenant) && (qr_capability_uri r =s capability_uri)
        && (qr_content_hash r =s content_hash) && (qr_status r =s "quarantined")) (db_capguard_quarantine d)) in
    match existing with
    | Some r => ret (quarantine_record r)
    | None =>
        let! quarantine_id := new_id "qtn" in
        let! now := sql_now in
        let! _ := insert_row db_capguard_quarantine
          {| qr_id := quarantine_id; qr_tenant_id := tenant; qr_capability_uri := capability_uri;
             qr_capability_type := capability_type; qr_name := name; qr_version := version;
             qr_source_path := source_path; qr_content_hash := content_hash; qr_reason := reason;
             qr_status := "quarantined"; qr_submitted_by := submitted_by;
             qr_metadata_json := json_dumps (JObj metadata); qr_created_at := now; qr_updated_at := now;
             qr_released_at := None; qr_rejected_at := None |} in
        let! _ := _audit "capguard.quarantined" (o_or submitted_by "system") quarantine_id "quarantine"
          [("capabilityUri", JStr capability_uri); ("contentHash", JStr content_hash); ("reason", JStr reason)] tenant in
        let! _ := when do_commit commit in
        fetch_item quarantine_id
    end.

Definition get_quarantine (quarantine_id tenant_id : string) : Op (option dict) :=
  let! _ := ensure_quarantine_tables in
  query (fun d => quarantine_record <$> item_at d quarantine_id tenant_id).

(** The row behind [get_quarantine], as the operations below read it. *)
Definition get_item (quarantine_id tenant_id : string) : Op (option QuarantineRow) :=
  let! _ := ensure_quarantine_tables in
  query (fun d => item_at d quarantine_id tenant_id).

Definition list_quarantine (tenant_id : string) (status : option string) (limit : Z) : Op (list dict) :=
  let! _ := ensure_quarantine_tables in
  if match status with Some s => negb (smem s QUARANTINE_STATUSES) | None => false end
  then raise (QuarantineError ("Unsupported quarantine status: " +:+ repr_str (or_else status "")))
  else query (fun d => quarantine_record <$> take (Z.to_nat (Z.min (Z.max limit 1) 500))
    (sort_by (fun a b => sle (qr_created_at b) (qr_created_at a))
      (fetchall (fun r => (qr_tenant_id r =s tenant_or_default tenant_id)
          && match status with Some s => negb (truthy s) || (qr_status r =s s) | None => true end)
        (db_capguard_quarantine d)))).

(** ** Attestations *)
Definition _build_envelope (attestation_type : string) (item : QuarantineRow) (tenant_id : string)
    (verdict scanner_id scanner_version : option string) (findings_summary : dict) (actor reason : option string)
  : Op dict :=
  let! now := utc_now in
  ret ([("schema", JStr "capguard.attestation.v1"); ("type", JStr attestation_type);
        ("quarantineId", JStr (qr_id item)); ("capabilityUri", JStr (qr_capability_uri item));
        ("contentHash", JStr (qr_content_hash item)); ("tenantId", JStr tenant_id); ("issuedAt", JStr now)]
       ++ if attestation_type =s "scan"
          then [("scannerId", JStr (o_or scanner_id "capmesh-malware_scan"));
                ("scannerVersion", JStr (o_or scanner_version "unknown"));
                ("verdict", jtext verdict); ("findingsSummary", JObj findings_summary)]
          else [("actor", jtext actor); ("reason", jtext reason)]).

(** A value bound to a NOT NULL TEXT column. *)
Definition column_text (v : json) : outcome string :=
  let? x := sql_text v in
  match x with Some s => Ok s | None => Raise (IntegrityError "NOT NULL constraint failed") end.

Definition _store_attestation (tenant_id : string) (item : QuarantineRow) (attestation_type : string)
    (signed envelope : dict) (verdict scanner_id scanner_version : option string) (findings_summary : dict)
    (actor reason : option string) (do_commit : bool) : Op dict :=
  let! attestation_id := new_id "att" in
  let verifies := verify_attestation signed None in
  let! algorithm := lift (column_text (match dget "algorithm" signed with Some a => a | None => JStr "Ed25519" end)) in
  let! key_id := lift (column_text (jget "keyId" signed)) in
  let! public_key := lift (column_text (jget "publicKey" signed)) in
  let! signature := lift (column_text (jget "signature" signed)) in
  let! now := sql_now in
  let row := {| at_id := attestation_id; at_tenant_id := tenant_id; at_quarantine_id := qr_id item;
                at_attestation_type := attestation_type; at_subject_uri := qr_capability_uri item;
                at_content_hash := qr_content_hash item; at_verdict := verdict; at_scanner_id := scanner_id;
                at_scanner_version := scanner_version;
                at_findings_summary_json := json_dumps (JObj findings_summary); at_algorithm := algorithm;
                at_key_id := key_id; at_public_key := public_key; at_signature := signature;
                at_envelope_json := json_dumps (match dget "envelope" signed with Some e => e | None => JObj envelope end);
                at_verifies := if verifies then 1 else 0; at_actor := actor; at_reason := reason;
                at_created_at := now |} in
  let! _ := insert_row db_capguard_attestations row in
  let! _ := when do_commit commit in
  ret (attestation_record row).

Definition issue_scan_attestation (quarantine_id tenant_id : string) (scan_result : dict) (scanner_id : string)
    (scanner_version : option string) (persist do_commit : bool) : Op dict :=
  let! _ := ensure_quarantine_tables in
  let tenant := tenant_or_default tenant_id in
  let! record := get_item quarantine_id tenant in
  match record with
  | None => raise (QuarantineError ("Quarantine item not found: " +:+ quarantine_id))
  | Some item =>
      if negb (qr_status item =s "quarantined")
      then raise (QuarantineError ("Cannot scan a quarantine item in status " +:+ repr_str (qr_status item) +:+ "."))
      else
        let! verdict := lift (_verdict_for_scan scan_result) in
        let! findings_summary := lift (_findings_summary scan_result) in
        let! envelope := _build_envelope "scan" item tenant (Some verdict) (Some scanner_id) scanner_version
                           findings_summary None None in
        let! signed := sign_attestation envelope persist in
        let! stored := _store_attestation tenant item "scan" signed envelope (Some verdict) (Some scanner_id)
                         scanner_version findings_summary None None do_commit in
        let! _ := when (verdict =s "blocked")
          (let! now := sql_now in
           let! _ := update_rows db_capguard_quarantine (fun r => qr_id r =s quarantine_id)
             (fun r => upd qr_reason "scan_failed" (upd qr_updated_at now r)) in
           when do_commit commit) in
        let! _ := _audit "capguard.scan.attested" scanner_id quarantine_id "scan"
          [("verdict", JStr verdict); ("scannerVersion", jtext scanner_version)] tenant in
        ret stored
  end.

(** The attestation as it was signed, from its columns. *)
Definition signed_of (r : AttestationRow) : dict :=
  [("algorithm", JStr (at_algorithm r)); ("keyId", JStr (at_key_id r)); ("publicKey", JStr (at_public_key r));
   ("signature", JStr (at_signature r)); ("envelope", json_loads (Some (at_envelope_json r)) (JObj []))].

Definition verifies_at (d : DB) (attestation_id : string) (trusted_key_id : option string) : bool :=
  match fetchone (fun r => at_id r =s attestation_id) (db_capguard_attestations d) with
  | None => false
  | Some r => verify_attestation (signed_of r) trusted_key_id
  end.

Definition verify_attestation_record (attestation_id : string) (trusted_key_id : option string) : Op bool :=
  let! _ := ensure_quarantine_tables in
  query (fun d => verifies_at d attestation_id trusted_key_id).

(** The scan attestations of an item, the latest first. *)
Definition scans_of (d : DB) (quarantine_id tenant_id : string) : list AttestationRow :=
  rev (fetchall (fun r => (at_tenant_id r =s tenant_id) && (at_quarantine_id r =s quarantine_id)
                          && (at_attestation_type r =s "scan")) (db_capguard_attestations d)).

Fixpoint clean_loop (item : QuarantineRow) (trusted_key_id : option string) (rows : list AttestationRow)
  : Op (option AttestationRow) :=
  match rows with
  | [] => ret None
  | row :: rows' =>
      if negb (at_content_hash row =s qr_content_hash item) then clean_loop item trusted_key_id rows'
      else
        let! ok := verify_attestation_record (at_id row) trusted_key_id in
        if negb ok then clean_loop item trusted_key_id rows'
        else if oeqb (at_verdict row) (Some "clean") then ret (Some row)
        else ret None
  end.

Definition clean_attestation (quarantine_id tenant_id : string) (trusted_key_id : option string)
  : Op (option AttestationRow) :=
  let! _ := ensure_quarantine_tables in
  let tenant := tenant_or_default tenant_id in
  let! record := get_item quarantine_id tenant in
  match record with
  | None => ret None
  | Some item =>
      let! rows := query (fun d => scans_of d quarantine_id tenant) in
      clean_loop item trusted_key_id rows
  end.

Definition scan_clean_attestation (quarantine_id tenant_id : string) (trusted_key_id : option string) : Op (option dict) :=
  let! r := clean_attestation quarantine_id tenant_id trusted_key_id in
  ret (attestation_record <$> r).

Definition attestation_chain_valid (quarantine_id tenant_id : string) (trusted_key_id : option string) : Op bool :=
  let! r := clean_attestation quarantine_id tenant_id trusted_key_id in
  ret (is_some r).

(** ** Release and rejection *)
Definition evaluate_release_policy (capability : Capability) (scan_result : option dict)
    (injection_result : option bool) (policy : option CapGuardPolicy) : outcome CapGuardVerdict :=
  evaluate_cap_guard_policy capability scan_result (Some (or_else policy default_policy)) injection_result.

(** The trust anchor: the given key id, else the configured signing key's, else
    None after any exception. *)
Definition resolve_trust (trusted_key_id : option string) : Op (option string) :=
  match trusted_key_id with
  | Some t => ret (Some t)
  | None => try_except (let! t := trusted_signing_key_id in ret (Some t)) (fun _ => true) (fun _ => ret None)
  end.

(** The policy gate, when a capability is supplied. *)
Definition policy_gate (capability : option Capability) (scan_result : option dict) (injection_result : option bool)
    (policy : option CapGuardPolicy) : outcome (option dict) :=
  match capability with
  | None => Ok None
  | Some c =>
      let? v := evaluate_release_policy c scan_result injection_result policy in
      if negb (vd_action v =s "allow")
      then Raise (QuarantineReleaseBlocked ("Release refused: runtime policy verdict " +:+ repr_str (vd_action v) +:+ " for "
             +:+ repr_str (c_uri c) +:+ ": " +:+ vd_reason v))
      else Ok (Some (verdict_to_dict v))
  end.

(** UPDATE capabilities SET lifecycle, approval_state WHERE tenant, uri, content. *)
Definition settle_capability (tenant : string) (item : QuarantineRow) (lifecycle state now : string) : Op unit :=
  update_rows db_capabilities
    (fun r => (cp_tenant_id r =s tenant) && (cp_uri r =s qr_capability_uri item)
              && (cp_content_hash r =s qr_content_hash item))
    (fun r => upd cp_lifecycle lifecycle (upd cp_approval_state state (upd cp_updated_at now r))).

Definition release_from_quarantine (quarantine_id tenant_id actor reason : string) (trusted_key_id : option string)
    (capability : option Capability) (scan_result : option dict) (injection_result : option bool)
    (policy : option CapGuardPolicy) (persist do_commit : bool) : Op dict :=
  let! _ := ensure_quarantine_tables in
  let tenant := tenant_or_default tenant_id in
  let! record := get_item quarantine_id tenant in
  match record with
  | None => raise (QuarantineError ("Quarantine item not found: " +:+ quarantine_id))
  | Some item =>
      if negb (qr_status item =s "quarantined")
      then raise (QuarantineError ("Cannot release a quarantine item in status " +:+ repr_str (qr_status item) +:+ "."))
      else
        let! trust := resolve_trust trusted_key_id in
        let! clean := clean_attestation quarantine_id tenant trust in
        match clean with
        | None => raise (QuarantineReleaseBlocked
            ("Release refused: no valid clean scan attestation for the current content_hash (quarantine="
             +:+ quarantine_id +:+ ", tenant=" +:+ tenant +:+ ")."))
        | Some clean =>
            let! policy_verdict := lift (policy_gate capability scan_result injection_result policy) in
            let! envelope := _build_envelope "release" item tenant None None None [] (Some actor) (Some reason) in
            let! signed := sign_attestation envelope persist in
            let! _ := _store_attestation tenant item "release" signed envelope None None None [] (Some actor) (Some reason)
                        false in
            let! now := sql_now in
            let! _ := update_rows db_capguard_quarantine (fun r => qr_id r =s quarantine_id)
              (fun r => upd qr_status "released" (upd qr_released_at (Some now) (upd qr_updated_at now r))) in
            let! _ := settle_capability tenant item "active" "published" now in
            let! _ := _audit "capguard.released" actor quarantine_id "release"
              ([("capabilityUri", JStr (qr_capability_uri item)); ("reason", JStr reason);
                ("scanAttestation", JStr (at_id clean))]
               ++ match policy_verdict with Some v => [("policyVerdict", JObj v)] | None => [] end) tenant in
            let! _ := when do_commit commit in
            fetch_item quarantine_id
        end
  end.

Definition reject_from_quarantine (quarantine_id tenant_id actor reason : string) (persist do_commit : bool) : Op dict :=
  let! _ := ensure_quarantine_tables in
  let tenant := tenant_or_default tenant_id in
  let! record := get_item quarantine_id tenant in
  match record with
  | None => raise (QuarantineError ("Quarantine item not found: " +:+ quarantine_id))
  | Some item =>
      if negb (qr_status item =s "quarantined")
      then raise (QuarantineError ("Cannot reject a quarantine item in status " +:+ repr_str (qr_status item) +:+ "."))
      else if negb (truthy reason) || negb (truthy (strip reason))
      then raise (QuarantineError "A non-empty reject reason is required.")
      else
        let! envelope := _build_envelope "reject" item tenant None None None [] (Some actor) (Some reason) in
        let! signed := sign_attestation envelope persist in
        let! _ := _store_attestation tenant item "reject" signed envelope None None None [] (Some actor) (Some reason)
                    false in
        let! now := sql_now in
        let! _ := update_rows db_capguard_quarantine (fun r => qr_id r =s quarantine_id)
          (fun r => upd qr_status "rejected" (upd qr_rejected_at (Some now) (upd qr_updated_at now r))) in
        let! _ := settle_capability tenant item "disabled" "rejected" now in
        let! _ := _audit "capguard.rejected" actor quarantine_id "reject"
          [("capabilityUri", JStr (qr_capability_uri item)); ("reason", JStr reason)] tenant in
        let! _ := when do_commit commit in
        fetch_item quarantine_id
  end.

Definition list_attestations (quarantine_id tenant_id : string) (attestation_type : option string) : Op (list dict) :=
  let! _ := ensure_quarantine_tables in
  if match attestation_type with Some t => negb (smem t ATTESTATION_TYPES) | None => false end
  then raise (QuarantineError ("Unsupported attestation type: " +:+ repr_str (or_else attestation_type "")))
  else query (fun d => attestation_record <$>
    fetchall (fun r => (at_tenant_id r =s tenant_or_default tenant_id) && (at_quarantine_id r =s quarantine_id)
        && match attestation_type with Some t => negb (truthy t) || (at_attestation_type r =s t) | None => true end)
      (db_capguard_attestations d)).

(** ** The authoritative release path *)
Definition _scan_quarantined_content (item : QuarantineRow) : Op dict :=
  if negb (truthy (qr_source_path item))
  then ret [("passed", JBool false); ("error", JStr "quarantine item has no sourcePath"); ("findings", JArr [])]
  else scan_file (qr_source_path item).

(** True (clean), False (blocked) or None (nothing to scan), and the hits. *)
Definition _injection_verdict (item : QuarantineRow) (capability : option Capability) : option bool * list string :=
  let parts := match capability with
               | Some c => [c_name c; c_title c; c_description c]
               | None => [qr_name item]
               end in
  let surface := join newline (List.filter truthy parts) in
  if negb (truthy (strip surface)) then (None, [])
  else
    let phrases := scan_prompt_injection surface in
    match phrases with
    | [] => (Some true, [])
    | _ =>
        let '(name, kind, plugin) := match capability with
          | Some c => (c_name c, Some (c_type c), c_plugin c)
          | None => (qr_name item, Some (qr_capability_type item), None)
          end in
        (Some (negb (should_block phrases name kind plugin SURFACE_METADATA)), phrases)
    end.

(** A blocked injection is added to the scan result as a critical finding. *)
Definition with_injection (scan_result : dict) (hits : list string) : outcome dict :=
  let? findings := py_iter (py_or (jget "findings" scan_result) (JArr [])) in
  let? critical := int_get scan_result "criticalCount" in
  Ok (dset "criticalCount" (JNum (critical + 1)) (dset "findings" (JArr (findings ++
        [JObj [("name", JStr "prompt_injection_blocked"); ("severity", JStr "critical");
               ("description", JStr ("metadata injection blocked: " +:+ str_of_Z (Z.of_nat (length hits)) +:+ " hit(s)"))]]))
      (dset "passed" (JBool false) scan_result))).

(** The live capability: the given one, else the catalog's, else None after an exception. *)
Definition live_capability (item : QuarantineRow) (capability : option Capability) : Op (option Capability) :=
  match capability with
  | Some c => ret (Some c)
  | None => query (fun d => match get_capability d (qr_capability_uri item) with Ok c => c | Raise _ => None end)
  end.

Definition release_capability_from_quarantine (quarantine_id tenant_id actor reason : string)
    (capability : option Capability) (policy : option CapGuardPolicy) (persist do_commit : bool) : Op dict :=
  let! _ := ensure_quarantine_tables in
  let tenant := tenant_or_default tenant_id in
  let! record := get_item quarantine_id tenant in
  match record with
  | None => raise (QuarantineError ("Quarantine item not found: " +:+ quarantine_id))
  | Some item =>
      if negb (qr_status item =s "quarantined")
      then raise (QuarantineError ("Cannot release a quarantine item in status " +:+ repr_str (qr_status item) +:+ "."))
      else
        let! cap := live_capability item capability in
        let! scan_result := _scan_quarantined_content item in
        let '(injection_result, injection_hits) := _injection_verdict item cap in
        let! scan_result := match injection_result with
                            | Some false => lift (with_injection scan_result injection_hits)
                            | _ => ret scan_result
                            end in
        let! _ := issue_scan_attestation quarantine_id tenant scan_result "capmesh-capguard-release" (Some "1")
                    persist false in
        release_from_quarantine quarantine_id tenant actor reason None cap (Some scan_result) injection_result policy
          persist do_commit
  end.
End Quarantine.
