(* ===== verification/Promotions.v ===== *)
(** * Promotion requests and their approval ([promotions.py])

    Submitting a capability to an organization or everyone namespace, and the
    decision on the request: the gates of an approval in the order of the code,
    the promoted address, and the writes.  The gate runner of [lifecycle.py] is
    used through the interface [GateRunner]; [Reviews.v] implements it. *)

From Stdlib Require Import ZArith Ascii String Lia.
From stdpp Require Import base option list strings gmap.
From S2P Require Import Prelude Sha256 PyStr Json Clock Db Models AccessControl AccessSpec AccessProps.
From S2P Require Import RegistryLog Stores Gates Catalog.
Local Open Scope string_scope.
Local Open Scope list_scope.

(** What approvals need from the gate runner: a review, and that a dry run
    leaves the database, the disk and the clock alone. *)
Class GateRunner : Type := {
  review_capability : Principal -> dict -> Op dict;
  review_dry_run : forall p payload,
    dget "dryRun" payload = Some (JBool true) -> preserves quiet (review_capability p payload)
}.

(** ** Values of gates_json *)

(** [gates[name] = state]: a TypeError unless [gates] is a dictionary. *)
Definition set_gate (name state : string) (gates : json) : outcome json :=
  match gates with
  | JObj d => Ok (JObj (dset name (JStr state) d))
  | _ => Raise (OtherError "TypeError: gates does not support item assignment")
  end.

Definition gate_items (gates : json) : outcome dict :=
  match gates with
  | JObj d => Ok d
  | _ => Raise (OtherError "AttributeError: items")
  end.

(** [state in {...}] for a set of strings. *)
Definition state_in (v : json) (states : list string) : outcome bool :=
  match v with
  | JStr s => Ok (smem s states)
  | JArr _ | JObj _ => Raise (OtherError "TypeError: unhashable type")
  | _ => Ok false
  end.

Fixpoint ofilter {A} (p : A -> outcome bool) (l : list A) : outcome (list A) :=
  match l with
  | [] => Ok []
  | x :: l' => let? b := p x in let? r := ofilter p l' in Ok (if b then x :: r else r)
  end.

(** [", ".join(names)] *)
Definition join_names (names : list json) : outcome string :=
  let? texts := (fix go l := match l with
                             | [] => Ok []
                             | JStr s :: l' => let? r := go l' in Ok (s :: r)
                             | _ :: _ => Raise (OtherError "TypeError: expected str instance")
                             end) names in
  Ok (join ", " texts).

Definition is_passed (v : json) : bool := match v with JStr s => s =s "passed" | _ => false end.

(** What an approval knows about the gates. *)
Record GateView : Type := mkGateView {
  gv_gates : json;                        (** [gates] *)
  gv_states : list (string * string);     (** [gate_states] *)
  gv_pending : list json                  (** [pending_gates] *)
}.

Definition states_of (d : dict) : list (string * string) := (fun kv => (kv.1, py_str kv.2)) <$> d.

Definition item_name (v : json) : list (string * string) :=
  match v with
  | JObj d => if py_truthy (jget "name" d)
              then [(py_str (jget "name" d), py_str (py_or (jget "state" d) (JStr "")))] else []
  | _ => []
  end.

Definition item_pending (v : json) : outcome (list json) :=
  match v with
  | JObj d => Ok (if is_passed (jget "state" d) then []
                  else [match dget "name" d with Some n => n | None => JStr "" end])
  | _ => Raise (OtherError "AttributeError: get")
  end.

Fixpoint oconcat {A B} (f : A -> outcome (list B)) (l : list A) : outcome (list B) :=
  match l with
  | [] => Ok []
  | x :: l' => let? a := f x in let? b := oconcat f l' in Ok (a ++ b)
  end.

(** The gates recorded in the request. *)
Definition stored_gates (text : string) : outcome GateView :=
  if negb (truthy text) then Ok (mkGateView (JObj []) [] [])
  else match json_parse text with
  | None => Ok (mkGateView (JObj []) [] [JStr "__malformed_gates_json__"])
  | Some (JObj d) =>
      Ok (mkGateView (JObj d) (states_of d)
            ((fun kv => JStr kv.1) <$> List.filter (fun kv => negb (is_passed kv.2)) d))
  | Some (JArr l) =>
      let? pending := oconcat item_pending l in
      Ok (mkGateView (JArr l) (flat_map item_name l) pending)
  | Some v => Ok (mkGateView v [] [])
  end.

(** The states the gate runner returned replace the recorded ones. *)
Fixpoint merge_runner (names : list string) (runner : dict) (gates : json) : outcome json :=
  match names with
  | [] => Ok gates
  | name :: names' =>
      match dget name runner with
      | Some (JObj entry) =>
          match dget "state" entry with
          | Some state => let? gates := set_gate name (py_str state) gates in
                          merge_runner names' runner gates
          | None => merge_runner names' runner gates
          end
      | _ => merge_runner names' runner gates
      end
  end.

Definition gate_names : list string := fst <$> default_promotion_gates.
Definition ADHOC_OWNED : list string := ["riskTierPolicy"; "promptInjectionScan"].

(** [pending_gates] and [gate_runner_failed] after the merge. *)
Definition merged_pending (d : dict) : outcome (list json) :=
  let? kept := ofilter (fun kv => let? b := state_in kv.2 ["passed"; "skipped"; "failed"] in Ok (negb b)) d in
  Ok ((fun kv => JStr kv.1) <$> kept).
Definition merged_failed (d : dict) : outcome (list string) :=
  let? kept := ofilter (fun kv => if smem kv.1 ADHOC_OWNED then Ok false
                                  else let? b := state_in kv.2 ["passed"; "skipped"] in Ok (negb b)) d in
  Ok (fst <$> kept).

Definition promotion_record (r : PromotionRow) : dict :=
  [("id", JStr (pr_id r)); ("tenantId", JStr (pr_tenant_id r));
   ("capabilityUri", JStr (pr_capability_uri r)); ("sourceStoreId", jopt (pr_source_store_id r));
   ("targetNamespaceId", jopt (pr_target_namespace_id r)); ("requestedBy", jopt (pr_requested_by r));
   ("state", JStr (pr_state r)); ("title", JStr (pr_title r)); ("rationale", JStr (pr_rationale r));
   ("version", JStr (pr_version r)); ("gates", json_loads (Some (pr_gates_json r)) (JObj []));
   ("createdAt", JStr (pr_created_at r)); ("decidedAt", jopt (pr_decided_at r))].

Definition capability_by_uri (d : DB) (uri : string) : option CapRow :=
  fetchone (fun r => cp_uri r =s uri) (db_capabilities d).
Definition namespace_by_id (d : DB) (id : option string) : option NamespaceRow :=
  fetchone (fun r => sql_eq id (ns_id r)) (db_namespaces d).
Definition store_by_id (d : DB) (id : string) : option StoreRow :=
  fetchone (fun r => st_id r =s id) (db_stores d).
Definition request_by_id (d : DB) (id : string) : option PromotionRow :=
  fetchone (fun r => pr_id r =s id) (db_promotion_requests d).

Section Promotions.
Context `{!Runtime, !UnicodeData}.

(** ** Submission *)

(** The target of a submission: the namespace joined with its store. *)
Definition promotion_target (d : DB) (namespace_id tenant_id : string) : option (NamespaceRow * StoreRow) :=
  match fetchone (fun n => (ns_id n =s namespace_id) && (ns_tenant_id n =s tenant_id)) (db_namespaces d) with
  | None => None
  | Some n =>
      match fetchone (fun s => (st_id s =s ns_store_id n) && (st_tenant_id s =s ns_tenant_id n)) (db_stores d) with
      | None => None
      | Some s => Some (n, s)
      end
  end.

Definition target_org_active (d : DB) (n : NamespaceRow) (tenant_id : string) : bool :=
  match fetchone (fun o => sql_eq (org_store_id o) (ns_store_id n) && (org_tenant_id o =s ns_tenant_id n)
                           && (org_tenant_id o =s tenant_id)) (db_organizations d) with
  | Some o => org_status o =s "active"
  | None => false
  end.

(** The guards on the target, in order. *)
Definition check_target (d : DB) (namespace_id tenant_id : string) : outcome unit :=
  match promotion_target d namespace_id tenant_id with
  | None => Raise (ValueError "Promotion target namespace was not found in this tenant.")
  | Some (n, s) =>
      if negb (smem (st_kind s) ["org"; "all_users"])
      then Raise (ValueError "Promotion targets must be an organization or everyone namespace.")
      else if negb (ns_lifecycle n =s "active") || is_some (st_disabled_at s)
      then Raise (ValueError "Promotion target namespace is not active.")
      else if (st_kind s =s "org") && negb (target_org_active d n tenant_id)
      then Raise (ValueError "Promotion target organization is not active.")
      else Ok tt
  end.

(** The gates a request starts with: all pending. *)
Definition initial_gates (d : DB) (namespace_id : string) : dict :=
  let gates := (fun kv => (kv.1, JStr kv.2)) <$> default_promotion_gates in
  let kind := match namespace_by_id d (Some namespace_id) with
              | Some n => match store_by_id d (ns_store_id n) with Some s => st_kind s | None => "unknown" end
              | None => "unknown"
              end in
  if kind =s "all_users" then dset "riskTierPolicy" (JStr "pending") gates else gates.

Definition submit_promotion (p : Principal) (payload : dict) : Op dict :=
  let tenant_id := tenant_of p in
  let capability_uri := str_get2 payload "capabilityUri" "uri" "" in
  let target_namespace_id := str_get payload "targetNamespaceId" "" in
  if negb (truthy capability_uri) || negb (truthy target_namespace_id)
  then raise (ValueError "capabilityUri and targetNamespaceId are required.")
  else
    let! row := query (fun d => capability_row d capability_uri tenant_id) in
    match row with
    | None => raise (ValueError "Capability was not found in this tenant.")
    | Some row =>
        let! capability := lift (capability_from_row row) in
        let! _ := require_access p "submit" (Some capability) (Some capability_uri) in
        let! target := query (fun d => check_target d target_namespace_id tenant_id) in
        let! _ := lift target in
        let! request_id := new_id "prq" in
        let! gates := query (fun d => initial_gates d target_namespace_id) in
        let! now := sql_now in
        let! _ := insert_row db_promotion_requests
          {| pr_id := request_id; pr_tenant_id := tenant_id; pr_capability_uri := capability_uri;
             pr_source_store_id := c_store_id capability;
             pr_target_namespace_id := Some target_namespace_id;
             pr_requested_by := Some (p_subject p); pr_state := "pending";
             pr_title := str_get payload "title" ""; pr_rationale := str_get payload "rationale" "";
             pr_version := str_get payload "version" ""; pr_gates_json := json_dumps (JObj gates);
             pr_created_at := now; pr_decided_at := None |} in
        let! step_id := new_id "apv" in
        let! _ := insert_row db_approval_steps
          {| ap_id := step_id; ap_request_id := request_id; ap_step_name := "namespace_admin_review";
             ap_assigned_to_type := Some "role"; ap_assigned_to_id := Some "namespace_admin";
             ap_state := "pending"; ap_decision_by := None; ap_decision_note := None;
             ap_decided_at := None |} in
        let! _ := update_rows db_capabilities (fun r => cp_uri r =s capability_uri)
          (fun r => upd cp_submitted_by (Some (p_subject p)) (upd cp_approval_state "pending" r)) in
        let! _ := refresh_catalog_generation in
        let! _ := audit_event "promotion.submitted" (p_subject p) (Some capability_uri) (Some "submit")
          (Some "allow") None payload tenant_id "user" in
        let! _ := commit in
        let! r := query (fun d => request_by_id d request_id) in
        lift (fetch_record promotion_record r)
    end.

Definition list_requests (p : Principal) (state : option string) : Op (list dict) :=
  let! rows := query (fun d =>
    fetchall (fun r => (pr_tenant_id r =s p_tenant_id p)
      && match state with Some s => negb (truthy s) || (pr_state r =s s) | None => true end)
      (db_promotion_requests d)) in
  ret (promotion_record <$> newest_first pr_created_at rows).

(** ** The gates of an approval *)
Definition overridden (payload : dict) : bool := py_truthy (jget "overridePendingGates" payload).

(** [try: review_capability(...); merge; write ... except (ValueError, PermissionError)]:
    the view after the gate runner and the gates it failed. *)
Definition run_gate_runner `{!GateRunner} (p : Principal) (row : PromotionRow) (payload : dict)
    (v : GateView) : Op (GateView * list string) :=
  try_except
    (let! result := review_capability p
       [("capabilityUri", JStr (pr_capability_uri row));
        ("targetNamespaceId", jopt (pr_target_namespace_id row)); ("dryRun", JBool true);
        ("approvedRiskException", JBool (py_truthy (jget "approvedRiskException" payload)))] in
     let! runner := lift (gate_items (py_or (jget "gates" result) (JObj []))) in
     let! gates := lift (merge_runner gate_names runner (gv_gates v)) in
     let! items := lift (gate_items gates) in
     let! pending := lift (merged_pending items) in
     let! failed := lift (merged_failed items) in
     let! _ := update_rows db_promotion_requests (fun r => pr_id r =s pr_id row)
       (fun r => upd pr_gates_json (json_dumps gates) r) in
     ret (mkGateView gates (states_of items) pending, failed))
    (fun e => match e with ValueError _ | PermissionError _ => true | _ => false end)
    (fun _ => ret (v, [])).

Definition has_pending (v : GateView) : bool := match gv_pending v with [] => false | _ => true end.

(** [{...}.get(name)] on the states: the last entry of a name wins. *)
Definition state_of (states : list (string * string)) (name : string) : option string :=
  snd <$> List.find (fun kv => fst kv =s name) (rev states).

Definition unmet_gates (v : GateView) : list string :=
  sorted_strings (List.filter (fun name => negb (oeqb (state_of (gv_states v) name) (Some "passed")))
                    gate_names).

Definition security_verified (d : DB) (uri : string) : bool :=
  match capability_by_uri d uri with
  | None => false
  | Some c => (cp_signature_status c =s "verified") && (cp_provenance_status c =s "verified")
              && (cp_risk_review_status c =s "approved")
  end.

(** The refusals on pending gates, and the stricter ones of production. *)
Definition check_pending (row : PromotionRow) (payload : dict) (v : GateView) : Op unit :=
  let! names := lift (if has_pending v && negb (overridden payload) then join_names (gv_pending v) else Ok "") in
  if has_pending v && negb (overridden payload)
  then raise (PermissionError ("Promotion gates still pending: " +:+ names
    +:+ ". Re-approve with overridePendingGates=true to force."))
  else if has_pending v && production_environment
  then raise (PermissionError
    "Production promotion is fail-closed: pending security/provenance gates cannot be overridden.")
  else if negb production_environment then ret tt
  else match unmet_gates v with
  | _ :: _ => raise (PermissionError
      ("Production promotion requires authoritative passed gates: " +:+ join ", " (unmet_gates v)))
  | [] =>
      let! secure := query (fun d => security_verified d (pr_capability_uri row)) in
      if secure then ret tt
      else raise (PermissionError
        "Production promotion requires a verified content signature, verified provenance, and approved risk review.")
  end.

(** The risk policy on the target store, when everything it needs is found. *)
Definition risk_gate (d : DB) (row : PromotionRow) : option (bool * string) :=
  match namespace_by_id d (pr_target_namespace_id row) with
  | None => None
  | Some n =>
      match capability_by_uri d (pr_capability_uri row), store_by_id d (ns_store_id n) with
      | Some c, Some s =>
          Some (evaluate_risk_tier_policy (s_or (cp_risk_tier c) "unknown") (s_or (st_kind s) "unknown") "")
      | _, _ => None
      end
  end.

Definition check_risk (row : PromotionRow) (payload : dict) (gates : json) : Op json :=
  let! risk := query (fun d => risk_gate d row) in
  match risk with
  | None => ret gates
  | Some (ok, why) =>
      let! gates := lift (set_gate "riskTierPolicy" (if ok then "passed" else "failed") gates) in
      if negb ok && negb (overridden payload)
      then raise (PermissionError ("riskTierPolicy gate failed: " +:+ why
        +:+ ". Request state remains pending — use overridePendingGates=true to force."))
      else ret gates
  end.

Definition check_injection (row : PromotionRow) (payload : dict) (gates : json) : Op json :=
  let! (state, why) := query (fun d =>
    evaluate_prompt_injection_scan d (pr_capability_uri row) (pr_target_namespace_id row)) in
  let! gates := lift (set_gate "promptInjectionScan" state gates) in
  if (state =s "failed") && negb (overridden payload)
  then raise (PermissionError ("promptInjectionScan gate failed: " +:+ why
    +:+ ". Request state remains pending — use overridePendingGates=true to force."))
  else ret gates.

Definition check_runner_failed (failed : list string) (payload : dict) : Op unit :=
  match failed with
  | _ :: _ =>
      if overridden payload then ret tt
      else raise (PermissionError ("Promotion gate(s) failed: " +:+ join ", " failed
        +:+ ". Request state remains pending — use overridePendingGates=true to force."))
  | [] => ret tt
  end.

(** The marker of an override, and the payload whose note carries it. *)
Definition override_marker (v : GateView) (payload : dict) : outcome (option string * dict) :=
  if negb (has_pending v) then Ok (None, payload)
  else
    let? names := join_names (gv_pending v) in
    let marker := "[OVERRIDE: approved with pending gates: " +:+ names +:+ "]" in
    let note := py_or (jget "note" payload) (JStr "") in
    Ok (Some marker,
        dset "note" (JStr (if py_truthy note then py_str note +:+ " " +:+ marker else marker)) payload).

(** The address of the promoted capability and the store it moves to. *)
Definition promoted_address (d : DB) (row : PromotionRow) : outcome (string * option string) :=
  let ns := namespace_by_id d (pr_target_namespace_id row) in
  let cap := capability_by_uri d (pr_capability_uri row) in
  match ns, cap with
  | Some n, Some c =>
      Ok (rstrip_by (one_of "/") (ns_uri_prefix n) +:+ "/" +:+ cp_type c +:+ "/"
          +:+ slugify (o_or (cp_plugin c) "global") +:+ "." +:+ slugify (cp_name c) +:+ "@" +:+ cp_version c,
          Some (ns_store_id n))
  | _, _ =>
      if production_environment
      then Raise (ValueError "Promotion source capability or target namespace is missing.")
      else Ok (pr_capability_uri row,
               match ns, cap with
               | Some n, _ => Some (ns_store_id n)
               | None, Some c => cp_store_id c
               | None, None => None
               end)
  end.

(** Everything an approval computes before it mutates. *)
Record Approval : Type := mkApproval {
  av_gates : json; av_marker : option string; av_payload : dict;
  av_uri : string; av_store : option string
}.

Definition prepare_approval `{!GateRunner} (p : Principal) (row : PromotionRow) (payload : dict)
  : Op Approval :=
  let! v := lift (stored_gates (pr_gates_json row)) in
  let! (v, failed) := run_gate_runner p row payload v in
  let! _ := check_pending row payload v in
  let! gates := check_risk row payload (gv_gates v) in
  let! gates := check_injection row payload gates in
  let! _ := check_runner_failed failed payload in
  let! (marker, payload) := lift (override_marker v payload) in
  let! address := query (fun d => promoted_address d row) in
  let! (uri, store) := lift address in
  let! clash := query (fun d => is_some (capability_by_uri d uri)) in
  if negb (uri =s pr_capability_uri row) && clash
  then raise (ValueError ("Promotion target URI already exists: " +:+ uri))
  else ret (mkApproval gates marker payload uri store).

(** ** The writes *)

(** UPDATE relationship_tuples SET object = new WHERE tenant_id AND object = old,
    under UNIQUE(tenant_id, object, relation, user). *)
Definition move_tuples (tenant_id old new : string) : Op unit :=
  let mine r := (rt_tenant_id r =s tenant_id) && (rt_object r =s old) in
  let! tuples := query db_relationship_tuples in
  if exists_where (fun r => mine r
       && exists_where (tuple_clash tenant_id new (rt_relation r) (rt_user r)) tuples) tuples
  then raise (IntegrityError "UNIQUE constraint failed")
  else update_rows db_relationship_tuples mine (fun r => upd rt_object new r).

(** The address of the capability changes in every table that holds it. *)
Definition rename_capability (tenant_id request_id old new : string) : Op unit :=
  update_rows db_capabilities (fun r => cp_uri r =s old) (fun r => upd cp_uri new r) ;;;
  update_rows db_capability_sources (fun r => cs_uri r =s old) (fun r => upd cs_uri new r) ;;;
  (let! rowid := query (fun d => cp_rowid <$> capability_by_uri d new) in
   update_rows db_capability_fts (fun r => match rowid with Some i => Z.eqb (ft_rowid r) i | None => false end)
     (fun r => upd ft_uri new r)) ;;;
  update_rows db_promotion_requests (fun r => pr_id r =s request_id) (fun r => upd pr_capability_uri new r) ;;;
  move_tuples tenant_id old new ;;;
  update_rows db_shares (fun r => sh_capability_uri r =s old) (fun r => upd sh_capability_uri new r).

(** The CASE expressions of the approving UPDATE. *)
Definition approve_row (row : PromotionRow) (store : option string) (r : CapRow) : CapRow :=
  upd cp_approval_state "approved"
    (upd cp_lifecycle (if smem (cp_lifecycle r) ["draft"; "published"] then "published" else cp_lifecycle r)
      (upd cp_store_id store
        (upd cp_namespace_id (pr_target_namespace_id row)
          (upd cp_promoted_from_uri (match cp_promoted_from_uri r with Some u => Some u | None => Some (cp_uri r) end)
            (upd cp_signature_status (if cp_signature_status r =s "unchecked" then "pending" else cp_signature_status r)
              (upd cp_provenance_status (if cp_provenance_status r =s "unchecked" then "pending" else cp_provenance_status r)
                (upd cp_risk_review_status (if cp_risk_review_status r =s "pending" then "approved" else cp_risk_review_status r)
                  r))))))).

Definition write_approval (p : Principal) (tenant_id request_id : string) (row : PromotionRow) (a : Approval)
  : Op unit :=
  (match av_marker a with
   | Some marker =>
       let! _ := audit_event "promotion.gate_override" (p_subject p) (Some (pr_capability_uri row))
         (Some "override") (Some "allow") None
         [("requestId", JStr request_id); ("note", JStr marker)] tenant_id "user" in ret tt
   | None => ret tt
   end) ;;;
  update_rows db_capabilities (fun r => cp_uri r =s pr_capability_uri row) (approve_row row (av_store a)) ;;;
  when (negb (av_uri a =s pr_capability_uri row))
    (rename_capability tenant_id request_id (pr_capability_uri row) (av_uri a)).

Definition NEW_STATES : list (string * string) :=
  [("approve", "approved"); ("reject", "rejected"); ("recall", "recalled"); ("demote", "demoted");
   ("yank", "yanked")].

(** The state of the request and of its pending approval steps. *)
Definition write_decision (p : Principal) (request_id new_state : string) (note : json) : Op unit :=
  let! now := sql_now in
  update_rows db_promotion_requests (fun r => pr_id r =s request_id)
    (fun r => upd pr_state new_state (upd pr_decided_at (Some now) r)) ;;;
  update_rows db_approval_steps (fun r => (ap_request_id r =s request_id) && (ap_state r =s "pending"))
    (fun r => upd ap_state new_state (upd ap_decision_by (Some (p_subject p))
                (upd ap_decision_note (Some (py_str (py_or note (JStr "")))) (upd ap_decided_at (Some now) r)))).

Definition finish_decision (p : Principal) (tenant_id request_id decision new_state target : string)
    (payload : dict) : Op dict :=
  let! _ := refresh_catalog_generation in
  let! _ := audit_event ("promotion." +:+ new_state) (p_subject p) (Some target) (Some decision)
    (Some "allow") None payload tenant_id "user" in
  let! _ := commit in
  let! r := query (fun d => request_by_id d request_id) in
  lift (fetch_record promotion_record r).

Definition approve_request `{!GateRunner} (p : Principal) (payload : dict) : Op dict :=
  let tenant_id := tenant_of p in
  let request_id := str_get2 payload "requestId" "id" "" in
  let decision := str_get payload "decision" "approve" in
  match List.find (fun kv => fst kv =s decision) NEW_STATES with
  | None => raise (ValueError "Unsupported approval decision.")
  | Some (_, new_state) =>
      let! _ := require_access p "approve" None (Some ("promotion:" +:+ request_id)) in
      let! row := query (fun d => fetchone (fun r => (pr_id r =s request_id) && (pr_tenant_id r =s tenant_id))
                                    (db_promotion_requests d)) in
      match row with
      | None => raise (ValueError "Promotion request not found.")
      | Some row =>
          if decision =s "approve" then
            let! a := prepare_approval p row payload in
            let! _ := when (py_truthy (av_gates a))
              (update_rows db_promotion_requests (fun r => pr_id r =s request_id)
                 (fun r => upd pr_gates_json (json_dumps (av_gates a)) r)) in
            let! _ := write_decision p request_id new_state (jget "note" (av_payload a)) in
            let! _ := write_approval p tenant_id request_id row a in
            finish_decision p tenant_id request_id decision new_state (av_uri a) (av_payload a)
          else
            let! _ := write_decision p request_id new_state (jget "note" payload) in
            let! _ := update_rows db_capabilities (fun r => cp_uri r =s pr_capability_uri row)
              (fun r => upd cp_approval_state new_state r) in
            finish_decision p tenant_id request_id decision new_state (pr_capability_uri row) payload
      end
  end.
End Promotions.
