(* ===== verification/Reviews.v ===== *)
(** * Capability reviews: the gate runner ([lifecycle.py])

    The seven gates of a capability, and the review that records an approval
    when all of them pass. *)

From Stdlib Require Import ZArith Ascii String Lia.
From stdpp Require Import base option list strings gmap.
From S2P Require Import Prelude Sha256 PyStr Json Clock Db Models AccessControl AccessSpec AccessProps.
From S2P Require Import RegistryLog Gates Signing SourceGates Catalog Promotions.
Local Open Scope string_scope.
Local Open Scope list_scope.

Definition MAX_EVIDENCE_BYTES : nat := 16384.
Definition REQUIRED_GATES : list string :=
  ["sourceIntegrity"; "tests"; "retrievalEvals"; "signature"; "provenance"; "promptInjectionScan";
   "riskTierPolicy"].

(** [json.dumps(value, sort_keys=True, separators=(",", ":"), ensure_ascii=False)] *)
Definition _json (v : json) : string := raw_json (sort_keys v).

Definition _bounded_evidence (v : json) : string :=
  let encoded := _json v in
  if (String.length encoded <=? MAX_EVIDENCE_BYTES)%nat then encoded
  else _json (JObj [("truncated", JBool true); ("encodedBytes", JNum (Z.of_nat (String.length encoded)));
                    ("sha256", JStr (sha256_hex encoded))]).

Section Gates.
Context `{!Runtime, !UnicodeData, !Machine}.

Definition _retrieval_gate (d : DB) (c : Capability) : dict :=
  let source := exists_where (fun r => cs_uri r =s c_uri c) (db_capability_sources d) in
  let fts := exists_where (fun r => ft_uri r =s c_uri c) (db_capability_fts d) in
  if negb source || negb fts
  then _gate "failed" "retrieval_index_incomplete" []
         [("sourceIndexed", JBool source); ("ftsIndexed", JBool fts)]
  else _gate "passed" "retrieval_index_verified" [] [("sourceIndexed", JBool true); ("ftsIndexed", JBool true)].

Definition surface_text (s : Surface) : string :=
  match s with SURFACE_METADATA => "metadata" | SURFACE_BODY => "body" end.
Definition severity_text (s : Severity) : string :=
  match s with SEVERITY_BLOCK => "block" | SEVERITY_INFO => "info" | SEVERITY_ALLOWED => "allowed" end.
Definition uniq (l : list string) : list string := sorted_strings (remove_dups l).

Definition _prompt_injection_gate (c : Capability) (source_text : string) : dict :=
  let source_text := decode_replace source_text in
  let metadata_text := join newline [c_name c; c_title c; c_description c] in
  let classify s text := filter_scan_hits (scan_prompt_injection text) (c_name c) (Some (c_type c)) (c_plugin c) s in
  let tag s (hs : list Hit) := (fun h => (s, h)) <$> hs in
  let '(meta_blocking, meta_ok) := classify SURFACE_METADATA metadata_text in
  let '(body_blocking, body_ok) := classify SURFACE_BODY source_text in
  let blocking := tag SURFACE_METADATA meta_blocking ++ tag SURFACE_BODY body_blocking in
  let non_blocking := tag SURFACE_METADATA meta_ok ++ tag SURFACE_BODY body_ok in
  match blocking with
  | _ :: _ =>
      _gate "failed" "prompt_injection_blocked" []
        [("blockingPhrases", jstrs (uniq ((fun h => hit_phrase (snd h)) <$> blocking)));
         ("reasons", jstrs (uniq ((fun h => hit_reason (snd h)) <$> blocking)));
         ("blockingSurfaces", jstrs (uniq ((fun h => surface_text (fst h)) <$> blocking)))]
  | [] =>
      _gate "passed" "no_blocking_prompt_injection"
        ((fun h => "prompt_injection_downgraded:" +:+ surface_text (fst h) +:+ ":" +:+ hit_phrase (snd h))
           <$> non_blocking)
        [("hits", JArr ((fun h => JObj [("phrase", JStr (hit_phrase (snd h)));
                                        ("severity", JStr (severity_text (hit_severity (snd h))));
                                        ("surface", JStr (surface_text (fst h)))]) <$> non_blocking))]
  end.

(** The scope of a review and the namespace it is for. *)
Definition _scope_for (d : DB) (c : Capability) (target requested : json) : outcome (string * json) :=
  if py_truthy requested then
    match requested with
    | JStr r =>
        let normalized := replace_all (lower (strip r)) "-" "_" in
        if smem normalized ["private"; "org"; "all_users"] then Ok (normalized, target)
        else Raise (ValueError "reviewScope must be private, org, or all_users.")
    | _ => Raise (OtherError "AttributeError: strip")
    end
  else
    let namespace_id := py_or target (jopt (c_namespace_id c)) in
    if negb (py_truthy namespace_id) then Ok ("private", namespace_id)
    else
      let? id := sql_text namespace_id in
      let kind :=
        match namespace_by_id d id with
        | Some n => st_kind <$> store_by_id d (ns_store_id n)
        | None => None
        end in
      Ok (match kind with
          | Some k => if k =s "all_users" then "all_users" else if k =s "org" then "org" else "private"
          | None => "private"
          end, namespace_id).

Definition _risk_gate (c : Capability) (scope : string) (approved_exception : bool) : dict :=
  let risky := c_mutating c || smem (c_risk_tier c) ["high"; "critical"] in
  if (scope =s "all_users") && risky
  then _gate "failed" "all_users_risk_policy" []
         [("riskTier", JStr (c_risk_tier c)); ("mutating", JBool (c_mutating c))]
  else if (scope =s "org") && (c_risk_tier c =s "critical") && negb approved_exception
  then _gate "failed" "org_critical_requires_exception" [] [("riskTier", JStr (c_risk_tier c))]
  else _gate "passed" "risk_policy_satisfied"
         (if (scope =s "private") && risky then ["private_scope_high_risk_or_mutating"] else [])
         [("scope", JStr scope); ("riskTier", JStr (c_risk_tier c)); ("mutating", JBool (c_mutating c));
          ("approvedException", JBool approved_exception)].

Definition _attestation_envelope (c : Capability) (scope : string) (target : json) (reviewer timestamp : string)
  : dict :=
  [("schema", JStr "https://slsa.dev/provenance/v1"); ("tenantId", JStr (c_tenant_id c));
   ("capabilityUri", JStr (c_uri c)); ("canonicalKey", JStr (c_canonical_key c));
   ("contentHash", JStr (c_content_hash c)); ("sourceSystem", JStr (c_source_system c));
   ("sourcePath", JStr (resolve_path (c_source_path c)));
   ("reviewScope", JStr scope); ("targetNamespaceId", target); ("reviewer", JStr reviewer);
   ("timestamp", JStr timestamp);
   ("assurance", JStr "internal-ed25519;not-sigstore-or-transparency-log")].

(** [f"{type(exc).__name__}: {str(exc)[:n]}"] *)
Definition exn_text (n : nat) (e : exn) : string :=
  let text name m := name +:+ ": " +:+ stake n m in
  match e with
  | ValueError m => text "ValueError" m
  | PermissionError m => text "PermissionError" m
  | IntegrityError m => text "IntegrityError" m
  | KeyError m => text "KeyError" m
  | QuarantineError m => text "QuarantineError" m
  | QuarantineReleaseBlocked m => text "QuarantineReleaseBlocked" m
  | InstallPolicyError m => text "InstallPolicyError" m
  | SupersededCapability m => text "SupersededCapability" m
  | InstallGuardError _ m => text "InstallGuardError" m
  | OtherError m => match partition ":"%char m with
                    | Some (name, rest) => text name (removeprefix rest " ")
                    | None => text "Exception" m
                    end
  end.

(** The gates on the source text: both fail when it could not be read. *)
Definition source_gates (c : Capability) (content : option string) : dict :=
  match content with
  | None =>
      let prerequisite := JObj (_gate "failed" "source_integrity_prerequisite_failed" [] []) in
      [("tests", prerequisite); ("promptInjectionScan", prerequisite)]
  | Some text => [("tests", JObj (_metadata_gate c text));
                  ("promptInjectionScan", JObj (_prompt_injection_gate c text))]
  end.

(** [try: sign ... except Exception]: the attestation and the signature gate. *)
Definition signature_gate (envelope : dict) (persist : bool) : Op (option dict * dict) :=
  try_except
    (let! attestation := sign_attestation envelope persist in
     ret (Some attestation, _gate "passed" "ed25519_signature_verified" [] [("algorithm", JStr "Ed25519")]))
    (fun _ => true)
    (fun e => ret (None, _gate "failed" "signature_unavailable" [] [("error", JStr (exn_text 240 e))])).

(** The gates and the signed attestation, if signing succeeded. *)
Definition _evaluate (c : Capability) (scope : string) (target : json) (reviewer : string)
    (persist_signature approved_exception : bool) : Op (dict * option dict) :=
  let! (content, integrity) := _source_bytes c in
  let! retrieval := query (fun d => _retrieval_gate d c) in
  let! built_at := utc_now in
  let! (attestation, signature) :=
    signature_gate (_attestation_envelope c scope target reviewer built_at) persist_signature in
  let! provenance := lift (_provenance_gate c reviewer built_at) in
  ret ([("sourceIntegrity", JObj integrity)] ++ source_gates c content
       ++ [("retrievalEvals", JObj retrieval);
           ("riskTierPolicy", JObj (_risk_gate c scope approved_exception));
           ("signature", JObj signature); ("provenance", JObj provenance)],
       attestation).

Definition gate_state (gates : dict) (name : string) : option string :=
  match jget name gates with
  | JObj g => match jget "state" g with JStr s => Some s | _ => None end
  | _ => None
  end.

Definition _all_passed (gates : dict) : bool :=
  List.forallb (fun name =>
    match gate_state gates name with
    | Some s => if name =s "provenance" then smem s ["passed"; "skipped"] else s =s "passed"
    | None => false
    end) REQUIRED_GATES.

(** Both rights, without an audit record. *)
Definition authorize_right (p : Principal) (resource right : string) : Op unit :=
  let! (allowed, reason) := evaluate_access p right None (Some resource) false in
  if allowed then ret tt else raise (PermissionError (o_or reason (right +:+ " right required."))).
Definition _authorize (p : Principal) : Op unit :=
  forM ["manage"; "approve"] (authorize_right p ("tenant:" +:+ s_or (p_tenant_id p) "asg")).

(** The writes of a review that passed. *)
Definition record_review (p : Principal) (payload : dict) (c : Capability) (scope : string) (gates : dict)
    (attestation : option dict) (reviewed_at : string) (do_commit : bool) : Op bool :=
  let same_review r := (cr_tenant_id r =s c_tenant_id c) && (cr_capability_uri r =s c_uri c)
    && (cr_content_hash r =s c_content_hash c) && (cr_review_scope r =s scope) in
  let! existing := query (fun d => exists_where same_review (db_capability_reviews d)) in
  let! id := new_id "crv" in
  let! _ := insert_or_ignore db_capability_reviews same_review
    {| cr_id := id; cr_tenant_id := c_tenant_id c; cr_capability_uri := c_uri c;
       cr_content_hash := c_content_hash c; cr_review_scope := scope; cr_gate_state := "passed";
       cr_evidence_json := _bounded_evidence (JObj gates); cr_reviewer := p_subject p;
       cr_reviewed_at := reviewed_at;
       cr_attestation_json := _json (match attestation with Some a => JObj a | None => JNull end) |} in
  let! now := sql_now in
  let! _ := update_rows db_capabilities
    (fun r => (cp_uri r =s c_uri c) && (cp_content_hash r =s c_content_hash c))
    (fun r => upd cp_approval_state "approved" (upd cp_lifecycle "published"
      (upd cp_signature_status "verified" (upd cp_provenance_status "verified"
        (upd cp_risk_review_status "approved" (upd cp_updated_at now r)))))) in
  let! _ := audit_event "capability.review.approved" (p_subject p) (Some (c_uri c)) (Some "review")
    (Some "allow") None
    [("contentHash", JStr (c_content_hash c)); ("reviewScope", JStr scope);
     ("idempotent", JBool existing);
     ("approvedRiskException", JBool (py_truthy (jget "approvedRiskException" payload)))]
    (c_tenant_id c) "user" in
  let! _ := when do_commit commit in
  ret existing.

(** [str(attestation["envelope"]["timestamp"])] *)
Definition attestation_timestamp (attestation : option dict) : outcome string :=
  match attestation with
  | None => Raise (OtherError "TypeError: 'NoneType' object is not subscriptable")
  | Some a =>
      match dget "envelope" a with
      | Some (JObj e) => match dget "timestamp" e with
                         | Some t => Ok (py_str t)
                         | None => Raise (KeyError "timestamp")
                         end
      | Some _ => Raise (OtherError "TypeError: indices must be integers")
      | None => Raise (KeyError "envelope")
      end
  end.

(** [review_capability] with its [commit] argument. *)
Definition review (p : Principal) (payload : dict) (do_commit : bool) : Op dict :=
  let! _ := _authorize p in
  let identifier := strip (str_get2 payload "capabilityUri" "uri" "") in
  if negb (truthy identifier) then raise (ValueError "capabilityUri is required.")
  else
    let! found := query (fun d => get_capability d identifier) in
    let! found := lift found in
    match found with
    | None => raise (ValueError "Capability not found in the current tenant.")
    | Some c =>
        if negb (c_tenant_id c =s s_or (p_tenant_id p) "asg")
        then raise (ValueError "Capability not found in the current tenant.")
        else
          let dry_run := match dget "dryRun" payload with Some v => py_truthy v | None => true end in
          let! scoped := query (fun d => _scope_for d c (jget "targetNamespaceId" payload) (jget "reviewScope" payload)) in
          let! (scope, target) := lift scoped in
          let! (gates, attestation) :=
            _evaluate c scope target (p_subject p) (negb dry_run)
              (py_truthy (jget "approvedRiskException" payload)) in
          let passed := _all_passed gates in
          let result := [("capabilityUri", JStr (c_uri c)); ("contentHash", JStr (c_content_hash c));
                         ("reviewScope", JStr scope); ("dryRun", JBool dry_run);
                         ("passed", JBool passed); ("gates", JObj gates)] in
          if dry_run || negb passed then ret result
          else
            let! reviewed_at := lift (attestation_timestamp attestation) in
            let! existing := record_review p payload c scope gates attestation reviewed_at do_commit in
            ret (result ++ [("approved", JBool true); ("idempotent", JBool existing)])
    end.

Lemma quiet_evaluate_access p right cap res : preserves quiet (evaluate_access p right cap res false).
Proof.
  unfold evaluate_access. destruct (negb _); [by intros w|].
  apply preserves_bind; [exact _ | intros w; apply decide_quiet | by intros [allowed why] w].
Qed.

Lemma quiet_authorize p : preserves quiet (_authorize p).
Proof.
  apply preserves_forM; [exact _|]. intros right. unfold authorize_right.
  apply preserves_bind; [exact _ | apply quiet_evaluate_access | by intros [[] o] w].
Qed.

(** Signing without persistence reads files and draws a key. *)
Lemma quiet_read_key path : preserves quiet (_read_private_key path).
Proof.
  unfold _read_private_key, os_open, file_at. solve_frame; by intros w.
Qed.

Lemma quiet_load_key : preserves quiet (load_or_create_signing_key false).
Proof.
  unfold load_or_create_signing_key, file_at, generate_key. solve_frame; try apply quiet_read_key; by intros w.
Qed.

Lemma quiet_evaluate c scope target reviewer exception :
  preserves quiet (_evaluate c scope target reviewer false exception).
Proof.
  unfold _evaluate, signature_gate, sign_attestation. solve_frame; try apply quiet_load_key; try by intros w.
  intros w. unfold _source_bytes, file_at, bind, gets. cbn.
  repeat case_match; cbn in *; simplify_eq; done.
Qed.

Lemma review_quiet p payload cm :
  dget "dryRun" payload = Some (JBool true) -> preserves quiet (review p payload cm).
Proof.
  intros Hdry. unfold review. rewrite Hdry. cbn [py_truthy orb negb].
  apply preserves_bind; [exact _ | apply quiet_authorize | intros []].
  destruct (negb (truthy _)); [by intros w|].
  apply preserves_bind; [exact _ | by intros w | intros found].
  apply preserves_bind; [exact _ | by intros w | intros [c|]]; [|by intros w].
  destruct (negb (_ =s _)); [by intros w|].
  apply preserves_bind; [exact _ | by intros w | intros scoped].
  apply preserves_bind; [exact _ | by intros w | intros [scope target]].
  apply preserves_bind; [exact _ | apply quiet_evaluate | by intros [gates attestation] w].
Qed.
End Gates.

(** [review_capability] is the gate runner of the promotions. *)
#[export] Instance gate_runner `{!Runtime, !UnicodeData, !Machine} : GateRunner :=
  {| review_capability := fun p payload => review p payload true; review_dry_run := fun p payload => review_quiet p payload true |}.
