(* ===== verification/ReviewProps.v ===== *)
(** * What a recorded review guarantees

    A review approves a capability only on evidence: the source file was read
    and has the recorded hash, the scans found nothing that blocks, the risk
    policy allows the scope, and the attestation verifies.  Every other
    outcome leaves the database alone. *)

From Stdlib Require Import ZArith Ascii String Lia.
From stdpp Require Import base option list strings gmap.
From S2P Require Import Prelude Sha256 PyStr Json Clock Db Models AccessControl AccessSpec AccessProps.
From S2P Require Import RegistryLog Gates Signing SourceGates Catalog Promotions Reviews.
Local Open Scope string_scope.
Local Open Scope list_scope.

#[local] Opaque sha256_hex.

Section Evidence.
Context `{!Runtime, !UnicodeData, !Machine}.

Lemma read_upto_all n s : (Z.of_nat (String.length s) <= n)%Z -> read_upto n s = s.
Proof.
  revert n. induction s as [|c s IH]; intros n Hn; [reflexivity|]. cbn [read_upto String.length] in *.
  destruct (Z.leb_spec n 0); [lia|]. by rewrite IH by lia.
Qed.

(** The file a passed sourceIntegrity gate has seen. *)
Definition source_verified (w : World) (c : Capability) (content : string) : Prop :=
  exists n, w_files w !! expand_user (c_source_path c) = Some n /\ fn_kind n = Regular /\
    fn_content n = content /\ (Z.of_nat (String.length content) <= MAX_SOURCE_BYTES)%Z /\
    "sha256:" +:+ sha256_hex content = c_content_hash c.

Lemma source_bytes_inv c w o g w' :
  _source_bytes c w = (Ok (o, g), w') ->
  w' = w /\ match o with
            | Some content => source_verified w c content
            | None => jget "state" g = JStr "failed"
            end.
Proof.
  unfold _source_bytes, file_at, bind, gets.
  destruct (w_files w !! _) as [n|] eqn:En; [|by intros [= <- <- <-]].
  destruct (fn_kind n) eqn:Ek; try by (destruct (fn_readable n); cbn [negb];
    unfold is_regular; rewrite ?Ek; cbn [negb]; intros [= <- <- <-]).
  destruct (fn_readable n); cbn [negb]; [|by intros [= <- <- <-]].
  unfold is_regular. rewrite Ek. cbn [negb].
  destruct (Z.ltb_spec MAX_SOURCE_BYTES (Z.of_nat (String.length (fn_content n)))) as [|Hsize];
    [by intros [= <- <- <-]|].
  rewrite read_upto_all by lia.
  destruct (Z.ltb_spec MAX_SOURCE_BYTES (Z.of_nat (String.length (fn_content n)))); [by intros [= <- <- <-]|].
  destruct (_ =s c_content_hash c) eqn:Eh; cbn [negb]; intros [= <- <- <-]; split; try reflexivity.
  exists n. apply String.eqb_eq in Eh. by split_and!.
Qed.

(** The scan gate passes only if nothing blocks on either surface. *)
Lemma scan_gate_passed c text :
  jget "state" (_prompt_injection_gate c text) = JStr "passed" ->
  should_block (scan_prompt_injection (join newline [c_name c; c_title c; c_description c]))
    (c_name c) (Some (c_type c)) (c_plugin c) SURFACE_METADATA = false /\
  should_block (scan_prompt_injection (decode_replace text))
    (c_name c) (Some (c_type c)) (c_plugin c) SURFACE_BODY = false.
Proof.
  rewrite !filter_should_block. unfold _prompt_injection_gate. cbv zeta.
  destruct (filter_scan_hits _ _ _ _ SURFACE_METADATA) as [mb mo].
  destruct (filter_scan_hits _ _ _ _ SURFACE_BODY) as [bb bo].
  cbn [fst]. destruct mb, bb; [done| discriminate ..].
Qed.

Lemma risk_gate_passed c scope exception :
  jget "state" (_risk_gate c scope exception) = JStr "passed" ->
  (scope = "all_users" -> c_mutating c = false /\ smem (c_risk_tier c) ["high"; "critical"] = false) /\
  (scope = "org" -> c_risk_tier c = "critical" -> exception = true).
Proof.
  unfold _risk_gate. cbv zeta. destruct (scope =s "all_users") eqn:Es.
  - apply String.eqb_eq in Es as ->. destruct (c_mutating c), (smem _ _); cbn [orb andb]; try discriminate.
    intros _. split; [done | discriminate].
  - cbn [andb]. destruct ((scope =s "org") && _ && _) eqn:Ec; [discriminate|]. intros _.
    apply String.eqb_neq in Es. split; [done|]. intros -> Ht. rewrite Ht in Ec. by destruct exception.
Qed.

Lemma retrieval_gate_passed d c :
  jget "state" (_retrieval_gate d c) = JStr "passed" ->
  exists_where (fun r => cs_uri r =s c_uri c) (db_capability_sources d) = true /\
  exists_where (fun r => ft_uri r =s c_uri c) (db_capability_fts d) = true.
Proof.
  unfold _retrieval_gate. cbv zeta. destruct (exists_where _ (db_capability_sources d)); [|discriminate].
  destruct (exists_where _ (db_capability_fts d)); [done | discriminate].
Qed.

#[local] Opaque _metadata_gate _prompt_injection_gate _retrieval_gate _risk_gate _gate.

(** The gates of an evaluation. *)
Definition prerequisite : dict := _gate "failed" "source_integrity_prerequisite_failed" [] [].
Definition tests_gate (c : Capability) (content : option string) : dict :=
  match content with Some text => _metadata_gate c text | None => prerequisite end.
Definition scan_gate (c : Capability) (content : option string) : dict :=
  match content with Some text => _prompt_injection_gate c text | None => prerequisite end.
Definition seven_gates (integrity tests scan retrieval risk signature provenance : dict) : dict :=
  [("sourceIntegrity", JObj integrity); ("tests", JObj tests); ("promptInjectionScan", JObj scan);
   ("retrievalEvals", JObj retrieval); ("riskTierPolicy", JObj risk); ("signature", JObj signature);
   ("provenance", JObj provenance)].
Definition state_text (g : dict) : option string :=
  match jget "state" g with JStr s => Some s | _ => None end.

Lemma source_gates_eq c content :
  source_gates c content
  = [("tests", JObj (tests_gate c content)); ("promptInjectionScan", JObj (scan_gate c content))].
Proof. destruct content; reflexivity. Qed.

Lemma all_passed_seven integrity tests scan retrieval risk signature provenance :
  _all_passed (seven_gates integrity tests scan retrieval risk signature provenance) = true ->
  state_text integrity = Some "passed" /\ state_text tests = Some "passed" /\
  state_text scan = Some "passed" /\ state_text retrieval = Some "passed" /\
  state_text risk = Some "passed" /\ state_text signature = Some "passed" /\
  (state_text provenance = Some "passed" \/ state_text provenance = Some "skipped").
Proof.
  unfold _all_passed, REQUIRED_GATES, gate_state, seven_gates. cbn [List.forallb].
  change (jget "sourceIntegrity" _) with (JObj integrity). change (jget "tests" _) with (JObj tests).
  change (jget "promptInjectionScan" _) with (JObj scan). change (jget "retrievalEvals" _) with (JObj retrieval).
  change (jget "riskTierPolicy" _) with (JObj risk). change (jget "signature" _) with (JObj signature).
  change (jget "provenance" _) with (JObj provenance). cbn [String.eqb Ascii.eqb Bool.eqb].
  unfold state_text. intros Hall. repeat (apply andb_true_iff in Hall as [? Hall]).
  repeat match goal with
  | H : match ?x with _ => _ end = true |- _ => destruct x; try discriminate H
  end.
  repeat match goal with H : (_ =s _) = true |- _ => apply String.eqb_eq in H; subst end.
  split_and!; try done.
  match goal with H : smem _ _ = true |- _ => apply smem_In in H; set_solver end.
Qed.

Record evaluated (w : World) (c : Capability) (scope : string) (target : json) (reviewer : string)
    (exception : bool) (gates : dict) (attestation : option dict) (content : option string) : Prop := {
  ev_gates : exists integrity signature provenance,
    gates = seven_gates integrity (tests_gate c content) (scan_gate c content)
              (_retrieval_gate (w_db w) c) (_risk_gate c scope exception) signature provenance /\
    match content with
    | Some text => source_verified w c text
    | None => state_text integrity = Some "failed"
    end /\
    match attestation with
    | Some a => exists key,
        a = sign_with key (_attestation_envelope c scope target reviewer (utc_text (w_clock w))) /\
        verify_attestation a (Some (key_id (ed_public key))) = true
    | None => state_text signature = Some "failed"
    end
}.

(** Signing may write the key file, never the database. *)
Definition off_disk (w : World) : DB * DB * Z := (w_db w, w_disk w, w_clock w).

Lemma load_key_off_disk persist : keeps off_disk (load_or_create_signing_key persist).
Proof.
  unfold keeps, load_or_create_signing_key, _write_new_key, make_key_directory, _read_private_key, os_open,
    set_file, file_at, generate_key. solve_frame; by intros ?.
Qed.

Lemma sign_off_disk envelope persist : keeps off_disk (sign_attestation envelope persist).
Proof.
  unfold sign_attestation. apply preserves_bind; [exact _ | apply load_key_off_disk | intros k w0].
  by destruct (verify_attestation _ _).
Qed.

Lemma sign_attestation_inv envelope persist w a w' :
  sign_attestation envelope persist w = (Ok a, w') ->
  exists key, a = sign_with key envelope /\ verify_attestation a (Some (key_id (ed_public key))) = true.
Proof.
  unfold sign_attestation. intros E. step_ok E as key w1 Hk.
  destruct (verify_attestation _ _) eqn:Ev; [|discriminate E]. injection E as <- _. by exists key.
Qed.

Lemma signature_gate_inv envelope persist w o g w' :
  signature_gate envelope persist w = (Ok (o, g), w') ->
  off_disk w' = off_disk w /\
  match o with
  | Some a => exists key, a = sign_with key envelope /\
                verify_attestation a (Some (key_id (ed_public key))) = true
  | None => jget "state" g = JStr "failed"
  end.
Proof.
  unfold signature_gate, try_except. unfold bind at 1. pose proof (sign_off_disk envelope persist w) as Hp.
  destruct (sign_attestation envelope persist w) as [[a|e] w1] eqn:E; intros [= <- <- <-].
  - split; [exact Hp|]. by eapply sign_attestation_inv.
  - split; [exact Hp | done].
Qed.

Lemma evaluate_inv c scope target reviewer persist exception w gates attestation w' :
  _evaluate c scope target reviewer persist exception w = (Ok (gates, attestation), w') ->
  off_disk w' = off_disk w /\ exists content, evaluated w c scope target reviewer exception gates attestation content.
Proof.
  unfold _evaluate. intros E. step_ok E as [content integrity] w1 Hs.
  apply source_bytes_inv in Hs as [-> Hs].
  step_ok E as retrieval w2 Hr. injection Hr as <- <-. step_ok E as now w3 Hn. injection Hn as <- <-.
  step_ok E as [o signature] w4 Hsig. apply signature_gate_inv in Hsig as [Hoff Hsig].
  step_ok E as provenance w5 Hp. injection Hp as _ <-. injection E as <- <- <-.
  split; [exact Hoff|].
  exists content. constructor. exists integrity, signature, provenance. split; [|split].
  - rewrite source_gates_eq. cbn [app]. reflexivity.
  - destruct content; [exact Hs|]. unfold state_text. by rewrite Hs.
  - destruct o; [exact Hsig|]. unfold state_text. by rewrite Hsig.
Qed.
(** What a recorded review writes into the catalog. *)
Definition reviewed (c : Capability) (now : string) (r : CapRow) : CapRow :=
  upd cp_approval_state "approved" (upd cp_lifecycle "published"
    (upd cp_signature_status "verified" (upd cp_provenance_status "verified"
      (upd cp_risk_review_status "approved" (upd cp_updated_at now r))))).

Definition reviewed_version (c : Capability) (scope : string) (r : ReviewRow) : bool :=
  (cr_tenant_id r =s c_tenant_id c) && (cr_capability_uri r =s c_uri c)
  && (cr_content_hash r =s c_content_hash c) && (cr_review_scope r =s scope).

Lemma record_review_inv p payload c scope gates attestation at_ cm w existing w' :
  record_review p payload c scope gates attestation at_ cm w = (Ok existing, w') ->
  db_capabilities (w_db w') = update_where
    (fun r => (cp_uri r =s c_uri c) && (cp_content_hash r =s c_content_hash c))
    (reviewed c (sql_text_now (w_clock w))) (db_capabilities (w_db w)) /\
  exists_where (reviewed_version c scope) (db_capability_reviews (w_db w')) = true /\
  (cm = true -> w_disk w' = w_db w').
Proof.
  unfold record_review. fold (reviewed_version c scope). intros E.
  step_ok E as ex w1 G1. injection G1 as <- <-. step_ok E as id w2 G2. injection G2 as _ <-.
  step_ok E as [] w3 G3. injection G3 as <-. step_ok E as now w4 G4. injection G4 as <- <-.
  step_ok E as [] w5 G5. injection G5 as <-. step_ok E as ev w6 G6.
  apply (keeps_run _ _ _ _ _ (audit_event_unlogged _ _ _ _ _ _ _ _ _)) in G6.
  step_ok E as [] w7 G7. injection E as <- <-.
  assert (w_db w7 = w_db w6 /\ (cm = true -> w_disk w7 = w_db w7)) as [Hd Hc]
    by (by destruct cm; injection G7 as <-).
  pose proof (f_equal (fun u => db_capabilities u.1.1.1) G6) as Hcaps.
  pose proof (f_equal (fun u => db_capability_reviews u.1.1.1) G6) as Hrev. cbn in Hcaps, Hrev.
  rewrite Hd, Hcaps, Hrev.
  cbn. split; [by destruct (exists_where _ (db_capability_reviews (w_db w)))|]. split; [|by rewrite <-Hd].
  destruct (exists_where (reviewed_version c scope) (db_capability_reviews (w_db w))) eqn:Eex;
    cbn; [by rewrite ?Eex|].
  rewrite exists_where_app, Eex. cbn. unfold reviewed_version. cbn. by rewrite !String.eqb_refl.
Qed.

(** Every run of a review that returns: its gates, and the branch taken. *)
Lemma review_ok_inv p payload cm w result w' :
  review p payload cm w = (Ok result, w') ->
  exists c scope target gates attestation w1 w2,
    quiet w w1 /\
    get_capability (w_db w) (strip (str_get2 payload "capabilityUri" "uri" "")) = Ok (Some c) /\
    c_tenant_id c = s_or (p_tenant_id p) "asg" /\
    (exists content, evaluated w1 c scope target (p_subject p)
       (py_truthy (jget "approvedRiskException" payload)) gates attestation content) /\
    off_disk w2 = off_disk w1 /\
    (dget "approved" result = None /\ w' = w2 \/
     _all_passed gates = true /\ dget "approved" result = Some (JBool true) /\
     dget "reviewScope" result = Some (JStr scope) /\
     exists at_ existing, attestation_timestamp attestation = Ok at_ /\
       record_review p payload c scope gates attestation at_ cm w2 = (Ok existing, w')).
Proof.
  unfold review. intros E. step_ok E as [] w1 Hauth.
  pose proof (quiet_authorize p w) as Hq. rewrite Hauth in Hq. cbn [snd] in Hq. ok_cases E.
  step_ok E as found w1' Hf. injection Hf as <- <-. step_ok E as found w1' Hf. unfold lift in Hf.
  destruct (get_capability (w_db w1) _) as [[c|]|] eqn:Ec; [|by injection Hf as <- <-|done].
  injection Hf as <- <-. destruct (negb (c_tenant_id c =s _)) eqn:Et; [discriminate E|].
  step_ok E as scoped w1' Hs. injection Hs as <- <-. step_ok E as [scope target] w1' Hs.
  injection Hs as _ <-. step_ok E as [gates attestation] w2 Hev. apply evaluate_inv in Hev as [Hoff Hev].
  destruct Hq as (Hdb & Hrest). rewrite Hdb in Ec. apply negb_false_iff, String.eqb_eq in Et.
  exists c, scope, target, gates, attestation, w1, w2.
  split; [done|]. split; [done|]. split; [done|]. split; [exact Hev|]. split; [done|].
  destruct (_ || negb (_all_passed gates)) eqn:Ed; [left; injection E as <- <-; done|right].
  apply orb_false_iff in Ed as [_ Ed]. apply negb_false_iff in Ed. split; [done|].
  step_ok E as at_ w3 Ha. injection Ha as Ha <-. step_ok E as existing w4 Hr. injection E as <- <-.
  split; [done|]. split; [done|]. exists at_, existing. done.
Qed.
(** The evidence behind an approval. *)
Record approval_evidence (w : World) (p : Principal) (payload : dict) (c : Capability) (scope : string) : Prop := {
  ae_named : get_capability (w_db w) (strip (str_get2 payload "capabilityUri" "uri" "")) = Ok (Some c);
  ae_released : _capguard_is_held (w_db w) c = false;
  ae_tenant : c_tenant_id c = s_or (p_tenant_id p) "asg";
  ae_indexed : exists_where (fun r => cs_uri r =s c_uri c) (db_capability_sources (w_db w)) = true /\
               exists_where (fun r => ft_uri r =s c_uri c) (db_capability_fts (w_db w)) = true;
  ae_source : exists content, source_verified w c content /\
    should_block (scan_prompt_injection (join newline [c_name c; c_title c; c_description c]))
      (c_name c) (Some (c_type c)) (c_plugin c) SURFACE_METADATA = false /\
    should_block (scan_prompt_injection (decode_replace content))
      (c_name c) (Some (c_type c)) (c_plugin c) SURFACE_BODY = false;
  ae_risk : (scope = "all_users" -> c_mutating c = false /\ smem (c_risk_tier c) ["high"; "critical"] = false) /\
            (scope = "org" -> c_risk_tier c = "critical" ->
             py_truthy (jget "approvedRiskException" payload) = true);
  ae_signed : exists key target,
    verify_attestation (sign_with key (_attestation_envelope c scope target (p_subject p) (utc_text (w_clock w))))
      (Some (key_id (ed_public key))) = true
}.

Lemma passed_evidence w w1 p payload c scope target gates attestation content :
  quiet w w1 ->
  get_capability (w_db w) (strip (str_get2 payload "capabilityUri" "uri" "")) = Ok (Some c) ->
  c_tenant_id c = s_or (p_tenant_id p) "asg" ->
  evaluated w1 c scope target (p_subject p) (py_truthy (jget "approvedRiskException" payload))
    gates attestation content ->
  _all_passed gates = true -> approval_evidence w p payload c scope.
Proof.
  intros (Hdb & _ & Hclock & Hfiles) Hnamed Htenant [(integrity & signature & provenance & -> & Hsrc & Hsig)] Hall.
  apply all_passed_seven in Hall as (Hi & Ht & Hs & Hr & Hk & Hg & _).
  assert (forall g, state_text g = Some "passed" -> jget "state" g = JStr "passed") as Hst.
  { intros g. unfold state_text. by destruct (jget "state" g); intros [= ->]. }
  destruct content as [text|]; [|rewrite Hsrc in Hi; discriminate Hi].
  destruct attestation as [a|]; [|rewrite Hsig in Hg; discriminate Hg].
  apply Hst in Hs, Hr, Hk. apply scan_gate_passed in Hs. apply retrieval_gate_passed in Hr.
  apply risk_gate_passed in Hk. rewrite Hdb in Hr. destruct Hsig as (key & -> & Hv). rewrite Hclock in Hv.
  constructor; try done; [by eapply held_hidden | | by eauto].
  exists text. split; [|exact Hs]. destruct Hsrc as (n & Hn & Hrest). exists n. by rewrite <-Hfiles.
Qed.
End Evidence.

Section Theorems.
Context `{!Runtime, !UnicodeData, !Machine}.

(** C6: a review approves only on evidence.  When it reports an approval, the
    capability was found and not held in quarantine, belongs to the reviewer's
    tenant and is indexed; the file at its source path is a regular file whose
    SHA-256 is the recorded content hash; the scans of its metadata and of that
    file find nothing that blocks; the scope allows its risk; and the signed
    attestation verifies. *)
Theorem review_approves_on_evidence p payload cm w result w' :
  review p payload cm w = (Ok result, w') ->
  dget "approved" result = Some (JBool true) ->
  exists c scope, dget "reviewScope" result = Some (JStr scope) /\ approval_evidence w p payload c scope.
Proof.
  intros E Happ. apply review_ok_inv in E
    as (c & scope & target & gates & att & w1 & w2 & Hq & Hn & Ht & (content & Hev) & _ & [[Hno _]|(Hall & _ & Hs & _)]).
  - rewrite Happ in Hno. discriminate Hno.
  - exists c, scope. split; [exact Hs|]. by eapply passed_evidence.
Qed.

(** What a review writes.  A review that returns without an approval (a
    dry run, or a failed gate) leaves the database and the committed data as
    they were.  One that approves marks exactly the rows of the reviewed
    address and content hash as approved, published, verified and reviewed,
    leaves every other capability alone, has a review of this content and scope
    on record, and is durable when it commits. *)
Theorem review_writes p payload cm w result w' :
  review p payload cm w = (Ok result, w') ->
  (dget "approved" result = None /\ w_db w' = w_db w /\ w_disk w' = w_disk w) \/
  (dget "approved" result = Some (JBool true) /\ exists c scope,
     get_capability (w_db w) (strip (str_get2 payload "capabilityUri" "uri" "")) = Ok (Some c) /\
     db_capabilities (w_db w') = update_where
       (fun r => (cp_uri r =s c_uri c) && (cp_content_hash r =s c_content_hash c))
       (reviewed c (sql_text_now (w_clock w))) (db_capabilities (w_db w)) /\
     exists_where (reviewed_version c scope) (db_capability_reviews (w_db w')) = true /\
     (cm = true -> w_disk w' = w_db w')).
Proof.
  intros E. apply review_ok_inv in E
    as (c & scope & target & gates & att & w1 & w2 & (Hd & Hk & Hc & _) & Hn & _ & _ & Hoff & [[Hno ->]|(_ & Happ & _ & at_ & ex & _ & Hr)]);
    injection Hoff as Ho1 Ho2 Ho3.
  - left. split_and!; congruence.
  - right. split; [exact Happ|]. exists c, scope. split; [exact Hn|].
    apply record_review_inv in Hr. by rewrite Ho1, Ho3, Hd, Hc in Hr.
Qed.
End Theorems.

(** ** Concrete inputs *)
Module ReviewDemo.
#[export] Existing Instance Demo.runtime.
#[export] Existing Instance GatesDemo.ascii_only.

(** Keys that are their own public part, and signatures that carry the key. *)
#[export] Instance machine : Machine :=
  {| expand_user := fun p => p; resolve_path := fun p => p; os_error := fun p => p;
     ed_generate := fun n => "key" +:+ str_of_Z (Z.of_nat n); ed_public := fun k => k;
     ed_sign := fun k m => k +:+ m; ed_verify := fun k s m => s =s (k +:+ m);
     private_pem := fun k => "PEM " +:+ k;
     load_pem := fun t => if startswith t "PEM " then Ok (Some (removeprefix t "PEM "))
                          else Raise (ValueError "Could not deserialize key data.");
     json_error_at := fun _ => (1, 1)%Z |}.

Definition content : string :=
  "---" +:+ newline +:+ "description: a demo" +:+ newline +:+ "---" +:+ newline +:+ "# Demo".
Definition hash : string := "sha256:" +:+ sha256_hex content.
Definition row : CapRow :=
  upd cp_content_hash hash (upd cp_source_path "/pkg/SKILL.md"
    (upd cp_approval_state "pending" (upd cp_lifecycle "draft" (Demo.cap_row "cap://x")))).
Definition catalog : DB :=
  upd db_capability_fts [mkFtsRow 1 "cap://x" "demo" "Demo" "A demo" "" "" "" "demo"]
    (upd db_capability_sources [mkSourceRow "/pkg/SKILL.md" "cap://x" "skill" "test" hash] (upd db_capabilities [row] empty_db)).
Definition files : gmap string FileNode := {[ "/pkg/SKILL.md" := mkFileNode Regular 420 true content ]}.
Definition world : World := upd w_files files (Demo.world catalog).
Definition request : dict := [("capabilityUri", JStr "cap://x"); ("dryRun", JBool false)].

Definition approved {A} (r : outcome dict * A) : option json :=
  match r.1 with Ok d => dget "approved" d | Raise _ => None end.

Lemma review_demo_approves : approved (review Demo.admin request true world) = Some (JBool true).
Proof. vm_compute. reflexivity. Qed.
End ReviewDemo.

Section Witnesses.
Import ReviewDemo.

Lemma review_approves_on_evidence_witness :
  exists c scope, approval_evidence world Demo.admin request c scope.
Proof.
  destruct (review Demo.admin request true world) as [r w'] eqn:E.
  pose proof review_demo_approves as Ha. rewrite E in Ha. destruct r as [d|e]; [|discriminate Ha].
  destruct (review_approves_on_evidence _ _ _ _ _ _ E Ha) as (c & scope & _ & Hev). by exists c, scope.
Defined.

Lemma review_writes_witness :
  exists d w', review Demo.admin request true world = (Ok d, w') /\ w_disk w' = w_db w' /\
    cp_approval_state <$> db_capabilities (w_db w') = ["approved"].
Proof.
  destruct (review Demo.admin request true world) as [r w'] eqn:E.
  pose proof review_demo_approves as Ha. rewrite E in Ha. destruct r as [d|e]; [|discriminate Ha].
  exists d, w'. split; [done|].
  destruct (review_writes _ _ _ _ _ _ E) as [(Hno & _)|(_ & c & scope & Hc & Hcaps & _ & Hk)].
  - exfalso. unfold approved in Ha. cbn [fst] in Ha. rewrite Hno in Ha. discriminate Ha.
  - split; [by apply Hk|]. rewrite Hcaps.
    assert (c_uri c = "cap://x" /\ c_content_hash c = hash) as [-> ->].
    { assert (get_capability catalog "cap://x" = Ok (Some c)) as Hc' by exact Hc.
      vm_compute in Hc'. injection Hc' as <-. split; [reflexivity | vm_compute; reflexivity]. }
    cbn. by rewrite String.eqb_refl.
Defined.
End Witnesses.
