(* ===== verification/SigningProps.v ===== *)
(** * Attestations and signing keys: what signing promises

    Base64 is invertible, a signed attestation verifies against its own key and
    against no other envelope than the signature covers, production never
    invents a key, and a persisted key is the one used from then on. *)

From Stdlib Require Import ZArith Ascii String Lia.
From stdpp Require Import base option list strings gmap.
From S2P Require Import Prelude Sha256 PyStr Json Base64 Clock Db Models Gates Signing SourceGates Reviews ReviewProps.
Local Open Scope string_scope.
Local Open Scope list_scope.

#[local] Opaque sha256_hex.

(** Base64 round trip: decoding (with validation) the encoding of any byte
    string gives it back. *)
Theorem base64_roundtrip s : b64decode (b64encode s) = Some s.
Proof. apply b64_roundtrip. Qed.

Section Theorems.
Context `{!Runtime, !Machine}.

Lemma bind_file_at {A} path (k : option FileNode -> Op A) w :
  bind (file_at path) k w = k (w_files w !! path) w.
Proof. reflexivity. Qed.

Lemma read_key_of path text key w :
  w_files w !! path = Some (mkFileNode Regular mode_600 true text) ->
  load_pem (read_upto 65536 text) = Ok (Some key) ->
  _read_private_key path w = (Ok key, w).
Proof.
  intros Hf Hl. unfold _read_private_key, os_open, file_at, bind, gets. rewrite Hf.
  cbn -[load_pem read_upto]. unfold lift. by rewrite Hl.
Qed.

Lemma load_existing_key persist path text key w :
  signing_key_path = Ok path ->
  w_files w !! path = Some (mkFileNode Regular mode_600 true text) ->
  load_pem (read_upto 65536 text) = Ok (Some key) ->
  load_or_create_signing_key persist w = (Ok key, w).
Proof.
  intros Hp Hf Hl. unfold load_or_create_signing_key. rewrite Hp. unfold lift, bind at 1.
  rewrite bind_file_at, Hf. cbn [is_some]. by eapply read_key_of.
Qed.

(** C18: what a verified attestation means.  An attestation built by
    [sign_attestation] for an envelope, whose envelope is then replaced by any
    other value, verifies against a trusted key id iff that id is the digest of
    the signing key's public part and the original signature is valid for the
    canonical JSON of the new envelope: nothing else of the envelope is
    trusted. *)
Theorem attestation_binds_envelope key envelope other trusted :
  verify_attestation (dset "envelope" other (sign_with key envelope)) trusted = true <->
  (forall t, trusted = Some t -> t = key_id (ed_public key)) /\
  ed_verify (ed_public key) (ed_sign key (_canonical_json (JObj envelope))) (_canonical_json other) = true.
Proof.
  unfold verify_attestation, sign_with, b64_value. cbn [dset dget List.find fst snd String.eqb Ascii.eqb Bool.eqb fmap option_fmap option_map].
  rewrite !b64_roundtrip. cbn [py_str andb]. rewrite String.eqb_refl. cbn [andb].
  rewrite andb_true_iff. destruct trusted as [t|].
  - rewrite String.eqb_eq. split.
    + intros [<- Hv]. split; [congruence | done].
    + intros [Ht Hv]. by rewrite (Ht t).
  - split; [by intros [_ ?] | by intros [_ ?]].
Qed.

(** Production never invents a signing key.  With CAPMESH_ENVIRONMENT set
    to production, loading the key, persistent or not, changes nothing on the
    machine; it returns a key only if the configured file is a readable regular
    file of mode 0600. *)
Theorem production_never_creates_key persist w r w' :
  _production = true ->
  load_or_create_signing_key persist w = (r, w') ->
  w' = w /\
  (forall key, r = Ok key -> exists path n, signing_key_path = Ok path /\ w_files w !! path = Some n /\
     fn_kind n = Regular /\ fn_mode n = mode_600 /\ fn_readable n = true /\
     load_pem (read_upto 65536 (fn_content n)) = Ok (Some key)).
Proof.
  intros Hp. unfold load_or_create_signing_key, lift, bind at 1.
  destruct signing_key_path as [path|e]; [|intros [= <- <-]; by split].
  unfold file_at, bind at 1, gets. rewrite Hp.
  destruct (w_files w !! path) as [n|] eqn:En; cbn [is_some]; [|intros [= <- <-]; by split].
  unfold _read_private_key, os_open, file_at, bind, gets. rewrite En.
  destruct (fn_kind n) eqn:Ek; cbn; try (destruct (fn_readable n) eqn:Er; cbn); unfold is_regular; rewrite ?Ek;
    cbn; try (intros [= <- <-]; by split).
  destruct (Z.eqb_spec (fn_mode n) mode_600); cbn; [|intros [= <- <-]; by split].
  unfold lift. destruct (load_pem _) as [[k|]|] eqn:El; intros [= <- <-]; (split; [done|]); try done.
  intros key [= ->]. by exists path, n.
Qed.

(** A persisted key is kept.  Outside production, when signing with
    persistence found no key file and created one, every later signature, on
    any state of the database, is made with the same key, and so carries the
    same key id. *)
Theorem persisted_key_is_reused envelope other persist w a w1 w2 :
  load_pem (private_pem (ed_generate (w_uuid w))) = Ok (Some (ed_generate (w_uuid w))) ->
  (Z.of_nat (String.length (private_pem (ed_generate (w_uuid w)))) <= 65536)%Z ->
  (forall k m, ed_verify (ed_public k) (ed_sign k m) m = true) ->
  _production = false ->
  (forall path, signing_key_path = Ok path -> w_files w !! path = None /\ path_parent path <> path) ->
  sign_attestation envelope true w = (Ok a, w1) ->
  w_files w2 = w_files w1 ->
  exists b, sign_attestation other persist w2 = (Ok b, w2) /\ dget "keyId" b = dget "keyId" a.
Proof.
  intros Hpem Hlen Hcorrect Hp Hpath E Hfiles. unfold sign_attestation in E. step_ok E as key w0 Hk.
  ok_cases E. injection E as <- <-.
  unfold load_or_create_signing_key, lift, bind at 1 in Hk.
  destruct signing_key_path as [path|e] eqn:Epath; [|discriminate Hk].
  destruct (Hpath path eq_refl) as [Hnone Hparent].
  unfold file_at, bind at 1, gets in Hk. rewrite Hp, Hnone in Hk. cbn [is_some] in Hk.
  unfold _write_new_key in Hk. step_ok Hk as k wk Hg. injection Hg as <- <-.
  step_ok Hk as [] wd Hd.
  assert (w_files wd !! path = None) as Hnone'.
  { unfold make_key_directory, file_at, bind, gets, set_file, modify in Hd. cbn in Hd.
    repeat case_match; simplify_eq; cbn; by rewrite lookup_insert_ne. }
  unfold file_at, bind, gets, set_file, modify in Hk. rewrite Hnone' in Hk. injection Hk as <- <-.
  cbn in Hfiles. exists (sign_with (ed_generate (w_uuid w)) other). split; [|reflexivity].
  unfold sign_attestation, bind at 1.
  rewrite (load_existing_key persist path (private_pem (ed_generate (w_uuid w))) (ed_generate (w_uuid w)) w2);
    [|done | by rewrite Hfiles, lookup_insert_eq | by rewrite read_upto_all].
  unfold verify_attestation, sign_with, b64_value. cbn [dget List.find fst snd String.eqb Ascii.eqb Bool.eqb fmap option_fmap option_map].
  rewrite !b64_roundtrip. cbn [py_str]. rewrite !String.eqb_refl. cbn [andb]. by rewrite Hcorrect.
Qed.
End Theorems.

Section Witnesses.
Import ReviewDemo.

Lemma production_never_creates_key_witness :
  exists w', @load_or_create_signing_key Demo.prod_runtime machine true world
             = (Raise (OtherError "RuntimeError: Production requires CAPMESH_SIGNING_KEY_FILE to reference an existing 0600 key."), w')
             /\ w' = world.
Proof.
  destruct (@load_or_create_signing_key Demo.prod_runtime machine true world) as [r w'] eqn:E.
  exists w'. split; [|by eapply (@production_never_creates_key Demo.prod_runtime machine true world r w')].
  injection E as <- <-. reflexivity.
Defined.

Lemma persisted_key_is_reused_witness :
  exists a w1 b, sign_attestation [("schema", JStr "x")] true world = (Ok a, w1) /\
    sign_attestation [("schema", JStr "y")] false w1 = (Ok b, w1) /\ dget "keyId" b = dget "keyId" a.
Proof.
  destruct (sign_attestation [("schema", JStr "x")] true world) as [r w1] eqn:E.
  assert (is_ok (sign_attestation [("schema", JStr "x")] true world).1 = true) as Hok by (vm_compute; reflexivity).
  rewrite E in Hok. destruct r as [a|e]; [|discriminate Hok].
  destruct (persisted_key_is_reused [("schema", JStr "x")] [("schema", JStr "y")] false world a w1 w1)
    as (b & Hb & Hid).
  - reflexivity.
  - vm_compute. discriminate.
  - intros k m. apply String.eqb_refl.
  - reflexivity.
  - intros path [= <-]. split; [reflexivity|]. vm_compute. discriminate.
  - exact E.
  - reflexivity.
  - exists a, w1, b. split; [reflexivity|]. split; [exact Hb | exact Hid].
Defined.
End Witnesses.
