(* ===== verification/PromotionProps.v ===== *)
(** * Promotion decisions

    What an approval guarantees about the gates, what a refusal leaves behind,
    and the state every decision leaves the request and the capability in. *)

From Stdlib Require Import ZArith Ascii String Lia.
From stdpp Require Import base option list strings gmap.
From S2P Require Import Prelude Sha256 PyStr Json Clock Db Models AccessControl AccessSpec AccessProps.
From S2P Require Import RegistryLog Stores Gates Signing SourceGates Catalog Promotions Reviews ReviewProps.
Local Open Scope string_scope.
Local Open Scope list_scope.

#[local] Opaque sha256_hex.

Section Frames.
Context `{!Runtime, !UnicodeData, !GateRunner}.

(** What a refused approval leaves alone: everything but the decision log and
    the recorded gates of requests. *)
Definition ungated_requests (d : DB) : list PromotionRow := upd pr_gates_json "" <$> db_promotion_requests d.
Definition ungated (w : World) : DB * list PromotionRow * DB * Z :=
  (upd db_policy_decisions [] (upd db_promotion_requests [] (w_db w)), ungated_requests (w_db w), w_disk w, w_clock w).

Lemma undecided_ungated {A} (m : Op A) : keeps undecided m -> keeps ungated m.
Proof.
  intros Hm w. specialize (Hm w). unfold same, undecided in Hm. unfold same, ungated, ungated_requests.
  pose proof (f_equal (fun u => upd db_promotion_requests [] u.1.1.1) Hm) as H1'.
  pose proof (f_equal (fun u => db_promotion_requests u.1.1.1) Hm) as H2'.
  pose proof (f_equal (fun u => u.1.1.2) Hm) as H3'. pose proof (f_equal (fun u => u.1.2) Hm) as H4'.
  cbn in H1', H2', H3', H4'. rewrite H2', H3', H4'. f_equal. f_equal. f_equal. exact H1'.
Qed.

Lemma regate_ungated id text :
  keeps ungated (update_rows db_promotion_requests (fun r => pr_id r =s id) (fun r => upd pr_gates_json text r)).
Proof.
  intros w. unfold same, ungated, ungated_requests. cbn. f_equal. f_equal. f_equal.
  unfold update_where. induction (db_promotion_requests (w_db w)) as [|r l IH]; [done|].
  cbn. rewrite IH. by destruct (pr_id r =s id).
Qed.

Lemma prepare_ungated p row payload : keeps ungated (prepare_approval p row payload).
Proof.
  unfold keeps, prepare_approval, run_gate_runner, check_pending, check_risk, check_injection, check_runner_failed.
  assert (forall payload', dget "dryRun" payload' = Some (JBool true) ->
    preserves (same ungated) (review_capability p payload')) as Hreview.
  { intros payload' Hdry. apply undecided_ungated, quiet_undecided. by apply review_dry_run. }
  solve_frame; try (by apply Hreview); try apply regate_ungated; by intros w.
Qed.

Lemma require_ungated p right cap res : keeps ungated (require_access p right cap res).
Proof. apply undecided_ungated, require_undecided. Qed.
End Frames.

(** ** What passing the gates of an approval means *)
Section Gates.
Context `{!Runtime, !UnicodeData, !GateRunner}.

Lemma check_pending_ok row payload v w w' :
  check_pending row payload v w = (Ok tt, w') ->
  w' = w /\ (has_pending v = true -> overridden payload = true /\ production_environment = false) /\
  (production_environment = true -> unmet_gates v = [] /\ security_verified (w_db w) (pr_capability_uri row) = true).
Proof.
  unfold check_pending. intros E. step_ok E as names w1 Hn. injection Hn as _ <-.
  destruct (has_pending v), (overridden payload), production_environment; cbn [andb negb] in E; try discriminate E.
  all: try (destruct (unmet_gates v); [|discriminate E]).
  all: try (step_ok E as secure w1 Hs; injection Hs as <- <-; destruct (security_verified _ _); [|discriminate E]).
  all: injection E as <-; by split_and!.
Qed.

Lemma check_risk_ok row payload gates w gates' w' :
  check_risk row payload gates w = (Ok gates', w') ->
  w' = w /\ (forall why, risk_gate (w_db w) row = Some (false, why) -> overridden payload = true).
Proof.
  unfold check_risk. intros E. step_ok E as risk w1 Hr. injection Hr as <- <-.
  destruct (risk_gate (w_db w) row) as [[ok why]|]; [|injection E as _ <-; by split].
  step_ok E as g w1 Hg. injection Hg as _ <-. destruct (negb ok && negb (overridden payload)) eqn:Ed; [discriminate E|].
  injection E as _ <-. split; [done|]. intros why' [= -> _]. by destruct (overridden payload).
Qed.

Lemma check_injection_ok row payload gates w gates' w' :
  check_injection row payload gates w = (Ok gates', w') ->
  w' = w /\
  (fst (evaluate_prompt_injection_scan (w_db w) (pr_capability_uri row) (pr_target_namespace_id row)) = "failed" ->
   overridden payload = true).
Proof.
  unfold check_injection. intros E. step_ok E as [state why] w1 Hr. injection Hr as Hr <-. rewrite Hr.
  step_ok E as g w1 Hg. injection Hg as _ <-. destruct ((state =s "failed") && _) eqn:Ed; [discriminate E|].
  injection E as _ <-. split; [done|]. cbn [fst]. intros ->. by destruct (overridden payload).
Qed.

Lemma check_runner_failed_ok failed payload w w' :
  check_runner_failed failed payload w = (Ok tt, w') -> w' = w /\ (failed <> [] -> overridden payload = true).
Proof.
  unfold check_runner_failed. destruct failed; [by intros [= <-]|]. destruct (overridden payload); [|discriminate].
  by intros [= <-].
Qed.

(** The facts an approval has established about the catalog. *)
Record cleared (d : DB) (row : PromotionRow) (payload : dict) (a : Approval) : Prop := {
  cl_risk why : risk_gate d row = Some (false, why) -> overridden payload = true;
  cl_scan : fst (evaluate_prompt_injection_scan d (pr_capability_uri row) (pr_target_namespace_id row)) = "failed" ->
            overridden payload = true;
  cl_production : production_environment = true -> security_verified d (pr_capability_uri row) = true;
  cl_marker : av_marker a <> None -> overridden payload = true /\ production_environment = false;
  cl_address : promoted_address d row = Ok (av_uri a, av_store a);
  cl_free : av_uri a = pr_capability_uri row \/ capability_by_uri d (av_uri a) = None
}.

Lemma ungated_db {A} (f : DB -> A) w w' :
  (forall d, f d = f (upd db_policy_decisions [] (upd db_promotion_requests [] d))) ->
  ungated w' = ungated w -> f (w_db w') = f (w_db w).
Proof.
  intros Hf Hu. rewrite (Hf (w_db w')), (Hf (w_db w)). exact (f_equal (fun u => f u.1.1.1) Hu).
Qed.

Lemma prepare_ok p row payload w a w' :
  prepare_approval p row payload w = (Ok a, w') ->
  ungated w' = ungated w /\ cleared (w_db w) row payload a.
Proof.
  intros E. pose proof (prepare_ungated p row payload w) as Hu. rewrite E in Hu. cbn [snd] in Hu.
  split; [exact Hu|]. unfold prepare_approval in E.
  step_ok E as v0 w1 Hv. injection Hv as _ <-. step_ok E as [v failed] w1 Hrun.
  step_ok E as [] w2 Hp. apply check_pending_ok in Hp as (-> & Hpend & Hprod).
  step_ok E as g1 w2 Hr. apply check_risk_ok in Hr as (-> & Hrisk).
  step_ok E as g2 w2 Hi. apply check_injection_ok in Hi as (-> & Hscan).
  step_ok E as [] w2 Hf. apply check_runner_failed_ok in Hf as (-> & _).
  step_ok E as [marker payload'] w2 Hm. injection Hm as Hm <-.
  step_ok E as address w2 Ha. injection Ha as <- <-. step_ok E as [uri store] w2 Ha. injection Ha as Ha <-.
  step_ok E as clash w2 Hc. injection Hc as <- <-.
  destruct (negb (uri =s _) && _) eqn:Ed; [discriminate E|]. injection E as <- <-.
  symmetry in Hu. constructor; cbn [av_marker av_uri av_store].
  - intros why. rewrite (ungated_db (fun d => risk_gate d row) _ _ (fun _ => eq_refl) Hu). apply Hrisk.
  - rewrite (ungated_db (fun d => fst (evaluate_prompt_injection_scan d (pr_capability_uri row) (pr_target_namespace_id row)))
               _ _ (fun _ => eq_refl) Hu). apply Hscan.
  - rewrite (ungated_db (fun d => security_verified d (pr_capability_uri row)) _ _ (fun _ => eq_refl) Hu).
    intros Hpe. by apply Hprod.
  - intros Hmark. apply Hpend. unfold override_marker in Hm. destruct (has_pending v); [done|].
    cbn [negb] in Hm. by injection Hm as <- _.
  - by rewrite (ungated_db (fun d => promoted_address d row) _ _ (fun _ => eq_refl) Hu).
  - rewrite (ungated_db (fun d => capability_by_uri d uri) _ _ (fun _ => eq_refl) Hu).
    destruct (uri =s pr_capability_uri row) eqn:Eu; [left; by apply String.eqb_eq|].
    right. by destruct (capability_by_uri (w_db w1) uri).
Qed.
End Gates.

(** ** What a decision writes *)
Section Writes.
Context `{!Runtime, !UnicodeData, !GateRunner}.

(** Everything but the logs, the generation digest and what is committed. *)
Definition catalog_core (w : World) : DB := upd db_meta [] (upd db_audit_events [] (upd db_registry_log [] (w_db w))).

Lemma finish_ok p tenant id decision st target payload w record w' :
  finish_decision p tenant id decision st target payload w = (Ok record, w') ->
  catalog_core w' = catalog_core w /\ w_disk w' = w_db w'.
Proof.
  intros E. assert (keeps catalog_core (finish_decision p tenant id decision st target payload)) as Hk.
  { unfold keeps, finish_decision. solve_frame. }
  split; [exact (keeps_run _ _ _ _ _ Hk E)|]. unfold finish_decision in E.
  step_ok E as g w1 Hg. step_ok E as ev w2 Hev. step_ok E as [] w3 Hc. injection Hc as <-.
  step_ok E as r w4 Hr. injection Hr as <- <-. injection E as _ <-. reflexivity.
Qed.

Lemma core_db {A} (f : DB -> A) w w' :
  (forall d, f d = f (upd db_meta [] (upd db_audit_events [] (upd db_registry_log [] d)))) ->
  catalog_core w' = catalog_core w -> f (w_db w') = f (w_db w).
Proof. intros Hf Hu. rewrite (Hf (w_db w')), (Hf (w_db w)). exact (f_equal f Hu). Qed.

(** The tables of an approval, as functions of the tables before it. *)
Definition decided_request (id st now : string) (r : PromotionRow) : PromotionRow :=
  if pr_id r =s id then upd pr_state st (upd pr_decided_at (Some now) r) else r.
Definition moved_tuple (tenant old new : string) (r : TupleRow) : TupleRow :=
  if (rt_tenant_id r =s tenant) && (rt_object r =s old) then upd rt_object new r else r.

Record approval_writes (d d' : DB) (tenant id now : string) (row : PromotionRow) (a : Approval) : Prop := {
  aw_capabilities : db_capabilities d' =
    update_where (fun r => cp_uri r =s pr_capability_uri row)
      (fun r => upd cp_uri (av_uri a) (approve_row row (av_store a) r)) (db_capabilities d);
  aw_sources : db_capability_sources d' =
    update_where (fun r => cs_uri r =s pr_capability_uri row) (fun r => upd cs_uri (av_uri a) r)
      (db_capability_sources d);
  aw_shares : db_shares d' =
    update_where (fun r => sh_capability_uri r =s pr_capability_uri row)
      (fun r => upd sh_capability_uri (av_uri a) r) (db_shares d);
  aw_tuples : db_relationship_tuples d' =
    (moved_tuple tenant (pr_capability_uri row) (av_uri a) <$> db_relationship_tuples d);
  aw_request : forall r, request_by_id d id = Some r ->
    exists r', request_by_id d' id = Some r' /\ pr_state r' = "approved" /\ pr_decided_at r' = Some now /\
      (av_uri a = pr_capability_uri row -> pr_capability_uri r' = pr_capability_uri r) /\
      (av_uri a <> pr_capability_uri row -> pr_capability_uri r' = av_uri a)
}.

Lemma update_where_id {A} (p : A -> bool) f (t : list A) :
  (forall r, p r = true -> f r = r) -> update_where p f t = t.
Proof.
  intros Hf. unfold update_where. induction t as [|r t IH]; [done|]. cbn. rewrite IH.
  destruct (p r) eqn:E; [by rewrite Hf|done].
Qed.

Lemma update_where_twice {A} (p : A -> bool) f g (t : list A) :
  (forall r, p r = true -> p (f r) = true) ->
  update_where p g (update_where p f t) = update_where p (fun r => g (f r)) t.
Proof.
  intros Hf. unfold update_where. rewrite map_map. apply map_ext. intros r.
  destruct (p r) eqn:E; [by rewrite (Hf r E)|by rewrite E].
Qed.

Lemma update_where_ext {A} (p : A -> bool) f g (t : list A) :
  (forall r, p r = true -> f r = g r) -> update_where p f t = update_where p g t.
Proof. intros Hf. apply map_ext. intros r. destruct (p r) eqn:E; auto. Qed.

Lemma update_where_fmap {A} (p : A -> bool) f (t : list A) :
  update_where p f t = (fun r => if p r then f r else r) <$> t.
Proof. done. Qed.

(** The address moves in every table, or the request fails on a clash of
    relationship tuples. *)
Lemma rename_ok tenant id old new w w' :
  rename_capability tenant id old new w = (Ok tt, w') ->
  let d := w_db w in
  db_capabilities (w_db w') = update_where (fun r => cp_uri r =s old) (fun r => upd cp_uri new r) (db_capabilities d) /\
  db_capability_sources (w_db w') = update_where (fun r => cs_uri r =s old) (fun r => upd cs_uri new r) (db_capability_sources d) /\
  db_shares (w_db w') = update_where (fun r => sh_capability_uri r =s old) (fun r => upd sh_capability_uri new r) (db_shares d) /\
  db_relationship_tuples (w_db w') = (moved_tuple tenant old new <$> db_relationship_tuples d) /\
  db_promotion_requests (w_db w') = update_where (fun r => pr_id r =s id) (fun r => upd pr_capability_uri new r) (db_promotion_requests d) /\
  w_clock w' = w_clock w.
Proof.
  unfold rename_capability. intros E. step_ok E as [] w1 G1. injection G1 as <-.
  step_ok E as [] w2 G2. injection G2 as <-. step_ok E as [] w3 G3. injection G3 as <-.
  step_ok E as [] w4 G4. injection G4 as <-. step_ok E as [] w5 G5. injection E as <-.
  unfold move_tuples in G5. step_ok G5 as tuples w6 G6. injection G6 as <- <-. ok_cases G5. injection G5 as <-.
  cbn. split_and!; reflexivity.
Qed.

Lemma write_approval_ok p tenant id row a w w' :
  write_approval p tenant id row a w = (Ok tt, w') ->
  let d := w_db w in let old := pr_capability_uri row in
  db_capabilities (w_db w') = update_where (fun r => cp_uri r =s old)
    (fun r => upd cp_uri (av_uri a) (approve_row row (av_store a) r)) (db_capabilities d) /\
  db_capability_sources (w_db w') = update_where (fun r => cs_uri r =s old) (fun r => upd cs_uri (av_uri a) r) (db_capability_sources d) /\
  db_shares (w_db w') = update_where (fun r => sh_capability_uri r =s old) (fun r => upd sh_capability_uri (av_uri a) r) (db_shares d) /\
  db_relationship_tuples (w_db w') = (moved_tuple tenant old (av_uri a) <$> db_relationship_tuples d) /\
  db_promotion_requests (w_db w') =
    (if av_uri a =s old then db_promotion_requests d
     else update_where (fun r => pr_id r =s id) (fun r => upd pr_capability_uri (av_uri a) r) (db_promotion_requests d)).
Proof.
  unfold write_approval. intros E. step_ok E as [] w1 G1.
  assert (unlogged w1 = unlogged w) as Hu.
  { destruct (av_marker a); [|by injection G1 as <-].
    assert (forall ev t ac de re pl, keeps unlogged (let! _ := audit_event ev (p_subject p) t ac de re pl tenant "user" in ret tt)) as Hk.
    { intros. unfold keeps. apply preserves_bind; [exact _ | apply audit_event_unlogged | by intros ? ?]. }
    exact (keeps_run _ _ _ _ _ (Hk _ _ _ _ _ _) G1). }
  pose proof (f_equal (fun u => db_capabilities u.1.1.1) Hu) as U1.
  pose proof (f_equal (fun u => db_capability_sources u.1.1.1) Hu) as U2.
  pose proof (f_equal (fun u => db_shares u.1.1.1) Hu) as U3.
  pose proof (f_equal (fun u => db_relationship_tuples u.1.1.1) Hu) as U4.
  pose proof (f_equal (fun u => db_promotion_requests u.1.1.1) Hu) as U5.
  cbn in U1, U2, U3, U4, U5. cbv zeta. rewrite <-U1, <-U2, <-U3, <-U4, <-U5. clear Hu U1 U2 U3 U4 U5 G1.
  step_ok E as [] w2 G2.
  assert (db_capabilities (w_db w2) = update_where (fun r => cp_uri r =s pr_capability_uri row) (approve_row row (av_store a)) (db_capabilities (w_db w1)) /\
    db_capability_sources (w_db w2) = db_capability_sources (w_db w1) /\ db_shares (w_db w2) = db_shares (w_db w1) /\
    db_relationship_tuples (w_db w2) = db_relationship_tuples (w_db w1) /\ db_promotion_requests (w_db w2) = db_promotion_requests (w_db w1))
    as (V1 & V2 & V3 & V4 & V5) by (injection G2 as <-; by split_and!).
  clear G2. rewrite <-V2, <-V3, <-V4, <-V5.
  destruct (av_uri a =s pr_capability_uri row) eqn:Eu; cbn [negb when] in E.
  - apply String.eqb_eq in Eu. injection E as <-. rewrite Eu, V1. split_and!; try reflexivity.
    + apply update_where_ext. intros r <-%String.eqb_eq. reflexivity.
    + symmetry. apply update_where_id. intros r Hr%String.eqb_eq. rewrite <-Hr. by destruct r.
    + symmetry. apply update_where_id. intros r Hr%String.eqb_eq. rewrite <-Hr. by destruct r.
    + symmetry. apply (update_where_id (fun r => (rt_tenant_id r =s tenant) && (rt_object r =s _))).
      intros r [_ Hr%String.eqb_eq]%andb_true_iff. rewrite <-Hr. by destruct r.
  - apply rename_ok in E as (R1 & R2 & R3 & R4 & R5 & _). rewrite V1 in R1.
    rewrite R1, R2, R3, R4, R5. split_and!; try reflexivity.
    refine (update_where_twice _ _ _ _ _). intros r Hr. exact Hr.
Qed.
End Writes.

(** ** The runs of [approve_request] *)
Section Runs.
Context `{!Runtime, !UnicodeData, !GateRunner}.

Definition decision_of (payload : dict) : string := str_get payload "decision" "approve".
Definition request_of (payload : dict) : string := str_get2 payload "requestId" "id" "".
Definition tenant_request (d : DB) (p : Principal) (payload : dict) : option PromotionRow :=
  fetchone (fun r => (pr_id r =s request_of payload) && (pr_tenant_id r =s tenant_of p)) (db_promotion_requests d).

Lemma fetchone_fmap {A} (p : A -> bool) (f : A -> A) l :
  (forall x, p (f x) = p x) -> fetchone p (f <$> l) = f <$> fetchone p l.
Proof.
  intros Hp. induction l as [|x l IH]; [done|]. cbn. rewrite Hp. destruct (p x); [done | exact IH].
Qed.

(** The request survives the gates: only its recorded gates may differ. *)
Lemma ungated_request w w' id r :
  ungated w' = ungated w -> request_by_id (w_db w) id = Some r ->
  exists r', request_by_id (w_db w') id = Some r' /\ pr_capability_uri r' = pr_capability_uri r.
Proof.
  intros Hu Hr. pose proof (f_equal (fun u => u.1.1.2) Hu) as Hl. cbn in Hl. unfold ungated_requests in Hl.
  assert (forall l, fetchone (fun r => pr_id r =s id) (upd pr_gates_json "" <$> l)
                    = upd pr_gates_json "" <$> fetchone (fun r => pr_id r =s id) l) as Hf
    by (intros l; by apply fetchone_fmap).
  pose proof (f_equal (fetchone (fun r => pr_id r =s id)) Hl) as He. rewrite !Hf in He.
  unfold request_by_id in *. rewrite Hr in He.
  destruct (fetchone _ (db_promotion_requests (w_db w'))) as [r'|]; [|discriminate He].
  exists r'. split; [done|]. cbn in He.
  exact (f_equal (fun o => match o with Some x => pr_capability_uri x | None => "" end) He).
Qed.

(** The runs that decide to approve and succeed. *)
Lemma approve_ok p payload w record w' :
  decision_of payload = "approve" ->
  approve_request p payload w = (Ok record, w') ->
  exists row a now, tenant_request (w_db w) p payload = Some row /\
    cleared (w_db w) row payload a /\
    approval_writes (w_db w) (w_db w') (tenant_of p) (request_of payload) now row a /\
    w_disk w' = w_db w'.
Proof.
  unfold decision_of. intros Hd E. unfold approve_request in E. cbv zeta in E. rewrite Hd in E.
  cbn [List.find NEW_STATES fst String.eqb Ascii.eqb Bool.eqb] in E.
  step_ok E as [] w1 Ha. apply (keeps_run _ _ _ _ _ (require_ungated p _ _ _)) in Ha as Hu1.
  step_ok E as row w2 Hrow.
  assert (w2 = w1 /\ row = tenant_request (w_db w) p payload) as [-> ->].
  { injection Hrow as <- <-. split; [done|].
    apply (keeps_run _ _ _ _ _ (require_undecided p _ _ _)) in Ha.
    exact (f_equal (fun u => fetchone (fun r => (pr_id r =s request_of payload) && (pr_tenant_id r =s tenant_of p))
                              (db_promotion_requests u.1.1.1)) Ha). }
  destruct (tenant_request (w_db w) p payload) as [row|] eqn:Er; [|discriminate E].
  step_ok E as a w3 Hprep. apply prepare_ok in Hprep as [Hu3 Hc].
  assert (cleared (w_db w) row payload a) as Hclear.
  { destruct Hc as [C1 C2 C3 C4 C5 C6]. constructor; try done.
    - intros why. rewrite <-(ungated_db (fun d => risk_gate d row) _ _ (fun _ => eq_refl) Hu1). apply C1.
    - rewrite <-(ungated_db (fun d => fst (evaluate_prompt_injection_scan d (pr_capability_uri row) (pr_target_namespace_id row)))
                   _ _ (fun _ => eq_refl) Hu1). exact C2.
    - rewrite <-(ungated_db (fun d => security_verified d (pr_capability_uri row)) _ _ (fun _ => eq_refl) Hu1). exact C3.
    - by rewrite <-(ungated_db (fun d => promoted_address d row) _ _ (fun _ => eq_refl) Hu1).
    - by rewrite <-(ungated_db (fun d => capability_by_uri d (av_uri a)) _ _ (fun _ => eq_refl) Hu1). }
  assert (ungated w3 = ungated w) as Hu by congruence. clear Hu1 Hu3 Hc.
  step_ok E as [] w4 Hg. assert (ungated w4 = ungated w) as Hu4.
  { rewrite <-Hu. destruct (py_truthy (av_gates a)); [|by injection Hg as <-].
    exact (keeps_run _ _ _ _ _ (regate_ungated _ _) Hg). }
  step_ok E as [] w5 Hw. step_ok E as [] w6 Happ. apply write_approval_ok in Happ as (P1 & P2 & P3 & P4 & P5).
  apply finish_ok in E as [Hcore Hdisk].
  exists row, a, (sql_text_now (w_clock w4)). split; [done|]. split; [exact Hclear|]. split; [|exact Hdisk].
  injection Hw as <-.
  constructor.
  - rewrite (core_db db_capabilities _ _ (fun _ => eq_refl) Hcore), P1. cbn.
    by rewrite (ungated_db db_capabilities _ _ (fun _ => eq_refl) Hu4).
  - rewrite (core_db db_capability_sources _ _ (fun _ => eq_refl) Hcore), P2. cbn.
    by rewrite (ungated_db db_capability_sources _ _ (fun _ => eq_refl) Hu4).
  - rewrite (core_db db_shares _ _ (fun _ => eq_refl) Hcore), P3. cbn.
    by rewrite (ungated_db db_shares _ _ (fun _ => eq_refl) Hu4).
  - rewrite (core_db db_relationship_tuples _ _ (fun _ => eq_refl) Hcore), P4. cbn.
    by rewrite (ungated_db db_relationship_tuples _ _ (fun _ => eq_refl) Hu4).
  - intros r Hr. destruct (ungated_request _ _ _ _ Hu4 Hr) as (r4 & Hr4 & Huri).
    unfold request_by_id in *.
    rewrite (core_db db_promotion_requests _ _ (fun _ => eq_refl) Hcore), P5.
    apply fetchone_some in Hr4 as Hid. destruct Hid as [_ Hid]. cbn -[update_where fetchone request_of].
    destruct (av_uri a =s pr_capability_uri row) eqn:Eu.
    + apply String.eqb_eq in Eu. rewrite fetchone_update_where by done. rewrite Hr4. cbn -[request_of]. fold (request_of payload). rewrite !Hid.
      eexists. split; [reflexivity|]. cbn. split_and!; try done.
    + apply String.eqb_neq in Eu. rewrite !fetchone_update_where by done. rewrite Hr4. cbn -[request_of]. fold (request_of payload). rewrite !Hid.
      eexists. split; [reflexivity|]. cbn. rewrite ?Hid. cbn. split_and!; try done; intros; congruence.
Qed.
End Runs.

(** ** Refusals *)
Definition refusing (e : exn) : bool := match e with ValueError _ | PermissionError _ => true | _ => false end.

Section Refusals.
Context `{!Runtime, !UnicodeData, !GateRunner}.

(** Operations that may fail, but not with a refusal. *)
Definition unrefused {A} (m : Op A) : Prop := forall w e w', m w = (Raise e, w') -> refusing e = false.

Lemma unrefused_bind {A B} (m : Op A) (k : A -> Op B) :
  unrefused m -> (forall a, unrefused (k a)) -> unrefused (bind m k).
Proof. intros Hm Hk w e w' [E|(a & w1 & _ & E)]%bind_raise_inv; [by eapply Hm | by eapply Hk]. Qed.

Lemma unrefused_audit ev a t ac de re pl tn ty : unrefused (audit_event ev a t ac de re pl tn ty).
Proof.
  intros w e w' E. destruct (audit_event_ok ev a t ac de re pl tn ty w) as (id & w1 & E1). by rewrite E1 in E.
Qed.

Lemma unrefused_finish p tenant id decision st target payload :
  unrefused (finish_decision p tenant id decision st target payload).
Proof.
  unfold finish_decision. apply unrefused_bind; [by intros w e w'|]. intros g.
  apply unrefused_bind; [apply unrefused_audit|]. intros ev.
  apply unrefused_bind; [by intros w e w'|]. intros [].
  apply unrefused_bind; [by intros w e w'|]. intros [r|] w e w'; [done|]. by intros [= <- _].
Qed.

Lemma unrefused_write_approval p tenant id row a : unrefused (write_approval p tenant id row a).
Proof.
  unfold write_approval. apply unrefused_bind.
  { destruct (av_marker a); [|by intros w e w']. apply unrefused_bind; [apply unrefused_audit | by intros ? w e w']. }
  intros []. apply unrefused_bind; [by intros w e w'|]. intros [].
  destruct (negb _); cbn [when]; [|by intros w e w']. unfold rename_capability.
  do 3 (apply unrefused_bind; [by intros w e w'|]; intros []).
  apply unrefused_bind; [by intros w e w'|]. intros [].
  apply unrefused_bind; [|by intros [] w e w'].
  intros w e w'. unfold move_tuples, bind at 1, query, gets. case_match; [by intros [= <- _] | done].
Qed.

Lemma unrefused_when_gates b id text :
  unrefused (when b (update_rows db_promotion_requests (fun r => pr_id r =s id) (fun r => upd pr_gates_json text r))).
Proof. by destruct b; intros w e w'. Qed.

Lemma refused_ungated p payload w e w' :
  approve_request p payload w = (Raise e, w') -> refusing e = true -> ungated w' = ungated w.
Proof.
  intros E He. unfold approve_request in E. cbv zeta in E.
  destruct (List.find _ NEW_STATES) as [[decision st]|]; [|by injection E as _ <-].
  apply bind_raise_inv in E as [E|([] & w1 & E1 & E)];
    [exact (keeps_run _ _ _ _ _ (require_ungated p _ _ _) E)|].
  apply (keeps_run _ _ _ _ _ (require_ungated p _ _ _)) in E1.
  apply bind_raise_inv in E as [E|(row & w2 & E2 & E)]; [discriminate E|]. injection E2 as _ <-.
  destruct row as [row|]; [|by injection E as _ <-].
  assert (forall A (m : Op A) u, unrefused m -> m u = (Raise e, w') -> False) as Hno.
  { intros A m u Hm Eu. rewrite (Hm _ _ _ Eu) in He. discriminate He. }
  destruct (_ =s "approve").
  - apply bind_raise_inv in E as [E|(a & w3 & E3 & E)];
      [rewrite <-E1; exact (keeps_run _ _ _ _ _ (prepare_ungated p row payload) E)|].
    exfalso. revert E. apply Hno.
    apply unrefused_bind; [apply unrefused_when_gates | intros []].
    apply unrefused_bind; [by intros u e' u' | intros []].
    apply unrefused_bind; [apply unrefused_write_approval | intros []]. apply unrefused_finish.
  - exfalso. revert E. apply Hno.
    apply unrefused_bind; [by intros u e' u' | intros []].
    apply unrefused_bind; [by intros u e' u' | intros []]. apply unrefused_finish.
Qed.
End Refusals.

Section Theorems.
Context `{!Runtime, !UnicodeData, !GateRunner}.

(** C9: a refused decision changes nothing but evidence.  When
    [approve_request] refuses (a ValueError or a PermissionError, for any
    reason), every table but the decision log is as it was, except that the
    recorded gates of requests may have been brought up to date; in particular
    the request keeps its state, the capability its address and its states, and
    nothing has been committed. *)
Theorem refused_decision_changes_nothing p payload w e w' :
  approve_request p payload w = (Raise e, w') -> refusing e = true ->
  (forall ds rs, upd db_policy_decisions ds (upd db_promotion_requests rs (w_db w'))
                 = upd db_policy_decisions ds (upd db_promotion_requests rs (w_db w))) /\
  (upd pr_gates_json "" <$> db_promotion_requests (w_db w')) = (upd pr_gates_json "" <$> db_promotion_requests (w_db w)) /\
  w_disk w' = w_disk w.
Proof.
  intros E He. pose proof (refused_ungated p payload w e w' E He) as Hu. split_and!.
  - intros ds rs.
    pose proof (f_equal (fun u => upd db_policy_decisions ds (upd db_promotion_requests rs u.1.1.1)) Hu) as G.
    etrans; [|etrans; [exact G|]]; reflexivity.
  - exact (f_equal (fun u => u.1.1.2) Hu).
  - exact (f_equal (fun u => u.1.2) Hu).
Qed.

(** C3: an approval has passed its gates.  When [approve_request] approves, the
    request exists in the approver's tenant and, on the database before the
    call: unless the approver asked to override, the risk policy does not
    refuse the capability for the target store and the scan found nothing that
    blocks; in production the signature and the provenance of the capability
    are verified and its risk approved, whatever was overridden; and the
    promoted address was free or is the capability's own. *)
Theorem approval_passed_gates p payload w record w' :
  decision_of payload = "approve" ->
  approve_request p payload w = (Ok record, w') ->
  exists row uri store, tenant_request (w_db w) p payload = Some row /\
    (overridden payload = false ->
       (forall why, risk_gate (w_db w) row <> Some (false, why)) /\
       fst (evaluate_prompt_injection_scan (w_db w) (pr_capability_uri row) (pr_target_namespace_id row)) <> "failed") /\
    (production_environment = true -> security_verified (w_db w) (pr_capability_uri row) = true) /\
    promoted_address (w_db w) row = Ok (uri, store) /\
    (uri = pr_capability_uri row \/ capability_by_uri (w_db w) uri = None).
Proof.
  intros Hd E. destruct (approve_ok p payload w record w' Hd E) as (row & a & now & Hrow & [C1 C2 C3 _ C5 C6] & _ & _).
  exists row, (av_uri a), (av_store a). split; [done|]. split_and!; try done. intros Ho. split.
  - intros why Hr. rewrite (C1 why Hr) in Ho. discriminate Ho.
  - intros Hs. rewrite (C2 Hs) in Ho. discriminate Ho.
Qed.

(** C14: an approval moves the capability consistently and durably.  All rows of
    the capability get the promoted address, the target store and namespace
    and the approved state; its sources and its shares, each and as it was, and
    the tenant's relationship tuples on it get the new address, so that none is
    left at the old address of a capability that moved and none is lost; the
    request is approved and names the address of the capability; and all of it
    is committed. *)
Theorem approval_moves_capability p payload w record w' :
  decision_of payload = "approve" ->
  approve_request p payload w = (Ok record, w') ->
  exists row uri store now, tenant_request (w_db w) p payload = Some row /\
    promoted_address (w_db w) row = Ok (uri, store) /\
    (db_capabilities (w_db w') = update_where (fun r => cp_uri r =s pr_capability_uri row)
       (fun r => upd cp_uri uri (approve_row row store r)) (db_capabilities (w_db w))) /\
    db_capability_sources (w_db w') = update_where (fun r => cs_uri r =s pr_capability_uri row)
       (fun r => upd cs_uri uri r) (db_capability_sources (w_db w)) /\
    db_shares (w_db w') = update_where (fun r => sh_capability_uri r =s pr_capability_uri row)
       (fun r => upd sh_capability_uri uri r) (db_shares (w_db w)) /\
    db_relationship_tuples (w_db w') = (moved_tuple (tenant_of p) (pr_capability_uri row) uri <$> db_relationship_tuples (w_db w)) /\
    (uri <> pr_capability_uri row ->
       capability_by_uri (w_db w') (pr_capability_uri row) = None /\
       (forall s, s ∈ db_shares (w_db w') -> sh_capability_uri s <> pr_capability_uri row) /\
       (forall s, s ∈ db_capability_sources (w_db w') -> cs_uri s <> pr_capability_uri row) /\
       (forall t, t ∈ db_relationship_tuples (w_db w') -> rt_tenant_id t = tenant_of p ->
          rt_object t <> pr_capability_uri row)) /\
    (exists r r', request_by_id (w_db w) (request_of payload) = Some r /\ request_by_id (w_db w') (request_of payload) = Some r' /\
       pr_state r' = "approved" /\ pr_decided_at r' = Some now /\
       pr_capability_uri r' = (if uri =s pr_capability_uri row then pr_capability_uri r else uri)) /\
    w_disk w' = w_db w'.
Proof.
  intros Hd E. destruct (approve_ok p payload w record w' Hd E) as (row & a & now & Hrow & [_ _ _ _ C5 _] & Hw & Hdisk).
  destruct Hw as [W1 W2 W3 W4 W5]. exists row, (av_uri a), (av_store a), now. split_and!; try done.
  - intros Hne. apply String.eqb_neq in Hne. split_and!.
    + apply fetchone_none. rewrite W1. intros r (r0 & _ & ->)%elem_of_update_where.
      destruct (cp_uri r0 =s pr_capability_uri row) eqn:E0; [exact Hne | exact E0].
    + rewrite W3. intros s (s0 & _ & ->)%elem_of_update_where.
      destruct (sh_capability_uri s0 =s pr_capability_uri row) eqn:E0; apply String.eqb_neq; [exact Hne | exact E0].
    + rewrite W2. intros s (s0 & _ & ->)%elem_of_update_where.
      destruct (cs_uri s0 =s pr_capability_uri row) eqn:E0; apply String.eqb_neq; [exact Hne | exact E0].
    + rewrite W4. intros t (t0 & -> & _)%list_elem_of_fmap Ht. unfold moved_tuple in *.
      destruct (rt_tenant_id t0 =s tenant_of p) eqn:Et; cbn [andb] in *.
      2: { apply String.eqb_neq in Et. done. }
      destruct (rt_object t0 =s pr_capability_uri row) eqn:E0; apply String.eqb_neq; [exact Hne | exact E0].
  - assert (exists r, request_by_id (w_db w) (request_of payload) = Some r) as [r Hr].
    { apply fetchone_some in Hrow as [Hin [Hid _]%andb_true_iff].
      destruct (fetchone_is_some (fun r => pr_id r =s request_of payload) _ _ Hin Hid) as [r Hr]. by exists r. }
    destruct (W5 r Hr) as (r' & ? & ? & ? & Hsame & Hmoved). exists r, r'. split_and!; try done.
    destruct (String.eqb_spec (av_uri a) (pr_capability_uri row)); auto.
Qed.
(** A negative decision takes effect at once.  After a successful reject,
    recall, demote or yank, the request and every row of its capability have
    the decided state, all of it is committed, and from then on the capability
    is refused to every principal (a platform administrator included) for
    every right. *)
Theorem negative_decision_blocks p payload w record w' st :
  decision_of payload <> "approve" ->
  (decision_of payload, st) ∈ NEW_STATES ->
  approve_request p payload w = (Ok record, w') ->
  exists row, tenant_request (w_db w) p payload = Some row /\
    db_capabilities (w_db w') = update_where (fun r => cp_uri r =s pr_capability_uri row)
      (fun r => upd cp_approval_state st r) (db_capabilities (w_db w)) /\
    (exists r', request_by_id (w_db w') (request_of payload) = Some r' /\ pr_state r' = st) /\
    w_disk w' = w_db w' /\
    (forall r c u q right res audit, r ∈ db_capabilities (w_db w') -> cp_uri r = pr_capability_uri row ->
       capability_from_row r = Ok c -> w_db u = w_db w' -> right ∈ RIGHTS ->
       exists why, (evaluate_access q right (Some c) res audit u).1 = Ok (false, Some why)).
Proof.
  intros Hne Hst E. unfold approve_request in E. cbv zeta in E. fold (decision_of payload) in E.
  fold (request_of payload) in E. apply String.eqb_neq in Hne.
  assert (List.find (fun kv => fst kv =s decision_of payload) NEW_STATES = Some (decision_of payload, st)
          /\ smem st BLOCKED_STATES = true) as [Hf Hblk].
  { unfold NEW_STATES in *. rewrite !elem_of_cons, elem_of_nil in Hst. revert Hst Hne.
    generalize (decision_of payload). intros d Hst Hne.
    destruct Hst as [[= -> ->]|[[= -> ->]|[[= -> ->]|[[= -> ->]|[[= -> ->]|[]]]]]]; [discriminate Hne|by split..]. }
  rewrite Hf in E. rewrite Hne in E.
  step_ok E as [] w1 Ha. apply (keeps_run _ _ _ _ _ (require_undecided p _ _ _)) in Ha.
  step_ok E as row w2 Hrow. injection Hrow as Hrow <-.
  assert (row = tenant_request (w_db w) p payload) as ->.
  { rewrite <-Hrow. exact (f_equal (fun u => fetchone (fun r => (pr_id r =s request_of payload) && (pr_tenant_id r =s tenant_of p))
                              (db_promotion_requests u.1.1.1)) Ha). }
  clear Hrow. destruct (tenant_request (w_db w) p payload) as [row|] eqn:Er; [|discriminate E].
  step_ok E as [] w3 Hw. injection Hw as <-. step_ok E as [] w4 Hc. injection Hc as <-.
  apply finish_ok in E as [Hcore Hdisk].
  pose proof (core_db db_capabilities _ _ (fun _ => eq_refl) Hcore) as Hcaps.
  pose proof (core_db db_promotion_requests _ _ (fun _ => eq_refl) Hcore) as Hreq. cbn in Hcaps, Hreq.
  pose proof (f_equal (fun u => db_capabilities u.1.1.1) Ha) as Hcaps1.
  pose proof (f_equal (fun u => db_promotion_requests u.1.1.1) Ha) as Hreq1. cbn in Hcaps1, Hreq1.
  rewrite Hcaps1 in Hcaps. rewrite Hreq1 in Hreq.
  exists row. split; [done|]. split; [exact Hcaps|]. split.
  { apply fetchone_some in Er as [Hin [Hid _]%andb_true_iff].
    destruct (fetchone_is_some (fun r => pr_id r =s request_of payload) _ _ Hin Hid) as [r Hr].
    unfold request_by_id. rewrite Hreq. setoid_rewrite fetchone_update_where; [|done]. rewrite Hr.
    apply fetchone_some in Hr as [_ Hr]. cbn -[request_of]. rewrite Hr. by eexists. }
  split; [exact Hdisk|]. intros r c u q right res audit Hin Huri Hfrom _ Hright.
  apply blocked_denied; [|done]. apply capability_from_row_ok in Hfrom as (_ & _ & _ & _ & _ & Hstate & _).
  unfold blocked. rewrite Hstate. rewrite Hcaps in Hin. apply elem_of_update_where in Hin as (r0 & _ & ->).
  destruct (cp_uri r0 =s pr_capability_uri row) eqn:E0; [cbn [cp_approval_state upd]; by rewrite Hblk|].
  apply String.eqb_neq in E0. done.
Qed.

(** Submitters do not author their gates.  A successful submission appends
    one pending request for the submitter's capability whose recorded gates are
    the seven default ones, all pending, whatever the payload says; its target
    is an active namespace of an organization's or everyone's store in the
    tenant; the capability waits for approval; and all of it is committed. *)
Theorem submission_starts_pending p payload w record w' :
  submit_promotion p payload w = (Ok record, w') ->
  exists r, db_promotion_requests (w_db w') = db_promotion_requests (w_db w) ++ [r] /\
    pr_state r = "pending" /\ pr_requested_by r = Some (p_subject p) /\ pr_tenant_id r = tenant_of p /\
    pr_gates_json r = json_dumps (JObj ((fun kv => (kv.1, JStr kv.2)) <$> default_promotion_gates)) /\
    (exists target n s, pr_target_namespace_id r = Some target /\
       promotion_target (w_db w) target (tenant_of p) = Some (n, s) /\
       st_kind s ∈ ["org"; "all_users"] /\ ns_lifecycle n = "active" /\ st_disabled_at s = None) /\
    (forall c, c ∈ db_capabilities (w_db w') -> cp_uri c = pr_capability_uri r -> cp_approval_state c = "pending") /\
    w_disk w' = w_db w'.
Proof.
  intros E. unfold submit_promotion in E. cbv zeta in E. ok_cases E.
  step_ok E as row w1 Hrow. injection Hrow as Hrow <-. destruct row as [row|]; [|discriminate E].
  step_ok E as c w1 Hc. injection Hc as Hc <-.
  step_ok E as [] w1 Ha. apply (keeps_run _ _ _ _ _ (require_undecided p _ _ _)) in Ha.
  step_ok E as target w2 Ht. injection Ht as Ht <-. step_ok E as [] w2 Hok. injection Hok as Hok <-.
  rewrite Hok in Ht. clear Hok target.
  assert (check_target (w_db w) (str_get payload "targetNamespaceId" "") (tenant_of p) = Ok tt) as Htarget.
  { rewrite <-Ht. symmetry.
    exact (f_equal (fun u => check_target u.1.1.1 (str_get payload "targetNamespaceId" "") (tenant_of p)) Ha). }
  clear Ht. step_ok E as id w2 Hid. injection Hid as _ <-. step_ok E as gates w2 Hg. injection Hg as Hg <-.
  step_ok E as now w2 Hn. injection Hn as _ <-. step_ok E as [] w2 Hi. injection Hi as <-.
  step_ok E as ap w2 Hid. injection Hid as _ <-. step_ok E as [] w2 Hi. injection Hi as <-.
  step_ok E as [] w2 Hi. injection Hi as <-. step_ok E as g w2 Hi. injection Hi as _ <-.
  step_ok E as ev w2 Hev. apply (keeps_run _ _ _ _ _ (audit_event_unlogged _ _ _ _ _ _ _ _ _)) in Hev.
  step_ok E as [] w3 Hk. injection Hk as <-. step_ok E as r w3 Hr. injection Hr as _ <-. injection E as _ <-.
  pose proof (f_equal (fun u => db_promotion_requests u.1.1.1) Hev) as Hreq.
  pose proof (f_equal (fun u => db_capabilities u.1.1.1) Hev) as Hcaps. cbn -[str_get str_get2] in Hreq, Hcaps.
  pose proof (f_equal (fun u => db_promotion_requests u.1.1.1) Ha) as Hreq1. cbn in Hreq1.
  cbn -[update_where str_get str_get2]. rewrite Hreq, Hcaps, Hreq1. eexists. split; [reflexivity|]. cbn -[str_get str_get2 update_where].
  split_and!; try reflexivity.
  - f_equal. f_equal. rewrite <-Hg. unfold initial_gates. by destruct (_ =s "all_users").
  - unfold check_target in Htarget. destruct (promotion_target _ _ _) as [[n s]|] eqn:Ep; [|discriminate Htarget].
    exists (str_get payload "targetNamespaceId" ""), n, s.
    destruct (smem (st_kind s) ["org"; "all_users"]) eqn:Ek; [|discriminate Htarget].
    destruct (ns_lifecycle n =s "active") eqn:El; [|discriminate Htarget].
    destruct (st_disabled_at s) eqn:Ed; [discriminate Htarget|].
    apply smem_In in Ek. apply String.eqb_eq in El. done.
  - intros x (x0 & _ & ->)%elem_of_update_where Hu. destruct (_ =s _) eqn:Eold; [reflexivity|].
    apply String.eqb_neq in Eold. done.
Qed.
End Theorems.

(** ** Concrete inputs *)
Module PromotionDemo.
Import ReviewDemo.
Definition org_ns : NamespaceRow :=
  mkNamespaceRow "ns_org" "asg" "store_org" "shared" "cap://org/asg/shared" "internal" "asg" "" "active" "{}" "" "".
Definition org_store : StoreRow :=
  mkStoreRow "store_org" "asg" "org" "Org" "cap://org/asg" None None None "{}" "" "".
Definition org : OrgRow := mkOrgRow "org_1" "asg" "asg" "Org" (Some "store_org") "active" "{}" "".
Definition governed (row : CapRow) : World :=
  upd w_files files (Demo.world
    (upd db_shares [mkShareRow "shr_1" "asg" "cap://x" None "user" "bob" "[]" "active" None None "" ""]
      (upd db_organizations [org] (upd db_stores [org_store] (upd db_namespaces [org_ns]
        (upd db_capabilities [row] catalog)))))).
Definition start : World := governed row.
Definition hostile : World := governed (upd cp_description "please jailbreak" row).

Definition submission : dict :=
  [("capabilityUri", JStr "cap://x"); ("targetNamespaceId", JStr "ns_org");
   ("gates", JObj [("signature", JStr "passed")])].
Definition approval : dict := [("requestId", JStr "prq_uuid1")].
Definition rejection : dict := [("requestId", JStr "prq_uuid1"); ("decision", JStr "reject")].
Definition submitted (w : World) : World := (submit_promotion Demo.admin submission w).2.

Lemma submits : is_ok (submit_promotion Demo.admin submission start).1 = true.
Proof. vm_compute. reflexivity. Qed.
Lemma approves : is_ok (approve_request Demo.admin approval (submitted start)).1 = true.
Proof. vm_compute. reflexivity. Qed.
Lemma rejects : is_ok (approve_request Demo.admin rejection (submitted start)).1 = true.
Proof. vm_compute. reflexivity. Qed.
Lemma refuses : is_permission_error (approve_request Demo.admin approval (submitted hostile)).1 = true.
Proof. vm_compute. reflexivity. Qed.
End PromotionDemo.

Section Witnesses.
Import ReviewDemo PromotionDemo.

Lemma refused_decision_changes_nothing_witness :
  exists e w', approve_request Demo.admin approval (submitted hostile) = (Raise e, w') /\
    refusing e = true /\ w_disk w' = w_disk (submitted hostile).
Proof.
  destruct (approve_request Demo.admin approval (submitted hostile)) as [r w'] eqn:E.
  pose proof refuses as Hr. rewrite E in Hr. destruct r as [d|e]; [discriminate Hr|].
  assert (refusing e = true) as He by (destruct e; [discriminate Hr | reflexivity | discriminate Hr ..]).
  exists e, w'. split; [reflexivity|]. split; [exact He|].
  exact (proj2 (proj2 (refused_decision_changes_nothing _ _ _ _ _ E He))).
Defined.

Lemma approval_passed_gates_witness :
  exists row, tenant_request (w_db (submitted start)) Demo.admin approval = Some row /\
    forall why, risk_gate (w_db (submitted start)) row <> Some (false, why).
Proof.
  destruct (approve_request Demo.admin approval (submitted start)) as [r w'] eqn:E.
  pose proof PromotionDemo.approves as Hr. rewrite E in Hr. destruct r as [d|e]; [|discriminate Hr].
  destruct (approval_passed_gates Demo.admin approval _ _ _ eq_refl E) as (row & uri & store & Hrow & Ho & _).
  exists row. split; [exact Hrow|]. exact (proj1 (Ho eq_refl)).
Defined.

Lemma approval_moves_capability_witness :
  exists d w', approve_request Demo.admin approval (submitted start) = (Ok d, w') /\
    w_disk w' = w_db w' /\ length (db_shares (w_db w')) = 1.
Proof.
  destruct (approve_request Demo.admin approval (submitted start)) as [r w'] eqn:E.
  pose proof PromotionDemo.approves as Hr. rewrite E in Hr. destruct r as [d|e]; [|discriminate Hr].
  destruct (approval_moves_capability Demo.admin approval _ _ _ eq_refl E)
    as (row & uri & store & now & _ & _ & _ & _ & Hs & _ & _ & _ & Hdisk).
  exists d, w'. split; [reflexivity|]. split; [exact Hdisk|]. rewrite Hs, length_update_where. vm_compute. reflexivity.
Defined.

Lemma negative_decision_blocks_witness :
  exists d w', approve_request Demo.admin rejection (submitted start) = (Ok d, w') /\ w_disk w' = w_db w'.
Proof.
  destruct (approve_request Demo.admin rejection (submitted start)) as [r w'] eqn:E.
  pose proof rejects as Hr. rewrite E in Hr. destruct r as [d|e]; [|discriminate Hr].
  destruct (negative_decision_blocks Demo.admin rejection (submitted start) d w' "rejected")
    as (row & _ & _ & _ & Hdisk & _);
    [discriminate | apply list_elem_of_further, list_elem_of_here | exact E |].
  exists d, w'. split; [reflexivity | exact Hdisk].
Defined.

Lemma submission_starts_pending_witness :
  exists d w' r, submit_promotion Demo.admin submission start = (Ok d, w') /\
    db_promotion_requests (w_db w') = [r] /\
    pr_gates_json r = json_dumps (JObj ((fun kv => (kv.1, JStr kv.2)) <$> default_promotion_gates)).
Proof.
  destruct (submit_promotion Demo.admin submission start) as [r w'] eqn:E.
  pose proof submits as Hr. rewrite E in Hr. destruct r as [d|e]; [|discriminate Hr].
  destruct (submission_starts_pending Demo.admin submission start d w' E) as (q & Hq & _ & _ & _ & Hg & _).
  exists d, w', q. split; [reflexivity|]. split; [exact Hq | exact Hg].
Defined.
End Witnesses.
