(* ===== verification/Lifecycle.v ===== *)
(** * Lifecycle transitions ([lifecycle_transitions.py])

    The transition tables of capabilities and namespaces as a step relation,
    and the handlers that move a row along them. *)

From Stdlib Require Import ZArith Ascii String Lia.
From stdpp Require Import base option list strings gmap relations.
From S2P Require Import Prelude Sha256 PyStr Json Clock Db Models.
Local Open Scope string_scope.
Local Open Scope list_scope.

Definition CAPABILITY_LIFECYCLE_STATES : list string :=
  ["draft"; "active"; "deprecated"; "retired"; "published"; "disabled"; "deleted"; "recalled"; "yanked"].
Definition NAMESPACE_LIFECYCLE_STATES : list string := ["draft"; "active"; "deprecated"; "retired"].

Definition CAPABILITY_TRANSITIONS : list (string * list string) :=
  [("draft", ["active"; "deprecated"; "retired"; "published"]);
   ("active", ["deprecated"; "retired"; "draft"]);
   ("published", ["deprecated"; "retired"; "active"]);
   ("deprecated", ["active"; "retired"]);
   ("retired", ["active"; "deprecated"]);
   ("disabled", ["active"; "deleted"]);
   ("deleted", []);
   ("recalled", ["active"; "draft"]);
   ("yanked", ["active"])].
Definition NAMESPACE_TRANSITIONS : list (string * list string) :=
  [("draft", ["active"; "deprecated"; "retired"]);
   ("active", ["deprecated"; "retired"; "draft"]);
   ("deprecated", ["active"; "retired"]);
   ("retired", ["active"])].

(** [table.get(current, frozenset())] *)
Definition transitions_from (table : list (string * list string)) (current : string) : list string :=
  match List.find (fun kv => fst kv =s current) table with Some (_, ts) => ts | None => [] end.

Definition is_valid_transition (current target : string) (table : list (string * list string)) : bool :=
  if current =s target then true else smem target (transitions_from table current).

(** One step of the table, as a relation. *)
Inductive lifecycle_step (table : list (string * list string)) : string -> string -> Prop :=
  | lifecycle_move current targets target :
      (current, targets) ∈ table -> target ∈ targets -> lifecycle_step table current target.

Section Lifecycle.
Context `{!Runtime}.

Definition insert_transition_event (prefix tenant_id actor target current next reason : string) : Op unit :=
  let! id := new_id "ae" in
  let! now := utc_now in
  insert_row db_audit_events
    {| au_id := id; au_tenant_id := tenant_id; au_event_type := prefix +:+ ".lifecycle.transition";
       au_actor := actor; au_actor_type := "user"; au_target := Some target;
       au_action := Some "transition"; au_decision := Some "allow"; au_reason := None;
       au_payload_json := json_dumps (JObj [("from", JStr current); ("to", JStr next); ("reason", JStr reason)]);
       au_created_at := now |}.

Definition transition_capability (uri target_lifecycle actor tenant_id reason : string) (do_commit : bool)
  : Op dict :=
  if negb (smem target_lifecycle CAPABILITY_LIFECYCLE_STATES)
  then raise (ValueError ("Invalid lifecycle state: " +:+ target_lifecycle))
  else
    let! row := query (fun d => fetchone (fun r => (cp_uri r =s uri) && (cp_tenant_id r =s tenant_id))
                                  (db_capabilities d)) in
    match row with
    | None => raise (ValueError ("Capability not found: " +:+ uri))
    | Some row =>
        let current := cp_lifecycle row in
        if negb (is_valid_transition current target_lifecycle CAPABILITY_TRANSITIONS)
        then raise (ValueError ("Invalid transition: " +:+ current +:+ " -> " +:+ target_lifecycle))
        else
          let! now := sql_now in
          let! _ := update_rows db_capabilities (fun r => cp_uri r =s uri)
            (fun r => upd cp_lifecycle target_lifecycle (upd cp_updated_at now r)) in
          let! _ := insert_transition_event "capability" tenant_id actor uri current target_lifecycle reason in
          let! _ := when do_commit commit in
          ret [("uri", JStr uri); ("from", JStr current); ("to", JStr target_lifecycle);
               ("reason", JStr reason); ("actor", JStr actor)]
    end.

Definition transition_namespace (namespace_id target_lifecycle actor tenant_id reason : string)
    (do_commit : bool) : Op dict :=
  if negb (smem target_lifecycle NAMESPACE_LIFECYCLE_STATES)
  then raise (ValueError ("Invalid namespace lifecycle state: " +:+ target_lifecycle))
  else
    let! row := query (fun d => fetchone (fun r => (ns_id r =s namespace_id) && (ns_tenant_id r =s tenant_id))
                                  (db_namespaces d)) in
    match row with
    | None => raise (ValueError ("Namespace not found: " +:+ namespace_id))
    | Some row =>
        let current := ns_lifecycle row in
        if negb (is_valid_transition current target_lifecycle NAMESPACE_TRANSITIONS)
        then raise (ValueError ("Invalid namespace transition: " +:+ current +:+ " -> " +:+ target_lifecycle))
        else
          let! now := sql_now in
          let! _ := update_rows db_namespaces (fun r => ns_id r =s namespace_id)
            (fun r => upd ns_lifecycle target_lifecycle (upd ns_updated_at now r)) in
          let! _ := insert_transition_event "namespace" tenant_id actor namespace_id current target_lifecycle reason in
          let! _ := when do_commit commit in
          ret [("namespaceId", JStr namespace_id); ("from", JStr current); ("to", JStr target_lifecycle);
               ("reason", JStr reason); ("actor", JStr actor)]
    end.

(** [GROUP BY lifecycle ORDER BY count DESC], ties in the order of the group
    keys. *)
Definition lifecycle_counts (d : DB) (tenant_id : string) : list (string * nat) :=
  let states := cp_lifecycle <$> fetchall (fun r => cp_tenant_id r =s tenant_id) (db_capabilities d) in
  sort_by (fun a b => (snd b <=? snd a)%nat)
    ((fun s => (s, length (List.filter (String.eqb s) states))) <$> sorted_strings (remove_dups states)).

Definition list_lifecycle_states (d : DB) (tenant_id : string) : dict :=
  [("states", JObj ((fun kv => (fst kv, JNum (Z.of_nat (snd kv)))) <$> lifecycle_counts d tenant_id));
   ("validStates", jstrs (sorted_strings CAPABILITY_LIFECYCLE_STATES));
   ("validTransitions", JObj ((fun kv => (fst kv, jstrs (sorted_strings (snd kv)))) <$> CAPABILITY_TRANSITIONS))].
End Lifecycle.

(** ** The relation and the test *)
Lemma transitions_from_step table current target :
  target ∈ transitions_from table current -> lifecycle_step table current target.
Proof.
  unfold transitions_from. destruct (List.find _ table) as [[s ts]|] eqn:E; [|by intros ?%elem_of_nil].
  apply List.find_some in E as [Hin Es]. cbn in Es. apply String.eqb_eq in Es as ->.
  intros Ht. econstructor; [by apply list_elem_of_In | done].
Qed.

(** In a table whose keys are distinct, the test decides the relation. *)
Lemma step_transitions_from table current target :
  NoDup (fst <$> table) -> lifecycle_step table current target -> target ∈ transitions_from table current.
Proof.
  intros Hnd Hs. inversion Hs as [c ts t Hin Ht]; subst. unfold transitions_from.
  assert (List.find (fun kv => fst kv =s current) table = Some (current, ts)) as ->; [|done].
  clear Hs Ht. induction table as [|[s ss] table IH]; [by apply elem_of_nil in Hin|].
  rewrite fmap_cons, NoDup_cons in Hnd. destruct Hnd as [Hnot Hnd]. cbn in Hnot |- *.
  apply elem_of_cons in Hin as [[= <- <-]|Hin]; [by rewrite String.eqb_refl|].
  destruct (s =s current) eqn:E; [|by apply IH].
  apply String.eqb_eq in E as ->. exfalso. apply Hnot. apply list_elem_of_fmap. by exists (current, ts).
Qed.

Lemma capability_table_nodup : NoDup (fst <$> CAPABILITY_TRANSITIONS).
Proof. apply (bool_decide_unpack _). vm_compute. exact I. Qed.
Lemma namespace_table_nodup : NoDup (fst <$> NAMESPACE_TRANSITIONS).
Proof. apply (bool_decide_unpack _). vm_compute. exact I. Qed.

Lemma valid_transition_iff table current target :
  NoDup (fst <$> table) ->
  is_valid_transition current target table = true <->
  current = target \/ lifecycle_step table current target.
Proof.
  intros Hnd. unfold is_valid_transition. destruct (current =s target) eqn:E.
  - apply String.eqb_eq in E. tauto.
  - apply String.eqb_neq in E. rewrite smem_In. split.
    + intros H. right. by apply transitions_from_step.
    + intros [?|H]; [done|]. by apply step_transitions_from.
Qed.

Section Theorems.
Context `{!Runtime}.

(** The lifecycle of the capability at an address. *)
Definition lifecycle_at (d : DB) (uri : string) : option string :=
  cp_lifecycle <$> fetchone (fun r => cp_uri r =s uri) (db_capabilities d).

Definition unique_uris (d : DB) : Prop := NoDup (cp_uri <$> db_capabilities d).

Lemma transition_capability_cases uri target actor tenant reason c w r w' :
  transition_capability uri target actor tenant reason c w = (r, w') ->
  match fetchone (fun x => (cp_uri x =s uri) && (cp_tenant_id x =s tenant)) (db_capabilities (w_db w)) with
  | Some row =>
      if smem target CAPABILITY_LIFECYCLE_STATES
         && is_valid_transition (cp_lifecycle row) target CAPABILITY_TRANSITIONS
      then is_ok r = true /\
        (cp_lifecycle row = target \/ lifecycle_step CAPABILITY_TRANSITIONS (cp_lifecycle row) target) /\
        db_capabilities (w_db w') = update_where (fun x => cp_uri x =s uri)
          (fun x => upd cp_lifecycle target (upd cp_updated_at (sql_text_now (w_clock w)) x))
          (db_capabilities (w_db w)) /\
        (exists e, db_audit_events (w_db w') = db_audit_events (w_db w) ++ [e] /\
           au_target e = Some uri /\ au_actor e = actor /\
           au_payload_json e = json_dumps (JObj [("from", JStr (cp_lifecycle row)); ("to", JStr target);
                                                 ("reason", JStr reason)])) /\
        (forall cs es, upd db_capabilities cs (upd db_audit_events es (w_db w'))
                       = upd db_capabilities cs (upd db_audit_events es (w_db w))) /\
        w_disk w' = (if c then w_db w' else w_disk w)
      else is_value_error r = true /\ w' = w
  | None => is_value_error r = true /\ w' = w
  end.
Proof.
  unfold transition_capability. destruct (smem target CAPABILITY_LIFECYCLE_STATES); cbn [negb andb].
  2: { intros [= <- <-]. by case_match. }
  unfold bind at 1, query, gets. destruct (fetchone _ _) as [row|]; [|by intros [= <- <-]].
  destruct (is_valid_transition _ _ _) eqn:Ev; cbn [negb]; [|by intros [= <- <-]].
  apply valid_transition_iff in Ev; [|apply capability_table_nodup].
  destruct c; intros [= <- <-]; cbn; (split; [done|]); (split; [done|]); (split; [done|]);
    (split; [by eexists | done]).
Qed.

(** Every branch of [transition_capability].  It succeeds exactly when the
    target is a lifecycle state, the tenant has the capability, and the target
    is the current state or one step away; it then sets that state on the rows
    of the address, appends one audit event that records the step, and touches
    nothing else; when it fails nothing has changed. *)
Theorem transition_capability_spec uri target actor tenant reason c w r w' :
  transition_capability uri target actor tenant reason c w = (r, w') ->
  match fetchone (fun x => (cp_uri x =s uri) && (cp_tenant_id x =s tenant)) (db_capabilities (w_db w)) with
  | Some row =>
      if smem target CAPABILITY_LIFECYCLE_STATES
         && is_valid_transition (cp_lifecycle row) target CAPABILITY_TRANSITIONS
      then is_ok r = true /\
        (cp_lifecycle row = target \/ lifecycle_step CAPABILITY_TRANSITIONS (cp_lifecycle row) target) /\
        db_capabilities (w_db w') = update_where (fun x => cp_uri x =s uri)
          (fun x => upd cp_lifecycle target (upd cp_updated_at (sql_text_now (w_clock w)) x))
          (db_capabilities (w_db w)) /\
        (exists e, db_audit_events (w_db w') = db_audit_events (w_db w) ++ [e] /\
           au_target e = Some uri /\ au_actor e = actor /\
           au_payload_json e = json_dumps (JObj [("from", JStr (cp_lifecycle row)); ("to", JStr target);
                                                 ("reason", JStr reason)])) /\
        (forall cs es, upd db_capabilities cs (upd db_audit_events es (w_db w'))
                       = upd db_capabilities cs (upd db_audit_events es (w_db w))) /\
        w_disk w' = (if c then w_db w' else w_disk w)
      else is_value_error r = true /\ w' = w
  | None => is_value_error r = true /\ w' = w
  end.
Proof. exact (transition_capability_cases uri target actor tenant reason c w r w'). Qed.

(** A request to the handler, and a history of requests. *)
Definition TransitionCall : Type := string * string * string * string * string * bool.
Definition run_call (w : World) (call : TransitionCall) : World :=
  let '(uri, target, actor, tenant, reason, c) := call in
  (transition_capability uri target actor tenant reason c w).2.
Definition run_calls (calls : list TransitionCall) (w : World) : World := fold_left run_call calls w.

Lemma fetchone_unique (d : DB) uri tenant row :
  unique_uris d ->
  fetchone (fun x => (cp_uri x =s uri) && (cp_tenant_id x =s tenant)) (db_capabilities d) = Some row ->
  fetchone (fun x => cp_uri x =s uri) (db_capabilities d) = Some row.
Proof.
  unfold unique_uris. induction (db_capabilities d) as [|x t IH]; [done|].
  rewrite fmap_cons, NoDup_cons. intros [Hnot Hnd]. unfold fetchone. cbn [List.find].
  destruct (cp_uri x =s uri) eqn:E; cbn [andb]; [|by apply IH].
  destruct (cp_tenant_id x =s tenant); [done|]. intros [Hin Hx]%fetchone_some. exfalso.
  apply andb_true_iff in Hx as [Hx _]. apply String.eqb_eq in Hx, E. apply Hnot.
  apply list_elem_of_fmap. exists row. by rewrite E, Hx.
Qed.

Lemma run_call_step w call u s :
  unique_uris (w_db w) -> lifecycle_at (w_db w) u = Some s ->
  unique_uris (w_db (run_call w call)) /\
  exists s', lifecycle_at (w_db (run_call w call)) u = Some s' /\
    rtc (lifecycle_step CAPABILITY_TRANSITIONS) s s'.
Proof.
  intros Hu Hs. destruct call as [[[[[uri target] actor] tenant] reason] c]. cbn [run_call].
  destruct (transition_capability uri target actor tenant reason c w) as [r w'] eqn:E. cbn [snd].
  apply transition_capability_cases in E.
  destruct (fetchone _ _) as [row|] eqn:Ef; [|destruct E as [_ ->]; by eauto using rtc_refl].
  destruct (_ && _); [|destruct E as [_ ->]; by eauto using rtc_refl].
  destruct E as (_ & Hstep & Hcaps & _). apply (fetchone_unique _ _ _ _ Hu) in Ef.
  unfold unique_uris, lifecycle_at in *. rewrite Hcaps. split.
  - replace (cp_uri <$> update_where _ _ _) with (cp_uri <$> db_capabilities (w_db w)); [done|].
    unfold update_where. clear. induction (db_capabilities (w_db w)) as [|x t IH]; [done|].
    cbn. f_equal; [by destruct (cp_uri x =s uri) | exact IH].
  - rewrite fetchone_update_where by done.
    destruct (fetchone (fun x => cp_uri x =s u) _) as [x|] eqn:Ex; [|done].
    cbn in Hs |- *. injection Hs as <-. destruct (cp_uri x =s uri) eqn:Eu; [|by eauto using rtc_refl].
    exists target. split; [done|].
    apply fetchone_some in Ex as Hx. destruct Hx as [_ Hx]. apply String.eqb_eq in Hx, Eu. subst u.
    rewrite Eu in Ex. rewrite Ex in Ef. injection Ef as ->.
    destruct Hstep as [->|?]; [constructor | by apply rtc_once].
Qed.

(** C20: the state machine over any history.  Whatever sequence of transition
    requests is made, by any actors, in any tenants, successful or refused, the
    lifecycle of each capability moves along the transition table. *)
Theorem lifecycle_history calls w u s :
  unique_uris (w_db w) -> lifecycle_at (w_db w) u = Some s ->
  exists s', lifecycle_at (w_db (run_calls calls w)) u = Some s' /\
    rtc (lifecycle_step CAPABILITY_TRANSITIONS) s s'.
Proof.
  revert w s. induction calls as [|call calls IH]; intros w s Hu Hs; [by eauto using rtc_refl|].
  destruct (run_call_step w call u s Hu Hs) as (Hu' & s1 & Hs1 & H1).
  destruct (IH _ _ Hu' Hs1) as (s' & Hs' & H2). exists s'. split; [done|]. by etrans.
Qed.

Lemma step_targets current target :
  lifecycle_step CAPABILITY_TRANSITIONS current target ->
  target ∈ transitions_from CAPABILITY_TRANSITIONS current.
Proof. apply step_transitions_from, capability_table_nodup. Qed.

Lemma step_source current target :
  lifecycle_step CAPABILITY_TRANSITIONS current target ->
  smem target ["disabled"; "recalled"; "yanked"] = false /\
  (target = "deleted" -> current = "disabled") /\ current <> "deleted".
Proof.
  intros Hs. inversion Hs as [c ts t Hin Ht]; subst.
  unfold CAPABILITY_TRANSITIONS in Hin. rewrite !elem_of_cons, elem_of_nil in Hin.
  repeat (destruct Hin as [[= -> ->]|Hin]; [|]); [..|done].
  all: repeat (apply elem_of_cons in Ht as [->|Ht]; [by split_and!|]); by apply elem_of_nil in Ht.
Qed.

(** What the table guarantees.  A deleted capability stays deleted; only a
    disabled one becomes deleted; no history of transitions disables, recalls
    or yanks a capability (those states are entered by other handlers). *)
Theorem lifecycle_table_safe s s' :
  rtc (lifecycle_step CAPABILITY_TRANSITIONS) s s' ->
  (s = "deleted" -> s' = "deleted") /\
  (s' = "deleted" -> s = "deleted" \/ s = "disabled") /\
  (smem s' ["disabled"; "recalled"; "yanked"] = true -> s = s').
Proof.
  intros Hr. induction Hr as [s|s t s' Hstep Hr (IH1 & IH2 & IH3)]; [auto|].
  destruct (step_source _ _ Hstep) as (Hin & Hdel & Hnd). split_and!.
  - intros ->. done.
  - intros Hs'. destruct (IH2 Hs') as [->| ->]; [right; auto | done].
  - intros Hs'. specialize (IH3 Hs'). subst t. congruence.
Qed.
End Theorems.

Section Witnesses.
Import Demo.
#[local] Existing Instance Demo.runtime.

Definition catalog : World := world (upd db_capabilities [cap_row "cap://x"] empty_db).

Lemma transition_capability_spec_witness :
  exists d w', transition_capability "cap://x" "retired" "root" "asg" "old" true catalog = (Ok d, w') /\
    lifecycle_at (w_db w') "cap://x" = Some "retired" /\
    lifecycle_step CAPABILITY_TRANSITIONS "active" "retired".
Proof.
  destruct (transition_capability "cap://x" "retired" "root" "asg" "old" true catalog) as [r w'] eqn:E.
  pose proof (transition_capability_spec _ _ _ _ _ _ _ _ _ E) as (Hok & [Hs|Hs] & Hcaps & _); [discriminate Hs|].
  destruct r as [d|e]; [|discriminate Hok]. exists d, w'. split; [done|]. split; [|exact Hs].
  unfold lifecycle_at. rewrite Hcaps. reflexivity.
Defined.

Lemma lifecycle_history_witness :
  exists s', lifecycle_at (w_db (run_calls
    [("cap://x", "retired", "root", "asg", "", true); ("cap://x", "published", "eve", "asg", "", true);
     ("cap://x", "active", "root", "asg", "", false)] catalog)) "cap://x" = Some s' /\
    rtc (lifecycle_step CAPABILITY_TRANSITIONS) "active" s'.
Proof.
  apply lifecycle_history; [|reflexivity]. apply NoDup_singleton.
Defined.

Lemma lifecycle_table_safe_witness :
  rtc (lifecycle_step CAPABILITY_TRANSITIONS) "disabled" "deleted" /\
  ("deleted" = "deleted" -> "disabled" = "deleted" \/ "disabled" = "disabled").
Proof.
  assert (rtc (lifecycle_step CAPABILITY_TRANSITIONS) "disabled" "deleted") as H.
  { apply rtc_once, transitions_from_step. apply smem_In. reflexivity. }
  split; [exact H | exact (proj1 (proj2 (lifecycle_table_safe _ _ H)))].
Defined.
End Witnesses.
