(* ===== verification/BreakGlass.v ===== *)
(** * Break-glass sessions ([break_glass.py])

    Temporary emergency sessions: granting with a reason and a bounded lifetime,
    revoking, listing, and the test that a session is active. *)

From Stdlib Require Import ZArith Ascii String Lia.
From stdpp Require Import base option list strings gmap.
From S2P Require Import Prelude Sha256 PyStr Json Clock Db Models AccessControl AccessSpec AccessProps.
Local Open Scope string_scope.
Local Open Scope list_scope.

Definition DEFAULT_BREAK_GLASS_TTL_MINUTES : Z := 30.
Definition MAX_BREAK_GLASS_TTL_MINUTES : Z := 120.

Section BreakGlass.
Context `{!Runtime}.

Definition insert_session_event (tenant_id event_type actor target action : string) (payload : dict)
  : Op unit :=
  let! id := new_id "ae" in
  let! now := utc_now in
  insert_row db_audit_events
    {| au_id := id; au_tenant_id := tenant_id; au_event_type := event_type; au_actor := actor;
       au_actor_type := "user"; au_target := Some target; au_action := Some action;
       au_decision := Some "allow"; au_reason := None; au_payload_json := json_dumps (JObj payload);
       au_created_at := now |}.

Definition grant_break_glass (principal reason granted_by tenant_id : string) (ttl_minutes : Z)
    (do_commit : bool) : Op dict :=
  if negb (truthy (strip reason)) then raise (ValueError "Break-glass requires a non-empty reason")
  else if Z.ltb ttl_minutes 1 || Z.ltb MAX_BREAK_GLASS_TTL_MINUTES ttl_minutes
  then raise (ValueError ("Break-glass TTL must be between 1 and " +:+ str_of_Z MAX_BREAK_GLASS_TTL_MINUTES
                          +:+ " minutes"))
  else
    let! session_id := new_id "bg" in
    let! expires_at := iso_after (ttl_minutes * 60000000) in
    let! now := utc_now in
    let! _ := insert_row db_break_glass_sessions
      {| bg_id := session_id; bg_tenant_id := tenant_id; bg_principal := principal; bg_reason := reason;
         bg_granted_by := granted_by; bg_ttl_minutes := 30; bg_expires_at := expires_at;
         bg_revoked_at := None; bg_created_at := now |} in
    let! _ := insert_session_event tenant_id "break_glass.grant" granted_by principal "grant"
      [("sessionId", JStr session_id); ("reason", JStr reason); ("ttlMinutes", JNum ttl_minutes);
       ("expiresAt", JStr expires_at)] in
    let! _ := when do_commit commit in
    ret [("sessionId", JStr session_id); ("principal", JStr principal); ("reason", JStr reason);
         ("grantedBy", JStr granted_by); ("expiresAt", JStr expires_at); ("ttlMinutes", JNum ttl_minutes)].

Definition session_row (d : DB) (session_id tenant_id : string) : option BreakGlassRow :=
  fetchone (fun r => (bg_id r =s session_id) && (bg_tenant_id r =s tenant_id)) (db_break_glass_sessions d).

Definition revoke_break_glass (session_id revoked_by tenant_id : string) (do_commit : bool) : Op dict :=
  let! row := query (fun d => session_row d session_id tenant_id) in
  match row with
  | None => raise (ValueError ("Break-glass session not found: " +:+ session_id))
  | Some row =>
      if is_some (bg_revoked_at row) then raise (ValueError "Break-glass session already revoked")
      else
        let! now := utc_now in
        let! _ := update_rows db_break_glass_sessions (fun r => bg_id r =s session_id)
          (fun r => upd bg_revoked_at (Some now) r) in
        let! _ := insert_session_event tenant_id "break_glass.revoke" revoked_by session_id "revoke"
          [("principal", JStr (bg_principal row)); ("reason", JStr (bg_reason row))] in
        let! _ := when do_commit commit in
        let! now := utc_now in
        ret [("sessionId", JStr session_id); ("principal", JStr (bg_principal row));
             ("revokedBy", JStr revoked_by); ("revokedAt", JStr now); ("status", JStr "revoked")]
  end.

Definition session_record (r : BreakGlassRow) : dict :=
  [("sessionId", JStr (bg_id r)); ("principal", JStr (bg_principal r)); ("reason", JStr (bg_reason r));
   ("grantedBy", JStr (bg_granted_by r)); ("expiresAt", JStr (bg_expires_at r));
   ("revokedAt", match bg_revoked_at r with
                 | Some t => if truthy t then JStr t else JNull | None => JNull end);
   ("createdAt", JStr (bg_created_at r))].

Definition list_break_glass_sessions (d : DB) (tenant_id : string) (active_only : bool) : list dict :=
  let rows := fetchall (fun r => (bg_tenant_id r =s tenant_id)
                                 && (negb active_only || is_none (bg_revoked_at r)))
                (db_break_glass_sessions d) in
  session_record <$> sort_by (fun a b => sle (bg_created_at b) (bg_created_at a)) rows.

Definition is_break_glass_active (session_id tenant_id : string) : Op bool :=
  let! row := query (fun d => session_row d session_id tenant_id) in
  match row with
  | None => ret false
  | Some row =>
      if is_some (bg_revoked_at row) then ret false
      else let! now := iso_after 0 in ret (slt now (bg_expires_at row))
  end.

(** [governance._break_glass_active]; the exception handler has nothing to
    catch on the tables of an initialized database. *)
Fixpoint any_active (rows : list BreakGlassRow) (tenant_id : string) : Op bool :=
  match rows with
  | [] => ret false
  | r :: rows' =>
      let! active := is_break_glass_active (bg_id r) tenant_id in
      if active then ret true else any_active rows' tenant_id
  end.
Definition _break_glass_active (p : Principal) : Op bool :=
  let! now := utc_now in
  let! rows := query (fun d => fetchall (fun r => (bg_tenant_id r =s tenant_of p)
      && (bg_principal r =s p_subject p) && is_none (bg_revoked_at r) && slt now (bg_expires_at r))
    (db_break_glass_sessions d)) in
  any_active rows (tenant_of p).

(** ** Theorems *)

Definition fresh_session (d : DB) (id : string) : Prop :=
  forall r, r ∈ db_break_glass_sessions d -> bg_id r <> id.

(** Granting.  A grant succeeds exactly when the reason is not blank and
    the lifetime is between 1 and 120 minutes; it then appends one session, for
    the requested principal, that expires the requested number of minutes after
    the current instant, and one audit event; a refused grant changes nothing. *)
Theorem grant_break_glass_spec principal reason by_ tenant ttl c w r w' :
  grant_break_glass principal reason by_ tenant ttl c w = (r, w') ->
  if truthy (strip reason) && Z.leb 1 ttl && Z.leb ttl 120 then
    is_ok r = true /\
    (exists s, db_break_glass_sessions (w_db w') = db_break_glass_sessions (w_db w) ++ [s] /\
       bg_principal s = principal /\ bg_tenant_id s = tenant /\ bg_revoked_at s = None /\
       bg_expires_at s = iso_text (w_clock w + ttl * 60000000)) /\
    (exists e, db_audit_events (w_db w') = db_audit_events (w_db w) ++ [e] /\
       au_actor e = by_ /\ au_target e = Some principal /\ au_event_type e = "break_glass.grant") /\
    (forall ss es, upd db_break_glass_sessions ss (upd db_audit_events es (w_db w'))
                   = upd db_break_glass_sessions ss (upd db_audit_events es (w_db w)))
  else is_value_error r = true /\ w' = w.
Proof.
  unfold grant_break_glass, MAX_BREAK_GLASS_TTL_MINUTES.
  destruct (truthy (strip reason)); cbn [negb andb]; [|by intros [= <- <-]].
  destruct (Z.leb_spec 1 ttl); destruct (Z.ltb_spec ttl 1); try lia; cbn [orb andb]; [|by intros [= <- <-]].
  destruct (Z.leb_spec ttl 120); destruct (Z.ltb_spec 120 ttl); try lia; [|by intros [= <- <-]].
  destruct c; intros [= <- <-]; cbn; (split; [done|]); (split; [by eexists|]); (split; [by eexists | done]).
Qed.

(** A session is active exactly while it should be.  For a session of the
    tenant written by [grant_break_glass] at the instant [t], the test at a
    later instant answers true iff the session is not revoked and fewer than
    the granted minutes have passed; revoked or unknown sessions are never
    active. *)
Theorem break_glass_active_iff w id tenant t ttl row :
  session_row (w_db w) id tenant = Some row ->
  bg_expires_at row = iso_text (t + ttl * 60000000) ->
  instant_ok (t + ttl * 60000000) -> instant_ok (w_clock w) ->
  is_break_glass_active id tenant w
  = (Ok (is_none (bg_revoked_at row) && Z.ltb (w_clock w) (t + ttl * 60000000)), w).
Proof.
  intros Hrow He Ht Hw. unfold is_break_glass_active, bind, query, gets. rewrite Hrow.
  destruct (bg_revoked_at row); cbn; [done|]. unfold iso_after, gets, ret. rewrite He, Z.add_0_r.
  repeat f_equal. apply eq_bool_prop_intro. rewrite !Is_true_true, slt_compare, Z.ltb_lt.
  rewrite compare_iso_text by done. done.
Qed.

(** A revoked session is over.  Revoking succeeds exactly for a session of
    the tenant that is not already revoked; the session is then inactive at
    every later instant, and a second revocation is refused. *)
Theorem revoke_break_glass_ends id by_ tenant c w r w' :
  revoke_break_glass id by_ tenant c w = (r, w') ->
  match session_row (w_db w) id tenant with
  | Some row =>
      if is_none (bg_revoked_at row) then
        is_ok r = true /\
        (forall clock, is_break_glass_active id tenant (upd w_clock clock w')
                       = (Ok false, upd w_clock clock w')) /\
        is_value_error (revoke_break_glass id by_ tenant c w').1 = true /\
        (exists e, db_audit_events (w_db w') = db_audit_events (w_db w) ++ [e] /\ au_actor e = by_)
      else is_value_error r = true /\ w' = w
  | None => is_value_error r = true /\ w' = w
  end.
Proof.
  unfold revoke_break_glass. unfold bind at 1, query, gets.
  destruct (session_row (w_db w) id tenant) as [row|] eqn:Er; [|by intros [= <- <-]].
  destruct (bg_revoked_at row) eqn:Ev; cbn [is_some is_none]; [by intros [= <- <-]|].
  intros E.
  assert (session_row (w_db w') id tenant = Some (upd bg_revoked_at (Some (utc_text (w_clock w))) row) /\
    is_ok r = true /\ exists e, db_audit_events (w_db w') = db_audit_events (w_db w) ++ [e] /\ au_actor e = by_)
    as (Hrow & Hok & He).
  { assert (forall d', db_break_glass_sessions d' = update_where (fun r => bg_id r =s id)
        (fun r => upd bg_revoked_at (Some (utc_text (w_clock w))) r) (db_break_glass_sessions (w_db w)) ->
      session_row d' id tenant = Some (upd bg_revoked_at (Some (utc_text (w_clock w))) row)) as Hd.
    { intros d' Hd'. unfold session_row in *. rewrite Hd', fetchone_update_where by done. rewrite Er. cbn.
      apply fetchone_some in Er as [_ [Hid _]%andb_true_iff]. by rewrite Hid. }
    destruct c; injection E as <- <-; (split; [by apply Hd | split; [done | by eexists]]). }
  split; [done|]. split_and!; [|unfold revoke_break_glass, bind, query, gets; by rewrite Hrow | done].
  intros clock. unfold is_break_glass_active, bind, query, gets. cbn. by rewrite Hrow.
Qed.

(** The sessions have no effect on authorization.  [evaluate_access] gives
    the same outcome whatever the break_glass_sessions table holds, so an
    active session gives its principal no right (its documentation promises
    rights equivalent to those of a platform administrator). *)
Theorem break_glass_grants_nothing p right cap res audit sessions w :
  coherent w ->
  (evaluate_access p right cap res audit (upd w_db (upd db_break_glass_sessions sessions (w_db w)) w)).1
  = (evaluate_access p right cap res audit w).1.
Proof.
  intros Hw.
  assert (coherent (upd w_db (upd db_break_glass_sessions sessions (w_db w)) w)) as Hw' by exact Hw.
  destruct (evaluate_access_spec p right cap res audit w Hw) as [-> _].
  destruct (evaluate_access_spec p right cap res audit _ Hw') as [-> _]. reflexivity.
Qed.
End BreakGlass.

Section Witnesses.
Import Demo.
#[local] Existing Instance Demo.runtime.

Definition calm : World := world empty_db.
Definition granted_world : World :=
  (grant_break_glass "alice@example.com" "outage" "root" "asg" 30 true calm).2.

Lemma grant_break_glass_spec_witness :
  exists d w' s, grant_break_glass "alice@example.com" "outage" "root" "asg" 30 true calm = (Ok d, w') /\
    db_break_glass_sessions (w_db w') = [s] /\ bg_expires_at s = "2026-07-20T00:30:00+00:00".
Proof.
  destruct (grant_break_glass "alice@example.com" "outage" "root" "asg" 30 true calm) as [r w'] eqn:E.
  pose proof (grant_break_glass_spec _ _ _ _ _ _ _ _ _ E) as (Hok & (s & Hs & _ & _ & _ & He) & _).
  destruct r as [d|e]; [|discriminate Hok]. exists d, w', s. split; [done|]. split; [exact Hs|].
  rewrite He. reflexivity.
Defined.

Lemma break_glass_active_iff_witness :
  is_break_glass_active "bg_uuid0" "asg" granted_world = (Ok true, granted_world).
Proof.
  rewrite (break_glass_active_iff granted_world "bg_uuid0" "asg" 1784505600000000 30
    (mkBreakGlassRow "bg_uuid0" "asg" "alice@example.com" "outage" "root" 30 "2026-07-20T00:30:00+00:00"
       None "2026-07-20T00:00:00Z")); [reflexivity | reflexivity | reflexivity | split; vm_compute; done ..].
Defined.

Lemma revoke_break_glass_ends_witness :
  exists d w', revoke_break_glass "bg_uuid0" "root" "asg" true granted_world = (Ok d, w') /\
    (is_break_glass_active "bg_uuid0" "asg" (upd w_clock 0%Z w')).1 = Ok false.
Proof.
  destruct (revoke_break_glass "bg_uuid0" "root" "asg" true granted_world) as [r w'] eqn:E.
  pose proof (revoke_break_glass_ends _ _ _ _ _ _ _ E) as (Hok & Hoff & _).
  destruct r as [d|e]; [|discriminate Hok]. exists d, w'. split; [done|]. by rewrite Hoff.
Defined.

Lemma break_glass_grants_nothing_witness :
  exists s, db_break_glass_sessions (w_db granted_world) = [s] /\
    (evaluate_access AccessDemo.bob "manage" None (Some "tenant:asg") true
       (upd w_db (upd db_break_glass_sessions [s] (w_db calm)) calm)).1
    = (evaluate_access AccessDemo.bob "manage" None (Some "tenant:asg") true calm).1.
Proof.
  eexists. split; [reflexivity|]. apply break_glass_grants_nothing. by intros t s v Hl.
Defined.
End Witnesses.
