(* ===== verification/IdentityProps.v ===== *)
(** * Enforced roles and provisioning

    The enforcement of the operator's superadmins is idempotent and effective;
    an unconfigured host enforces a placeholder.  Provisioning settles after
    one call and re-activates an identity that was disabled. *)

From Stdlib Require Import ZArith Ascii String Lia.
From stdpp Require Import base option list strings gmap.
From S2P Require Import Prelude Sha256 PyStr Json Clock Db Models AccessControl AccessSpec AccessProps.
From S2P Require Import RegistryLog Superadmin Identity.
Local Open Scope string_scope.
Local Open Scope list_scope.

#[local] Opaque sha256_hex stable_id.

Section Enforcement.
Context `{!Runtime}.

(** The enforced row of a superadmin, up to its timestamps. *)
Definition superadmin_id (tenant subject : string) : string :=
  stable_id "rol" [tenant; "platform-superadmin"; subject].
Definition enforced (tenant subject : string) (d : DB) : Prop :=
  exists r, fetchone (fun r => ra_id r =s superadmin_id tenant subject) (db_role_assignments d) = Some r /\
    ra_tenant_id r = tenant /\ ra_subject_type r = "user" /\ ra_subject_id r = subject /\
    ra_role r = "platform_admin" /\ ra_scope_type r = "tenant" /\ ra_scope_id r = tenant /\
    ra_revoked_at r = None.

Definition superadmin_row (tenant subject now : string) : RoleRow :=
  policy_role_row (superadmin_id tenant subject) tenant "user" subject "platform_admin" "tenant" tenant
    "operator-policy" now.

(** The row as the code recognizes it: its tenant is not compared. *)
Definition recognized (tenant subject : string) (d : DB) : bool :=
  match fetchone (fun r => ra_id r =s superadmin_id tenant subject) (db_role_assignments d) with
  | Some r => role_correct (superadmin_row tenant subject "") r
  | None => false
  end.

Definition enforce_superadmin (tenant subject : string) : Op unit :=
  enforce_role (superadmin_id tenant subject) tenant "user" subject "platform_admin" "tenant" tenant
    "operator-policy" "role.operator_policy_enforced"
    [("subject", JStr subject); ("role", JStr "platform_admin"); ("scope", JStr ("tenant:" +:+ tenant))].

Lemma enforce_recognized tenant subject w :
  recognized tenant subject (w_db w) = true -> enforce_superadmin tenant subject w = (Ok tt, w).
Proof.
  unfold enforce_superadmin, enforce_role, recognized, sql_now, query, bind, gets. cbv beta iota zeta.
  destruct (fetchone _ _) as [r|]; [|done]. intros Hc.
  match goal with |- context [role_correct ?a r] =>
    change (role_correct a r) with (role_correct (superadmin_row tenant subject "") r) end.
  by rewrite Hc.
Qed.

(** The role table after an enforcement that had to write. *)
Lemma enforce_writes tenant subject w :
  recognized tenant subject (w_db w) = false ->
  exists w', enforce_superadmin tenant subject w = (Ok tt, w') /\
    db_role_assignments (w_db w') =
      let want := superadmin_row tenant subject (sql_text_now (w_clock w)) in
      let same r := ra_id r =s superadmin_id tenant subject in
      if exists_where same (db_role_assignments (w_db w))
      then update_where same (overwrite_role want) (db_role_assignments (w_db w))
      else db_role_assignments (w_db w) ++ [want].
Proof.
  intros Hr. unfold enforce_superadmin, enforce_role. unfold bind at 1 2, sql_now, query, gets.
  match goal with |- context [if ?b then ret tt else _] => assert (b = false) as -> end.
  { revert Hr. unfold recognized, role_correct, superadmin_row. by destruct (fetchone _ _). }
  unfold bind at 1, upsert_row, set_db, modify. unfold bind at 1.
  match goal with |- context [audit_event ?ev ?a ?t ?ac ?de ?re ?pl ?tn ?ty ?u] =>
    destruct (audit_event_ok ev a t ac de re pl tn ty u) as (id & w' & E);
    pose proof (keeps_run _ _ _ _ _ (audit_event_unlogged ev a t ac de re pl tn ty) E) as Hu end.
  rewrite E. exists w'. split; [done|].
  pose proof (f_equal (fun u => db_role_assignments u.1.1.1) Hu) as Hroles. cbn in Hroles. rewrite Hroles.
  fold (superadmin_row tenant subject (sql_text_now (w_clock w))). cbv zeta.
  by destruct (exists_where _ (db_role_assignments (w_db w))).
Qed.

Lemma fetchone_none_exists {A} (p : A -> bool) t : exists_where p t = false -> fetchone p t = None.
Proof. intros He. apply fetchone_none. by apply exists_where_false. Qed.

(** Enforcement makes the row of its subject right and leaves other ids alone. *)
Lemma enforce_superadmin_ok tenant subject w :
  exists w', enforce_superadmin tenant subject w = (Ok tt, w') /\ recognized tenant subject (w_db w') = true /\
    (forall id, id <> superadmin_id tenant subject ->
       fetchone (fun r => ra_id r =s id) (db_role_assignments (w_db w'))
       = fetchone (fun r => ra_id r =s id) (db_role_assignments (w_db w))).
Proof.
  destruct (recognized tenant subject (w_db w)) eqn:Er.
  { exists w. split; [by apply enforce_recognized|]. by split. }
  destruct (enforce_writes tenant subject w Er) as (w' & E & Hroles). exists w'. split; [exact E|].
  unfold recognized. rewrite Hroles. cbv zeta. destruct (exists_where _ _) eqn:Eex; split.
  - rewrite fetchone_update_where by (intros r Hr%String.eqb_eq; cbn; by rewrite Hr).
    apply exists_where_true in Eex as (r & Hin & Hr).
    destruct (fetchone_is_some (fun r => ra_id r =s superadmin_id tenant subject) _ r Hin Hr) as [r0 Hr0].
    cbv zeta. rewrite Hr0. apply fetchone_some in Hr0 as [_ Hr0].
    cbn. rewrite Hr0. unfold role_correct. cbn. by rewrite !String.eqb_refl.
  - intros id Hid. rewrite fetchone_update_where.
    + destruct (fetchone _ _) as [r|] eqn:Ef; [|done]. cbn. apply fetchone_some in Ef as [_ Ef%String.eqb_eq].
      destruct (ra_id r =s superadmin_id tenant subject) eqn:E2; [|done]. apply String.eqb_eq in E2. congruence.
    + intros r Hr%String.eqb_eq. cbn. by rewrite Hr.
  - rewrite fetchone_app, fetchone_none_exists by exact Eex. cbn. rewrite String.eqb_refl.
    unfold role_correct. cbn. by rewrite !String.eqb_refl.
  - intros id Hid. rewrite fetchone_app. destruct (fetchone _ (db_role_assignments (w_db w))); [done|]. cbn.
    destruct (superadmin_id tenant subject =s id) eqn:E2; [|done]. apply String.eqb_eq in E2. congruence.
Qed.
End Enforcement.

(** ** Tables that only grow *)
Definition grown {R} (t : DB -> list R) : relation World :=
  fun w w' => exists more, t (w_db w') = t (w_db w) ++ more.

#[export] Instance grown_preorder {R} (t : DB -> list R) : PreOrder (grown t).
Proof.
  split; [intros w; exists []; by rewrite List.app_nil_r|].
  intros x y z [l1 E1] [l2 E2]. exists (l1 ++ l2). by rewrite E2, E1, <-List.app_assoc.
Qed.

Ltac grown_statement :=
  intros ?w; unfold grown; cbn; repeat case_match;
  first [exists []; rewrite List.app_nil_r; reflexivity | eexists; reflexivity].
#[local] Hint Extern 1 (preserves (grown _) _) => solve [grown_statement] : frame.

Section Provisioning.
Context `{!Runtime}.

Lemma grown_exists {R} (t : DB -> list R) p w w' :
  grown t w w' -> exists_where p (t (w_db w)) = true -> exists_where p (t (w_db w')) = true.
Proof. intros [more ->] He. by rewrite exists_where_app, He. Qed.

Lemma grown_fetchone {R} (t : DB -> list R) p w w' r :
  grown t w w' -> fetchone p (t (w_db w)) = Some r -> fetchone p (t (w_db w')) = Some r.
Proof. intros [more ->] He. by rewrite fetchone_app, He. Qed.

(** INSERT OR IGNORE leaves a row that clashes, and does nothing when there is
    one. *)
Lemma insert_store_noop id tn k nm prefix ow m w :
  exists_where (store_clash id prefix) (db_stores (w_db w)) = true ->
  insert_store id tn k nm prefix ow m w = (Ok tt, w).
Proof.
  intros He. unfold insert_store, bind, sql_now, gets, insert_or_ignore, set_db, modify. rewrite He. by destruct w.
Qed.

Lemma insert_store_there id tn k nm prefix ow m w :
  exists w', insert_store id tn k nm prefix ow m w = (Ok tt, w') /\
    exists_where (store_clash id prefix) (db_stores (w_db w')) = true.
Proof.
  eexists. split; [reflexivity|]. cbn. destruct (exists_where _ (db_stores (w_db w))) eqn:E; cbn; [exact E|].
  rewrite exists_where_app, E. cbn. unfold store_clash. cbn. by rewrite String.eqb_refl.
Qed.

Lemma insert_namespace_noop id tn st nm prefix v ow de m w :
  exists_where (namespace_clash id prefix tn st nm) (db_namespaces (w_db w)) = true ->
  insert_namespace id tn st nm prefix v ow de m w = (Ok tt, w).
Proof.
  intros He. unfold insert_namespace, bind, sql_now, gets, insert_or_ignore, set_db, modify. rewrite He. by destruct w.
Qed.

Lemma insert_namespace_there id tn st nm prefix v ow de m w :
  exists w', insert_namespace id tn st nm prefix v ow de m w = (Ok tt, w') /\
    exists_where (namespace_clash id prefix tn st nm) (db_namespaces (w_db w')) = true.
Proof.
  eexists. split; [reflexivity|]. cbn. destruct (exists_where _ (db_namespaces (w_db w))) eqn:E; cbn; [exact E|].
  rewrite exists_where_app, E. cbn. unfold namespace_clash. cbn. by rewrite String.eqb_refl.
Qed.

(** An operation that never fails and does nothing the second time, also after
    more rows were added. *)
Definition settles (m : Op unit) : Prop :=
  forall w, exists w', m w = (Ok tt, w') /\ grown db_stores w w' /\ grown db_namespaces w w' /\
    db_identities (w_db w') = db_identities (w_db w) /\
    forall u, grown db_stores w' u -> grown db_namespaces w' u -> m u = (Ok tt, u).

Lemma settles_bind m n : settles m -> settles n -> settles (let! _ := m in n).
Proof.
  intros Hm Hn w. destruct (Hm w) as (w1 & E1 & S1 & N1 & I1 & Again1).
  destruct (Hn w1) as (w2 & E2 & S2 & N2 & I2 & Again2). exists w2.
  split; [unfold bind; by rewrite E1|]. split; [by etrans|]. split; [by etrans|]. split; [congruence|].
  intros u Hs Hn'. unfold bind. rewrite (Again1 u); [by apply Again2 | by etrans | by etrans].
Qed.

Lemma settles_store id tn k nm prefix ow m : settles (insert_store id tn k nm prefix ow m).
Proof.
  intros w. destruct (insert_store_there id tn k nm prefix ow m w) as (w' & E & Hex). exists w'.
  assert (preserves (grown db_stores) (insert_store id tn k nm prefix ow m)) as Hs by (unfold insert_store; solve_frame).
  assert (preserves (grown db_namespaces) (insert_store id tn k nm prefix ow m)) as Hn by (unfold insert_store; solve_frame).
  assert (keeps (tbl db_identities) (insert_store id tn k nm prefix ow m)) as Hi by (unfold keeps, insert_store; solve_frame).
  specialize (Hs w). specialize (Hn w). specialize (Hi w). rewrite E in Hs, Hn, Hi.
  split_and!; try done. intros u Hu _. apply insert_store_noop. by eapply grown_exists.
Qed.

Lemma settles_namespace id tn st nm prefix v ow de m : settles (insert_namespace id tn st nm prefix v ow de m).
Proof.
  intros w. destruct (insert_namespace_there id tn st nm prefix v ow de m w) as (w' & E & Hex). exists w'.
  assert (preserves (grown db_stores) (insert_namespace id tn st nm prefix v ow de m)) as Hs by (unfold insert_namespace; solve_frame).
  assert (preserves (grown db_namespaces) (insert_namespace id tn st nm prefix v ow de m)) as Hn by (unfold insert_namespace; solve_frame).
  assert (keeps (tbl db_identities) (insert_namespace id tn st nm prefix v ow de m)) as Hi by (unfold keeps, insert_namespace; solve_frame).
  specialize (Hs w). specialize (Hn w). specialize (Hi w). rewrite E in Hs, Hn, Hi.
  split_and!; try done. intros u _ Hu. apply insert_namespace_noop. by eapply grown_exists.
Qed.

Lemma settles_principal_stores p id : settles (ensure_principal_stores p id).
Proof.
  unfold ensure_principal_stores, ensure_personal_store, insert_org_store. cbv zeta.
  apply settles_bind; [apply settles_bind; [apply settles_store | apply settles_namespace]|].
  apply settles_bind; [apply settles_bind; [apply settles_store | apply settles_namespace]|].
  apply settles_store.
Qed.

(** The bootstrap of the default tenant adds rows and never fails. *)
Lemma default_tenant_ok t w :
  exists w', ensure_default_tenant t w = (Ok t, w') /\ grown db_identities w w'.
Proof.
  assert (preserves (grown db_identities) (ensure_default_tenant t)) as Hg.
  { unfold ensure_default_tenant, bootstrap_tenant_row, bootstrap_default_identity, bootstrap_user_stores,
      bootstrap_org, insert_org_store, bootstrap_system, bootstrap_all_users, insert_store, insert_namespace.
    solve_frame. }
  assert ((ensure_default_tenant t w).1 = Ok t) as Hok.
  { unfold ensure_default_tenant, bind at 1, query, gets. by destruct (tenant_ready t (w_db w)). }
  specialize (Hg w). destruct (ensure_default_tenant t w) as [r w']. cbn in Hok, Hg. subst r. by exists w'.
Qed.
End Provisioning.

Section Upsert.
Context `{!Runtime}.

Lemma fetchone_refine {A} (p q : A -> bool) t r :
  fetchone p t = Some r -> q r = true -> fetchone (fun x => p x && q x) t = Some r.
Proof.
  unfold fetchone. induction t as [|x t IH]; [done|]. cbn. destruct (p x); cbn; [|exact IH].
  by intros [= ->] ->.
Qed.

Definition row_of (d : DB) (id : string) : option IdentityRow := fetchone (fun r => idn_id r =s id) (db_identities d).

Lemma upsert_ok p id t email w w' :
  upsert_identity p id t email w = (Ok tt, w') ->
  db_stores (w_db w') = db_stores (w_db w) /\ db_namespaces (w_db w') = db_namespaces (w_db w) /\
  exists r, row_of (w_db w') id = Some r /\ idn_active r = 1%Z /\ idn_user_name r = p_subject p /\
    idn_display_name r = Some (o_or (p_display_name p) (p_subject p)) /\
    (email <> None -> idn_email r = email) /\ idn_raw_json r = principal_json p.
Proof.
  unfold upsert_identity, row_of. intros E. step_ok E as now w1 Hn. injection Hn as _ <-.
  step_ok E as rows w1 Hr. injection Hr as <- <-.
  destruct (fetchone _ (db_identities (w_db w))) as [old|] eqn:Eo.
  - ok_cases E. injection E as <-. split; [done|]. split; [done|].
    cbn -[update_where fetchone]. rewrite fetchone_update_where by done. rewrite Eo. cbn.
    apply fetchone_some in Eo as [_ Eo]. rewrite Eo. eexists. split; [reflexivity|]. cbn.
    split_and!; try done. by destruct email.
  - unfold insert_unique in E. step_ok E as rows w1 Hr. injection Hr as <- <-. ok_cases E. injection E as <-.
    split; [done|]. split; [done|]. cbn -[fetchone]. rewrite fetchone_app, Eo. cbn. rewrite String.eqb_refl.
    eexists. split; [reflexivity|]. by split_and!.
Qed.

(** The last step of every call that writes. *)
Lemma stores_then p id w w' r :
  id = provision_id p ->
  row_of (w_db w) id = Some r -> idn_tenant_id r = tenant_of p -> identity_unchanged p r = true ->
  (let! _ := ensure_principal_stores p id in ret id) w = (Ok id, w') ->
  ensure_identity_for_principal p w' = (Ok id, w').
Proof.
  intros Hid Hr Ht Hu E. destruct (settles_principal_stores p id w) as (w1 & E1 & _ & _ & Hi & Again).
  unfold bind in E. rewrite E1 in E. injection E as <-.
  unfold ensure_identity_for_principal. cbv zeta. rewrite <-Hid. unfold bind at 1, query, gets.
  assert (fetchone (fun r => (idn_id r =s id) && (idn_tenant_id r =s tenant_of p)) (db_identities (w_db w1)) = Some r) as ->.
  { rewrite Hi. apply (fetchone_refine (fun r => idn_id r =s id)); [exact Hr | by apply String.eqb_eq]. }
  rewrite Hu. unfold bind at 1. destruct (_ <=? _)%nat; [done|]. unfold bind. by rewrite (Again w1).
Qed.
End Upsert.

Section Theorems.
Context `{!Runtime}.

(** The operator's superadmins are enforced, once.  If their assignment ids
    do not collide, [ensure_platform_superadmins] never fails; afterwards each
    of them has an unrevoked platform_admin assignment for the tenant, and
    running it again changes nothing at all (no row, no audit event). *)
Theorem superadmins_enforced_once tenant w :
  (forall s s', s ∈ superadmin_subjects -> s' ∈ superadmin_subjects ->
     superadmin_id tenant s = superadmin_id tenant s' -> s = s') ->
  exists w', ensure_platform_superadmins tenant w = (Ok tt, w') /\
    (forall s, s ∈ superadmin_subjects -> exists r,
       fetchone (fun r => ra_id r =s superadmin_id tenant s) (db_role_assignments (w_db w')) = Some r /\
       ra_role r = "platform_admin" /\ ra_subject_type r = "user" /\ ra_subject_id r = s /\
       ra_scope_type r = "tenant" /\ ra_scope_id r = tenant /\ ra_revoked_at r = None) /\
    ensure_platform_superadmins tenant w' = (Ok tt, w').
Proof.
  unfold ensure_platform_superadmins. fold (enforce_superadmin tenant).
  change (fun subject => enforce_role _ _ _ subject _ _ _ _ _ _) with (enforce_superadmin tenant).
  intros Hinj.
  assert (forall l w, (forall s, s ∈ l -> s ∈ superadmin_subjects) ->
    exists w', forM l (enforce_superadmin tenant) w = (Ok tt, w') /\
      (forall s, s ∈ superadmin_subjects -> s ∈ l \/ recognized tenant s (w_db w) = true ->
         recognized tenant s (w_db w') = true)) as Hrun.
  { clear w. induction l as [|s l IH]; intros w Hl.
    - exists w. split; [done|]. intros s _ [[]%elem_of_nil|?]; done.
    - destruct (enforce_superadmin_ok tenant s w) as (w1 & E1 & Hs & Hother).
      destruct (IH w1) as (w' & E & Hall); [intros s' ?; apply Hl; by right|].
      exists w'. split; [cbn; unfold bind; by rewrite E1|]. intros s' Hs' Hor. apply Hall; [done|].
      destruct (string_dec s' s) as [->|Hne]; [by right|].
      destruct Hor as [[?|?]%elem_of_cons|Hrec]; [done | by left | right].
      unfold recognized in *. rewrite Hother; [done|]. intros Eid. apply Hne.
      apply Hinj; [done | apply Hl; by left | done]. }
  destruct (Hrun superadmin_subjects w (fun s Hs => Hs)) as (w' & E & Hall).
  exists w'. split; [exact E|]. split.
  - intros s Hs. specialize (Hall s Hs (or_introl Hs)). unfold recognized in Hall.
    destruct (fetchone _ _) as [r|]; [|discriminate Hall]. exists r. split; [done|].
    unfold role_correct in Hall. cbn in Hall.
    repeat match goal with H : _ && _ = true |- _ => apply andb_true_iff in H as [H ?] end.
    repeat match goal with H : (_ =s _) = true |- _ => apply String.eqb_eq in H end.
    destruct (ra_revoked_at r); [done|]. by split_and!.
  - assert (forall l, (forall s, s ∈ l -> s ∈ superadmin_subjects) ->
      forM l (enforce_superadmin tenant) w' = (Ok tt, w')) as Hid; [|by apply Hid].
    induction l as [|s l IH]; intros Hl; [done|]. cbn. unfold bind.
    rewrite enforce_recognized; [apply IH; intros; apply Hl; by right|].
    apply Hall; [apply Hl; by left | left; apply Hl; by left].
Qed.

(** C19: provisioning settles.  After a successful call, if the provisioned row
    is a human identity of the principal's tenant, a second call with the same
    principal returns the same identity and changes nothing. *)
Theorem provisioning_settles p w id w' :
  ensure_identity_for_principal p w = (Ok id, w') ->
  (forall r, row_of (w_db w') id = Some r -> idn_identity_type r = "human" /\ idn_tenant_id r = tenant_of p) ->
  id = provision_id p /\ ensure_identity_for_principal p w' = (Ok id, w').
Proof.
  intros E Hhuman. assert (id = provision_id p) as Hid.
  { unfold ensure_identity_for_principal in E. cbv zeta in E. step_ok E as row w1 Hr.
    ok_cases E; repeat (step_ok E as ? ? ?); try (case_match; [by injection E as <- _|]);
      repeat (step_ok E as ? ? ?); by injection E as <- _. }
  split; [exact Hid|]. pose proof E as Erun. unfold ensure_identity_for_principal in E. cbv zeta in E.
  rewrite <-Hid in E. step_ok E as row w1 Hr. injection Hr as Hr <-.
  assert (forall w0 r, row_of (w_db w0) id = Some r -> identity_unchanged p r = true \/ 
      (idn_identity_type r = "human" -> identity_unchanged p r = true) ->
    (let! _ := ensure_principal_stores p id in ret id) w0 = (Ok id, w') ->
    ensure_identity_for_principal p w' = (Ok id, w')) as Hfinish.
  { intros w0 r Hrow Hu Hrun. assert (row_of (w_db w') id = Some r) as Hrow'.
    { destruct (settles_principal_stores p id w0) as (w1 & E1 & _ & _ & Hi & _).
      unfold bind in Hrun. rewrite E1 in Hrun. injection Hrun as <-. unfold row_of. by rewrite Hi. }
    destruct (Hhuman r Hrow') as [Hty Htn].
    apply (stores_then p id w0 w' r); try done. destruct Hu as [?|Hu]; auto. }
  assert (forall w0, (let! _ := ensure_default_tenant DEFAULT_TENANT in
      let! _ := upsert_identity p id (tenant_of p) (provision_email p) in
      let! _ := ensure_principal_stores p id in ret id) w0 = (Ok id, w') ->
    ensure_identity_for_principal p w' = (Ok id, w')) as Hslow.
  { intros w0 Hrun. step_ok Hrun as t wd Hd. step_ok Hrun as [] wu Hup.
    apply upsert_ok in Hup as (_ & _ & r & Hrow & Ha & Hn & Hdis & Hem & Hraw).
    apply (Hfinish wu r Hrow); [right | exact Hrun]. intros Hty.
    unfold identity_unchanged. rewrite Hn, Hdis, Hty, Ha, Hraw. unfold sql_eq. rewrite oeqb_refl, !String.eqb_refl.
    destruct (provision_email p) as [e|]; [|done]. rewrite Hem by done. by rewrite oeqb_refl. }
  destruct row as [r|]; [destruct (identity_unchanged p r) eqn:Eu|]; [|by eapply Hslow..].
  step_ok E as n w1 Hn. injection Hn as Hn <-. destruct (2 <=? n)%nat; [by injection E as <-|].
  assert (exists r0, row_of (w_db w) id = Some r0) as [r0 Hr0].
  { apply fetchone_some in Hr as [Hin [Hp _]%andb_true_iff].
    destruct (fetchone_is_some (fun r => idn_id r =s id) _ r Hin Hp) as [r0 Hr0]. by exists r0. }
  apply (Hfinish w r0 Hr0); [left | exact E].
  assert (idn_tenant_id r0 = tenant_of p) as Ht.
  { destruct (settles_principal_stores p id w) as (w1 & E1 & _ & _ & Hi & _).
    unfold bind in E. rewrite E1 in E. injection E as <-. apply (Hhuman r0). unfold row_of. by rewrite Hi. }
  assert (Some r0 = Some r) as [= ->]; [|exact Eu].
  rewrite <-Hr. symmetry. apply (fetchone_refine (fun r => idn_id r =s id)); [exact Hr0 | by apply String.eqb_eq].
Qed.

(** Provisioning re-activates.  Whatever was recorded about the identity it
    provisions, a successful call leaves it active: an administrator who
    disabled it with [active = 0] is overruled by the principal's next contact. *)
Theorem provisioning_reactivates p w id w' r :
  ensure_identity_for_principal p w = (Ok id, w') ->
  row_of (w_db w) (provision_id p) = Some r -> idn_tenant_id r = tenant_of p -> idn_active r = 0%Z ->
  exists r', row_of (w_db w') (provision_id p) = Some r' /\ idn_active r' = 1%Z /\ idn_user_name r' = p_subject p.
Proof.
  intros E Hr Ht Hoff. unfold ensure_identity_for_principal in E. cbv zeta in E. set (i := provision_id p) in *.
  step_ok E as row w1 Hrow. injection Hrow as Hrow <-.
  assert (match row with Some r => identity_unchanged p r | None => false end = false) as Hno.
  { destruct row as [r0|]; [|done].
    destruct (identity_unchanged p r0) eqn:Eu; [|done]. exfalso.
    assert (idn_active r0 = 1%Z) as Hon.
    { unfold identity_unchanged in Eu. repeat (apply andb_true_iff in Eu as [Eu ?]). by apply Z.eqb_eq. }
    assert (Some r = Some r0) as [= ->]; [|rewrite Hon in Hoff; discriminate Hoff].
    rewrite <-Hrow. symmetry. apply (fetchone_refine (fun r => idn_id r =s i)); [exact Hr | by apply String.eqb_eq]. }
  rewrite Hno in E. step_ok E as t wd Hd. step_ok E as [] wu Hup. apply upsert_ok in Hup as (_ & _ & r' & Hr' & Ha & Hn & _).
  destruct (settles_principal_stores p i wu) as (w1 & E1 & _ & _ & Hi & _).
  unfold bind in E. rewrite E1 in E. injection E as _ <-. exists r'. unfold row_of. by rewrite Hi.
Qed.
End Theorems.

(** ** Concrete inputs *)
Module IdentityDemo.
#[export] Existing Instance Demo.runtime.
Definition start : World := Demo.world empty_db.
(** Someone who signs in as the placeholder, with no role of their own. *)
Definition stranger : Principal :=
  mkPrincipal "admin@example.com" "asg" None None None None [] [] [] true false false.
Definition disabled_alice : IdentityRow :=
  mkIdentityRow "idn_1" "asg" None "alice@example.com" None None "human" None 0 "{}" "2026-07-18 00:00:00" "2026-07-19 00:00:00".
Definition alice : Principal := upd p_identity_id (Some "idn_1") Demo.alice.
Definition offboarded : World := Demo.world (upd db_identities [disabled_alice] empty_db).
End IdentityDemo.

Section Witnesses.
Import IdentityDemo.

(** An unconfigured host has a superadmin.  With no environment variable
    set at all, the superadmins are the placeholder address, and after the
    enforcement a principal with that subject, who had no access before, may
    manage the tenant (the documentation promises that an unset variable grants
    nobody). *)
Theorem unconfigured_host_grants_placeholder :
  (forall k, environ k = None) /\ superadmin_subjects = ["admin@example.com"] /\
  is_disabled (w_db start) stranger = false /\
  (exists why, (evaluate_access stranger "manage" None (Some "tenant:asg") true start).1 = Ok (false, Some why)) /\
  (evaluate_access stranger "manage" None (Some "tenant:asg") true
     (ensure_platform_superadmins "asg" start).2).1 = Ok (true, None).
Proof.
  split; [reflexivity|]. split; [reflexivity|]. split; [reflexivity|].
  split; [eexists; vm_compute; reflexivity | vm_compute; reflexivity].
Qed.

Lemma superadmins_enforced_once_witness :
  exists w', ensure_platform_superadmins "asg" start = (Ok tt, w') /\
    ensure_platform_superadmins "asg" w' = (Ok tt, w').
Proof.
  destruct (superadmins_enforced_once "asg" start) as (w' & E & _ & Again).
  - intros s s' Hs Hs' _. assert (superadmin_subjects = ["admin@example.com"]) as Hl by reflexivity.
    rewrite Hl in Hs, Hs'. apply list_elem_of_singleton in Hs, Hs'. by rewrite Hs, Hs'.
  - exists w'. split; [exact E | exact Again].
Defined.

Lemma provisions : is_ok (ensure_identity_for_principal alice offboarded).1 = true.
Proof. vm_compute. reflexivity. Qed.

Lemma provisioning_settles_witness :
  exists w', ensure_identity_for_principal alice offboarded = (Ok "idn_1", w') /\
    ensure_identity_for_principal alice w' = (Ok "idn_1", w').
Proof.
  destruct (ensure_identity_for_principal alice offboarded) as [r w'] eqn:E.
  pose proof provisions as Hok. rewrite E in Hok. destruct r as [id|e]; [|discriminate Hok].
  assert (id = "idn_1") as -> .
  { transitivity (match (ensure_identity_for_principal alice offboarded).1 with Ok i => i | _ => "" end);
      [by rewrite E | vm_compute; reflexivity]. }
  exists w'. split; [reflexivity|]. refine (proj2 (provisioning_settles alice offboarded "idn_1" w' E _)).
  intros r Hr. assert (w' = (ensure_identity_for_principal alice offboarded).2) as Hw by by rewrite E.
  rewrite Hw in Hr. vm_compute in Hr. injection Hr as <-. split; reflexivity.
Defined.

Lemma provisioning_reactivates_witness :
  exists w' r', ensure_identity_for_principal alice offboarded = (Ok "idn_1", w') /\
    row_of (w_db w') "idn_1" = Some r' /\ idn_active r' = 1%Z.
Proof.
  destruct (ensure_identity_for_principal alice offboarded) as [r w'] eqn:E.
  pose proof provisions as Hok. rewrite E in Hok. destruct r as [id|e]; [|discriminate Hok].
  destruct (provisioning_reactivates alice offboarded id w' disabled_alice E eq_refl eq_refl eq_refl)
    as (r' & Hr' & Ha & _).
  assert (id = "idn_1") as ->.
  { transitivity (match (ensure_identity_for_principal alice offboarded).1 with Ok i => i | _ => "" end);
      [by rewrite E | vm_compute; reflexivity]. }
  exists w', r'. split; [reflexivity | split; [exact Hr' | exact Ha]].
Defined.
End Witnesses.
