(* ===== verification/StoreProps.v ===== *)
(** * Shares, roles and memberships

    A share gives at most what its author has and reaches its recipient; what
    revocation removes; and who may change roles and memberships. *)

From Stdlib Require Import ZArith Ascii String Lia.
From stdpp Require Import base option list strings gmap.
From S2P Require Import Prelude Sha256 PyStr Json Clock Db Models AccessControl AccessSpec AccessProps.
From S2P Require Import RegistryLog Superadmin Identity Stores RolesOrgs.
Local Open Scope string_scope.
Local Open Scope list_scope.

#[local] Opaque sha256_hex stable_id.

Section Access.
Context `{!Runtime}.

Lemma undecided_db {A} (f : DB -> A) w w' :
  (forall d, f d = f (upd db_policy_decisions [] d)) -> undecided w' = undecided w -> f (w_db w') = f (w_db w).
Proof. intros Hf Hu. rewrite (Hf (w_db w')), (Hf (w_db w)). exact (f_equal (fun u => f u.1.1.1) Hu). Qed.

(** What an allowed request means on the database, and the world it leaves. *)
Definition allowed_on (w : World) (p : Principal) (right : string) (cap : option Capability) (res : option string) : Prop :=
  access (w_db w) (utc_text (w_clock w)) p right cap res = Ok (true, None).

Lemma allowed_on_undecided w w' p right cap res :
  undecided w' = undecided w -> allowed_on w' p right cap res <-> allowed_on w p right cap res.
Proof.
  intros Hu. unfold allowed_on. assert (w_clock w' = w_clock w) as -> by exact (f_equal (fun u => u.1.2) Hu).
  by rewrite (undecided_db (fun d => access d (utc_text (w_clock w)) p right cap res) _ _ (fun _ => eq_refl) Hu).
Qed.

Lemma access_evaluate_inv p right cap res audit w b o w' :
  coherent w -> evaluate_access p right cap res audit w = (Ok (b, o), w') ->
  undecided w' = undecided w /\ coherent w' /\ (b = true -> allowed_on w p right cap res).
Proof.
  intros Hw E. split; [exact (keeps_run _ _ _ _ _ (evaluate_undecided p right cap res audit) E)|].
  destruct (evaluate_access_spec p right cap res audit w Hw) as [Hres (_ & _ & _ & Hco)].
  rewrite E in Hres, Hco. cbn [fst snd] in Hres, Hco. split; [by apply Hco|]. intros ->. unfold allowed_on.
  rewrite <-Hres. apply eq_sym, access_allowed in Hres as (_ & _ & -> & _). done.
Qed.

Lemma require_inv p right cap res w w' :
  coherent w -> require_access p right cap res w = (Ok tt, w') ->
  undecided w' = undecided w /\ coherent w' /\ allowed_on w p right cap res.
Proof.
  intros Hw E. unfold require_access in E. step_ok E as [b o] w1 Hev.
  destruct (access_evaluate_inv _ _ _ _ _ _ _ _ _ Hw Hev) as (Hu & Hc & Hb). destruct b; [|discriminate E].
  injection E as <-. auto.
Qed.

Lemma own_rights_inv p c rights w w' :
  coherent w -> forM rights (require_own_right p c) w = (Ok tt, w') ->
  undecided w' = undecided w /\ coherent w' /\ forall right, right ∈ rights -> allowed_on w p right (Some c) None.
Proof.
  revert w. induction rights as [|right rights IH]; intros w Hw E.
  - injection E as <-. split_and!; [done..|]. by intros right ?%elem_of_nil.
  - cbn [forM] in E. step_ok E as [] w1 H1. unfold require_own_right in H1. step_ok H1 as [b o] w2 Hev.
    destruct (access_evaluate_inv _ _ _ _ _ _ _ _ _ Hw Hev) as (Hu & Hc & Hb). destruct b; [|discriminate H1].
    injection H1 as <-. destruct (IH _ Hc E) as (Hu' & Hc' & Hall). split; [congruence|]. split; [done|].
    intros r [->|Hr]%elem_of_cons; [by apply Hb|]. by apply (allowed_on_undecided _ _ _ _ _ _ Hu), Hall.
Qed.
End Access.

Section Shares.
Context `{!Runtime}.

(** The tuples a share inserts are there afterwards. *)
Lemma insert_tuple_there tn obj rel user src w :
  exists w', insert_tuple tn obj rel user src w = (Ok tt, w') /\
    exists_where (tuple_clash tn obj rel user) (db_relationship_tuples (w_db w')) = true /\
    (exists more, db_relationship_tuples (w_db w') = db_relationship_tuples (w_db w) ++ more) /\
    db_shares (w_db w') = db_shares (w_db w).
Proof.
  eexists. split; [reflexivity|]. cbn. destruct (exists_where _ (db_relationship_tuples (w_db w))) eqn:E; cbn.
  - split; [exact E|]. split; [exists []; by rewrite List.app_nil_r | done].
  - split; [|by split; [eexists|]]. rewrite exists_where_app, E. cbn. unfold tuple_clash. cbn.
    by rewrite !String.eqb_refl.
Qed.

Lemma insert_tuples_there tn obj user src rights w :
  exists w', forM rights (fun right => insert_tuple tn obj right user src) w = (Ok tt, w') /\
    (forall right, right ∈ rights ->
       exists_where (tuple_clash tn obj right user) (db_relationship_tuples (w_db w')) = true) /\
    (exists more, db_relationship_tuples (w_db w') = db_relationship_tuples (w_db w) ++ more) /\
    db_shares (w_db w') = db_shares (w_db w).
Proof.
  revert w. induction rights as [|right rights IH]; intros w.
  - exists w. split; [done|]. split; [by intros ? ?%elem_of_nil|]. split; [exists []; by rewrite List.app_nil_r | done].
  - destruct (insert_tuple_there tn obj right user src w) as (w1 & E1 & Hex & [more1 Hm1] & Hs1).
    destruct (IH w1) as (w' & E & Hall & [more2 Hm2] & Hs2). exists w'.
    split; [cbn [forM]; unfold bind; by rewrite E1|]. split.
    + intros r [->|Hr]%elem_of_cons; [|by apply Hall]. by rewrite Hm2, exists_where_app, Hex.
    + split; [|congruence]. exists (more1 ++ more2). by rewrite Hm2, Hm1, <-List.app_assoc.
Qed.

Lemma identity_keeps_grants p :
  keeps (fun w => (tbl db_shares w, tbl db_relationship_tuples w)) (ensure_identity_for_principal p).
Proof.
  unfold keeps, ensure_identity_for_principal, ensure_principal_stores, ensure_personal_store,
    upsert_identity, ensure_default_tenant, bootstrap_tenant_row, bootstrap_default_identity,
    bootstrap_user_stores, bootstrap_org, insert_org_store, bootstrap_system, bootstrap_all_users,
    insert_store, insert_namespace. solve_frame.
Qed.

Lemma write_share_ok p tenant uri ty id rights payload w share_id w' :
  write_share p tenant uri ty id rights payload w = (Ok share_id, w') ->
  (exists s, db_shares (w_db w') = db_shares (w_db w) ++ [s] /\ sh_id s = share_id /\ sh_tenant_id s = tenant /\
     sh_capability_uri s = uri /\ sh_subject_type s = ty /\ sh_subject_id s = id /\
     sh_rights_json s = json_dumps (jstrs rights) /\ sh_state s = "active" /\ sh_revoked_at s = None) /\
  (forall right, right ∈ rights ->
     exists_where (tuple_clash tenant uri right (ty +:+ ":" +:+ id)) (db_relationship_tuples (w_db w')) = true).
Proof.
  unfold write_share. intros E. step_ok E as from w1 G1.
  apply (keeps_run _ _ _ _ _ (identity_keeps_grants p)) in G1.
  pose proof (f_equal fst G1) as Hshares. cbn in Hshares. unfold tbl in Hshares. clear G1.
  step_ok E as sid w2 G2. injection G2 as _ <-. step_ok E as ex w2 G2. injection G2 as _ <-.
  step_ok E as now w2 G2. injection G2 as _ <-. step_ok E as [] w2 G2. injection G2 as <-.
  step_ok E as [] w3 G3.
  match type of G3 with forM _ _ ?u = _ =>
    destruct (insert_tuples_there tenant uri (ty +:+ ":" +:+ id) "share" rights u) as (w4 & E4 & Hall & _ & Hs) end.
  rewrite E4 in G3. injection G3 as ->. step_ok E as [] w5 G5. injection G5 as <-. injection E as <- <-.
  split; [|exact Hall]. cbn -[json_dumps]. rewrite Hs. cbn -[json_dumps]. rewrite Hshares.
  eexists. split; [reflexivity|]. by split_and!.
Qed.

(** A principal named by a tuple for the right is granted it. *)
Lemma tuple_allows u q right c tenant user :
  coherent u -> rights_readable (w_db u) (Some c) = true -> right ∈ RIGHTS ->
  exists_where (tuple_clash tenant (c_uri c) right user) (db_relationship_tuples (w_db u)) = true ->
  access_tenant q (Some c) = tenant -> user ∈ subject_refs q ->
  refusal (w_db u) q right (Some c) None = None -> allowed_on u q right (Some c) None.
Proof.
  intros Hu Hread Hright Hex Ht Huser Hre. unfold allowed_on.
  destruct (access_iff (w_db u) (utc_text (w_clock u)) q right (Some c) None Hread Hright) as (b & o & E & Hb & Ho).
  assert (b = true) as ->; [|rewrite E; do 2 f_equal; by apply Ho].
  apply Hb. split; [exact Hre|]. apply exists_where_true in Hex as (t & Hin & Hclash).
  unfold tuple_clash in Hclash.
  repeat match goal with H : _ && _ = true |- _ => apply andb_true_iff in H as [H ?] end.
  repeat match goal with H : (_ =s _) = true |- _ => apply String.eqb_eq in H end. subst.
  eapply (by_tuple _ _ _ _ _ _ t); try done.
  - replace (rt_object t) with (c_uri c) by congruence. apply list_elem_of_here.
  - left.
Qed.
End Shares.

Section Revocation.
Context `{!Runtime}.

Lemma fetchall_update_other {A} (p q : A -> bool) f t :
  (forall r, q r = true -> p r = false /\ p (f r) = false) -> fetchall p (update_where q f t) = fetchall p t.
Proof.
  intros Hpq. induction t as [|r t IH]; [done|]. cbn. destruct (q r) eqn:Eq.
  - destruct (Hpq r Eq) as [-> ->]. exact IH.
  - destruct (p r); [f_equal|]; exact IH.
Qed.

Lemma delete_tuples_gone tn obj user rights w w' :
  forM rights (delete_share_tuple tn obj user) w = (Ok tt, w') ->
  (forall right t, JStr right ∈ rights -> t ∈ db_relationship_tuples (w_db w') ->
     rt_tenant_id t = tn -> rt_object t = obj -> rt_relation t = right -> rt_user t = user ->
     rt_source t = "share" -> False) /\
  db_shares (w_db w') = db_shares (w_db w).
Proof.
  intros E. assert (db_shares (w_db w') = db_shares (w_db w)) as Hs.
  { assert (keeps (tbl db_shares) (forM rights (delete_share_tuple tn obj user))) as Hk
      by (unfold keeps, delete_share_tuple; solve_frame).
    exact (keeps_run _ _ _ _ _ Hk E). }
  split; [|exact Hs]. clear Hs.
  assert (forall w rights, forM rights (delete_share_tuple tn obj user) w = (Ok tt, w') ->
    forall t, t ∈ db_relationship_tuples (w_db w') -> t ∈ db_relationship_tuples (w_db w)) as Hsub.
  { clear. intros w rights. revert w. induction rights as [|r rights IH]; intros w E t Ht; [by injection E as <-|].
    cbn [forM] in E. step_ok E as [] w1 G. specialize (IH _ E t Ht). unfold delete_share_tuple in G.
    step_ok G as rel w2 G1. injection G1 as _ <-. destruct rel as [rel|]; injection G as <-; [|done].
    cbn -[delete_where] in IH. by apply elem_of_delete_where in IH as [_ ?]. }
  revert w E. induction rights as [|r rights IH]; intros w E right t Hin Ht Htn Hobj Hrel Huser Hsrc.
  - by apply elem_of_nil in Hin.
  - cbn [forM] in E. step_ok E as [] w1 G. apply elem_of_cons in Hin as [<-|Hin]; [|by eapply IH].
    apply (Hsub _ _ E) in Ht. unfold delete_share_tuple in G. step_ok G as rel w2 G1. injection G1 as <- <-.
    injection G as <-. cbn -[delete_where] in Ht. apply elem_of_delete_where in Ht as [Hno _].
    revert Hno. by rewrite Htn, Hobj, Hrel, Huser, Hsrc, !String.eqb_refl.
Qed.
End Revocation.

Section Roles.
Context `{!Runtime}.

(** The rights that authorize changes of memberships: manage on the
    organization's store, or on the tenant. *)
Lemma require_org_manage_inv p org msg w w' :
  coherent w -> require_org_manage p org msg w = (Ok tt, w') ->
  undecided w' = undecided w /\
  (allowed_on w p "manage" None (Some ("store:" +:+ match org_store_id org with Some s => s | None => "None" end)) \/
   allowed_on w p "manage" None (Some ("tenant:" +:+ tenant_of p))).
Proof.
  intros Hw E. unfold require_org_manage in E. step_ok E as [b o] w1 G1.
  destruct (access_evaluate_inv _ _ _ _ _ _ _ _ _ Hw G1) as (Hu1 & Hc1 & Hb1).
  destruct b; [injection E as <-; split; [done | left; by apply Hb1]|].
  step_ok E as [b' o'] w2 G2. destruct (access_evaluate_inv _ _ _ _ _ _ _ _ _ Hc1 G2) as (Hu2 & _ & Hb2).
  destruct b'; [|discriminate E]. injection E as <-. split; [congruence|]. right.
  apply (allowed_on_undecided _ _ _ _ _ _ Hu1). by apply Hb2.
Qed.

Lemma resolve_org_inv t ref w org w' :
  _resolve_org t ref w = (Ok org, w') ->
  w' = w /\ org ∈ db_organizations (w_db w) /\ org_tenant_id org = t /\
  (org_id org = ref \/ org_slug org = ref \/ org_store_id org = Some ref).
Proof.
  unfold _resolve_org. intros E. ok_cases E. step_ok E as row w1 G. injection G as G <-.
  destruct row as [r|]; [|discriminate E]. injection E as <- <-. split; [done|].
  apply fetchone_some in G as [Hin [Ht%String.eqb_eq Hr]%andb_true_iff]. split; [done|]. split; [done|].
  apply orb_true_iff in Hr as [[Hr%String.eqb_eq|Hr%String.eqb_eq]%orb_true_iff|Hr%oeqb_eq]; auto.
Qed.
End Roles.

Section Theorems.
Context `{!Runtime}.

(** C17: a share is bounded by its author and reaches its recipient.  When
    [create_share] succeeds, the author was allowed to share the capability and
    held every right it shares, all of them supported rights; one active share
    is appended, of the capability, the rights and the recipient of the request,
    and everything is committed; and from then on each principal of the tenant
    who goes by the recipient's name is allowed each shared right, unless a
    refusal (such as an explicit deny) applies. *)
Theorem share_bounded_and_effective p payload w record w' :
  coherent w -> create_share p payload w = (Ok record, w') ->
  let uri := str_get2 payload "capabilityUri" "uri" "" in
  let ty := str_get payload "subjectType" "user" in let id := str_get payload "subjectId" "" in
  id <> "" /\
  exists row c rights s,
    capability_row (w_db w) uri (tenant_of p) = Some row /\ capability_from_row row = Ok c /\
    requested_rights payload = Ok rights /\ rights <> [] /\ (forall right, right ∈ rights -> right ∈ RIGHTS) /\
    allowed_on w p "share" (Some c) None /\
    (forall right, right ∈ rights -> allowed_on w p right (Some c) None) /\
    db_shares (w_db w') = db_shares (w_db w) ++ [s] /\ sh_state s = "active" /\ sh_tenant_id s = tenant_of p /\
    sh_capability_uri s = uri /\ sh_subject_type s = ty /\ sh_subject_id s = id /\
    sh_rights_json s = json_dumps (jstrs rights) /\ w_disk w' = w_db w' /\
    (forall u q right, w_db u = w_db w' -> coherent u -> rights_readable (w_db u) (Some c) = true ->
       right ∈ rights -> access_tenant q (Some c) = tenant_of p -> (ty +:+ ":" +:+ id) ∈ subject_refs q ->
       refusal (w_db u) q right (Some c) None = None -> allowed_on u q right (Some c) None).
Proof.
  intros Hw E uri ty id. unfold create_share in E. cbv zeta in E. fold uri ty id in E. ok_cases E.
  step_ok E as row w1 G. injection G as G <-. destruct row as [row|]; [|discriminate E].
  step_ok E as c w1 Hc. injection Hc as Hc <-.
  step_ok E as [] w1 G1. destruct (require_inv _ _ _ _ _ _ Hw G1) as (Hu1 & Hc1 & Hshare).
  step_ok E as rights w2 G2. injection G2 as G2 <-. ok_cases E. rename E1 into Hrights.
  step_ok E as [] w2 G3. destruct (own_rights_inv _ _ _ _ _ Hc1 G3) as (Hu2 & _ & Hown). ok_cases E.
  step_ok E as sid w3 G4. apply write_share_ok in G4 as [(s & Hs & _ & Htn & Hu3 & Hty & Hid & Hj & Hst & _) Htuples].
  step_ok E as ev w4 G5. apply (keeps_run _ _ _ _ _ (audit_event_unlogged _ _ _ _ _ _ _ _ _)) in G5.
  step_ok E as [] w5 G6. injection G6 as <-. step_ok E as r w6 G7. injection G7 as _ <-. injection E as _ <-.
  assert (rights <> [] /\ forall right, right ∈ rights -> right ∈ RIGHTS) as [Hne Hsup].
  { destruct rights as [|r0 rs]; [discriminate Hrights|]. split; [done|]. intros right Hin.
    apply negb_false_iff in Hrights. rewrite List.forallb_forall in Hrights.
    apply smem_In, Hrights. by apply list_elem_of_In. }
  pose proof (f_equal (fun u => db_shares u.1.1.1) G5) as Hs5. cbn in Hs5.
  pose proof (f_equal (fun u => db_relationship_tuples u.1.1.1) G5) as Ht5. cbn in Ht5.
  assert (undecided w2 = undecided w) as Hu by congruence.
  split; [intros Hnil; unfold truthy in *; rewrite Hnil in *; discriminate|].
  exists row, c, rights, s. split_and!; try done.
  - intros right Hr. apply (allowed_on_undecided _ _ _ _ _ _ Hu1). by apply Hown.
  - cbn. rewrite Hs5, Hs. by rewrite (undecided_db db_shares _ _ (fun _ => eq_refl) Hu).
  - intros u q right Hdb Hcu Hread Hin Ht Hq Hre.
    apply (tuple_allows u q right c (tenant_of p) (ty +:+ ":" +:+ id));
      try done; [by apply Hsup|]. rewrite Hdb. cbn. rewrite Ht5.
    assert (c_uri c = uri) as ->; [|by apply Htuples].
    apply capability_from_row_ok in Hc as (_ & -> & _).
    apply fetchone_some in G as [_ [Hg _]%andb_true_iff]. by apply String.eqb_eq.
Qed.

(** What revoking a share removes.  When [revoke_share] succeeds, the caller
    was allowed to share the capability or is the share's author; the share is
    revoked, and no tuple written by a share to its subject for one of its
    stored rights is left; no other share is touched, and all is committed. *)
Theorem revoke_share_removes p share_id w record w' :
  coherent w -> revoke_share p share_id w = (Ok record, w') ->
  exists row c, fetchone (fun r => (sh_id r =s share_id) && (sh_tenant_id r =s p_tenant_id p)) (db_shares (w_db w)) = Some row /\
    (allowed_on w p "share" (Some c) None \/ sh_from_identity_id row = Some (identity_of p)) /\
    (forall s, s ∈ db_shares (w_db w') -> sh_id s = share_id -> sh_state s = "revoked" /\ sh_revoked_at s <> None) /\
    (forall id, id <> share_id -> fetchall (fun s => sh_id s =s id) (db_shares (w_db w'))
                                 = fetchall (fun s => sh_id s =s id) (db_shares (w_db w))) /\
    (forall t right rights, json_loads (Some (sh_rights_json row)) (JArr []) = JArr rights -> JStr right ∈ rights ->
       t ∈ db_relationship_tuples (w_db w') ->
       ~ (rt_tenant_id t = p_tenant_id p /\ rt_object t = sh_capability_uri row /\ rt_relation t = right /\
          rt_user t = sh_subject_type row +:+ ":" +:+ sh_subject_id row /\ rt_source t = "share")) /\
    w_disk w' = w_db w'.
Proof.
  intros Hw E. unfold revoke_share in E. cbv zeta in E.
  step_ok E as row w1 G. injection G as Hrow <-. destruct row as [row|]; [|discriminate E].
  step_ok E as cap w1 G. injection G as Hcap <-. destruct cap as [cap|]; [|discriminate E].
  step_ok E as c w1 G. injection G as Hc <-. step_ok E as [b o] w1 G1.
  destruct (access_evaluate_inv _ _ _ _ _ _ _ _ _ Hw G1) as (Hu & _ & Hb). ok_cases E. rename E0 into Hauth.
  step_ok E as now w2 G2. injection G2 as <- <-. step_ok E as [] w2 G2. injection G2 as <-.
  step_ok E as rights w2 G2. injection G2 as G2 <-. step_ok E as [] w3 G3.
  apply delete_tuples_gone in G3 as (Hgone & Hsh3).
  step_ok E as ev w4 G4. apply (keeps_run _ _ _ _ _ (audit_event_unlogged _ _ _ _ _ _ _ _ _)) in G4.
  step_ok E as [] w5 G5. injection G5 as <-. injection E as _ <-.
  pose proof (f_equal (fun u => db_shares u.1.1.1) G4) as Hs4. cbn in Hs4.
  pose proof (f_equal (fun u => db_relationship_tuples u.1.1.1) G4) as Ht4. cbn in Ht4.
  assert (db_shares (w_db w4) = update_where (fun r => sh_id r =s share_id)
    (fun r => upd sh_state "revoked" (upd sh_revoked_at (Some (sql_text_now (w_clock w1))) (upd sh_updated_at (sql_text_now (w_clock w1)) r)))
    (db_shares (w_db w))) as Hshares.
  { rewrite Hs4, Hsh3. cbn -[update_where].
    by rewrite (undecided_db db_shares _ _ (fun _ => eq_refl) Hu). }
  exists row, c. split; [exact Hrow|]. split_and!.
  - destruct b; [left; by apply Hb | right]. cbn [negb andb] in Hauth. apply negb_false_iff in Hauth.
    by apply oeqb_eq.
  - intros s Hin Hid. cbn in Hin. rewrite Hshares in Hin. apply elem_of_update_where in Hin as (s0 & _ & ->).
    destruct (sh_id s0 =s share_id) eqn:Eid; [split; [reflexivity | discriminate]|].
    by apply String.eqb_neq in Eid.
  - intros id Hid. cbn -[update_where]. rewrite Hshares. apply fetchall_update_other.
    intros s Hs%String.eqb_eq. apply not_eq_sym, String.eqb_neq in Hid. cbn. by rewrite Hs.
  - intros t right rs Hrs Hright Hin. cbn in Hin. rewrite Ht4 in Hin.
    assert (py_iter (json_loads (Some (sh_rights_json row)) (JArr [])) = Ok rights) as Hiter by exact G2.
    rewrite Hrs in Hiter. injection Hiter as <-. intros (? & ? & ? & ? & ?). by eapply Hgone.
  - reflexivity.
Qed.
(** Removing a member ends the membership.  When [remove_org_member]
    succeeds, the organization was found in the caller's tenant and the caller
    was allowed to manage its store or the tenant; afterwards the subject has no
    unrevoked assignment on that organization, every other assignment is as it
    was, and all is committed. *)
Theorem removed_member_has_no_membership p payload w record w' :
  coherent w -> remove_org_member p payload w = (Ok record, w') ->
  exists org subject_type subject_id,
    org ∈ db_organizations (w_db w) /\ org_tenant_id org = tenant_of p /\
    (allowed_on w p "manage" None (Some ("store:" +:+ match org_store_id org with Some s => s | None => "None" end)) \/
     allowed_on w p "manage" None (Some ("tenant:" +:+ tenant_of p))) /\
    (forall r, r ∈ db_role_assignments (w_db w') ->
       membership (tenant_of p) (org_id org) subject_type subject_id r = false) /\
    fetchall (fun r => negb (ra_scope_id r =s org_id org)) (db_role_assignments (w_db w'))
    = fetchall (fun r => negb (ra_scope_id r =s org_id org)) (db_role_assignments (w_db w)) /\
    w_disk w' = w_db w'.
Proof.
  intros Hw E. unfold remove_org_member in E. cbv zeta in E.
  step_ok E as org w1 G1. apply resolve_org_inv in G1 as (-> & Hin & Ht & _).
  step_ok E as [] w1 G1. destruct (require_org_manage_inv _ _ _ _ _ Hw G1) as [Hu Hauth]. ok_cases E.
  step_ok E as n w2 G2. injection G2 as _ <-. step_ok E as now w2 G2. injection G2 as _ <-.
  step_ok E as [] w2 G2. injection G2 as <-.
  step_ok E as ev w4 G4. apply (keeps_run _ _ _ _ _ (audit_event_unlogged _ _ _ _ _ _ _ _ _)) in G4.
  step_ok E as [] w5 G5. injection G5 as <-. injection E as _ <-.
  pose proof (f_equal (fun u => db_role_assignments u.1.1.1) G4) as Hr4. cbn -[update_where] in Hr4.
  exists org, (str_get payload "subjectType" "user"), (str_get2 payload "subjectId" "user" "").
  split_and!; try done; cbn -[update_where]; rewrite Hr4.
  - intros r (r0 & _ & ->)%elem_of_update_where. destruct (membership _ _ _ _ r0) eqn:Em; [|exact Em].
    unfold membership. cbn. by rewrite andb_false_r.
  - rewrite (undecided_db db_role_assignments _ _ (fun _ => eq_refl) Hu). apply fetchall_update_other.
    intros r Hr. unfold membership in Hr.
    repeat match goal with H : _ && _ = true |- _ => apply andb_true_iff in H as [H ?] end.
    cbn. by repeat match goal with H : (ra_scope_id r =s _) = true |- _ => rewrite H end.
Qed.

(** Who may assign roles.  When [assign_role] succeeds, the caller was
    allowed to manage the tenant, the role is one of the known ones, and one
    unrevoked assignment of that role, signed by the caller, is appended and
    committed; when it is refused for want of the right, no assignment is
    made and nothing is committed. *)
Theorem assign_role_spec p payload w r w' :
  coherent w -> assign_role p payload w = (r, w') ->
  match r with
  | Ok _ =>
      allowed_on w p "manage" None (Some ("tenant:" +:+ tenant_of p)) /\
      exists row, db_role_assignments (w_db w') = db_role_assignments (w_db w) ++ [row] /\
        smem (ra_role row) (ROLE_RIGHTS.*1) = true /\ ra_role row = str_get payload "role" "" /\
        ra_tenant_id row = tenant_of p /\ ra_subject_id row = str_get payload "subjectId" "" /\
        ra_created_by row = Some (p_subject p) /\ ra_revoked_at row = None /\ w_disk w' = w_db w'
  | Raise _ =>
      ~ allowed_on w p "manage" None (Some ("tenant:" +:+ tenant_of p)) ->
      db_role_assignments (w_db w') = db_role_assignments (w_db w) /\ w_disk w' = w_disk w
  end.
Proof.
  intros Hw E. destruct r as [d|e].
  - unfold assign_role in E. cbv zeta in E. step_ok E as [] w1 G1.
    destruct (require_inv _ _ _ _ _ _ Hw G1) as (Hu & _ & Hall). ok_cases E. rename E0 into Hrole.
    step_ok E as id w2 G2. injection G2 as _ <-. step_ok E as [] w2 G2.
    unfold insert_assignment in G2. step_ok G2 as ex w3 G3. injection G3 as _ <-.
    step_ok G2 as now w3 G3. injection G3 as _ <-. injection G2 as <-.
    step_ok E as [] w3 G3.
    assert (forall b o r u s, keeps (tbl db_role_assignments) (when b (insert_tuple (tenant_of p) o r u s))) as Hk
      by (intros; unfold keeps, insert_tuple; solve_frame).
    pose proof (keeps_run _ _ _ _ _ (Hk _ _ _ _ _) G3) as Hw3. unfold tbl in Hw3. cbn in Hw3.
    step_ok E as ev w4 G4. apply (keeps_run _ _ _ _ _ (audit_event_unlogged _ _ _ _ _ _ _ _ _)) in G4.
    step_ok E as [] w5 G5. injection G5 as <-. step_ok E as row w6 G6. injection G6 as _ <-. injection E as _ <-.
    pose proof (f_equal (fun u => db_role_assignments u.1.1.1) G4) as Hr4. cbn in Hr4.
    split; [exact Hall|]. cbn. rewrite Hr4, Hw3, (undecided_db db_role_assignments _ _ (fun _ => eq_refl) Hu).
    eexists. split; [reflexivity|]. apply negb_false_iff in Hrole. by split_and!.
  - intros Hno. unfold assign_role in E. cbv zeta in E.
    apply bind_raise_inv in E as [E|([] & w1 & G1 & _)].
    + apply (keeps_run _ _ _ _ _ (require_undecided p _ _ _)) in E.
      split; [exact (undecided_db db_role_assignments _ _ (fun _ => eq_refl) E) | exact (f_equal (fun u => u.1.1.2) E)].
    + exfalso. by destruct (require_inv _ _ _ _ _ _ Hw G1) as (_ & _ & Hall).
Qed.
End Theorems.

(** ** Concrete inputs *)
Module StoreDemo.
#[export] Existing Instance Demo.runtime.
Import AccessDemo.
Definition secret_row : CapRow := upd cp_visibility "secret" (Demo.cap_row "cap://x").
Definition start : World :=
  Demo.world (upd db_organizations [org] (upd db_role_assignments [member_of_org] (upd db_capabilities [secret_row] empty_db))).
Definition eve : Principal :=
  mkPrincipal "eve@example.com" "asg" None None None None [] [] [] true false false.
Definition share_request (expires : json) : dict :=
  [("capabilityUri", JStr "cap://x"); ("subjectId", JStr "eve@example.com");
   ("rights", jstrs ["load"]); ("expiresAt", expires)].
Definition shared : World := (create_share root (share_request JNull) start).2.
Definition revoke_request : string := "shr_uuid2".
Definition member_request : dict := [("org", JStr "org"); ("subjectId", JStr "alice@example.com")].
Definition role_request : dict := [("role", JStr "auditor"); ("subjectId", JStr "eve@example.com")].

Lemma start_coherent : coherent start.
Proof. by intros t s v Hl. Qed.
End StoreDemo.

Section Witnesses.
Import AccessDemo StoreDemo.

(** An expired share still grants.  A share whose expiry is long past is
    created without error; its expiry is not in force: the recipient, who had
    no access before, is allowed the shared right, through the relationship
    tuple that [create_share] writes without an expiry. *)
Theorem expired_share_still_grants :
  let w := (create_share root (share_request (JStr "2000-01-01T00:00:00Z")) start).2 in
  is_ok (create_share root (share_request (JStr "2000-01-01T00:00:00Z")) start).1 = true /\
  List.forallb (fun s => expired (sh_expires_at s) (utc_text (w_clock w))) (db_shares (w_db w)) = true /\
  (exists why, (evaluate_access eve "load" (Some cap) None true start).1 = Ok (false, Some why)) /\
  (evaluate_access eve "load" (Some cap) None true w).1 = Ok (true, None).
Proof.
  cbv zeta. split; [vm_compute; reflexivity|]. split; [vm_compute; reflexivity|].
  split; [eexists; vm_compute; reflexivity | vm_compute; reflexivity].
Qed.

Lemma share_bounded_and_effective_witness :
  exists d w', create_share root (share_request JNull) start = (Ok d, w') /\ w_disk w' = w_db w' /\
    exists c, allowed_on start root "share" (Some c) None /\ allowed_on w' eve "load" (Some c) None.
Proof.
  set (w := (create_share root (share_request JNull) start).2).
  assert (coherent w) as Hcw by (assert (w_org_cache w = ∅) as Hca by (vm_compute; reflexivity); intros t s v; rewrite Hca; intros Hv; discriminate Hv).
  assert (rights_readable (w_db w) (Some cap) = true) as Hread by (vm_compute; reflexivity).
  assert (refusal (w_db w) eve "load" (Some cap) None = None) as Href by (vm_compute; reflexivity).
  assert (is_ok (create_share root (share_request JNull) start).1 = true) as Hok by (vm_compute; reflexivity).
  destruct (create_share root (share_request JNull) start) as [r w'] eqn:E. change w with w' in *. destruct r as [d|e]; [|discriminate Hok].
  destruct (share_bounded_and_effective root _ _ _ _ start_coherent E)
    as (_ & row & c & rights & s & Hrow & Hc & Hr & _ & _ & Ha & _ & _ & _ & _ & _ & _ & _ & _ & Hk & Heff).
  exists d, w'. split; [reflexivity|]. split; [exact Hk|]. exists c. split; [exact Ha|].
  injection Hr as <-. injection Hrow as <-. injection Hc as <-.
  apply (Heff w' eve "load" eq_refl Hcw Hread); [apply list_elem_of_here | reflexivity | apply smem_In; reflexivity | exact Href].
Defined.

Lemma revoke_share_removes_witness :
  exists d w', revoke_share root revoke_request shared = (Ok d, w') /\ w_disk w' = w_db w'.
Proof.
  assert (coherent shared) as Hc.
  { assert (w_org_cache shared = ∅) as Hca by (vm_compute; reflexivity). intros t s v. rewrite Hca. intros Hv. discriminate Hv. }
  destruct (revoke_share root revoke_request shared) as [r w'] eqn:E.
  assert (is_ok (revoke_share root revoke_request shared).1 = true) as Hok by (vm_compute; reflexivity).
  rewrite E in Hok. destruct r as [d|e]; [|discriminate Hok].
  destruct (revoke_share_removes root _ _ _ _ Hc E) as (row & c & _ & _ & _ & _ & _ & Hk).
  exists d, w'. split; [reflexivity | exact Hk].
Defined.

Lemma removed_member_has_no_membership_witness :
  exists d w', remove_org_member root member_request start = (Ok d, w') /\ w_disk w' = w_db w'.
Proof.
  destruct (remove_org_member root member_request start) as [r w'] eqn:E.
  assert (is_ok (remove_org_member root member_request start).1 = true) as Hok by (vm_compute; reflexivity).
  rewrite E in Hok. destruct r as [d|e]; [|discriminate Hok].
  destruct (removed_member_has_no_membership root _ _ _ _ start_coherent E) as (o & ty & id & _ & _ & _ & _ & _ & Hk).
  exists d, w'. split; [reflexivity | exact Hk].
Defined.

Lemma assign_role_spec_witness :
  exists d w' row, assign_role root role_request start = (Ok d, w') /\
    db_role_assignments (w_db w') = [member_of_org; row] /\ ra_role row = "auditor".
Proof.
  destruct (assign_role root role_request start) as [r w'] eqn:E.
  assert (is_ok (assign_role root role_request start).1 = true) as Hok by (vm_compute; reflexivity).
  rewrite E in Hok. pose proof (assign_role_spec root role_request start r w' start_coherent E) as Hspec.
  destruct r as [d|e]; [|discriminate Hok]. destruct Hspec as (_ & row & Hrows & _ & Hrole & _).
  exists d, w', row. split; [reflexivity|]. split; [exact Hrows|]. rewrite Hrole. reflexivity.
Defined.
End Witnesses.
