(* ===== verification/QuarantineProps.v ===== *)
(** * What the quarantine store guarantees

    A release needs the newest valid scan attestation of the held content to be
    clean, a refused release changes nothing, and a settled item stays settled. *)

From Stdlib Require Import ZArith Ascii String Lia.
From stdpp Require Import base option list strings gmap.
From S2P Require Import Prelude Sha256 PyStr Regex Json Base64 JsonCodec Clock Db Models RegistryLog Gates Signing SourceGates MalwareScan.
From S2P Require Import Ordering Catalog CapGuardPolicy Quarantine Reviews ReviewProps.
Local Open Scope string_scope.
Local Open Scope list_scope.

#[local] Opaque sha256_hex.

(** The world after [con.commit()]. *)
Definition committed (w : World) : World := upd w_disk (w_db w) w.

Section Evidence.
Context `{!Runtime, !Machine, !UnicodeData}.

(** The scan that governs an item: the latest of its scan attestations over its
    content whose signature verifies under the trusted key. *)
Definition governing_scan (d : DB) (item : QuarantineRow) (tenant : string) (trust : option string) : option AttestationRow :=
  fetchone (fun a => (at_content_hash a =s qr_content_hash item) && verifies_at d (at_id a) trust)
    (scans_of d (qr_id item) tenant).

Definition clean_evidence (d : DB) (item : QuarantineRow) (tenant : string) (trust : option string) : option AttestationRow :=
  match governing_scan d item tenant trust with
  | Some a => if oeqb (at_verdict a) (Some "clean") then Some a else None
  | None => None
  end.

Lemma item_at_id d q t item : item_at d q t = Some item -> qr_id item = q /\ item ∈ db_capguard_quarantine d.
Proof. intros [Hin [->%String.eqb_eq _]%andb_true_iff]%fetchone_some. done. Qed.

Lemma verify_key_id a t :
  verify_attestation (signed_of a) (Some t) = true -> at_key_id a = t.
Proof.
  unfold verify_attestation. change (dget "keyId" (signed_of a)) with (Some (JStr (at_key_id a))).
  repeat case_match; intros Hv; try done; rewrite !andb_true_iff, !String.eqb_eq in Hv; destruct Hv as [_ Hv]; try done;
    destruct Hv as [[_ Hk] _]; exact Hk.
Qed.

Lemma clean_loop_eq item trust rows w :
  clean_loop item trust rows (committed w) =
  (Ok (match fetchone (fun a => (at_content_hash a =s qr_content_hash item) && verifies_at (w_db w) (at_id a) trust) rows with
       | Some a => if oeqb (at_verdict a) (Some "clean") then Some a else None
       | None => None
       end), committed w).
Proof.
  induction rows as [|a rows IH]; [reflexivity|]. cbn [clean_loop fetchone List.find].
  destruct (at_content_hash a =s qr_content_hash item); cbn [negb andb]; [|exact IH].
  unfold bind at 1. change (verify_attestation_record (at_id a) trust (committed w))
    with (@Ok bool (verifies_at (w_db w) (at_id a) trust), committed w). cbn iota beta.
  destruct (verifies_at _ _ _); cbn [negb]; [|exact IH]. by destruct (oeqb _ _).
Qed.

Lemma clean_attestation_eq q t trust w :
  clean_attestation q t trust w =
  (Ok (match item_at (w_db w) q (tenant_or_default t) with
       | Some item => clean_evidence (w_db w) item (tenant_or_default t) trust | None => None end), committed w).
Proof.
  unfold clean_attestation, ensure_quarantine_tables. unfold bind at 1. cbn iota beta.
  unfold get_item, ensure_quarantine_tables. cbn -[item_at scans_of verifies_at clean_loop oeqb].
  unfold bind, query, gets, commit, modify. cbn -[item_at scans_of verifies_at clean_loop oeqb].
  destruct (item_at _ _ _) as [item|] eqn:E; [|reflexivity].
  apply item_at_id in E as [<- _]. exact (clean_loop_eq item trust _ w).
Qed.

(** The key of the file configured for it, if it is one that may be used. *)
Definition configured_key_id (fs : gmap string FileNode) : option string :=
  match signing_key_path with
  | Ok path =>
      match fs !! path with
      | Some n => if is_regular n && fn_readable n && Z.eqb (fn_mode n) mode_600
                  then match load_pem (read_upto 65536 (fn_content n)) with
                       | Ok (Some key) => Some (key_id (ed_public key))
                       | _ => None
                       end
                  else None
      | None => None
      end
  | Raise _ => None
  end.
(** The anchor of a release: the given key, else the configured one. *)
Definition trust_anchor (given : option string) (fs : gmap string FileNode) : option string :=
  match given with Some k => Some k | None => configured_key_id fs end.
Lemma resolve_trust_run given w : resolve_trust given w = (Ok (trust_anchor given (w_files w)), w).
Proof.
  unfold resolve_trust. destruct given as [k|]; [done|].
  unfold trust_anchor, configured_key_id, try_except, trusted_signing_key_id, _read_private_key, os_open, file_at, bind, lift, gets, is_regular.
  destruct signing_key_path as [path|e]; [|done]. destruct (w_files w !! path) as [n|]; [|done].
  destruct n as [kind mode readable content]. cbn [fn_kind fn_mode fn_readable fn_content].
  destruct kind, readable; try done; cbn; (destruct (Z.eqb mode mode_600); [|done]); cbn; by destruct (load_pem (read_upto 65536 content)) as [[key|]|e].
Qed.
(** A scan that governs under a key was signed with it. *)
Lemma governing_signed d item tenant k scan : governing_scan d item tenant (Some k) = Some scan ->
  exists stored, stored ∈ db_capguard_attestations d /\ at_id stored = at_id scan /\ at_key_id stored = k /\
    verify_attestation (signed_of stored) (Some k) = true.
Proof.
  intros [_ [_ Hv]%andb_true_iff]%fetchone_some. unfold verifies_at in Hv. destruct (fetchone _ _) as [stored|] eqn:Ef; [|done].
  apply fetchone_some in Ef as [Hin Hid%String.eqb_eq]. exists stored. split_and!; try done. by apply verify_key_id.
Qed.
End Evidence.

(** ** Settling an item *)
Section Settling.
Context `{!Runtime, !Machine, !UnicodeData}.

(** The tables a settlement writes. *)
Definition holdings (w : World) : list QuarantineRow * list AttestationRow * list CapRow :=
  (db_capguard_quarantine (w_db w), db_capguard_attestations (w_db w), db_capabilities (w_db w)).

(** The common part of a release and of a rejection. *)
Definition settle (quarantine_id tenant : string) (item : QuarantineRow) (kind : string)
    (mark : string -> QuarantineRow -> QuarantineRow) (lifecycle state event : string) (actor reason : string)
    (payload : dict) (persist do_commit : bool) : Op dict :=
  let! envelope := _build_envelope kind item tenant None None None [] (Some actor) (Some reason) in
  let! signed := sign_attestation envelope persist in
  let! _ := _store_attestation tenant item kind signed envelope None None None [] (Some actor) (Some reason) false in
  let! now := sql_now in
  let! _ := update_rows db_capguard_quarantine (fun r => qr_id r =s quarantine_id) (mark now) in
  let! _ := settle_capability tenant item lifecycle state now in
  let! _ := _audit event actor quarantine_id kind payload tenant in
  let! _ := when do_commit commit in
  fetch_item quarantine_id.

Lemma sign_later envelope persist : preserves later (sign_attestation envelope persist).
Proof.
  unfold sign_attestation, load_or_create_signing_key, _write_new_key, make_key_directory, _read_private_key, os_open,
    set_file, file_at. solve_frame.
Qed.
#[local] Hint Resolve sign_later : frame.

Lemma audit_later ev actor target action payload tenant : preserves later (_audit ev actor target action payload tenant).
Proof. unfold _audit, audit_event, mirror_event. solve_frame. Qed.
#[local] Hint Resolve audit_later : frame.

Lemma store_later tenant item kind signed envelope verdict sid sver summary actor reason cm :
  preserves later (_store_attestation tenant item kind signed envelope verdict sid sver summary actor reason cm).
Proof. unfold _store_attestation. solve_frame. Qed.
#[local] Hint Resolve store_later : frame.

Lemma audit_silent ev actor target action payload tenant w :
  exists w', _audit ev actor target action payload tenant w = (Ok tt, w') /\ holdings w' = holdings w.
Proof.
  destruct (_audit ev actor target action payload tenant w) as [o w'] eqn:E.
  assert (holdings w' = holdings w) as Hh.
  { eapply keeps_run; [|exact E]. unfold keeps, _audit. solve_frame. }
  exists w'. split; [|done]. f_equal. revert E. unfold _audit, try_except.
  destruct (bind _ _ w) as [[[]|e] w0]; cbn; by intros [= <- _].
Qed.

(** The kind, subject and content a stored attestation carries. *)
Definition attests (a : AttestationRow) (item : QuarantineRow) (tenant kind : string) (verdict : option string) : Prop :=
  at_attestation_type a = kind /\ at_quarantine_id a = qr_id item /\ at_tenant_id a = tenant /\
  at_content_hash a = qr_content_hash item /\ at_verdict a = verdict.

Lemma column_text_str s : column_text (JStr s) = Ok s.
Proof. reflexivity. Qed.

Lemma store_attestation_eq tenant item kind key envelope verdict sid sver summary actor reason cm w :
  exists a w', _store_attestation tenant item kind (sign_with key envelope) envelope verdict sid sver summary actor reason cm w
      = (Ok (attestation_record a), w') /\
    attests a item tenant kind verdict /\
    at_id a = "att_" +:+ uuid4_hex (w_uuid w) /\
    verify_attestation (signed_of a) = verify_attestation
      (dset "envelope" (json_loads (Some (json_dumps (JObj envelope))) (JObj [])) (sign_with key envelope)) /\
    w_db w' = upd db_capguard_attestations (db_capguard_attestations (w_db w) ++ [a]) (w_db w) /\
    w_files w' = w_files w /\ w_disk w' = (if cm then w_db w' else w_disk w) /\ w_clock w' = w_clock w.
Proof.
  set (a := {| at_id := "att_" +:+ uuid4_hex (w_uuid w); at_tenant_id := tenant; at_quarantine_id := qr_id item;
    at_attestation_type := kind; at_subject_uri := qr_capability_uri item; at_content_hash := qr_content_hash item;
    at_verdict := verdict; at_scanner_id := sid; at_scanner_version := sver;
    at_findings_summary_json := json_dumps (JObj summary); at_algorithm := "Ed25519";
    at_key_id := key_id (ed_public key); at_public_key := b64encode (ed_public key);
    at_signature := b64encode (ed_sign key (_canonical_json (JObj envelope)));
    at_envelope_json := json_dumps (JObj envelope);
    at_verifies := if verify_attestation (sign_with key envelope) None then 1%Z else 0%Z; at_actor := actor;
    at_reason := reason; at_created_at := sql_text_now (w_clock w) |}).
  assert (forall k v, dget k (sign_with key envelope) = Some v -> jget k (sign_with key envelope) = v) as Hget
    by (unfold jget; by intros ? ? ->).
  exists a. unfold _store_attestation, bind at 1, new_id.
  rewrite (Hget "keyId" (JStr (key_id (ed_public key)))), (Hget "publicKey" (JStr (b64encode (ed_public key)))),
    (Hget "signature" (JStr (b64encode (ed_sign key (_canonical_json (JObj envelope)))))) by reflexivity.
  change (dget "algorithm" (sign_with key envelope)) with (Some (JStr "Ed25519")).
  change (dget "envelope" (sign_with key envelope)) with (Some (JObj envelope)). cbv zeta.
  rewrite !column_text_str. destruct cm; (eexists; split; [reflexivity | by split_and!]).
Qed.

Definition settled (q tenant : string) (item : QuarantineRow) (kind : string) (mark : string -> QuarantineRow -> QuarantineRow)
    (lifecycle state : string) (w w' : World) : Prop :=
  exists now a, attests a item tenant kind None /\
    holdings w' =
    (update_where (fun r => qr_id r =s q) (mark now) (db_capguard_quarantine (w_db w)),
     db_capguard_attestations (w_db w) ++ [a],
     update_where (fun r => (cp_tenant_id r =s tenant) && (cp_uri r =s qr_capability_uri item)
                            && (cp_content_hash r =s qr_content_hash item))
       (fun r => upd cp_lifecycle lifecycle (upd cp_approval_state state (upd cp_updated_at now r)))
       (db_capabilities (w_db w))).

Lemma settle_inv q t item kind mark lifecycle state ev actor reason payload persist cm w r w' :
  item_at (w_db w) q t = Some item -> (forall now r, qr_id (mark now r) = qr_id r) ->
  settle q (tenant_or_default t) item kind mark lifecycle state ev actor reason payload persist cm w = (r, w') ->
  match r with
  | Ok _ => settled q (tenant_or_default t) item kind mark lifecycle state w w' /\ (cm = true -> w_disk w' = w_db w')
  | Raise _ => off_disk w' = off_disk w
  end.
Proof.
  intros Hitem Hmark. unfold settle. unfold bind at 1. unfold _build_envelope at 1, bind at 1, utc_now, gets, ret at 1.
  set (envelope := _ ++ _). unfold bind at 1. pose proof (sign_off_disk envelope persist w) as Hoff. unfold same in Hoff.
  destruct (sign_attestation envelope persist w) as [[signed|e] w1] eqn:Es; [|intros [= <- <-]; exact Hoff].
  apply sign_attestation_inv in Es as (key & -> & _). cbn [snd] in Hoff.
  destruct (store_attestation_eq (tenant_or_default t) item kind key envelope None None None [] (Some actor) (Some reason) false w1)
    as (a & w2 & Ea & Hatt & _ & _ & Hdb & _).
  unfold bind at 1. rewrite Ea. clear Ea.
  unfold bind at 1, sql_now, gets. unfold bind at 1, update_rows, set_db, modify.
  unfold bind at 1, settle_capability, update_rows, set_db, modify. unfold bind at 1.
  set (w3 := upd w_db _ _).
  destruct (audit_silent ev actor q kind payload (tenant_or_default t) w3) as (w4 & -> & H4).
  unfold bind at 1. set (w5 := if cm then committed w4 else w4).
  assert (when cm commit w4 = (Ok tt, w5)) as -> by (by destruct cm).
  assert (holdings w5 = holdings w3) as H5 by (by destruct cm).
  assert (w_db w2 = upd db_capguard_attestations (db_capguard_attestations (w_db w) ++ [a]) (w_db w)) as Hdb2.
  { rewrite Hdb. unfold off_disk in Hoff. injection Hoff as -> _ _. done. }
  assert (holdings w5 = holdings w3 -> settled q (tenant_or_default t) item kind mark lifecycle state w w5) as Hset.
  { intros Hh. exists (sql_text_now (w_clock w2)), a. split; [done|]. rewrite Hh. unfold w3, holdings. cbn. by rewrite Hdb2. }
  assert (exists row, item_by_id (w_db w5) q = Some row) as [row Hrow].
  { destruct (Hset H5) as (now & a' & _ & Hh). injection Hh as Hq _ _. unfold item_by_id. rewrite Hq.
    apply item_at_id in Hitem as [Hid Hin].
    destruct (fetchone_is_some (fun r => qr_id r =s q) (update_where (fun r => qr_id r =s q) (mark now) (db_capguard_quarantine (w_db w)))
      (mark now item)) as [x Hx].
    - apply elem_of_update_where. exists item. split; [done|]. by rewrite Hid, String.eqb_refl.
    - by rewrite Hmark, Hid, String.eqb_refl.
    - by exists x. }
  unfold fetch_item, bind, query, gets. rewrite Hrow. intros [= <- <-].
  split; [by apply Hset|]. intros ->. reflexivity.
Qed.
End Settling.

(** ** The operations of the store *)
Section Operations.
Context `{!Runtime, !Machine, !UnicodeData}.

(** What a release of [item] rests on. *)
Record release_evidence (d : DB) (q t : string) (item : QuarantineRow) (trust : option string) (scan : AttestationRow)
    (capability : option Capability) (scan_result : option dict) (injection : option bool)
    (policy : option CapGuardPolicy) : Prop := {
  re_item : item_at d q t = Some item;
  re_held : qr_status item = "quarantined";
  re_scan : governing_scan d item (tenant_or_default t) trust = Some scan;
  re_clean : at_verdict scan = Some "clean";
  re_policy : forall c, capability = Some c ->
    exists v, evaluate_release_policy c scan_result injection policy = Ok v /\ vd_action v = "allow"
}.

Definition mark_released (now : string) (r : QuarantineRow) : QuarantineRow :=
  upd qr_status "released" (upd qr_released_at (Some now) (upd qr_updated_at now r)).
Definition mark_rejected (now : string) (r : QuarantineRow) : QuarantineRow :=
  upd qr_status "rejected" (upd qr_rejected_at (Some now) (upd qr_updated_at now r)).

Lemma item_at_default d q t : item_at d q (tenant_or_default t) = item_at d q t.
Proof.
  unfold item_at, tenant_or_default, s_or. destruct (truthy t) eqn:E; [by rewrite E|].
  by destruct (truthy DEFAULT_TENANT).
Qed.

Lemma get_item_eq q t w : get_item q t w = (Ok (item_at (w_db w) q t), committed w).
Proof. reflexivity. Qed.

Lemma policy_gate_inv capability scan_result injection policy v :
  policy_gate capability scan_result injection policy = Ok v ->
  forall c, capability = Some c ->
    exists v, evaluate_release_policy c scan_result injection policy = Ok v /\ vd_action v = "allow".
Proof.
  unfold policy_gate. intros Hp c ->. destruct (evaluate_release_policy _ _ _ _) as [v'|] eqn:E; [|discriminate Hp].
  cbn [obind] in Hp. exists v'. split; [done|]. destruct (vd_action v' =s "allow") eqn:Ea; [|discriminate Hp].
  by apply String.eqb_eq.
Qed.

Lemma release_inv q t actor reason given capability scan_result injection policy persist cm w r w' :
  release_from_quarantine q t actor reason given capability scan_result injection policy persist cm w = (r, w') ->
  match r with
  | Ok _ => exists item scan,
      release_evidence (w_db w) q t item (trust_anchor given (w_files w)) scan capability scan_result injection policy /\
      settled q (tenant_or_default t) item "release" mark_released "active" "published" w w' /\
      (cm = true -> w_disk w' = w_db w')
  | Raise _ => off_disk w' = off_disk (committed w)
  end.
Proof.
  unfold release_from_quarantine. unfold bind at 1. unfold ensure_quarantine_tables at 1, commit at 1, modify at 1.
  change (upd w_disk (w_db w) w) with (committed w).
  unfold bind at 1. rewrite get_item_eq, item_at_default. change (w_db (committed w)) with (w_db w).
  change (committed (committed w)) with (committed w).
  destruct (item_at (w_db w) q t) as [item|] eqn:Ei; [|by intros [= <- <-]].
  destruct (qr_status item =s "quarantined") eqn:Es; cbn [negb]; [|by intros [= <- <-]]. apply String.eqb_eq in Es.
  unfold bind at 1. rewrite resolve_trust_run. change (w_files (committed w)) with (w_files w).
  unfold bind at 1. rewrite clean_attestation_eq. change (w_db (committed w)) with (w_db w).
  change (committed (committed w)) with (committed w). rewrite !item_at_default, Ei.
  assert (tenant_or_default (tenant_or_default t) = tenant_or_default t) as ->.
  { unfold tenant_or_default, s_or. by destruct (truthy t) eqn:E; [rewrite E | destruct (truthy DEFAULT_TENANT)]. }
  unfold clean_evidence. destruct (governing_scan _ _ _ _) as [scan|] eqn:Eg; [|by intros [= <- <-]].
  destruct (oeqb (at_verdict scan) (Some "clean")) eqn:Ev; [|by intros [= <- <-]]. apply oeqb_eq in Ev.
  unfold bind at 1, lift. destruct (policy_gate _ _ _ _) as [pv|] eqn:Ep; [|by intros [= <- <-]].
  intros E. eapply (settle_inv q t item "release" mark_released) in E; [|exact Ei | done].
  destruct r; [|exact E]. exists item, scan. destruct E as [Hset Hcm]. split; [|done].
  constructor; [done..|]. by eapply policy_gate_inv.
Qed.

Lemma reject_inv q t actor reason persist cm w r w' :
  reject_from_quarantine q t actor reason persist cm w = (r, w') ->
  match r with
  | Ok _ => exists item, item_at (w_db w) q t = Some item /\ qr_status item = "quarantined" /\
      truthy (strip reason) = true /\
      settled q (tenant_or_default t) item "reject" mark_rejected "disabled" "rejected" w w' /\
      (cm = true -> w_disk w' = w_db w')
  | Raise _ => off_disk w' = off_disk (committed w)
  end.
Proof.
  unfold reject_from_quarantine. unfold bind at 1. unfold ensure_quarantine_tables at 1, commit at 1, modify at 1.
  change (upd w_disk (w_db w) w) with (committed w).
  unfold bind at 1. rewrite get_item_eq, item_at_default. change (w_db (committed w)) with (w_db w).
  change (committed (committed w)) with (committed w).
  destruct (item_at (w_db w) q t) as [item|] eqn:Ei; [|by intros [= <- <-]].
  destruct (qr_status item =s "quarantined") eqn:Es; cbn [negb]; [|by intros [= <- <-]]. apply String.eqb_eq in Es.
  destruct (truthy reason); cbn [negb orb]; [|by intros [= <- <-]].
  destruct (truthy (strip reason)) eqn:Er; cbn [negb]; [|by intros [= <- <-]].
  intros E. eapply (settle_inv q t item "reject" mark_rejected) in E; [|exact Ei | done].
  destruct r; [|exact E]. exists item. destruct E as [Hset Hcm]. by split_and!.
Qed.

Definition mark_failed (now : string) (r : QuarantineRow) : QuarantineRow :=
  upd qr_reason "scan_failed" (upd qr_updated_at now r).

Lemma issue_inv q t scan sid sver persist cm w r w' :
  issue_scan_attestation q t scan sid sver persist cm w = (r, w') ->
  match r with
  | Ok _ => exists item verdict a now, item_at (w_db w) q t = Some item /\ qr_status item = "quarantined" /\
      _verdict_for_scan scan = Ok verdict /\ attests a item (tenant_or_default t) "scan" (Some verdict) /\
      holdings w' = (if verdict =s "blocked"
                     then update_where (fun r => qr_id r =s q) (mark_failed now) (db_capguard_quarantine (w_db w))
                     else db_capguard_quarantine (w_db w),
                     db_capguard_attestations (w_db w) ++ [a], db_capabilities (w_db w))
  | Raise _ => off_disk w' = off_disk (committed w)
  end.
Proof.
  unfold issue_scan_attestation. unfold bind at 1. unfold ensure_quarantine_tables at 1, commit at 1, modify at 1.
  change (upd w_disk (w_db w) w) with (committed w).
  unfold bind at 1. rewrite get_item_eq, item_at_default. change (w_db (committed w)) with (w_db w).
  change (committed (committed w)) with (committed w).
  destruct (item_at (w_db w) q t) as [item|] eqn:Ei; [|by intros [= <- <-]].
  destruct (qr_status item =s "quarantined") eqn:Es; cbn [negb]; [|by intros [= <- <-]]. apply String.eqb_eq in Es.
  unfold bind at 1, lift at 1. destruct (_verdict_for_scan scan) as [verdict|]; [|by intros [= <- <-]].
  unfold bind at 1, lift at 1. destruct (_findings_summary scan) as [summary|]; [|by intros [= <- <-]].
  unfold bind at 1. unfold _build_envelope at 1, bind at 1, utc_now, gets, ret at 1.
  set (envelope := _ ++ _). unfold bind at 1. pose proof (sign_off_disk envelope persist (committed w)) as Hoff. unfold same in Hoff.
  destruct (sign_attestation envelope persist (committed w)) as [[signed|e] w1] eqn:E1; [|intros [= <- <-]; exact Hoff].
  apply sign_attestation_inv in E1 as (key & -> & _). cbn [snd] in Hoff.
  destruct (store_attestation_eq (tenant_or_default t) item "scan" key envelope (Some verdict) (Some sid) sver summary None None cm w1)
    as (a & w2 & Ea & Hatt & _ & _ & Hdb & _).
  unfold bind at 1. rewrite Ea. clear Ea. set (blocked := bind sql_now _).
  assert (exists now w3, when (verdict =s "blocked") blocked w2 = (Ok tt, w3) /\
    holdings w3 = (if verdict =s "blocked"
      then update_where (fun r => qr_id r =s q) (mark_failed now) (db_capguard_quarantine (w_db w2))
      else db_capguard_quarantine (w_db w2), db_capguard_attestations (w_db w2), db_capabilities (w_db w2)))
    as (now & w3 & Ew & H3).
  { exists (sql_text_now (w_clock w2)). unfold blocked. destruct (verdict =s "blocked"), cm; by eexists. }
  unfold bind at 1. rewrite Ew. clear Ew blocked. unfold bind at 1.
  match goal with |- (let (_, _) := _audit ?e ?b ?c ?d ?f ?g w3 in _) = _ -> _ =>
    destruct (audit_silent e b c d f g w3) as (w4 & -> & H4) end.
  intros [= <- <-]. exists item, verdict, a, now. split_and!; [done..|]. rewrite H4, H3, Hdb.
  unfold off_disk in Hoff. injection Hoff as -> _ _. by destruct (verdict =s "blocked").
Qed.

Lemma hold_inv tenant uri kind name version path hash reason by_ metadata cm w r w' :
  quarantine_capability tenant uri kind name version path hash reason by_ metadata cm w = (r, w') ->
  match r with
  | Ok _ => truthy uri = true /\ truthy hash = true /\ reason ∈ QUARANTINE_REASONS /\
      ((holdings w' = holdings w /\ exists row, row ∈ db_capguard_quarantine (w_db w) /\ qr_tenant_id row = tenant_or_default tenant /\
          qr_capability_uri row = uri /\ qr_content_hash row = hash /\ qr_status row = "quarantined")
       \/ exists row, qr_id row = "qtn" +:+ "_" +:+ uuid4_hex (w_uuid w) /\ qr_tenant_id row = tenant_or_default tenant /\
          qr_capability_uri row = uri /\ qr_content_hash row = hash /\ qr_status row = "quarantined" /\
          holdings w' = (db_capguard_quarantine (w_db w) ++ [row], db_capguard_attestations (w_db w), db_capabilities (w_db w)) /\
          (w_uuid w < w_uuid w')%nat /\ (cm = true -> w_disk w' = w_db w'))
  | Raise _ => w_db w' = w_db w
  end.
Proof.
  unfold quarantine_capability. unfold bind at 1. unfold ensure_quarantine_tables at 1, commit at 1, modify at 1.
  change (upd w_disk (w_db w) w) with (committed w). cbv zeta.
  destruct (truthy uri); cbn [negb orb]; [|by intros [= <- <-]].
  destruct (truthy hash); cbn [negb orb]; [|by intros [= <- <-]].
  destruct (smem reason QUARANTINE_REASONS) eqn:Er; cbn [negb]; [|by intros [= <- <-]]. apply smem_In in Er.
  unfold bind at 1, query at 1, gets at 1. change (w_db (committed w)) with (w_db w).
  destruct (fetchone _ _) as [row|] eqn:Ef.
  { apply fetchone_some in Ef as [Hin Hp]. rewrite !andb_true_iff, !String.eqb_eq in Hp. destruct Hp as [[[? ?] ?] ?].
    intros [= <- <-]. split_and!; [done..|]. left. split; [done|]. by exists row. }
  unfold bind at 1, new_id at 1. set (id := "qtn" +:+ _). unfold bind at 1, sql_now, gets. unfold bind at 1, insert_row, set_db, modify.
  set (row := mkQuarantineRow _ _ _ _ _ _ _ _ _ _ _ _ _ _ _ _). set (w1 := upd w_db _ _). unfold bind at 1.
  match goal with |- (let (_, _) := _audit ?e ?b ?c ?d ?f ?g w1 in _) = _ -> _ =>
    pose proof (audit_later e b c d f g w1) as Hlater;
    destruct (audit_silent e b c d f g w1) as (w2 & Ew & H2); rewrite Ew in *; clear Ew end.
  unfold bind at 1. set (w3 := if cm then committed w2 else w2).
  assert (when cm commit w2 = (Ok tt, w3)) as -> by (by destruct cm).
  assert (holdings w3 = holdings w1) as H3 by (by destruct cm).
  assert (exists x, item_by_id (w_db w3) id = Some x) as [x Hx].
  { unfold holdings in H3. injection H3 as H3 _ _. unfold item_by_id. rewrite H3.
    apply fetchone_is_some with row; [|apply String.eqb_refl]. unfold w1. cbn.
    apply elem_of_app. right. by apply list_elem_of_singleton. }
  unfold fetch_item, bind, query, gets. rewrite Hx. intros [= <- <-].
  split_and!; [done..|]. right. exists row. split_and!; [done.. | | by intros ->].
  unfold later in Hlater. cbn in Hlater. unfold w3. destruct cm; cbn; lia.
Qed.
End Operations.

(** ** The store as a state machine *)
Section StateMachine.
Context `{!Runtime, !Machine, !UnicodeData}.

Definition held (w : World) : list QuarantineRow := db_capguard_quarantine (w_db w).
Definition attestations (w : World) : list AttestationRow := db_capguard_attestations (w_db w).

(** A clean scan attestation over the content of the item, with a valid
    signature, from the attestations [l]. *)
Definition has_clean_scan (l : list AttestationRow) (r : QuarantineRow) : Prop :=
  exists a, a ∈ l /\ attests a r (qr_tenant_id r) "scan" (Some "clean") /\
    exists stored, fetchone (fun b => at_id b =s at_id a) l = Some stored /\ verify_attestation (signed_of stored) None = true.

(** The moves of an item: it stays as it was, is rejected, or is released on a
    clean scan; its identity and its content never change. *)
Record same_item (r r' : QuarantineRow) : Prop := {
  si_id : qr_id r' = qr_id r; si_tenant : qr_tenant_id r' = qr_tenant_id r;
  si_uri : qr_capability_uri r' = qr_capability_uri r; si_hash : qr_content_hash r' = qr_content_hash r
}.

Inductive item_move (l : list AttestationRow) (r r' : QuarantineRow) : Prop :=
| move_stay : same_item r r' -> qr_status r' = qr_status r -> item_move l r r'
| move_reject : same_item r r' -> qr_status r = "quarantined" -> qr_status r' = "rejected" -> item_move l r r'
| move_release : same_item r r' -> qr_status r = "quarantined" -> qr_status r' = "released" ->
    has_clean_scan l r -> item_move l r r'.

Inductive store_step (w w' : World) : Prop :=
| step_move : Forall2 (item_move (attestations w)) (held w) (held w') ->
    attestations w `prefix_of` attestations w' -> later w w' -> store_step w w'
| step_hold row : held w' = held w ++ [row] -> qr_id row = "qtn" +:+ "_" +:+ uuid4_hex (w_uuid w) ->
    qr_status row = "quarantined" -> attestations w' = attestations w -> (w_uuid w < w_uuid w')%nat -> store_step w w'.

(** The PRIMARY KEY of the items, whose ids are drawn at random. *)
Definition item_ids (w : World) : Prop := ids_drawn "qtn" qr_id (held w) (w_uuid w).

Lemma same_item_refl r : same_item r r.
Proof. by split. Qed.

Lemma moves_refl l t : Forall2 (item_move l) t t.
Proof. apply Forall_Forall2_diag, Forall_true. intros r. by apply move_stay. Qed.

Lemma update_moves l q f item (t : list QuarantineRow) :
  NoDup (qr_id <$> t) -> item ∈ t -> qr_id item = q -> item_move l item (f item) ->
  Forall2 (item_move l) t (update_where (fun r => qr_id r =s q) f t).
Proof.
  intros Hnd Hin <- Hf. apply (update_where_Forall2 qr_id _ _ _ _ item); [|done| |done..].
  - intros r. by apply move_stay.
  - intros r. apply String.eqb_eq.
Qed.

Lemma verifies_any d id trust : verifies_at d id trust = true ->
  exists stored, fetchone (fun b => at_id b =s id) (db_capguard_attestations d) = Some stored /\
    verify_attestation (signed_of stored) None = true.
Proof.
  unfold verifies_at. destruct (fetchone _ _) as [a|]; [|done]. intros Hv. exists a. split; [done|].
  revert Hv. unfold verify_attestation. repeat case_match; try done. rewrite !andb_true_iff. tauto.
Qed.

Lemma governing_clean d q t item trust scan :
  item_at d q t = Some item -> governing_scan d item (tenant_or_default t) trust = Some scan ->
  at_verdict scan = Some "clean" -> has_clean_scan (db_capguard_attestations d) item.
Proof.
  intros Hitem [Hin [Hh Hv]%andb_true_iff]%fetchone_some Hclean. unfold scans_of in Hin.
  apply list_elem_of_In, in_rev, list_elem_of_In, elem_of_fetchall in Hin as [Hp Hin].
  rewrite !andb_true_iff, !String.eqb_eq in Hp. destruct Hp as [[Ht Hq] Hk]. apply String.eqb_eq in Hh.
  apply fetchone_some in Hitem as [_ [_ Hten%String.eqb_eq]%andb_true_iff].
  exists scan. split; [done|]. split; [by split_and!; [| |congruence| |]|]. by eapply verifies_any.
Qed.

(** Every operation refines the machine. *)
Lemma settled_step q t item kind mark lifecycle state w w' :
  item_ids w -> item_at (w_db w) q t = Some item -> later w w' ->
  (forall now, item_move (attestations w) item (mark now item)) ->
  settled q (tenant_or_default t) item kind mark lifecycle state w w' -> store_step w w'.
Proof.
  intros [Hnd _] Hitem Hl Hmove (now & a & _ & Hh). injection Hh as Hq Ha _.
  apply item_at_id in Hitem as [Hid Hin]. apply step_move; [|unfold attestations; rewrite Ha; by eexists | done].
  unfold held. rewrite Hq. by eapply update_moves.
Qed.

Lemma idle_step w w' : off_disk w' = off_disk (committed w) -> later w w' -> store_step w w'.
Proof.
  intros Hoff Hl. injection Hoff as Hdb _ _. unfold committed in Hdb. cbn in Hdb.
  apply step_move; [|unfold attestations; by rewrite Hdb | done]. unfold held. rewrite Hdb. apply moves_refl.
Qed.

Lemma evidence_later q t trust : preserves later (clean_attestation q t trust).
Proof. intros w. unfold later. by rewrite clean_attestation_eq. Qed.
Lemma trust_later given : preserves later (resolve_trust given).
Proof. intros w. unfold later. by rewrite resolve_trust_run. Qed.
#[local] Hint Resolve sign_later audit_later store_later evidence_later trust_later : frame.

Lemma release_later q t actor reason given capability scan_result injection policy persist cm :
  preserves later (release_from_quarantine q t actor reason given capability scan_result injection policy persist cm).
Proof. unfold release_from_quarantine, get_item, settle_capability, fetch_item, _build_envelope. solve_frame. Qed.

Lemma reject_later q t actor reason persist cm : preserves later (reject_from_quarantine q t actor reason persist cm).
Proof. unfold reject_from_quarantine, get_item, settle_capability, fetch_item, _build_envelope. solve_frame. Qed.

Lemma issue_later q t scan sid sver persist cm : preserves later (issue_scan_attestation q t scan sid sver persist cm).
Proof. unfold issue_scan_attestation, get_item, _build_envelope. solve_frame. Qed.

Lemma hold_later tenant uri kind name version path hash reason by_ metadata cm :
  preserves later (quarantine_capability tenant uri kind name version path hash reason by_ metadata cm).
Proof. unfold quarantine_capability, fetch_item. solve_frame. Qed.

Lemma release_step q t actor reason given capability scan_result injection policy persist cm w :
  item_ids w ->
  store_step w (release_from_quarantine q t actor reason given capability scan_result injection policy persist cm w).2.
Proof.
  intros Hids. pose proof (release_later q t actor reason given capability scan_result injection policy persist cm w) as Hl.
  destruct (release_from_quarantine _ _ _ _ _ _ _ _ _ _ _ w) as [r w'] eqn:E. apply release_inv in E.
  destruct r as [d|e]; [|by apply idle_step].
  destruct E as (item & scan & [Hi Hs Hg Hc _] & Hset & _).
  eapply settled_step; [done.. | | exact Hset]. intros now. apply move_release; [done.. |]. by eapply governing_clean.
Qed.

Lemma reject_step q t actor reason persist cm w :
  item_ids w -> store_step w (reject_from_quarantine q t actor reason persist cm w).2.
Proof.
  intros Hids. pose proof (reject_later q t actor reason persist cm w) as Hl.
  destruct (reject_from_quarantine _ _ _ _ _ _ w) as [r w'] eqn:E. apply reject_inv in E.
  destruct r as [d|e]; [|by apply idle_step]. destruct E as (item & Hi & Hs & _ & Hset & _).
  eapply settled_step; [done.. | | exact Hset]. intros now. by apply move_reject.
Qed.

Lemma issue_step q t scan sid sver persist cm w :
  item_ids w -> store_step w (issue_scan_attestation q t scan sid sver persist cm w).2.
Proof.
  intros [Hnd Hfresh]. pose proof (issue_later q t scan sid sver persist cm w) as Hl.
  destruct (issue_scan_attestation _ _ _ _ _ _ _ w) as [r w'] eqn:E. apply issue_inv in E. cbn [snd] in *.
  destruct r as [d|e]; [|by apply idle_step].
  destruct E as (item & verdict & a & now & Hi & _ & _ & _ & Hh). injection Hh as Hq Ha _.
  apply item_at_id in Hi as [Hid Hin]. apply step_move; [|unfold attestations; rewrite Ha; by eexists | done].
  unfold held. rewrite Hq. destruct (verdict =s "blocked"); [|apply moves_refl].
  eapply update_moves; [done.. | by apply move_stay].
Qed.

Lemma hold_step tenant uri kind name version path hash reason by_ metadata cm w :
  store_step w (quarantine_capability tenant uri kind name version path hash reason by_ metadata cm w).2.
Proof.
  pose proof (hold_later tenant uri kind name version path hash reason by_ metadata cm w) as Hl.
  destruct (quarantine_capability _ _ _ _ _ _ _ _ _ _ _ w) as [r w'] eqn:E. apply hold_inv in E.
  destruct r as [d|e]; cbn [snd] in *.
  - destruct E as (_ & _ & _ & [[Hh _] | (row & Hid & _ & _ & _ & Hs & Hh & Hlt & _)]); injection Hh as Hq Ha _.
    + apply step_move; [|unfold attestations; by rewrite Ha | done]. unfold held. rewrite Hq. apply moves_refl.
    + by apply (step_hold w w' row).
  - apply step_move; [|unfold attestations; by rewrite E | done]. unfold held. rewrite E. apply moves_refl.
Qed.

Lemma move_ids l t t' : Forall2 (item_move l) t t' -> qr_id <$> t' = qr_id <$> t.
Proof.
  induction 1 as [|r r' t t' Hr _ IH]; [done|]. rewrite !fmap_cons, IH.
  f_equal. by destruct Hr as [[]|[]|[]].
Qed.

Lemma step_ids w w' : store_step w w' ->
  (forall a b, uuid4_hex a = uuid4_hex b -> a = b) -> item_ids w -> item_ids w'.
Proof.
  intros [Hm _ Hl | row Hq Hid _ _ Hlt] Hinj Hids; unfold item_ids.
  - eapply ids_drawn_later; [exact Hids | by apply move_ids in Hm | done].
  - rewrite Hq. by eapply ids_drawn_snoc.
Qed.

(** The authoritative release reads, scans, attests and then releases. *)
Definition composed_scan (item : QuarantineRow) (cap : option Capability) (scanned scan : dict) (injection : option bool) : Prop :=
  exists hits, _injection_verdict item cap = (injection, hits) /\
    match injection with Some false => with_injection scanned hits = Ok scan | _ => scan = scanned end.

Lemma live_capability_reads item capability w :
  exists cap, live_capability item capability w = (Ok cap, w) /\ (forall c, capability = Some c -> cap = Some c).
Proof. destruct capability as [c|]; [by exists (Some c); split; [|intros ? [= ->]] | by eexists]. Qed.

Lemma scan_content_reads item w : exists o, _scan_quarantined_content item w = (o, w).
Proof.
  unfold _scan_quarantined_content. destruct (negb _); [by eexists|].
  destruct (scan_file (qr_source_path item) w) as [o w'] eqn:E. apply scan_file_spec in E as [-> _]. by exists o.
Qed.

Lemma full_inv q t actor reason capability policy persist cm w r w' :
  release_capability_from_quarantine q t actor reason capability policy persist cm w = (r, w') ->
  (w' = committed w /\ is_ok r = false) \/
  exists item cap scanned scan injection r1 w1,
    item_at (w_db w) q t = Some item /\ (forall c, capability = Some c -> cap = Some c) /\
    _scan_quarantined_content item (committed w) = (Ok scanned, committed w) /\
    composed_scan item cap scanned scan injection /\
    issue_scan_attestation q (tenant_or_default t) scan "capmesh-capguard-release" (Some "1") persist false (committed w) = (r1, w1) /\
    match r1 with
    | Raise e => r = Raise e /\ w' = w1
    | Ok _ => release_from_quarantine q (tenant_or_default t) actor reason None cap (Some scan) injection policy persist cm w1 = (r, w')
    end.
Proof.
  unfold release_capability_from_quarantine. unfold bind at 1. unfold ensure_quarantine_tables at 1, commit at 1, modify at 1.
  change (upd w_disk (w_db w) w) with (committed w).
  unfold bind at 1. rewrite get_item_eq, item_at_default. change (w_db (committed w)) with (w_db w).
  change (committed (committed w)) with (committed w).
  destruct (item_at (w_db w) q t) as [item|] eqn:Ei; [|by intros [= <- <-]; left].
  destruct (negb (qr_status item =s "quarantined")); [by intros [= <- <-]; left|].
  unfold bind at 1. destruct (live_capability_reads item capability (committed w)) as (cap & -> & Hcap).
  unfold bind at 1. destruct (scan_content_reads item (committed w)) as [o Hscan]. rewrite Hscan.
  destruct o as [scanned|]; [|by intros [= <- <-]; left].
  destruct (_injection_verdict item cap) as [injection hits] eqn:Ej. unfold bind at 1. 
  set (rescan := match injection with Some false => lift (with_injection scanned hits) | _ => ret scanned end).
  assert (exists o, rescan (committed w) = (o, committed w) /\ forall scan, o = Ok scan ->
    match injection with Some false => with_injection scanned hits = Ok scan | _ => scan = scanned end) as (o & Ho & Hinj).
  { unfold rescan. destruct injection as [[]|]; cbn; eexists; (split; [reflexivity|]); solve [by intros ? [= ->] | by intros ? ->]. }
  rewrite Ho. clear rescan Ho. destruct o as [scan|]; [|by intros [= <- <-]; left].
  unfold bind at 1. destruct (issue_scan_attestation _ _ _ _ _ _ _ (committed w)) as [r1 w1] eqn:E1. intros E. right.
  exists item, cap, scanned, scan, injection, r1, w1. split_and!; [done.. | | done |].
  - exists hits. split; [done|]. by apply Hinj.
  - destruct r1; [exact E|]. by injection E as <- <-.
Qed.

(** ** Histories *)
Inductive store_call : Op dict -> Prop :=
| call_hold tenant uri kind name version path hash reason by_ metadata cm :
    store_call (quarantine_capability tenant uri kind name version path hash reason by_ metadata cm)
| call_scan q t scan sid sver persist cm : store_call (issue_scan_attestation q t scan sid sver persist cm)
| call_release q t actor reason given capability scan injection policy persist cm :
    store_call (release_from_quarantine q t actor reason given capability scan injection policy persist cm)
| call_reject q t actor reason persist cm : store_call (reject_from_quarantine q t actor reason persist cm)
| call_full q t actor reason capability policy persist cm :
    store_call (release_capability_from_quarantine q t actor reason capability policy persist cm).

(** The worlds a sequence of calls can lead to, failed calls included. *)
Definition called (w w' : World) : Prop := exists m, store_call m /\ (m w).2 = w'.

Lemma called_steps w w' : (forall a b, uuid4_hex a = uuid4_hex b -> a = b) ->
  item_ids w -> called w w' -> rtc store_step w w'.
Proof.
  intros Hinj Hids (m & Hm & <-).
  destruct Hm; [apply rtc_once, hold_step | by apply rtc_once, issue_step | by apply rtc_once, release_step
    | by apply rtc_once, reject_step |].
  destruct (release_capability_from_quarantine _ _ _ _ _ _ _ _ w) as [r w'] eqn:E.
  assert (store_step w (committed w)) as Hc by (apply idle_step; [done | unfold later; cbn; lia]).
  apply full_inv in E as [[-> _]|(item & cap & scanned & scan & injection & r1 & w1 & _ & _ & _ & _ & E1 & E2)]; [by apply rtc_once|].
  assert (item_ids (committed w)) as Hids' by (by eapply step_ids).
  pose proof (issue_step q (tenant_or_default t) scan "capmesh-capguard-release" (Some "1") persist false _ Hids') as Hs1.
  rewrite E1 in Hs1. cbn [snd] in Hs1. eapply rtc_l; [exact Hc|]. eapply rtc_l; [exact Hs1|].
  destruct r1 as [d|e]; [|by destruct E2 as [_ ->]]. apply rtc_once.
  assert (item_ids w1) as Hids1 by (by eapply step_ids).
  pose proof (release_step q (tenant_or_default t) actor reason None cap (Some scan) injection policy persist cm _ Hids1) as Hs2.
  by rewrite E2 in Hs2.
Qed.

(** ** The invariant of the store *)
Record sound (w : World) : Prop := {
  sound_ids : item_ids w;
  sound_released : forall r, r ∈ held w -> qr_status r = "released" -> has_clean_scan (attestations w) r
}.

(** What a history may do to an item. *)
Definition progress (r r' : QuarantineRow) : Prop :=
  same_item r r' /\
  (qr_status r' = qr_status r \/ (qr_status r = "quarantined" /\ qr_status r' ∈ ["released"; "rejected"])).

Lemma clean_scan_stable l l' r : has_clean_scan l r -> l `prefix_of` l' -> has_clean_scan l' r.
Proof.
  intros (a & Ha & Hat & stored & Hf & Hv) [k ->]. exists a. split; [apply elem_of_app; by left|]. split; [done|].
  exists stored. split; [|done]. by rewrite fetchone_app, Hf.
Qed.

Lemma clean_scan_same l r r' : same_item r r' -> has_clean_scan l r -> has_clean_scan l r'.
Proof.
  intros [Hi Ht _ Hh] (a & Ha & (A1 & A2 & A3 & A4 & A5) & Hs). exists a. split; [done|]. split; [|done].
  split_and!; [done | congruence | congruence | congruence | done].
Qed.

Lemma progress_trans r1 r2 r3 : progress r1 r2 -> progress r2 r3 -> progress r1 r3.
Proof.
  intros [[] H12] [[] H23]. split; [split; congruence|].
  destruct H12 as [E|[E E']], H23 as [F|[F F']].
  - left. congruence.
  - right. split; [congruence | done].
  - right. split; [done | by rewrite F].
  - exfalso. rewrite F in E'. set_solver.
Qed.

Lemma move_progress l r r' : item_move l r r' -> progress r r'.
Proof. intros [? ?|? ? E|? ? E]; (split; [done|]); [by left | right; split; [done|]; rewrite E; set_solver..]. Qed.

Lemma step_sound w w' : (forall a b, uuid4_hex a = uuid4_hex b -> a = b) -> sound w -> store_step w w' ->
  sound w' /\ forall r, r ∈ held w -> exists r', r' ∈ held w' /\ progress r r'.
Proof.
  intros Hinj [Hids Hrel] Hstep. pose proof (step_ids _ _ Hstep Hinj Hids) as Hids'.
  destruct Hstep as [Hm Hp _ | row Hq _ Hs Ha _].
  - split; [split; [done|]|].
    + intros r' Hr' Hst. apply list_elem_of_lookup in Hr' as [i Hi].
      destruct (Forall2_lookup_r _ _ _ _ _ Hm Hi) as (r & Hr & Hmove). apply list_elem_of_lookup_2 in Hr.
      eapply clean_scan_stable; [|exact Hp].
      destruct Hmove as [Hsame E|Hsame _ E|Hsame _ _ Hc]; [|congruence|by eapply clean_scan_same].
      eapply clean_scan_same; [exact Hsame|]. apply Hrel; [done | congruence].
    + intros r Hr. apply list_elem_of_lookup in Hr as [i Hi].
      destruct (Forall2_lookup_l _ _ _ _ _ Hm Hi) as (r' & Hr' & Hmove). apply list_elem_of_lookup_2 in Hr'.
      exists r'. split; [done|]. by eapply move_progress.
  - split; [split; [done|]|].
    + rewrite Hq, Ha. intros r [Hr | Hr%list_elem_of_singleton]%elem_of_app Hst; [by apply Hrel|]. subst r. congruence.
    + intros r Hr. exists r. rewrite Hq. split; [apply elem_of_app; by left|]. split; [apply same_item_refl | by left].
Qed.

Lemma steps_sound w w' : (forall a b, uuid4_hex a = uuid4_hex b -> a = b) -> sound w -> rtc store_step w w' ->
  sound w' /\ forall r, r ∈ held w -> exists r', r' ∈ held w' /\ progress r r'.
Proof.
  intros Hinj Hs Hst. induction Hst as [w|w v w' Hst _ IH].
  - split; [done|]. intros r Hr. exists r. split; [done|]. split; [apply same_item_refl | by left].
  - destruct (step_sound _ _ Hinj Hs Hst) as [Hv Hp]. destruct (IH Hv) as [Hw' Hp']. split; [done|].
    intros r Hr. destruct (Hp r Hr) as (r1 & Hr1 & P1). destruct (Hp' r1 Hr1) as (r2 & Hr2 & P2).
    exists r2. split; [done|]. by eapply progress_trans.
Qed.
End StateMachine.

(** ** Theorems *)
Section Theorems.
Context `{!Runtime, !Machine, !UnicodeData}.

(** C4: release needs a clean scan under the trusted key.
    [release_from_quarantine] succeeds only for an item of the tenant that is
    still quarantined and whose governing scan, the latest scan attestation over
    its content that verifies under the trusted key, is clean (older clean scans
    do not count once a later valid scan is not), and when a capability is
    supplied only if the policy allows it.  The trusted key is the given one,
    else the one in the configured key file, and then the scan on record was
    signed with that very key; only where no key is given and the file has none
    that may be used, does a scan under any key count.  Success marks the item
    released, makes the catalog rows of that very content active and published,
    leaves every other catalog row alone, and is committed when asked to. *)
Theorem release_requires_clean_scan q t actor reason given capability scan_result injection policy persist cm w d w' :
  release_from_quarantine q t actor reason given capability scan_result injection policy persist cm w = (Ok d, w') ->
  exists item scan,
    release_evidence (w_db w) q t item (trust_anchor given (w_files w)) scan capability scan_result injection policy /\
    (forall k, trust_anchor given (w_files w) = Some k ->
       exists stored, stored ∈ db_capguard_attestations (w_db w) /\ at_id stored = at_id scan /\ at_key_id stored = k /\
         verify_attestation (signed_of stored) (Some k) = true) /\
    (forall r, r ∈ held w' -> qr_id r = q -> qr_status r = "released") /\
    (forall r, r ∈ db_capabilities (w_db w') ->
       if (cp_tenant_id r =s tenant_or_default t) && (cp_uri r =s qr_capability_uri item)
          && (cp_content_hash r =s qr_content_hash item)
       then cp_lifecycle r = "active" /\ cp_approval_state r = "published"
       else r ∈ db_capabilities (w_db w)) /\
    (cm = true -> w_disk w' = w_db w').
Proof.
  intros (item & scan & Hev & (now & a & _ & Hh) & Hcm)%release_inv. injection Hh as Hq _ Hc.
  exists item, scan. split; [done|]. split; [|split_and!; [| |done]].
  - intros k Hk. destruct Hev as [_ _ Hg _ _]. rewrite Hk in Hg. by eapply governing_signed.
  - unfold held. rewrite Hq. intros r (r0 & _ & ->)%elem_of_update_where. destruct (qr_id r0 =s q) eqn:E; [done|].
    intros Hid. apply String.eqb_neq in E. done.
  - rewrite Hc. intros r (r0 & Hr0 & ->)%elem_of_update_where.
    destruct ((cp_tenant_id r0 =s tenant_or_default t) && (cp_uri r0 =s _) && _) eqn:E; cbn; rewrite E; [by split | done].
Qed.

(** A refused settlement changes nothing.  When a release or a rejection
    raises, for whatever reason, no table of the database has changed, and
    nothing is committed beyond what was pending before the call. *)
Theorem refused_settlement_changes_nothing m w e w' :
  (exists q t actor reason given capability scan_result injection policy persist cm,
     m = release_from_quarantine q t actor reason given capability scan_result injection policy persist cm) \/
  (exists q t actor reason persist cm, m = reject_from_quarantine q t actor reason persist cm) ->
  m w = (Raise e, w') -> w_db w' = w_db w /\ w_disk w' = w_db w.
Proof.
  intros [(q & t & a & r & g & c & s & i & p & ps & cm & ->)|(q & t & a & r & ps & cm & ->)] E;
    [apply release_inv in E | apply reject_inv in E]; by injection E as -> -> _.
Qed.

(** C5: the store over any history of calls, refused ones included.  From a
    sound store it stays sound: ids stay unique, and every released item has a
    clean scan attestation over its content with a valid signature.  No item
    ever disappears or changes its address or content, and an item moves only
    from quarantined to released or rejected, never back. *)
Theorem quarantine_history w w' :
  (forall a b, uuid4_hex a = uuid4_hex b -> a = b) -> sound w -> rtc called w w' ->
  sound w' /\ forall r, r ∈ held w -> exists r', r' ∈ held w' /\ progress r r'.
Proof.
  intros Hinj Hs Hst. induction Hst as [w|w v w' Hst _ IH]; [by apply steps_sound|].
  destruct (steps_sound _ _ Hinj Hs (called_steps _ _ Hinj (sound_ids _ Hs) Hst)) as [Hv Hp].
  destruct (IH Hv) as [Hw' Hp']. split; [done|].
  intros r Hr. destruct (Hp r Hr) as (r1 & Hr1 & P1). destruct (Hp' r1 Hr1) as (r2 & Hr2 & P2).
  exists r2. split; [done|]. by eapply progress_trans.
Qed.

(** C10: the authoritative release of a supplied capability under the default
    policy.  It succeeds only if the file the item points at exists, is a
    readable regular file of at most the scan limit and matches no malware
    signature, its metadata has no blocking injection phrase, and its recorded
    signature and provenance are verified and its risk tier is known. *)
Theorem verified_release_requires q t actor reason c persist cm w d w' :
  release_capability_from_quarantine q t actor reason (Some c) None persist cm w = (Ok d, w') ->
  exists item n, item_at (w_db w) q t = Some item /\
    named_file (qr_source_path item) w = Some n /\ is_regular n = true /\ fn_readable n = true /\
    (Z.of_nat (String.length (fn_content n)) <= MAX_SCAN_SIZE_BYTES)%Z /\
    (forall sig, sig ∈ MALWARE_SIGNATURES -> ~ occurs (sig_pattern sig) (decode_replace (fn_content n))) /\
    (_injection_verdict item (Some c)).1 = Some true /\
    lower (strip (c_signature_status c)) = "verified" /\ lower (strip (c_provenance_status c)) = "verified" /\
    c_risk_tier c ∈ RISK_TIERS.
Proof.
  intros [[_ Hr]|(item & cap & scanned & scan & injection & r1 & w1 & Hi & Hcap & Hs & (hits & Hj & Hcomp) & _ & E)]%full_inv; [done|].
  specialize (Hcap c eq_refl) as ->. destruct r1 as [d1|e]; [|by destruct E]. apply release_inv in E as (item' & a & [_ _ _ _ Hpol] & _).
  destruct (Hpol c eq_refl) as (v & Hv & Hallow). unfold evaluate_release_policy in Hv.
  assert (allowed v = true) as Hal by (unfold allowed; rewrite Hallow; reflexivity).
  change (Some (or_else None default_policy)) with (Some default_policy) in Hv.
  pose proof (default_policy_allows_iff c (Some scan) injection v Hv) as [[Hiff _] _].
  destruct (Hiff Hal) as (Hclean & Hsig & Hprov & -> & Htier).
  assert (scan = scanned) as -> by exact Hcomp. clear Hcomp.
  destruct Hclean as (d0 & findings & [= <-] & Herr & Hpass & _).
  exists item. rewrite Hj. cbn [fst]. unfold _scan_quarantined_content in Hs. destruct (negb _).
  { injection Hs as <-. by vm_compute in Hpass. }
  apply scan_file_spec in Hs as [_ Hs]. rewrite (named_file_files _ w (committed w)) in Hs by reflexivity.
  destruct (named_file _ w) as [n|]; [|by destruct Hs as (why & [= ->])].
  exists n. destruct (is_regular n) eqn:Hreg; cbn [andb] in Hs; [|by destruct Hs as (why & [= ->])].
  destruct (Z.leb_spec (Z.of_nat (String.length (fn_content n))) MAX_SCAN_SIZE_BYTES); [|by destruct Hs as (why & [= ->])].
  destruct (fn_readable n); [|done]. destruct Hs as (d2 & b & [= ->] & _ & Hb & Hsigs).
  split_and!; [done..| |done|done|done|done]. apply Hsigs. unfold jget in Hpass. rewrite Hb in Hpass. exact Hpass.
Qed.

(** Held content is invisible.  Once [quarantine_capability] returns,
    [get_capability] never answers with a capability of that tenant, address
    and content, whatever name it is asked for. *)
Theorem held_content_hidden tenant uri kind name version path hash reason by_ metadata cm w d w' asked c :
  quarantine_capability tenant uri kind name version path hash reason by_ metadata cm w = (Ok d, w') ->
  get_capability (w_db w') asked = Ok (Some c) ->
  ~ (s_or (c_tenant_id c) "asg" = tenant_or_default tenant /\ c_uri c = uri /\ c_content_hash c = hash).
Proof.
  intros (_ & _ & _ & Hrow)%hold_inv Hc%held_hidden (Ht & Hu & Hh). unfold _capguard_is_held in Hc.
  apply not_true_iff_false in Hc. apply Hc. apply exists_where_true.
  destruct Hrow as [[Hq (row & Hin & E1 & E2 & E3 & E4)] | (row & _ & E1 & E2 & E3 & E4 & Hq & _)]; injection Hq as Hq _ _;
    exists row; (split; [rewrite Hq | by rewrite E1, E2, E3, E4, Ht, Hu, Hh, !String.eqb_refl]); [done|].
  apply elem_of_app. right. by apply list_elem_of_singleton.
Qed.
End Theorems.

(** ** A store, step by step *)
Module QuarantineDemo.
Import ReviewDemo.

Definition hold (hash : string) : Op dict :=
  quarantine_capability "asg" "cap://x" "skill" "demo" "1.0.0" "/pkg/SKILL.md" hash "pending_scan" (Some "bob") [] true.
Definition item_id : string := "qtn_uuid0".
Definition clean_result : dict := scan_content content.
Definition held_world : World := (hold hash world).2.
Definition scanned_world : World :=
  (issue_scan_attestation item_id "asg" clean_result "scanner" (Some "1") true true held_world).2.
Definition released_world : World :=
  (release_from_quarantine item_id "asg" "root" "scan_clean" None None None None None true true scanned_world).2.

(** A capability whose policy inputs were never verified, over a content that
    is not the file's. *)
Definition drifted : World :=
  (hold "sha256:aa" (upd w_db (upd db_capabilities [upd cp_content_hash "sha256:aa" row] catalog) world)).2.
Definition unverified : Capability := Demo.capability row.
Definition full (capability : option Capability) (w : World) : outcome dict * World :=
  release_capability_from_quarantine item_id "asg" "root" "scan_clean" capability None true true w.

(** A capability whose inputs are verified. *)
Definition verified_row : CapRow := upd cp_signature_status "verified" (upd cp_provenance_status "verified" row).

(** A scan attestation signed by a key of no one. *)
Definition forged (item : QuarantineRow) : AttestationRow :=
  let envelope := [("verdict", JStr "clean")] in
  let signed := sign_with "evil" envelope in
  {| at_id := "att_forged"; at_tenant_id := "asg"; at_quarantine_id := qr_id item; at_attestation_type := "scan";
     at_subject_uri := qr_capability_uri item; at_content_hash := qr_content_hash item; at_verdict := Some "clean";
     at_scanner_id := None; at_scanner_version := None; at_findings_summary_json := "{}"; at_algorithm := "Ed25519";
     at_key_id := key_id "evil"; at_public_key := b64encode "evil";
     at_signature := b64encode (ed_sign "evil" (_canonical_json (JObj envelope)));
     at_envelope_json := json_dumps (JObj envelope); at_verifies := 1; at_actor := None; at_reason := None;
     at_created_at := "2026-07-20 00:00:00" |}.
Definition forged_world : World :=
  upd w_db (upd db_capguard_attestations (forged <$> held held_world) (w_db held_world)) held_world.
End QuarantineDemo.

Section Witnesses.
Import ReviewDemo QuarantineDemo.

(** The capability of a held item is never consulted when it is not
    supplied.  [get_capability] hides it, so the release of an unverified
    capability that the policy refuses when it is supplied succeeds without
    one; and the scanned file need not have the held content hash. *)
Theorem omitted_capability_skips_policy :
  is_ok (full None drifted).1 = true /\
  is_ok (full (Some unverified) drifted).1 = false /\
  hash <> "sha256:aa".
Proof. split_and!; vm_compute; [reflexivity..|discriminate]. Qed.

(** Without a readable signing key the release trusts any key.  A scan
    attestation that a stranger signed does not release the item under the
    key the operator trusts, and releases it when no trusted key is
    available. *)
Theorem missing_anchor_accepts_any_key trusted :
  trusted <> key_id "evil" ->
  is_ok (release_from_quarantine item_id "asg" "root" "r" (Some trusted) None None None None true true
           forged_world).1 = false /\
  is_ok (release_from_quarantine item_id "asg" "root" "r" None None None None None true true
           forged_world).1 = true.
Proof.
  intros Hne. split; [|vm_compute; reflexivity].
  destruct (release_from_quarantine _ _ _ _ (Some trusted) _ _ _ _ _ _ _) as [[d|e] w'] eqn:E; [|done]. exfalso.
  apply release_inv in E as (item & scan & [_ _ Hg _ _] & _).
  apply fetchone_some in Hg as [Hin [_ Hv]%andb_true_iff].
  unfold scans_of in Hin. apply list_elem_of_In, in_rev, list_elem_of_In, elem_of_fetchall in Hin as [_ Hin].
  assert (exists i, scan = forged i) as [i ->].
  { change (scan ∈ forged <$> held held_world) in Hin.
    apply list_elem_of_fmap in Hin as (i & -> & _). by exists i. }
  apply Hne. unfold verifies_at in Hv. destruct (fetchone _ _) as [stored|] eqn:Ef; [|done].
  apply fetchone_some in Ef as [Hst _].
  change (stored ∈ forged <$> held held_world) in Hst.
  apply list_elem_of_fmap in Hst as (j & -> & _). by apply verify_key_id in Hv as <-.
Qed.

(** ** The theorems on concrete stores *)
Lemma release_requires_clean_scan_witness :
  is_ok (fst (release_from_quarantine item_id "asg" "root" "scan_clean" None None None None None true true scanned_world)) = true /\ (forall r, r ∈ held (snd (release_from_quarantine item_id "asg" "root" "scan_clean" None None None None None true true scanned_world)) -> qr_id r = item_id -> qr_status r = "released").
Proof.
  assert (is_ok (fst (release_from_quarantine item_id "asg" "root" "scan_clean" None None None None None true true scanned_world)) = true) as Hok by (vm_compute; reflexivity). split; [exact Hok|].
  destruct (release_from_quarantine item_id "asg" "root" "scan_clean" None None None None None true true scanned_world) as [r w'] eqn:E. destruct r as [d|e]; [|discriminate Hok].
  destruct (release_requires_clean_scan _ _ _ _ _ _ _ _ _ _ _ _ _ _ E) as (item & scan & _ & _ & Hq & _). exact Hq.
Defined.

Lemma refused_settlement_changes_nothing_witness :
  is_ok (fst (release_from_quarantine item_id "asg" "root" "scan_clean" None None None None None true true held_world)) = false /\ w_db (snd (release_from_quarantine item_id "asg" "root" "scan_clean" None None None None None true true held_world)) = w_db held_world.
Proof.
  assert (is_ok (fst (release_from_quarantine item_id "asg" "root" "scan_clean" None None None None None true true held_world)) = false) as Hok by (vm_compute; reflexivity). split; [exact Hok|].
  destruct (release_from_quarantine item_id "asg" "root" "scan_clean" None None None None None true true held_world) as [r w'] eqn:E. destruct r as [d|e]; [discriminate Hok|].
  refine (proj1 (refused_settlement_changes_nothing _ _ _ _ _ E)). left. repeat eexists.
Defined.

Lemma verified_release_requires_witness :
  is_ok (fst (release_capability_from_quarantine item_id "asg" "root" "scan_clean" (Some (Demo.capability verified_row)) None true true held_world)) = true /\ c_risk_tier (Demo.capability verified_row) ∈ RISK_TIERS.
Proof.
  assert (is_ok (fst (release_capability_from_quarantine item_id "asg" "root" "scan_clean" (Some (Demo.capability verified_row)) None true true held_world)) = true) as Hok by (vm_compute; reflexivity). split; [exact Hok|].
  destruct (release_capability_from_quarantine item_id "asg" "root" "scan_clean" (Some (Demo.capability verified_row)) None true true held_world) as [r w'] eqn:E. destruct r as [d|e]; [|discriminate Hok].
  destruct (verified_release_requires _ _ _ _ _ _ _ _ _ _ E) as (item & n & _ & _ & _ & _ & _ & _ & _ & _ & _ & Ht).
  exact Ht.
Defined.

Lemma called_run m w : store_call m -> called w (m w).2.
Proof. intros Hm. by exists m. Qed.

Lemma world_sound : sound world.
Proof. split; [split; [constructor | by intros ? ? ?%elem_of_nil] | by intros ? ?%elem_of_nil]. Qed.

Lemma hold_call hash : store_call (hold hash).
Proof. apply call_hold. Qed.

Lemma reject_call q t actor reason persist cm : store_call (reject_from_quarantine q t actor reason persist cm).
Proof. apply call_reject. Qed.

Lemma quarantine_history_witness :
  exists w w', rtc called world w /\ rtc called w w' /\ sound w' /\
    forall r, r ∈ held w -> exists r', r' ∈ held w' /\ progress r r'.
Proof.
  destruct (hold hash world) as [o w] eqn:E.
  pose proof (rtc_once _ _ (called_run (hold hash) world (hold_call hash))) as Hh. rewrite E in Hh. cbn [snd] in Hh.
  destruct (reject_from_quarantine item_id "asg" "root" "unwanted" true true w) as [o' w'] eqn:E'.
  pose proof (rtc_once _ _ (called_run _ w (reject_call item_id "asg" "root" "unwanted" true true))) as Hr.
  rewrite E' in Hr. cbn [snd] in Hr. exists w, w'. split; [exact Hh|]. split; [exact Hr|].
  destruct (quarantine_history world w Demo.uuid_text_inj world_sound Hh) as [Hs _].
  exact (quarantine_history w w' Demo.uuid_text_inj Hs Hr).
Defined.

Lemma held_content_hidden_witness :
  is_ok (fst (quarantine_capability "asg" "cap://x" "skill" "demo" "1.0.0" "/pkg/SKILL.md" hash "pending_scan" (Some "bob") [] true world)) = true /\ forall asked c, get_capability (w_db (snd (quarantine_capability "asg" "cap://x" "skill" "demo" "1.0.0" "/pkg/SKILL.md" hash "pending_scan" (Some "bob") [] true world))) asked = Ok (Some c) ->
    ~ (s_or (c_tenant_id c) "asg" = "asg" /\ c_uri c = "cap://x" /\ c_content_hash c = hash).
Proof.
  assert (is_ok (fst (quarantine_capability "asg" "cap://x" "skill" "demo" "1.0.0" "/pkg/SKILL.md" hash "pending_scan" (Some "bob") [] true world)) = true) as Hok by (vm_compute; reflexivity). split; [exact Hok|].
  destruct (quarantine_capability "asg" "cap://x" "skill" "demo" "1.0.0" "/pkg/SKILL.md" hash "pending_scan" (Some "bob") [] true world) as [r w'] eqn:E. destruct r as [d|e]; [|discriminate Hok]. cbn [snd]. intros asked c Hc.
  exact (held_content_hidden _ _ _ _ _ _ _ _ _ _ _ _ _ _ asked c E Hc).
Defined.

Lemma missing_anchor_accepts_any_key_witness :
  "ed25519:0" <> key_id "evil" /\
  is_ok (release_from_quarantine item_id "asg" "root" "r" None None None None None true true forged_world).1 = true.
Proof.
  assert ("ed25519:0" <> key_id "evil") as Hne by (vm_compute; discriminate).
  split; [exact Hne|]. apply (missing_anchor_accepts_any_key "ed25519:0" Hne).
Defined.
End Witnesses.
