(* ===== verification/TaskProps.v ===== *)
(** * What the task queue guarantees

    The outcome of processing, the states a task goes through over any history
    of calls, and what a dispatch records. *)

From Stdlib Require Import ZArith Ascii String Lia.
From stdpp Require Import base option list strings gmap.
From S2P Require Import Prelude PyStr Json JsonCodec Clock Db Models ModelRouter Tasks.
Local Open Scope string_scope.
Local Open Scope list_scope.

Definition tasks (w : World) : list TaskRow := db_task_envelopes (w_db w).

(** Code that leaves the queue alone, whatever else it does. *)
Definition apart {A} (m : Op A) : Prop := keeps tasks m /\ preserves later m.

Section Operations.
Context `{!Runtime}.

Lemma task_at_in d id tenant row : task_at d id tenant = Some row ->
  row ∈ db_task_envelopes d /\ tk_id row = id /\ tk_tenant_id row = tenant.
Proof. intros [Hin [?%String.eqb_eq ?%String.eqb_eq]%andb_true_iff]%fetchone_some. done. Qed.

(** The envelope a handler receives. *)
Definition envelope_of (row : TaskRow) : json := json_loads (Some (tk_task_envelope_json row)) (JObj []).

Definition processable (row : TaskRow) : bool := smem (tk_status row) ["queued"; "failed"].

Definition update_at (id : string) (f : TaskRow -> TaskRow) (t : list TaskRow) : list TaskRow :=
  update_where (fun r => tk_id r =s id) f t.

(** The two ends of a processed task: what is returned and what is stored. *)
Inductive processed (id : string) (now : string) (t : list TaskRow) : outcome json -> dict -> list TaskRow -> Prop :=
| processed_ok result : processed id now t (Ok result)
    [("taskId", JStr id); ("status", JStr "completed"); ("result", result)] (update_at id (mark_completed result now) t)
| processed_failed exc : processed id now t (Raise exc)
    [("taskId", JStr id); ("status", JStr "failed"); ("error", JStr (exn_str exc))]
    (update_at id (mark_failed (exn_str exc) now) t).

Lemma process_inv id h tenant cm w r w' :
  (forall env, apart (h env)) -> process_task id h tenant cm w = (r, w') ->
  match task_at (w_db w) id tenant with
  | None => r = Raise (ValueError ("Task not found: " +:+ id)) /\ tasks w' = tasks w
  | Some row =>
      if processable row then
        exists v now now' d, tasks v = update_at id (mark_running now) (tasks w) /\ later w v /\ later v w' /\ r = Ok d /\
          processed id now' (tasks v) (h (envelope_of row) v).1 d (tasks w')
      else r = Raise (ValueError ("Task is not in a processable state: " +:+ tk_status row)) /\ tasks w' = tasks w
  end.
Proof.
  intros Hh. unfold process_task, ensure_task_table, update_task. unfold bind at 1 2, commit at 1, modify at 1, query, gets at 1.
  change (w_db (upd w_disk (w_db w) w)) with (w_db w).
  destruct (task_at (w_db w) id tenant) as [row|] eqn:E; [|by intros [= <- <-]].
  unfold processable. destruct (smem (tk_status row) _) eqn:Es; cbn [negb]; [|by intros [= <- <-]].
  unfold bind at 1, utc_now, gets. unfold bind at 1. unfold update_rows at 1, set_db at 1, modify at 1. unfold bind at 1.
  set (v0 := upd w_db _ _). set (v := if cm then upd w_disk (w_db v0) v0 else v0).
  assert (when cm commit v0 = (Ok tt, v)) as -> by (by destruct cm).
  assert (tasks v = update_at id (mark_running (utc_text (w_clock w))) (tasks w)) as Hv by (by destruct cm).
  assert (later w v) as Hl by (unfold later; by destruct cm).
  unfold try_except, bind at 1. destruct (Hh (envelope_of row)) as [Hk Hlater].
  specialize (Hk v). specialize (Hlater v). unfold envelope_of in *. unfold same in Hk.
  destruct (h _ v) as [[result|exc] w2] eqn:Eh; cbn [snd] in Hk, Hlater; cbn [fst].
  - unfold bind at 1, update_rows at 1, set_db, modify. unfold bind at 1. set (w3 := upd w_db _ w2).
    intros E'. assert (r = Ok [("taskId", JStr id); ("status", JStr "completed"); ("result", result)] /\ tasks w' = tasks w3 /\ w_uuid w' = w_uuid w2)
      as (-> & Ht & Hu) by (unfold when, bind in E'; destruct cm; injection E' as <- <-; done).
    exists v, (utc_text (w_clock w)), (utc_text (w_clock w2)). eexists. split_and!; [done | done | | reflexivity |].
    + unfold later in *. lia.
    + rewrite Eh, Ht, <-Hk. exact (processed_ok id _ _ result).
  - unfold bind at 1, update_rows at 1, set_db, modify. unfold bind at 1. set (w3 := upd w_db _ w2).
    intros E'. assert (r = Ok [("taskId", JStr id); ("status", JStr "failed"); ("error", JStr (exn_str exc))] /\ tasks w' = tasks w3 /\ w_uuid w' = w_uuid w2)
      as (-> & Ht & Hu) by (unfold when, bind in E'; destruct cm; injection E' as <- <-; done).
    exists v, (utc_text (w_clock w)), (utc_text (w_clock w2)). eexists. split_and!; [done | done | | reflexivity |].
    + unfold later in *. lia.
    + rewrite Eh, Ht, <-Hk. exact (processed_failed id _ _ exc).
Qed.
End Operations.

(** ** The queue as a state machine *)
Inductive task_edge : string -> string -> Prop :=
| edge_start : task_edge "queued" "running"
| edge_retry : task_edge "failed" "running"
| edge_complete : task_edge "running" "completed"
| edge_fail : task_edge "running" "failed"
| edge_cancel_queued : task_edge "queued" "cancelled"
| edge_cancel_running : task_edge "running" "cancelled".

Record same_task (r r' : TaskRow) : Prop := {
  st_id : tk_id r' = tk_id r; st_tenant : tk_tenant_id r' = tk_tenant_id r;
  st_uri : tk_capability_uri r' = tk_capability_uri r; st_principal : tk_principal r' = tk_principal r;
  st_envelope : tk_task_envelope_json r' = tk_task_envelope_json r; st_created : tk_created_at r' = tk_created_at r
}.

(** What may become of a task: nothing, or at least one transition. *)
Definition task_move (r r' : TaskRow) : Prop :=
  r' = r \/ (same_task r r' /\ tc task_edge (tk_status r) (tk_status r')).

#[export] Instance same_task_trans : Transitive same_task.
Proof. intros x y z [] []. split; congruence. Qed.

#[export] Instance task_move_preorder : PreOrder task_move.
Proof.
  split; [by left|]. intros x y z [-> | [S1 T1]] [-> | [S2 T2]]; [by left | by right | by right |].
  right. split; [by etrans | by etrans].
Qed.

Lemma edge_move r r' : same_task r r' -> task_edge (tk_status r) (tk_status r') -> task_move r r'.
Proof. intros Hs He. right. split; [done | by apply tc_once]. Qed.

(** A completed or cancelled task does not move. *)
Lemma terminal_task s s' : tc task_edge s s' -> s ∈ ["completed"; "cancelled"] -> False.
Proof.
  intros Ht Hs. assert (exists s1, task_edge s s1) as [s1 He] by (destruct Ht; eauto).
  rewrite !elem_of_cons, elem_of_nil in Hs. destruct Hs as [-> | [-> | []]]; inversion He.
Qed.

Section Machine.
Context `{!Runtime}.

Definition task_ids (w : World) : Prop := ids_drawn "task" tk_id (tasks w) (w_uuid w).

Lemma update_at_moves (R : relation TaskRow) id f t row : (forall r, R r r) -> NoDup (tk_id <$> t) -> row ∈ t -> tk_id row = id ->
  R row (f row) -> Forall2 R t (update_at id f t).
Proof.
  intros Hrefl Hnd Hin <- Hf. apply (update_where_Forall2 tk_id _ _ _ _ row); [done | done | | done | done].
  intros r. apply String.eqb_eq.
Qed.

Lemma moves_ids t t' : Forall2 task_move t t' -> tk_id <$> t' = tk_id <$> t.
Proof.
  induction 1 as [|r r' t t' Hr _ IH]; [done|]. rewrite !fmap_cons, IH. f_equal. by destruct Hr as [-> | [[] _]].
Qed.

(** A call moves tasks, or adds a queued one. *)
Inductive queue_step (w w' : World) : Prop :=
| queue_move : Forall2 task_move (tasks w) (tasks w') -> later w w' -> queue_step w w'
| queue_add row : tasks w' = tasks w ++ [row] -> tk_id row = "task" +:+ "_" +:+ uuid4_hex (w_uuid w) ->
    tk_status row = "queued" -> (w_uuid w < w_uuid w')%nat -> queue_step w w'.

Lemma queue_same w w' : tasks w' = tasks w -> later w w' -> queue_step w w'.
Proof. intros Ht Hl. apply queue_move; [|done]. rewrite Ht. apply Forall_Forall2_diag, Forall_true. intros r. by left. Qed.

Lemma process_later id h tenant cm : (forall env, apart (h env)) -> preserves later (process_task id h tenant cm).
Proof.
  intros Hh. unfold process_task, ensure_task_table, update_task. solve_frame. apply Hh.
Qed.

Lemma process_step id h tenant cm w : (forall env, apart (h env)) -> task_ids w ->
  queue_step w (process_task id h tenant cm w).2.
Proof.
  intros Hh [Hnd _]. pose proof (process_later id h tenant cm Hh w) as Hl.
  destruct (process_task id h tenant cm w) as [r w'] eqn:E. cbn [snd] in *. apply process_inv in E; [|done].
  destruct (task_at (w_db w) id tenant) as [row|] eqn:Ea; [|destruct E as [_ E]; by apply queue_same].
  unfold processable in E. destruct (smem (tk_status row) _) eqn:Es; [|destruct E as [_ E]; by apply queue_same].
  destruct E as (v & now & now' & d & Hv & _ & _ & _ & Hp). apply task_at_in in Ea as (Hin & Hid & _).
  apply queue_move; [|done]. set (row1 := mark_running now row).
  assert (task_edge (tk_status row) "running") as He.
  { apply smem_In in Es. rewrite !elem_of_cons, elem_of_nil in Es. destruct Es as [-> | [-> | []]]; constructor. }
  assert (Forall2 task_move (tasks w) (tasks v)) as Hm.
  { rewrite Hv. apply (update_at_moves _ _ _ _ row); [by left | done | done | done | by apply edge_move]. }
  trans (tasks v); [done|].
  assert (row1 ∈ tasks v) as Hin1.
  { rewrite Hv. apply elem_of_update_where. exists row. split; [done|]. by rewrite Hid, String.eqb_refl. }
  assert (NoDup (tk_id <$> tasks v)) as Hnd1 by (by rewrite (moves_ids _ _ Hm)).
  destruct Hp; (apply (update_at_moves _ _ _ _ row1); [by left | done | done | done | apply edge_move; [done | constructor]]).
Qed.

Lemma cancel_inv id tenant cm w r w' : cancel_task id tenant cm w = (r, w') ->
  tasks w' = tasks w /\ is_ok r = false \/
  exists row now, task_at (w_db w) id tenant = Some row /\ tk_status row ∈ ["queued"; "running"] /\ is_ok r = true /\
    tasks w' = update_at id (mark_cancelled now) (tasks w).
Proof.
  unfold cancel_task, update_task. unfold bind at 1, query, gets at 1.
  destruct (task_at (w_db w) id tenant) as [row|]; [|intros [= <- <-]; by left].
  destruct (smem (tk_status row) _) eqn:Es; cbn [negb]; [|intros [= <- <-]; by left]. apply smem_In in Es.
  intros E. right. exists row, (utc_text (w_clock w)). destruct cm; injection E as <- <-; done.
Qed.

Lemma cancel_step id tenant cm w : task_ids w -> queue_step w (cancel_task id tenant cm w).2.
Proof.
  intros [Hnd _]. assert (preserves later (cancel_task id tenant cm)) as Hl by (unfold cancel_task, update_task; solve_frame).
  specialize (Hl w). destruct (cancel_task id tenant cm w) as [r w'] eqn:E. cbn [snd] in *.
  apply cancel_inv in E as [[Ht _]|(row & now & Ha & Hs & _ & Ht)]; [by apply queue_same|].
  apply task_at_in in Ha as (Hin & Hid & _). apply queue_move; [|done]. rewrite Ht.
  apply (update_at_moves _ _ _ _ row); [by left | done | done | done |]. apply edge_move; [done|].
  rewrite !elem_of_cons, elem_of_nil in Hs. destruct Hs as [-> | [-> | []]]; constructor.
Qed.

Lemma create_inv uri principal env tenant cm w r w' : create_task_envelope uri principal env tenant cm w = (r, w') ->
  exists row, tasks w' = tasks w ++ [row] /\ tk_id row = "task" +:+ "_" +:+ uuid4_hex (w_uuid w) /\ tk_tenant_id row = tenant /\
    tk_status row = "queued" /\ tk_capability_uri row = uri /\ tk_principal row = principal /\
    tk_task_envelope_json row = json_dumps (JObj env) /\ w_uuid w' = S (w_uuid w) /\
    exists d, r = Ok d /\ dget "taskId" d = Some (JStr (tk_id row)).
Proof. intros E. destruct cm; injection E as <- <-; (eexists; split; [reflexivity | split_and!; try done; by eexists]). Qed.

Lemma create_step uri principal env tenant cm w : queue_step w (create_task_envelope uri principal env tenant cm w).2.
Proof.
  destruct (create_task_envelope uri principal env tenant cm w) as [r w'] eqn:E.
  apply create_inv in E as (row & Ht & Hid & _ & Hs & _ & _ & _ & Hu & _). apply (queue_add w w' row); [done..|].
  rewrite Hu. lia.
Qed.

Lemma queue_step_ids w w' : (forall a b, uuid4_hex a = uuid4_hex b -> a = b) ->
  queue_step w w' -> task_ids w -> task_ids w'.
Proof.
  intros Hinj [Hm Hl | row Ht Hid _ Hlt] Hids; unfold task_ids.
  - eapply ids_drawn_later; [exact Hids | by apply moves_ids | done].
  - rewrite Ht. by eapply ids_drawn_snoc.
Qed.
End Machine.

Section Dispatch.
Context `{!Runtime, !Gateway}.
(** Other connections may do anything while the gateway is asked, except touch
    the queue. *)
Hypothesis post_apart : forall url body, apart (post url body).

Lemma post_keeps url body : preserves (same tasks) (post url body).
Proof. apply post_apart. Qed.
Lemma post_later url body : preserves later (post url body).
Proof. apply post_apart. Qed.
#[local] Hint Resolve post_keeps post_later : frame.

Lemma dispatch_apart envelope routing url : apart (dispatch_task envelope routing url).
Proof. unfold apart, keeps, dispatch_task. split; solve_frame. Qed.

(** A dispatch asks the gateway, then processes the task with the answer. *)
Lemma dispatch_queued_inv id tenant url w r w' : dispatch_queued_task id tenant url w = (r, w') ->
  (tasks w' = tasks w /\ later w w' /\
     forall row, task_at (w_db w) id tenant = Some row -> processable row = true -> is_ok r = false) \/
  exists row result w2 r2, task_at (w_db w) id tenant = Some row /\ processable row = true /\
    tasks w2 = tasks w /\ later w w2 /\
    dispatch_task (jget "taskEnvelope" (_row_to_dict row)) None url (upd w_disk (w_db w) w) = (Ok result, w2) /\
    process_task id (fun _ => ret (JObj result)) tenant true w2 = (r2, w') /\
    r = match r2 with Ok _ => Ok result | Raise e => Raise e end.
Proof.
  unfold dispatch_queued_task, task_status, ensure_task_table. unfold bind at 1. unfold bind at 1, commit at 1, modify at 1.
  unfold bind at 1, query, gets at 1. change (w_db (upd w_disk (w_db w) w)) with (w_db w).
  destruct (task_at (w_db w) id tenant) as [row|]; [|intros [= <- <-]; left; split_and!; [done | exact (Nat.le_refl _) | done]].
  unfold ret at 1. change (py_str (jget "status" (_row_to_dict row))) with (tk_status row).
  destruct (processable row) eqn:Es; unfold processable in Es; rewrite Es; cbn [negb];
    [|intros [= <- <-]; left; split_and!; [done | exact (Nat.le_refl _) |]; intros row' [= <-] E'; unfold processable in E'; by rewrite Es in E'].
  unfold bind at 1. destruct (dispatch_apart (jget "taskEnvelope" (_row_to_dict row)) None url) as [Hk Hl].
  specialize (Hk (upd w_disk (w_db w) w)). specialize (Hl (upd w_disk (w_db w) w)).
  destruct (dispatch_task _ None url _) as [[result|e] w2] eqn:Ed; cbn [snd] in Hk, Hl.
  - unfold bind at 1. destruct (process_task _ _ _ _ w2) as [r2 w3] eqn:Ep. intros E. right. exists row, result, w2, r2.
    split_and!; [done | done | done | done | done | |]; destruct r2; by injection E as <- <-.
  - intros [= <- <-]. left. split_and!; [done | done |]. done.
Qed.

Lemma ret_apart {A} (a : A) : apart (ret a).
Proof. by split; intros w. Qed.

(** ** Histories *)
Inductive task_call : Op dict -> Prop :=
| call_create uri principal env tenant cm : task_call (create_task_envelope uri principal env tenant cm)
| call_process id h tenant cm : (forall env, apart (h env)) -> task_call (process_task id h tenant cm)
| call_cancel id tenant cm : task_call (cancel_task id tenant cm)
| call_dispatch id tenant url : task_call (dispatch_queued_task id tenant url).

Definition task_called (w w' : World) : Prop := exists m, task_call m /\ (m w).2 = w'.

Lemma task_called_steps w w' : (forall a b, uuid4_hex a = uuid4_hex b -> a = b) -> task_ids w ->
  task_called w w' -> rtc queue_step w w'.
Proof.
  intros Hinj Hids (m & Hm & <-).
  destruct Hm as [? ? ? ? ? | id h tenant cm Hh | id tenant cm | id tenant url]; [apply rtc_once, create_step | by apply rtc_once, process_step | by apply rtc_once, cancel_step |].
  destruct (dispatch_queued_task id tenant url w) as [r w'] eqn:E. cbn [snd].
  apply dispatch_queued_inv in E as [(Ht & Hl & _)|(row & result & w2 & r2 & _ & _ & Ht & Hl & _ & Ep & _)];
    [by apply rtc_once, queue_same|].
  assert (queue_step w w2) as Hs by (by apply queue_same). eapply rtc_l; [exact Hs|]. apply rtc_once.
  pose proof (process_step id (fun _ => ret (JObj result)) tenant true w2 (fun _ => ret_apart _)
    (queue_step_ids _ _ Hinj Hs Hids)) as Hp. by rewrite Ep in Hp.
Qed.

Lemma queue_steps_keep w w' : (forall a b, uuid4_hex a = uuid4_hex b -> a = b) -> task_ids w -> rtc queue_step w w' ->
  task_ids w' /\ forall r, r ∈ tasks w -> exists r', r' ∈ tasks w' /\ task_move r r'.
Proof.
  intros Hinj Hids Hst. induction Hst as [w|w v w' Hst _ IH]; [split; [done|]; intros r Hr; exists r; by split; [|left]|].
  destruct (IH (queue_step_ids _ _ Hinj Hst Hids)) as [Hids' Hp]. split; [done|]. intros r Hr.
  assert (exists r1, r1 ∈ tasks v /\ task_move r r1) as (r1 & Hr1 & M1).
  { destruct Hst as [Hm _ | row Ht _ _ _].
    - apply list_elem_of_lookup in Hr as [i Hi]. destruct (Forall2_lookup_l _ _ _ _ _ Hm Hi) as (r1 & Hr1 & M).
      exists r1. split; [by eapply list_elem_of_lookup_2 | done].
    - exists r. rewrite Ht. split; [apply elem_of_app; by left | by left]. }
  destruct (Hp r1 Hr1) as (r2 & Hr2 & M2). exists r2. split; [done | by etrans].
Qed.
End Dispatch.

(** ** Theorems *)
Section Theorems.
Context `{!Runtime}.

(** Processing a task.  For a handler that does not touch the queue: a
    task that does not exist in the tenant, or is not queued or failed, is
    refused and nothing changes; otherwise the handler runs once, on the stored
    envelope and while the task is marked running, its exceptions are caught,
    what is returned is what is stored (completed with the result, or failed
    with the text of the exception), and no other task changes. *)
Theorem process_task_spec id h tenant cm w r w' :
  (forall env, apart (h env)) -> process_task id h tenant cm w = (r, w') ->
  match task_at (w_db w) id tenant with
  | Some row =>
      if processable row then
        exists v d, r = Ok d /\ (forall r', r' ∈ tasks v -> tk_id r' = id -> tk_status r' = "running") /\
          match (h (envelope_of row) v).1 with
          | Ok x => jget "status" d = JStr "completed" /\ jget "result" d = x /\
              forall r', r' ∈ tasks w' -> if tk_id r' =s id
                then tk_status r' = "completed" /\ tk_result_json r' = Some (json_dumps x) else r' ∈ tasks w
          | Raise e => jget "status" d = JStr "failed" /\ jget "error" d = JStr (exn_str e) /\
              forall r', r' ∈ tasks w' -> if tk_id r' =s id
                then tk_status r' = "failed" /\ tk_error r' = Some (exn_str e) else r' ∈ tasks w
          end
      else is_ok r = false /\ tasks w' = tasks w
  | None => is_ok r = false /\ tasks w' = tasks w
  end.
Proof.
  intros Hh E%process_inv; [|done]. destruct (task_at (w_db w) id tenant) as [row|]; [|by destruct E as [-> ?]].
  destruct (processable row); [|by destruct E as [-> ?]]. destruct E as (v & now & now' & d & Hv & _ & _ & -> & Hp).
  exists v, d. split; [done|].
  assert (forall f r', (forall x, tk_id (f x) = tk_id x) -> r' ∈ update_at id f (tasks v) ->
    if tk_id r' =s id then exists x, r' = f x else r' ∈ tasks w) as Hrow.
  { intros f r' Hf (x & Hx & ->)%elem_of_update_where. destruct (tk_id x =s id) eqn:Ex.
    - rewrite Hf, Ex. by exists x.
    - rewrite Ex. rewrite Hv in Hx. apply elem_of_update_where in Hx as (y & Hy & ->).
      destruct (tk_id y =s id) eqn:Ey; [cbn in Ex; congruence | done]. }
  split.
  { intros r'. rewrite Hv. intros (x & _ & ->)%elem_of_update_where. destruct (tk_id x =s id) eqn:Ex; [done|].
    intros Hid. by apply String.eqb_neq in Ex. }
  destruct Hp as [x|e]; (split_and!; [done | done |]); intros r' Hr'.
  - specialize (Hrow (mark_completed x now') r' (fun _ => eq_refl) Hr'). destruct (tk_id r' =s id); [|done]. destruct Hrow as [y ->]. done.
  - specialize (Hrow (mark_failed (exn_str e) now') r' (fun _ => eq_refl) Hr'). destruct (tk_id r' =s id); [|done]. destruct Hrow as [y ->]. done.
Qed.

(** Envelopes round-trip through the queue.  A task created with an ASCII
    JSON envelope is found again under the id that was returned, queued, for
    the same capability, with the envelope it was given (keys sorted). *)
Theorem task_envelope_roundtrip uri principal env tenant cm w d w1 :
  wf_json (JObj env) -> (forall r, r ∈ tasks w -> tk_id r <> "task" +:+ "_" +:+ uuid4_hex (w_uuid w)) ->
  create_task_envelope uri principal env tenant cm w = (Ok d, w1) ->
  exists id t w2, dget "taskId" d = Some (JStr id) /\ task_status id tenant w1 = (Ok t, w2) /\
    jget "status" t = JStr "queued" /\ jget "capabilityUri" t = JStr uri /\ jget "principal" t = JStr principal /\
    jget "taskEnvelope" t = sort_keys (JObj env).
Proof.
  intros Hwf Hfresh E. apply create_inv in E as (row & Ht & Hid & Hten & Hs & Hu & Hp & He & _ & d' & [= <-] & Hd).
  exists (tk_id row), (_row_to_dict row), (upd w_disk (w_db w1) w1). split; [done|].
  assert (task_at (w_db w1) (tk_id row) tenant = Some row) as Ha.
  { unfold task_at. change (db_task_envelopes (w_db w1)) with (tasks w1). rewrite Ht, fetchone_app.
    destruct (fetchone _ (tasks w)) as [r0|] eqn:E0.
    - apply fetchone_some in E0 as [Hin [Hk%String.eqb_eq _]%andb_true_iff]. exfalso. apply (Hfresh r0 Hin). congruence.
    - cbn. by rewrite Hten, !String.eqb_refl. }
  split.
  { unfold task_status, ensure_task_table, bind, commit, modify, query, gets.
    change (w_db (upd w_disk (w_db w1) w1)) with (w_db w1). by rewrite Ha. }
  change (jget "status" (_row_to_dict row)) with (JStr (tk_status row)).
  change (jget "capabilityUri" (_row_to_dict row)) with (JStr (tk_capability_uri row)).
  change (jget "principal" (_row_to_dict row)) with (JStr (tk_principal row)).
  rewrite Hs, Hu, Hp. split_and!; [done..|].
  change (jget "taskEnvelope" (_row_to_dict row)) with
    (if truthy (tk_task_envelope_json row) then json_loads (Some (tk_task_envelope_json row)) (JObj []) else JObj []).
  rewrite He, (json_loads_dumps _ _ Hwf). unfold json_dumps. by rewrite (print_nonempty _ (wf_sort_keys _ Hwf)).
Qed.
End Theorems.

Section DispatchTheorems.
Context `{!Runtime, !Gateway}.

(** C36: The states of a task over any history of calls.  While handlers and the
    gateway leave the queue alone, ids stay unique, no task disappears or
    changes its identity or its envelope, and a task changes only along the
    transitions queued or failed to running, running to completed or failed,
    queued or running to cancelled; so a completed or cancelled task is never
    written again. *)
Theorem task_history w w' :
  (forall url body, apart (post url body)) -> (forall a b, uuid4_hex a = uuid4_hex b -> a = b) ->
  task_ids w -> rtc task_called w w' ->
  task_ids w' /\ forall r, r ∈ tasks w -> exists r', r' ∈ tasks w' /\ task_move r r' /\
    (tk_status r ∈ ["completed"; "cancelled"] -> r' = r).
Proof.
  intros Hpost Hinj Hids Hst.
  assert (task_ids w' /\ forall r, r ∈ tasks w -> exists r', r' ∈ tasks w' /\ task_move r r') as [Hids' Hp].
  { induction Hst as [w|w v w' Hst _ IH]; [split; [done|]; intros r Hr; exists r; by split; [|left]|].
    destruct (queue_steps_keep _ _ Hinj Hids (task_called_steps Hpost _ _ Hinj Hids Hst)) as [Hv Hp].
    destruct (IH Hv) as [Hids' Hp']. split; [done|]. intros r Hr. destruct (Hp r Hr) as (r1 & Hr1 & M1).
    destruct (Hp' r1 Hr1) as (r2 & Hr2 & M2). exists r2. split; [done | by etrans]. }
  split; [done|]. intros r Hr. destruct (Hp r Hr) as (r' & Hr' & M). exists r'. split_and!; [done | done |].
  intros Hterm. destruct M as [-> | [_ Ht]]; [done|]. destruct (terminal_task _ _ Ht Hterm).
Qed.

(** A dispatch is recorded as completed whatever came of it.  When
    [dispatch_queued_task] processes a task it marks it completed and stores
    the dispatch result, also when the gateway was unreachable or answered with
    an error and the result says failed; so such a task is never retried. *)
Theorem dispatch_recorded_completed id tenant url w r w' row :
  (forall url body, apart (post url body)) ->
  dispatch_queued_task id tenant url w = (Ok r, w') ->
  task_at (w_db w) id tenant = Some row -> processable row = true ->
  forall r', r' ∈ tasks w' -> tk_id r' = id -> tk_status r' = "completed" /\ tk_result_json r' = Some (json_dumps (JObj r)).
Proof.
  intros Hpost E Ha Hs. apply dispatch_queued_inv in E as [(_ & _ & Hno)|(row' & result & w2 & r2 & Ha' & _ & Ht & _ & _ & Ep & Hr)]; [|
    |exact Hpost].
  { by specialize (Hno row Ha Hs). }
  rewrite Ha in Ha'. injection Ha' as <-. apply process_inv in Ep; [|intros ?; apply ret_apart].
  assert (task_at (w_db w2) id tenant = Some row) as Ha2.
  { unfold task_at. change (db_task_envelopes (w_db w2)) with (tasks w2). rewrite Ht. exact Ha. }
  rewrite Ha2, Hs in Ep. destruct Ep as (v & now & now' & d & _ & _ & _ & -> & Hp). injection Hr as <-.
  assert (tasks w' = update_at id (mark_completed (JObj r) now') (tasks v)) as -> by (by inversion Hp).
  intros r' (z & _ & ->)%elem_of_update_where. destruct (tk_id z =s id) eqn:Ez; [done|].
  intros Hid. by apply String.eqb_neq in Ez.
Qed.
End DispatchTheorems.

(** ** A queue, step by step *)
Module TaskDemo.
#[export] Existing Instance Demo.runtime.
#[export] Instance offline : Gateway :=
  {| post := fun _ _ => ret (Unreachable "connection refused"); decode_error := fun t => t |}.

Definition envelope : dict := [("task", JStr "review the change"); ("agentUri", JStr "cap://agent")].
Definition create : Op dict := create_task_envelope "cap://agent" "alice" envelope "asg" true.
Definition queued : World := (create (Demo.world empty_db)).2.
Definition task_id : string := "task_uuid0".
Definition answer (env : json) : Op json := ret (JStr "done").
(** A handler under which another connection cancels the task. *)
Definition interrupted (env : json) : Op json :=
  let! _ := cancel_task task_id "asg" true in ret (JStr "done").

Lemma answer_apart env : apart (answer env).
Proof. by split; intros w. Qed.
Lemma offline_apart url body : apart (post url body).
Proof. by split; intros w. Qed.
Lemma queued_ids : task_ids queued.
Proof.
  split; [apply NoDup_singleton|]. intros r n Hr%list_elem_of_singleton Hn. subst r.
  change (w_uuid queued) with 1%nat in Hn. intros He.
  assert ("task_uuid" +:+ str_of_Z (Z.of_nat 0) = "task_uuid" +:+ str_of_Z (Z.of_nat n)) as He' by exact He.
  injection He' as He'. change (str_of_Z (Z.of_nat 0) = str_of_Z (Z.of_nat n)) in He'. apply str_of_Z_inj in He'. lia.
Qed.
End TaskDemo.

Section Witnesses.
Import TaskDemo.

(** A task cancelled while its handler runs ends as completed: the final
    UPDATE does not look at the status it replaces. *)
Example cancelled_while_running_completes :
  let '(r, w) := process_task task_id interrupted "asg" true queued in
  is_ok r = true /\ tk_status <$> tasks w = ["completed"].
Proof. vm_compute. split; reflexivity. Qed.

Lemma process_task_spec_witness :
  exists r', r' ∈ tasks (process_task task_id answer "asg" true queued).2 /\ tk_status r' = "completed".
Proof.
  destruct (process_task task_id answer "asg" true queued) as [r w'] eqn:E.
  pose proof (process_task_spec task_id answer "asg" true queued r w' answer_apart E) as Hp.
  assert (is_some (task_at (w_db queued) task_id "asg") = true) as Ha by (vm_compute; reflexivity).
  destruct (task_at (w_db queued) task_id "asg") as [row|] eqn:Erow; [|discriminate Ha].
  assert (processable row = true) as Hs by (vm_compute in Erow; injection Erow as <-; reflexivity).
  rewrite Hs in Hp. destruct Hp as (v & d & _ & _ & _ & _ & Hall).
  assert (is_some (fetchone (fun r => tk_id r =s task_id) (tasks (process_task task_id answer "asg" true queued).2)) = true) as Hx
    by (vm_compute; reflexivity).
  rewrite E in Hx. cbn [snd] in *. destruct (fetchone _ (tasks w')) as [r'|] eqn:Er; [|discriminate Hx].
  apply fetchone_some in Er as [Hin Hid]. exists r'. split; [exact Hin|]. specialize (Hall r' Hin). rewrite Hid in Hall. apply Hall.
Defined.

Lemma task_envelope_roundtrip_witness :
  exists id t w2, task_status id "asg" queued = (Ok t, w2) /\ jget "taskEnvelope" t = sort_keys (JObj envelope).
Proof.
  destruct (create (Demo.world empty_db)) as [r w1] eqn:E.
  assert (w1 = queued) as -> by (unfold queued; by rewrite E).
  assert (is_ok (create (Demo.world empty_db)).1 = true) as Hok by (vm_compute; reflexivity). rewrite E in Hok.
  destruct r as [d|e]; [|discriminate Hok].
  destruct (task_envelope_roundtrip "cap://agent" "alice" envelope "asg" true (Demo.world empty_db) d queued)
    as (id & t & w2 & _ & Hst & _ & _ & _ & Henv).
  - apply wf_json_obj. split; [apply (bool_decide_unpack (NoDup envelope.*1)); vm_compute; exact I | repeat constructor].
  - intros r Hr. destruct (not_elem_of_nil r Hr).
  - exact E.
  - exists id, t, w2. split; [exact Hst | exact Henv].
Defined.

Lemma task_history_witness :
  exists w', rtc task_called queued w' /\ task_ids w'.
Proof.
  destruct (cancel_task task_id "asg" true queued) as [r w'] eqn:E. exists w'.
  assert (rtc task_called queued w') as Hr.
  { apply rtc_once. exists (cancel_task task_id "asg" true). split; [apply call_cancel | by rewrite E]. }
  split; [exact Hr|]. exact (proj1 (task_history queued w' offline_apart Demo.uuid_text_inj queued_ids Hr)).
Defined.

Lemma dispatch_recorded_completed_witness :
  exists r w', dispatch_queued_task task_id "asg" None queued = (Ok r, w') /\ dget "status" r = Some (JStr "failed") /\
    forall r', r' ∈ tasks w' -> tk_id r' = task_id -> tk_status r' = "completed".
Proof.
  destruct (dispatch_queued_task task_id "asg" None queued) as [r w'] eqn:E.
  assert (match dispatch_queued_task task_id "asg" None queued with
          | (Ok d, _) => dget "status" d = Some (JStr "failed") | _ => False end) as Hf by (vm_compute; reflexivity).
  rewrite E in Hf. destruct r as [d|e]; [|destruct Hf]. exists d, w'. split; [reflexivity|]. split; [exact Hf|].
  assert (is_some (task_at (w_db queued) task_id "asg") = true) as Ha by (vm_compute; reflexivity).
  destruct (task_at (w_db queued) task_id "asg") as [row|] eqn:Erow; [|discriminate Ha].
  assert (processable row = true) as Hs by (vm_compute in Erow; injection Erow as <-; reflexivity).
  intros r' Hr' Hid. exact (proj1 (dispatch_recorded_completed _ _ _ _ _ _ _ offline_apart E Erow Hs r' Hr' Hid)).
Defined.
End Witnesses.
