(* ===== verification/Sessions.v ===== *)
(** * Sessions ([tokens.py], [entra_groups.py])

    Bearer sessions of the mesh, OAuth sessions and Entra group bindings: what
    a login writes, when a bearer token is a principal, and what a polling
    client is given.  The random texts of [secrets] are a parameter. *)

From Stdlib Require Import ZArith QArith Ascii String Lia.
From stdpp Require Import base option list strings gmap.
From S2P Require Import Prelude Sha256 PyStr Json Base64 JsonCodec Clock Db Models AccessControl.
From S2P Require Import RegistryLog Superadmin Identity Stores TokenClaims.
Local Open Scope string_scope.
Local Open Scope list_scope.

(** [secrets.token_urlsafe(nbytes)]: the text of the [n]-th draw. *)
Class Secrets : Type := { token_urlsafe : nat -> nat -> string }.

Section Entra.
Context `{!Runtime}.

(** [executescript] commits what is pending before it creates the table. *)
Definition ensure_entra_tables : Op unit := commit.

Definition binding_clash (tenant_id entra_tenant_id entra_group_id : string) (r : EntraRow) : bool :=
  (eg_tenant_id r =s tenant_id) && (eg_entra_tenant_id r =s entra_tenant_id) && (eg_entra_group_id r =s entra_group_id).

Definition bind_entra_group (entra_tenant_id entra_group_id mesh_group_name : string) (entra_group_name : option string)
    (mesh_role bound_by tenant_id : string) (commit_now : bool) : Op dict :=
  let! _ := ensure_entra_tables in
  let! binding_id := new_id "egb" in
  let! now := utc_now in
  let! _ := upsert_row db_entra_group_bindings (binding_clash tenant_id entra_tenant_id entra_group_id)
    {| eg_id := binding_id; eg_tenant_id := tenant_id; eg_entra_tenant_id := entra_tenant_id;
       eg_entra_group_id := entra_group_id; eg_entra_group_name := entra_group_name;
       eg_mesh_group_name := mesh_group_name; eg_mesh_role := mesh_role; eg_bound_by := bound_by; eg_bound_at := now |}
    (fun r => upd eg_entra_group_name entra_group_name (upd eg_mesh_group_name mesh_group_name (upd eg_mesh_role mesh_role r))) in
  let! _ := when commit_now commit in
  ret [("entraTenantId", JStr entra_tenant_id); ("entraGroupId", JStr entra_group_id);
       ("entraGroupName", jopt entra_group_name); ("meshGroupName", JStr mesh_group_name);
       ("meshRole", JStr mesh_role); ("boundBy", JStr bound_by)].

Definition binding_dict (row : EntraRow) : dict :=
  [("entraTenantId", JStr (eg_entra_tenant_id row)); ("entraGroupId", JStr (eg_entra_group_id row));
   ("entraGroupName", jopt (falsy_none (eg_entra_group_name row))); ("meshGroupName", JStr (eg_mesh_group_name row));
   ("meshRole", JStr (eg_mesh_role row)); ("boundBy", JStr (eg_bound_by row)); ("boundAt", JStr (eg_bound_at row))].

Definition list_entra_bindings (tenant_id : string) : Op (list dict) :=
  let! _ := ensure_entra_tables in
  let! rows := query (fun d => fetchall (fun r => eg_tenant_id r =s tenant_id) (db_entra_group_bindings d)) in
  ret (binding_dict <$> newest_first eg_bound_at rows).

Definition bound_groups (entra_group_ids : list string) (tenant_id : string) (d : DB) : list string :=
  eg_mesh_group_name <$> fetchall (fun r => (eg_tenant_id r =s tenant_id) && smem (eg_entra_group_id r) entra_group_ids)
                           (db_entra_group_bindings d).

Definition resolve_entra_groups_to_mesh_groups (entra_group_ids : list string) (tenant_id : string) : Op (list string) :=
  let! _ := ensure_entra_tables in
  match entra_group_ids with
  | [] => ret []
  | _ => query (bound_groups entra_group_ids tenant_id)
  end.

Definition remove_entra_binding (entra_tenant_id entra_group_id tenant_id : string) (commit_now : bool) : Op dict :=
  let! _ := ensure_entra_tables in
  let clash := binding_clash tenant_id entra_tenant_id entra_group_id in
  let! removed := query (fun d => exists_where clash (db_entra_group_bindings d)) in
  let! _ := delete_rows db_entra_group_bindings clash in
  let! _ := when commit_now commit in
  ret [("removed", JBool removed); ("entraGroupId", JStr entra_group_id)].
End Entra.

(** ** Bearer sessions *)
Section Bearer.
Context `{!Runtime, !Secrets}.

Definition draw_token (nbytes : nat) : Op string :=
  fun w => (Ok (token_urlsafe nbytes (w_uuid w)), upd w_uuid (S (w_uuid w)) w).

(** The module constants; a text that is no integer stops the import, here
    the operations that read it. *)
Definition int_setting (name default : string) : outcome Z :=
  match Z_of_str (strip (getenv name default)) with
  | Some n => Ok n
  | None => Raise (ValueError "invalid literal for int() with base 10")
  end.
Definition _CAPMESH_SESSION_TTL : outcome Z := int_setting "CAPMESH_SESSION_TTL_SECONDS" (str_of_Z (10 * 365 * 24 * 3600)).
Definition _OAUTH_TOKEN_DELIVERY_TTL : outcome Z := int_setting "CAPMESH_TOKEN_DELIVERY_TTL_SECONDS" "600".

(** The first instant no datetime reaches: the year 10000. *)
Definition END_OF_TIME : Z := 86400000000 * 2932897.

(** [utils.expires_in] *)
Definition expires_in (seconds : Z) : Op string := fun w =>
  let t := (w_clock w + seconds * 1000000)%Z in
  if Z.leb END_OF_TIME t then (Raise (OtherError "OverflowError: date value out of range"), w) else (Ok (utc_text t), w).

Definition validate_graph_client_state (supplied : string) : Op bool :=
  if negb (truthy supplied) then ret false
  else
    let supplied_hash := hash_secret supplied in
    query (fun d => exists_where (fun r => (gs_client_state_hash r =s supplied_hash) && smem (gs_status r) ["planned"; "active"])
                      (db_graph_subscriptions d)).

(** What a login hands to its caller. *)
Record Minted : Type := mkMinted {
  mt_session_id : string; mt_tenant_id : string; mt_bearer_token : string; mt_expires_at : string; mt_principal : dict
}.

Definition session_principal (p : Principal) (identity_id : string) : dict :=
  dset "authenticated" (JBool true) (dset "identityId" (JStr identity_id) (to_dict p)).

Definition mint_capmesh_token (p : Principal) (ttl_seconds : option Z) (metadata : dict) : Op Minted :=
  let! ttl := match ttl_seconds with Some t => ret t | None => lift _CAPMESH_SESSION_TTL end in
  let! identity_id := ensure_identity_for_principal p in
  let! secret := draw_token 32 in
  let token := "cm_" +:+ secret in
  let! expires_at := expires_in ttl in
  let! session_id := new_id "cms" in
  let principal_dict := session_principal p identity_id in
  let! now := sql_now in
  let! _ := insert_unique db_capmesh_sessions (fun r => (ss_id r =s session_id) || (ss_token_hash r =s hash_secret token))
    {| ss_id := session_id; ss_tenant_id := tenant_of p; ss_token_hash := hash_secret token;
       ss_identity_id := Some identity_id; ss_subject := p_subject p;
       ss_principal_json := json_dumps (JObj principal_dict); ss_scopes_json := json_dumps (jstrs (p_scopes p));
       ss_issued_at := now; ss_expires_at := expires_at; ss_revoked_at := None;
       ss_metadata_json := json_dumps (JObj metadata) |} in
  let! _ := audit_event "auth.capmesh_session.issued" (p_subject p) (Some session_id) (Some "issue") (Some "allow") None
    [("expiresAt", JStr expires_at); ("metadata", JObj (sanitize_auth_metadata metadata))] (tenant_of p) "user" in
  let! _ := commit in
  ret (mkMinted session_id (tenant_of p) token expires_at principal_dict).

(** The session a token opens. *)
Definition opens (token now : string) (r : SessionRow) : bool :=
  (ss_token_hash r =s hash_secret token) && is_none (ss_revoked_at r) && slt now (ss_expires_at r).

(** The principal a session row stands for, before its groups are resolved. *)
Definition principal_of_session (row : SessionRow) : outcome Principal :=
  match json_loads (Some (ss_principal_json row)) (JObj []) with
  | JObj raw =>
      let raw := dset "identityId" (py_or (jopt (ss_identity_id row)) (jget "identityId" raw)) raw in
      let raw := dset "tenantId" (JStr (ss_tenant_id row)) raw in
      let raw := dset "scopes" (json_loads (Some (ss_scopes_json row)) (JArr [])) raw in
      from_dict (dset "authenticated" (JBool true) raw)
  | _ => Raise (OtherError "TypeError: the principal of a session is no object")
  end.

(** A set union has no order; the model keeps the first occurrences. *)
Definition with_mesh_groups (p : Principal) (mesh_groups : list string) : Principal :=
  match mesh_groups with [] => p | _ => upd p_groups (dedup (p_groups p ++ mesh_groups)) p end.

Definition resolve_groups (p : Principal) : Op Principal :=
  match p_groups p with
  | [] => ret p
  | groups =>
      try_except (let! mesh_groups := resolve_entra_groups_to_mesh_groups groups (tenant_of p) in
                  ret (with_mesh_groups p mesh_groups))
        (fun _ => true) (fun _ => ret p)
  end.

Definition principal_from_bearer (token : option string) : Op (option Principal) :=
  if negb (otruthy token) then ret None
  else
    let! now := utc_now in
    let! row := query (fun d => fetchone (opens (or_else token "") now) (db_capmesh_sessions d)) in
    match row with
    | None => ret None
    | Some row =>
        let! p := lift (principal_of_session row) in
        let! p := resolve_groups p in
        ret (Some p)
    end.

(** Which sessions a revocation is about, and the target it records. *)
Definition revocation (p : Principal) (session_id token : option string) : (SessionRow -> bool) * string :=
  let tenant_id := tenant_of p in
  if otruthy session_id then
    (fun r => (ss_id r =s or_else session_id "") && (ss_tenant_id r =s tenant_id), or_else session_id "")
  else if otruthy token then
    (fun r => (ss_token_hash r =s hash_secret (or_else token "")) && (ss_tenant_id r =s tenant_id), "token")
  else
    (fun r => (ss_subject r =s p_subject p) && (ss_tenant_id r =s tenant_id) && is_none (ss_revoked_at r), p_subject p).

Definition revoke_capmesh_session (p : Principal) (session_id token : option string) : Op dict :=
  let '(selected, target) := revocation p session_id token in
  let! now := sql_now in
  let! _ := update_rows db_capmesh_sessions selected (upd ss_revoked_at (Some now)) in
  let! _ := audit_event "auth.capmesh_session.revoked" (p_subject p) (Some target) (Some "revoke") (Some "allow") None
    [] (tenant_of p) "user" in
  let! _ := commit in
  ret [("revoked", JBool true); ("target", JStr target)].

Definition session_dict (row : SessionRow) : dict :=
  [("id", JStr (ss_id row)); ("subject", JStr (ss_subject row));
   ("scopes", json_loads (Some (ss_scopes_json row)) (JArr [])); ("issuedAt", JStr (ss_issued_at row));
   ("expiresAt", JStr (ss_expires_at row)); ("revoked", JBool (is_some (ss_revoked_at row)))].

Definition auth_status (p : Principal) : Op dict :=
  let tenant_id := tenant_of p in
  let! all := query (fun d => fetchall (fun r => (ss_tenant_id r =s tenant_id) && (ss_subject r =s p_subject p))
                                (db_capmesh_sessions d)) in
  let rows := take 5 (newest_first ss_issued_at all) in
  let! now := utc_now in
  let active := List.filter (fun row => is_none (ss_revoked_at row) && slt now (ss_expires_at row)) rows in
  ret [("tenantId", JStr tenant_id); ("subject", JStr (p_subject p)); ("authenticated", JBool (p_authenticated p));
       ("activeSessionCount", JNum (Z.of_nat (length active)));
       ("recentSessions", JArr ((fun r => JObj (session_dict r)) <$> rows));
       ("loginCommand", JStr ("capmesh auth login --m365 --tenant " +:+ tenant_id));
       ("doctorCommand", JStr "capmesh auth doctor --json")].
End Bearer.
