(* ===== verification/OAuthFlow.v ===== *)
(** * OAuth sessions ([tokens.py], the login handlers of [server.py])

    From the state drawn for a login to the tokens a polling client fetches:
    creation, callback, the completion of a Microsoft or a Google login, and
    the delivery of the bearer token.  The exchange of a code for tokens is a
    request to the provider, a parameter. *)

From Stdlib Require Import ZArith QArith Ascii String Lia.
From stdpp Require Import base option list strings gmap.
From S2P Require Import Prelude Sha256 PyStr Json Base64 JsonCodec Clock Db Models AccessControl.
From S2P Require Import RegistryLog Superadmin Identity Stores SourceGates TokenClaims Sessions.
Local Open Scope string_scope.
Local Open Scope list_scope.

Section OAuth.
Context `{!Runtime, !Secrets, !Jwks}.

Definition by_state (state : string) (d : DB) : option OAuthRow := fetchone (fun r => oa_state r =s state) (db_oauth_sessions d).

Definition create_oauth_session (tenant_id flow redirect_uri scope : string) (metadata : dict) : Op dict :=
  let! verifier := draw_token 64 in
  let! challenge := lift (compute_code_challenge verifier) in
  let! state := draw_token 32 in
  let! nonce := draw_token 24 in
  let! session_id := new_id "oauth" in
  let! expires_at := expires_in 600 in
  let! now := sql_now in
  let! _ := insert_unique db_oauth_sessions (fun r => (oa_id r =s session_id) || (oa_state r =s state))
    {| oa_id := session_id; oa_tenant_id := tenant_id; oa_flow := flow; oa_state := state;
       oa_code_challenge := Some challenge; oa_code_verifier_hash := Some (hash_secret verifier);
       oa_redirect_uri := redirect_uri; oa_scope := scope; oa_nonce := Some nonce; oa_status := "pending";
       oa_metadata_json := json_dumps (JObj (dset "codeVerifier" (JStr verifier) metadata));
       oa_created_at := now; oa_expires_at := expires_at; oa_completed_at := None |} in
  let! _ := commit in
  ret [("id", JStr session_id); ("tenantId", JStr tenant_id); ("flow", JStr flow); ("state", JStr state);
       ("nonce", JStr nonce); ("codeVerifier", JStr verifier); ("codeChallenge", JStr challenge);
       ("redirectUri", JStr redirect_uri); ("scope", JStr scope); ("expiresIn", JNum 600)].

(** [json_loads(row["metadata_json"], {})] where a dict is needed. *)
Definition session_metadata (row : OAuthRow) : outcome dict :=
  match json_loads (Some (oa_metadata_json row)) (JObj []) with
  | JObj d => Ok d
  | v => Raise (OtherError ("TypeError: '" +:+ type_name v +:+ "' is no mapping"))
  end.

Definition validate_oauth_callback (state : string) (code error : option string) : Op dict :=
  let! row := query (by_state state) in
  match row with
  | None => raise (ValueError "OAuth state was not found.")
  | Some row =>
      if negb (oa_status row =s "pending") then raise (ValueError "OAuth session is not pending.")
      else
        let! now := utc_now in
        if sle (oa_expires_at row) now then
          let! _ := update_rows db_oauth_sessions (fun r => oa_id r =s oa_id row) (upd oa_status "expired") in
          let! _ := commit in
          raise (ValueError "OAuth session expired.")
        else
          let status := if otruthy error then "failed" else "callback_received" in
          let! metadata := lift (session_metadata row) in
          let! stamp := sql_now in
          let metadata := dset "codeReceived" (JBool (otruthy code)) (dset "callbackError" (jopt error) metadata) in
          let! _ := update_rows db_oauth_sessions (fun r => oa_id r =s oa_id row)
            (fun r => upd oa_status status (upd oa_completed_at (Some stamp) (upd oa_metadata_json (json_dumps (JObj metadata)) r))) in
          let! _ := commit in
          ret [("id", JStr (oa_id row)); ("tenantId", JStr (oa_tenant_id row)); ("state", JStr state); ("status", JStr status);
               ("codeReceived", JBool (otruthy code)); ("tokenExchange", JStr "not_performed_by_callback")]
  end.

(** ** The checks of a Microsoft login *)

(** [x in {...}] hashes [x]. *)
Definition in_set (v : json) (set : list string) : outcome bool :=
  if hashable v then Ok (match v with JStr s => smem s set | _ => false end)
  else Raise (OtherError ("TypeError: unhashable type: '" +:+ type_name v +:+ "'")).

(** [x in row] looks at the values of the row, not at its column names. *)
Definition in_row (s : string) (r : OAuthRow) : bool :=
  smem s [oa_id r; oa_tenant_id r; oa_flow r; oa_state r; oa_redirect_uri r; oa_scope r; oa_status r; oa_metadata_json r;
          oa_created_at r; oa_expires_at r]
  || List.existsb (fun v => sql_eq v s)
       [oa_code_challenge r; oa_code_verifier_hash r; oa_nonce r; oa_completed_at r].

(** [validate_pkce] returns a bool, which does not unpack into a pair: its
    verdict ends in the TypeError the caller discards, and only the ValueError
    of a verifier that is not ASCII passes. *)
Definition pkce_check (row : OAuthRow) : outcome unit :=
  let stored_challenge := if in_row "code_challenge" row then or_else (oa_code_challenge row) "None" else "" in
  if negb (truthy stored_challenge) then Ok tt
  else
    match (if truthy (oa_metadata_json row) then json_loads (Some (oa_metadata_json row)) (JObj []) else JObj []) with
    | JObj stored_meta =>
        let stored_verifier := str_get stored_meta "codeVerifier" "" in
        if negb (truthy stored_verifier) then Ok tt
        else match validate_pkce stored_verifier stored_challenge CODE_CHALLENGE_METHOD with
             | Raise (ValueError e) => Raise (ValueError e)
             | _ => Ok tt
             end
    | _ => Ok tt
    end.

(** [int(v)] *)
Definition to_int (v : json) : outcome Z :=
  match v with
  | JNum n => Ok n
  | JBool b => Ok (if b then 1 else 0)%Z
  | JStr s => match Z_of_str (strip s) with
              | Some n => Ok n
              | None => Raise (ValueError ("invalid literal for int() with base 10: " +:+ repr_str s))
              end
  | JFloat x => match float_text x with
                | Some (Fin q) => Ok (Z.quot (Qnum q) (Z.pos (Qden q)))
                | Some NaN => Raise (ValueError "cannot convert float NaN to integer")
                | _ => Raise (OtherError "OverflowError: cannot convert float infinity to integer")
                end
  | _ => Raise (OtherError "TypeError: int() argument must be a string, a bytes-like object or a real number")
  end.

Definition check_expired (claims : dict) (now : Z) : outcome unit :=
  let? exp := to_int (py_or (jget "exp" claims) (JNum 0)) in
  if negb (Z.eqb exp 0) && Z.leb exp now then Raise (ValueError "ID token is expired.") else Ok tt.

Definition given (client_id : option string) : option string :=
  match client_id with Some c => if truthy c then Some c else None | None => None end.

(** Every check between the identity token and the session; the claims of an
    accepted token. *)
Definition checked_claims (row : OAuthRow) (token_response : dict) (client_id : option string) (clock : Z) : outcome dict :=
  let? claims := verify_id_token (str_get token_response "id_token" "") client_id in
  let directory_tenant_id := str_get claims "tid" "" in
  if negb (truthy directory_tenant_id) then Raise (ValueError "ID token did not contain a tenant id.")
  else
    let actual_issuer := match dget "iss" claims with Some v => v | None => JStr "" end in
    let? trusted := in_set actual_issuer (_trusted_ms_issuers directory_tenant_id) in
    if negb trusted then
      Raise (ValueError ("ID token issuer '" +:+ py_str actual_issuer +:+ "' did not match the resolved tenant issuer '"
                         +:+ "https://login.microsoftonline.com/" +:+ directory_tenant_id +:+ "/v2.0" +:+ "'."))
    else if match given client_id, jget "aud" claims with
            | None, _ => false
            | Some c, JStr aud => negb (aud =s c)
            | Some _, _ => true
            end
    then Raise (ValueError "ID token audience did not match the configured client id.")
    else if otruthy (oa_nonce row) && py_truthy (jget "nonce" claims)
            && negb (match jget "nonce" claims with JStr n => sql_eq (oa_nonce row) n | _ => false end)
    then Raise (ValueError "ID token nonce did not match the OAuth session.")
    else
      let? _ := pkce_check row in
      let now := (clock / 1000000)%Z in
      let? _ := check_expired claims now in
      let validator := mkTokenValidator (Some (py_str actual_issuer)) (match given client_id with Some c => [c] | None => [] end)
                         DEFAULT_CLOCK_SKEW_SECONDS in
      let? v := validate validator claims None (Fin (inject_Z now)) in
      if negb (fst v) then Raise (ValueError ("ID token claim validation failed: " +:+ snd v)) else Ok claims.

(** [metadata.update(...)] *)
Definition delivery_metadata (provider : string) (claims : dict) (token : Minted) (more : dict) (deadline : string) (metadata : dict) : dict :=
  dmerge (List.filter (fun kv => negb (fst kv =s "codeVerifier")) metadata)
    ([(provider, JBool true); ("claims", JObj (sanitize_claims claims)); ("capmeshSessionId", JStr (mt_session_id token));
      ("capmeshBearerToken", JStr (mt_bearer_token token)); ("capmeshTokenExpiresAt", JStr (mt_expires_at token))]
     ++ more ++ [("tokenDeliveryExpiresAt", JStr deadline)]).

(** What both completions do with an accepted principal. *)
Definition finish_login (row : OAuthRow) (p : Principal) (claims : dict) (provider event : string) (more refresh : dict)
    (deliver : Minted -> dict) : Op dict :=
  let! _ := ensure_identity_for_principal p in
  let! token := mint_capmesh_token p None [("source", JStr provider); ("oauthSessionId", JStr (oa_id row))] in
  let! metadata := lift (session_metadata row) in
  let! ttl := lift _OAUTH_TOKEN_DELIVERY_TTL in
  let! deadline := expires_in ttl in
  let metadata := dmerge (delivery_metadata provider claims token more deadline metadata) refresh in
  let! now := sql_now in
  let! _ := update_rows db_oauth_sessions (fun r => oa_id r =s oa_id row)
    (fun r => upd oa_status "completed" (upd oa_completed_at (Some now) (upd oa_metadata_json (json_dumps (JObj metadata)) r))) in
  let! _ := audit_event event (p_subject p) (Some (oa_id row)) (Some "login") (Some "allow") None
    [("capmeshSessionId", JStr (mt_session_id token))] (oa_tenant_id row) "user" in
  let! _ := commit in
  ret [("id", JStr (oa_id row)); ("tenantId", JStr (oa_tenant_id row)); ("status", JStr "completed");
       ("principal", JObj (to_dict p)); ("capmeshSession", JObj (deliver token))].

Definition session_summary (token : Minted) : dict :=
  [("sessionId", JStr (mt_session_id token)); ("tokenType", JStr "Bearer"); ("expiresAt", JStr (mt_expires_at token))].

Definition complete_oauth_session (state : string) (token_response : dict) (client_id : option string) : Op dict :=
  let! row := query (by_state state) in
  match row with
  | None => raise (ValueError "OAuth state was not found.")
  | Some row =>
      let! clock := gets w_clock in
      let! claims := lift (checked_claims row token_response client_id clock) in
      let! p := lift (principal_from_entra_claims claims (oa_tenant_id row)) in
      let refresh := jget "refresh_token" token_response in
      finish_login row p claims "m365" "auth.m365.completed" [("refreshTokenDelivered", JBool false)]
        (if py_truthy refresh then [("m365RefreshToken", refresh)] else []) session_summary
  end.

Definition complete_google_session (state : string) (claims : dict) : Op dict :=
  let! row := query (by_state state) in
  match row with
  | None => raise (ValueError "OAuth state was not found.")
  | Some row =>
      let! p := lift (principal_from_google_claims claims (oa_tenant_id row)) in
      finish_login row p claims "google" "auth.google.completed" [] []
        (fun token => session_summary token ++ [("bearerToken", JStr (mt_bearer_token token))])
  end.

(** ** Delivery to the polling client *)

(** [expired] of a consuming poll. *)
Definition delivery_expired (metadata : dict) (now : string) : bool :=
  let deadline := jget "tokenDeliveryExpiresAt" metadata in
  py_truthy deadline && sle (py_str deadline) now.

Definition status_payload (row : OAuthRow) (metadata : dict) : dict :=
  [("id", JStr (oa_id row)); ("tenantId", JStr (oa_tenant_id row)); ("flow", JStr (oa_flow row)); ("status", JStr (oa_status row));
   ("expiresAt", JStr (oa_expires_at row)); ("completedAt", jopt (oa_completed_at row));
   ("principal", match dget "claims" metadata with Some v => v | None => JObj [] end);
   ("capmeshSession", if py_truthy (jget "capmeshSessionId" metadata)
                      then JObj [("sessionId", jget "capmeshSessionId" metadata);
                                 ("expiresAt", jget "capmeshTokenExpiresAt" metadata)]
                      else JNull)].

(** What a consuming poll adds to the payload, and the metadata it leaves. *)
Definition delivery (metadata : dict) (now : string) : dict * dict :=
  let purged := dset "m365RefreshToken" JNull (dset "capmeshBearerToken" JNull metadata) in
  if delivery_expired metadata now
  then ([("bearerToken", JNull); ("m365RefreshToken", JNull); ("tokenDeliveryExpired", JBool true)], purged)
  else
    let refresh := jget "m365RefreshToken" metadata in
    ([("bearerToken", jget "capmeshBearerToken" metadata); ("m365RefreshToken", refresh);
      ("refreshTokenDelivered", JBool (py_truthy refresh))],
     dset "refreshTokenDelivered" (JBool (py_truthy refresh)) purged).

Definition by_id_or_state (session_id : string) (d : DB) : option OAuthRow :=
  fetchone (fun r => (oa_id r =s session_id) || (oa_state r =s session_id)) (db_oauth_sessions d).

Definition oauth_session_status (session_id : string) (consume_tokens : bool) : Op dict :=
  let! row := query (by_id_or_state session_id) in
  match row with
  | None => raise (ValueError "OAuth session not found.")
  | Some row =>
      let! metadata := lift (session_metadata row) in
      let payload := status_payload row metadata in
      if consume_tokens && (oa_status row =s "completed") then
        let! now := utc_now in
        let '(tokens, rest) := delivery metadata now in
        let! _ := update_rows db_oauth_sessions (fun r => oa_id r =s oa_id row) (upd oa_metadata_json (json_dumps (JObj rest))) in
        let! _ := commit in
        ret (payload ++ tokens)
      else ret payload
  end.
End OAuth.

(** ** The login handlers of the server

    [exchange_authorization_code] (code, redirect URI, verifier, scope) and
    the poll for a device code are requests to the provider. *)
Class Provider : Type := {
  exchange_authorization_code : string -> string -> string -> string -> outcome dict;
  poll_device_code : json -> outcome dict
}.

Section Handlers.
Context `{!Runtime, !Secrets, !Jwks, !Provider}.

Definition M365_CLIENT_ID : option string := given (environ "CAPMESH_M365_CLIENT_ID").

(** [json.loads(row["metadata_json"] or "{}")] where a dict is needed. *)
Definition strict_metadata (row : OAuthRow) : outcome dict :=
  if negb (truthy (oa_metadata_json row)) then Ok []
  else let? v := json_loads_strict (oa_metadata_json row) in
       match v with JObj d => Ok d | _ => Raise (OtherError "AttributeError: 'get'") end.

Definition complete_oauth_callback (state : string) (code error : option string) : Op dict :=
  if otruthy error then validate_oauth_callback state code error
  else if negb (otruthy code) then raise (ValueError "OAuth callback did not include a code.")
  else match M365_CLIENT_ID with
  | None =>
      let! result := validate_oauth_callback state code None in
      ret (dset "nextStep" (JStr "Set CAPMESH_M365_CLIENT_ID on the tailnet service host and retry login.") result)
  | Some client_id =>
      let! row := query (by_state state) in
      match row with
      | None => raise (ValueError "OAuth state was not found.")
      | Some row =>
          let! metadata := lift (strict_metadata row) in
          let verifier := str_get metadata "codeVerifier" "" in
          if negb (truthy verifier) || negb (sql_eq (oa_code_verifier_hash row) (hash_secret verifier))
          then raise (ValueError "OAuth PKCE verifier is unavailable or invalid.")
          else
            let! token_response := lift (exchange_authorization_code (or_else code "") (oa_redirect_uri row) verifier (oa_scope row)) in
            complete_oauth_session state token_response (Some client_id)
      end
  end.

Definition poll_oauth_session (body : dict) : Op dict :=
  let session_id := py_str (py_or (jget "sessionId" body) (py_or (jget "id" body) (py_or (jget "state" body) (JStr "")))) in
  if negb (truthy session_id) then raise (ValueError "sessionId is required.")
  else
    let! row := query (by_id_or_state session_id) in
    match row with
    | None => raise (ValueError "OAuth session not found.")
    | Some row =>
        let! metadata := lift (strict_metadata row) in
        let consume := match dget "consumeTokens" body with Some v => py_truthy v | None => false end in
        if (oa_flow row =s "device_code") && (oa_status row =s "pending") && py_truthy (jget "deviceCode" metadata) then
          match M365_CLIENT_ID with
          | None => raise (ValueError "CAPMESH_M365_CLIENT_ID is required for device code polling.")
          | Some client_id =>
              let! token_response := lift (poll_device_code (jget "deviceCode" metadata)) in
              if py_truthy (jget "authorization_pending" token_response) then
                ret [("id", JStr (oa_id row)); ("status", JStr "pending");
                     ("interval", match dget "interval" metadata with Some v => v | None => JNum 5 end)]
              else
                let! _ := complete_oauth_session (oa_state row) token_response (Some client_id) in
                oauth_session_status session_id consume
          end
        else oauth_session_status session_id consume
    end.
End Handlers.
