(* ===== verification/SessionProps.v ===== *)
(** * Properties of sessions and logins

    How long a bearer token is accepted, over any history of the operations of
    [tokens.py]; what a token stands for; what a login has checked; and that a
    token is delivered once. *)

From Stdlib Require Import ZArith QArith Ascii String Lia.
From stdpp Require Import base option list strings gmap relations.
From S2P Require Import Prelude Sha256 PyStr Json Base64 JsonCodec Clock Db Models AccessControl.
From S2P Require Import RegistryLog Superadmin Identity Stores SourceGates Ordering TokenClaims Sessions OAuthFlow.
Local Open Scope string_scope.
Local Open Scope list_scope.

#[local] Opaque sha256_hex.

(** ** The history of the session table *)
Section History.
Context `{!Runtime, !Secrets}.

Definition sessions (w : World) : list SessionRow := db_capmesh_sessions (w_db w).
Definition hashes_unique (w : World) : Prop := NoDup (ss_token_hash <$> sessions w).

(** The later state of a session: only a revocation may have been added. *)
Record same_session (r r' : SessionRow) : Prop := {
  sm_unrevoked : upd ss_revoked_at None r' = upd ss_revoked_at None r;
  sm_revoked : is_some (ss_revoked_at r) = true -> is_some (ss_revoked_at r') = true
}.

#[export] Instance same_session_preorder : PreOrder same_session.
Proof. split; [by split|]. intros x y z [? ?] [? ?]. split; [congruence | auto]. Qed.

Lemma same_session_fields r r' : same_session r r' ->
  ss_id r' = ss_id r /\ ss_token_hash r' = ss_token_hash r /\ ss_expires_at r' = ss_expires_at r.
Proof.
  intros [He _]. split_and!;
    [exact (f_equal ss_id He) | exact (f_equal ss_token_hash He) | exact (f_equal ss_expires_at He)].
Qed.

(** What the operations may do to sessions while they spare session [id]. *)
Record evolves (spared : option string) (w w' : World) : Prop := {
  ev_unique : hashes_unique w -> hashes_unique w';
  ev_rows : forall r, r ∈ sessions w -> exists r', r' ∈ sessions w' /\ same_session r r' /\ (spared = Some (ss_id r) -> r' = r);
  ev_clock : (w_clock w <= w_clock w')%Z
}.

#[export] Instance evolves_preorder spared : PreOrder (evolves spared).
Proof.
  split.
  - intros w. split; [done | | lia]. intros r Hr. by exists r.
  - intros w v u [U1 R1 C1] [U2 R2 C2]. split; [tauto | | lia].
    intros r Hr. destruct (R1 r Hr) as (r1 & Hr1 & S1 & P1). destruct (R2 r1 Hr1) as (r2 & Hr2 & S2 & P2).
    exists r2. split; [done|]. split; [by etrans|]. intros Hs. rewrite <-(P1 Hs). apply P2. by rewrite (P1 Hs).
Qed.

Lemma keeps_evolves spared {A} (m : Op A) : keeps (fun w => (sessions w, w_clock w)) m -> preserves (evolves spared) m.
Proof.
  intros Hk w. specialize (Hk w). unfold same in Hk. injection Hk as Hs Hc.
  split; unfold hashes_unique; rewrite ?Hs; [done | | lia]. intros r Hr. by exists r.
Qed.

Lemma insert_evolves spared clash row : (forall r, ss_token_hash r = ss_token_hash row -> clash r = true) ->
  preserves (evolves spared) (insert_unique db_capmesh_sessions clash row).
Proof.
  intros Hclash w. unfold insert_unique, bind, query, gets. destruct (exists_where _ _) eqn:E; [cbn; reflexivity|].
  rewrite exists_where_false in E. split; cbn; [|intros r Hr; exists r; split; [apply elem_of_app; by left | done] | lia].
  unfold hashes_unique, sessions. cbn. rewrite fmap_app. intros Hnd. apply NoDup_app.
  split_and!; [done | | apply NoDup_singleton]. intros x (r & -> & Hr)%list_elem_of_fmap Hx%list_elem_of_singleton.
  specialize (E r Hr). rewrite Hclash in E; [discriminate E | done].
Qed.

Lemma draw_later spared nbytes : preserves (evolves spared) (draw_token nbytes).
Proof. apply keeps_evolves. by intros w. Qed.

Lemma expires_in_evolves spared s : preserves (evolves spared) (expires_in s).
Proof. apply keeps_evolves. intros w. unfold expires_in. by destruct (Z.leb _ _). Qed.

Lemma identity_keeps_sessions p : keeps (fun w => (sessions w, w_clock w)) (ensure_identity_for_principal p).
Proof.
  unfold keeps, sessions, ensure_identity_for_principal, ensure_principal_stores, ensure_personal_store,
    upsert_identity, ensure_default_tenant, bootstrap_tenant_row, bootstrap_default_identity,
    bootstrap_user_stores, bootstrap_org, insert_org_store, bootstrap_system, bootstrap_all_users,
    insert_store, insert_namespace. solve_frame.
Qed.
End History.

#[local] Hint Extern 2 (preserves (evolves _) (draw_token _)) => apply draw_later : frame.
#[local] Hint Extern 2 (preserves (evolves _) (expires_in _)) => apply expires_in_evolves : frame.
#[local] Hint Extern 2 (preserves (evolves _) (insert_unique db_capmesh_sessions _ _)) =>
  (apply insert_evolves; intros ? ->; cbn; by rewrite String.eqb_refl, orb_true_r) : frame.
#[local] Hint Extern 2 (preserves (evolves _) (ensure_identity_for_principal _)) => (apply keeps_evolves, identity_keeps_sessions) : frame.
#[local] Hint Extern 3 (preserves (evolves _) _) => (apply keeps_evolves; unfold keeps, sessions; solve [solve_frame]) : frame.

Section Lifetime.
Context `{!Runtime, !Secrets, !Jwks, !Provider}.

Lemma mint_evolves spared p ttl md : preserves (evolves spared) (mint_capmesh_token p ttl md).
Proof. unfold mint_capmesh_token. solve_frame. Qed.

Lemma bearer_evolves spared token : preserves (evolves spared) (principal_from_bearer token).
Proof. unfold principal_from_bearer, resolve_groups, resolve_entra_groups_to_mesh_groups, ensure_entra_tables. solve_frame. Qed.

Lemma revoked_rows sel now : preserves (evolves None) (update_rows db_capmesh_sessions sel (upd ss_revoked_at (Some now))).
Proof.
  intros w. assert (forall f, (forall r, ss_token_hash (f r) = ss_token_hash r) ->
    ss_token_hash <$> update_where sel f (sessions w) = ss_token_hash <$> sessions w) as Hh.
  { intros f Hf. unfold update_where. rewrite <-list_fmap_compose. apply list_fmap_ext. intros i r _. cbn. by destruct (sel r). }
  split; [| | cbn; lia].
  - unfold hashes_unique, sessions. cbn -[update_where]. unfold sessions in Hh. by rewrite Hh.
  - intros r Hr. exists (if sel r then upd ss_revoked_at (Some now) r else r).
    split; [apply elem_of_update_where; by exists r|]. split; [|done]. by destruct (sel r).
Qed.

Lemma spared_rows id sel now w : (forall r, r ∈ sessions w -> ss_id r = id -> sel r = false) ->
  evolves (Some id) w (update_rows db_capmesh_sessions sel (upd ss_revoked_at (Some now)) w).2.
Proof.
  intros Hs. destruct (revoked_rows sel now w) as [U R C]. split; [done | | done]. intros r Hr.
  exists (if sel r then upd ss_revoked_at (Some now) r else r).
  split; [apply elem_of_update_where; by exists r|]. split; [by destruct (sel r)|]. intros [= Hid]. by rewrite Hs.
Qed.

Lemma preserves_at (R : relation World) `{!PreOrder R} {A B} (m : Op A) (k : A -> Op B) w :
  R w (m w).2 -> (forall a, R (m w).2 (k a (m w).2).2) -> R w (bind m k w).2.
Proof. intros Hm Hk. unfold bind. destruct (m w) as [[a|e] w1]; cbn in *; [by etrans; [|apply Hk] | done]. Qed.

Lemma revoke_evolves spared p sid token w :
  (forall id r, spared = Some id -> r ∈ sessions w -> ss_id r = id -> (revocation p sid token).1 r = false) ->
  evolves spared w (revoke_capmesh_session p sid token w).2.
Proof.
  intros Hs. unfold revoke_capmesh_session. destruct (revocation p sid token) as [sel target]. cbn [fst] in Hs.
  apply (preserves_at (evolves spared)); [cbn; reflexivity|]. intros now. apply (preserves_at (evolves spared)).
  - destruct spared as [id|]; [exact (spared_rows id sel now w (fun r => Hs id r eq_refl)) | exact (revoked_rows sel now w)].
  - intros _. enough (preserves (evolves spared) (let! _ := audit_event "auth.capmesh_session.revoked" (p_subject p) (Some target)
      (Some "revoke") (Some "allow") None [] (tenant_of p) "user" in let! _ := commit in
      ret [("revoked", JBool true); ("target", JStr target)])) as Hp by apply Hp. solve_frame.
Qed.

Lemma login_evolves spared row p claims provider event more refresh deliver :
  preserves (evolves spared) (finish_login row p claims provider event more refresh deliver).
Proof. unfold finish_login. solve_frame; apply mint_evolves. Qed.

(** ** Histories

    Any operation of the session code, time passing, and any other operation
    that leaves the session table alone; a revocation must spare the session
    [spared]. *)
Inductive session_call (spared : option string) (w : World) : World -> Prop :=
| sc_mint p ttl md : session_call spared w (mint_capmesh_token p ttl md w).2
| sc_bearer token : session_call spared w (principal_from_bearer token w).2
| sc_revoke p sid token :
    (forall id r, spared = Some id -> r ∈ sessions w -> ss_id r = id -> (revocation p sid token).1 r = false) ->
    session_call spared w (revoke_capmesh_session p sid token w).2
| sc_create tenant flow uri scope md : session_call spared w (create_oauth_session tenant flow uri scope md w).2
| sc_callback state code error : session_call spared w (complete_oauth_callback state code error w).2
| sc_complete state tr client : session_call spared w (complete_oauth_session state tr client w).2
| sc_google state claims : session_call spared w (complete_google_session state claims w).2
| sc_poll body : session_call spared w (poll_oauth_session body w).2
| sc_other {A} (m : Op A) : keeps (fun w => (sessions w, w_clock w)) m -> session_call spared w (m w).2
| sc_time t : (w_clock w <= t)%Z -> session_call spared w (upd w_clock t w).

Lemma callback_evolves spared state code error : preserves (evolves spared) (validate_oauth_callback state code error).
Proof. unfold validate_oauth_callback. solve_frame. Qed.

Lemma complete_evolves spared state tr client : preserves (evolves spared) (complete_oauth_session state tr client).
Proof. unfold complete_oauth_session. solve_frame. apply login_evolves. Qed.

Lemma status_evolves spared id consume : preserves (evolves spared) (oauth_session_status id consume).
Proof. unfold oauth_session_status. solve_frame. Qed.

Lemma call_evolves spared w w' : session_call spared w w' -> evolves spared w w'.
Proof.
  destruct 1 as [p ttl md | token | p sid token Hs | tn fl uri sc md | state code error | state tr client | state cl | body
                | A m Hk | t Ht].
  - apply mint_evolves.
  - apply bearer_evolves.
  - by apply revoke_evolves.
  - assert (preserves (evolves spared) (create_oauth_session tn fl uri sc md)) as Hp by (unfold create_oauth_session; solve_frame).
    apply Hp.
  - assert (preserves (evolves spared) (complete_oauth_callback state code error)) as Hp; [|apply Hp].
    unfold complete_oauth_callback. solve_frame; first [apply callback_evolves | apply complete_evolves].
  - apply complete_evolves.
  - assert (preserves (evolves spared) (complete_google_session state cl)) as Hp; [|apply Hp].
    unfold complete_google_session. solve_frame; apply login_evolves.
  - assert (preserves (evolves spared) (poll_oauth_session body)) as Hp; [|apply Hp].
    unfold poll_oauth_session. solve_frame; first [apply status_evolves | apply complete_evolves].
  - by apply keeps_evolves.
  - split; cbn; [done | | done]. intros r Hr. by exists r.
Qed.

Lemma history_evolves spared w w' : rtc (session_call spared) w w' -> evolves spared w w'.
Proof. induction 1 as [|w v w' Hc _ IH]; [done|]. etrans; [by apply call_evolves | done]. Qed.

(** At most one session has a token's hash. *)
Lemma hash_row w r r' : hashes_unique w -> r ∈ sessions w -> r' ∈ sessions w -> ss_token_hash r' = ss_token_hash r -> r' = r.
Proof. unfold hashes_unique. apply key_unique. Qed.
End Lifetime.

(** ** What a session row stands for *)
Section View.
Context `{!Runtime, !Secrets}.

Definition ascii_opt (s : option string) : bool := match s with Some t => ascii_str t | None => true end.
Definition not_blank (s : option string) : bool := match s with Some t => truthy t | None => true end.

(** A principal whose texts the codec is exact on, with a subject and a tenant. *)
Definition textual (p : Principal) : bool :=
  truthy (p_subject p) && truthy (tenant_of p) && not_blank (p_app_id p) && not_blank (p_display_name p)
  && ascii_str (p_subject p) && ascii_str (p_tenant_id p) && ascii_opt (p_email p) && ascii_opt (p_display_name p)
  && ascii_opt (p_app_id p) && ascii_opt (p_identity_id p)
  && List.forallb ascii_str (p_groups p) && List.forallb ascii_str (p_roles p) && List.forallb ascii_str (p_scopes p).

(** What is left of a principal in its session. *)
Definition session_view (p : Principal) (id : string) : Principal :=
  upd p_tenant_id (tenant_of p) (upd p_identity_id (Some id) (upd p_authenticated true (upd p_step_up_authenticated false p))).

Lemma sort_jstrs l : sort_keys (jstrs l) = jstrs l.
Proof. unfold jstrs. cbn. f_equal. induction l as [|x l IH]; [done|]. cbn. by f_equal. Qed.
Lemma sort_jopt s : sort_keys (jopt s) = jopt s.
Proof. by destruct s. Qed.

Lemma wf_jstrs l : List.forallb ascii_str l = true -> wf_json (jstrs l).
Proof.
  intros Hl. apply wf_json_arr, Forall_forall. intros v (x & -> & Hx)%list_elem_of_fmap. cbn.
  apply list_elem_of_In in Hx. by apply (proj1 (List.forallb_forall _ _) Hl).
Qed.
Lemma wf_jopt s : ascii_opt s = true -> wf_json (jopt s).
Proof. by destruct s. Qed.

Lemma claim_jstrs l d : claim_tuple (jstrs l) d = Ok l.
Proof.
  unfold claim_tuple, jstrs. cbn. f_equal. rewrite <-list_fmap_compose. induction l as [|x l IH]; [done|]. cbn. by f_equal.
Qed.
Lemma claim_jopt s : claim_text (jopt s) = s.
Proof. by destruct s. Qed.
Lemma or_jopt s v : not_blank s = true -> py_truthy v = false -> claim_text (py_or (jopt s) v) = match s with Some _ => s | None => claim_text v end.
Proof. destruct s as [t|]; [|done]. unfold py_or, not_blank. cbn. by intros ->. Qed.

Lemma wf_session_principal p id : textual p = true -> ascii_str id = true -> wf_json (JObj (session_principal p id)).
Proof.
  unfold textual. intros Ht Hid.
  repeat match goal with H : _ && _ = true |- _ => apply andb_true_iff in H as [H ?] end.
  apply wf_json_obj. split.
  - change (session_principal p id).*1 with
      ["subject"; "tenantId"; "identityId"; "email"; "displayName"; "appId"; "groups"; "roles"; "scopes"; "authenticated"; "disabled"].
    apply (bool_decide_unpack (NoDup _)). vm_compute. exact I.
  - unfold session_principal, to_dict. cbn -[jstrs jopt]. repeat (apply Forall_cons; split); [..|apply Forall_nil; done];
      (split; [reflexivity|]); cbn [snd]; first [done | by apply wf_jopt | by apply wf_jstrs].
Qed.

Lemma sorted_session_principal p id :
  sort_keys (JObj (session_principal p id)) =
  JObj [("appId", jopt (p_app_id p)); ("authenticated", JBool true); ("disabled", JBool (p_disabled p));
        ("displayName", jopt (p_display_name p)); ("email", jopt (p_email p)); ("groups", jstrs (p_groups p));
        ("identityId", JStr id); ("roles", jstrs (p_roles p)); ("scopes", jstrs (p_scopes p));
        ("subject", JStr (p_subject p)); ("tenantId", JStr (p_tenant_id p))].
Proof.
  rewrite <-(sort_jstrs (p_groups p)), <-(sort_jstrs (p_roles p)), <-(sort_jstrs (p_scopes p)).
  rewrite <-(sort_jopt (p_app_id p)), <-(sort_jopt (p_display_name p)), <-(sort_jopt (p_email p)). reflexivity.
Qed.

Lemma principal_of_minted row p id :
  textual p = true -> ascii_str id = true -> truthy id = true ->
  ss_principal_json row = json_dumps (JObj (session_principal p id)) -> ss_scopes_json row = json_dumps (jstrs (p_scopes p)) ->
  ss_identity_id row = Some id -> ss_tenant_id row = tenant_of p ->
  principal_of_session row = Ok (session_view p id).
Proof.
  intros Ht Hid Hne Hp Hs Hi Htn. pose proof (wf_session_principal p id Ht Hid) as Hwf. unfold textual in Ht.
  repeat match goal with H : _ && _ = true |- _ => apply andb_true_iff in H as [H ?] end.
  unfold principal_of_session. rewrite Hp, (json_loads_dumps _ _ Hwf), Hs, (json_loads_dumps _ _ (wf_jstrs _ ltac:(eassumption))), sort_jstrs.
  rewrite sorted_session_principal, Hi, Htn. unfold from_dict. cbn -[jstrs jopt tenant_of py_or claim_tuple claim_text].
  rewrite !claim_jstrs. cbn [obind]. unfold session_view, upd, eta_record, eta_Principal. cbn -[jopt tenant_of py_or claim_text]. f_equal.
  assert (forall s, truthy s = true -> forall v, py_or (JStr s) v = JStr s) as Hor by (intros [] Hs' v; [discriminate Hs' | reflexivity]).
  f_equal.
  - unfold str_get2. cbn -[py_or]. by rewrite (Hor _ Ht).
  - cbn. by rewrite (Hor (tenant_of p)).
  - cbn -[py_or]. rewrite (Hor _ Hne). by unfold py_or.
  - by destruct (p_email p).
  - unfold py_or at 1. cbn [py_truthy]. rewrite or_jopt by done. by destruct (p_display_name p).
  - unfold py_or at 1. cbn [py_truthy]. rewrite or_jopt by done. by destruct (p_app_id p).
Qed.
End View.

(** ** Minting *)
Section Minting.
Context `{!Runtime, !Secrets, !Jwks, !Provider}.

Lemma ascii_stake n s : ascii_str s = true -> ascii_str (stake n s) = true.
Proof.
  unfold stake, ascii_str, sall. revert n. induction s as [|c s IH]; intros [|n]; try done.
  cbn. intros [-> Hs]%andb_true_iff. by apply IH.
Qed.

Lemma ascii_hex s : ascii_str (sha256_hex s) = true.
Proof.
  destruct (sha256_hex_digits s) as (xs & Hx & _ & Hr). unfold ascii_str, sall. rewrite Hx. clear Hx.
  induction Hr as [|x xs Hb _ IH]; [done|]. cbn [fmap list_fmap List.forallb].
  apply andb_true_iff. split; [|exact IH].
  assert (x ∈ seqZ 0 16) as Hin by (apply elem_of_seqZ; lia). clear Hb. revert x Hin.
  apply Forall_forall. vm_compute. repeat constructor.
Qed.

Lemma ascii_utc t : ascii_str (utc_text t) = true.
Proof.
  assert (forall k n, ascii_str (pad k n) = true) as Hp.
  { intros k. induction k as [|k IH]; intros n; [done|]. cbn [pad]. unfold ascii_str. rewrite sall_app. unfold ascii_str in IH. rewrite IH.
    assert ((n mod 10)%Z ∈ seqZ 0 10) as Hin by (apply elem_of_seqZ; pose proof (Z.mod_pos_bound n 10 eq_refl); lia).
    revert Hin. generalize (n mod 10)%Z. apply Forall_forall. vm_compute. repeat constructor. }
  unfold utc_text, stamp, date_text, time_text. destruct (split_years _ _ _) as [y r]. destruct (split_months _ _ _ _) as [mo d].
  unfold ascii_str in *. by rewrite !sall_app, !Hp.
Qed.

Lemma provision_id_ok p : textual p = true -> ascii_str (provision_id p) = true /\ truthy (provision_id p) = true.
Proof.
  unfold textual. intros Ht.
  repeat match goal with H : _ && _ = true |- _ => apply andb_true_iff in H as [H ?] end.
  unfold provision_id. set (sid := stable_id _ _).
  assert (ascii_str sid = true /\ truthy sid = true) as [Ha Hn].
  { split; [|reflexivity]. unfold sid, stable_id, ascii_str. rewrite !sall_app. cbn. apply ascii_stake, ascii_hex. }
  unfold o_or, s_or. destruct (p_identity_id p) as [i|]; [destruct (truthy i) eqn:Ei|]; done.
Qed.

Lemma identity_ok p w id w' : ensure_identity_for_principal p w = (Ok id, w') -> id = provision_id p.
Proof.
  unfold ensure_identity_for_principal. cbv zeta. intros E. step_ok E as row w1 G1. ok_cases E.
  - step_ok E as n w2 G2. ok_cases E; [by injection E|]. step_ok E as u w3 G3. by injection E.
  - step_ok E as t w2 G2. step_ok E as u w3 G3. step_ok E as u' w4 G4. by injection E.
Qed.

Definition ttl_of (ttl : option Z) : outcome Z := match ttl with Some t => Ok t | None => _CAPMESH_SESSION_TTL end.

(** What a successful mint leaves. *)
Record minted (p : Principal) (secs : Z) (w : World) (m : Minted) (w' : World) (row : SessionRow) : Prop := {
  mi_rows : sessions w' = sessions w ++ [row];
  mi_clock : w_clock w' = w_clock w;
  mi_id : mt_session_id m = ss_id row;
  mi_view : mt_principal m = session_principal p (provision_id p);
  mi_hash : ss_token_hash row = hash_secret (mt_bearer_token m);
  mi_token : truthy (mt_bearer_token m) = true;
  mi_ends : mt_expires_at m = ss_expires_at row;
  mi_expires : ss_expires_at row = utc_text (w_clock w + secs * 1000000);
  mi_reached : (w_clock w + secs * 1000000 < END_OF_TIME)%Z;
  mi_open : ss_revoked_at row = None;
  mi_tenant : ss_tenant_id row = tenant_of p;
  mi_subject : ss_subject row = p_subject p;
  mi_identity : ss_identity_id row = Some (provision_id p);
  mi_principal : ss_principal_json row = json_dumps (JObj (session_principal p (provision_id p)));
  mi_scopes : ss_scopes_json row = json_dumps (jstrs (p_scopes p));
  mi_random : exists k n, ss_id row = "cms" +:+ "_" +:+ uuid4_hex k /\ mt_bearer_token m = "cm_" +:+ token_urlsafe 32 n;
  mi_fresh r : r ∈ sessions w -> ss_token_hash r <> ss_token_hash row /\ ss_id r <> ss_id row
}.

Lemma mint_inv p ttl md w m w' : mint_capmesh_token p ttl md w = (Ok m, w') ->
  exists secs row, ttl_of ttl = Ok secs /\ minted p secs w m w' row.
Proof.
  unfold mint_capmesh_token. intros E. step_ok E as secs w0 G0.
  assert (ttl_of ttl = Ok secs /\ w0 = w) as [Ht ->] by (destruct ttl; cbn in *; injection G0 as <- <-; done).
  step_ok E as id w1 G1. pose proof (identity_ok _ _ _ _ G1) as ->.
  apply (keeps_run _ _ _ _ _ (identity_keeps_sessions p)) in G1. injection G1 as Hs1 Hc1.
  step_ok E as secret w2 G2. injection G2 as Hsec <-. step_ok E as ex w3 G3. unfold expires_in in G3. cbn [w_clock upd] in G3.
  destruct (Z.leb _ _) eqn:El; [discriminate G3|]. injection G3 as <- <-. step_ok E as sid w4 G4. injection G4 as <- <-.
  step_ok E as now w5 G5. injection G5 as <- <-. step_ok E as u w6 G6. unfold insert_unique in G6.
  step_ok G6 as t w7 G7. injection G7 as <- <-. destruct (exists_where _ _) eqn:Ec; [discriminate G6|]. injection G6 as <-.
  step_ok E as ev w7 G7. apply (keeps_run _ _ _ _ _ (audit_event_unlogged _ _ _ _ _ _ _ _ _)) in G7.
  pose proof (f_equal (fun u => db_capmesh_sessions u.1.1.1) G7) as Hd7. pose proof (f_equal (fun u => u.1.1.2) G7) as Hc7.
  cbn in Hd7, Hc7. step_ok E as u' w8 G8. injection G8 as _ <-. injection E as <- <-.
  subst w6. change (sessions w1) with (db_capmesh_sessions (w_db w1)) in Hs1. apply Z.leb_gt in El.
  set (row := {| ss_id := _ |}) in *. exists secs, row. split; [done|].
  split; cbn [mt_session_id mt_tenant_id mt_bearer_token mt_expires_at mt_principal]; try reflexivity; [| | | | |].
  - unfold sessions. cbn. rewrite Hd7. cbn. by rewrite Hs1.
  - cbn. by rewrite Hc7.
  - unfold row. cbn. by rewrite Hc1.
  - rewrite <-Hc1. lia.
  - exists (S (w_uuid w1)), (w_uuid w1). by rewrite Hsec.
  - intros r Hr. rewrite exists_where_false in Ec. rewrite Hs1 in Ec. specialize (Ec r Hr). apply orb_false_iff in Ec as [Hi Hh].
    apply String.eqb_neq in Hi, Hh. done.
Qed.

(** ** Reading a token *)
Lemma bearer_none token w : fetchone (opens token (utc_text (w_clock w))) (sessions w) = None ->
  principal_from_bearer (Some token) w = (Ok None, w).
Proof.
  intros Hn. unfold principal_from_bearer. destruct (negb _); [done|]. unfold bind, utc_now, query, gets.
  cbn [or_else]. change (db_capmesh_sessions (w_db w)) with (sessions w). by rewrite Hn.
Qed.

(** The mesh groups a session is extended with. *)
Definition mesh_groups (p : Principal) (d : DB) : list string :=
  match p_groups p with [] => [] | groups => bound_groups groups (tenant_of p) d end.

Lemma bearer_some token w row p : truthy token = true ->
  fetchone (opens token (utc_text (w_clock w))) (sessions w) = Some row -> principal_of_session row = Ok p ->
  (principal_from_bearer (Some token) w).1 = Ok (Some (with_mesh_groups p (mesh_groups p (w_db w)))).
Proof.
  intros Ht Hf Hp. unfold principal_from_bearer. cbn [otruthy]. rewrite Ht. cbn [negb]. unfold bind at 1 2, utc_now, query, gets.
  cbn [or_else]. change (db_capmesh_sessions (w_db w)) with (sessions w). rewrite Hf.
  unfold bind, lift. rewrite Hp. unfold resolve_groups, mesh_groups. destruct (p_groups p) as [|g gs] eqn:Eg; [done|].
  reflexivity.
Qed.
End Minting.

(** ** The lifetime of a token *)
Section Theorems.
Context `{!Runtime, !Secrets, !Jwks, !Provider}.

Lemma slt_later exp a b : instant_ok a -> instant_ok b -> (a <= b)%Z -> slt (utc_text a) exp = false -> slt (utc_text b) exp = false.
Proof.
  intros Ha Hb Hab Hs. assert (le String.compare exp (utc_text a)) as Hle1.
  { unfold le. rewrite (ord_opp (c := String.compare)). intros Hc. apply not_true_iff_false in Hs. apply Hs, slt_compare.
    by destruct (String.compare (utc_text a) exp). }
  assert (le String.compare (utc_text a) (utc_text b)) as Hle2.
  { unfold le. rewrite compare_utc_text by done. apply Z.compare_le_iff, Z.div_le_mono; lia. }
  pose proof (le_trans _ _ _ _ Hle1 Hle2) as Hle3. apply not_true_iff_false. intros Hlt%slt_compare. apply Hle3.
  by rewrite (ord_opp (c := String.compare)), Hlt.
Qed.

(** C23: A session that is over stays over.  Once a session has been revoked or has
    expired, its bearer token is never accepted again, whatever the further
    history of logins, polls, revocations and other operations, and however
    many sessions are minted: nothing clears a revocation, extends an expiry
    or gives a second session the same token hash. *)
Theorem ended_session_stays_ended w w' r token :
  hashes_unique w -> rtc (session_call None) w w' -> instant_ok (w_clock w) -> instant_ok (w_clock w') ->
  r ∈ sessions w -> ss_token_hash r = hash_secret token ->
  ss_revoked_at r <> None \/ slt (utc_text (w_clock w)) (ss_expires_at r) = false ->
  principal_from_bearer (Some token) w' = (Ok None, w').
Proof.
  intros Hu Hh Hc Hc' Hr Ht Hover. apply history_evolves in Hh as [U R C]. apply bearer_none, fetchone_none.
  intros x Hx. unfold opens. destruct (String.eqb_spec (ss_token_hash x) (hash_secret token)) as [He|]; [|done].
  destruct (R r Hr) as (r' & Hr' & Hsame & _). destruct (same_session_fields _ _ Hsame) as (_ & Hhash & Hexp).
  assert (x = r') as -> by (apply (hash_row w'); [by apply U | done | done | congruence]).
  destruct Hover as [Hrev|Hexpired].
  - destruct Hsame as [_ Hk]. destruct (ss_revoked_at r); [|done]. specialize (Hk eq_refl). by destruct (ss_revoked_at r').
  - rewrite Hexp, (slt_later _ _ _ Hc Hc' C Hexpired). by destruct (is_none _).
Qed.

(** A minted session that is still in the table opens until its expiry. *)
Lemma minted_accepted p secs v m v' row u :
  textual p = true -> minted p secs v m v' row -> row ∈ sessions u -> hashes_unique u ->
  instant_ok (w_clock u) -> instant_ok (w_clock v + secs * 1000000) ->
  (w_clock u / 1000000 < (w_clock v + secs * 1000000) / 1000000)%Z ->
  let q := session_view p (provision_id p) in
  (principal_from_bearer (Some (mt_bearer_token m)) u).1 = Ok (Some (with_mesh_groups q (mesh_groups q (w_db u)))).
Proof.
  intros Htx Hmt Hr' Hu' Hcu Hce Hlt q. destruct (provision_id_ok p Htx) as [Ha Hn].
  apply (bearer_some _ _ row); [exact (mi_token _ _ _ _ _ _ Hmt) | |].
  - assert (opens (mt_bearer_token m) (utc_text (w_clock u)) row = true) as Hop.
    { unfold opens. rewrite (mi_hash _ _ _ _ _ _ Hmt), String.eqb_refl, (mi_open _ _ _ _ _ _ Hmt), (mi_expires _ _ _ _ _ _ Hmt). cbn [andb is_none].
      apply slt_compare. rewrite compare_utc_text by done. exact Hlt. }
    destruct (fetchone_is_some _ _ _ Hr' Hop) as [x Hx]. rewrite Hx. f_equal.
    apply fetchone_some in Hx as [Hx Hox]. apply (hash_row u); [done..|].
    unfold opens in Hox. apply andb_true_iff in Hox as [[Hox _]%andb_true_iff _]. apply String.eqb_eq in Hox.
    by rewrite Hox, (mi_hash _ _ _ _ _ _ Hmt).
  - destruct Hmt. by apply principal_of_minted.
Qed.

(** C22: A token lives until it expires or is revoked.  A token minted for a
    principal with ASCII texts is accepted at every later moment before its
    expiry, whatever happened in between except a revocation that selects its
    session; it then stands for exactly the principal it was minted for (with
    its provisioned identity, authenticated, not stepped up), extended by the
    mesh groups its Entra groups are bound to by then. *)
Theorem token_lives_until_revoked p ttl md w m w1 u secs :
  textual p = true -> hashes_unique w -> mint_capmesh_token p ttl md w = (Ok m, w1) -> ttl_of ttl = Ok secs ->
  rtc (session_call (Some (mt_session_id m))) w1 u ->
  instant_ok (w_clock u) -> instant_ok (w_clock w + secs * 1000000) ->
  (w_clock u / 1000000 < (w_clock w + secs * 1000000) / 1000000)%Z ->
  let q := session_view p (provision_id p) in
  (principal_from_bearer (Some (mt_bearer_token m)) u).1 = Ok (Some (with_mesh_groups q (mesh_groups q (w_db u)))).
Proof.
  intros Htx Hu Hm Hs Hh Hcu Hce Hlt q. destruct (mint_inv _ _ _ _ _ _ Hm) as (secs' & row & Hs' & Hmt).
  rewrite Hs in Hs'. injection Hs' as <-. apply history_evolves in Hh as [U R C].
  assert (row ∈ sessions w1) as Hrow by (rewrite (mi_rows _ _ _ _ _ _ Hmt); apply elem_of_app; right; left).
  destruct (R row Hrow) as (r' & Hr' & _ & Hspared). rewrite Hspared in Hr' by (f_equal; apply (mi_id _ _ _ _ _ _ Hmt)).
  assert (hashes_unique u) as Hu'.
  { apply U. destruct (mint_evolves None p ttl md w) as [U1 _ _]. rewrite Hm in U1. by apply U1. }
  by apply (minted_accepted p secs w m w1 row).
Qed.
End Theorems.

(** ** Concrete inputs *)
Module SessionDemo.
#[export] Existing Instance Demo.runtime.
#[export] Instance secrets : Secrets := {| token_urlsafe _ n := "secret" +:+ str_of_Z (Z.of_nat n) |}.
#[export] Instance jwks : Jwks := {| jwt_decode _ _ _ _ := Raise (ValueError "no keys") |}.
#[export] Instance provider : Provider :=
  {| exchange_authorization_code _ _ _ _ := Ok []; poll_device_code _ := Ok [] |}.
Definition start : World := Demo.world empty_db.
(** A member of an Entra group that is bound to a mesh group. *)
Definition alice : Principal := upd p_groups ["entra-1"] Demo.alice.
Definition bound : World := upd w_db (upd db_entra_group_bindings
  [mkEntraRow "egb_1" "asg" "tid" "entra-1" None "mesh-ops" "member" "root" "2026-07-19 00:00:00"] empty_db) start.
(** A session that has been revoked. *)
Definition revoked : SessionRow :=
  mkSessionRow "cms_1" "asg" (hash_secret "cm_old") None "alice@example.com" "{}" "[]" "2026-07-19 00:00:00"
    "2027-07-19T00:00:00Z" (Some "2026-07-19 12:00:00") "{}".
Definition closed : World := upd w_db (upd db_capmesh_sessions [revoked] empty_db) start.
End SessionDemo.

Section Witnesses.
Import SessionDemo.

Lemma mint_runs : is_ok (mint_capmesh_token alice (Some 3600%Z) [] bound).1 = true.
Proof. vm_compute. reflexivity. Qed.

Lemma ended_session_stays_ended_witness :
  let w' := (mint_capmesh_token alice (Some 3600%Z) [] closed).2 in principal_from_bearer (Some "cm_old") w' = (Ok None, w').
Proof.
  cbv zeta. pose proof (mint_evolves None alice (Some 3600%Z) [] closed) as [_ _ _].
  assert (w_clock (mint_capmesh_token alice (Some 3600%Z) [] closed).2 = w_clock closed) as Hc by (vm_compute; reflexivity).
  apply (ended_session_stays_ended closed _ revoked).
  - repeat constructor. by intros ?%elem_of_nil.
  - apply rtc_once, sc_mint.
  - vm_compute. split; [discriminate | reflexivity].
  - rewrite Hc. vm_compute. split; [discriminate | reflexivity].
  - left.
  - reflexivity.
  - left. discriminate.
Defined.

Lemma token_lives_until_revoked_witness : exists m w1 q,
  mint_capmesh_token alice (Some 3600%Z) [] bound = (Ok m, w1) /\
  let u := (revoke_capmesh_session alice (Some "cms_other") None (upd w_clock (w_clock bound + 1800000000)%Z w1)).2 in
  (principal_from_bearer (Some (mt_bearer_token m)) u).1 = Ok (Some q) /\ p_groups q = p_groups (with_mesh_groups (session_view alice (provision_id alice)) (mesh_groups (session_view alice (provision_id alice)) (w_db u))).
Proof.
  pose proof mint_runs as RUN. destruct (mint_capmesh_token alice (Some 3600%Z) [] bound) as [[m|e] w1] eqn:E; [|discriminate RUN].
  destruct (mint_inv _ _ _ _ _ _ E) as (secs & r & _ & Hm). exists m, w1. eexists. split; [reflexivity|]. cbv zeta.
  set (u0 := upd w_clock _ w1). set (u := (revoke_capmesh_session alice (Some "cms_other") None u0).2).
  assert (Hu : w_clock u = (w_clock bound + 1800000000)%Z).
  { assert (keeps w_clock (revoke_capmesh_session alice (Some "cms_other") None)) as Hk by (unfold keeps, revoke_capmesh_session; solve_frame).
    exact (Hk u0). }
  assert (Hid : mt_session_id m = "cms_uuid1") by (pose proof (f_equal fst E) as E1; vm_compute in E1; injection E1 as <-; reflexivity).
  split; [|reflexivity].
  apply (token_lives_until_revoked alice (Some 3600%Z) [] bound m w1 u 3600).
  - vm_compute. reflexivity.
  - constructor.
  - exact E.
  - reflexivity.
  - rewrite Hid. eapply rtc_l; [apply (sc_time _ w1 (w_clock bound + 1800000000))|].
    + rewrite (mi_clock _ _ _ _ _ _ Hm). discriminate.
    + apply rtc_once, sc_revoke. intros id x [= <-] _ Hx. unfold revocation. cbn. by rewrite Hx.
  - rewrite Hu. vm_compute. split; [discriminate | reflexivity].
  - vm_compute. split; [discriminate | reflexivity].
  - rewrite Hu. vm_compute. reflexivity.
Defined.
End Witnesses.
