(* ===== verification/LoginProps.v ===== *)
(** * Properties of logins

    What a Microsoft login has checked when it succeeds, that its bearer token
    reaches the polling client once and opens a session for the mailbox of the
    claims, and what the code does not check. *)

From Stdlib Require Import ZArith QArith Ascii String Lia.
From stdpp Require Import base option list strings gmap relations.
From S2P Require Import Prelude Sha256 PyStr Json JsonCodec Dicts Base64 Clock Db Models AccessControl.
From S2P Require Import RegistryLog Superadmin Identity Stores SourceGates TokenClaims Sessions OAuthFlow SessionProps.
Local Open Scope string_scope.
Local Open Scope list_scope.

#[local] Opaque sha256_hex.

(** ** One delivery *)
Section Delivery.
Context `{!Runtime, !Secrets, !Jwks, !Provider}.

Definition oauth_rows (w : World) : list OAuthRow := db_oauth_sessions (w_db w).

(** The metadata of an OAuth session, within the values the codec is exact on. *)
Definition holds_metadata (row : OAuthRow) (md : dict) : Prop := session_metadata row = Ok md /\ wf_dict md.

Lemma stored_metadata row md : wf_dict md ->
  holds_metadata (upd oa_metadata_json (json_dumps (JObj md)) row) (sorted_dict md).
Proof.
  intros Hwf. split; [|by apply wf_sorted]. unfold session_metadata.
  change (oa_metadata_json _) with (json_dumps (JObj md)). by rewrite loads_dumps_dict.
Qed.

Lemma wf_delivery md now : wf_dict md -> wf_dict (delivery md now).2.
Proof. intros Hwf. unfold delivery. destruct (delivery_expired md now); cbn [snd]; eauto 6 with dicts. Qed.

Lemma delivery_purges md now : 
  jget "capmeshBearerToken" (delivery md now).2 = JNull /\ jget "m365RefreshToken" (delivery md now).2 = JNull.
Proof.
  unfold delivery. destruct (delivery_expired md now); cbn [snd];
    rewrite ?(jget_set_ne _ "refreshTokenDelivered") by done; rewrite jget_set;
    by rewrite jget_set_ne, jget_set.
Qed.

Lemma delivered_null md now : jget "capmeshBearerToken" md = JNull -> jget "m365RefreshToken" md = JNull ->
  jget "bearerToken" (delivery md now).1 = JNull /\ jget "m365RefreshToken" (delivery md now).1 = JNull.
Proof.
  intros Hb Hm. unfold delivery. destruct (delivery_expired md now); cbn [fst]; [done|]. by rewrite Hb, Hm.
Qed.

(** A poll reads the session and leaves it, or purges it. *)
Lemma status_inv id consume w payload w' : oauth_session_status id consume w = (Ok payload, w') ->
  exists row md, by_id_or_state id (w_db w) = Some row /\ session_metadata row = Ok md /\ sessions w' = sessions w /\ w_clock w' = w_clock w /\
    if consume && (oa_status row =s "completed") then
      payload = status_payload row md ++ (delivery md (utc_text (w_clock w))).1 /\
      oauth_rows w' = update_where (fun r => oa_id r =s oa_id row)
        (upd oa_metadata_json (json_dumps (JObj (delivery md (utc_text (w_clock w))).2))) (oauth_rows w) /\ w_db w' = w_disk w'
    else payload = status_payload row md /\ w' = w.
Proof.
  unfold oauth_session_status. intros E. step_ok E as row w1 G1. injection G1 as G1 <-.
  destruct row as [row|]; [|discriminate E]. step_ok E as md w1 G2. injection G2 as G2 <-. exists row, md.
  split; [done|]. split; [done|]. destruct (consume && _).
  - step_ok E as now w1 G3. injection G3 as <- <-. destruct (delivery md _) as [tokens rest].
    step_ok E as [] w1 G4. injection G4 as <-. step_ok E as [] w2 G5. injection G5 as <-. injection E as <- <-. done.
  - by injection E as <- <-.
Qed.

Lemma status_run id w row md : by_id_or_state id (w_db w) = Some row -> session_metadata row = Ok md -> oa_status row = "completed" ->
  exists w', oauth_session_status id true w = (Ok (status_payload row md ++ (delivery md (utc_text (w_clock w))).1), w') /\
    sessions w' = sessions w /\ w_clock w' = w_clock w.
Proof.
  intros Hr Hm Hs. unfold oauth_session_status, bind at 1, query, gets. rewrite Hr. unfold bind at 1, lift. rewrite Hm, Hs.
  cbn [andb]. rewrite String.eqb_refl. unfold bind at 1, utc_now, gets. destruct (delivery md _) as [tokens rest]. eexists. split; [reflexivity | done].
Qed.

Lemma status_absent row md k : k ∈ ["bearerToken"; "m365RefreshToken"] -> jget k (status_payload row md) = JNull.
Proof. rewrite !elem_of_cons, elem_of_nil. intros [-> | [-> | []]]; reflexivity. Qed.

Lemma jget_payload row md k more : k ∈ ["bearerToken"; "m365RefreshToken"] ->
  jget k (status_payload row md ++ more) = jget k more.
Proof. rewrite !elem_of_cons, elem_of_nil. intros [-> | [-> | []]]; reflexivity. Qed.

(** The row a consuming poll leaves holds no token; so does the disk. *)
Lemma poll_leaves id w payload w' row md :
  by_id_or_state id (w_db w) = Some row -> oa_status row = "completed" -> holds_metadata row md ->
  oauth_session_status id true w = (Ok payload, w') ->
  exists row' md', by_id_or_state id (w_db w') = Some row' /\ w_disk w' = w_db w' /\ session_metadata row' = Ok md' /\
    jget "capmeshBearerToken" md' = JNull /\ jget "m365RefreshToken" md' = JNull.
Proof.
  intros Hrow Hst [Hmd Hwf] E. apply status_inv in E as (row0 & md0 & Hr0 & Hm0 & _ & _ & E).
  assert (row0 = row) as -> by congruence. assert (md0 = md) as -> by congruence. rewrite Hst in E. destruct E as (_ & Hrows & Hdisk).
  set (now := utc_text (w_clock w)) in *. exists (upd oa_metadata_json (json_dumps (JObj (delivery md now).2)) row).
  destruct (stored_metadata row _ (wf_delivery md now Hwf)) as [Hs _]. destruct (delivery_purges md now) as [Hb Hm].
  exists (sorted_dict (delivery md now).2). split_and!; try done.
  - unfold by_id_or_state. change (db_oauth_sessions (w_db w')) with (oauth_rows w'). rewrite Hrows.
    rewrite fetchone_update_where by done. unfold by_id_or_state in Hrow. unfold oauth_rows. rewrite Hrow.
    cbn -[json_dumps]. by rewrite String.eqb_refl.
  - by rewrite jget_sorted, Hb by (by apply wf_nodup, wf_delivery).
  - by rewrite jget_sorted, Hm by (by apply wf_nodup, wf_delivery).
Qed.

(** The tokens of a login are delivered once.  After a consuming poll of a
    completed session has answered, with the tokens or after their deadline
    without them, no later poll of the session returns a bearer token or a
    refresh token, as long as the session is not completed anew. *)
Theorem tokens_delivered_once id w payload w' u consume row md payload' u' :
  by_id_or_state id (w_db w) = Some row -> oa_status row = "completed" -> holds_metadata row md ->
  oauth_session_status id true w = (Ok payload, w') -> oauth_rows u = oauth_rows w' ->
  oauth_session_status id consume u = (Ok payload', u') ->
  jget "bearerToken" payload' = JNull /\ jget "m365RefreshToken" payload' = JNull.
Proof.
  intros Hrow Hst [Hmd Hwf] E Hu E'. apply status_inv in E as (row0 & md0 & Hr0 & Hm0 & _ & _ & E).
  assert (row0 = row) as -> by congruence. assert (md0 = md) as -> by congruence. clear Hr0 Hm0.
  rewrite Hst in E. destruct E as (_ & Hrows & _). set (now := utc_text (w_clock w)) in *.
  apply status_inv in E' as (row' & md' & Hr' & Hm' & _ & _ & E').
  assert (row' = upd oa_metadata_json (json_dumps (JObj (delivery md now).2)) row) as ->.
  { unfold by_id_or_state in Hr'. change (db_oauth_sessions (w_db u)) with (oauth_rows u) in Hr'. rewrite Hu, Hrows in Hr'.
    rewrite fetchone_update_where in Hr' by done. unfold by_id_or_state in Hrow. unfold oauth_rows in Hr'. rewrite Hrow in Hr'.
    cbn -[json_dumps] in Hr'. rewrite String.eqb_refl in Hr'. by injection Hr'. }
  destruct (stored_metadata row _ (wf_delivery md now Hwf)) as [Hs _]. rewrite Hs in Hm'. injection Hm' as <-.
  destruct (delivery_purges md now) as [Hb Hm].
  destruct (delivered_null (sorted_dict (delivery md now).2) (utc_text (w_clock u))) as [Hb' Hm'];
    [by rewrite jget_sorted, Hb by (by apply wf_nodup, wf_delivery) | by rewrite jget_sorted, Hm by (by apply wf_nodup, wf_delivery) |].
  destruct (consume && _); destruct E' as [-> _]; [rewrite !jget_payload by set_solver | rewrite !status_absent by set_solver]; done.
Qed.
End Delivery.

(** ** What a login leaves *)
Section Login.
Context `{!Runtime, !Secrets, !Jwks, !Provider}.

Lemma identity_keeps_oauth p : keeps (fun w => (oauth_rows w, sessions w, w_clock w)) (ensure_identity_for_principal p).
Proof.
  unfold keeps, oauth_rows, sessions, ensure_identity_for_principal, ensure_principal_stores, ensure_personal_store,
    upsert_identity, ensure_default_tenant, bootstrap_tenant_row, bootstrap_default_identity,
    bootstrap_user_stores, bootstrap_org, insert_org_store, bootstrap_system, bootstrap_all_users,
    insert_store, insert_namespace. solve_frame.
Qed.

Lemma mint_keeps_oauth p ttl md : keeps oauth_rows (mint_capmesh_token p ttl md).
Proof.
  unfold keeps, oauth_rows, mint_capmesh_token. solve_frame.
  - intros w. pose proof (identity_keeps_oauth p w) as Hk. unfold same in *. by injection Hk.
  - by intros w.
  - intros w. unfold same, expires_in. by destruct (Z.leb _ (w_clock w + a * 1000000)%Z).
Qed.

(** The outcome of a completed login: the session minted for the principal and
    the metadata the tokens wait in. *)
Record login_result (row : OAuthRow) (p : Principal) (provider : string) (claims more refresh : dict) (w w' : World)
    (m : Minted) (md : dict) (srow : SessionRow) : Prop := {
  lr_metadata : session_metadata row = Ok md;
  lr_sessions : sessions w' = sessions w ++ [srow];
  lr_session : exists secs v v', _CAPMESH_SESSION_TTL = Ok secs /\ sessions v = sessions w /\ w_clock v = w_clock w /\ minted p secs v m v' srow;
  lr_clock : w_clock w' = w_clock w;
  lr_rows : exists ttl now, _OAUTH_TOKEN_DELIVERY_TTL = Ok ttl /\
    oauth_rows w' = update_where (fun r => oa_id r =s oa_id row)
      (fun r => upd oa_status "completed" (upd oa_completed_at (Some now)
        (upd oa_metadata_json (json_dumps (JObj (dmerge (delivery_metadata provider claims m more
            (utc_text (w_clock w + ttl * 1000000)) md) refresh))) r)))
      (oauth_rows w)
}.

Lemma login_inv row p claims provider event more refresh deliver w d w' :
  finish_login row p claims provider event more refresh deliver w = (Ok d, w') ->
  exists m md srow, login_result row p provider claims more refresh w w' m md srow.
Proof.
  unfold finish_login. intros E. step_ok E as id w1 G1. apply (keeps_run _ _ _ _ _ (identity_keeps_oauth p)) in G1.
  injection G1 as Ho1 Hs1 Hc1. step_ok E as m w2 G2. destruct (mint_inv _ _ _ _ _ _ G2) as (secs & srow & Ht & Hm).
  apply (keeps_run _ _ _ _ _ (mint_keeps_oauth _ _ _)) in G2. step_ok E as md w3 G3. injection G3 as Hmd <-.
  step_ok E as ttl w3 G3. injection G3 as Httl <-. step_ok E as deadline w3 G3. unfold expires_in in G3.
  destruct (Z.leb _ _); [discriminate G3|]. injection G3 as <- <-. step_ok E as now w3 G3. injection G3 as <- <-.
  step_ok E as [] w3 G3. injection G3 as <-. step_ok E as ev w4 G4.
  apply (keeps_run _ _ _ _ _ (audit_event_unlogged _ _ _ _ _ _ _ _ _)) in G4. step_ok E as [] w5 G5. injection G5 as <-. injection E as _ <-.
  pose proof (f_equal (fun u => db_capmesh_sessions u.1.1.1) G4) as Hd4. pose proof (f_equal (fun u => u.1.1.2) G4) as Hc4.
  pose proof (f_equal (fun u => db_oauth_sessions u.1.1.1) G4) as Ho4. cbn in Hd4, Hc4. cbn -[update_where json_dumps] in Ho4. clear G4.
  pose proof (mi_clock _ _ _ _ _ _ Hm) as Hc2. pose proof (mi_rows _ _ _ _ _ _ Hm) as Hs2.
  exists m, md, srow. split; [done | | | |].
  - unfold sessions. cbn. rewrite Hd4. change (db_capmesh_sessions (w_db w2)) with (sessions w2). by rewrite Hs2, Hs1.
  - exists secs, w1, w2. done.
  - cbn. rewrite Hc4. congruence.
  - exists ttl, (sql_text_now (w_clock w2)). split; [done|]. unfold oauth_rows. cbn -[update_where json_dumps]. rewrite Ho4.
    change (db_oauth_sessions (w_db w2)) with (oauth_rows w2). rewrite G2, Ho1, Hc2, Hc1. done.
Qed.
End Login.

(** ** From the identity token to the bearer token *)
Section EndToEnd.
Context `{!Runtime, !Secrets, !Jwks, !Provider}.

(** What a completed Microsoft login has come through. *)
Lemma complete_inv state tr client w d w' : complete_oauth_session state tr client w = (Ok d, w') ->
  exists row claims p m md srow, by_state state (w_db w) = Some row /\ checked_claims row tr client (w_clock w) = Ok claims /\
    principal_from_entra_claims claims (oa_tenant_id row) = Ok p /\
    login_result row p "m365" claims [("refreshTokenDelivered", JBool false)]
      (if py_truthy (jget "refresh_token" tr) then [("m365RefreshToken", jget "refresh_token" tr)] else []) w w' m md srow.
Proof.
  unfold complete_oauth_session. intros E. step_ok E as row w1 G1. injection G1 as G1 <-. destruct row as [row|]; [|discriminate E].
  step_ok E as clock w1 G2. injection G2 as <- <-. step_ok E as claims w1 G2. injection G2 as G2 <-.
  step_ok E as p w1 G3. injection G3 as G3 <-. apply login_inv in E as (m & md & srow & Hr).
  by exists row, claims, p, m, md, srow.
Qed.

(** The metadata of a completed login: what a poll reads in it. *)
Definition waiting (claims : dict) (m : Minted) (deadline : string) (md refresh : dict) : dict :=
  dmerge (delivery_metadata "m365" claims m [("refreshTokenDelivered", JBool false)] deadline md) refresh.

Definition refresh_of (tr : dict) : dict :=
  if py_truthy (jget "refresh_token" tr) then [("m365RefreshToken", jget "refresh_token" tr)] else [].

Lemma wf_waiting claims m deadline md tr :
  wf_dict claims -> wf_dict md -> wf_json (jget "refresh_token" tr) ->
  ascii_str (mt_session_id m) = true -> ascii_str (mt_bearer_token m) = true -> ascii_str (mt_expires_at m) = true -> ascii_str deadline = true ->
  wf_dict (waiting claims m deadline md (refresh_of tr)).
Proof.
  intros Hc Hmd Hr Hi Hb He Hd. unfold waiting, delivery_metadata. apply wf_merge; [apply wf_merge; [by apply wf_filter|]|].
  - apply wf_json_obj. split; [apply (bool_decide_unpack (NoDup _)); vm_compute; exact I|].
    repeat (apply Forall_cons; split); [..|by apply Forall_nil]; (split; [reflexivity|]); cbn [snd]; first [done | by apply wf_filter].
  - unfold refresh_of. destruct (py_truthy _); [|apply wf_empty]. apply (wf_set _ _ []); [done | done | apply wf_empty].
Qed.

Lemma waiting_fields claims m deadline md tr :
  jget "capmeshBearerToken" (waiting claims m deadline md (refresh_of tr)) = JStr (mt_bearer_token m) /\
  jget "tokenDeliveryExpiresAt" (waiting claims m deadline md (refresh_of tr)) = JStr deadline.
Proof.
  assert (NoDup (refresh_of tr).*1) as Hnd by (unfold refresh_of; destruct (py_truthy _); repeat constructor; by intros ?%elem_of_nil).
  unfold waiting, delivery_metadata, jget. rewrite !dget_merge by (try exact Hnd; apply (bool_decide_unpack (NoDup _)); vm_compute; exact I).
  unfold refresh_of. by destruct (py_truthy _).
Qed.
Lemma wf_login claims m deadline md tr p secs v v' srow :
  (forall n, ascii_str (uuid4_hex n) = true) -> (forall b n, ascii_str (token_urlsafe b n) = true) -> minted p secs v m v' srow ->
  wf_dict claims -> wf_dict md -> wf_json (jget "refresh_token" tr) -> ascii_str deadline = true ->
  wf_dict (waiting claims m deadline md (refresh_of tr)).
Proof.
  intros Huuid Htok Hmt Hc Hmd Hr Hd. destruct (mi_random _ _ _ _ _ _ Hmt) as (k & n & Hk & Hn).
  rewrite <-(mi_id _ _ _ _ _ _ Hmt) in Hk. apply wf_waiting; try done.
  - rewrite Hk. unfold ascii_str. rewrite !sall_app. apply Huuid.
  - rewrite Hn. unfold ascii_str. rewrite sall_app. apply Htok.
  - rewrite (mi_ends _ _ _ _ _ _ Hmt), (mi_expires _ _ _ _ _ _ Hmt). apply ascii_utc.
Qed.

Lemma login_hashes w w' p secs m v v' srow : sessions w' = sessions w ++ [srow] -> sessions v = sessions w ->
  minted p secs v m v' srow -> hashes_unique w -> hashes_unique w'.
Proof.
  intros Hss Hvs Hmt Hu. unfold hashes_unique. rewrite Hss, fmap_app. apply NoDup_app. split_and!; [done | | apply NoDup_singleton].
  intros x (r & -> & Hr)%list_elem_of_fmap Hx%list_elem_of_singleton. rewrite <-Hvs in Hr.
  by destruct (mi_fresh _ _ _ _ _ _ Hmt r Hr).
Qed.

(** C21: A login ends with its owner holding the only copy of a working token.
    If a Microsoft login completes on metadata, claims and a refresh token of
    ASCII texts, then a consuming poll of the session before the delivery
    deadline answers with a bearer token.  The row it leaves, committed, holds
    that token no longer, and no later poll of the row answers with one; the
    session table has its hash.  And the token is accepted at every later moment
    before its expiry, whatever happened in between except a revocation of its
    session, as the principal built from the verified claims: the mailbox they
    name, with the rights they give and no step-up. *)
Theorem login_token_reaches_owner state tr client w d w' row claims p md u :
  (forall n, ascii_str (uuid4_hex n) = true) -> (forall b n, ascii_str (token_urlsafe b n) = true) ->
  hashes_unique w -> complete_oauth_session state tr client w = (Ok d, w') ->
  by_state state (w_db w) = Some row -> by_id_or_state (oa_id row) (w_db w) = Some row ->
  holds_metadata row md -> checked_claims row tr client (w_clock w) = Ok claims -> wf_dict claims ->
  wf_json (jget "refresh_token" tr) -> principal_from_entra_claims claims (oa_tenant_id row) = Ok p -> textual p = true ->
  u = upd w_clock (w_clock u) w' -> instant_ok (w_clock u) ->
  (forall s, s ∈ [_OAUTH_TOKEN_DELIVERY_TTL; _CAPMESH_SESSION_TTL] -> exists secs, s = Ok secs /\
     instant_ok (w_clock w + secs * 1000000) /\ (w_clock u / 1000000 < (w_clock w + secs * 1000000) / 1000000)%Z) ->
  exists payload u' tok srow, oauth_session_status (oa_id row) true u = (Ok payload, u') /\
    jget "bearerToken" payload = JStr tok /\
    (exists row' md', by_id_or_state (oa_id row) (w_db u') = Some row' /\ w_disk u' = w_db u' /\ session_metadata row' = Ok md' /\
       jget "capmeshBearerToken" md' = JNull /\ jget "m365RefreshToken" md' = JNull) /\
    (forall consume v payload' v', oauth_rows v = oauth_rows u' -> oauth_session_status (oa_id row) consume v = (Ok payload', v') ->
       jget "bearerToken" payload' = JNull /\ jget "m365RefreshToken" payload' = JNull) /\
    srow ∈ sessions u' /\ ss_token_hash srow = hash_secret tok /\
    forall v secs, rtc (session_call (Some (ss_id srow))) u' v -> _CAPMESH_SESSION_TTL = Ok secs -> instant_ok (w_clock v) ->
      (w_clock v / 1000000 < (w_clock w + secs * 1000000) / 1000000)%Z ->
      let q := session_view p (provision_id p) in
      (principal_from_bearer (Some tok) v).1 = Ok (Some (with_mesh_groups q (mesh_groups q (w_db v)))).
Proof.
  intros Huuid Htok Hu E Hrow Hid Hmd Hch Hwc Hwr Hp Htx Hclk Hcu Httl.
  apply complete_inv in E as (row0 & claims0 & p0 & m & md0 & srow & Hrow0 & Hch0 & Hp0 & [Hmd0 Hss Hm Hc' (ttl & now & Hd & Hor)]).
  assert (row0 = row) as -> by congruence. assert (claims0 = claims) as -> by congruence.
  assert (p0 = p) as -> by congruence. assert (md0 = md) as -> by (destruct Hmd; congruence). clear Hrow0 Hch0 Hp0 Hmd0.
  destruct Hm as (secs & v & v' & Hsecs & Hvs & Hvc & Hmt). fold (refresh_of tr) in Hor.
  set (deadline := utc_text (w_clock w + ttl * 1000000)) in *.
  pose proof (wf_login claims m deadline md tr p secs v v' srow Huuid Htok Hmt Hwc (proj2 Hmd) Hwr (ascii_utc _)) as Hww.
  destruct (Httl _ ltac:(left)) as (ttl1 & Ht1 & Hdi & Hdl). rewrite Hd in Ht1. injection Ht1 as <-.
  destruct (Httl _ ltac:(right; left)) as (secs1 & Ht2 & Hexp & Hlt). rewrite Hsecs in Ht2. injection Ht2 as <-.
  set (md1 := waiting claims m deadline md (refresh_of tr)) in *.
  set (row1 := upd oa_status "completed" (upd oa_completed_at (Some now) (upd oa_metadata_json (json_dumps (JObj md1)) row))).
  assert (by_id_or_state (oa_id row) (w_db u) = Some row1) as Hrow1.
  { rewrite Hclk. unfold by_id_or_state in *. cbn [w_db upd]. change (db_oauth_sessions (w_db _)) with (oauth_rows w'). rewrite Hor.
    rewrite fetchone_update_where by done. unfold oauth_rows. rewrite Hid. cbn [fmap option_fmap option_map]. by rewrite String.eqb_refl. }
  assert (session_metadata row1 = Ok (sorted_dict md1)) as Hmd1 by (apply (stored_metadata row1 md1 Hww)).
  destruct (status_run (oa_id row) u row1 _ Hrow1 Hmd1 eq_refl) as (u' & Eu & Hsu & Hcu').
  destruct (waiting_fields claims m deadline md tr) as [Hbear Hdead]. fold md1 in Hbear, Hdead.
  assert (holds_metadata row1 (sorted_dict md1)) as Hold by (apply (stored_metadata row1 md1 Hww)).
  assert (srow ∈ sessions u') as Hin.
  { rewrite Hsu, Hclk. change (sessions (upd w_clock _ w')) with (sessions w'). rewrite Hss. apply elem_of_app. right. left. }
  assert (hashes_unique u') as Huu.
  { unfold hashes_unique. rewrite Hsu, Hclk. change (sessions (upd w_clock _ w')) with (sessions w').
    apply (login_hashes w w' p secs m v v' srow); done. }
  eexists _, u', (mt_bearer_token m), srow. split; [exact Eu|]. split; [|split; [|split; [|split; [exact Hin|split]]]].
  - rewrite jget_payload by set_solver. unfold delivery, delivery_expired. rewrite !jget_sorted by (by apply wf_nodup). rewrite Hdead, Hbear.
    cbn [sort_keys py_str]. assert (sle deadline (utc_text (w_clock u)) = false) as ->.
    { apply not_true_iff_false. intros Hle%sle_compare. apply Hle. unfold deadline. rewrite compare_utc_text by done.
      by apply Z.compare_gt_iff. }
    by rewrite andb_false_r.
  - exact (poll_leaves _ _ _ _ _ _ Hrow1 eq_refl Hold Eu).
  - intros consume x payload' x' Hx E'. exact (tokens_delivered_once _ _ _ _ _ _ _ _ _ _ Hrow1 eq_refl Hold Eu Hx E').
  - exact (mi_hash _ _ _ _ _ _ Hmt).
  - intros x secs2 Hh Hsecs2 Hcx Hxlt. assert (secs2 = secs) as -> by congruence. apply history_evolves in Hh as [U R _].
    destruct (R srow Hin) as (r' & Hr' & _ & Hspared). rewrite (Hspared eq_refl) in Hr'.
    apply (minted_accepted p secs v m v' srow); rewrite ?Hvc; try done. by apply U.
Qed.

Lemma in_set_true v l : in_set v l = Ok true -> exists s, v = JStr s /\ s ∈ l.
Proof.
  unfold in_set. destruct (hashable v); [|done]. destruct v as [| | | |s| |]; try done. intros [= Hs].
  exists s. split; [done|]. by apply smem_In in Hs.
Qed.

(** The checks a set of claims has passed. *)
Record claims_checked (row : OAuthRow) (client : option string) (now : Z) (claims : dict) : Prop := {
  ck_tenant : truthy (str_get claims "tid" "") = true;
  ck_issuer : exists iss, jget "iss" claims = JStr iss /\ iss ∈ _trusted_ms_issuers (str_get claims "tid" "");
  ck_audience c : given client = Some c -> jget "aud" claims = JStr c;
  ck_nonce n : oa_nonce row = Some n -> truthy n = true -> py_truthy (jget "nonce" claims) = true -> jget "nonce" claims = JStr n;
  ck_expiry : exists exp, to_int (py_or (jget "exp" claims) (JNum 0)) = Ok exp /\ (exp = 0 \/ now < exp)%Z
}.

Lemma checked_inv row tr client clock claims : checked_claims row tr client clock = Ok claims ->
  verify_id_token (str_get tr "id_token" "") client = Ok claims /\ claims_checked row client (clock / 1000000) claims.
Proof.
  unfold checked_claims. destruct (verify_id_token _ _) as [cs|] eqn:Ev; [|done]. cbn [obind].
  destruct (truthy (str_get cs "tid" "")) eqn:Et; [|done]. cbn [negb].
  destruct (in_set _ _) as [[]|] eqn:Ei; [|done..]. cbn [obind negb]. apply in_set_true in Ei as (iss & Hiss & Hin).
  destruct (match given client with Some _ => _ | None => _ end) eqn:Ea; [done|].
  destruct (_ && _ && _) eqn:En; [done|]. destruct (pkce_check row) as [[]|]; [|done]. cbn [obind].
  unfold check_expired. destruct (to_int _) as [exp|] eqn:Ee; [|done]. cbn [obind].
  destruct (negb (Z.eqb exp 0) && Z.leb exp _) eqn:Ex; [done|]. cbn [obind].
  destruct (validate _ _ _ _) as [v|]; [|done]. cbn [obind]. destruct (negb (fst v)); [done|]. intros [= <-].
  split; [done|]. split; [done | | | |].
  - exists iss. split; [|done]. unfold jget. destruct (dget "iss" cs); [done|]. injection Hiss as <-.
    unfold _trusted_ms_issuers in Hin. rewrite !elem_of_cons, elem_of_nil in Hin. by destruct Hin as [?|[?|[]]].
  - intros c Hc. rewrite Hc in Ea. destruct (jget "aud" cs); try discriminate Ea. apply negb_false_iff, String.eqb_eq in Ea. by subst.
  - intros n Hn Hne Hcn. rewrite Hn, Hcn in En. cbn [otruthy] in En. rewrite Hne in En. cbn [andb] in En. apply negb_false_iff in En.
    destruct (jget "nonce" cs); try discriminate En. unfold sql_eq, oeqb in En. cbn in En. apply String.eqb_eq in En. by subst.
  - exists exp. split; [done|]. apply andb_false_iff in Ex as [Ex|Ex]; [left; by apply negb_false_iff, Z.eqb_eq in Ex | right; by apply Z.leb_gt].
Qed.

(** What a Microsoft login has established when it succeeds.  With signature
    verification on, the claims are those PyJWT accepted for the token, a
    tenant that is a GUID and one of its two Microsoft issuers; they name the
    configured client as audience, are not expired, and repeat the nonce of
    the OAuth session if they carry one; the session that is minted is the
    only new one and belongs to the mailbox the claims name, in the tenant of
    the OAuth session. *)
Theorem login_establishes state tr client w d w' :
  complete_oauth_session state tr client w = (Ok d, w') -> _oauth_verify_signature_enabled = true ->
  exists row claims p srow tid issuer, by_state state (w_db w) = Some row /\
    is_guid tid = true /\ issuer ∈ _trusted_ms_issuers tid /\
    jwt_decode (str_get tr "id_token" "") tid issuer (given client) = Ok (JObj claims) /\
    claims_checked row client (w_clock w / 1000000) claims /\ principal_from_entra_claims claims (oa_tenant_id row) = Ok p /\
    sessions w' = sessions w ++ [srow] /\ ss_subject srow = p_subject p /\ ss_tenant_id srow = tenant_of p /\
    p_tenant_id p = oa_tenant_id row /\ ss_scopes_json srow = json_dumps (jstrs (p_scopes p)).
Proof.
  intros E Hon. apply complete_inv in E as (row & claims & p & m & md & srow & Hrow & Hch & Hp & [_ Hss Hm _ _]).
  apply checked_inv in Hch as [Hv Hch]. unfold verify_id_token in Hv. rewrite Hon in Hv. cbn [negb] in Hv.
  destruct (decode_unverified_jwt _) as [un|]; [|done]. cbn [obind] in Hv. set (tid := str_get un "tid" "") in *.
  destruct (truthy tid); [|done]. destruct (is_guid tid) eqn:Hg; [|done]. cbn [negb orb] in Hv.
  destruct (_ && is_none expected_tid); [done|]. destruct (match expected_tid with Some _ => _ | None => _ end); [done|].
  set (issuer := str_get un "iss" "") in *. destruct (smem issuer (_trusted_ms_issuers tid)) eqn:Hi; [|done]. cbn [negb] in Hv.
  change (match client with Some c => if truthy c then Some c else None | None => None end) with (given client) in Hv.
  destruct (jwt_decode _ _ _ _) as [cs|] eqn:Hj; [|done]. cbn [obind] in Hv. destruct cs as [| | | | | |cs]; try done. injection Hv as ->.
  apply smem_In in Hi. destruct Hm as (secs & v & v' & _ & _ & _ & Hmt).
  exists row, claims, p, srow, tid, issuer. split_and!; try done.
  - apply (mi_subject _ _ _ _ _ _ Hmt).
  - apply (mi_tenant _ _ _ _ _ _ Hmt).
  - unfold principal_from_entra_claims in Hp. destruct (negb _); [done|]. by injection Hp as <-.
  - apply (mi_scopes _ _ _ _ _ _ Hmt).
Qed.
End EndToEnd.

(** ** What is not checked *)
Section Gaps.
Context `{!Runtime, !Secrets, !Jwks, !Provider}.

(** The PKCE check of a completion never refuses a login.  Whatever challenge a
    session stores and whatever ASCII verifier stands in its metadata, the
    block that is to compare them passes: usually it is skipped, because the
    test for the column looks among the values of the row, and where it runs,
    the verdict is lost in the exception its unpacking raises. *)
Theorem pkce_mismatch_accepted row md :
  session_metadata row = Ok md -> ascii_str (str_get md "codeVerifier" "") = true -> pkce_check row = Ok tt.
Proof.
  intros Hmd Ha. unfold pkce_check. destruct (negb (truthy _)); [done|]. unfold session_metadata in Hmd.
  destruct (truthy (oa_metadata_json row)); [|done].
  destruct (json_loads _ _) as [| | | | | |d]; try done. injection Hmd as ->.
  destruct (negb (truthy (str_get md "codeVerifier" ""))); [done|]. unfold validate_pkce, CODE_CHALLENGE_METHOD. cbn [negb].
  rewrite String.eqb_refl. cbn [negb]. unfold compute_code_challenge, encode_ascii. rewrite Ha. cbn [obind].
  unfold compare_digest. by destruct (_ && _).
Qed.

(** A callback is taken once.  After the callback of a pending session has been
    validated or has found it expired, every later callback for its state is
    refused and changes nothing, as long as nobody else writes the session. *)
Theorem callback_taken_once state code error w o w' row u code' error' :
  by_state state (w_db w) = Some row -> oa_status row = "pending" -> is_ok (session_metadata row) = true ->
  validate_oauth_callback state code error w = (o, w') -> oauth_rows u = oauth_rows w' ->
  validate_oauth_callback state code' error' u = (Raise (ValueError "OAuth session is not pending."), u).
Proof.
  intros Hrow Hst Hmd E Hu.
  assert (exists row', by_state state (w_db u) = Some row' /\ oa_status row' <> "pending") as (row' & Hr & Hs).
  { unfold by_state in *. change (db_oauth_sessions (w_db u)) with (oauth_rows u). rewrite Hu.
    unfold validate_oauth_callback, bind at 1, query, gets, by_state in E. rewrite Hrow, Hst in E. cbn [negb] in E.
    rewrite String.eqb_refl in E. cbn [negb] in E. unfold bind at 1, utc_now, gets in E.
    destruct (sle _ _); [|destruct (session_metadata row) as [md|] eqn:Em; [|done]]; injection E as _ <-;
      unfold oauth_rows; cbn -[update_where json_dumps]; rewrite fetchone_update_where by done; rewrite Hrow;
      cbn -[json_dumps]; rewrite String.eqb_refl; eexists; (split; [reflexivity|]); cbn; [done|]. by destruct (otruthy error). }
  unfold validate_oauth_callback, bind at 1, query, gets. rewrite Hr. apply String.eqb_neq in Hs. by rewrite Hs.
Qed.
End Gaps.

(** ** Concrete inputs *)
Module LoginDemo.
#[export] Instance runtime : Runtime :=
  {| environ k := if k =s "CAPMESH_M365_CLIENT_ID" then Some "client" else None; uuid4_hex := @uuid4_hex Demo.runtime |}.
#[export] Instance secrets : Secrets := {| token_urlsafe _ n := "secret" +:+ str_of_Z (Z.of_nat n) |}.
Definition guid : string := "01234567-89ab-cdef-0123-456789abcdef".
Definition claims : dict :=
  [("aud", JStr "client"); ("iss", JStr ("https://sts.windows.net/" +:+ guid +:+ "/"));
   ("preferred_username", JStr "Alice@Example.com"); ("tid", JStr guid)].
Definition token : string := "e30" +:+ "." +:+ unpadded (json_dumps (JObj claims)) +:+ "." +:+ "signature".
#[export] Instance jwks : Jwks := {| jwt_decode t tid iss aud := if t =s token then Ok (JObj claims) else Raise (ValueError "bad") |}.
Definition tokens : dict := [("id_token", JStr token); ("refresh_token", JStr "refresh")].
#[export] Instance provider : Provider :=
  {| exchange_authorization_code _ _ _ _ := Ok tokens; poll_device_code _ := Ok tokens |}.
Definition metadata : dict := [("codeVerifier", JStr "verifier")].
Definition row (status expires_at : string) : OAuthRow :=
  mkOAuthRow "oauth_1" "asg" "web" "state-1" (Some "challenge") (Some (hash_secret "verifier")) "https://mesh/cb" "openid"
    (Some "nonce") status (json_dumps (JObj metadata)) "2026-07-19 00:00:00" expires_at None.
Definition start (r : OAuthRow) : World := Demo.world (upd db_oauth_sessions [r] empty_db).
Definition pending : World := start (row "pending" "2026-07-20T00:10:00Z").
Definition outcome_of {A} (r : outcome A * World) : bool * nat := (is_ok r.1, length (db_capmesh_sessions (w_db r.2))).
End LoginDemo.

Section Examples.
Import LoginDemo.

(** A login that comes too late is completed all the same.  The callback of a
    session whose ten minutes are over is refused by [validate_oauth_callback],
    and so is that of a failed session; but where a client id is configured the
    server completes the login instead, which looks at neither the expiry nor
    the status of the session, and mints a bearer session. *)
Theorem late_login_completes :
  forall r, r ∈ [row "pending" "2020-01-01T00:00:00Z"; row "failed" "2026-07-20T00:10:00Z"; row "expired" "2020-01-01T00:00:00Z"] ->
  outcome_of (validate_oauth_callback "state-1" (Some "code") None (start r)) = (false, 0%nat) /\
  outcome_of (complete_oauth_callback "state-1" (Some "code") None (start r)) = (true, 1%nat).
Proof.
  intros r. rewrite !elem_of_cons, elem_of_nil. intros [-> | [-> | [-> | []]]]; split; vm_compute; reflexivity.
Qed.
End Examples.

Section Witnesses.
Import LoginDemo.

Lemma ascii_number n : ascii_str (str_of_Z n) = true.
Proof. eapply sall_impl; [|apply number_chars]. intros [[] [] [] [] [] [] [] []]; vm_compute; done. Qed.
Lemma demo_uuid_ascii n : ascii_str (uuid4_hex n) = true.
Proof. exact (ascii_number (Z.of_nat n)). Qed.
Lemma demo_secret_ascii b n : ascii_str (token_urlsafe b n) = true.
Proof. exact (ascii_number (Z.of_nat n)). Qed.

Definition completed : OAuthRow := upd oa_metadata_json (json_dumps (JObj [("capmeshBearerToken", JStr "cm_x")])) (row "completed" "2026-07-20T00:10:00Z").

Lemma tokens_delivered_once_witness : exists payload payload' w u,
  oauth_session_status "oauth_1" true (start completed) = (Ok payload, w) /\ jget "bearerToken" payload = JStr "cm_x" /\
  oauth_session_status "state-1" true w = (Ok payload', u) /\ jget "bearerToken" payload' = JNull.
Proof.
  destruct (oauth_session_status "oauth_1" true (start completed)) as [[payload|e] w] eqn:E1; [|vm_compute in E1; discriminate E1].
  destruct (oauth_session_status "oauth_1" true w) as [[payload'|e] u] eqn:E2;
    [|injection E1 as _ <-; vm_compute in E2; discriminate E2].
  destruct (oauth_session_status "state-1" true w) as [[payload2|e] u2] eqn:E3;
    [|injection E1 as _ <-; vm_compute in E3; discriminate E3].
  exists payload, payload', w, u. split; [reflexivity|].
  destruct (tokens_delivered_once "oauth_1" (start completed) payload w w true completed [("capmeshBearerToken", JStr "cm_x")] payload' u)
    as [Hb _]; [reflexivity | reflexivity | | exact E1 | reflexivity | exact E2 |].
  - split; [vm_compute; reflexivity|]. vm_compute. repeat constructor. intros Hin. by apply elem_of_nil in Hin.
  - split; [injection E1 as <- _; vm_compute; reflexivity|]. split; [|exact Hb].
    injection E1 as _ <-. rewrite <-E2. vm_compute. reflexivity.
Defined.

Lemma login_runs : is_ok (complete_oauth_session "state-1" tokens (Some "client") pending).1 = true.
Proof. vm_compute. reflexivity. Qed.

Lemma login_establishes_witness : exists d w' srow, complete_oauth_session "state-1" tokens (Some "client") pending = (Ok d, w') /\
  sessions w' = [srow] /\ ss_tenant_id srow = "asg".
Proof.
  pose proof login_runs as RUN.
  destruct (complete_oauth_session "state-1" tokens (Some "client") pending) as [[d|e] w'] eqn:E; [|discriminate RUN].
  destruct (login_establishes "state-1" tokens (Some "client") pending d w' E) as (r & cl & p & srow & tid & iss & Hr & _ & _ & _ & _ & _ & Hs & _ & Ht & Hp & _);
    [vm_compute; reflexivity|].
  exists d, w', srow. split; [reflexivity|]. split; [exact Hs|]. rewrite Ht. unfold tenant_of. rewrite Hp.
  vm_compute in Hr. injection Hr as <-. reflexivity.
Defined.

Definition mailbox : Principal := match principal_from_entra_claims claims "asg" with Ok p => p | Raise _ => Demo.alice end.

Lemma login_token_reaches_owner_witness : exists d w' payload u' tok q,
  complete_oauth_session "state-1" tokens (Some "client") pending = (Ok d, w') /\
  oauth_session_status "oauth_1" true w' = (Ok payload, u') /\ jget "bearerToken" payload = JStr tok /\
  (principal_from_bearer (Some tok) u').1 = Ok (Some q).
Proof.
  pose proof login_runs as RUN.
  destruct (complete_oauth_session "state-1" tokens (Some "client") pending) as [[d|e] w'] eqn:E; [|discriminate RUN].
  assert (w_clock w' = w_clock pending) as Hclock.
  { pose proof E as E'. apply complete_inv in E' as (? & ? & ? & ? & ? & ? & _ & _ & _ & Hres). exact (lr_clock _ _ _ _ _ _ _ _ _ _ _ Hres). }
  destruct (login_token_reaches_owner "state-1" tokens (Some "client") pending d w' (row "pending" "2026-07-20T00:10:00Z") claims mailbox metadata w')
    as (payload & u' & tok & srow & Hs & Hb & _ & _ & Hin & _ & Hq).
  - apply demo_uuid_ascii.
  - apply demo_secret_ascii.
  - constructor.
  - exact E.
  - vm_compute. reflexivity.
  - vm_compute. reflexivity.
  - split; [vm_compute; reflexivity|]. vm_compute. repeat constructor. intros Hin. by apply elem_of_nil in Hin.
  - vm_compute. reflexivity.
  - vm_compute. repeat constructor; intros Hin; repeat (apply elem_of_cons in Hin as [Hin|Hin]; [discriminate Hin|]); by apply elem_of_nil in Hin.
  - vm_compute. reflexivity.
  - vm_compute. reflexivity.
  - vm_compute. reflexivity.
  - by destruct w'.
  - rewrite Hclock. vm_compute. split; [discriminate | reflexivity].
  - rewrite Hclock.
    intros s. rewrite !elem_of_cons, elem_of_nil. intros [-> | [-> | []]]; eexists; (split; [vm_compute; reflexivity|]); vm_compute;
      (split; [split; [discriminate | reflexivity] | reflexivity]).
  - destruct (status_inv _ _ _ _ _ Hs) as (r0 & md0 & _ & _ & _ & Hcu & _).
    exists d, w', payload, u', tok. eexists. split; [reflexivity|]. split; [exact Hs|]. split; [exact Hb|].
    eapply Hq; [apply rtc_refl | vm_compute; reflexivity | |]; rewrite Hcu, Hclock; vm_compute; [split; [discriminate | reflexivity] | reflexivity].
Defined.

Lemma pkce_mismatch_accepted_witness :
  let r := upd oa_scope "code_challenge" (row "pending" "2026-07-20T00:10:00Z") in
  in_row "code_challenge" r = true /\ validate_pkce "verifier" "challenge" CODE_CHALLENGE_METHOD = Ok false /\ pkce_check r = Ok tt.
Proof.
  split; [vm_compute; reflexivity|]. split; [vm_compute; reflexivity|].
  apply (pkce_mismatch_accepted _ metadata); vm_compute; reflexivity.
Defined.

Lemma callback_taken_once_witness :
  let w' := (validate_oauth_callback "state-1" (Some "code") None pending).2 in
  validate_oauth_callback "state-1" (Some "other") None w' = (Raise (ValueError "OAuth session is not pending."), w').
Proof.
  cbv zeta. destruct (validate_oauth_callback "state-1" (Some "code") None pending) as [o w'] eqn:E. cbn [snd].
  apply (callback_taken_once "state-1" (Some "code") None pending o w' (row "pending" "2026-07-20T00:10:00Z"));
    [vm_compute; reflexivity | reflexivity | vm_compute; reflexivity | exact E | reflexivity].
Defined.
End Witnesses.
