(* ===== verification/Scim.v ===== *)
(** * SCIM provisioning ([scim.py], the SCIM handlers of [server.py])

    Users and groups of a directory as rows of the tables identities, groups
    and group_members, the SCIM resources they are shown as, and the handlers
    that bind a request to the tenant of its principal. *)

From Stdlib Require Import ZArith Ascii String Lia.
From stdpp Require Import base option list strings gmap.
From S2P Require Import Prelude Sha256 PyStr Json Clock Db Models AccessControl RegistryLog Identity Stores.
Local Open Scope string_scope.
Local Open Scope list_scope.

Definition SCIM_USER_SCHEMA : string := "urn:ietf:params:scim:schemas:core:2.0:User".
Definition SCIM_GROUP_SCHEMA : string := "urn:ietf:params:scim:schemas:core:2.0:Group".
Definition SCIM_LIST_SCHEMA : string := "urn:ietf:params:scim:api:messages:2.0:ListResponse".
Definition SCIM_ERROR_SCHEMA : string := "urn:ietf:params:scim:api:messages:2.0:Error".

(** ** Requests and resources *)
Definition list_response (resources : list json) (start_index : Z) (count : nat) (total : nat) : dict :=
  [("schemas", jstrs [SCIM_LIST_SCHEMA]); ("totalResults", JNum (Z.of_nat total)); ("startIndex", JNum start_index);
   ("itemsPerPage", JNum (Z.of_nat count)); ("Resources", JArr resources)].

Definition error (status : Z) (message : string) (scim_type : option string) : dict :=
  [("schemas", jstrs [SCIM_ERROR_SCHEMA]); ("status", JStr (str_of_Z status)); ("detail", JStr message)]
  ++ match scim_type with Some t => if truthy t then [("scimType", JStr t)] else [] | None => [] end.

Definition base_of (base_url : string) : string := rstrip_by (one_of "/") base_url.

Definition service_provider_config (base_url : string) : dict :=
  [("schemas", jstrs ["urn:ietf:params:scim:schemas:core:2.0:ServiceProviderConfig"]);
   ("documentationUri", JStr (base_of base_url +:+ "/scim/v2/ServiceProviderConfig"));
   ("patch", JObj [("supported", JBool false)]);
   ("bulk", JObj [("supported", JBool false); ("maxOperations", JNum 0); ("maxPayloadSize", JNum 0)]);
   ("filter", JObj [("supported", JBool true); ("maxResults", JNum 100)]);
   ("changePassword", JObj [("supported", JBool false)]); ("sort", JObj [("supported", JBool true)]);
   ("etag", JObj [("supported", JBool true)]);
   ("authenticationSchemes", JArr [JObj [("type", JStr "oauthbearertoken"); ("name", JStr "Bearer");
      ("description", JStr "Tailnet-scoped capmesh bearer token or OAuth access token."); ("primary", JBool true)]])].

Definition attribute (name type : string) (multi_valued required : bool) : json :=
  JObj ([("name", JStr name); ("type", JStr type)] ++ (if multi_valued then [("multiValued", JBool true)] else [])
        ++ [("required", JBool required); ("mutability", JStr "readWrite")]).
Definition schemas : dict :=
  list_response
    [JObj [("id", JStr SCIM_USER_SCHEMA); ("name", JStr "User"); ("description", JStr "Core User");
           ("attributes", JArr [attribute "userName" "string" false true; attribute "displayName" "string" false false;
                                attribute "active" "boolean" false false; attribute "emails" "complex" true false])];
     JObj [("id", JStr SCIM_GROUP_SCHEMA); ("name", JStr "Group"); ("description", JStr "Core Group");
           ("attributes", JArr [attribute "displayName" "string" false true; attribute "members" "complex" true false])]]
    1 2 2.
Definition resource_type (base_url name endpoint schema : string) : json :=
  JObj [("id", JStr name); ("name", JStr name); ("endpoint", JStr endpoint); ("schema", JStr schema);
        ("meta", JObj [("location", JStr (base_of base_url +:+ "/scim/v2/ResourceTypes/" +:+ name))])].
Definition resource_types (base_url : string) : dict :=
  list_response [resource_type base_url "User" "/Users" SCIM_USER_SCHEMA; resource_type base_url "Group" "/Groups" SCIM_GROUP_SCHEMA] 1 2 2.

(** [v.get(k)]: only a dict has it. *)
Definition get_of (v : json) (k : string) : outcome json :=
  match v with
  | JObj d => Ok (jget k d)
  | _ => Raise (OtherError ("AttributeError: '" +:+ type_name v +:+ "' object has no attribute 'get'"))
  end.

(** [payload.get(key, {}).get(field)] *)
Definition get_in (payload : dict) (key field : string) : outcome json :=
  match dget key payload with None => Ok JNull | Some v => get_of v field end.

Fixpoint marked_primary (items : list json) : outcome (option string) :=
  match items with
  | [] => Ok None
  | item :: items' =>
      let? primary := get_of item "primary" in
      let? value := get_of item "value" in
      if py_truthy primary && py_truthy value then Ok (Some (py_str value)) else marked_primary items'
  end.

Definition primary_email (payload : dict) : outcome (option string) :=
  let emails := jget "emails" payload in
  if negb (py_truthy emails) then Ok None
  else
    let? items := py_iter emails in
    let? found := marked_primary items in
    match found, items with
    | Some e, _ => Ok (Some e)
    | None, item :: _ => let? value := get_of item "value" in Ok (if py_truthy value then Some (py_str value) else None)
    | None, [] => Ok None
    end.

(** [filter_query.split(" eq ", 1)] with the quotes of the value stripped. *)
Definition parse_eq_filter (filter_query : string) : option (string * string) :=
  match find filter_query " eq " with
  | Some i => Some (strip (stake i filter_query), strip_by (ceqb quote_char) (strip (sdrop (i + 4) filter_query)))
  | None => None
  end.

Section Scim.
Context `{!Runtime}.

Definition resource_meta (kind plural id base_url created updated : string) : json :=
  JObj ([("resourceType", JStr kind); ("created", JStr created); ("lastModified", JStr updated);
         ("version", JStr ("W/" +:+ String quote_char "" +:+ updated +:+ String quote_char ""))]
        ++ (if truthy base_url then [("location", JStr (base_of base_url +:+ "/scim/v2/" +:+ plural +:+ "/" +:+ id))] else [])).

Definition user_resource (row : IdentityRow) (base_url : string) : outcome json :=
  let? emails := (if otruthy (idn_email row)
                  then Ok (JArr [JObj [("value", jopt (idn_email row)); ("primary", JBool true)]])
                  else match json_loads (Some (idn_raw_json row)) (JObj []) with
                       | JObj raw => Ok (match dget "emails" raw with Some v => v | None => JArr [] end)
                       | v => get_of v "emails"
                       end) in
  Ok (JObj [("schemas", jstrs [SCIM_USER_SCHEMA]); ("id", JStr (idn_id row)); ("externalId", jopt (idn_external_id row));
            ("userName", JStr (idn_user_name row)); ("displayName", jopt (idn_display_name row));
            ("active", JBool (negb (Z.eqb (idn_active row) 0))); ("emails", emails);
            ("meta", resource_meta "User" "Users" (idn_id row) base_url (idn_created_at row) (idn_updated_at row))]).

(** The members of a group: the join with the identities, by user name. *)
Definition group_members (group_id : string) (d : DB) : list IdentityRow :=
  sort_by (fun a b => sle (idn_user_name a) (idn_user_name b))
    (List.concat ((fun gm => fetchall (fun i => idn_id i =s gm_identity_id gm) (db_identities d))
                    <$> fetchall (fun gm => gm_group_id gm =s group_id) (db_group_members d))).

Definition group_resource (row : GroupRow) (base_url : string) (d : DB) : json :=
  let member i := JObj [("value", JStr (idn_id i)); ("display", JStr (o_or (idn_display_name i) (idn_user_name i)))] in
  JObj [("schemas", jstrs [SCIM_GROUP_SCHEMA]); ("id", JStr (gr_id row)); ("externalId", jopt (gr_external_id row));
        ("displayName", JStr (gr_display_name row)); ("members", JArr (member <$> group_members (gr_id row) d));
        ("meta", resource_meta "Group" "Groups" (gr_id row) base_url (gr_created_at row) (gr_updated_at row))].

(** [min(max(count, 1), 100)] rows from [max(start_index - 1, 0)] on. *)
Definition page {A} (start_index count : Z) (l : list A) : list A :=
  take (Z.to_nat (Z.min (Z.max count 1) 100)) (drop (Z.to_nat (Z.max (start_index - 1) 0)) l).

(** The test a filter stands for; an unknown field filters nothing. *)
Definition user_filter (filter_query : option string) (r : IdentityRow) : bool :=
  match (if otruthy filter_query then parse_eq_filter (or_else filter_query "") else None) with
  | Some (field, value) =>
      if field =s "userName" then idn_user_name r =s value
      else if field =s "externalId" then sql_eq (idn_external_id r) value else true
  | None => true
  end.
Definition group_filter (filter_query : option string) (r : GroupRow) : bool :=
  match (if otruthy filter_query then parse_eq_filter (or_else filter_query "") else None) with
  | Some (field, value) =>
      if field =s "displayName" then gr_display_name r =s value
      else if field =s "externalId" then sql_eq (gr_external_id r) value else true
  | None => true
  end.

Definition list_users (tenant_id : string) (start_index count : Z) (filter_query : option string) (base_url : string) : Op dict :=
  let! all := query (fun d => fetchall (fun r => (idn_tenant_id r =s tenant_id) && user_filter filter_query r) (db_identities d)) in
  let rows := page start_index count (sort_by (fun a b => sle (idn_user_name a) (idn_user_name b)) all) in
  let! resources := mapM (fun r => lift (user_resource r base_url)) rows in
  ret (list_response resources start_index (length rows) (length all)).

Definition get_user (user_id tenant_id base_url : string) : Op (option json) :=
  let! row := query (fun d => fetchone (fun r => (idn_id r =s user_id) && (idn_tenant_id r =s tenant_id)) (db_identities d)) in
  match row with
  | None => ret None
  | Some row => let! u := lift (user_resource row base_url) in ret (Some u)
  end.

Definition list_groups (tenant_id : string) (start_index count : Z) (filter_query : option string) (base_url : string) : Op dict :=
  let! all := query (fun d => fetchall (fun r => (gr_tenant_id r =s tenant_id) && group_filter filter_query r) (db_groups d)) in
  let rows := page start_index count (sort_by (fun a b => sle (gr_display_name a) (gr_display_name b)) all) in
  let! resources := query (fun d => (fun r => group_resource r base_url d) <$> rows) in
  ret (list_response resources start_index (length rows) (length all)).

Definition get_group (group_id tenant_id base_url : string) : Op (option json) :=
  let! row := query (fun d => fetchone (fun r => (gr_id r =s group_id) && (gr_tenant_id r =s tenant_id)) (db_groups d)) in
  match row with
  | None => ret None
  | Some row => query (fun d => Some (group_resource row base_url d))
  end.

(** ** Provisioning *)

(** INSERT ... ON CONFLICT(id) DO UPDATE on a table with two more UNIQUE
    constraints: [clash] is a violation of one of them by another row. *)
Definition upsert_keyed {R} (t : DB -> list R) {F : FieldUpdate t} (key : R -> string) (clash : R -> bool) (row : R) (update : R -> R) :
    Op unit :=
  let! rows := query t in
  if exists_where (fun r => negb (key r =s key row) && clash r) rows
  then raise (IntegrityError "UNIQUE constraint failed")
  else upsert_row t (fun r => key r =s key row) row update.

Definition sync_same (tenant_id resource_type external_id : string) (r : SyncRow) : bool :=
  (sy_tenant_id r =s tenant_id) && (sy_resource_type r =s resource_type) && (sy_external_id r =s external_id).

Definition record_sync (tenant_id resource_type external_id internal_id : string) (payload : dict) : Op unit :=
  let! version := lift (let? v := get_in payload "meta" "version" in sql_text v) in
  let! now := sql_now in
  let id := stable_id "sync" [tenant_id; resource_type; external_id] in
  let same := sync_same tenant_id resource_type external_id in
  let! rows := query db_scim_sync_state in
  if exists_where (fun r => negb (same r) && (sy_id r =s id)) rows
  then raise (IntegrityError "UNIQUE constraint failed: scim_sync_state.id")
  else upsert_row db_scim_sync_state same
    {| sy_id := id; sy_tenant_id := tenant_id; sy_resource_type := resource_type; sy_external_id := external_id;
       sy_internal_id := internal_id; sy_version := version; sy_raw_json := json_dumps (JObj payload); sy_last_seen_at := now |}
    (fun r => upd sy_internal_id internal_id (upd sy_version version (upd sy_raw_json (json_dumps (JObj payload)) (upd sy_last_seen_at now r)))).

(** [payload.get("displayName") or payload.get("name", {}).get("formatted")] *)
Definition display_of (payload : dict) : outcome (option string) :=
  let? v := (if py_truthy (jget "displayName" payload) then Ok (jget "displayName" payload) else get_in payload "name" "formatted") in
  sql_text v.

Definition scim_external_id (payload : dict) : string :=
  py_str (py_or (jget "externalId" payload) (py_or (jget "id" payload) (JStr ""))).
Definition scim_id (prefix tenant_id external_id name : string) (payload : dict) : string :=
  if py_truthy (jget "id" payload) then py_str (jget "id" payload) else stable_id prefix [tenant_id; s_or external_id name].

Definition foreign_id {R} (key tenant : R -> string) (id tenant_id : string) (rows : list R) : bool :=
  match fetchone (fun r => key r =s id) rows with Some r => negb (tenant r =s tenant_id) | None => false end.

Definition upsert_user (payload : dict) (tenant_id actor : string) : Op json :=
  let external_id := scim_external_id payload in
  let user_name := strip (str_get payload "userName" "") in
  if negb (truthy user_name) then raise (ValueError "SCIM User userName is required.")
  else
    let identity_id := scim_id "idn" tenant_id external_id user_name payload in
    let! foreign := query (fun d => foreign_id idn_id idn_tenant_id identity_id tenant_id (db_identities d)) in
    if foreign then raise (ValueError "SCIM User id belongs to a different tenant.")
    else
      let! email := lift (primary_email payload) in
      let! display := lift (display_of payload) in
      let! now := sql_now in
      let external := Some (s_or external_id identity_id) in
      let active := (if match dget "active" payload with Some v => py_truthy v | None => true end then 1 else 0)%Z in
      let raw := json_dumps (JObj payload) in
      let! _ := upsert_keyed db_identities idn_id (identity_unique_clash tenant_id user_name external)
        {| idn_id := identity_id; idn_tenant_id := tenant_id; idn_external_id := external; idn_user_name := user_name;
           idn_display_name := display; idn_email := email; idn_identity_type := "human"; idn_entra_object_id := external;
           idn_active := active; idn_raw_json := raw; idn_created_at := now; idn_updated_at := now |}
        (fun r => upd idn_external_id external (upd idn_user_name user_name (upd idn_display_name display
           (upd idn_email email (upd idn_entra_object_id external (upd idn_active active
           (upd idn_raw_json raw (upd idn_updated_at now r)))))))) in
      let! _ := record_sync tenant_id "User" (s_or external_id identity_id) identity_id payload in
      let! _ := audit_event "scim.user.upsert" actor (Some identity_id) (Some "upsert") (Some "allow") None [] tenant_id "system" in
      let! _ := commit in
      let! row := query (fun d => fetchone (fun r => idn_id r =s identity_id) (db_identities d)) in
      match row with
      | Some row => lift (user_resource row "")
      | None => raise (OtherError "TypeError: 'NoneType' object is not subscriptable")
      end.

Definition delete_user (user_id tenant_id actor : string) : Op bool :=
  let! there := query (fun d => exists_where (fun r => (idn_id r =s user_id) && (idn_tenant_id r =s tenant_id)) (db_identities d)) in
  if negb there then ret false
  else
    let! now := sql_now in
    let! _ := update_rows db_identities (fun r => idn_id r =s user_id) (fun r => upd idn_active 0%Z (upd idn_updated_at now r)) in
    let! _ := audit_event "scim.user.deactivated" actor (Some user_id) (Some "delete") (Some "allow") None [] tenant_id "system" in
    let! _ := commit in
    ret true.

(** The member ids a group payload lists, the empty ones left out. *)
Fixpoint member_values (members : list json) : outcome (list string) :=
  match members with
  | [] => Ok []
  | m :: members' =>
      let? v := get_of m "value" in
      let? rest := member_values members' in
      Ok (if py_truthy v && truthy (py_str v) then py_str v :: rest else rest)
  end.

Definition members_of (payload : dict) : outcome (list string) :=
  let members := jget "members" payload in
  if py_truthy members then let? items := py_iter members in member_values items else Ok [].

Definition known_member (tenant_id member_id : string) (d : DB) : bool :=
  match fetchone (fun r => idn_id r =s member_id) (db_identities d) with
  | Some r => idn_tenant_id r =s tenant_id
  | None => false
  end.

Definition group_unique_clash (tenant_id display_name external_id : string) (r : GroupRow) : bool :=
  (gr_tenant_id r =s tenant_id) && ((gr_display_name r =s display_name) || sql_eq (gr_external_id r) external_id).

Definition upsert_group (payload : dict) (tenant_id actor : string) : Op json :=
  let external_id := scim_external_id payload in
  let display_name := strip (str_get payload "displayName" "") in
  if negb (truthy display_name) then raise (ValueError "SCIM Group displayName is required.")
  else
    let group_id := scim_id "grp" tenant_id external_id display_name payload in
    let! foreign := query (fun d => foreign_id gr_id gr_tenant_id group_id tenant_id (db_groups d)) in
    if foreign then raise (ValueError "SCIM Group id belongs to a different tenant.")
    else
      let! member_ids := lift (members_of payload) in
      let! known := query (fun d => List.forallb (fun m => known_member tenant_id m d) member_ids) in
      if negb known then raise (ValueError "SCIM Group member must exist in the same tenant.")
      else
        let! now := sql_now in
        let external := s_or external_id group_id in
        let raw := json_dumps (JObj payload) in
        let! _ := upsert_keyed db_groups gr_id (group_unique_clash tenant_id display_name external)
          {| gr_id := group_id; gr_tenant_id := tenant_id; gr_external_id := Some external; gr_display_name := display_name;
             gr_active := 1; gr_raw_json := raw; gr_created_at := now; gr_updated_at := now |}
          (fun r => upd gr_external_id (Some external) (upd gr_display_name display_name (upd gr_active 1%Z
             (upd gr_raw_json raw (upd gr_updated_at now r))))) in
        let! _ := delete_rows db_group_members (fun m => (gm_group_id m =s group_id) && (gm_source m =s "scim")) in
        let! _ := forM member_ids (fun m => insert_or_ignore db_group_members
          (fun r => (gm_group_id r =s group_id) && (gm_identity_id r =s m)) (mkGroupMemberRow group_id m "scim")) in
        let! _ := record_sync tenant_id "Group" external group_id payload in
        let! _ := audit_event "scim.group.upsert" actor (Some group_id) (Some "upsert") (Some "allow") None [] tenant_id "system" in
        let! _ := commit in
        let! row := query (fun d => fetchone (fun r => gr_id r =s group_id) (db_groups d)) in
        match row with
        | Some row => query (group_resource row "")
        | None => raise (OtherError "TypeError: 'NoneType' object is not subscriptable")
        end.

Definition delete_group (group_id tenant_id actor : string) : Op bool :=
  let! there := query (fun d => exists_where (fun r => (gr_id r =s group_id) && (gr_tenant_id r =s tenant_id)) (db_groups d)) in
  if negb there then ret false
  else
    let! now := sql_now in
    let! _ := update_rows db_groups (fun r => gr_id r =s group_id) (fun r => upd gr_active 0%Z (upd gr_updated_at now r)) in
    let! _ := delete_rows db_group_members (fun m => gm_group_id m =s group_id) in
    let! _ := audit_event "scim.group.deactivated" actor (Some group_id) (Some "delete") (Some "allow") None [] tenant_id "system" in
    let! _ := commit in
    ret true.

(** ** The handlers of the server: a status and a body *)
Definition Response : Type := Z * json.

Definition require_scim_access (p : Principal) (write : bool) : Op bool :=
  let resource := Some ("tenant:" +:+ tenant_of p) in
  let! (allowed, _) := evaluate_access p "manage" None resource true in
  if allowed then ret true
  else if write then ret false
  else let! (audit, _) := evaluate_access p "audit" None resource true in ret audit.

Definition forbidden : Response := (403%Z, JObj (error 403 "SCIM access requires tenant manage or audit authorization." None)).
Definition not_found : Response := (404%Z, JObj (error 404 "SCIM resource not found." None)).

(** [path.rsplit("/", 1)[-1]] *)
Definition last_segment (path : string) : string := List.last (split_on "/" path) "".

(** [int(text or default)] of a query parameter. *)
Definition int_param (text : option string) (default : Z) : outcome Z :=
  match text with
  | Some t => if truthy t then match Z_of_str (strip t) with
                               | Some n => Ok n
                               | None => Raise (ValueError ("invalid literal for int() with base 10: " +:+ repr_str t))
                               end
              else Ok default
  | None => Ok default
  end.

Definition or_missing (found : option json) (message : string) : Response :=
  match found with Some v => (200%Z, v) | None => (404%Z, JObj (error 404 message None)) end.

Definition handle_scim_get (p : Principal) (path base_url : string) (start count filter_query : option string) : Op Response :=
  let! ok := require_scim_access p false in
  if negb ok then ret forbidden
  else
    let path := removeprefix path "/scim/v2" in
    let! start_index := lift (int_param start 1) in
    let! count := lift (int_param count 100) in
    if path =s "/ServiceProviderConfig" then ret (200%Z, JObj (service_provider_config base_url))
    else if path =s "/Schemas" then ret (200%Z, JObj schemas)
    else if path =s "/ResourceTypes" then ret (200%Z, JObj (resource_types base_url))
    else if path =s "/Users" then
      let! l := list_users (p_tenant_id p) start_index count filter_query base_url in ret (200%Z, JObj l)
    else if startswith path "/Users/" then
      let! u := get_user (last_segment path) (p_tenant_id p) base_url in ret (or_missing u "User not found.")
    else if path =s "/Groups" then
      let! l := list_groups (p_tenant_id p) start_index count filter_query base_url in ret (200%Z, JObj l)
    else if startswith path "/Groups/" then
      let! g := get_group (last_segment path) (p_tenant_id p) base_url in ret (or_missing g "Group not found.")
    else ret not_found.

Definition scim_path_bound_payload (path : string) (body : dict) (prefix : string) : outcome dict :=
  if negb (startswith path prefix) then Ok body
  else
    let path_id := strip_by (one_of "/") (removeprefix path prefix) in
    let supplied_id := str_get body "id" "" in
    if truthy supplied_id && negb (supplied_id =s path_id)
    then Raise (ValueError "SCIM payload id must match the resource path id.")
    else Ok (dset "id" (JStr path_id) body).

(** The member values of a list that name no identity of the tenant, by id or
    by user name. *)
Definition offending_members (members : json) (tenant_id : string) (d : DB) : list string :=
  match members with
  | JArr l =>
      List.filter (fun v => negb (exists_where (fun r => ((idn_id r =s v) || (idn_user_name r =s v)) && (idn_tenant_id r =s tenant_id))
                                    (db_identities d)))
        (List.filter truthy ((fun m => match m with JObj d => strip (str_get d "value" "") | _ => "" end) <$> l))
  | _ => []
  end.
Definition _validate_scim_members_same_tenant (members : json) (tenant_id : string) (d : DB) : bool * string :=
  match offending_members members tenant_id d with
  | [] => (true, "")
  | l => (false, "SCIM Group members must resolve to an existing identity in the same tenant: " +:+ join ", " l)
  end.

(** [except ValueError]: a 400 response. *)
Definition bad_request (m : Op Response) : Op Response :=
  try_except m (fun e => match e with ValueError _ => true | _ => false end)
    (fun e => ret (400%Z, JObj (error 400 (match e with ValueError msg => msg | _ => "" end) (Some "invalidValue")))).

Definition handle_scim_write (p : Principal) (path : string) (body : dict) : Op Response :=
  let path := removeprefix path "/scim/v2" in
  let! ok := require_scim_access p true in
  if negb ok then ret forbidden
  else if match jget "tenant" body with JNull => false | v => negb (py_str v =s p_tenant_id p) end then
    ret (403%Z, JObj (error 403
      ("SCIM write tenant is bound to the provisioning principal's tenant (" +:+ p_tenant_id p +:+ "); body tenant '"
       +:+ py_str (jget "tenant" body) +:+ "' does not match.") (Some "invalidValue")))
  else bad_request
    (if (path =s "/Users") || startswith path "/Users/" then
       let! payload := lift (scim_path_bound_payload path body "/Users/") in
       let! u := upsert_user payload (p_tenant_id p) (p_subject p) in
       ret ((if path =s "/Users" then 201 else 200)%Z, u)
     else if (path =s "/Groups") || startswith path "/Groups/" then
       let! payload := lift (scim_path_bound_payload path body "/Groups/") in
       let! (ok, reason) := query (_validate_scim_members_same_tenant (jget "members" payload) (p_tenant_id p)) in
       if negb ok then ret (400%Z, JObj (error 400 reason (Some "invalidValue")))
       else
         let! g := upsert_group payload (p_tenant_id p) (p_subject p) in
         ret ((if path =s "/Groups" then 201 else 200)%Z, g)
     else ret not_found).

Definition handle_scim_delete (p : Principal) (path : string) : Op Response :=
  let path := removeprefix path "/scim/v2" in
  let! ok := require_scim_access p true in
  if negb ok then ret forbidden
  else if startswith path "/Users/" then
    let! deleted := delete_user (last_segment path) (p_tenant_id p) (p_subject p) in
    ret ((if deleted then 204 else 404)%Z, JObj [])
  else if startswith path "/Groups/" then
    let! deleted := delete_group (last_segment path) (p_tenant_id p) (p_subject p) in
    ret ((if deleted then 204 else 404)%Z, JObj [])
  else ret not_found.
End Scim.
