(* ===== verification/ScimProps.v ===== *)
(** * Properties of SCIM provisioning

    A provisioning client stays within the tenant of its principal; what an
    upsert leaves to be found; a deactivated user is refused; and a user
    provisioned under another id cannot sign in. *)

From Stdlib Require Import ZArith Ascii String Lia.
From stdpp Require Import base option list strings gmap.
From S2P Require Import Prelude Sha256 PyStr Json Clock Db Models AccessControl AccessSpec AccessProps.
From S2P Require Import RegistryLog Superadmin Identity Stores IdentityProps Scim.
Local Open Scope string_scope.
Local Open Scope list_scope.

#[local] Opaque sha256_hex.

(** ** Confinement to a tenant *)
Section Confinement.
Context {R : Type} (key tenant : R -> string).

(** The rows of the other tenants. *)
Definition foreign (T : string) (t : list R) : list R := List.filter (fun r => negb (tenant r =s T)) t.

Lemma foreign_app T t t' : foreign T (t ++ t') = foreign T t ++ foreign T t'.
Proof. apply List.filter_app. Qed.

Lemma foreign_snoc T t r : tenant r = T -> foreign T (t ++ [r]) = foreign T t.
Proof. intros <-. rewrite foreign_app. cbn. by rewrite String.eqb_refl, List.app_nil_r. Qed.

Lemma foreign_update T p f t : (forall r, r ∈ t -> p r = true -> tenant r = T) -> (forall r, tenant (f r) = tenant r) ->
  foreign T (update_where p f t) = foreign T t.
Proof.
  intros Hp Hf. unfold foreign, update_where. induction t as [|r t IH]; [done|]. cbn.
  rewrite IH by (intros x Hx; apply Hp; by right). destruct (p r) eqn:E; [|done].
  rewrite Hf, (Hp r) by (done || left). by rewrite String.eqb_refl.
Qed.

Lemma foreign_elem T t r : r ∈ foreign T t <-> r ∈ t /\ tenant r <> T.
Proof.
  unfold foreign. rewrite list_elem_of_In, List.filter_In, <-list_elem_of_In.
  split; intros [Hr Ht]; (split; [done|]); [by apply negb_true_iff, String.eqb_neq in Ht | by apply negb_true_iff, String.eqb_neq].
Qed.

(** The rows with an id of the tenant are the tenant's. *)
Lemma own_rows T id t : NoDup (key <$> t) -> foreign_id key tenant id T t = false ->
  forall r, r ∈ t -> (key r =s id) = true -> tenant r = T.
Proof.
  intros Hnd Hf r Hr Hk. unfold foreign_id in Hf. destruct (fetchone_is_some (fun r => key r =s id) t r Hr Hk) as [r0 H0]. rewrite H0 in Hf.
  apply fetchone_some in H0 as [Hr0 Hk0]. apply negb_false_iff, String.eqb_eq in Hf. rewrite <-Hf. f_equal.
  apply (key_unique key t); [done..|]. apply String.eqb_eq in Hk, Hk0. congruence.
Qed.
End Confinement.

Section Isolation.
Context `{!Runtime}.

Definition foreign_group (T g : string) (w : World) : Prop := exists r, r ∈ db_groups (w_db w) /\ gr_id r = g /\ gr_tenant_id r <> T.
Definition members_in (g : string) (w : World) : list GroupMemberRow := fetchall (fun m => gm_group_id m =s g) (db_group_members (w_db w)).

(** Nothing of another tenant than [T] changed: users, groups, members of its
    groups, and the state of its synchronisation. *)
Record confined (T : string) (w w' : World) : Prop := {
  cf_users : foreign idn_tenant_id T (db_identities (w_db w')) = foreign idn_tenant_id T (db_identities (w_db w));
  cf_groups : foreign gr_tenant_id T (db_groups (w_db w')) = foreign gr_tenant_id T (db_groups (w_db w));
  cf_sync : foreign sy_tenant_id T (db_scim_sync_state (w_db w')) = foreign sy_tenant_id T (db_scim_sync_state (w_db w));
  cf_members g : foreign_group T g w -> members_in g w' = members_in g w
}.

#[export] Instance confined_preorder T : PreOrder (confined T).
Proof.
  split; [by split|]. intros w v u [U1 G1 S1 M1] [U2 G2 S2 M2]. split; [congruence..|]. intros g Hg.
  rewrite M2, M1; [done | done|]. destruct Hg as (r & Hr & Hk & Ht). exists r. split; [|done].
  assert (r ∈ foreign gr_tenant_id T (db_groups (w_db v))) as Hf by (rewrite G1, foreign_elem; split; [done | exact Ht]). apply foreign_elem in Hf as [Hf _]. exact Hf.
Qed.

Definition directory (w : World) : list IdentityRow * list GroupRow * list SyncRow * list GroupMemberRow :=
  (db_identities (w_db w), db_groups (w_db w), db_scim_sync_state (w_db w), db_group_members (w_db w)).

Lemma keeps_confined T {A} (m : Op A) : keeps directory m -> preserves (confined T) m.
Proof.
  intros Hk w. specialize (Hk w). unfold same, directory in Hk. injection Hk as Hu Hg Hs Hm.
  split; [by rewrite Hu | by rewrite Hg | by rewrite Hs | intros g _; unfold members_in; by rewrite Hm].
Qed.

(** A run from [w] that stays within [T]. *)
Definition stays (T : string) (w : World) {A} (m : Op A) : Prop := confined T w (m w).2.

Lemma stays_bind T w {A B} (m : Op A) (k : A -> Op B) :
  stays T w m -> (forall a w1, m w = (Ok a, w1) -> stays T w1 (k a)) -> stays T w (bind m k).
Proof.
  unfold stays, bind. intros Hm Hk. destruct (m w) as [[a|e] w1]; [|done]. etrans; [exact Hm|]. by apply Hk.
Qed.

Lemma stays_query T w {A B} (f : DB -> A) (k : A -> Op B) : stays T w (k (f (w_db w))) -> stays T w (bind (query f) k).
Proof. by intros Hk. Qed.
Lemma stays_lift T w {A B} (o : outcome A) (k : A -> Op B) : (forall a, o = Ok a -> stays T w (k a)) -> stays T w (bind (lift o) k).
Proof. unfold stays, bind, lift. destruct o as [a|e]; [intros Hk; by apply Hk | by intros _]. Qed.
Lemma stays_now T w {B} (k : string -> Op B) : stays T w (k (sql_text_now (w_clock w))) -> stays T w (bind sql_now k).
Proof. by intros Hk. Qed.
Lemma stays_raise T w {A} e : stays T w (@raise World A e).
Proof. by unfold stays. Qed.
Lemma stays_ret T w {A} (a : A) : stays T w (ret a).
Proof. by unfold stays. Qed.
Lemma stays_keep T w {A} (m : Op A) : keeps directory m -> stays T w m.
Proof. intros Hk. by apply keeps_confined. Qed.

Lemma stays_sync T w type ext int payload : stays T w (record_sync T type ext int payload).
Proof.
  unfold record_sync. apply stays_lift. intros version _. apply stays_now. apply stays_query.
  destruct (exists_where _ _); [apply stays_raise|]. unfold stays, upsert_row, set_db, modify. cbn [snd].
  destruct (exists_where (sync_same T type ext) _); split; cbn -[foreign update_where]; try done.
  - apply foreign_update; [|done]. intros r _ Hs. unfold sync_same in Hs.
    apply andb_true_iff in Hs as [[Hs _]%andb_true_iff _]. by apply String.eqb_eq.
  - by apply foreign_snoc.
Qed.

(** The end of every operation: an audit event, the commit, the answer. *)
Lemma stays_tail T w {A} ev a t ac ty (k : Op A) : keeps directory k ->
  stays T w (let! _ := audit_event ev a t ac (Some "allow") None [] T ty in let! _ := commit in k).
Proof. intros Hk. apply stays_keep. unfold keeps in *. solve_frame. Qed.

Lemma stays_upsert_users T id clash row f w {B} (k : unit -> Op B) :
  NoDup (idn_id <$> db_identities (w_db w)) -> foreign_id idn_id idn_tenant_id id T (db_identities (w_db w)) = false ->
  idn_id row = id -> idn_tenant_id row = T -> (forall r, idn_tenant_id (f r) = idn_tenant_id r) ->
  (forall w1, stays T w1 (k tt)) -> stays T w (bind (upsert_keyed db_identities idn_id clash row f) k).
Proof.
  intros Hnd Hf Hid Ht Hkeep Hk. apply stays_bind; [|intros [] w1 _; apply Hk]. unfold upsert_keyed. apply stays_query.
  destruct (exists_where _ _); [apply stays_raise|]. unfold stays, upsert_row, set_db, modify. cbn [snd]. rewrite Hid.
  destruct (exists_where (fun r => idn_id r =s id) _); split; cbn -[foreign update_where]; try done.
  - apply foreign_update; [by apply (own_rows idn_id) | done].
  - by apply foreign_snoc.
Qed.

Lemma stays_upsert_groups T id clash row f w {B} (k : unit -> Op B) :
  NoDup (gr_id <$> db_groups (w_db w)) -> foreign_id gr_id gr_tenant_id id T (db_groups (w_db w)) = false ->
  gr_id row = id -> gr_tenant_id row = T -> (forall r, gr_tenant_id (f r) = gr_tenant_id r) ->
  (forall w1, confined T w w1 -> stays T w1 (k tt)) -> stays T w (bind (upsert_keyed db_groups gr_id clash row f) k).
Proof.
  intros Hnd Hf Hid Ht Hkeep Hk. assert (stays T w (upsert_keyed db_groups gr_id clash row f)) as Hs.
  { unfold upsert_keyed. apply stays_query.
    destruct (exists_where _ _); [apply stays_raise|]. unfold stays, upsert_row, set_db, modify. cbn [snd]. rewrite Hid.
    destruct (exists_where (fun r => gr_id r =s id) _); split; cbn -[foreign update_where]; try done.
    - apply foreign_update; [by apply (own_rows gr_id) | done].
    - by apply foreign_snoc. }
  apply stays_bind; [exact Hs|]. intros [] w1 E. apply Hk. unfold stays in Hs. by rewrite E in Hs.
Qed.

(** A group of the tenant is no other tenant's, also later. *)
Lemma own_group T id w w' : NoDup (gr_id <$> db_groups (w_db w)) -> foreign_id gr_id gr_tenant_id id T (db_groups (w_db w)) = false ->
  confined T w w' -> ~ foreign_group T id w'.
Proof.
  intros Hnd Hf [_ G _ _] (r & Hr & Hid & Ht). assert (r ∈ foreign gr_tenant_id T (db_groups (w_db w'))) as Hin by (apply foreign_elem; by split).
  rewrite G in Hin. apply foreign_elem in Hin as [Hin _]. apply Ht. apply (own_rows gr_id gr_tenant_id T id _ Hnd Hf r Hin).
  by apply String.eqb_eq.
Qed.

(** A statement on the members of one group that is not another tenant's. *)
Lemma stays_members T id w (m : Op unit) : ~ foreign_group T id w ->
  (forall g, g <> id -> members_in g (m w).2 = members_in g w) ->
  (forall w, db_identities (w_db (m w).2) = db_identities (w_db w) /\ db_groups (w_db (m w).2) = db_groups (w_db w) /\
     db_scim_sync_state (w_db (m w).2) = db_scim_sync_state (w_db w)) -> stays T w m.
Proof.
  intros Hno Hm Hk. destruct (Hk w) as (Hu & Hg & Hs). split; [by rewrite Hu | by rewrite Hg | by rewrite Hs|].
  intros g Hf. apply Hm. by intros ->.
Qed.

Lemma members_delete p id g w : (forall m, p m = true -> gm_group_id m = id) -> g <> id ->
  members_in g (delete_rows db_group_members p w).2 = members_in g w.
Proof.
  intros Hp Hne. unfold members_in, delete_rows, set_db, modify, fetchall, delete_where. cbn.
  induction (db_group_members (w_db w)) as [|m t IH]; [done|]. cbn. destruct (p m) eqn:E; cbn.
  - rewrite IH, (Hp m E). apply not_eq_sym, String.eqb_neq in Hne. by rewrite Hne.
  - by rewrite IH.
Qed.

Lemma members_insert id m g w clash : g <> id ->
  members_in g (insert_or_ignore db_group_members clash (mkGroupMemberRow id m "scim") w).2 = members_in g w.
Proof.
  intros Hne. unfold members_in, insert_or_ignore, set_db, modify, fetchall. cbn. destruct (exists_where _ _); [done|].
  cbn. rewrite List.filter_app. cbn. apply not_eq_sym, String.eqb_neq in Hne. by rewrite Hne, List.app_nil_r.
Qed.

Lemma stays_replace T w w0 id members {B} (k : Op B) :
  NoDup (gr_id <$> db_groups (w_db w0)) -> foreign_id gr_id gr_tenant_id id T (db_groups (w_db w0)) = false -> confined T w0 w ->
  (forall w1, stays T w1 k) ->
  stays T w (let! _ := forM members (fun m => insert_or_ignore db_group_members
    (fun r => (gm_group_id r =s id) && (gm_identity_id r =s m)) (mkGroupMemberRow id m "scim")) in k).
Proof.
  intros Hnd Hf Hc Hk. apply stays_bind; [|intros [] w1 _; apply Hk].
  revert w Hc. induction members as [|m members IH]; intros w Hc; [apply stays_ret|]. cbn [forM].
  assert (stays T w (insert_or_ignore db_group_members (fun r => (gm_group_id r =s id) && (gm_identity_id r =s m))
    (mkGroupMemberRow id m "scim"))) as Hs.
  { apply (stays_members _ id); [by apply (own_group T id w0 w) | intros g; apply members_insert|].
    intros v. unfold insert_or_ignore, set_db, modify. cbn. by destruct (exists_where _ _). }
  apply stays_bind; [exact Hs|]. intros [] w1 E. apply IH. etrans; [exact Hc|]. unfold stays in Hs. by rewrite E in Hs.
Qed.

Lemma stays_user T w payload actor : NoDup (idn_id <$> db_identities (w_db w)) -> stays T w (upsert_user payload T actor).
Proof.
  intros Hnd. unfold upsert_user. cbv zeta. destruct (negb _); [apply stays_raise|]. apply stays_query.
  destruct (foreign_id _ _ _ _ _) eqn:Ef; [apply stays_raise|]. apply stays_lift. intros email _. apply stays_lift. intros display _.
  apply stays_now. apply (stays_upsert_users T (scim_id "idn" T (scim_external_id payload) (strip (str_get payload "userName" "")) payload)); try done.
  intros w1. apply stays_bind; [apply stays_sync|]. intros [] w2 _. apply stays_tail. unfold keeps, directory. solve_frame.
Qed.

Lemma stays_group T w payload actor : NoDup (gr_id <$> db_groups (w_db w)) -> stays T w (upsert_group payload T actor).
Proof.
  intros Hnd. unfold upsert_group. cbv zeta. destruct (negb _); [apply stays_raise|]. apply stays_query.
  set (gid := scim_id "grp" T _ _ payload). destruct (foreign_id _ _ _ _ _) eqn:Ef; [apply stays_raise|]. apply stays_lift. intros members _.
  apply stays_query. destruct (negb _); [apply stays_raise|]. apply stays_now. apply (stays_upsert_groups T gid); try done.
  intros w1 Hc1. apply stays_bind.
  - apply (stays_members _ gid); [by apply (own_group T gid w w1) | | done].
    intros g. apply members_delete. intros m [Hm _]%andb_true_iff. by apply String.eqb_eq.
  - intros [] w2 E. apply (stays_replace T w2 w gid); [done | done | |].
    + etrans; [exact Hc1|]. assert (stays T w1 (delete_rows db_group_members (fun m => (gm_group_id m =s gid) && (gm_source m =s "scim")))) as Hs.
      { apply (stays_members _ gid); [by apply (own_group T gid w w1) | | done].
        intros g. apply members_delete. intros m [Hm _]%andb_true_iff. by apply String.eqb_eq. }
      unfold stays in Hs. by rewrite E in Hs.
    + intros w3. apply stays_bind; [apply stays_sync|]. intros [] w4 _. apply stays_tail. unfold keeps, directory. solve_frame.
Qed.

Lemma there_own {R} (key tenant : R -> string) id T t :
  NoDup (key <$> t) -> exists_where (fun r => (key r =s id) && (tenant r =s T)) t = true -> foreign_id key tenant id T t = false.
Proof.
  intros Hnd (r & Hr & [Hk Ht]%andb_true_iff)%exists_where_true. unfold foreign_id.
  destruct (fetchone _ t) as [r0|] eqn:E; [|done]. apply fetchone_some in E as [Hr0 Hk0].
  assert (r0 = r) as -> by (apply (key_unique key t); [done..|]; apply String.eqb_eq in Hk, Hk0; congruence). by rewrite Ht.
Qed.

Lemma stays_delete_user T w id actor : NoDup (idn_id <$> db_identities (w_db w)) -> stays T w (delete_user id T actor).
Proof.
  intros Hnd. unfold delete_user. apply stays_query. destruct (exists_where _ _) eqn:E; [|apply stays_ret]. cbn [negb]. apply stays_now.
  apply stays_bind; [|intros [] w1 _; apply stays_tail; unfold keeps; solve_frame].
  split; try done. cbn -[foreign update_where]. apply foreign_update; [|done].
  apply (own_rows idn_id idn_tenant_id); [done|]. by apply there_own.
Qed.

Lemma stays_delete_group T w id actor : NoDup (gr_id <$> db_groups (w_db w)) -> stays T w (delete_group id T actor).
Proof.
  intros Hnd. unfold delete_group. apply stays_query. destruct (exists_where _ _) eqn:E; [|apply stays_ret]. cbn [negb]. apply stays_now.
  pose proof (there_own _ _ _ _ _ Hnd E) as Hown.
  assert (forall now, stays T w (update_rows db_groups (fun r => gr_id r =s id) (fun r => upd gr_active 0%Z (upd gr_updated_at now r)))) as Hu.
  { intros now. split; try done. cbn -[foreign update_where]. apply foreign_update; [|done]. by apply (own_rows gr_id gr_tenant_id). }
  apply stays_bind; [apply Hu|]. intros [] w1 E1. specialize (Hu (sql_text_now (w_clock w))). unfold stays in Hu. rewrite E1 in Hu. cbn [snd] in Hu.
  apply stays_bind; [|intros [] w2 _; apply stays_tail; unfold keeps; solve_frame].
  apply (stays_members _ id); [by apply (own_group T id w w1) | | done].
  intros g. apply members_delete. intros m Hm. by apply String.eqb_eq.
Qed.

(** ** The gate *)
Lemma access_keeps p right cap res audit : keeps directory (evaluate_access p right cap res audit).
Proof.
  intros w. pose proof (evaluate_undecided p right cap res audit w) as Hu. unfold same in *.
  exact (f_equal (fun u => (db_identities u.1.1.1, db_groups u.1.1.1, db_scim_sync_state u.1.1.1, db_group_members u.1.1.1)) Hu).
Qed.

Definition may_manage (w : World) (p : Principal) : Prop :=
  access (w_db w) (utc_text (w_clock w)) p "manage" None (Some ("tenant:" +:+ tenant_of p)) = Ok (true, None).

Lemma gate_keeps p write : keeps directory (require_scim_access p write).
Proof. unfold keeps, require_scim_access. solve_frame; apply access_keeps. Qed.

Lemma gate_manage p w w1 : coherent w -> require_scim_access p true w = (Ok true, w1) -> may_manage w p.
Proof.
  intros Hw E. unfold require_scim_access in E. step_ok E as [allowed why] w2 E1. destruct allowed; [|discriminate E].
  destruct (evaluate_access_spec p "manage" None (Some ("tenant:" +:+ tenant_of p)) true w Hw) as [Hres _].
  rewrite E1 in Hres. cbn [fst] in Hres. unfold may_manage. rewrite <-Hres. by apply eq_sym, access_allowed in Hres as (_ & _ & -> & _).
Qed.
End Isolation.

Section Theorems.
Context `{!Runtime}.

Lemma stays_try T w {A} (m : Op A) c h : stays T w m -> (forall e, keeps directory (h e)) -> stays T w (try_except m c h).
Proof.
  unfold stays, try_except. intros Hm Hh. destruct (m w) as [[a|e] w1]; [done|]. cbn [snd] in *. destruct (c e); [|done].
  etrans; [exact Hm | apply keeps_confined, Hh].
Qed.

Lemma stays_gate p write w (k : bool -> Op Response) :
  (forall w1, directory w1 = directory w -> stays (p_tenant_id p) w1 (k true)) -> (forall w1, stays (p_tenant_id p) w1 (k false)) ->
  stays (p_tenant_id p) w (bind (require_scim_access p write) k).
Proof.
  intros Ht Hf. apply stays_bind; [apply stays_keep, gate_keeps|]. intros b w1 E.
  apply (keeps_run _ _ _ _ _ (gate_keeps p write)) in E. destruct b; [by apply Ht | apply Hf].
Qed.

Lemma stays_write p path body w :
  NoDup (idn_id <$> db_identities (w_db w)) -> NoDup (gr_id <$> db_groups (w_db w)) ->
  stays (p_tenant_id p) w (handle_scim_write p path body).
Proof.
  intros Hu Hg. unfold handle_scim_write. cbv zeta. apply stays_gate; [|intros; apply stays_ret]. intros w1 Hd. cbn [negb].
  injection Hd as Hdu Hdg _ _. rewrite <-Hdu in Hu. rewrite <-Hdg in Hg. destruct (match jget "tenant" body with JNull => _ | _ => _ end); [apply stays_ret|].
  unfold bad_request. apply stays_try; [|by intros e w2]. destruct (_ || _).
  - apply stays_lift. intros payload _. apply stays_bind; [by apply stays_user|]. intros. apply stays_ret.
  - destruct (_ || _); [|apply stays_ret]. apply stays_lift. intros payload _. apply stays_query.
    destruct (_validate_scim_members_same_tenant _ _ _) as [ok reason]. destruct (negb ok); [apply stays_ret|].
    apply stays_bind; [by apply stays_group|]. intros. apply stays_ret.
Qed.

Lemma stays_delete p path w :
  NoDup (idn_id <$> db_identities (w_db w)) -> NoDup (gr_id <$> db_groups (w_db w)) ->
  stays (p_tenant_id p) w (handle_scim_delete p path).
Proof.
  intros Hu Hg. unfold handle_scim_delete. cbv zeta. apply stays_gate; [|intros; apply stays_ret]. intros w1 Hd. cbn [negb].
  injection Hd as Hdu Hdg _ _. rewrite <-Hdu in Hu. rewrite <-Hdg in Hg. destruct (startswith _ _).
  - apply stays_bind; [by apply stays_delete_user|]. intros. apply stays_ret.
  - destruct (startswith _ _); [|apply stays_ret]. apply stays_bind; [by apply stays_delete_group|]. intros. apply stays_ret.
Qed.

Lemma get_keeps p path base s c f : keeps directory (handle_scim_get p path base s c f).
Proof.
  unfold keeps, handle_scim_get, list_users, get_user, list_groups, get_group. solve_frame; apply gate_keeps.
Qed.

(** A refused gate changes no directory row. *)
Lemma gated p w (k : bool -> Op Response) : coherent w -> keeps directory (k false) ->
  directory (bind (require_scim_access p true) k w).2 = directory w \/ may_manage w p.
Proof.
  intros Hw Hk. unfold bind. destruct (require_scim_access p true w) as [[[]|e] w1] eqn:E.
  - right. by apply gate_manage in E.
  - left. apply (keeps_run _ _ _ _ _ (gate_keeps p true)) in E. rewrite <-E. apply Hk.
  - left. by apply (keeps_run _ _ _ _ _ (gate_keeps p true)) in E.
Qed.

(** C24: A SCIM client provisions its own tenant only.  Whatever request a principal
    sends, on any path and with any body, ids of other tenants and members
    included, no user, group, membership or synchronisation record of another
    tenant changes; a read changes nothing of the directory; and a request that
    changes anything in it has been granted the right to manage the tenant. *)
Theorem scim_stays_in_tenant p w path body base s c f :
  coherent w -> NoDup (idn_id <$> db_identities (w_db w)) -> NoDup (gr_id <$> db_groups (w_db w)) ->
  directory (handle_scim_get p path base s c f w).2 = directory w /\
  confined (p_tenant_id p) w (handle_scim_write p path body w).2 /\
  confined (p_tenant_id p) w (handle_scim_delete p path w).2 /\
  (directory (handle_scim_write p path body w).2 = directory w \/ may_manage w p) /\
  (directory (handle_scim_delete p path w).2 = directory w \/ may_manage w p).
Proof.
  intros Hw Hu Hg. split_and!.
  - apply get_keeps.
  - by apply stays_write.
  - by apply stays_delete.
  - apply gated; [done|]. by intros w1.
  - apply gated; [done|]. by intros w1.
Qed.

(** The row an upsert leaves under its id. *)
Lemma upserted_user id clash row f w w' : idn_id row = id -> (forall r, idn_id (f r) = idn_id r) ->
  upsert_keyed db_identities idn_id clash row f w = (Ok tt, w') ->
  exists r, fetchone (fun r => idn_id r =s id) (db_identities (w_db w')) = Some r /\
    (r = row \/ exists old, fetchone (fun r => idn_id r =s id) (db_identities (w_db w)) = Some old /\ r = f old).
Proof.
  intros Hid Hf E. unfold upsert_keyed in E. step_ok E as rows w1 G. injection G as <- <-.
  destruct (exists_where _ _) eqn:Ec in E; [discriminate E|]. clear Ec. injection E as <-. rewrite Hid. cbn -[fetchone exists_where update_where].
  destruct (exists_where (fun r => idn_id r =s id) (db_identities (w_db w))) eqn:Ee; cbn -[fetchone update_where].
  - rewrite fetchone_update_where by (intros; by rewrite Hf). apply exists_where_true in Ee as (r & Hr & Hk).
    destruct (fetchone_is_some (fun r => idn_id r =s id) _ r Hr Hk) as [old Ho]. rewrite Ho. cbn.
    apply fetchone_some in Ho as Ho'. destruct Ho' as [_ Hok]. rewrite Hok. eexists. split; [done|]. right. by exists old.
  - rewrite fetchone_app. assert (fetchone (fun r => idn_id r =s id) (db_identities (w_db w)) = None) as ->.
    { apply fetchone_none. by apply exists_where_false. }
    exists row. cbn. rewrite Hid, String.eqb_refl. by split; [|left].
Qed.

(** A provisioned user reads back.  After a successful upsert the identity of
    its id is in the tenant, with the user name, the external id and the
    active flag of the payload, and reading the user answers with the resource
    the upsert answered with. *)
Theorem scim_user_reads_back payload T actor w v w' :
  upsert_user payload T actor w = (Ok v, w') ->
  let id := scim_id "idn" T (scim_external_id payload) (strip (str_get payload "userName" "")) payload in
  exists r, fetchone (fun r => idn_id r =s id) (db_identities (w_db w')) = Some r /\ idn_tenant_id r = T /\
    idn_user_name r = strip (str_get payload "userName" "") /\ truthy (idn_user_name r) = true /\
    idn_external_id r = Some (s_or (scim_external_id payload) id) /\
    (idn_active r = 1%Z <-> match dget "active" payload with Some x => py_truthy x | None => true end = true) /\
    get_user id T "" w' = (Ok (Some v), w').
Proof.
  intros E id. unfold upsert_user in E. cbv zeta in E. fold id in E.
  destruct (truthy (strip _)) eqn:Hn; [|discriminate E]. cbn [negb] in E. step_ok E as fo w1 G. injection G as Hfo <-.
  destruct fo; [discriminate E|]. step_ok E as email w1 G. injection G as Hem <-. step_ok E as display w1 G. injection G as Hdi <-.
  step_ok E as now w1 G. injection G as Hnow <-. step_ok E as [] w1 G1.
  apply (upserted_user id) in G1 as (r & Hr & Hcase); [|done|done].
  step_ok E as [] w2 G2. assert (keeps (tbl db_identities) (record_sync T "User" (s_or (scim_external_id payload) id) id payload)) as Hk
    by (unfold keeps, record_sync; solve_frame).
  apply (keeps_run _ _ _ _ _ Hk) in G2. unfold tbl in G2.
  step_ok E as ev w3 G3. apply (keeps_run _ _ _ _ _ (audit_event_unlogged _ _ _ _ _ _ _ _ _)) in G3.
  pose proof (f_equal (fun u => db_identities u.1.1.1) G3) as Hi3. cbn in Hi3. step_ok E as [] w4 G4. injection G4 as <-.
  step_ok E as row w5 G5. injection G5 as <- <-. cbn [w_db upd] in E. change (w_db (upd w_disk (w_db w3) w3)) with (w_db w3) in E.
  rewrite Hi3, G2, Hr in E. injection E as Ev <-. change (w_db (upd w_disk (w_db w3) w3)) with (w_db w3). rewrite Hi3, G2.
  assert (idn_tenant_id r = T /\ idn_user_name r = strip (str_get payload "userName" "") /\
    idn_external_id r = Some (s_or (scim_external_id payload) id) /\
    idn_active r = if match dget "active" payload with Some x => py_truthy x | None => true end then 1%Z else 0%Z) as (Ht & Hnm & Hx & Ha).
  { destruct Hcase as [->|(old & Hold & ->)]; [done|]. split_and!; try done. cbn. unfold foreign_id in Hfo. rewrite Hold in Hfo.
    by apply negb_false_iff, String.eqb_eq in Hfo. }
  exists r. split_and!; [done | done | done | by rewrite Hnm | done | rewrite Ha; by destruct (match dget "active" payload with Some _ => _ | None => _ end) |].
  unfold get_user, bind at 1, query, gets. change (w_db (upd w_disk (w_db w3) w3)) with (w_db w3). rewrite Hi3, G2.
  assert (fetchone (fun r => (idn_id r =s id) && (idn_tenant_id r =s T)) (db_identities (w_db w1)) = Some r) as ->.
  { apply IdentityProps.fetchone_refine; [exact Hr | by apply String.eqb_eq]. }
  unfold bind, lift. by rewrite Ev.
Qed.

(** C25: A user SCIM deactivated is refused everything.  After a successful delete,
    a principal whose matching identity rows are just that user is denied every
    right on every capability or resource, whatever roles, shares or bearer
    token it still has. *)
Theorem deactivated_user_denied id T actor w w' q right cap res audit :
  delete_user id T actor w = (Ok true, w') -> right ∈ RIGHTS ->
  (forall r, r ∈ db_identities (w_db w) -> identity_matches q r = true -> idn_id r = id) ->
  (exists r, r ∈ db_identities (w_db w) /\ identity_matches q r = true) ->
  exists why, (evaluate_access q right cap res audit w').1 = Ok (false, Some why).
Proof.
  intros E Hright Honly [r0 [Hr0 Hm0]]. unfold delete_user in E. step_ok E as there w1 G1. injection G1 as <- <-.
  destruct (exists_where _ _); [|discriminate E]. cbn [negb] in E. step_ok E as now w1 G1. injection G1 as <- <-.
  step_ok E as [] w1 G1. injection G1 as <-. step_ok E as ev w2 G2.
  apply (keeps_run _ _ _ _ _ (audit_event_unlogged _ _ _ _ _ _ _ _ _)) in G2. step_ok E as [] w3 G3. injection G3 as <-. injection E as <-.
  assert (is_disabled (w_db w2) q = true) as Hdis.
  { pose proof (f_equal (fun u => db_identities u.1.1.1) G2) as Hi. cbn -[update_where] in Hi. unfold is_disabled.
    destruct (p_disabled q || _); [done|]. unfold newest_identity. rewrite Hi.
    set (f := fun r => upd idn_active 0%Z (upd idn_updated_at (sql_text_now (w_clock w)) r)).
    assert (forall r, r ∈ fetchall (identity_matches q) (update_where (fun r => idn_id r =s id) f (db_identities (w_db w))) -> idn_active r = 0%Z) as Hall.
    { intros r [Hm (x & Hx & ->)%elem_of_update_where]%elem_of_fetchall. destruct (idn_id x =s id) eqn:Ex; [done|].
      exfalso. apply String.eqb_neq in Ex. by apply Ex, Honly. }
    assert (f r0 ∈ fetchall (identity_matches q) (update_where (fun r => idn_id r =s id) f (db_identities (w_db w)))) as Hin.
    { apply elem_of_fetchall. split; [exact Hm0|]. apply elem_of_update_where. exists r0. split; [done|].
      by rewrite (Honly r0 Hr0 Hm0), String.eqb_refl. }
    set (rows := fetchall _ _) in *. destruct (sort_by _ rows) as [|r t] eqn:Es.
    - assert (f r0 ∈ sort_by (fun a b => sle (idn_updated_at b) (idn_updated_at a)) rows) as Hs by (by apply elem_of_sort_by).
      rewrite Es in Hs. by apply elem_of_nil in Hs.
    - cbn. rewrite (Hall r); [done|]. apply (elem_of_sort_by (fun a b => sle (idn_updated_at b) (idn_updated_at a))). rewrite Es. left. }
  exists "Principal is disabled or unauthenticated.". apply (refused_first (w_db w2) q right cap res); [|done|done].
  unfold refusal. by rewrite Hdis.
Qed.

(** A user provisioned under another id cannot sign in.  If, in a bootstrapped
    database, the tenant has an identity with the principal's subject as user
    name and no identity with the id [ensure_identity_for_principal] derives,
    as when SCIM created the user from an external id, then provisioning the
    principal at sign-in fails with an IntegrityError and writes nothing. *)
Theorem provisioned_user_cannot_sign_in p w r :
  tenant_ready DEFAULT_TENANT (w_db w) = true ->
  r ∈ db_identities (w_db w) -> idn_tenant_id r = tenant_of p -> idn_user_name r = p_subject p ->
  (forall r', r' ∈ db_identities (w_db w) -> idn_id r' <> provision_id p) ->
  ensure_identity_for_principal p w = (Raise (IntegrityError "UNIQUE constraint failed"), w).
Proof.
  intros Hready Hr Ht Hn Hno. unfold ensure_identity_for_principal. cbv zeta. unfold bind at 1, query, gets.
  assert (forall q, fetchone (fun r => (idn_id r =s provision_id p) && q r) (db_identities (w_db w)) = None) as Hnone.
  { intros q. apply fetchone_none. intros x Hx. apply Hno, String.eqb_neq in Hx. by rewrite Hx. }
  rewrite Hnone. unfold bind at 1, ensure_default_tenant. unfold bind at 1, query, gets. rewrite Hready. cbn [ret].
  unfold bind at 1, upsert_identity, bind at 1, sql_now, gets. unfold bind at 1, query, gets.
  assert (fetchone (fun r => idn_id r =s provision_id p) (db_identities (w_db w)) = None) as ->.
  { apply fetchone_none. intros x Hx. apply Hno, String.eqb_neq in Hx. by rewrite Hx. }
  unfold insert_unique, bind at 1, query, gets.
  assert (exists_where (identity_unique_clash (tenant_of p) (p_subject p) (Some (p_subject p))) (db_identities (w_db w)) = true) as ->; [|done].
  apply exists_where_true. exists r. split; [done|]. unfold identity_unique_clash. by rewrite Ht, Hn, !String.eqb_refl.
Qed.
End Theorems.

(** ** Concrete inputs *)
Module ScimDemo.
#[export] Existing Instance Demo.runtime.
(** A bootstrapped mesh with an administrator of its tenant. *)
Definition mesh : World := (ensure_default_tenant "asg" (Demo.world empty_db)).2.
Definition admin : Principal := Demo.admin.
Definition payload : dict :=
  [("externalId", JStr "ext-1"); ("userName", JStr "alice@example.com"); ("active", JBool true)].
Definition foreign_user : IdentityRow :=
  mkIdentityRow "idn_b" "other" None "bob" None None "human" None 1 "{}" "2026-07-18 00:00:00" "2026-07-18 00:00:00".
Definition shared_mesh : World := upd w_db (upd db_identities (db_identities (w_db mesh) ++ [foreign_user]) (w_db mesh)) mesh.
(** SCIM creates Alice; then she signs in. *)
Definition provisioned : World := (handle_scim_write admin "/scim/v2/Users" payload mesh).2.
Definition alice_id : string := stable_id "idn" ["asg"; "ext-1"].
End ScimDemo.

Section Witnesses.
Import ScimDemo.

Definition status_of (r : outcome Response * World) : option Z := match r.1 with Ok (s, _) => Some s | Raise _ => None end.

(** A user is created, found and deactivated; a foreign id is refused. *)
Example scim_requests :
  status_of (handle_scim_write admin "/scim/v2/Users" payload mesh) = Some 201%Z /\
  status_of (handle_scim_get admin ("/scim/v2/Users/" +:+ alice_id) "" None None None provisioned) = Some 200%Z /\
  status_of (handle_scim_delete admin ("/scim/v2/Users/" +:+ alice_id) provisioned) = Some 204%Z /\
  status_of (handle_scim_write admin "/scim/v2/Users/idn_b" payload shared_mesh) = Some 400%Z /\
  status_of (handle_scim_write Demo.alice "/scim/v2/Users" payload mesh) = Some 403%Z.
Proof. vm_compute. repeat split; reflexivity. Qed.

Lemma scim_stays_in_tenant_witness :
  foreign idn_tenant_id "asg" (db_identities (w_db (handle_scim_write admin "/scim/v2/Users/idn_b" payload shared_mesh).2)) = [foreign_user].
Proof.
  destruct (scim_stays_in_tenant admin shared_mesh "/scim/v2/Users/idn_b" payload "" None None None) as (_ & Hc & _).
  - intros s t o Ho. vm_compute in Ho. discriminate Ho.
  - apply (bool_decide_unpack (NoDup _)). vm_compute. exact I.
  - constructor.
  - destruct Hc as [Hu _ _ _]. change (p_tenant_id admin) with "asg" in Hu. rewrite Hu. vm_compute. reflexivity.
Defined.

Lemma scim_user_reads_back_witness : exists v w', upsert_user payload "asg" "root" mesh = (Ok v, w') /\ get_user alice_id "asg" "" w' = (Ok (Some v), w').
Proof.
  assert (is_ok (fst (upsert_user payload "asg" "root" mesh)) = true) as RUN by (vm_compute; reflexivity).
  destruct (upsert_user payload "asg" "root" mesh) as [[v|e] w'] eqn:E; [|discriminate RUN]. exists v, w'. split; [reflexivity|].
  destruct (scim_user_reads_back payload "asg" "root" mesh v w' E) as (r & _ & _ & _ & _ & _ & _ & Hg). exact Hg.
Defined.

Lemma deactivated_user_denied_witness :
  let w' := (delete_user alice_id "asg" "root" provisioned).2 in
  exists why, (evaluate_access (upd p_identity_id (Some alice_id) Demo.alice) "load" None None false w').1 = Ok (false, Some why).
Proof.
  cbv zeta. assert (fst (delete_user alice_id "asg" "root" provisioned) = Ok true) as RUN by (vm_compute; reflexivity).
  destruct (delete_user alice_id "asg" "root" provisioned) as [b w'] eqn:E. cbn [fst] in RUN. subst b. cbn [snd].
  apply (deactivated_user_denied alice_id "asg" "root" provisioned w').
  - exact E.
  - apply smem_In. reflexivity.
  - intros r Hr. assert (List.forallb (fun r => negb (identity_matches (upd p_identity_id (Some alice_id) Demo.alice) r) || (idn_id r =s alice_id))
      (db_identities (w_db provisioned)) = true) as Hall by (vm_compute; reflexivity).
    rewrite List.forallb_forall in Hall. apply list_elem_of_In, Hall in Hr. intros Hm. rewrite Hm in Hr. by apply String.eqb_eq.
  - apply exists_where_true. vm_compute. reflexivity.
Defined.

Lemma provisioned_user_cannot_sign_in_witness :
  ensure_identity_for_principal Demo.alice provisioned = (Raise (IntegrityError "UNIQUE constraint failed"), provisioned).
Proof.
  assert (is_Some (fetchone (fun r => idn_user_name r =s "alice@example.com") (db_identities (w_db provisioned)))) as [r Hr].
  { destruct (fetchone _ _) eqn:E; [by eexists|]. vm_compute in E. discriminate E. }
  assert (idn_tenant_id <$> fetchone (fun r => idn_user_name r =s "alice@example.com") (db_identities (w_db provisioned)) = Some "asg") as Ht
    by (vm_compute; reflexivity).
  rewrite Hr in Ht. injection Ht as Ht. apply fetchone_some in Hr as [Hin Hname].
  apply (provisioned_user_cannot_sign_in Demo.alice provisioned r).
  - vm_compute. reflexivity.
  - exact Hin.
  - exact Ht.
  - by apply String.eqb_eq.
  - intros r' Hr'. assert (List.forallb (fun r => negb (idn_id r =s provision_id Demo.alice)) (db_identities (w_db provisioned)) = true) as Hall
      by (vm_compute; reflexivity).
    rewrite List.forallb_forall in Hall. apply list_elem_of_In, Hall in Hr'. by apply String.eqb_neq, negb_true_iff.
Defined.
End Witnesses.
