(* ===== verification/Manifest.v ===== *)
(** * Discovery of capabilities in source trees ([manifest.py])

    Front matter, the attribution of a file to a package, the identity of a
    capability, the readers of the six kinds of source file, the listing of the
    files of the roots, and the merge of sources that share a canonical key. *)

From Stdlib Require Import ZArith Ascii String Lia.
From stdpp Require Import base option list strings gmap.
From S2P Require Import Prelude Sha256 PyStr Json Clock Ordering Db Models Gates Signing SourceGates InstallGuards Catalog.
Local Open Scope string_scope.
Local Open Scope list_scope.

(** ** Front matter *)
Definition colon : ascii := ":".
Definition unquote (v : string) : string := strip_by (ceqb apostrophe) (strip_by (ceqb quote_char) (strip v)).

(** The longest prefix of lines that satisfy [p], and the rest. *)
Fixpoint span_lines (p : string -> bool) (l : list string) : list string * list string :=
  match l with
  | x :: l' => if p x then let '(a, b) := span_lines p l' in (x :: a, b) else ([], l)
  | [] => ([], [])
  end.

Definition blank (line : string) : bool := negb (truthy (strip line)).

(** The loop over the lines between the two markers; a key takes at least its
    own line, so [length raw] rounds are enough ([frontmatter_fuel]). *)
Fixpoint frontmatter_loop (fuel : nat) (raw : list string) (data : dict) : dict :=
  match fuel, raw with
  | S fuel', line :: rest =>
      if blank line || startswith (lstrip_by is_space line) "#" then frontmatter_loop fuel' rest data
      else match partition colon line with
           | None => frontmatter_loop fuel' rest data
           | Some (k, v) =>
               let key := strip k in
               let value := unquote v in
               if negb (truthy value) then
                 let '(continuation, rest') := span_lines continues rest in
                 frontmatter_loop fuel' rest'
                   (dset key (JStr (match continuation with [] => "" | _ => unquote (join " " (strip <$> continuation)) end)) data)
               else if smem value ["|"; "|-"; ">"; ">-"] then
                 let '(block, rest') := span_lines (fun l => continues l || blank l) rest in
                 frontmatter_loop fuel' rest' (dset key (JStr (strip (join newline (strip <$> block)))) data)
               else if smem (lower value) ["true"; "false"]
               then frontmatter_loop fuel' rest (dset key (JBool (lower value =s "true")) data)
               else frontmatter_loop fuel' rest (dset key (JStr value) data)
           end
  | _, _ => data
  end.

(** The lines before and after the second marker. *)
Fixpoint until_marker (lines : list string) : option (list string * list string) :=
  match lines with
  | [] => None
  | line :: lines' =>
      if strip line =s "---" then Some ([], lines')
      else match until_marker lines' with Some (a, b) => Some (line :: a, b) | None => None end
  end.

Definition parse_frontmatter (text : string) : dict * string :=
  match splitlines text with
  | first :: lines =>
      if strip first =s "---"
      then match until_marker lines with
           | Some (raw, body) => (frontmatter_loop (length raw) raw [], join newline body)
           | None => ([], text)
           end
      else ([], text)
  | [] => ([], text)
  end.

(** ** Texts *)

(** The text after the last line feed of the leading blanks. *)
Fixpoint after_blank (s : string) : option string :=
  match s with
  | String c s' =>
      if is_space c
      then match after_blank s' with
           | Some r => Some r
           | None => if ceqb c (Ascii.ascii_of_nat 10) then Some s' else None
           end
      else None
  | EmptyString => None
  end.

(** [re.split(r"\n\s*\n", s)]; every round consumes a character. *)
Fixpoint blocks (fuel : nat) (s : string) : list string :=
  match fuel, s with
  | S fuel', String c s' =>
      if ceqb c (Ascii.ascii_of_nat 10)
      then match after_blank s' with
           | Some r => "" :: blocks fuel' r
           | None => cons_first c (blocks fuel' s')
           end
      else cons_first c (blocks fuel' s')
  | _, _ => [s]
  end.

Definition first_paragraph (text : string) : string :=
  let text := strip text in
  or_else (List.head (List.filter truthy
    ((fun block => strip_by (one_of " #") (collapse_ws false block)) <$> blocks (String.length text) text))) "".

(** [re.split(r"[,;\n]", raw)] *)
Fixpoint split_any (p : ascii -> bool) (s : string) : list string :=
  match s with
  | EmptyString => [""]
  | String c s' => if p c then "" :: split_any p s' else cons_first c (split_any p s')
  end.
Definition split_keywords (raw : string) : list string :=
  if truthy raw
  then List.filter truthy (strip <$> split_any (fun c => one_of ",;" c || ceqb c (Ascii.ascii_of_nat 10)) raw)
  else [].

(** [s[:n]], counting the characters of a UTF-8 text. *)
Fixpoint char_take (n : Z) (s : string) : string :=
  match s with
  | EmptyString => ""
  | String c s' =>
      if is_cont c then String c (char_take n s')
      else if Z.leb n 0 then "" else String c (char_take (n - 1) s')
  end.

(** [s.title()] *)
Definition to_upper (c : ascii) : ascii := if is_lower c then Ascii.ascii_of_nat (code c - 32) else c.
Fixpoint title_case (in_word : bool) (s : string) : string :=
  match s with
  | EmptyString => ""
  | String c s' => String (if in_word then to_lower c else to_upper c) (title_case (is_alpha c) s')
  end.

Example texts_example :
  first_paragraph ("# " +:+ newline +:+ " " +:+ newline +:+ "## Two  words" +:+ newline +:+ "more") = "Two words more"
  /\ split_keywords "a, b;;c" = ["a"; "b"; "c"] /\ title_case false "my tool2x" = "My Tool2X".
Proof. repeat split; reflexivity. Qed.

(** ** Identity *)
Definition short_hash (value : string) : string := stake 12 (sha256_hex value).

(** The address and the canonical key. *)
Definition capability_uri (cap_type : string) (plugin : option string) (name version fallback : string) : string * string :=
  let plug := slugify (o_or plugin "global") in
  let slug := slugify name in
  let version := slugify (s_or version "0.1.0") in
  if (plug =s "global") && truthy fallback
  then ("cap://asg.local/" +:+ cap_type +:+ "/" +:+ plug +:+ "." +:+ slug +:+ "-" +:+ short_hash fallback +:+ "@" +:+ version,
        cap_type +:+ ":" +:+ plug +:+ ":" +:+ slug +:+ ":" +:+ version +:+ ":" +:+ short_hash fallback)
  else ("cap://asg.local/" +:+ cap_type +:+ "/" +:+ plug +:+ "." +:+ slug +:+ "@" +:+ version,
        cap_type +:+ ":" +:+ plug +:+ ":" +:+ slug +:+ ":" +:+ version).

(** ** Paths: an absolute path is the list of its names *)
Definition PACKAGE_COMPONENT_DIRS : list string := ["skills"; "agents"; "commands"; "references"].
Definition NESTED_RUNTIME_MIRROR_DIRS : list string :=
  [".agents"; ".claude"; ".codex"; ".cursor"; ".git"; "__pycache__"; "node_modules"].

Definition name_of (p : list string) : string := List.last p "".
Definition parent (p : list string) : list string := List.removelast p.
Definition stem_of (p : list string) : string :=
  let n := name_of p in stake (String.length n - String.length (path_suffix n)) n.

(** [path.relative_to(root).parts] *)
Fixpoint strip_prefix (root p : list string) : option (list string) :=
  match root, p with
  | [], _ => Some p
  | a :: root', b :: p' => if a =s b then strip_prefix root' p' else None
  | _ :: _, [] => None
  end.
Definition relative_to (p root : list string) : outcome (list string) :=
  match strip_prefix root p with
  | Some rel => Ok rel
  | None => Raise (ValueError (repr_str (path_text p) +:+ " is not in the subpath of " +:+ repr_str (path_text root)))
  end.

Fixpoint index_of (x : string) (l : list string) : option nat :=
  match l with
  | [] => None
  | y :: l' => if y =s x then Some 0 else S <$> index_of x l'
  end.
Definition positions (markers rel : list string) : list nat := omap (fun m => index_of m rel) markers.
Definition nth_name (l : list string) (i : nat) : string := List.nth i l "".
Definition first_name (rel : list string) : option string := List.head rel.

Section Packages.
Context (is_regular_file : list string -> bool).

(** Below a [plugins] directory, a package that is the root itself is prefixed
    with its name. *)
Definition with_bundle (root package_parts : list string) : string :=
  join "-" (if (name_of (parent root) =s "plugins") && negb (name_of root =s "plugins")
            then name_of root :: package_parts else package_parts).

Definition cached_package (p rel : list string) : option string :=
  if smem (name_of p) [".mcp.json"; "cap.json"] && (3 <=? length rel)%nat then Some (nth_name rel (length rel - 3))
  else match positions PACKAGE_COMPONENT_DIRS rel with
       | i :: others =>
           let marker_index := fold_left Nat.min others i in
           if (2 <=? marker_index)%nat then Some (nth_name rel (marker_index - 2))
           else if (1 <=? marker_index)%nat then Some (nth_name rel (marker_index - 1))
           else first_name rel
       | [] => first_name rel
       end.

Definition authored_package (p root rel : list string) : option string :=
  if (name_of (parent root) =s "plugins") && is_regular_file (root ++ [".claude-plugin"; "plugin.json"]) then Some (name_of root)
  else if smem (name_of p) [".mcp.json"; "cap.json"] && (2 <=? length rel)%nat
  then Some (with_bundle root (List.removelast rel))
  else
    (* the first marker that is neither missing nor the first part *)
    match List.filter (fun i => (1 <=? i)%nat) (positions (PACKAGE_COMPONENT_DIRS ++ [".claude-plugin"]) rel) with
    | i :: _ => Some (with_bundle root (take i rel))
    | [] => first_name rel
    end.

Definition package_name_for (p root : list string) : outcome (option string) :=
  if smem "cache" root then let? rel := relative_to p root in Ok (cached_package p rel)
  else if smem "plugins" root || ((name_of root =s "asg-os-plugins") && (name_of (parent root) =s "capability-roots"))
  then let? rel := relative_to p root in Ok (authored_package p root rel)
  else
    let? owner :=
      (if name_of (parent root) =s "skill-registry" then
         let? rel := relative_to p root in
         Ok (match rel with x :: _ => if smem x PACKAGE_COMPONENT_DIRS then Some (name_of root) else None | [] => None end)
       else Ok None) in
    match owner with
    | Some o => Ok (Some o)
    | None =>
        if name_of root =s "skill-registry" then
          let? rel := relative_to p root in
          Ok (if (3 <=? length rel)%nat && smem (nth_name rel 1) PACKAGE_COMPONENT_DIRS then first_name rel else None)
        else Ok None
    end.
End Packages.

(** Up to the first marker directory, in the order of the markers. *)
Definition package_path_for (p : list string) : list string :=
  match positions (PACKAGE_COMPONENT_DIRS ++ [".claude-plugin"]) p with
  | i :: _ => take i p
  | [] => parent p
  end.

Definition source_kind_for (p : list string) : string :=
  if name_of p =s "SKILL.md" then "skill"
  else if smem "agents" p && (path_suffix (name_of p) =s ".md") then "agent"
  else if smem "commands" p && (path_suffix (name_of p) =s ".md") then "command"
  else if name_of p =s "plugin.json" then "plugin_manifest"
  else if name_of p =s ".mcp.json" then "mcp_manifest"
  else if name_of p =s "cap.json" then "cap_manifest"
  else "reference".

Definition source_system_for (s : string) : string :=
  if contains s "/GitHub/asg-os/plugins/" || contains s "/capability-roots/asg-os-plugins/" then "asg-os.plugins"
  else if contains s "/.agents/skill-registry/" then "agents.skill-registry"
  else if contains s "/.codex/plugins/cache/" then "codex.plugin-cache"
  else if contains s "/.codex/skills/" then "codex.skills"
  else if contains s "/.claude/plugins/cache/" then "claude.plugin-cache"
  else "local".

(** The authority tier of a source; its path is resolved first. *)
Definition authority_rank (source_system normalized : string) : Z :=
  if source_system =s "asg-os.plugins" then
    if contains normalized "/.codex/" || contains normalized "/.cursor/" then 250 else 500
  else if (source_system =s "codex.skills") && contains normalized "/.codex/skills/.system/" then 450
  else if source_system =s "agents.skill-registry" then 400
  else if source_system =s "codex.skills" then 300
  else if source_system =s "codex.plugin-cache" then
    if contains normalized "/.codex/plugins/cache/openai-curated-remote/" then 260
    else if contains normalized "/.codex/plugins/cache/openai-bundled/" then 250
    else if contains normalized "/.codex/plugins/cache/openai-curated/" then 220
    else 200
  else if source_system =s "claude.plugin-cache" then 100
  else 0.

(** [Capability(...)] with its defaults. *)
Definition new_capability (uri cap_type name version title description package_path entrypoint source_path source_kind
    source_system canonical_key content_hash : string) : Capability :=
  {| c_uri := uri; c_type := cap_type; c_name := name; c_version := version; c_title := title;
     c_description := description; c_package_path := package_path; c_entrypoint := entrypoint;
     c_source_path := source_path; c_source_kind := source_kind; c_source_system := source_system;
     c_canonical_key := canonical_key; c_content_hash := content_hash; c_visibility := "internal";
     c_discovery_mode := "public"; c_owner := "asg"; c_plugin := None; c_category := JNull; c_keywords := [];
     c_required_scopes := []; c_allow_groups := []; c_allow_users := []; c_risk_tier := "low"; c_mutating := false;
     c_lifecycle := "active"; c_tenant_id := "asg"; c_store_id := None; c_namespace_id := None; c_created_by := None;
     c_submitted_by := None; c_promoted_from_uri := None; c_approval_state := "published";
     c_share_state := "not_shared"; c_signature_status := "unchecked"; c_provenance_status := "unchecked";
     c_risk_review_status := "pending"; c_metadata := JObj []; c_source_commit := None; c_license := None |}.

(** ** Reading files *)
Section Files.
Context `{!Runtime, !Machine} (fs : gmap string FileNode).

(** [models.normalize_path] *)
Definition normalize_path (path : string) : string := resolve_path path.

(** [manifest.source_authority_rank] *)
Definition source_authority_rank (source_system source_path : string) : Z :=
  authority_rank source_system (normalize_path source_path).

(** The file a path leads to. *)
Definition node_at (p : list string) : option FileNode := fs !! resolve_path (path_text p).
Definition is_regular_file (p : list string) : bool := match node_at p with Some n => is_regular n | None => false end.

(** [path.read_bytes()] *)
Definition read_bytes (p : list string) : outcome string :=
  match node_at p with
  | None => Raise (OtherError ("FileNotFoundError: " +:+ os_error (path_text p)))
  | Some n =>
      match fn_kind n with
      | Directory => Raise (OtherError ("IsADirectoryError: " +:+ os_error (path_text p)))
      | _ => if fn_readable n then Ok (fn_content n) else Raise (PermissionError (os_error (path_text p)))
      end
  end.
Definition file_missing (e : exn) : bool := match e with OtherError m => startswith m "FileNotFoundError:" | _ => false end.

Definition read_text (p : list string) : outcome string :=
  let? data := read_bytes p in Ok (decode_replace (read_upto 2000000 data)).
Definition sha256_file (p : list string) : outcome string :=
  let? data := read_bytes p in Ok ("sha256:" +:+ sha256_hex data).

(** A text that is no JSON and a file that cannot be read count as an empty object. *)
Definition load_json (p : list string) : json :=
  match read_text p with Ok text => json_loads (Some text) (JObj []) | Raise _ => JObj [] end.

(** [data.get(...)] of a value that should be a dict. *)
Definition as_object (v : json) : outcome dict :=
  match v with
  | JObj d => Ok d
  | _ => Raise (OtherError ("AttributeError: '" +:+ type_name v +:+ "' object has no attribute 'get'"))
  end.

(** [str(d.get(k) or default)] *)
Definition text_of (d : dict) (k default : string) : string := py_str (py_or (jget k d) (JStr default)).
(** [tuple(str(x) for x in d.get(k, ()))] *)
Definition texts_of (d : dict) (k : string) : outcome (list json) :=
  match dget k d with
  | None => Ok []
  | Some v => let? items := py_iter v in Ok ((fun x => JStr (py_str x)) <$> items)
  end.
Definition dashes_to_title (name : string) : string := title_case false (replace_all name "-" " ").

Definition package_name (p root : list string) : outcome (option string) := package_name_for is_regular_file p root.

Definition from_cap_manifest (p root : list string) : outcome (option Capability) :=
  let data := load_json p in
  if negb (py_truthy data) then Ok None
  else
    let? data := as_object data in
    let cap_type := py_str (py_or (jget "type" data) (py_or (jget "capabilityType" data) (JStr "workflow"))) in
    let name := text_of data "name" (name_of (parent p)) in
    let version := text_of data "version" "0.1.0" in
    let? plugin := (if py_truthy (jget "plugin" data) then Ok (jget "plugin" data)
                    else let? owner := package_name p root in Ok (jopt owner)) in
    let plugin_text := if py_truthy plugin then Some (py_str plugin) else None in
    let? identity := (if py_truthy (jget "uri" data) && py_truthy (jget "canonicalKey" data) then Ok ("", "")
      else match plugin with
           | JStr _ | JNull => Ok (capability_uri cap_type plugin_text name version (path_text p))
           | v => Raise (OtherError ("AttributeError: '" +:+ type_name v +:+ "' object has no attribute 'strip'"))
           end) in
    let? content_hash := sha256_file p in
    let? keywords := texts_of data "keywords" in
    let? required_scopes := texts_of data "requiredScopes" in
    let? allow_groups := texts_of data "allowGroups" in
    let? allow_users := texts_of data "allowUsers" in
    let? c := post_init
      (upd c_visibility (text_of data "visibility" "internal")
      (upd c_discovery_mode (text_of data "discoveryMode" "public")
      (upd c_owner (text_of data "owner" "asg")
      (upd c_plugin plugin_text
      (upd c_category (jget "category" data)
      (upd c_keywords keywords
      (upd c_required_scopes required_scopes
      (upd c_allow_groups allow_groups
      (upd c_allow_users allow_users
      (upd c_risk_tier (text_of data "riskTier" "low")
      (upd c_mutating (py_truthy (jget "mutating" data))
      (upd c_metadata (JObj data)
        (new_capability (text_of data "uri" identity.1) cap_type name version (text_of data "title" name)
           (text_of data "description" "") (normalize_path (path_text (parent p))) (text_of data "entrypoint" (name_of p))
           (normalize_path (path_text p)) "cap_manifest" (source_system_for (path_text p))
           (text_of data "canonicalKey" identity.2) content_hash))))))))))))) in
    Ok (Some c).

(** What the readers of Markdown files share: the front matter, the body, the
    owning package and the identity of a capability of [cap_type]. *)
Record Source : Type := mkSource {
  so_fm : dict; so_body : string; so_name : string; so_plugin : option string; so_version : string;
  so_identity : string * string
}.
Definition read_source (cap_type default_name : string) (p root : list string) : outcome Source :=
  let? text := read_text p in
  let '(fm, body) := parse_frontmatter text in
  let name := text_of fm "name" default_name in
  let? plugin := package_name p root in
  let version := text_of fm "version" "0.1.0" in
  Ok (mkSource fm body name plugin version (capability_uri cap_type plugin name version (path_text p))).

(** The fields the three kinds have in common; descriptions are cut at 4000. *)
Definition source_capability (cap_type : string) (s : Source) (p : list string) : outcome Capability :=
  let fm := so_fm s in
  let package_path := package_path_for p in
  let? entrypoint := relative_to p package_path in
  let? content_hash := sha256_file p in
  Ok (upd c_visibility (text_of fm "visibility" "internal")
     (upd c_discovery_mode (text_of fm "discoveryMode" "public")
     (upd c_owner (text_of fm "owner" "asg")
     (upd c_plugin (so_plugin s)
        (new_capability (so_identity s).1 cap_type (so_name s) (so_version s)
           (text_of fm "title" (dashes_to_title (so_name s)))
           (char_take 4000 (text_of fm "description" (first_paragraph (so_body s))))
           (normalize_path (path_text package_path)) (join "/" entrypoint) (normalize_path (path_text p)) cap_type
           (source_system_for (path_text p)) (so_identity s).2 content_hash))))).
Definition preview (s : Source) : json :=
  JObj [("frontmatter", JObj (so_fm s)); ("bodyPreview", JStr (char_take 2000 (so_body s)))].
Definition keywords_of (fm : dict) (k : string) : list json := JStr <$> split_keywords (text_of fm k "").

Definition from_skill (p root : list string) : outcome Capability :=
  let? s := read_source "skill" (name_of (parent p)) p root in
  let? c := source_capability "skill" s p in
  post_init
    (upd c_category (jget "category" (so_fm s))
    (upd c_keywords (keywords_of (so_fm s) "keywords")
    (upd c_required_scopes (keywords_of (so_fm s) "requiredScopes")
    (upd c_metadata (preview s) c)))).

Definition from_agent (p root : list string) : outcome Capability :=
  let? s := read_source "agent" (stem_of p) p root in
  let? c := source_capability "agent" s p in
  post_init
    (upd c_category (jget "category" (so_fm s))
    (upd c_keywords (keywords_of (so_fm s) "keywords")
    (upd c_required_scopes (keywords_of (so_fm s) "requiredScopes")
    (upd c_risk_tier (text_of (so_fm s) "riskTier" "medium")
    (upd c_metadata (preview s) c))))).

Definition from_command (p root : list string) : outcome Capability :=
  let? s := read_source "command" (stem_of p) p root in
  let? c := source_capability "command" s p in
  post_init (upd c_risk_tier "medium" (upd c_metadata (preview s) c)).

Definition from_plugin_manifest (p root : list string) : outcome Capability :=
  let data := load_json p in
  let? owner := package_name p root in
  let plugin := o_or owner (name_of (parent (parent p))) in
  let? data := as_object data in
  let name := text_of data "name" plugin in
  let version := text_of data "version" "0.1.0" in
  let identity := capability_uri "plugin" (Some plugin) name version (path_text p) in
  let package_path := package_path_for p in
  let? entrypoint := relative_to p package_path in
  let? content_hash := sha256_file p in
  let? keywords := texts_of data "keywords" in
  post_init
    (upd c_visibility (text_of data "visibility" "internal")
    (upd c_discovery_mode (text_of data "discoveryMode" "public")
    (upd c_owner (text_of data "author" "asg")
    (upd c_plugin (Some plugin)
    (upd c_keywords keywords
    (upd c_metadata (JObj data)
      (new_capability identity.1 "plugin" name version
         (py_str (py_or (jget "displayName" data) (py_or (jget "title" data) (JStr (dashes_to_title name)))))
         (text_of data "description" "") (normalize_path (path_text package_path)) (join "/" entrypoint)
         (normalize_path (path_text p)) "plugin_manifest" (source_system_for (path_text p)) identity.2 content_hash))))))).

Definition from_mcp_manifest (p root : list string) : outcome Capability :=
  let data := load_json p in
  let? owner := package_name p root in
  let plugin := o_or owner (name_of (parent p)) in
  let? data := as_object data in
  let name := text_of data "name" (plugin +:+ "-mcp") in
  let version := text_of data "version" "0.1.0" in
  let identity := capability_uri "mcp_server" (Some plugin) name version (path_text p) in
  let package_path := package_path_for p in
  let? entrypoint := relative_to p package_path in
  let? content_hash := sha256_file p in
  post_init
    (upd c_visibility "protected"
    (upd c_discovery_mode "locked"
    (upd c_owner "asg"
    (upd c_plugin (Some plugin)
    (upd c_risk_tier "high"
    (upd c_metadata (JObj data)
      (new_capability identity.1 "mcp_server" name version (dashes_to_title name)
         "MCP server manifest packaged with plugin." (normalize_path (path_text package_path)) (join "/" entrypoint)
         (normalize_path (path_text p)) "mcp_manifest" (source_system_for (path_text p)) identity.2 content_hash))))))).

(** ** The files of the roots *)

(** A pattern [**/dir/name] of the listing. *)
Definition SOURCE_PATTERNS : list (option string * (string -> bool)) :=
  [(None, String.eqb "cap.json"); (None, String.eqb "SKILL.md"); (Some "agents", fun n => endswith n ".md");
   (Some "commands", fun n => endswith n ".md"); (Some ".claude-plugin", String.eqb "plugin.json");
   (None, String.eqb ".mcp.json")].
Definition matches (pattern : option string * (string -> bool)) (rel : list string) : bool :=
  negb (bool_decide (rel = [])) && pattern.2 (name_of rel)
  && match pattern.1 with Some d => name_of (parent rel) =s d | None => true end.

Definition path_exists (p : list string) : bool := is_some (node_at p) || InstallGuards.is_dir fs (parts (resolve_path (path_text p))).

(** [root.glob(pattern)] of a resolved root, in the order of the names. *)
Definition glob (root : list string) (pattern : option string * (string -> bool)) : list (list string) :=
  List.map (app root)
    (List.filter (matches pattern) (omap (fun k => strip_prefix root (parts k)) (sorted_strings (map_to_list fs).*1))).

(** What the listing takes of a path below a root. *)
Definition listed (root p : list string) : bool :=
  is_regular_file p
  && match strip_prefix root p with
     | Some rel => negb (List.existsb (fun part => smem part NESTED_RUNTIME_MIRROR_DIRS) (List.removelast rel))
     | None => false
     end
  && negb (startswith (name_of p) "." && negb (name_of p =s ".mcp.json")).

(** One file per resolved path, the first that leads to it. *)
Definition keep_new (seen : list string * list (list string)) (p : list string) : list string * list (list string) :=
  let norm := normalize_path (path_text p) in
  if smem norm seen.1 then seen else (norm :: seen.1, seen.2 ++ [p]).

Definition by_text (a b : list string) : bool := sle (path_text a) (path_text b).
Definition source_files (roots : list (list string)) : list (list string) :=
  let candidates := List.concat ((fun root =>
    if path_exists root
    then List.concat ((fun pattern => List.filter (listed root) (glob root pattern)) <$> SOURCE_PATTERNS)
    else []) <$> roots) in
  sort_by by_text (fold_left keep_new candidates ([], [])).2.

(** ** Duplicate canonical keys *)
Definition strict_collisions : bool := smem (lower (strip (getenv "CAPMESH_STRICT_COLLISIONS" ""))) ["1"; "true"; "yes"].

Definition rank_of (c : Capability) : Z := source_authority_rank (c_source_system c) (c_source_path c).
(** The order of the sources of one key: authority first. *)
Definition rank_compare : Capability -> Capability -> comparison :=
  fun a b => prod_compare Z.compare (prod_compare String.compare String.compare)
    (- rank_of a, (c_source_system a, normalize_path (c_source_path a)))%Z
    (- rank_of b, (c_source_system b, normalize_path (c_source_path b)))%Z.

(** A provenance record: path, kind, system and content. *)
Definition provenance_compare : list string -> list string -> comparison := list_compare String.compare.
Definition provenance_of (c : Capability) : list string :=
  [normalize_path (c_source_path c); c_source_kind c; c_source_system c; c_content_hash c].
Definition provenance_json (item : list string) : json :=
  JObj [("sourcePath", JStr (nth_name item 0)); ("sourceKind", JStr (nth_name item 1));
        ("sourceSystem", JStr (nth_name item 2)); ("contentHash", JStr (nth_name item 3))].

(** The paths of the best sources, when these differ in content. *)
Definition ambiguous (top_rank : Z) (ranked : list Capability) : list string :=
  let top := List.filter (fun c => Z.eqb (rank_of c) top_rank) ranked in
  if (1 <? length (sorted_set String.compare (c_content_hash <$> top)))%nat
  then sorted_strings ((fun c => normalize_path (c_source_path c)) <$> top) else [].

(** The metadata of the winner, with the provenance of all and the conflicts. *)
Definition merged_metadata (winner : Capability) (provenance : list (list string)) (ambiguous_sources : list string)
    (collision_key : string) : dict :=
  let selected := [("selectedSourcePath", JStr (normalize_path (c_source_path winner)));
                   ("selectedSourceSystem", JStr (c_source_system winner)); ("rank", JNum (rank_of winner))] in
  let metadata := dset "sourceProvenance" (JArr (provenance_json <$> provenance))
    (dset "sourcePaths" (jstrs (sorted_set String.compare ((fun item => nth_name item 0) <$> provenance)))
       (match c_metadata winner with JObj d => d | _ => [] end)) in
  let conflicts := List.filter (fun item => negb (nth_name item 3 =s c_content_hash winner)) provenance in
  let metadata := match conflicts with
    | [] => metadata
    | _ => dset "sourceAuthority" (JObj selected)
             (dset "sourceConflicts" (JArr (provenance_json <$> conflicts)) (dset "staleMirrorDetected" (JBool true) metadata))
    end in
  match ambiguous_sources with
  | [] => metadata
  | _ => dset "sourceAuthority" (JObj (selected ++ [("resolvedBy", JStr "deterministic-tiebreak")]))
           (dset "ambiguousSources" (jstrs ambiguous_sources) (dset collision_key (JBool true) metadata))
  end.

(** The sources of one canonical key. *)
Definition merge_key (canonical_key : string) (caps : list Capability) : outcome (list Capability) :=
  match sort_by (le_by rank_compare) caps with
  | [] => Ok []
  | preferred :: _ as ranked =>
      let ambiguous_sources := ambiguous (rank_of preferred) ranked in
      if negb (bool_decide (ambiguous_sources = [])) && strict_collisions
      then Raise (ValueError ("capmesh: ambiguous canonical-key collision for " +:+ canonical_key +:+
        ": equal-authority sources contain different content: " +:+ py_repr (jstrs ambiguous_sources) +:+
        "; selected " +:+ normalize_path (c_source_path preferred) +:+
        " deterministically. Recorded as ambiguousAuthorityCollision in capability metadata."))
      else
        let? c := post_init (upd c_metadata (JObj (merged_metadata preferred
                    (sorted_set provenance_compare (provenance_of <$> caps)) ambiguous_sources "ambiguousAuthorityCollision"))
                    preferred) in
        Ok [c]
  end.

Fixpoint merge_keys (groups : list (string * list Capability)) : outcome (list Capability) :=
  match groups with
  | [] => Ok []
  | (canonical_key, caps) :: groups' =>
      let? c := merge_key canonical_key caps in
      let? rest := merge_keys groups' in
      Ok (c ++ rest)
  end.

Definition uri_compare : Capability -> Capability -> comparison := fun a b => String.compare (c_uri a) (c_uri b).
Definition merge_duplicate_capabilities (capabilities : list Capability) : outcome (list Capability) :=
  let? merged := merge_keys (group_by c_canonical_key id capabilities) in
  Ok (sort_by (le_by uri_compare) merged).

(** ** Discovery *)
Definition read_capability (p root : list string) : outcome (option Capability) :=
  let one (m : outcome Capability) := let? c := m in Ok (Some c) in
  let markdown := path_suffix (name_of p) =s ".md" in
  if name_of p =s "cap.json" then from_cap_manifest p root
  else if name_of p =s "SKILL.md" then one (from_skill p root)
  else if smem "agents" p && markdown then one (from_agent p root)
  else if smem "commands" p && markdown then one (from_command p root)
  else if (name_of p =s "plugin.json") && smem ".claude-plugin" p then one (from_plugin_manifest p root)
  else if name_of p =s ".mcp.json" then one (from_mcp_manifest p root)
  else Ok None.

(** A file whose reader fails becomes a locked reference that says why. *)
Definition unparsed (p : list string) (e : exn) : outcome Capability :=
  let identity := capability_uri "reference" None (stem_of p) "0.1.0" (path_text p) in
  let? content_hash := sha256_file p in
  post_init (upd c_discovery_mode "locked" (upd c_metadata (JObj [("parseError", JStr (exn_str e))])
    (new_capability identity.1 "reference" (stem_of p) "0.1.0" (stem_of p)
       ("Failed to parse as structured capability: " +:+ exn_str e) (normalize_path (path_text (parent p))) (name_of p)
       (normalize_path (path_text p)) (source_kind_for p) (source_system_for (path_text p)) identity.2 content_hash))).

Definition discover_file (root_paths : list (list string)) (p : list string) : outcome (list Capability) :=
  if negb (path_exists p) then Ok []
  else
    let root := or_else (List.find (fun r => contains_path r p) root_paths) (parent p) in
    match read_capability p root with
    | Ok (Some c) => Ok [c]
    | Ok None => Ok []
    | Raise e =>
        if file_missing e || negb (path_exists p) then Ok [] else let? c := unparsed p e in Ok [c]
    end.

Fixpoint discover_files (root_paths files : list (list string)) : outcome (list Capability) :=
  match files with
  | [] => Ok []
  | p :: files' =>
      let? c := discover_file root_paths p in
      let? rest := discover_files root_paths files' in
      Ok (c ++ rest)
  end.

Definition discover_capabilities (roots : list string) : outcome (list Capability) :=
  let root_paths := List.filter path_exists ((fun x => parts (resolve_path x)) <$> roots) in
  let? capabilities := discover_files root_paths (source_files root_paths) in
  merge_duplicate_capabilities capabilities.
End Files.
