(* ===== verification/VaultPlacement.v ===== *)
(** * Vault placement ([vault_placement.py], [governance.load_vault_placement_index])

    The manifest that files capabilities into the organization or the all-user
    namespace: its index, the key a capability is matched by, the collision
    guard, and the placement itself. *)

From Stdlib Require Import ZArith Ascii String Lia.
From stdpp Require Import base option list strings gmap.
From S2P Require Import Prelude PyStr Json Clock Db Models AccessControl RegistryLog Signing SourceGates Superadmin Identity.
From S2P Require Import Gates Manifest.
Local Open Scope string_scope.
Local Open Scope list_scope.

(** ** Keys *)
Definition _manifest_uri_tail (uri : string) : string :=
  match find uri "/shared/" with
  | Some i => sdrop (i + String.length "/shared/") uri
  | None =>
      match find uri "/everyone/" with
      | Some i => sdrop (i + String.length "/everyone/") uri
      | None => let parts := split_on "/" uri in
                if (2 <=? length parts)%nat then join "/" (drop (length parts - 2) parts) else uri
      end
  end.

(** [re.sub(r"^[^.@/]+\.", "", rest, count=1)] *)
Fixpoint after_segment (s : string) : option string :=
  match s with
  | EmptyString => None
  | String c s' => if ceqb c "." then Some s' else if one_of "@/" c then None else after_segment s'
  end.
Definition drop_segment (s : string) : string :=
  if startswith s "." then s else or_else (after_segment s) s.

Definition _vault_match_key (tail : string) : string :=
  match partition "/" tail with
  | Some (typ, rest) => typ +:+ "/" +:+ drop_segment rest
  | None => tail
  end.

Example match_key_example :
  _vault_match_key (_manifest_uri_tail "cap://org/asg/shared/agent/global.foo.bar@0.1.0") = "agent/foo.bar@0.1.0"
  /\ _vault_match_key "agent/foo@0.1.0" = "agent/foo@0.1.0" /\ _manifest_uri_tail "a/b/c" = "b/c".
Proof. repeat split; reflexivity. Qed.

(** ** The index of the manifest *)
Definition VaultIndex : Type := gmap string string.

Fixpoint index_entries (entries : list json) (index : VaultIndex) : outcome VaultIndex :=
  match entries with
  | [] => Ok index
  | e :: entries' =>
      let? entry := as_object e in
      let uri := text_of entry "uri" "" in
      let vault := text_of entry "vault" "" in
      index_entries entries'
        (if negb (truthy uri) || negb (smem vault ["org"; "all"]) then index
         else <[_vault_match_key (_manifest_uri_tail uri) := vault]> index)
  end.

(** The bytes of the manifest file; an absent, unreadable or malformed file
    gives the empty index. *)
Definition load_vault_placement_index (file : option FileNode) : outcome VaultIndex :=
  match file with
  | None => Ok ∅
  | Some n =>
      if negb (fn_readable n) || negb (is_regular n) then Ok ∅
      else if negb (decode_replace (fn_content n) =s fn_content n)
      then Raise (ValueError "'utf-8' codec can't decode bytes")
      else match json_parse (fn_content n) with
           | None => Ok ∅
           | Some v =>
               let? data := as_object v in
               let? entries := (match dget "placements" data with Some l => py_iter l | None => Ok [] end) in
               index_entries entries ∅
           end
  end.

Section Placement.
Context `{!Runtime}.

(** A different capability that already holds the key in the target namespace. *)
Definition _vault_placement_collision (d : DB) (c : Capability) (match_key target_namespace_id tenant_id : string) :
    option (string * string) :=
  (fun r => (cp_uri r, cp_content_hash r)) <$>
    fetchone (fun r => (cp_tenant_id r =s tenant_id) && sql_eq (cp_namespace_id r) target_namespace_id
                       && negb (cp_content_hash r =s c_content_hash c)
                       && (_vault_match_key (_manifest_uri_tail (cp_uri r)) =s match_key)) (db_capabilities d).

Definition is_draft (c : Capability) : bool := (c_approval_state c =s "draft") || (c_lifecycle c =s "draft").

(** The vault the manifest names for a capability. *)
Definition vault_of (c : Capability) (index : VaultIndex) : option string :=
  if bool_decide (index = ∅) then None
  else if (c_source_kind c =s "system_capability") || startswith (c_uri c) "cap://system/" then None
  else match index !! _vault_match_key (capability_canonical_tail c) with
       | Some vault => if smem vault ["org"; "all"] then Some vault else None
       | None => None
       end.

(** A draft that the risk policy keeps out of the all-user vault. *)
Definition risk_refused (c : Capability) (vault : string) : bool :=
  is_draft c && (vault =s "all") && negb (evaluate_risk_tier_policy (s_or (c_risk_tier c) "unknown") vault (c_visibility c)).1.

(** The capability at its place; only a draft keeps its states. *)
Definition placed_at (c : Capability) (vault tenant_id store ns uri : string) : outcome Capability :=
  let private_uri := user_namespace_capability_uri c in
  let metadata := dset "vaultPlacement" (JStr vault)
    (dsetdefault "originalOwner" (JStr (c_owner c)) (dsetdefault "originalUri" (JStr private_uri) (metadata_dict c))) in
  let placed :=
    upd c_uri uri
    (upd c_tenant_id tenant_id
    (upd c_store_id (Some store)
    (upd c_namespace_id (Some ns)
    (upd c_visibility "internal"
    (upd c_discovery_mode "public"
    (upd c_owner "asg-platform"
    (upd c_created_by (Some (o_or (c_created_by c) DEFAULT_USER_SUBJECT))
    (upd c_promoted_from_uri (Some (o_or (c_promoted_from_uri c) private_uri))
    (upd c_metadata (JObj metadata) c))))))))) in
  post_init (if is_draft c then placed
             else upd c_approval_state "approved" (upd c_share_state "shared" (upd c_lifecycle "published" placed))).

Definition apply_vault_placement (c : Capability) (index : VaultIndex) : Op (option Capability) :=
  match vault_of c index with
  | None => ret None
  | Some vault =>
      if risk_refused c vault then ret None
      else
        let tenant_id := cap_tenant_of c in
        let tail := capability_canonical_tail c in
        let! (store, ns, uri) :=
          (if vault =s "org" then
             let! _ := ensure_org_shared_namespace tenant_id in
             ret (org_store_id_of tenant_id, org_shared_namespace_id tenant_id,
                  org_shared_namespace_prefix tenant_id +:+ "/" +:+ tail)
           else
             let! _ := ensure_all_users_namespace tenant_id in
             ret (all_users_store_id tenant_id, all_users_namespace_id tenant_id,
                  all_users_namespace_prefix tenant_id +:+ "/" +:+ tail)) in
        let match_key := _vault_match_key tail in
        let! colliding := query (fun d => _vault_placement_collision d c match_key ns tenant_id) in
        match colliding with
        | Some (existing_uri, existing_hash) =>
            let! _ := audit_event "vault_placement.collision" "capmesh-system" (Some (c_uri c)) (Some "place") (Some "deny")
              (Some "vault placement refused: canonical_key already held by a distinct capability")
              [("incomingUri", JStr (c_uri c)); ("incomingContentHash", JStr (c_content_hash c));
               ("existingUri", JStr existing_uri); ("existingContentHash", JStr existing_hash);
               ("canonicalKey", JStr match_key); ("targetNamespace", JStr ns); ("vault", JStr vault)] tenant_id "service" in
            ret None
        | None =>
            let! placed := lift (placed_at c vault tenant_id store ns uri) in
            ret (Some placed)
        end
  end.
End Placement.
