(* ===== verification/InstallPolicy.v ===== *)
(** * The install policy of the catalog ([install_policy.py])

    The two guards every discovered capability passes before it is indexed: its
    body is a file under a configured root, and it is no second registration of
    a capability from another root of the same or a higher authority. *)

From Stdlib Require Import ZArith Ascii String Lia.
From stdpp Require Import base option list strings gmap.
From S2P Require Import Prelude PyStr Json Clock Ordering Db Models Signing SourceGates InstallGuards Manifest.
Local Open Scope string_scope.
Local Open Scope list_scope.

(** ** [os.path.expandvars] *)
Definition word_char (c : ascii) : bool := is_alnum c || ceqb c "_".

(** A variable reference after a dollar sign: its text, its name, the rest. *)
Definition variable_at (s : string) : option (string * string * string) :=
  if startswith s "{"
  then match partition "}" (sdrop 1 s) with
       | Some (name, rest) => Some ("{" +:+ name +:+ "}", name, rest)
       | None => None
       end
  else let '(name, rest) := span word_char s in
       if truthy name then Some (name, name, rest) else None.

Section Policy.
Context `{!Runtime, !Machine} (fs : gmap string FileNode).

(** Every round consumes a character. *)
Fixpoint expand_loop (fuel : nat) (s : string) : string :=
  match fuel, s with
  | S fuel', String c s' =>
      if ceqb c "$"
      then match variable_at s' with
           | Some (raw, name, rest) =>
               match environ name with Some v => v | None => "$" +:+ raw end +:+ expand_loop fuel' rest
           | None => String c (expand_loop fuel' s')
           end
      else String c (expand_loop fuel' s')
  | _, _ => s
  end.
Definition expandvars (s : string) : string := expand_loop (String.length s) s.

Definition _normalized (path : string) : string := resolve_path (expandvars path).

(** [Path(a) / b] *)
Definition path_div (a b : string) : string := if absolute b || negb (truthy a) then b else a +:+ "/" +:+ b.

Definition _CAPABILITY_ROOTS_SEGMENT : string := "capability-roots".

(** The names from the last such segment on, when there is one. *)
Fixpoint from_last_segment (p : list string) : option (list string) :=
  match p with
  | [] => None
  | x :: p' => match from_last_segment p' with
               | Some q => Some q
               | None => if x =s _CAPABILITY_ROOTS_SEGMENT then Some p else None
               end
  end.

Definition _release_invariant (path : string) : string :=
  let resolved := _normalized path in
  match from_last_segment (parts resolved) with Some q => join "/" q | None => resolved end.

Definition _is_authority_managed_anchor (path : string) : bool :=
  let p := parts (_normalized path) in
  ((name_of p =s "sha256") && (name_of (parent p) =s "content")) || ((name_of p =s "capmesh") && smem "releases" p).

Definition _containing_root (package_path : string) (roots : list string) : option string :=
  let target := parts (_normalized package_path) in
  List.find (fun candidate => contains_path (parts candidate) target) (_normalized <$> roots).

Definition assert_body_resolvable (package_path entrypoint : string) (roots : list string) : outcome string :=
  match roots with
  | [] => Raise (InstallPolicyError ("no capability roots are configured; refusing to admit " +:+ _normalized package_path
            +:+ " because no root could ever serve it"))
  | _ =>
      if smem ".." (parts entrypoint)
      then Raise (InstallPolicyError ("capability entrypoint " +:+ repr_str entrypoint
             +:+ " traverses upward out of its package (" +:+ _normalized package_path +:+ "); refusing to admit it"))
      else
        let body := _normalized (path_div package_path entrypoint) in
        match _containing_root body roots with
        | None => Raise (InstallPolicyError ("capability body " +:+ body
            +:+ " is outside every configured capability root; configured roots are: " +:+ join ", " (_normalized <$> roots)
            +:+ ". Only content under a materialized root can be served by the authority, so admitting this row would"
            +:+ " register an unservable capability."))
        | Some root =>
            if negb (match fs !! body with Some n => is_regular n | None => false end)
            then Raise (InstallPolicyError ("capability body is missing: " +:+ body +:+ " does not exist under capability root "
                   +:+ root +:+ " (package path " +:+ _normalized package_path +:+ ", entrypoint " +:+ repr_str entrypoint
                   +:+ "); refusing to register a capability the authority cannot serve"))
            else Ok root
        end
  end.

Definition _authority_rank (path : string) : Z :=
  let resolved := _normalized path in source_authority_rank (source_system_for resolved) resolved.

(** A registered capability: plugin, name, package path, address. *)
Record Registered : Type := mkRegistered {
  rg_plugin : option string; rg_name : string; rg_package_path : string; rg_uri : string
}.

(** What one registered row says of an incoming copy. *)
Definition check_row (plugin : option string) (name package_path uri : string) (row : Registered) : outcome unit :=
  if negb ((o_or (rg_plugin row) "" =s o_or plugin "") && (rg_name row =s name)) then Ok tt
  else if _is_authority_managed_anchor (rg_package_path row) then Ok tt
  else
    let incoming_root := _release_invariant package_path in
    let existing_root := _release_invariant (rg_package_path row) in
    if existing_root =s incoming_root then Ok tt
    else
      let incoming_rank := _authority_rank package_path in
      let existing_rank := _authority_rank (rg_package_path row) in
      if Z.ltb existing_rank incoming_rank then Ok tt
      else if Z.ltb incoming_rank existing_rank
      then Raise (SupersededCapability ("capability " +:+ o_or plugin "<none>" +:+ "/" +:+ name +:+ " from "
             +:+ _normalized package_path +:+ " is superseded by the higher-authority copy already registered as "
             +:+ s_or (rg_uri row) "<unknown uri>" +:+ " from " +:+ existing_root +:+ "; skipping the lower-authority copy"))
      else Raise (InstallPolicyError ("duplicate capability registration refused: plugin=" +:+ o_or plugin "<none>"
             +:+ " name=" +:+ name +:+ " is already registered as " +:+ s_or (rg_uri row) "<unknown uri>"
             +:+ " from package root " +:+ existing_root +:+ ", and the incoming copy " +:+ s_or uri "<unknown uri>"
             +:+ " comes from " +:+ incoming_root +:+ ". Two roots for one capability produce split versions and unservable "
             +:+ "rows; choose which root is canonical and remove the other.")).

Fixpoint assert_not_duplicate (plugin : option string) (name package_path uri : string) (existing_rows : list Registered) :
    outcome unit :=
  match existing_rows with
  | [] => Ok tt
  | row :: rows => let? _ := check_row plugin name package_path uri row in assert_not_duplicate plugin name package_path uri rows
  end.
End Policy.
