(* ===== verification/CatalogWrites.v ===== *)
(** * Writing the catalog ([index.py])

    The upsert of a capability with its CASE columns and its suppression of
    rewrites that change nothing, the rows of its sources, the search index,
    and the move of a capability to another address. *)

From Stdlib Require Import ZArith Ascii String Lia.
From stdpp Require Import base option list strings gmap.
From S2P Require Import Prelude PyStr Json Clock Ordering Db Models AccessControl Signing Superadmin Identity Manifest Lifecycle.
Local Open Scope string_scope.
Local Open Scope list_scope.

(** ** The row of a capability *)

(** The values bound by the INSERT; a value SQLite cannot bind raises. *)
Definition row_of (c : Capability) (rowid : Z) (now : string) : outcome CapRow :=
  let? category := sql_text (c_category c) in
  Ok {| cp_rowid := rowid; cp_uri := c_uri c; cp_canonical_key := c_canonical_key c; cp_tenant_id := c_tenant_id c;
        cp_store_id := c_store_id c; cp_namespace_id := c_namespace_id c; cp_type := c_type c; cp_name := c_name c;
        cp_version := c_version c; cp_title := c_title c; cp_description := c_description c;
        cp_package_path := c_package_path c; cp_entrypoint := c_entrypoint c; cp_source_path := c_source_path c;
        cp_source_kind := c_source_kind c; cp_source_system := c_source_system c; cp_content_hash := c_content_hash c;
        cp_visibility := c_visibility c; cp_discovery_mode := c_discovery_mode c; cp_owner := c_owner c;
        cp_plugin := c_plugin c; cp_category := category; cp_keywords_json := dumps (JArr (c_keywords c));
        cp_required_scopes_json := dumps (JArr (c_required_scopes c));
        cp_allow_groups_json := dumps (JArr (c_allow_groups c)); cp_allow_users_json := dumps (JArr (c_allow_users c));
        cp_risk_tier := c_risk_tier c; cp_mutating := if c_mutating c then 1 else 0; cp_lifecycle := c_lifecycle c;
        cp_created_by := c_created_by c; cp_submitted_by := c_submitted_by c;
        cp_promoted_from_uri := c_promoted_from_uri c; cp_approval_state := c_approval_state c;
        cp_share_state := c_share_state c; cp_signature_status := c_signature_status c;
        cp_provenance_status := c_provenance_status c; cp_risk_review_status := c_risk_review_status c;
        cp_metadata_json := dumps (sort_keys (c_metadata c)); cp_source_commit := c_source_commit c;
        cp_license := c_license c; cp_updated_at := now |}.

(** The CHECK constraints of the table. *)
Definition columns_ok (r : CapRow) : bool :=
  smem (cp_type r) CAPABILITY_TYPES && smem (cp_visibility r) VISIBILITIES
  && smem (cp_discovery_mode r) DISCOVERY_MODES && smem (cp_risk_tier r) RISK_TIERS.

(** A state column of a row whose content changed: a good state falls back. *)
Definition state_case (same_content : bool) (stored good fallback incoming : string) : string :=
  if same_content then stored else if stored =s good then fallback else incoming.

(** ON CONFLICT(uri) DO UPDATE SET: the stored row with the excluded one. *)
Definition conflict_row (stored e : CapRow) (now : string) : CapRow :=
  let same_content := cp_content_hash stored =s cp_content_hash e in
  upd cp_lifecycle (if same_content && (cp_approval_state stored =s "approved") then cp_lifecycle stored else cp_lifecycle e)
  (upd cp_submitted_by (match cp_submitted_by stored with Some s => Some s | None => cp_submitted_by e end)
  (upd cp_promoted_from_uri (match cp_promoted_from_uri stored with Some s => Some s | None => cp_promoted_from_uri e end)
  (upd cp_approval_state (state_case same_content (cp_approval_state stored) "approved" "pending" (cp_approval_state e))
  (upd cp_share_state (state_case same_content (cp_share_state stored) "shared" "not_shared" (cp_share_state e))
  (upd cp_signature_status (state_case same_content (cp_signature_status stored) "verified" "pending" (cp_signature_status e))
  (upd cp_provenance_status (state_case same_content (cp_provenance_status stored) "verified" "pending" (cp_provenance_status e))
  (upd cp_risk_review_status (state_case same_content (cp_risk_review_status stored) "approved" "pending" (cp_risk_review_status e))
  (upd cp_updated_at now (upd cp_rowid (cp_rowid stored) e))))))))).

(** The WHERE clause of the DO UPDATE; [IS NOT] compares NULL as a value. *)
Definition is_not (a b : option string) : bool := negb (oeqb a b).
Definition row_differs (stored e : CapRow) : bool :=
  negb (cp_content_hash stored =s cp_content_hash e)
  || negb (cp_canonical_key stored =s cp_canonical_key e)
  || negb (cp_tenant_id stored =s cp_tenant_id e)
  || is_not (cp_store_id stored) (cp_store_id e)
  || is_not (cp_namespace_id stored) (cp_namespace_id e)
  || negb (cp_type stored =s cp_type e)
  || negb (cp_name stored =s cp_name e)
  || negb (cp_version stored =s cp_version e)
  || negb (cp_title stored =s cp_title e)
  || negb (cp_description stored =s cp_description e)
  || negb (cp_package_path stored =s cp_package_path e)
  || negb (cp_entrypoint stored =s cp_entrypoint e)
  || negb (cp_source_path stored =s cp_source_path e)
  || negb (cp_source_kind stored =s cp_source_kind e)
  || negb (cp_source_system stored =s cp_source_system e)
  || negb (cp_visibility stored =s cp_visibility e)
  || negb (cp_discovery_mode stored =s cp_discovery_mode e)
  || negb (cp_owner stored =s cp_owner e)
  || is_not (cp_plugin stored) (cp_plugin e)
  || is_not (cp_category stored) (cp_category e)
  || negb (cp_keywords_json stored =s cp_keywords_json e)
  || negb (cp_required_scopes_json stored =s cp_required_scopes_json e)
  || negb (cp_allow_groups_json stored =s cp_allow_groups_json e)
  || negb (cp_allow_users_json stored =s cp_allow_users_json e)
  || negb (cp_risk_tier stored =s cp_risk_tier e)
  || negb (Z.eqb (cp_mutating stored) (cp_mutating e))
  || (negb ((cp_content_hash stored =s cp_content_hash e) && (cp_approval_state stored =s "approved"))
      && negb (cp_lifecycle stored =s cp_lifecycle e))
  || is_not (cp_created_by stored) (cp_created_by e)
  || negb (cp_metadata_json stored =s cp_metadata_json e)
  || is_not (cp_source_commit stored) (cp_source_commit e)
  || is_not (cp_license stored) (cp_license e)
  || (is_none (cp_submitted_by stored) && is_some (cp_submitted_by e))
  || (is_none (cp_promoted_from_uri stored) && is_some (cp_promoted_from_uri e)).

Definition row_at (d : DB) (uri : string) : option CapRow := fetchone (fun r => cp_uri r =s uri) (db_capabilities d).
(** The rowid SQLite assigns: one above the largest. *)
Definition next_rowid (rows : list CapRow) : Z := (1 + foldr (fun r m => Z.max (cp_rowid r) m) 0 rows)%Z.

(** INSERT ... ON CONFLICT(uri) DO UPDATE ... WHERE: whether a row was written. *)
Definition write_row (c : Capability) : Op bool :=
  let! now := sql_now in
  let! rowid := query (fun d => next_rowid (db_capabilities d)) in
  let! e := lift (row_of c rowid now) in
  let! stored := query (fun d => row_at d (c_uri c)) in
  let! key_taken := query (fun d => exists_where (fun r => negb (cp_uri r =s c_uri c) && (cp_canonical_key r =s c_canonical_key c))
                                      (db_capabilities d)) in
  if negb (columns_ok e) then raise (IntegrityError "CHECK constraint failed")
  else match stored with
       | Some s =>
           if negb (row_differs s e) then ret false
           else if key_taken then raise (IntegrityError "UNIQUE constraint failed: capabilities.canonical_key")
           else
             let! _ := update_rows db_capabilities (fun r => cp_uri r =s c_uri c) (fun r => conflict_row r e now) in
             ret true
       | None =>
           if key_taken then raise (IntegrityError "UNIQUE constraint failed: capabilities.canonical_key")
           else
             let! _ := insert_row db_capabilities e in
             ret true
       end.

(** ** Sources and search index *)
Section Writes.
Context `{!Runtime, !Machine}.

Definition metadata_get (c : Capability) (k : string) : outcome json :=
  let? d := as_object (c_metadata c) in Ok (jget k d).

(** The items of a list of provenance that name a source. *)
Definition provenance_items (v : json) : list dict :=
  match v with
  | JArr l => omap (fun item => match item with
                                | JObj d => if py_truthy (jget "sourcePath" d) then Some d else None
                                | _ => None
                                end) l
  | _ => []
  end.
Definition item_path (d : dict) : string := normalize_path (py_str (jget "sourcePath" d)).
Definition item_row (c : Capability) (d : dict) : SourceRow :=
  mkSourceRow (item_path d) (c_uri c) (py_str (py_or (jget "sourceKind" d) (JStr (c_source_kind c))))
    (py_str (py_or (jget "sourceSystem" d) (JStr (c_source_system c))))
    (py_str (py_or (jget "contentHash" d) (JStr (c_content_hash c)))).
Definition own_row (c : Capability) (path : string) : SourceRow :=
  mkSourceRow path (c_uri c) (c_source_kind c) (c_source_system c) (c_content_hash c).

Definition source_eqb (a b : SourceRow) : bool :=
  (cs_source_path a =s cs_source_path b) && (cs_uri a =s cs_uri b) && (cs_source_kind a =s cs_source_kind b)
  && (cs_source_system a =s cs_source_system b) && (cs_content_hash a =s cs_content_hash b).
Definition source_at (sources : list SourceRow) (path : string) : option SourceRow :=
  fetchone (fun r => cs_source_path r =s path) sources.

Fixpoint provenance_rows (c : Capability) (items : list dict) (sources : list SourceRow) : outcome (list SourceRow) :=
  match items with
  | [] => Ok sources
  | d :: items' =>
      let record := item_row c d in
      match source_at sources (item_path d) with
      | Some r =>
          if source_eqb r record then provenance_rows c items' sources
          else Raise (ValueError ("conflicting provenance records for source path " +:+ item_path d))
      | None => provenance_rows c items' (sources ++ [record])
      end
  end.

(** [sources.setdefault(path, ...)] *)
Definition default_source (c : Capability) (sources : list SourceRow) (path : string) : list SourceRow :=
  if is_some (source_at sources path) then sources else sources ++ [own_row c path].

(** [metadata.get("sourcePaths") or (source_path,)], a single text as a tuple. *)
Definition source_paths (c : Capability) : outcome (list json) :=
  let? v := metadata_get c "sourcePaths" in
  match v with
  | JStr s => Ok [JStr (s_or s (c_source_path c))]
  | _ => if py_truthy v then py_iter v else Ok [JStr (c_source_path c)]
  end.

Definition by_path (a b : SourceRow) : bool := sle (cs_source_path a) (cs_source_path b).
Definition _capability_source_rows (c : Capability) : outcome (list SourceRow) :=
  let? provenance := metadata_get c "sourceProvenance" in
  let? sources := provenance_rows c (provenance_items provenance) [] in
  let? paths := source_paths c in
  let sources := fold_left (default_source c) ((fun v => normalize_path (py_str v)) <$> paths) sources in
  Ok (sort_by by_path (default_source c sources (normalize_path (c_source_path c)))).

(** The columns of the search row. *)
Definition fts_row_of (c : Capability) (rowid : Z) : outcome FtsRow :=
  let? keywords := text_items (c_keywords c) in
  let? category := text_item (py_or (c_category c) (JStr "")) in
  let? content := index_text c in
  Ok (mkFtsRow rowid (c_uri c) (c_name c) (c_title c) (c_description c) (join " " keywords) (o_or (c_plugin c) "") category content).
Definition fts_eqb (a b : FtsRow) : bool :=
  (ft_uri a =s ft_uri b) && (ft_name a =s ft_name b) && (ft_title a =s ft_title b) && (ft_description a =s ft_description b)
  && (ft_keywords a =s ft_keywords b) && (ft_plugin a =s ft_plugin b) && (ft_category a =s ft_category b)
  && (ft_content a =s ft_content b).

Fixpoint list_eqb {A} (eqb : A -> A -> bool) (a b : list A) : bool :=
  match a, b with
  | [], [] => true
  | x :: a', y :: b' => eqb x y && list_eqb eqb a' b'
  | _, _ => false
  end.

(** The explicit update of a lifecycle is clamped to the stored state when the
    transition is not valid. *)
Definition clamp_lifecycle (c : Capability) (stored : option CapRow) : outcome Capability :=
  match stored with
  | Some r =>
      if negb (cp_lifecycle r =s c_lifecycle c) && (cp_content_hash r =s c_content_hash c)
         && negb (is_valid_transition (cp_lifecycle r) (c_lifecycle c) CAPABILITY_TRANSITIONS)
      then post_init (upd c_lifecycle (cp_lifecycle r) c) else Ok c
  | None => Ok c
  end.

(** Both conflict clauses write the whole row, so skipping an equal row shows
    only in the number of changes. *)
Definition write_sources (uri : string) (expected : list SourceRow) : Op unit :=
  let! _ := forM expected (fun s => upsert_row db_capability_sources (fun r => cs_source_path r =s cs_source_path s) s (fun _ => s)) in
  delete_rows db_capability_sources (fun r => (cs_uri r =s uri) && negb (smem (cs_source_path r) (cs_source_path <$> expected))).
Definition write_fts (row : FtsRow) : Op unit :=
  let! _ := delete_rows db_capability_fts (fun r => Z.eqb (ft_rowid r) (ft_rowid row)) in
  insert_row db_capability_fts row.

Definition upsert_capability (cap : Capability) : Op Z :=
  let! cap := lift (apply_default_user_namespace cap) in
  let! existing := query (fun d => row_at d (c_uri cap)) in
  let cap := match clamp_lifecycle cap existing with Ok c => c | Raise _ => cap end in
  let! wrote := write_row cap in
  let! row := query (fun d => row_at d (c_uri cap)) in
  match row with
  | None => raise (OtherError ("RuntimeError: Failed to upsert capability " +:+ c_uri cap))
  | Some row =>
      let cap_id := cp_rowid row in
      let! expected_sources := lift (_capability_source_rows cap) in
      let! expected_fts := lift (fts_row_of cap cap_id) in
      let! fts_row := query (fun d => fetchone (fun r => Z.eqb (ft_rowid r) cap_id) (db_capability_fts d)) in
      let! actual_sources := query (fun d => sort_by by_path (fetchall (fun r => cs_uri r =s c_uri cap) (db_capability_sources d))) in
      let fts_matches := match fts_row with Some f => fts_eqb f expected_fts | None => false end in
      let sources_match := list_eqb source_eqb actual_sources expected_sources in
      if negb wrote && fts_matches && sources_match then ret cap_id
      else
        let! _ := when (negb sources_match) (write_sources (c_uri cap) expected_sources) in
        let! _ := when (negb fts_matches) (write_fts expected_fts) in
        ret cap_id
  end.

(** ** Moving a capability *)

(** UPDATE relationship_tuples SET object: the UNIQUE constraint is on tenant,
    object, relation and user. *)
Definition tuple_taken (new : string) (r r' : TupleRow) : bool :=
  (rt_tenant_id r' =s rt_tenant_id r) && (rt_object r' =s new) && (rt_relation r' =s rt_relation r) && (rt_user r' =s rt_user r).
Definition move_objects (old new : string) : Op unit :=
  let! tuples := query db_relationship_tuples in
  if exists_where (fun r => (rt_object r =s old) && exists_where (tuple_taken new r) tuples) tuples
  then raise (IntegrityError "UNIQUE constraint failed")
  else update_rows db_relationship_tuples (fun r => rt_object r =s old) (fun r => upd rt_object new r).

(** The rows of the governance tables that name the old address. *)
Definition move_references (old new : string) : Op unit :=
  let! _ := update_rows db_shares (fun r => sh_capability_uri r =s old) (fun r => upd sh_capability_uri new r) in
  let! _ := update_rows db_promotion_requests (fun r => pr_capability_uri r =s old) (fun r => upd pr_capability_uri new r) in
  let! _ := move_objects old new in
  update_rows db_policy_decisions (fun r => pd_resource_uri r =s old) (fun r => upd pd_resource_uri new r).

Definition _migrate_canonical_uri (old new : string) : Op unit :=
  if old =s new then ret tt
  else
    let! row := query (fun d => row_at d old) in
    match row with
    | None => ret tt
    | Some _ =>
        let! _ := delete_rows db_capability_sources (fun r => cs_uri r =s old) in
        let! taken := query (fun d => is_some (row_at d new)) in
        if taken then raise (IntegrityError "UNIQUE constraint failed: capabilities.uri")
        else
          let! _ := update_rows db_capabilities (fun r => cp_uri r =s old) (fun r => upd cp_uri new r) in
          move_references old new
    end.
End Writes.
