(* ===== verification/Ingest.v ===== *)
(** * Ingestion ([index.py])

    The merge of discoveries that share an effective address, the admission
    guards over a batch, the quarantine of new content before it is indexed,
    the write of the batch, the retirement of identities that lost their
    sources, and the transaction around it. *)

From Stdlib Require Import ZArith Ascii String Lia.
From stdpp Require Import base option list strings gmap.
From S2P Require Import Prelude PyStr Json Clock Ordering Db Models AccessControl Gates Signing Superadmin Identity.
From S2P Require Import InstallGuards Catalog MalwareScan CapGuardPolicy Quarantine Dependencies Manifest VaultPlacement InstallPolicy CatalogWrites.
Local Open Scope string_scope.
Local Open Scope list_scope.

(** The vector table and the embedding model: whether the [n]-th write of a run
    succeeds, for a row, a capability and the [index_text_unchanged] flag. *)
Class VectorStore : Type := { vector_written : nat -> Z -> Capability -> bool -> bool }.

(** ** Aliases of one effective address *)
Section Merge.
Context `{!Runtime, !Machine}.

(** Authority, canonical key, system, path. *)
Definition alias_compare : Capability -> Capability -> comparison := fun a b =>
  prod_compare Z.compare (list_compare String.compare)
    (- rank_of a, [c_canonical_key a; c_source_system a; normalize_path (c_source_path a)])%Z
    (- rank_of b, [c_canonical_key b; c_source_system b; normalize_path (c_source_path b)])%Z.

Definition top_hashes (top_rank : Z) (ranked : list Capability) : list string :=
  sorted_set String.compare (c_content_hash <$> List.filter (fun c => Z.eqb (rank_of c) top_rank) ranked).

(** The provenance a capability carries, and its own paths that this does not
    mention. *)
Definition item_record (c : Capability) (d : dict) : list string :=
  let r := item_row c d in [cs_source_path r; cs_source_kind r; cs_source_system r; cs_content_hash r].
Definition alias_provenance (c : Capability) : outcome (list (list string)) :=
  let? prior := metadata_get c "sourceProvenance" in
  let recorded := item_record c <$> provenance_items prior in
  let? v := metadata_get c "sourcePaths" in
  let? paths := (if py_truthy v then py_iter v else Ok [JStr (c_source_path c)]) in
  let own := List.filter (fun p => negb (smem p ((fun r => nth_name r 0) <$> recorded)))
               ((fun v => normalize_path (py_str v)) <$> List.filter py_truthy paths) in
  Ok (recorded ++ ((fun p => [p; c_source_kind c; c_source_system c; c_content_hash c]) <$> own)).
Fixpoint all_provenance (caps : list Capability) : outcome (list (list string)) :=
  match caps with
  | [] => Ok []
  | c :: caps' => let? a := alias_provenance c in let? rest := all_provenance caps' in Ok (a ++ rest)
  end.

Definition merge_aliases (uri : string) (caps : list Capability) : outcome (list Capability) :=
  match caps with
  | [c] => Ok [c]
  | _ =>
      match sort_by (le_by alias_compare) caps with
      | [] => Ok []
      | winner :: _ as ranked =>
          let top_rank := rank_of winner in
          let ambiguous_sources := ambiguous top_rank ranked in
          if negb (bool_decide (ambiguous_sources = [])) && strict_collisions
          then Raise (ValueError ("effective URI collision for " +:+ uri +:+ ": equal-authority sources contain "
                 +:+ str_of_Z (Z.of_nat (length (top_hashes top_rank ranked))) +:+ " content hashes: "
                 +:+ py_repr (jstrs ambiguous_sources) +:+ "; selected " +:+ normalize_path (c_source_path winner)
                 +:+ " deterministically. Recorded as ambiguousEffectiveUriCollision in capability metadata."))
          else
            let? provenance := all_provenance caps in
            let? c := post_init (upd c_metadata (JObj (merged_metadata winner (sorted_set provenance_compare provenance)
                        ambiguous_sources "ambiguousEffectiveUriCollision")) winner) in
            Ok [c]
      end
  end.

Fixpoint merge_groups (groups : list (string * list Capability)) : outcome (list Capability) :=
  match groups with
  | [] => Ok []
  | (uri, caps) :: groups' => let? c := merge_aliases uri caps in let? rest := merge_groups groups' in Ok (c ++ rest)
  end.

Definition _merge_by_effective_uri (capabilities : list Capability) : outcome (list Capability) :=
  merge_groups (sort_by (fun a b => sle a.1 b.1) (group_by c_uri id capabilities)).
End Merge.

(** ** Writing a batch *)
Section Batch.
Context `{!Runtime, !Machine, !VectorStore}.

(** The capability as placed by the manifest, else in the default namespace. *)
Definition effective_capability (index : VaultIndex) (c : Capability) : Op Capability :=
  let! placed := apply_vault_placement c index in
  match placed with
  | Some p => ret p
  | None => lift (apply_default_user_namespace c)
  end.

(** The row an ingest continues: at the address, else with the canonical key. *)
Definition previous_row (d : DB) (c : Capability) : option CapRow :=
  match row_at d (c_uri c) with
  | Some r => Some r
  | None => fetchone (fun r => cp_canonical_key r =s c_canonical_key c) (db_capabilities d)
  end.

(** An approved promotion keeps its address and placement. *)
Definition at_promotion (previous : option CapRow) (c : Capability) : outcome Capability :=
  match previous with
  | Some r =>
      if otruthy (cp_promoted_from_uri r) && (cp_approval_state r =s "approved")
      then post_init
        (upd c_uri (cp_uri r) (upd c_store_id (cp_store_id r) (upd c_namespace_id (cp_namespace_id r)
        (upd c_visibility (cp_visibility r) (upd c_discovery_mode (cp_discovery_mode r) (upd c_owner (cp_owner r)
        (upd c_submitted_by (cp_submitted_by r) (upd c_promoted_from_uri (cp_promoted_from_uri r) c))))))))
      else Ok c
  | None => Ok c
  end.

(** The search text of the row before the write. *)
Definition indexed_text (d : DB) (previous : option CapRow) : option string :=
  match previous with
  | Some r =>
      match row_at d (cp_uri r) with
      | Some r => ft_content <$> fetchone (fun f => Z.eqb (ft_rowid f) (cp_rowid r)) (db_capability_fts d)
      | None => None
      end
  | None => None
  end.

Definition held_at (d : DB) (c : Capability) : bool :=
  exists_where (fun r => (qr_tenant_id r =s s_or (c_tenant_id c) "asg") && (qr_capability_uri r =s c_uri c)
                         && (qr_content_hash r =s c_content_hash c) && (qr_status r =s "quarantined")) (db_capguard_quarantine d).

Record Tally : Type := mkTally {
  ty_added : Z; ty_updated : Z; ty_unchanged : Z; ty_failures : Z; ty_written : Z; ty_consecutive : Z; ty_aborted : bool;
  ty_calls : nat
}.
#[export] Instance eta_Tally : EtaRecord Tally := fun r =>
  mkTally (ty_added r) (ty_updated r) (ty_unchanged r) (ty_failures r) (ty_written r) (ty_consecutive r) (ty_aborted r) (ty_calls r).
Definition no_tally : Tally := mkTally 0 0 0 0 0 0 false 0.
Definition MAX_CONSECUTIVE_FAILURES : Z := 25.

Definition _mark_vector_failure (cap_id : Z) : Op unit :=
  let! row := query (fun d => fetchone (fun r => Z.eqb (cp_rowid r) cap_id) (db_capabilities d)) in
  match row with
  | None => ret tt
  | Some r =>
      let meta := match (if truthy (cp_metadata_json r) then json_parse (cp_metadata_json r) else None) with
                  | Some (JObj d) => d | _ => [] end in
      if match jget "vectorStatus" meta with JStr s => s =s "failed" | _ => false end then ret tt
      else
        let! now := sql_now in
        update_rows db_capabilities (fun r => Z.eqb (cp_rowid r) cap_id)
          (fun r => upd cp_metadata_json (dumps (sort_keys (JObj (dset "vectorStatus" (JStr "failed") meta)))) (upd cp_updated_at now r))
  end.

(** One vector write, or none after too many failures in a row. *)
Definition index_vector (vector_enabled : bool) (cap_id : Z) (c : Capability) (unchanged : bool) (t : Tally) : Op Tally :=
  if negb vector_enabled || ty_aborted t then ret t
  else
    let t' := upd ty_calls (S (ty_calls t)) t in
    if vector_written (ty_calls t) cap_id c unchanged
    then ret (upd ty_written (ty_written t + 1)%Z (upd ty_consecutive 0%Z t'))
    else
      let! _ := _mark_vector_failure cap_id in
      let consecutive := (ty_consecutive t + 1)%Z in
      ret (upd ty_failures (ty_failures t + 1)%Z (upd ty_consecutive consecutive
             (upd ty_aborted (Z.leb MAX_CONSECUTIVE_FAILURES consecutive) t'))).

(** Counting a capability, after moving its row to its address. *)
Definition count_previous (previous : option CapRow) (c : Capability) (t : Tally) : Op Tally :=
  match previous with
  | None => ret (upd ty_added (ty_added t + 1)%Z t)
  | Some r =>
      let! _ := _migrate_canonical_uri (cp_uri r) (c_uri c) in
      ret (if cp_content_hash r =s c_content_hash c then upd ty_unchanged (ty_unchanged t + 1)%Z t
           else upd ty_updated (ty_updated t + 1)%Z t)
  end.

(** Content under quarantine is written as a pending draft. *)
Definition hold (held : bool) (c : Capability) : outcome Capability :=
  if held then post_init (upd c_lifecycle "draft" (upd c_approval_state "pending" c)) else Ok c.

Definition upsert_one (vector_enabled : bool) (effective : Capability) (t : Tally) : Op Tally :=
  let! previous := query (fun d => previous_row d effective) in
  let! effective := lift (at_promotion previous effective) in
  let! previous_index_text := query (fun d => indexed_text d previous) in
  let! t := count_previous previous effective t in
  let! held := query (fun d => held_at d effective) in
  let! effective := lift (hold held effective) in
  let! cap_id := upsert_capability effective in
  if negb vector_enabled || ty_aborted t then ret t
  else
    let! text := lift (index_text effective) in
    index_vector vector_enabled cap_id effective (oeqb previous_index_text (Some text)) t.

Fixpoint upsert_all (vector_enabled : bool) (caps : list Capability) (t : Tally) : Op Tally :=
  match caps with
  | [] => ret t
  | c :: caps' => let! t := upsert_one vector_enabled c t in upsert_all vector_enabled caps' t
  end.

(** ** Identities without a source *)
Definition catalog_kind (r : CapRow) : bool := negb (smem (cp_source_kind r) ["system_capability"; "capmesh_draft"]).
Definition orphans (d : DB) : list CapRow :=
  sort_by (fun a b => sle (cp_uri a) (cp_uri b))
    (fetchall (fun r => catalog_kind r && negb (exists_where (fun s => cs_uri s =s cp_uri r) (db_capability_sources d))) (db_capabilities d)).
Definition count_where {A} (p : A -> bool) (l : list A) : Z := Z.of_nat (length (fetchall p l)).
(** What governance still holds of an address. *)
Definition blockers (d : DB) (uri : string) : dict :=
  List.filter (fun kv => py_truthy (snd kv))
  [("shares", JNum (count_where (fun r => sh_capability_uri r =s uri) (db_shares d)));
   ("pendingPromotions", JNum (count_where (fun r => (pr_capability_uri r =s uri) && (pr_state r =s "pending")) (db_promotion_requests d)));
   ("relationships", JNum (count_where (fun r => rt_object r =s uri) (db_relationship_tuples d)));
   ("roleAssignments", JNum (count_where (fun r => (ra_scope_type r =s "capability") && (ra_scope_id r =s uri) && is_none (ra_revoked_at r))
                               (db_role_assignments d)))].

Fixpoint delete_orphans (rows : list CapRow) (removed : Z) : Op Z :=
  match rows with
  | [] => ret removed
  | r :: rows' =>
      let! active := query (fun d => blockers d (cp_uri r)) in
      match active with
      | _ :: _ => raise (OtherError ("CandidateValidationError: source reassignment stranded governed capability "
                           +:+ cp_uri r +:+ ": " +:+ py_repr (JObj active)))
      | [] =>
          let! _ := delete_rows db_capability_fts (fun f => Z.eqb (ft_rowid f) (cp_rowid r)) in
          let! _ := delete_rows db_capabilities (fun x => Z.eqb (cp_rowid x) (cp_rowid r)) in
          delete_orphans rows' (removed + 1)
      end
  end.
Definition _delete_source_orphaned_capabilities : Op Z :=
  let! rows := query orphans in delete_orphans rows 0.

(** [load_vault_placement_index(vault_placement_path())] *)
Definition placement_index (placement_file : string) : Op VaultIndex :=
  let! fs := gets w_files in lift (load_vault_placement_index (fs !! resolve_path placement_file)).

(** The counts of a batch, and how many identities were retired. *)
Definition _upsert_discovered (capabilities : list Capability) (vector_enabled : bool) (placement_file : string) : Op (Tally * Z) :=
  let! index := placement_index placement_file in
  let! effective_capabilities := mapM (effective_capability index) capabilities in
  let! merged := lift (_merge_by_effective_uri effective_capabilities) in
  let! t := upsert_all vector_enabled merged no_tally in
  let! removed := _delete_source_orphaned_capabilities in
  ret (t, removed).
End Batch.

(** ** Admission and quarantine *)
Section Ingest.
Context `{!Runtime, !Machine, !UnicodeData, !VectorStore}.

(** The guards over a batch: a capability that cannot be served or is a second
    registration stops the run, a copy of lower authority is left out. *)
Fixpoint guard_loop (fs : gmap string FileNode) (roots : list string) (rows : list Registered) (caps : list Capability) :
    outcome (list Capability) :=
  match caps with
  | [] => Ok []
  | c :: caps' =>
      let? _ := assert_body_resolvable fs (c_package_path c) (c_entrypoint c) roots in
      match assert_not_duplicate (c_plugin c) (c_name c) (c_package_path c) (c_uri c) rows with
      | Ok _ =>
          let? rest := guard_loop fs roots (rows ++ [mkRegistered (c_plugin c) (c_name c) (c_package_path c) (c_uri c)]) caps' in
          Ok (c :: rest)
      | Raise (SupersededCapability _) => guard_loop fs roots rows caps'
      | Raise e => Raise e
      end
  end.
Definition registered_rows (d : DB) : list Registered :=
  (fun r => mkRegistered (cp_plugin r) (cp_name r) (cp_package_path r) (cp_uri r))
    <$> fetchall (fun r => negb (cp_lifecycle r =s "removed")) (db_capabilities d).
Definition _enforce_install_guards (caps : list Capability) (roots : list string) : Op (list Capability) :=
  let! rows := query registered_rows in
  let! fs := gets w_files in
  lift (guard_loop fs roots rows caps).

Definition _is_system_or_draft (c : Capability) : bool := smem (c_source_kind c) ["system_capability"; "capmesh_draft"].

(** Addresses and contents in the catalog; addresses are unique. *)
Definition _existing_capability_identity (d : DB) : gmap string string :=
  list_to_map ((fun r => (cp_uri r, cp_content_hash r)) <$> db_capabilities d).

(** One capability; whether it was recorded, and as a pending scan. *)
Definition quarantine_one (index : VaultIndex) (existing : gmap string string) (c : Capability) : Op (Z * Z) :=
  if _is_system_or_draft c then ret (0, 0)%Z
  else
    let! effective := effective_capability index c in
    if bool_decide (existing !! c_uri effective = Some (c_content_hash effective)) then ret (0, 0)%Z
    else
      let! record := quarantine_capability (s_or (c_tenant_id effective) "asg") (c_uri effective) (c_type effective)
        (c_name effective) (c_version effective) (c_source_path effective) (c_content_hash effective) "pending_scan"
        (Some (o_or (c_submitted_by effective) (o_or (c_created_by effective) "ingest@capmesh")))
        [("discoveredSourceSystem", JStr (c_source_system c)); ("discoveredSourceKind", JStr (c_source_kind c));
         ("effectiveUri", JStr (c_uri effective))] true in
      ret (1, match jget "reason" record with JStr s => if s =s "pending_scan" then 1 else 0 | _ => 0 end)%Z.

Fixpoint quarantine_loop (index : VaultIndex) (existing : gmap string string) (caps : list Capability) (counts : Z * Z) : Op (Z * Z) :=
  match caps with
  | [] => ret counts
  | c :: caps' =>
      let! (q, f) := quarantine_one index existing c in
      quarantine_loop index existing caps' (counts.1 + q, counts.2 + f)%Z
  end.

Definition _quarantine_new_capabilities (caps : list Capability) (placement_file : string) : Op (Z * Z) :=
  let! index := placement_index placement_file in
  let! existing := query _existing_capability_identity in
  let! counts := quarantine_loop index existing caps (0, 0)%Z in
  let! _ := commit in
  ret counts.

(** ** The run *)
Definition _live_capability_count (d : DB) : Z := count_where catalog_kind (db_capabilities d).

Definition _record_catalog_generation : Op string :=
  let! generation := refresh_catalog_generation in
  let! now := iso_after 0 in
  let! _ := set_meta "last_successful_ingest_at" now in
  ret generation.

(** [con.rollback()]; closing a connection discards what it has not committed. *)
Definition rollback : Op unit := modify (fun w => upd w_db (w_disk w) w).
Definition discarding {A} (m : Op A) : Op A := try_except m (fun _ => true) (fun e => let! _ := rollback in raise e).

Record IngestResult : Type := mkIngestResult {
  ir_tally : Tally; ir_removed : Z; ir_quarantined : Z * Z; ir_before : Z; ir_after : Z; ir_generation : string
}.

(** The run on the discovered capabilities up to the commit of the batch. *)
Definition ingest_batch (capabilities : list Capability) (roots : list string) (placement_file : string) (vector_enabled : bool)
    (post_ingest : Op unit) : Op IngestResult :=
  let! capabilities := discarding (_enforce_install_guards capabilities roots) in
  let! quarantined := discarding (_quarantine_new_capabilities capabilities placement_file) in
  let! before := query _live_capability_count in
  discarding
    (let! (tally, removed) := _upsert_discovered capabilities vector_enabled placement_file in
     let! _ := post_ingest in
     let! generation := _record_catalog_generation in
     let! _ := commit in
     let! after := query _live_capability_count in
     ret (mkIngestResult tally removed quarantined before after generation)).

(** [ingest_index], from the files of the roots and of the manifest. *)
Definition ingest_index (roots : list string) (placement_file : string) (vector_enabled : bool) (post_ingest : Op unit) :
    Op IngestResult :=
  let! fs := gets w_files in
  let! capabilities := lift (discover_capabilities fs roots) in
  ingest_batch capabilities roots placement_file vector_enabled post_ingest.

(** ** After the commit *)

(** The malware scan of the ingested capabilities: scanned and with findings. *)
Fixpoint scan_ingested (caps : list Capability) (counts : Z * Z) : Op (Z * Z) :=
  match caps with
  | [] => ret counts
  | c :: caps' =>
      if negb (truthy (c_uri c)) then scan_ingested caps' counts
      else
        let! finding := try_except
          (let! result := scan_capability (c_uri c) (c_tenant_id c) false in
           ret (if match dget "passed" result with Some v => py_truthy v | None => true end then 0 else 1)%Z)
          (fun _ => true) (fun _ => ret 0%Z) in
        scan_ingested caps' (counts.1 + 1, counts.2 + finding)%Z
  end.

(** The dependencies the metadata names. *)
Definition depends_on (c : Capability) : list string :=
  match metadata_get c "depends_on" with
  | Ok (JArr l) => List.filter truthy (omap (fun v => match v with JStr s => Some (strip s) | _ => None end) l)
  | _ => []
  end.
Definition track_dependencies (caps : list Capability) : Op unit :=
  let! _ := ensure_dependency_table in
  forM caps (fun c => forM (depends_on c) (fun dep =>
    try_except (let! _ := add_dependency (c_uri c) dep "*" None (c_tenant_id c) false in ret tt) (fun _ => true) (fun _ => ret tt))).

(** The steps after the batch is committed, to the close of the connection: the
    scans are committed; what the last statements wrote is not. *)
Definition finish_ingest (caps : list Capability) : Op (Z * Z) :=
  let! counts := scan_ingested caps (0, 0)%Z in
  let! _ := when (Z.ltb 0 counts.1) commit in
  let! _ := track_dependencies caps in
  let! _ := rollback in
  ret counts.
End Ingest.
