(* ===== verification/ManifestProps.v ===== *)
(** * What discovery guarantees

    Every discovered capability is well formed and unvetted, whatever its
    source file says; duplicates of a canonical key are merged into the source
    of the highest authority, whatever the order of the files. *)

From Stdlib Require Import ZArith Ascii String Lia Sorted.
From stdpp Require Import base option list strings gmap.
From S2P Require Import Prelude PyStr Json Dicts Clock Ordering Db Models Gates Signing SourceGates InstallGuards Manifest.
Local Open Scope string_scope.
Local Open Scope list_scope.

Definition SOURCE_KINDS : list string :=
  ["skill"; "agent"; "command"; "plugin_manifest"; "mcp_manifest"; "cap_manifest"; "reference"].

(** The fields that governance decides, as the constructor leaves them. *)
Record unvetted (c : Capability) : Prop := {
  uv_kind : c_source_kind c ∈ SOURCE_KINDS;
  uv_states : c_lifecycle c = "active" /\ c_approval_state c = "published" /\ c_share_state c = "not_shared" /\
              c_signature_status c = "unchecked" /\ c_provenance_status c = "unchecked" /\ c_risk_review_status c = "pending";
  uv_place : c_tenant_id c = "asg" /\ c_store_id c = None /\ c_namespace_id c = None /\ c_created_by c = None /\
             c_submitted_by c = None /\ c_promoted_from_uri c = None
}.

(** The constructor, and every field a reader sets. *)
Create HintDb unvetted.
Lemma unvetted_new uri ty n v t d pp e sp kind sys key h : kind ∈ SOURCE_KINDS -> unvetted (new_capability uri ty n v t d pp e sp kind sys key h).
Proof. by split. Qed.
#[export] Hint Resolve unvetted_new : unvetted.
Ltac unvetted_field := intros [K S P]; split; [exact K | exact S | exact P].
Lemma unvetted_visibility x c : unvetted c -> unvetted (upd c_visibility x c). Proof. unvetted_field. Qed.
Lemma unvetted_discovery x c : unvetted c -> unvetted (upd c_discovery_mode x c). Proof. unvetted_field. Qed.
Lemma unvetted_owner x c : unvetted c -> unvetted (upd c_owner x c). Proof. unvetted_field. Qed.
Lemma unvetted_plugin x c : unvetted c -> unvetted (upd c_plugin x c). Proof. unvetted_field. Qed.
Lemma unvetted_category x c : unvetted c -> unvetted (upd c_category x c). Proof. unvetted_field. Qed.
Lemma unvetted_keywords x c : unvetted c -> unvetted (upd c_keywords x c). Proof. unvetted_field. Qed.
Lemma unvetted_scopes x c : unvetted c -> unvetted (upd c_required_scopes x c). Proof. unvetted_field. Qed.
Lemma unvetted_groups x c : unvetted c -> unvetted (upd c_allow_groups x c). Proof. unvetted_field. Qed.
Lemma unvetted_users x c : unvetted c -> unvetted (upd c_allow_users x c). Proof. unvetted_field. Qed.
Lemma unvetted_tier x c : unvetted c -> unvetted (upd c_risk_tier x c). Proof. unvetted_field. Qed.
Lemma unvetted_mutating x c : unvetted c -> unvetted (upd c_mutating x c). Proof. unvetted_field. Qed.
Lemma unvetted_metadata x c : unvetted c -> unvetted (upd c_metadata x c). Proof. unvetted_field. Qed.
#[export] Hint Resolve unvetted_visibility unvetted_discovery unvetted_owner unvetted_plugin unvetted_category unvetted_keywords
  unvetted_scopes unvetted_groups unvetted_users unvetted_tier unvetted_mutating unvetted_metadata : unvetted.

Definition admissible_source (c : Capability) : Prop := cap_ok c = true /\ unvetted c.

(** A reader's result is the validated record. *)
Lemma source_post_init c c' : post_init c = Ok c' -> unvetted c -> admissible_source c'.
Proof. intros [-> Hok]%post_init_ok Hc. by split. Qed.

(** Runs a reader to its validation. *)
Lemma obind_ok {A B} (m : outcome A) (k : A -> outcome B) b : obind m k = Ok b -> exists a, m = Ok a /\ k a = Ok b.
Proof. destruct m as [a|]; [|done]. by exists a. Qed.
Ltac reader_runs :=
  repeat match goal with
  | E : obind ?m _ = Ok _ |- _ =>
      let a := fresh "a" in let Ea := fresh "Ea" in apply obind_ok in E as (a & Ea & E); cbv beta in E
  end.

Section Discovery.
Context `{!Runtime, !Machine} (fs : gmap string FileNode).

Lemma source_kind_listed p : source_kind_for p ∈ SOURCE_KINDS.
Proof. unfold source_kind_for. repeat case_match; set_solver. Qed.

Lemma listed_kind kind : smem kind SOURCE_KINDS = true -> kind ∈ SOURCE_KINDS.
Proof. apply smem_In. Qed.
#[local] Hint Resolve source_kind_listed : unvetted.
#[local] Hint Extern 1 (_ ∈ SOURCE_KINDS) => (apply listed_kind; reflexivity) : unvetted.

Lemma cap_manifest_source p root c : from_cap_manifest fs p root = Ok (Some c) -> admissible_source c.
Proof.
  unfold from_cap_manifest. destruct (negb _); [discriminate|]. intros E. reader_runs. injection E as <-.
  eapply source_post_init; [eassumption|]. auto 20 with unvetted.
Qed.

Lemma source_capability_unvetted ty s p c : smem ty SOURCE_KINDS = true -> source_capability fs ty s p = Ok c -> unvetted c.
Proof. unfold source_capability. intros Hty E. reader_runs. injection E as <-. auto 20 using listed_kind with unvetted. Qed.
#[local] Hint Extern 1 (unvetted _) => (eapply source_capability_unvetted; [|eassumption]; reflexivity) : unvetted.

Lemma skill_source p root c : from_skill fs p root = Ok c -> admissible_source c.
Proof. unfold from_skill. intros E. reader_runs. eapply source_post_init; [exact E|]. auto 20 with unvetted. Qed.
Lemma agent_source p root c : from_agent fs p root = Ok c -> admissible_source c.
Proof. unfold from_agent. intros E. reader_runs. eapply source_post_init; [exact E|]. auto 20 with unvetted. Qed.
Lemma command_source p root c : from_command fs p root = Ok c -> admissible_source c.
Proof. unfold from_command. intros E. reader_runs. eapply source_post_init; [exact E|]. auto 20 with unvetted. Qed.
Lemma plugin_manifest_source p root c : from_plugin_manifest fs p root = Ok c -> admissible_source c.
Proof. unfold from_plugin_manifest. intros E. reader_runs. eapply source_post_init; [exact E|]. auto 20 with unvetted. Qed.
Lemma mcp_manifest_source p root c : from_mcp_manifest fs p root = Ok c -> admissible_source c.
Proof. unfold from_mcp_manifest. intros E. reader_runs. eapply source_post_init; [exact E|]. auto 20 with unvetted. Qed.
Lemma unparsed_source p e c : unparsed fs p e = Ok c -> admissible_source c.
Proof. unfold unparsed. intros E. reader_runs. eapply source_post_init; [exact E|]. auto 20 with unvetted. Qed.

Lemma read_capability_source p root c : read_capability fs p root = Ok (Some c) -> admissible_source c.
Proof.
  unfold read_capability. repeat (destruct (if _ then _ else _) || case_match); try discriminate; intros E; reader_runs;
    try (injection E as ->); eauto using cap_manifest_source, skill_source, agent_source, command_source,
    plugin_manifest_source, mcp_manifest_source.
Qed.

Lemma discover_files_source root_paths files l : discover_files fs root_paths files = Ok l -> Forall admissible_source l.
Proof.
  revert l. induction files as [|p files IH]; intros l E; cbn in E; [by injection E as <-|]. reader_runs. injection E as <-.
  apply Forall_app. split; [|by apply IH]. unfold discover_file in Ea.
  destruct (negb _); [injection Ea as <-; constructor|].
  destruct (read_capability _ _ _) as [[c|]|e] eqn:Er; [| by injection Ea as <- |].
  - injection Ea as <-. constructor; [by eapply read_capability_source | done].
  - destruct (_ || _); [by injection Ea as <-|]. reader_runs. injection Ea as <-. constructor; [by eapply unparsed_source | done].
Qed.
End Discovery.

(** ** Groups of a dict of lists *)
Section Groups.
Context {A : Type} (key : A -> string).

Lemma append_at_keys k (v : A) groups :
  (append_at k v groups).*1 = if bool_decide (k ∈ groups.*1) then groups.*1 else groups.*1 ++ [k].
Proof.
  induction groups as [|[k' vs] groups IH]; [done|]. cbn. destruct (String.eqb_spec k' k) as [->|Hne]; cbn.
  - by rewrite bool_decide_eq_true_2 by left.
  - rewrite IH. destruct (bool_decide_reflect (k ∈ groups.*1)) as [Hin|Hout].
    + by rewrite bool_decide_eq_true_2 by (by right).
    + rewrite bool_decide_eq_false_2; [done|]. rewrite not_elem_of_cons. split; [congruence | done].
Qed.

Lemma group_by_keys_nodup (l : list A) : NoDup (group_by key id l).*1.
Proof.
  unfold group_by. assert (forall groups : list (string * list A), NoDup groups.*1 ->
    NoDup (fold_left (fun groups x => append_at (key x) (id x) groups) l groups).*1) as Hf; [|apply Hf; constructor].
  induction l as [|x l IH]; intros groups Hg; [done|]. apply IH. rewrite append_at_keys.
  destruct (bool_decide_reflect (key x ∈ groups.*1)) as [|Hout]; [done|].
  apply NoDup_app. split_and!; [done | | apply NoDup_singleton]. by intros y Hy ->%list_elem_of_singleton.
Qed.

(** The groups, as a function of their keys. *)
Lemma group_by_map (l : list A) :
  group_by key id l = (fun k => (k, List.filter (fun x => key x =s k) l)) <$> (group_by key id l).*1.
Proof.
  assert (forall g : list (string * list A), NoDup g.*1 -> g = (fun k => (k, group_of k g)) <$> g.*1) as Hg.
  { intros g Hnd. rewrite <-list_fmap_compose. symmetry. transitivity (id <$> g); [|apply list_fmap_id]. apply list_fmap_ext.
    intros i [k vs] Hi. unfold id, compose. cbn. f_equal. apply list_elem_of_lookup_2 in Hi. unfold group_of.
    induction g as [|[k' vs'] g IH]; [by apply elem_of_nil in Hi|]. cbn in *. apply NoDup_cons in Hnd as [Hk Hnd].
    apply elem_of_cons in Hi as [[= -> ->]|Hi]; [by rewrite String.eqb_refl|].
    destruct (String.eqb_spec k' k) as [->|_]; [|by apply IH]. exfalso. apply Hk. change k with (k, vs).1. by apply list_elem_of_fmap_2. }
  rewrite (Hg _ (group_by_keys_nodup l)) at 1. apply list_fmap_ext. intros i k _. f_equal.
  rewrite group_of_group_by. apply list_fmap_id.
Qed.

Lemma group_keys_perm (l l' : list A) : l ≡ₚ l' -> (group_by key id l).*1 ≡ₚ (group_by key id l').*1.
Proof.
  intros Hl. apply NoDup_Permutation; [apply group_by_keys_nodup..|]. intros k. rewrite !elem_of_keys_group_by. by rewrite Hl.
Qed.
End Groups.

Lemma filter_perm {A} (p : A -> bool) l l' : l ≡ₚ l' -> List.filter p l ≡ₚ List.filter p l'.
Proof.
  induction 1 as [|x l l' _ IH|x y l|]; [done | | |by etrans]; cbn.
  - destruct (p x); [by constructor | done].
  - destruct (p x), (p y); [apply Permutation_swap | done..].
Qed.

Lemma elem_of_list_filter_b {A} (p : A -> bool) l x : x ∈ List.filter p l <-> p x = true /\ x ∈ l.
Proof. rewrite !list_elem_of_In, List.filter_In. tauto. Qed.

(** ** The merge of duplicate keys *)
Section MergeKeys.
Context `{!Runtime, !Machine}.

#[local] Instance rank_ordering : Ordering rank_compare.
Proof. exact (preimage_ordering (fun c => (- rank_of c, (c_source_system c, normalize_path (c_source_path c)))%Z) _ _). Qed.
#[local] Instance uri_ordering : Ordering uri_compare.
Proof. exact (preimage_ordering c_uri _ _). Qed.
#[local] Instance provenance_ordering : Ordering provenance_compare.
Proof. exact _. Qed.

Lemma string_compare_eq a b : String.compare a b = Eq -> a = b.
Proof. apply String.compare_eq_iff. Qed.
Lemma provenance_compare_eq a b : provenance_compare a b = Eq -> a = b.
Proof.
  unfold provenance_compare. revert b. induction a as [|x a IH]; intros [|y b]; try done. cbn. unfold lex.
  destruct (String.compare x y) eqn:E; try done. apply string_compare_eq in E as ->. by intros ->%IH.
Qed.

(** What tells the sources of a discovery apart. *)
Definition source_id (c : Capability) : string * string := (c_source_system c, normalize_path (c_source_path c)).

Lemma distinct_sources l x y :
  NoDup (source_id <$> l) -> x ∈ l -> y ∈ l -> rank_compare x y = Eq -> x = y.
Proof.
  intros Hnd Hx Hy E. assert (source_id x = source_id y) as Hs.
  { unfold rank_compare, prod_compare, lex in E. cbn in E. destruct (_ ?= _)%Z; try done.
    destruct (String.compare (c_source_system x) _) eqn:E1; try done.
    apply string_compare_eq in E1, E. unfold source_id. congruence. }
  apply list_elem_of_lookup in Hx as [i Hi], Hy as [j Hj].
  assert (i = j) as ->; [|congruence]. apply (NoDup_lookup _ i j (source_id x) Hnd); rewrite list_lookup_fmap; [by rewrite Hi|].
  rewrite Hj. cbn. by rewrite Hs.
Qed.

Lemma merge_key_perm k caps caps' :
  NoDup (source_id <$> caps) -> caps ≡ₚ caps' -> merge_key k caps = merge_key k caps'.
Proof.
  intros Hnd Hp. unfold merge_key.
  rewrite (sort_by_unique rank_compare caps caps' Hp) by (intros x y; by apply distinct_sources).
  rewrite (sorted_set_ext provenance_compare provenance_compare_eq (provenance_of <$> caps) (provenance_of <$> caps')); [done|].
  intros x. by rewrite Hp.
Qed.

Lemma merge_keys_perm (f : string -> list Capability) ks ks' m :
  ks ≡ₚ ks' -> merge_keys ((fun k => (k, f k)) <$> ks) = Ok m ->
  exists m', merge_keys ((fun k => (k, f k)) <$> ks') = Ok m' /\ m ≡ₚ m'.
Proof.
  intros Hp. revert m. induction Hp as [|k ks ks' _ IH|k1 k2 ks|ks1 ks2 ks3 _ IH1 _ IH2]; intros m E.
  - by exists m.
  - cbn in *. reader_runs. injection E as <-. apply IH in Ea0 as (m' & -> & Hm). rewrite Ea. cbn. eexists. split; [done|]. by rewrite Hm.
  - cbn in *. reader_runs. injection E as <-. injection Ea0 as <-.
    rewrite Ea1. cbn. rewrite Ea. cbn. rewrite Ea2. cbn. eexists. split; [done|]. by rewrite !(assoc_L (++)), (Permutation_app_comm a a1).
  - apply IH1 in E as (m' & E & Hm). apply IH2 in E as (m'' & E & Hm'). exists m''. split; [done|]. by etrans.
Qed.

Lemma filtered_nodup {A B} (f : A -> B) p l : NoDup (f <$> l) -> NoDup (f <$> List.filter p l).
Proof.
  induction l as [|x l IH]; [done|]. cbn. rewrite NoDup_cons. intros [Hx Hnd]. destruct (p x); [|by apply IH].
  cbn. constructor; [|by apply IH]. intros (y & Hy & Hin)%list_elem_of_fmap. apply Hx. rewrite Hy.
  apply list_elem_of_fmap_2. by apply elem_of_list_filter_b in Hin as [_ Hin].
Qed.

(** C34: The merge does not depend on the order in which the file system lists the
    sources.  If no two discoveries are the same file of the same system and
    the merged addresses differ, every order of them gives the same catalog. *)
Theorem merge_order_independent l l' m :
  l ≡ₚ l' -> NoDup (source_id <$> l) -> NoDup (c_uri <$> m) ->
  merge_duplicate_capabilities l = Ok m -> merge_duplicate_capabilities l' = Ok m.
Proof.
  intros Hl Hnd Hm. unfold merge_duplicate_capabilities. intros E. apply obind_ok in E as (merged & E & Em). injection Em as <-.
  assert (forall k, merge_key k (List.filter (fun x => c_canonical_key x =s k) l) = merge_key k (List.filter (fun x => c_canonical_key x =s k) l')) as Hk.
  { intros k. apply merge_key_perm; [by apply filtered_nodup | by apply filter_perm]. }
  assert (forall ks m, merge_keys ((fun k => (k, List.filter (fun x => c_canonical_key x =s k) l)) <$> ks) = Ok m ->
    merge_keys ((fun k => (k, List.filter (fun x => c_canonical_key x =s k) l')) <$> ks) = Ok m) as Hks.
  { induction ks as [|k ks IH]; intros m E'; [done|]. cbn in *. reader_runs. rewrite <-Hk, Ea. cbn. by rewrite (IH _ Ea0). }
  rewrite group_by_map in E. apply (merge_keys_perm _ _ _ _ (group_keys_perm c_canonical_key l l' Hl)) in E as (merged' & E & Hp).
  rewrite (group_by_map c_canonical_key l'), (Hks _ _ E). cbn. f_equal. symmetry. apply (sort_by_unique uri_compare); [done|].
  intros x y Hx Hy Exy%string_compare_eq.
  assert (NoDup (c_uri <$> merged)) as Hu by (by rewrite <-(sort_by_perm (le_by uri_compare) merged)).
  by apply (key_unique c_uri merged y x Hu).
Qed.

(** The path of a source is among those an entry records. *)
Definition records_source (w : Capability) (p : string) : Prop :=
  exists d l, c_metadata w = JObj d /\ jget "sourcePaths" d = jstrs l /\ p ∈ l.

Lemma merged_paths w prov amb k :
  k ∈ ["ambiguousAuthorityCollision"; "ambiguousEffectiveUriCollision"] ->
  jget "sourcePaths" (merged_metadata w prov amb k) = jstrs (sorted_set String.compare ((fun item => nth_name item 0) <$> prov)).
Proof.
  intros Hk. assert ((k =s "sourcePaths") = false) as Hne.
  { by repeat (apply elem_of_cons in Hk as [->|Hk]; [done|]); apply elem_of_nil in Hk. }
  unfold merged_metadata. cbv zeta. destruct amb, (List.filter _ prov);
    rewrite ?(jget_set_ne _ k) by done; rewrite ?jget_set_ne by done; apply jget_set.
Qed.

Lemma merge_key_ok k caps m :
  merge_key k caps = Ok m -> Forall admissible_source caps -> caps <> [] ->
  exists w md, m = [upd c_metadata md w] /\ w ∈ caps /\ admissible_source (upd c_metadata md w) /\
    forall c, c ∈ caps -> (rank_of c <= rank_of w)%Z /\ records_source (upd c_metadata md w) (normalize_path (c_source_path c)).
Proof.
  unfold merge_key. intros E Hcaps Hne. destruct (sort_by (le_by rank_compare) caps) as [|w t] eqn:Es.
  { pose proof (sort_by_perm (le_by rank_compare) caps) as Hp. rewrite Es in Hp. by apply Permutation_nil in Hp. }
  destruct (_ && _); [discriminate|]. apply obind_ok in E as (c & Ec & E). injection E as <-.
  apply sort_by_head in Es as [Hw Hmin]; [|apply rank_ordering]. apply source_post_init in Ec as Hadm.
  2: { apply unvetted_metadata. rewrite Forall_forall in Hcaps. by apply Hcaps. }
  apply post_init_ok in Ec as [-> _]. exists w. eexists. split; [done|]. split; [done|]. split; [exact Hadm|].
  intros c Hc. split.
  - specialize (Hmin c Hc). unfold le, rank_compare, prod_compare, lex in Hmin. cbn in Hmin.
    destruct (Z.compare_spec (- rank_of w) (- rank_of c))%Z; [lia | lia | done].
  - eexists _, _. split; [done|]. split; [apply merged_paths; left|].
    apply (elem_of_sorted_set String.compare string_compare_eq), list_elem_of_fmap. exists (provenance_of c). split; [done|].
    apply (elem_of_sorted_set provenance_compare provenance_compare_eq). by apply list_elem_of_fmap_2.
Qed.

Lemma merge_keys_ok (f : string -> list Capability) ks m :
  (forall k, k ∈ ks -> f k <> [] /\ Forall (fun c => admissible_source c /\ c_canonical_key c = k) (f k)) ->
  merge_keys ((fun k => (k, f k)) <$> ks) = Ok m ->
  c_canonical_key <$> m = ks /\ Forall admissible_source m /\
  (forall k c, k ∈ ks -> c ∈ f k -> exists w, w ∈ m /\ c_canonical_key w = k /\ (rank_of c <= rank_of w)%Z /\
     records_source w (normalize_path (c_source_path c))) /\
  (forall w, w ∈ m -> exists k c md, k ∈ ks /\ c ∈ f k /\ w = upd c_metadata md c).
Proof.
  revert m. induction ks as [|k ks IH]; intros m Hf E; cbn in E.
  { injection E as <-. split; [done|]. split; [constructor|]. split; [by intros ?? ?%elem_of_nil | by intros ? ?%elem_of_nil]. }
  reader_runs. injection E as <-. destruct (Hf k) as [Hne Hk]; [left|].
  apply merge_key_ok in Ea as (w & md & -> & Hw & Hadm & Hall); [| by eapply Forall_impl; [exact Hk | intros ? [? _]] | done].
  apply IH in Ea0 as (Hks & Hm & Hc & Ho); [|intros k' Hk'; apply Hf; by right].
  rewrite Forall_forall in Hk. split_and!.
  - cbn. rewrite Hks. f_equal. by apply Hk.
  - by constructor.
  - intros k' c [->|Hk']%elem_of_cons Hcf.
    + exists (upd c_metadata md w). split; [left|]. split; [exact (proj2 (Hk w Hw))|]. by apply Hall.
    + destruct (Hc k' c Hk' Hcf) as (w' & ? & ?). exists w'. split; [by right | done].
  - intros w' [->|Hw']%elem_of_cons; [exists k, w, md; split; [left | done] |].
    destruct (Ho w' Hw') as (k' & c & md' & ? & ?). exists k', c, md'. split; [by right | done].
Qed.

Lemma merged l m :
  Forall admissible_source l -> merge_duplicate_capabilities l = Ok m ->
  NoDup (c_canonical_key <$> m) /\ Forall admissible_source m /\
  (forall c, c ∈ l -> exists w, w ∈ m /\ c_canonical_key w = c_canonical_key c /\ (rank_of c <= rank_of w)%Z /\
     records_source w (normalize_path (c_source_path c))) /\
  (forall w, w ∈ m -> exists c md, c ∈ l /\ w = upd c_metadata md c).
Proof.
  intros Hl E. unfold merge_duplicate_capabilities in E. apply obind_ok in E as (merged & E & Em). injection Em as <-.
  rewrite group_by_map in E. pose proof (group_by_keys_nodup c_canonical_key l) as Hnd.
  assert (forall k, k ∈ (group_by c_canonical_key id l).*1 <-> exists c, c ∈ l /\ c_canonical_key c = k) as Hkey.
  { intros k. rewrite elem_of_keys_group_by, list_elem_of_fmap. naive_solver. }
  assert (forall k c, c ∈ List.filter (fun x => c_canonical_key x =s k) l <-> c_canonical_key c = k /\ c ∈ l) as Hin.
  { intros k c. by rewrite elem_of_list_filter_b, String.eqb_eq. }
  apply merge_keys_ok in E as (Hks & Hm & Hc & Ho).
  - split_and!.
    + rewrite (sort_by_perm (le_by uri_compare) merged). by rewrite Hks.
    + by rewrite (sort_by_perm (le_by uri_compare) merged).
    + intros c Hcl. destruct (Hc (c_canonical_key c) c) as (w & Hw & ?); [apply Hkey; by exists c | by apply Hin|].
      exists w. by rewrite elem_of_sort_by.
    + intros w Hw%elem_of_sort_by. destruct (Ho w Hw) as (k & c & md & _ & [_ Hcl]%Hin & ->). by exists c, md.
  - intros k (c & Hcl & <-)%Hkey. split; [intros Hnil; assert (c ∈ []) as Hn by (by rewrite <-Hnil, Hin); by apply elem_of_nil in Hn|].
    apply Forall_forall. intros x [Hx Hxl]%Hin. rewrite Forall_forall in Hl. by split; [apply Hl|].
Qed.

(** C33: No source is lost in the merge, and authority wins.  Every discovered
    capability is represented by one merged entry of its canonical key: the
    entry is one of the discoveries of that key but for its metadata, no
    discovery of the key has a higher authority, and its [sourcePaths] name the
    path of each of them. *)
Theorem merge_keeps_sources l m :
  Forall admissible_source l -> merge_duplicate_capabilities l = Ok m ->
  NoDup (c_canonical_key <$> m) /\
  (forall c, c ∈ l -> exists w, w ∈ m /\ c_canonical_key w = c_canonical_key c /\ (rank_of c <= rank_of w)%Z /\
     records_source w (normalize_path (c_source_path c))) /\
  (forall w, w ∈ m -> exists c md, c ∈ l /\ w = upd c_metadata md c).
Proof. intros Hl Hm. by apply merged in Hm as (? & _ & ?). Qed.

(** C32: Discovery never vouches for what it finds.  Whatever the files of the roots
    say, each discovered capability is well formed, of a file source, in the
    states the constructor gives (active and published, its signature and
    provenance unchecked, its risk review pending, not shared), of the default
    tenant and of no store, namespace, author or promotion; and no two have one
    canonical key. *)
Theorem discovered_unvetted fs roots l :
  discover_capabilities fs roots = Ok l -> Forall admissible_source l /\ NoDup (c_canonical_key <$> l).
Proof.
  unfold discover_capabilities. cbv zeta. intros E. apply obind_ok in E as (found & Ef & E).
  apply merged in E as (Hnd & Hadm & _); [by split | by eapply discover_files_source].
Qed.
End MergeKeys.

(** ** A source and its mirror *)
Module SourceDemo.
#[export] Existing Instance Demo.runtime.
#[export] Existing Instance GuardDemo.machine.

(** One capability in the skill registry and, stale, in the plugin cache. *)
Definition source (system path hash : string) : Capability :=
  new_capability "cap://personal/asg/josh/skill/demo.hello@0.1.0" "skill" "hello" "0.1.0" "Hello" "Says hello"
    "/caps/demo" "SKILL.md" path "skill" system "demo.hello" hash.
Definition registry : Capability := source "agents.skill-registry" "/home/.agents/skill-registry/demo/SKILL.md" "hash-1".
Definition mirror : Capability := source "claude.plugin-cache" "/home/.claude/plugins/cache/demo/SKILL.md" "hash-0".

Definition skill_text : string :=
  "---" +:+ newline +:+ "name: hello" +:+ newline +:+ "description: Says hello" +:+ newline +:+ "---" +:+ newline +:+ "# Hello".
Definition skill_files : gmap string FileNode :=
  {[ "/caps/skill-registry/demo/skills/hello/SKILL.md" := mkFileNode Regular 420 true skill_text ]}.
End SourceDemo.
Import SourceDemo.

Lemma merge_order_independent_witness : exists m,
  merge_duplicate_capabilities [registry; mirror] = Ok m /\ merge_duplicate_capabilities [mirror; registry] = Ok m /\
  c_source_path <$> m = [c_source_path registry].
Proof.
  assert (is_ok (merge_duplicate_capabilities [registry; mirror]) = true) as RUN by (vm_compute; reflexivity).
  destruct (merge_duplicate_capabilities [registry; mirror]) as [m|e] eqn:E; [|discriminate RUN]. exists m.
  assert (c_uri <$> m = [c_uri registry] /\ c_source_path <$> m = [c_source_path registry]) as [Hu Hp].
  { vm_compute in E. injection E as <-. split; reflexivity. }
  split; [reflexivity|]. split; [|exact Hp]. apply (merge_order_independent [registry; mirror]).
  - apply Permutation_swap.
  - apply (bool_decide_unpack (NoDup _)). vm_compute. exact I.
  - rewrite Hu. apply NoDup_singleton.
  - exact E.
Defined.

Lemma source_admissible (c : Capability) : cap_ok c = true -> c = registry \/ c = mirror -> admissible_source c.
Proof. intros Hok Hc. split; [exact Hok|]. destruct Hc as [-> | ->]; (apply unvetted_new; set_solver). Qed.

Lemma merge_keeps_sources_witness : exists m w, merge_duplicate_capabilities [mirror; registry] = Ok m /\ w ∈ m /\
  (rank_of mirror <= rank_of w)%Z /\ records_source w (normalize_path (c_source_path mirror)).
Proof.
  assert (is_ok (merge_duplicate_capabilities [mirror; registry]) = true) as RUN by (vm_compute; reflexivity).
  destruct (merge_duplicate_capabilities [mirror; registry]) as [m|e] eqn:E; [|discriminate RUN].
  destruct (merge_keeps_sources [mirror; registry] m) as (_ & Hw & _).
  - repeat constructor; (apply source_admissible; [vm_compute; reflexivity | tauto]).
  - exact E.
  - destruct (Hw mirror) as (w & Hin & _ & Hr); [apply list_elem_of_In; vm_compute; tauto|].
    exists m, w. split; [reflexivity|]. split; [exact Hin | exact Hr].
Defined.

Lemma discovered_unvetted_witness : exists l,
  discover_capabilities skill_files ["/caps/skill-registry"] = Ok l /\ length l = 1 /\ Forall admissible_source l.
Proof.
  assert ((match discover_capabilities skill_files ["/caps/skill-registry"] with Ok l => length l | _ => 0 end) = 1) as RUN
    by (vm_compute; reflexivity).
  destruct (discover_capabilities skill_files ["/caps/skill-registry"]) as [l|e] eqn:E; [|discriminate RUN]. exists l.
  split; [reflexivity|]. split; [exact RUN|]. by apply (discovered_unvetted skill_files ["/caps/skill-registry"] l E).
Defined.
