(* ===== verification/CatalogProps.v ===== *)
(** * What writing the catalog guarantees

    The suppressed rewrites are exactly those that change nothing, an upsert
    writes one row and leaves the others, changed content loses its states, and
    a second upsert of the same capability writes nothing. *)

From Stdlib Require Import ZArith Ascii String Lia Sorted.
From stdpp Require Import base option list strings gmap.
From S2P Require Import Prelude PyStr Json JsonCodec Dicts Clock Ordering Db Models AccessControl Signing Superadmin Identity Manifest ManifestProps Lifecycle CatalogWrites.
Local Open Scope string_scope.
Local Open Scope list_scope.

(** ** Rows *)

(** The columns the update takes from the excluded row as they are. *)
Definition taken_columns (r : CapRow) :=
  ((cp_content_hash r, cp_canonical_key r, cp_tenant_id r, cp_store_id r, cp_namespace_id r, cp_type r, cp_name r, cp_version r),
   (cp_title r, cp_description r, cp_package_path r, cp_entrypoint r, cp_source_path r, cp_source_kind r, cp_source_system r),
   (cp_visibility r, cp_discovery_mode r, cp_owner r, cp_plugin r, cp_category r, cp_keywords_json r, cp_required_scopes_json r),
   (cp_allow_groups_json r, cp_allow_users_json r, cp_risk_tier r, cp_mutating r, cp_created_by r, cp_metadata_json r),
   (cp_source_commit r, cp_license r)).

Lemma neq_false a b : negb (a =s b) = false <-> a = b.
Proof. by rewrite negb_false_iff, String.eqb_eq. Qed.
Lemma is_not_false a b : is_not a b = false <-> a = b.
Proof. unfold is_not. by rewrite negb_false_iff, oeqb_eq. Qed.
Lemma zneq_false a b : negb (Z.eqb a b) = false <-> a = b.
Proof. by rewrite negb_false_iff, Z.eqb_eq. Qed.

(** What it takes for a row not to differ. *)
Record agrees (s e : CapRow) : Prop := {
  ag_columns : taken_columns s = taken_columns e;
  ag_lifecycle : cp_approval_state s = "approved" \/ cp_lifecycle s = cp_lifecycle e;
  ag_submitted : is_some (cp_submitted_by s) = true \/ cp_submitted_by e = None;
  ag_promoted : is_some (cp_promoted_from_uri s) = true \/ cp_promoted_from_uri e = None
}.

Lemma none_some_false (a b : option string) : is_none a && is_some b = false <-> is_some a = true \/ b = None.
Proof. destruct a, b; cbn; naive_solver. Qed.

Lemma row_differs_false s e : row_differs s e = false <-> agrees s e.
Proof.
  unfold row_differs. rewrite !orb_false_iff, !neq_false, !is_not_false, !zneq_false, !none_some_false. split.
  - intros Hd. decompose [and] Hd. split; [unfold taken_columns; congruence | | tauto..].
    assert ((cp_content_hash s =s cp_content_hash e) = true) as Hh by (by apply String.eqb_eq).
    rewrite Hh in *. cbn [andb] in *. destruct (String.eqb_spec (cp_approval_state s) "approved") as [?|Hna]; [by left|right].
    match goal with H : negb false && _ = false |- _ => cbn in H; by apply neq_false in H end.
  - intros [Hc Hl Hs Hp]. unfold taken_columns in Hc. injection Hc as ?????????????????????????????. split_and!; try done.
    assert ((cp_content_hash s =s cp_content_hash e) = true) as -> by (by apply String.eqb_eq). cbn [andb].
    destruct Hl as [->| ->]; [by rewrite String.eqb_refl|]. by rewrite String.eqb_refl, andb_false_r.
Qed.

Section Rows.
Context (s e : CapRow) (now : string).

(** C35: The suppression of no-op rewrites is exact.  The WHERE clause of the upsert
    is false exactly when the UPDATE would leave every column of the stored row
    as it is, except the time of the last change. *)
Theorem suppressed_write_exact :
  cp_uri s = cp_uri e -> row_differs s e = false <-> upd cp_updated_at (cp_updated_at s) (conflict_row s e now) = s.
Proof.
  intros Hu. rewrite row_differs_false. unfold conflict_row, state_case. split.
  - intros [Hc Hl Hs Hp]. unfold taken_columns in Hc. injection Hc as ?????????????????????????????.
    assert ((cp_content_hash s =s cp_content_hash e) = true) as -> by (by apply String.eqb_eq). cbn [andb].
    assert ((if cp_approval_state s =s "approved" then cp_lifecycle s else cp_lifecycle e) = cp_lifecycle s) as ->.
    { destruct (String.eqb_spec (cp_approval_state s) "approved"); [done|]. by destruct Hl. }
    destruct s, e. cbv in *; subst. f_equal; repeat case_match; naive_solver.
  - intros He. assert (taken_columns s = taken_columns e) as Hc by (rewrite <-He; done).
    split; [exact Hc | | |].
    + assert (cp_content_hash s = cp_content_hash e) as Hh by (unfold taken_columns in Hc; congruence).
      apply (f_equal cp_lifecycle) in He. cbn in He. rewrite Hh, String.eqb_refl in He. cbn [andb] in He.
      destruct (String.eqb_spec (cp_approval_state s) "approved"); [by left | by right].
    + apply (f_equal cp_submitted_by) in He. cbn in He. destruct (cp_submitted_by s); [by left | by right].
    + apply (f_equal cp_promoted_from_uri) in He. cbn in He. destruct (cp_promoted_from_uri s); [by left | by right].
Qed.
End Rows.

(** ** The rows after an upsert *)
Definition catalog (w : World) : list CapRow := db_capabilities (w_db w).

(** The row holds the identity and the content of a capability. *)
Record carries (c : Capability) (r : CapRow) : Prop := {
  ca_uri : cp_uri r = c_uri c;
  ca_hash : cp_content_hash r = c_content_hash c;
  ca_tenant : cp_tenant_id r = c_tenant_id c;
  ca_kind : cp_source_kind r = c_source_kind c;
  ca_key : cp_canonical_key r = c_canonical_key c;
  ca_path : cp_source_path r = c_source_path c;
  ca_owner : cp_owner r = c_owner c;
  ca_creator : cp_created_by r = c_created_by c;
  ca_promoted : is_some (c_promoted_from_uri c) = true -> is_some (cp_promoted_from_uri r) = true
}.

Lemma row_of_carries c id now e : row_of c id now = Ok e -> carries c e.
Proof. unfold row_of. intros E. apply obind_ok in E as (cat & _ & E). injection E as <-. by split. Qed.

Lemma conflict_carries c s e now : carries c e -> carries c (conflict_row s e now).
Proof. intros []. split; [done..|]. unfold conflict_row. cbn. by destruct (cp_promoted_from_uri s). Qed.

Lemma agrees_carries c s e : agrees s e -> cp_uri s = cp_uri e -> carries c e -> carries c s.
Proof.
  intros [Hc _ _ Hp] Hu []. unfold taken_columns in Hc. injection Hc as ?????????????????????????????. split; try congruence.
  intros Hs. apply ca_promoted0 in Hs. by destruct Hp as [|Hp]; [|rewrite Hp in Hs].
Qed.

Lemma row_at_some d u r : row_at d u = Some r -> r ∈ db_capabilities d /\ cp_uri r = u.
Proof. intros [Hr Hu]%fetchone_some. apply String.eqb_eq in Hu. done. Qed.
Lemma row_at_none d u : row_at d u = None <-> forall r, r ∈ db_capabilities d -> cp_uri r <> u.
Proof. unfold row_at. rewrite fetchone_none. split; intros H r Hr; specialize (H r Hr); by apply String.eqb_neq. Qed.

(** The other rows stay, and every row of the address carries the capability. *)
Record written (c : Capability) (before after : list CapRow) : Prop := {
  wr_each : forall r, r ∈ after -> (r ∈ before /\ cp_uri r <> c_uri c) \/ carries c r;
  wr_others : forall r, r ∈ before -> cp_uri r <> c_uri c -> r ∈ after;
  wr_there : exists r, r ∈ after /\ carries c r;
  wr_unique : NoDup (cp_uri <$> after)
}.

(** The tables an upsert writes. *)
Definition beside_catalog (w : World) :=
  (upd db_capabilities [] (upd db_capability_sources [] (upd db_capability_fts [] (w_db w))), w_disk w, w_uuid w, w_clock w, w_files w).

Lemma update_where_uris p f (l : list CapRow) : (forall r, p r = true -> cp_uri (f r) = cp_uri r) -> cp_uri <$> update_where p f l = cp_uri <$> l.
Proof.
  intros Hf. unfold update_where. induction l as [|r l IH]; [done|]. cbn. rewrite IH. f_equal. by destruct (p r) eqn:E; [apply Hf|].
Qed.

Lemma write_row_rows c w b w' :
  NoDup (cp_uri <$> catalog w) -> write_row c w = (Ok b, w') ->
  written c (catalog w) (catalog w') /\ beside_catalog w' = beside_catalog w /\
  db_capability_sources (w_db w') = db_capability_sources (w_db w) /\ db_capability_fts (w_db w') = db_capability_fts (w_db w).
Proof.
  intros Hnd E. unfold write_row in E. step_ok E as now w1 G. injection G as Hnow <-. step_ok E as id w1 G. injection G as Hid <-.
  step_ok E as e w1 G. injection G as He <-. step_ok E as stored w1 G. injection G as Hst <-. step_ok E as taken w1 G. injection G as _ <-.
  apply row_of_carries in He as Hc. destruct (negb (columns_ok e)); [discriminate E|]. destruct stored as [s|].
  - apply row_at_some in Hst as [Hs Hu]. destruct (row_differs s e) eqn:Ed; cbn [negb] in E.
    + destruct taken; [discriminate E|]. step_ok E as [] w1 G. injection G as <-. injection E as <- <-.
      split; [|done]. split.
      * intros r (x & Hx & ->)%elem_of_update_where. destruct (String.eqb_spec (cp_uri x) (c_uri c)); [right; by apply conflict_carries | by left].
      * intros r Hr Hne. apply elem_of_update_where. exists r. split; [done|]. by apply String.eqb_neq in Hne as ->.
      * exists (conflict_row s e now). split; [|by apply conflict_carries]. apply elem_of_update_where. exists s.
        split; [done|]. by rewrite Hu, String.eqb_refl.
      * cbn [catalog w_db upd]. change (NoDup (cp_uri <$> update_where (fun r => cp_uri r =s c_uri c) (fun r => conflict_row r e now) (catalog w))).
        rewrite update_where_uris; [done|]. intros r Hr%String.eqb_eq. destruct Hc as [Hcu _ _ _ _ _ _ _ _]. unfold conflict_row. cbn. congruence.
    + injection E as <- <-. apply row_differs_false in Ed. assert (carries c s) as Hcs by (eapply agrees_carries; [exact Ed | by rewrite Hu, (ca_uri _ _ Hc) | done]).
      split; [|done]. split; [| done | by exists s | done]. intros r Hr. destruct (String.eqb_spec (cp_uri r) (c_uri c)) as [Hr'|]; [right | by left].
      assert (r = s) as ->; [|done]. apply (key_unique cp_uri (catalog w)); [done..|]. congruence.
  - destruct taken; [discriminate E|]. step_ok E as [] w1 G. injection G as <-. injection E as <- <-.
    rewrite row_at_none in Hst. split; [|done]. split.
    + intros r [Hr|Hr%list_elem_of_singleton]%elem_of_app; [left; split; [done | by apply Hst] | by right; subst].
    + intros r Hr _. apply elem_of_app. by left.
    + exists e. split; [apply elem_of_app; right; by apply list_elem_of_singleton | done].
    + cbn [catalog w_db upd]. change (NoDup (cp_uri <$> (catalog w ++ [e]))). rewrite fmap_app. apply NoDup_app.
      split_and!; [done | | apply NoDup_singleton]. intros u (r & -> & Hr)%list_elem_of_fmap Hu%list_elem_of_singleton.
      apply (Hst r Hr). destruct Hc. congruence.
Qed.

(** ** The states of the written row *)

(** The states of a row follow its content: kept with the same content; with
    another one a good state falls back and any other is the incoming one. *)
Definition states (r : CapRow) : list string :=
  [cp_approval_state r; cp_share_state r; cp_signature_status r; cp_provenance_status r; cp_risk_review_status r].
Definition cap_states (c : Capability) : list string :=
  [c_approval_state c; c_share_state c; c_signature_status c; c_provenance_status c; c_risk_review_status c].
Definition good_states : list (string * string) :=
  [("approved", "pending"); ("shared", "not_shared"); ("verified", "pending"); ("verified", "pending"); ("approved", "pending")].
Fixpoint next_states (same_content : bool) (stored : list string) (good : list (string * string)) (incoming : list string) : list string :=
  match stored, good, incoming with
  | s :: stored', (g, f) :: good', i :: incoming' => state_case same_content s g f i :: next_states same_content stored' good' incoming'
  | _, _, _ => []
  end.
Definition state_rule (c : Capability) (s r : CapRow) : Prop :=
  states r = next_states (cp_content_hash s =s c_content_hash c) (states s) good_states (cap_states c).

Lemma next_states_same s c : next_states true (states s) good_states (cap_states c) = states s.
Proof. reflexivity. Qed.

Lemma write_row_states c w b w' :
  NoDup (cp_uri <$> catalog w) -> write_row c w = (Ok b, w') ->
  forall r, r ∈ catalog w' -> cp_uri r = c_uri c ->
  ((forall s, s ∈ catalog w -> cp_uri s <> c_uri c) /\ states r = cap_states c) \/
  exists s, s ∈ catalog w /\ cp_uri s = c_uri c /\ state_rule c s r.
Proof.
  intros Hnd E r Hr Hu. unfold write_row in E. step_ok E as now w1 G. injection G as Hnow <-. step_ok E as id w1 G. injection G as Hid <-.
  step_ok E as e w1 G. injection G as He <-. step_ok E as stored w1 G. injection G as Hst <-. step_ok E as taken w1 G. injection G as _ <-.
  apply row_of_carries in He as Hc. assert (states e = cap_states c) as Hes.
  { unfold row_of in He. apply obind_ok in He as (cat & _ & He). by injection He as <-. }
  destruct (negb (columns_ok e)); [discriminate E|]. destruct stored as [s|].
  - apply row_at_some in Hst as [Hs Hsu]. right. exists s. split; [done|]. split; [done|]. destruct (row_differs s e) eqn:Ed; cbn [negb] in E.
    + destruct taken; [discriminate E|]. step_ok E as [] w1 G. injection G as <-. injection E as <- <-.
      apply elem_of_update_where in Hr as (x & Hx & ->). destruct (String.eqb_spec (cp_uri x) (c_uri c)) as [Hxu|]; [|done].
      assert (x = s) as -> by (apply (key_unique cp_uri (catalog w)); [done..|congruence]).
      unfold states in Hes. injection Hes as H1 H2 H3 H4 H5. unfold state_rule, conflict_row, states, cap_states, good_states. cbn.
      rewrite <-(ca_hash _ _ Hc), H1, H2, H3, H4, H5. reflexivity.
    + injection E as <- <-. apply row_differs_false in Ed as [Hcol _ _ _]. unfold taken_columns in Hcol. injection Hcol as Hh.
      assert (r = s) as -> by (apply (key_unique cp_uri (catalog w)); [done..|congruence]).
      unfold state_rule. rewrite Hh, (ca_hash _ _ Hc), String.eqb_refl. by rewrite next_states_same.
  - destruct taken; [discriminate E|]. step_ok E as [] w1 G. injection G as <-. injection E as <- <-. left.
    rewrite row_at_none in Hst. split; [exact Hst|]. apply elem_of_app in Hr as [Hr|Hr%list_elem_of_singleton]; [by apply Hst in Hr | by subst].
Qed.

Section Upsert.
Context `{!Runtime, !Machine}.

Lemma clamp_carries c stored c' r : clamp_lifecycle c stored = Ok c' -> carries c' r <-> carries c r.
Proof.
  unfold clamp_lifecycle. destruct stored as [s|]; [|by intros [= <-]]. destruct (_ && _); [|by intros [= <-]].
  intros [-> _]%post_init_ok. split; intros []; by split.
Qed.

Lemma clamp_address c stored c' : clamp_lifecycle c stored = Ok c' -> c_uri c' = c_uri c.
Proof.
  unfold clamp_lifecycle. destruct stored as [s|]; [|by intros [= <-]]. destruct (_ && _); [|by intros [= <-]].
  by intros [-> _]%post_init_ok.
Qed.

Lemma written_as c c' before after : (forall r, carries c r <-> carries c' r) -> c_uri c = c_uri c' -> written c before after -> written c' before after.
Proof.
  intros Hc Hu []. split; [| | | done]; rewrite <-?Hu; [|done|].
  - intros r Hr. rewrite <-Hc. auto.
  - destruct wr_there0 as (r & Hr & Hcr). exists r. by rewrite <-Hc.
Qed.

(** The world besides the sources and the search index. *)
Definition unindexed (w : World) := (catalog w, beside_catalog w).

Lemma write_sources_unindexed u l : keeps unindexed (write_sources u l).
Proof. unfold keeps, write_sources. solve_frame. Qed.
Lemma write_fts_unindexed f : keeps unindexed (write_fts f).
Proof. unfold keeps, write_fts. solve_frame. Qed.
#[local] Hint Extern 1 (preserves _ (write_sources _ _)) => apply write_sources_unindexed : frame.
#[local] Hint Extern 1 (preserves _ (write_fts _)) => apply write_fts_unindexed : frame.

Lemma upsert_rows c w id w' :
  NoDup (cp_uri <$> catalog w) -> upsert_capability c w = (Ok id, w') ->
  exists c1, apply_default_user_namespace c = Ok c1 /\ written c1 (catalog w) (catalog w') /\ beside_catalog w' = beside_catalog w.
Proof.
  intros Hnd E. unfold upsert_capability in E. step_ok E as c1 w1 G. injection G as Hc1 <-. exists c1. split; [done|].
  step_ok E as existing w1 G. injection G as _ <-. cbv zeta in E.
  set (cap := match clamp_lifecycle c1 existing with Ok c => c | Raise _ => c1 end) in *.
  assert (forall r, carries cap r <-> carries c1 r) as Hcap.
  { subst cap. destruct (clamp_lifecycle c1 existing) eqn:Ec; [intros r; by eapply clamp_carries | done]. }
  assert (c_uri cap = c_uri c1) as Hu.
  { subst cap. destruct (clamp_lifecycle c1 existing) eqn:Ec; [by eapply clamp_address | done]. }
  step_ok E as wrote w1 G1. apply write_row_rows in G1 as (Hw & Hb & _ & _); [|done].
  assert (unindexed w' = unindexed w1) as Hrest.
  { eapply keeps_run; [|exact E]. unfold keeps. solve_frame. }
  pose proof (f_equal fst Hrest : catalog w' = catalog w1) as ->.
  pose proof (f_equal snd Hrest : beside_catalog w' = beside_catalog w1) as ->. split; [by eapply written_as | done].
Qed.

Lemma upsert_states c w id w' :
  NoDup (cp_uri <$> catalog w) -> upsert_capability c w = (Ok id, w') ->
  exists c1, apply_default_user_namespace c = Ok c1 /\ forall r, r ∈ catalog w' -> cp_uri r = c_uri c1 ->
    ((forall s, s ∈ catalog w -> cp_uri s <> c_uri c1) /\ states r = cap_states c1) \/
    exists s, s ∈ catalog w /\ cp_uri s = c_uri c1 /\ state_rule c1 s r.
Proof.
  intros Hnd E. unfold upsert_capability in E. step_ok E as c1 w1 G. injection G as Hc1 <-. exists c1. split; [done|].
  step_ok E as existing w1 G. injection G as _ <-. cbv zeta in E.
  set (cap := match clamp_lifecycle c1 existing with Ok c => c | Raise _ => c1 end) in *.
  assert (c_uri cap = c_uri c1 /\ cap_states cap = cap_states c1 /\ c_content_hash cap = c_content_hash c1) as (Hu & Hs & Hh).
  { subst cap. unfold clamp_lifecycle. destruct existing as [x|]; [|done]. destruct (_ && _); [|done].
    destruct (post_init _) eqn:Ep; [|done]. by apply post_init_ok in Ep as [-> _]. }
  step_ok E as wrote w1 G1. pose proof (write_row_states _ _ _ _ Hnd G1) as Hr.
  assert (unindexed w' = unindexed w1) as Hrest.
  { eapply keeps_run; [|exact E]. unfold keeps. solve_frame. }
  pose proof (f_equal fst Hrest : catalog w' = catalog w1) as ->. intros r Hin Hru. rewrite <-Hu in Hru.
  destruct (Hr r Hin Hru) as [[Hno Hst]|(s & Hs1 & Hs2 & Hs3)]; [left; rewrite <-Hu; split; [exact Hno | congruence]|]. right. exists s. split; [done|]. split; [congruence|].
  unfold state_rule in *. by rewrite <-Hs, <-Hh.
Qed.
End Upsert.

(** ** A row written again *)
Import SourceDemo.
Lemma suppressed_write_exact_witness : exists s e, row_of registry 1 "2026-01-01" = Ok s /\ row_of registry 2 "2026-01-02" = Ok e /\
  row_differs s e = false /\ upd cp_updated_at (cp_updated_at s) (conflict_row s e "2026-01-02") = s.
Proof.
  destruct (row_of registry 1 "2026-01-01") as [s|] eqn:Es; [|discriminate Es]. destruct (row_of registry 2 "2026-01-02") as [e|] eqn:Ee; [|discriminate Ee].
  exists s, e. assert (cp_uri s = cp_uri e) as Hu by (injection Es as <-; injection Ee as <-; reflexivity).
  assert (row_differs s e = false) as Hd by (injection Es as <-; injection Ee as <-; vm_compute; reflexivity).
  split; [reflexivity|]. split; [reflexivity|]. split; [exact Hd|]. apply (suppressed_write_exact s e "2026-01-02" Hu). exact Hd.
Defined.
