(* ===== verification/IngestProps.v ===== *)
(** * What ingestion guarantees

    New content is under quarantine before it can be served: after a successful
    run, a served capability that is neither of the system nor a promotion has
    the address and the content of a row that was there before. *)

From Stdlib Require Import ZArith Ascii String Lia.
From stdpp Require Import base option list strings gmap.
From S2P Require Import Prelude Sha256 PyStr Json Clock Ordering Db Models AccessControl RegistryLog Gates Signing SourceGates Superadmin Identity.
From S2P Require Import InstallGuards Catalog MalwareScan CapGuardPolicy Quarantine QuarantineProps Manifest ManifestProps VaultPlacement InstallPolicy CatalogWrites CatalogProps Ingest.
Local Open Scope string_scope.
Local Open Scope list_scope.

#[local] Opaque sha256_hex.

(** ** Identities *)

(** What the guards look at: address, content, tenant and kind. *)
Definition ident (c : Capability) : string * string * string * string :=
  (c_uri c, c_content_hash c, s_or (c_tenant_id c) "asg", c_source_kind c).
Definition row_ident (r : CapRow) : string * string * string * string :=
  (cp_uri r, cp_content_hash r, s_or (cp_tenant_id r) "asg", cp_source_kind r).
Definition promoted (c : Capability) : bool := is_some (c_promoted_from_uri c).
Definition row_promoted (r : CapRow) : bool := is_some (cp_promoted_from_uri r).

Lemma carries_ident c r : carries c r -> row_ident r = ident c.
Proof. intros []. unfold row_ident, ident. congruence. Qed.

(** The content is known at the address, of the system, or under quarantine. *)
Definition accounted (old : list CapRow) (Q : list QuarantineRow) (i : string * string * string * string) : Prop :=
  let '(uri, hash, tenant, kind) := i in
  (exists r, r ∈ old /\ cp_uri r = uri /\ cp_content_hash r = hash) \/ kind ∈ ["system_capability"; "capmesh_draft"] \/
  (exists q, q ∈ Q /\ qr_tenant_id q = tenant /\ qr_capability_uri q = uri /\ qr_content_hash q = hash /\ qr_status q = "quarantined").

Definition row_accounted old Q (r : CapRow) : Prop := accounted old Q (row_ident r) \/ row_promoted r = true.
Definition cap_accounted old Q (c : Capability) : Prop := accounted old Q (ident c) \/ promoted c = true.

Lemma carries_accounted old Q c r : carries c r -> cap_accounted old Q c -> row_accounted old Q r.
Proof. intros Hc [Ha|Hp]; [left; by rewrite (carries_ident c) | right; by apply Hc]. Qed.

Lemma accounted_grows old Q Q' i : (forall q, q ∈ Q -> q ∈ Q') -> accounted old Q i -> accounted old Q' i.
Proof. destruct i as [[[u h] t] k]. unfold accounted. naive_solver. Qed.

(** A served capability is a row of the catalog. *)
Lemma capability_of_row d asked c : get_capability d asked = Ok (Some c) ->
  exists r, r ∈ db_capabilities d /\ row_ident r = ident c /\ cp_promoted_from_uri r = c_promoted_from_uri c.
Proof.
  unfold get_capability. destruct (capability_row_for d asked) as [r|] eqn:Er; [|done]. intros E. reader_runs.
  destruct (_capguard_is_held d a); [done|]. injection E as ->. exists r. split.
  - unfold capability_row_for in Er. destruct (fetchone _ _) as [r'|] eqn:Ef; [injection Er as ->; by apply fetchone_some in Ef as [? _]|].
    assert (r ∈ sort_by (fun a b => negb (cp_source_system b =s "asg-os.plugins") || (cp_source_system a =s "asg-os.plugins"))
      (fetchall (fun r => (cp_name r =s asked) || (cp_title r =s asked)) (db_capabilities d))) as Hin.
    { destruct (sort_by _ _) as [|x l] in Er |- *; [done|]. injection Er as ->. left. }
    apply elem_of_sort_by in Hin. unfold fetchall in Hin. apply list_elem_of_In, List.filter_In in Hin as [Hin _]. by apply list_elem_of_In.
  - unfold capability_from_row in Ea. reader_runs. by apply post_init_ok in Ea as [-> _].
Qed.

(** ** Effective addresses *)
Section Settled.
Context `{!Runtime, !Machine}.

(** The default namespace leaves these where they are. *)
Definition settled (c : Capability) : bool :=
  ((c_source_kind c =s "system_capability") || startswith (c_uri c) "cap://system/")
  || (List.existsb (startswith (c_uri c)) ["cap://user/"; "cap://org/"; "cap://app/"; "cap://all/"]
      && (c_tenant_id c =s s_or (c_tenant_id c) DEFAULT_TENANT)).

Lemma s_or_again a b : s_or (s_or a b) b = s_or a b.
Proof. unfold s_or. destruct (truthy a) eqn:E; [by rewrite E | by destruct (truthy b)]. Qed.

Lemma default_facts c e : apply_default_user_namespace c = Ok e ->
  c_content_hash e = c_content_hash c /\ c_source_kind e = c_source_kind c /\ c_promoted_from_uri e = c_promoted_from_uri c /\
  (settled c = true -> ident e = ident c).
Proof.
  unfold apply_default_user_namespace, settled. cbv zeta. destruct (_ || startswith _ "cap://system/") eqn:Es; [by intros [= <-]|].
  cbn [orb]. destruct (List.existsb _ _) eqn:Ep; intros [-> _]%post_init_ok; [|done].
  split; [done|]. split; [done|]. split; [done|]. cbn [andb]. intros Ht%String.eqb_eq. unfold ident. cbn. unfold cap_tenant_of. by rewrite <-Ht.
Qed.

Lemma settled_at c p t : In p ["cap://user/"; "cap://org/"; "cap://app/"; "cap://all/"] -> c_uri c = p +:+ t ->
  c_tenant_id c = s_or (c_tenant_id c) DEFAULT_TENANT -> settled c = true.
Proof.
  intros Hp Hu Ht. unfold settled. rewrite <-Ht, String.eqb_refl, andb_true_r, Hu. apply orb_true_iff. right.
  apply List.existsb_exists. exists p. split; [done | apply startswith_app].
Qed.

Lemma prefix_kept t : rstrip_by (one_of "/") (default_user_namespace_prefix t) = default_user_namespace_prefix t.
Proof.
  unfold default_user_namespace_prefix, rstrip_by. rewrite srev_app_split.
  change (lstrip_by (one_of "/") (srev "/personal" ++ srev (default_user_store_prefix t))) with (srev "/personal" +:+ srev (default_user_store_prefix t)).
  by rewrite <-srev_app_split, srev_srev.
Qed.

Lemma default_settled c e : apply_default_user_namespace c = Ok e -> settled e = true.
Proof.
  unfold apply_default_user_namespace. cbv zeta. destruct (_ || startswith _ "cap://system/") eqn:Es.
  { intros [= <-]. unfold settled. by rewrite Es. }
  destruct (List.existsb _ _) eqn:Ep; intros [-> _]%post_init_ok.
  - unfold settled. cbn [c_uri c_tenant_id upd]. apply orb_true_iff. right. apply andb_true_iff. split; [exact Ep|].
    apply String.eqb_eq. symmetry. apply s_or_again.
  - destruct (negb (startswith (c_uri c) _)) eqn:Er.
    + eapply (settled_at _ "cap://user/"); [by left | reflexivity | symmetry; apply s_or_again].
    + exfalso. apply negb_false_iff, startswith_spec in Er as (t & Hu). rewrite prefix_kept in Hu.
      assert (exists x, c_uri c = "cap://user/" +:+ x) as (x & Hx) by (eexists; rewrite Hu; reflexivity).
      apply orb_false_iff in Ep as [Ep _]. by rewrite Hx, startswith_app in Ep.
Qed.

(** What deciding a placement leaves alone. *)
Definition shelf (w : World) : list CapRow * list QuarantineRow * gmap string FileNode :=
  (catalog w, db_capguard_quarantine (w_db w), w_files w).

Lemma placed_facts c vault tenant store ns uri e :
  placed_at c vault tenant store ns uri = Ok e ->
  c_uri e = uri /\ c_tenant_id e = tenant /\ c_content_hash e = c_content_hash c /\ c_source_kind e = c_source_kind c.
Proof. unfold placed_at. cbv zeta. intros [-> _]%post_init_ok. by destruct (is_draft c). Qed.

(** The namespace a vault stands for. *)
Definition vault_namespace (vault tenant_id tail : string) : Op (string * string * string) :=
  if vault =s "org" then
    let! _ := ensure_org_shared_namespace tenant_id in
    ret (org_store_id_of tenant_id, org_shared_namespace_id tenant_id, org_shared_namespace_prefix tenant_id +:+ "/" +:+ tail)
  else
    let! _ := ensure_all_users_namespace tenant_id in
    ret (all_users_store_id tenant_id, all_users_namespace_id tenant_id, all_users_namespace_prefix tenant_id +:+ "/" +:+ tail).

Lemma vault_namespace_shelf vault t tail : keeps shelf (vault_namespace vault t tail).
Proof.
  unfold keeps, vault_namespace, ensure_org_shared_namespace, ensure_all_users_namespace, ensure_default_tenant, bootstrap_tenant_row,
    bootstrap_default_identity, bootstrap_user_stores, bootstrap_org, insert_org_store, bootstrap_system, bootstrap_all_users,
    insert_store, insert_namespace. solve_frame.
Qed.

#[local] Hint Extern 1 (preserves (same shelf) (if _ =s "org" then _ else _)) => exact (vault_namespace_shelf _ _ _) : frame.
Lemma placement_shelf c index : keeps shelf (apply_vault_placement c index).
Proof.
  unfold keeps, apply_vault_placement. destruct (vault_of c index) as [vault|]; [|solve_frame]. destruct (risk_refused c vault); [solve_frame|].
  apply preserves_bind; [exact _ | exact (vault_namespace_shelf _ _ _)|]. intros [[store ns] uri]. solve_frame.
Qed.
Lemma effective_shelf index c : keeps shelf (effective_capability index c).
Proof. unfold keeps, effective_capability. apply preserves_bind; [exact _ | apply placement_shelf|]. solve_frame. Qed.

(** The result of the namespace step does not depend on the world. *)
Lemma vault_namespace_value vault t tail w r w' : vault_namespace vault t tail w = (Ok r, w') ->
  r = if vault =s "org" then (org_store_id_of t, org_shared_namespace_id t, org_shared_namespace_prefix t +:+ "/" +:+ tail)
      else (all_users_store_id t, all_users_namespace_id t, all_users_namespace_prefix t +:+ "/" +:+ tail).
Proof. unfold vault_namespace. intros E. destruct (vault =s "org"); step_ok E as x w1 G; by injection E. Qed.

(** The place of a capability depends on the catalog alone. *)
Lemma placement_value c index w o w' :
  apply_vault_placement c index w = (Ok o, w') ->
  o = None \/ exists vault e, o = Some e /\ vault_of c index = Some vault /\
    settled e = true /\ c_content_hash e = c_content_hash c /\ c_source_kind e = c_source_kind c.
Proof.
  unfold apply_vault_placement. destruct (vault_of c index) as [vault|]; [|intros [= <- _]; by left].
  destruct (risk_refused c vault); [intros [= <- _]; by left|]. intros E. step_ok E as ((store & ns) & uri) w1 G.
  step_ok E as col w2 G2. destruct col as [[]|]; [step_ok E as id w3 G3; injection E as <- _; by left|].
  step_ok E as e w3 G3. injection E as <- _. injection G3 as G3 _. right. exists vault, e. split; [done|]. split; [done|].
  apply (vault_namespace_value vault (cap_tenant_of c)) in G. apply placed_facts in G3 as (Hu & Ht & Hh & Hk).
  split; [|done]. assert (c_tenant_id e = s_or (c_tenant_id e) DEFAULT_TENANT) as Ht' by (rewrite Ht; symmetry; apply s_or_again).
  destruct (vault =s "org"); injection G as -> -> ->.
  - eapply (settled_at _ "cap://org/"); [right; by left | rewrite Hu; reflexivity | done].
  - eapply (settled_at _ "cap://all/"); [do 3 right; by left | rewrite Hu; reflexivity | done].
Qed.

Lemma placement_det c index w1 w2 o1 o2 w1' w2' : catalog w1 = catalog w2 ->
  apply_vault_placement c index w1 = (Ok o1, w1') -> apply_vault_placement c index w2 = (Ok o2, w2') -> o1 = o2.
Proof.
  intros Hcat. unfold apply_vault_placement. destruct (vault_of c index) as [vault|]; [|by intros [= <- _] [= <- _]].
  destruct (risk_refused c vault); [by intros [= <- _] [= <- _]|]. intros E1 E2.
  step_ok E1 as ((s1 & n1) & u1) v1 G1. step_ok E2 as ((s2 & n2) & u2) v2 G2.
  apply (keeps_run shelf) in G1 as Hv1; [|exact (vault_namespace_shelf _ _ _)].
  apply (keeps_run shelf) in G2 as Hv2; [|exact (vault_namespace_shelf _ _ _)].
  apply (vault_namespace_value vault (cap_tenant_of c)) in G1, G2. rewrite <-G2 in G1. injection G1 as -> -> ->.
  step_ok E1 as col1 v3 G3. injection G3 as Hc1 <-. step_ok E2 as col2 v4 G4. injection G4 as Hc2 <-.
  assert (catalog v1 = catalog v2) as Hv by (unfold shelf in Hv1, Hv2; congruence).
  assert (col1 = col2) as Heq by (rewrite <-Hc1, <-Hc2; unfold _vault_placement_collision; unfold catalog in Hv; by rewrite Hv).
  rewrite <-Heq in E2. clear Hc1 Hc2 Heq.
  destruct col1 as [[]|].
  - step_ok E1 as i1 v5 G5. step_ok E2 as i2 v6 G6. by injection E1 as <- _; injection E2 as <- _.
  - step_ok E1 as i1 v5 G5. step_ok E2 as i2 v6 G6. injection G5 as G5 _. injection G6 as G6 _. rewrite G5 in G6.
    injection E1 as <- _. injection E2 as <- _. by injection G6 as ->.
Qed.

Lemma effective_det index c w1 w2 e1 e2 w1' w2' : catalog w1 = catalog w2 ->
  effective_capability index c w1 = (Ok e1, w1') -> effective_capability index c w2 = (Ok e2, w2') -> e1 = e2.
Proof.
  intros Hcat E1 E2. unfold effective_capability in *. step_ok E1 as o1 v1 G1. step_ok E2 as o2 v2 G2.
  rewrite (placement_det _ _ _ _ _ _ _ _ Hcat G1 G2) in E1. destruct o2 as [p|].
  - injection E1 as <- _. by injection E2 as <- _.
  - injection E1 as E1 _. injection E2 as E2 _. rewrite E1 in E2. by injection E2.
Qed.

Lemma effective_facts index c w e w' : effective_capability index c w = (Ok e, w') ->
  settled e = true /\ c_content_hash e = c_content_hash c /\ c_source_kind e = c_source_kind c.
Proof.
  unfold effective_capability. intros E. step_ok E as o w1 G. apply placement_value in G as [->|(v & p & -> & _ & Hp)].
  - injection E as E _. split; [by eapply default_settled|]. apply default_facts in E. tauto.
  - by injection E as <- _.
Qed.
End Settled.

(** ** The quarantine of a batch *)
Section Quarantining.
Context `{!Runtime, !Machine, !UnicodeData}.

(** The catalog and the files stay, and held rows stay. *)
Record only_holds (w w' : World) : Prop := {
  oh_catalog : catalog w' = catalog w;
  oh_files : w_files w' = w_files w;
  oh_held : forall q, q ∈ db_capguard_quarantine (w_db w) -> q ∈ db_capguard_quarantine (w_db w')
}.
#[local] Instance only_holds_preorder : PreOrder only_holds.
Proof. split; [by split | intros x y z [] []; split; [congruence.. | auto]]. Qed.

Lemma shelf_holds {B} (m : Op B) w o w' : keeps shelf m -> m w = (o, w') -> only_holds w w'.
Proof. intros Hm E. apply (keeps_run shelf) in E; [|done]. unfold shelf in E. injection E as E1 E2 E3. split; [done..|]. by rewrite E2. Qed.

Lemma quarantine_files tenant uri kind name version path hash reason by_ metadata cm :
  keeps w_files (quarantine_capability tenant uri kind name version path hash reason by_ metadata cm).
Proof. unfold keeps, quarantine_capability, ensure_quarantine_tables, _audit, fetch_item. solve_frame. Qed.

Lemma tenant_default t : tenant_or_default (s_or t "asg") = s_or t "asg".
Proof. unfold tenant_or_default, s_or. destruct (truthy t) eqn:E; [by rewrite E | done]. Qed.

Lemma existing_identity d u h : _existing_capability_identity d !! u = Some h ->
  exists r, r ∈ db_capabilities d /\ cp_uri r = u /\ cp_content_hash r = h.
Proof. unfold _existing_capability_identity. intros (r & [= -> ->] & Hr)%elem_of_list_to_map_2%list_elem_of_fmap. by exists r. Qed.

Lemma quarantine_one_run index existing c w n w' :
  quarantine_one index existing c w = (Ok n, w') ->
  (forall u h, existing !! u = Some h -> exists r, r ∈ catalog w /\ cp_uri r = u /\ cp_content_hash r = h) ->
  only_holds w w' /\ forall v e v', catalog v = catalog w -> effective_capability index c v = (Ok e, v') ->
    accounted (catalog w) (db_capguard_quarantine (w_db w')) (ident e).
Proof.
  intros E Hex. unfold quarantine_one in E. destruct (_is_system_or_draft c) eqn:Ek.
  { injection E as _ <-. split; [reflexivity|]. intros v e v' _ (_ & _ & Hk)%effective_facts.
    right. left. rewrite Hk. by apply smem_In. }
  step_ok E as e1 w1 G. assert (only_holds w w1) as Hw1 by (eapply shelf_holds; [apply effective_shelf | exact G]).
  assert (forall v e v', catalog v = catalog w -> effective_capability index c v = (Ok e, v') -> e = e1) as Hdet.
  { intros v e v' Hv Ee. by apply (effective_det index c v w e e1 v' w1). }
  destruct (bool_decide_reflect (existing !! c_uri e1 = Some (c_content_hash e1))) as [Hin|_].
  { injection E as _ <-. split; [done|]. intros v e v' Hv Ee. rewrite (Hdet v e v' Hv Ee). left. by apply Hex. }
  step_ok E as d w2 G2. injection E as _ <-. apply (keeps_run w_files) in G2 as Hf; [|apply quarantine_files].
  apply hold_inv in G2 as (_ & _ & _ & Hrow). rewrite tenant_default in Hrow.
  assert (only_holds w1 w2 /\ exists q, q ∈ db_capguard_quarantine (w_db w2) /\ qr_tenant_id q = s_or (c_tenant_id e1) "asg" /\
    qr_capability_uri q = c_uri e1 /\ qr_content_hash q = c_content_hash e1 /\ qr_status q = "quarantined") as [Hw2 Hq].
  { destruct Hrow as [[Hh (q & Hin & Hq)] | (q & _ & Ht & Hu & Hc & Hs & Hh & _)]; unfold holdings in Hh; injection Hh as Hq1 _ Hc1.
    - split; [split; [done..|] | exists q]; rewrite Hq1; auto.
    - split; [split; [done..|] | exists q]; rewrite Hq1; [|split; [|done]]; [intros x Hx|]; apply elem_of_app;
        [by left | right; by apply list_elem_of_singleton]. }
  split; [by etrans|]. intros v e v' Hv Ee. rewrite (Hdet v e v' Hv Ee). right. right. exact Hq.
Qed.

Lemma quarantine_loop_run index existing caps counts w n w' :
  quarantine_loop index existing caps counts w = (Ok n, w') ->
  (forall u h, existing !! u = Some h -> exists r, r ∈ catalog w /\ cp_uri r = u /\ cp_content_hash r = h) ->
  only_holds w w' /\ forall c v e v', c ∈ caps -> catalog v = catalog w -> effective_capability index c v = (Ok e, v') ->
    accounted (catalog w) (db_capguard_quarantine (w_db w')) (ident e).
Proof.
  revert counts w. induction caps as [|c caps IH]; intros counts w E Hex; cbn [quarantine_loop] in E.
  { injection E as _ <-. split; [reflexivity|]. by intros c v e v' ?%elem_of_nil. }
  step_ok E as (q & f) w1 G. apply quarantine_one_run in G as [Hw1 Hc]; [|done].
  apply IH in E as [Hw2 Hcaps]; [|by rewrite (oh_catalog _ _ Hw1)]. split; [by etrans|].
  intros c' v e v' [->|Hin]%elem_of_cons Hv Ee.
  - eapply accounted_grows; [apply Hw2 | by eapply Hc].
  - rewrite <-(oh_catalog _ _ Hw1). eapply Hcaps; [done | by rewrite Hv, (oh_catalog _ _ Hw1) | done].
Qed.

Lemma placement_index_run pf w index w' : placement_index pf w = (Ok index, w') -> w' = w /\ load_vault_placement_index (w_files w !! resolve_path pf) = Ok index.
Proof. unfold placement_index. intros E. step_ok E as fs w1 G. injection G as <- <-. injection E as E <-. done. Qed.

(** After the quarantine step the batch is accounted for. *)
Lemma quarantined_batch caps pf w n w' :
  _quarantine_new_capabilities caps pf w = (Ok n, w') ->
  only_holds w w' /\ forall index c v e v', load_vault_placement_index (w_files w !! resolve_path pf) = Ok index ->
    c ∈ caps -> catalog v = catalog w -> effective_capability index c v = (Ok e, v') ->
    accounted (catalog w) (db_capguard_quarantine (w_db w')) (ident e).
Proof.
  unfold _quarantine_new_capabilities. intros E. step_ok E as index w1 G. apply placement_index_run in G as [-> Hi].
  step_ok E as existing w1 G. injection G as <- <-. step_ok E as counts w1 G. step_ok E as u w2 G2. injection G2 as _ <-. injection E as _ <-.
  apply quarantine_loop_run in G as [Hw Hc]; [|by intros u' h ?%existing_identity]. split; [by destruct Hw|].
  intros index' c v e v' Hi'. rewrite Hi in Hi'. injection Hi' as <-. apply Hc.
Qed.
End Quarantining.

(** ** The write of a batch *)
Section Writing.
Context `{!Runtime, !Machine, !VectorStore} (old : list CapRow) (Q : list QuarantineRow).

(** Addresses are unique and every row is accounted for. *)
Record in_order (w : World) : Prop := {
  io_held : db_capguard_quarantine (w_db w) = Q;
  io_unique : NoDup (cp_uri <$> catalog w);
  io_rows : forall r, r ∈ catalog w -> row_accounted old Q r
}.

(** Rows that say the same of what the guards look at. *)
Lemma in_order_same w w' : in_order w -> db_capguard_quarantine (w_db w') = db_capguard_quarantine (w_db w) ->
  Forall2 (fun r r' => row_ident r' = row_ident r /\ cp_promoted_from_uri r' = cp_promoted_from_uri r) (catalog w) (catalog w') -> in_order w'.
Proof.
  intros [Hq Hu Hr] Hq' Hf. split; [congruence | |].
  - assert (cp_uri <$> catalog w' = cp_uri <$> catalog w) as ->; [|done].
    clear Hr Hu. induction Hf as [|r r' l l' [Hi _] _ IH]; [done|]. cbn. rewrite IH. unfold row_ident in Hi. congruence.
  - intros r' Hin. apply list_elem_of_lookup in Hin as [i Hi]. destruct (Forall2_lookup_r _ _ _ _ _ Hf Hi) as (r & Hri & He & Hp).
    apply list_elem_of_lookup_2, Hr in Hri. unfold row_accounted, row_promoted. by rewrite He, Hp.
Qed.

Lemma migrate_rows a b w w' : NoDup (cp_uri <$> catalog w) -> _migrate_canonical_uri a b w = (Ok tt, w') ->
  NoDup (cp_uri <$> catalog w') /\ (forall r, r ∈ catalog w' -> r ∈ catalog w \/ (a <> b /\ cp_uri r = b)) /\
  db_capguard_quarantine (w_db w') = db_capguard_quarantine (w_db w).
Proof.
  intros Hnd E. unfold _migrate_canonical_uri in E. destruct (String.eqb_spec a b) as [|Hab]; [injection E as <-; auto|].
  step_ok E as row w1 G. injection G as _ <-. destruct row as [row|]; [|injection E as <-; auto].
  step_ok E as u w1 G. injection G as _ <-. step_ok E as taken w2 G. injection G as Ht <-. destruct taken; [discriminate|].
  step_ok E as u' w2 G. injection G as _ <-.
  assert (keeps (fun w => (catalog w, db_capguard_quarantine (w_db w))) (move_references a b)) as Hk.
  { unfold keeps, move_references, move_objects. solve_frame. }
  apply (keeps_run _ _ _ _ _ Hk) in E. injection E as Hcat Hq. rewrite Hcat, Hq. split; [|split; [|reflexivity]].
  - change (NoDup (cp_uri <$> update_where (fun r => cp_uri r =s a) (fun r => upd cp_uri b r) (catalog w))).
    assert (forall r, r ∈ catalog w -> cp_uri r <> b) as Hfree.
    { apply row_at_none. change (is_some (row_at (w_db w) b) = false) in Ht. by destruct (row_at (w_db w) b). }
    clear -Hnd Hfree. unfold update_where. induction (catalog w) as [|r l IH]; [done|]. cbn in *. apply NoDup_cons in Hnd as [Hr Hnd].
    constructor; [|apply IH; [done | intros x Hx; apply Hfree; by right]].
    intros (x & Hx & (y & -> & Hy)%list_elem_of_fmap)%list_elem_of_fmap.
    assert (cp_uri y <> b) as Hyb by (apply Hfree; by right). assert (cp_uri r <> b) as Hrb by (apply Hfree; by left).
    destruct (String.eqb_spec (cp_uri r) a), (String.eqb_spec (cp_uri y) a); cbn in Hx; try congruence.
    + apply Hr. rewrite e, <-e0. by apply list_elem_of_fmap_2.
    + apply Hr. rewrite Hx. by apply list_elem_of_fmap_2.
  - intros r (x & Hx & ->)%elem_of_update_where. destruct (cp_uri x =s a); [by right | by left].
Qed.

Lemma hold_facts held c c' : hold held c = Ok c' -> ident c' = ident c /\ c_promoted_from_uri c' = c_promoted_from_uri c /\ settled c' = settled c.
Proof. unfold hold. destruct held; [intros [-> _]%post_init_ok | intros [= <-]]; done. Qed.

Lemma promotion_facts previous c c' : at_promotion previous c = Ok c' ->
  c' = c \/ (promoted c' = true /\ exists r, previous = Some r /\ c_uri c' = cp_uri r).
Proof.
  unfold at_promotion. destruct previous as [r|]; [|intros [= <-]; by left]. destruct (otruthy (cp_promoted_from_uri r)) eqn:Eo; cbn [andb];
    [|intros [= <-]; by left]. destruct (_ =s _); [intros [-> _]%post_init_ok | intros [= <-]; by left].
  right. split; [|by exists r]. unfold promoted. cbn. by destruct (cp_promoted_from_uri r).
Qed.

Lemma mark_in_order id w w' o : in_order w -> _mark_vector_failure id w = (o, w') -> in_order w'.
Proof.
  intros Hw. unfold _mark_vector_failure. unfold bind at 1, query at 1, gets at 1. destruct (fetchone _ _) as [r|]; [|by intros [= _ <-]].
  destruct (match jget _ _ with JStr s => _ | _ => _ end); [by intros [= _ <-]|]. unfold bind, sql_now, gets, update_rows, set_db, modify. intros [= _ <-].
  apply (in_order_same w); [done..|]. cbn. unfold update_where, catalog. apply Forall2_fmap_r, Forall_Forall2_diag, Forall_forall.
  intros x _. unfold compose. destruct (cp_rowid x =? id)%Z; split; reflexivity.
Qed.

Lemma index_vector_in_order b id c u t w t' w' : in_order w -> index_vector b id c u t w = (Ok t', w') -> in_order w'.
Proof.
  intros Hw E. unfold index_vector in E. destruct (_ || _); [by injection E as _ <-|]. destruct (vector_written _ _ _ _); [by injection E as _ <-|].
  step_ok E as u' w1 G. apply mark_in_order in G; [|done]. by injection E as _ <-.
Qed.

Lemma count_run previous c t w t' w' : count_previous previous c t w = (Ok t', w') -> NoDup (cp_uri <$> catalog w) ->
  NoDup (cp_uri <$> catalog w') /\ db_capguard_quarantine (w_db w') = db_capguard_quarantine (w_db w) /\
  forall r, r ∈ catalog w' -> r ∈ catalog w \/ (exists p, previous = Some p /\ cp_uri p <> c_uri c /\ cp_uri r = c_uri c).
Proof.
  intros E Hnd. unfold count_previous in E. destruct previous as [p|]; [|injection E as _ <-; auto].
  step_ok E as u w1 G. destruct u. injection E as _ <-. apply migrate_rows in G as (Hu & Hr & Hq); [|done].
  split; [done|]. split; [done|]. intros r [Hin|[Hne Hr']]%Hr; [by left | right; by exists p].
Qed.

(** Writing an effective capability that is accounted for keeps the order. *)
Lemma upsert_one_in_order ve e t w t' w' :
  in_order w -> settled e = true -> cap_accounted old Q e -> upsert_one ve e t w = (Ok t', w') -> in_order w'.
Proof.
  intros [Hq Hu Hr] Hs Ha E. unfold upsert_one in E. step_ok E as previous w1 G. injection G as _ <-.
  step_ok E as e1 w1 G. injection G as Hp <-. step_ok E as text w1 G. injection G as _ <-. step_ok E as t1 w1 G.
  apply count_run in G as (Hu1 & Hq1 & Hr1); [|done]. step_ok E as held w2 G. injection G as _ <-.
  step_ok E as e2 w2 G. injection G as (Hi2 & Hp2 & Hs2)%hold_facts <-. step_ok E as id w2 G.
  apply upsert_rows in G as (c & Hc & [Heach Hoth Hthere Huniq] & Hbeside); [|done].
  apply default_facts in Hc as (_ & _ & Hpc & Hic).
  assert (db_capguard_quarantine (w_db w2) = Q) as Hq2.
  { rewrite <-Hq, <-Hq1. change (db_capguard_quarantine (beside_catalog w2).1.1.1.1 = db_capguard_quarantine (beside_catalog w1).1.1.1.1).
    by rewrite Hbeside. }
  assert (cap_accounted old Q c /\ (c_uri c = c_uri e1 \/ forall p, previous = Some p -> cp_uri p = c_uri e1)) as [Hac Hplace].
  { apply promotion_facts in Hp as [->|(Hp & p & -> & Hpu)].
    - rewrite Hs2 in Hic. specialize (Hic Hs). rewrite Hi2 in Hic. split; [|left; unfold ident in Hic; congruence].
      destruct Ha as [Ha|Ha]; [left; by rewrite Hic | right]. unfold promoted in *. by rewrite Hpc, Hp2.
    - split; [right; unfold promoted in *; by rewrite Hpc, Hp2 | right; by intros p' [= <-]]. }
  assert (in_order w2) as Hw2.
  { split; [done..|]. intros r [[Hin Hne]|Hcar]%Heach; [|by eapply carries_accounted].
    apply Hr1 in Hin as [Hin|(p & -> & Hpu & Hru)]; [by apply Hr|]. exfalso.
    assert (c_uri e2 = c_uri e1) as Hu2 by (unfold ident in Hi2; congruence). destruct Hplace as [Hpl|Hpl]; [congruence | by rewrite (Hpl p) in Hpu]. }
  destruct (_ || _); [by injection E as _ <-|]. step_ok E as tx w3 G. injection G as _ <-. by eapply index_vector_in_order.
Qed.
End Writing.

(** ** The run *)
Section Run.
Context `{!Runtime, !Machine, !UnicodeData, !VectorStore}.

Lemma discarding_ok {A} (m : Op A) w a w' : discarding m w = (Ok a, w') -> m w = (Ok a, w').
Proof. unfold discarding, try_except. destruct (m w) as [[x|e] w1]; [done|]. unfold bind, rollback, modify, raise. by intros [=]. Qed.

Lemma upsert_all_in_order old Q ve caps t w t' w' :
  in_order old Q w -> Forall (fun e => settled e = true /\ cap_accounted old Q e) caps -> upsert_all ve caps t w = (Ok t', w') -> in_order old Q w'.
Proof.
  revert t w. induction caps as [|c caps IH]; intros t w Hw Hcaps E; cbn [upsert_all] in E; [by injection E as _ <-|].
  apply Forall_cons in Hcaps as [[Hs Ha] Hcaps]. step_ok E as t1 w1 G. apply IH in E; [done | by eapply upsert_one_in_order | done].
Qed.

Lemma delete_orphans_rows rows n w n' w' : delete_orphans rows n w = (Ok n', w') ->
  db_capguard_quarantine (w_db w') = db_capguard_quarantine (w_db w) /\ forall r, r ∈ catalog w' -> r ∈ catalog w.
Proof.
  revert n w. induction rows as [|r rows IH]; intros n w E; cbn [delete_orphans] in E; [by injection E as _ <-|].
  step_ok E as active w1 G. injection G as _ <-. destruct active; [|discriminate]. step_ok E as u w1 G. injection G as _ <-.
  step_ok E as u' w1 G. injection G as _ <-. apply IH in E as [Hq Hr]. split; [exact Hq|].
  intros x [Hx _]%Hr%list_elem_of_In%List.filter_In. by apply list_elem_of_In.
Qed.

(** The merge by address keeps one capability of each group, its metadata apart. *)
Lemma merge_aliases_from uri caps m x : merge_aliases uri caps = Ok m -> x ∈ m -> exists c md, c ∈ caps /\ (x = c \/ x = upd c_metadata md c).
Proof.
  assert (forall c, merge_aliases uri [c] = Ok m -> x ∈ m -> exists c' md, c' ∈ [c] /\ (x = c' \/ x = upd c_metadata md c')) as Hone.
  { intros c [= <-] ->%list_elem_of_singleton. exists c, JNull. split; [left | by left]. }
  assert (forall w t, sort_by (le_by alias_compare) caps = w :: t -> w ∈ caps) as Hw.
  { intros w t Es. rewrite <-(elem_of_sort_by (le_by alias_compare)), Es. left. }
  destruct caps as [|c [|c' caps]]; [by intros [= <-] ?%elem_of_nil | by apply Hone |].
  unfold merge_aliases. destruct (sort_by _ _) as [|w t]; [by intros [= <-] ?%elem_of_nil|]. specialize (Hw w t eq_refl).
  destruct (_ && _); [discriminate|]. intros E. reader_runs. injection E as <-. apply post_init_ok in Ea0 as [-> _].
  intros ->%list_elem_of_singleton. exists w. eexists. split; [done | by right].
Qed.

Lemma merge_groups_from groups m x : merge_groups groups = Ok m -> x ∈ m ->
  exists k caps c md, (k, caps) ∈ groups /\ c ∈ caps /\ (x = c \/ x = upd c_metadata md c).
Proof.
  revert m. induction groups as [|[k caps] groups IH]; intros m E Hx; cbn in E; [injection E as <-; by apply elem_of_nil in Hx|].
  reader_runs. injection E as <-. apply elem_of_app in Hx as [Hx|Hx].
  - destruct (merge_aliases_from _ _ _ _ Ea Hx) as (c & md & Hc & Hm). exists k, caps, c, md. split; [left | done].
  - destruct (IH _ Ea0 Hx) as (k' & caps' & c & md & Hin & H'). exists k', caps', c, md. split; [by right | done].
Qed.

Lemma merged_from caps m x : _merge_by_effective_uri caps = Ok m -> x ∈ m -> exists c md, c ∈ caps /\ (x = c \/ x = upd c_metadata md c).
Proof.
  intros E Hx. destruct (merge_groups_from _ _ _ E Hx) as (k & g & c & md & Hin & Hc & Hm). exists c, md. split; [|done].
  apply elem_of_sort_by in Hin. rewrite group_by_map in Hin. apply list_elem_of_fmap in Hin as (k' & [= -> ->] & _).
  by apply elem_of_list_filter_b in Hc as [_ Hc].
Qed.

Lemma effective_all index caps w es w' : mapM (effective_capability index) caps w = (Ok es, w') ->
  shelf w' = shelf w /\ forall e, e ∈ es -> exists c v v', c ∈ caps /\ catalog v = catalog w /\ effective_capability index c v = (Ok e, v').
Proof.
  revert w es. induction caps as [|c caps IH]; intros w es E; cbn [mapM] in E.
  { injection E as <- <-. split; [done | by intros e ?%elem_of_nil]. }
  step_ok E as e w1 G. step_ok E as es' w2 G2. injection E as <- <-. apply IH in G2 as [Hs Hes].
  apply (keeps_run shelf) in G as Hs1; [|apply effective_shelf]. split; [congruence|].
  intros x [->|Hx]%elem_of_cons; [exists c, w, w1; split_and!; [left | done | done]|].
  destruct (Hes x Hx) as (c' & v & v' & Hc & Hv & Hrun). exists c', v, v'. split_and!; [by right | | done].
  rewrite Hv. unfold shelf in Hs1. congruence.
Qed.
Lemma written_batch old Q caps ve pf w r w' :
  in_order old Q w -> _upsert_discovered caps ve pf w = (Ok r, w') ->
  (forall index c v e v', load_vault_placement_index (w_files w !! resolve_path pf) = Ok index -> c ∈ caps -> catalog v = catalog w ->
     effective_capability index c v = (Ok e, v') -> accounted old Q (ident e)) ->
  db_capguard_quarantine (w_db w') = Q /\ forall r, r ∈ catalog w' -> row_accounted old Q r.
Proof.
  intros Hw E Hcaps. unfold _upsert_discovered in E. step_ok E as index w1 G. apply placement_index_run in G as [-> Hi].
  step_ok E as es w1 G. apply effective_all in G as [Hs Hes]. step_ok E as merged w2 G. injection G as Hm <-.
  step_ok E as t w2 G. step_ok E as removed w3 G2. injection E as _ <-.
  assert (in_order old Q w1) as Hw1.
  { unfold shelf in Hs. injection Hs as Hcat Hq _. destruct Hw as [Hq0 Hu Hr]. split; [congruence | by rewrite Hcat | by rewrite Hcat]. }
  assert (Forall (fun e => settled e = true /\ cap_accounted old Q e) merged) as Hmerged.
  { apply Forall_forall. intros x Hx. destruct (merged_from _ _ _ Hm Hx) as (e & md & He & Hxe).
    destruct (Hes e He) as (c & v & v' & Hc & Hv & Hrun). apply effective_facts in Hrun as Hset. destruct Hset as (Hset & _).
    pose proof (Hcaps index c v e v' Hi Hc Hv Hrun) as Hacc. destruct Hxe as [-> | ->]; split; [done | by left | exact Hset | by left]. }
  apply (upsert_all_in_order old Q) in G; [|done..]. unfold _delete_source_orphaned_capabilities in G2. step_ok G2 as rows w4 G3.
  injection G3 as _ <-. apply delete_orphans_rows in G2 as [Hq Hr]. destruct G as [Hq2 _ Hr2]. split; [congruence|].
  intros x Hx. by apply Hr2, Hr.
Qed.

Lemma rows_admitted caps roots w l w' : _enforce_install_guards caps roots w = (Ok l, w') -> w' = w.
Proof.
  unfold _enforce_install_guards. intros E. step_ok E as rows w1 G. injection G as _ <-. step_ok E as fs w1 G. injection G as _ <-.
  by injection E as _ <-.
Qed.

(** After a run every row is accounted for. *)
Lemma batch_accounted caps roots pf ve post w res w' :
  keeps catalog post -> keeps (tbl db_capguard_quarantine) post -> NoDup (cp_uri <$> catalog w) ->
  ingest_batch caps roots pf ve post w = (Ok res, w') ->
  forall r, r ∈ catalog w' -> row_accounted (catalog w) (db_capguard_quarantine (w_db w')) r.
Proof.
  intros Hpc Hpq Hnd E. unfold ingest_batch in E. step_ok E as admitted w1 G. apply discarding_ok, rows_admitted in G as ->.
  step_ok E as quarantined w1 G. apply discarding_ok, quarantined_batch in G as [[Hcat Hfiles _] Hcaps].
  step_ok E as before w2 G. injection G as _ <-. apply discarding_ok in E. step_ok E as (tally & removed) w2 G.
  apply (written_batch (catalog w) (db_capguard_quarantine (w_db w1))) in G as [Hq Hr].
  - step_ok E as u w3 G3. apply (keeps_run _ _ _ _ _ Hpc) in G3 as Hc3. apply (keeps_run _ _ _ _ _ Hpq) in G3 as Hq3. clear G3.
    assert (keeps (fun w => (catalog w, db_capguard_quarantine (w_db w)))
      (let! generation := _record_catalog_generation in let! _ := commit in let! after := query _live_capability_count in
       ret (mkIngestResult tally removed quarantined before after generation))) as Hk.
    { unfold keeps, _record_catalog_generation, refresh_catalog_generation, set_meta. solve_frame. }
    apply (keeps_run _ _ _ _ _ Hk) in E. injection E as Hc4 Hq4. unfold tbl in Hq3. rewrite Hc4, Hq4, Hc3, Hq3, Hq. exact Hr.
  - split; [done | by rewrite Hcat |]. intros r Hr. left. rewrite Hcat in Hr. left. by exists r.
  - intros index c v e v' Hi Hc Hv Hrun. rewrite Hcat in Hv. rewrite Hfiles in Hi. by eapply Hcaps.
Qed.

(** C26: New content is never served unscanned.  After a successful ingest, whose
    hook at the end leaves the catalog and the quarantine alone, whatever name
    or address [get_capability] is asked for, the capability it gives was
    in the catalog before the run under the same address with the same content,
    or it is a built-in or a draft of the mesh, or it is the product of a
    promotion; anything else is under quarantine and hidden. *)
Theorem ingested_content_held caps roots pf ve post w res w' asked c :
  keeps catalog post -> keeps (tbl db_capguard_quarantine) post -> NoDup (cp_uri <$> catalog w) ->
  ingest_batch caps roots pf ve post w = (Ok res, w') -> get_capability (w_db w') asked = Ok (Some c) ->
  c_promoted_from_uri c = None -> _is_system_or_draft c = false ->
  exists r, r ∈ catalog w /\ cp_uri r = c_uri c /\ cp_content_hash r = c_content_hash c.
Proof.
  intros Hpc Hpq Hnd E Hget Hprom Hkind. pose proof (batch_accounted _ _ _ _ _ _ _ _ Hpc Hpq Hnd E) as Hacc.
  pose proof (held_hidden _ _ _ Hget) as Hfree. destruct (capability_of_row _ _ _ Hget) as (r & Hr & Hi & Hp).
  destruct (Hacc r Hr) as [Ha|Ha]; [|unfold row_promoted in Ha; by rewrite Hp, Hprom in Ha]. rewrite Hi in Ha.
  destruct Ha as [Hold|[Hk|(q & Hq & Ht & Hu & Hh & Hs)]]; [done | |].
  - apply smem_In in Hk. unfold _is_system_or_draft in Hkind. congruence.
  - exfalso. apply not_true_iff_false in Hfree. apply Hfree, exists_where_true. exists q. split; [done|].
    by rewrite Ht, Hu, Hh, Hs, !String.eqb_refl.
Qed.
End Run.

(** ** A skill, ingested and changed *)
Module IngestDemo.
#[export] Existing Instance Demo.runtime.
#[export] Existing Instance GuardDemo.machine.
#[export] Existing Instance GatesDemo.ascii_only.
#[export] Instance vectors : VectorStore := {| vector_written := fun _ _ _ _ => true |}.

Definition skill_path : string := "/caps/skill-registry/demo/skills/hello/SKILL.md".
Definition skill_file (description : string) : gmap string FileNode :=
  {[ skill_path := mkFileNode Regular 420 true
       ("---" +:+ newline +:+ "name: hello" +:+ newline +:+ "description: " +:+ description +:+ newline +:+ "---" +:+ newline +:+ "# Hello") ]}.
Definition run (w : World) : outcome IngestResult * World := ingest_index ["/caps/skill-registry"] "/none" true (ret tt) w.
Definition fresh : World := upd w_files (skill_file "Says hello") (Demo.world empty_db).
Definition once : World := (run fresh).2.
Definition private_uri : string := match catalog once with r :: _ => cp_uri r | [] => "" end.
(** The scan has released what the first run held. *)
Definition released : World :=
  upd w_db (upd db_capguard_quarantine ((fun q => upd qr_status "released" q) <$> db_capguard_quarantine (w_db once)) (w_db once)) once.
Definition found : list Capability :=
  match discover_capabilities (w_files fresh) ["/caps/skill-registry"] with Ok l => l | Raise _ => [] end.

(** The first run holds the skill, the second leaves it as it is. *)
Example new_skill_held :
  length found = 1 /\ is_ok (run fresh).1 = true /\ get_capability (w_db once) private_uri = Ok None /\
  (fun r => (cp_lifecycle r, cp_approval_state r)) <$> catalog once = [("draft", "pending")].
Proof. vm_compute. repeat split. Qed.

(** An approved promotion of the skill to the organization, and a change of its
    file: the changed content is in the catalog at the promoted address, its
    quarantine row names the private address, and it is served. *)
Definition org_uri : string := "cap://org/asg/the-company/eng/skill/demo.hello@0.1.0".
Definition promote (r : CapRow) : CapRow :=
  upd cp_promoted_from_uri (Some (cp_uri r)) (upd cp_uri org_uri (upd cp_approval_state "approved" (upd cp_lifecycle "published" r))).
Definition promoted_world : World :=
  upd w_db (upd db_capabilities (promote <$> catalog once) (upd db_capability_sources
    ((fun s => upd cs_uri org_uri s) <$> db_capability_sources (w_db once)) (w_db released))) released.
Definition changed : World := (run (upd w_files (skill_file "Says something else") promoted_world)).2.
Definition served (d : DB) (uri : string) : option (string * string) :=
  match get_capability d uri with Ok (Some c) => Some (c_uri c, c_description c) | _ => None end.

Example promoted_change_served :
  served (w_db changed) org_uri = Some (org_uri, "Says something else") /\
  (fun q => (qr_capability_uri q, qr_status q)) <$> db_capguard_quarantine (w_db changed) =
    [(private_uri, "released"); (private_uri, "quarantined")].
Proof. vm_compute. split; reflexivity. Qed.

(** The change took the approval; the next run, of unchanged files, moves the
    capability back to the private address. *)
Example promotion_lost :
  (fun r => (cp_uri r, cp_approval_state r)) <$> catalog changed = [(org_uri, "pending")] /\
  cp_uri <$> catalog (run changed).2 = [private_uri].
Proof. vm_compute. split; reflexivity. Qed.
End IngestDemo.
Import IngestDemo.

Lemma ingested_content_held_witness : exists res w' c,
  ingest_batch found ["/caps/skill-registry"] "/none" true (ret tt) released = (Ok res, w') /\
  get_capability (w_db w') private_uri = Ok (Some c) /\ exists r, r ∈ catalog released /\ cp_uri r = c_uri c /\ cp_content_hash r = c_content_hash c.
Proof.
  assert ((match ingest_batch found ["/caps/skill-registry"] "/none" true (ret tt) released with
           | (Ok _, w') => match get_capability (w_db w') private_uri with
                           | Ok (Some c) => is_none (c_promoted_from_uri c) && negb (_is_system_or_draft c) | _ => false end
           | _ => false end) = true) as RUN by (vm_compute; reflexivity).
  assert (NoDup (cp_uri <$> catalog released)) as Hnd by (apply (bool_decide_unpack (NoDup _)); vm_compute; exact I).
  destruct (ingest_batch found ["/caps/skill-registry"] "/none" true (ret tt) released) as [[res|e] w'] eqn:E; [|discriminate RUN].
  destruct (get_capability (w_db w') private_uri) as [[c|]|] eqn:G; [|discriminate RUN..].
  apply andb_true_iff in RUN as [Hp Hk]. exists res, w', c. split; [reflexivity|]. split; [exact G|].
  apply (ingested_content_held found ["/caps/skill-registry"] "/none" true (ret tt) released res w' private_uri c).
  - intros x. exact eq_refl.
  - intros x. exact eq_refl.
  - exact Hnd.
  - exact E.
  - exact G.
  - destruct (c_promoted_from_uri c); [discriminate Hp | exact eq_refl].
  - apply negb_true_iff. exact Hk.
Defined.
