(* ===== verification/Approvals.v ===== *)
(** * Reviews over the catalog ([lifecycle.py])

    Batches of reviews behind savepoints, the approval of a whole catalog as
    one transaction, the gates of a promotion request, the status of reviews
    and the verification of the catalog. *)

From Stdlib Require Import ZArith Ascii String Lia.
From stdpp Require Import base option list strings gmap.
From S2P Require Import Prelude Sha256 PyStr Json Clock Db Models AccessControl AccessSpec AccessProps.
From S2P Require Import RegistryLog Gates Signing SourceGates Catalog CapGuardPolicy Promotions Reviews Manifest.
Local Open Scope string_scope.
Local Open Scope list_scope.

Definition MAX_BATCH : Z := 500.

(** [ROLLBACK TO SAVEPOINT]: the connection sees the database as it was; the
    commits of [con.rollback] and of the program are in Db.v and Ingest.v. *)
Definition rollback_to (saved : DB) : Op unit := set_db (fun _ => saved).
(** [con.rollback()] *)
Definition rollback_all : Op unit := modify (fun w => upd w_db (w_disk w) w).

(** ** Batches *)
Record BatchResult : Type := mkBatchResult {
  ba_dry_run : bool; ba_include_approved : bool; ba_limit : Z; ba_items : list dict; ba_next : option string
}.
Definition item_flag (k : string) (item : dict) : bool := py_truthy (jget k item).
Definition count_items (p : dict -> bool) (items : list dict) : Z := Z.of_nat (length (List.filter p items)).
Definition ba_processed (b : BatchResult) : Z := Z.of_nat (length (ba_items b)).
Definition ba_passed (b : BatchResult) : Z := count_items (item_flag "passed") (ba_items b).
Definition ba_approved (b : BatchResult) : Z := count_items (item_flag "approved") (ba_items b).
Definition ba_failed (b : BatchResult) : Z := count_items (fun i => negb (item_flag "passed" i)) (ba_items b).
Definition jnext (o : option string) : json := match o with Some s => JStr s | None => JNull end.
Definition batch_record (b : BatchResult) : dict :=
  [("dryRun", JBool (ba_dry_run b)); ("includeApproved", JBool (ba_include_approved b)); ("limit", JNum (ba_limit b));
   ("items", JArr (JObj <$> ba_items b)); ("processed", JNum (ba_processed b)); ("passed", JNum (ba_passed b));
   ("approved", JNum (ba_approved b)); ("failed", JNum (ba_failed b)); ("nextAfterUri", jnext (ba_next b))].

(** [int(payload.get(key, default))] with its bounds and messages. *)
Definition bounded_int (payload : dict) (key : string) (default most : Z) : outcome Z :=
  let bad := ValueError (key +:+ " must be an integer between 1 and " +:+ str_of_Z most +:+ ".") in
  match py_int (match dget key payload with Some v => v | None => JNum default end) with
  | Raise (ValueError _) => Raise bad
  | Raise (OtherError m) => if startswith m "TypeError" then Raise bad else Raise (OtherError m)
  | Raise e => Raise e
  | Ok n => if Z.ltb n 1 || Z.ltb most n
            then Raise (ValueError (key +:+ " must be between 1 and " +:+ str_of_Z most +:+ ".")) else Ok n
  end.

Section Approvals.
Context `{!Runtime, !Machine, !UnicodeData}.

Definition principal_tenant (p : Principal) : string := s_or (p_tenant_id p) "asg".

(** The columns a review of the catalog asks for. *)
Definition evidence_ok (r : CapRow) : bool :=
  (cp_signature_status r =s "verified") && (cp_provenance_status r =s "verified") && (cp_risk_review_status r =s "approved").
Definition own_row (tenant : string) (r : CapRow) : bool :=
  (cp_tenant_id r =s tenant) && negb (cp_source_kind r =s "system_capability").
Definition reviewable (include_approved : bool) (r : CapRow) : bool :=
  if include_approved
  then smem (cp_approval_state r) ["approved"; "draft"; "pending"] && (negb (cp_approval_state r =s "approved") || negb (evidence_ok r))
  else smem (cp_approval_state r) ["draft"; "pending"].
Definition uri_le (a b : CapRow) : bool := sle (cp_uri a) (cp_uri b).
Definition review_rows (d : DB) (tenant : string) (include_approved : bool) (after_uri : string) (limit : Z) : list CapRow :=
  take (Z.to_nat (limit + 1)) (sort_by uri_le
    (fetchall (fun r => own_row tenant r && reviewable include_approved r && slt after_uri (cp_uri r)) (db_capabilities d))).

(** One capability of a batch; its failure undoes its own writes only. *)
Definition batch_item (p : Principal) (payload : dict) (dry_run : bool) (uri : string) : Op dict :=
  let! saved := query id in
  try_except (review p (dmerge payload [("capabilityUri", JStr uri); ("dryRun", JBool dry_run)]) false)
    (fun _ => true)
    (fun e =>
       let! _ := when (negb dry_run) (rollback_to saved) in
       ret [("capabilityUri", JStr uri); ("passed", JBool false); ("error", JStr (exn_text 300 e))]).

Definition review_batch_run (p : Principal) (payload : dict) (do_commit : bool) : Op BatchResult :=
  let! _ := _authorize p in
  let! limit := lift (bounded_int payload "limit" 100 MAX_BATCH) in
  let after_uri := str_get payload "afterUri" "" in
  let dry_run := match dget "dryRun" payload with Some v => py_truthy v | None => true end in
  let include_approved := match dget "includeApproved" payload with Some v => py_truthy v | None => false end in
  let! rows := query (fun d => review_rows d (principal_tenant p) include_approved after_uri limit) in
  let page := take (Z.to_nat limit) rows in
  let! items := mapM (fun r => batch_item p payload dry_run (cp_uri r)) page in
  let! _ := when (negb dry_run && do_commit) commit in
  ret (mkBatchResult dry_run include_approved limit items
    (if (Z.to_nat limit <? length rows)%nat then cp_uri <$> last page else None)).
Definition review_batch (p : Principal) (payload : dict) (do_commit : bool) : Op dict :=
  let! b := review_batch_run p payload do_commit in ret (batch_record b).

(** ** The whole catalog *)
Definition catalog_payload (after_uri : string) : dict :=
  [("dryRun", JBool false); ("includeApproved", JBool true); ("afterUri", JStr after_uri); ("limit", JNum MAX_BATCH)].

Record Totals : Type := mkTotals { tt_processed : Z; tt_passed : Z; tt_approved : Z; tt_failed : Z; tt_failures : list dict }.
Definition no_totals : Totals := mkTotals 0 0 0 0 [].
Definition add_page (t : Totals) (b : BatchResult) : Totals :=
  mkTotals (tt_processed t + ba_processed b) (tt_passed t + ba_passed b) (tt_approved t + ba_approved b)
    (tt_failed t + ba_failed b) (tt_failures t ++ List.filter (fun i => negb (item_flag "passed" i)) (ba_items b)).

(** The pages of the catalog, until one has no cursor. *)
Fixpoint catalog_pages (fuel : nat) (p : Principal) (after_uri : string) (t : Totals) : Op Totals :=
  match fuel with
  | O => raise (OtherError "out of fuel")
  | S fuel' =>
      let! page := review_batch_run p (catalog_payload after_uri) false in
      let t := add_page t page in
      match ba_next page with
      | Some cursor => if truthy cursor then catalog_pages fuel' p cursor t else ret t
      | None => ret t
      end
  end.

Definition compliant (r : CapRow) : bool :=
  (cp_approval_state r =s "approved") && (cp_lifecycle r =s "published") && evidence_ok r.
Definition noncompliant (d : DB) (tenant : string) : Z :=
  Z.of_nat (length (fetchall (fun r => own_row tenant r && negb (compliant r)) (db_capabilities d))).

Record CatalogApproval : Type := mkCatalogApproval { ca_totals : Totals; ca_remaining : Z; ca_catalog_approved : bool }.
Definition catalog_approval_record (a : CatalogApproval) : dict :=
  let t := ca_totals a in
  [("processed", JNum (tt_processed t)); ("passed", JNum (tt_passed t)); ("approved", JNum (tt_approved t));
   ("failed", JNum (tt_failed t)); ("remainingNonCompliant", JNum (ca_remaining a));
   ("catalogApproved", JBool (ca_catalog_approved a)); ("failures", JArr (JObj <$> take 100 (tt_failures t)));
   ("failuresTruncated", JBool (100 <? length (tt_failures t))%nat)].

Definition approve_catalog_run (p : Principal) (do_commit : bool) : Op CatalogApproval :=
  let! _ := _authorize p in
  let! rows := query db_capabilities in
  let! t := catalog_pages (S (length rows)) p "" no_totals in
  let! remaining := query (fun d => noncompliant d (principal_tenant p)) in
  let catalog_approved := Z.eqb (tt_failed t) 0 && Z.eqb remaining 0 in
  if negb do_commit then ret (mkCatalogApproval t remaining catalog_approved)
  else if catalog_approved then
    let! _ := commit in
    ret (mkCatalogApproval t remaining catalog_approved)
  else
    let! _ := rollback_all in
    let! remaining := query (fun d => noncompliant d (principal_tenant p)) in
    ret (mkCatalogApproval t remaining catalog_approved).
Definition approve_catalog (p : Principal) (do_commit : bool) : Op dict :=
  let! a := approve_catalog_run p do_commit in ret (catalog_approval_record a).

(** ** The gates of a promotion request *)
Definition gate_states (gates : dict) : outcome dict :=
  (fix go l := match l with
               | [] => Ok []
               | (name, g) :: l' =>
                   match g with
                   | JObj g => match dget "state" g with
                               | Some s => let? r := go l' in Ok ((name, s) :: r)
                               | None => Raise (KeyError "state")
                               end
                   | _ => Raise (OtherError "TypeError: indices must be integers")
                   end
               end) gates.
Definition gate_evidence (g : json) : json := match g with JObj g => jget "evidence" g | _ => JNull end.

(** The row of a gate: one per request, gate and content. *)
Definition record_gate_run (p : Principal) (request_id content_hash run_at : string) (attestation : dict) (gate : string * json) : Op unit :=
  let! id := new_id "pgr" in
  let! state := lift (match gate_state [gate] gate.1 with Some s => Ok s | None => Raise (KeyError "state") end) in
  let row := mkGateRunRow id request_id gate.1 content_hash state (_bounded_evidence (gate_evidence gate.2)) (p_subject p)
               run_at (_json (JObj attestation)) in
  upsert_row db_promotion_gate_runs
    (fun r => (pg_request_id r =s request_id) && (pg_gate_name r =s gate.1) && (pg_content_hash r =s content_hash)) row
    (fun r => upd pg_id (pg_id r) row).

Definition run_promotion_gates (p : Principal) (payload : dict) : Op dict :=
  let! _ := _authorize p in
  let request_id := strip (str_get2 payload "requestId" "id" "") in
  if negb (truthy request_id) then raise (ValueError "requestId is required.")
  else
    let! row := query (fun d => fetchone (fun r => (pr_id r =s request_id) && (pr_tenant_id r =s principal_tenant p)) (db_promotion_requests d)) in
    match row with
    | None => raise (ValueError "Promotion request not found.")
    | Some row =>
        if negb (pr_state row =s "pending") then raise (ValueError "Only pending promotion requests can run gates.")
        else
          let! found := query (fun d => get_capability d (pr_capability_uri row)) in
          let! found := lift found in
          match found with
          | None => raise (ValueError "Promotion source capability not found.")
          | Some c =>
              let target := match pr_target_namespace_id row with Some s => if truthy s then JStr s else JNull | None => JNull end in
              let! scoped := query (fun d => _scope_for d c target JNull) in
              let! (scope, namespace_id) := lift scoped in
              let exception := match dget "approvedRiskException" payload with Some v => py_truthy v | None => false end in
              let! (gates, attestation) := _evaluate c scope namespace_id (p_subject p) true exception in
              let! states := lift (gate_states gates) in
              let! run_at := lift (match attestation with Some _ => attestation_timestamp attestation | None => Ok "" end) in
              let! _ := forM gates (record_gate_run p request_id (c_content_hash c) run_at (or_else attestation [])) in
              let! _ := update_rows db_promotion_requests (fun r => pr_id r =s request_id)
                          (fun r => upd pr_gates_json (_json (JObj states)) r) in
              let passed := _all_passed gates in
              let! now := sql_now in
              let! _ := when passed (update_rows db_capabilities
                (fun r => (cp_uri r =s c_uri c) && (cp_content_hash r =s c_content_hash c))
                (fun r => upd cp_signature_status "verified" (upd cp_provenance_status "verified"
                  (upd cp_risk_review_status "approved" (upd cp_updated_at now r))))) in
              let! _ := audit_event "promotion.gates.completed" (p_subject p) (Some request_id) (Some "promotion.run")
                (Some (if passed then "allow" else "deny")) None
                [("capabilityUri", JStr (c_uri c)); ("contentHash", JStr (c_content_hash c)); ("gates", JObj states);
                 ("approvedRiskException", JBool exception)] (c_tenant_id c) "user" in
              let! _ := commit in
              ret [("requestId", JStr request_id); ("capabilityUri", JStr (c_uri c)); ("contentHash", JStr (c_content_hash c));
                   ("reviewScope", JStr scope); ("passed", JBool passed); ("gates", JObj gates)]
          end
    end.

(** ** Status *)

(** Whether the stored attestation verifies under the trusted key. *)
Definition stored_verifies (trusted_key : option string) (attestation_json : string) : outcome bool :=
  match trusted_key with
  | Some k =>
      if truthy k then
        let? v := json_loads_strict attestation_json in
        let? a := as_object v in
        Ok (verify_attestation a (Some k))
      else Ok false
  | None => Ok false
  end.
Definition review_status (current : option string) (trusted_key : option string) (r : ReviewRow) : outcome json :=
  let? evidence := json_loads_strict (cr_evidence_json r) in
  let? verified := stored_verifies trusted_key (cr_attestation_json r) in
  Ok (JObj [("contentHash", JStr (cr_content_hash r)); ("reviewScope", JStr (cr_review_scope r)); ("state", JStr (cr_gate_state r));
            ("reviewer", JStr (cr_reviewer r)); ("reviewedAt", JStr (cr_reviewed_at r)); ("evidence", evidence);
            ("attestationVerified", JBool verified);
            ("stale", JBool (match current with Some h => negb (cr_content_hash r =s h) | None => true end))]).
Definition run_status (trusted_key : option string) (r : GateRunRow) : outcome json :=
  let? evidence := json_loads_strict (pg_evidence_json r) in
  let? verified := stored_verifies trusted_key (pg_attestation_json r) in
  Ok (JObj [("gate", JStr (pg_gate_name r)); ("contentHash", JStr (pg_content_hash r)); ("state", JStr (pg_state r));
            ("runner", JStr (pg_runner r)); ("runAt", JStr (pg_run_at r)); ("evidence", evidence);
            ("attestationVerified", JBool verified)]).
Fixpoint omapM {A B} (f : A -> outcome B) (l : list A) : outcome (list B) :=
  match l with
  | [] => Ok []
  | x :: l' => let? y := f x in let? r := omapM f l' in Ok (y :: r)
  end.

Definition capability_reviews_of (d : DB) (tenant uri : string) : list ReviewRow :=
  take 20 (sort_by (fun a b => sle (cr_reviewed_at b) (cr_reviewed_at a))
    (fetchall (fun r => (cr_tenant_id r =s tenant) && (cr_capability_uri r =s uri)) (db_capability_reviews d))).
Definition gate_runs_of (d : DB) (request_id : string) : list GateRunRow :=
  take 100 (sort_by (fun a b => slt (pg_run_at b) (pg_run_at a) || ((pg_run_at a =s pg_run_at b) && sle (pg_gate_name a) (pg_gate_name b)))
    (fetchall (fun r => pg_request_id r =s request_id) (db_promotion_gate_runs d))).
Definition state_counts (d : DB) (tenant : string) : dict :=
  let rows := fetchall (fun r => cp_tenant_id r =s tenant) (db_capabilities d) in
  (fun s => (s, JNum (Z.of_nat (length (fetchall (fun r => cp_approval_state r =s s) rows)))))
    <$> sorted_strings (dedup (cp_approval_state <$> rows)).

Definition gate_status (p : Principal) (payload : dict) : Op dict :=
  let! _ := _authorize p in
  let tenant := principal_tenant p in
  let uri := strip (str_get2 payload "capabilityUri" "uri" "") in
  let request_id := strip (str_get payload "requestId" "") in
  let! trusted_key := try_except (let! k := trusted_signing_key_id in ret (Some k)) (fun _ => true) (fun _ => ret None) in
  let! reviews :=
    (if truthy uri then
       let! current := query (fun d => fetchone (fun r => (cp_tenant_id r =s tenant) && (cp_uri r =s uri)) (db_capabilities d)) in
       let! rows := query (fun d => capability_reviews_of d tenant uri) in
       let! items := lift (omapM (review_status (cp_content_hash <$> current) trusted_key) rows) in
       ret [("capabilityUri", JStr uri); ("reviews", JArr items)]
     else ret []) in
  let! runs :=
    (if truthy request_id then
       let! rows := query (fun d => gate_runs_of d request_id) in
       let! items := lift (omapM (run_status trusted_key) rows) in
       ret [("requestId", JStr request_id); ("promotionGates", JArr items)]
     else ret []) in
  if truthy uri || truthy request_id then ret (reviews ++ runs)
  else let! counts := query (fun d => state_counts d tenant) in ret [("counts", JObj counts)].

(** ** Verification *)

(** [len(gate.get("evidence", {}).get("warnings", ()))], summed over the gates. *)
Definition gate_warnings (g : json) : outcome Z :=
  match g with
  | JObj g =>
      match dget "evidence" g with
      | None => Ok 0%Z
      | Some (JObj e) => match dget "warnings" e with
                         | None => Ok 0%Z
                         | Some v => let? l := py_iter v in Ok (Z.of_nat (length l))
                         end
      | Some _ => Raise (OtherError "AttributeError: get")
      end
  | _ => Raise (OtherError "AttributeError: get")
  end.
Fixpoint warnings_of (gates : dict) : outcome Z :=
  match gates with
  | [] => Ok 0%Z
  | (_, g) :: gates' => let? n := gate_warnings g in let? m := warnings_of gates' in Ok (n + m)%Z
  end.
Definition failed_gates (gates : dict) : list string :=
  sorted_strings (fst <$> List.filter (fun g => negb (match gate_state [g] g.1 with Some s => s =s "passed" | None => false end)) gates).

Fixpoint verify_rows (p : Principal) (uris : list string) (warnings : Z) (failures : list dict) : Op (Z * list dict) :=
  match uris with
  | [] => ret (warnings, failures)
  | uri :: uris' =>
      let! result := review p [("capabilityUri", JStr uri); ("dryRun", JBool true)] false in
      let gates := match jget "gates" result with JObj g => g | _ => [] end in
      let! n := lift (warnings_of gates) in
      verify_rows p uris' (warnings + n)
        (if py_truthy (jget "passed" result) then failures
         else failures ++ [[("capabilityUri", jget "capabilityUri" result); ("failedGates", jstrs (failed_gates gates))]])
  end.

Definition verify_catalog (p : Principal) (options : dict) : Op dict :=
  let! _ := _authorize p in
  let! maximum := lift (bounded_int options "maxCapabilities" 10000 10000) in
  let! rows := query (fun d => take (Z.to_nat (maximum + 1)) (sort_by uri_le (fetchall (own_row (principal_tenant p)) (db_capabilities d)))) in
  if (Z.to_nat maximum <? length rows)%nat
  then raise (ValueError ("Catalog contains more than maxCapabilities=" +:+ str_of_Z maximum +:+ "; increase the explicit bound."))
  else
    let! (warnings, failures) := verify_rows p (cp_uri <$> rows) 0 [] in
    let processed := Z.of_nat (length rows) in
    let failed := Z.of_nat (length failures) in
    ret [("dryRun", JBool true); ("processed", JNum processed); ("passed", JNum (processed - failed)); ("failed", JNum failed);
         ("warnings", JNum warnings); ("catalogPassed", JBool (Z.eqb failed 0)); ("failures", JArr (JObj <$> take 100 failures));
         ("failuresTruncated", JBool (100 <? length failures)%nat)].

Definition dispatch_gate_action (p : Principal) (payload : dict) : Op dict :=
  let action := lower (strip (str_get payload "action" "status")) in
  if action =s "review" then review p payload true
  else if action =s "review-batch" then review_batch p payload true
  else if action =s "promotion.run" then run_promotion_gates p payload
  else if action =s "status" then gate_status p payload
  else if action =s "verify-catalog" then verify_catalog p payload
  else raise (ValueError "system.gates action must be review, review-batch, promotion.run, status, or verify-catalog.").
End Approvals.
