(* ===== verification/ApprovalProps.v ===== *)
(** * Batches and catalog approvals: what they change ([lifecycle.py])

    A batch changes a capability only on the evidence of a review, the walk
    over the catalog ends, the approval of a catalog is all or nothing, and
    the gates of a promotion request touch the verification columns of the
    reviewed content alone. *)

From Stdlib Require Import ZArith Ascii String Lia.
From stdpp Require Import base option list strings gmap.
From S2P Require Import Prelude Sha256 PyStr Json Clock Db Models AccessControl AccessSpec AccessProps Ordering Dicts.
From S2P Require Import RegistryLog Gates Signing SourceGates Catalog CapGuardPolicy Promotions Reviews Manifest.
From S2P Require Import ReviewProps Approvals.
Local Open Scope string_scope.
Local Open Scope list_scope.

#[local] Opaque sha256_hex.

Ltac next := apply preserves_bind; [exact _ | | ].

Lemma slt_trans a b c : slt a b = true -> slt b c = true -> slt a c = true.
Proof. rewrite !slt_compare. apply (ord_trans a b c Lt). Qed.
Lemma slt_irrefl a : slt a a = false.
Proof. apply not_true_iff_false. rewrite slt_compare, (ord_refl String.compare). discriminate. Qed.

Lemma filter_length_le {A} (f : A -> bool) l : (length (List.filter f l) <= length l)%nat.
Proof. induction l as [|x l IH]; cbn; [lia|]. destruct (f x); cbn; lia. Qed.

Section Frames.
Context `{!Runtime, !Machine, !UnicodeData}.

(** ** What a review leaves alone, whatever its outcome *)

(** The addresses of the catalog, in order. *)
Definition uris (w : World) : list string := cp_uri <$> db_capabilities (w_db w).

Lemma update_where_column {A B} (f : A -> B) p g t :
  (forall r, f (g r) = f r) -> f <$> update_where p g t = f <$> t.
Proof.
  intros Hf. induction t as [|r t IH]; cbn; [done|]. unfold update_where in IH. destruct (p r); cbn; by rewrite ?Hf, IH.
Qed.

(** A part of the world that reviews keep: it is not concerned by signing,
    logging, the reviews and the approval columns. *)
Record unreviewed {A} (f : World -> A) : Prop := {
  ur_quiet : forall w w', quiet w w' -> f w' = f w;
  ur_off_disk : forall w w', off_disk w' = off_disk w -> f w' = f w;
  ur_review : forall clash r, keeps f (insert_or_ignore db_capability_reviews clash r);
  ur_approve : forall p c now, keeps f (update_rows db_capabilities p (reviewed c now));
  ur_verify : forall p now, keeps f (update_rows db_capabilities p (fun r =>
    upd cp_signature_status "verified" (upd cp_provenance_status "verified"
      (upd cp_risk_review_status "approved" (upd cp_updated_at now r)))));
  ur_log : forall ev a t ac de re pl tn ty, keeps f (audit_event ev a t ac de re pl tn ty);
  ur_id : forall prefix, keeps f (new_id prefix)
}.

Lemma evaluate_off_disk c scope target reviewer persist exception :
  keeps off_disk (_evaluate c scope target reviewer persist exception).
Proof.
  unfold keeps, _evaluate, signature_gate. solve_frame; try apply sign_off_disk; try by intros w.
  intros w. destruct (_source_bytes c w) as [[[o g]|e] w'] eqn:E; cbn.
  - apply source_bytes_inv in E as [-> _]. reflexivity.
  - unfold _source_bytes, file_at, bind, gets in E. repeat case_match; cbn in *; simplify_eq; reflexivity.
Qed.

Lemma record_review_keeps {A} (f : World -> A) p payload c scope gates attestation at_ :
  unreviewed f -> keeps f (record_review p payload c scope gates attestation at_ false).
Proof.
  intros U. unfold keeps, record_review. next; [by intros w | intros existing].
  next; [apply (ur_id f U) | intros id]. next; [apply (ur_review f U) | intros []].
  next; [by intros w | intros now]. next; [apply (ur_approve f U _ c) | intros []].
  next; [apply (ur_log f U) | intros ev]. by intros w.
Qed.

Lemma review_keeps {A} (f : World -> A) p payload : unreviewed f -> keeps f (review p payload false).
Proof.
  intros U. unfold keeps, review. next; [intros w; apply (ur_quiet f U), quiet_authorize | intros []].
  destruct (negb (truthy _)); [by intros w|]. next; [by intros w | intros found].
  next; [by intros w | intros [c|]]; [|by intros w]. destruct (negb (_ =s _)); [by intros w|].
  next; [by intros w | intros scoped]. next; [by intros w | intros [scope target]].
  next; [intros w; apply (ur_off_disk f U), evaluate_off_disk | intros [gates attestation]].
  cbv zeta. destruct (_ || _); [by intros w|]. next; [by intros w | intros at_].
  next; [by apply record_review_keeps | by intros existing w].
Qed.

Lemma unreviewed_disk : unreviewed w_disk.
Proof.
  constructor; [by intros w w' (_ & Hk & _) | by intros w w' [= _ Hk _] | by intros clash r w | by intros p c now w
    | by intros p now w | | by intros prefix w].
  intros ev a t ac de re pl tn ty. unfold keeps. solve_frame.
Qed.

Lemma unreviewed_uris : unreviewed uris.
Proof.
  constructor; [intros w w' (Hd & _); unfold uris; by rewrite Hd | intros w w' [= Hd _ _]; unfold uris; by rewrite Hd
    | | | | | by intros prefix w].
  - intros clash r w. unfold same, uris. cbn. by destruct (exists_where _ _).
  - intros p c now w. unfold same, uris. cbn. by apply update_where_column.
  - intros p now w. unfold same, uris. cbn. by apply update_where_column.
  - intros ev a t ac de re pl tn ty w.
    exact (f_equal (fun u => cp_uri <$> db_capabilities u.1.1.1) (audit_event_unlogged ev a t ac de re pl tn ty w)).
Qed.

(** ** Batches *)
Lemma item_dry payload uri dry : dget "dryRun" (dmerge payload [("capabilityUri", JStr uri); ("dryRun", JBool dry)]) = Some (JBool dry).
Proof. apply dget_set. Qed.

(** The pages: at most the limit, of the tenant's rows, after the cursor. *)
Lemma page_rows d tenant all after_uri limit r :
  r ∈ review_rows d tenant all after_uri limit ->
  r ∈ db_capabilities d /\ own_row tenant r = true /\ reviewable all r = true /\ slt after_uri (cp_uri r) = true.
Proof.
  unfold review_rows. intros (i & Hi & _)%elem_of_take. apply list_elem_of_lookup_2 in Hi.
  rewrite elem_of_sort_by, elem_of_fetchall in Hi. destruct Hi as [Hb Hr].
  apply andb_true_iff in Hb as [[]%andb_true_iff ?]. done.
Qed.

(** A failed item restores the database it started from, so what depends on
    the database and the committed data alone is kept when reviews keep it. *)
Lemma batch_item_run p payload dry uri w :
  exists item w', batch_item p payload dry uri w = (Ok item, w') /\
    (review p (dmerge payload [("capabilityUri", JStr uri); ("dryRun", JBool dry)]) false w = (Ok item, w') \/
     py_truthy (jget "passed" item) = false /\ dget "approved" item = None /\ w_db w' = w_db w).
Proof.
  unfold batch_item, try_except, bind at 1. cbn [query gets].
  pose proof (review_keeps w_disk p (dmerge payload [("capabilityUri", JStr uri); ("dryRun", JBool dry)]) unreviewed_disk w) as Hdisk.
  destruct (review _ _ false w) as [[item|e] w1] eqn:E.
  - exists item, w1. split; [reflexivity | by left].
  - destruct dry.
    + pose proof (review_quiet p _ false (item_dry payload uri true) w) as (Hq & _). rewrite E in Hq. cbn in Hq.
      eexists _, w1. split; [reflexivity | right]. by split_and!.
    + eexists _, _. split; [reflexivity | right]. by split_and!.
Qed.

Lemma batch_item_disk p payload dry uri : keeps w_disk (batch_item p payload dry uri).
Proof.
  intros w. unfold batch_item, try_except, bind at 1, same. cbn [query gets].
  pose proof (review_keeps w_disk p (dmerge payload [("capabilityUri", JStr uri); ("dryRun", JBool dry)]) unreviewed_disk w) as Hk.
  unfold same in Hk. destruct (review _ _ false w) as [[item|e] w1]; cbn in *; [done | by destruct dry].
Qed.

Lemma batch_item_uris p payload dry uri : keeps uris (batch_item p payload dry uri).
Proof.
  intros w. destruct (batch_item_run p payload dry uri w) as (item & w' & E & [G|(_ & _ & G)]); rewrite E; unfold same; cbn [snd].
  - exact (keeps_run _ _ _ _ _ (review_keeps uris _ _ unreviewed_uris) G).
  - unfold uris. by rewrite G.
Qed.

(** What an authorised batch does: items in order over the page. *)
Lemma review_batch_inv p payload w r w' :
  review_batch_run p payload false w = (r, w') ->
  match r with
  | Raise _ => w_db w' = w_db w /\ w_disk w' = w_disk w
  | Ok b => exists limit w1, quiet w w1 /\ bounded_int payload "limit" 100 MAX_BATCH = Ok limit /\
      let rows := review_rows (w_db w) (principal_tenant p) (ba_include_approved b) (str_get payload "afterUri" "") limit in
      let page := take (Z.to_nat limit) rows in
      mapM (fun r => batch_item p payload (ba_dry_run b) (cp_uri r)) page w1 = (Ok (ba_items b), w') /\
      ba_next b = (if (Z.to_nat limit <? length rows)%nat then cp_uri <$> last page else None) /\
      ba_dry_run b = match dget "dryRun" payload with Some v => py_truthy v | None => true end /\
      ba_include_approved b = match dget "includeApproved" payload with Some v => py_truthy v | None => false end
  end.
Proof.
  unfold review_batch_run. pose proof (quiet_authorize p w) as Hq. unfold bind at 1.
  destruct (_authorize p w) as [[[]|e] w1]; cbn [snd] in Hq; [|intros [= <- <-]; by destruct Hq as (? & ? & _)].
  unfold bind at 1, lift. destruct (bounded_int payload "limit" 100 MAX_BATCH) as [limit|e] eqn:El;
    [|intros [= <- <-]; by destruct Hq as (? & ? & _)].
  cbv zeta. unfold bind at 1. cbn [query gets]. intros E. unfold bind at 1 in E.
  assert (forall l w0, exists items w2, mapM (fun r => batch_item p payload
    match dget "dryRun" payload with Some v => py_truthy v | None => true end (cp_uri r)) l w0 = (Ok items, w2)) as Hitems.
  { induction l as [|x l IH]; intros w0; [by eexists _, _|]. cbn [mapM]. unfold bind at 1.
    destruct (batch_item_run p payload match dget "dryRun" payload with Some v => py_truthy v | None => true end (cp_uri x) w0)
      as (item & w2 & -> & _).
    destruct (IH w2) as (items & w3 & E3). unfold bind. rewrite E3. by eexists _, _. }
  destruct Hq as (Hd & Hrest). rewrite Hd in E.
  destruct (mapM _ _ w1) as [[items|e] w2] eqn:Em;
    [|match type of Em with mapM _ ?l _ = _ => destruct (Hitems l w1) as (? & ? & E3) end; rewrite E3 in Em; discriminate Em].
  rewrite andb_false_r in E. injection E as <- <-. exists limit, w1. by split_and!.
Qed.

Lemma batch_keeps {A} (f : World -> A) p payload :
  (forall w w', quiet w w' -> f w' = f w) -> (forall dry uri, keeps f (batch_item p payload dry uri)) ->
  keeps f (review_batch_run p payload false).
Proof.
  intros Hq Hi. unfold keeps, review_batch_run.
  next; [intros w; apply Hq, quiet_authorize | intros []]. next; [by intros w | intros limit]. cbv zeta.
  next; [by intros w | intros rows]. next; [apply preserves_mapM; [exact _ | intros r; apply Hi] | intros items].
  rewrite andb_false_r. by intros w.
Qed.
Lemma batch_disk p payload : keeps w_disk (review_batch_run p payload false).
Proof. apply batch_keeps; [apply unreviewed_disk | intros; apply batch_item_disk]. Qed.
Lemma batch_uris p payload : keeps uris (review_batch_run p payload false).
Proof. apply batch_keeps; [apply unreviewed_uris | intros; apply batch_item_uris]. Qed.

(** ** Changes on evidence *)

(** A row was approved by a review that had the evidence for its content. *)
Definition on_evidence (p : Principal) (old new : CapRow) : Prop :=
  exists w payload c scope now, approval_evidence w p payload c scope /\
    c_uri c = cp_uri old /\ c_content_hash c = cp_content_hash old /\ new = reviewed c now old.
Definition lawful (p : Principal) (old new : CapRow) : Prop := new = old \/ on_evidence p old new.
Definition lawful_run (p : Principal) (w w' : World) : Prop :=
  Forall2 (lawful p) (db_capabilities (w_db w)) (db_capabilities (w_db w')).

#[local] Instance lawful_preorder p : PreOrder (lawful p).
Proof.
  split; [by left|]. intros x y z [->|(w1 & pl1 & c1 & s1 & n1 & He1 & Hu1 & Hh1 & ->)] H2; [exact H2|].
  destruct H2 as [->|(w2 & pl2 & c2 & s2 & n2 & He2 & Hu2 & Hh2 & ->)]; right.
  - by exists w1, pl1, c1, s1, n1.
  - exists w2, pl2, c2, s2, n2. by split_and!.
Qed.
#[local] Instance lawful_run_preorder p : PreOrder (lawful_run p).
Proof.
  split; [by intros w; unfold lawful_run|]. intros x y z Hxy Hyz. unfold lawful_run in *. by etrans.
Qed.
Lemma lawful_same p w w' : w_db w' = w_db w -> lawful_run p w w'.
Proof. unfold lawful_run. by intros ->. Qed.

Lemma lawful_item p payload dry uri : preserves (lawful_run p) (batch_item p payload dry uri).
Proof.
  intros w. destruct (batch_item_run p payload dry uri w) as (item & w' & E & [G|(_ & _ & G)]); rewrite E; cbn [snd];
    [|by apply lawful_same].
  destruct (review_writes _ _ _ _ _ _ G) as [(_ & Hd & _)|(Ha & c & scope & Hc & Hcaps & _)]; [by apply lawful_same|].
  destruct (review_ok_inv _ _ _ _ _ _ G) as (c' & scope' & target & gates & att & w1 & w2 & Hq & Hc' & Ht & (content & Hev) & _
    & [[Hno _]|(Hall & _)]); [rewrite Ha in Hno; discriminate Hno|].
  rewrite Hc in Hc'. injection Hc' as <-. unfold lawful_run. rewrite Hcaps. clear Hcaps.
  pose proof (passed_evidence _ _ _ _ _ _ _ _ _ _ Hq Hc Ht Hev Hall) as Hae.
  induction (db_capabilities (w_db w)) as [|r t IH]; constructor; [|exact IH].
  destruct ((cp_uri r =s c_uri c) && _) eqn:Er; [right|by left].
  apply andb_true_iff in Er as [Hu%String.eqb_eq Hh%String.eqb_eq]. by eexists w, _, c, scope', _.
Qed.

Lemma lawful_batch p payload : preserves (lawful_run p) (review_batch_run p payload false).
Proof.
  unfold review_batch_run. next; [intros w; apply lawful_same; by destruct (quiet_authorize p w) | intros []].
  next; [by intros w; apply lawful_same | intros limit]. cbv zeta. next; [by intros w; apply lawful_same | intros rows].
  next; [apply preserves_mapM; [exact _ | intros r; apply lawful_item] | intros items].
  rewrite andb_false_r. intros w. by apply lawful_same.
Qed.

(** ** The walk over the catalog *)

(** The pages without a bound on their number. *)
Inductive walk (p : Principal) : string -> Totals -> World -> outcome Totals -> World -> Prop :=
| walk_fails after_uri t w e w' :
    review_batch_run p (catalog_payload after_uri) false w = (Raise e, w') -> walk p after_uri t w (Raise e) w'
| walk_last after_uri t w page w' :
    review_batch_run p (catalog_payload after_uri) false w = (Ok page, w') ->
    truthy (o_or (ba_next page) "") = false -> walk p after_uri t w (Ok (add_page t page)) w'
| walk_next after_uri t w page cursor w1 r w' :
    review_batch_run p (catalog_payload after_uri) false w = (Ok page, w1) ->
    ba_next page = Some cursor -> truthy cursor = true ->
    walk p cursor (add_page t page) w1 r w' -> walk p after_uri t w r w'.

Lemma walk_keeps {A} (f : World -> A) p after_uri t w r w' :
  (forall after_uri, keeps f (review_batch_run p (catalog_payload after_uri) false)) -> walk p after_uri t w r w' -> f w' = f w.
Proof.
  intros Hk. induction 1 as [? ? ? ? ? E|? ? ? ? ? E _|? ? ? ? ? ? ? ? E _ _ _ IH];
    pose proof (keeps_run _ _ _ _ _ (Hk _) E); congruence.
Qed.
Lemma walk_lawful p after_uri t w r w' : walk p after_uri t w r w' -> lawful_run p w w'.
Proof.
  induction 1 as [a ? w ? ? E|a ? w ? ? E _|a ? w ? ? ? ? ? E _ _ _ IH];
    pose proof (lawful_batch p (catalog_payload a) w) as Hl; rewrite E in Hl; [exact Hl | exact Hl | by etrans].
Qed.

(** How many rows a cursor has left. *)
Definition left_after (after_uri : string) (us : list string) : nat := length (List.filter (slt after_uri) us).

Lemma left_after_lt after_uri cursor us :
  cursor ∈ us -> slt after_uri cursor = true -> (left_after cursor us < left_after after_uri us)%nat.
Proof.
  intros Hin Hlt. unfold left_after.
  assert (forall l, (length (List.filter (slt cursor) l) <= length (List.filter (slt after_uri) l))%nat) as Hle.
  { induction l as [|u l IH]; cbn; [lia|]. destruct (slt cursor u) eqn:E; [|destruct (slt after_uri u); cbn; lia].
    rewrite (slt_trans _ _ _ Hlt E). cbn. lia. }
  induction us as [|u us IH]; [by apply not_elem_of_nil in Hin|]. apply elem_of_cons in Hin as [<-|Hin]; cbn.
  - rewrite slt_irrefl, Hlt. cbn. specialize (Hle us). lia.
  - specialize (IH Hin). destruct (slt cursor u) eqn:E; [|destruct (slt after_uri u); cbn; lia].
    rewrite (slt_trans _ _ _ Hlt E). cbn. lia.
Qed.

(** The cursor of a page is an address of the catalog beyond the last one. *)
Lemma next_cursor p after_uri w page cursor w' :
  review_batch_run p (catalog_payload after_uri) false w = (Ok page, w') -> ba_next page = Some cursor ->
  cursor ∈ uris w /\ slt after_uri cursor = true.
Proof.
  intros E%review_batch_inv Hn. destruct E as (limit & w1 & _ & _ & E & Hnext & _ & Hall). cbv zeta in *.
  rewrite Hn in Hnext. destruct (_ <? _)%nat; [|discriminate Hnext].
  destruct (last _) as [r|] eqn:El; [|discriminate Hnext]. injection Hnext as ->.
  apply last_Some_elem_of in El. apply elem_of_take in El as (i & Hi & _). apply list_elem_of_lookup_2 in Hi.
  apply page_rows in Hi as (Hr & _ & _ & Hlt). split; [by apply list_elem_of_fmap_2|].
  by destruct after_uri.
Qed.

Lemma walk_bound w : (left_after "" (uris w) < S (length (db_capabilities (w_db w))))%nat.
Proof.
  unfold left_after, uris. rewrite <-(length_fmap cp_uri).
  pose proof (filter_length_le (slt "") (cp_uri <$> db_capabilities (w_db w))). lia.
Qed.

Lemma catalog_pages_walk p fuel after_uri t w :
  (left_after after_uri (uris w) < fuel)%nat ->
  walk p after_uri t w (catalog_pages fuel p after_uri t w).1 (catalog_pages fuel p after_uri t w).2.
Proof.
  revert after_uri t w. induction fuel as [|fuel IH]; intros after_uri t w Hf; [lia|].
  cbn [catalog_pages]. unfold bind.
  destruct (review_batch_run p (catalog_payload after_uri) false w) as [[page|e] w1] eqn:E; [|by apply walk_fails].
  cbv zeta. destruct (ba_next page) as [cursor|] eqn:En; [|by apply (walk_last _ _ _ _ _ _ E); rewrite En].
  destruct (truthy cursor) eqn:Et; [|by apply (walk_last _ _ _ _ _ _ E); rewrite En; destruct cursor].
  eapply walk_next; [exact E | exact En | exact Et | apply IH].
  pose proof (keeps_run _ _ _ _ _ (batch_uris p _) E) as Hu. destruct (next_cursor _ _ _ _ _ _ E En) as [Hin Hlt].
  rewrite Hu. pose proof (left_after_lt _ _ _ Hin Hlt). lia.
Qed.

(** ** The gates of a request *)

Definition gate_recorded (request_id content_hash : string) (w : World) (gate : string * json) : Prop :=
  exists g, g ∈ db_promotion_gate_runs (w_db w) /\ pg_request_id g = request_id /\ pg_content_hash g = content_hash /\
    pg_gate_name g = gate.1 /\ gate_state [gate] gate.1 = Some (pg_state g).
(** Everything but the gate runs and the random ids. *)
Definition ungated_runs (w : World) : DB * DB * Z := (upd db_promotion_gate_runs [] (w_db w), w_disk w, w_clock w).

Lemma record_gate_run_inv p id hash at_ att gate w w' :
  record_gate_run p id hash at_ att gate w = (Ok tt, w') ->
  ungated_runs w' = ungated_runs w /\ gate_recorded id hash w' gate /\
  forall other, other.1 <> gate.1 -> gate_recorded id hash w other -> gate_recorded id hash w' other.
Proof.
  unfold record_gate_run. intros E. step_ok E as i w1 G. injection G as _ <-. step_ok E as st w2 G. unfold lift in G.
  injection G as Hst <-. destruct (gate_state [gate] gate.1) as [s|] eqn:Es; [injection Hst as <-|discriminate Hst].
  injection E as <-. cbn. set (key := fun r => _ && (pg_content_hash r =s hash)).
  set (row := mkGateRunRow _ _ _ _ _ _ _ _ _).
  assert (forall g, key g = true <-> pg_request_id g = id /\ pg_gate_name g = gate.1 /\ pg_content_hash g = hash) as Hkey.
  { intros g. unfold key. rewrite !andb_true_iff, !String.eqb_eq. tauto. }
  destruct (exists_where key (db_promotion_gate_runs (w_db w))) eqn:Ex; (split; [reflexivity|]; split).
  - apply exists_where_true in Ex as (g & Hg & Hk). exists (upd pg_id (pg_id g) row). split; [|done].
    cbn. apply elem_of_update_where. exists g. by rewrite Hk.
  - intros other Hne (g & Hg & Hi & Hh & Hn & Hs). exists g. split; [|done]. cbn. apply elem_of_update_where.
    exists g. split; [done|]. destruct (key g) eqn:Ek; [|done]. apply Hkey in Ek as (_ & Hn' & _). congruence.
  - exists row. split; [|done]. cbn. apply elem_of_app. right. by apply list_elem_of_singleton.
  - intros other Hne (g & Hg & Hrest). exists g. split; [|done]. cbn. apply elem_of_app. by left.
Qed.

Lemma record_gates_inv p id hash at_ att gates w w' :
  NoDup gates.*1 -> forM gates (record_gate_run p id hash at_ att) w = (Ok tt, w') ->
  ungated_runs w' = ungated_runs w /\ Forall (gate_recorded id hash w') gates.
Proof.
  assert (forall gates w w', forM gates (record_gate_run p id hash at_ att) w = (Ok tt, w') ->
    forall other, other.1 ∉ gates.*1 -> gate_recorded id hash w other -> gate_recorded id hash w' other) as Hkeep.
  { induction gates0 as [|g l IH]; intros w0 w1 E other Hno Hr; [by injection E as <-|]. cbn [forM] in E.
    step_ok E as [] w2 G. apply record_gate_run_inv in G as (_ & _ & G). apply (IH _ _ E); [set_solver|]. apply G; [set_solver|done]. }
  revert w. induction gates as [|g l IH]; intros w Hnd E; [injection E as <-; by split|]. cbn [forM] in E.
  step_ok E as [] w2 G. apply record_gate_run_inv in G as (Hu & Hr & _).
  apply NoDup_cons in Hnd as [Hni Hnd]. destruct (IH _ Hnd E) as [Hu' Hall]. split; [congruence|].
  constructor; [|done]. by apply (Hkeep _ _ _ E).
Qed.

Definition verified_now (now : string) (r : CapRow) : CapRow :=
  upd cp_signature_status "verified" (upd cp_provenance_status "verified"
    (upd cp_risk_review_status "approved" (upd cp_updated_at now r))).
End Frames.

Section Theorems.
Context `{!Runtime, !Machine, !UnicodeData}.

(** C7: The approval of a catalog is all or nothing.  When it reports success,
    what it wrote is committed, every capability it changed was approved on the
    evidence of a review, and no capability of the tenant is left unapproved or
    unverified.  When it reports anything else, the database is back at the
    last commit; when it raises, nothing was committed. *)
Theorem catalog_all_or_nothing p w r w' :
  approve_catalog_run p true w = (r, w') ->
  match r with
  | Raise _ => w_disk w' = w_disk w
  | Ok a =>
      if ca_catalog_approved a
      then w_disk w' = w_db w' /\ lawful_run p w w' /\
           (forall row, row ∈ db_capabilities (w_db w') -> own_row (principal_tenant p) row = true -> compliant row = true)
      else w_disk w' = w_disk w /\ w_db w' = w_disk w
  end.
Proof.
  unfold approve_catalog_run. pose proof (quiet_authorize p w) as (Hd & Hk & _). unfold bind at 1.
  destruct (_authorize p w) as [[[]|e] w1]; cbn [snd] in *; [|by intros [= <- <-]].
  unfold bind at 1. cbn [query gets]. unfold bind at 1.
  pose proof (catalog_pages_walk p (S (length (db_capabilities (w_db w1)))) "" no_totals w1) as Hw.
  destruct (catalog_pages _ p "" no_totals w1) as [[t|e] w2]; cbn [fst snd] in Hw.
  all: assert (w_disk w2 = w_disk w1) as Hk2 by
    (eapply walk_keeps; [intros; apply batch_disk | apply Hw, walk_bound]).
  2: { intros [= <- <-]. congruence. }
  assert (lawful_run p w1 w2) as Hl by (eapply walk_lawful, Hw, walk_bound).
  unfold bind at 1. cbn [query gets negb]. destruct (_ && _) eqn:Ea.
  - intros [= <- <-]. cbn. split; [done|]. split; [by unfold lawful_run in *; rewrite Hd in Hl|].
    intros row Hr Ho. apply andb_true_iff in Ea as [_ Ez%Z.eqb_eq]. unfold noncompliant in Ez.
    destruct (compliant row) eqn:Ec; [done|exfalso].
    assert (row ∈ fetchall (fun r => own_row (principal_tenant p) r && negb (compliant r)) (db_capabilities (w_db w2))) as Hin
      by (apply elem_of_fetchall; by rewrite Ho, Ec).
    destruct (fetchall _ _); [by apply not_elem_of_nil in Hin | cbn in Ez; lia].
  - intros [= <- <-]. cbn. rewrite Hk2, Hk. by split.
Qed.

(** C13: The approval of a catalog ends.  The bound on its pages is no part of
    its behaviour: from any database, the walk of the model is a walk of the
    unbounded loop, which stops at the first page without a cursor. *)
Theorem catalog_walk_ends p w :
  walk p "" no_totals w
    (catalog_pages (S (length (db_capabilities (w_db w)))) p "" no_totals w).1
    (catalog_pages (S (length (db_capabilities (w_db w)))) p "" no_totals w).2.
Proof.
  apply catalog_pages_walk, walk_bound.
Qed.

(** What the gates of a request write.  A run that returns had a pending
    request of the tenant and its capability, unheld.  It records a run of
    every gate for the reviewed content, changes nothing of the request but its
    summary of gates, and when every gate passed marks exactly the rows of the
    reviewed address and content hash as verified; a failed run leaves the
    catalog as it was.  Approvals and lifecycles are never touched, and the
    writes are durable. *)
Theorem promotion_gates_exact p payload w result w' :
  run_promotion_gates p payload w = (Ok result, w') ->
  exists row c gates,
    row ∈ db_promotion_requests (w_db w) /\ pr_id row = strip (str_get2 payload "requestId" "id" "") /\
    pr_tenant_id row = principal_tenant p /\ pr_state row = "pending" /\
    get_capability (w_db w) (pr_capability_uri row) = Ok (Some c) /\ _capguard_is_held (w_db w) c = false /\
    Forall (gate_recorded (pr_id row) (c_content_hash c) w') gates /\
    dget "passed" result = Some (JBool (_all_passed gates)) /\
    (_all_passed gates = true -> exists content, source_verified w c content) /\
    db_capabilities (w_db w') =
      (if _all_passed gates
       then update_where (fun r => (cp_uri r =s c_uri c) && (cp_content_hash r =s c_content_hash c))
              (verified_now (sql_text_now (w_clock w))) (db_capabilities (w_db w))
       else db_capabilities (w_db w)) /\
    (exists states, db_promotion_requests (w_db w') =
      update_where (fun r => pr_id r =s pr_id row) (fun r => upd pr_gates_json states r) (db_promotion_requests (w_db w))) /\
    w_disk w' = w_db w'.
Proof.
  unfold run_promotion_gates. intros E. step_ok E as [] w1 Hauth.
  pose proof (quiet_authorize p w) as (Hd & Hk & Hc & Hf). rewrite Hauth in Hd, Hk, Hc, Hf. cbn [snd] in *. cbv zeta in E.
  ok_cases E. step_ok E as row w1' G. injection G as <- <-.
  destruct (fetchone _ _) as [row|] eqn:Er; [|discriminate E]. apply fetchone_some in Er as [Hr Hm].
  apply andb_true_iff in Hm as [Hid%String.eqb_eq Ht%String.eqb_eq].
  destruct (negb (pr_state row =s "pending")) eqn:Es; [discriminate E|]. apply negb_false_iff, String.eqb_eq in Es.
  step_ok E as found w1' G. injection G as <- <-. step_ok E as found w1' G. unfold lift in G.
  destruct (get_capability (w_db w1) _) as [[c|]|] eqn:Ec; [|by injection G as <- <-|done]. injection G as <- <-.
  step_ok E as scoped w1' G. injection G as <- <-. step_ok E as [scope ns] w1' G. injection G as _ <-.
  step_ok E as [gates att] w2 Hev. apply evaluate_inv in Hev as [Hoff (content & [(i & s & v & Hg & Hsrc & _)])].
  step_ok E as states w2' G. injection G as _ <-. step_ok E as at_ w2' G. injection G as _ <-.
  step_ok E as [] w3 G. apply record_gates_inv in G as [Hu Hall]; [|by rewrite Hg; apply (bool_decide_unpack (NoDup _)); vm_compute].
  step_ok E as [] w4 G. injection G as <-. step_ok E as now w4' G. injection G as <- <-.
  step_ok E as [] w5 G5. step_ok E as ev w6 G6. apply (keeps_run _ _ _ _ _ (audit_event_unlogged _ _ _ _ _ _ _ _ _)) in G6.
  step_ok E as [] w7 G7. injection G7 as <-. injection E as <- <-.
  pose proof (f_equal (fun u => db_capabilities u.1.1.1) G6) as Hcaps. pose proof (f_equal (fun u => db_promotion_requests u.1.1.1) G6) as Hreq.
  pose proof (f_equal (fun u => db_promotion_gate_runs u.1.1.1) G6) as Hruns. cbn in Hcaps, Hreq, Hruns.
  injection Hoff as Ho1 Ho2 Ho3. pose proof (f_equal (fun u => db_capabilities u.1.1) Hu) as Hu1.
  pose proof (f_equal (fun u => db_promotion_requests u.1.1) Hu) as Hu2. pose proof (f_equal snd Hu) as Hu3. cbn in Hu1, Hu2, Hu3.
  rewrite Hd in Ec. exists row, c, gates. rewrite Hid.
  split; [by rewrite <-Hd|]. split; [done|]. split; [done|]. split; [done|]. split; [done|].
  split; [by eapply held_hidden|].
  assert (db_promotion_gate_runs (w_db w5) = db_promotion_gate_runs (w_db w3)) as H5 by (destruct (_all_passed gates); by injection G5 as <-).
  split.
  { eapply Forall_impl; [exact Hall|]. intros g (x & Hx & Hrest). exists x. split; [|exact Hrest]. cbn. congruence. }
  split; [reflexivity|]. split.
  { intros Hp. subst gates. apply all_passed_seven in Hp as (Hi & _). destruct content as [text|];
      [|rewrite Hsrc in Hi; discriminate Hi]. exists text. destruct Hsrc as (n & Hn & Hrest). exists n. by rewrite <-Hf. }
  change (w_db (upd w_disk (w_db w6) w6)) with (w_db w6). rewrite Hcaps, Hreq. split; [|split; [|done]].
  - rewrite <-Hc, <-Ho3, <-Hu3, <-Hd, <-Ho1, <-Hu1. by destruct (_all_passed gates); injection G5 as <-.
  - rewrite <-Hd, <-Ho1, <-Hu2. eexists. by destruct (_all_passed gates); injection G5 as <-.
Qed.

(** The reading actions of the gates leave the database and the committed data
    alone: a status, and the dry run over a whole catalog. *)
Theorem reading_gates_quiet p payload :
  smem (lower (strip (str_get payload "action" "status"))) ["status"; "verify-catalog"] = true ->
  preserves quiet (dispatch_gate_action p payload).
Proof.
  intros Ha%smem_In. unfold dispatch_gate_action.
  assert (preserves quiet (gate_status p payload)) as Hs.
  { unfold gate_status. next; [apply quiet_authorize | intros []]. cbv zeta. next.
    - apply preserves_try; [exact _ | | by intros e w]. unfold trusted_signing_key_id. solve_frame; try apply quiet_read_key; by intros w.
    - intros key. next; [destruct (truthy _); solve_frame; by intros w|]. intros reviews.
      next; [destruct (truthy _); solve_frame; by intros w|]. intros runs. solve_frame; by intros w. }
  assert (preserves quiet (verify_catalog p payload)) as Hv.
  { unfold verify_catalog. next; [apply quiet_authorize | intros []]. next; [by intros w | intros m].
    next; [by intros w | intros rows]. destruct (_ <? _)%nat; [by intros w|]. next; [|by intros [n fs] w].
    generalize 0%Z as n. generalize (@nil dict) as fs. induction (cp_uri <$> rows) as [|u us IH]; intros fs n; [by intros w|].
    cbn [verify_rows]. next; [by apply review_quiet | intros result]. cbv zeta. next; [by intros w | intros k]. apply IH. }
  apply elem_of_cons in Ha as [->|Ha]; [exact Hs|]. by apply list_elem_of_singleton in Ha as ->.
Qed.
End Theorems.

(** ** Concrete inputs *)
Module ApprovalDemo.
Import ReviewDemo.
Definition request_row : PromotionRow :=
  mkPromotionRow "prm_1" "asg" "cap://x" None None (Some "user@example.com") "pending" "" "" "" "{}" "2025-01-01 00:00:00" None.
Definition requested : World := upd w_db (upd db_promotion_requests [request_row] catalog) world.
Definition run_request : dict := [("requestId", JStr "prm_1")].
Definition gates_passed {A} (r : outcome dict * A) : bool :=
  match r.1 with Ok d => py_truthy (jget "passed" d) | Raise _ => false end.

Lemma approval_demo_succeeds :
  match (approve_catalog_run Demo.admin true world).1 with Ok a => ca_catalog_approved a | Raise _ => false end = true.
Proof. vm_compute. reflexivity. Qed.
Lemma gates_demo_pass : gates_passed (run_promotion_gates Demo.admin run_request requested) = true.
Proof. vm_compute. reflexivity. Qed.
(** Without the source file its review fails, and nothing is approved. *)
Lemma approval_demo_fails :
  match approve_catalog_run Demo.admin true (upd w_files ∅ world) with
  | (Ok a, w') => negb (ca_catalog_approved a) && (Z.eqb (ca_remaining a) 1) && (length (tt_failures (ca_totals a)) =? 1)%nat
  | _ => false
  end = true.
Proof. vm_compute. reflexivity. Qed.
(** A capability released from quarantine is published without an approval: no
    batch reviews it, and the catalog that holds it is never approved. *)
Definition released : World := upd w_db (upd db_capabilities [upd cp_lifecycle "active" (upd cp_approval_state "published" row)] catalog) world.
Lemma released_never_approved :
  match approve_catalog_run Demo.admin true released with
  | (Ok a, _) => negb (ca_catalog_approved a) && Z.eqb (tt_processed (ca_totals a)) 0 && Z.eqb (ca_remaining a) 1
  | _ => false
  end = true /\
  match (review Demo.admin request true released).1 with Ok d => py_truthy (jget "approved" d) | Raise _ => false end = true.
Proof. split; vm_compute; reflexivity. Qed.
End ApprovalDemo.

Section Witnesses.
Import ReviewDemo ApprovalDemo.

Lemma catalog_all_or_nothing_witness :
  exists a w', approve_catalog_run Demo.admin true world = (Ok a, w') /\ w_disk w' = w_db w' /\
    (forall row, row ∈ db_capabilities (w_db w') -> own_row "asg" row = true -> compliant row = true).
Proof.
  pose proof approval_demo_succeeds as Ha.
  destruct (approve_catalog_run Demo.admin true world) as [[a|e] w'] eqn:E; [|discriminate Ha]. cbn [fst] in Ha.
  exists a, w'. split; [exact eq_refl|]. pose proof (catalog_all_or_nothing _ _ _ _ E) as G. cbn iota beta in G. rewrite Ha in G.
  destruct G as (G1 & _ & G3). split; [exact G1 | exact G3].
Defined.

Lemma promotion_gates_exact_witness :
  exists result w', run_promotion_gates Demo.admin run_request requested = (Ok result, w') /\ w_disk w' = w_db w' /\
    exists gates, _all_passed gates = true /\ Forall (gate_recorded "prm_1" hash w') gates.
Proof.
  pose proof gates_demo_pass as Ha.
  destruct (run_promotion_gates Demo.admin run_request requested) as [[d|e] w'] eqn:E; [|discriminate Ha].
  unfold gates_passed in Ha. cbn [fst] in Ha.
  exists d, w'. split; [exact eq_refl|].
  destruct (promotion_gates_exact _ _ _ _ _ E) as (row & c & gates & Hr & Hid & _ & _ & Hc & _ & Hall & Hp & _ & _ & _ & Hk).
  split; [exact Hk|]. exists gates. unfold jget in Ha. rewrite Hp in Ha. split; [exact Ha|].
  apply list_elem_of_singleton in Hr. rewrite Hid in Hall. rewrite Hr in Hc.
  assert (c_content_hash c = hash) as Hh.
  { vm_compute in Hc. injection Hc as <-. vm_compute. exact eq_refl. }
  rewrite Hh in Hall. exact Hall.
Defined.

Lemma reading_gates_quiet_witness : preserves quiet (dispatch_gate_action Demo.admin []).
Proof. apply reading_gates_quiet. reflexivity. Defined.
End Witnesses.
