(* ===== verification/CapguardApi.v ===== *)
(** * The operators' surface of the quarantine store ([capguard_api.py])

    The status and listings of a tenant, and the release and rejection of a
    held capability, each behind a right on the tenant of the caller; and the
    proof that an operator never reaches beyond that tenant. *)

From Stdlib Require Import ZArith Ascii String Lia.
From stdpp Require Import base option list strings gmap.
From S2P Require Import Prelude Sha256 PyStr Json Clock Db Models AccessControl AccessSpec AccessProps RegistryLog Gates Signing.
From S2P Require Import Catalog CapGuardPolicy Quarantine Reviews ReviewProps QuarantineProps ScimProps.
Local Open Scope string_scope.
Local Open Scope list_scope.

#[local] Opaque sha256_hex.

Section CapguardApi.
Context `{!Runtime, !Machine, !UnicodeData}.

(** [PermissionError(reason)], which holds None when there is no reason. *)
Definition _require_right (p : Principal) (right : string) : Op unit :=
  let! (allowed, reason) := evaluate_access p right None (Some ("tenant:" +:+ tenant_of p)) true in
  if allowed then ret tt else raise (PermissionError (or_else reason "None")).

(** [counts[status] = counts.get(status, 0) + 1], in the order of the rows. *)
Definition count_status (counts : dict) (row : dict) : dict :=
  let status := py_str (jget "status" row) in
  dset status (JNum (match dget status counts with Some (JNum n) => n + 1 | _ => 1 end)) counts.
Definition status_count (counts : dict) (status : string) : json := or_else (dget status counts) (JNum 0).

Definition capguard_status (p : Principal) : Op dict :=
  let! _ := _require_right p "audit" in
  let! rows := list_quarantine (tenant_of p) None 500 in
  let counts := fold_left count_status rows [] in
  ret [("tenantId", JStr (tenant_of p)); ("total", JNum (Z.of_nat (length rows))); ("byStatus", JObj counts);
       ("quarantined", status_count counts "quarantined"); ("released", status_count counts "released");
       ("rejected", status_count counts "rejected")].

Definition capguard_list_quarantine (p : Principal) (status : option string) : Op dict :=
  let! _ := _require_right p "audit" in
  let! rows := list_quarantine (tenant_of p) status 200 in
  ret [("tenantId", JStr (tenant_of p)); ("items", JArr (JObj <$> rows))].

Definition capguard_list_attestations (p : Principal) (quarantine_id : string) (attestation_type : option string) : Op dict :=
  let! _ := _require_right p "audit" in
  let! rows := list_attestations quarantine_id (tenant_of p) attestation_type in
  ret [("tenantId", JStr (tenant_of p)); ("quarantineId", JStr quarantine_id); ("items", JArr (JObj <$> rows))].

(** [principal.subject or principal.email or default] *)
Definition operator (p : Principal) (default : string) : string := s_or (p_subject p) (o_or (p_email p) default).

Definition capguard_release (p : Principal) (payload : dict) : Op dict :=
  let! _ := _require_right p "manage" in
  let quarantine_id := strip (str_get payload "quarantineId" "") in
  if negb (truthy quarantine_id) then raise (ValueError "quarantineId is required.")
  else
    let reason := s_or (strip (str_get payload "reason" "scan_clean")) "scan_clean" in
    release_capability_from_quarantine quarantine_id (tenant_of p) (operator p "capguard-release") reason None None true true.

Definition capguard_reject (p : Principal) (payload : dict) : Op dict :=
  let! _ := _require_right p "manage" in
  let quarantine_id := strip (str_get payload "quarantineId" "") in
  if negb (truthy quarantine_id) then raise (ValueError "quarantineId is required.")
  else
    let reason := strip (str_get payload "reason" "") in
    if negb (truthy reason) then raise (ValueError "A non-empty reject reason is required.")
    else reject_from_quarantine quarantine_id (tenant_of p) (operator p "capguard-reject") reason true true.

(** ** Confinement *)

(** No item, attestation or capability of another tenant than [T] changed. *)
Record sealed (T : string) (w w' : World) : Prop := {
  se_items : foreign qr_tenant_id T (held w') = foreign qr_tenant_id T (held w);
  se_attestations : foreign at_tenant_id T (attestations w') = foreign at_tenant_id T (attestations w);
  se_catalog : foreign cp_tenant_id T (db_capabilities (w_db w')) = foreign cp_tenant_id T (db_capabilities (w_db w))
}.
#[local] Instance sealed_preorder T : PreOrder (sealed T).
Proof. split; [by split|]. intros x y z [] []. split; congruence. Qed.

Lemma sealed_holdings T w w' : holdings w' = holdings w -> sealed T w w'.
Proof. unfold holdings, held, attestations. intros [= Hq Ha Hc]. by split; unfold held, attestations; rewrite ?Hq, ?Ha, ?Hc. Qed.
Lemma holdings_off_disk w w' : off_disk w' = off_disk w -> holdings w' = holdings w.
Proof. unfold off_disk, holdings. by intros [= -> _ _]. Qed.

Lemma own_item w q t item r : NoDup (qr_id <$> held w) -> item_at (w_db w) q t = Some item -> r ∈ held w ->
  (qr_id r =s q) = true -> qr_tenant_id r = tenant_or_default t.
Proof.
  intros Hnd [Hin [Hq%String.eqb_eq Ht%String.eqb_eq]%andb_true_iff]%fetchone_some Hr Hk%String.eqb_eq.
  rewrite (key_unique qr_id (held w) item r Hnd Hin Hr); [exact Ht | congruence].
Qed.

Lemma settled_sealed q t item kind mark lifecycle state w w' :
  NoDup (qr_id <$> held w) -> item_at (w_db w) q t = Some item ->
  (forall now r, qr_tenant_id (mark now r) = qr_tenant_id r) ->
  settled q (tenant_or_default t) item kind mark lifecycle state w w' -> sealed (tenant_or_default t) w w'.
Proof.
  intros Hnd Hi Hm (now & a & (_ & _ & Ha & _) & Hh). injection Hh as Hq Hat Hc. split.
  - unfold held. rewrite Hq. apply foreign_update; [|by apply Hm]. intros r Hr Hk. by eapply own_item.
  - unfold attestations. rewrite Hat. by apply foreign_snoc.
  - rewrite Hc. apply foreign_update; [|done]. intros r _ [[Ht%String.eqb_eq _]%andb_true_iff _]%andb_true_iff. exact Ht.
Qed.

Lemma issue_sealed q t scan sid sver persist cm w :
  NoDup (qr_id <$> held w) ->
  sealed (tenant_or_default t) w (issue_scan_attestation q t scan sid sver persist cm w).2 /\
  qr_id <$> held (issue_scan_attestation q t scan sid sver persist cm w).2 = qr_id <$> held w.
Proof.
  intros Hnd. destruct (issue_scan_attestation _ _ _ _ _ _ _ w) as [r w'] eqn:E. apply issue_inv in E. cbn [snd].
  destruct r as [d|e].
  - destruct E as (item & verdict & a & now & Hi & _ & _ & (_ & _ & Ha & _) & Hh). injection Hh as Hq Hat Hc.
    split; [split|].
    + unfold held. rewrite Hq. destruct (verdict =s "blocked"); [|done]. apply foreign_update; [|done].
      intros r Hr Hk. by eapply own_item.
    + unfold attestations. rewrite Hat. by apply foreign_snoc.
    + by rewrite Hc.
    + unfold held. rewrite Hq. destruct (verdict =s "blocked"); [|done]. unfold update_where.
      clear. induction (db_capguard_quarantine (w_db w)) as [|r l IH]; cbn; [done|]. rewrite IH. by destruct (qr_id r =s q).
  - apply holdings_off_disk in E. split; [by apply sealed_holdings|]. unfold holdings in E. by injection E as E _ _; unfold held; rewrite E.
Qed.

Lemma release_sealed q t actor reason given capability scan injection policy persist cm w :
  NoDup (qr_id <$> held w) ->
  sealed (tenant_or_default t) w (release_from_quarantine q t actor reason given capability scan injection policy persist cm w).2.
Proof.
  intros Hnd. destruct (release_from_quarantine _ _ _ _ _ _ _ _ _ _ _ w) as [r w'] eqn:E. apply release_inv in E. cbn [snd].
  destruct r as [d|e]; [|by apply sealed_holdings, (holdings_off_disk (committed w))].
  destruct E as (item & sc & [Hi _ _ _ _] & Hset & _). eapply settled_sealed; [exact Hnd | exact Hi | | exact Hset]. by intros now r.
Qed.

Lemma full_sealed q t actor reason capability policy persist cm w :
  NoDup (qr_id <$> held w) ->
  sealed (tenant_or_default t) w (release_capability_from_quarantine q t actor reason capability policy persist cm w).2.
Proof.
  intros Hnd. destruct (release_capability_from_quarantine _ _ _ _ _ _ _ _ w) as [r w'] eqn:E. cbn [snd].
  apply full_inv in E as [[-> _]|(item & cap & scanned & scan & injection & r1 & w1 & _ & _ & _ & _ & E1 & E2)]; [by apply sealed_holdings|].
  assert (tenant_or_default (tenant_or_default t) = tenant_or_default t) as Htt.
  { unfold tenant_or_default, s_or. destruct (truthy t) eqn:Et; [by rewrite Et | by destruct (truthy DEFAULT_TENANT)]. }
  destruct (issue_sealed q (tenant_or_default t) scan "capmesh-capguard-release" (Some "1") persist false (committed w) Hnd) as [Hs Hids].
  rewrite E1 in Hs, Hids. cbn [snd] in Hs, Hids. rewrite Htt in Hs.
  transitivity (committed w); [by apply sealed_holdings|]. transitivity w1; [exact Hs|]. destruct r1 as [d|e]; [|by destruct E2 as [_ ->]].
  pose proof (release_sealed q (tenant_or_default t) actor reason None cap (Some scan) injection policy persist cm w1) as Hr.
  rewrite E2, Htt in Hr. cbn [snd] in Hr. apply Hr. change (held (committed w)) with (held w) in Hids. by rewrite Hids.
Qed.

Lemma reject_sealed q t actor reason persist cm w :
  NoDup (qr_id <$> held w) -> sealed (tenant_or_default t) w (reject_from_quarantine q t actor reason persist cm w).2.
Proof.
  intros Hnd. destruct (reject_from_quarantine _ _ _ _ _ _ w) as [r w'] eqn:E. apply reject_inv in E. cbn [snd].
  destruct r as [d|e]; [|by apply sealed_holdings, (holdings_off_disk (committed w))].
  destruct E as (item & Hi & _ & _ & Hset & _). eapply settled_sealed; [exact Hnd | exact Hi | | exact Hset]. by intros now r.
Qed.

Lemma require_right_holdings p right : keeps holdings (_require_right p right).
Proof.
  unfold keeps, _require_right. apply preserves_bind; [exact _ | | by intros [[] why] w]. intros w.
  exact (f_equal (fun u => (db_capguard_quarantine u.1.1.1, db_capguard_attestations u.1.1.1, db_capabilities u.1.1.1))
    (evaluate_undecided p right None (Some ("tenant:" +:+ tenant_of p)) true w)).
Qed.

(** The catalog and the store without the rows of a tenant, after each request
    of an operator. *)
Lemma guarded_sealed p right T w {A} (k : Op A) :
  NoDup (qr_id <$> held w) -> (forall w1, NoDup (qr_id <$> held w1) -> sealed T w1 (k w1).2) ->
  sealed T w (bind (_require_right p right) (fun _ => k) w).2.
Proof.
  intros Hnd Hk. unfold bind. pose proof (require_right_holdings p right w) as Hh. unfold same in Hh.
  destruct (_require_right p right w) as [[[]|e] w1]; cbn [snd] in *; [|by apply sealed_holdings].
  transitivity w1; [by apply sealed_holdings|]. apply Hk. unfold holdings in Hh. injection Hh as Hq _ _. unfold held in *. by rewrite Hq.
Qed.
End CapguardApi.

Section Theorems.
Context `{!Runtime, !Machine, !UnicodeData}.

(** C11: An operator never reaches beyond the tenant.  Whatever the payload and
    whatever the outcome, a release or a rejection over the operators' surface
    leaves every item, every attestation and every capability of the other
    tenants as it was; and without the manage right on the tenant nothing is
    settled at all. *)
Theorem operators_confined p payload w :
  NoDup (qr_id <$> held w) ->
  sealed (tenant_or_default (tenant_of p)) w (capguard_release p payload w).2 /\
  sealed (tenant_or_default (tenant_of p)) w (capguard_reject p payload w).2 /\
  (is_ok (_require_right p "manage" w).1 = false ->
   holdings (capguard_release p payload w).2 = holdings w /\ holdings (capguard_reject p payload w).2 = holdings w).
Proof.
  intros Hnd. split; [|split].
  - apply guarded_sealed; [done|]. intros w1 Hw1. cbv zeta. destruct (negb (truthy _)); [done | by apply full_sealed].
  - apply guarded_sealed; [done|]. intros w1 Hw1. cbv zeta. destruct (negb (truthy _)); [done|].
    destruct (negb (truthy _)); [done | by apply reject_sealed].
  - intros Hno. unfold capguard_release, capguard_reject, bind. pose proof (require_right_holdings p "manage" w) as Hh.
    destruct (_require_right p "manage" w) as [[[]|e] w1]; [discriminate Hno | by split].
Qed.

(** The listings show the tenant of the caller alone, and change nothing but
    the record of the decision. *)
Theorem listing_shows_own_tenant p status w d w' :
  capguard_list_quarantine p status w = (Ok d, w') ->
  holdings w' = holdings w /\
  exists rows, d = [("tenantId", JStr (tenant_of p)); ("items", JArr ((fun r => JObj (quarantine_record r)) <$> rows))] /\
    Forall (fun r => r ∈ held w /\ qr_tenant_id r = tenant_or_default (tenant_of p) /\
                     match status with Some s => s = "" \/ qr_status r = s | None => True end) rows /\
    (length rows <= 200)%nat.
Proof.
  unfold capguard_list_quarantine. intros E. step_ok E as [] w1 G.
  apply (keeps_run _ _ _ _ _ (require_right_holdings p "audit")) in G. step_ok E as rows w2 L. injection E as <- <-.
  unfold list_quarantine, ensure_quarantine_tables in L. step_ok L as [] w3 L0. injection L0 as <-.
  destruct (match status with Some s => negb (smem s QUARANTINE_STATUSES) | None => false end); [discriminate L|].
  injection L as <- <-. split; [exact G|].
  match goal with |- context [JObj <$> (quarantine_record <$> ?l)] => exists l end.
  split; [by rewrite <-list_fmap_compose|]. injection G as Gq _ _. split.
  - apply Forall_forall. intros r (i & Hi & _)%elem_of_take. apply list_elem_of_lookup_2 in Hi.
    rewrite elem_of_sort_by, elem_of_fetchall in Hi. destruct Hi as [[Ht%String.eqb_eq Hs]%andb_true_iff Hr].
    split; [unfold held; by rewrite <-Gq|]. split; [exact Ht|]. destruct status as [s|]; [|done].
    apply orb_true_iff in Hs as [Hs|Hs%String.eqb_eq]; [left; by destruct s | by right].
  - rewrite length_take. unfold Z.min, Z.max. cbn. lia.
Qed.
End Theorems.

(** ** Concrete inputs *)
Section Witnesses.
Import ReviewDemo QuarantineDemo.

Definition release_request : dict := [("quarantineId", JStr item_id)].
Lemma operators_confined_witness :
  (sealed (tenant_or_default "asg") scanned_world (capguard_release Demo.admin release_request scanned_world).2 /\
   sealed (tenant_or_default "asg") scanned_world (capguard_reject Demo.admin release_request scanned_world).2) /\
  is_ok (capguard_release Demo.admin release_request scanned_world).1 = true.
Proof.
  split; [|vm_compute; exact eq_refl].
  assert (NoDup (qr_id <$> held scanned_world)) as Hnd by (apply (bool_decide_unpack (NoDup _)); vm_compute; exact I).
  destruct (operators_confined Demo.admin release_request scanned_world Hnd) as (G1 & G2 & _). split; [exact G1 | exact G2].
Defined.

Lemma listing_shows_own_tenant_witness :
  exists d w', capguard_list_quarantine Demo.admin (Some "quarantined") scanned_world = (Ok d, w') /\ holdings w' = holdings scanned_world.
Proof.
  assert (is_ok (capguard_list_quarantine Demo.admin (Some "quarantined") scanned_world).1 = true) as Hok by (vm_compute; exact eq_refl).
  destruct (capguard_list_quarantine Demo.admin (Some "quarantined") scanned_world) as [[d|e] w'] eqn:E; [|discriminate Hok].
  exists d, w'. split; [exact eq_refl|]. destruct (listing_shows_own_tenant _ _ _ _ _ E) as [G _]. exact G.
Defined.
End Witnesses.
