(* ===== verification/Drafts.v ===== *)
(** * Capability drafts and the caller's own view ([governance.py])

    The template, creation, update, validation, private publication and the
    preparation of a pull request, behind one dispatcher; the files they read
    and write, and the entrypoint a draft may have. *)

From Stdlib Require Import ZArith Ascii String Lia.
From stdpp Require Import base option list strings gmap.
From S2P Require Import Prelude Sha256 PyStr Json Clock Db Models AccessControl AccessSpec AccessProps RegistryLog Gates Signing.
From S2P Require Import Superadmin Identity Stores SourceGates Catalog Promotions NamespaceOwners InstallGuards Manifest CatalogWrites.
Local Open Scope string_scope.
Local Open Scope list_scope.

(** What the process gives new files, and [difflib.unified_diff] without its
    line ends: the handlers rely on nothing else of them. *)
Class Host : Type := {
  umask : Z;
  unified_diff : list string -> list string -> string -> string -> list string
}.

(** ** Texts *)

(** [Path(value)]: refused when absolute or when it steps up; its text has no
    empty parts and no dots. *)
Definition safe_entrypoint (value : string) : outcome string :=
  if absolute value || smem ".." (parts value)
  then Raise (ValueError "entrypoint must be a relative path inside the draft package.")
  else Ok (s_or (join "/" (parts value)) ".").

Definition normalize_version (value : string) : string :=
  s_or (strip_by (one_of ".-") (smap (fun c => if is_alnum c || one_of ".-" c then to_lower c else "-"%char) value)) "0.1.0".

Definition DRAFT_TYPES : list string :=
  ["skill"; "agent"; "plugin"; "command"; "mcp_server"; "workflow"; "reference"; "bundle"].

(** [str(a or b or c or "")] *)
Definition str_get3 (d : dict) (k1 k2 k3 default : string) : string :=
  py_str (py_or (jget k1 d) (py_or (jget k2 d) (py_or (jget k3 d) (JStr default)))).

(** Universal newlines: a text is read with line feeds only. *)
Definition cr : string := String (ascii_of_nat 13) "".
Definition universal_newlines (s : string) : string := replace_all (replace_all s (cr +:+ newline) newline) cr newline.

(** [splitlines] of a text with line feeds only. *)
Definition lines_of (s : string) : list string :=
  match rev (split_on (ascii_of_nat 10) s) with
  | "" :: l => rev l
  | l => rev l
  end.

Definition content_sha (content : string) : string := "sha256:" +:+ sha256_hex content.

(** [tuple(str(item) for item in payload.get(key) or default)] *)
Definition text_tuple (v : json) (default : list json) : outcome (list json) :=
  let? l := py_iter (py_or v (JArr default)) in Ok ((fun x => JStr (py_str x)) <$> l).

Definition capability_template : dict :=
  [("required", jstrs ["name"; "title"; "description"; "content"]);
   ("optional", jstrs ["type"; "version"; "plugin"; "category"; "keywords"; "riskTier"; "entrypoint"; "namespaceId"; "storeId"]);
   ("defaults", JObj [("type", JStr "workflow"); ("version", JStr "0.1.0"); ("riskTier", JStr "low"); ("entrypoint", JStr "CAPABILITY.md")]);
   ("actions", jstrs ["draft.create"; "draft.update"; "draft.diff"; "validate"; "publish-private"; "share"; "submit"; "prepare-pr"]);
   ("notes", jstrs [
      "Private/shared draft edits are stored in the capmesh state directory and audited.";
      "Org namespace promotion must go through submit/approve and Git-backed review.";
      "On the authoritative node, a superadmin create is approved immediately when every mandatory gate passes; no second approval is requested."])].

Section Drafts.
Context `{!Runtime, !Machine, !UnicodeData, !Host}.

(** ** Validation *)
Definition draft_checks (payload : dict) (content : string) : list (string * bool) :=
  let filled k := truthy (strip (str_get payload k "")) in
  [("hasName", filled "name"); ("hasTitle", filled "title"); ("hasDescription", filled "description");
   ("hasContent", truthy (strip content));
   ("riskTierKnown", smem (str_get payload "riskTier" "low") ["low"; "medium"; "high"; "critical"]);
   ("promptInjectionScan", match scan_prompt_injection content with [] => true | _ => false end)].
Definition validate_capability_payload (payload : dict) (content : string) : dict :=
  let found := scan_prompt_injection content in
  let checks := draft_checks payload content in
  [("valid", JBool (List.forallb snd checks)); ("checks", JObj ((fun kv => (fst kv, JBool (snd kv))) <$> checks));
   ("warnings", jstrs (match found with [] => [] | _ => ["Potential prompt-injection wording found: " +:+ join ", " found] end))].
Definition stored_payload (c : Capability) : dict :=
  [("name", JStr (c_name c)); ("title", JStr (c_title c)); ("description", JStr (c_description c)); ("riskTier", JStr (c_risk_tier c))].

(** ** Files

    The process owns the files: a write needs the owner's write bit.  What a
    device keeps is not part of the state. *)
Definition dir_mode : Z := Z.land 511 (Z.lnot umask).
Definition file_mode : Z := Z.land 438 (Z.lnot umask).
Definition ancestors (p : list string) : list (list string) := (fun n => take n p) <$> seq 1 (length p).

(** [os.mkdir], unless the directory is there. *)
Definition make_dir (whole p : list string) : Op unit :=
  let! there := gets (fun w => is_dir (w_files w) p) in
  if there then ret tt
  else
    let! node := file_at (path_text p) in
    match node with
    | None => set_file (path_text p) (mkFileNode Directory dir_mode true "")
    | Some _ => raise (OtherError ((if (length p <? length whole)%nat then "NotADirectoryError: " else "FileExistsError: ")
                                     +:+ os_error (path_text whole)))
    end.
(** [path.mkdir(parents=True, exist_ok=True)] *)
Definition mkdir_parents (path : string) : Op unit :=
  let p := parts (resolve_path path) in forM (ancestors p) (make_dir p).

(** [path.write_text(content, encoding="utf-8")] *)
Definition write_text (path content : string) : Op unit :=
  let key := resolve_path path in
  let! node := file_at key in
  match node with
  | None =>
      let! there := gets (fun w => is_dir (w_files w) (removelast (parts key))) in
      if there then set_file key (mkFileNode Regular file_mode true content)
      else raise (OtherError ("FileNotFoundError: " +:+ os_error path))
  | Some n =>
      match fn_kind n with
      | Directory => raise (OtherError ("IsADirectoryError: " +:+ os_error path))
      | Symlink => raise (OtherError ("OSError: " +:+ os_error path))
      | Special => ret tt
      | Regular => if Z.testbit (fn_mode n) 7 then set_file key (mkFileNode Regular (fn_mode n) (fn_readable n) content) else raise (PermissionError (os_error path))
      end
  end.

(** [path.read_text(encoding="utf-8")]: strict, with universal newlines. *)
Definition read_utf8 (path : string) : Op string :=
  let! data := gets (fun w => read_bytes (w_files w) (parts path)) in
  let! data := lift data in
  if decode_replace data =s data then ret (universal_newlines data)
  else raise (ValueError "'utf-8' codec can't decode the file").

(** [a / b] for a relative path in its own text. *)
Definition child (dir entrypoint : string) : string := if entrypoint =s "." then dir else path_join dir entrypoint.

(** ** Creation *)

(** The namespace and store a draft goes to, checked against the caller. *)
Definition draft_store (p : Principal) (payload : dict) (identity_id : string) : string :=
  str_get payload "storeId" (stable_id "store" [tenant_of p; "user_private"; identity_id]).
Definition draft_namespace (p : Principal) (payload : dict) (store_id : string) : string :=
  str_get payload "namespaceId" (stable_id "ns" [tenant_of p; store_id; "personal"]).
Definition check_draft_store (p : Principal) (store_id : string) : Op unit :=
  let! store := query (fun d => fetchone (fun r => (st_id r =s store_id) && (st_tenant_id r =s tenant_of p)) (db_stores d)) in
  match store with
  | None => raise (ValueError "Target store not found.")
  | Some r => if smem (st_kind r) ["org"; "system"] then require_access p "manage" None (Some ("store:" +:+ store_id)) else ret tt
  end.

(** A plugin is a text or absent here; SQLite would convert a number. *)
Definition draft_plugin (payload : dict) : outcome (option string) :=
  match jget "plugin" payload with
  | JNull => Ok None
  | JStr s => Ok (Some s)
  | _ => Raise (OtherError "InterfaceError: Error binding parameter")
  end.

Definition draft_dir (p : Principal) (payload : dict) (capability_type name : string) : string :=
  path_join (path_join state_dir "drafts")
    (stable_id "capdraft" [tenant_of p; p_subject p; capability_type; name; str_get payload "version" "0.1.0"]).

Definition draft_capability (p : Principal) (payload : dict) (capability_type name title description content dir entrypoint
    store_id namespace_id uri_prefix : string) : outcome Capability :=
  let version := normalize_version (str_get payload "version" "0.1.0") in
  let uri := str_get payload "uri" (rstrip_by (one_of "/") uri_prefix +:+ "/" +:+ capability_type +:+ "/" +:+ name +:+ "@" +:+ version) in
  let metadata := [("draft", JBool true); ("editable", JBool true); ("source", JStr "system.capabilities");
                   ("validation", JObj (validate_capability_payload payload content))] in
  let? plugin := draft_plugin payload in
  let? keywords := text_tuple (jget "keywords" payload) [JStr name] in
  let c := new_capability uri capability_type name version title description (normalize_path dir) entrypoint
             (normalize_path (child dir entrypoint)) "capmesh_draft" "capmesh.system"
             (capability_type +:+ ":capmesh-draft:" +:+ tenant_of p +:+ ":" +:+ p_subject p +:+ ":" +:+ name +:+ ":" +:+ version)
             (content_sha content) in
  post_init
    (upd c_visibility (str_get payload "visibility" "protected") (upd c_discovery_mode (str_get payload "discoveryMode" "hidden")
    (upd c_owner (p_subject p) (upd c_plugin plugin (upd c_category (jget "category" payload) (upd c_keywords keywords
    (upd c_risk_tier (str_get payload "riskTier" "low") (upd c_lifecycle "draft" (upd c_tenant_id (tenant_of p)
    (upd c_store_id (Some store_id) (upd c_namespace_id (Some namespace_id) (upd c_created_by (Some (p_subject p))
    (upd c_approval_state "draft" (upd c_metadata (JObj metadata) c)))))))))))))).

Definition draft_result (c : Capability) (validation : dict) : dict :=
  [("capability", JObj (to_record c false true)); ("validation", JObj validation)].

Definition create_capability_draft (p : Principal) (payload : dict) : Op dict :=
  let! identity_id := ensure_identity_for_principal p in
  let name := slug (str_get payload "name" "") in
  let title := strip (str_get payload "title" "") in
  let description := strip (str_get payload "description" "") in
  let content := str_get payload "content" "" in
  let capability_type := str_get2 payload "type" "capabilityType" "workflow" in
  if negb (truthy name) || negb (truthy title) || negb (truthy description) || negb (truthy content)
  then raise (ValueError "name, title, description, and content are required.")
  else if negb (smem capability_type DRAFT_TYPES) then raise (ValueError "Unsupported capability type.")
  else
    let store_id := draft_store p payload identity_id in
    let namespace_id := draft_namespace p payload store_id in
    let! _ := check_draft_store p store_id in
    let! entrypoint := lift (safe_entrypoint (str_get payload "entrypoint" "CAPABILITY.md")) in
    let dir := draft_dir p payload capability_type name in
    let! _ := mkdir_parents dir in
    let! _ := mkdir_parents (path_parent (child dir entrypoint)) in
    let! _ := write_text (child dir entrypoint) content in
    let! namespace := query (fun d => fetchone (fun r => (ns_id r =s namespace_id) && (ns_tenant_id r =s tenant_of p)) (db_namespaces d)) in
    match namespace with
    | None => raise (ValueError "Target namespace not found.")
    | Some ns =>
        let! cap := lift (draft_capability p payload capability_type name title description content dir entrypoint
                            store_id namespace_id (ns_uri_prefix ns)) in
        let! _ := upsert_capability cap in
        let! _ := audit_event "capability.draft.created" (p_subject p) (Some (c_uri cap)) (Some "draft.create") (Some "allow") None
                    [("name", JStr name)] (tenant_of p) "user" in
        let! _ := commit in
        ret (draft_result cap (validate_capability_payload payload content))
    end.

(** ** Editing *)
Definition require_capability_for_edit (p : Principal) (payload : dict) (right : string) : Op Capability :=
  let identifier := str_get3 payload "capabilityUri" "uri" "name" "" in
  if negb (truthy identifier) then raise (ValueError "capabilityUri is required.")
  else
    let! found := query (fun d => get_capability d identifier) in
    let! found := lift found in
    match found with
    | None => raise (ValueError "Capability not found.")
    | Some c =>
        let! _ := require_access p right (Some c) None in
        if (right =s "manage") && (c_approval_state c =s "approved") && negb (otruthy (c_store_id c))
        then raise (PermissionError "Approved capabilities must be edited through prepare-pr.")
        else ret c
    end.

Definition edit_payload (payload : dict) (c : Capability) : dict :=
  [("name", py_or (jget "name" payload) (JStr (c_name c))); ("title", py_or (jget "title" payload) (JStr (c_title c)));
   ("description", py_or (jget "description" payload) (JStr (c_description c)));
   ("riskTier", py_or (jget "riskTier" payload) (JStr (c_risk_tier c)))].

Definition update_capability_draft (p : Principal) (payload : dict) : Op dict :=
  let! cap := require_capability_for_edit p payload "manage" in
  let given := jget "content" payload in
  let! content := (if py_truthy given then ret (py_str given) else read_utf8 (c_source_path cap)) in
  let! _ := when (match given with JNull => false | _ => true end) (write_text (c_source_path cap) content) in
  let validation := validate_capability_payload (edit_payload payload cap) content in
  let! metadata := lift (as_object (c_metadata cap)) in
  let! keywords := lift (text_tuple (jget "keywords" payload) (c_keywords cap)) in
  let! updated := lift (post_init
    (upd c_title (str_get payload "title" (c_title cap)) (upd c_description (str_get payload "description" (c_description cap))
    (upd c_keywords keywords (upd c_risk_tier (str_get payload "riskTier" (c_risk_tier cap))
    (upd c_content_hash (content_sha content) (upd c_metadata (JObj (dset "validation" (JObj validation) metadata)) cap))))))) in
  let! _ := upsert_capability updated in
  let! _ := audit_event "capability.draft.updated" (p_subject p) (Some (c_uri cap)) (Some "draft.update") (Some "allow") None []
              (tenant_of p) "user" in
  let! _ := commit in
  ret (draft_result updated validation).

Definition diff_capability_draft (p : Principal) (payload : dict) : Op dict :=
  let! cap := require_capability_for_edit p payload "load" in
  let! current := read_utf8 (c_source_path cap) in
  let proposed := str_get payload "content" current in
  ret [("capabilityUri", JStr (c_uri cap)); ("changed", JBool (negb (current =s proposed)));
       ("diff", jstrs (take 400 (unified_diff (lines_of current) (lines_of proposed) "current" "proposed")))].

Definition validate_capability_draft (p : Principal) (payload : dict) : Op dict :=
  let! cap := require_capability_for_edit p payload "load" in
  let! content := read_utf8 (c_source_path cap) in
  let result := validate_capability_payload (stored_payload cap) content in
  ret [("capabilityUri", JStr (c_uri cap)); ("valid", jget "valid" result); ("checks", jget "checks" result);
       ("warnings", jget "warnings" result)].

Definition publish_private_capability (p : Principal) (payload : dict) : Op dict :=
  let! cap := require_capability_for_edit p payload "manage" in
  let! now := sql_now in
  let! _ := update_rows db_capabilities (fun r => cp_uri r =s c_uri cap)
    (fun r => upd cp_lifecycle "published" (upd cp_approval_state "draft" (upd cp_updated_at now r))) in
  let! _ := audit_event "capability.private.published" (p_subject p) (Some (c_uri cap)) (Some "publish-private") (Some "allow") None []
              (tenant_of p) "user" in
  let! _ := commit in
  ret [("capabilityUri", JStr (c_uri cap)); ("lifecycle", JStr "published"); ("approvalState", JStr "draft")].

Definition pr_artifact (c : Capability) : string :=
  path_join (path_join state_dir "pr-prep") (stable_id "prprep" [c_uri c] +:+ ".json").
Definition prepare_capability_pr (p : Principal) (payload : dict) : Op dict :=
  let! cap := require_capability_for_edit p payload "submit" in
  let! _ := mkdir_parents (path_join state_dir "pr-prep") in
  let artifact := pr_artifact cap in
  let! content := read_utf8 (c_source_path cap) in
  let data :=
    [("capabilityUri", JStr (c_uri cap)); ("title", JStr (str_get payload "title" ("Promote " +:+ c_name cap)));
     ("branch", JStr (str_get payload "branch" ("capmesh/" +:+ slug (c_name cap))));
     ("sourcePath", JStr (c_source_path cap)); ("packagePath", JStr (c_package_path cap)); ("requestedBy", JStr (p_subject p));
     ("checks", JObj (validate_capability_payload (stored_payload cap) content));
     ("nextCommands", jstrs ["Create a git branch from this artifact."; "Add/update the source capability files.";
        "Run capmesh ingest, tests, retrieval evals, and submit the PR for governed review."])] in
  let! _ := write_text artifact (json_dumps (JObj data)) in
  let! _ := audit_event "capability.pr.prepared" (p_subject p) (Some (c_uri cap)) (Some "prepare-pr") (Some "allow") None
              [("artifact", JStr artifact)] (tenant_of p) "user" in
  let! _ := commit in
  ret (("artifact", JStr artifact) :: data).

Definition manage_capability (p : Principal) (args : dict) : Op dict :=
  let action := str_get args "action" "template" in
  if action =s "template" then ret capability_template
  else if smem action ["draft.create"; "create"] then create_capability_draft p args
  else if smem action ["draft.update"; "update"] then update_capability_draft p args
  else if smem action ["draft.diff"; "diff"] then diff_capability_draft p args
  else if smem action ["validate"; "draft.validate"] then validate_capability_draft p args
  else if smem action ["publish-private"; "draft.publish-private"] then publish_private_capability p args
  else if action =s "share" then create_share p args
  else if action =s "submit" then submit_promotion p args
  else if smem action ["prepare-pr"; "git.pr.prepare"] then prepare_capability_pr p args
  else raise (ValueError ("Unsupported capability action: " +:+ action)).

(** ** The caller *)

(** A commit when nothing was written changes nothing. *)
Definition current_user (p : Principal) : Op dict :=
  let! identity_id := ensure_identity_for_principal p in
  let! _ := commit in
  let! stores := list_stores p None false in
  let! owned := query (fun d => namespaces_by_owner d (p_subject p) (tenant_of p)) in
  ret [("tenant", JStr (p_tenant_id p)); ("subject", JStr (p_subject p)); ("identityId", JStr identity_id);
       ("email", jopt (p_email p)); ("groups", jstrs (p_groups p)); ("roles", jstrs (p_roles p));
       ("stores", JArr (JObj <$> stores)); ("namespaceOwnership", JArr (JObj <$> owned))].
End Drafts.
