(* ===== verification/DraftProps.v ===== *)
(** * What editing a capability guarantees ([governance.py])

    Without the right nothing changes; edited content loses the approval and
    every verified status; a draft records its author and the file it wrote;
    and a draft writes inside its own directory only. *)

From Stdlib Require Import ZArith Ascii String Lia.
From stdpp Require Import base option list strings gmap.
From S2P Require Import Prelude Sha256 PyStr Json Clock Db Models AccessControl AccessSpec AccessProps RegistryLog Gates Signing.
From S2P Require Import Superadmin Identity Stores SourceGates Catalog Promotions NamespaceOwners InstallGuards Manifest ManifestProps.
From S2P Require Import CatalogWrites CatalogProps Reviews ReviewProps IngestProps Drafts.
Local Open Scope string_scope.
Local Open Scope list_scope.

#[local] Opaque sha256_hex.

Lemma lift_inv {A} (o : outcome A) (w : World) a w' : lift o w = (Ok a, w') -> o = Ok a /\ w' = w.
Proof. by intros [= -> <-]. Qed.

(** ** Paths *)
Lemma split_on_cons c s : exists x l, split_on c s = x :: l.
Proof. destruct s as [|d s]; cbn; [by eexists _, _|]. destruct (ceqb d c); [by eexists _, _|]. destruct (split_on c s); by eexists _, _. Qed.

Lemma split_on_join c a b : split_on c (a +:+ String c b) = split_on c a ++ split_on c b.
Proof.
  induction a as [|d a IH]; cbn [split_on append].
  - change ("" +:+ String c b) with (String c b). cbn [split_on]. unfold ceqb. by rewrite Ascii.eqb_refl.
  - change (String d a +:+ String c b) with (String d (a +:+ String c b)). cbn [split_on]. rewrite IH.
    destruct (ceqb d c); [done|]. destruct (split_on_cons c a) as (x & l & ->). done.
Qed.

Lemma parts_slash a b : parts (a +:+ String "/" b) = parts a ++ parts b.
Proof. unfold parts. by rewrite split_on_join, List.filter_app. Qed.

(** The texts between two separators hold none. *)
Definition free_of (c : ascii) (s : string) : bool := sall (fun d => negb (ceqb d c)) s.
Lemma split_on_free c s : Forall (fun x => free_of c x = true) (split_on c s).
Proof.
  induction s as [|d s IH]; cbn; [by repeat constructor|]. destruct (ceqb d c) eqn:E; [by constructor|].
  destruct (split_on_cons c s) as (x & l & Hx). rewrite Hx in *. inversion_clear IH. constructor; [|done].
  unfold free_of. cbn. by rewrite E.
Qed.
Lemma split_on_whole c s : free_of c s = true -> split_on c s = [s].
Proof.
  unfold free_of. induction s as [|d s IH]; cbn; [done|]. intros [Hd%negb_true_iff Hs]%andb_true_iff. by rewrite Hd, IH.
Qed.
Lemma split_join c l : l <> [] -> Forall (fun x => free_of c x = true) l -> split_on c (join (String c "") l) = l.
Proof.
  induction l as [|x l IH]; [done|]. intros _ Hl. inversion_clear Hl as [|?? Hx Hr]. destruct l as [|y l].
  - cbn. by apply split_on_whole.
  - change (join (String c "") (x :: y :: l)) with (x +:+ String c (join (String c "") (y :: l))).
    rewrite split_on_join, (split_on_whole c x Hx), IH by done. done.
Qed.

Definition plain_part (x : string) : bool := truthy x && negb (x =s ".").
Lemma parts_free v : Forall (fun x => free_of "/" x = true /\ plain_part x = true) (parts v).
Proof.
  unfold parts. pose proof (split_on_free "/" v) as Hf. induction Hf as [|x l Hx _ IH]; cbn; [done|].
  destruct (truthy x && negb (x =s ".")) eqn:E; [by constructor | done].
Qed.

Lemma parts_joined v : parts (join "/" (parts v)) = parts v.
Proof.
  pose proof (parts_free v) as Hf. destruct (parts v) as [|x l]; [done|]. unfold parts.
  rewrite split_join; [|done|]. 2: { eapply Forall_impl; [exact Hf | by intros y []]. }
  induction Hf as [|y l' [_ Hy] _ IH]; cbn; [done|]. unfold plain_part in Hy. by rewrite Hy, IH.
Qed.

(** A draft's entrypoint never steps up. *)
Lemma safe_entrypoint_parts v e : safe_entrypoint v = Ok e -> parts e = parts v /\ ".." ∉ parts e.
Proof.
  unfold safe_entrypoint. destruct (absolute v || smem ".." (parts v)) eqn:E; [done|]. apply orb_false_iff in E as [_ E].
  intros [= <-]. assert (parts (s_or (join "/" (parts v)) ".") = parts v) as Hp.
  { unfold s_or. destruct (truthy (join "/" (parts v))) eqn:Et; [apply parts_joined|].
    pose proof (parts_joined v) as Hj. destruct (join "/" (parts v)); [|done]. by rewrite <-Hj. }
  split; [exact Hp|]. rewrite Hp. intros Hin%smem_In. congruence.
Qed.

Lemma lstrip_split p s : exists t, s = t +:+ lstrip_by p s /\ sall p t = true.
Proof.
  induction s as [|c s (t & Hs & Ht)]; [by exists ""|]. cbn. destruct (p c) eqn:E; [|by exists ""].
  exists (String c t). split; [|unfold sall in *; cbn; by rewrite E, Ht]. change (String c s = String c (t +:+ lstrip_by p s)). by f_equal.
Qed.
Lemma rstrip_split p s : exists t, s = rstrip_by p s +:+ t /\ sall p t = true.
Proof.
  destruct (lstrip_split p (srev s)) as (t & Hs & Ht). exists (srev t). unfold rstrip_by. rewrite sall_srev. split; [|done].
  rewrite <-srev_app_split, <-Hs. by rewrite srev_srev.
Qed.
Lemma parts_slashes a t : sall (one_of "/") t = true -> parts (a +:+ t) = parts a.
Proof.
  revert a. unfold sall. induction t as [|c t IH]; intros a; cbn [List.forallb list_ascii_of_string].
  - intros _. f_equal. induction a as [|d a IHa]; [done|]. change (String d (a +:+ "") = String d a). by f_equal.
  - intros [Hc Ht]%andb_true_iff. unfold one_of in Hc. cbn in Hc. rewrite orb_false_r in Hc. unfold ceqb in Hc.
    apply Ascii.eqb_eq in Hc as ->. rewrite parts_slash. specialize (IH "" Ht). change ("" +:+ t) with t in IH. rewrite IH.
    apply List.app_nil_r.
Qed.

Lemma child_parts dir e : parts (child dir e) = parts dir ++ parts e.
Proof.
  unfold child. destruct (String.eqb_spec e ".") as [->|_]; [symmetry; apply List.app_nil_r|].
  unfold path_join. change (rstrip_by (one_of "/") dir +:+ "/" +:+ e) with (rstrip_by (one_of "/") dir +:+ String "/" e).
  rewrite parts_slash. f_equal. destruct (rstrip_split (one_of "/") dir) as (t & Hd & Ht). rewrite Hd at 2. by rewrite parts_slashes.
Qed.

Section Editing.
Context `{!Runtime, !Machine, !UnicodeData, !Host}.

(** ** The right to edit *)

(** A capability to edit was found by its identifier, and the caller has the
    right on it. *)
Record editable (p : Principal) (payload : dict) (right : string) (w : World) (c : Capability) : Prop := {
  ed_found : get_capability (w_db w) (str_get3 payload "capabilityUri" "uri" "name" "") = Ok (Some c);
  ed_allowed : (evaluate_access p right (Some c) None true w).1 = Ok (true, None);
  ed_governed : right = "manage" -> c_approval_state c = "approved" -> otruthy (c_store_id c) = true
}.

Lemma allowed_reason p right c res audit w b o w' :
  evaluate_access p right c res audit w = (Ok (b, o), w') -> b = true -> o = None.
Proof.
  unfold evaluate_access. destruct (negb _); [by intros [= <- _ _]|]. intros E. step_ok E as [b' why] w1 G.
  step_ok E as u w2 G2. injection E as <- <- _. by intros ->.
Qed.

Lemma edit_inv p payload right w r w' :
  require_capability_for_edit p payload right w = (r, w') ->
  undecided w' = undecided w /\ match r with Ok c => editable p payload right w c | Raise _ => True end.
Proof.
  unfold require_capability_for_edit. cbv zeta. destruct (negb (truthy _)); [by intros [= <- <-]|].
  unfold bind at 1. cbn [query gets]. unfold bind at 1, lift at 1.
  destruct (get_capability (w_db w) _) as [[c|]|] eqn:Ec; try by intros [= <- <-].
  unfold require_access. intros E. unfold bind at 1, bind at 1 in E.
  pose proof (evaluate_undecided p right (Some c) None true w) as Hu. unfold same in Hu.
  destruct (evaluate_access p right (Some c) None true w) as [[[[] why]|e] w1] eqn:Ea; cbn [snd] in Hu;
    [|by injection E as <- <-..]. cbn in E.
  destruct ((right =s "manage") && _ && _) eqn:Eg; injection E as <- <-; (split; [exact Hu|]); [done|].
  split; [exact Ec | by rewrite Ea, (allowed_reason _ _ _ _ _ _ _ _ _ Ea eq_refl) |].
  intros -> Ha. rewrite Ha, !String.eqb_refl in Eg. cbn in Eg. by destruct (otruthy _).
Qed.

(** The edits, with the right each of them asks for. *)
Definition edits (p : Principal) (payload : dict) : list (string * Op dict) :=
  [("manage", update_capability_draft p payload); ("load", diff_capability_draft p payload);
   ("load", validate_capability_draft p payload); ("manage", publish_private_capability p payload);
   ("submit", prepare_capability_pr p payload)].

Lemma edits_guarded p payload right op : (right, op) ∈ edits p payload ->
  exists k, op = bind (require_capability_for_edit p payload right) k.
Proof.
  unfold edits. intros Hin. repeat (apply elem_of_cons in Hin as [[= -> ->]|Hin]; [by eexists|]). by apply not_elem_of_nil in Hin.
Qed.

(** ** Edited content *)

(** A verdict someone else reached about the content. *)
Definition vouched (r : CapRow) : bool :=
  (cp_approval_state r =s "approved") || (cp_signature_status r =s "verified") || (cp_provenance_status r =s "verified")
  || (cp_risk_review_status r =s "approved").
Definition housed (r : CapRow) : bool :=
  List.existsb (startswith (cp_uri r)) ["cap://user/"; "cap://org/"; "cap://app/"; "cap://all/"; "cap://system/"].

Lemma state_case_false s g f i : f <> g -> i = s -> state_case false s g f i <> g.
Proof. unfold state_case. intros Hf ->. by destruct (String.eqb_spec s g). Qed.

Lemma changed_unvouched c s r : state_rule c s r -> cap_states c = states s -> cp_content_hash s <> c_content_hash c -> vouched r = false.
Proof.
  unfold state_rule. intros Hr Hc Hh%String.eqb_neq. rewrite Hh, Hc in Hr.
  unfold states, good_states in Hr. cbn [next_states] in Hr. injection Hr as E1 _ E3 E4 E5. unfold vouched.
  rewrite E1, E3, E4, E5. rewrite !orb_false_iff, !String.eqb_neq. by split_and!; apply state_case_false.
Qed.

Lemma housed_default c e : List.existsb (startswith (c_uri c)) ["cap://user/"; "cap://org/"; "cap://app/"; "cap://all/"; "cap://system/"] = true ->
  apply_default_user_namespace c = Ok e ->
  c_uri e = c_uri c /\ cap_states e = cap_states c /\ c_content_hash e = c_content_hash c.
Proof.
  intros Hh. unfold apply_default_user_namespace. cbv zeta. destruct (_ || startswith _ "cap://system/") eqn:Es; [by intros [= <-]|].
  apply orb_false_iff in Es as [_ Es]. cbn [List.existsb] in Hh. rewrite Es in Hh. cbn [orb] in Hh.
  destruct (List.existsb _ ["cap://user/"; "cap://org/"; "cap://app/"; "cap://all/"]) eqn:Ep;
    [by intros [-> _]%post_init_ok|]. cbn [List.existsb] in Ep. by rewrite Hh in Ep.
Qed.

Lemma found_row d asked c : get_capability d asked = Ok (Some c) ->
  exists r, r ∈ db_capabilities d /\ cp_uri r = c_uri c /\ cp_content_hash r = c_content_hash c /\ states r = cap_states c.
Proof.
  unfold get_capability. destruct (capability_row_for d asked) as [r|] eqn:Er; [|done]. intros E. reader_runs.
  destruct (_capguard_is_held d a); [done|]. injection E as ->. exists r. split.
  - unfold capability_row_for in Er. destruct (fetchone _ _) as [r'|] eqn:Ef; [injection Er as ->; by apply fetchone_some in Ef as [? _]|].
    destruct (sort_by _ _) as [|x l] eqn:El in Er; [done|]. injection Er as ->.
    assert (r ∈ r :: l) as Hin by left. rewrite <-El in Hin. apply elem_of_sort_by, elem_of_fetchall in Hin. by destruct Hin.
  - unfold capability_from_row in Ea. reader_runs. by apply post_init_ok in Ea as [-> _].
Qed.

(** Files are beside the database. *)
Definition off_files (w : World) : DB * DB * Z * nat := (w_db w, w_disk w, w_clock w, w_uuid w).
Lemma write_text_off_files path content : keeps off_files (write_text path content).
Proof. unfold keeps, write_text, file_at, set_file. solve_frame; by intros w. Qed.
Lemma make_dir_off_files whole p : keeps off_files (make_dir whole p).
Proof. unfold keeps, make_dir, file_at, set_file. solve_frame; by intros w. Qed.
Lemma mkdir_off_files path : keeps off_files (mkdir_parents path).
Proof. unfold keeps, mkdir_parents. apply preserves_forM; [exact _|]. intros q. apply make_dir_off_files. Qed.
Lemma read_utf8_reads path w o w' : read_utf8 path w = (o, w') -> w' = w.
Proof.
  unfold read_utf8. unfold bind at 1. cbn [gets]. unfold bind at 1, lift at 1. destruct (read_bytes _ _); [|by intros [= _ <-]].
  destruct (_ =s _); by intros [= _ <-].
Qed.

Lemma off_files_db w w' : off_files w' = off_files w -> w_db w' = w_db w.
Proof. by intros [= -> _ _ _]. Qed.

(** What an update hands to the catalog: the capability it found, with the
    sum of the content it wrote. *)
Lemma update_inv p payload w d w' :
  update_capability_draft p payload w = (Ok d, w') ->
  exists c content updated id w1 w2, editable p payload "manage" w c /\ catalog w1 = catalog w /\
    c_uri updated = c_uri c /\ cap_states updated = cap_states c /\ c_content_hash updated = content_sha content /\
    upsert_capability updated w1 = (Ok id, w2) /\ catalog w' = catalog w2 /\ w_disk w' = w_db w'.
Proof.
  unfold update_capability_draft. intros E. step_ok E as c w1 G. apply edit_inv in G as [Hu Hed]. cbv zeta in E.
  step_ok E as content w2 G. assert (w2 = w1) as ->.
  { destruct (py_truthy _); [by injection G as _ <- | by eapply read_utf8_reads]. }
  clear G.
  step_ok E as [] w3 G3. assert (w_db w3 = w_db w1) as H3.
  { apply off_files_db. eapply keeps_run; [|exact G3]. apply preserves_when; [exact _ | apply write_text_off_files]. }
  step_ok E as md w4 G. apply lift_inv in G as [_ ->]. step_ok E as kws w4 G. apply lift_inv in G as [_ ->].
  step_ok E as updated w4 G. apply lift_inv in G as [Hup ->].
  apply post_init_ok in Hup as [-> _]. step_ok E as id w4 G4. step_ok E as ev w5 G5.
  apply (keeps_run _ _ _ _ _ (audit_event_unlogged _ _ _ _ _ _ _ _ _)) in G5. step_ok E as [] w6 G6. injection G6 as <-. injection E as _ <-.
  match type of G4 with upsert_capability ?u _ = _ => exists c, content, u, id, w3, w4 end. split; [exact Hed|].
  split; [unfold catalog; rewrite H3; exact (f_equal (fun u => db_capabilities u.1.1.1) Hu)|].
  split; [reflexivity|]. split; [reflexivity|]. split; [reflexivity|]. split; [exact G4|].
  split; [exact (f_equal (fun u => db_capabilities u.1.1.1) G5) | reflexivity].
Qed.

(** ** Creation *)
Definition kept (w : World) : list CapRow * gmap string FileNode := (catalog w, w_files w).
Lemma identity_kept p : keeps kept (ensure_identity_for_principal p).
Proof.
  unfold keeps, kept, catalog, ensure_identity_for_principal, ensure_principal_stores, ensure_personal_store,
    upsert_identity, ensure_default_tenant, bootstrap_tenant_row, bootstrap_default_identity,
    bootstrap_user_stores, bootstrap_org, insert_org_store, bootstrap_system, bootstrap_all_users,
    insert_store, insert_namespace. solve_frame.
Qed.
Lemma store_check_kept p id : keeps kept (check_draft_store p id).
Proof.
  unfold keeps, check_draft_store. solve_frame. intros w.
  exact (f_equal (fun u => (db_capabilities u.1.1.1, u.2)) (require_undecided p "manage" None (Some ("store:" +:+ id)) w)).
Qed.
Lemma upsert_files c : keeps w_files (upsert_capability c).
Proof. unfold keeps, upsert_capability, write_row, write_sources, write_fts. solve_frame. Qed.
Lemma audit_files ev a t ac de re pl tn ty : keeps w_files (audit_event ev a t ac de re pl tn ty).
Proof. intros w. exact (f_equal snd (audit_event_unlogged ev a t ac de re pl tn ty w)). Qed.

(** Every file there is was there, is a directory, or is below [dir] without a
    step up. *)
Definition below (dir k : string) : Prop := exists f q, k = resolve_path f /\ parts f = parts dir ++ q /\ ".." ∉ q.
Definition drafted (dir : string) (w w' : World) : Prop :=
  forall k n, w_files w' !! k = Some n -> w_files w !! k = Some n \/ fn_kind n = Directory \/ below dir k.
#[local] Instance drafted_preorder dir : PreOrder (drafted dir).
Proof. split; [intros w k n; by left|]. intros x y z Hxy Hyz k n Hk. destruct (Hyz k n Hk) as [Hy|Hy]; [by apply Hxy | by right]. Qed.

Lemma keeps_drafted {A} dir (m : Op A) : keeps w_files m -> preserves (drafted dir) m.
Proof. intros Hm w k n Hk. left. specialize (Hm w). unfold same in Hm. by rewrite <-Hm. Qed.
Lemma kept_drafted {A} dir (m : Op A) : keeps kept m -> preserves (drafted dir) m.
Proof. intros Hm. apply keeps_drafted. intros w. exact (f_equal snd (Hm w)). Qed.

Lemma make_dir_drafted dir whole p : preserves (drafted dir) (make_dir whole p).
Proof.
  intros w. unfold make_dir, file_at, bind, gets. destruct (is_dir _ _); [done|]. destruct (w_files w !! path_text p); [done|].
  intros k n Hk. change (<[path_text p := mkFileNode Directory dir_mode true ""]> (w_files w) !! k = Some n) in Hk.
  apply lookup_insert_Some in Hk as [[_ <-]|[_ Hk]]; [right; left; reflexivity | left; exact Hk].
Qed.
Lemma mkdir_drafted dir path : preserves (drafted dir) (mkdir_parents path).
Proof. unfold mkdir_parents. apply preserves_forM; [exact _|]. intros q. apply make_dir_drafted. Qed.
Lemma write_text_drafted dir path content : below dir (resolve_path path) -> preserves (drafted dir) (write_text path content).
Proof.
  intros Hb w. unfold write_text, file_at, set_file, bind, gets, modify. cbv zeta.
  assert (forall n, drafted dir w (upd w_files (<[resolve_path path := n]> (w_files w)) w)) as Hset.
  { intros x k n Hk. change (<[resolve_path path := x]> (w_files w) !! k = Some n) in Hk.
    apply lookup_insert_Some in Hk as [[<- _]|[_ Hk]]; [right; right; exact Hb | left; exact Hk]. }
  destruct (w_files w !! resolve_path path) as [n|]; [destruct (fn_kind n); try done; destruct (Z.testbit _ _) | destruct (is_dir _ _)]; solve [apply Hset | done].
Qed.

(** A step that may only raise, and whose result is known. *)
Lemma preserves_checked (R : relation World) `{!PreOrder R} {A B} (o : outcome A) (k : A -> Op B) :
  (forall a, o = Ok a -> preserves R (k a)) -> preserves R (bind (lift o) k).
Proof. intros Hk w. unfold bind, lift. destruct o as [a|e]; [by apply Hk | done]. Qed.

Definition draft_home (p : Principal) (payload : dict) : string :=
  draft_dir p payload (str_get2 payload "type" "capabilityType" "workflow") (slug (str_get payload "name" "")).

Lemma create_drafted p payload : preserves (drafted (draft_home p payload)) (create_capability_draft p payload).
Proof.
  unfold create_capability_draft. apply preserves_bind; [exact _ | apply kept_drafted, identity_kept | intros id]. cbv zeta.
  destruct (_ || _); [by intros w|]. destruct (negb (smem _ _)); [by intros w|].
  apply preserves_bind; [exact _ | apply kept_drafted, store_check_kept | intros []].
  apply preserves_checked; [exact _|]. intros e [_ Hup]%safe_entrypoint_parts.
  apply preserves_bind; [exact _ | apply mkdir_drafted | intros []].
  apply preserves_bind; [exact _ | apply mkdir_drafted | intros []].
  apply preserves_bind; [exact _ | | intros []].
  { apply write_text_drafted. eexists _, (parts e). split; [reflexivity|]. split; [apply child_parts | exact Hup]. }
  apply preserves_bind; [exact _ | by intros w | intros [ns|]]; [|by intros w].
  apply preserves_checked; [exact _|]. intros c _.
  apply preserves_bind; [exact _ | apply keeps_drafted, upsert_files | intros n].
  apply preserves_bind; [exact _ | apply keeps_drafted, audit_files | intros ev].
  apply preserves_bind; [exact _ | by apply keeps_drafted; intros w | by intros u w].
Qed.

Definition holds_text (path content : string) (w : World) : Prop :=
  exists n, w_files w !! resolve_path path = Some n /\ (fn_kind n = Regular \/ fn_kind n = Special) /\
    (fn_kind n = Regular -> fn_content n = content).
Lemma write_text_inv path content w w' : write_text path content w = (Ok tt, w') -> holds_text path content w'.
Proof.
  unfold write_text, file_at, set_file, bind, gets, modify. cbv zeta. unfold holds_text.
  assert (forall x, w_files (upd w_files (<[resolve_path path := x]> (w_files w)) w) !! resolve_path path = Some x) as Hset
    by (intros x; apply lookup_insert_eq).
  destruct (w_files w !! resolve_path path) as [n|] eqn:En.
  - destruct (fn_kind n) eqn:Ek; try discriminate.
    + destruct (Z.testbit _ _); [|discriminate]. intros [= <-]. eexists. split; [apply Hset|]. split; [by left | done].
    + intros [= <-]. exists n. rewrite Ek. split; [done|]. split; [by right | done].
  - destruct (is_dir _ _); [|discriminate]. intros [= <-]. eexists. split; [apply Hset|]. split; [by left | done].
Qed.

(** What a draft that was created hands to the catalog, and its file. *)
Lemma draft_created_inv p payload w d w' :
  create_capability_draft p payload w = (Ok d, w') ->
  exists e c id w1 w2, safe_entrypoint (str_get payload "entrypoint" "CAPABILITY.md") = Ok e /\
    catalog w1 = catalog w /\ upsert_capability c w1 = (Ok id, w2) /\ catalog w' = catalog w2 /\ w_disk w' = w_db w' /\
    c_source_path c = resolve_path (child (draft_home p payload) e) /\
    c_content_hash c = content_sha (str_get payload "content" "") /\ c_owner c = p_subject p /\ c_created_by c = Some (p_subject p) /\
    c_tenant_id c = tenant_of p /\ holds_text (child (draft_home p payload) e) (str_get payload "content" "") w'.
Proof.
  unfold create_capability_draft. intros E. step_ok E as iid w1 G.
  pose proof (keeps_run _ _ _ _ _ (identity_kept p) G) as K1. clear G. cbv zeta in E. ok_cases E.
  step_ok E as [] w2 G. pose proof (keeps_run _ _ _ _ _ (store_check_kept _ _) G) as K2. clear G.
  step_ok E as e w3 G. apply lift_inv in G as [He ->]. step_ok E as [] w3 G. pose proof (keeps_run _ _ _ _ _ (mkdir_off_files _) G) as K3. clear G.
  step_ok E as [] w4 G. pose proof (keeps_run _ _ _ _ _ (mkdir_off_files _) G) as K4. clear G.
  step_ok E as [] w5 Gw. pose proof (keeps_run _ _ _ _ _ (write_text_off_files _ _) Gw) as K5.
  step_ok E as ns w6 G. injection G as _ <-. destruct ns as [ns|]; [|discriminate E].
  step_ok E as c w6 G. apply lift_inv in G as [Hc ->]. step_ok E as id w7 Gu. step_ok E as ev w8 Ga. step_ok E as [] w9 G. injection G as <-.
  injection E as _ <-. apply write_text_inv in Gw.
  unfold draft_capability in Hc. cbv zeta in Hc. apply obind_ok in Hc as (plugin & _ & Hc). apply obind_ok in Hc as (kws & _ & Hc).
  apply post_init_ok in Hc as [-> _].
  match type of Gu with upsert_capability ?u _ = _ => exists e, u, id, w5, w7 end. split; [exact He|]. split; [|split; [exact Gu|]].
  { unfold catalog. rewrite (off_files_db _ _ K5), (off_files_db _ _ K4), (off_files_db _ _ K3).
    pose proof (f_equal fst K2) as C2. pose proof (f_equal fst K1) as C1. cbn in C1, C2. unfold catalog in *. congruence. }
  split; [exact (f_equal (fun u => db_capabilities u.1.1.1) (keeps_run _ _ _ _ _ (audit_event_unlogged _ _ _ _ _ _ _ _ _) Ga))|].
  do 6 (split; [reflexivity|]). unfold holds_text in *.
  pose proof (keeps_run _ _ _ _ _ (upsert_files _) Gu) as F1. pose proof (keeps_run _ _ _ _ _ (audit_files _ _ _ _ _ _ _ _ _) Ga) as F2.
  change (w_files (upd w_disk (w_db w8) w8)) with (w_files w8). by rewrite F2, F1.
Qed.
End Editing.

Section Theorems.
Context `{!Runtime, !Machine, !UnicodeData, !Host}.

(** C28: An edit needs its right.  Every edit of a capability first finds it,
    unheld, and asks for the right on it; an update or a private publication
    further needs a store when the capability is approved.  When that fails, the
    edit raises the same error and nothing changed but the record of the
    decision: no row, no committed data and no file. *)
Theorem edits_need_right p payload right op w :
  (right, op) ∈ edits p payload ->
  match require_capability_for_edit p payload right w with
  | (Ok c, _) => editable p payload right w c
  | (Raise e, _) => (op w).1 = Raise e /\ undecided (op w).2 = undecided w
  end.
Proof.
  intros (k & ->)%edits_guarded. unfold bind. destruct (require_capability_for_edit p payload right w) as [[c|e] w'] eqn:E;
    apply edit_inv in E as [Hu Hed]; [exact Hed | split; [reflexivity | exact Hu]].
Qed.

(** C27: Edited content is never vouched for.  In a catalog whose addresses are
    distinct and in the spaces the upsert gives them (user, org, app, all or
    system), after an update every row either has the content and the states of a row before it, or is
    neither approved nor verified in signature or provenance nor reviewed for
    risk: whatever content an editor writes, the verdicts on the content it
    replaces do not pass over to it. *)
Theorem edited_content_unvouched p payload w d w' :
  NoDup (cp_uri <$> catalog w) -> (forall r, r ∈ catalog w -> housed r = true) ->
  update_capability_draft p payload w = (Ok d, w') ->
  forall r, r ∈ catalog w' ->
    (exists s, s ∈ catalog w /\ cp_uri s = cp_uri r /\ cp_content_hash s = cp_content_hash r /\ states r = states s) \/
    vouched r = false.
Proof.
  intros Hnd Hh E r Hr.
  apply update_inv in E as (c & content & up & id & w1 & w2 & [Hf _ _] & Hc1 & Huu & Hus & _ & Hup & Hc2 & _).
  apply found_row in Hf as (s0 & Hs0 & Hsu & _ & Hst0). change (s0 ∈ catalog w) in Hs0. rewrite Hc2 in Hr.
  rewrite <-Hc1 in Hnd. destruct (upsert_rows _ _ _ _ Hnd Hup) as (c1 & Hc & Hw & _).
  destruct (upsert_states _ _ _ _ Hnd Hup) as (c1' & Hc' & Hstates). rewrite Hc in Hc'. injection Hc' as <-. rewrite Hc1 in *.
  destruct (housed_default up c1) as (Hu1 & Hst1 & Hh1); [rewrite Huu, <-Hsu; by apply Hh | exact Hc |].
  destruct (wr_each _ _ _ Hw r Hr) as [[Hin _]|Hca]; [left; by exists r|].
  assert (cp_uri r = c_uri c1) as Hru by apply Hca.
  assert (forall s, s ∈ catalog w -> cp_uri s = c_uri c1 -> s = s0) as Hone.
  { intros s Hs Hu. apply (key_unique cp_uri (catalog w)); [done..|]. congruence. }
  destruct (Hstates r Hr Hru) as [[Hno _]|(s & Hs & Hu & Hrule)].
  - exfalso. apply (Hno s0 Hs0). congruence.
  - rewrite (Hone s Hs Hu) in *. destruct (String.eqb_spec (cp_content_hash s0) (c_content_hash c1)) as [He|Hne].
    + left. exists s0. split; [done|]. split; [congruence|]. rewrite (ca_hash _ _ Hca). split; [done|].
      unfold state_rule in Hrule. rewrite He, String.eqb_refl in Hrule. exact Hrule.
    + right. eapply changed_unvouched; [exact Hrule | congruence | done].
Qed.
(** C29: A draft writes below its own directory only.  Whatever the payload and
    whatever the outcome, every file there is after a creation was there before
    it, is a directory, or lies below the directory of the draft on a path that
    never steps up. *)
Theorem drafts_contained p payload w :
  drafted (draft_home p payload) w (create_capability_draft p payload w).2.
Proof. apply create_drafted. Qed.

Lemma default_keeps c e : apply_default_user_namespace c = Ok e ->
  c_content_hash e = c_content_hash c /\ c_source_path e = c_source_path c /\
  (c_owner e = c_owner c /\ c_created_by e = c_created_by c \/ c_owner e = DEFAULT_USER_SUBJECT /\ c_created_by e = Some DEFAULT_USER_SUBJECT) /\
  (c_tenant_id e = c_tenant_id c \/ c_tenant_id e = cap_tenant_of c).
Proof.
  unfold apply_default_user_namespace. cbv zeta. destruct (_ || startswith _ "cap://system/").
  { intros [= <-]. split_and!; [done | done | by left | by left]. }
  destruct (List.existsb _ _); intros [-> _]%post_init_ok; (split; [done|]); (split; [done|]);
    (split; [first [by left | by right] | by right]).
Qed.

(** What a created draft leaves.  The catalog has one row that carries it, with
    the sum of the content that was given, in the tenant of the author, and
    owned by the author or by the default user when its address is rewritten;
    its source path is the file of the draft, which has that content; the rows
    at other addresses stay, and the writes are durable. *)
Theorem draft_recorded p payload w d w' :
  NoDup (cp_uri <$> catalog w) -> create_capability_draft p payload w = (Ok d, w') ->
  exists e r, safe_entrypoint (str_get payload "entrypoint" "CAPABILITY.md") = Ok e /\ r ∈ catalog w' /\
    cp_content_hash r = content_sha (str_get payload "content" "") /\ cp_tenant_id r = tenant_of p /\
    (cp_owner r = p_subject p \/ cp_owner r = DEFAULT_USER_SUBJECT) /\
    cp_source_path r = resolve_path (child (draft_home p payload) e) /\
    holds_text (child (draft_home p payload) e) (str_get payload "content" "") w' /\
    (forall s, s ∈ catalog w -> cp_uri s <> cp_uri r -> s ∈ catalog w') /\ w_disk w' = w_db w'.
Proof.
  intros Hnd E. apply draft_created_inv in E as (e & c & id & w1 & w2 & He & Hc1 & Hup & Hc2 & Hk & Hpath & Hhash & Hown & _ & Hten & Hfile).
  rewrite <-Hc1 in Hnd. destruct (upsert_rows _ _ _ _ Hnd Hup) as (c1 & Hdef & [_ Hoth (r & Hr & Hca) _] & _).
  apply default_keeps in Hdef as (D1 & D2 & D3 & D4). destruct Hca.
  exists e, r. rewrite Hc2. split; [done|]. split; [done|]. split; [congruence|].
  split. { rewrite ca_tenant. unfold cap_tenant_of in D4. rewrite Hten in D4. unfold tenant_of in D4 |- *. rewrite s_or_again in D4. by destruct D4. }
  split; [destruct D3 as [[? _]|[? _]]; [left | right]; congruence|]. split; [congruence|]. split; [done|]. split; [|done].
  intros s Hs Hne. apply Hoth; [by rewrite Hc1 | congruence].
Qed.
End Theorems.

(** ** Concrete inputs *)
Module DraftDemo.
#[export] Existing Instance Demo.runtime.
#[export] Existing Instance GatesDemo.ascii_only.
#[export] Instance host : Host := {| umask := 18; unified_diff := fun _ _ _ _ => [] |}.

(** Paths without links. *)
#[export] Instance machine : Machine :=
  {| expand_user := fun p => p; resolve_path := fun p => path_text (parts p); os_error := fun p => p;
     ed_generate := @ed_generate ReviewDemo.machine; ed_public := @ed_public ReviewDemo.machine; ed_sign := @ed_sign ReviewDemo.machine;
     ed_verify := @ed_verify ReviewDemo.machine; private_pem := @private_pem ReviewDemo.machine;
     load_pem := @load_pem ReviewDemo.machine; json_error_at := @json_error_at ReviewDemo.machine |}.

Definition address : string := "cap://user/asg/root/personal/skill/demo@1.0.0".
(** A capability of the administrator: approved, verified and of critical risk. *)
Definition owned : CapRow :=
  upd cp_owner "root@example.com" (upd cp_created_by (Some "root@example.com") (upd cp_source_path "/pkg/SKILL.md"
    (upd cp_approval_state "approved" (upd cp_lifecycle "published" (upd cp_signature_status "verified"
      (upd cp_risk_tier "critical" (upd cp_content_hash (content_sha "# Demo") (Demo.cap_row address)))))))).
Definition files : gmap string FileNode := {[ "/pkg/SKILL.md" := mkFileNode Regular 420 true "# Demo" ]}.
Definition world : World := upd w_files files (Demo.world (upd db_capabilities [owned] empty_db)).

Definition named (uri : json) : dict :=
  [("name", JStr "Notes"); ("title", JStr "Notes"); ("description", JStr "My notes"); ("content", JStr "# Notes"); ("uri", uri)].
Definition new_content : dict := [("capabilityUri", JStr address); ("content", JStr "# Changed")].
Definition declared_low : dict := [("capabilityUri", JStr address); ("riskTier", JStr "low")].

Definition rows_of {A} (r : A * World) : list (string * option string * string * string) :=
  (fun r => (cp_uri r, cp_created_by r, cp_approval_state r, cp_risk_tier r)) <$> catalog (snd r).

(** A member without any role takes over the address of the administrator's
    capability by naming it: the row is the member's afterwards. *)
Lemma address_taken_over :
  rows_of (create_capability_draft Demo.alice (named (JStr address)) world) = [(address, Some "alice@example.com", "pending", "low")].
Proof. vm_compute. reflexivity. Qed.
(** A new risk tier without new content keeps the approval. *)
Lemma tier_lowered_approved :
  rows_of (update_capability_draft Demo.admin declared_low world) = [(address, Some "root@example.com", "approved", "low")].
Proof. vm_compute. reflexivity. Qed.
(** An update that is refused for its risk tier has replaced the file. *)
Lemma refused_update_writes :
  match update_capability_draft Demo.admin (dset "riskTier" (JStr "extreme") new_content) world with
  | (Raise _, w') => fn_content <$> w_files w' !! "/pkg/SKILL.md"
  | (Ok _, _) => None
  end = Some "# Changed".
Proof. vm_compute. reflexivity. Qed.
(** The name is never missing: an empty one is a slug of its own. *)
Lemma nameless_accepted :
  is_ok (create_capability_draft Demo.alice (dset "name" JNull (named JNull)) world).1 = true.
Proof. vm_compute. reflexivity. Qed.
End DraftDemo.

Section Witnesses.
Import DraftDemo.

Lemma edits_need_right_witness :
  exists e w', update_capability_draft Demo.alice new_content world = (Raise e, w') /\ undecided w' = undecided world.
Proof.
  assert (("manage", update_capability_draft Demo.alice new_content) ∈ edits Demo.alice new_content) as Hin by left.
  pose proof (edits_need_right _ _ _ _ world Hin) as G.
  assert (is_ok (require_capability_for_edit Demo.alice new_content "manage" world).1 = false) as Hno by (vm_compute; exact eq_refl).
  destruct (require_capability_for_edit Demo.alice new_content "manage" world) as [[c|e] w1]; [discriminate Hno|].
  destruct G as [G1 G2]. destruct (update_capability_draft Demo.alice new_content world) as [r w']. cbn [fst snd] in G1, G2.
  exists e, w'. rewrite G1. split; [exact eq_refl | exact G2].
Defined.

Lemma edited_content_unvouched_witness :
  exists d w', update_capability_draft Demo.admin new_content world = (Ok d, w') /\
    forall r, r ∈ catalog w' -> cp_content_hash r <> content_sha "# Demo" -> vouched r = false.
Proof.
  assert (is_ok (update_capability_draft Demo.admin new_content world).1 = true) as Hok by (vm_compute; exact eq_refl).
  destruct (update_capability_draft Demo.admin new_content world) as [[d|e] w'] eqn:E; [|discriminate Hok].
  exists d, w'. split; [exact eq_refl|]. intros r Hr Hne.
  assert (NoDup (cp_uri <$> catalog world)) as Hnd by (apply NoDup_singleton).
  assert (forall s, s ∈ catalog world -> s = owned) as Hone by (intros s Hs; apply list_elem_of_singleton in Hs; exact Hs).
  destruct (edited_content_unvouched _ _ _ _ _ Hnd (fun s Hs => eq_trans (f_equal housed (Hone s Hs)) eq_refl) E r Hr)
    as [(s & Hs & _ & Hh & _)|Hv]; [|exact Hv].
  exfalso. apply Hne. rewrite <-Hh, (Hone s Hs). exact eq_refl.
Defined.

Lemma draft_recorded_witness :
  exists d w' e, create_capability_draft Demo.alice (named JNull) world = (Ok d, w') /\
    safe_entrypoint "CAPABILITY.md" = Ok e /\ holds_text (child (draft_home Demo.alice (named JNull)) e) "# Notes" w'.
Proof.
  assert (is_ok (create_capability_draft Demo.alice (named JNull) world).1 = true) as Hok by (vm_compute; exact eq_refl).
  destruct (create_capability_draft Demo.alice (named JNull) world) as [[d|x] w'] eqn:E; [|discriminate Hok].
  assert (NoDup (cp_uri <$> catalog world)) as Hnd by (apply NoDup_singleton).
  destruct (draft_recorded _ _ _ _ _ Hnd E) as (e & r & He & _ & _ & _ & _ & _ & Hf & _).
  exists d, w', e. split; [exact eq_refl|]. split; [exact He | exact Hf].
Defined.
End Witnesses.
