(* ===== verification/AuthorityKeys.v ===== *)
(** * The keys of the receipt authority ([authority_keys.py])

    The bootstrap of the keypair on the authoritative host, the bundle exported
    for clients, and the installation of a pinned key at a client with the
    rotation ceremony.

    A path is looked up by its absolute text, so the directories above it are
    not links, and messages name it by that text; what a process of another user
    owns is a parameter, as are the host name and the PEM form of public keys. *)

From Stdlib Require Import ZArith Ascii String Lia.
From stdpp Require Import base option list strings gmap.
From S2P Require Import Prelude Sha256 PyStr Json Base64 Dicts Clock Db Models RegistryLog Gates Signing InstallGuards JsonCodec Manifest Drafts.
Local Open Scope string_scope.
Local Open Scope list_scope.

#[local] Opaque sha256_hex.

Class AuthorityHost : Type := {
  cwd : string; gethostname : string; owned : string -> bool; token_hex : nat -> nat -> string;
  public_pem : string -> string; load_public_pem : string -> outcome (option string)
}.

Definition TRUST_SCHEMA : string := "capmesh.authority-trust.v1".
Definition ROTATION_SCHEMA : string := "capmesh.authority-rotation.v1".
Definition ROTATION_DOMAIN : string := "ASGCODE:capmesh-authority-rotation.v1" +:+ String (ascii_of_nat 0) "".

Definition authority_error (message : string) : exn := OtherError ("AuthorityTrustError: " +:+ message).
Definition refuse {A} (message : string) : Op A := raise (authority_error message).

Definition canonical (v : json) : string := raw_json (sort_keys v).
Definition authority_key_id (raw : string) : string := "ed25519:sha256:" +:+ sha256_hex raw.
Definition line (s : string) : string := s +:+ newline.

(** Equality of JSON values, whatever the order of their keys, and with a text. *)
Definition is_text (v : json) (s : string) : bool := match v with JStr t => t =s s | _ => false end.
Definition same_json (a b : json) : bool := canonical a =s canonical b.

Definition mode_0644 : Z := 420.
Definition mode_0755 : Z := 493.

Section AuthorityKeys.
Context `{!Runtime, !Machine, !Host, !AuthorityHost}.

(** ** Files *)

(** [p.expanduser().absolute()] *)
Definition absolute_path (p : string) : list string := joined_parts (parts cwd) (expand_user p).
(** A path as it was given, which is taken from the working directory. *)
Definition given_path (p : string) : list string := joined_parts (parts cwd) p.

(** [path.lstat()]; a directory without an entry of its own came with the system. *)
Definition lstat (p : list string) : Op (option FileNode) :=
  let! node := file_at (path_text p) in
  match node with
  | Some n => ret (Some n)
  | None => let! dir := gets (fun w => is_dir (w_files w) p) in
            ret (if dir then Some (mkFileNode Directory mode_0755 true "") else None)
  end.
(** [path.exists() or path.is_symlink()] *)
Definition present (p : list string) : Op bool := let! n := lstat p in ret (is_some n).

(** [mkdir(parents=True, exist_ok=True, mode=mode)]: the mode is the last one's. *)
Definition make_private (p : list string) : Op unit :=
  let! there := gets (fun w => is_dir (w_files w) p) in
  if there then ret tt
  else
    let! node := file_at (path_text p) in
    match node with
    | None => set_file (path_text p) (mkFileNode Directory (Z.land mode_700 (Z.lnot umask)) true "")
    | Some n =>
        let! linked := gets (fun w => match fn_kind n, resolve_parts (w_files w) p with Symlink, Ok q => is_dir (w_files w) q | _, _ => false end) in
        if linked then ret tt else raise (OtherError ("FileExistsError: " +:+ os_error (path_text p)))
    end.
Definition _assert_parent (p : list string) : Op unit :=
  let! _ := forM (ancestors (removelast p)) (make_dir p) in
  let! _ := make_private p in
  let! node := lstat p in
  match node with
  | Some n =>
      if negb (match fn_kind n with Directory => true | _ => false end) || negb (owned (path_text p))
      then refuse "authority key directory is not owner-controlled"
      else if negb (Z.eqb (Z.land (fn_mode n) 63) 0) then refuse "authority key directory must be mode 0700"
      else ret tt
  | None => raise (OtherError ("FileNotFoundError: " +:+ os_error (path_text p)))
  end.

Definition _read_regular (p : list string) (exact_mode : Z) : Op string :=
  let! node := lstat p in
  match node with
  | None => refuse ("required trust file is missing: " +:+ path_text p)
  | Some n =>
      if negb (is_regular n) || negb (owned (path_text p))
      then refuse ("trust file is not an owner-controlled regular file: " +:+ path_text p)
      else if negb (Z.eqb (fn_mode n) exact_mode) then refuse ("trust file mode must be " +:+ (if Z.eqb exact_mode mode_600 then "0600" else "0644") +:+ ": " +:+ path_text p)
      else if fn_readable n then ret (fn_content n) else raise (PermissionError (os_error (path_text p)))
  end.

Definition fresh_hex : Op string := fun w => (Ok (token_hex 8 (w_uuid w)), upd w_uuid (S (w_uuid w)) w).

(** The write to a temporary file that replaces the path: it is renamed or
    removed, so only its presence beforehand shows. *)
Definition _atomic_write (p : list string) (data : string) (mode : Z) : Op unit :=
  let! _ := _assert_parent (removelast p) in
  let! hex := fresh_hex in
  let temp := path_text p +:+ ".tmp-" +:+ hex in
  let! taken := file_at temp in
  if is_some taken then raise (OtherError ("FileExistsError: " +:+ os_error temp))
  else
    let! dir := gets (fun w => is_dir (w_files w) p) in
    if dir then raise (OtherError ("IsADirectoryError: " +:+ os_error (path_text p)))
    else set_file (path_text p) (mkFileNode Regular mode true data).

(** ** Records *)
Definition _public_from_pem (data : string) : outcome string :=
  match load_public_pem data with
  | Raise _ => Raise (authority_error "authority public key PEM is invalid")
  | Ok None => Raise (authority_error "authority public key is not Ed25519")
  | Ok (Some raw) => Ok raw
  end.
Definition _trust_record (pem : string) : outcome dict :=
  let? raw := _public_from_pem pem in
  Ok [("schema", JStr TRUST_SCHEMA); ("key_id", JStr (authority_key_id raw)); ("public_sha256", JStr ("sha256:" +:+ sha256_hex pem))].

(** ** The authority *)

(** Whether this process may generate the keys. *)
Definition may_generate (node_role hostname : option string) : bool :=
  let role := lower (strip (o_or node_role (getenv "CAPMESH_NODE_ROLE" ""))) in
  let host := o_or hostname gethostname in
  let actual_host := lower (match partition "."%char host with Some (a, _) => a | None => host end) in
  let expected_host := lower (strip (getenv "CAPMESH_AUTHORITY_HOSTNAME" "cpubox")) in
  let test_override := truthy (getenv "PYTEST_CURRENT_TEST" "")
    && oeqb (environ "CAPMESH_ALLOW_TEST_AUTHORITY_KEYGEN") (Some "1") && is_none hostname in
  let role := if test_override && negb (truthy role) then "authoritative" else role in
  (role =s "authoritative") && ((actual_host =s expected_host) || test_override).

(** The lock file, created with mode 0600 or restricted to it. *)
Definition lock_file (private_path : list string) : Op unit :=
  let lock_path := path_text private_path +:+ ".lock" in
  let! node := file_at lock_path in
  match node with
  | None => set_file lock_path (mkFileNode Regular mode_600 true "")
  | Some n =>
      match fn_kind n with
      | Symlink => raise (OtherError ("OSError: " +:+ os_error lock_path))
      | Directory => raise (OtherError ("IsADirectoryError: " +:+ os_error lock_path))
      | _ => if fn_readable n && Z.testbit (fn_mode n) 7 && owned lock_path then set_file lock_path (mkFileNode (fn_kind n) mode_600 true (fn_content n))
             else raise (PermissionError (os_error lock_path))
      end
  end.

(** The private key: the one that is there, else a new one. *)
Definition private_key (private_path : list string) : Op string :=
  let! there := present private_path in
  if there then
    let! pem := _read_regular private_path mode_600 in
    match load_pem pem with
    | Raise _ => refuse "authority private key PEM is invalid"
    | Ok None => refuse "authority private key is not Ed25519"
    | Ok (Some key) => ret key
    end
  else
    let! key := generate_key in
    let! _ := _atomic_write private_path (private_pem key) mode_600 in
    ret key.

(** A public file of the pair: the same if it is there, else written. *)
Definition settle_file (p : list string) (data message : string) : Op unit :=
  let! there := present p in
  if there then
    let! stored := _read_regular p mode_0644 in
    if stored =s data then ret tt else refuse message
  else _atomic_write p data mode_0644.

Definition paths_eqb (a b : list string) : bool := bool_decide (a = b).

Definition ensure_authority_keypair (private_path public_path record_path : string) (node_role hostname : option string) : Op dict :=
  if negb (may_generate node_role hostname) then refuse "authority private keys may be generated only by authoritative cpubox"
  else
    let private := absolute_path private_path in
    let public := absolute_path public_path in
    let record_file := absolute_path record_path in
    if negb (paths_eqb (removelast private) (removelast public) && paths_eqb (removelast private) (removelast record_file))
    then refuse "authority keypair and trust record must share one protected directory"
    else
      let! _ := _assert_parent (removelast private) in
      let! _ := lock_file private in
      let! key := private_key private in
      let pem := public_pem (ed_public key) in
      let! record := lift (_trust_record pem) in
      let! _ := settle_file public pem "authority public key mismatch; rotation ceremony required" in
      let! _ := settle_file record_file (line (canonical (JObj record))) "authority trust record mismatch; rotation ceremony required" in
      ret record.

(** ** Rotation *)
Definition CEREMONY_KEYS : list string :=
  ["schema"; "old_key_id"; "new_key_id"; "issued_at"; "expires_at"; "nonce"; "approved_by"; "signature"].

(** A number of the document; comparing anything else with one is a TypeError,
    and a float is refused by its type whatever it compares to. *)
Definition instant (v : json) : outcome (option Z) :=
  match v with
  | JNum n => Ok (Some n)
  | JBool b => Ok (Some (if b then 1 else 0)%Z)
  | JFloat _ => Ok None
  | _ => Raise (OtherError "TypeError: '>' not supported between instances")
  end.
Definition within (issued expires : option Z) (now : Z) : bool :=
  match issued, expires with
  | Some i, Some e => Z.leb i (now + 30) && Z.ltb now e && Z.leb (e - i) 900
  | _, _ => false
  end.

Definition without (key : string) (d : dict) : dict := List.filter (fun kv => negb (fst kv =s key)) d.

(** [operator.verify(signature, ROTATION_DOMAIN + canonical(...))] *)
Definition ceremony_signed (operator : string) (ceremony : dict) : bool :=
  match jget "signature" ceremony with
  | JStr text => match (if ascii_str text then urlsafe_b64decode_loose (text +:+ padding text) else None) with
                 | Some signature => ed_verify operator signature (ROTATION_DOMAIN +:+ canonical (JObj (without "signature" ceremony)))
                 | None => false
                 end
  | _ => false
  end.

Definition _verify_rotation (ceremony_path operator_public_path : list string) (old_key_id new_key_id : string) : Op unit :=
  let! text := _read_regular ceremony_path mode_600 in
  let! document := lift (json_loads_strict text) in
  match document with
  | JObj ceremony =>
      if negb (forallb (fun k => smem k CEREMONY_KEYS) ceremony.*1 && forallb (fun k => smem k ceremony.*1) CEREMONY_KEYS)
      then refuse "rotation ceremony document is malformed"
      else
        let! now := gets (fun w => (w_clock w / 1000000)%Z) in
        let! issued := lift (instant (jget "issued_at" ceremony)) in
        let! expires := lift (instant (jget "expires_at" ceremony)) in
        if negb (is_text (jget "schema" ceremony) ROTATION_SCHEMA && is_text (jget "old_key_id" ceremony) old_key_id
                 && is_text (jget "new_key_id" ceremony) new_key_id && is_text (jget "approved_by" ceremony) "operator"
                 && within issued expires now)
        then refuse "rotation ceremony is not current or correctly bound"
        else
          let! pem := _read_regular operator_public_path mode_0644 in
          let! operator := lift (_public_from_pem pem) in
          if ceremony_signed operator ceremony then ret tt else refuse "rotation ceremony signature is invalid"
  | _ => refuse "rotation ceremony document is malformed"
  end.

(** ** The client *)
Record TrustRequest : Type := mkTrustRequest {
  tr_source_public : string; tr_source_record : string; tr_expected_key_id : string;
  tr_destination_public : string; tr_destination_pin : string;
  tr_rotation_ceremony : option string; tr_operator_public_key : option string
}.

(** The key at the source, which its record and the expected id name. *)
Definition checked_source (source_public source_record : string) : Op (string * dict * json) :=
  let! pem := _read_regular (absolute_path source_public) mode_0644 in
  let! text := _read_regular (absolute_path source_record) mode_0644 in
  let! source := lift (json_loads_strict text) in
  let! actual := lift (_trust_record pem) in
  ret (pem, actual, source).

(** The pin that is there; a null counts as none. *)
Definition stored_pin (pin : list string) : Op (option json) :=
  let! there := present pin in
  if there then
    let! text := _read_regular pin mode_0644 in
    let! v := lift (json_loads_strict text) in
    ret (match v with JNull => None | _ => Some v end)
  else ret None.

Definition check_rotation (r : TrustRequest) (existing : option json) (actual : dict) : Op unit :=
  match existing with
  | None => ret tt
  | Some old =>
      if same_json old (JObj actual) then ret tt
      else match tr_rotation_ceremony r, tr_operator_public_key r with
           | Some ceremony, Some operator =>
               let! old := lift (as_object old) in
               _verify_rotation (given_path ceremony) (given_path operator) (str_get old "key_id" "") (py_str (jget "key_id" actual))
           | _, _ => refuse "authority key rotation requires an operator-signed ceremony"
           end
  end.

(** Everything before the files of the client are written. *)
Definition check_install (r : TrustRequest) : Op (string * dict) :=
  let! (pem, actual, source) := checked_source (tr_source_public r) (tr_source_record r) in
  if negb (same_json source (JObj actual)) || negb (is_text (jget "key_id" actual) (tr_expected_key_id r))
  then refuse "authority public key does not match the expected pinned fingerprint"
  else
    let public := absolute_path (tr_destination_public r) in
    let pin := absolute_path (tr_destination_pin r) in
    let! _ := _assert_parent (removelast public) in
    if negb (paths_eqb (removelast pin) (removelast public)) then refuse "client public key and pin must share one protected directory"
    else
      let! existing := stored_pin pin in
      let! _ := check_rotation r existing actual in
      let! there := present public in
      let! _ := (if there then
                   let! current := _read_regular public mode_0644 in
                   if match existing with Some old => same_json old (JObj actual) | None => false end && negb (current =s pem)
                   then refuse "pinned client public key bytes do not match its trust record" else ret tt
                 else ret tt) in
      ret (pem, actual).

Definition install_client_trust (r : TrustRequest) : Op dict :=
  let! (pem, actual) := check_install r in
  let! _ := _atomic_write (absolute_path (tr_destination_public r)) pem mode_0644 in
  let! _ := _atomic_write (absolute_path (tr_destination_pin r)) (line (canonical (JObj actual))) mode_0644 in
  ret actual.

(** ** The bundle for clients *)
Definition BUNDLE : list string := ["capmesh-authority-ed25519.pub.pem"; "capmesh-authority-trust.v1.json"; "expected-key-id.txt"].

(** [{path.name for path in p.iterdir()}] *)
Definition names_in (fs : gmap string FileNode) (p : list string) : list string :=
  let prefix := path_text p +:+ "/" in
  omap (fun kn => if startswith (fst kn) prefix then head (parts (removeprefix (fst kn) prefix)) else None) (map_to_list fs).

Definition export_client_trust (source_public source_record output_dir : string) : Op dict :=
  let! (pem, actual, record) := checked_source source_public source_record in
  if negb (same_json record (JObj actual)) then refuse "authority export record does not match public key"
  else
    let dir := absolute_path output_dir in
    let! _ := _assert_parent dir in
    let! _ := _atomic_write (dir ++ ["capmesh-authority-ed25519.pub.pem"]) pem mode_0644 in
    let! _ := _atomic_write (dir ++ ["capmesh-authority-trust.v1.json"]) (line (canonical (JObj actual))) mode_0644 in
    let! _ := _atomic_write (dir ++ ["expected-key-id.txt"]) (line (py_str (jget "key_id" actual))) mode_0644 in
    let! names := gets (fun w => names_in (w_files w) dir) in
    if forallb (fun n => smem n BUNDLE) names && forallb (fun n => smem n names) BUNDLE then ret actual
    else refuse "authority client export contains unexpected material".
End AuthorityKeys.
