(* ===== verification/AuthorityProps.v ===== *)
(** * Theorems on the authority's keys

    The bootstrap never replaces a key, and its record is the record of the key
    it leaves; a client's pin changes only on a ceremony the operator signed for
    the two keys, and a refused installation writes no file. *)

From Stdlib Require Import ZArith Ascii String Lia.
From stdpp Require Import base option list strings gmap.
From S2P Require Import Prelude Sha256 PyStr Json Base64 Dicts Clock Db Models RegistryLog Gates Signing InstallGuards JsonCodec Manifest Drafts DraftProps AuthorityKeys.
Local Open Scope string_scope.
Local Open Scope list_scope.

#[local] Opaque sha256_hex.

Section Theorems.
Context `{!Runtime, !Machine, !Host, !AuthorityHost}.

(** ** What the file steps leave *)

(** Every entry there was is there, unless it is [except]. *)
Definition entries_kept (except : string -> Prop) (w w' : World) : Prop :=
  forall k n, w_files w !! k = Some n -> except k \/ w_files w' !! k = Some n.
#[local] Instance entries_preorder except : PreOrder (entries_kept except).
Proof. split; [intros w k n; by right|]. intros x y z Hxy Hyz k n Hk. destruct (Hxy k n Hk) as [He|He]; [by left | by apply Hyz]. Qed.

(** Only directories were added. *)
Definition dirs_added (w w' : World) : Prop :=
  entries_kept (fun _ => False) w w' /\ forall k n, w_files w' !! k = Some n -> w_files w !! k = Some n \/ fn_kind n = Directory.
#[local] Instance dirs_preorder : PreOrder dirs_added.
Proof.
  split; [intros w; split; [done | by intros k n; left]|]. intros x y z [K1 A1] [K2 A2]. split; [by etrans|].
  intros k n Hk. destruct (A2 k n Hk) as [Hy|Hd]; [by apply A1 | by right].
Qed.

Lemma insert_absent fs k n x m : fs !! k = None -> fs !! x = Some m -> (<[k:=n]> fs : gmap string FileNode) !! x = Some m.
Proof. intros Hk Hx. rewrite lookup_insert_ne; [done|]. intros ->. congruence. Qed.

Lemma set_absent_dir w k n : w_files w !! k = None -> fn_kind n = Directory -> dirs_added w (upd w_files (<[k := n]> (w_files w)) w).
Proof.
  intros Hk Hn. split.
  - intros x m Hx. right. change (<[k:=n]> (w_files w) !! x = Some m). by apply insert_absent.
  - intros x m Hx. change (<[k:=n]> (w_files w) !! x = Some m) in Hx.
    apply lookup_insert_Some in Hx as [[_ <-]|[_ Hx]]; [by right | by left].
Qed.

Lemma make_dir_added whole p : preserves dirs_added (make_dir whole p).
Proof.
  intros w. unfold make_dir, file_at, bind, gets. destruct (is_dir _ _); [done|].
  destruct (w_files w !! path_text p) eqn:E; [done|]. by apply set_absent_dir.
Qed.
Lemma make_private_added p : preserves dirs_added (make_private p).
Proof.
  intros w. unfold make_private, file_at, bind, gets. destruct (is_dir _ _); [done|].
  destruct (w_files w !! path_text p) eqn:E; [by destruct (match fn_kind _ with Symlink => _ | _ => _ end)|]. by apply set_absent_dir.
Qed.
Lemma lstat_reads p w : exists o, lstat p w = (Ok o, w) /\ (o = None -> w_files w !! path_text p = None) /\
  (forall n, w_files w !! path_text p = Some n -> o = Some n).
Proof.
  unfold lstat, file_at, bind, gets, ret. destruct (w_files w !! path_text p) as [n|] eqn:E.
  - eexists. split; [reflexivity|]. split; [done | by intros ? [= ->]].
  - eexists. split; [reflexivity|]. split; [done | done].
Qed.
Lemma present_reads p w : exists b, present p w = (Ok b, w) /\ (b = false -> w_files w !! path_text p = None) /\
  (forall n, w_files w !! path_text p = Some n -> b = true).
Proof.
  unfold present, bind. destruct (lstat_reads p w) as (o & -> & Hn & Hs). eexists. split; [reflexivity|].
  split; [destruct o; [done | by intros _; apply Hn] | intros n Hk; by rewrite (Hs n Hk)].
Qed.

(** A file of the process with exactly this mode and content. *)
Definition trusted_file (w : World) (p : list string) (mode : Z) (content : string) : Prop :=
  exists n, w_files w !! path_text p = Some n /\ is_regular n = true /\ owned (path_text p) = true /\ fn_mode n = mode /\ fn_content n = content.

Lemma read_regular_inv p mode w o w' : _read_regular p mode w = (o, w') ->
  w' = w /\ match o with Ok s => trusted_file w p mode s | Raise _ => True end.
Proof.
  unfold _read_regular, bind at 1, lstat, file_at, bind, gets, ret. destruct (w_files w !! path_text p) as [n|] eqn:En.
  - cbn. destruct (negb (is_regular n) || negb (owned (path_text p))) eqn:E1; [by intros [= <- <-]|].
    destruct (negb (Z.eqb (fn_mode n) mode)) eqn:E2; [by intros [= <- <-]|].
    destruct (fn_readable n); intros [= <- <-]; (split; [done|]); [|done].
    apply orb_false_iff in E1 as [Er Eo]. apply negb_false_iff in Er, Eo, E2. apply Z.eqb_eq in E2. by exists n.
  - cbn. destruct (is_dir (w_files w) p); cbn; by intros [= <- <-].
Qed.

Lemma assert_parent_added p : preserves dirs_added (_assert_parent p).
Proof.
  unfold _assert_parent. apply preserves_bind; [exact _ | apply preserves_forM; [exact _ | intros q; apply make_dir_added] | intros []].
  apply preserves_bind; [exact _ | apply make_private_added | intros []].
  apply preserves_bind; [exact _ | | ].
  - intros w. by destruct (lstat_reads p w) as (o & -> & _).
  - intros [n|]; [|by intros w]. destruct (_ || _); [by intros w|]. destruct (negb _); by intros w.
Qed.

Lemma dirs_kept w w' except : dirs_added w w' -> entries_kept except w w'.
Proof. intros [K _] k n Hk. destruct (K k n Hk) as [[]|Hk']. by right. Qed.

(** A write that replaces its path, over the directories it may add. *)
Lemma atomic_write_run p data mode w o w' : _atomic_write p data mode w = (o, w') ->
  exists w1, dirs_added w w1 /\
    match o with
    | Ok _ => w_files w' = <[path_text p := mkFileNode Regular mode true data]> (w_files w1)
    | Raise _ => w_files w' = w_files w1
    end.
Proof.
  unfold _atomic_write, bind at 1. pose proof (assert_parent_added (removelast p) w) as Ha.
  destruct (_assert_parent (removelast p) w) as [[[]|e] w1]; cbn [snd] in Ha; [|intros [= <- <-]; by exists w1].
  intros E. exists w1. split; [done|]. revert E. unfold fresh_hex, file_at, bind, gets, set_file, modify. cbn.
  destruct (is_some _); [by intros [= <- <-]|]. destruct (is_dir _ _); by intros [= <- <-].
Qed.

(** Writing what is absent keeps every entry. *)
Lemma absent_write_kept except p data mode w o w' :
  w_files w !! path_text p = None -> _atomic_write p data mode w = (o, w') -> entries_kept except w w'.
Proof.
  intros Hp E. apply atomic_write_run in E as (w1 & Hd & Hw). intros k n Hk. right.
  destruct (dirs_kept _ _ (fun _ => False) Hd k n Hk) as [[]|Hk1].
  destruct o; rewrite Hw; [|done]. rewrite lookup_insert_ne; [done|]. intros Heq. congruence.
Qed.

(** A regular file has this mode and content. *)
Definition written_file (w : World) (p : list string) (mode : Z) (content : string) : Prop :=
  exists n, w_files w !! path_text p = Some n /\ is_regular n = true /\ fn_mode n = mode /\ fn_content n = content.
Lemma trusted_written w p mode content : trusted_file w p mode content -> written_file w p mode content.
Proof. intros (n & Hn & Hr & _ & Hm & Hc). by exists n. Qed.
Lemma written_kept w w' p mode content : entries_kept (fun _ => False) w w' -> written_file w p mode content -> written_file w' p mode content.
Proof. intros K (n & Hn & Hrest). destruct (K _ _ Hn) as [[]|Hn']. by exists n. Qed.
(** A trusted file was there before directories were added. *)
Lemma trusted_before w w' p mode content : dirs_added w w' -> trusted_file w' p mode content -> trusted_file w p mode content.
Proof.
  intros [_ A] (n & Hn & Hr & Hrest). destruct (A _ _ Hn) as [Hn'|Hd]; [by exists n|].
  unfold is_regular in Hr. by rewrite Hd in Hr.
Qed.
Lemma write_written p data mode w w' : _atomic_write p data mode w = (Ok tt, w') -> written_file w' p mode data.
Proof. intros E. apply atomic_write_run in E as (w1 & _ & Hw). eexists. rewrite Hw, lookup_insert_eq. by split_and!. Qed.

(** ** The authority *)
Definition lock_of (private : list string) : string := path_text private +:+ ".lock".

Lemma lock_file_kept p : preserves (entries_kept (fun k => k = lock_of p)) (lock_file p).
Proof.
  intros w. unfold lock_file, file_at, bind, gets. fold (lock_of p).
  assert (forall n, entries_kept (fun k => k = lock_of p) w (set_file (lock_of p) n w).2) as Hset.
  { intros n k m Hk. destruct (decide (k = lock_of p)) as [->|Hne]; [by left | right]. cbn. by rewrite lookup_insert_ne. }
  destruct (w_files w !! lock_of p) as [n|]; [|apply Hset].
  destruct (fn_kind n); try (by intros k m; right); (destruct (_ && _); [apply Hset | by intros k m; right]).
Qed.

(** The key that is there, or the one generated for an absent file. *)
Definition holds_key (w : World) (p : list string) (key : string) : Prop :=
  exists pem, written_file w p mode_600 pem /\ (load_pem pem = Ok (Some key) \/ pem = private_pem key).

Lemma private_key_run p w o w' : private_key p w = (o, w') ->
  entries_kept (fun _ => False) w w' /\ match o with Ok key => holds_key w' p key | Raise _ => True end.
Proof.
  unfold private_key, bind at 1. destruct (present_reads p w) as (there & -> & Hno & _). destruct there.
  - unfold bind. destruct (_read_regular p mode_600 w) as [r w1] eqn:E1. apply read_regular_inv in E1 as [-> Hr].
    destruct r as [pem|e]; [|by intros [= <- <-]]. destruct (load_pem pem) as [[key|]|e] eqn:El; intros [= <- <-]; split; try done.
    exists pem. split; [by apply trusted_written | by left].
  - unfold bind at 1, generate_key. cbv beta iota. unfold bind at 1.
    set (w1 := upd w_uuid (S (w_uuid w)) w). destruct (_atomic_write _ _ _ w1) as [r w2] eqn:E2.
    pose proof (absent_write_kept (fun _ => False) p (private_pem (ed_generate (w_uuid w))) mode_600 w1 r w2 (Hno eq_refl) E2) as K.
    destruct r as [[]|e]; intros [= <- <-]; (split; [exact K|]); [|done].
    eexists. split; [by eapply write_written | by right].
Qed.

Lemma settle_run p data message w o w' : settle_file p data message w = (o, w') ->
  entries_kept (fun _ => False) w w' /\ match o with Ok _ => written_file w' p mode_0644 data | Raise _ => True end.
Proof.
  unfold settle_file, bind at 1. destruct (present_reads p w) as (there & -> & Hno & _). destruct there.
  - unfold bind. destruct (_read_regular p mode_0644 w) as [r w1] eqn:E1. apply read_regular_inv in E1 as [-> Hr].
    destruct r as [stored|e]; [|by intros [= <- <-]]. destruct (String.eqb_spec stored data) as [->|Hne]; intros [= <- <-]; split; try done.
    by apply trusted_written.
  - intros E. split; [by eapply absent_write_kept; [apply Hno|]|]. destruct o as [[]|e]; [by eapply write_written | done].
Qed.

Definition record_of (raw pem : string) : dict :=
  [("schema", JStr TRUST_SCHEMA); ("key_id", JStr (authority_key_id raw)); ("public_sha256", JStr ("sha256:" +:+ sha256_hex pem))].
Lemma trust_record_inv pem rec : _trust_record pem = Ok rec -> exists raw, load_public_pem pem = Ok (Some raw) /\ rec = record_of raw pem.
Proof.
  unfold _trust_record, _public_from_pem. destruct (load_public_pem pem) as [[raw|]|e]; [|done..].
  cbn [obind]. intros [= <-]. by exists raw.
Qed.

(** The files of a pair whose record is [rec]. *)
Definition settled (w : World) (private public record : list string) (rec : dict) : Prop :=
  exists key raw, let pem := public_pem (ed_public key) in
    load_public_pem pem = Ok (Some raw) /\ rec = record_of raw pem /\ holds_key w private key /\
    written_file w public mode_0644 pem /\ written_file w record mode_0644 (line (canonical (JObj rec))).

Lemma holds_kept w w' p key : entries_kept (fun _ => False) w w' -> holds_key w p key -> holds_key w' p key.
Proof. intros K (pem & Hp & Hl). exists pem. split; [by eapply written_kept | done]. Qed.

(** C31: The bootstrap of the authority never replaces a key.  Whatever the outcome,
    every file and directory there was is as it was, the lock file apart; a host
    that may not generate keys changes nothing; and after a success the three
    files hold one key, its public PEM and its trust record, the private key
    with mode 0600. *)
Theorem keys_never_replaced private public record role host w :
  let (o, w') := ensure_authority_keypair private public record role host w in
  entries_kept (fun k => k = lock_of (absolute_path private)) w w' /\
  (may_generate role host = false -> w' = w) /\
  forall rec, o = Ok rec -> settled w' (absolute_path private) (absolute_path public) (absolute_path record) rec.
Proof.
  unfold ensure_authority_keypair. destruct (may_generate role host); cbn [negb]; [|by split_and!].
  destruct (negb _); [by split_and!|]. set (p := absolute_path private). set (except := fun k => k = lock_of p).
  assert (forall a b, entries_kept (fun _ => False) a b -> entries_kept except a b) as Hw.
  { intros a b K k n Hk. destruct (K k n Hk) as [[]|]; by right. }
  match goal with |- let (_, _) := ?run in _ => destruct run as [o w'] eqn:E end. revert E. unfold bind at 1.
  pose proof (dirs_kept _ _ except (assert_parent_added (removelast p) w)) as K1.
  destruct (_assert_parent _ w) as [[[]|e] w1]; cbn [snd] in K1; [|by intros [= <- <-]].
  unfold bind at 1. pose proof (lock_file_kept p w1) as K2. fold except in K2.
  destruct (lock_file p w1) as [[[]|e] w2]; cbn [snd] in K2; [|intros [= <- <-]; split_and!; [by etrans | done..]].
  unfold bind at 1. destruct (private_key p w2) as [r w3] eqn:E3. apply private_key_run in E3 as [K3 Hkey].
  assert (entries_kept except w w3) as K by (etrans; [exact K1|]; etrans; [exact K2 | by apply Hw]).
  destruct r as [key|e]; [|by intros [= <- <-]]. unfold bind at 1, lift at 1. cbv zeta.
  destruct (_trust_record _) as [rec|e] eqn:Er; [|by intros [= <- <-]]. apply trust_record_inv in Er as (raw & Hload & ->).
  unfold bind at 1. destruct (settle_file (absolute_path public) _ _ w3) as [r w4] eqn:E4. apply settle_run in E4 as [K4 Hpub].
  destruct r as [[]|e]; [|intros [= <- <-]; split_and!; [etrans; [exact K | by apply Hw] | done..]].
  unfold bind at 1. destruct (settle_file (absolute_path record) _ _ w4) as [r w5] eqn:E5. apply settle_run in E5 as [K5 Hrec].
  assert (entries_kept except w w5) as K' by (etrans; [exact K|]; etrans; apply Hw; eassumption).
  destruct r as [[]|e]; intros [= <- <-]; split_and!; try done. intros rec [= <-]. exists key, raw.
  split_and!; [done | done | | by eapply written_kept | done]. eapply holds_kept; [|exact Hkey]. by etrans.
Qed.

(** ** The client *)

(** The source files hold a key and its record, and the id is the expected one. *)
Definition sourced (w : World) (r : TrustRequest) (pem raw : string) : Prop :=
  exists text doc, trusted_file w (absolute_path (tr_source_public r)) mode_0644 pem /\ load_public_pem pem = Ok (Some raw) /\
    authority_key_id raw = tr_expected_key_id r /\ trusted_file w (absolute_path (tr_source_record r)) mode_0644 text /\
    json_loads_strict text = Ok doc /\ same_json doc (JObj (record_of raw pem)) = true.

Definition timely (d : dict) (now : Z) : Prop :=
  exists issued expires, instant (jget "issued_at" d) = Ok (Some issued) /\ instant (jget "expires_at" d) = Ok (Some expires) /\
    (issued <= now + 30 /\ now < expires /\ expires - issued <= 900)%Z.

(** A private file has a ceremony from one key to the other, current and signed
    by the key of the operator's file. *)
Definition ceremony_held (w : World) (ceremony operator : list string) (old_key new_key : string) : Prop :=
  exists text d pem raw, trusted_file w ceremony mode_600 text /\ json_loads_strict text = Ok (JObj d) /\
    trusted_file w operator mode_0644 pem /\ load_public_pem pem = Ok (Some raw) /\ ceremony_signed raw d = true /\
    jget "old_key_id" d = JStr old_key /\ jget "new_key_id" d = JStr new_key /\ timely d (w_clock w / 1000000).

Lemma is_text_eq v t : is_text v t = true -> v = JStr t.
Proof. destruct v; try done. cbn. by intros ->%String.eqb_eq. Qed.
Lemma within_timely d now issued expires :
  instant (jget "issued_at" d) = Ok issued -> instant (jget "expires_at" d) = Ok expires -> within issued expires now = true -> timely d now.
Proof.
  intros Hi He. destruct issued as [i|], expires as [e|]; try done. cbn [within]. intros Hw. exists i, e. split; [done|]. split; [done|].
  apply andb_true_iff in Hw as [[?%Z.leb_le ?%Z.ltb_lt]%andb_true_iff ?%Z.leb_le]. lia.
Qed.

Lemma verify_rotation_inv c op old new w o w' : _verify_rotation c op old new w = (o, w') ->
  w' = w /\ (o = Ok tt -> ceremony_held w c op old new).
Proof.
  unfold _verify_rotation, bind at 1. destruct (_read_regular c mode_600 w) as [r1 w1] eqn:E1. apply read_regular_inv in E1 as [-> Hc].
  destruct r1 as [text|e]; [|by intros [= <- <-]]. unfold bind at 1, lift at 1.
  destruct (json_loads_strict text) as [document|e] eqn:Ed; [|by intros [= <- <-]].
  destruct document as [| | | | | |d]; try by intros [= <- <-].
  destruct (negb (_ && _)); [by intros [= <- <-]|]. unfold bind at 1, gets at 1. unfold bind at 1, lift at 1.
  destruct (instant (jget "issued_at" d)) as [issued|e] eqn:Ei; [|by intros [= <- <-]]. unfold bind at 1, lift at 1.
  destruct (instant (jget "expires_at" d)) as [expires|e] eqn:Ee; [|by intros [= <- <-]].
  destruct (negb _) eqn:Eb; [by intros [= <- <-]|]. apply negb_false_iff in Eb.
  apply andb_true_iff in Eb as [[[[_ Ho%is_text_eq]%andb_true_iff Hn%is_text_eq]%andb_true_iff _]%andb_true_iff Hw].
  unfold bind at 1. destruct (_read_regular op mode_0644 w) as [r2 w2] eqn:E2. apply read_regular_inv in E2 as [-> Hop].
  destruct r2 as [pem|e]; [|by intros [= <- <-]]. unfold bind at 1, lift at 1, _public_from_pem.
  destruct (load_public_pem pem) as [[raw|]|e] eqn:El; [|by intros [= <- <-]..].
  destruct (ceremony_signed raw d) eqn:Es; intros [= <- <-]; (split; [done|]); [|done].
  intros _. exists text, d, pem, raw. split_and!; try done. by eapply within_timely.
Qed.

(** What may replace the pin: nothing was there, or a null, or the same record,
    or the two keys are those of a ceremony. *)
Definition rotation_held (w : World) (r : TrustRequest) (old : json) (new_key : string) : Prop :=
  exists ceremony operator d, tr_rotation_ceremony r = Some ceremony /\ tr_operator_public_key r = Some operator /\ old = JObj d /\
    ceremony_held w (given_path ceremony) (given_path operator) (str_get d "key_id" "") new_key.
Definition pin_allows (w : World) (r : TrustRequest) (pem raw : string) : Prop :=
  forall n, w_files w !! path_text (absolute_path (tr_destination_pin r)) = Some n ->
    exists text old, trusted_file w (absolute_path (tr_destination_pin r)) mode_0644 text /\ json_loads_strict text = Ok old /\
      (old = JNull \/ same_json old (JObj (record_of raw pem)) = true \/ rotation_held w r old (authority_key_id raw)).

Lemma stored_pin_inv pin w o w' : stored_pin pin w = (o, w') ->
  w' = w /\ forall existing, o = Ok existing ->
    match existing with
    | None => forall n, w_files w !! path_text pin = Some n -> exists text, trusted_file w pin mode_0644 text /\ json_loads_strict text = Ok JNull
    | Some old => exists text, trusted_file w pin mode_0644 text /\ json_loads_strict text = Ok old
    end.
Proof.
  unfold stored_pin, bind at 1. destruct (present_reads pin w) as (there & -> & Hno & _). destruct there.
  - unfold bind. destruct (_read_regular pin mode_0644 w) as [r1 w1] eqn:E1. apply read_regular_inv in E1 as [-> Hc].
    destruct r1 as [text|e]; [|by intros [= <- <-]]. unfold lift. destruct (json_loads_strict text) as [v|e] eqn:Ev; [|by intros [= <- <-]].
    intros [= <- <-]. split; [done|]. intros existing [= <-]. destruct v; [intros n _|..]; by exists text.
  - intros [= <- <-]. split; [done|]. intros existing [= <-] n Hn. by rewrite Hno in Hn.
Qed.

Lemma check_rotation_inv r existing raw pem w o w' : check_rotation r existing (record_of raw pem) w = (o, w') ->
  w' = w /\ (o = Ok tt -> match existing with
                         | Some old => same_json old (JObj (record_of raw pem)) = true \/ rotation_held w r old (authority_key_id raw)
                         | None => True
                         end).
Proof.
  unfold check_rotation. destruct existing as [old|]; [|by intros [= <- <-]].
  destruct (same_json _ _); [intros [= <- <-]; split; [done | by left]|].
  destruct (tr_rotation_ceremony r) as [ceremony|] eqn:Ec; [|by intros [= <- <-]].
  destruct (tr_operator_public_key r) as [operator|] eqn:Eo; [|by intros [= <- <-]].
  unfold bind at 1, lift at 1. destruct old as [| | | | | |d]; cbn [as_object]; try by intros [= <- <-].
  intros E. apply verify_rotation_inv in E as [-> Hv]. split; [done|]. intros Ho. right. exists ceremony, operator, d. split_and!; try done. by apply Hv.
Qed.

Definition same_clock (w w' : World) : Prop := w_clock w' = w_clock w.
#[local] Instance same_clock_preorder : PreOrder same_clock.
Proof. split; [done|]. intros x y z Hx Hy. unfold same_clock in *. by rewrite Hy. Qed.
Lemma assert_parent_clock p : preserves same_clock (_assert_parent p).
Proof.
  unfold _assert_parent. apply preserves_bind; [exact _ | apply preserves_forM; [exact _ | intros q w] | intros []].
  - unfold make_dir, file_at, bind, gets. destruct (is_dir _ _); [done|]. by destruct (w_files w !! path_text q).
  - apply preserves_bind; [exact _ | intros w | intros []].
    + unfold make_private, file_at, bind, gets. destruct (is_dir _ _); [done|].
      destruct (w_files w !! path_text p); [|done]. by destruct (match fn_kind _ with Symlink => _ | _ => _ end).
    + apply preserves_bind; [exact _ | intros w; by destruct (lstat_reads p w) as (o & -> & _) |].
      intros [n|]; [|by intros w]. destruct (_ || _); [by intros w|]. destruct (negb _); by intros w.
Qed.

Lemma checked_source_inv pub record w o w' : checked_source pub record w = (o, w') ->
  w' = w /\ forall pem actual source, o = Ok (pem, actual, source) ->
    exists text raw, trusted_file w (absolute_path pub) mode_0644 pem /\ trusted_file w (absolute_path record) mode_0644 text /\
      json_loads_strict text = Ok source /\ load_public_pem pem = Ok (Some raw) /\ actual = record_of raw pem.
Proof.
  unfold checked_source, bind at 1. destruct (_read_regular _ _ w) as [r1 w1] eqn:E1. apply read_regular_inv in E1 as [-> H1'].
  destruct r1 as [pem|e]; [|by intros [= <- <-]]. unfold bind at 1.
  destruct (_read_regular _ _ w) as [r2 w2] eqn:E2. apply read_regular_inv in E2 as [-> H2'].
  destruct r2 as [text|e]; [|by intros [= <- <-]]. unfold bind at 1, lift at 1.
  destruct (json_loads_strict text) as [source|e] eqn:Ej; [|by intros [= <- <-]]. unfold bind at 1, lift at 1.
  destruct (_trust_record pem) as [actual|e] eqn:Er; intros [= <- <-]; (split; [done|]); [|done].
  apply trust_record_inv in Er as (raw & Hload & ->). intros ? ? ? [= <- <- <-]. by exists text, raw.
Qed.

(** What a rotation held after directories were added, it held before. *)
Lemma rotation_before w w' r old new : dirs_added w w' -> same_clock w w' -> rotation_held w' r old new -> rotation_held w r old new.
Proof.
  intros Hd Hc (c & op & d & Hc1 & Ho & Hold & text & doc & pem & raw & Ht & Hj & Hp & Hrest).
  exists c, op, d. split_and!; try done. exists text, doc, pem, raw. unfold same_clock in Hc. rewrite Hc in Hrest.
  split; [by eapply trusted_before|]. split; [done|]. split; [by eapply trusted_before | done].
Qed.

Lemma check_install_run r w o w' : check_install r w = (o, w') ->
  dirs_added w w' /\ forall pem actual, o = Ok (pem, actual) ->
    exists raw, actual = record_of raw pem /\ sourced w r pem raw /\ pin_allows w r pem raw.
Proof.
  unfold check_install, bind at 1. destruct (checked_source _ _ w) as [r1 w1] eqn:E1. apply checked_source_inv in E1 as [-> Hs].
  destruct r1 as [[[pem actual] source]|e]; [|by intros [= <- <-]].
  destruct (Hs _ _ _ eq_refl) as (text & raw & Hpem & Htext & Hj & Hload & ->). clear Hs.
  destruct (negb _ || negb _) eqn:Eb; [by intros [= <- <-]|].
  apply orb_false_iff in Eb as [Hsame%negb_false_iff Hid%negb_false_iff]. apply is_text_eq in Hid.
  assert (sourced w r pem raw) as Hsourced by (exists text, source; split_and!; try done; by injection Hid).
  cbv zeta. unfold bind at 1. set (public := absolute_path (tr_destination_public r)). set (pin := absolute_path (tr_destination_pin r)).
  pose proof (assert_parent_added (removelast public) w) as Hd. pose proof (assert_parent_clock (removelast public) w) as Hc.
  destruct (_assert_parent _ w) as [[[]|e] w2]; cbn [snd] in Hd, Hc; [|by intros [= <- <-]].
  destruct (negb _); [by intros [= <- <-]|]. unfold bind at 1.
  destruct (stored_pin pin w2) as [r3 w3] eqn:E3. apply stored_pin_inv in E3 as [-> Hpin].
  destruct r3 as [existing|e]; [|by intros [= <- <-]]. specialize (Hpin _ eq_refl). unfold bind at 1.
  destruct (check_rotation _ _ _ w2) as [r4 w4] eqn:E4. apply check_rotation_inv in E4 as [-> Hrot].
  destruct r4 as [[]|e]; [|by intros [= <- <-]]. specialize (Hrot eq_refl).
  assert (pin_allows w r pem raw) as Hallow.
  { intros n Hn. fold pin in Hn. destruct (proj1 Hd _ _ Hn) as [[]|Hn2]. destruct existing as [old|].
    - destruct Hpin as (t & Ht & Hjt). exists t, old. split; [by eapply trusted_before|]. split; [done|]. right.
      destruct Hrot as [Hr|Hr]; [by left | right; by eapply rotation_before].
    - destruct (Hpin _ Hn2) as (t & Ht & Hjt). exists t, JNull. split; [by eapply trusted_before|]. split; [done | by left]. }
  assert (forall p a, Ok (pem, record_of raw pem) = Ok (p, a) -> exists raw, a = record_of raw p /\ sourced w r p raw /\ pin_allows w r p raw) as Hend
    by (intros ? ? [= <- <-]; by exists raw).
  unfold bind at 1. destruct (present_reads public w2) as (there & -> & _). unfold bind at 1. destruct there; [|by intros [= <- <-]].
  unfold bind at 1. destruct (_read_regular public _ w2) as [r5 w5] eqn:E5. apply read_regular_inv in E5 as [-> _].
  destruct r5 as [current|e]; [|by intros [= <- <-]]. destruct (_ && _); by intros [= <- <-].
Qed.

(** C30: The pin of a client changes only on a signed ceremony.  An installation
    that succeeds has read a public key and its record from regular files of
    the process with mode 0644, and the key has the id the caller expected; if
    anything was at the pin's path, it is the pin of the same key, a null, or a
    pin whose key and the new one are named by a current ceremony the operator
    signed.  Then the pin is the record of the key, and the key file the key. *)
Theorem pins_change_by_ceremony r w rec w' : install_client_trust r w = (Ok rec, w') ->
  exists pem raw, rec = record_of raw pem /\ sourced w r pem raw /\ pin_allows w r pem raw /\
    written_file w' (absolute_path (tr_destination_pin r)) mode_0644 (line (canonical (JObj rec))) /\
    (path_text (absolute_path (tr_destination_public r)) <> path_text (absolute_path (tr_destination_pin r)) ->
     written_file w' (absolute_path (tr_destination_public r)) mode_0644 pem).
Proof.
  unfold install_client_trust, bind at 1. destruct (check_install r w) as [o1 w1] eqn:E1. apply check_install_run in E1 as [_ Hc].
  destruct o1 as [[pem actual]|e]; [|done]. destruct (Hc _ _ eq_refl) as (raw & -> & Hs & Ha). unfold bind at 1.
  destruct (_atomic_write _ pem _ w1) as [[[]|e] w2] eqn:E2; [|done]. unfold bind at 1.
  destruct (_atomic_write _ (line _) _ w2) as [[[]|e] w3] eqn:E3; [|done]. intros [= <- <-].
  exists pem, raw. split_and!; try done; [by eapply write_written|]. intros Hne.
  apply write_written in E2 as (n & Hn & Hrest). apply atomic_write_run in E3 as (w4 & [K _] & Hw). exists n. split; [|done].
  destruct (K _ _ Hn) as [[]|Hn4]. by rewrite Hw, lookup_insert_ne.
Qed.

(** An installation that is refused before it writes adds directories at most. *)
Theorem refused_install_writes_nothing r w e w' : check_install r w = (Raise e, w') ->
  install_client_trust r w = (Raise e, w') /\ dirs_added w w'.
Proof. intros E. split; [unfold install_client_trust, bind; by rewrite E | by apply check_install_run in E as [? _]]. Qed.

(** What is exported is the key, its record and its id, and nothing else is in
    the directory. *)
Theorem bundle_exact pub record out w rec w' : export_client_trust pub record out w = (Ok rec, w') ->
  (forall n, n ∈ names_in (w_files w') (absolute_path out) -> n ∈ BUNDLE) /\
  exists pem raw, rec = record_of raw pem /\ trusted_file w (absolute_path pub) mode_0644 pem /\ load_public_pem pem = Ok (Some raw).
Proof.
  unfold export_client_trust, bind at 1. destruct (checked_source _ _ w) as [r1 w1] eqn:E1. apply checked_source_inv in E1 as [-> Hs].
  destruct r1 as [[[pem actual] source]|e]; [|done]. destruct (Hs _ _ _ eq_refl) as (text & raw & Hpem & _ & _ & Hload & ->).
  destruct (negb _); [done|]. cbv zeta. intros E.
  apply bind_ok_inv in E as (? & w2 & _ & E). apply bind_ok_inv in E as (? & w3 & _ & E). apply bind_ok_inv in E as (? & w4 & _ & E).
  apply bind_ok_inv in E as (? & w5 & _ & E). unfold bind, gets in E. destruct (_ && _) eqn:Eb; [|done].
  injection E as <- <-. apply andb_true_iff in Eb as [Hin _]. split; [|by exists pem, raw].
  intros n Hn. rewrite forallb_forall in Hin. apply smem_In, Hin. by apply list_elem_of_In.
Qed.

End Theorems.

(** ** Concrete inputs *)
Module AuthorityDemo.
#[export] Existing Instance Demo.runtime.
#[export] Existing Instance DraftDemo.host.
#[export] Existing Instance DraftDemo.machine.
#[export] Instance authority : AuthorityHost :=
  {| cwd := "/home"; gethostname := "cpubox.lan"; owned := fun _ => true; token_hex := fun _ _ => "0123456789abcdef";
     public_pem := fun raw => raw; load_public_pem := fun pem => Ok (Some pem) |}.

Definition plain (mode : Z) (text : string) : FileNode := mkFileNode Regular mode true text.
Definition record (key : string) : string := line (canonical (JObj (record_of key key))).
(** A ceremony signed with the operator's key, from one key to another. *)
Definition unsigned (old new : string) : dict :=
  [("schema", JStr ROTATION_SCHEMA); ("old_key_id", JStr (authority_key_id old)); ("new_key_id", JStr (authority_key_id new));
   ("issued_at", JNum 0); ("expires_at", JNum 600); ("nonce", JStr "n"); ("approved_by", JStr "operator")].
Definition ceremony (signer old new : string) : string :=
  let d := unsigned old new in
  canonical (JObj (d ++ [("signature", JStr (urlsafe_b64encode (ed_sign signer (ROTATION_DOMAIN +:+ canonical (JObj d)))))])).

Definition private_dir : FileNode := mkFileNode Directory mode_700 true "".
Definition files (signer : string) : gmap string FileNode :=
  {[ "/src/key" := plain mode_0644 "new"; "/src/record" := plain mode_0644 (record "new");
     "/trust" := private_dir; "/trust/pin" := plain mode_0644 (record "old"); "/trust/key" := plain mode_0644 "old";
     "/home/ceremony" := plain mode_600 (ceremony signer "old" "new"); "/home/operator" := plain mode_0644 "op" ]}.
Definition world (signer : string) : World := upd w_clock 60000000%Z (upd w_files (files signer) (Demo.world empty_db)).
Definition request (c : option string) : TrustRequest :=
  mkTrustRequest "/src/key" "/src/record" (authority_key_id "new") "/trust/key" "/trust/pin" c (Some "operator").

Definition outcome_of {A} (r : outcome A * World) : bool * option string * option string :=
  (is_ok (fst r), fn_content <$> w_files (snd r) !! "/trust/key", fn_content <$> w_files (snd r) !! "/trust/pin").
(** The operator's ceremony replaces the pin; another key's does not, and
    neither does a request without one. *)
Lemma rotated : outcome_of (install_client_trust (request (Some "ceremony")) (world "op")) = (true, Some "new", Some (record "new")).
Proof. vm_compute. reflexivity. Qed.
Lemma not_the_operator : outcome_of (install_client_trust (request (Some "ceremony")) (world "eve")) = (false, Some "old", Some (record "old")).
Proof. vm_compute. reflexivity. Qed.
Lemma no_ceremony : outcome_of (install_client_trust (request None) (world "op")) = (false, Some "old", Some (record "old")).
Proof. vm_compute. reflexivity. Qed.

(** A first start writes the three files; a second one keeps them. *)
Definition boot (w : World) : outcome dict * World :=
  ensure_authority_keypair "/keys/private" "/keys/public" "/keys/record" (Some "authoritative") (Some "cpubox") w.
Lemma boots_once : let w1 := (boot (world "op")).2 in
  is_ok (boot (world "op")).1 = true /\ is_ok (boot w1).1 = true /\
  w_files (boot w1).2 !! "/keys/private" = w_files w1 !! "/keys/private" /\ is_some (w_files w1 !! "/keys/private") = true.
Proof. vm_compute. split_and!; reflexivity. Qed.
Lemma exports : is_ok (export_client_trust "/src/key" "/src/record" "/out" (world "op")).1 = true.
Proof. vm_compute. reflexivity. Qed.
End AuthorityDemo.

Section Witnesses.
Import AuthorityDemo.

Lemma pins_change_by_ceremony_witness :
  exists rec w', install_client_trust (request (Some "ceremony")) (world "op") = (Ok rec, w') /\
    exists pem raw, rec = record_of raw pem /\ pin_allows (world "op") (request (Some "ceremony")) pem raw.
Proof.
  assert (is_ok (install_client_trust (request (Some "ceremony")) (world "op")).1 = true) as Hok by (vm_compute; exact eq_refl).
  destruct (install_client_trust (request (Some "ceremony")) (world "op")) as [[rec|e] w'] eqn:E; [|discriminate Hok].
  exists rec, w'. split; [exact eq_refl|].
  destruct (pins_change_by_ceremony _ _ _ _ E) as (pem & raw & Hrec & _ & Ha & _). exists pem, raw. split; [exact Hrec | exact Ha].
Defined.

Lemma refused_install_writes_nothing_witness :
  exists e w', install_client_trust (request None) (world "op") = (Raise e, w') /\ dirs_added (world "op") w'.
Proof.
  assert (is_ok (check_install (request None) (world "op")).1 = false) as Hno by (vm_compute; exact eq_refl).
  destruct (check_install (request None) (world "op")) as [[x|e] w'] eqn:E; [discriminate Hno|].
  exists e, w'. exact (refused_install_writes_nothing _ _ _ _ E).
Defined.
End Witnesses.
