(* ===== verification/IsoDates.v ===== *)
(** * Instants as ISO 8601 texts ([datetime.fromisoformat])

    The grammar of the standard library of Python 3.11 and 3.12: calendar and week
    dates, with and without separators, times down to microseconds and an
    optional offset.  An instant is the number of microseconds since the epoch;
    a text without an offset has a local time only. *)

From Stdlib Require Import ZArith Ascii String Lia.
From stdpp Require Import base option list strings.
From S2P Require Import Prelude PyStr Json Clock SourceGates.
Local Open Scope string_scope.
Local Open Scope list_scope.

(** [k] digits at the start of a text. *)
Fixpoint digits_at (k : nat) (acc : Z) (s : string) : option (Z * string) :=
  match k, s with
  | O, _ => Some (acc, s)
  | S k', String c s' => if is_digit c then digits_at k' (10 * acc + (Z.of_nat (code c) - 48))%Z s' else None
  | S _, "" => None
  end.
Definition char_at (n : nat) (s : string) : option ascii := String.get n s.
Definition is_at (n : nat) (c : ascii) (s : string) : bool := match char_at n s with Some d => ceqb d c | None => false end.
Definition digit_at (n : nat) (s : string) : bool := match char_at n s with Some d => is_digit d | None => false end.

(** ** Dates, as ordinals: the first of January of the year 1 is day 1 *)
Definition days_before_year (y : Z) : Z := (365 * (y - 1) + (y - 1) / 4 - (y - 1) / 100 + (y - 1) / 400)%Z.
Fixpoint days_before_month (fuel : nat) (y m : Z) : Z :=
  match fuel with O => 0 | S f => if Z.leb m 1 then 0 else mlen y (m - 1) + days_before_month f y (m - 1) end%Z.
Definition year_ok (y : Z) : bool := Z.leb 1 y && Z.leb y 9999.
Definition calendar_date (y m d : Z) : option Z :=
  if year_ok y && Z.leb 1 m && Z.leb m 12 && Z.leb 1 d && Z.leb d (mlen y m)
  then Some (days_before_year y + days_before_month 12 y m + d)%Z else None.
Definition week_date (y w d : Z) : option Z :=
  let first := (days_before_year y + 1)%Z in
  let long := Z.eqb (first mod 7) 4 || (Z.eqb (first mod 7) 3 && is_leap y) in
  let weekday := ((first + 6) mod 7)%Z in
  let monday := (first - weekday + (if Z.ltb 3 weekday then 7 else 0))%Z in
  let day := (monday + (w - 1) * 7 + (d - 1))%Z in
  if year_ok y && Z.leb 1 w && (Z.ltb w 53 || (Z.eqb w 53 && long)) && Z.leb 1 d && Z.leb d 7
     && Z.leb 1 day && Z.leb day (days_before_year 10000)
  then Some day else None.
Definition week_mark : ascii := "W".

Definition parse_date (s : string) : option Z :=
  match digits_at 4 0 s with
  | None => None
  | Some (y, r) =>
      let sep := is_at 0 "-" r in
      let r := if sep then sdrop 1 r else r in
      if is_at 0 week_mark r then
        match digits_at 2 0 (sdrop 1 r) with
        | None => None
        | Some (w, "") => week_date y w 1
        | Some (w, r) => if negb (eqb (is_at 0 "-" r) sep) then None
                         else match digits_at 1 0 (if sep then sdrop 1 r else r) with
                              | Some (d, "") => week_date y w d
                              | _ => None
                              end
        end
      else
        match digits_at 2 0 r with
        | None => None
        | Some (m, r) => if negb (eqb (is_at 0 "-" r) sep) then None
                         else match digits_at 2 0 (if sep then sdrop 1 r else r) with
                              | Some (d, "") => calendar_date y m d
                              | _ => None
                              end
        end
  end.

(** Where the date ends. *)
Fixpoint digits_end (s : string) : nat := match s with String c s' => if is_digit c then S (digits_end s') else O | "" => O end.
Definition date_end (s : string) : option nat :=
  let len := String.length s in
  if Nat.eqb len 7 then Some 7
  else if is_at 4 "-" s then
    if is_at 5 week_mark s then
      if Nat.ltb 8 len && is_at 8 "-" s
      then if Nat.eqb len 9 then None else if Nat.ltb 10 len && digit_at 10 s then Some 8 else Some 10
      else Some 8
    else Some 10
  else if is_at 4 week_mark s then
    let idx := (7 + digits_end (sdrop 7 s))%nat in
    Some (if Nat.ltb idx 9 then idx else if Nat.even idx then 7 else 8)%nat
  else Some 8.

(** ** Times and offsets, in microseconds *)
Fixpoint fraction (k : nat) (s : string) : Z :=
  match k with
  | O => 0
  | S k' => match s with
            | String c s' => (Z.of_nat (code c) - 48) * 10 ^ Z.of_nat k' + fraction k' s'
            | "" => 0
            end
  end%Z.
Definition time_parts (s : string) : option (Z * Z * Z * Z) :=
  match digits_at 2 0 s with
  | None => None
  | Some (h, "") => Some (h, 0, 0, 0)
  | Some (h, r) =>
      let sep := is_at 0 ":" r in
      match digits_at 2 0 (if sep then sdrop 1 r else r) with
      | None => None
      | Some (m, "") => Some (h, m, 0, 0)
      | Some (m, r) =>
          if sep && negb (is_at 0 ":" r) then None
          else match digits_at 2 0 (if sep then sdrop 1 r else r) with
               | None => None
               | Some (sec, "") => Some (h, m, sec, 0)
               | Some (sec, String c f) =>
                   if (ceqb c "." || ceqb c ",") && truthy f && sall is_digit f then Some (h, m, sec, fraction 6 f) else None
               end
      end
  end%Z.
Definition microseconds (t : Z * Z * Z * Z) : Z := let '(h, m, s, f) := t in (((h * 60 + m) * 60 + s) * 1000000 + f)%Z.
Definition parse_time (s : string) : option Z :=
  match time_parts s with
  | Some (h, m, sec, f) => if Z.ltb h 24 && Z.ltb m 60 && Z.ltb sec 60 then Some (microseconds (h, m, sec, f)) else None
  | None => None
  end.
Definition day_us : Z := 86400000000.
Definition parse_offset (s : string) : option Z :=
  match time_parts s with
  | Some t => if Z.ltb (microseconds t) day_us then Some (microseconds t) else None
  | None => None
  end.
(** The text up to the sign of an offset, and what follows it. *)
Fixpoint offset_split (s : string) : string * option (ascii * string) :=
  match s with
  | "" => ("", None)
  | String c s' => if one_of "+-Z" c then ("", Some (c, s'))
                   else let (a, o) := offset_split s' in (String c a, o)
  end.

(** One character, of one or more bytes. *)
Fixpoint drop_cont (s : string) : string := match s with String c s' => if is_cont c then drop_cont s' else s | "" => "" end.
Definition drop_char (s : string) : string := match s with String _ s' => drop_cont s' | "" => "" end.

(** [None] is a ValueError; else the local time, and the offset if there is one. *)
Definition fromisoformat (s : string) : option (Z * option Z) :=
  if Nat.ltb (String.length s) 7 then None
  else
    match date_end s with
    | None => None
    | Some n =>
        match parse_date (stake n s) with
        | None => None
        | Some day =>
            let midnight := ((day - 719163) * day_us)%Z in
            let tail := drop_char (sdrop n s) in
            if tail =s "" then Some (midnight, None)
            else
              let (clock, zone) := offset_split tail in
              match parse_time clock with
              | None => None
              | Some t =>
                  match zone with
                  | None => Some (midnight + t, None)%Z
                  | Some (c, z) =>
                      if ceqb c "Z" then (if z =s "" then Some (midnight + t, Some 0) else None)%Z
                      else match parse_offset z with
                           | Some o => Some (midnight + t, Some (if ceqb c "-" then - o else o))%Z
                           | None => None
                           end
                  end
              end
        end
    end.
(** The instant of a text that has an offset. *)
Definition aware_instant (t : Z * option Z) : option Z := match t with (local, Some o) => Some (local - o)%Z | (_, None) => None end.

Example iso_examples :
  fromisoformat "1970-01-01T00:00:00+00:00" = Some (0, Some 0)%Z /\
  fromisoformat "2026-07-20T00:00:00.25+02:00" = Some (1784505600250000, Some 7200000000)%Z /\
  fromisoformat "2026-W30-1" = Some (1784505600000000, None)%Z /\
  fromisoformat "20260720T010203" = Some (1784509323000000, None)%Z /\
  fromisoformat "2026-02-29" = None /\ fromisoformat "2026-07-20T24:00" = None.
Proof. vm_compute. split_and!; reflexivity. Qed.
