(* ===== verification/Serving.v ===== *)
(** * Serving capabilities ([auth.py], [audit.py], [index.list_capabilities], [router.py])

    Scopes and visibility, the audit trail, the listing, and what cap.load,
    cap.describe and cap.list of the router return: the record of a capability
    and the verified content of its files.

    The size of a read, the pages and the truncation are as in the code; texts
    are UTF-8, and characters of two bytes or more are never control characters. *)

From Stdlib Require Import ZArith Ascii String Lia.
From stdpp Require Import base option list strings gmap.
From S2P Require Import Prelude Sha256 PyStr Json JsonCodec Dicts Clock Db Models AccessControl Catalog Superadmin Gates Signing SourceGates CapGuardPolicy InstallGuards Manifest Drafts AuthorityKeys.
Local Open Scope string_scope.
Local Open Scope list_scope.

#[local] Opaque sha256_hex.

(** ** Results *)

(** [json.dumps(v, indent=2, sort_keys=True)] of a value whose keys are sorted. *)
Fixpoint spaces (n : nat) : string := match n with O => "" | S m => String " "%char (spaces m) end.
Fixpoint indented (level : nat) (v : json) : string :=
  let brk n := newline +:+ spaces (2 * n) in
  match v with
  | JArr (x :: l) => "[" +:+ brk (S level) +:+ join ("," +:+ brk (S level)) (List.map (indented (S level)) (x :: l)) +:+ brk level +:+ "]"
  | JObj (x :: d) =>
      "{" +:+ brk (S level)
      +:+ join ("," +:+ brk (S level)) (List.map (fun kv => print_str (fst kv) +:+ ": " +:+ indented (S level) (snd kv)) (x :: d))
      +:+ brk level +:+ "}"
  | _ => print_json v
  end.

Definition text_part (text : string) : json := JObj [("type", JStr "text"); ("text", JStr text)].
Definition tool_result (text : string) (data : dict) (is_error : bool) : dict :=
  [("content", JArr [text_part text; text_part (indented 0 (sort_keys (JObj data)))]);
   ("structuredContent", JObj data); ("isError", JBool is_error)].
Definition ok_result (text : string) (data : dict) : dict := tool_result text data false.
Definition error_payload (code message : string) (details : dict) : dict :=
  [("error", JObj [("code", JStr code); ("message", JStr message); ("details", JObj details)])].
Definition error (code message : string) (details : dict) : dict := tool_result message (error_payload code message details) true.
Definition plain_code : string := "CAPABILITY_MESH_ERROR".

(** ** Scopes *)
Definition equivalents (scope : string) : list string :=
  if scope =s "cap:search" then ["cap.discover"; "cap.discover:*"]
  else if scope =s "cap:load" then ["cap.load"; "cap.load:*"]
  else if scope =s "cap:delegate" then ["cap.delegate"; "cap.delegate:*"]
  else if scope =s "cap:report" then ["cap.audit"; "cap.audit:*"]
  else if scope =s "cap:call" then ["cap.call"; "cap.call:*"]
  else [].
Definition require_scope (p : Principal) (scope : string) : bool * option string :=
  if smem scope (p_scopes p) || smem "cap:*" (p_scopes p) || List.existsb (fun s => smem s (p_scopes p)) (equivalents scope)
  then (true, None) else (false, Some ("Missing required scope: " +:+ scope)).

(** ** Control characters *)
Definition esc : ascii := ascii_of_nat 27.
Definition bel : ascii := ascii_of_nat 7.
Definition csi_arg (c : ascii) : bool := is_digit c || ceqb c ";"%char.
(** [re.sub(r"\x1b\[[0-9;]*[a-zA-Z]", "", s)]: [fuel] is the length of the text. *)
Definition csi_rest (s : string) : option string :=
  match s with
  | String a (String b s') =>
      if ceqb a esc && ceqb b "["%char
      then match lstrip_by csi_arg s' with String c r => if is_alpha c then Some r else None | "" => None end
      else None
  | _ => None
  end.
(** [re.sub(r"\x1b\][^\x07\x1b]*?(\x07|\x1b\\)", "", s)] *)
Definition osc_rest (s : string) : option string :=
  match s with
  | String a (String b s') =>
      if ceqb a esc && ceqb b "]"%char
      then match lstrip_by (fun c => negb (ceqb c bel || ceqb c esc)) s' with
           | String c r => if ceqb c bel then Some r
                           else match r with String e r' => if ceqb e backslash then Some r' else None | "" => None end
           | "" => None
           end
      else None
  | _ => None
  end.
Fixpoint sub_out (rest : string -> option string) (fuel : nat) (s : string) : string :=
  match fuel, s with
  | S fuel', String c s' => match rest s with Some r => sub_out rest fuel' r | None => String c (sub_out rest fuel' s') end
  | _, _ => s
  end.
Definition keeps_char (c : ascii) : bool :=
  Nat.eqb (code c) 9 || Nat.eqb (code c) 10 || Nat.eqb (code c) 13 || negb (Nat.ltb (code c) 32).
Fixpoint sfilter (p : ascii -> bool) (s : string) : string :=
  match s with "" => "" | String c s' => if p c then String c (sfilter p s') else sfilter p s' end.
Definition strip_control_sequences (value : string) : string :=
  let cleaned := sub_out csi_rest (String.length value) value in
  sfilter keeps_char (sub_out osc_rest (String.length cleaned) cleaned).

Definition METADATA_TEXT_FIELDS : list string := ["description"; "title"; "summary"; "instructions"; "system-prompt"; "sourceSystem"].
Definition METADATA_FIELD_MAX : Z := 4000.
Definition _wrap_free_text (value : string) : string :=
  let escaped := strip_control_sequences value in
  let kept := char_take METADATA_FIELD_MAX escaped in
  if kept =s escaped then escaped else kept +:+ "... [truncated]".
Definition sanitize_field (key : string) (v : json) : json :=
  match v with
  | JStr s => JStr (if smem key METADATA_TEXT_FIELDS then _wrap_free_text (strip_control_sequences s) else strip_control_sequences s)
  | JArr l => if key =s "keywords"
              then JArr (List.map (fun k => match k with JStr s => JStr (_wrap_free_text (strip_control_sequences s)) | _ => k end) l)
              else v
  | _ => v
  end.
Definition sanitize_metadata (record : dict) : dict := (fun kv => (fst kv, sanitize_field (fst kv) (snd kv))) <$> record.

Section Serving.
Context `{!Runtime, !Machine, !Host, !AuthorityHost}.

(** ** The audit trail *)
Definition SENSITIVE_KEYS : list string :=
  ["token"; "access_token"; "refresh_token"; "password"; "secret"; "api_key"; "authorization"].
Fixpoint redact (v : json) : json :=
  match v with
  | JObj d => JObj (List.map (fun kv => (fst kv, if smem (lower (fst kv)) SENSITIVE_KEYS then JStr "[REDACTED]" else redact (snd kv))) d)
  | JArr l => JArr (List.map redact l)
  | _ => v
  end.
(** [datetime.now(UTC).isoformat(timespec="seconds")] *)
Definition audit_now (t : Z) : string := stamp "T" (t / 1000000) +:+ "+00:00".
Definition audit_file : string := path_join state_dir "audit.jsonl".
(** [path.open("a").write(text)] *)
Definition append_text (path text : string) : Op unit :=
  let! node := file_at (resolve_path path) in
  match node with
  | Some n => match fn_kind n with
              | Regular => write_text path (fn_content n +:+ text)
              | _ => write_text path text
              end
  | None => write_text path text
  end.
Definition audit (event : string) (p : Principal) (payload : dict) : Op unit :=
  let! _ := mkdir_parents state_dir in
  let! now := gets (fun w => audit_now (w_clock w)) in
  let record :=
    [("ts", JStr now); ("event", JStr event);
     ("principal", JObj [("subject", JStr (p_subject p)); ("groups", jstrs (p_groups p)); ("scopes", jstrs (p_scopes p));
                         ("authenticated", JBool (p_authenticated p))]);
     ("payload", redact (JObj payload))] in
  append_text audit_file (dumps (sort_keys (JObj record)) +:+ newline).

(** ** Visibility *)

(** [can_load] with a connection, as every caller has one. *)
Definition can_load (c : Capability) (p : Principal) (right : string) (audit : bool) : Op (bool * option string) :=
  evaluate_access p right (Some c) None audit.
Definition can_discover (c : Capability) (p : Principal) (audit : bool) : Op (bool * bool) :=
  let! hidden := (if c_discovery_mode c =s "hidden"
                  then let! (allowed, _) := can_load c p "load" audit in ret (negb allowed) else ret false) in
  if hidden : bool then ret (false, false)
  else
    let! (allowed, _) := can_load c p "load" audit in
    ret (if allowed then (true, false) else if c_discovery_mode c =s "locked" then (true, true) else (false, false)).

(** ** The listing *)
Definition opt_le (a b : option string) : bool :=
  match a, b with None, _ => true | Some _, None => false | Some x, Some y => sle x y end.
Definition listing_le (a b : CapRow) : bool :=
  if cp_type a =s cp_type b
  then if oeqb (cp_plugin a) (cp_plugin b) then sle (cp_name a) (cp_name b) else opt_le (cp_plugin a) (cp_plugin b)
  else sle (cp_type a) (cp_type b).
(** The rows of the listing, in its order. *)
Definition listed_rows (d : DB) (type plugin : option string) : list CapRow :=
  sort_by listing_le
    (fetchall (fun r => match type with Some t => cp_type r =s t | None => true end
                     && match plugin with Some x => sql_eq (cp_plugin r) x | None => true end) (db_capabilities d)).
Definition listed_item (p : Principal) (row : CapRow) : Op (option dict) :=
  let! cap := lift (capability_from_row row) in
  let! held := query (fun d => _capguard_is_held d cap) in
  if held : bool then ret None
  else let! (visible, locked) := can_discover cap p false in
       ret (if visible then Some (to_record cap locked false) else None).
Fixpoint listed_items (p : Principal) (rows : list CapRow) : Op (list dict) :=
  match rows with
  | [] => ret []
  | row :: rows' => let! item := listed_item p row in
                    let! items := listed_items p rows' in
                    ret (match item with Some d => d :: items | None => items end)
  end.
(** [if value: where column = value] *)
Definition filter_value (v : json) : outcome (option string) := if py_truthy v then sql_text v else Ok None.
Definition list_capabilities (p : Principal) (type plugin cursor : json) (page_size : Z) : Op dict :=
  let page_size := Z.min (Z.max page_size 1) 100 in
  let! offset := lift (py_int (py_or cursor (JStr "0"))) in
  let! type := lift (filter_value type) in
  let! plugin := lift (filter_value plugin) in
  let! rows := query (fun d => take (Z.to_nat (page_size + 1)) (drop (Z.to_nat offset) (listed_rows d type plugin))) in
  let! items := listed_items p (take (Z.to_nat page_size) rows) in
  ret [("items", JArr (JObj <$> items));
       ("nextCursor", if Z.ltb page_size (Z.of_nat (length rows)) then JStr (str_of_Z (offset + page_size)) else JNull);
       ("pageSize", JNum page_size)].

(** ** Files *)
Definition safe_file_target (package_path ref : string) : Op (option (list string)) :=
  let! fs := gets w_files in
  let! root := lift (_normalized_root cwd fs package_path) in
  let! target := lift (resolve_parts fs (joined_parts root ref)) in
  ret (if contains_path root target && is_file fs target then Some target else None).

(** The chunks [handle.read(1024 * 1024)] returns, and what is kept of them. *)
Definition CHUNK : Z := 1048576.
Fixpoint read_past (n : Z) (s : string) : string :=
  match s with "" => "" | String c s' => if Z.leb n 0 then s else read_past (n - 1) s' end.
Fixpoint chunks (fuel : nat) (s : string) : list string :=
  match fuel, s with
  | S fuel', String _ _ => read_upto CHUNK s :: chunks fuel' (read_past CHUNK s)
  | _, _ => []
  end.
Record Capture : Type := mkCapture { cap_digested : string; cap_captured : string; cap_truncated : bool }.
Definition capture_step (limit : Z) (st : Capture) (chunk : string) : Capture :=
  let remaining := Z.max 0 (limit - Z.of_nat (String.length (cap_captured st))) in
  mkCapture (cap_digested st +:+ chunk) (cap_captured st +:+ read_upto remaining chunk)
    (cap_truncated st || Z.ltb remaining (Z.of_nat (String.length chunk))).
Definition truncation_notice : string := newline +:+ newline +:+ "[TRUNCATED: request detail=full for a larger bounded view.]".
Definition hash_and_read_content (target : list string) (detail : string) : Op (string * string) :=
  let limit := if detail =s "full" then 400000%Z else 80000%Z in
  let! data := gets (fun w => read_bytes (w_files w) target) in
  let! data := lift data in
  let st := fold_left (capture_step limit) (chunks (String.length data) data) (mkCapture "" "" false) in
  let text := decode_replace (cap_captured st) in
  ret ("sha256:" +:+ sha256_hex (cap_digested st), if cap_truncated st then text +:+ truncation_notice else text).

(** [hmac.compare_digest] takes ASCII texts only. *)
Definition hmac_hash_equal (actual expected : string) : outcome bool :=
  if ascii_str actual && ascii_str expected then Ok (actual =s expected)
  else Raise (OtherError "TypeError: comparing strings with non-ASCII characters is not supported").

(** [cap.metadata.get(key)] *)
Definition metadata_get (c : Capability) (key : string) : outcome json :=
  let? d := as_object (c_metadata c) in Ok (jget key d).
Definition content_hash_for_target (c : Capability) (target : list string) (file_ref : option string) : Op (option string) :=
  let! fs := gets w_files in
  let! source := lift (resolve_parts fs (joined_parts (parts cwd) (expand_user (c_source_path c)))) in
  if bool_decide (target = source) || negb (otruthy file_ref) || oeqb file_ref (Some (c_entrypoint c)) then ret (Some (c_content_hash c))
  else
    let! hashes := lift (metadata_get c "fileHashes") in
    ret (match py_or hashes (JObj []), file_ref with
         | JObj d, Some ref => match jget ref d with
                               | JStr candidate => if startswith candidate "sha256:" then Some candidate else None
                               | _ => None
                               end
         | _, _ => None
         end).

(** ** The router *)
Definition resolve_capability (params : dict) : Op (option Capability) :=
  let identifier := py_or (jget "uri" params) (jget "name" params) in
  if py_truthy identifier
  then let! o := query (fun d => get_capability d (py_str identifier)) in lift o
  else ret None.
Definition not_found : dict := error "CAPABILITY_NOT_FOUND" "Capability not found. Run cap.search first." [].
Definition uri_details (c : Capability) : dict := [("uri", JStr (c_uri c))].
Definition scope_error (scope : string) (reason : option string) : dict :=
  error "INSUFFICIENT_SCOPE" (o_or reason "Not authorized.") [("requiredScope", JStr scope)].

(** The content of a file of the capability, once its sum is the recorded one. *)
Definition verified_content (p : Principal) (c : Capability) (detail : string) (file_ref : json) : Op (dict + dict) :=
  if c_source_kind c =s "system_capability"
  then ret (inl (error "SYSTEM_BODY_NOT_LOADABLE"
         "System capabilities expose metadata through cap.load and behavior through cap.call; server source bodies are not loadable."
         (uri_details c)))
  else
    let! target := safe_file_target (c_package_path c) (py_str (py_or file_ref (JStr (c_entrypoint c)))) in
    match target with
    | None => ret (inl (error plain_code "Requested file is outside the capability package." []))
    | Some target =>
        let! expected := content_hash_for_target c target (if py_truthy file_ref then Some (py_str file_ref) else None) in
        match expected with
        | None => ret (inl (error "UNVERIFIED_FILE_REFERENCE" "Referenced file has no indexed digest and cannot be loaded safely." (uri_details c)))
        | Some expected_hash =>
            let! (actual_hash, content) := hash_and_read_content target detail in
            let! same := lift (hmac_hash_equal actual_hash expected_hash) in
            if same : bool then ret (inr [("loadedFile", JStr (path_text target)); ("content", JStr content)])
            else
              let! _ := audit "cap.load.tamper_denied" p
                [("uri", JStr (c_uri c)); ("expectedHash", JStr expected_hash); ("actualHash", JStr actual_hash)] in
              ret (inl (error "CONTENT_HASH_MISMATCH"
                "Capability content no longer matches its indexed digest. Re-ingest from an authoritative source before loading." (uri_details c)))
        end
    end.

Definition cap_load (params : dict) (p : Principal) : Op dict :=
  let (ok, reason) := require_scope p "cap:load" in
  if negb ok then ret (scope_error "cap:load" reason)
  else
    let! cap := resolve_capability params in
    match cap with
    | None => ret not_found
    | Some c =>
        let! (allowed, reason) := can_load c p "load" true in
        if negb allowed then
          let! _ := audit "cap.load.denied" p [("uri", JStr (c_uri c)); ("reason", jopt reason)] in
          ret (error "FORBIDDEN" (o_or reason "Capability not authorized.") (uri_details c))
        else
          let detail := str_get params "detail" "entrypoint" in
          let file_ref := jget "fileRef" params in
          let! extra := (if smem detail ["entrypoint"; "full"] then verified_content p c detail file_ref else ret (inr [])) in
          match extra with
          | inl refusal => ret refusal
          | inr extra =>
              let! _ := audit "cap.load" p [("uri", JStr (c_uri c)); ("detail", JStr detail); ("fileRef", file_ref)] in
              ret (ok_result ("Loaded " +:+ c_uri c +:+ " (" +:+ detail +:+ ").") (to_record c false true ++ extra))
          end
    end.

Definition cap_list (params : dict) (p : Principal) : Op dict :=
  let! page_size := lift (py_int (py_or (jget "pageSize" params) (JNum 50))) in
  let! data := list_capabilities p (jget "type" params) (jget "plugin" params) (jget "cursor" params) page_size in
  let count := match jget "items" data with JArr l => Z.of_nat (length l) | _ => 0%Z end in
  let! _ := audit "cap.list" p [("type", jget "type" params); ("plugin", jget "plugin" params); ("count", JNum count)] in
  ret (ok_result ("Listed " +:+ str_of_Z count +:+ " capability record(s).") data).

Definition cap_describe (params : dict) (p : Principal) : Op dict :=
  let! cap := resolve_capability params in
  match cap with
  | None => ret not_found
  | Some c =>
      let! (allowed, reason) := can_load c p "load" true in
      let stub := negb allowed in
      let! _ := audit "cap.describe" p [("uri", JStr (c_uri c)); ("stub", JBool stub)] in
      ret (ok_result ("Described " +:+ c_uri c +:+ ".") (to_record c stub allowed ++ (if stub then [("authorization", jopt reason)] else [])))
  end.
End Serving.
