(* ===== verification/ServingProps.v ===== *)
(** * Theorems on the serving of capabilities

    The reader of files against its specification; what a served capability
    proves and what a refusal discloses; the pages of the listing; and what the
    reading tools leave in the registry. *)

From Stdlib Require Import ZArith Ascii String Lia.
From stdpp Require Import base option list strings gmap.
From S2P Require Import Prelude Sha256 PyStr Json JsonCodec Dicts Clock Db Models AccessControl AccessSpec AccessProps Catalog Superadmin Gates Signing SourceGates CapGuardPolicy InstallGuards Manifest Drafts DraftProps Approvals AuthorityKeys Serving.
Local Open Scope string_scope.
Local Open Scope list_scope.

#[local] Opaque sha256_hex startswith.

(** ** Bounded reads *)
Definition slen (s : string) : Z := Z.of_nat (String.length s).

Lemma slen_cons c s : slen (String c s) = (slen s + 1)%Z.
Proof. unfold slen. cbn [String.length]. lia. Qed.
Lemma slen_nonneg s : (0 <= slen s)%Z.
Proof. unfold slen. lia. Qed.

Lemma read_upto_none n s : (n <= 0)%Z -> read_upto n s = "".
Proof. intros Hn. destruct s; [done|]. cbn. by destruct (Z.leb_spec n 0); [|lia]. Qed.
Lemma slen_read_upto n s : (0 <= n)%Z -> slen (read_upto n s) = Z.min n (slen s).
Proof.
  revert n. induction s as [|c s IH]; intros n Hn; [unfold slen; cbn; lia|]. cbn. rewrite slen_cons. pose proof (slen_nonneg s).
  destruct (Z.leb_spec n 0); [unfold slen; cbn; lia|]. rewrite slen_cons, IH; lia.
Qed.
Lemma read_upto_app n a b : (0 <= n)%Z -> read_upto n (a +:+ b) = read_upto n a +:+ read_upto (Z.max 0 (n - slen (read_upto n a))) b.
Proof.
  revert n. induction a as [|c a IH]; intros n Hn.
  - change (read_upto n b = read_upto (Z.max 0 (n - slen "")) b). f_equal. change (slen "") with 0%Z. lia.
  - change (String c a +:+ b) with (String c (a +:+ b)). cbn. destruct (Z.leb_spec n 0) as [Hz|Hp].
    + symmetry. apply read_upto_none. change (slen "") with 0%Z. lia.
    + rewrite IH by lia. rewrite slen_cons. change (String c ?x +:+ ?y) with (String c (x +:+ y)). do 3 f_equal. lia.
Qed.
Lemma read_split n s : read_upto n s +:+ read_past n s = s.
Proof.
  revert n. induction s as [|c s IH]; intros n; [done|]. cbn. destruct (Z.leb n 0); [done|].
  change (String c (read_upto (n - 1) s +:+ read_past (n - 1) s) = String c s). by rewrite IH.
Qed.
Lemma read_past_shorter n s : (0 < n)%Z -> s <> "" -> (String.length (read_past n s) < String.length s)%nat.
Proof.
  intros Hn. destruct s as [|c s]; [done|]. intros _. cbn. destruct (Z.leb_spec n 0); [lia|].
  generalize (n - 1)%Z. clear. induction s as [|c s IH]; intros n; cbn; [lia|]. destruct (Z.leb n 0); cbn; [lia|]. specialize (IH (n - 1)%Z). lia.
Qed.

(** The capture of some bytes: their first [limit], and whether there are more. *)
Definition captured_of (limit : Z) (s : string) : Capture := mkCapture s (read_upto limit s) (Z.ltb limit (slen s)).

Lemma capture_step_of limit s chunk : (0 <= limit)%Z -> capture_step limit (captured_of limit s) chunk = captured_of limit (s +:+ chunk).
Proof.
  intros Hl. unfold capture_step, captured_of. cbn. fold (slen (read_upto limit s)) (slen chunk). f_equal.
  - by rewrite read_upto_app.
  - rewrite slen_read_upto by done. unfold slen at 4. rewrite length_sapp, Nat2Z.inj_add. fold (slen s) (slen chunk).
    pose proof (slen_nonneg s). pose proof (slen_nonneg chunk).
    destruct (Z.ltb_spec limit (slen s)), (Z.ltb_spec limit (slen s + slen chunk)), (Z.ltb_spec (Z.max 0 (limit - Z.min limit (slen s))) (slen chunk)); cbn; lia.
Qed.
Lemma capture_chunks limit fuel s done_ : (0 <= limit)%Z -> (String.length s <= fuel)%nat ->
  fold_left (capture_step limit) (chunks fuel s) (captured_of limit done_) = captured_of limit (done_ +:+ s).
Proof.
  intros Hl. revert s done_. induction fuel as [|fuel IH]; intros s d Hs.
  - destruct s; [|cbn in Hs; lia]. cbn. by rewrite app_nil_r.
  - destruct s as [|c s']; [cbn; by rewrite app_nil_r|]. cbn [chunks]. set (s := String c s') in *.
    cbn [fold_left]. rewrite capture_step_of by done.
    assert (String.length (read_past CHUNK s) < String.length s)%nat as Hlt by (apply read_past_shorter; [unfold CHUNK; lia | done]).
    rewrite IH by lia. by rewrite app_assoc, read_split.
Qed.

Section Theorems.
Context `{!Runtime, !Machine, !Host, !AuthorityHost}.

Definition view_limit (detail : string) : Z := if detail =s "full" then 400000 else 80000.
(** The text of some bytes that a reader is shown. *)
Definition view (detail data : string) : string :=
  decode_replace (read_upto (view_limit detail) data) +:+ (if Z.ltb (view_limit detail) (slen data) then truncation_notice else "").

(** The reader in chunks is the sum of the whole file and the view of its
    beginning, whatever the size of the file. *)
Theorem hash_and_read_exact target detail w :
  hash_and_read_content target detail w =
    match read_bytes (w_files w) target with
    | Ok data => (Ok ("sha256:" +:+ sha256_hex data, view detail data), w)
    | Raise e => (Raise e, w)
    end.
Proof.
  unfold hash_and_read_content, bind, gets, lift. destruct (read_bytes (w_files w) target) as [data|e]; [|done].
  change (if detail =s "full" then 400000%Z else 80000%Z) with (view_limit detail).
  assert (0 <= view_limit detail)%Z as Hl by (unfold view_limit; destruct (detail =s "full"); lia).
  pose proof (capture_chunks (view_limit detail) (String.length data) data "" Hl ltac:(lia)) as E.
  replace (captured_of (view_limit detail) "") with (mkCapture "" "" false) in E by (unfold captured_of, slen; cbn; f_equal; symmetry; apply Z.ltb_ge; lia).
  rewrite E. unfold ret, captured_of, view. cbn. destruct (Z.ltb _ _); [done|]. by rewrite app_nil_r.
Qed.

(** ** Frames *)

(** The audit trail writes files only. *)
Lemma append_off_files path text : keeps off_files (append_text path text).
Proof.
  intros w. unfold append_text, bind, file_at, gets. destruct (w_files w !! resolve_path path) as [n|]; [|apply write_text_off_files].
  destruct (fn_kind n); apply write_text_off_files.
Qed.
Lemma audit_off_files event p payload : keeps off_files (audit event p payload).
Proof.
  unfold keeps, audit. apply preserves_bind; [exact _ | apply mkdir_off_files | intros []].
  apply preserves_bind; [exact _ | by intros w | intros now]. apply append_off_files.
Qed.

(** A lookup, a check of access: what they compute. *)
Definition resolved (d : DB) (params : dict) : outcome (option Capability) :=
  let identifier := py_or (jget "uri" params) (jget "name" params) in
  if py_truthy identifier then get_capability d (py_str identifier) else Ok None.
Lemma resolve_run params w : resolve_capability params w = (resolved (w_db w) params, w).
Proof. unfold resolve_capability, resolved. by destruct (py_truthy _). Qed.
Lemma resolved_served d params c : resolved d params = Ok (Some c) -> _capguard_is_held d c = false.
Proof.
  unfold resolved, get_capability. destruct (py_truthy _); [|done]. destruct (capability_row_for d _) as [row|]; [|done].
  destruct (capability_from_row row) as [cap|e]; [|done]. cbn [obind]. destruct (_capguard_is_held d cap) eqn:E; [done|]. by intros [= <-].
Qed.
Lemma can_load_run c p right audit w : coherent w ->
  exists w1, can_load c p right audit w = (access (w_db w) (utc_text (w_clock w)) p right (Some c) None, w1) /\ undecided w1 = undecided w /\ coherent w1.
Proof.
  intros Hw. destruct (evaluate_access_spec p right (Some c) None audit w Hw) as [E (_ & _ & _ & Hc)].
  pose proof (evaluate_undecided p right (Some c) None audit w) as Hu. unfold can_load.
  destruct (evaluate_access p right (Some c) None audit w) as [o w1]. exists w1. cbn in *. split; [congruence|]. by split; [|apply Hc].
Qed.
Lemma access_reason d now p right c b o : access d now p right c None = Ok (b, o) -> b = true -> o = None.
Proof. intros E ->. by apply access_allowed in E as (_ & _ & -> & _). Qed.

(** ** What is served *)

(** The sums recorded for the files of a capability. *)
Definition recorded_sum (c : Capability) (h : string) : Prop :=
  h = c_content_hash c \/ exists d hashes ref, as_object (c_metadata c) = Ok d /\ py_or (jget "fileHashes" d) (JObj []) = JObj hashes /\ jget ref hashes = JStr h.
(** A file of the package, below its root when links are followed, whose bytes
    have a recorded sum. *)
Definition package_file (fs : gmap string FileNode) (c : Capability) (target : list string) (data : string) : Prop :=
  exists root, _normalized_root cwd fs (c_package_path c) = Ok root /\ root `prefix_of` target /\ is_file fs target = true /\
    read_bytes fs target = Ok data /\ recorded_sum c ("sha256:" +:+ sha256_hex data).

Lemma safe_target_inv package ref w o w' : safe_file_target package ref w = (o, w') ->
  w' = w /\ forall target, o = Ok (Some target) ->
    exists root, _normalized_root cwd (w_files w) package = Ok root /\ root `prefix_of` target /\ is_file (w_files w) target = true.
Proof.
  unfold safe_file_target, bind, gets, lift. destruct (_normalized_root cwd (w_files w) package) as [root|e]; [|by intros [= <- <-]].
  destruct (resolve_parts (w_files w) _) as [target|e]; [|by intros [= <- <-]]. intros [= <- <-]. split; [done|].
  intros t [= E]. destruct (contains_path root target && _) eqn:Eb; [|done]. injection E as <-.
  apply andb_true_iff in Eb as [Hc%bool_decide_eq_true Hf]. by exists root.
Qed.
Lemma content_hash_inv c target ref w o w' : content_hash_for_target c target ref w = (o, w') ->
  w' = w /\ forall h, o = Ok (Some h) -> recorded_sum c h.
Proof.
  unfold content_hash_for_target, bind at 1, gets. unfold bind at 1, lift at 1.
  destruct (resolve_parts _ _) as [source|e]; [|by intros [= <- <-]].
  destruct (_ || _ || _); [intros [= <- <-]; split; [done|]; intros h [= <-]; by left|].
  unfold bind, lift, metadata_get. destruct (as_object (c_metadata c)) as [d|e] eqn:Ed; [|by intros [= <- <-]]. cbn [obind].
  intros [= <- <-]. split; [done|]. intros h E. right. exists d.
  destruct (py_or _ _) as [| | | | | |hashes] eqn:Eh; try done. destruct ref as [ref|]; [|done].
  destruct (jget ref hashes) as [| | | |x| |] eqn:Er; try done. destruct (startswith x "sha256:"); [|done]. injection E as ->.
  by exists hashes, ref.
Qed.

Definition file_part (detail : string) (target : list string) (data : string) : dict :=
  [("loadedFile", JStr (path_text target)); ("content", JStr (view detail data))].
(** The shapes of a refusal: no details, the scope, or the address. *)
Definition refusal_of (uri : option string) (res : dict) : Prop :=
  exists code message details, res = error code message details /\
    (details = [] \/ (exists scope, details = [("requiredScope", JStr scope)]) \/ (exists u, uri = Some u /\ details = [("uri", JStr u)])).

Lemma verified_content_inv p c detail ref w o w' : verified_content p c detail ref w = (o, w') ->
  off_files w' = off_files w /\
  match o with
  | Ok (inl res) => refusal_of (Some (c_uri c)) res
  | Ok (inr extra) => w' = w /\ (c_source_kind c =s "system_capability") = false /\
      exists target data, package_file (w_files w) c target data /\ extra = file_part detail target data
  | Raise _ => True
  end.
Proof.
  assert (forall code m, refusal_of (Some (c_uri c)) (error code m (uri_details c))) as Hre
    by (intros code m; exists code, m, (uri_details c); split; [done|]; right; right; by exists (c_uri c)).
  unfold verified_content. destruct (c_source_kind c =s "system_capability"); [by intros [= <- <-]|].
  unfold bind at 1. destruct (safe_file_target _ _ w) as [o1 w1] eqn:E1. apply safe_target_inv in E1 as [-> Ht].
  destruct o1 as [[target|]|e]; [| |by intros [= <- <-]].
  2: { intros [= <- <-]. split; [done|]. eexists _, _, []. split; [reflexivity | by left]. }
  destruct (Ht _ eq_refl) as (root & Hroot & Hpre & Hfile). unfold bind at 1.
  destruct (content_hash_for_target c target _ w) as [o2 w2] eqn:E2. apply content_hash_inv in E2 as [-> Hh].
  destruct o2 as [[expected|]|e]; [|by intros [= <- <-]|by intros [= <- <-]].
  unfold bind at 1. rewrite hash_and_read_exact. destruct (read_bytes (w_files w) target) as [data|e] eqn:Ed; [|by intros [= <- <-]].
  unfold bind at 1, lift, hmac_hash_equal. destruct (_ && _); [|by intros [= <- <-]].
  destruct (String.eqb_spec ("sha256:" +:+ sha256_hex data) expected) as [He|Hne].
  - intros [= <- <-]. split; [done|]. split; [done|]. split; [done|]. exists target, data. split; [|done].
    exists root. split_and!; try done. rewrite He. by apply Hh.
  - unfold bind. pose proof (audit_off_files "cap.load.tamper_denied" p
      [("uri", JStr (c_uri c)); ("expectedHash", JStr expected); ("actualHash", JStr ("sha256:" +:+ sha256_hex data))] w) as Hk.
    destruct (audit _ _ _ w) as [[[]|e] w3]; intros [= <- <-]; (split; [exact Hk|]); [apply Hre | done].
Qed.

(** What cap.load adds to the record. *)
Definition loaded_part (w : World) (params : dict) (c : Capability) (extra : dict) : Prop :=
  let detail := str_get params "detail" "entrypoint" in
  if smem detail ["entrypoint"; "full"]
  then (c_source_kind c =s "system_capability") = false /\
       exists target data, package_file (w_files w) c target data /\ extra = file_part detail target data
  else extra = [].
(** The principal may load the capability, which is not under quarantine. *)
Definition may_read (w : World) (params : dict) (p : Principal) (c : Capability) : Prop :=
  resolved (w_db w) params = Ok (Some c) /\ _capguard_is_held (w_db w) c = false /\
  access (w_db w) (utc_text (w_clock w)) p "load" (Some c) None = Ok (true, None).

(** What cap.load serves is verified, and what it refuses says nothing.  Its
    answer is either the record of a capability that is not under quarantine and
    that the principal may load, with, if content was asked for, a file below
    the root of its package whose bytes have a recorded SHA-256 sum, shown up to
    the limit of the view; or an error whose details are at most the missing
    scope or the address of the capability that was named. *)
Theorem load_serves_verified params p w res w' : coherent w -> cap_load params p w = (Ok res, w') ->
  (exists c extra, fst (require_scope p "cap:load") = true /\ may_read w params p c /\ loaded_part w params c extra /\
     jget "structuredContent" res = JObj (to_record c false true ++ extra) /\ jget "isError" res = JBool false) \/
  (exists c, refusal_of (c_uri <$> c) res /\ (forall c', c = Some c' -> resolved (w_db w) params = Ok (Some c'))).
Proof.
  intros Hw. unfold cap_load. destruct (require_scope p "cap:load") as [ok reason] eqn:Es. cbn [fst]. destruct ok; cbn [negb].
  2: { intros [= <- <-]. right. exists None. split; [|done]. eexists _, _, _. split; [reflexivity|]. right. left. by eexists. }
  unfold bind at 1. rewrite resolve_run. destruct (resolved (w_db w) params) as [[c|]|e] eqn:Er; [| |done].
  2: { intros [= <- <-]. right. exists None. split; [|done]. eexists _, _, []. split; [reflexivity | by left]. }
  assert (forall r, refusal_of (Some (c_uri c)) r -> exists o, refusal_of (c_uri <$> o) r /\ forall c', o = Some c' -> Ok (Some c) = Ok (Some c')) as Href.
  { intros r Hr. exists (Some c). split; [exact Hr | by intros c' [= ->]]. }
  unfold bind at 1. destruct (can_load_run c p "load" true w Hw) as (w1 & -> & Hu & _).
  destruct (access _ _ p "load" (Some c) None) as [[b o]|e] eqn:Ea; [|done]. destruct b; cbn [negb].
  - cbv zeta. set (detail := str_get params "detail" "entrypoint"). set (m := if smem detail ["entrypoint"; "full"] then verified_content p c detail (jget "fileRef" params) else ret (inr [])).
    assert (w_files w1 = w_files w) as Hf by exact (f_equal snd Hu). unfold bind at 1.
    destruct (m w1) as [[[refusal|extra]|e] w2] eqn:E2; [| |done]; subst m.
    + intros [= <- <-]. right. apply Href. destruct (smem detail _); [|done]. by apply verified_content_inv in E2 as [_ Hr].
    + intros E. left. exists c, extra. split; [done|]. split.
      { split; [done|]. split; [by eapply resolved_served|]. by rewrite (access_reason _ _ _ _ _ _ _ Ea eq_refl) in Ea. }
      split.
      { unfold loaded_part. fold detail. destruct (smem detail _); [|by injection E2 as <- _].
        apply verified_content_inv in E2 as (_ & -> & Hk & target & data & Hp & He). rewrite Hf in Hp. split; [done|]. by exists target, data. }
      apply bind_ok_inv in E as (? & w3 & _ & [= <- <-]). done.
  - intros E. right. apply Href. apply bind_ok_inv in E as (? & w2 & _ & [= <- <-]).
    eexists _, _, _. split; [reflexivity|]. right. right. by eexists.
Qed.

(** ** Descriptions *)

(** cap.describe shows the paths of a capability only to who may load it; to
    others its description is replaced. *)
Theorem description_guarded params p w res w' : coherent w -> cap_describe params p w = (Ok res, w') ->
  (resolved (w_db w) params = Ok None /\ res = not_found) \/
  exists c allowed reason, resolved (w_db w) params = Ok (Some c) /\ _capguard_is_held (w_db w) c = false /\
    access (w_db w) (utc_text (w_clock w)) p "load" (Some c) None = Ok (allowed, reason) /\
    jget "structuredContent" res = JObj (to_record c (negb allowed) allowed ++ (if allowed then [] else [("authorization", jopt reason)])) /\
    (allowed = false -> dget "sourcePath" (to_record c true allowed) = None /\ dget "packagePath" (to_record c true allowed) = None /\
                        dget "entrypoint" (to_record c true allowed) = None /\
                        jget "description" (to_record c true allowed) = JStr "Capability exists but requires authorization to load.").
Proof.
  intros Hw. unfold cap_describe, bind at 1. rewrite resolve_run. destruct (resolved (w_db w) params) as [[c|]|e] eqn:Er; [| |done].
  2: { intros [= <- <-]. by left. }
  unfold bind at 1. destruct (can_load_run c p "load" true w Hw) as (w1 & -> & _ & _).
  destruct (access _ _ p "load" (Some c) None) as [[b o]|e] eqn:Ea; [|done]. cbv zeta. intros E. right.
  apply bind_ok_inv in E as (? & w2 & _ & [= <- <-]). exists c, b, o. split; [done|]. split; [by eapply resolved_served|].
  split; [exact Ea|]. split; [by destruct b|]. by intros ->.
Qed.

(** ** The listing *)

(** What is shown of a row, as a function of the database and the time. *)
Definition may_load (d : DB) (now : string) (p : Principal) (c : Capability) : outcome bool :=
  let? (allowed, _) := access d now p "load" (Some c) None in Ok allowed.
Definition discovers (d : DB) (now : string) (p : Principal) (c : Capability) : outcome (bool * bool) :=
  let? hidden := (if c_discovery_mode c =s "hidden" then let? b := may_load d now p c in Ok (negb b) else Ok false) in
  if hidden : bool then Ok (false, false)
  else let? b := may_load d now p c in
       Ok (if b then (true, false) else if c_discovery_mode c =s "locked" then (true, true) else (false, false)).
Definition shown_item (d : DB) (now : string) (p : Principal) (row : CapRow) : outcome (option dict) :=
  let? c := capability_from_row row in
  if _capguard_is_held d c then Ok None
  else let? (visible, locked) := discovers d now p c in Ok (if visible then Some (to_record c locked false) else None).
Fixpoint shown (d : DB) (now : string) (p : Principal) (rows : list CapRow) : outcome (list dict) :=
  match rows with
  | [] => Ok []
  | row :: rows' => let? item := shown_item d now p row in
                    let? items := shown d now p rows' in
                    Ok (match item with Some r => r :: items | None => items end)
  end.

Lemma may_load_computes c p {B} (k : bool -> Op B) g :
  (forall b, computes (k b) (g b)) ->
  computes (let! (allowed, _) := can_load c p "load" false in k allowed) (fun d now => let? b := may_load d now p c in g b d now).
Proof.
  intros Hk. eapply computes_ext; [apply (computes_bind _ _ _ (fun r : bool * option string => g r.1) (evaluate_unaudited_computes p "load" (Some c) None))|].
  - intros [b o]. apply (Hk b).
  - intros d now. unfold may_load. by destruct (access d now p "load" (Some c) None) as [[b o]|e].
Qed.
Lemma discover_computes c p : computes (can_discover c p false) (fun d now => discovers d now p c).
Proof.
  unfold can_discover, discovers. eapply computes_bind.
  - apply computes_if; [|apply computes_ret]. apply may_load_computes. intros b. apply computes_ret.
  - intros []; [apply computes_ret|]. apply may_load_computes. intros b. apply computes_ret.
Qed.
Lemma listed_item_computes p row : computes (listed_item p row) (fun d now => shown_item d now p row).
Proof.
  unfold listed_item, shown_item. apply computes_bind; [apply computes_lift | intros c].
  eapply computes_ext.
  - apply computes_bind; [apply (computes_query (fun d => _capguard_is_held d c))|]. intros held. apply computes_if; [apply computes_ret|].
    apply (computes_bind _ _ _ (fun (r : bool * bool) _ _ => Ok (if r.1 then Some (to_record c r.2 false) else None)) (discover_computes c p)).
    intros [visible locked]. apply computes_ret.
  - intros d now. cbn [obind]. destruct (_capguard_is_held d c); [done|]. by destruct (discovers d now p c) as [[visible locked]|e].
Qed.
Lemma listed_items_computes p rows : computes (listed_items p rows) (fun d now => shown d now p rows).
Proof.
  induction rows as [|row rows IH]; cbn [listed_items shown]; [apply computes_ret|].
  apply computes_bind; [apply listed_item_computes | intros item]. apply computes_bind; [exact IH | intros items]. apply computes_ret.
Qed.
Lemma shown_app d now p a b : shown d now p (a ++ b) = let? x := shown d now p a in let? y := shown d now p b in Ok (x ++ y).
Proof.
  induction a as [|row a IH]; cbn [shown app]; [by destruct (shown d now p b)|].
  destruct (shown_item d now p row) as [item|e]; [|done]. cbn [obind]. rewrite IH.
  destruct (shown d now p a) as [x|e]; [|done]. cbn [obind]. destruct (shown d now p b); [|done]. by destruct item.
Qed.

(** A client that follows the cursors: [fuel] pages at most. *)
Fixpoint browse (fuel : nat) (p : Principal) (type plugin cursor : json) (page_size : Z) : Op (list json) :=
  match fuel with
  | O => raise (OtherError "RecursionError: more pages")
  | S fuel' =>
      let! data := list_capabilities p type plugin cursor page_size in
      let items := match jget "items" data with JArr l => l | _ => [] end in
      match jget "nextCursor" data with
      | JNull => ret items
      | next => let! rest := browse fuel' p type plugin next page_size in ret (items ++ rest)
      end
  end.

Lemma strip_number n : strip (str_of_Z n) = str_of_Z n.
Proof.
  assert (sall (fun c => negb (is_space c)) (str_of_Z n) = true) as Hs.
  { eapply sall_impl; [|apply number_chars]. intros [[] [] [] [] [] [] [] []]; vm_compute; done. }
  unfold strip, strip_by. pose proof (lstrip_by_app is_space "" (str_of_Z n) eq_refl Hs) as El. change ("" +:+ str_of_Z n) with (str_of_Z n) in El. rewrite El.
  pose proof (rstrip_by_app is_space (str_of_Z n) "" Hs eq_refl) as E. by rewrite app_nil_r in E.
Qed.
Lemma cursor_read n : py_int (py_or (JStr (str_of_Z n)) (JStr "0")) = Ok n.
Proof.
  unfold py_or. cbn [py_truthy]. destruct (truthy (str_of_Z n)) eqn:E.
  - unfold py_int. by rewrite strip_number, Z_of_str_of_Z.
  - exfalso. destruct (str_of_Z_shape n) as (c & s & [Hs|Hs] & _); rewrite Hs in E; done.
Qed.

Section Pages.
Variables (p : Principal) (type plugin : json) (t x : option string) (page_size : Z).
Hypothesis filters : filter_value type = Ok t /\ filter_value plugin = Ok x.
Hypothesis size : (1 <= page_size <= 100)%Z.

(** The page at an offset. *)
Lemma page_run cursor o w : coherent w -> py_int (py_or cursor (JStr "0")) = Ok o ->
  let rest := drop (Z.to_nat o) (listed_rows (w_db w) t x) in
  exists w1, cache_step w w1 /\ list_capabilities p type plugin cursor page_size w =
    (let? items := shown (w_db w) (utc_text (w_clock w)) p (take (Z.to_nat page_size) rest) in
     Ok [("items", JArr (JObj <$> items));
         ("nextCursor", if (Z.to_nat page_size <? length rest)%nat then JStr (str_of_Z (o + page_size)) else JNull);
         ("pageSize", JNum page_size)], w1).
Proof.
  intros Hw Ho rest. destruct filters as [Ft Fx]. unfold list_capabilities. replace (Z.min (Z.max page_size 1) 100) with page_size by lia.
  unfold bind at 1, lift at 1. rewrite Ho. unfold bind at 1, lift at 1. rewrite Ft. unfold bind at 1, lift at 1. rewrite Fx.
  unfold bind at 1, query, gets. fold rest. replace (Z.to_nat (page_size + 1)) with (S (Z.to_nat page_size)) by lia.
  rewrite take_take, Nat.min_l by lia. unfold bind.
  destruct (listed_items_computes p (take (Z.to_nat page_size) rest) w Hw) as [E Hs].
  destruct (listed_items p (take (Z.to_nat page_size) rest) w) as [out w1]. cbn in E, Hs. exists w1. split; [done|]. rewrite <-E.
  destruct out as [items|e]; [|done]. unfold ret. cbn [obind]. do 5 f_equal. rewrite length_take.
  destruct (Nat.ltb_spec (Z.to_nat page_size) (length rest)), (Z.ltb_spec page_size (Z.of_nat (S (Z.to_nat page_size) `min` length rest))); try done; lia.
Qed.

Lemma browse_from fuel : forall cursor o w, coherent w -> py_int (py_or cursor (JStr "0")) = Ok o -> (0 <= o)%Z ->
  (length (drop (Z.to_nat o) (listed_rows (w_db w) t x)) < fuel)%nat ->
  exists w1, cache_step w w1 /\ browse fuel p type plugin cursor page_size w =
    (let? items := shown (w_db w) (utc_text (w_clock w)) p (drop (Z.to_nat o) (listed_rows (w_db w) t x)) in Ok (JObj <$> items), w1).
Proof.
  induction fuel as [|fuel IH]; intros cursor o w Hw Ho Hpos Hfuel; [lia|]. cbn [browse]. unfold bind at 1.
  destruct (page_run cursor o w Hw Ho) as (w1 & Hs & ->). set (rest := drop (Z.to_nat o) (listed_rows (w_db w) t x)) in *.
  pose proof (shown_app (w_db w) (utc_text (w_clock w)) p (take (Z.to_nat page_size) rest) (drop (Z.to_nat page_size) rest)) as Hall.
  rewrite take_drop in Hall. rewrite Hall. clear Hall.
  destruct (shown _ _ p (take (Z.to_nat page_size) rest)) as [items|e]; [|exists w1; by split]. cbn [obind].
  change (jget "items" _) with (JArr (JObj <$> items)). cbv iota beta zeta.
  change (jget "nextCursor" _) with (if (Z.to_nat page_size <? length rest)%nat then JStr (str_of_Z (o + page_size)) else JNull).
  destruct (Nat.ltb_spec (Z.to_nat page_size) (length rest)) as [Hmore|Hend].
  - pose proof Hs as (Hd & _ & Hc & _ & Hco).
    assert (drop (Z.to_nat (o + page_size)) (listed_rows (w_db w) t x) = drop (Z.to_nat page_size) rest) as Hdrop.
    { unfold rest. rewrite drop_drop. f_equal. lia. }
    destruct (IH (JStr (str_of_Z (o + page_size))) (o + page_size)%Z w1 (Hco Hw) (cursor_read _) ltac:(lia)) as (w2 & Hs2 & E2).
    { rewrite Hd, Hdrop, length_drop. lia. }
    rewrite Hd, Hc, Hdrop in E2. exists w2. split; [by etrans|]. unfold bind. rewrite E2.
    destruct (shown _ _ p (drop _ rest)) as [more|e]; [|done]. cbn [obind]. unfold ret. by rewrite fmap_app.
  - rewrite (drop_ge rest) by lia. cbn [shown obind]. exists w1. split; [done|]. unfold ret. by rewrite List.app_nil_r.
Qed.
End Pages.

(** The pages of the listing are the listing.  A client that follows the
    cursors from the first page gets, whatever the size of the pages, exactly
    the records of the rows that are not held and that the principal may see,
    each once and in the order of type, plugin and name, after at most one page
    per row and one more; the listing writes nothing. *)
Theorem listing_complete p type plugin t x page_size fuel w :
  coherent w -> filter_value type = Ok t -> filter_value plugin = Ok x -> (1 <= page_size <= 100)%Z ->
  (length (listed_rows (w_db w) t x) < fuel)%nat ->
  exists w1, cache_step w w1 /\ browse fuel p type plugin JNull page_size w =
    (let? items := shown (w_db w) (utc_text (w_clock w)) p (listed_rows (w_db w) t x) in Ok (JObj <$> items), w1).
Proof. intros Hw Ft Fx Hn Hf. by apply (browse_from p type plugin t x page_size (conj Ft Fx) Hn fuel JNull 0 w Hw eq_refl). Qed.

(** ** What the reading tools leave *)
Definition reading_tools : list (dict -> Principal -> Op dict) := [cap_load; cap_describe; cap_list].

Lemma verified_content_off_disk p c detail ref : keeps w_disk (verified_content p c detail ref).
Proof.
  intros w. destruct (verified_content p c detail ref w) as [o w'] eqn:E. apply verified_content_inv in E as [Hf _].
  exact (f_equal (fun u => u.1.1.2) Hf).
Qed.
Lemma audit_off_disk event p payload : keeps w_disk (audit event p payload).
Proof. intros w. exact (f_equal (fun u => u.1.1.2) (audit_off_files event p payload w)). Qed.
Lemma can_load_off_disk c p right b : keeps w_disk (can_load c p right b).
Proof. intros w. exact (f_equal (fun u => u.1.1.2) (evaluate_undecided p right (Some c) None b w)). Qed.
Lemma resolve_off_disk params : keeps w_disk (resolve_capability params).
Proof. intros w. by rewrite resolve_run. Qed.
Lemma listed_off_disk p rows : keeps w_disk (listed_items p rows).
Proof.
  unfold keeps. induction rows as [|row rows IH]; cbn [listed_items]; [by intros w|]. unfold listed_item, can_discover.
  solve_frame; try apply can_load_off_disk; try exact IH; by intros w.
Qed.

(** The reading tools commit nothing: after the rollback of the server the
    registry is what it was, so that no decision of theirs is on record. *)
Theorem read_decisions_lost tool params p w : tool ∈ reading_tools ->
  w_disk (tool params p w).2 = w_disk w /\ w_db (rollback_all (tool params p w).2).2 = w_disk w.
Proof.
  intros Ht. assert (keeps w_disk (tool params p)) as K.
  { apply elem_of_cons in Ht as [->|Ht].
    - unfold keeps, cap_load. destruct (require_scope p "cap:load") as [ok reason]. destruct (negb ok); [by intros w0|].
      apply preserves_bind; [exact _ | apply resolve_off_disk | intros [c|]; [|by intros w0]].
      apply preserves_bind; [exact _ | apply can_load_off_disk | intros [allowed why]]. destruct (negb allowed).
      { apply preserves_bind; [exact _ | apply audit_off_disk | by intros [] w0]. }
      cbv zeta. apply preserves_bind; [exact _ | | intros [refusal|extra]; [by intros w0|]].
      { destruct (smem _ _); [apply verified_content_off_disk | by intros w0]. }
      apply preserves_bind; [exact _ | apply audit_off_disk | by intros [] w0].
    - apply elem_of_cons in Ht as [->|Ht].
      + unfold keeps, cap_describe. apply preserves_bind; [exact _ | apply resolve_off_disk | intros [c|]; [|by intros w0]].
        apply preserves_bind; [exact _ | apply can_load_off_disk | intros [allowed why]]. cbv zeta.
        apply preserves_bind; [exact _ | apply audit_off_disk | by intros [] w0].
      + apply list_elem_of_singleton in Ht as ->. unfold keeps, cap_list, list_capabilities.
        solve_frame; try apply listed_off_disk; try apply audit_off_disk; by intros w0. }
  specialize (K w). split; [exact K|]. exact K.
Qed.

(** ** Texts for models *)
Theorem stripped_clean value : sall keeps_char (strip_control_sequences value) = true.
Proof.
  unfold strip_control_sequences. generalize (sub_out osc_rest (String.length (sub_out csi_rest (String.length value) value)) (sub_out csi_rest (String.length value) value)).
  intros s. unfold sall. induction s as [|c s IH]; [done|]. cbn [sfilter]. destruct (keeps_char c) eqn:E; [|exact IH]. cbn. by rewrite E.
Qed.
End Theorems.

(** ** Concrete inputs *)
Module ServingDemo.
#[export] Existing Instance Demo.runtime.
#[export] Existing Instance DraftDemo.host.
#[export] Existing Instance DraftDemo.machine.
#[export] Instance authority : AuthorityHost :=
  {| cwd := "/"; gethostname := "cpubox"; owned := fun _ => true; token_hex := fun _ _ => "0123456789abcdef";
     public_pem := fun raw => raw; load_public_pem := fun pem => Ok (Some pem) |}.

Definition address : string := "cap://org/asg/demo@1.0.0".
Definition row (sum : string) : CapRow := upd cp_visibility "public" (upd cp_content_hash sum (Demo.cap_row address)).
Definition at_link : gmap string FileNode :=
  {[ "/pkg/SKILL.md" := mkFileNode Regular 420 true "# Demo"; "/etc/secret" := mkFileNode Regular 420 true "secret";
     "/pkg/out" := mkFileNode Symlink 511 true "/etc/secret" ]}.
Definition world (sum : string) : World := upd w_files at_link (Demo.world (upd db_capabilities [row sum] empty_db)).
Definition reader : Principal :=
  mkPrincipal "alice@example.com" "asg" None None None None [] ["member"] ["cap:load"] true false false.
Definition ask (ref : json) : dict := [("uri", JStr address); ("fileRef", ref)].

Definition code_of (r : outcome dict * World) : json :=
  match fst r with
  | Ok res => match jget "structuredContent" res with
              | JObj d => match jget "error" d with JObj e => jget "code" e | _ => jget "content" d end
              | _ => JNull
              end
  | Raise _ => JBool false
  end.
(** The entrypoint is served; a file that changed, a link out of the package and
    a step up are not. *)
Lemma loads :
  code_of (cap_load (ask JNull) reader (world (content_sha "# Demo"))) = JStr "# Demo" /\
  code_of (cap_load (ask JNull) reader (world (content_sha "# Other"))) = JStr "CONTENT_HASH_MISMATCH" /\
  code_of (cap_load (ask (JStr "out")) reader (world (content_sha "secret"))) = JStr plain_code /\
  code_of (cap_load (ask (JStr "../etc/secret")) reader (world (content_sha "secret"))) = JStr plain_code /\
  code_of (cap_load (ask JNull) Demo.alice (world (content_sha "# Demo"))) = JStr "INSUFFICIENT_SCOPE".
Proof. vm_compute. split_and!; reflexivity. Qed.

(** A control character above 0x7E is kept. *)
Definition next_line : string := String (ascii_of_nat 194) (String (ascii_of_nat 133) "").
Lemma c1_kept : strip_control_sequences next_line = next_line /\ strip_control_sequences (String (ascii_of_nat 127) "") = String (ascii_of_nat 127) "".
Proof. vm_compute. split; reflexivity. Qed.
End ServingDemo.

Section Witnesses.
Import ServingDemo.

Lemma coherent_world sum : coherent (world sum).
Proof. intros t s v Hv. discriminate Hv. Defined.

Lemma load_serves_verified_witness :
  exists res w' c extra, cap_load (ask JNull) reader (world (content_sha "# Demo")) = (Ok res, w') /\
    may_read (world (content_sha "# Demo")) (ask JNull) reader c /\ loaded_part (world (content_sha "# Demo")) (ask JNull) c extra.
Proof.
  set (w := world (content_sha "# Demo")).
  assert (match (cap_load (ask JNull) reader w).1 with Ok res => jget "isError" res = JBool false | Raise _ => False end) as Hok by (vm_compute; exact eq_refl).
  destruct (cap_load (ask JNull) reader w) as [[res|e] w'] eqn:E; [|destruct Hok]. cbn [fst] in Hok.
  destruct (load_serves_verified _ _ _ _ _ (coherent_world _) E) as [(c & extra & _ & Hm & Hl & _)|(c & (code & m & d & -> & _) & _)]; [|discriminate Hok].
  exists res, w', c, extra. split; [exact eq_refl|]. split; [exact Hm | exact Hl].
Defined.

Lemma description_guarded_witness :
  exists res w', cap_describe (ask JNull) reader (world (content_sha "# Demo")) = (Ok res, w').
Proof.
  set (w := world (content_sha "# Demo")).
  assert (is_ok (cap_describe (ask JNull) reader w).1 = true) as Hok by (vm_compute; exact eq_refl).
  destruct (cap_describe (ask JNull) reader w) as [[res|e] w'] eqn:E; [|discriminate Hok].
  pose proof (description_guarded _ _ _ _ _ (coherent_world _) E). exists res, w'. exact eq_refl.
Defined.

Lemma listing_complete_witness :
  exists w1, cache_step (world "") w1 /\ (browse 2 reader JNull JNull JNull 1 (world "")).2 = w1.
Proof.
  assert (length (listed_rows (w_db (world "")) None None) < 2)%nat as Hf by (vm_compute; lia).
  destruct (listing_complete reader JNull JNull None None 1 2 (world "") (coherent_world _) eq_refl eq_refl ltac:(lia) Hf) as (w1 & Hs & E).
  exists w1. split; [exact Hs|]. rewrite E. exact eq_refl.
Defined.

Lemma read_decisions_lost_witness : w_db (rollback_all (cap_load (ask JNull) reader (world "")).2).2 = w_disk (world "").
Proof. apply (read_decisions_lost cap_load (ask JNull) reader (world "")). apply elem_of_cons. left. exact eq_refl. Defined.
End Witnesses.
