(* ===== verification/Bundles.v ===== *)
(** * Capability bundles ([router.py]): what a delegation is checked against

    A caller proposes a bundle of capabilities with a binding, a scope and a
    task; the authoritative node recomputes every fact of the proposal from the
    catalog and from the files, and signs a receipt for it.

    Patterns that ignore case do so on ASCII letters; spaces are ASCII spaces.
    Values are compared as Python compares them, floats by their lexemes. *)

From Stdlib Require Import ZArith Ascii String Lia.
From stdpp Require Import base option list strings gmap.
From S2P Require Import Prelude Sha256 PyStr Json JsonCodec Base64 Dicts Clock Regex Db Models AccessControl Catalog Gates Signing SourceGates CapGuardPolicy InstallGuards ReportReceipts Sessions Manifest Drafts AuthorityKeys IsoDates Serving.
Local Open Scope string_scope.
Local Open Scope list_scope.

#[local] Opaque sha256_hex.

(** ** Values *)

(** The number a value is equal to. *)
Definition whole (v : json) : option Z :=
  match v with
  | JNum n => Some n
  | JBool b => Some (if b then 1 else 0)%Z
  | JFloat x => match partition "."%char x with
                | Some (a, f) => if truthy f && sall (ceqb "0"%char) f then Z_of_str a else None
                | None => None
                end
  | _ => None
  end.
(** [a == b] *)
Fixpoint py_eq (a b : json) : bool :=
  match a, b with
  | JNull, JNull => true
  | JStr s, JStr t => s =s t
  | JArr l, JArr m =>
      (fix all2 (l m : list json) : bool :=
         match l, m with
         | [], [] => true
         | x :: l', y :: m' => py_eq x y && all2 l' m'
         | _, _ => false
         end) l m
  | JObj d, JObj e =>
      Nat.eqb (length d) (length e)
      && List.forallb (fun kv => match dget (fst kv) e with Some v => py_eq (snd kv) v | None => false end) d
  | JFloat x, JFloat y => (x =s y) || (match whole a, whole b with Some m, Some n => Z.eqb m n | _, _ => false end)
  | _, _ => match whole a, whole b with Some m, Some n => Z.eqb m n | _, _ => false end
  end.
Definition is_true (v : json) : bool := match v with JBool b => b | _ => false end.
Definition is_false (v : json) : bool := match v with JBool b => negb b | _ => false end.
Definition text_ok (v : json) (p : string -> bool) : bool := match v with JStr s => p s | _ => false end.
(** [set(d) == keys] *)
Definition same_keys (d : dict) (keys : list string) : bool :=
  forallb (fun k => smem k keys) d.*1 && forallb (fun k => smem k d.*1) keys.
Definition with_keys (v : json) (keys : list string) : option dict :=
  match v with JObj d => if same_keys d keys then Some d else None | _ => None end.
(** [len(s)] *)
Fixpoint char_len (s : string) : Z :=
  match s with "" => 0 | String c s' => if is_cont c then char_len s' else (1 + char_len s')%Z end.
Definition between_len (lo hi : Z) (s : string) : bool := Z.leb lo (char_len s) && Z.leb (char_len s) hi.

Definition _sha (v : json) : string := "sha256:" +:+ sha256_hex (canonical v).
Definition text_sha (s : string) : string := "sha256:" +:+ sha256_hex s.
(** [json.dumps(v, sort_keys=True, separators=(",", ":"))] *)
Definition compact (v : json) : string := json_dumps v.

Definition reject {A} (message : string) : outcome A := Raise (ValueError message).
Definition unless (b : bool) (message : string) : outcome unit := if b then Ok tt else reject message.

(** ** Patterns *)
Definition drive_prefix (s : string) : bool :=
  match s with String a (String b _) => is_alpha a && ceqb b ":"%char | _ => false end.
(** Exact relative POSIX paths; [PurePosixPath] drops empty parts and dots. *)
Definition scope_item (seen : list string) (v : json) : option string :=
  match v with
  | JStr item =>
      if negb (truthy item) || Z.ltb 4096 (char_len item) || negb (strip item =s item)
         || contains item (String (ascii_of_nat 0) "") || contains item (String backslash "") || drive_prefix item
      then None
      else if absolute item || negb (s_or (join "/" (parts item)) "." =s item) || smem ".." (parts item) || (item =s "**") || smem item seen
      then None
      else Some item
  | _ => None
  end.
Fixpoint scope_items (seen : list string) (l : list json) : bool :=
  match l with
  | [] => true
  | v :: l' => match scope_item seen v with Some item => scope_items (item :: seen) l' | None => false end
  end.
Definition _canonical_scope_files (v : json) : option json :=
  match v with
  | JArr l => if Nat.leb 1 (length l) && Nat.leb (length l) 256
              then if py_eq v (JArr [JStr "**"]) || scope_items [] l then Some v else None
              else None
  | _ => None
  end.

Definition bounded_words (ws : list string) : regex := rseq [RBoundary; ralt (lit <$> ws); RBoundary].
Definition IMPLEMENTATION_RE : regex :=
  bounded_words ["engineer"; "engineering"; "implement"; "develop"; "developer"; "build"; "coding"; "software"; "backend"; "frontend"].
Definition VERIFIER_RE : regex :=
  rseq [RBoundary; ralt (lit <$> ["verif"; "validat"; "test"; "review"; "audit"; "quality"; "qa"; "correctness"]); RStar (RChar word_char); RBoundary].
Definition SECURITY_RE : regex :=
  rseq [RBoundary;
        ralt ((lit <$> ["security"; "secure"; "threat"; "injection"; "sandbox"; "least privilege"]) ++ [rseq [lit "zero"; RChar (one_of " -"); lit "trust"]]);
        RBoundary].
Definition found (r : regex) (s : string) : bool := is_some (search r s).

(** [re.sub]: the replacement of the match at a position, and how much text is
    left after it; [fuel] is the length of the text, as a match is never empty. *)
Fixpoint sub_all (m : position -> option (string * nat)) (fuel : nat) (prev : option ascii) (s : string) : string :=
  match fuel, s with
  | S fuel', String c s' =>
      match m (prev, s) with
      | Some (replacement, rest) =>
          let used := (String.length s - rest)%nat in
          replacement +:+ sub_all m fuel' (String.get (used - 1) s) (sdrop used s)
      | None => String c (sub_all m fuel' (Some c) s')
      end
  | _, _ => s
  end.
Definition secret_word : regex :=
  ralt [rseq [lit "api"; ropt (RChar (one_of "_-")); lit "key"]; lit "token"; lit "password"; lit "secret"; lit "authorization"].
Definition secret_value : regex :=
  rseq [RStar space; RChar (one_of ":="); RStar space; rplus (RChar (fun c => negb (is_space c || one_of ",;" c)))].
Definition secret_at (x : position) : option (string * nat) :=
  run (RCat RBoundary secret_word) x (fun y =>
    run secret_value y (fun z =>
      Some (stake (String.length x.2 - String.length y.2) x.2 +:+ "=<redacted>", String.length z.2))).
Definition bearer_char : regex := RChar (fun c => is_alnum c || one_of "._~+/-" c).
Definition bearer_at (x : position) : option (string * nat) :=
  run (rseq ([RBoundary; lit "bearer"; rplus space] ++ repeat bearer_char 12 ++ [RStar bearer_char])) x
    (fun z => Some ("Bearer <redacted>", String.length z.2)).
Definition _sanitize_instructions (value : string) (limit : Z) : string :=
  let text := char_take (Z.max 0 limit) value in
  let text := sub_all secret_at (String.length text) None text in
  sub_all bearer_at (String.length text) None text.

(** The tools of the front matter. *)
Definition line_feed : regex := RChar (fun c => Nat.eqb (code c) 10).
Definition tools_head : regex := rseq [rseq (RChar <$> (ceqb <$> list_ascii_of_string "tools:")); RStar space; line_feed].
Definition tools_body : regex :=
  rplus (rseq [rplus space; RChar (ceqb "-"%char); rplus space; rplus dot; ropt line_feed]).
(** The group of the leftmost match that starts a line. *)
Fixpoint tools_from (prev : option ascii) (s : string) : option string :=
  let here :=
    if match prev with None => true | Some c => Nat.eqb (code c) 10 end
    then run tools_head (prev, s) (fun y => run tools_body y (fun z => Some (stake (String.length y.2 - String.length z.2) y.2)))
    else None in
  match here with
  | Some body => Some body
  | None => match s with "" => None | String c s' => tools_from (Some c) s' end
  end.
Definition quote_mark (c : ascii) : bool := Nat.eqb (code c) 34 || Nat.eqb (code c) 39.
Definition _frontmatter_tools (content : string) : list string :=
  if negb (startswith content "---") then []
  else
    let rest := sdrop 3 content in
    let front := match find rest (newline +:+ "---") with Some n => stake n rest | None => "" end in
    match tools_from None front with
    | None => []
    | Some body => omap (fun l => (fun ab => strip_by quote_mark (strip (snd ab))) <$> partition "-"%char l) (splitlines body)
    end.

Definition _capability_text (c : Capability) : outcome string :=
  let? category := text_item (py_or (c_category c) (JStr "")) in
  let? keywords := text_items (c_keywords c) in
  Ok (char_take 4000 (lower (join " " [c_name c; c_title c; c_description c; c_type c; category; join " " keywords]))).

(** [re.findall(r"[a-z0-9]+", s)] *)
Fixpoint tokens_from (current s : string) : list string :=
  match s with
  | "" => if truthy current then [current] else []
  | String c s' => if is_lower c || is_digit c then tokens_from (current +:+ String c "") s'
                   else if truthy current then current :: tokens_from "" s' else tokens_from "" s'
  end.
Definition tokens (s : string) : list string := tokens_from "" s.
Definition terms_of (objective : string) (common : list string) : list string :=
  List.filter (fun t => Nat.leb 4 (String.length t) && negb (smem t common)) (tokens (lower objective)).
Definition shared_terms (terms : list string) (text : string) : list string :=
  take 8 (sorted_strings (dedup (List.filter (fun t => smem t terms) (tokens text)))).
(** Why a capability is relevant to an objective. *)
Definition reasons_of (terms : list string) (security : bool) (text : string) : list string :=
  let shared := shared_terms terms text in
  (match shared with [] => [] | _ => ["task_terms:" +:+ join "," shared] end)
  ++ (if found IMPLEMENTATION_RE text then ["required_role:implementation"] else [])
  ++ (if found VERIFIER_RE text then ["required_role:verification"] else [])
  ++ (if security && found SECURITY_RE text then ["required_role:security"] else []).

Section Bundles.
Context `{!Runtime, !Machine, !Host, !AuthorityHost, !Secrets}.

Definition CAPMESH_RECEIPT_DOMAIN : string := "ASGCODE:capmesh_bundle_receipt.v1" +:+ String (ascii_of_nat 0) "".

(** ** The signing key of the authority *)
Definition env_path (name default : string) : string := getenv name default.
Definition authority_dir : string := path_join state_dir "authority".
Definition private_file : string := env_path "CAPMESH_AUTHORITY_SIGNING_KEY" (path_join authority_dir "capmesh-authority-ed25519.pem").
Definition public_file : string := env_path "ASGCODE_CAPMESH_AUTHORITY_PUBLIC_KEY" (path_join authority_dir "capmesh-authority-ed25519.pub.pem").
Definition record_file : string :=
  env_path "CAPMESH_AUTHORITY_TRUST_RECORD" (path_join (path_parent (expand_user public_file)) "capmesh-authority-trust.v1.json").
Definition _authority_signer : Op string :=
  let! _ := ensure_authority_keypair private_file public_file record_file None None in
  let path := path_text (absolute_path private_file) in
  let! node := file_at path in
  match node with
  | None => raise (OtherError ("FileNotFoundError: " +:+ os_error path))
  | Some n =>
      match fn_kind n with
      | Symlink => raise (OtherError ("OSError: " +:+ os_error path))
      | _ =>
          if negb (fn_readable n) then raise (PermissionError (os_error path))
          else if negb (is_regular n && owned path && Z.eqb (fn_mode n) mode_600)
          then raise (PermissionError "CapMesh authority signing key is not owner-controlled mode 0600")
          else
            let private_pem := read_upto 65537 (fn_content n) in
            if Nat.ltb (Z.to_nat 65536) (String.length private_pem) then raise (ValueError "CapMesh authority signing key is oversized")
            else
              let! key := lift (load_pem private_pem) in
              match key with
              | Some k => ret k
              | None => raise (OtherError "TypeError: CapMesh authority signing key is invalid")
              end
      end
  end.

(** ** Receipts *)
Definition seconds_of (w : World) : Z := (w_clock w / 1000000)%Z.
Definition unsigned_bundle (task_id workflow_id bundle_hash binding_hash : string) (issued : Z) (nonce key : string) : dict :=
  [("schema", JStr "capmesh_bundle_receipt.v1"); ("task_id", JStr task_id); ("workflow_id", JStr workflow_id);
   ("bundle_hash", JStr bundle_hash); ("binding_hash", JStr binding_hash); ("issued_at", JNum issued);
   ("expires_at", JNum (issued + 1800)); ("nonce", JStr nonce); ("key_id", JStr (AuthorityKeys.authority_key_id (ed_public key)))].
Definition bundle_text (receipt : dict) : string := CAPMESH_RECEIPT_DOMAIN +:+ canonical (JObj (without "signature" receipt)).
Definition _signed_bundle_receipt (task_id workflow_id bundle_hash binding_hash : string) : Op dict :=
  let! key := _authority_signer in
  let! issued := gets seconds_of in
  let! nonce := draw_token 24 in
  let unsigned := unsigned_bundle task_id workflow_id bundle_hash binding_hash issued nonce key in
  ret (unsigned ++ [("signature", JStr (signature_text (ed_sign key (CAPMESH_RECEIPT_DOMAIN +:+ canonical (JObj unsigned)))))]).

Definition BUNDLE_RECEIPT_KEYS : list string :=
  ["schema"; "task_id"; "workflow_id"; "bundle_hash"; "binding_hash"; "issued_at"; "expires_at"; "nonce"; "key_id"; "signature"].
Definition receipt_current (issued expires : option Z) (now : Z) : bool :=
  match issued, expires with
  | Some i, Some e => Z.ltb i e && Z.leb i (now + 30) && Z.ltb now e
  | _, _ => false
  end.
Definition receipt_signed (public : string) (receipt : dict) : bool :=
  let text := py_str (jget "signature" receipt) in
  match urlsafe_b64decode_loose (text +:+ padding text) with
  | Some signature => ed_verify public signature (bundle_text receipt)
  | None => false
  end.
Definition _verify_bundle_receipt (receipt : json) (task_id workflow_id bundle_hash binding_hash : string) : Op unit :=
  match with_keys receipt BUNDLE_RECEIPT_KEYS with
  | None => raise (ValueError "upstream CapMesh authority receipt is not canonical")
  | Some r =>
      let! now := gets seconds_of in
      let! issued := lift (instant (jget "issued_at" r)) in
      let! expires := lift (instant (jget "expires_at" r)) in
      if negb (is_text (jget "schema" r) "capmesh_bundle_receipt.v1" && is_text (jget "task_id" r) task_id
               && is_text (jget "workflow_id" r) workflow_id && is_text (jget "bundle_hash" r) bundle_hash
               && is_text (jget "binding_hash" r) binding_hash && receipt_current issued expires now
               && text_ok (jget "nonce" r) _NONCE_RE && _SIGNATURE_RE (str_get r "signature" ""))
      then raise (ValueError "upstream CapMesh authority receipt binding is invalid")
      else
        let! key := _authority_signer in
        let public := ed_public key in
        if negb (is_text (jget "key_id" r) (AuthorityKeys.authority_key_id public))
        then raise (ValueError "upstream CapMesh authority receipt key id is invalid")
        else if receipt_signed public r then ret tt
        else raise (ValueError "upstream CapMesh authority receipt signature is invalid")
  end.

(** ** The facts of a bundle *)
Definition _load_authoritative_content (c : Capability) : Op (string * string) :=
  let! target := safe_file_target (c_package_path c) (c_entrypoint c) in
  match target with
  | None => raise (ValueError "capability entrypoint is missing")
  | Some target =>
      let! (actual, content) := hash_and_read_content target "full" in
      let! same := lift (hmac_hash_equal actual (c_content_hash c)) in
      if same : bool then ret (path_text target, content)
      else raise (ValueError "capability catalog digest no longer matches content")
  end.

Definition BUNDLE_KEYS : list string := ["schema"; "bundle_id"; "task_shape_hash"; "created_at"; "trust_decision"; "capabilities"].
Definition ITEM_KEYS : list string :=
  ["uri"; "version"; "digest"; "lifecycle"; "approval"; "signature"; "provenance"; "risk_review"; "instructions_digest"; "tools";
   "agent_type"; "advisory_only"].
Definition bundle_id_ok (s : string) : bool := fullmatch "capb_" url_char 8 120 s.

(** The creation time: at most two minutes ahead and thirty minutes back. *)
Definition check_fresh (bundle : dict) (clock : Z) (prefix : string) : outcome unit :=
  match fromisoformat (replace_all (str_get bundle "created_at" "") "Z" "+00:00") with
  | None => reject (prefix +:+ "capability bundle creation time is invalid")
  | Some t =>
      match aware_instant t with
      | Some created => unless (Z.leb created (clock + 120000000) && Z.leb (clock - created) 1800000000) (prefix +:+ "capability bundle is stale or future-dated")
      | None => reject (prefix +:+ "capability bundle is stale or future-dated")
      end
  end.

(** The catalog's state of an item, and the caller's. *)
Definition catalog_agrees (c : Capability) (item : dict) : bool :=
  is_text (jget "version" item) (c_version c) && is_text (jget "digest" item) (c_content_hash c)
  && (c_lifecycle c =s "published") && is_text (jget "lifecycle" item) "published"
  && (c_approval_state c =s "approved") && is_text (jget "approval" item) "approved"
  && (c_signature_status c =s "verified") && is_text (jget "signature" item) "verified"
  && (c_provenance_status c =s "verified") && is_text (jget "provenance" item) "verified"
  && (c_risk_review_status c =s "approved") && is_text (jget "risk_review" item) "approved"
  && is_false (jget "advisory_only" item) && is_text (jget "agent_type" item) (c_name c).
Definition instructions_agree (content : string) (item : dict) : bool := is_text (jget "instructions_digest" item) (text_sha content).
Definition tools_agree (content : string) (item : dict) : bool := py_eq (jget "tools" item) (jstrs (_frontmatter_tools content)).

(** A capability of the bundle, with the path and the text of its file. *)
Record Resolved : Type := mkResolved { re_cap : Capability; re_source : string; re_content : string }.

Definition lookup_item (uri : string) : Op (option Capability) := let! o := query (fun d => get_capability d uri) in lift o.
Definition entitled (c : Capability) (p : Principal) (agent message : string) : Op unit :=
  let! (allowed, _) := can_load c p (if c_uri c =s agent then "delegate" else "load") true in
  if allowed : bool then ret tt else raise (PermissionError message).

Definition resolve_item (p : Principal) (agent : string) (seen : list string) (v : json) : Op (string * Resolved) :=
  match with_keys v ITEM_KEYS with
  | None => raise (ValueError "capability bundle item fields are not canonical")
  | Some item =>
      let uri := str_get item "uri" "" in
      let! found := lookup_item uri in
      match found with
      | None => raise (ValueError "capability bundle contains missing or duplicate URI")
      | Some c =>
          if smem uri seen then raise (ValueError "capability bundle contains missing or duplicate URI")
          else if negb (catalog_agrees c item) then raise (ValueError "capability bundle conflicts with authoritative catalog state")
          else
            let! _ := entitled c p agent "principal is not entitled to delegate every bundle capability" in
            let! (source, content) := _load_authoritative_content c in
            if negb (instructions_agree content item) then raise (ValueError "capability instruction digest does not match authoritative content")
            else if negb (tools_agree content item) then raise (ValueError "capability tool declaration does not match authoritative content")
            else ret (uri, mkResolved c source content)
      end
  end.
Fixpoint resolve_items (p : Principal) (agent : string) (seen : list string) (l : list json) : Op (list (string * Resolved)) :=
  match l with
  | [] => ret []
  | v :: l' => let! r := resolve_item p agent seen v in
               let! rest := resolve_items p agent (fst r :: seen) l' in
               ret (r :: rest)
  end.

(** ** The root of a delegation *)
Definition CONTEXT_KEYS : list string :=
  ["schema"; "objective"; "workflowId"; "repo"; "worktree"; "baseCommit"; "capabilityBundle"; "capabilityBinding"; "capabilityBundleHash";
   "capabilityBindingHash"; "scopeHash"; "scope"; "upstreamDelegationId"; "authorityEvidence"].
Definition SCOPE_KEYS : list string :=
  ["schema"; "objective"; "repo"; "worktree"; "workflowId"; "baseCommit"; "advisory"; "files"; "writeSet"; "allowedTools"; "networkPolicy";
   "dataClassification"; "risk"; "tests"; "acceptanceCriteria"; "budget"; "contextReserveTokens"; "completionSchema"; "integration"].
Definition BINDING_KEYS : list string :=
  ["schema"; "bundle"; "bundle_hash"; "trust"; "role_coverage"; "entitlements"; "instructions"; "read_requirement"].
Definition INSTRUCTION_KEYS : list string := ["uri"; "digest"; "instructions"; "source_path"; "loaded_via"; "read_required"].

(** The objective with the repository a titration binds to it. *)
Definition routing_objective (objective : string) (context : dict) : string :=
  if py_truthy (jget "repo" context) then
    objective +:+ newline +:+ newline +:+ "VERIFIED REPOSITORY CONTEXT (bound by titrate):" +:+ newline
    +:+ "REPOSITORY: " +:+ str_get context "repo" "" +:+ newline
    +:+ "BASE_COMMIT: " +:+ str_get context "baseCommit" "" +:+ newline
    +:+ "The downstream tool-capable durable ASGCode workflow can inspect this "
    +:+ "repository. Do not report the repository as missing merely because this "
    +:+ "routing stage has no filesystem tools."
  else objective.

Definition expected_budget : json :=
  JObj [("maxLiveLanes", JNum 10); ("directorMax", JNum 4); ("workerMax", JNum 6); ("localCorrectionsPerSlice", JNum 1);
        ("codexCorrectionsPerSlice", JNum 1)].
Definition scope_agrees (scope context : dict) (objective workflow_id : string) : bool :=
  let advisory := is_true (jget "advisory" scope) in
  let files := _canonical_scope_files (jget "files" scope) in
  is_text (jget "schema" scope) "asgcode.workflow.scope.v1"
  && (objective =s routing_objective (str_get scope "objective" "") context)
  && py_eq (jget "repo" scope) (jget "repo" context)
  && py_eq (jget "worktree" scope) (jget "worktree" context)
  && is_text (jget "workflowId" scope) workflow_id
  && py_eq (jget "baseCommit" scope) (jget "baseCommit" context)
  && match files with Some f => py_eq (jget "writeSet" scope) (if advisory then JArr [] else f) | None => false end
  && py_eq (jget "allowedTools" scope) (jstrs (["Read"; "Search"; "Bash"] ++ (if advisory then [] else ["Write"; "Edit"])))
  && is_text (jget "networkPolicy" scope) "disabled"
  && is_text (jget "dataClassification" scope) "internal"
  && is_text (jget "risk" scope) (if advisory then "low" else "medium")
  && py_eq (jget "tests" scope) (jstrs ["repository-defined deterministic tests for affected surfaces"])
  && py_eq (jget "acceptanceCriteria" scope)
       (jstrs ["all planned lanes return canonical OK outcomes"; "deterministic verification passes";
               "serial integration completes without overlapping write sets"])
  && py_eq (jget "budget" scope) expected_budget
  && py_eq (jget "contextReserveTokens" scope) (JNum 41600)
  && is_text (jget "completionSchema" scope) "asgcode.outcome.v2"
  && is_text (jget "integration" scope) "serial".

(** What the checks before the catalog is consulted leave. *)
Record Proposal : Type := mkProposal { po_objective : string; po_bundle : dict; po_binding : dict; po_items : list json }.
Definition check_proposal (context : json) (clock : Z) : outcome (dict * Proposal) :=
  match context with
  | JObj context =>
      let? _ := unless (is_text (jget "schema" context) "asgcode.capmesh.delegation.context.v1") "canonical delegation context is required" in
      let? _ := unless (forallb (fun k => smem k CONTEXT_KEYS) context.*1) "delegation context contains unsupported fields" in
      let? objective := (match jget "objective" context with
                         | JStr s => if between_len 1 12000 s then Ok s else reject "delegation objective must be 1..12000 characters"
                         | _ => reject "delegation objective must be 1..12000 characters"
                         end) in
      let workflow_id := str_get context "workflowId" "" in
      let? _ := unless (_WORKFLOW_RE workflow_id) "delegation workflowId is invalid" in
      let? bundle := (match with_keys (jget "capabilityBundle" context) BUNDLE_KEYS with
                      | Some b => Ok b | None => reject "canonical capability_bundle.v1 is required" end) in
      let? _ := unless (is_text (jget "schema" bundle) "capability_bundle.v1" && is_text (jget "trust_decision" bundle) "authoritative")
                  "capability bundle is not authoritative" in
      let? _ := unless (bundle_id_ok (str_get bundle "bundle_id" "")) "capability bundle id is invalid" in
      let? _ := check_fresh bundle clock "" in
      let? scope := (match with_keys (jget "scope" context) SCOPE_KEYS with
                     | Some s => Ok s | None => reject "canonical workflow scope is required" end) in
      let? _ := unless (scope_agrees scope context objective workflow_id) "workflow scope is not canonical or context-bound" in
      let? _ := unless (_SHA256_RE (str_get context "scopeHash" "") && is_text (jget "scopeHash" context) (_sha (JObj scope)))
                  "delegation scopeHash is invalid" in
      let? _ := unless (is_text (jget "task_shape_hash" bundle) (text_sha objective)) "capability bundle task shape does not match objective" in
      let? items := (match jget "capabilities" bundle with
                     | JArr l => if Nat.leb 2 (length l) && Nat.leb (length l) 4 then Ok l else reject "capability bundle must contain 2..4 capabilities"
                     | _ => reject "capability bundle must contain 2..4 capabilities"
                     end) in
      let? binding := (match with_keys (jget "capabilityBinding" context) BINDING_KEYS with
                       | Some b => Ok b | None => reject "canonical capability binding is required" end) in
      let? _ := unless (is_text (jget "schema" binding) "asgcode.capability_binding.v1" && py_eq (jget "bundle" binding) (JObj bundle))
                  "capability binding bundle mismatch" in
      Ok (context, mkProposal objective bundle binding items)
  | _ => reject "canonical delegation context is required"
  end.

(** The instructions of the binding, each the sanitised beginning of the file. *)
Fixpoint check_instructions (remaining : Z) (l : list json) (resolved : list Resolved) : outcome unit :=
  match l, resolved with
  | v :: l', r :: resolved' =>
      let bad := reject "capability binding instruction order or fields mismatch" in
      match with_keys v INSTRUCTION_KEYS with
      | None => bad
      | Some item =>
          if negb (is_text (jget "uri" item) (c_uri (re_cap r))) then bad
          else
            let expected := _sanitize_instructions (re_content r) (Z.min 8000 remaining) in
            let? _ := unless (is_text (jget "instructions" item) expected && is_text (jget "digest" item) (text_sha expected)
                              && is_text (jget "loaded_via" item) "cap.load --detail full" && is_true (jget "read_required" item)
                              && smem (str_get item "source_path" "") [""; re_source r])
                        "capability binding instruction is not authority-derived" in
            check_instructions (remaining - char_len expected) l' resolved'
      end
  | _, _ => Ok tt
  end.
Definition entitlement_ok (v : json) : bool :=
  match with_keys v ["status"; "evidence"] with
  | Some d => is_text (jget "status" d) "verified" && is_text (jget "evidence" d) "cap.load authorized current principal"
  | None => false
  end.
Definition entitlements_ok (v : json) (seen : list string) : bool :=
  match with_keys v seen with Some d => forallb (fun kv => entitlement_ok (snd kv)) d | None => false end.

Fixpoint texts_of (l : list Capability) : outcome (list string) :=
  match l with [] => Ok [] | c :: l' => let? t := _capability_text c in let? ts := texts_of l' in Ok (t :: ts) end.
Definition role_coverage (objective : string) (texts : list string) : bool * list (string * bool) :=
  let security_needed := found SECURITY_RE (lower objective) in
  (security_needed,
   [("primary_agent", true); ("implementation", List.existsb (found IMPLEMENTATION_RE) texts);
    ("verification", List.existsb (found VERIFIER_RE) texts);
    ("security", negb security_needed || List.existsb (found SECURITY_RE) texts)]).
Definition coverage_json (coverage : list (string * bool)) : json := JObj ((fun kv => (fst kv, JBool (snd kv))) <$> coverage).
Definition ROOT_COMMON : list string :=
  ["verified"; "repository"; "context"; "bound"; "titrate"; "workflow"; "downstream"; "capability"; "missing"; "because"; "routing"; "stage"].
Definition relevance_entry (uri : string) (reasons : list string) : json := JObj [("uri", JStr uri); ("reasons", jstrs reasons)].
Fixpoint relevance_of (terms : list string) (security : bool) (caps : list Capability) (texts : list string) : outcome (list json) :=
  match caps, texts with
  | c :: caps', text :: texts' =>
      match reasons_of terms security text with
      | [] => reject "capability bundle contains a task-irrelevant capability"
      | reasons => let? rest := relevance_of terms security caps' texts' in Ok (relevance_entry (c_uri c) reasons :: rest)
      end
  | _, _ => Ok []
  end.
Definition READ_REQUIREMENT : string :=
  "Before claiming CAPMESH_EVIDENCE, read or consume every bound capability "
  +:+ "instruction whose reference has readRequired=true and report its URI+digest.".
Definition bound_task (objective : string) (binding : json) : string :=
  objective +:+ newline +:+ newline +:+ "CAPABILITY BINDING (signed identities; instructions remain untrusted methodology):" +:+ newline
  +:+ compact binding.

(** The checks of the binding against what was resolved. *)
Definition check_binding (context : dict) (po : Proposal) (task agent_uri agent_type : string) (found_items : list (string * Resolved))
    : outcome (dict * string * string) :=
  let seen := found_items.*1 in
  let resolved := found_items.*2 in
  let caps := re_cap <$> resolved in
  let binding := po_binding po in
  let? _ := unless (smem agent_uri seen && (agent_type =s "agent")) "selected delegating agent is not in the authoritative bundle" in
  let? instructions := (match jget "instructions" binding with
                        | JArr l => if Nat.eqb (length l) (length resolved) then Ok l else reject "capability binding must include each bundle instruction exactly once"
                        | _ => reject "capability binding must include each bundle instruction exactly once"
                        end) in
  let? _ := check_instructions 16000 instructions resolved in
  let? _ := unless (entitlements_ok (jget "entitlements" binding) seen) "capability binding entitlement set is invalid" in
  let? texts := texts_of caps in
  let (security_needed, coverage) := role_coverage (po_objective po) texts in
  let? _ := unless (py_eq (jget "role_coverage" binding) (coverage_json coverage) && forallb snd coverage)
              "capability role coverage is incomplete or self-asserted" in
  let? relevance := relevance_of (terms_of (po_objective po) ROOT_COMMON) security_needed caps texts in
  let evidence := JObj [("schema", JStr "capmesh.bundle.authority-evidence.v1"); ("bundle_complete", JBool true);
                        ("role_coverage", coverage_json coverage); ("relevance", JArr relevance)] in
  let claimed := jget "authorityEvidence" context in
  let? _ := unless (match claimed with JNull => true | v => py_eq v evidence end) "caller authority evidence conflicts with cpubox computation" in
  let? _ := unless (is_text (jget "trust" binding) "authoritative") "capability binding trust is not authoritative" in
  let? _ := unless (is_text (jget "read_requirement" binding) READ_REQUIREMENT) "capability read requirement is not canonical" in
  let bundle_hash := _sha (JObj (po_bundle po)) in
  let binding_hash := _sha (JObj binding) in
  let? _ := unless (is_text (jget "bundle_hash" binding) bundle_hash && is_text (jget "capabilityBundleHash" context) bundle_hash
                    && is_text (jget "capabilityBindingHash" context) binding_hash)
              "caller capability hashes do not match authority computation" in
  let? _ := unless (task =s bound_task (po_objective po) (JObj binding)) "delegated task is not the exact bound objective" in
  Ok (dset "authorityEvidence" evidence (dset "capabilityBindingHash" (JStr binding_hash) (dset "capabilityBundleHash" (JStr bundle_hash) context)),
      bundle_hash, binding_hash).

Definition _validate_root_authoritative_bundle (agent : Capability) (task : string) (context : json) (p : Principal)
    : Op (dict * string * string) :=
  let! clock := gets w_clock in
  let! (context, po) := lift (check_proposal context clock) in
  let! items := resolve_items p (c_uri agent) [] (po_items po) in
  lift (check_binding context po task (c_uri agent) (c_type agent) items).

(** ** The bundle of a stage *)
Definition STAGE_COMMON : list string := ["verified"; "repository"; "workflow"; "capability"; "stage"].
Definition stage_item (p : Principal) (agent : string) (terms seen : list string) (v : json) : Op (string * Capability * json) :=
  match with_keys v ITEM_KEYS with
  | None => raise (ValueError "stage capability bundle item fields are not canonical")
  | Some item =>
      let uri := str_get item "uri" "" in
      let! found := lookup_item uri in
      match found with
      | None => raise (ValueError "stage capability bundle contains missing or duplicate URI")
      | Some c =>
          if smem uri seen then raise (ValueError "stage capability bundle contains missing or duplicate URI")
          else
            let! (_, content) := _load_authoritative_content c in
            if negb (catalog_agrees c item && instructions_agree content item && tools_agree content item)
            then raise (ValueError "stage capability bundle conflicts with authoritative catalog state")
            else
              let! (allowed, _) := can_load c p (if uri =s agent then "delegate" else "load") true in
              if negb allowed then raise (PermissionError "principal is not entitled to every stage capability")
              else
                let! text := lift (_capability_text c) in
                match reasons_of terms true text with
                | [] => raise (ValueError "stage capability bundle contains a task-irrelevant capability")
                | reasons => ret (uri, c, relevance_entry uri reasons)
                end
      end
  end.
Fixpoint stage_items (p : Principal) (agent : string) (terms seen : list string) (l : list json) : Op (list (string * Capability * json)) :=
  match l with
  | [] => ret []
  | v :: l' => let! r := stage_item p agent terms seen v in
               let! rest := stage_items p agent terms (r.1.1 :: seen) l' in
               ret (r :: rest)
  end.
Definition check_stage_bundle (bundle : json) (clock : Z) : outcome (dict * list json) :=
  let? b := (match with_keys bundle BUNDLE_KEYS with
             | Some b => Ok b | None => reject "canonical stage capability_bundle.v1 is required" end) in
  let? _ := unless (is_text (jget "schema" b) "capability_bundle.v1" && is_text (jget "trust_decision" b) "authoritative")
              "stage capability bundle is not authoritative" in
  let? _ := unless (bundle_id_ok (str_get b "bundle_id" "")) "stage capability bundle id is invalid" in
  let? _ := unless (_SHA256_RE (str_get b "task_shape_hash" "")) "stage capability task shape hash is invalid" in
  let? _ := check_fresh b clock "stage " in
  match jget "capabilities" b with
  | JArr l => if Nat.leb 2 (length l) && Nat.leb (length l) 4 then Ok (b, l) else reject "stage capability bundle must contain 2..4 capabilities"
  | _ => reject "stage capability bundle must contain 2..4 capabilities"
  end.
Definition _validate_stage_bundle (bundle : json) (agent : Capability) (p : Principal) (stage_objective : string) : Op (dict * string * json) :=
  let! clock := gets w_clock in
  let! (b, items) := lift (check_stage_bundle bundle clock) in
  let! resolved := stage_items p (c_uri agent) (terms_of stage_objective STAGE_COMMON) [] items in
  if negb (smem (c_uri agent) ((fun r => r.1.1) <$> resolved) && (c_type agent =s "agent"))
  then raise (ValueError "selected stage agent is not in the authoritative stage bundle")
  else ret (b, _sha (JObj b), JObj [("schema", JStr "capmesh.stage-bundle.authority-evidence.v1"); ("bundle_complete", JBool true);
                                    ("relevance", JArr (snd <$> resolved))]).

Definition STAGE_KEYS : list string :=
  ["capabilityBundle"; "capabilityBinding"; "capabilityBundleHash"; "capabilityBindingHash"; "stageCapabilityBundle"; "stageCapabilityBundleHash";
   "scope"; "scopeHash"; "capmeshAuthorityReceipt"; "workflowId"; "repo"; "worktree"; "baseCommit"; "upstreamDelegationId"].
Definition NORMALIZED_KEYS : list string := ["schema"; "objective"; "authorityEvidence"; "stageAuthorityEvidence"].
Definition TASK_KEYS : list string :=
  ["schema"; "workflow_id"; "stage_id"; "objective"; "repository"; "write_set"; "bundle_id"; "bundle_digest"; "scope"; "workflow_binding"].
Definition WORKFLOW_KEYS : list string := ["repository"; "base_commit"; "admission_sha256"; "capability_binding_sha256"; "upstream_delegation_id"].
Definition stage_char (c : ascii) : bool := is_lower c || is_digit c || one_of "_.-" c.
Definition stage_id_ok (s : string) : bool :=
  match s with String c s' => (is_lower c || is_digit c) && run_of stage_char 0 63 s' | "" => false end.

(** The first agent of the root bundle. *)
Fixpoint root_agent (items : list json) : Op (option Capability) :=
  match items with
  | [] => ret None
  | v :: items' =>
      let! candidate := (match v with JObj item => lookup_item (str_get item "uri" "") | _ => ret None end) in
      match candidate with
      | Some c => if c_type c =s "agent" then ret (Some c) else root_agent items'
      | None => root_agent items'
      end
  end.
(** The context of the root delegation a stage repeats. *)
Definition root_context (context : dict) (objective : string) : dict :=
  [("schema", JStr "asgcode.capmesh.delegation.context.v1"); ("objective", JStr objective); ("workflowId", jget "workflowId" context);
   ("repo", jget "repo" context); ("worktree", jget "worktree" context); ("baseCommit", jget "baseCommit" context);
   ("capabilityBundle", jget "capabilityBundle" context); ("capabilityBinding", jget "capabilityBinding" context);
   ("capabilityBundleHash", jget "capabilityBundleHash" context); ("capabilityBindingHash", jget "capabilityBindingHash" context);
   ("scopeHash", jget "scopeHash" context); ("scope", jget "scope" context); ("upstreamDelegationId", jget "upstreamDelegationId" context)]
  ++ (match jget "authorityEvidence" context with JNull => [] | v => [("authorityEvidence", v)] end).

Definition tasks_dir : string := path_join state_dir "tasks".
Definition task_file (task_id : string) : string := path_join tasks_dir (task_id +:+ ".json").
(** OSError and ValueError; other errors of the file system are not raised here. *)
Definition unreadable (e : exn) : bool :=
  match e with
  | ValueError _ | PermissionError _ => true
  | OtherError m => List.existsb (startswith m) ["FileNotFoundError:"; "IsADirectoryError:"; "NotADirectoryError:"; "OSError:"]
  | _ => false
  end.
(** [json.loads(path.read_text(encoding="utf-8"))] of a task, or the handler's error. *)
Definition read_task (task_id : string) (or_else : exn) : Op json :=
  try_except (let! text := read_utf8 (resolve_path (task_file task_id)) in lift (json_loads_strict text)) unreadable (fun _ => raise or_else).

Definition upstream_agrees (record upstream : dict) (p : Principal) (context : dict) (upstream_id bundle_hash binding_hash : string) : bool :=
  is_text (jget "taskId" record) upstream_id && is_text (jget "principal" record) (p_subject p)
  && py_eq (jget "workflowId" upstream) (jget "workflowId" context)
  && is_text (jget "capabilityBundleHash" upstream) bundle_hash
  && is_text (jget "capabilityBindingHash" upstream) binding_hash.
Definition envelope_agrees (envelope workflow_binding context bundle : dict) (bundle_hash binding_hash : string) : bool :=
  is_text (jget "stageCapabilityBundleHash" context) bundle_hash
  && is_text (jget "schema" envelope) "asgcode.task-envelope.v2"
  && py_eq (jget "workflow_id" envelope) (jget "workflowId" context)
  && stage_id_ok (str_get envelope "stage_id" "")
  && text_ok (jget "objective" envelope) truthy
  && py_eq (jget "repository" envelope) (jget "repo" context)
  && (match jget "write_set" envelope with JArr _ => true | _ => false end)
  && py_eq (jget "bundle_id" envelope) (jget "bundle_id" bundle)
  && is_text (jget "bundle_digest" envelope) bundle_hash
  && py_eq (jget "scope" envelope) (jget "scope" context)
  && py_eq (jget "repository" workflow_binding) (jget "repo" context)
  && py_eq (jget "base_commit" workflow_binding) (jget "baseCommit" context)
  && _SHA256_RE (str_get workflow_binding "admission_sha256" "")
  && is_text (jget "capability_binding_sha256" workflow_binding) binding_hash
  && py_eq (jget "upstream_delegation_id" workflow_binding) (jget "upstreamDelegationId" context)
  && _TASK_RE (str_get context "upstreamDelegationId" "").

(** The envelope of the stage and its workflow binding. *)
Definition check_envelope (context : dict) (task : string) : outcome (dict * dict) :=
  let? _ := unless (forallb (fun k => smem k (STAGE_KEYS ++ NORMALIZED_KEYS)) context.*1 && forallb (fun k => smem k context.*1) STAGE_KEYS)
              "stage delegation context fields are not canonical" in
  let? envelope := (match json_loads_strict task with Ok v => Ok v | Raise _ => reject "stage task envelope is not canonical JSON" end) in
  let? envelope := (match with_keys envelope TASK_KEYS with Some d => Ok d | None => reject "canonical asgcode.task-envelope.v2 is required" end) in
  let? binding := (match with_keys (jget "workflow_binding" envelope) WORKFLOW_KEYS with
                   | Some d => Ok d | None => reject "stage task workflow binding is not canonical" end) in
  Ok (envelope, binding).

Definition stage_objective (context : dict) : string :=
  routing_objective (match jget "scope" context with JObj scope => str_get scope "objective" "" | _ => "" end) context.
Definition validate_stage (agent : Capability) (task : string) (context : dict) (p : Principal) : Op (dict * string * string) :=
  let! (envelope, workflow_binding) := lift (check_envelope context task) in
  let objective := stage_objective context in
  let! root := (match jget "capabilityBundle" context with
                | JObj b => match jget "capabilities" b with JArr l => root_agent l | _ => ret None end
                | _ => ret None
                end) in
  match root with
  | None => raise (ValueError "root capability bundle has no authoritative agent")
  | Some root =>
      let! (normalized_root, root_bundle_hash, binding_hash) :=
        _validate_root_authoritative_bundle root (bound_task objective (jget "capabilityBinding" context)) (JObj (root_context context objective)) p in
      let upstream_id := str_get context "upstreamDelegationId" "" in
      let! _ := _verify_bundle_receipt (jget "capmeshAuthorityReceipt" context) upstream_id (str_get context "workflowId" "") root_bundle_hash binding_hash in
      let! record := read_task upstream_id (ValueError "upstream CapMesh delegation envelope is unavailable") in
      let! record := lift (as_object record) in
      let! upstream := lift (as_object (jget "context" record)) in
      if negb (upstream_agrees record upstream p context upstream_id root_bundle_hash binding_hash)
      then raise (ValueError "upstream CapMesh delegation binding is invalid")
      else
        let! (bundle, bundle_hash, evidence) := _validate_stage_bundle (jget "stageCapabilityBundle" context) agent p (str_get envelope "objective" "") in
        if match jget "stageAuthorityEvidence" context with JNull => false | v => negb (py_eq v evidence) end
        then raise (ValueError "caller stage authority evidence conflicts with cpubox computation")
        else if negb (envelope_agrees envelope workflow_binding context bundle bundle_hash binding_hash)
        then raise (ValueError "stage task envelope does not match its authoritative workflow binding")
        else ret (dmerge normalized_root
                    [("stageCapabilityBundle", JObj bundle); ("stageCapabilityBundleHash", JStr bundle_hash);
                     ("capmeshAuthorityReceipt", jget "capmeshAuthorityReceipt" context);
                     ("upstreamDelegationId", jget "upstreamDelegationId" context); ("stageAuthorityEvidence", evidence)],
                  bundle_hash, binding_hash)
  end.

Definition _validate_authoritative_bundle (agent : Capability) (task : string) (context : json) (p : Principal) : Op (dict * string * string) :=
  match context with
  | JObj d => if dmem "stageCapabilityBundle" d then validate_stage agent task d p else _validate_root_authoritative_bundle agent task context p
  | _ => _validate_root_authoritative_bundle agent task context p
  end.
End Bundles.
