(* ===== verification/Delegations.v ===== *)
(** * Delegation, processing and reports ([router.py])

    cap.delegate creates the envelope of a task from a validated bundle and
    signs a receipt for it; cap.process sends a queued task to its model; and
    cap.report accepts the outcome of a delegated stage once, against the
    delegation it belongs to.

    The export bundle of a delegation is left out: it is built by a call with
    names the function does not take, whose TypeError is dropped. *)

From Stdlib Require Import ZArith Ascii String Lia.
From stdpp Require Import base option list strings gmap.
From S2P Require Import Prelude Sha256 PyStr Json JsonCodec Base64 Dicts Clock Db Models AccessControl Catalog Superadmin Gates Signing InstallGuards ModelRouter Tasks ReportReceipts Sessions Manifest Drafts AuthorityKeys IsoDates Serving Bundles.
Local Open Scope string_scope.
Local Open Scope list_scope.

#[local] Opaque sha256_hex.

(** ** Outcomes *)

(** [v in {...}] for a set of texts: a list or a dict has no hash. *)
Definition in_texts (v : json) (l : list string) : outcome bool :=
  match v with
  | JStr s => Ok (smem s l)
  | JArr _ => Raise (OtherError "TypeError: unhashable type: 'list'")
  | JObj _ => Raise (OtherError "TypeError: unhashable type: 'dict'")
  | _ => Ok false
  end.
(** [isinstance(v, int)], and without the booleans. *)
Definition int_in (lo hi : Z) (v : json) : bool :=
  match v with JNum n => Z.leb lo n && Z.leb n hi | JBool b => Z.leb lo (if b then 1 else 0) && Z.leb (if b then 1 else 0) hi | _ => false end.
Definition strict_int_in (lo hi : Z) (v : json) : bool := match v with JNum n => Z.leb lo n && Z.leb n hi | _ => false end.
Definition STATUSES : list string := ["OK"; "NEED_HELP"; "BLOCKED"; "FAILED_VERIFY"; "INFRA_DOWN"; "POLICY_DENIED"].
Definition digest_ok (d : dict) (key : string) : bool := _SHA256_RE (str_get d key "").

(** A refusal is its message. *)
Fixpoint evidence_items (l : list json) : outcome (option string) :=
  match l with
  | [] => Ok None
  | v :: l' =>
      match with_keys v ["kind"; "ref"; "digest"] with
      | None => Ok (Some "outcome evidence item is not canonical")
      | Some item =>
          let? known := in_texts (jget "kind" item) ["log"; "test"; "patch"; "capmesh"; "audit"; "benchmark"] in
          if negb known then Ok (Some "outcome evidence kind is invalid")
          else if negb (text_ok (jget "ref" item) truthy) then Ok (Some "outcome evidence ref is invalid")
          else if negb (digest_ok item "digest") then Ok (Some "outcome evidence digest is invalid")
          else evidence_items l'
      end
  end.
Definition TITRATION_REQUIRED : list string := ["schema"; "workflow_id"; "stage_id"; "attempts"; "status"; "summary"; "evidence"].
Definition TITRATION_OPTIONAL : list string := ["files_changed"; "unmet_capability"; "blocker"; "requested_assistance"; "risks"].
Definition _valid_titration_outcome (outcome : json) : Prelude.outcome (option string) :=
  let fields := Ok (Some "canonical asgcode.outcome.v2 fields are required") in
  match outcome with
  | JObj o =>
      if negb (forallb (fun k => smem k (TITRATION_REQUIRED ++ TITRATION_OPTIONAL)) o.*1 && forallb (fun k => smem k o.*1) TITRATION_REQUIRED)
      then fields
      else
        let status := Ok (Some "canonical asgcode.outcome.v2 status is required") in
        if negb (is_text (jget "schema" o) "asgcode.outcome.v2") then status
        else
          let? known := in_texts (jget "status" o) STATUSES in
          if negb known then status
          else if negb (int_in 1 3 (jget "attempts" o)) then Ok (Some "outcome attempts must be 1..3")
          else if negb (text_ok (jget "workflow_id" o) (between_len 1 128)) then Ok (Some "outcome workflow_id is invalid")
          else if negb (stage_id_ok (str_get o "stage_id" "")) then Ok (Some "outcome stage_id is invalid")
          else if negb (text_ok (jget "summary" o) (between_len 1 8000)) then Ok (Some "outcome summary is invalid")
          else
            match jget "evidence" o with
            | JArr l =>
                let? bad := evidence_items l in
                match bad with
                | Some m => Ok (Some m)
                | None => if is_text (jget "status" o) "BLOCKED" && py_truthy (jget "requested_assistance" o)
                          then Ok (Some "BLOCKED outcomes cannot request assistance") else Ok None
                end
            | _ => Ok (Some "outcome evidence must be an array")
            end
  | _ => fields
  end.

Definition STAGE_REPORT_KEYS : list string :=
  ["schema"; "workflow_id"; "stage_id"; "attempt"; "status"; "task_id"; "bundle_id"; "routing"; "coverage"; "benchmark"].
Definition routing_ok (v : json) : bool :=
  match with_keys v ["role"; "mode"] with
  | Some d => forallb (fun kv => text_ok (snd kv) (between_len 1 64)) d
  | None => false
  end.
Definition coverage_ok (v : json) : bool :=
  match with_keys v ["capability_bundle"; "deterministic_evidence_items"] with
  | Some d => is_true (jget "capability_bundle" d) && strict_int_in 0 10000 (jget "deterministic_evidence_items" d)
  | None => false
  end.
Definition benchmark_ok (v : json) (ok : bool) : bool :=
  match with_keys v ["verified"; "tests"] with
  | Some d => match jget "verified" d, jget "tests" d with
              | JBool b, JArr l => Bool.eqb b ok && Z.leb (Z.of_nat (length l)) 10000
              | _, _ => false
              end
  | None => false
  end.
Definition _valid_workflow_stage_outcome (outcome : json) (task_id workflow_id : string) : Prelude.outcome (option string) :=
  match with_keys outcome STAGE_REPORT_KEYS with
  | None => Ok (Some "canonical asgcode.capmesh-stage-report.v2 fields are required")
  | Some o =>
      let? known := in_texts (jget "status" o) STATUSES in
      if negb (is_text (jget "schema" o) "asgcode.capmesh-stage-report.v2" && is_text (jget "workflow_id" o) workflow_id
               && is_text (jget "task_id" o) task_id && known && strict_int_in 1 3 (jget "attempt" o)
               && stage_id_ok (str_get o "stage_id" "") && text_ok (jget "bundle_id" o) (between_len 1 160))
      then Ok (Some "workflow stage outcome binding is invalid")
      else if negb (routing_ok (jget "routing" o)) then Ok (Some "workflow stage routing evidence is invalid")
      else if negb (coverage_ok (jget "coverage" o)) then Ok (Some "workflow stage coverage evidence is invalid")
      else if negb (benchmark_ok (jget "benchmark" o) (is_text (jget "status" o) "OK")) then Ok (Some "workflow stage benchmark evidence is invalid")
      else Ok None
  end.

Section Delegations.
Context `{!Runtime, !Machine, !Host, !AuthorityHost, !Secrets}.

(** [try: ... finally: cleanup] *)
Definition finally {A} (m : Op A) (cleanup : Op unit) : Op A :=
  fun w => match m w with
           | (o, w1) => match cleanup w1 with (Ok _, w2) => (o, w2) | (Raise e, w2) => (Raise e, w2) end
           end.
(** [_commit_policy_audit]: a commit without an open transaction changes nothing. *)
Definition _commit_policy_audit : Op unit := commit.
Definition is_value_error (e : exn) : bool := match e with ValueError _ => true | _ => false end.
Definition is_denied_or_value (e : exn) : bool := match e with ValueError _ | PermissionError _ => true | _ => false end.
Definition uuid_hex : Op string := fun w => (Ok (uuid4_hex (w_uuid w)), upd w_uuid (S (w_uuid w)) w).
Definition not_authoritative (message : string) : Op dict :=
  let! topology := lift topology_payload in ret (error "NOT_AUTHORITATIVE" message topology).
Definition router_tenant (p : Principal) : string := s_or (p_tenant_id p) "asg".

(** ** cap.delegate *)

(** The model of the task; an error of the routing is dropped. *)
Definition model_routing (params : dict) (c : Capability) (task : string) : option dict :=
  let override := strip (str_get params "modelTier" "") in
  match py_or (c_metadata c) (JObj []) with
  | JObj metadata => Some (route_model (c_risk_tier c) (c_mutating c) task (Some metadata) (if truthy override then Some override else None))
  | _ => None
  end.
Definition task_record (params : dict) (c : Capability) (p : Principal) (task_id now task : string) (context receipt : dict) : dict :=
  [("taskId", JStr task_id); ("ts", JStr now); ("agentUri", JStr (c_uri c)); ("agentName", JStr (c_name c)); ("task", JStr task);
   ("context", JObj context); ("capmeshBundleReceipt", JObj receipt); ("principal", JStr (p_subject p)); ("status", JStr "queued");
   ("note", JStr "Task envelope created for an external agent runner. No bulk agent context was loaded.")]
  ++ match model_routing params c task with Some r => [("modelRouting", JObj r)] | None => [] end.

Definition make_tasks_dir : Op unit :=
  let p := parts (resolve_path tasks_dir) in
  let! _ := forM (ancestors (removelast p)) (make_dir p) in
  let! _ := make_private p in
  let! node := file_at (path_text p) in
  if negb (owned (path_text p)) then raise (PermissionError (os_error (path_text p)))
  else
    set_file (path_text p) (mkFileNode (match node with Some n => fn_kind n | None => Directory end) mode_700 true
                              (match node with Some n => fn_content n | None => "" end)).
(** The envelope, in a file that was not there. *)
Definition write_task (task_id : string) (record : dict) : Op unit :=
  let key := resolve_path (task_file task_id) in
  let! node := file_at key in
  match node with
  | Some _ => raise (OtherError ("FileExistsError: " +:+ os_error key))
  | None => set_file key (mkFileNode Regular (Z.land mode_600 (Z.lnot umask)) true (indented 0 (sort_keys (JObj record)) +:+ newline))
  end.

Definition queue_task (p : Principal) (c : Capability) (record : dict) : Op unit :=
  try_except (let! _ := create_task_envelope (c_uri c) (p_subject p) record (router_tenant p) false in ret tt) (fun _ => true) (fun _ => ret tt).

(** The validation, its refusal, and the commit of the decisions on the way. *)
Definition validated (c : Capability) (task : string) (context : json) (p : Principal) : Op (dict + (dict * string * string)) :=
  finally (try_except (let! v := _validate_authoritative_bundle c task context p in ret (inr v))
             is_value_error (fun e => ret (inl (error "INVALID_ARGUMENT" (exn_str e) []))))
          _commit_policy_audit.

Definition cap_delegate (params : dict) (p : Principal) : Op dict :=
  let! authoritative := lift is_authoritative_node in
  if negb authoritative then not_authoritative "Delegation writes are served only by the authoritative node."
  else
    let (ok, reason) := require_scope p "cap:delegate" in
    if negb ok then ret (scope_error "cap:delegate" reason)
    else
      let! cap := resolve_capability params in
      match cap with
      | None => ret (error "CAPABILITY_NOT_FOUND" "Agent capability not found. Run cap.search with type=agent first." [])
      | Some c =>
          let! (allowed, reason) := can_load c p "delegate" true in
          let! _ := _commit_policy_audit in
          if negb allowed then ret (error "FORBIDDEN" (o_or reason "Capability not authorized.") (uri_details c))
          else if negb (c_type c =s "agent")
          then ret (error plain_code "cap.delegate requires an agent capability." [("uri", JStr (c_uri c)); ("type", JStr (c_type c))])
          else
            let task := strip (str_get params "task" "") in
            if negb (truthy task) then ret (error plain_code "task is required." [])
            else
              let! v := validated c task (jget "context" params) p in
              match v with
              | inl refusal => ret refusal
              | inr (context, bundle_hash, binding_hash) =>
                  let! hex := uuid_hex in
                  let task_id := "cap-task-" +:+ hex in
                  let! receipt := _signed_bundle_receipt task_id (py_str (jget "workflowId" context)) bundle_hash binding_hash in
                  let! now := gets (fun w => audit_now (w_clock w)) in
                  let record := task_record params c p task_id now task context receipt in
                  let! _ := make_tasks_dir in
                  let! _ := write_task task_id record in
                  let! _ := audit "cap.delegate" p [("uri", JStr (c_uri c)); ("taskId", JStr task_id)] in
                  let! _ := queue_task p c record in
                  ret (ok_result ("Delegation envelope created for " +:+ c_name c +:+ ": " +:+ task_id +:+ ".") record)
              end
      end.

(** ** cap.process *)
Section Process.
Context `{!Gateway}.

Definition process_run (p : Principal) (task_id : string) : Op dict :=
  let! result := dispatch_queued_task task_id (router_tenant p) None in
  let! _ := audit "cap.process" p [("taskId", JStr task_id); ("backend", jget "backend" result); ("status", jget "status" result)] in
  if is_text (jget "status" result) "failed"
  then ret (error "DISPATCH_FAILED"
         ("Task dispatch failed: " +:+ py_str (match dget "error" result with Some v => v | None => JStr "unknown error" end)) result)
  else ret (ok_result ("Task " +:+ task_id +:+ " processed via " +:+ py_str (jget "backend" result) +:+ ".") result).
Definition cap_process (params : dict) (p : Principal) : Op dict :=
  let! authoritative := lift is_authoritative_node in
  if negb authoritative then not_authoritative "Task processing is served only by the authoritative node."
  else
    let (ok, reason) := require_scope p "cap:delegate" in
    if negb ok then ret (scope_error "cap:delegate" reason)
    else
      let task_id := strip (str_get params "taskId" "") in
      if negb (truthy task_id) then ret (error plain_code "taskId is required." [])
      else
        try_except (process_run p task_id) (fun _ => true)
          (fun e => ret (if is_value_error e then error "TASK_NOT_FOUND" (exn_str e) []
                         else error "INTERNAL_ERROR" ("Task processing failed: " +:+ exn_str e) [])).
End Process.

(** ** cap.report *)
Definition TITRATION : string := "asgcode.titration.stage".
Definition WORKFLOW : string := "asgcode.workflow.stage".
Definition REPORT_KEYS : list string := ["schema"; "taskId"; "agentUri"; "bundleDigest"; "capabilityBindingDigest"; "outcomeDigest"; "outcome"].

(** The fields of a report of a stage. *)
Record Report : Type := mkReport {
  rp_event : string; rp_task_id : string; rp_uri : string; rp_bundle_digest : string; rp_binding_digest : string;
  rp_outcome_digest : string; rp_outcome : dict; rp_workflow_binding : json
}.
Definition invalid {A} (message : string) : outcome (dict + A) := Ok (inl (error "INVALID_ARGUMENT" message [])).
Definition check_report (event : string) (params : dict) (payload : json) : outcome (dict + Report) :=
  match payload with
  | JObj d =>
      if negb (is_text (jget "schema" d) "asgcode.capability_report.v1") then invalid "asgcode titration report schema is required."
      else if negb (same_keys d (REPORT_KEYS ++ (if event =s WORKFLOW then ["workflowBinding"] else []))) then invalid "capability report fields are not canonical."
      else
        let task_id := str_get d "taskId" "" in
        let uri := str_get params "uri" "" in
        let bundle_digest := str_get d "bundleDigest" "" in
        let binding_digest := str_get d "capabilityBindingDigest" "" in
        let outcome_digest := str_get d "outcomeDigest" "" in
        let outcome := jget "outcome" d in
        if negb (_TASK_RE task_id) then invalid "valid delegated taskId is required."
        else if negb (startswith uri "cap://" && (str_get d "agentUri" "" =s uri)) then invalid "report URI does not match delegated agent URI."
        else if negb (_SHA256_RE bundle_digest) then invalid "valid capability bundle digest is required."
        else if negb (_SHA256_RE binding_digest) then invalid "valid capability binding digest is required."
        else
          let hint := match jget "workflowBinding" d with JObj h => py_str (jget "workflowId" h) | _ => "" end in
          let? bad := (if event =s WORKFLOW then _valid_workflow_stage_outcome outcome task_id hint else _valid_titration_outcome outcome) in
          match bad, outcome with
          | Some m, _ => invalid m
          | None, JObj o =>
              if negb (outcome_digest =s _sha outcome) then invalid "outcome digest mismatch."
              else Ok (inr (mkReport event task_id uri bundle_digest binding_digest outcome_digest o (jget "workflowBinding" d)))
          | None, _ => invalid "outcome digest mismatch."
          end
  | _ => invalid "asgcode titration report schema is required."
  end.

(** The delegation a report belongs to: its envelope is on file, for the same
    agent and the same principal. *)
Definition refused_report (code message : string) : dict := error code message [].
Definition find_delegation (r : Report) (p : Principal) : Op (dict + (dict * dict)) :=
  let! record := try_except (let! text := read_utf8 (resolve_path (task_file (rp_task_id r))) in
                             let! v := lift (json_loads_strict text) in ret (Some v)) unreadable (fun _ => ret None) in
  match record with
  | None => ret (inl (refused_report "DELEGATION_NOT_FOUND" "delegated task envelope not found."))
  | Some record =>
      let! record := lift (as_object record) in
      if negb (is_text (jget "taskId" record) (rp_task_id r) && is_text (jget "agentUri" record) (rp_uri r))
      then ret (inl (refused_report "FORBIDDEN" "delegated task binding mismatch."))
      else if negb (is_text (jget "principal" record) (p_subject p))
      then ret (inl (refused_report "FORBIDDEN" "delegated task principal binding mismatch."))
      else ret (inr (record, match jget "context" record with JObj c => c | _ => [] end))
  end.

Definition WORKFLOW_BINDING_KEYS : list string := ["workflowId"; "repo"; "worktree"; "baseCommit"; "upstreamDelegationId"].
(** The workflow binding of the report, against the context of the task. *)
Definition check_workflow (r : Report) (context : dict) : dict + dict :=
  if negb (rp_event r =s WORKFLOW) then inr []
  else
    match with_keys (rp_workflow_binding r) WORKFLOW_BINDING_KEYS with
    | None => inl (refused_report "INVALID_ARGUMENT" "canonical workflowBinding is required for workflow stage reports.")
    | Some b =>
        if negb (_WORKFLOW_RE (str_get b "workflowId" "")) then inl (refused_report "INVALID_ARGUMENT" "workflowBinding workflowId is invalid.")
        else if negb (_COMMIT_RE (str_get b "baseCommit" "")) then inl (refused_report "INVALID_ARGUMENT" "workflowBinding baseCommit is invalid.")
        else if negb (_TASK_RE (str_get b "upstreamDelegationId" "")) then inl (refused_report "INVALID_ARGUMENT" "workflowBinding upstreamDelegationId is invalid.")
        else if negb (forallb (fun k => py_eq (jget k context) (jget k b)) WORKFLOW_BINDING_KEYS)
        then inl (refused_report "FORBIDDEN" "workflowBinding does not match delegated task context.")
        else inr b
    end.

(** The current authority behind the delegation, and what it says. *)
Definition check_authority (r : Report) (record context : dict) (p : Principal) : Op (dict + dict) :=
  let! found := lookup_item (rp_uri r) in
  match found with
  | None => ret (inl (refused_report "POLICY_DENIED" "delegated capability no longer exists."))
  | Some c =>
      let! v := finally (try_except (let! v := _validate_authoritative_bundle c (str_get record "task" "") (JObj context) p in ret (Some v))
                           is_denied_or_value (fun _ => ret None))
                        _commit_policy_audit in
      match v with
      | None => ret (inl (refused_report "POLICY_DENIED" "delegated capability authority is no longer valid."))
      | Some (authoritative, bundle_hash, binding_hash) =>
          let bundle_key := if rp_event r =s WORKFLOW then "stageCapabilityBundleHash" else "capabilityBundleHash" in
          if negb (py_eq (JObj authoritative) (JObj context) && (bundle_hash =s rp_bundle_digest r) && (binding_hash =s rp_binding_digest r)
                   && py_eq (jget "workflow_id" (rp_outcome r)) (jget "workflowId" context)
                   && (negb (rp_event r =s TITRATION) || is_text (jget "stage_id" (rp_outcome r)) "titration"))
          then ret (inl (refused_report "FORBIDDEN" "report does not match current authoritative delegation."))
          else if negb (is_text (jget bundle_key context) (rp_bundle_digest r))
          then ret (inl (refused_report "FORBIDDEN" "capability bundle digest does not match delegation."))
          else if negb (is_text (jget "capabilityBindingHash" context) (rp_binding_digest r))
          then ret (inl (refused_report "FORBIDDEN" "capability binding digest does not match delegation."))
          else ret (check_workflow r context)
      end
  end.

Definition outcome_status (r : Report) : string := str_get (rp_outcome r) "status" "".
Definition advisory_receipt (key : string) (r : Report) (report_hex now nonce : string) (issued : Z) : dict :=
  let unsigned :=
    [("schema", JStr "capmesh.report.receipt.v1"); ("reportId", JStr ("cap-report-" +:+ report_hex)); ("authoritative", JBool true);
     ("authorization", JStr "advisory-audit-only"); ("event", JStr (rp_event r)); ("taskId", JStr (rp_task_id r));
     ("agentUri", JStr (rp_uri r)); ("bundleDigest", JStr (rp_bundle_digest r)); ("capabilityBindingDigest", JStr (rp_binding_digest r));
     ("outcomeDigest", JStr (rp_outcome_digest r)); ("outcomeStatus", JStr (outcome_status r)); ("acceptedAt", JStr now);
     ("provenance", JStr REPORT_PROVENANCE); ("issued_at", JNum issued); ("expires_at", JNum (issued + 1800)); ("nonce", JStr nonce);
     ("key_id", JStr (AuthorityKeys.authority_key_id (ed_public key)))] in
  sign_receipt key unsigned.
(** The claim of a workflow receipt; its texts are texts ([check_workflow]),
    save for numbers, which are outside the model. *)
Definition workflow_claim (r : Report) (b : dict) : outcome Claim :=
  match jget "repo" b, jget "worktree" b, jget "baseCommit" b with
  | JStr repo, JStr worktree, JStr base =>
      Ok (mkClaim (rp_task_id r) (rp_uri r) (rp_bundle_digest r) (rp_binding_digest r) (rp_outcome_digest r) (outcome_status r)
            (str_get b "workflowId" "") repo worktree base (str_get b "upstreamDelegationId" ""))
  | JStr _, JStr _, _ => Raise (OtherError "OutsideModel: a commit that is a number")
  | _, _, _ => Raise (ValueError "report receipt binding is malformed")
  end.
Definition issue_receipt (r : Report) (b : dict) (key : string) : Op dict :=
  if rp_event r =s WORKFLOW then
    let! claim := lift (workflow_claim r b) in
    let! token := (fun w => (Ok (token_hex 16 (w_uuid w)), upd w_uuid (S (w_uuid w)) w)) in
    let! nonce := draw_token 24 in
    let! clock := gets w_clock in
    lift (issue_report_receipt key claim clock None REPORT_RECEIPT_TTL_SECONDS token nonce)
  else
    let! issued := gets seconds_of in
    let! hex := uuid_hex in
    let! now := gets (fun w => audit_now (w_clock w)) in
    let! nonce := draw_token 24 in
    ret (advisory_receipt key r hex now nonce issued).

(** The two rows of an accepted report, both or none. *)
Definition insert_report (event : string) (uri : option string) (subject : string) (payload : json) : Op unit :=
  let! now := sql_now in
  insert_row db_router_reports (mkRouterReportRow now event uri (Some subject) (dumps (sort_keys payload))).
Definition report_clash (row other : AuthorityReportRow) : bool :=
  (ar_task_id other =s ar_task_id row) || (ar_report_id other =s ar_report_id row) || (ar_nonce other =s ar_nonce row).
Definition record_report (r : Report) (p : Principal) (payload : json) (receipt : dict) : Op unit :=
  let! now := sql_now in
  let row := mkAuthorityReportRow now (rp_event r) (rp_task_id r) (py_str (jget "reportId" receipt)) (py_str (jget "nonce" receipt)) (p_subject p)
               (_sha (JObj [("event", JStr (rp_event r)); ("uri", JStr (rp_uri r)); ("payload", payload)])) (compact (JObj receipt)) in
  let! _ := insert_unique db_authoritative_router_reports (report_clash row) row in
  let! _ := insert_report (rp_event r) (Some (rp_uri r)) (p_subject p) payload in
  commit.
Definition is_integrity (e : exn) : bool := match e with IntegrityError _ => true | _ => false end.
(** An insert that fails is rolled back to the savepoint before the two. *)
Definition save_report (r : Report) (p : Principal) (payload : json) (receipt : dict) : Op (option dict) :=
  let! saved := query id in
  try_except (let! _ := record_report r p payload receipt in ret None) is_integrity
    (fun _ =>
       let! _ := set_db (fun _ => saved) in
       let! _ := audit "cap.report.replay_denied" p [("event", JStr (rp_event r)); ("uri", JStr (rp_uri r)); ("taskId", JStr (rp_task_id r))] in
       ret (Some (refused_report "POLICY_DENIED" "this delegated stage already has an authoritative report."))).

Definition accept_report (r : Report) (p : Principal) (payload : json) : Op (dict + dict) :=
  let! found := find_delegation r p in
  match found with
  | inl refusal => ret (inl refusal)
  | inr (record, context) =>
      let! checked := check_authority r record context p in
      match checked with
      | inl refusal => ret (inl refusal)
      | inr binding =>
          let! key := _authority_signer in
          let! receipt := issue_receipt r binding key in
          let! refusal := save_report r p payload receipt in
          ret (match refusal with Some e => inl e | None => inr [("receipt", JObj receipt)] end)
      end
  end.
(** A report of a stage, or any other event, which is noted as it is. *)
Definition take_report (event : string) (params : dict) (p : Principal) : Op (dict + dict) :=
  let payload := py_or (jget "payload" params) (JObj []) in
  if smem event [TITRATION; WORKFLOW] then
    let! report := lift (check_report event params payload) in
    match report with
    | inl refusal => ret (inl refusal)
    | inr r => accept_report r p payload
    end
  else
    let! uri := lift (sql_text (jget "uri" params)) in
    let! _ := insert_report event uri (p_subject p) payload in
    let! _ := commit in
    ret (inr []).

(** [coverage_report] reads the index; it is any code here. *)
Definition cap_report (coverage_report : Op json) (params : dict) (p : Principal) : Op dict :=
  let! authoritative := lift is_authoritative_node in
  if negb authoritative then not_authoritative "Capability reports are accepted only by the authoritative node."
  else
    let (ok, reason) := require_scope p "cap:report" in
    if negb ok then ret (scope_error "cap:report" reason)
    else
      let event := strip (str_get params "event" "") in
      if negb (truthy event) then ret (error plain_code "event is required." [])
      else
        let! taken := take_report event params p in
        match taken with
        | inl refusal => ret refusal
        | inr extra =>
            let! _ := audit "cap.report" p [("event", JStr event); ("uri", jget "uri" params)] in
            let! extra := (if event =s "coverage.check" then let! c := coverage_report in ret (dset "coverage" c extra) else ret extra) in
            ret (ok_result ("Reported " +:+ event +:+ ".") (dmerge [("event", JStr event); ("uri", jget "uri" params)] extra))
        end.
End Delegations.
