(* ===== verification/BundleProps.v ===== *)
(** * Theorems on bundles and delegations

    What a validated bundle attests, and what an accepted delegation leaves. *)

From Stdlib Require Import ZArith Ascii String Lia.
From stdpp Require Import base option list strings gmap.
From S2P Require Import Prelude Sha256 PyStr Json JsonCodec Base64 Dicts Clock Db Models AccessControl AccessSpec AccessProps Catalog Superadmin Gates Signing SourceGates ReviewProps CapGuardPolicy InstallGuards ModelRouter Tasks ReportReceipts Sessions Manifest Drafts DraftProps AuthorityKeys AuthorityProps IsoDates Serving ServingProps Bundles Delegations.
Local Open Scope string_scope.
Local Open Scope list_scope.

#[local] Opaque sha256_hex startswith.

(** ** What the checks leave *)

(** The registry but the access decisions, and the time. *)
Definition reg (w : World) : DB * Z := (upd db_policy_decisions [] (w_db w), w_clock w).
Definition calm (w w' : World) : Prop := reg w' = reg w /\ (coherent w -> coherent w').
#[export] Instance calm_preorder : PreOrder calm.
Proof. split; [by intros w|]. intros x y z [E1 C1] [E2 C2]. split; [congruence | auto]. Qed.

(** What an operation on files leaves. *)
Definition base (w : World) : DB * gmap (string * string) (option string) * Z := (w_db w, w_org_cache w, w_clock w).
Lemma base_calm {A} (m : Op A) : keeps base m -> preserves calm m.
Proof. intros K w. specialize (K w). apply pair_equal_spec in K as [[Hd Hc]%pair_equal_spec Ht]. unfold calm, reg, coherent. by rewrite Hd, Hc, Ht. Qed.

Ltac base_frame := unfold keeps; solve_frame; try (by intros ?).

Section Theorems.
Context `{!Runtime, !Machine, !Host, !AuthorityHost, !Secrets}.

Lemma reg_access w w' p right c : reg w' = reg w ->
  access (w_db w') (utc_text (w_clock w')) p right (Some c) None = access (w_db w) (utc_text (w_clock w)) p right (Some c) None.
Proof.
  intros [Hd Hc]%pair_equal_spec.
  change (access (upd db_policy_decisions [] (w_db w')) (utc_text (w_clock w')) p right (Some c) None
          = access (upd db_policy_decisions [] (w_db w)) (utc_text (w_clock w)) p right (Some c) None). by rewrite Hd, Hc.
Qed.
Lemma reg_capability w w' uri : reg w' = reg w -> get_capability (w_db w') uri = get_capability (w_db w) uri.
Proof.
  intros [Hd _]%pair_equal_spec. change (get_capability (upd db_policy_decisions [] (w_db w')) uri = get_capability (upd db_policy_decisions [] (w_db w)) uri).
  by rewrite Hd.
Qed.

Lemma can_load_calm c p right audit w : calm w (can_load c p right audit w).2 /\ w_files (can_load c p right audit w).2 = w_files w.
Proof.
  pose proof (evaluate_undecided p right (Some c) None audit w) as Hu.
  assert (reg (evaluate_access p right (Some c) None audit w).2 = reg w /\ w_files (evaluate_access p right (Some c) None audit w).2 = w_files w) as [Hr Hf].
  { apply pair_equal_spec in Hu as [[[Hd _]%pair_equal_spec Ht]%pair_equal_spec Hf]. split; [by apply pair_equal_spec | done]. }
  split; [|exact Hf]. split; [exact Hr|]. intros Hw. by destruct (can_load_run c p right audit w Hw) as (w1 & E & _ & Hc); rewrite E.
Qed.

(** ** The items of a bundle *)

(** The file of a capability, at its entrypoint below its package, with the
    bytes the catalog has the sum of. *)
Definition content_file (fs : gmap string FileNode) (c : Capability) (data : string) : Prop :=
  exists root target, _normalized_root cwd fs (c_package_path c) = Ok root /\ root `prefix_of` target /\ is_file fs target = true /\
    read_bytes fs target = Ok data /\ c_content_hash c = "sha256:" +:+ sha256_hex data.
(** Published, approved, signed, with its provenance, and reviewed. *)
Definition cleared (c : Capability) : Prop :=
  c_lifecycle c = "published" /\ c_approval_state c = "approved" /\ c_signature_status c = "verified" /\
  c_provenance_status c = "verified" /\ c_risk_review_status c = "approved".
(** What the authority vouches for of an item: the catalog has it, it is not
    under quarantine, the principal may delegate or load it, and the digests of
    the item are those of the file as it is. *)
Definition attested (w : World) (fs : gmap string FileNode) (p : Principal) (item : dict) (c : Capability) : Prop :=
  get_capability (w_db w) (str_get item "uri" "") = Ok (Some c) /\ _capguard_is_held (w_db w) c = false /\ cleared c /\
  (exists right, right ∈ ["delegate"; "load"] /\ access (w_db w) (utc_text (w_clock w)) p right (Some c) None = Ok (true, None)) /\
  exists data, content_file fs c data /\ jget "digest" item = JStr ("sha256:" +:+ sha256_hex data) /\
    jget "instructions_digest" item = JStr (text_sha (view "full" data)).

Lemma get_capability_served d uri c : get_capability d uri = Ok (Some c) -> _capguard_is_held d c = false.
Proof.
  unfold get_capability. destruct (capability_row_for d _) as [row|]; [|done].
  destruct (capability_from_row row) as [cap|e]; [|done]. cbn [obind]. destruct (_capguard_is_held d cap) eqn:E; [done|]. by intros [= <-].
Qed.
Lemma catalog_agrees_inv c item : catalog_agrees c item = true -> cleared c /\ jget "digest" item = JStr (c_content_hash c).
Proof.
  unfold catalog_agrees. rewrite !andb_true_iff, !String.eqb_eq. intros Hall. split; [unfold cleared; tauto|]. apply is_text_eq. tauto.
Qed.
Lemma content_inv c w o w' : _load_authoritative_content c w = (o, w') ->
  w' = w /\ forall source content, o = Ok (source, content) -> exists data, content_file (w_files w) c data /\ content = view "full" data.
Proof.
  unfold _load_authoritative_content, bind at 1. destruct (safe_file_target _ _ w) as [o1 w1] eqn:E1. apply safe_target_inv in E1 as [-> Ht].
  destruct o1 as [[target|]|e]; [|by intros [= <- <-]|by intros [= <- <-]].
  destruct (Ht _ eq_refl) as (root & Hroot & Hpre & Hfile). unfold bind at 1. rewrite hash_and_read_exact.
  destruct (read_bytes (w_files w) target) as [data|e] eqn:Ed; [|by intros [= <- <-]].
  unfold bind at 1, lift, hmac_hash_equal. destruct (_ && _); [|by intros [= <- <-]].
  destruct (String.eqb_spec ("sha256:" +:+ sha256_hex data) (c_content_hash c)) as [He|Hne]; [|by intros [= <- <-]].
  intros [= <- <-]. split; [done|]. intros source content [= _ <-]. exists data. split; [|done]. by exists root, target.
Qed.
Lemma attested_before w w' fs p item c : reg w' = reg w -> attested w' fs p item c -> attested w fs p item c.
Proof.
  intros Hr (Hg & _ & Hc & (right & Hin & Ha) & Hd). rewrite (reg_capability w w') in Hg by done.
  split; [done|]. split; [by eapply get_capability_served|]. split; [done|]. split; [|done].
  exists right. by rewrite <-(reg_access w w') by done.
Qed.

Lemma lookup_item_run uri w : lookup_item uri w = (get_capability (w_db w) uri, w).
Proof. unfold lookup_item, bind, query, gets, lift. done. Qed.
Lemma with_keys_obj v keys d : with_keys v keys = Some d -> v = JObj d.
Proof. unfold with_keys. destruct v; try done. destruct (same_keys _ _); [by intros [= ->] | done]. Qed.

Definition item_uri (item : dict) : string := str_get item "uri" "".
(** An item that was resolved, and the world after. *)
Definition item_resolved (w : World) (p : Principal) (seen : list string) (v : json) (uri : string) (w' : World) : Prop :=
  calm w w' /\ w_files w' = w_files w /\
  exists item c, v = JObj item /\ uri = item_uri item /\ smem uri seen = false /\ attested w (w_files w) p item c.

Lemma resolve_item_inv p agent seen v w r w' : coherent w -> resolve_item p agent seen v w = (Ok r, w') ->
  item_resolved w p seen v (fst r) w'.
Proof.
  intros Hw. unfold resolve_item. destruct (with_keys v ITEM_KEYS) as [item|] eqn:Ev; [|done]. apply with_keys_obj in Ev.
  unfold bind at 1. rewrite lookup_item_run. destruct (get_capability _ _) as [[c|]|e] eqn:Eg; [|done|done].
  destruct (smem _ seen) eqn:Es; [done|]. destruct (catalog_agrees c item) eqn:Ec; [cbn [negb]|done].
  apply catalog_agrees_inv in Ec as [Hc Hdig]. intros E. apply bind_ok_inv in E as ([] & w1 & Ent & E).
  unfold entitled in Ent. set (right := if c_uri c =s agent then "delegate" else "load") in Ent.
  pose proof (can_load_calm c p right true w) as [Hcalm Hf]. destruct (can_load_run c p right true w Hw) as (w2 & El & _).
  unfold bind in Ent. rewrite El in Ent, Hcalm, Hf. cbn [snd] in Hcalm, Hf.
  destruct (access _ _ p right (Some c) None) as [[[] why]|e] eqn:Ea; [|done|done]. injection Ent as ->.
  apply bind_ok_inv in E as ([source content] & w3 & Ec & E). apply content_inv in Ec as [-> Hcont].
  destruct (Hcont _ _ eq_refl) as (data & Hfile & ->). destruct (instructions_agree _ _) eqn:Ei; [cbn [negb] in E|done].
  apply is_text_eq in Ei. destruct (tools_agree _ _); [|done]. injection E as <- <-. split; [done|]. split; [done|].
  exists item, c. split_and!; try done. split; [done|]. split; [by eapply get_capability_served|]. split; [done|]. split.
  - exists right. split; [subst right; destruct (_ =s _); set_solver|]. by rewrite (access_reason _ _ _ _ _ _ _ Ea eq_refl) in Ea.
  - rewrite Hf in Hfile. exists data. split_and!; try done. destruct Hfile as (? & ? & ? & ? & ? & ? & Hh). congruence.
Qed.

(** A bundle whose items were resolved one after the other. *)
Definition items_resolved (w : World) (p : Principal) (seen : list string) (l : list json) (uris : list string) (w' : World) : Prop :=
  calm w w' /\ w_files w' = w_files w /\
  exists items, l = JObj <$> items /\ uris = item_uri <$> items /\ NoDup uris /\ (forall u, u ∈ uris -> smem u seen = false) /\
    Forall (fun item => exists c, attested w (w_files w) p item c) items.
Lemma resolved_nil w p seen : items_resolved w p seen [] [] w.
Proof. split; [done|]. split; [done|]. exists []. split_and!; try done; [apply NoDup_nil_2 | set_solver]. Qed.
Lemma resolved_cons w w1 w' p seen v uri l uris : item_resolved w p seen v uri w1 -> items_resolved w1 p (uri :: seen) l uris w' ->
  items_resolved w p seen (v :: l) (uri :: uris) w'.
Proof.
  intros (C1 & F1 & item & c & -> & -> & Hs & Ha) (C2 & F2 & items & -> & -> & Hn & Hnew & Hall).
  split; [by etrans|]. split; [congruence|]. exists (item :: items). split; [done|]. split; [done|]. split_and!.
  - apply NoDup_cons. split; [|done]. intros Hin. apply Hnew in Hin. cbn in Hin. by rewrite String.eqb_refl in Hin.
  - intros u [->|Hin]%elem_of_cons; [done|]. apply Hnew in Hin. cbn in Hin. by apply orb_false_iff in Hin as [_ ?].
  - apply Forall_cons. split; [by exists c|]. apply (Forall_impl _ _ _ Hall). intros i (ci & Hi). exists ci. rewrite <-F1. apply (attested_before w w1); [apply C1 | done].
Qed.
Lemma resolve_items_inv p agent l : forall seen w rs w', coherent w -> resolve_items p agent seen l w = (Ok rs, w') ->
  items_resolved w p seen l rs.*1 w'.
Proof.
  induction l as [|v l IH]; intros seen w rs w' Hw; cbn [resolve_items]; [intros [= <- <-]; apply resolved_nil|].
  intros E. apply bind_ok_inv in E as (r & w1 & E1 & E). apply bind_ok_inv in E as (rest & w2 & E2 & [= <- <-]).
  pose proof (resolve_item_inv _ _ _ _ _ _ _ Hw E1) as Hr. pose proof Hr as ((_ & Hc) & _).
  eapply resolved_cons; [exact Hr | by apply (IH _ _ _ _ (Hc Hw) E2)].
Qed.
Lemma stage_item_inv p agent terms seen v w r w' : coherent w -> stage_item p agent terms seen v w = (Ok r, w') ->
  item_resolved w p seen v (r.1.1) w'.
Proof.
  intros Hw. unfold stage_item. destruct (with_keys v ITEM_KEYS) as [item|] eqn:Ev; [|done]. apply with_keys_obj in Ev.
  unfold bind at 1. rewrite lookup_item_run. destruct (get_capability _ _) as [[c|]|e] eqn:Eg; [|done|done].
  destruct (smem _ seen) eqn:Es; [done|]. intros E. apply bind_ok_inv in E as ([source content] & w1 & Ec & E).
  apply content_inv in Ec as [-> Hcont]. destruct (Hcont _ _ eq_refl) as (data & Hfile & ->).
  destruct (_ && _ && _) eqn:Eall; [cbn [negb] in E|done]. apply andb_true_iff in Eall as [[Ec Ei%is_text_eq]%andb_true_iff _].
  apply catalog_agrees_inv in Ec as [Hc Hdig]. set (right := if _ =s agent then "delegate" else "load") in E.
  pose proof (can_load_calm c p right true w) as [Hcalm Hf]. destruct (can_load_run c p right true w Hw) as (w2 & El & _).
  unfold bind at 1 in E. rewrite El in E, Hcalm, Hf. cbn [snd] in Hcalm, Hf.
  destruct (access _ _ p right (Some c) None) as [[[] why]|e] eqn:Ea; [|done|done]. cbn [negb] in E.
  apply bind_ok_inv in E as (text & w3 & [= _ ->] & E). destruct (reasons_of _ _ _); [done|]. injection E as <- <-.
  split; [done|]. split; [done|]. exists item, c. split_and!; try done. split; [done|]. split; [by eapply get_capability_served|]. split; [done|]. split.
  - exists right. split; [subst right; destruct (_ =s _); set_solver|]. by rewrite (access_reason _ _ _ _ _ _ _ Ea eq_refl) in Ea.
  - exists data. split_and!; try done. destruct Hfile as (? & ? & ? & ? & ? & ? & Hh). congruence.
Qed.
Lemma stage_items_inv p agent terms l : forall seen w rs w', coherent w -> stage_items p agent terms seen l w = (Ok rs, w') ->
  items_resolved w p seen l ((fun r => r.1.1) <$> rs) w'.
Proof.
  induction l as [|v l IH]; intros seen w rs w' Hw; cbn [stage_items]; [intros [= <- <-]; apply resolved_nil|].
  intros E. apply bind_ok_inv in E as (r & w1 & E1 & E). apply bind_ok_inv in E as (rest & w2 & E2 & [= <- <-]).
  pose proof (stage_item_inv _ _ _ _ _ _ _ _ Hw E1) as Hr. pose proof Hr as ((_ & Hc) & _).
  eapply resolved_cons; [exact Hr | by apply (IH _ _ _ _ (Hc Hw) E2)].
Qed.

(** ** Roots *)
Lemma unless_ok {A} b m (k : unit -> outcome A) x : obind (unless b m) k = Ok x -> b = true /\ k tt = Ok x.
Proof. by destruct b. Qed.
Ltac unless_step E h := apply unless_ok in E as [h E].

(** A bundle made at most half an hour ago, give or take two minutes. *)
Definition fresh_bundle (now : Z) (bundle : dict) : Prop :=
  exists t made, fromisoformat (replace_all (str_get bundle "created_at" "") "Z" "+00:00") = Some t /\ aware_instant t = Some made /\
    (made <= now + 120000000)%Z /\ (now - made <= 1800000000)%Z.
Lemma check_fresh_inv bundle now prefix : check_fresh bundle now prefix = Ok tt -> fresh_bundle now bundle.
Proof.
  unfold check_fresh. destruct (fromisoformat _) as [t|] eqn:Et; [|done]. destruct (aware_instant t) as [made|] eqn:Em; [|done].
  unfold unless. destruct (_ && _) eqn:Eb; [|done]. intros _. apply andb_true_iff in Eb as [?%Z.leb_le ?%Z.leb_le]. by exists t, made.
Qed.
Lemma check_proposal_inv context now d po : check_proposal context now = Ok (d, po) ->
  context = JObj d /\ jget "capabilityBundle" d = JObj (po_bundle po) /\ jget "capabilityBinding" d = JObj (po_binding po) /\
  jget "capabilities" (po_bundle po) = JArr (po_items po) /\ (2 <= length (po_items po) <= 4)%nat /\ fresh_bundle now (po_bundle po).
Proof.
  unfold check_proposal. destruct context as [| | | | | |ctx]; try done. intros E. unless_step E E1. unless_step E E2.
  destruct (jget "objective" ctx) as [| | | |objective| |]; try done. destruct (between_len _ _ _); [|done]. cbn [obind] in E. unless_step E E3.
  destruct (with_keys (jget "capabilityBundle" ctx) _) as [b|] eqn:Eb; [|done]. cbn [obind] in E. unless_step E E4. unless_step E E5.
  destruct (check_fresh b now "") as [[]|e] eqn:Ef; [|done]. cbn [obind] in E.
  destruct (with_keys (jget "scope" ctx) _) as [s|] eqn:Es; [|done]. cbn [obind] in E. unless_step E E6. unless_step E E7. unless_step E E8.
  destruct (jget "capabilities" b) as [| | | | |l|] eqn:El; try done. destruct (Nat.leb 2 _ && _) eqn:En; [cbn [obind] in E|done].
  destruct (with_keys (jget "capabilityBinding" ctx) _) as [x|] eqn:Ex; [|done]. cbn [obind] in E. unless_step E E9. injection E as <- <-.
  apply with_keys_obj in Eb, Ex. apply check_fresh_inv in Ef. apply andb_true_iff in En as [?%Nat.leb_le ?%Nat.leb_le]. by split_and!.
Qed.
Lemma check_binding_inv ctx po task uri type found_items d bh xh : check_binding ctx po task uri type found_items = Ok (d, bh, xh) ->
  bh = _sha (JObj (po_bundle po)) /\ xh = _sha (JObj (po_binding po)) /\ uri ∈ found_items.*1 /\ type = "agent" /\
  jget "capabilityBundleHash" ctx = JStr bh /\ jget "capabilityBindingHash" ctx = JStr xh /\ task = bound_task (po_objective po) (JObj (po_binding po)) /\
  exists evidence, d = dset "authorityEvidence" evidence (dset "capabilityBindingHash" (JStr xh) (dset "capabilityBundleHash" (JStr bh) ctx)).
Proof.
  unfold check_binding. intros E. unless_step E E1. destruct (jget "instructions" _) as [| | | | |l|]; try done.
  destruct (Nat.eqb _ _); [cbn [obind] in E|done]. destruct (check_instructions _ _ _) as [[]|e]; [cbn [obind] in E|done]. unless_step E E2.
  destruct (texts_of _) as [texts|e]; [cbn [obind] in E|done]. destruct (role_coverage _ _) as [needed coverage]. unless_step E E3.
  destruct (relevance_of _ _ _ _) as [relevance|e]; [cbn [obind] in E|done]. unless_step E E4. unless_step E E5. unless_step E E6. unless_step E E7.
  unless_step E E8. injection E as <- <- <-. apply andb_true_iff in E7 as [[_ Hbh]%andb_true_iff Hxh].
  apply andb_true_iff in E1 as [Hin Hty]. apply smem_In in Hin. apply String.eqb_eq in Hty, E8. apply is_text_eq in Hbh, Hxh.
  split_and!; try done. by eexists.
Qed.

(** A bundle of two to four items, the agent among them, each attested. *)
Definition bundle_attested (w : World) (fs : gmap string FileNode) (p : Principal) (agent : Capability) (bundle : dict) : Prop :=
  exists items, jget "capabilities" bundle = JArr (JObj <$> items) /\ (2 <= length items <= 4)%nat /\ NoDup (item_uri <$> items) /\
    c_uri agent ∈ item_uri <$> items /\ c_type agent = "agent" /\ Forall (fun item => exists c, attested w fs p item c) items /\
    fresh_bundle (w_clock w) bundle.
(** What a validated root says, and what the authority answers. *)
Definition root_attested (w : World) (p : Principal) (agent : Capability) (task : string) (ctx d : dict) (bh xh : string) : Prop :=
  exists objective bundle binding evidence,
    jget "capabilityBundle" ctx = JObj bundle /\ jget "capabilityBinding" ctx = JObj binding /\ bundle_attested w (w_files w) p agent bundle /\
    bh = _sha (JObj bundle) /\ xh = _sha (JObj binding) /\ jget "capabilityBundleHash" ctx = JStr bh /\ jget "capabilityBindingHash" ctx = JStr xh /\
    task = bound_task objective (JObj binding) /\
    d = dset "authorityEvidence" evidence (dset "capabilityBindingHash" (JStr xh) (dset "capabilityBundleHash" (JStr bh) ctx)).

Lemma validate_root_inv agent task context p w d bh xh w' : coherent w ->
  _validate_root_authoritative_bundle agent task context p w = (Ok (d, bh, xh), w') ->
  calm w w' /\ w_files w' = w_files w /\ exists ctx, context = JObj ctx /\ root_attested w p agent task ctx d bh xh.
Proof.
  intros Hw E. unfold _validate_root_authoritative_bundle in E. unfold bind at 1, gets in E. unfold bind at 1, lift at 1 in E.
  destruct (check_proposal context (w_clock w)) as [[ctx po]|e] eqn:Ep; [|done].
  apply check_proposal_inv in Ep as (-> & Hb & Hx & Hl & Hn & Hf).
  apply bind_ok_inv in E as (rs & w1 & Er & E). apply resolve_items_inv in Er as (Hc & Hfs & items & Hi & Hu & Hnd & _ & Hall); [|done].
  unfold lift in E. injection E as Ec <-. apply check_binding_inv in Ec as (-> & -> & Hin & Hty & Hbh & Hxh & -> & evidence & ->).
  split; [done|]. split; [done|]. exists ctx. split; [done|]. exists (po_objective po), (po_bundle po), (po_binding po), evidence.
  rewrite Hu in Hin, Hnd. rewrite Hi in Hl, Hn. rewrite length_fmap in Hn. split_and!; try done. exists items. split_and!; try done; lia.
Qed.

(** ** Stages *)
Lemma make_dir_base whole q : keeps base (make_dir whole q).
Proof. unfold make_dir, file_at, set_file. base_frame. Qed.
Lemma make_private_base q : keeps base (make_private q).
Proof. unfold make_private, file_at, set_file. base_frame. Qed.
Lemma assert_parent_base q : keeps base (_assert_parent q).
Proof.
  unfold _assert_parent, lstat, file_at. base_frame; try apply make_private_base. apply make_dir_base.
Qed.
Lemma atomic_write_base q data mode : keeps base (_atomic_write q data mode).
Proof. unfold _atomic_write, file_at, set_file. base_frame. apply assert_parent_base. Qed.
Lemma read_regular_base q mode : keeps base (_read_regular q mode).
Proof. intros w. destruct (_read_regular q mode w) as [o w'] eqn:E. by apply read_regular_inv in E as [-> _]. Qed.
Lemma signer_base : keeps base _authority_signer.
Proof.
  unfold _authority_signer, ensure_authority_keypair, lock_file, private_key, settle_file, present, lstat, file_at, generate_key, set_file. base_frame;
    try apply assert_parent_base; try apply atomic_write_base; apply read_regular_base.
Qed.

(** A receipt of the authority for a task and its bundle, which has not expired. *)
Definition receipt_honoured (w : World) (receipt : json) (task_id workflow_id bh xh : string) : Prop :=
  exists r key w1, receipt = JObj r /\ reg w1 = reg w /\ w_files w1 = w_files w /\ (_authority_signer w1).1 = Ok key /\
    receipt_signed (ed_public key) r = true /\ jget "key_id" r = JStr (authority_key_id (ed_public key)) /\
    jget "task_id" r = JStr task_id /\ jget "workflow_id" r = JStr workflow_id /\ jget "bundle_hash" r = JStr bh /\ jget "binding_hash" r = JStr xh /\
    exists issued expires, instant (jget "issued_at" r) = Ok (Some issued) /\ instant (jget "expires_at" r) = Ok (Some expires) /\
      (issued <= seconds_of w + 30)%Z /\ (seconds_of w < expires)%Z.
Lemma reg_seconds w w' : reg w' = reg w -> seconds_of w' = seconds_of w.
Proof. intros [_ Hc]%pair_equal_spec. unfold seconds_of. by rewrite Hc. Qed.
Lemma verify_receipt_inv receipt task_id workflow_id bh xh w w' :
  _verify_bundle_receipt receipt task_id workflow_id bh xh w = (Ok tt, w') -> calm w w' /\ receipt_honoured w receipt task_id workflow_id bh xh.
Proof.
  unfold _verify_bundle_receipt. destruct (with_keys receipt _) as [r|] eqn:Er; [|done]. apply with_keys_obj in Er as ->.
  unfold bind at 1, gets. unfold bind at 1, lift at 1. destruct (instant (jget "issued_at" r)) as [issued|e] eqn:Ei; [|done].
  unfold bind at 1, lift at 1. destruct (instant (jget "expires_at" r)) as [expires|e] eqn:Ee; [|done].
  match goal with |- context [negb ?x] => destruct x eqn:Eall; [cbn [negb]|done] end. rewrite !andb_true_iff in Eall.
  destruct Eall as [[[[[[[_ Ht%is_text_eq] Hwf%is_text_eq] Hbh%is_text_eq] Hxh%is_text_eq] Hcur] _] _].
  intros E. apply bind_ok_inv in E as (key & w1 & Ek & E). pose proof (base_calm _ signer_base w) as Hcalm. rewrite Ek in Hcalm. cbn [snd] in Hcalm.
  destruct (is_text (jget "key_id" r) _) eqn:Eid; [cbn [negb] in E|done]. destruct (receipt_signed _ r) eqn:Es; [|done]. injection E as <-.
  split; [exact Hcalm|]. unfold receipt_current in Hcur. destruct issued as [issued|], expires as [expires|]; try done.
  apply andb_true_iff in Hcur as [[_ ?%Z.leb_le]%andb_true_iff ?%Z.ltb_lt]. apply is_text_eq in Eid.
  exists r, key, w. rewrite Ek. split_and!; try done. by exists issued, expires.
Qed.
Lemma receipt_before w w1 receipt task_id workflow_id bh xh : reg w1 = reg w -> w_files w1 = w_files w ->
  receipt_honoured w1 receipt task_id workflow_id bh xh -> receipt_honoured w receipt task_id workflow_id bh xh.
Proof.
  intros Hr Hf (r & key & w2 & -> & Hr2 & Hf2 & Hrest). unfold receipt_honoured. rewrite <-(reg_seconds w w1) by done.
  exists r, key, w2. split_and!; try congruence; by apply Hrest.
Qed.

(** The envelope in the file of a task. *)
Definition task_on_file (fs : gmap string FileNode) (task_id : string) (record : dict) : Prop :=
  exists data, read_bytes fs (parts (resolve_path (task_file task_id))) = Ok data /\ json_loads_strict (universal_newlines data) = Ok (JObj record).
Lemma read_utf8_inv path w o w' : read_utf8 path w = (o, w') ->
  w' = w /\ forall text, o = Ok text -> exists data, read_bytes (w_files w) (parts path) = Ok data /\ text = universal_newlines data.
Proof.
  intros E. split; [by eapply read_utf8_reads|]. unfold read_utf8, bind, gets, lift in E. destruct (read_bytes _ _) as [data|e]; [|by injection E as <- <-].
  intros text ->. destruct (_ =s data); [|done]. injection E as <- _. by exists data.
Qed.
Lemma read_task_inv task_id e w v w' : read_task task_id e w = (Ok v, w') -> w' = w /\ forall record, v = JObj record -> task_on_file (w_files w) task_id record.
Proof.
  unfold read_task, try_except, bind. destruct (read_utf8 _ w) as [o w1] eqn:Er. apply read_utf8_inv in Er as [-> Ht].
  destruct o as [text|x]; [|by destruct (unreadable x)]. unfold lift. destruct (json_loads_strict text) as [u|x] eqn:Ej; [|by destruct (unreadable x)].
  intros [= <- <-]. split; [done|]. intros record ->. destruct (Ht _ eq_refl) as (data & Hd & ->). by exists data.
Qed.

(** The delegation a stage belongs to: of the same principal, over the same
    bundle and binding. *)
Definition upstream_on_file (fs : gmap string FileNode) (p : Principal) (task_id bh xh : string) : Prop :=
  exists record upstream, task_on_file fs task_id record /\ jget "context" record = JObj upstream /\
    jget "taskId" record = JStr task_id /\ jget "principal" record = JStr (p_subject p) /\
    jget "capabilityBundleHash" upstream = JStr bh /\ jget "capabilityBindingHash" upstream = JStr xh.
(** What a validated stage says: its root, the receipt and the envelope of the
    root's delegation, and its own bundle. *)
Definition stage_attested (w : World) (p : Principal) (agent : Capability) (ctx : dict) (bh xh : string) : Prop :=
  exists root objective d0 bh0 fs bundle upstream_id,
    root_attested w p root (bound_task objective (jget "capabilityBinding" ctx)) (root_context ctx objective) d0 bh0 xh /\
    receipt_honoured w (jget "capmeshAuthorityReceipt" ctx) upstream_id (str_get ctx "workflowId" "") bh0 xh /\
    str_get ctx "upstreamDelegationId" "" = upstream_id /\ upstream_on_file fs p upstream_id bh0 xh /\
    jget "stageCapabilityBundle" ctx = JObj bundle /\ bundle_attested w fs p agent bundle /\
    bh = _sha (JObj bundle) /\ jget "stageCapabilityBundleHash" ctx = JStr bh.

Lemma root_agent_reads items w o w' : root_agent items w = (o, w') -> w' = w.
Proof.
  revert o w'. induction items as [|v items IH]; intros o w'; cbn [root_agent]; [by intros [= _ <-]|]. unfold bind at 1.
  destruct v as [| | | | | |item]; try exact (IH _ _). rewrite lookup_item_run. destruct (get_capability _ _) as [[c|]|e]; [|apply IH|by intros [= _ <-]].
  destruct (_ =s _); [by intros [= _ <-] | apply IH].
Qed.
Lemma validate_stage_bundle_inv bundle agent p objective w b bh evidence w' : coherent w ->
  _validate_stage_bundle bundle agent p objective w = (Ok (b, bh, evidence), w') ->
  calm w w' /\ bundle = JObj b /\ bh = _sha (JObj b) /\ bundle_attested w (w_files w) p agent b.
Proof.
  intros Hw E. unfold _validate_stage_bundle in E. unfold bind at 1, gets in E. unfold bind at 1, lift at 1 in E.
  destruct (check_stage_bundle bundle (w_clock w)) as [[b' l]|e] eqn:Ec; [|done].
  apply bind_ok_inv in E as (rs & w1 & Er & E). apply stage_items_inv in Er as (Hc & Hfs & items & Hi & Hu & Hnd & _ & Hall); [|done].
  rewrite Hu in E, Hnd. destruct (_ && _) eqn:Ea; [cbn [negb] in E|done]. injection E as <- <- _ <-.
  apply andb_true_iff in Ea as [Hin%smem_In Hty%String.eqb_eq].
  unfold check_stage_bundle in Ec. destruct (with_keys bundle _) as [b|] eqn:Eb; [cbn [obind] in Ec|done]. apply with_keys_obj in Eb as ->.
  unless_step Ec E1. unless_step Ec E2. unless_step Ec E3. destruct (check_fresh b _ _) as [[]|e] eqn:Ef; [cbn [obind] in Ec|done].
  apply check_fresh_inv in Ef. destruct (jget "capabilities" b) as [| | | | |l'|] eqn:El; try done.
  destruct (Nat.leb 2 _ && _) eqn:En; [|done]. injection Ec as <- <-. apply andb_true_iff in En as [?%Nat.leb_le ?%Nat.leb_le].
  split; [done|]. split; [done|]. split; [done|]. exists items. rewrite Hi, length_fmap in *. split_and!; try done; lia.
Qed.
Lemma bundle_before w w' fs p agent bundle : reg w' = reg w -> bundle_attested w' fs p agent bundle -> bundle_attested w fs p agent bundle.
Proof.
  intros Hr (items & Hl & Hn & Hd & Hin & Hty & Hall & Hf). exists items. split_and!; try done; try lia.
  - apply (Forall_impl _ _ _ Hall). intros i (c & Hc). exists c. by apply (attested_before w w').
  - apply pair_equal_spec in Hr as [_ Hc]. unfold reg in *. by rewrite <-Hc.
Qed.
Lemma envelope_agrees_digest envelope wb ctx bundle bh xh : envelope_agrees envelope wb ctx bundle bh xh = true ->
  jget "stageCapabilityBundleHash" ctx = JStr bh.
Proof. unfold envelope_agrees. rewrite !andb_true_iff. intros Hall. apply is_text_eq. tauto. Qed.

Lemma validate_stage_inv agent task ctx p w d bh xh w' : coherent w -> validate_stage agent task ctx p w = (Ok (d, bh, xh), w') ->
  calm w w' /\ stage_attested w p agent ctx bh xh.
Proof.
  intros Hw E. unfold validate_stage in E. unfold bind at 1, lift at 1 in E.
  destruct (check_envelope ctx task) as [[envelope wb]|e]; [|done]. cbv zeta in E. set (objective := stage_objective ctx) in *.
  apply bind_ok_inv in E as (root & w0 & Er & E).
  assert (w0 = w) as -> by (destruct (jget "capabilityBundle" ctx) as [| | | | | |b]; try (by injection Er as _ <-);
    destruct (jget "capabilities" b); try (by injection Er as _ <-); by apply root_agent_reads in Er).
  clear Er. destruct root as [root|]; [|done]. apply bind_ok_inv in E as ([[d0 bh0] xh0] & w1 & Ev & E).
  apply validate_root_inv in Ev as (C1 & F1 & ctx0 & Ectx & Hroot); [|done]. injection Ectx as <-.
  apply bind_ok_inv in E as ([] & w2 & Eq & E). apply verify_receipt_inv in Eq as [C2 Hq].
  apply (receipt_before w) in Hq; [|apply C1 | exact F1].
  apply bind_ok_inv in E as (record & w3 & Et & E). apply read_task_inv in Et as [-> Ht].
  unfold bind at 1, lift at 1 in E. destruct record as [| | | | | |record]; cbn [as_object] in E; try discriminate E.
  unfold bind at 1, lift at 1 in E. destruct (jget "context" record) as [| | | | | |upstream] eqn:Eu; cbn [as_object] in E; try discriminate E.
  destruct (upstream_agrees _ _ _ _ _ _ _) eqn:Eg; [cbn [negb] in E|done]. apply bind_ok_inv in E as ([[b bh1] evidence] & w4 & Eb & E).
  apply validate_stage_bundle_inv in Eb as (C3 & Hb & Hbh & Hatt); [|apply C2, C1, Hw].
  destruct (match jget "stageAuthorityEvidence" ctx with JNull => false | v => negb (py_eq v evidence) end); [done|].
  destruct (envelope_agrees _ _ _ _ _ _) eqn:Ee; [cbn [negb] in E|done]. injection E as _ <- <- <-.
  split; [by etrans; [exact C1|etrans]|]. apply envelope_agrees_digest in Ee. unfold upstream_agrees in Eg.
  rewrite !andb_true_iff in Eg. destruct Eg as [[[[Hid%is_text_eq Hp%is_text_eq] _] Hb0%is_text_eq] Hx0%is_text_eq].
  exists root, objective, d0, bh0, (w_files w2), b, (str_get ctx "upstreamDelegationId" ""). split_and!; try done.
  - exists record, upstream. split_and!; try done. by apply Ht.
  - apply (bundle_before w w2); [|done]. destruct C1 as [R1 _], C2 as [R2 _]. congruence.
Qed.

(** ** Delegations *)
Definition validated_as (w : World) (p : Principal) (agent : Capability) (task : string) (context : json) (d : dict) (bh xh : string) : Prop :=
  exists ctx, context = JObj ctx /\
    if dmem "stageCapabilityBundle" ctx then stage_attested w p agent ctx bh xh else root_attested w p agent task ctx d bh xh.
Lemma validate_inv agent task context p w d bh xh w' : coherent w ->
  _validate_authoritative_bundle agent task context p w = (Ok (d, bh, xh), w') -> calm w w' /\ validated_as w p agent task context d bh xh.
Proof.
  intros Hw. unfold _validate_authoritative_bundle, validated_as.
  assert (_validate_root_authoritative_bundle agent task context p w = (Ok (d, bh, xh), w') -> calm w w' /\
    exists ctx, context = JObj ctx /\ root_attested w p agent task ctx d bh xh) as Hroot.
  { intros E. apply validate_root_inv in E as (C & _ & Hr); [|done]. by split. }
  destruct context as [| | | | | |ctx]; try (intros E; destruct (Hroot E) as (_ & ? & [=] & _)).
  destruct (dmem "stageCapabilityBundle" ctx) eqn:Ed.
  - intros E. apply validate_stage_inv in E as [C Hs]; [|done]. split; [done|]. exists ctx. by rewrite Ed.
  - intros E. destruct (Hroot E) as (C & c & [= <-] & Hr). split; [done|]. exists ctx. by rewrite Ed.
Qed.

Lemma root_before w w' p agent task ctx d bh xh : reg w' = reg w -> w_files w' = w_files w ->
  root_attested w' p agent task ctx d bh xh -> root_attested w p agent task ctx d bh xh.
Proof.
  intros Hr Hf (objective & bundle & binding & evidence & Hb & Hx & Hatt & Hrest). rewrite Hf in Hatt.
  exists objective, bundle, binding, evidence. split; [done|]. split; [done|]. split; [by apply (bundle_before w w') | done].
Qed.
Lemma validated_before w w' p agent task context d bh xh : reg w' = reg w -> w_files w' = w_files w ->
  validated_as w' p agent task context d bh xh -> validated_as w p agent task context d bh xh.
Proof.
  intros Hr Hf (ctx & -> & Hv). exists ctx. split; [done|]. destruct (dmem _ ctx); [|by apply (root_before w w')].
  destruct Hv as (root & objective & d0 & bh0 & fs & bundle & up & Hroot & Hq & Hup & Hfile & Hb & Hatt & Hrest).
  exists root, objective, d0, bh0, fs, bundle, up. split; [by apply (root_before w w')|]. split; [by apply (receipt_before w w')|].
  split; [done|]. split; [done|]. split; [done|]. split; [by apply (bundle_before w w') | done].
Qed.

Lemma commit_calm : preserves calm commit.
Proof. intros w. by apply (base_calm commit). Qed.
Lemma finally_inv {A} (m : Op A) a w w' : finally m _commit_policy_audit w = (Ok a, w') ->
  exists w1, m w = (Ok a, w1) /\ calm w1 w'.
Proof.
  unfold finally. destruct (m w) as [o w1]. pose proof (commit_calm w1) as C. unfold _commit_policy_audit.
  destruct (commit w1) as [[[]|e] w2]; intros [= -> ->]. by exists w1.
Qed.
Lemma validated_inv c task context p w d bh xh w' : coherent w -> validated c task context p w = (Ok (inr (d, bh, xh)), w') ->
  calm w w' /\ validated_as w p c task context d bh xh.
Proof.
  intros Hw E. apply finally_inv in E as (w1 & E & C). unfold try_except, bind in E.
  destruct (_validate_authoritative_bundle c task context p w) as [[v|e] w2] eqn:Ev; [|by destruct (is_value_error e)].
  injection E as -> ->. apply validate_inv in Ev as [C1 Hv]; [|done]. split; [by etrans | done].
Qed.
Lemma validated_refusal c task context p w r w' : validated c task context p w = (Ok (inl r), w') -> jget "isError" r = JBool true.
Proof.
  intros E. apply finally_inv in E as (w1 & E & _). unfold try_except, bind in E.
  destruct (_validate_authoritative_bundle c task context p w) as [[v|e] w2]; [done|]. destruct (is_value_error e); [|done]. by injection E as <- _.
Qed.

(** A receipt for a task, with the digests the authority computed. *)
Definition receipt_for (receipt : dict) (task_id bh xh : string) : Prop :=
  exists key workflow_id issued nonce, let unsigned := unsigned_bundle task_id workflow_id bh xh issued nonce key in
    receipt = unsigned ++ [("signature", JStr (signature_text (ed_sign key (CAPMESH_RECEIPT_DOMAIN +:+ canonical (JObj unsigned)))))].
Lemma signed_receipt_inv task_id workflow_id bh xh w receipt w' :
  _signed_bundle_receipt task_id workflow_id bh xh w = (Ok receipt, w') -> receipt_for receipt task_id bh xh.
Proof.
  unfold _signed_bundle_receipt. intros E. apply bind_ok_inv in E as (key & w1 & _ & E). apply bind_ok_inv in E as (issued & w2 & _ & E).
  apply bind_ok_inv in E as (nonce & w3 & _ & E). injection E as <- _. by exists key, workflow_id, issued, nonce.
Qed.

(** An answer that is an error, or an accepted delegation. *)
Definition refuses (res : dict) : Prop := jget "isError" res = JBool true.
Definition delegated_as (params : dict) (p : Principal) (w : World) (res : dict) : Prop :=
  is_authoritative_node = Ok true /\ fst (require_scope p "cap:delegate") = true /\
  exists c d bh xh record receipt task_id,
    resolved (w_db w) params = Ok (Some c) /\ c_type c = "agent" /\
    access (w_db w) (utc_text (w_clock w)) p "delegate" (Some c) None = Ok (true, None) /\
    validated_as w p c (strip (str_get params "task" "")) (jget "context" params) d bh xh /\
    jget "structuredContent" res = JObj record /\ jget "taskId" record = JStr task_id /\ jget "principal" record = JStr (p_subject p) /\
    jget "context" record = JObj d /\ jget "capmeshBundleReceipt" record = JObj receipt /\ receipt_for receipt task_id bh xh.
Lemma delegate_inv params p w res w' : coherent w -> cap_delegate params p w = (Ok res, w') -> refuses res \/ delegated_as params p w res.
Proof.
  intros Hw E. unfold delegated_as, cap_delegate in *. unfold bind at 1, lift at 1 in E. destruct is_authoritative_node as [[]|e]; cbn [negb] in E; [| |done].
  2: { unfold not_authoritative in E. apply bind_ok_inv in E as (t & w1 & _ & [= <- <-]). by left. }
  destruct (require_scope p "cap:delegate") as [ok reason]. destruct ok; cbn [negb] in E; [|injection E as <- <-; by left].
  unfold bind at 1 in E. rewrite resolve_run in E.
  destruct (resolved (w_db w) params) as [[c|]|e] eqn:Er; [|injection E as <- <-; by left|done].
  destruct (can_load_run c p "delegate" true w Hw) as (w1 & El & _). pose proof (can_load_calm c p "delegate" true w) as [C1 _].
  unfold bind at 1 in E. rewrite El in E, C1. cbn [snd] in C1. destruct (access _ _ p "delegate" (Some c) None) as [[b o]|e] eqn:Ea; [|done].
  apply bind_ok_inv in E as ([] & w2 & Ec & E). pose proof (commit_calm w1) as C2. unfold _commit_policy_audit in Ec. rewrite Ec in C2. cbn [snd] in C2.
  destruct b; cbn [negb] in E; [|injection E as <- <-; by left].
  destruct (String.eqb_spec (c_type c) "agent") as [Ht|]; cbn [negb] in E; [|injection E as <- <-; by left]. cbv zeta in E.
  destruct (truthy _); cbn [negb] in E; [|injection E as <- <-; by left].
  apply bind_ok_inv in E as ([r|[[d bh] xh]] & w3 & Ev & E).
  { injection E as <- <-. left. by apply validated_refusal in Ev. }
  apply validated_inv in Ev as [_ Hv]; [|by apply C2, C1].
  apply bind_ok_inv in E as (hex & w4 & _ & E). cbv zeta in E. apply bind_ok_inv in E as (receipt & w5 & Es & E).
  apply signed_receipt_inv in Es. apply bind_ok_inv in E as (now & w6 & _ & E). cbv zeta in E.
  do 4 (apply bind_ok_inv in E as ([] & ? & _ & E)). injection E as <- _.
  right. split; [done|]. split; [done|]. eexists c, d, bh, xh, _, receipt, _. split; [done|]. split; [done|]. split; [by rewrite (access_reason _ _ _ _ _ _ _ Ea eq_refl) in Ea|].
  split; [|split_and!; try reflexivity; exact Es].
  apply (validated_before w w2); [by destruct C1, C2; congruence | | done].
  pose proof (can_load_calm c p "delegate" true w) as [_ Hf]. rewrite El in Hf. by injection Ec as <-.
Qed.
(** A delegation is attested.  When cap.delegate accepts, the node is the
    authority, the principal has the scope and may delegate to the agent, and
    the authority has recomputed the bundle: its two to four capabilities are
    all in the catalog, none under quarantine, published, approved, signed and
    reviewed; the principal may use each; the digests are those of the files as
    they are; the agent is one of them, and the bundle is at most half an hour
    old.  A stage has all that for its own bundle and for its root's, with a
    receipt and an envelope of the root's delegation on file for the same
    principal.  The record carries a receipt signed over exactly those digests. *)
Theorem delegation_attested params p w res w' : coherent w -> cap_delegate params p w = (Ok res, w') -> jget "isError" res = JBool false ->
  delegated_as params p w res.
Proof. intros Hw E Hok. destruct (delegate_inv _ _ _ _ _ Hw E) as [Hr|Hd]; [unfold refuses in Hr; congruence | exact Hd]. Qed.
End Theorems.
