(* ===== verification/Router.v ===== *)
(** * The router ([router.py]) and its requests ([server.py])

    cap.call with its confirmations, the dispatch of the tools with the answers
    to their exceptions, and the JSON-RPC request around a call, after which the
    server rolls back what was not committed.

    The search, the coverage report and the system capabilities behind cap.call
    are any code; log lines, spans and counters are left out. *)

From Stdlib Require Import ZArith Ascii String Lia.
From stdpp Require Import base option list strings gmap.
From S2P Require Import Prelude Sha256 PyStr Json JsonCodec Dicts Clock Db Models AccessControl Catalog Superadmin Signing BindingAllowlist Tasks Sessions Manifest Drafts Approvals AuthorityKeys Serving Bundles Delegations.
Local Open Scope string_scope.
Local Open Scope list_scope.

#[local] Opaque sha256_hex.

Definition TOOL_NAMES : list string :=
  ["cap.search"; "cap.load"; "cap.call"; "cap.list"; "cap.describe"; "cap.delegate"; "cap.process"; "cap.report"].

(** ** The list of the tools *)
Definition typed_prop (type : string) : json := JObj [("type", JStr type)].
Definition text_prop : json := typed_prop "string".
Definition integer_prop : json := typed_prop "integer".
Definition boolean_prop : json := typed_prop "boolean".
Definition object_prop : json := typed_prop "object".
Definition enum_prop (l : list string) : json := JObj [("type", JStr "string"); ("enum", jstrs l)].
Definition range_prop (lo hi : Z) : json := JObj [("type", JStr "integer"); ("minimum", JNum lo); ("maximum", JNum hi)].
Definition tool_schema (name description : string) (properties : dict) (required : list string) : json :=
  JObj [("name", JStr name); ("description", JStr description);
        ("inputSchema", JObj ([("type", JStr "object"); ("properties", JObj properties)]
                              ++ match required with [] => [] | l => [("required", jstrs l)] end))].
Definition tool_schemas : list json :=
  [
   tool_schema "cap.search"
     "Search the capability mesh without loading full instructions. Use first for semantic discovery across ASG skills, agents, plugins, commands, and MCP packages."
     [("query", text_prop); ("k", range_prop 1 50); ("type", text_prop); ("principal", object_prop)] ["query"];
   tool_schema "cap.load"
     "Load one selected capability lazily after search. Returns bounded metadata plus the requested entrypoint or referenced file only when authorized."
     [("uri", text_prop); ("name", text_prop); ("detail", enum_prop ["metadata"; "entrypoint"; "full"]); ("fileRef", text_prop); ("principal", object_prop)] [];
   tool_schema "cap.call"
     "Invoke a callable capability or return the safe activation payload for non-executable skills and agents. Mutating calls require confirmation and are audited."
     [("uri", text_prop); ("name", text_prop); ("args", object_prop); ("dryRun", boolean_prop); ("confirm", boolean_prop); ("principal", object_prop)] [];
   tool_schema "cap.list"
     "List capability records with cursor pagination and entitlement-aware filtering. Use for inventories and coverage checks."
     [("type", text_prop); ("plugin", text_prop); ("cursor", text_prop); ("pageSize", range_prop 1 100); ("principal", object_prop)] [];
   tool_schema "cap.describe"
     "Describe one capability by URI or name without loading large files. Use before deciding whether to load or delegate."
     [("uri", text_prop); ("name", text_prop); ("principal", object_prop)] [];
   tool_schema "cap.delegate"
     "Create an audited delegated task envelope for an agent capability. This does not bulk-load all agents into context."
     [("uri", text_prop); ("name", text_prop); ("task", text_prop); ("context", object_prop); ("modelTier", enum_prop ["qwen-worker"; "qwen-director"; "glm"; "opus"]); ("principal", object_prop)] ["task"];
   tool_schema "cap.process"
     "Process a queued task envelope by dispatching it to the routed model backend (Qwen, GLM, or Opus) via the ASG MCP gateway."
     [("taskId", text_prop); ("principal", object_prop)] ["taskId"];
   tool_schema "cap.report"
     "Report router telemetry, eval results, coverage status, or agent feedback back into the mesh audit tables."
     [("event", text_prop); ("uri", text_prop); ("payload", object_prop); ("principal", object_prop)] ["event"]].

(** What the router calls and the model leaves open. *)
Record Outside : Type := mkOutside {
  os_search : dict -> Principal -> Op dict;            (** cap.search *)
  os_coverage : Op json;                               (** coverage_report *)
  os_dispatch : Capability -> json -> Principal -> Op dict   (** dispatch_system_capability *)
}.

Section Router.
Context `{!Runtime, !Machine, !Host, !AuthorityHost, !Secrets, !Gateway}.
Variable outside : Outside.

(** [bool(params.get(key, default))] *)
Definition flag (params : dict) (key : string) (default : bool) : bool :=
  match dget key params with Some v => py_truthy v | None => default end.

(** ** cap.call *)
Definition disabled_call : dict :=
  error plain_code "Executable call bindings are registered but disabled until allowlisted command execution is configured." [].
(** A binding on the signed allowlist; any error of the lookup counts as none. *)
Definition call_binding (c : Capability) (p : Principal) (spec : json) : Op dict :=
  let binding_hash := compute_binding_hash (c_uri c) (c_entrypoint c) (c_content_hash c) in
  let! approved := try_except (is_binding_approved (c_uri c) binding_hash (router_tenant p)) (fun _ => true) (fun _ => ret false) in
  ret (if approved : bool
       then ok_result "Callable binding is allowlisted; execution permitted." [("callable", spec); ("bindingHash", JStr binding_hash); ("dryRun", JBool false)]
       else disabled_call).
(** The call itself, by the kind of the capability. *)
Definition call_capability (params : dict) (c : Capability) (p : Principal) (dry_run : bool) : Op dict :=
  let args := py_or (jget "args" params) (JObj []) in
  let record := JObj (to_record c false false) in
  let! system := lift (metadata_get c "systemCapability") in
  if py_truthy system then
    if dry_run
    then ret (ok_result "System capability dry run accepted; execution skipped."
                [("mode", JStr "system_capability"); ("capability", record); ("dryRun", JBool true)])
    else
      try_except (let! data := os_dispatch outside c args p in ret (ok_result ("System capability " +:+ c_name c +:+ " completed.") data))
        is_denied_or_value
        (fun e => ret (error (if is_value_error e then "INVALID_ARGUMENT" else "FORBIDDEN") (exn_str e) (uri_details c)))
  else if c_type c =s "skill"
  then ret (ok_result "Skill capability activation prepared. Load the entrypoint and follow its progressive disclosure instructions."
              [("mode", JStr "skill_activation"); ("capability", record); ("args", args)])
  else if c_type c =s "agent" then
    let! task := lift (as_object args) in
    cap_delegate [("uri", JStr (c_uri c)); ("task", JStr (str_get task "task" "Run delegated agent task."))] p
  else
    let! callable := lift (metadata_get c "callable") in
    let! call := lift (metadata_get c "call") in
    let spec := py_or callable call in
    if negb (py_truthy spec)
    then ret (ok_result "Capability is registered and loadable but has no executable call binding."
                [("mode", JStr "metadata_only"); ("capability", record); ("dryRun", JBool dry_run)])
    else if dry_run then ret (ok_result "Callable dry run accepted; execution skipped." [("callable", spec); ("dryRun", JBool true)])
    else call_binding c p spec.

Definition cap_call (params : dict) (p : Principal) : Op dict :=
  let (ok, reason) := require_scope p "cap:call" in
  if negb ok then ret (scope_error "cap:call" reason)
  else
    let! cap := resolve_capability params in
    match cap with
    | None => ret not_found
    | Some c =>
        let! (allowed, reason) := can_load c p "call" true in
        if negb allowed then ret (error "FORBIDDEN" (o_or reason "Capability not authorized.") (uri_details c))
        else
          let dry_run := flag params "dryRun" true in
          let confirm := flag params "confirm" false in
          let! authoritative := (if c_mutating c && negb dry_run then lift is_authoritative_node else ret true) in
          if negb authoritative then not_authoritative "Authoritative capability writes are served only by the authoritative node."
          else if c_mutating c && negb confirm
          then ret (error "CONFIRMATION_REQUIRED" "Mutating capability calls require confirm=true and should be dry-run first." (uri_details c))
          else
            let! _ := audit "cap.call" p [("uri", JStr (c_uri c)); ("dryRun", JBool dry_run); ("confirm", JBool confirm)] in
            call_capability params c p dry_run
    end.

(** ** The dispatch *)
Definition run_tool (tool : string) (params : dict) (p : Principal) : Op dict :=
  if tool =s "cap.search" then os_search outside params p
  else if tool =s "cap.load" then cap_load params p
  else if tool =s "cap.call" then cap_call params p
  else if tool =s "cap.list" then cap_list params p
  else if tool =s "cap.describe" then cap_describe params p
  else if tool =s "cap.delegate" then cap_delegate params p
  else if tool =s "cap.process" then cap_process params p
  else cap_report (os_coverage outside) params p.

(** The answer to an exception: its event in the audit trail, its code and its
    message; other exceptions go through. *)
Definition store_failure (e : exn) : bool :=
  match e with
  | IntegrityError _ => true
  | OtherError m => List.existsb (startswith m) ["OperationalError:"; "ProgrammingError:"; "InterfaceError:"; "DatabaseError:"]
  | _ => false
  end.
Definition answer_to (tool : string) (e : exn) : option (string * (string * string)) :=
  match e with
  | PermissionError _ => Some ("router.denied", ("FORBIDDEN", "The authenticated principal is not authorized for this capability operation."))
  | ValueError _ => Some ("router.invalid_request", ("INVALID_ARGUMENT", tool +:+ " rejected the supplied arguments."))
  | _ => if file_missing e then Some ("router.resource_missing", ("RESOURCE_NOT_FOUND", tool +:+ " could not find a required capability resource."))
         else if store_failure e
         then Some ("router.error", ("INTERNAL_ERROR", tool +:+ " failed because the capability store could not complete the operation."))
         else None
  end.
Definition tool_details (tool : string) : dict := [("tool", JStr tool)].
Definition answered (tool : string) (p : Principal) (m : Op dict) : Op dict :=
  try_except m (fun e => is_some (answer_to tool e))
    (fun e => match answer_to tool e with
              | Some (event, (code, message)) =>
                  let! _ := audit event p [("tool", JStr tool); ("error", JStr (exn_str e))] in
                  ret (error code message (tool_details tool))
              | None => raise e
              end).
Definition unknown_tool_answer (tool : string) : dict :=
  error "TOOL_NOT_FOUND" ("Unknown tool '" +:+ tool +:+ "'. Valid tools: " +:+ join ", " TOOL_NAMES)
    [("tool", JStr tool); ("validTools", jstrs TOOL_NAMES)].
Definition call (tool : string) (params : dict) : Op dict :=
  if negb (smem tool TOOL_NAMES) then ret (unknown_tool_answer tool)
  else
    let! claims := lift (let v := jget "principal" params in if py_truthy v then as_object v else Ok []) in
    let! p := lift (from_dict claims) in
    answered tool p (run_tool tool params p).

(** ** The request *)
Definition MCP_PROTOCOL_VERSION : string := "2025-11-25".
Definition SUPPORTED_MCP_PROTOCOL_VERSIONS : list string := [MCP_PROTOCOL_VERSION; "2025-06-18"; "2025-03-26"].
Definition rpc_answer (id : json) (key : string) (v : dict) : dict := [("jsonrpc", JStr "2.0"); ("id", id); (key, JObj v)].
Definition unknown_tool (id name : json) : Op dict :=
  ret (rpc_answer id "error" [("code", JNum (-32602)); ("message", JStr ("Unknown tool: " +:+ py_str name));
                              ("data", JObj [("tool", name); ("validTools", jstrs TOOL_NAMES)])]).
Definition rpc_params (request : dict) : outcome dict := as_object (py_or (jget "params" request) (JObj [])).
Definition handle_jsonrpc (request : dict) : Op dict :=
  let method := jget "method" request in
  let id := jget "id" request in
  if is_text method "initialize" then
    let! params := lift (rpc_params request) in
    let requested := str_get params "protocolVersion" "" in
    let version := if smem requested SUPPORTED_MCP_PROTOCOL_VERSIONS then requested else MCP_PROTOCOL_VERSION in
    ret (rpc_answer id "result"
      [("protocolVersion", JStr version); ("serverInfo", JObj [("name", JStr "asg-capability-mesh"); ("version", JStr "0.1.0")]);
       ("capabilities", JObj [("tools", JObj [])])])
  else if is_text method "tools/list" then ret (rpc_answer id "result" [("tools", JArr tool_schemas)])
  else if is_text method "tools/call" then
    let! params := lift (rpc_params request) in
    let name := jget "name" params in
    match name with
    | JStr tool =>
        if smem tool TOOL_NAMES then
          let! arguments := lift (as_object (py_or (jget "arguments" params) (JObj []))) in
          let! result := call tool arguments in
          ret (rpc_answer id "result" result)
        else unknown_tool id name
    | _ => unknown_tool id name
    end
  else if is_text method "ping" then ret (rpc_answer id "result" [])
  else ret (rpc_answer id "error" [("code", JNum (-32601)); ("message", JStr ("Method not found: " +:+ py_str method))]).

(** The status of an answer to the REST adapters. *)
Definition http_status_for_tool_result (result : dict) : Z :=
  if negb (py_truthy (jget "isError" result)) then 200
  else
    let code := match jget "structuredContent" result with
                | JObj d => match jget "error" d with JObj e => str_get e "code" "" | _ => "" end
                | _ => ""
                end in
    if smem code ["FORBIDDEN"; "INSUFFICIENT_SCOPE"] then 403
    else if smem code ["TOOL_NOT_FOUND"; "CAPABILITY_NOT_FOUND"; "RESOURCE_NOT_FOUND"] then 404
    else if code =s "NOT_AUTHORITATIVE" then 409
    else if code =s "RATE_LIMITED" then 429
    else if code =s "INTERNAL_ERROR" then 500
    else 400.

(** The principal of the connection replaces the one of the arguments. *)
Definition bind_transport_principal (arguments : json) (p : Principal) : dict :=
  dset "principal" (JObj (to_dict p)) (match arguments with JObj d => d | _ => [] end).
(** POST /mcp: after the request, the open transaction is rolled back. *)
Definition bound_request (body : dict) (p : Principal) : dict :=
  if is_text (jget "method" body) "tools/call" then
    let params := match jget "params" body with JObj d => d | _ => [] end in
    dset "params" (JObj (dset "arguments" (JObj (bind_transport_principal (jget "arguments" params) p)) params)) body
  else body.
Definition post_mcp (body : dict) (p : Principal) : Op dict := finally (handle_jsonrpc (bound_request body p)) rollback_all.
(** POST /tools/call and /cap/call. *)
Definition post_tools_call (body : dict) (p : Principal) : Op (dict * Z) :=
  let tool := py_str (py_or (jget "name" body) (py_or (jget "tool" body) (JStr ""))) in
  let arguments := bind_transport_principal (py_or (jget "arguments" body) (jget "params" body)) p in
  let! result := finally (call tool arguments) rollback_all in
  ret (result, http_status_for_tool_result result).
End Router.
