(* ===== verification/RouterProps.v ===== *)
(** * Theorems on the router: calls, reports and requests *)

From Stdlib Require Import ZArith Ascii String Lia.
From stdpp Require Import base option list strings gmap.
From S2P Require Import Prelude Sha256 PyStr Json JsonCodec Base64 Dicts Clock Db Models AccessControl AccessSpec AccessProps Catalog Superadmin Gates Signing SourceGates ReviewProps CapGuardPolicy InstallGuards ModelRouter BindingAllowlist Tasks TaskProps ReportReceipts Sessions SessionProps Manifest Drafts DraftProps Approvals AuthorityKeys AuthorityProps IsoDates Serving ServingProps Bundles Delegations BundleProps Router.
Local Open Scope string_scope.
Local Open Scope list_scope.

#[local] Opaque sha256_hex startswith.

Section Theorems.
Context `{!Runtime, !Machine, !Host, !AuthorityHost, !Secrets}.

(** ** Reports *)
Lemma uuid_hex_base : keeps base uuid_hex.
Proof. by intros w. Qed.
Lemma issue_receipt_base r b key : keeps base (issue_receipt r b key).
Proof. unfold issue_receipt, uuid_hex, draw_token. base_frame. Qed.

(** The delegation of a report: its envelope is on file, under its name, for
    the same agent and the same principal. *)
Definition delegation_of (fs : gmap string FileNode) (r : Report) (p : Principal) (record context : dict) : Prop :=
  task_on_file fs (rp_task_id r) record /\ jget "taskId" record = JStr (rp_task_id r) /\ jget "agentUri" record = JStr (rp_uri r) /\
  jget "principal" record = JStr (p_subject p) /\ context = match jget "context" record with JObj c => c | _ => [] end.
Lemma find_delegation_inv r p w o w' : find_delegation r p w = (o, w') ->
  w' = w /\ forall record context, o = Ok (inr (record, context)) -> delegation_of (w_files w) r p record context.
Proof.
  unfold find_delegation. intros E. unfold bind at 1 in E. unfold try_except at 1 in E.
  destruct (bind _ _ w) as [o1 w1] eqn:Er in E.
  assert (w1 = w /\ forall v, o1 = Ok (Some (JObj v)) -> task_on_file (w_files w) (rp_task_id r) v) as [-> Ht].
  { unfold bind at 1 in Er. destruct (read_utf8 _ w) as [[text|e] w2] eqn:Eu; apply read_utf8_inv in Eu as [-> Hu]; [|by injection Er as <- <-].
    unfold bind, lift in Er. destruct (json_loads_strict text) as [v|e] eqn:Ej; injection Er as <- <-; split; try done.
    intros d [= ->]. destruct (Hu _ eq_refl) as (data & Hd & ->). by exists data. }
  destruct o1 as [[v|]|e]; [| |destruct (unreadable e); [|by injection E as <- <-]]; try (by injection E as <- <-).
  unfold bind, lift in E. destruct v as [| | | | | |record]; cbn [as_object] in E; try (by injection E as <- <-).
  destruct (is_text (jget "taskId" record) _ && _) eqn:Et; cbn [negb] in E; [|by injection E as <- <-].
  destruct (is_text (jget "principal" record) _) eqn:Ep; cbn [negb] in E; [|by injection E as <- <-]. injection E as <- <-.
  split; [done|]. intros ? ? [= <- <-]. apply andb_true_iff in Et as [?%is_text_eq ?%is_text_eq]. apply is_text_eq in Ep. split_and!; try done. by apply Ht.
Qed.
Lemma check_authority_inv r record context p w b w' : coherent w -> check_authority r record context p w = (Ok (inr b), w') ->
  calm w w' /\ exists c d, get_capability (w_db w) (rp_uri r) = Ok (Some c) /\
    validated_as w p c (str_get record "task" "") (JObj context) d (rp_bundle_digest r) (rp_binding_digest r) /\
    py_eq (jget "workflow_id" (rp_outcome r)) (jget "workflowId" context) = true.
Proof.
  intros Hw. unfold check_authority, bind at 1. rewrite lookup_item_run. destruct (get_capability _ _) as [[c|]|e] eqn:Eg; [|done|done].
  intros E. apply bind_ok_inv in E as (v & w1 & Ev & E). apply finally_inv in Ev as (w2 & Ev & C2). unfold try_except, bind in Ev.
  destruct (_validate_authoritative_bundle _ _ _ p w) as [[[[d bh] xh]|e] w3] eqn:E3; [|destruct (is_denied_or_value e); [|done]; injection Ev as <- <-; done].
  injection Ev as <- <-. apply validate_inv in E3 as [C3 Hv]; [|done].
  destruct (_ && _) eqn:Eall in E; cbn [negb] in E; [|done]. rewrite !andb_true_iff, !String.eqb_eq in Eall.
  destruct Eall as [[[[_ ->] ->] Hwf] _]. destruct (is_text _ _) in E; cbn [negb] in E; [|done]. destruct (is_text _ _) in E; cbn [negb] in E; [|done].
  injection E as _ <-. split; [by etrans|]. by exists c, d.
Qed.

Definition accepted_reports (d : DB) : list AuthorityReportRow := db_authoritative_router_reports d.
Definition unreported (d : DB) (task_id : string) : Prop := forall row, row ∈ accepted_reports d -> ar_task_id row <> task_id.
Definition report_row (row : AuthorityReportRow) (r : Report) (p : Principal) : Prop :=
  ar_task_id row = rp_task_id r /\ ar_event row = rp_event r /\ ar_principal row = p_subject p.
Lemma record_report_inv r p payload receipt w w' : record_report r p payload receipt w = (Ok tt, w') ->
  unreported (w_db w) (rp_task_id r) /\ exists row, accepted_reports (w_disk w') = accepted_reports (w_db w) ++ [row] /\ report_row row r p.
Proof.
  unfold record_report. unfold bind at 1, sql_now, gets. set (row := mkAuthorityReportRow _ _ _ _ _ _ _ _). cbv zeta.
  unfold bind at 1, insert_unique. unfold bind at 1, query, gets. destruct (exists_where _ _) eqn:Ec; [done|].
  intros [= <-]. split; [|by exists row]. rewrite exists_where_false in Ec. intros other Hin Heq. specialize (Ec other Hin).
  unfold report_clash in Ec. cbn [row ar_task_id] in Ec. by rewrite Heq, String.eqb_refl in Ec.
Qed.
Lemma save_report_inv r p payload receipt w w' : save_report r p payload receipt w = (Ok None, w') ->
  unreported (w_db w) (rp_task_id r) /\ exists row, accepted_reports (w_disk w') = accepted_reports (w_db w) ++ [row] /\ report_row row r p.
Proof.
  unfold save_report, bind at 1, query, gets, try_except. unfold bind at 1.
  destruct (record_report r p payload receipt w) as [[[]|e] w1] eqn:E; [intros [= <-]; by apply record_report_inv in E|].
  destruct (is_integrity e); [|done]. unfold bind at 1. cbn. intros E1. apply bind_ok_inv in E1 as ([] & w2 & _ & [=]).
Qed.

Lemma check_report_inv event params payload r : check_report event params payload = Ok (inr r) ->
  rp_event r = event /\ rp_uri r = str_get params "uri" "" /\ _TASK_RE (rp_task_id r) = true /\ rp_outcome_digest r = _sha (JObj (rp_outcome r)).
Proof.
  unfold check_report. destruct payload as [| | | | | |d]; try done. destruct (is_text _ _); cbn [negb]; [|done]. destruct (same_keys _ _); cbn [negb]; [|done].
  destruct (_TASK_RE _) eqn:Et; cbn [negb]; [|done]. destruct (startswith _ _ && _); cbn [negb]; [|done].
  destruct (_SHA256_RE _); cbn [negb]; [|done]. destruct (_SHA256_RE _); cbn [negb]; [|done]. cbv zeta.
  intros E. match type of E with obind ?v _ = _ => destruct v as [[m|]|e] end; cbn [obind] in E; try done. revert E.
  destruct (jget "outcome" d) as [| | | | | |o]; try done. destruct (String.eqb_spec (str_get d "outcomeDigest" "") (_sha (JObj o))) as [Es|]; cbn [negb]; [|done].
  by intros [= <-].
Qed.

(** What an accepted report of a stage rests on. *)
Definition report_backed (w : World) (r : Report) (p : Principal) : Prop :=
  exists record context c d, delegation_of (w_files w) r p record context /\ get_capability (w_db w) (rp_uri r) = Ok (Some c) /\
    validated_as w p c (str_get record "task" "") (JObj context) d (rp_bundle_digest r) (rp_binding_digest r) /\
    py_eq (jget "workflow_id" (rp_outcome r)) (jget "workflowId" context) = true /\ unreported (w_db w) (rp_task_id r).
Lemma reg_reports w w' : reg w' = reg w -> accepted_reports (w_db w') = accepted_reports (w_db w).
Proof.
  intros [Hd _]%pair_equal_spec. change (accepted_reports (upd db_policy_decisions [] (w_db w')) = accepted_reports (upd db_policy_decisions [] (w_db w))).
  by rewrite Hd.
Qed.
Lemma accept_report_inv r p payload w x w' : coherent w -> accept_report r p payload w = (Ok (inr x), w') ->
  report_backed w r p /\ exists row, accepted_reports (w_disk w') = accepted_reports (w_db w) ++ [row] /\ report_row row r p.
Proof.
  intros Hw E. unfold accept_report in E. apply bind_ok_inv in E as (found & w1 & Ef & E). apply find_delegation_inv in Ef as [-> Hf].
  destruct found as [refusal|[record context]]; [done|]. apply bind_ok_inv in E as (checked & w2 & Ec & E).
  destruct checked as [refusal|binding]; [done|]. apply check_authority_inv in Ec as (C1 & c & d & Hg & Hv & Hwf); [|done].
  apply bind_ok_inv in E as (key & w3 & Ek & E). pose proof (base_calm _ signer_base w2) as C2. rewrite Ek in C2. cbn [snd] in C2.
  apply bind_ok_inv in E as (receipt & w4 & Er & E). pose proof (base_calm _ (issue_receipt_base r binding key) w3) as C3. rewrite Er in C3. cbn [snd] in C3.
  apply bind_ok_inv in E as ([refusal|] & w5 & Es & E); injection E as Ex <-; [done|].
  assert (reg w4 = reg w) as Hr by (destruct C1, C2, C3; congruence).
  apply save_report_inv in Es as [Hnew (row & Ht & Hrow)]. unfold unreported in Hnew. rewrite (reg_reports _ _ Hr) in Hnew, Ht.
  split; [|by exists row]. exists record, context, c, d. split_and!; try done. by apply Hf.
Qed.

Ltac refusal_cases E :=
  repeat (lazymatch type of E with
          | (if ?b then _ else _) = _ => destruct b
          | obind ?v _ = _ => destruct v; cbn [obind] in E
          | (match ?v with _ => _ end) = _ => destruct v
          | invalid _ = _ => injection E as <-; exact eq_refl
          | _ => discriminate E
          end).
Lemma check_report_refuses event params payload x : check_report event params payload = Ok (inl x) -> refuses x.
Proof. intros E. unfold check_report in E. cbv zeta in E. refusal_cases E. Qed.
Lemma find_delegation_refuses r p w x w' : find_delegation r p w = (Ok (inl x), w') -> refuses x.
Proof.
  unfold find_delegation. intros E. apply bind_ok_inv in E as ([record|] & w1 & _ & E); [|by injection E as <- _].
  apply bind_ok_inv in E as (d & w2 & _ & E). destruct (negb _) in E; [by injection E as <- _|]. destruct (negb _) in E; [by injection E as <- _ | done].
Qed.
Lemma check_workflow_refuses r context x : check_workflow r context = inl x -> refuses x.
Proof.
  unfold check_workflow. intros E. destruct (negb (_ =s _)) in E; [done|]. destruct (with_keys _ _) in E; [|by injection E as <-].
  do 4 (destruct (negb _) in E; [by injection E as <-|]). done.
Qed.
Lemma check_authority_refuses r record context p w x w' : check_authority r record context p w = (Ok (inl x), w') -> refuses x.
Proof.
  unfold check_authority. intros E. apply bind_ok_inv in E as ([c|] & w1 & _ & E); [|by injection E as <- _].
  apply bind_ok_inv in E as ([[[d bh] xh]|] & w2 & _ & E); [|by injection E as <- _]. cbv zeta in E.
  do 3 (destruct (negb _) in E; [by injection E as <- _|]). injection E as E _. by apply check_workflow_refuses in E.
Qed.
Lemma save_report_refuses r p payload receipt w x w' : save_report r p payload receipt w = (Ok (Some x), w') -> refuses x.
Proof.
  unfold save_report. intros E. apply bind_ok_inv in E as (saved & w1 & _ & E). unfold try_except, bind at 1 in E.
  destruct (record_report r p payload receipt w1) as [[[]|e] w2]; [done|]. destruct (is_integrity e); [|done].
  apply bind_ok_inv in E as (u & w3 & _ & E). apply bind_ok_inv in E as ([] & w4 & _ & E). by injection E as <- _.
Qed.
Lemma accept_report_refuses r p payload w x w' : accept_report r p payload w = (Ok (inl x), w') -> refuses x.
Proof.
  unfold accept_report. intros E. apply bind_ok_inv in E as ([y|[record context]] & w1 & Ef & E).
  { injection E as <- _. by apply find_delegation_refuses in Ef. }
  apply bind_ok_inv in E as ([y|binding] & w2 & Ec & E).
  { injection E as <- _. by apply check_authority_refuses in Ec. }
  apply bind_ok_inv in E as (key & w3 & _ & E). apply bind_ok_inv in E as (receipt & w4 & _ & E).
  apply bind_ok_inv in E as ([y|] & w5 & Es & E); [|done]. injection E as <- _. by apply save_report_refuses in Es.
Qed.
Lemma take_report_inv event params p w o w' : coherent w -> event ∈ [TITRATION; WORKFLOW] -> take_report event params p w = (Ok o, w') ->
  match o with
  | inl x => refuses x
  | inr _ => exists r row, check_report event params (py_or (jget "payload" params) (JObj [])) = Ok (inr r) /\
      rp_outcome_digest r = _sha (JObj (rp_outcome r)) /\ report_backed w r p /\
      accepted_reports (w_disk w') = accepted_reports (w_db w) ++ [row] /\ report_row row r p
  end.
Proof.
  intros Hw Hev E. unfold take_report in E. rewrite (proj2 (smem_In event [TITRATION; WORKFLOW]) Hev) in E. cbv zeta in E.
  unfold bind at 1, lift at 1 in E. destruct (check_report _ _ _) as [[x|r]|e] eqn:Ec; [|destruct o as [x|x]|done].
  - injection E as <- _. by apply check_report_refuses in Ec.
  - by apply accept_report_refuses in E.
  - apply accept_report_inv in E as [Hb (row & Hd & Hrow)]; [|done]. apply check_report_inv in Ec as Hc. exists r, row. split_and!; try done; apply Hrow || apply Hc.
Qed.

(** An accepted report of a stage is bound to its delegation, once.  The
    node is the authority and the principal has the scope; the envelope of the
    task is on file for the same agent and the same principal; the authority
    behind it holds now, with the digests of the report; the digest of the
    outcome is the outcome's; no report of the task had been accepted; and the
    acceptance is committed. *)
Theorem report_bound coverage params p w res w' : coherent w -> cap_report coverage params p w = (Ok res, w') -> jget "isError" res = JBool false ->
  let event := strip (str_get params "event" "") in event ∈ [TITRATION; WORKFLOW] ->
  is_authoritative_node = Ok true /\ fst (require_scope p "cap:report") = true /\
  exists r row, check_report event params (py_or (jget "payload" params) (JObj [])) = Ok (inr r) /\
    rp_outcome_digest r = _sha (JObj (rp_outcome r)) /\ report_backed w r p /\
    accepted_reports (w_disk w') = accepted_reports (w_db w) ++ [row] /\ report_row row r p.
Proof.
  intros Hw E Hok event Hev. unfold cap_report in E. unfold bind at 1, lift at 1 in E. destruct is_authoritative_node as [[]|e]; cbn [negb] in E; [| |done].
  2: { unfold not_authoritative in E. apply bind_ok_inv in E as (t & w1 & _ & [= <- <-]). done. }
  destruct (require_scope p "cap:report") as [ok reason]. destruct ok; cbn [negb] in E; [|injection E as <- <-; done].
  split; [done|]. split; [done|]. cbv zeta in E. fold event in E. destruct (truthy event); cbn [negb] in E; [|injection E as <- <-; done].
  apply bind_ok_inv in E as (taken & w1 & Et & E). apply take_report_inv in Et; [|done|done]. destruct taken as [refusal|extra].
  { injection E as <- _. unfold refuses in Et. congruence. }
  destruct Et as (r & row & Hc & Hd & Hb & Ht & Hrow). exists r, row. split_and!; try done; try apply Hrow.
  apply bind_ok_inv in E as (u & w2 & Ea & E). pose proof (audit_off_disk "cap.report" p [("event", JStr event); ("uri", jget "uri" params)] w1) as Hk.
  rewrite Ea in Hk. cbn [snd] in Hk. unfold same in Hk. clearbody event.
  assert ((event =s "coverage.check") = false) as Hno.
  { apply elem_of_cons in Hev as [->|Hev]; [done|]. by apply list_elem_of_singleton in Hev as ->. }
  rewrite Hno in E.
  apply bind_ok_inv in E as (extra' & w3 & [= <- <-] & [= _ <-]). by rewrite Hk.
Qed.

(** ** Calls *)
Section Calls.
Context `{!Gateway}.

(** What a system capability is dispatched for. *)
Definition may_dispatch (w : World) (params : dict) (p : Principal) (c : Capability) : Prop :=
  fst (require_scope p "cap:call") = true /\ resolved (w_db w) params = Ok (Some c) /\ _capguard_is_held (w_db w) c = false /\
  access (w_db w) (utc_text (w_clock w)) p "call" (Some c) None = Ok (true, None) /\ flag params "dryRun" true = false /\
  (c_mutating c = true -> flag params "confirm" false = true /\ is_authoritative_node = Ok true).
Lemma call_capability_inert o1 o2 params c p dry_run :
  (forall w, call_capability o1 params c p dry_run w = call_capability o2 params c p dry_run w) \/ dry_run = false.
Proof.
  destruct dry_run; [left|by right]. intros w. unfold call_capability. cbv zeta. unfold bind, lift.
  destruct (metadata_get c "systemCapability") as [v|e]; [|done]. by destruct (py_truthy v).
Qed.

(** A system capability runs only for who may call it.  Whatever code the
    system capabilities are, a call does not depend on it unless the principal
    has the scope, the capability is in the catalog and not under quarantine,
    the access decision allows the call, the caller asked for more than a dry
    run and, for one that changes state, has confirmed it, on the
    authoritative node. *)
Theorem dispatch_guarded o1 o2 params p w : coherent w ->
  cap_call o1 params p w = cap_call o2 params p w \/ exists c, may_dispatch w params p c.
Proof.
  intros Hw. unfold cap_call. destruct (require_scope p "cap:call") as [ok reason] eqn:Es. destruct ok; cbn [negb]; [|by left].
  unfold bind. rewrite resolve_run. destruct (resolved (w_db w) params) as [[c|]|e] eqn:Er; [|by left|by left].
  destruct (can_load_run c p "call" true w Hw) as (w1 & -> & _).
  destruct (access _ _ p "call" (Some c) None) as [[b o]|e] eqn:Ea; [|by left]. destruct b; cbn [negb]; [|by left]. cbv zeta.
  assert (_capguard_is_held (w_db w) c = false) as Hheld by (by eapply resolved_served). rewrite (access_reason _ _ _ _ _ _ _ Ea eq_refl) in Ea.
  destruct (call_capability_inert o1 o2 params c p (flag params "dryRun" true)) as [Hsame|Hdry].
  - left. set (node := if c_mutating c && _ then lift is_authoritative_node else ret true). clearbody node. destruct (node w1) as [[a|e] w2]; [|done].
    destruct (negb a); [done|]. destruct (c_mutating c && _); [done|]. destruct (audit _ _ _ w2) as [[u|e] w3]; [apply Hsame | done].
  - rewrite Hdry. destruct (c_mutating c) eqn:Em; cbn [andb negb].
    + destruct is_authoritative_node as [[]|e] eqn:En; [|by left|by left]. cbn [lift negb]. destruct (flag params "confirm" false) eqn:Ec; [|by left].
      right. exists c. split_and!; try done; first [by rewrite Es | intros Hm; try congruence; by split].
    + right. exists c. split_and!; try done; first [by rewrite Es | intros Hm; try congruence; by split].
Qed.

(** A call of an agent capability is never answered by a delegation: it has no
    context to delegate with. *)
Theorem agent_calls_refused o params c p dry_run v w res w' : coherent w -> metadata_get c "systemCapability" = Ok v -> py_truthy v = false ->
  c_type c = "agent" -> call_capability o params c p dry_run w = (Ok res, w') -> refuses res.
Proof.
  intros Hw Hm Hv Ht E. unfold call_capability in E. cbv zeta in E. unfold bind at 1, lift at 1 in E. rewrite Hm, Hv, Ht in E. cbn [String.eqb] in E.
  change ("agent" =s "skill") with false in E. change ("agent" =s "agent") with true in E. cbv iota in E.
  unfold bind at 1, lift in E. destruct (as_object _) as [task|e]; [|done].
  apply delegate_inv in E as [Hr|(_ & _ & c' & d & bh & xh & record & receipt & id & _ & _ & _ & (ctx & Hctx & _) & _)]; [exact Hr | discriminate Hctx | done].
Qed.

(** ** Requests *)

(** The principal of a connection as a call reads it back: who stepped up is
    not carried over. *)
Definition connection_ok (p : Principal) : bool :=
  truthy (p_subject p) && truthy (p_tenant_id p) && not_blank (p_identity_id p) && not_blank (p_display_name p) && not_blank (p_app_id p).
Lemma principal_read p : connection_ok p = true -> Models.from_dict (to_dict p) = Ok (upd p_step_up_authenticated false p).
Proof.
  unfold connection_ok. rewrite !andb_true_iff. intros [[[[Hs Ht] Hi] Hd] Ha].
  unfold Models.from_dict, to_dict. cbn -[jstrs jopt py_or claim_tuple claim_text]. rewrite !claim_jstrs. cbn [obind].
  assert (forall s, truthy s = true -> forall v, py_or (JStr s) v = JStr s) as Hor by (intros [] Hs' v; [discriminate Hs' | reflexivity]).
  unfold upd, eta_record, eta_Principal. cbn -[jopt py_or claim_text]. f_equal. f_equal.
  - unfold str_get2. cbn -[py_or]. by rewrite (Hor _ Hs).
  - cbn. by rewrite (Hor _ Ht).
  - unfold py_or. cbn [py_truthy]. by destruct (p_identity_id p).
  - by destruct (p_email p).
  - unfold py_or at 1. cbn [py_truthy]. rewrite or_jopt by done. by destruct (p_display_name p).
  - unfold py_or at 1. cbn [py_truthy]. rewrite or_jopt by done. by destruct (p_app_id p).
Qed.
(** A request runs as its connection.  Whatever principal the arguments of a
    request name, its tool is run for the principal of the connection, with the
    other arguments as they are. *)
Theorem runs_as_connection o tool arguments p w : connection_ok p = true -> tool ∈ TOOL_NAMES ->
  let bound := bind_transport_principal arguments p in let caller := upd p_step_up_authenticated false p in
  call o tool bound w = answered tool caller (run_tool o tool bound caller) w /\
  forall k, k <> "principal" -> jget k bound = jget k (match arguments with JObj d => d | _ => [] end).
Proof.
  intros Hp Ht bound caller. split.
  - unfold call. apply smem_In in Ht as ->. cbn [negb]. unfold bound, bind_transport_principal. rewrite jget_set. cbn [py_truthy].
    unfold bind at 1, lift at 1. cbn [as_object]. unfold bind at 1, lift at 1. change (match to_dict p with [] => false | _ :: _ => true end) with true. cbv iota. by rewrite (principal_read p Hp).
  - intros k Hk. unfold bound, bind_transport_principal. rewrite jget_set_ne; [done|]. apply String.eqb_neq. congruence.
Qed.
End Calls.
End Theorems.

(** ** Concrete inputs *)
Module RouterDemo.
Definition hex32 (n : nat) : string := let t := str_of_Z (Z.of_nat n) in string_of_list_ascii (repeat "0"%char (32 - String.length t)) +:+ t.
#[export] Instance runtime : Runtime :=
  {| environ k := if k =s "CAPMESH_NODE_ROLE" then Some "authoritative" else if k =s "CAPMESH_STATE_DIR" then Some "/state" else None;
     uuid4_hex n := hex32 n |}.
#[export] Existing Instance DraftDemo.host.
(** Signatures of the length of Ed25519's. *)
#[export] Instance machine : Machine :=
  {| expand_user := fun p => p; resolve_path := fun p => path_text (parts p); os_error := fun p => p;
     ed_generate := @ed_generate ReviewDemo.machine; ed_public := fun k => k; ed_sign k m := sha256_hex (k +:+ m);
     ed_verify k s m := s =s sha256_hex (k +:+ m); private_pem := @private_pem ReviewDemo.machine;
     load_pem := @load_pem ReviewDemo.machine; json_error_at := @json_error_at ReviewDemo.machine |}.
#[export] Existing Instance ServingDemo.authority.
#[export] Existing Instance TaskDemo.offline.
#[export] Instance secrets : Secrets := {| token_urlsafe _ n := "nonce_nonce_nonce_nonce_" +:+ hex32 n |}.

Definition nl : string := newline.
Definition content (title : string) : string := "---" +:+ nl +:+ "tools:" +:+ nl +:+ "  - Read" +:+ nl +:+ "---" +:+ nl +:+ "# " +:+ title.
Definition row (uri type name package description : string) : CapRow :=
  upd cp_type type (upd cp_created_by (Some "alice@example.com") (upd cp_lifecycle "published" (upd cp_name name (upd cp_package_path package (upd cp_description description
   (upd cp_visibility "public" (upd cp_approval_state "approved" (upd cp_signature_status "verified" (upd cp_provenance_status "verified"
     (upd cp_risk_review_status "approved" (upd cp_content_hash (content_sha (content name)) (Demo.cap_row uri)))))))))))).
Definition engineer : string := "cap://org/asg/engineer@1.0.0".
Definition reviewer : string := "cap://org/asg/reviewer@1.0.0".
Definition files : gmap string FileNode :=
  {[ "/a/SKILL.md" := mkFileNode Regular 420 true (content "engineer"); "/b/SKILL.md" := mkFileNode Regular 420 true (content "reviewer") ]}.
Definition db : DB :=
  upd db_capabilities [row engineer "agent" "engineer" "/a" "software engineer"; row reviewer "skill" "reviewer" "/b" "code review"] empty_db.
Definition world : World := upd w_files files (Demo.world db).
Definition worker : Principal :=
  mkPrincipal "alice@example.com" "asg" None None None None [] ["member"] ["cap:load"; "cap:delegate"; "cap:report"; "cap:call"] true false false.

(** A canonical proposal. *)
Definition objective : string := "Build the parser".
Definition workflow_id : string := "wf_00000001".
Definition base_commit : string := string_of_list_ascii (repeat "a"%char 40).
Definition scope : dict :=
  [("schema", JStr "asgcode.workflow.scope.v1"); ("objective", JStr objective); ("repo", JNull); ("worktree", JNull);
   ("workflowId", JStr workflow_id); ("baseCommit", JNull); ("advisory", JBool true);
   ("files", jstrs ["src/a.py"]); ("writeSet", JArr []); ("allowedTools", jstrs ["Read"; "Search"; "Bash"]); ("networkPolicy", JStr "disabled");
   ("dataClassification", JStr "internal"); ("risk", JStr "low"); ("tests", jstrs ["repository-defined deterministic tests for affected surfaces"]);
   ("acceptanceCriteria", jstrs ["all planned lanes return canonical OK outcomes"; "deterministic verification passes";
               "serial integration completes without overlapping write sets"]);
   ("budget", expected_budget); ("contextReserveTokens", JNum 41600); ("completionSchema", JStr "asgcode.outcome.v2"); ("integration", JStr "serial")].
Definition item (uri name : string) : json :=
  JObj [("uri", JStr uri); ("version", JStr "1.0.0"); ("digest", JStr (content_sha (content name))); ("lifecycle", JStr "published");
   ("approval", JStr "approved"); ("signature", JStr "verified"); ("provenance", JStr "verified"); ("risk_review", JStr "approved");
   ("instructions_digest", JStr (text_sha (content name))); ("tools", jstrs ["Read"]); ("agent_type", JStr name); ("advisory_only", JBool false)].
Definition bundle : json :=
  JObj [("schema", JStr "capability_bundle.v1"); ("bundle_id", JStr "capb_00000001"); ("task_shape_hash", JStr (text_sha objective));
        ("created_at", JStr "2026-07-20T00:00:00Z"); ("trust_decision", JStr "authoritative");
        ("capabilities", JArr [item engineer "engineer"; item reviewer "reviewer"])].
Definition instruction (uri name : string) : json :=
  JObj [("uri", JStr uri); ("digest", JStr (text_sha (content name))); ("instructions", JStr (content name)); ("source_path", JStr "");
        ("loaded_via", JStr "cap.load --detail full"); ("read_required", JBool true)].
Definition entitlement : json := JObj [("status", JStr "verified"); ("evidence", JStr "cap.load authorized current principal")].
Definition binding : json :=
  JObj [("schema", JStr "asgcode.capability_binding.v1"); ("bundle", bundle); ("bundle_hash", JStr (_sha bundle)); ("trust", JStr "authoritative");
        ("role_coverage", JObj [("primary_agent", JBool true); ("implementation", JBool true); ("verification", JBool true); ("security", JBool true)]);
        ("entitlements", JObj [(engineer, entitlement); (reviewer, entitlement)]);
        ("instructions", JArr [instruction engineer "engineer"; instruction reviewer "reviewer"]);
        ("read_requirement", JStr READ_REQUIREMENT)].
Definition context : json :=
  JObj [("schema", JStr "asgcode.capmesh.delegation.context.v1"); ("objective", JStr objective); ("workflowId", JStr workflow_id);
        ("capabilityBundle", bundle); ("capabilityBinding", binding); ("capabilityBundleHash", JStr (_sha bundle));
        ("capabilityBindingHash", JStr (_sha binding)); ("scopeHash", JStr (_sha (JObj scope))); ("scope", JObj scope)].
Definition ask : dict := [("uri", JStr engineer); ("task", JStr (bound_task objective binding)); ("context", context)].

Definition delegated : World := (cap_delegate ask worker world).2.
Definition task_id : string := "cap-task-" +:+ hex32 3.
Definition outcome_ : json :=
  JObj [("schema", JStr "asgcode.outcome.v2"); ("workflow_id", JStr workflow_id); ("stage_id", JStr "titration"); ("attempts", JNum 1);
        ("status", JStr "OK"); ("summary", JStr "The parser is built"); ("evidence", JArr [])].
Definition payload : json :=
  JObj [("schema", JStr "asgcode.capability_report.v1"); ("taskId", JStr task_id); ("agentUri", JStr engineer);
        ("bundleDigest", JStr (_sha bundle)); ("capabilityBindingDigest", JStr (_sha binding)); ("outcomeDigest", JStr (_sha outcome_));
        ("outcome", outcome_)].
Definition report : dict := [("event", JStr TITRATION); ("uri", JStr engineer); ("payload", payload)].
Definition post (w : World) := cap_report (ret JNull) report worker w.

(** Whether a tool failed. *)
Definition refused (r : outcome dict * World) : bool := match fst r with Ok res => py_truthy (jget "isError" res) | Raise _ => true end.
(** The proposal is delegated, and its outcome is reported. *)
Lemma delegated_then_reported : refused (cap_delegate ask worker world) = false /\ refused (post delegated) = false.
Proof. vm_compute. split; exact eq_refl. Qed.
End RouterDemo.

Section Witnesses.
Import RouterDemo.

Lemma coherent_router : coherent world.
Proof. intros t s v Hv. discriminate Hv. Defined.
Lemma dispatch_guarded_witness (o := mkOutside (fun _ _ => ret []) (ret JNull) (fun _ _ _ => ret [])) : exists r, cap_call o ask worker world = r.
Proof. exists (cap_call o ask worker world). destruct (dispatch_guarded o o ask worker world coherent_router) as [E|_]; exact eq_refl. Defined.
Lemma runs_as_connection_witness (o := mkOutside (fun _ _ => ret []) (ret JNull) (fun _ _ _ => ret [])) :
  exists m, call o "cap.list" (bind_transport_principal (JObj [("principal", JStr "root")]) worker) world = answered "cap.list" worker m world.
Proof.
  assert ("cap.list" ∈ TOOL_NAMES) as Ht by (apply (smem_In _ TOOL_NAMES); exact eq_refl).
  destruct (runs_as_connection o "cap.list" (JObj [("principal", JStr "root")]) worker world eq_refl Ht) as [E _]. eexists. exact E.
Defined.
Lemma agent_calls_refused_witness (o := mkOutside (fun _ _ => ret []) (ret JNull) (fun _ _ _ => ret [])) (c := Demo.capability (row engineer "agent" "engineer" "/a" "software engineer")) :
  exists res w', call_capability o [] c worker false world = (Ok res, w') /\ refuses res.
Proof.
  assert (is_ok (call_capability o [] c worker false world).1 = true) as Hok by (vm_compute; exact eq_refl).
  destruct (call_capability o [] c worker false world) as [[res|e] w'] eqn:E; [|discriminate Hok].
  exists res, w'. split; [exact eq_refl|]. exact (agent_calls_refused o [] c worker false JNull world res w' coherent_router eq_refl eq_refl eq_refl E).
Defined.
End Witnesses.
